(* ===== verification/_CoqProject ===== *)
-Q . S2P
Prelude.v
IOKit.v
Layout.v
SvgaReg.v
SvgaCmd.v
Fifo.v
Ring.v
FifoProofs.v
SvgaDevice.v
Bits.v
DeviceProofs.v
Driver.v
Svga3dReg.v
Svga3d.v
Svga3dProofs.v
ShaderDefs.v
Asm.v
Shaders.v
ShaderProofs.v
ShaderCache.v
GldDisplay.v
Gld.v
GldProofs.v
GldFence.v
Dll.v
GldPipeline.v
Allocator.v
AllocatorBits.v
AllocatorLists.v
AllocatorProofs.v
AllocatorMalloc.v
AllocatorFree.v
AllocatorInit.v
AllocatorRealloc.v
AllocatorSpec.v
AccelIds.v
AccelBlit.v
Accel.v
AccelProofs.v
DriverStream.v
AccelSpec.v
AccelGmr.v
Provider.v
VertexArray.v
Float32.v
DevCaps.v
Ipp.v
IppCmds.v
IppProofs.v
IppState.v
IppGeometry.v
Kernel.v
Transfer.v
Surface.v
SurfaceLogic.v
SurfaceProofs.v
SurfaceMethods.v
SurfaceSpec.v
SurfaceShow.v
Context2D.v
Context2DSpec.v
Context2DTable.v
GaPlugin.v
GaPluginSpec.v
GaStack.v
Shared.v
SharedInv.v
SharedProofs.v
SharedLife.v
GlTextures.v
GlTexturesProofs.v
GlPaging.v
GlDevice.v
GlDeviceSpec.v
FrameBuffer.v
FrameBufferProofs.v
FrameBufferSpec.v
