(* ===== verification/Prelude.v ===== *)
(** * CEsvga2: a verification development

    CEsvga2 is a display and 3D driver for the VMware SVGA-II virtual graphics
    device on macOS. Its parts, and how they meet:

    - FB/SVGADevice.cpp owns the device. It keeps the registers, maps the command
      FIFO (a ring of 32-bit words shared with the device), reserves and commits
      room in it, inserts and awaits fences, and encodes the 2D and video commands.
    - AC/SVGA3D.cpp and AC/SVGAScreen.cpp are layers of methods that encode the 3D
      and screen-object commands through the FIFO of [SVGADevice].
    - AC/GL translates the command stream of an Intel 915, which the system's
      OpenGL emits, into 3D commands. AC/GL/Shaders.c holds ready-made shaders in
      the device's byte code; CEsvga2IPP keeps a cache of the shaders in use.
    - GLD is the OpenGL bundle that the window system loads. It finds the displays,
      forwards most entry points to another vendor's bundle, interposes on its
      rendering table, and has its own fences and pipeline programs.
    - AC/CEsvga2Allocator.cpp hands out video memory to surfaces and textures.
    - AC/CEsvga2Accel.cpp is the accelerator, the service that all of these share: it
      sends commands for its clients and gives out ids, memory regions and the master
      surface. AC/UC are its user clients: window surfaces, 2D and OpenGL contexts.
    - GA is the plug-in that the window server loads; it sends the window server's calls
      to a 2D context. FB/CEsvga2.cpp is the frame buffer service; ceinclude holds the
      device's headers.

    ** Files

    - [Prelude]: machine integers, memories, generic lemmas, tactics, the hint
      database.
    - [Layout]: C enumerations ([CEnum]), structures of 32-bit words ([CStruct],
      with encoder, decoder and their laws) and bit fields ([CBits]).
    - [SvgaReg], [SvgaCmd]: registers, capabilities and limits of ceinclude/svga_reg.h
      and svga_overlay.h; the FIFO commands, their structures, their encoding
      and the decoder of a stream.
    - [Fifo]: the device state, the monad of driver operations and the FIFO of
      SVGADevice.cpp. A driver operation is a function of fuel and state. The device
      is any instance of class [SvgaHost]; the laws [SvgaHostOK] (in [Ring]) say that
      it may consume queued words whenever the driver touches a register or volatile
      memory, changes only its own FIFO registers, and makes progress when the driver
      waits. [None] means that fuel ran out.
    - [Ring], [FifoProofs]: the ring as an abstract queue, the invariant [ring_ok],
      and what each FIFO operation does to the queue.
    - [SvgaDevice], [Bits], [DeviceProofs]: the methods of SVGADevice.cpp (start and
      stop, fences, cursor, GMRs, 2D, escapes, video) and what each of them queues.
    - [Driver]: claims on the device layer.
    - [Svga3dReg], [Svga3d], [Svga3dProofs]: the 3D protocol of
      ceinclude/svga3d_reg.h, the methods of SVGA3D.cpp and SVGAScreen.cpp, and what
      each of them queues. Class [Queues] is the interface between a method and
      the stream: a method with an instance sends exactly one given command.
    - [ShaderDefs], [Asm], [Shaders], [ShaderProofs]: the byte code of
      ceinclude/svga3d_shaderdefs.h, an assembler for it and its semantics, the arrays
      and listings of Shaders.c, and their correctness.
    - [ShaderCache]: cache_shader and purge_shader_cache of CEsvga2IPP.cpp.
    - [GldDisplay], [Gld], [GldProofs]: displays, loading, forwarding, the dispatch
      table and the checkpoints of GLD.
    - [GldFence]: gldCreateFence, gldDestroyFence.
    - [Dll], [GldPipeline]: doubly linked lists in memory; pipeline programs, with
      their cached programs and reference counts.

    - [IOKit]: return codes, rectangles and regions of the kernel's interfaces.
    - [Allocator]: the buddy allocator of CEsvga2Allocator.cpp. [AllocatorBits]: its
      bitmap. [AllocatorLists], [AllocatorProofs]: its free lists in memory, the
      splitting of ranges and the invariant [inv] of a state with its free and
      allocated blocks. [AllocatorMalloc], [AllocatorFree], [AllocatorInit],
      [AllocatorRealloc]: what each operation does to these sets. [AllocatorSpec]: the
      store that clients see, and the refinement.
    - [AccelIds]: the ids of surfaces, contexts, streams and memory regions of
      CEsvga2Accel.cpp, and the fence tracker. [AccelBlit]: regions, clipping, the
      software blit and the fill of the frame buffer. [Accel]: the methods of the
      accelerator over the device monad; its fields are the record [Accel].
      [AccelProofs]: the arrays that the methods fill in place, and the contract
      [produces] of a method that queues commands and fences. [AccelSpec]: the
      commands that each operation stands for, and the refinement. [DriverStream]: the
      methods of SVGADevice, SVGAScreen and SVGA3D that encode commands as one type of
      calls each, what each of them stands for, and the stream of any sequence of them.
      [AccelGmr]: guest memory regions, with the device's reading of the table of
      descriptors.
    - [Provider]: programs of clients of the accelerator. A program makes requests
      (operations of [AccelSpec], waits, allocations, memory) and keeps a state of its
      own; it can be run on the device ([run]) or on the specification ([spec], with a
      trace of events), and [run_produces] relates the two. [Wild] is an access that
      the C code does not test and that is not defined.
    - [VertexArray]: the vertex buffer of AC/GL/VertexArray.cpp. [Float32]: the single
      precision of the processor, over SpecFloat. [DevCaps]: the capability block and
      its report (AC/GL/DevCaps.c).
    - [Ipp], [IppCmds]: AC/GL/CEsvga2IPP.cpp, the helpers and the commands of the
      Intel 915. [IppProofs]: the decoder. [IppState]: what the context on the device
      knows against the caches of the processor. [IppGeometry]: polygons and vertices.
    - [Kernel]: the kernel as clients see it (objects, descriptors, mappings, answers)
      and the services of the accelerator that involve it. [Transfer]:
      AC/VendorTransferBuffer.cpp. [Surface]: AC/UC/CEsvga2Surface.cpp, one program per
      method. [SurfaceLogic]: a program logic for clients: an observer of the events, the
      weakest precondition [wp], what a client owns ([res]) next to what others own
      ([env]), and a rule for every request. [SurfaceProofs], [SurfaceMethods]: rules for
      the methods. [SurfaceSpec]: reachable states and the theorems about them.
      [SurfaceShow]: what the commands of a flush show on the screens.
    - [Context2D]: AC/UC/CEsvga22DContext.cpp, over window surfaces that are shared by
      retain counts. [Context2DSpec]: what contexts need of surfaces (the class
      [Services]), the system of all clients as a step relation, and one surface with
      its contexts.
    - [Context2DTable]: the table of the methods of a context, and what a message has to
      carry to reach one. [GaPlugin]: GA/CEsvga2GA.cpp and GA/BlitHelper.c; a method is a
      tree of requests to the system, with any answers, over the memory that the plug-in
      shares with the window server. [GaPluginSpec]: the requests that are permitted, the
      rule of [safe] trees, the calls that the window server may make ([allowed]), and the
      states that they lead to. [GaStack]: the same trees with the contexts of
      [Context2D] behind the connections ([interp]), down to requests of [Provider].
    - [Shared]: AC/GL/CEsvga2Shared.cpp, the textures of a task: a heap of texture
      buffers linked in a list, the page of system objects that the kernel shares with
      the task, the table of handles. [GlDevice]: AC/UC/CEsvga2Device.cpp, the user
      client that makes and deletes them. [SharedInv]: the invariant [shape] of the heap
      and its steps; a [gap] names textures that are being built or torn down.
      [SharedProofs], [SharedLife]: rules for the methods. [GlTextures]: what the contexts
      of AC/UC/CEsvga2GLContext2.cpp do to textures: formats, surfaces of the device,
      loading, marking what was drawn to. [GlTexturesProofs]: rules for it. [GlPaging]:
      the copies that loading and paging off send. [GlDeviceSpec]: reachable states of a
      device and its contexts, and the theorems about them.
    - [FrameBuffer]: FB/CEsvga2.cpp and its user client, over the device monad: its fields
      are the record [framebuffer], a method that waits for another thread is a [thread]
      that goes on when its condition holds. [FrameBufferProofs]: what each method keeps.
      [FrameBufferSpec]: start, the interleaving of requests, timers and threads ([fb_run]),
      and the theorems about the states that it leads to.

    ** What the theorems show

    - Refinement of the command path: any sequence of calls of the methods of SVGADevice
      and SVGAScreen ([driver_stream_decodes]) or of SVGA3D ([driver_stream3d_decodes])
      that encode commands, with any arguments of their types and over any behaviour of
      the device, succeeds and leaves a stream that decodes to exactly the commands that
      the calls stand for, field by field; reserve, store and commit append exactly the
      stored words, whichever of the three ways of writing is taken ([fifo_append]).
    - Round trips and layouts: what is accepted is what is encoded
      ([decoded_is_encoded], [decode3d_encode3d], [assembler_inverse]).
    - Error paths: refused reservations change nothing ([FIFOReserve_refused]), an
      unknown constant type gives its reservation back ([SetShaderConst_queued]),
      byte code that is not whole words is refused ([DefineShader_queued]), and
      a failing start releases what it acquired ([Start_ready]).
    - Fences of the device: numbering, the window of comparison and the return of
      the wait ([InsertFence_queued], [fence_window], [SyncToFence_returns]).
    - Shaders: arrays are the assembly of their listings, their output depends only
      on declared inputs ([arrays_match_listings]), the fixed-function ones compute what
      they are named for ([fixed_function_colors]);
      the cache finds, defines and destroys shaders as the device sees them.
    - The OpenGL bundle: entry points reach their own counterparts with their arguments,
      but for gldUpdateDispatch, which passes the bundle's own table
      ([entry_points_forward]); checkpoints account for every word, display masks are
      resolved correctly ([displays_resolved]), the lists of pipeline programs stay well
      linked and give every reference back ([gldDestroyPipelineProgram_removes]).
    - The allocator: it refines a store of separate arrays for every sequence of
      client operations ([allocator_refines]); allocation and release on every
      branch ([Malloc_spec], [Free_spec]).
    - The accelerator: any sequence of its operations returns what the specification
      computes and sends exactly its commands, which are well formed
      ([accel_stream_decodes], [accel_spec_typed]); ids in use are distinct
      ([ids_distinct]); the software blit stays inside its images
      ([genericBlitCopy_rows]); the device reads back the pages of a memory region
      ([createGMR_table]).
    - The command processor: a buffer is cut into commands of which each is processed
      once ([submit_buffer_runs]); run on the device, it sends exactly the commands of
      its specification ([submit_buffer_stream]); its caches agree with the state of
      the context after every buffer ([submit_buffer_coherent]); polygons become
      triangles over their own vertices ([polygon_triangulated]); vertex formats are
      laid out without gaps ([vertex_format_contiguous]); vertex memory is reused only
      after a wait ([alloc_safe]); capabilities are read as the device states them
      ([getGPUCaps_reads]).
    - Window surfaces: from every state that the methods lead to, every method ends
      without a wild access and without giving memory back too early
      ([surface_methods_safe]); the fields say exactly what the surface holds
      ([surface_holdings]); closing gives everything back ([surface_close_gives_back]);
      a flush shows the pixels of the backing, whichever way it takes
      ([surface_flush_shows]).
    - 2D contexts: pointers between clients are counted and never dangle
      ([references_counted]); contexts that use a surface are safe ([contexts_safe]).
    - The window-server plug-in: whatever the kernel answers, its methods follow no
      dangling pointer and send only messages that the table of the contexts lets through,
      on open connections ([plugin_safe]); infos, connections, services and instances are
      accounted for ([plugin_accounts]). On the contexts, every call of the window server
      runs down to the accelerator to its end ([stack_safe]), and what is drawn on the
      screen is one request each with the arguments of the call ([window_server_draws]).
    - Textures: every request of a task, and every step of its contexts, ends without a wild
      access and without giving pages back too early ([device_requests_safe]); list,
      handles, system objects and counts agree ([texture_tables_agree]); closing gives
      everything back ([device_close_gives_back]); paging off copies every image that was
      only on the device back ([pageoff_brings_images_back]), loading copies every image
      that was only in memory to the surface ([load_copies_images]). A step of the task may also be a store to its
      system objects. The theorems assume ([may]) that the task leaves alone what the
      kernel relies on there (object_id, in_use and refcount) and deletes no texture
      whose id it was not given; [delete_agp_dangles] shows what happens otherwise.
    - The frame buffer service: start and stop are all or nothing ([framebuffer_start],
      [framebuffer_stop]); requests, timers and waiting threads end in any order
      ([framebuffer_safe]); resources, the refresh timer and the modes on offer agree with
      the fields ([framebuffer_accounts]); a custom mode is set together with the window
      server ([custom_mode_handshake]); the cursor that is queued is the image multiplied
      by its alpha ([cursor_image_queued]), by vector or by scalar operations
      ([cursor_versions_agree]).
    - Defects, as theorems about the code as written: a reservation of the whole ring
      never returns ([FIFOReserve_whole_ring_hangs]), fences of the first word share
      the number 0 ([first_word_fences_alias]), later displays are never configured
      ([later_displays_unconfigured]), the allocator's test of a range overlooks its
      last byte ([testAll_ignores_last_byte]), so that memory can be released twice
      ([release_twice_accepted]), rows behind a row outside the image are lost
      ([blit_above_dropped]), a fill right of the frame buffer overruns it
      ([clear_beyond_overruns]), the first rectangle of a region is never written
      ([set_region_first_lost]), a context that locks a closed surface follows a null
      pointer ([lock_after_close]), deleting a texture by a guessed id leaves links to
      freed memory ([delete_agp_dangles]), the frame buffer starts in a mode that does
      not exist ([start_mode_unknown]) and on small screens without any mode
      ([start_without_modes]), a block of the display's data is read outside of it
      ([ddc_block_overruns]), the restore call restores nothing ([restore_does_nothing]), a
      start of the plug-in that fails leaves a closed connection behind
      ([failed_start_stale]), a null destination is followed ([set_destination_null]), the
      info of a surface can be lost ([allocate_twice_leaks]), and the blitter for copies
      from memory refuses them all ([memory_copy_refused]).

    ** Bounds and fuel

    Fuel bounds the waiting loops. A reservation waits at most as many rounds as there
    are queued words, since every round of a full ring lets the device consume at
    least one; [room] and the fuel of a claim are in these terms. Waiting for a fence
    needs no more rounds than there are queued words either. Loops over masks and
    bitmaps have the fuel of their width (32, or 33 with the final test). The loops of
    the allocator have the number of sizes, of blocks in a range or of blocks in
    the pool as fuel; its theorems show that it is enough. The loop over cached programs needs one
    turn per program, the fence loop two. Machine integers are integers with [wrap];
    quantities that the code keeps in 32 or 64 bits are reduced there.

    The theorems on the frame buffer need fuel for as many rounds as the FIFO has bytes, and
    a FIFO with room for the largest cursor (4102 words).

    Counters of ids and of shares of the master surface do not overflow as long as a
    client makes fewer than 2^27 calls; a call of the window server makes at most four
    requests to its context, so that [stack_safe] holds for fewer than 2^24 calls.

    ** Parameters

    Code outside the repository is a parameter: the device ([SvgaHost] and its laws),
    the kernel (a sequence of answers in [Kernel], any answer in [GaPluginSpec]), the
    approximate reciprocal of the processor in [Ipp], another vendor's OpenGL bundle in
    [Gld]. Other clients of the accelerator are an arbitrary [env]; they do not run during
    a method. Fields of another driver that the sources of textures read by offsets, outside of C++, are
    arguments or left out.

    ** Not modelled

    The OpenGL contexts but for their textures (their token stream, and the streams in
    flight that they add to the upper half of a count; the steps on a texture that tokens
    make are steps of [GlDeviceSpec], in any order), what follows the checks of ceFlush in the plug-in (it is not
    C++: it names fields that do not exist), the OpenGL bundle's textures and contexts,
    registration with the kernel, diagnostics, and threads: operations are atomic, locks
    appear as inputs or in traces. The allocator is modelled as built, with FRAGILE defined: the checks and the clearing of memory
    that this leaves out are not modelled. Floating point in shaders is abstract: the
    semantics is over any type with the operations that [arith] names. *)

From stdpp Require Export base numbers list option.
From Stdlib Require Export ZArith Lia Btauto.

#[global] Open Scope Z_scope.

(** ** Machine integers *)

(** A C unsigned integer of [w] bits is the integer it denotes; arithmetic that
    can leave the range is reduced explicitly. *)
Definition wrap (w x : Z) : Z := x mod 2 ^ w.
Abbreviation u8 := (wrap 8).
Abbreviation u16 := (wrap 16).
Abbreviation u32 := (wrap 32).
Abbreviation u64 := (wrap 64).

(** The value of a two's complement integer of [w] bits. *)
Definition swrap (w x : Z) : Z :=
  let y := wrap w x in if y <? 2 ^ (w - 1) then y else y - 2 ^ w.
Abbreviation s16 := (swrap 16).
Abbreviation s32 := (swrap 32).

Definition fits (w x : Z) : Prop := 0 <= x < 2 ^ w.
Abbreviation is_u32 := (fits 32).

(** [x & mask] is not zero, the test that the driver makes on every flag. *)
Definition has_bits (x mask : Z) : bool := negb (Z.land x mask =? 0).

Lemma wrap_small w x : fits w x -> wrap w x = x.
Proof. apply Z.mod_small. Qed.

Lemma wrap_range w x : 0 <= w -> fits w (wrap w x).
Proof. intros. apply Z.mod_pos_bound. lia. Qed.

Lemma wrap_wrap w x : wrap w (wrap w x) = wrap w x.
Proof. apply Zmod_mod. Qed.

Lemma wrap_add_l w x y : wrap w (wrap w x + y) = wrap w (x + y).
Proof. apply Zplus_mod_idemp_l. Qed.

Lemma wrap_sub_l w x y : wrap w (wrap w x - y) = wrap w (x - y).
Proof. apply Zminus_mod_idemp_l. Qed.

Lemma wrap_shift w x k : 0 <= w -> wrap w (x + k * 2 ^ w) = wrap w x.
Proof. intros. apply Z_mod_plus_full. Qed.

(** The unique residue: the form in which wrap-around is used in proofs. *)
Lemma s32_small x : 0 <= x < 2 ^ 31 -> s32 x = x.
Proof. intros Hx. unfold swrap. rewrite wrap_small by (split; lia). by rewrite (proj2 (Z.ltb_lt _ _)) by lia. Qed.

Lemma fits_lor w x q : fits w x -> 0 <= q < w -> fits w (Z.lor x (2 ^ q)).
Proof.
  intros Hx Hq. assert (E : Z.lor x (2 ^ q) = Z.lor x (2 ^ q) mod 2 ^ w).
  { apply Z.bits_inj'. intros j Hj. rewrite Z.testbit_mod_pow2, Z.lor_spec, Z.pow2_bits_eqb by lia.
    destruct (Z.ltb_spec j w); [done|]. cbn [andb]. rewrite (proj2 (Z.eqb_neq q j)), orb_false_r by lia.
    rewrite <-(Z.mod_small _ _ Hx). apply Z.mod_pow2_bits_high. lia. }
  rewrite E. apply Z.mod_pos_bound. apply Z.pow_pos_nonneg; lia.
Qed.

Lemma fits_ldiff w x y : 0 <= w -> fits w x -> fits w (Z.ldiff x y).
Proof.
  intros Hw Hx. assert (E : Z.ldiff x y = Z.ldiff x y mod 2 ^ w).
  { apply Z.bits_inj'. intros j Hj. rewrite Z.testbit_mod_pow2, Z.ldiff_spec by lia.
    destruct (Z.ltb_spec j w); [done|]. cbn [andb]. rewrite <-(Z.mod_small _ _ Hx), Z.mod_pow2_bits_high by lia. done. }
  rewrite E. apply Z.mod_pos_bound. apply Z.pow_pos_nonneg; lia.
Qed.

Lemma wrap_unique w x y k : 0 <= w -> fits w y -> x = y + k * 2 ^ w -> wrap w x = y.
Proof. intros Hw Hy ->. rewrite wrap_shift by done. by apply wrap_small. Qed.

(** ** Memories: total functions from an index to a word *)

Section memory.
Context {A : Type}.
Implicit Types (f : Z -> A) (k : Z) (v : A).

Definition upd f k v : Z -> A := fun i => if i =? k then v else f i.

Lemma upd_eq f k v : upd f k v k = v.
Proof. unfold upd. by rewrite Z.eqb_refl. Qed.

Lemma upd_ne f k v i : i <> k -> upd f k v i = f i.
Proof. unfold upd. by intros ?%Z.eqb_neq; case_match. Qed.

(** Consecutive words: what a [memcpy] of words reads and writes. *)
Definition read_words f (a n : Z) : list A := f <$> seqZ a n.

Fixpoint write_words f (a : Z) (l : list A) : Z -> A :=
  match l with
  | [] => f
  | v :: l => write_words (upd f a v) (a + 1) l
  end.

Lemma length_read_words f a n : length (read_words f a n) = Z.to_nat n.
Proof. unfold read_words. by rewrite length_fmap, length_seqZ. Qed.

Lemma read_words_cons f a n :
  0 < n -> read_words f a n = f a :: read_words f (a + 1) (n - 1).
Proof. intros. unfold read_words. by rewrite seqZ_cons by lia. Qed.

Lemma read_words_nil f a n : n <= 0 -> read_words f a n = [].
Proof. intros. unfold read_words, seqZ. by rewrite Z2Nat.nonpos by done. Qed.

Lemma read_words_app f a n m :
  0 <= n -> 0 <= m -> read_words f a (n + m) = read_words f a n ++ read_words f (a + n) m.
Proof. intros. unfold read_words. by rewrite seqZ_app, fmap_app by lia. Qed.

Lemma read_words_ext f g a n :
  (forall i, a <= i < a + n -> f i = g i) -> read_words f a n = read_words g a n.
Proof.
  intros E. apply list_fmap_ext. intros i x Hx. apply lookup_seqZ in Hx. apply E. lia.
Qed.

Lemma write_words_out l : forall f a i,
  i < a \/ a + Z.of_nat (length l) <= i -> write_words f a l i = f i.
Proof.
  induction l as [|v l IH]; intros f a i Hi; simpl in *; [done|].
  rewrite IH by lia. apply upd_ne. lia.
Qed.

Lemma write_words_lookup l : forall f a n v,
  l !! n = Some v -> write_words f a l (a + Z.of_nat n) = v.
Proof.
  induction l as [|w l IH]; intros f a n v Hl; [done|].
  destruct n as [|n]; simplify_eq/=.
  - rewrite write_words_out by lia. rewrite Z.add_0_r. apply upd_eq.
  - replace (a + Z.of_nat (S n)) with (a + 1 + Z.of_nat n) by lia. eauto.
Qed.

Lemma read_write_words f a l :
  read_words (write_words f a l) a (Z.of_nat (length l)) = l.
Proof.
  apply list_eq. intros i. destruct (decide (i < length l)%nat) as [Hi|Hi].
  - apply lookup_lt_is_Some in Hi as [v Hv]. rewrite Hv.
    apply list_lookup_fmap_Some. exists (a + Z.of_nat i).
    rewrite (write_words_lookup _ _ _ _ v) by done. split; [reflexivity|].
    apply lookup_seqZ. apply lookup_lt_Some in Hv. lia.
  - rewrite !lookup_ge_None_2; [done|lia|rewrite length_read_words; lia].
Qed.

(** A store inside a region, seen from the region. *)
Lemma read_write_region f a n i ws :
  0 <= i -> i + Z.of_nat (length ws) <= n ->
  read_words (write_words f (a + i) ws) a n =
  take (Z.to_nat i) (read_words f a n) ++ ws ++ drop (Z.to_nat i + length ws) (read_words f a n).
Proof.
  intros Hi Hn. set (l := Z.of_nat (length ws)) in *.
  replace n with (i + (l + (n - i - l))) at 1 by lia.
  rewrite !read_words_app by lia. f_equal; [|f_equal].
  - replace n with (i + (n - i)) by lia. rewrite read_words_app by lia.
    rewrite take_app_length' by (rewrite length_read_words; lia).
    apply read_words_ext. intros k Hk. apply write_words_out. lia.
  - apply read_write_words.
  - replace n with ((i + l) + (n - i - l)) at 2 by lia. rewrite read_words_app by lia.
    rewrite drop_app_length' by (rewrite length_read_words; lia).
    replace (a + i + l) with (a + (i + l)) by lia.
    apply read_words_ext. intros k Hk. apply write_words_out. lia.
Qed.

Lemma write_words_app l1 l2 f a :
  write_words f a (l1 ++ l2) = write_words (write_words f a l1) (a + Z.of_nat (length l1)) l2.
Proof.
  revert f a. induction l1 as [|v l1 IH]; intros f a; simpl.
  - by rewrite Z.add_0_r.
  - rewrite IH. f_equal. lia.
Qed.
End memory.

(** ** Lists over an integer interval *)

Lemma fmap_seqZ_shift {A} (F : Z -> A) a k n : F <$> seqZ (k + a) n = (fun i => F (k + i)) <$> seqZ a n.
Proof. by rewrite <-fmap_add_seqZ, <-list_fmap_compose. Qed.

Lemma drop_fmap_seqZ {A} (F : Z -> A) n k :
  0 <= k <= n -> drop (Z.to_nat k) (F <$> seqZ 0 n) = (fun i => F (k + i)) <$> seqZ 0 (n - k).
Proof.
  intros Hk. replace n with (k + (n - k)) at 1 by lia. rewrite seqZ_app, fmap_app by lia.
  rewrite drop_app_length' by (rewrite length_fmap, length_seqZ; lia).
  rewrite Z.add_comm. apply fmap_seqZ_shift.
Qed.

Lemma fmap_seqZ_ext {A} (F G : Z -> A) a n :
  (forall i, a <= i < a + n -> F i = G i) -> F <$> seqZ a n = G <$> seqZ a n.
Proof. intros E. apply list_fmap_ext. intros i x Hx%lookup_seqZ. apply E. lia. Qed.

(** ** Automation *)

(** Case analysis on the comparisons of integers that a goal or a hypothesis
    branches on, keeping only the consistent cases. *)
Ltac zcase_step :=
  match goal with
  | |- context [?a <? ?b] => destruct (Z.ltb_spec a b)
  | |- context [?a <=? ?b] => destruct (Z.leb_spec a b)
  | |- context [?a =? ?b] => destruct (Z.eqb_spec a b)
  | H : context [?a <? ?b] |- _ => destruct (Z.ltb_spec a b)
  | H : context [?a <=? ?b] |- _ => destruct (Z.leb_spec a b)
  | H : context [?a =? ?b] |- _ => destruct (Z.eqb_spec a b)
  end.
Ltac zcase := repeat (zcase_step; simpl in *; try lia; try done).

(** A property of every element of a list that is given in full. *)
Ltac forall_list :=
  repeat lazymatch goal with
  | |- Forall _ [] => apply Forall_nil_2
  | |- Forall _ (_ :: _) => apply Forall_cons_2
  end.

(** Ranges of literals. *)
Ltac range_solve :=
  repeat split; unfold fits in *; cbn; try lia;
  try lazymatch goal with
  | |- _ <= _ => vm_compute; discriminate
  | |- _ < _ => vm_compute; reflexivity
  end.

Create Rewrite HintDb mem.
#[export] Hint Rewrite @upd_eq : mem.
#[export] Hint Rewrite @upd_ne using lia : mem.
#[export] Hint Rewrite @write_words_out using (simpl; lia) : mem.
Ltac mem_simpl := repeat first [progress autorewrite with mem | rewrite upd_ne by (cbn; lia)].

Create HintDb words discriminated.
#[export] Hint Resolve wrap_small wrap_range : words.

Lemma has_bits_false x m : has_bits x m = false <-> Z.land x m = 0.
Proof. unfold has_bits. destruct (Z.eqb_spec (Z.land x m) 0); naive_solver. Qed.

Lemma has_bits_pow2 x k : 0 <= k -> has_bits x (2 ^ k) = Z.testbit x k.
Proof.
  intros Hk. unfold has_bits. destruct (Z.testbit x k) eqn:E.
  - destruct (Z.eqb_spec (Z.land x (2 ^ k)) 0) as [H|]; [|done].
    assert (Z.testbit (Z.land x (2 ^ k)) k = true) as H'.
    { by rewrite Z.land_spec, E, Z.pow2_bits_true. }
    by rewrite H, Z.bits_0 in H'.
  - apply negb_false_iff, Z.eqb_eq, Z.bits_inj'. intros i Hi.
    rewrite Z.land_spec, Z.bits_0, Z.pow2_bits_eqb by lia.
    destruct (Z.eqb_spec k i); subst; rewrite ?E; btauto.
Qed.
