(* ===== verification/IOKit.v ===== *)
(** Types of the kernel's interfaces that several components use: the return
    codes, and the rectangles and regions of the acceleration interface. *)

From S2P Require Import Prelude.

(** The return codes of the kernel that the driver uses. *)
Inductive IOReturn :=
  | kIOReturnSuccess | kIOReturnNoMemory | kIOReturnBadArgument | kIOReturnNoResources
  | kIOReturnNotFound | kIOReturnNotReady | kIOReturnUnsupported | kIOReturnError
  | kIOReturnInternalError | kIOReturnNotAligned | kIOReturnBadMedia | kIOReturnNoDevice
  | kIOReturnDeviceError | kIOReturnUnderrun | kIOReturnOverrun | kIOReturnCannotLock
  | kIOReturnDMAError | kIOReturnNotWritable | kIOReturnNotReadable | kIOReturnIOError
  | kIOReturnNoSpace | kIOReturnUnsupportedMode.
#[global] Instance IOReturn_eq_dec : EqDecision IOReturn.
Proof. solve_decision. Defined.

(** A rectangle of 16-bit signed integers. *)
Record IOAccelBounds := mk_bounds { b_x : Z; b_y : Z; b_w : Z; b_h : Z }.

Definition bounds_ok (r : IOAccelBounds) : Prop :=
  - 2 ^ 15 <= r.(b_x) < 2 ^ 15 /\ - 2 ^ 15 <= r.(b_y) < 2 ^ 15 /\ - 2 ^ 15 <= r.(b_w) < 2 ^ 15 /\ - 2 ^ 15 <= r.(b_h) < 2 ^ 15.

(** A region: its bounds and the array of rectangles, of [num_rects] entries. *)
Record IOAccelDeviceRegion := mk_region { rgn_num_rects : Z; rgn_bounds : IOAccelBounds; rgn_rect : list IOAccelBounds }.

(** A rectangle of 32-bit signed integers. *)
Record IOBlitRectangle := mk_rectangle { r_x : Z; r_y : Z; r_width : Z; r_height : Z }.
