(* ===== verification/Layout.v ===== *)
(** Binary layouts: C enumerations and the structures that travel through the
    command FIFO as 32-bit words.

    [CEnum] is the interface of an enumeration of the headers: the number of a
    constructor and the list of the constructors, with the law that a number
    determines its constructor.  [coder] is the interface of a structure of
    32-bit words: its size, its encoding, its decoder and the laws that make
    the two inverse; [CStruct] attaches the coder to the structure's type.  The
    combinators below build the coder of a structure from its fields. *)

From S2P Require Import Prelude.

(** ** Enumerations *)

Class CEnum (A : Type) := {
  cval : A -> Z;
  cvalues : list A;
  cval_find x : find (fun y => cval y =? cval x) cvalues = Some x;
  cval_u32 x : is_u32 (cval x);
}.

Ltac cenum_tac := intros []; vm_compute; first [reflexivity | split; congruence].

Section cenum.
Context `{CEnum A}.

(** The constructor of a number, if there is one. *)
Definition of_cval (z : Z) : option A := find (fun y => cval y =? z) cvalues.

Lemma of_cval_cval x : of_cval (cval x) = Some x.
Proof. apply cval_find. Qed.

Lemma cval_of_cval z x : of_cval z = Some x -> cval x = z.
Proof. intros [_ E]%find_some. by apply Z.eqb_eq. Qed.

Lemma cval_inj x y : cval x = cval y -> x = y.
Proof. intros E. generalize (of_cval_cval x). rewrite E, of_cval_cval. congruence. Qed.

#[global] Instance cenum_eq_dec : EqDecision A.
Proof.
  intros x y. destruct (Z.eq_dec (cval x) (cval y)) as [E|E].
  - left. by apply cval_inj.
  - right. congruence.
Defined.
End cenum.

(** ** Structures of words *)

Record coder (A : Type) := Coder {
  csize : Z;                                   (** size in 32-bit words *)
  enc : A -> list Z;
  dec : list Z -> option (A * list Z);
  ok : A -> Prop;                              (** the fields are in range *)
  csize_nonneg : 0 <= csize;
  enc_size x : ok x -> Z.of_nat (length (enc x)) = csize;
  enc_u32 x : ok x -> Forall is_u32 (enc x);
  dec_enc x l : ok x -> dec (enc x ++ l) = Some (x, l);
  enc_dec l x l' : Forall is_u32 l -> dec l = Some (x, l') -> l = enc x ++ l' /\ ok x;
}.
Arguments csize {A} _.
Arguments enc {A} _ _.
Arguments dec {A} _ _.
Arguments ok {A} _ _.
Arguments enc_size {A} _ _ _.
Arguments enc_u32 {A} _ _ _.
Arguments dec_enc {A} _ _ _ _.
Arguments enc_dec {A} _ _ _ _ _ _.

(** [sizeof] in bytes. *)
Definition bsize {A} (c : coder A) : Z := 4 * csize c.

(** A [uint32] (or a [float] given by its representation). *)
Program Definition word_c : coder Z := {|
  csize := 1;
  enc x := [x];
  dec l := match l with w :: l => Some (w, l) | [] => None end;
  ok x := is_u32 x |}.
Next Obligation. lia. Qed.
Next Obligation. done. Qed.
Next Obligation. intros x Hx. by apply Forall_singleton. Qed.
Next Obligation. done. Qed.
Next Obligation. intros [|w l] x l' Hl ?; simplify_eq/=. by apply Forall_cons_1 in Hl as [? ?]. Qed.

(** An [int32], stored in two's complement. *)
Program Definition sword_c : coder Z := {|
  csize := 1;
  enc x := [u32 x];
  dec l := match l with w :: l => Some (s32 w, l) | [] => None end;
  ok x := - 2 ^ 31 <= x < 2 ^ 31 |}.
Next Obligation. lia. Qed.
Next Obligation. done. Qed.
Next Obligation. intros x Hx. apply Forall_singleton. by apply wrap_range. Qed.
Next Obligation.
  intros x l Hx. simpl in Hx |- *. do 2 f_equal. unfold swrap. rewrite wrap_wrap.
  destruct (Z.ltb_spec x 0).
  - rewrite (wrap_unique 32 x (x + 2 ^ 32) (-1)) by (unfold fits; lia). zcase.
  - rewrite wrap_small by (unfold fits; lia). zcase.
Qed.
Next Obligation.
  intros [|w l] x l' Hl ?; simplify_eq/=. apply Forall_cons_1 in Hl as [Hw Hl].
  unfold swrap. rewrite (wrap_small 32 w) by done. destruct Hw. zcase.
  - rewrite wrap_small by (unfold fits; lia). split; [done|lia].
  - rewrite (wrap_unique 32 _ w (-1)) by (unfold fits; lia). split; [done|lia].
Qed.

(** Two structures in sequence. *)
Program Definition pair_c {A B} (a : coder A) (b : coder B) : coder (A * B) := {|
  csize := csize a + csize b;
  enc x := enc a x.1 ++ enc b x.2;
  dec l := '(x, l) ← dec a l; '(y, l) ← dec b l; Some ((x, y), l);
  ok x := ok a x.1 /\ ok b x.2 |}.
Next Obligation. intros. pose proof (csize_nonneg _ a). pose proof (csize_nonneg _ b). lia. Qed.
Next Obligation.
  intros A B a b [x y] [Hx Hy]; simpl in *. rewrite length_app, Nat2Z.inj_add.
  by rewrite !enc_size.
Qed.
Next Obligation. intros A B a b [x y] [Hx Hy]. apply Forall_app. eauto using enc_u32. Qed.
Next Obligation.
  intros A B a b [x y] l [Hx Hy]; simpl in *. rewrite <-app_assoc.
  rewrite dec_enc by done. simpl. by rewrite dec_enc by done.
Qed.
Next Obligation.
  intros A B a b l [x y] l' Hl E; simpl in *.
  destruct (dec a l) as [[x0 l0]|] eqn:E1; simplify_eq/=.
  destruct (dec b l0) as [[y0 l1]|] eqn:E2; simplify_eq/=.
  apply enc_dec in E1 as [-> ?]; [|done]. apply Forall_app in Hl as [_ Hl].
  apply enc_dec in E2 as [-> ?]; [|done]. by rewrite app_assoc.
Qed.

(** A fixed-size array. *)
Fixpoint dec_array {A} (c : coder A) (n : nat) (l : list Z) : option (list A * list Z) :=
  match n with
  | O => Some ([], l)
  | S n => '(x, l) ← dec c l; '(xs, l) ← dec_array c n l; Some (x :: xs, l)
  end.

Program Definition array_c {A} (n : nat) (c : coder A) : coder (list A) := {|
  csize := Z.of_nat n * csize c;
  enc xs := xs ≫= enc c;
  dec := dec_array c n;
  ok xs := length xs = n /\ Forall (ok c) xs |}.
Next Obligation. intros. pose proof (csize_nonneg _ c). lia. Qed.
Next Obligation.
  intros A n c xs [<- Hxs]. induction Hxs as [|x xs Hx _ IH]; [done|]; csimpl.
  rewrite length_app, Nat2Z.inj_add, enc_size, IH by done. lia.
Qed.
Next Obligation.
  intros A n c xs [_ Hxs]. induction Hxs; csimpl; [done|]. apply Forall_app. eauto using enc_u32.
Qed.
Next Obligation.
  intros A n c xs l [<- Hxs]. induction Hxs as [|x xs Hx _ IH]; [done|]; csimpl.
  rewrite <-app_assoc, dec_enc by done. simpl. by rewrite IH.
Qed.
Next Obligation.
  intros A n c. induction n as [|n IH]; intros l xs l' Hl E; csimpl in *; simplify_eq; [done|].
  destruct (dec c l) as [[x0 l0]|] eqn:E1; simplify_eq/=.
  destruct (dec_array c n l0) as [[y0 l1]|] eqn:E2; simplify_eq/=.
  apply enc_dec in E1 as [-> ?]; [|done]. apply Forall_app in Hl as [_ Hl].
  apply IH in E2 as [-> [? ?]]; [|done]. csimpl. rewrite app_assoc. auto.
Qed.

(** A C structure is its tuple of fields. *)
Program Definition iso_c {A B} (c : coder B) (f : A -> B) (g : B -> A)
    (gf : forall x, g (f x) = x) (fg : forall y, f (g y) = y) : coder A := {|
  csize := csize c;
  enc x := enc c (f x);
  dec l := '(y, l) ← dec c l; Some (g y, l);
  ok x := ok c (f x) |}.
Next Obligation. intros. apply csize_nonneg. Qed.
Next Obligation. intros. by apply enc_size. Qed.
Next Obligation. intros. by apply enc_u32. Qed.
Next Obligation. intros. simpl. rewrite dec_enc by done. simpl. by rewrite gf. Qed.
Next Obligation.
  intros A B c f g gf fg l x l' Hl E; simpl in *.
  destruct (dec c l) as [[x0 l0]|] eqn:E1; simplify_eq/=. rewrite fg. by apply enc_dec.
Qed.

Class CStruct (A : Type) := struct_c : coder A.

(** Structures repeated until the words run out: the variable-length part that
    follows the fixed part of a command. *)
Fixpoint dec_all {A} (c : coder A) (fuel : nat) (l : list Z) : option (list A) :=
  match l, fuel with
  | [], _ => Some []
  | _, O => None
  | _, S fuel => '(x, l) ← dec c l; xs ← dec_all c fuel l; Some (x :: xs)
  end.

Lemma dec_all_enc {A} (c : coder A) xs fuel :
  0 < csize c -> Forall (ok c) xs -> (length xs <= fuel)%nat ->
  dec_all c fuel (xs ≫= enc c) = Some xs.
Proof.
  intros Hc Hxs. revert fuel. induction Hxs as [|x xs Hx Hxs IH]; intros fuel Hf; [by destruct fuel|].
  destruct fuel as [|fuel]; csimpl in *; [lia|].
  destruct (enc c x) as [|w ws] eqn:E.
  { pose proof (enc_size c x Hx) as Hs. rewrite E in Hs. simpl in Hs. lia. }
  cbn [app dec_all]. change (w :: ws ++ (xs ≫= enc c)) with ((w :: ws) ++ (xs ≫= enc c)).
  rewrite <-E, dec_enc by done. simpl. by rewrite IH by lia.
Qed.

Declare Scope coder_scope.
Delimit Scope coder_scope with coder.
Infix "⊗" := pair_c (at level 60, right associativity) : coder_scope.
Notation "c ^ n" := (array_c n%nat c) : coder_scope.

(** Coder of a record: the components are solved by destructing the record. *)
Ltac iso_tac :=
  let x := fresh "x" in
  intros x;
  first
    [ reflexivity
    | repeat match goal with p : prod _ _ |- _ => destruct p end; reflexivity
    | destruct x; reflexivity ].
Notation "'struct{' c | f | g }" :=
  (iso_c c%coder f g ltac:(iso_tac) ltac:(iso_tac)) (only parsing).

(** ** Bit-fields *)

(** Fields of the given widths, packed from the least significant bit up. *)
Fixpoint pack (ws vs : list Z) : Z :=
  match ws, vs with
  | w :: ws, v :: vs => wrap w v + 2 ^ w * pack ws vs
  | _, _ => 0
  end.

Fixpoint unpack (ws : list Z) (x : Z) : list Z :=
  match ws with
  | [] => []
  | w :: ws => wrap w x :: unpack ws (Z.shiftr x w)
  end.

(** The bits that a list of fields occupies. *)
Definition total (ws : list Z) : Z := foldr Z.add 0 ws.

Lemma total_nonneg ws : Forall (fun w => 0 <= w) ws -> 0 <= total ws.
Proof. induction 1; simpl in *; lia. Qed.

Lemma unpack_pack ws vs :
  Forall (fun w => 0 <= w) ws -> Forall2 fits ws vs -> unpack ws (pack ws vs) = vs.
Proof.
  intros Hw H2. revert Hw. induction H2 as [|w v ws vs Hv H2 IH]; intros Hw; [done|].
  apply Forall_cons_1 in Hw as [Hw Hws]. cbn [pack unpack].
  pose proof (Z.pow_pos_nonneg 2 w). destruct Hv as [Hv1 Hv2].
  rewrite (wrap_small w v) by done. f_equal.
  - apply (wrap_unique w _ v (pack ws vs)); [done|done|lia].
  - rewrite Z.shiftr_div_pow2 by lia. rewrite Z.mul_comm, Z.div_add, Z.div_small by lia. by apply IH.
Qed.

Lemma pack_unpack ws x :
  Forall (fun w => 0 <= w) ws -> fits (total ws) x -> pack ws (unpack ws x) = x.
Proof.
  intros Hw. revert x. induction Hw as [|w ws Hw Hws IH]; intros x [Hx1 Hx2]; cbn [pack unpack].
  - simpl in Hx2. lia.
  - rewrite wrap_wrap, IH.
    + rewrite Z.shiftr_div_pow2 by lia. unfold wrap. pose proof (Z.pow_pos_nonneg 2 w).
      rewrite (Z.div_mod x (2 ^ w)) at 3 by lia. lia.
    + pose proof (total_nonneg ws Hws). pose proof (Z.pow_pos_nonneg 2 w).
      cbn [total foldr] in Hx2. fold (total ws) in Hx2. rewrite Z.pow_add_r in Hx2 by lia.
      rewrite Z.shiftr_div_pow2 by lia.
      split; [apply Z.div_pos; lia|apply Z.div_lt_upper_bound; lia].
Qed.

Lemma pack_range ws vs :
  Forall (fun w => 0 <= w) ws -> fits (total ws) (pack ws vs).
Proof.
  intros Hw. revert vs. induction Hw as [|w ws Hw Hws IH]; intros vs; [by destruct vs|].
  destruct vs as [|v vs]; cbn [pack total foldr]; fold (total ws).
  - pose proof (total_nonneg ws Hws). pose proof (Z.pow_pos_nonneg 2 (w + total ws)). split; lia.
  - destruct (IH vs) as [I1 I2]. destruct (wrap_range w v Hw) as [W1 W2].
    pose proof (total_nonneg ws Hws). split; [|rewrite Z.pow_add_r by lia]; nia.
Qed.

(** A structure of bit-fields: its widths and its tuple of fields. *)
Class CBits (A : Type) := {
  widths : list Z;
  to_fields : A -> list Z;
  of_fields : list Z -> option A;
  widths_ok : Forall (fun w => 0 <= w) widths;
  of_to_fields x : of_fields (to_fields x) = Some x;
  to_of_fields l x : of_fields l = Some x -> to_fields x = l;
}.

Section cbits.
Context `{CBits A}.

(** The fields are in range. *)
Definition bits_ok (x : A) : Prop := Forall2 fits widths (to_fields x).

(** The word and its reading. *)
Definition bits_value (x : A) : Z := pack widths (to_fields x).
Definition bits_of_value (v : Z) : option A := of_fields (unpack widths v).

Lemma bits_of_bits_value x : bits_ok x -> bits_of_value (bits_value x) = Some x.
Proof.
  intros Hok. unfold bits_of_value, bits_value.
  rewrite unpack_pack by (apply widths_ok || done). apply of_to_fields.
Qed.

Lemma bits_value_of_bits v x :
  fits (total widths) v -> bits_of_value v = Some x -> bits_value x = v.
Proof.
  intros Hv E. unfold bits_of_value, bits_value in *. apply to_of_fields in E as ->.
  apply pack_unpack; [apply widths_ok|done].
Qed.
End cbits.

(** Laws of a record of bit-fields given by its list of fields. *)
Ltac cbits_tac :=
  first
    [ forall_list; lia
    | intros []; reflexivity
    | let l := fresh "l" in let x := fresh "x" in
      intros l x; intros;
      repeat (destruct l as [|? l]; simpl in *; try discriminate); simplify_eq/=; reflexivity ].
