(* ===== verification/SvgaReg.v ===== *)
(** The register file and the 2D command set of the SVGA-II device
    (ceinclude/svga_reg.h, svga_overlay.h, svga_escape.h).

    Registers, FIFO registers, capability bits and command numbers are
    enumerations; the commands' parameters are structures with their layouts.
    [svga_cmd] is the command language of the 2D FIFO: [encode_cmd] gives the
    words that a driver must queue for a command, [decode_cmd] is the device's
    reading of the queue, and [decode_encode_cmd] makes them inverse. *)

From S2P Require Import Prelude Layout.

(** ** Registers *)

(** The registers of the I/O space. *)
Inductive svga_reg : Set :=
  | SVGA_REG_ID | SVGA_REG_ENABLE | SVGA_REG_WIDTH | SVGA_REG_HEIGHT
  | SVGA_REG_MAX_WIDTH | SVGA_REG_MAX_HEIGHT | SVGA_REG_DEPTH | SVGA_REG_BITS_PER_PIXEL
  | SVGA_REG_PSEUDOCOLOR | SVGA_REG_RED_MASK | SVGA_REG_GREEN_MASK | SVGA_REG_BLUE_MASK
  | SVGA_REG_BYTES_PER_LINE | SVGA_REG_FB_START | SVGA_REG_FB_OFFSET
  | SVGA_REG_VRAM_SIZE | SVGA_REG_FB_SIZE | SVGA_REG_CAPABILITIES | SVGA_REG_MEM_START
  | SVGA_REG_MEM_SIZE | SVGA_REG_CONFIG_DONE | SVGA_REG_SYNC | SVGA_REG_BUSY
  | SVGA_REG_GUEST_ID | SVGA_REG_CURSOR_ID | SVGA_REG_CURSOR_X | SVGA_REG_CURSOR_Y
  | SVGA_REG_CURSOR_ON | SVGA_REG_HOST_BITS_PER_PIXEL | SVGA_REG_SCRATCH_SIZE
  | SVGA_REG_MEM_REGS | SVGA_REG_NUM_DISPLAYS | SVGA_REG_PITCHLOCK | SVGA_REG_IRQMASK
  | SVGA_REG_NUM_GUEST_DISPLAYS | SVGA_REG_DISPLAY_ID | SVGA_REG_DISPLAY_IS_PRIMARY
  | SVGA_REG_DISPLAY_POSITION_X | SVGA_REG_DISPLAY_POSITION_Y | SVGA_REG_DISPLAY_WIDTH
  | SVGA_REG_DISPLAY_HEIGHT | SVGA_REG_GMR_ID | SVGA_REG_GMR_DESCRIPTOR
  | SVGA_REG_GMR_MAX_IDS | SVGA_REG_GMR_MAX_DESCRIPTOR_LENGTH | SVGA_REG_TRACES
  | SVGA_REG_GMRS_MAX_PAGES | SVGA_REG_MEMORY_SIZE | SVGA_REG_TOP | SVGA_PALETTE_BASE
  | SVGA_SCRATCH_BASE.

Definition svga_reg_val (x : svga_reg) : Z :=
  match x with
  | SVGA_REG_ID => 0 | SVGA_REG_ENABLE => 1 | SVGA_REG_WIDTH => 2
  | SVGA_REG_HEIGHT => 3 | SVGA_REG_MAX_WIDTH => 4 | SVGA_REG_MAX_HEIGHT => 5
  | SVGA_REG_DEPTH => 6 | SVGA_REG_BITS_PER_PIXEL => 7 | SVGA_REG_PSEUDOCOLOR => 8
  | SVGA_REG_RED_MASK => 9 | SVGA_REG_GREEN_MASK => 10 | SVGA_REG_BLUE_MASK => 11
  | SVGA_REG_BYTES_PER_LINE => 12 | SVGA_REG_FB_START => 13 | SVGA_REG_FB_OFFSET => 14
  | SVGA_REG_VRAM_SIZE => 15 | SVGA_REG_FB_SIZE => 16 | SVGA_REG_CAPABILITIES => 17
  | SVGA_REG_MEM_START => 18 | SVGA_REG_MEM_SIZE => 19 | SVGA_REG_CONFIG_DONE => 20
  | SVGA_REG_SYNC => 21 | SVGA_REG_BUSY => 22 | SVGA_REG_GUEST_ID => 23
  | SVGA_REG_CURSOR_ID => 24 | SVGA_REG_CURSOR_X => 25 | SVGA_REG_CURSOR_Y => 26
  | SVGA_REG_CURSOR_ON => 27 | SVGA_REG_HOST_BITS_PER_PIXEL => 28
  | SVGA_REG_SCRATCH_SIZE => 29 | SVGA_REG_MEM_REGS => 30 | SVGA_REG_NUM_DISPLAYS => 31
  | SVGA_REG_PITCHLOCK => 32 | SVGA_REG_IRQMASK => 33
  | SVGA_REG_NUM_GUEST_DISPLAYS => 34 | SVGA_REG_DISPLAY_ID => 35
  | SVGA_REG_DISPLAY_IS_PRIMARY => 36 | SVGA_REG_DISPLAY_POSITION_X => 37
  | SVGA_REG_DISPLAY_POSITION_Y => 38 | SVGA_REG_DISPLAY_WIDTH => 39
  | SVGA_REG_DISPLAY_HEIGHT => 40 | SVGA_REG_GMR_ID => 41
  | SVGA_REG_GMR_DESCRIPTOR => 42 | SVGA_REG_GMR_MAX_IDS => 43
  | SVGA_REG_GMR_MAX_DESCRIPTOR_LENGTH => 44 | SVGA_REG_TRACES => 45
  | SVGA_REG_GMRS_MAX_PAGES => 46 | SVGA_REG_MEMORY_SIZE => 47 | SVGA_REG_TOP => 48
  | SVGA_PALETTE_BASE => 1024 | SVGA_SCRATCH_BASE => 1792
  end.
Coercion svga_reg_val : svga_reg >-> Z.

#[global] Program Instance svga_reg_enum : CEnum svga_reg :=
  {| cval := svga_reg_val;
     cvalues := [
       SVGA_REG_ID; SVGA_REG_ENABLE; SVGA_REG_WIDTH; SVGA_REG_HEIGHT;
       SVGA_REG_MAX_WIDTH; SVGA_REG_MAX_HEIGHT; SVGA_REG_DEPTH;
       SVGA_REG_BITS_PER_PIXEL; SVGA_REG_PSEUDOCOLOR; SVGA_REG_RED_MASK;
       SVGA_REG_GREEN_MASK; SVGA_REG_BLUE_MASK; SVGA_REG_BYTES_PER_LINE;
       SVGA_REG_FB_START; SVGA_REG_FB_OFFSET; SVGA_REG_VRAM_SIZE; SVGA_REG_FB_SIZE;
       SVGA_REG_CAPABILITIES; SVGA_REG_MEM_START; SVGA_REG_MEM_SIZE;
       SVGA_REG_CONFIG_DONE; SVGA_REG_SYNC; SVGA_REG_BUSY; SVGA_REG_GUEST_ID;
       SVGA_REG_CURSOR_ID; SVGA_REG_CURSOR_X; SVGA_REG_CURSOR_Y; SVGA_REG_CURSOR_ON;
       SVGA_REG_HOST_BITS_PER_PIXEL; SVGA_REG_SCRATCH_SIZE; SVGA_REG_MEM_REGS;
       SVGA_REG_NUM_DISPLAYS; SVGA_REG_PITCHLOCK; SVGA_REG_IRQMASK;
       SVGA_REG_NUM_GUEST_DISPLAYS; SVGA_REG_DISPLAY_ID; SVGA_REG_DISPLAY_IS_PRIMARY;
       SVGA_REG_DISPLAY_POSITION_X; SVGA_REG_DISPLAY_POSITION_Y;
       SVGA_REG_DISPLAY_WIDTH; SVGA_REG_DISPLAY_HEIGHT; SVGA_REG_GMR_ID;
       SVGA_REG_GMR_DESCRIPTOR; SVGA_REG_GMR_MAX_IDS;
       SVGA_REG_GMR_MAX_DESCRIPTOR_LENGTH; SVGA_REG_TRACES; SVGA_REG_GMRS_MAX_PAGES;
       SVGA_REG_MEMORY_SIZE; SVGA_REG_TOP; SVGA_PALETTE_BASE; SVGA_SCRATCH_BASE] |}.
Solve Obligations with cenum_tac.

(** The registers at the start of the FIFO memory, as word indices. *)
Inductive fifo_reg : Set :=
  | SVGA_FIFO_MIN | SVGA_FIFO_MAX | SVGA_FIFO_NEXT_CMD | SVGA_FIFO_STOP
  | SVGA_FIFO_CAPABILITIES | SVGA_FIFO_FLAGS | SVGA_FIFO_FENCE | SVGA_FIFO_3D_HWVERSION
  | SVGA_FIFO_PITCHLOCK | SVGA_FIFO_CURSOR_ON | SVGA_FIFO_CURSOR_X | SVGA_FIFO_CURSOR_Y
  | SVGA_FIFO_CURSOR_COUNT | SVGA_FIFO_CURSOR_LAST_UPDATED | SVGA_FIFO_RESERVED
  | SVGA_FIFO_CURSOR_SCREEN_ID | SVGA_FIFO_DEAD | SVGA_FIFO_3D_HWVERSION_REVISED
  | SVGA_FIFO_3D_CAPS | SVGA_FIFO_3D_CAPS_LAST | SVGA_FIFO_GUEST_3D_HWVERSION
  | SVGA_FIFO_FENCE_GOAL | SVGA_FIFO_BUSY | SVGA_FIFO_NUM_REGS.

Definition fifo_reg_val (x : fifo_reg) : Z :=
  match x with
  | SVGA_FIFO_MIN => 0 | SVGA_FIFO_MAX => 1 | SVGA_FIFO_NEXT_CMD => 2
  | SVGA_FIFO_STOP => 3 | SVGA_FIFO_CAPABILITIES => 4 | SVGA_FIFO_FLAGS => 5
  | SVGA_FIFO_FENCE => 6 | SVGA_FIFO_3D_HWVERSION => 7 | SVGA_FIFO_PITCHLOCK => 8
  | SVGA_FIFO_CURSOR_ON => 9 | SVGA_FIFO_CURSOR_X => 10 | SVGA_FIFO_CURSOR_Y => 11
  | SVGA_FIFO_CURSOR_COUNT => 12 | SVGA_FIFO_CURSOR_LAST_UPDATED => 13
  | SVGA_FIFO_RESERVED => 14 | SVGA_FIFO_CURSOR_SCREEN_ID => 15 | SVGA_FIFO_DEAD => 16
  | SVGA_FIFO_3D_HWVERSION_REVISED => 17 | SVGA_FIFO_3D_CAPS => 32
  | SVGA_FIFO_3D_CAPS_LAST => 287 | SVGA_FIFO_GUEST_3D_HWVERSION => 288
  | SVGA_FIFO_FENCE_GOAL => 289 | SVGA_FIFO_BUSY => 290 | SVGA_FIFO_NUM_REGS => 291
  end.
Coercion fifo_reg_val : fifo_reg >-> Z.

#[global] Program Instance fifo_reg_enum : CEnum fifo_reg :=
  {| cval := fifo_reg_val;
     cvalues := [
       SVGA_FIFO_MIN; SVGA_FIFO_MAX; SVGA_FIFO_NEXT_CMD; SVGA_FIFO_STOP;
       SVGA_FIFO_CAPABILITIES; SVGA_FIFO_FLAGS; SVGA_FIFO_FENCE;
       SVGA_FIFO_3D_HWVERSION; SVGA_FIFO_PITCHLOCK; SVGA_FIFO_CURSOR_ON;
       SVGA_FIFO_CURSOR_X; SVGA_FIFO_CURSOR_Y; SVGA_FIFO_CURSOR_COUNT;
       SVGA_FIFO_CURSOR_LAST_UPDATED; SVGA_FIFO_RESERVED; SVGA_FIFO_CURSOR_SCREEN_ID;
       SVGA_FIFO_DEAD; SVGA_FIFO_3D_HWVERSION_REVISED; SVGA_FIFO_3D_CAPS;
       SVGA_FIFO_3D_CAPS_LAST; SVGA_FIFO_GUEST_3D_HWVERSION; SVGA_FIFO_FENCE_GOAL;
       SVGA_FIFO_BUSY; SVGA_FIFO_NUM_REGS] |}.
Solve Obligations with cenum_tac.

(** The capability bits of the device. *)
Inductive svga_cap : Set :=
  | SVGA_CAP_NONE | SVGA_CAP_RECT_COPY | SVGA_CAP_CURSOR | SVGA_CAP_CURSOR_BYPASS
  | SVGA_CAP_CURSOR_BYPASS_2 | SVGA_CAP_8BIT_EMULATION | SVGA_CAP_ALPHA_CURSOR
  | SVGA_CAP_3D | SVGA_CAP_EXTENDED_FIFO | SVGA_CAP_MULTIMON | SVGA_CAP_PITCHLOCK
  | SVGA_CAP_IRQMASK | SVGA_CAP_DISPLAY_TOPOLOGY | SVGA_CAP_GMR | SVGA_CAP_TRACES
  | SVGA_CAP_GMR2 | SVGA_CAP_SCREEN_OBJECT_2.

Definition svga_cap_val (x : svga_cap) : Z :=
  match x with
  | SVGA_CAP_NONE => 0 | SVGA_CAP_RECT_COPY => 2 | SVGA_CAP_CURSOR => 32
  | SVGA_CAP_CURSOR_BYPASS => 64 | SVGA_CAP_CURSOR_BYPASS_2 => 128
  | SVGA_CAP_8BIT_EMULATION => 256 | SVGA_CAP_ALPHA_CURSOR => 512
  | SVGA_CAP_3D => 0x4000 | SVGA_CAP_EXTENDED_FIFO => 0x8000
  | SVGA_CAP_MULTIMON => 0x10000 | SVGA_CAP_PITCHLOCK => 0x20000
  | SVGA_CAP_IRQMASK => 0x40000 | SVGA_CAP_DISPLAY_TOPOLOGY => 0x80000
  | SVGA_CAP_GMR => 0x100000 | SVGA_CAP_TRACES => 0x200000 | SVGA_CAP_GMR2 => 0x400000
  | SVGA_CAP_SCREEN_OBJECT_2 => 0x800000
  end.
Coercion svga_cap_val : svga_cap >-> Z.

#[global] Program Instance svga_cap_enum : CEnum svga_cap :=
  {| cval := svga_cap_val;
     cvalues := [
       SVGA_CAP_NONE; SVGA_CAP_RECT_COPY; SVGA_CAP_CURSOR; SVGA_CAP_CURSOR_BYPASS;
       SVGA_CAP_CURSOR_BYPASS_2; SVGA_CAP_8BIT_EMULATION; SVGA_CAP_ALPHA_CURSOR;
       SVGA_CAP_3D; SVGA_CAP_EXTENDED_FIFO; SVGA_CAP_MULTIMON; SVGA_CAP_PITCHLOCK;
       SVGA_CAP_IRQMASK; SVGA_CAP_DISPLAY_TOPOLOGY; SVGA_CAP_GMR; SVGA_CAP_TRACES;
       SVGA_CAP_GMR2; SVGA_CAP_SCREEN_OBJECT_2] |}.
Solve Obligations with cenum_tac.

(** The capability bits of the FIFO. *)
Inductive fifo_cap : Set :=
  | SVGA_FIFO_CAP_NONE | SVGA_FIFO_CAP_FENCE | SVGA_FIFO_CAP_ACCELFRONT
  | SVGA_FIFO_CAP_PITCHLOCK | SVGA_FIFO_CAP_VIDEO | SVGA_FIFO_CAP_CURSOR_BYPASS_3
  | SVGA_FIFO_CAP_ESCAPE | SVGA_FIFO_CAP_RESERVE | SVGA_FIFO_CAP_SCREEN_OBJECT
  | SVGA_FIFO_CAP_GMR2 | SVGA_FIFO_CAP_SCREEN_OBJECT_2 | SVGA_FIFO_CAP_DEAD.

Definition fifo_cap_val (x : fifo_cap) : Z :=
  match x with
  | SVGA_FIFO_CAP_NONE => 0 | SVGA_FIFO_CAP_FENCE => 1 | SVGA_FIFO_CAP_ACCELFRONT => 2
  | SVGA_FIFO_CAP_PITCHLOCK => 4 | SVGA_FIFO_CAP_VIDEO => 8
  | SVGA_FIFO_CAP_CURSOR_BYPASS_3 => 16 | SVGA_FIFO_CAP_ESCAPE => 32
  | SVGA_FIFO_CAP_RESERVE => 64 | SVGA_FIFO_CAP_SCREEN_OBJECT => 128
  | SVGA_FIFO_CAP_GMR2 => 256 | SVGA_FIFO_CAP_SCREEN_OBJECT_2 => 512
  | SVGA_FIFO_CAP_DEAD => 1024
  end.
Coercion fifo_cap_val : fifo_cap >-> Z.

#[global] Program Instance fifo_cap_enum : CEnum fifo_cap :=
  {| cval := fifo_cap_val;
     cvalues := [
       SVGA_FIFO_CAP_NONE; SVGA_FIFO_CAP_FENCE; SVGA_FIFO_CAP_ACCELFRONT;
       SVGA_FIFO_CAP_PITCHLOCK; SVGA_FIFO_CAP_VIDEO; SVGA_FIFO_CAP_CURSOR_BYPASS_3;
       SVGA_FIFO_CAP_ESCAPE; SVGA_FIFO_CAP_RESERVE; SVGA_FIFO_CAP_SCREEN_OBJECT;
       SVGA_FIFO_CAP_GMR2; SVGA_FIFO_CAP_SCREEN_OBJECT_2; SVGA_FIFO_CAP_DEAD] |}.
Solve Obligations with cenum_tac.

Definition SVGA_FIFO_CAP_3D_HWVERSION_REVISED := SVGA_FIFO_CAP_GMR2.
Definition SVGA_FB_MAX_TRACEABLE_SIZE : Z := 0x1000000.
Definition SVGA_ID_2 : Z := Z.lor (Z.shiftl 0x900000 8) 2.
Definition SVGA_ID_INVALID : Z := 0xFFFFFFFF.
Definition SVGA_GMR_NULL : Z := u32 (-1).
Definition SVGA_GMR_FRAMEBUFFER : Z := u32 (-2).
Definition SVGA_ROP_COPY : Z := 3.

(** ** Structures *)

(** The registers of a video overlay unit. *)
Inductive video_reg : Set :=
  | SVGA_VIDEO_ENABLED | SVGA_VIDEO_FLAGS | SVGA_VIDEO_DATA_OFFSET | SVGA_VIDEO_FORMAT
  | SVGA_VIDEO_COLORKEY | SVGA_VIDEO_SIZE | SVGA_VIDEO_WIDTH | SVGA_VIDEO_HEIGHT
  | SVGA_VIDEO_SRC_X | SVGA_VIDEO_SRC_Y | SVGA_VIDEO_SRC_WIDTH | SVGA_VIDEO_SRC_HEIGHT
  | SVGA_VIDEO_DST_X | SVGA_VIDEO_DST_Y | SVGA_VIDEO_DST_WIDTH | SVGA_VIDEO_DST_HEIGHT
  | SVGA_VIDEO_PITCH_1 | SVGA_VIDEO_PITCH_2 | SVGA_VIDEO_PITCH_3
  | SVGA_VIDEO_DATA_GMRID | SVGA_VIDEO_DST_SCREEN_ID | SVGA_VIDEO_NUM_REGS.

Definition video_reg_val (x : video_reg) : Z :=
  match x with
  | SVGA_VIDEO_ENABLED => 0 | SVGA_VIDEO_FLAGS => 1 | SVGA_VIDEO_DATA_OFFSET => 2
  | SVGA_VIDEO_FORMAT => 3 | SVGA_VIDEO_COLORKEY => 4 | SVGA_VIDEO_SIZE => 5
  | SVGA_VIDEO_WIDTH => 6 | SVGA_VIDEO_HEIGHT => 7 | SVGA_VIDEO_SRC_X => 8
  | SVGA_VIDEO_SRC_Y => 9 | SVGA_VIDEO_SRC_WIDTH => 10 | SVGA_VIDEO_SRC_HEIGHT => 11
  | SVGA_VIDEO_DST_X => 12 | SVGA_VIDEO_DST_Y => 13 | SVGA_VIDEO_DST_WIDTH => 14
  | SVGA_VIDEO_DST_HEIGHT => 15 | SVGA_VIDEO_PITCH_1 => 16 | SVGA_VIDEO_PITCH_2 => 17
  | SVGA_VIDEO_PITCH_3 => 18 | SVGA_VIDEO_DATA_GMRID => 19
  | SVGA_VIDEO_DST_SCREEN_ID => 20 | SVGA_VIDEO_NUM_REGS => 21
  end.
Coercion video_reg_val : video_reg >-> Z.

#[global] Program Instance video_reg_enum : CEnum video_reg :=
  {| cval := video_reg_val;
     cvalues := [
       SVGA_VIDEO_ENABLED; SVGA_VIDEO_FLAGS; SVGA_VIDEO_DATA_OFFSET; SVGA_VIDEO_FORMAT;
       SVGA_VIDEO_COLORKEY; SVGA_VIDEO_SIZE; SVGA_VIDEO_WIDTH; SVGA_VIDEO_HEIGHT;
       SVGA_VIDEO_SRC_X; SVGA_VIDEO_SRC_Y; SVGA_VIDEO_SRC_WIDTH; SVGA_VIDEO_SRC_HEIGHT;
       SVGA_VIDEO_DST_X; SVGA_VIDEO_DST_Y; SVGA_VIDEO_DST_WIDTH; SVGA_VIDEO_DST_HEIGHT;
       SVGA_VIDEO_PITCH_1; SVGA_VIDEO_PITCH_2; SVGA_VIDEO_PITCH_3;
       SVGA_VIDEO_DATA_GMRID; SVGA_VIDEO_DST_SCREEN_ID; SVGA_VIDEO_NUM_REGS] |}.
Solve Obligations with cenum_tac.

(** The registers of an overlay unit as a structure: word [i] is register [i]. *)
Record SVGAOverlayUnit := mk_SVGAOverlayUnit {
  SVGAOverlayUnit_enabled : Z;
  SVGAOverlayUnit_flags : Z;
  SVGAOverlayUnit_dataOffset : Z;
  SVGAOverlayUnit_format : Z;
  SVGAOverlayUnit_colorKey : Z;
  SVGAOverlayUnit_size : Z;
  SVGAOverlayUnit_width : Z;
  SVGAOverlayUnit_height : Z;
  SVGAOverlayUnit_srcX : Z;
  SVGAOverlayUnit_srcY : Z;
  SVGAOverlayUnit_srcWidth : Z;
  SVGAOverlayUnit_srcHeight : Z;
  SVGAOverlayUnit_dstX : Z;
  SVGAOverlayUnit_dstY : Z;
  SVGAOverlayUnit_dstWidth : Z;
  SVGAOverlayUnit_dstHeight : Z;
  SVGAOverlayUnit_pitches : list Z;
  SVGAOverlayUnit_dataGMRId : Z;
  SVGAOverlayUnit_dstScreenId : Z;
}.

#[global] Instance SVGAOverlayUnit_c : CStruct SVGAOverlayUnit :=
  struct{ word_c ⊗ word_c ⊗ word_c ⊗ word_c ⊗ word_c ⊗ word_c ⊗ word_c ⊗ word_c ⊗ word_c ⊗
           word_c ⊗ word_c ⊗ word_c ⊗ sword_c ⊗ sword_c ⊗ word_c ⊗ word_c ⊗ word_c ^ 3 ⊗
           word_c ⊗ word_c
  | fun r =>
      (r.(SVGAOverlayUnit_enabled), (r.(SVGAOverlayUnit_flags),
      (r.(SVGAOverlayUnit_dataOffset), (r.(SVGAOverlayUnit_format),
      (r.(SVGAOverlayUnit_colorKey), (r.(SVGAOverlayUnit_size), (r.(SVGAOverlayUnit_width),
      (r.(SVGAOverlayUnit_height), (r.(SVGAOverlayUnit_srcX), (r.(SVGAOverlayUnit_srcY),
      (r.(SVGAOverlayUnit_srcWidth), (r.(SVGAOverlayUnit_srcHeight),
      (r.(SVGAOverlayUnit_dstX), (r.(SVGAOverlayUnit_dstY), (r.(SVGAOverlayUnit_dstWidth),
      (r.(SVGAOverlayUnit_dstHeight), (r.(SVGAOverlayUnit_pitches),
      (r.(SVGAOverlayUnit_dataGMRId), r.(SVGAOverlayUnit_dstScreenId)))))))))))))))))))
  | fun '(enabled_, (flags_, (dataOffset_, (format_, (colorKey_, (size_, (width_, (height_,
      (srcX_, (srcY_, (srcWidth_, (srcHeight_, (dstX_, (dstY_, (dstWidth_, (dstHeight_,
      (pitches_, (dataGMRId_, dstScreenId_)))))))))))))))))) =>
      mk_SVGAOverlayUnit enabled_ flags_ dataOffset_ format_ colorKey_ size_ width_ height_
      srcX_ srcY_ srcWidth_ srcHeight_ dstX_ dstY_ dstWidth_ dstHeight_ pitches_ dataGMRId_
      dstScreenId_ }.

(** A range of pages, a link or the end of a GMR descriptor table. *)
Record SVGAGuestMemDescriptor := mk_SVGAGuestMemDescriptor {
  SVGAGuestMemDescriptor_ppn : Z;
  SVGAGuestMemDescriptor_numPages : Z;
}.

#[global] Instance SVGAGuestMemDescriptor_c : CStruct SVGAGuestMemDescriptor :=
  struct{ word_c ⊗ word_c
  | fun r =>
      (r.(SVGAGuestMemDescriptor_ppn), r.(SVGAGuestMemDescriptor_numPages))
  | fun '(ppn_, numPages_) =>
      mk_SVGAGuestMemDescriptor ppn_ numPages_ }.

(** An offset into a guest memory region. *)
Record SVGAGuestPtr := mk_SVGAGuestPtr {
  SVGAGuestPtr_gmrId : Z;
  SVGAGuestPtr_offset : Z;
}.

#[global] Instance SVGAGuestPtr_c : CStruct SVGAGuestPtr :=
  struct{ word_c ⊗ word_c
  | fun r =>
      (r.(SVGAGuestPtr_gmrId), r.(SVGAGuestPtr_offset))
  | fun '(gmrId_, offset_) =>
      mk_SVGAGuestPtr gmrId_ offset_ }.

(** An image in guest memory. *)
Record SVGAGuestImage := mk_SVGAGuestImage {
  SVGAGuestImage_ptr : SVGAGuestPtr;
  SVGAGuestImage_pitch : Z;
}.

#[global] Instance SVGAGuestImage_c : CStruct SVGAGuestImage :=
  struct{ SVGAGuestPtr_c ⊗ word_c
  | fun r =>
      (r.(SVGAGuestImage_ptr), r.(SVGAGuestImage_pitch))
  | fun '(ptr_, pitch_) =>
      mk_SVGAGuestImage ptr_ pitch_ }.

(** A half-open rectangle in screen coordinates. *)
Record SVGASignedRect := mk_SVGASignedRect {
  SVGASignedRect_left : Z;
  SVGASignedRect_top : Z;
  SVGASignedRect_right : Z;
  SVGASignedRect_bottom : Z;
}.

#[global] Instance SVGASignedRect_c : CStruct SVGASignedRect :=
  struct{ sword_c ⊗ sword_c ⊗ sword_c ⊗ sword_c
  | fun r =>
      (r.(SVGASignedRect_left), (r.(SVGASignedRect_top), (r.(SVGASignedRect_right),
      r.(SVGASignedRect_bottom))))
  | fun '(left_, (top_, (right_, bottom_))) =>
      mk_SVGASignedRect left_ top_ right_ bottom_ }.

(** A point in screen coordinates. *)
Record SVGASignedPoint := mk_SVGASignedPoint {
  SVGASignedPoint_x : Z;
  SVGASignedPoint_y : Z;
}.

#[global] Instance SVGASignedPoint_c : CStruct SVGASignedPoint :=
  struct{ sword_c ⊗ sword_c
  | fun r =>
      (r.(SVGASignedPoint_x), r.(SVGASignedPoint_y))
  | fun '(x_, y_) =>
      mk_SVGASignedPoint x_ y_ }.

(** A packed image format: the bit-fields of the union, and its [value]. *)
Record SVGAGMRImageFormat := mk_SVGAGMRImageFormat {
  bitsPerPixel : Z;   (** 8 bits *)
  colorDepth : Z;     (** 8 bits *)
  gmr_format_reserved : Z   (** 16 bits, must be zero *)
}.

Definition gmr_format_value (f : SVGAGMRImageFormat) : Z :=
  Z.lor (u8 f.(bitsPerPixel))
    (Z.lor (Z.shiftl (u8 f.(colorDepth)) 8) (Z.shiftl (u16 f.(gmr_format_reserved)) 16)).

(** A screen object; [structSize] says how much of it is present. *)
Record SVGAScreenObject := mk_SVGAScreenObject {
  SVGAScreenObject_structSize : Z;
  SVGAScreenObject_id : Z;
  SVGAScreenObject_flags : Z;
  SVGAScreenObject_size_width : Z;
  SVGAScreenObject_size_height : Z;
  SVGAScreenObject_root_x : Z;
  SVGAScreenObject_root_y : Z;
  SVGAScreenObject_backingStore : SVGAGuestImage;
  SVGAScreenObject_cloneCount : Z;
}.

#[global] Instance SVGAScreenObject_c : CStruct SVGAScreenObject :=
  struct{ word_c ⊗ word_c ⊗ word_c ⊗ word_c ⊗ word_c ⊗ sword_c ⊗ sword_c ⊗
           SVGAGuestImage_c ⊗ word_c
  | fun r =>
      (r.(SVGAScreenObject_structSize), (r.(SVGAScreenObject_id),
      (r.(SVGAScreenObject_flags), (r.(SVGAScreenObject_size_width),
      (r.(SVGAScreenObject_size_height), (r.(SVGAScreenObject_root_x),
      (r.(SVGAScreenObject_root_y), (r.(SVGAScreenObject_backingStore),
      r.(SVGAScreenObject_cloneCount)))))))))
  | fun '(structSize_, (id_, (flags_, (size_width_, (size_height_, (root_x_, (root_y_,
      (backingStore_, cloneCount_)))))))) =>
      mk_SVGAScreenObject structSize_ id_ flags_ size_width_ size_height_ root_x_ root_y_
      backingStore_ cloneCount_ }.

(** ** Commands *)

(** The 2D command numbers. *)
Inductive SVGAFifoCmdId : Set :=
  | SVGA_CMD_INVALID_CMD | SVGA_CMD_UPDATE | SVGA_CMD_RECT_COPY
  | SVGA_CMD_DEFINE_CURSOR | SVGA_CMD_DEFINE_ALPHA_CURSOR | SVGA_CMD_UPDATE_VERBOSE
  | SVGA_CMD_FRONT_ROP_FILL | SVGA_CMD_FENCE | SVGA_CMD_ESCAPE | SVGA_CMD_DEFINE_SCREEN
  | SVGA_CMD_DESTROY_SCREEN | SVGA_CMD_DEFINE_GMRFB | SVGA_CMD_BLIT_GMRFB_TO_SCREEN
  | SVGA_CMD_BLIT_SCREEN_TO_GMRFB | SVGA_CMD_ANNOTATION_FILL | SVGA_CMD_ANNOTATION_COPY
  | SVGA_CMD_DEFINE_GMR2 | SVGA_CMD_REMAP_GMR2 | SVGA_CMD_MAX.

Definition SVGAFifoCmdId_val (x : SVGAFifoCmdId) : Z :=
  match x with
  | SVGA_CMD_INVALID_CMD => 0 | SVGA_CMD_UPDATE => 1 | SVGA_CMD_RECT_COPY => 3
  | SVGA_CMD_DEFINE_CURSOR => 19 | SVGA_CMD_DEFINE_ALPHA_CURSOR => 22
  | SVGA_CMD_UPDATE_VERBOSE => 25 | SVGA_CMD_FRONT_ROP_FILL => 29
  | SVGA_CMD_FENCE => 30 | SVGA_CMD_ESCAPE => 33 | SVGA_CMD_DEFINE_SCREEN => 34
  | SVGA_CMD_DESTROY_SCREEN => 35 | SVGA_CMD_DEFINE_GMRFB => 36
  | SVGA_CMD_BLIT_GMRFB_TO_SCREEN => 37 | SVGA_CMD_BLIT_SCREEN_TO_GMRFB => 38
  | SVGA_CMD_ANNOTATION_FILL => 39 | SVGA_CMD_ANNOTATION_COPY => 40
  | SVGA_CMD_DEFINE_GMR2 => 41 | SVGA_CMD_REMAP_GMR2 => 42 | SVGA_CMD_MAX => 43
  end.
Coercion SVGAFifoCmdId_val : SVGAFifoCmdId >-> Z.

#[global] Program Instance SVGAFifoCmdId_enum : CEnum SVGAFifoCmdId :=
  {| cval := SVGAFifoCmdId_val;
     cvalues := [
       SVGA_CMD_INVALID_CMD; SVGA_CMD_UPDATE; SVGA_CMD_RECT_COPY;
       SVGA_CMD_DEFINE_CURSOR; SVGA_CMD_DEFINE_ALPHA_CURSOR; SVGA_CMD_UPDATE_VERBOSE;
       SVGA_CMD_FRONT_ROP_FILL; SVGA_CMD_FENCE; SVGA_CMD_ESCAPE;
       SVGA_CMD_DEFINE_SCREEN; SVGA_CMD_DESTROY_SCREEN; SVGA_CMD_DEFINE_GMRFB;
       SVGA_CMD_BLIT_GMRFB_TO_SCREEN; SVGA_CMD_BLIT_SCREEN_TO_GMRFB;
       SVGA_CMD_ANNOTATION_FILL; SVGA_CMD_ANNOTATION_COPY; SVGA_CMD_DEFINE_GMR2;
       SVGA_CMD_REMAP_GMR2; SVGA_CMD_MAX] |}.
Solve Obligations with cenum_tac.

(** Update a rectangle of the screen from the guest framebuffer. *)
Record SVGAFifoCmdUpdate := mk_SVGAFifoCmdUpdate {
  SVGAFifoCmdUpdate_x : Z;
  SVGAFifoCmdUpdate_y : Z;
  SVGAFifoCmdUpdate_width : Z;
  SVGAFifoCmdUpdate_height : Z;
}.

#[global] Instance SVGAFifoCmdUpdate_c : CStruct SVGAFifoCmdUpdate :=
  struct{ word_c ⊗ word_c ⊗ word_c ⊗ word_c
  | fun r =>
      (r.(SVGAFifoCmdUpdate_x), (r.(SVGAFifoCmdUpdate_y), (r.(SVGAFifoCmdUpdate_width),
      r.(SVGAFifoCmdUpdate_height))))
  | fun '(x_, (y_, (width_, height_))) =>
      mk_SVGAFifoCmdUpdate x_ y_ width_ height_ }.

(** Copy a rectangle of the guest framebuffer. *)
Record SVGAFifoCmdRectCopy := mk_SVGAFifoCmdRectCopy {
  SVGAFifoCmdRectCopy_srcX : Z;
  SVGAFifoCmdRectCopy_srcY : Z;
  SVGAFifoCmdRectCopy_destX : Z;
  SVGAFifoCmdRectCopy_destY : Z;
  SVGAFifoCmdRectCopy_width : Z;
  SVGAFifoCmdRectCopy_height : Z;
}.

#[global] Instance SVGAFifoCmdRectCopy_c : CStruct SVGAFifoCmdRectCopy :=
  struct{ word_c ⊗ word_c ⊗ word_c ⊗ word_c ⊗ word_c ⊗ word_c
  | fun r =>
      (r.(SVGAFifoCmdRectCopy_srcX), (r.(SVGAFifoCmdRectCopy_srcY),
      (r.(SVGAFifoCmdRectCopy_destX), (r.(SVGAFifoCmdRectCopy_destY),
      (r.(SVGAFifoCmdRectCopy_width), r.(SVGAFifoCmdRectCopy_height))))))
  | fun '(srcX_, (srcY_, (destX_, (destY_, (width_, height_))))) =>
      mk_SVGAFifoCmdRectCopy srcX_ srcY_ destX_ destY_ width_ height_ }.

(** A cursor given by AND and XOR masks; the masks follow. *)
Record SVGAFifoCmdDefineCursor := mk_SVGAFifoCmdDefineCursor {
  SVGAFifoCmdDefineCursor_id : Z;
  SVGAFifoCmdDefineCursor_hotspotX : Z;
  SVGAFifoCmdDefineCursor_hotspotY : Z;
  SVGAFifoCmdDefineCursor_width : Z;
  SVGAFifoCmdDefineCursor_height : Z;
  SVGAFifoCmdDefineCursor_andMaskDepth : Z;
  SVGAFifoCmdDefineCursor_xorMaskDepth : Z;
}.

#[global] Instance SVGAFifoCmdDefineCursor_c : CStruct SVGAFifoCmdDefineCursor :=
  struct{ word_c ⊗ word_c ⊗ word_c ⊗ word_c ⊗ word_c ⊗ word_c ⊗ word_c
  | fun r =>
      (r.(SVGAFifoCmdDefineCursor_id), (r.(SVGAFifoCmdDefineCursor_hotspotX),
      (r.(SVGAFifoCmdDefineCursor_hotspotY), (r.(SVGAFifoCmdDefineCursor_width),
      (r.(SVGAFifoCmdDefineCursor_height), (r.(SVGAFifoCmdDefineCursor_andMaskDepth),
      r.(SVGAFifoCmdDefineCursor_xorMaskDepth)))))))
  | fun '(id_, (hotspotX_, (hotspotY_, (width_, (height_, (andMaskDepth_, xorMaskDepth_)))))) =>
      mk_SVGAFifoCmdDefineCursor id_ hotspotX_ hotspotY_ width_ height_ andMaskDepth_
      xorMaskDepth_ }.

(** A BGRA cursor; the image follows. *)
Record SVGAFifoCmdDefineAlphaCursor := mk_SVGAFifoCmdDefineAlphaCursor {
  SVGAFifoCmdDefineAlphaCursor_id : Z;
  SVGAFifoCmdDefineAlphaCursor_hotspotX : Z;
  SVGAFifoCmdDefineAlphaCursor_hotspotY : Z;
  SVGAFifoCmdDefineAlphaCursor_width : Z;
  SVGAFifoCmdDefineAlphaCursor_height : Z;
}.

#[global] Instance SVGAFifoCmdDefineAlphaCursor_c : CStruct SVGAFifoCmdDefineAlphaCursor :=
  struct{ word_c ⊗ word_c ⊗ word_c ⊗ word_c ⊗ word_c
  | fun r =>
      (r.(SVGAFifoCmdDefineAlphaCursor_id), (r.(SVGAFifoCmdDefineAlphaCursor_hotspotX),
      (r.(SVGAFifoCmdDefineAlphaCursor_hotspotY), (r.(SVGAFifoCmdDefineAlphaCursor_width),
      r.(SVGAFifoCmdDefineAlphaCursor_height)))))
  | fun '(id_, (hotspotX_, (hotspotY_, (width_, height_)))) =>
      mk_SVGAFifoCmdDefineAlphaCursor id_ hotspotX_ hotspotY_ width_ height_ }.

(** [SVGAFifoCmdUpdate] with a reason. *)
Record SVGAFifoCmdUpdateVerbose := mk_SVGAFifoCmdUpdateVerbose {
  SVGAFifoCmdUpdateVerbose_x : Z;
  SVGAFifoCmdUpdateVerbose_y : Z;
  SVGAFifoCmdUpdateVerbose_width : Z;
  SVGAFifoCmdUpdateVerbose_height : Z;
  SVGAFifoCmdUpdateVerbose_reason : Z;
}.

#[global] Instance SVGAFifoCmdUpdateVerbose_c : CStruct SVGAFifoCmdUpdateVerbose :=
  struct{ word_c ⊗ word_c ⊗ word_c ⊗ word_c ⊗ word_c
  | fun r =>
      (r.(SVGAFifoCmdUpdateVerbose_x), (r.(SVGAFifoCmdUpdateVerbose_y),
      (r.(SVGAFifoCmdUpdateVerbose_width), (r.(SVGAFifoCmdUpdateVerbose_height),
      r.(SVGAFifoCmdUpdateVerbose_reason)))))
  | fun '(x_, (y_, (width_, (height_, reason_)))) =>
      mk_SVGAFifoCmdUpdateVerbose x_ y_ width_ height_ reason_ }.

(** A rectangle has been filled with a colour. *)
Record SVGAFifoCmdFrontRopFill := mk_SVGAFifoCmdFrontRopFill {
  SVGAFifoCmdFrontRopFill_color : Z;
  SVGAFifoCmdFrontRopFill_x : Z;
  SVGAFifoCmdFrontRopFill_y : Z;
  SVGAFifoCmdFrontRopFill_width : Z;
  SVGAFifoCmdFrontRopFill_height : Z;
  SVGAFifoCmdFrontRopFill_rop : Z;
}.

#[global] Instance SVGAFifoCmdFrontRopFill_c : CStruct SVGAFifoCmdFrontRopFill :=
  struct{ word_c ⊗ word_c ⊗ word_c ⊗ word_c ⊗ word_c ⊗ word_c
  | fun r =>
      (r.(SVGAFifoCmdFrontRopFill_color), (r.(SVGAFifoCmdFrontRopFill_x),
      (r.(SVGAFifoCmdFrontRopFill_y), (r.(SVGAFifoCmdFrontRopFill_width),
      (r.(SVGAFifoCmdFrontRopFill_height), r.(SVGAFifoCmdFrontRopFill_rop))))))
  | fun '(color_, (x_, (y_, (width_, (height_, rop_))))) =>
      mk_SVGAFifoCmdFrontRopFill color_ x_ y_ width_ height_ rop_ }.

(** A synchronisation fence. *)
Record SVGAFifoCmdFence := mk_SVGAFifoCmdFence {
  SVGAFifoCmdFence_fence : Z;
}.

#[global] Instance SVGAFifoCmdFence_c : CStruct SVGAFifoCmdFence :=
  struct{ word_c
  | fun r =>
      r.(SVGAFifoCmdFence_fence)
  | fun fence_ =>
      mk_SVGAFifoCmdFence fence_ }.

(** An escape; [size] bytes follow. *)
Record SVGAFifoCmdEscape := mk_SVGAFifoCmdEscape {
  SVGAFifoCmdEscape_nsid : Z;
  SVGAFifoCmdEscape_size : Z;
}.

#[global] Instance SVGAFifoCmdEscape_c : CStruct SVGAFifoCmdEscape :=
  struct{ word_c ⊗ word_c
  | fun r =>
      (r.(SVGAFifoCmdEscape_nsid), r.(SVGAFifoCmdEscape_size))
  | fun '(nsid_, size_) =>
      mk_SVGAFifoCmdEscape nsid_ size_ }.

(** Destroy a screen object. *)
Record SVGAFifoCmdDestroyScreen := mk_SVGAFifoCmdDestroyScreen {
  SVGAFifoCmdDestroyScreen_screenId : Z;
}.

#[global] Instance SVGAFifoCmdDestroyScreen_c : CStruct SVGAFifoCmdDestroyScreen :=
  struct{ word_c
  | fun r =>
      r.(SVGAFifoCmdDestroyScreen_screenId)
  | fun screenId_ =>
      mk_SVGAFifoCmdDestroyScreen screenId_ }.

(** Set the GMR framebuffer. *)
Record SVGAFifoCmdDefineGMRFB := mk_SVGAFifoCmdDefineGMRFB {
  SVGAFifoCmdDefineGMRFB_ptr : SVGAGuestPtr;
  SVGAFifoCmdDefineGMRFB_bytesPerLine : Z;
  SVGAFifoCmdDefineGMRFB_format : Z;
}.

#[global] Instance SVGAFifoCmdDefineGMRFB_c : CStruct SVGAFifoCmdDefineGMRFB :=
  struct{ SVGAGuestPtr_c ⊗ word_c ⊗ word_c
  | fun r =>
      (r.(SVGAFifoCmdDefineGMRFB_ptr), (r.(SVGAFifoCmdDefineGMRFB_bytesPerLine),
      r.(SVGAFifoCmdDefineGMRFB_format)))
  | fun '(ptr_, (bytesPerLine_, format_)) =>
      mk_SVGAFifoCmdDefineGMRFB ptr_ bytesPerLine_ format_ }.

(** Blit from the GMR framebuffer. *)
Record SVGAFifoCmdBlitGMRFBToScreen := mk_SVGAFifoCmdBlitGMRFBToScreen {
  SVGAFifoCmdBlitGMRFBToScreen_srcOrigin : SVGASignedPoint;
  SVGAFifoCmdBlitGMRFBToScreen_destRect : SVGASignedRect;
  SVGAFifoCmdBlitGMRFBToScreen_destScreenId : Z;
}.

#[global] Instance SVGAFifoCmdBlitGMRFBToScreen_c : CStruct SVGAFifoCmdBlitGMRFBToScreen :=
  struct{ SVGASignedPoint_c ⊗ SVGASignedRect_c ⊗ word_c
  | fun r =>
      (r.(SVGAFifoCmdBlitGMRFBToScreen_srcOrigin),
      (r.(SVGAFifoCmdBlitGMRFBToScreen_destRect),
      r.(SVGAFifoCmdBlitGMRFBToScreen_destScreenId)))
  | fun '(srcOrigin_, (destRect_, destScreenId_)) =>
      mk_SVGAFifoCmdBlitGMRFBToScreen srcOrigin_ destRect_ destScreenId_ }.

(** Blit to the GMR framebuffer. *)
Record SVGAFifoCmdBlitScreenToGMRFB := mk_SVGAFifoCmdBlitScreenToGMRFB {
  SVGAFifoCmdBlitScreenToGMRFB_destOrigin : SVGASignedPoint;
  SVGAFifoCmdBlitScreenToGMRFB_srcRect : SVGASignedRect;
  SVGAFifoCmdBlitScreenToGMRFB_srcScreenId : Z;
}.

#[global] Instance SVGAFifoCmdBlitScreenToGMRFB_c : CStruct SVGAFifoCmdBlitScreenToGMRFB :=
  struct{ SVGASignedPoint_c ⊗ SVGASignedRect_c ⊗ word_c
  | fun r =>
      (r.(SVGAFifoCmdBlitScreenToGMRFB_destOrigin),
      (r.(SVGAFifoCmdBlitScreenToGMRFB_srcRect),
      r.(SVGAFifoCmdBlitScreenToGMRFB_srcScreenId)))
  | fun '(destOrigin_, (srcRect_, srcScreenId_)) =>
      mk_SVGAFifoCmdBlitScreenToGMRFB destOrigin_ srcRect_ srcScreenId_ }.

(** The next blit has one colour. *)
Record SVGAFifoCmdAnnotationFill := mk_SVGAFifoCmdAnnotationFill {
  SVGAFifoCmdAnnotationFill_color : Z;
}.

#[global] Instance SVGAFifoCmdAnnotationFill_c : CStruct SVGAFifoCmdAnnotationFill :=
  struct{ word_c
  | fun r =>
      r.(SVGAFifoCmdAnnotationFill_color)
  | fun color_ =>
      mk_SVGAFifoCmdAnnotationFill color_ }.

(** The next blit copies a screen region. *)
Record SVGAFifoCmdAnnotationCopy := mk_SVGAFifoCmdAnnotationCopy {
  SVGAFifoCmdAnnotationCopy_srcOrigin : SVGASignedPoint;
  SVGAFifoCmdAnnotationCopy_srcScreenId : Z;
}.

#[global] Instance SVGAFifoCmdAnnotationCopy_c : CStruct SVGAFifoCmdAnnotationCopy :=
  struct{ SVGASignedPoint_c ⊗ word_c
  | fun r =>
      (r.(SVGAFifoCmdAnnotationCopy_srcOrigin), r.(SVGAFifoCmdAnnotationCopy_srcScreenId))
  | fun '(srcOrigin_, srcScreenId_) =>
      mk_SVGAFifoCmdAnnotationCopy srcOrigin_ srcScreenId_ }.

(** Define a guest memory region. *)
Record SVGAFifoCmdDefineGMR2 := mk_SVGAFifoCmdDefineGMR2 {
  SVGAFifoCmdDefineGMR2_gmrId : Z;
  SVGAFifoCmdDefineGMR2_numPages : Z;
}.

#[global] Instance SVGAFifoCmdDefineGMR2_c : CStruct SVGAFifoCmdDefineGMR2 :=
  struct{ word_c ⊗ word_c
  | fun r =>
      (r.(SVGAFifoCmdDefineGMR2_gmrId), r.(SVGAFifoCmdDefineGMR2_numPages))
  | fun '(gmrId_, numPages_) =>
      mk_SVGAFifoCmdDefineGMR2 gmrId_ numPages_ }.

(** Remap pages of a guest memory region; the page list follows. *)
Record SVGAFifoCmdRemapGMR2 := mk_SVGAFifoCmdRemapGMR2 {
  SVGAFifoCmdRemapGMR2_gmrId : Z;
  SVGAFifoCmdRemapGMR2_flags : Z;
  SVGAFifoCmdRemapGMR2_offsetPages : Z;
  SVGAFifoCmdRemapGMR2_numPages : Z;
}.

#[global] Instance SVGAFifoCmdRemapGMR2_c : CStruct SVGAFifoCmdRemapGMR2 :=
  struct{ word_c ⊗ word_c ⊗ word_c ⊗ word_c
  | fun r =>
      (r.(SVGAFifoCmdRemapGMR2_gmrId), (r.(SVGAFifoCmdRemapGMR2_flags),
      (r.(SVGAFifoCmdRemapGMR2_offsetPages), r.(SVGAFifoCmdRemapGMR2_numPages))))
  | fun '(gmrId_, (flags_, (offsetPages_, numPages_))) =>
      mk_SVGAFifoCmdRemapGMR2 gmrId_ flags_ offsetPages_ numPages_ }.

