(* ===== verification/SvgaCmd.v ===== *)
(** The command language of the FIFO: what a driver queues and how the device
    reads it (ceinclude/svga_reg.h, "Commands in the command FIFO").

    A command is a number followed by its parameters.  [encode_cmd] gives the
    words of a command; [decode_cmd] is the device's reading of the front of
    the queue, which finds the end of a variable-length command from its fixed
    part.  The two are inverse, so a stream of encoded commands is read back as
    exactly those commands. *)

From S2P Require Import Prelude Layout SvgaReg.

Inductive svga_cmd :=
  | CmdUpdate (a : SVGAFifoCmdUpdate)
  | CmdRectCopy (a : SVGAFifoCmdRectCopy)
  | CmdDefineAlphaCursor (a : SVGAFifoCmdDefineAlphaCursor) (image : list Z)
  | CmdFrontRopFill (a : SVGAFifoCmdFrontRopFill)
  | CmdFence (a : SVGAFifoCmdFence)
  | CmdEscape (a : SVGAFifoCmdEscape) (data : list Z)
  | CmdDefineScreen (structSize : Z) (rest : list Z)
  | CmdDestroyScreen (a : SVGAFifoCmdDestroyScreen)
  | CmdDefineGMRFB (a : SVGAFifoCmdDefineGMRFB)
  | CmdBlitGMRFBToScreen (a : SVGAFifoCmdBlitGMRFBToScreen)
  | CmdBlitScreenToGMRFB (a : SVGAFifoCmdBlitScreenToGMRFB)
  | CmdAnnotationFill (a : SVGAFifoCmdAnnotationFill)
  | CmdAnnotationCopy (a : SVGAFifoCmdAnnotationCopy)
  | CmdDefineGMR2 (a : SVGAFifoCmdDefineGMR2)
  | CmdRemapGMR2 (a : SVGAFifoCmdRemapGMR2) (suffix : list Z)
  | Cmd3D (id : Z) (body : list Z).

(** *** Lengths, in words, of the variable parts *)

(** The 32-bit BGRA image that follows a cursor definition. *)
Definition cursor_words (a : SVGAFifoCmdDefineAlphaCursor) : Z :=
  a.(SVGAFifoCmdDefineAlphaCursor_width) * a.(SVGAFifoCmdDefineAlphaCursor_height).

(** The data of an escape is padded to whole words. *)
Definition escape_words (a : SVGAFifoCmdEscape) : Z := (a.(SVGAFifoCmdEscape_size) + 3) / 4.

Definition SVGA_REMAP_GMR2_VIA_GMR : Z := Z.shiftl 1 0.
Definition SVGA_REMAP_GMR2_PPN64 : Z := Z.shiftl 1 1.
Definition SVGA_REMAP_GMR2_SINGLE_PPN : Z := Z.shiftl 1 2.

(** The page list of a remap: one [SVGAGuestPtr], or one entry, or an entry per
    page, of 32 or 64 bits each. *)
Definition remap_words (a : SVGAFifoCmdRemapGMR2) : Z :=
  let f := a.(SVGAFifoCmdRemapGMR2_flags) in
  if has_bits f SVGA_REMAP_GMR2_VIA_GMR then 2
  else (if has_bits f SVGA_REMAP_GMR2_SINGLE_PPN then 1 else a.(SVGAFifoCmdRemapGMR2_numPages))
       * (if has_bits f SVGA_REMAP_GMR2_PPN64 then 2 else 1).

Definition SVGA_3D_CMD_BASE : Z := 1040.
Definition SVGA_3D_CMD_FUTURE_MAX : Z := 2000.

Definition encode_cmd (c : svga_cmd) : list Z :=
  match c with
  | CmdUpdate a => (SVGA_CMD_UPDATE : Z) :: enc SVGAFifoCmdUpdate_c a
  | CmdRectCopy a => (SVGA_CMD_RECT_COPY : Z) :: enc SVGAFifoCmdRectCopy_c a
  | CmdDefineAlphaCursor a image =>
      (SVGA_CMD_DEFINE_ALPHA_CURSOR : Z) :: enc SVGAFifoCmdDefineAlphaCursor_c a ++ image
  | CmdFrontRopFill a => (SVGA_CMD_FRONT_ROP_FILL : Z) :: enc SVGAFifoCmdFrontRopFill_c a
  | CmdFence a => (SVGA_CMD_FENCE : Z) :: enc SVGAFifoCmdFence_c a
  | CmdEscape a data => (SVGA_CMD_ESCAPE : Z) :: enc SVGAFifoCmdEscape_c a ++ data
  | CmdDefineScreen n rest => (SVGA_CMD_DEFINE_SCREEN : Z) :: n :: rest
  | CmdDestroyScreen a => (SVGA_CMD_DESTROY_SCREEN : Z) :: enc SVGAFifoCmdDestroyScreen_c a
  | CmdDefineGMRFB a => (SVGA_CMD_DEFINE_GMRFB : Z) :: enc SVGAFifoCmdDefineGMRFB_c a
  | CmdBlitGMRFBToScreen a =>
      (SVGA_CMD_BLIT_GMRFB_TO_SCREEN : Z) :: enc SVGAFifoCmdBlitGMRFBToScreen_c a
  | CmdBlitScreenToGMRFB a =>
      (SVGA_CMD_BLIT_SCREEN_TO_GMRFB : Z) :: enc SVGAFifoCmdBlitScreenToGMRFB_c a
  | CmdAnnotationFill a => (SVGA_CMD_ANNOTATION_FILL : Z) :: enc SVGAFifoCmdAnnotationFill_c a
  | CmdAnnotationCopy a => (SVGA_CMD_ANNOTATION_COPY : Z) :: enc SVGAFifoCmdAnnotationCopy_c a
  | CmdDefineGMR2 a => (SVGA_CMD_DEFINE_GMR2 : Z) :: enc SVGAFifoCmdDefineGMR2_c a
  | CmdRemapGMR2 a suffix =>
      (SVGA_CMD_REMAP_GMR2 : Z) :: enc SVGAFifoCmdRemapGMR2_c a ++ suffix
  | Cmd3D id body => id :: 4 * Z.of_nat (length body) :: body
  end.

(** The first [n] words, if there are that many. *)
Definition take_words (n : Z) (l : list Z) : option (list Z * list Z) :=
  if (0 <=? n) && (n <=? Z.of_nat (length l)) then Some (take (Z.to_nat n) l, drop (Z.to_nat n) l)
  else None.

(** A fixed part alone, and a fixed part that announces a variable one. *)
Definition dec_fixed {A} (c : coder A) (mk : A -> svga_cmd) (l : list Z) :=
  '(a, l) ← dec c l; Some (mk a, l).
Definition dec_var {A} (c : coder A) (len : A -> Z) (mk : A -> list Z -> svga_cmd) (l : list Z) :=
  '(a, l) ← dec c l; '(v, l) ← take_words (len a) l; Some (mk a v, l).

Definition decode_2d (id : SVGAFifoCmdId) (l : list Z) : option (svga_cmd * list Z) :=
  match id with
  | SVGA_CMD_UPDATE => dec_fixed SVGAFifoCmdUpdate_c CmdUpdate l
  | SVGA_CMD_RECT_COPY => dec_fixed SVGAFifoCmdRectCopy_c CmdRectCopy l
  | SVGA_CMD_DEFINE_ALPHA_CURSOR =>
      dec_var SVGAFifoCmdDefineAlphaCursor_c cursor_words CmdDefineAlphaCursor l
  | SVGA_CMD_FRONT_ROP_FILL => dec_fixed SVGAFifoCmdFrontRopFill_c CmdFrontRopFill l
  | SVGA_CMD_FENCE => dec_fixed SVGAFifoCmdFence_c CmdFence l
  | SVGA_CMD_ESCAPE => dec_var SVGAFifoCmdEscape_c escape_words CmdEscape l
  | SVGA_CMD_DEFINE_SCREEN => dec_var word_c (fun n => n / 4 - 1) CmdDefineScreen l
  | SVGA_CMD_DESTROY_SCREEN => dec_fixed SVGAFifoCmdDestroyScreen_c CmdDestroyScreen l
  | SVGA_CMD_DEFINE_GMRFB => dec_fixed SVGAFifoCmdDefineGMRFB_c CmdDefineGMRFB l
  | SVGA_CMD_BLIT_GMRFB_TO_SCREEN =>
      dec_fixed SVGAFifoCmdBlitGMRFBToScreen_c CmdBlitGMRFBToScreen l
  | SVGA_CMD_BLIT_SCREEN_TO_GMRFB =>
      dec_fixed SVGAFifoCmdBlitScreenToGMRFB_c CmdBlitScreenToGMRFB l
  | SVGA_CMD_ANNOTATION_FILL => dec_fixed SVGAFifoCmdAnnotationFill_c CmdAnnotationFill l
  | SVGA_CMD_ANNOTATION_COPY => dec_fixed SVGAFifoCmdAnnotationCopy_c CmdAnnotationCopy l
  | SVGA_CMD_DEFINE_GMR2 => dec_fixed SVGAFifoCmdDefineGMR2_c CmdDefineGMR2 l
  | SVGA_CMD_REMAP_GMR2 => dec_var SVGAFifoCmdRemapGMR2_c remap_words CmdRemapGMR2 l
  | _ => None
  end.

Definition is_3d_cmd (id : Z) : bool := (SVGA_3D_CMD_BASE <=? id) && (id <? SVGA_3D_CMD_FUTURE_MAX).

Definition decode_cmd (l : list Z) : option (svga_cmd * list Z) :=
  match l with
  | [] => None
  | id :: l =>
      if is_3d_cmd id then
        match l with
        | [] => None
        | size :: l =>
            if size mod 4 =? 0 then '(b, l) ← take_words (size / 4) l; Some (Cmd3D id b, l)
            else None
        end
      else match of_cval id with Some id => decode_2d id l | None => None end
  end.

(** The whole queue, command by command. *)
Fixpoint decode_cmds (fuel : nat) (l : list Z) : option (list svga_cmd) :=
  match l, fuel with
  | [], _ => Some []
  | _, O => None
  | _, S fuel => '(c, l) ← decode_cmd l; cs ← decode_cmds fuel l; Some (c :: cs)
  end.

(** The parameters are in range, and a variable part has the length that its
    fixed part announces. *)
Definition var_ok (n : Z) (l : list Z) : Prop := Z.of_nat (length l) = n /\ Forall is_u32 l.

Definition cmd_ok (c : svga_cmd) : Prop :=
  match c with
  | CmdUpdate a => ok SVGAFifoCmdUpdate_c a
  | CmdRectCopy a => ok SVGAFifoCmdRectCopy_c a
  | CmdDefineAlphaCursor a v => ok SVGAFifoCmdDefineAlphaCursor_c a /\ var_ok (cursor_words a) v
  | CmdFrontRopFill a => ok SVGAFifoCmdFrontRopFill_c a
  | CmdFence a => ok SVGAFifoCmdFence_c a
  | CmdEscape a v => ok SVGAFifoCmdEscape_c a /\ var_ok (escape_words a) v
  | CmdDefineScreen n v => is_u32 n /\ var_ok (n / 4 - 1) v
  | CmdDestroyScreen a => ok SVGAFifoCmdDestroyScreen_c a
  | CmdDefineGMRFB a => ok SVGAFifoCmdDefineGMRFB_c a
  | CmdBlitGMRFBToScreen a => ok SVGAFifoCmdBlitGMRFBToScreen_c a
  | CmdBlitScreenToGMRFB a => ok SVGAFifoCmdBlitScreenToGMRFB_c a
  | CmdAnnotationFill a => ok SVGAFifoCmdAnnotationFill_c a
  | CmdAnnotationCopy a => ok SVGAFifoCmdAnnotationCopy_c a
  | CmdDefineGMR2 a => ok SVGAFifoCmdDefineGMR2_c a
  | CmdRemapGMR2 a v => ok SVGAFifoCmdRemapGMR2_c a /\ var_ok (remap_words a) v
  | Cmd3D id b =>
      is_3d_cmd id = true /\ is_u32 (4 * Z.of_nat (length b)) /\ Forall is_u32 b
  end.

(** ** Round trip *)

Lemma take_words_app n v l : var_ok n v -> take_words n (v ++ l) = Some (v, l).
Proof.
  intros [<- _]. unfold take_words. rewrite length_app.
  destruct (Z.leb_spec 0 (Z.of_nat (length v))); [|lia].
  destruct (Z.leb_spec (Z.of_nat (length v)) (Z.of_nat (length v + length l))); [|lia]; simpl.
  by rewrite Nat2Z.id, take_app_length, drop_app_length.
Qed.

Lemma take_words_inv n l v l' :
  Forall is_u32 l -> take_words n l = Some (v, l') -> l = v ++ l' /\ var_ok n v.
Proof.
  intros Hl. unfold take_words. destruct (Z.leb_spec 0 n); simpl; [|done].
  destruct (Z.leb_spec n (Z.of_nat (length l))); simpl; [|done]. intros [= <- <-].
  rewrite take_drop. split; [done|]. split; [rewrite length_take; lia|by apply Forall_take].
Qed.

Lemma dec_fixed_enc {A} (c : coder A) mk a l :
  ok c a -> dec_fixed c mk (enc c a ++ l) = Some (mk a, l).
Proof. intros. unfold dec_fixed. by rewrite dec_enc. Qed.

Lemma dec_var_enc {A} (c : coder A) len mk a v l :
  ok c a -> var_ok (len a) v -> dec_var c len mk ((enc c a ++ v) ++ l) = Some (mk a v, l).
Proof.
  intros. unfold dec_var. rewrite <-app_assoc, dec_enc by done. simpl. by rewrite take_words_app.
Qed.

Lemma decode_cmd_2d (id : SVGAFifoCmdId) l : decode_cmd ((id : Z) :: l) = decode_2d id l.
Proof.
  unfold decode_cmd. assert (is_3d_cmd id = false) as -> by (by destruct id).
  change (id : Z) with (cval id). by rewrite of_cval_cval.
Qed.

Create HintDb cmd discriminated.
#[export] Hint Resolve dec_fixed_enc dec_var_enc : cmd.

(** Two-dimensional commands: the number selects the reader of the parameters. *)
Ltac cmd_2d :=
  rewrite decode_cmd_2d; cbn [decode_2d];
  first [apply dec_fixed_enc; assumption | apply dec_var_enc; tauto].

(** The device reads an encoded command back, and reads on after it. *)
Lemma decode_encode_cmd c l : cmd_ok c -> decode_cmd (encode_cmd c ++ l) = Some (c, l).
Proof.
  destruct c; cbn [encode_cmd cmd_ok]; intros Hok; rewrite <-?app_comm_cons; try cmd_2d.
  - rewrite decode_cmd_2d.
    apply (dec_var_enc word_c (fun n => n / 4 - 1) CmdDefineScreen); apply Hok.
  - destruct Hok as (Hid & Hs & Hb). unfold decode_cmd. rewrite Hid.
    rewrite Z.mul_comm, Z_mod_mult, Z.div_mul by lia. simpl. rewrite take_words_app; [done|]. by split.
Qed.

Lemma encode_cmd_nonnil c : encode_cmd c <> [].
Proof. by destruct c. Qed.

(** A queue of encoded commands is read as those commands. *)
Lemma decode_cmds_encode cs fuel :
  Forall cmd_ok cs -> (length cs <= fuel)%nat -> decode_cmds fuel (cs ≫= encode_cmd) = Some cs.
Proof.
  intros Hcs. revert fuel. induction Hcs as [|c cs Hc _ IH]; intros fuel Hf; [by destruct fuel|].
  destruct fuel as [|fuel]; csimpl in *; [lia|].
  destruct (encode_cmd c) as [|w ws] eqn:E; [by destruct (encode_cmd_nonnil c)|].
  cbn [app decode_cmds]. rewrite app_comm_cons, <-E, decode_encode_cmd by done.
  simpl. by rewrite IH by lia.
Qed.

(** *** Canonicity: the device accepts nothing but encoded commands *)

Lemma dec_fixed_inv {A} (c : coder A) mk l x l' :
  Forall is_u32 l -> dec_fixed c mk l = Some (x, l') ->
  exists a, x = mk a /\ ok c a /\ l = enc c a ++ l'.
Proof.
  intros Hl. unfold dec_fixed. destruct (dec c l) as [[a l0]|] eqn:E; simpl; [|done].
  intros [= <- <-]. apply enc_dec in E as [-> ?]; eauto.
Qed.

Lemma dec_var_inv {A} (c : coder A) len mk l x l' :
  Forall is_u32 l -> dec_var c len mk l = Some (x, l') ->
  exists a v, x = mk a v /\ ok c a /\ var_ok (len a) v /\ l = (enc c a ++ v) ++ l'.
Proof.
  intros Hl. unfold dec_var. destruct (dec c l) as [[a l0]|] eqn:E; simpl; [|done].
  destruct (take_words (len a) l0) as [[v l1]|] eqn:E'; simpl; [|done]. intros [= <- <-].
  apply enc_dec in E as [-> ?]; [|done]. apply Forall_app in Hl as [_ Hl].
  apply take_words_inv in E' as [-> ?]; [|done]. rewrite app_assoc. eauto 10.
Qed.

Lemma decode_2d_inv id l c l' :
  Forall is_u32 l -> decode_2d id l = Some (c, l') ->
  (id : Z) :: l = encode_cmd c ++ l' /\ cmd_ok c.
Proof.
  intros Hl E. destruct id; cbn [decode_2d] in E; try done;
    (apply dec_fixed_inv in E as (a & -> & ? & ->); [|done])
    || (apply dec_var_inv in E as (a & v & -> & ? & ? & ->); [|done]);
    split; (reflexivity || assumption || by split).
Qed.

Lemma encode_decode_cmd l c l' :
  Forall is_u32 l -> decode_cmd l = Some (c, l') -> l = encode_cmd c ++ l' /\ cmd_ok c.
Proof.
  destruct l as [|id l]; [done|]. intros Hl. unfold decode_cmd.
  pose proof Hl as [Hid Hl']%Forall_cons_1.
  destruct (is_3d_cmd id) eqn:E3.
  - destruct l as [|size l]; [done|]. destruct (Z.eqb_spec (size mod 4) 0) as [Em|]; [|done].
    destruct (take_words (size / 4) l) as [[b l0]|] eqn:E; simpl; [|done]. intros [= <- <-].
    apply Forall_cons_1 in Hl' as [Hs Hl']. apply take_words_inv in E as [-> [Hlen Hb]]; [|done].
    assert (size = 4 * Z.of_nat (length b)) as Es by (rewrite Hlen; apply Z.div_exact; lia).
    simpl. rewrite <-Es. done.
  - destruct (of_cval id) as [i|] eqn:Ei; [|done]. apply cval_of_cval in Ei as <-.
    by apply decode_2d_inv.
Qed.
