(* ===== verification/Fifo.v ===== *)
(** The device object and its command FIFO (FB/SVGADevice.h, SVGADevice.cpp).

    [dev] is the state of a [SVGADevice]: its fields, the FIFO memory it shares
    with the device and the bounce buffer, both as words.  The device on the
    other side is a parameter, [SvgaHost]: it answers register accesses and may
    run whenever the driver reads a word that the device writes.  Operations
    are state transformers [M]; they carry the fuel that bounds the driver's
    busy loops, and a run that exhausts it is [None]. *)

From S2P Require Import Prelude Layout SvgaReg.

(** ** The device on the other side *)

Class SvgaHost (HS : Type) := {
  (** a write of a register: index and value *)
  host_write : HS -> (Z -> Z) -> Z -> Z -> HS * (Z -> Z);
  (** a read of a register *)
  host_read : HS -> (Z -> Z) -> Z -> Z * (HS * (Z -> Z));
  (** what the device does by itself between two accesses of the driver *)
  host_run : HS -> (Z -> Z) -> HS * (Z -> Z);
}.

(** ** Pointers: into the FIFO or into the bounce buffer, with a byte offset *)

Inductive area := InFifo | InBounce.
Record ptr := Ptr { p_area : area; p_off : Z }.
Definition ptr_add (p : ptr) (bytes : Z) : ptr := Ptr p.(p_area) (p.(p_off) + bytes).

Record dev (HS : Type) := Dev {
  fifo : Z -> Z;                     (** the words at [m_fifo_ptr] *)
  bounce : Z -> Z;                   (** the words at [m_bounce_buffer] *)
  host : HS;
  m_fifo_mapped : bool;              (** [m_fifo_ptr] is not null *)
  m_bounce_allocated : bool;         (** [m_bounce_buffer] is not null *)
  m_cursor_ptr : option ptr;
  m_fifo_size : Z;
  m_using_bounce_buffer : bool;
  m_reserved_size : Z;
  m_next_fence : Z;
  m_capabilities : Z;
  m_width : Z;
  m_height : Z;
  m_pitch : Z;
  m_max_width : Z;
  m_max_height : Z;
  m_max_gmr_ids : Z;
  m_max_gmr_descriptor_length : Z;
  m_max_gmr_pages : Z;
  m_total_memory : Z;
  m_fb_offset : Z;
  m_vram_size : Z;
  m_fb_size : Z;
}.
Arguments Dev {HS}.
Arguments fifo {HS}. Arguments bounce {HS}. Arguments host {HS}.
Arguments m_fifo_mapped {HS}. Arguments m_bounce_allocated {HS}. Arguments m_cursor_ptr {HS}.
Arguments m_fifo_size {HS}. Arguments m_using_bounce_buffer {HS}. Arguments m_reserved_size {HS}.
Arguments m_next_fence {HS}. Arguments m_capabilities {HS}. Arguments m_width {HS}.
Arguments m_height {HS}. Arguments m_pitch {HS}. Arguments m_max_width {HS}.
Arguments m_max_height {HS}. Arguments m_max_gmr_ids {HS}.
Arguments m_max_gmr_descriptor_length {HS}. Arguments m_max_gmr_pages {HS}.
Arguments m_total_memory {HS}. Arguments m_fb_offset {HS}. Arguments m_vram_size {HS}.
Arguments m_fb_size {HS}.

(** *** Setters *)

Definition set_fifo {HS} (f : Z -> Z) (d : dev HS) : dev HS :=
  Dev f d.(bounce) d.(host) d.(m_fifo_mapped) d.(m_bounce_allocated) d.(m_cursor_ptr)
    d.(m_fifo_size) d.(m_using_bounce_buffer) d.(m_reserved_size) d.(m_next_fence)
    d.(m_capabilities) d.(m_width) d.(m_height) d.(m_pitch) d.(m_max_width)
    d.(m_max_height) d.(m_max_gmr_ids) d.(m_max_gmr_descriptor_length)
    d.(m_max_gmr_pages) d.(m_total_memory) d.(m_fb_offset) d.(m_vram_size)
    d.(m_fb_size).
Definition set_bounce {HS} (b : Z -> Z) (d : dev HS) : dev HS :=
  Dev d.(fifo) b d.(host) d.(m_fifo_mapped) d.(m_bounce_allocated) d.(m_cursor_ptr)
    d.(m_fifo_size) d.(m_using_bounce_buffer) d.(m_reserved_size) d.(m_next_fence)
    d.(m_capabilities) d.(m_width) d.(m_height) d.(m_pitch) d.(m_max_width)
    d.(m_max_height) d.(m_max_gmr_ids) d.(m_max_gmr_descriptor_length)
    d.(m_max_gmr_pages) d.(m_total_memory) d.(m_fb_offset) d.(m_vram_size)
    d.(m_fb_size).
Definition set_host {HS} (h : HS) (f : Z -> Z) (d : dev HS) : dev HS :=
  Dev f d.(bounce) h d.(m_fifo_mapped) d.(m_bounce_allocated) d.(m_cursor_ptr)
    d.(m_fifo_size) d.(m_using_bounce_buffer) d.(m_reserved_size) d.(m_next_fence)
    d.(m_capabilities) d.(m_width) d.(m_height) d.(m_pitch) d.(m_max_width)
    d.(m_max_height) d.(m_max_gmr_ids) d.(m_max_gmr_descriptor_length)
    d.(m_max_gmr_pages) d.(m_total_memory) d.(m_fb_offset) d.(m_vram_size)
    d.(m_fb_size).
Definition set_cursor_ptr {HS} (p : option ptr) (d : dev HS) : dev HS :=
  Dev d.(fifo) d.(bounce) d.(host) d.(m_fifo_mapped) d.(m_bounce_allocated) p
    d.(m_fifo_size) d.(m_using_bounce_buffer) d.(m_reserved_size) d.(m_next_fence)
    d.(m_capabilities) d.(m_width) d.(m_height) d.(m_pitch) d.(m_max_width)
    d.(m_max_height) d.(m_max_gmr_ids) d.(m_max_gmr_descriptor_length)
    d.(m_max_gmr_pages) d.(m_total_memory) d.(m_fb_offset) d.(m_vram_size)
    d.(m_fb_size).
Definition set_using_bounce {HS} (b : bool) (d : dev HS) : dev HS :=
  Dev d.(fifo) d.(bounce) d.(host) d.(m_fifo_mapped) d.(m_bounce_allocated)
    d.(m_cursor_ptr) d.(m_fifo_size) b d.(m_reserved_size) d.(m_next_fence)
    d.(m_capabilities) d.(m_width) d.(m_height) d.(m_pitch) d.(m_max_width)
    d.(m_max_height) d.(m_max_gmr_ids) d.(m_max_gmr_descriptor_length)
    d.(m_max_gmr_pages) d.(m_total_memory) d.(m_fb_offset) d.(m_vram_size)
    d.(m_fb_size).
Definition set_reserved {HS} (n : Z) (d : dev HS) : dev HS :=
  Dev d.(fifo) d.(bounce) d.(host) d.(m_fifo_mapped) d.(m_bounce_allocated)
    d.(m_cursor_ptr) d.(m_fifo_size) d.(m_using_bounce_buffer) n d.(m_next_fence)
    d.(m_capabilities) d.(m_width) d.(m_height) d.(m_pitch) d.(m_max_width)
    d.(m_max_height) d.(m_max_gmr_ids) d.(m_max_gmr_descriptor_length)
    d.(m_max_gmr_pages) d.(m_total_memory) d.(m_fb_offset) d.(m_vram_size)
    d.(m_fb_size).
Definition set_next_fence {HS} (n : Z) (d : dev HS) : dev HS :=
  Dev d.(fifo) d.(bounce) d.(host) d.(m_fifo_mapped) d.(m_bounce_allocated)
    d.(m_cursor_ptr) d.(m_fifo_size) d.(m_using_bounce_buffer) d.(m_reserved_size) n
    d.(m_capabilities) d.(m_width) d.(m_height) d.(m_pitch) d.(m_max_width)
    d.(m_max_height) d.(m_max_gmr_ids) d.(m_max_gmr_descriptor_length)
    d.(m_max_gmr_pages) d.(m_total_memory) d.(m_fb_offset) d.(m_vram_size)
    d.(m_fb_size).
Definition set_mode {HS} (w h pitch fbs : Z) (d : dev HS) : dev HS :=
  Dev d.(fifo) d.(bounce) d.(host) d.(m_fifo_mapped) d.(m_bounce_allocated)
    d.(m_cursor_ptr) d.(m_fifo_size) d.(m_using_bounce_buffer) d.(m_reserved_size)
    d.(m_next_fence) d.(m_capabilities) w h pitch d.(m_max_width) d.(m_max_height)
    d.(m_max_gmr_ids) d.(m_max_gmr_descriptor_length) d.(m_max_gmr_pages)
    d.(m_total_memory) d.(m_fb_offset) d.(m_vram_size) fbs.
Definition set_capabilities {HS} (c : Z) (d : dev HS) : dev HS :=
  Dev d.(fifo) d.(bounce) d.(host) d.(m_fifo_mapped) d.(m_bounce_allocated)
    d.(m_cursor_ptr) d.(m_fifo_size) d.(m_using_bounce_buffer) d.(m_reserved_size)
    d.(m_next_fence) c d.(m_width) d.(m_height) d.(m_pitch) d.(m_max_width)
    d.(m_max_height) d.(m_max_gmr_ids) d.(m_max_gmr_descriptor_length)
    d.(m_max_gmr_pages) d.(m_total_memory) d.(m_fb_offset) d.(m_vram_size)
    d.(m_fb_size).
Definition set_mapped {HS} (fm ba : bool) (d : dev HS) : dev HS :=
  Dev d.(fifo) d.(bounce) d.(host) fm ba d.(m_cursor_ptr) d.(m_fifo_size)
    d.(m_using_bounce_buffer) d.(m_reserved_size) d.(m_next_fence) d.(m_capabilities)
    d.(m_width) d.(m_height) d.(m_pitch) d.(m_max_width) d.(m_max_height)
    d.(m_max_gmr_ids) d.(m_max_gmr_descriptor_length) d.(m_max_gmr_pages)
    d.(m_total_memory) d.(m_fb_offset) d.(m_vram_size) d.(m_fb_size).
Definition set_fifo_size {HS} (n : Z) (d : dev HS) : dev HS :=
  Dev d.(fifo) d.(bounce) d.(host) d.(m_fifo_mapped) d.(m_bounce_allocated)
    d.(m_cursor_ptr) n d.(m_using_bounce_buffer) d.(m_reserved_size) d.(m_next_fence)
    d.(m_capabilities) d.(m_width) d.(m_height) d.(m_pitch) d.(m_max_width)
    d.(m_max_height) d.(m_max_gmr_ids) d.(m_max_gmr_descriptor_length)
    d.(m_max_gmr_pages) d.(m_total_memory) d.(m_fb_offset) d.(m_vram_size)
    d.(m_fb_size).
Definition set_geometry {HS} (fbo fbs vram mw mh w h pitch : Z) (d : dev HS) : dev HS :=
  Dev d.(fifo) d.(bounce) d.(host) d.(m_fifo_mapped) d.(m_bounce_allocated)
    d.(m_cursor_ptr) d.(m_fifo_size) d.(m_using_bounce_buffer) d.(m_reserved_size)
    d.(m_next_fence) d.(m_capabilities) w h pitch mw mh d.(m_max_gmr_ids)
    d.(m_max_gmr_descriptor_length) d.(m_max_gmr_pages) d.(m_total_memory) fbo vram
    fbs.
Definition set_gmr_limits {HS} (ids len : Z) (d : dev HS) : dev HS :=
  Dev d.(fifo) d.(bounce) d.(host) d.(m_fifo_mapped) d.(m_bounce_allocated)
    d.(m_cursor_ptr) d.(m_fifo_size) d.(m_using_bounce_buffer) d.(m_reserved_size)
    d.(m_next_fence) d.(m_capabilities) d.(m_width) d.(m_height) d.(m_pitch)
    d.(m_max_width) d.(m_max_height) ids len d.(m_max_gmr_pages) d.(m_total_memory)
    d.(m_fb_offset) d.(m_vram_size) d.(m_fb_size).
Definition set_gmr2_limits {HS} (pages mem : Z) (d : dev HS) : dev HS :=
  Dev d.(fifo) d.(bounce) d.(host) d.(m_fifo_mapped) d.(m_bounce_allocated)
    d.(m_cursor_ptr) d.(m_fifo_size) d.(m_using_bounce_buffer) d.(m_reserved_size)
    d.(m_next_fence) d.(m_capabilities) d.(m_width) d.(m_height) d.(m_pitch)
    d.(m_max_width) d.(m_max_height) d.(m_max_gmr_ids) d.(m_max_gmr_descriptor_length)
    pages mem d.(m_fb_offset) d.(m_vram_size) d.(m_fb_size).

(** ** The state monad with fuel *)

Definition M (HS A : Type) := nat -> dev HS -> option (A * dev HS).
#[global] Instance M_ret {HS} : MRet (M HS) := fun _ a _ d => Some (a, d).
#[global] Instance M_bind {HS} : MBind (M HS) :=
  fun _ _ k m n d => match m n d with Some (a, d) => k a n d | None => None end.

Section fifo.
Context {HS : Type} `{SvgaHost HS}.
Implicit Types (d : dev HS).
Local Abbreviation M := (M HS).

Definition gets {A} (f : dev HS -> A) : M A := fun _ d => Some (f d, d).
Definition modify (f : dev HS -> dev HS) : M unit := fun _ d => Some (tt, f d).
Definition skip : M unit := mret tt.
Definition when (b : bool) (m : M unit) : M unit := if b then m else skip.

(** A word of the FIFO, read and written by the driver. *)
Definition getf (r : Z) : M Z := gets (fun d => d.(fifo) r).
Definition setf (r v : Z) : M unit := modify (fun d => set_fifo (upd d.(fifo) r v) d).

(** The device runs. *)
Definition hrun : M unit :=
  fun _ d => let '(h, f) := host_run d.(host) d.(fifo) in Some (tt, set_host h f d).

(** A word of the FIFO that the device writes: it may have run since. *)
Definition vgetf (r : Z) : M Z := hrun;; getf r.

(** A word stored through a pointer; [i] counts words from the pointer. *)
Definition store_words (p : ptr) (i : Z) (ws : list Z) : M unit :=
  modify (fun d =>
    match p.(p_area) with
    | InFifo => set_fifo (write_words d.(fifo) (p.(p_off) / 4 + i) ws) d
    | InBounce => set_bounce (write_words d.(bounce) (p.(p_off) / 4 + i) ws) d
    end).

(** ** Registers *)

Definition ReadReg (index : Z) : M Z := fun _ d =>
  let '(v, (h, f)) := host_read d.(host) d.(fifo) index in Some (v, set_host h f d).
Definition WriteReg (index value : Z) : M unit := fun _ d =>
  let '(h, f) := host_write d.(host) d.(fifo) index value in Some (tt, set_host h f d).

Definition FIFOFull : M unit := WriteReg SVGA_REG_SYNC 1;; ReadReg SVGA_REG_BUSY;; skip.

Definition HasCapability (mask : Z) : M bool := gets (fun d => has_bits d.(m_capabilities) mask).
Definition HasFIFOCap (mask : Z) : M bool :=
  c ← getf SVGA_FIFO_CAPABILITIES; mret (has_bits c mask).
Definition IsFIFORegValid (reg : Z) : M bool :=
  m ← getf SVGA_FIFO_MIN; mret (u32 (Z.shiftl reg 2) <? m).

(** ** FIFO *)

Definition BOUNCE_BUFFER_SIZE : Z := 0x10000.

(** The two ways in which [FIFOReserve] hands out memory. *)
Definition need_bounce : M ptr := modify (set_using_bounce true);; mret (Ptr InBounce 0).
Definition reserve_in_place (next_cmd bytes : Z) (reservable : bool) : M ptr :=
  if reservable || (bytes <=? 4) then
    modify (set_using_bounce false);;
    when reservable (setf SVGA_FIFO_RESERVED (u32 bytes));;
    mret (Ptr InFifo next_cmd)
  else need_bounce.

(** The loop of [FIFOReserve]; [None] inside is out of fuel. *)
Fixpoint reserve_loop (fuel : nat) (max min next_cmd bytes : Z) (reservable : bool)
    : dev HS -> option (ptr * dev HS) := fun d =>
  match fuel with
  | O => None
  | S fuel =>
      (stop ← vgetf SVGA_FIFO_STOP;
       let again : M ptr := fun _ => reserve_loop fuel max min next_cmd bytes reservable in
       let full : M ptr := FIFOFull;; again in
       if stop <=? next_cmd then
         if (u64 (next_cmd + bytes) <? max)
            || ((u64 (next_cmd + bytes) =? max) && (min <? stop))
         then reserve_in_place next_cmd bytes reservable
         else if u32 (u32 (max - next_cmd) + u32 (stop - min)) <=? bytes then full
         else need_bounce
       else
         if u64 (next_cmd + bytes) <? stop then reserve_in_place next_cmd bytes reservable
         else full) O d
  end.

Definition FIFOReserve (bytes : Z) : M (option ptr) :=
  max ← getf SVGA_FIFO_MAX;
  min ← getf SVGA_FIFO_MIN;
  next_cmd ← getf SVGA_FIFO_NEXT_CMD;
  reservable ← HasFIFOCap SVGA_FIFO_CAP_RESERVE;
  if (BOUNCE_BUFFER_SIZE <? bytes) || (u32 (max - min) <? bytes) then mret None
  else if negb (bytes mod 4 =? 0) then mret None
  else
    r ← gets m_reserved_size;
    if negb (r =? 0) then mret None
    else
      modify (set_reserved bytes);;
      p ← ((fun fuel => reserve_loop fuel max min next_cmd bytes reservable) : M ptr);
      mret (Some p).

Definition FIFOReserveCmd (type bytes : Z) : M (option ptr) :=
  cmd ← FIFOReserve (u64 (bytes + 4));
  match cmd with
  | None => mret None
  | Some cmd => store_words cmd 0 [type];; mret (Some (ptr_add cmd 4))
  end.

Definition FIFOReserveEscape (nsid bytes : Z) : M (option ptr) :=
  let padded_bytes := Z.land (u64 (bytes + 3)) (u64 (Z.lnot 3)) in
  header ← FIFOReserve (u64 (padded_bytes + 12));
  match header with
  | None => mret None
  | Some header =>
      store_words header 0 [(SVGA_CMD_ESCAPE : Z); nsid; u32 bytes];;
      mret (Some (ptr_add header 12))
  end.

(** The word-by-word copy of the bounce buffer; every store to NEXT_CMD hands
    a word to the device, which may run. *)
Fixpoint bounce_loop (n : nat) (i next_cmd max min : Z) : M unit :=
  match n with
  | O => skip
  | S n =>
      w ← gets (fun d => d.(bounce) i);
      setf (next_cmd / 4) w;;
      let next_cmd := u32 (next_cmd + 4) in
      let next_cmd := if next_cmd =? max then min else next_cmd in
      setf SVGA_FIFO_NEXT_CMD next_cmd;;
      hrun;;
      bounce_loop n (i + 1) next_cmd max min
  end.

(** The copy of the bounce buffer into the FIFO. *)
Definition commit_bounce (reservable : bool) (bytes next_cmd max min : Z) : M unit :=
  if reservable then
    let chunk_size := u32 (max - next_cmd) in
    let chunk_size := if bytes <? chunk_size then u32 bytes else chunk_size in
    setf SVGA_FIFO_RESERVED (u32 bytes);;
    modify (fun d =>
      set_fifo (write_words d.(fifo) (next_cmd / 4)
                  (read_words d.(bounce) 0 (chunk_size / 4))) d);;
    modify (fun d =>
      set_fifo (write_words d.(fifo) (min / 4)
                  (read_words d.(bounce) (chunk_size / 4) ((bytes - chunk_size) / 4))) d)
  else bounce_loop (Z.to_nat (bytes / 4)) 0 next_cmd max min.

(** The move of NEXT_CMD over words that are in place. *)
Definition commit_next (bytes next_cmd max min : Z) : M unit :=
  let next_cmd := u32 (next_cmd + u32 bytes) in
  let next_cmd := if max <=? next_cmd then u32 (next_cmd - u32 (max - min)) else next_cmd in
  setf SVGA_FIFO_NEXT_CMD next_cmd.

Definition FIFOCommit (bytes : Z) : M unit :=
  next_cmd ← getf SVGA_FIFO_NEXT_CMD;
  max ← getf SVGA_FIFO_MAX;
  min ← getf SVGA_FIFO_MIN;
  reservable ← HasFIFOCap SVGA_FIFO_CAP_RESERVE;
  if negb (bytes mod 4 =? 0) then skip
  else
    r ← gets m_reserved_size;
    if r =? 0 then skip
    else
      modify (set_reserved 0);;
      bounced ← gets m_using_bounce_buffer;
      when bounced (commit_bounce reservable bytes next_cmd max min);;
      when (negb bounced || reservable) (commit_next bytes next_cmd max min);;
      when reservable (setf SVGA_FIFO_RESERVED 0).

Definition FIFOCommitAll : M unit := r ← gets m_reserved_size; FIFOCommit r.
End fifo.
