(* ===== verification/Ring.v ===== *)
(** The FIFO seen from outside: a ring of words and the queue it holds.

    [ring_ok] is the well-formedness of the four ring registers, [queue] the
    words that the driver has committed and the device has not yet read.
    [host_step] is what the device may do to the FIFO memory, as documented in
    ceinclude/svga_reg.h: it consumes words from the front of the queue and
    writes only its own registers; [SvgaHostOK] states that a device does only
    this, and that it makes progress when it is asked to. *)

From S2P Require Import Prelude Layout SvgaReg Fifo.

Implicit Types (f : Z -> Z).

(** ** The ring *)

Definition rmin f : Z := f SVGA_FIFO_MIN / 4.
Definition rsize f : Z := (f SVGA_FIFO_MAX - f SVGA_FIFO_MIN) / 4.

(** Offsets, in words from the start of the ring. *)
Definition rhead f : Z := f SVGA_FIFO_STOP / 4 - rmin f.
Definition rtail f : Z := f SVGA_FIFO_NEXT_CMD / 4 - rmin f.

(** The number of queued words and the index of the [i]-th of them. *)
Definition used f : Z := (rtail f - rhead f) mod rsize f.
Definition slot f (i : Z) : Z := rmin f + (rhead f + i) mod rsize f.

Definition queue f : list Z := (fun i => f (slot f i)) <$> seqZ 0 (used f).

Definition aligned (x : Z) : Prop := x mod 4 = 0.

Record ring_ok f : Prop := {
  ring_min : 4 * SVGA_FIFO_NUM_REGS <= f SVGA_FIFO_MIN;
  ring_max : f SVGA_FIFO_MIN < f SVGA_FIFO_MAX <= 2 ^ 31;   (** the mapping is at most 2 GB *)
  ring_next : f SVGA_FIFO_MIN <= f SVGA_FIFO_NEXT_CMD < f SVGA_FIFO_MAX;
  ring_stop : f SVGA_FIFO_MIN <= f SVGA_FIFO_STOP < f SVGA_FIFO_MAX;
  ring_aligned : aligned (f SVGA_FIFO_MIN) /\ aligned (f SVGA_FIFO_MAX) /\
                 aligned (f SVGA_FIFO_NEXT_CMD) /\ aligned (f SVGA_FIFO_STOP);
}.

(** ** What the device may do *)

Definition host_regs : list Z :=
  [(SVGA_FIFO_STOP : Z); (SVGA_FIFO_FENCE : Z); (SVGA_FIFO_CURSOR_LAST_UPDATED : Z);
   (SVGA_FIFO_DEAD : Z); (SVGA_FIFO_BUSY : Z)].

Record host_step f (f' : Z -> Z) : Prop := {
  hs_frame i : ~ In i host_regs -> f' i = f i;
  hs_stop : exists k, 0 <= k <= used f /\ f' SVGA_FIFO_STOP = 4 * slot f k;
}.

Class SvgaHostOK (HS : Type) `{SvgaHost HS} := {
  host_run_step h f : ring_ok f -> host_step f (host_run h f).2;
  host_read_step h f r : ring_ok f -> host_step f (host_read h f r).2.2;
  host_write_step h f r v :
    r <> SVGA_REG_CONFIG_DONE -> ring_ok f -> host_step f (host_write h f r v).2;
  (** reading BUSY processes commands, if there are any *)
  host_busy_progress h f :
    ring_ok f -> 0 < used f -> used (host_read h f SVGA_REG_BUSY).2.2 < used f;
  (** BUSY reads as false when the queue has been drained, and only then *)
  host_busy_drained h f :
    ring_ok f ->
    (host_read h f SVGA_REG_BUSY).1 = 0 <-> used (host_read h f SVGA_REG_BUSY).2.2 = 0;
  (** taking the configuration over leaves the ring as the driver laid it out *)
  host_config_ring h f v (r : fifo_reg) :
    In r [SVGA_FIFO_MIN; SVGA_FIFO_MAX; SVGA_FIFO_NEXT_CMD; SVGA_FIFO_STOP] ->
    (host_write h f SVGA_REG_CONFIG_DONE v).2 r = f r;
}.

(** ** Arithmetic of the ring *)

(** The ring in words: every register is four times a word index. *)
Record ring_words f (m s h t : Z) : Prop := {
  rw_min : f SVGA_FIFO_MIN = 4 * m;
  rw_max : f SVGA_FIFO_MAX = 4 * (m + s);
  rw_stop : f SVGA_FIFO_STOP = 4 * (m + h);
  rw_next : f SVGA_FIFO_NEXT_CMD = 4 * (m + t);
  rw_range : SVGA_FIFO_NUM_REGS <= m /\ 0 < s /\ m + s <= 2 ^ 29 /\ 0 <= h < s /\ 0 <= t < s;
}.

Lemma ring_ok_words f : ring_ok f <-> exists m s h t, ring_words f m s h t.
Proof.
  split.
  - intros [? ? ? ? (a & b & c & e)]. unfold aligned in *.
    apply Z.div_exact in a, b, c, e; try lia.
    exists (f SVGA_FIFO_MIN / 4), (f SVGA_FIFO_MAX / 4 - f SVGA_FIFO_MIN / 4),
      (f SVGA_FIFO_STOP / 4 - f SVGA_FIFO_MIN / 4), (f SVGA_FIFO_NEXT_CMD / 4 - f SVGA_FIFO_MIN / 4).
    split; cbn in *; lia.
  - intros (m & s & h & t & [? ? ? ? ?]). cbn in *.
    assert (Hal : forall x y, y = 4 * x -> aligned y).
    { intros x y ->. unfold aligned. rewrite Z.mul_comm. apply Z_mod_mult. }
    split; cbn; try lia. eauto 10.
Qed.

Lemma ring_words_defs f m s h t :
  ring_words f m s h t ->
  rmin f = m /\ rsize f = s /\ rhead f = h /\ rtail f = t.
Proof.
  intros [E1 E2 E3 E4 ?]. unfold rhead, rtail, rsize, rmin. rewrite E1, E2, E3, E4.
  replace (4 * (m + s) - 4 * m) with (s * 4) by lia.
  rewrite !(Z.mul_comm 4), !Z.div_mul by lia. lia.
Qed.

Lemma used_words f m s h t :
  ring_words f m s h t -> used f = if h <=? t then t - h else t - h + s.
Proof.
  intros R. pose proof (ring_words_defs _ _ _ _ _ R) as (? & Es & Eh & Et).
  destruct R as [_ _ _ _ Hr]. unfold used. rewrite Es, Eh, Et. zcase.
  - apply Z.mod_small. lia.
  - rewrite <-(Z_mod_plus_full _ 1), Z.mod_small; lia.
Qed.

Lemma slot_words f m s h t i :
  ring_words f m s h t -> 0 <= i < s -> slot f i = if h + i <? s then m + (h + i) else m + (h + i - s).
Proof.
  intros R Hi. pose proof (ring_words_defs _ _ _ _ _ R) as (Em & Es & Eh & Et).
  destruct R as [_ _ _ _ Hr]. unfold slot. rewrite Em, Es, Eh. zcase.
  - rewrite Z.mod_small; lia.
  - rewrite <-(Z_mod_plus_full _ (-1)), Z.mod_small; lia.
Qed.

Lemma used_range f : ring_ok f -> 0 <= used f < rsize f.
Proof.
  intros (m & s & h & t & R)%ring_ok_words.
  pose proof (ring_words_defs _ _ _ _ _ R) as (_ & Es & _ & _).
  destruct R. unfold used. apply Z.mod_pos_bound. lia.
Qed.

Lemma slot_range f i : ring_ok f -> rmin f <= slot f i < rmin f + rsize f.
Proof.
  intros (m & s & h & t & R)%ring_ok_words.
  pose proof (ring_words_defs _ _ _ _ _ R) as (Em & Es & _ & _). destruct R.
  unfold slot. pose proof (Z.mod_pos_bound (rhead f + i) (rsize f)). lia.
Qed.

Lemma rmin_regs f : ring_ok f -> SVGA_FIFO_NUM_REGS <= rmin f.
Proof.
  intros (m & s & h & t & R)%ring_ok_words.
  pose proof (ring_words_defs _ _ _ _ _ R) as (-> & _). apply R.
Qed.

Lemma length_queue f : length (queue f) = Z.to_nat (used f).
Proof. unfold queue. by rewrite length_fmap, length_seqZ. Qed.

(** ** The queue under changes of the memory *)

(** Two memories with the same ring and the same words in it. *)
Lemma queue_ext f (g : Z -> Z) :
  ring_ok f ->
  (forall r : fifo_reg, In r [SVGA_FIFO_MIN; SVGA_FIFO_MAX; SVGA_FIFO_NEXT_CMD; SVGA_FIFO_STOP] ->
     g r = f r) ->
  (forall i, 0 <= i < used f -> g (slot f i) = f (slot f i)) ->
  ring_ok g /\ used g = used f /\ (forall i, slot g i = slot f i) /\ queue g = queue f.
Proof.
  intros Rf Er Es.
  assert (g SVGA_FIFO_MIN = f SVGA_FIFO_MIN) as E1 by (apply Er; simpl; tauto).
  assert (g SVGA_FIFO_MAX = f SVGA_FIFO_MAX) as E2 by (apply Er; simpl; tauto).
  assert (g SVGA_FIFO_NEXT_CMD = f SVGA_FIFO_NEXT_CMD) as E3 by (apply Er; simpl; tauto).
  assert (g SVGA_FIFO_STOP = f SVGA_FIFO_STOP) as E4 by (apply Er; simpl; tauto).
  assert (used g = used f) as Eu.
  { unfold used, rtail, rhead, rsize, rmin. by rewrite E1, E2, E3, E4. }
  assert (forall i, slot g i = slot f i) as Esl.
  { intros i. unfold slot, rhead, rsize, rmin. by rewrite E1, E2, E4. }
  split; [|split; [done|split; [done|]]].
  - destruct Rf. split; rewrite ?E1, ?E2, ?E3, ?E4; done.
  - unfold queue. rewrite Eu. apply fmap_seqZ_ext. intros i Hi.
    rewrite Esl. apply Es. lia.
Qed.

(** The device takes the first words of the queue. *)
Lemma host_step_queue f f' :
  ring_ok f -> host_step f f' ->
  ring_ok f' /\ rsize f' = rsize f /\ rmin f' = rmin f /\ used f' <= used f /\
  f' SVGA_FIFO_MIN = f SVGA_FIFO_MIN /\ f' SVGA_FIFO_MAX = f SVGA_FIFO_MAX /\
  f' SVGA_FIFO_NEXT_CMD = f SVGA_FIFO_NEXT_CMD /\
  f' SVGA_FIFO_CAPABILITIES = f SVGA_FIFO_CAPABILITIES /\
  exists pre, queue f = pre ++ queue f'.
Proof.
  intros Rf [Hf (k & Hk & Est)]. pose proof Rf as (m & s & h & t & R)%ring_ok_words.
  pose proof (used_words _ _ _ _ _ R) as Eu. pose proof (used_range f Rf) as Hu.
  pose proof (ring_words_defs _ _ _ _ _ R) as (Em & Es & Eh & Et). rewrite Es in Hu.
  assert (forall i, slot f i = m + (h + i) mod s) as Esl.
  { intros i. unfold slot. by rewrite Em, Es, Eh. }
  pose proof (slot_words f m s h t k R ltac:(lia)) as Ek. pose proof R as [E1 E2 E3 E4 Hr].
  assert (E1' : f' SVGA_FIFO_MIN = f SVGA_FIFO_MIN) by (apply Hf; cbn; lia).
  assert (E2' : f' SVGA_FIFO_MAX = f SVGA_FIFO_MAX) by (apply Hf; cbn; lia).
  assert (E4' : f' SVGA_FIFO_NEXT_CMD = f SVGA_FIFO_NEXT_CMD) by (apply Hf; cbn; lia).
  assert (E5' : f' SVGA_FIFO_CAPABILITIES = f SVGA_FIFO_CAPABILITIES) by (apply Hf; cbn; lia).
  assert (R' : ring_words f' m s (slot f k - m) t).
  { rewrite E1 in E1'. rewrite E2 in E2'. rewrite E4 in E4'.
    split; [done|done|rewrite Est; lia|done|].
    clear -Hr Hk Hu Ek. rewrite Ek. zcase; cbn in *; lia. }
  pose proof (used_words _ _ _ _ _ R') as Eu'.
  pose proof (ring_words_defs _ _ _ _ _ R') as (Em' & Es' & Eh' & Et').
  assert (Eu2 : used f' = used f - k).
  { rewrite Eu', Eu, Ek. rewrite Eu in Hk. clear -Hk Hr. zcase. }
  assert (ring_ok f') as Rf' by (apply ring_ok_words; eauto).
  split; [done|]. rewrite Es', Es, Em', Em.
  do 2 (split; [done|]). split; [lia|]. do 4 (split; [done|]).
  exists (take (Z.to_nat k) (queue f)).
  rewrite <-(take_drop (Z.to_nat k) (queue f)) at 1. f_equal.
  unfold queue. rewrite drop_fmap_seqZ by lia. rewrite Eu2. apply fmap_seqZ_ext. intros i Hi.
  assert (slot f' i = slot f (k + i)) as ->.
  { rewrite Esl. unfold slot at 1. rewrite Em', Es', Eh', Ek. f_equal. clear.
    zcase; [f_equal; lia|]. rewrite <-(Z_mod_plus_full _ 1). f_equal. lia. }
  symmetry. apply Hf. pose proof (slot_range f (k + i) Rf). pose proof (rmin_regs f Rf).
  cbn in *. lia.
Qed.

(** The [j]-th free word after the queue. *)
Definition tslot f (j : Z) : Z := rmin f + (rtail f + j) mod rsize f.

Lemma tslot_slot f j : ring_ok f -> slot f (used f + j) = tslot f j.
Proof.
  intros Rf. pose proof (used_range f Rf). unfold slot, tslot, used. f_equal.
  rewrite Z.add_assoc, (Z.add_comm (rhead f)), <-Z.add_assoc, Zplus_mod_idemp_l.
  f_equal. lia.
Qed.

Lemma tslot_words f m s h t j :
  ring_words f m s h t -> 0 <= j < s -> tslot f j = if t + j <? s then m + (t + j) else m + (t + j - s).
Proof.
  intros R Hi. pose proof (ring_words_defs _ _ _ _ _ R) as (Em & Es & Eh & Et).
  destruct R as [_ _ _ _ Hr]. unfold tslot. rewrite Em, Es, Et. zcase.
  - rewrite Z.mod_small; lia.
  - rewrite <-(Z_mod_plus_full _ (-1)), Z.mod_small; lia.
Qed.

(** Queued words and free words are different words. *)
Lemma slot_tslot_ne f i j :
  ring_ok f -> 0 <= i < used f -> 0 <= j -> used f + j < rsize f -> slot f i <> tslot f j.
Proof.
  intros Rf Hi Hj Huj. pose proof Rf as (m & s & h & t & R)%ring_ok_words.
  pose proof (used_words _ _ _ _ _ R) as Eu.
  pose proof (ring_words_defs _ _ _ _ _ R) as (Em & Es & Eh & Et). rewrite Es in Huj.
  pose proof (rw_range _ _ _ _ _ R) as Hr.
  rewrite (slot_words f m s h t i R), (tslot_words f m s h t j R) by lia.
  rewrite Eu in Hi, Huj. clear -Hi Hj Huj Hr. zcase.
Qed.

(** The driver appends words: this is the whole effect of a commit. *)
Lemma enqueue f (g : Z -> Z) ws :
  ring_ok f ->
  used f + Z.of_nat (length ws) < rsize f ->
  g SVGA_FIFO_MIN = f SVGA_FIFO_MIN ->
  g SVGA_FIFO_MAX = f SVGA_FIFO_MAX ->
  g SVGA_FIFO_STOP = f SVGA_FIFO_STOP ->
  g SVGA_FIFO_NEXT_CMD = 4 * tslot f (Z.of_nat (length ws)) ->
  (forall i, 0 <= i < used f -> g (slot f i) = f (slot f i)) ->
  (forall j w, ws !! j = Some w -> g (tslot f (Z.of_nat j)) = w) ->
  ring_ok g /\ rsize g = rsize f /\ rmin g = rmin f /\
  used g = used f + Z.of_nat (length ws) /\ queue g = queue f ++ ws.
Proof.
  intros Rf Hlen Emin Emax Estop Enext Hold Hnew.
  pose proof Rf as (m & s & h & t & R)%ring_ok_words.
  pose proof (used_words _ _ _ _ _ R) as Eu.
  pose proof (ring_words_defs _ _ _ _ _ R) as (Em & Es & Eh & Et).
  pose proof (rw_range _ _ _ _ _ R) as Hr. pose proof (used_range f Rf) as Hu.
  set (n := Z.of_nat (length ws)) in *. assert (0 <= n) by lia.
  pose proof (tslot_words f m s h t n R ltac:(lia)) as Ets.
  assert (R' : ring_words g m s h (tslot f n - m)).
  { destruct R as [E1 E2 E3 E4 _]. split; [congruence..|lia|]. clear -Ets Hr Hlen Hu Es H.
    rewrite Ets. zcase. }
  assert (Rg : ring_ok g) by (apply ring_ok_words; eauto).
  pose proof (ring_words_defs _ _ _ _ _ R') as (Em' & Es' & Eh' & Et').
  assert (Eu' : used g = used f + n).
  { rewrite (used_words _ _ _ _ _ R'), Eu, Ets. rewrite Es, Eu in Hlen. clear -Hlen Hr H. zcase. }
  split; [done|]. rewrite Es', Es, Em', Em. do 2 (split; [done|]). split; [done|].
  unfold queue. rewrite Eu', seqZ_app, fmap_app by lia. f_equal.
  - apply fmap_seqZ_ext. intros i Hi. rewrite <-Hold by lia. f_equal.
    unfold slot. by rewrite Em', Em, Es', Es, Eh', Eh.
  - apply list_eq. intros j. destruct (decide (j < length ws)%nat) as [Hj|Hj].
    + pose proof Hj as [w Hw]%lookup_lt_is_Some. rewrite Hw. apply list_lookup_fmap_Some.
      exists (0 + used f + Z.of_nat j). split; [|apply lookup_seqZ; lia].
      rewrite <-(Hnew j w Hw), <-tslot_slot by done. f_equal.
      unfold slot. by rewrite Em', Em, Es', Es, Eh', Eh.
    + rewrite !lookup_ge_None_2; [done|lia|rewrite length_fmap, length_seqZ; lia].
Qed.

(** ** A device that satisfies the laws *)

(** Registers are memory; a read of BUSY drains the queue. *)
#[global] Instance sync_host : SvgaHost (Z -> Z) := {|
  host_write h f r v := (upd h r v, f);
  host_read h f r :=
    if r =? SVGA_REG_BUSY then (0, (h, upd f SVGA_FIFO_STOP (f SVGA_FIFO_NEXT_CMD)))
    else (h r, (h, f));
  host_run h f := (h, f) |}.

Lemma host_step_refl f : ring_ok f -> host_step f f.
Proof.
  intros R. pose proof (used_range f R). split; [done|]. exists 0. split; [lia|].
  pose proof R as (m & s & h & t & Rw)%ring_ok_words.
  pose proof (rw_range _ _ _ _ _ Rw) as Hr.
  rewrite (slot_words f m s h t 0 Rw) by lia. rewrite (rw_stop _ _ _ _ _ Rw). clear -Hr. zcase.
Qed.

Lemma drain_step f : ring_ok f -> host_step f (upd f SVGA_FIFO_STOP (f SVGA_FIFO_NEXT_CMD)) /\
  used (upd f SVGA_FIFO_STOP (f SVGA_FIFO_NEXT_CMD)) = 0.
Proof.
  intros R. pose proof (used_range f R) as Hu. split; [split|].
  - intros i Hi. apply upd_ne. intros ->. apply Hi. by left.
  - exists (used f). split; [lia|]. rewrite upd_eq.
    pose proof (tslot_slot f 0 R) as E. rewrite Z.add_0_r in E. rewrite E.
    pose proof R as (m & s & h & t & Rw)%ring_ok_words. pose proof (rw_range _ _ _ _ _ Rw) as Hr.
    rewrite (tslot_words f m s h t 0 Rw) by lia. rewrite (rw_next _ _ _ _ _ Rw). clear -Hr. zcase.
  - unfold used, rtail, rhead. rewrite upd_eq, upd_ne by done. rewrite Z.sub_diag. apply Zmod_0_l.
Qed.

#[global] Instance sync_host_ok : SvgaHostOK (Z -> Z).
Proof.
  split.
  - intros. by apply host_step_refl.
  - intros h f r R. simpl. destruct (r =? 22); [by apply drain_step|by apply host_step_refl].
  - intros. by apply host_step_refl.
  - intros h f R Hu. destruct (drain_step f R) as [_ E]. simpl in *. lia.
  - intros h f R. by destruct (drain_step f R).
  - done.
Qed.
