(* ===== verification/FifoProofs.v ===== *)
(** Correctness of the FIFO: [FIFOReserve], stores and [FIFOCommit] together
    append exactly the stored words to the queue that the device reads,
    whatever the device does meanwhile, and the reservation loop ends.

    [emits m d a ws] is the contract that every command function meets: run
    from the idle state [d], [m] returns [a] and the queue has grown by [ws]
    at its end (the device may have consumed words at its front). *)

From S2P Require Import Prelude Layout SvgaReg Fifo Ring.

(** ** Progress of the device *)

(** The memory after any number of steps of the device and of writes to
    RESERVED: words have left the front of the queue and nothing else. *)
Record adv (f f' : Z -> Z) : Prop := {
  adv_ring : ring_ok f';
  adv_used : used f' <= used f;
  adv_regs i : i < SVGA_FIFO_NUM_REGS -> i <> SVGA_FIFO_RESERVED -> ~ In i host_regs -> f' i = f i;
  adv_queue : exists pre, queue f = pre ++ queue f';
}.

Lemma adv_refl f : ring_ok f -> adv f f.
Proof. intros. split; [done|lia|done|by exists []]. Qed.

Lemma adv_trans f g h : adv f g -> adv g h -> adv f h.
Proof.
  intros [? ? Hr [p E]] [? ? Hr' [p' E']]. split; [done|lia| |].
  - intros. rewrite Hr', Hr by done. done.
  - exists (p ++ p'). by rewrite E, E', app_assoc.
Qed.

Lemma adv_host f f' : ring_ok f -> host_step f f' -> adv f f'.
Proof.
  intros Hf Hs. pose proof (host_step_queue _ _ Hf Hs) as (? & ? & ? & ? & ? & ? & ? & ? & ?).
  split; [done..| |done]. intros. by apply Hs.
Qed.

Lemma adv_upd f r v :
  ring_ok f -> r < SVGA_FIFO_NUM_REGS -> r = SVGA_FIFO_RESERVED \/ In r host_regs ->
  ~ In r [(SVGA_FIFO_MIN : Z); (SVGA_FIFO_MAX : Z); (SVGA_FIFO_NEXT_CMD : Z); (SVGA_FIFO_STOP : Z)] -> adv f (upd f r v).
Proof.
  intros Hf Hn Hr Hq. destruct (queue_ext f (upd f r v)) as (? & ? & ? & E); [done|..].
  - intros x Hx. apply upd_ne. intros Ex. apply Hq. simpl in Hx. rewrite <-Ex. simpl. intuition subst; tauto.
  - intros i _. apply upd_ne. pose proof (slot_range f i Hf). pose proof (rmin_regs f Hf).
    cbn in *. lia.
  - split; [done|lia| |exists []; by rewrite E]. intros i ? ? ?. apply upd_ne. intros ->. tauto.
Qed.

Lemma adv_reserved f v : ring_ok f -> adv f (upd f SVGA_FIFO_RESERVED v).
Proof. intros. apply adv_upd; [done|done|by left|]. simpl. intuition done. Qed.

Lemma adv_busy f v : ring_ok f -> adv f (upd f SVGA_FIFO_BUSY v).
Proof. intros. apply adv_upd; [done|done|right; simpl; tauto|]. simpl. intuition done. Qed.

Section adv.
Context {f f' : Z -> Z} (H : adv f f').

Lemma adv_MIN : f' SVGA_FIFO_MIN = f SVGA_FIFO_MIN.
Proof. apply H; cbn; lia. Qed.
Lemma adv_MAX : f' SVGA_FIFO_MAX = f SVGA_FIFO_MAX.
Proof. apply H; cbn; lia. Qed.
Lemma adv_NEXT_CMD : f' SVGA_FIFO_NEXT_CMD = f SVGA_FIFO_NEXT_CMD.
Proof. apply H; cbn; lia. Qed.
Lemma adv_CAPABILITIES : f' SVGA_FIFO_CAPABILITIES = f SVGA_FIFO_CAPABILITIES.
Proof. apply H; cbn; lia. Qed.
Lemma adv_rsize : rsize f' = rsize f.
Proof. unfold rsize. by rewrite adv_MIN, adv_MAX. Qed.
Lemma adv_rmin : rmin f' = rmin f.
Proof. unfold rmin. by rewrite adv_MIN. Qed.
End adv.

(** ** The device object *)

(** The fields that the FIFO operations leave alone. *)
Definition dev_rest {HS} (d : dev HS) :=
  (d.(m_fifo_mapped), d.(m_bounce_allocated), d.(m_cursor_ptr), d.(m_fifo_size),
   d.(m_next_fence), d.(m_capabilities), (d.(m_width), d.(m_height), d.(m_pitch)),
   (d.(m_max_width), d.(m_max_height)), d.(m_max_gmr_ids),
   (d.(m_max_gmr_descriptor_length), d.(m_max_gmr_pages), d.(m_total_memory)),
   (d.(m_fb_offset), d.(m_vram_size), d.(m_fb_size))).

Definition reservable {HS} (d : dev HS) : bool :=
  has_bits (d.(fifo) SVGA_FIFO_CAPABILITIES) SVGA_FIFO_CAP_RESERVE.

(** Ready for a reservation. *)
Definition idle {HS} (d : dev HS) : Prop := ring_ok d.(fifo) /\ d.(m_reserved_size) = 0.

(** [n] words are reserved at [p]: there is room for them after the queue, and
    a reservation in place ends before the end of the ring. *)
Record pending {HS} (d : dev HS) (p : ptr) (n : Z) : Prop := {
  pd_ring : ring_ok d.(fifo);
  pd_size : d.(m_reserved_size) = 4 * n;
  pd_bound : 0 < n <= 0x4000;
  pd_room : used d.(fifo) + n < rsize d.(fifo);
  pd_place :
    if d.(m_using_bounce_buffer) then p = Ptr InBounce 0
    else p = Ptr InFifo (d.(fifo) SVGA_FIFO_NEXT_CMD) /\ rtail d.(fifo) + n <= rsize d.(fifo);
}.

(** The words that the client has stored in its reservation. *)
Definition region {HS} (d : dev HS) (p : ptr) (n : Z) : list Z :=
  match p.(p_area) with
  | InFifo => read_words d.(fifo) (p.(p_off) / 4) n
  | InBounce => read_words d.(bounce) (p.(p_off) / 4) n
  end.

Section proofs.
Context {HS : Type} `{SvgaHostOK HS}.
Implicit Types (d : dev HS).

Lemma hrun_spec n d :
  ring_ok d.(fifo) ->
  exists d', hrun n d = Some (tt, d') /\ adv d.(fifo) d'.(fifo) /\ d'.(bounce) = d.(bounce) /\
    d'.(m_using_bounce_buffer) = d.(m_using_bounce_buffer) /\
    d'.(m_reserved_size) = d.(m_reserved_size) /\ dev_rest d' = dev_rest d.
Proof.
  intros R. unfold hrun. pose proof (host_run_step d.(host) d.(fifo) R) as Hs.
  destruct (host_run d.(host) d.(fifo)) as [h f]. eexists. split; [done|].
  split; [by apply adv_host|done].
Qed.

Lemma FIFOFull_adv n d :
  ring_ok d.(fifo) ->
  exists d', FIFOFull n d = Some (tt, d') /\ adv d.(fifo) d'.(fifo) /\
    (0 < used d.(fifo) -> used d'.(fifo) < used d.(fifo)) /\
    d'.(m_reserved_size) = d.(m_reserved_size) /\ dev_rest d' = dev_rest d.
Proof.
  intros R. cbv [FIFOFull mbind M_bind WriteReg ReadReg skip mret M_ret].
  pose proof (host_write_step d.(host) d.(fifo) SVGA_REG_SYNC 1 ltac:(done) R) as Hw.
  destruct (host_write d.(host) d.(fifo) SVGA_REG_SYNC 1) as [h f]; simpl in *.
  apply adv_host in Hw as Ha; [|done]. pose proof (adv_ring _ _ Ha) as Rf.
  pose proof (host_read_step h f SVGA_REG_BUSY Rf) as Hr.
  pose proof (host_busy_progress h f Rf) as Hp.
  simpl in *. destruct (host_read h f _) as [v [h' f']]; simpl in *.
  apply adv_host in Hr; [|done]. eexists. split; [done|]. simpl.
  split; [by eapply adv_trans|]. split; [|done].
  intros. pose proof (adv_used _ _ Ha). pose proof (adv_used _ _ Hr).
  destruct (Z.lt_ge_cases 0 (used f)); [specialize (Hp ltac:(done)); lia|lia].
Qed.

(** What the operations keep of the state: the memory has only advanced. *)
Definition keeps d d' : Prop :=
  adv d.(fifo) d'.(fifo) /\ dev_rest d' = dev_rest d.

Lemma keeps_trans d1 d2 d3 : keeps d1 d2 -> keeps d2 d3 -> keeps d1 d3.
Proof.
  intros [? ?] [? ?]. split; [by eapply adv_trans|congruence].
Qed.

Lemma need_bounce_spec d n :
  ring_ok d.(fifo) -> d.(m_reserved_size) = 4 * n -> 0 < n <= 0x4000 ->
  used d.(fifo) + n < rsize d.(fifo) ->
  forall k, exists p d', need_bounce k d = Some (p, d') /\ pending d' p n /\ keeps d d'.
Proof.
  intros R Hs Hn Hu k. do 2 eexists. split; [reflexivity|]. split; [by split|].
  split; [by apply adv_refl|done].
Qed.

Lemma in_place_spec d n :
  ring_ok d.(fifo) -> d.(m_reserved_size) = 4 * n -> 0 < n <= 0x4000 ->
  used d.(fifo) + n < rsize d.(fifo) -> rtail d.(fifo) + n <= rsize d.(fifo) ->
  forall k, exists p d',
    reserve_in_place (d.(fifo) SVGA_FIFO_NEXT_CMD) (4 * n) (reservable d) k d = Some (p, d') /\
    pending d' p n /\ keeps d d'.
Proof.
  intros R Hs Hn Hu Ht k. unfold reserve_in_place.
  destruct (reservable d || (4 * n <=? 4)); [|by apply need_bounce_spec].
  destruct (reservable d); do 2 eexists; (split; [reflexivity|]).
  - pose proof (adv_reserved d.(fifo) (u32 (4 * n)) R) as Ha.
    split; [|by split]. pose proof (adv_used _ _ Ha). pose proof (adv_rsize Ha) as Es.
    split; simpl in *; [apply Ha|done|done|lia|]. rewrite Es.
    split; [done|]. unfold rtail in *. rewrite (adv_rmin Ha). by mem_simpl.
  - split; [by split|]. split; [by apply adv_refl|done].
Qed.

Lemma mbind_eq {A B} (m : M HS A) (k : A -> M HS B) n d a d' :
  m n d = Some (a, d') -> (m ≫= k) n d = k a n d'.
Proof. intros E. unfold mbind, M_bind. by rewrite E. Qed.

Lemma bind_inv {A B} (m : M HS A) (k : A -> M HS B) n d b d' :
  (m ≫= k) n d = Some (b, d') -> exists a d1, m n d = Some (a, d1) /\ k a n d1 = Some (b, d').
Proof. unfold mbind, M_bind. destruct (m n d) as [[a d1]|]; [|done]. eauto. Qed.

(** The reservation of [n] words is made, and the device has only consumed meanwhile. *)
Definition reserves (n : Z) (d : dev HS) (x : option (ptr * dev HS)) : Prop :=
  exists p d', x = Some (p, d') /\ pending d' p n /\ keeps d d'.

Lemma reserves_keeps n d d1 x : keeps d d1 -> reserves n d1 x -> reserves n d x.
Proof. intros Hk (p & d' & -> & Hp & Hk'). exists p, d'. split; [done|]. split; [done|]. by eapply keeps_trans. Qed.

Lemma reservable_adv d d1 : adv d.(fifo) d1.(fifo) -> reservable d1 = reservable d.
Proof. intros Ha. unfold reservable. by rewrite (adv_CAPABILITIES Ha). Qed.

(** One round, with what happens after a full ring as a parameter. *)
Lemma reserve_round n d (full : M HS ptr) :
  0 < n <= 0x4000 -> ring_ok d.(fifo) -> n < rsize d.(fifo) -> d.(m_reserved_size) = 4 * n ->
  (0 < used d.(fifo) -> reserves n d (full O d)) ->
  let max := d.(fifo) SVGA_FIFO_MAX in let min := d.(fifo) SVGA_FIFO_MIN in
  let next_cmd := d.(fifo) SVGA_FIFO_NEXT_CMD in let stop := d.(fifo) SVGA_FIFO_STOP in
  let bytes := 4 * n in
  reserves n d
    ((if stop <=? next_cmd then
        if (u64 (next_cmd + bytes) <? max) || ((u64 (next_cmd + bytes) =? max) && (min <? stop))
        then reserve_in_place next_cmd bytes (reservable d)
        else if u32 (u32 (max - next_cmd) + u32 (stop - min)) <=? bytes then full
        else need_bounce
      else
        if u64 (next_cmd + bytes) <? stop then reserve_in_place next_cmd bytes (reservable d)
        else full) O d).
Proof.
  intros Hn R Hsz Hres Hfull. cbv zeta.
  pose proof R as (m & s & h & t & Rw)%ring_ok_words.
  pose proof (ring_words_defs _ _ _ _ _ Rw) as (Em & Es & Eh & Et).
  pose proof (used_words _ _ _ _ _ Rw) as Eu.
  assert (forall k, used d.(fifo) + n < s -> t + n <= s ->
    reserves n d (reserve_in_place (d.(fifo) SVGA_FIFO_NEXT_CMD) (4 * n) (reservable d) k d)) as Hip.
  { intros k ? ?. by apply in_place_spec; [..|rewrite Es|rewrite Et, Es]. }
  assert (used d.(fifo) + n < s -> reserves n d (need_bounce O d)) as Hnb.
  { intros ?. by apply need_bounce_spec; [..|rewrite Es]. }
  destruct Rw as [E1 E2 E3 E4 Hr]. rewrite E1, E2, E3, E4 in *.
  rewrite !(wrap_small 64) by (unfold fits; cbn in Hr; lia).
  rewrite !(wrap_small 32 (_ - _)) by (unfold fits; cbn in Hr; lia). rewrite Eu in *.
  destruct (Z.leb_spec (4 * (m + h)) (4 * (m + t))) as [Hht|Hht].
  - rewrite (wrap_small 32 (4 * (m + s) - _ + _)) by (unfold fits; cbn in Hr; lia).
    destruct (Z.leb_spec h t); [|lia]. destruct ((_ <? _) || _) eqn:Eb.
    + apply Hip; revert Eb; zcase.
    + destruct (Z.leb_spec (4 * (m + s) - 4 * (m + t) + (4 * (m + h) - 4 * m)) (4 * n)).
      * apply Hfull. revert Eb; zcase.
      * apply Hnb. zcase.
  - destruct (Z.leb_spec h t); [lia|]. destruct (Z.ltb_spec (4 * (m + t) + 4 * n) (4 * (m + h))).
    + apply Hip; lia.
    + apply Hfull. lia.
Qed.

(** The loop ends within as many rounds as there are queued words. *)
Lemma reserve_loop_spec n : 0 < n <= 0x4000 -> forall fuel d,
  ring_ok d.(fifo) -> n < rsize d.(fifo) -> d.(m_reserved_size) = 4 * n ->
  (Z.to_nat (used d.(fifo)) < fuel)%nat ->
  reserves n d
    (reserve_loop fuel (d.(fifo) SVGA_FIFO_MAX) (d.(fifo) SVGA_FIFO_MIN)
      (d.(fifo) SVGA_FIFO_NEXT_CMD) (4 * n) (reservable d) d).
Proof.
  intros Hn fuel. induction fuel as [|fuel IH]; intros d R Hsz Hres Hf; [lia|].
  destruct (hrun_spec O d R) as (d1 & E & Ha & Hb & Hub & Hrs & Hrest).
  apply (reserves_keeps n d d1); [done|].
  cbn [reserve_loop]. rewrite (mbind_eq _ _ O d (d1.(fifo) SVGA_FIFO_STOP) d1)
    by (unfold vgetf; by rewrite (mbind_eq _ _ O d tt d1)).
  rewrite <-(adv_MAX Ha), <-(adv_MIN Ha), <-(adv_NEXT_CMD Ha), <-(reservable_adv d d1 Ha).
  pose proof (adv_ring _ _ Ha) as R1. pose proof (adv_used _ _ Ha) as Hu1.
  apply reserve_round; [done|done|by rewrite (adv_rsize Ha)|congruence|]. intros Hu.
  destruct (FIFOFull_adv O d1 R1) as (d2 & E2 & Ha2 & Hu2%(fun f => f Hu) & Hrs2 & Hrest2).
  rewrite (mbind_eq _ _ O d1 tt d2 E2). apply (reserves_keeps n d1 d2); [by split|].
  rewrite <-(adv_MAX Ha2), <-(adv_MIN Ha2), <-(adv_NEXT_CMD Ha2), <-(reservable_adv d1 d2 Ha2).
  apply IH; [apply Ha2|by rewrite (adv_rsize Ha2), (adv_rsize Ha)|congruence|].
  pose proof (used_range _ R1). lia.
Qed.

(** *** Reservation *)

Lemma FIFOReserve_unfold bytes fuel d :
  FIFOReserve bytes fuel d =
  if (BOUNCE_BUFFER_SIZE <? bytes) ||
     (u32 (d.(fifo) SVGA_FIFO_MAX - d.(fifo) SVGA_FIFO_MIN) <? bytes) then Some (None, d)
  else if negb (bytes mod 4 =? 0) then Some (None, d)
  else if negb (d.(m_reserved_size) =? 0) then Some (None, d)
  else
    match reserve_loop fuel (d.(fifo) SVGA_FIFO_MAX) (d.(fifo) SVGA_FIFO_MIN)
            (d.(fifo) SVGA_FIFO_NEXT_CMD) bytes (reservable d) (set_reserved bytes d) with
    | Some (p, d') => Some (Some p, d')
    | None => None
    end.
Proof.
  unfold FIFOReserve, reservable.
  cbv [mbind M_bind mret M_ret getf gets HasFIFOCap modify].
  destruct (_ || _); [done|]. destruct (negb (bytes mod 4 =? 0)); [done|].
  by destruct (negb (_ =? 0)).
Qed.

Lemma FIFOReserve_spec n d fuel :
  idle d -> 0 < n <= 0x4000 -> n < rsize d.(fifo) -> (Z.to_nat (used d.(fifo)) < fuel)%nat ->
  exists p d', FIFOReserve (4 * n) fuel d = Some (Some p, d') /\ pending d' p n /\ keeps d d'.
Proof.
  intros [R Hr] Hn Hs Hf. rewrite FIFOReserve_unfold.
  pose proof R as (m & s & h & t & Rw)%ring_ok_words.
  pose proof (ring_words_defs _ _ _ _ _ Rw) as (Em & Es & Eh & Et).
  pose proof Rw as [E1 E2 _ _ Hw]. rewrite Es in Hs.
  destruct (reserve_loop_spec n Hn fuel (set_reserved (4 * n) d)) as (p & d' & E & Hp & Hk);
    [done|simpl; lia|done|done|].
  change (reserve_loop fuel (d.(fifo) SVGA_FIFO_MAX) (d.(fifo) SVGA_FIFO_MIN)
    (d.(fifo) SVGA_FIFO_NEXT_CMD) (4 * n) (reservable d) (set_reserved (4 * n) d) = Some (p, d'))
    in E. rewrite E, E1, E2, Hr.
  rewrite wrap_small by (unfold fits; cbn in Hw; lia). unfold BOUNCE_BUFFER_SIZE.
  rewrite (Z.mul_comm 4 n), Z_mod_mult. simpl negb. zcase. eauto.
Qed.

(** *** Stores into a reservation *)

Lemma length_region d p n : length (region d p n) = Z.to_nat n.
Proof. unfold region. case_match; apply length_read_words. Qed.

(** In place, the [j]-th reserved word is the [j]-th free word. *)
Lemma in_place_tslot f n j :
  ring_ok f -> rtail f + n <= rsize f -> 0 <= j < n -> tslot f j = f SVGA_FIFO_NEXT_CMD / 4 + j.
Proof.
  intros (m & s & h & t & Rw)%ring_ok_words Hn Hj.
  pose proof (ring_words_defs _ _ _ _ _ Rw) as (Em & Es & Eh & Et). rewrite Es, Et in Hn.
  pose proof Rw as [_ _ _ E4 Hr]. rewrite (tslot_words f m s h t j Rw) by lia.
  rewrite E4, Z.mul_comm, Z.div_mul by lia. zcase.
Qed.

Lemma write_in_place f n i ws :
  ring_ok f -> used f + n < rsize f -> rtail f + n <= rsize f ->
  0 <= i -> i + Z.of_nat (length ws) <= n ->
  let g := write_words f (f SVGA_FIFO_NEXT_CMD / 4 + i) ws in
  adv f g /\ used g = used f /\ rtail g = rtail f.
Proof.
  intros R Hu Ht Hi Hw g.
  assert (forall k, (forall j, 0 <= j < n -> k <> tslot f j) -> g k = f k) as Hout.
  { intros k Hk. apply write_words_out.
    destruct (Z.lt_ge_cases k (f SVGA_FIFO_NEXT_CMD / 4 + i)); [by left|]. right.
    destruct (Z.lt_ge_cases k (f SVGA_FIFO_NEXT_CMD / 4 + i + Z.of_nat (length ws))); [|lia].
    destruct (Hk (k - f SVGA_FIFO_NEXT_CMD / 4)); [lia|].
    rewrite (in_place_tslot f n) by (done || lia). lia. }
  assert (forall k, k < SVGA_FIFO_NUM_REGS -> g k = f k) as Hregs.
  { intros k Hk. apply Hout. intros j Hj ->. rewrite <-tslot_slot in Hk by done.
    pose proof (slot_range f (used f + j) R). pose proof (rmin_regs f R). lia. }
  destruct (queue_ext f g) as (Rg & Eu & _ & Eq); [done|..].
  - intros r Hr. apply Hregs. simpl in Hr. intuition subst; done.
  - intros k Hk. apply Hout. intros j Hj. apply slot_tslot_ne; try done; lia.
  - split; [|split; [done|]].
    + split; [done|lia| |exists []; by rewrite Eq]. intros. by apply Hregs.
    + unfold rtail, rmin. by rewrite !Hregs.
Qed.

Lemma store_words_spec p n i ws k d :
  pending d p n -> 0 <= i -> i + Z.of_nat (length ws) <= n ->
  exists d', store_words p i ws k d = Some (tt, d') /\ pending d' p n /\ keeps d d' /\
    region d' p n = take (Z.to_nat i) (region d p n) ++ ws ++
                    drop (Z.to_nat i + length ws) (region d p n).
Proof.
  intros Hp Hi Hw. pose proof Hp as [R Hs Hb Hroom Hpl]. eexists. split; [reflexivity|].
  destruct (m_using_bounce_buffer d) eqn:Eu.
  - subst p. simpl. split; [split; simpl; rewrite ?Eu; done|].
    split; [split; [by apply adv_refl|done]|]. unfold region. simpl. by apply read_write_region.
  - destruct Hpl as [-> Hpl]. simpl.
    destruct (write_in_place d.(fifo) n i ws) as (Ha & Hu & Ht); try done.
    split; [|split; [by split|]].
    + pose proof (adv_rsize Ha) as Es. pose proof (adv_NEXT_CMD Ha) as En.
      pose proof (adv_ring _ _ Ha) as R'. simpl in *.
      split; simpl; rewrite ?Eu, ?Es, ?Hu, ?Ht, ?En; done.
    + unfold region. simpl. by apply read_write_region.
Qed.

Lemma store_ptr_add p k i ws : store_words (HS:=HS) (ptr_add p (4 * k)) i ws = store_words p (k + i) ws.
Proof.
  unfold store_words, ptr_add. simpl. rewrite (Z.mul_comm 4 k), Z.div_add by lia.
  by rewrite Z.add_assoc.
Qed.

(** The pointers past a command number, a 3D header and an escape header. *)
Lemma store_ptr_add4 p i ws : store_words (HS:=HS) (ptr_add p 4) i ws = store_words p (1 + i) ws.
Proof. apply (store_ptr_add p 1). Qed.
Lemma store_ptr_add8 p i ws : store_words (HS:=HS) (ptr_add p 8) i ws = store_words p (2 + i) ws.
Proof. apply (store_ptr_add p 2). Qed.
Lemma store_ptr_add12 p i ws : store_words (HS:=HS) (ptr_add p 12) i ws = store_words p (3 + i) ws.
Proof. apply (store_ptr_add p 3). Qed.

(** *** Commit *)

(** What a commit keeps: all registers but its own and the device's. *)
Definition frame d d' : Prop :=
  (forall i, i < SVGA_FIFO_NUM_REGS -> i <> SVGA_FIFO_NEXT_CMD -> i <> SVGA_FIFO_RESERVED ->
     ~ In i host_regs -> d'.(fifo) i = d.(fifo) i) /\ dev_rest d' = dev_rest d.

Lemma keeps_frame d d' : keeps d d' -> frame d d'.
Proof. intros [Ha ?]. split; [|done]. intros. by apply Ha. Qed.

Lemma frame_trans d1 d2 d3 : frame d1 d2 -> frame d2 d3 -> frame d1 d3.
Proof. intros [E1 ?] [E2 ?]. split; [|congruence]. intros. by rewrite E2, E1. Qed.

(** The new NEXT_CMD, computed with wrap-around, is the end of the new words. *)
Lemma next_cmd_tslot f n :
  ring_ok f -> 0 <= n <= 0x4000 -> n < rsize f ->
  let next_cmd := u32 (f SVGA_FIFO_NEXT_CMD + u32 (4 * n)) in
  (if f SVGA_FIFO_MAX <=? next_cmd
   then u32 (next_cmd - u32 (f SVGA_FIFO_MAX - f SVGA_FIFO_MIN)) else next_cmd) = 4 * tslot f n.
Proof.
  intros (m & s & h & t & Rw)%ring_ok_words Hn Hs.
  pose proof (ring_words_defs _ _ _ _ _ Rw) as (Em & Es & Eh & Et). rewrite Es in Hs.
  pose proof Rw as [E1 E2 E3 E4 Hr]. rewrite (tslot_words f m s h t n Rw) by lia.
  rewrite E1, E2, E4. cbv zeta. cbn in Hr. rewrite (wrap_small 32 (4 * n)) by (unfold fits; lia).
  rewrite (wrap_small 32 (4 * (m + s) - _)) by (unfold fits; lia).
  rewrite (wrap_small 32 (_ + _)) by (unfold fits; lia). zcase.
  rewrite wrap_small by (unfold fits; lia). lia.
Qed.

(** Moving NEXT_CMD over words that are in place hands them to the device. *)
Lemma publish f f1 v ws :
  let n := Z.of_nat (length ws) in
  ring_ok f -> used f + n < rsize f ->
  (forall k, k < SVGA_FIFO_NUM_REGS -> k <> SVGA_FIFO_RESERVED -> f1 k = f k) ->
  (forall i, 0 <= i < used f -> f1 (slot f i) = f (slot f i)) ->
  (forall j w, ws !! j = Some w -> f1 (tslot f (Z.of_nat j)) = w) ->
  v = 4 * tslot f n ->
  let g := upd f1 SVGA_FIFO_NEXT_CMD v in
  ring_ok g /\ rsize g = rsize f /\ rmin g = rmin f /\
  used g = used f + n /\ queue g = queue f ++ ws.
Proof.
  intros n R Hu Hregs Hold Hnew -> g.
  assert (forall k, rmin f <= k -> g k = f1 k) as Hg.
  { intros k Hk. apply upd_ne. pose proof (rmin_regs f R). cbn in *. lia. }
  apply enqueue; try done.
  - unfold g. rewrite upd_ne by done. by apply Hregs.
  - unfold g. rewrite upd_ne by done. by apply Hregs.
  - unfold g. rewrite upd_ne by done. by apply Hregs.
  - intros i Hi. rewrite Hg by (apply slot_range; done). by apply Hold.
  - intros j w Hj. rewrite Hg; [by apply Hnew|]. rewrite <-tslot_slot by done. by apply slot_range.
Qed.

(** The copy of the bounce buffer in two pieces around the end of the ring. *)
Lemma split_copy f b n v :
  let t := rtail f in let s := rsize f in
  let c := if n <? s - t then n else s - t in
  let f1 := write_words (write_words (upd f SVGA_FIFO_RESERVED v) (rmin f + t) (read_words b 0 c))
              (rmin f) (read_words b c (n - c)) in
  ring_ok f -> 0 < n -> used f + n < s ->
  (forall k, k < SVGA_FIFO_NUM_REGS -> k <> SVGA_FIFO_RESERVED -> f1 k = f k) /\
  (forall i, 0 <= i < used f -> f1 (slot f i) = f (slot f i)) /\
  (forall j w, read_words b 0 n !! j = Some w -> f1 (tslot f (Z.of_nat j)) = w).
Proof.
  intros t s c f1 R Hn Hu. pose proof R as (m & s' & h & t' & Rw)%ring_ok_words.
  pose proof (ring_words_defs _ _ _ _ _ Rw) as (Em & Es & Eh & Et).
  pose proof (used_words _ _ _ _ _ Rw) as Eu. pose proof (rw_range _ _ _ _ _ Rw) as Hr.
  fold t in Et. fold s in Es. subst s' t'.
  assert (f1 = write_words (write_words (upd f SVGA_FIFO_RESERVED v) (m + t) (read_words b 0 c))
                 m (read_words b c (n - c))) as Ef1 by (unfold f1; by rewrite Em).
  clearbody f1. pose proof (used_range f R) as Hu0. fold s in Hu0.
  assert (0 <= c <= n) as Hc by (unfold c; zcase).
  assert (forall k, ~ (m + t <= k < m + t + c) -> ~ (m <= k < m + (n - c)) ->
            f1 k = upd f SVGA_FIFO_RESERVED v k) as Hout.
  { intros k Hk1 Hk2. rewrite Ef1, !write_words_out; [done|..];
      rewrite length_read_words; lia. }
  split; [|split].
  - intros k Hk1 Hk2. rewrite Hout by lia. by apply upd_ne.
  - intros i Hi. rewrite (slot_words f m s h t i Rw) by lia. rewrite Eu in Hi, Hu.
    rewrite Hout; [apply upd_ne; cbn in *; zcase|..]; unfold c in *; clear -Hi Hu Hr Hn; zcase.
  - intros j w Hj. pose proof Hj as Hjn%lookup_lt_Some. rewrite length_read_words in Hjn.
    rewrite (tslot_words f m s h t _ Rw) by lia.
    replace n with (c + (n - c)) in Hj by lia. rewrite read_words_app in Hj by lia.
    destruct (Z.lt_ge_cases (Z.of_nat j) c) as [Hjc|Hjc].
    + rewrite lookup_app_l in Hj by (rewrite length_read_words; lia).
      destruct (Z.ltb_spec (t + Z.of_nat j) s); [|unfold c in *; zcase].
      rewrite Ef1, write_words_out.
      2: { rewrite length_read_words. unfold c in *. rewrite Eu in Hu. clear -Hu Hr Hn Hjc. zcase. }
      rewrite Z.add_assoc. by apply write_words_lookup.
    + rewrite lookup_app_r in Hj by (rewrite length_read_words; lia).
      rewrite length_read_words in Hj.
      destruct (Z.ltb_spec (t + Z.of_nat j) s); [unfold c in *; zcase|].
      replace (m + (t + Z.of_nat j - s)) with (m + Z.of_nat (j - Z.to_nat c))
        by (unfold c in *; zcase).
      rewrite Ef1. by apply write_words_lookup.
Qed.

(** One word of the word-by-word copy. *)
Lemma bounce_step f w :
  ring_ok f -> used f + 1 < rsize f ->
  let next_cmd := u32 (f SVGA_FIFO_NEXT_CMD + 4) in
  let next_cmd := if next_cmd =? f SVGA_FIFO_MAX then f SVGA_FIFO_MIN else next_cmd in
  let g := upd (upd f (f SVGA_FIFO_NEXT_CMD / 4) w) SVGA_FIFO_NEXT_CMD next_cmd in
  ring_ok g /\ rsize g = rsize f /\ rmin g = rmin f /\ used g = used f + 1 /\
  queue g = queue f ++ [w] /\
  (forall k, k < SVGA_FIFO_NUM_REGS -> k <> SVGA_FIFO_NEXT_CMD -> g k = f k).
Proof.
  intros R Hu. pose proof R as (m & s & h & t & Rw)%ring_ok_words.
  pose proof (ring_words_defs _ _ _ _ _ Rw) as (Em & Es & Eh & Et).
  pose proof (used_range f R) as Hu0. rewrite Es in Hu, Hu0.
  pose proof Rw as [E1 E2 E3 E4 Hr]. pose proof (tslot_words f m s h t 0 Rw ltac:(lia)) as T0.
  pose proof (tslot_words f m s h t 1 Rw ltac:(lia)) as T1.
  intros next_cmd0 next_cmd g.
  assert (f SVGA_FIFO_NEXT_CMD / 4 = tslot f 0) as Et0.
  { rewrite E4, Z.mul_comm, Z.div_mul, T0 by lia. clear -Hr. zcase. }
  assert (next_cmd = 4 * tslot f 1) as En.
  { unfold next_cmd, next_cmd0. rewrite E1, E2, E4. rewrite wrap_small by (unfold fits; cbn in Hr; lia).
    rewrite T1. clear -Hr. zcase. }
  assert (SVGA_FIFO_NUM_REGS <= tslot f 0).
  { rewrite T0. clear -Hr. cbn in *. zcase. }
  assert (forall k, k < SVGA_FIFO_NUM_REGS -> upd f (f SVGA_FIFO_NEXT_CMD / 4) w k = f k) as Hregs.
  { intros k Hk. apply upd_ne. rewrite Et0. lia. }
  destruct (publish f (upd f (f SVGA_FIFO_NEXT_CMD / 4) w) next_cmd [w]) as (? & ? & ? & ? & ?).
  - done.
  - simpl. lia.
  - intros. by apply Hregs.
  - intros i Hi. apply upd_ne. rewrite Et0. apply slot_tslot_ne; try done; lia.
  - intros [|j] w' ?; simplify_eq/=. rewrite Et0. apply upd_eq.
  - done.
  - do 5 (split; [done|]). intros k Hk1 Hk2. unfold g. rewrite upd_ne by done. by apply Hregs.
Qed.

Lemma bounce_loop_spec k n : forall i d,
  ring_ok d.(fifo) -> used d.(fifo) + Z.of_nat n < rsize d.(fifo) ->
  exists d' pre,
    bounce_loop n i (d.(fifo) SVGA_FIFO_NEXT_CMD) (d.(fifo) SVGA_FIFO_MAX)
      (d.(fifo) SVGA_FIFO_MIN) k d = Some (tt, d') /\
    ring_ok d'.(fifo) /\ frame d d' /\ d'.(m_reserved_size) = d.(m_reserved_size) /\
    pre ++ queue d'.(fifo) = queue d.(fifo) ++ read_words d.(bounce) i (Z.of_nat n).
Proof.
  induction n as [|n IH]; intros i d R Hu.
  { exists d, []. rewrite read_words_nil, app_nil_r by done. split; [done|]. by split. }
  destruct (bounce_step d.(fifo) (d.(bounce) i) R) as (Rg & Sg & Mg & Ug & Qg & Hg); [lia|].
  cbn [bounce_loop].
  set (nx := if u32 (d.(fifo) SVGA_FIFO_NEXT_CMD + 4) =? d.(fifo) SVGA_FIFO_MAX
             then d.(fifo) SVGA_FIFO_MIN else u32 (d.(fifo) SVGA_FIFO_NEXT_CMD + 4)) in *.
  set (g := upd (upd d.(fifo) (d.(fifo) SVGA_FIFO_NEXT_CMD / 4) (d.(bounce) i))
              SVGA_FIFO_NEXT_CMD nx) in *.
  set (d1 := set_fifo g (set_fifo (upd d.(fifo) (d.(fifo) SVGA_FIFO_NEXT_CMD / 4) (d.(bounce) i)) d)).
  destruct (hrun_spec k d1 Rg) as (d2 & E & Ha & Hb & Hub & Hrs & Hrest).
  destruct (IH (i + 1) d2) as (d' & pre & E' & R' & Hf & Hrs' & Hq).
  { apply Ha. } { rewrite (adv_rsize Ha). pose proof (adv_used _ _ Ha). simpl in *. lia. }
  assert (g SVGA_FIFO_NEXT_CMD = nx) as Enx by apply upd_eq.
  assert (g SVGA_FIFO_MAX = d.(fifo) SVGA_FIFO_MAX) as Emx by (by apply Hg).
  assert (g SVGA_FIFO_MIN = d.(fifo) SVGA_FIFO_MIN) as Emn by (by apply Hg).
  destruct (adv_queue _ _ Ha) as [pre0 Hq0].
  exists d', (pre0 ++ pre). split; [|split; [done|split; [|split; [by rewrite Hrs', Hrs|]]]].
  - rewrite (adv_NEXT_CMD Ha), (adv_MAX Ha), (adv_MIN Ha) in E'.
    change (fifo d1) with g in E'. rewrite Enx, Emx, Emn in E'.
    rewrite (mbind_eq _ _ k d (d.(bounce) i) d eq_refl).
    rewrite (mbind_eq _ _ k d tt _ eq_refl). cbv zeta. fold nx.
    rewrite (mbind_eq (setf SVGA_FIFO_NEXT_CMD nx) _ k _ tt d1) by reflexivity.
    by rewrite (mbind_eq _ _ k d1 tt d2 E).
  - eapply frame_trans; [|done]. split; [|done]. intros j ? ? ? ?.
    rewrite (adv_regs _ _ Ha) by done. by apply Hg.
  - rewrite <-app_assoc, Hq, app_assoc, <-Hq0. simpl fifo. rewrite Qg, Hb, <-app_assoc.
    rewrite (read_words_cons _ i) by lia. simpl bounce. do 3 f_equal. lia.
Qed.

(** The outcome of a commit of [ws]: an idle device whose queue ends with [ws]. *)
Definition committed d d' (ws : list Z) : Prop :=
  idle d' /\ frame d d' /\ exists pre, pre ++ queue d'.(fifo) = queue d.(fifo) ++ ws.

(** The last step of a commit. *)
Lemma commit_end d d1 ws b k :
  ring_ok d1.(fifo) -> d1.(m_reserved_size) = 0 -> frame d d1 ->
  (exists pre, pre ++ queue d1.(fifo) = queue d.(fifo) ++ ws) ->
  exists d', when b (setf SVGA_FIFO_RESERVED 0) k d1 = Some (tt, d') /\ committed d d' ws.
Proof.
  intros R Hr Hf [pre Hq]. pose proof (adv_reserved d1.(fifo) 0 R) as Ha.
  assert (keeps d1 (set_fifo (upd d1.(fifo) SVGA_FIFO_RESERVED 0) d1)) as Hk by (by split).
  destruct b; eexists; (split; [reflexivity|]).
  - split; [split; [apply Ha|done]|]. split; [by eapply frame_trans, keeps_frame|].
    destruct (adv_queue _ _ Ha) as [pre' E]. exists (pre ++ pre').
    by rewrite <-Hq, <-app_assoc, E.
  - split; [done|]. eauto.
Qed.

Lemma publish_frame d f1 v :
  (forall k, k < SVGA_FIFO_NUM_REGS -> k <> SVGA_FIFO_RESERVED -> f1 k = d.(fifo) k) ->
  forall d1, d1.(fifo) = upd f1 SVGA_FIFO_NEXT_CMD v -> dev_rest d1 = dev_rest d -> frame d d1.
Proof. intros Hf d1 E Hr. split; [|done]. intros i ? ? ? ?. rewrite E, upd_ne by done. by apply Hf. Qed.

Lemma FIFOCommit_unfold bytes k d :
  FIFOCommit bytes k d =
  if negb (bytes mod 4 =? 0) then Some (tt, d)
  else if d.(m_reserved_size) =? 0 then Some (tt, d)
  else
    let next_cmd := d.(fifo) SVGA_FIFO_NEXT_CMD in
    let max := d.(fifo) SVGA_FIFO_MAX in
    let min := d.(fifo) SVGA_FIFO_MIN in
    (when d.(m_using_bounce_buffer) (commit_bounce (reservable d) bytes next_cmd max min);;
     when (negb d.(m_using_bounce_buffer) || reservable d) (commit_next bytes next_cmd max min);;
     when (reservable d) (setf SVGA_FIFO_RESERVED 0)) k (set_reserved 0 d).
Proof.
  unfold FIFOCommit, HasFIFOCap. cbv [mbind M_bind mret M_ret getf gets]. fold (reservable d).
  by destruct (negb (bytes mod 4 =? 0)), (m_reserved_size d =? 0) eqn:E; try rewrite E.
Qed.

Lemma FIFOCommit_pending p n k d :
  pending d p n ->
  FIFOCommit (4 * n) k d =
    (when d.(m_using_bounce_buffer)
       (commit_bounce (reservable d) (4 * n) (d.(fifo) SVGA_FIFO_NEXT_CMD)
          (d.(fifo) SVGA_FIFO_MAX) (d.(fifo) SVGA_FIFO_MIN));;
     when (negb d.(m_using_bounce_buffer) || reservable d)
       (commit_next (4 * n) (d.(fifo) SVGA_FIFO_NEXT_CMD)
          (d.(fifo) SVGA_FIFO_MAX) (d.(fifo) SVGA_FIFO_MIN));;
     when (reservable d) (setf SVGA_FIFO_RESERVED 0)) k (set_reserved 0 d).
Proof.
  intros [_ Hs Hn _ _]. rewrite FIFOCommit_unfold, Hs.
  rewrite (Z.mul_comm 4 n), Z_mod_mult, (Z.mul_comm n 4). cbn [negb].
  change (0 =? 0) with true. cbn [negb]. destruct (Z.eqb_spec (4 * n) 0); [lia|done].
Qed.

Lemma commit_next_spec n k f d :
  ring_ok f -> 0 <= n <= 0x4000 -> n < rsize f ->
  commit_next (4 * n) (f SVGA_FIFO_NEXT_CMD) (f SVGA_FIFO_MAX) (f SVGA_FIFO_MIN) k d =
  Some (tt, set_fifo (upd d.(fifo) SVGA_FIFO_NEXT_CMD (4 * tslot f n)) d).
Proof.
  intros R Hn Hs. unfold commit_next, setf, modify. cbv zeta.
  by rewrite (next_cmd_tslot f n R Hn Hs).
Qed.

Lemma FIFOCommit_in_place p n k d :
  pending d p n -> d.(m_using_bounce_buffer) = false ->
  exists d', FIFOCommit (4 * n) k d = Some (tt, d') /\ committed d d' (region d p n).
Proof.
  intros Hp Eu. rewrite (FIFOCommit_pending p), Eu by done.
  destruct Hp as [R Hs Hb Hroom Hpl]. rewrite Eu in Hpl. destruct Hpl as [-> Ht].
  set (ws := region d (Ptr InFifo (d.(fifo) SVGA_FIFO_NEXT_CMD)) n).
  assert (Z.of_nat (length ws) = n) as Hl by (unfold ws; rewrite length_region; lia).
  destruct (publish d.(fifo) d.(fifo) (4 * tslot d.(fifo) n) ws) as (Rg & Sg & Mg & Ug & Qg);
    rewrite ?Hl; try done.
  { intros j w Hj. pose proof Hj as Hjn%lookup_lt_Some.
    rewrite (in_place_tslot d.(fifo) n) by (done || lia).
    apply list_lookup_fmap_Some in Hj as (x & -> & Hx%lookup_seqZ). f_equal.
    cbn [p_off] in Hx. lia. }
  cbn [when negb orb]. rewrite (mbind_eq _ _ k _ tt _ eq_refl).
  pose proof (used_range _ R). erewrite mbind_eq; [|by apply commit_next_spec; try lia].
  apply (commit_end d _ ws); [done|done| |exists []; exact Qg].
  eapply publish_frame; [|reflexivity|done]. done.
Qed.

(** The chunk that fits before the end of the ring, in words. *)
Lemma commit_bounce_split n k d :
  let f := d.(fifo) in
  let c := if n <? rsize f - rtail f then n else rsize f - rtail f in
  ring_ok f -> 0 <= n <= 0x4000 ->
  commit_bounce true (4 * n) (f SVGA_FIFO_NEXT_CMD) (f SVGA_FIFO_MAX) (f SVGA_FIFO_MIN) k d =
  Some (tt, set_fifo
    (write_words
       (write_words (upd f SVGA_FIFO_RESERVED (4 * n)) (rmin f + rtail f) (read_words d.(bounce) 0 c))
       (rmin f) (read_words d.(bounce) c (n - c)))
    (set_fifo (write_words (upd f SVGA_FIFO_RESERVED (4 * n)) (rmin f + rtail f)
                 (read_words d.(bounce) 0 c))
       (set_fifo (upd f SVGA_FIFO_RESERVED (4 * n)) d))).
Proof.
  intros f c R Hb. pose proof R as (m & s & h & t & Rw)%ring_ok_words.
  pose proof (ring_words_defs _ _ _ _ _ Rw) as (Em & Es & Eh & Et).
  pose proof Rw as [E1 E2 E3 E4 Hrr].
  assert ((if 4 * n <? u32 (f SVGA_FIFO_MAX - f SVGA_FIFO_NEXT_CMD)
           then u32 (4 * n) else u32 (f SVGA_FIFO_MAX - f SVGA_FIFO_NEXT_CMD)) = 4 * c) as Ec.
  { unfold c. rewrite E2, E4, Es, Et. cbn in Hrr.
    rewrite !wrap_small by (unfold fits; lia). clear -Hrr Hb. zcase. }
  unfold commit_bounce. cbv zeta. rewrite Ec.
  replace (4 * c / 4) with c by (rewrite Z.mul_comm, Z.div_mul; lia).
  replace ((4 * n - 4 * c) / 4) with (n - c)
    by (replace (4 * n - 4 * c) with ((n - c) * 4) by lia; rewrite Z.div_mul; lia).
  rewrite (wrap_small 32 (4 * n)) by (unfold fits; lia).
  replace (f SVGA_FIFO_NEXT_CMD / 4) with (rmin f + rtail f); [done|].
  rewrite E4, Em, Et, Z.mul_comm, Z.div_mul; lia.
Qed.

Lemma FIFOCommit_bounce_reservable p n k d :
  pending d p n -> d.(m_using_bounce_buffer) = true -> reservable d = true ->
  exists d', FIFOCommit (4 * n) k d = Some (tt, d') /\ committed d d' (region d p n).
Proof.
  intros Hp Eu Er. rewrite (FIFOCommit_pending p), Eu, Er by done.
  destruct Hp as [R Hs Hb Hroom Hpl]. rewrite Eu in Hpl. subst p.
  change (region d (Ptr InBounce 0) n) with (read_words d.(bounce) 0 n).
  destruct (split_copy d.(fifo) d.(bounce) n (4 * n) R ltac:(lia) Hroom) as (Hregs & Hold & Hnew).
  pose proof (used_range _ R). cbn [when negb orb].
  erewrite mbind_eq; [|by apply (commit_bounce_split n k (set_reserved 0 d)); try lia].
  erewrite mbind_eq; [|by apply commit_next_spec; try lia].
  assert (Z.of_nat (length (read_words d.(bounce) 0 n)) = n) as Hl by (rewrite length_read_words; lia).
  destruct (publish d.(fifo) _ (4 * tslot d.(fifo) n) (read_words d.(bounce) 0 n) R
    ltac:(rewrite Hl; exact Hroom) Hregs Hold Hnew ltac:(by rewrite Hl)) as (Rg & Sg & Mg & Ug & Qg).
  apply (commit_end d _ (read_words d.(bounce) 0 n) true k); [done|done| |exists []; exact Qg].
  eapply publish_frame; [exact Hregs|reflexivity|done].
Qed.

Lemma FIFOCommit_bounce_words p n k d :
  pending d p n -> d.(m_using_bounce_buffer) = true -> reservable d = false ->
  exists d', FIFOCommit (4 * n) k d = Some (tt, d') /\ committed d d' (region d p n).
Proof.
  intros Hp Eu Er. rewrite (FIFOCommit_pending p), Eu, Er by done.
  destruct Hp as [R Hs Hb Hroom Hpl]. rewrite Eu in Hpl. subst p. cbn [when negb orb].
  destruct (bounce_loop_spec k (Z.to_nat n) 0 (set_reserved 0 d)) as (d' & pre & E & R' & Hf & Hr & Hq);
    [done|simpl; lia|].
  erewrite mbind_eq; [|unfold commit_bounce;
    replace (4 * n / 4) with n by (rewrite Z.mul_comm, Z.div_mul; lia); exact E].
  rewrite (mbind_eq _ _ k _ tt _ eq_refl).
  apply (commit_end d _ _ false k); [done|done| |exists pre].
  - eapply frame_trans; [|done]. by split.
  - rewrite Hq. rewrite Z2Nat.id by lia. done.
Qed.

(** A commit of the whole reservation appends the stored words. *)
Lemma FIFOCommit_spec p n k d :
  pending d p n ->
  exists d', FIFOCommitAll k d = Some (tt, d') /\ committed d d' (region d p n).
Proof.
  intros Hp. unfold FIFOCommitAll. rewrite (mbind_eq _ _ k d (4 * n) d)
    by (unfold gets; by rewrite (pd_size _ _ _ Hp)).
  destruct (m_using_bounce_buffer d) eqn:Eu, (reservable d) eqn:Er;
    eauto using FIFOCommit_bounce_reservable, FIFOCommit_bounce_words, FIFOCommit_in_place.
Qed.

(** Moving NEXT_CMD by nothing. *)
Lemma cancel_next d d1 b k :
  ring_ok d.(fifo) -> dev_rest d1 = dev_rest d -> d1.(m_reserved_size) = 0 ->
  (forall j : Z, j <> SVGA_FIFO_RESERVED -> d1.(fifo) j = d.(fifo) j) ->
  exists d', (commit_next 0 (d.(fifo) SVGA_FIFO_NEXT_CMD) (d.(fifo) SVGA_FIFO_MAX)
                (d.(fifo) SVGA_FIFO_MIN);;
              when b (setf SVGA_FIFO_RESERVED 0)) k d1 = Some (tt, d') /\ committed d d' [].
Proof.
  intros R Hr Hs Hf. pose proof (used_range _ R). pose proof (rmin_regs _ R).
  erewrite mbind_eq; [|apply (commit_next_spec 0); [done|lia..]].
  destruct (publish d.(fifo) d1.(fifo) (4 * tslot d.(fifo) 0) []) as (Rg & _ & _ & _ & Qg);
    try done; [simpl; lia| | |].
  { intros j _ ?. by apply Hf. }
  { intros j ?. apply Hf. pose proof (slot_range _ j R). cbn in *. lia. }
  apply (commit_end d _ [] b k); [done|done| |exists []; exact Qg].
  eapply publish_frame; [|reflexivity|done]. intros j _ ?. by apply Hf.
Qed.

(** A commit of nothing gives the reservation back. *)
Lemma FIFOCommit_cancel p n k d :
  pending d p n -> exists d', FIFOCommit 0 k d = Some (tt, d') /\ committed d d' [].
Proof.
  intros [R Hs Hb Hroom _]. rewrite FIFOCommit_unfold, Hs. change (negb (0 mod 4 =? 0)) with false.
  cbv iota zeta. destruct (Z.eqb_spec (4 * n) 0); [lia|].
  destruct (m_using_bounce_buffer d) eqn:Eu, (reservable d) eqn:Er; cbn [when negb orb].
  - erewrite mbind_eq; [|apply (commit_bounce_split 0 k (set_reserved 0 d)); [done|lia]].
    apply (cancel_next d _ true); [done..|]. intros j Hj. cbn [fifo set_fifo set_reserved].
    pose proof R as (m & s & h & t & Rw)%ring_ok_words.
    pose proof (ring_words_defs _ _ _ _ _ Rw) as (_ & Es & _ & Et). destruct Rw as [_ _ _ _ Hw].
    destruct (Z.ltb_spec 0 (rsize d.(fifo) - rtail d.(fifo))); [|cbn in Hw; lia].
    change (upd d.(fifo) SVGA_FIFO_RESERVED 0 j = d.(fifo) j). by rewrite upd_ne.
  - erewrite mbind_eq; [|reflexivity]. rewrite (mbind_eq _ _ k _ tt _ eq_refl).
    apply (commit_end d _ [] false k); [done|done|by split|]. exists []. by rewrite app_nil_r.
  - rewrite (mbind_eq _ _ k _ tt _ eq_refl). by apply (cancel_next d _ true).
  - rewrite (mbind_eq _ _ k _ tt _ eq_refl). by apply (cancel_next d _ false).
Qed.

(** ** The contract of a command function *)

Definition emits {A} (m : M HS A) d (a : A) (ws : list Z) : Prop :=
  forall fuel, (Z.to_nat (used d.(fifo)) < fuel)%nat ->
  exists d', m fuel d = Some (a, d') /\ committed d d' ws.

Lemma keeps_committed d d' d'' ws : keeps d d' -> committed d' d'' ws -> committed d d'' ws.
Proof.
  intros Hk (Hi & Hf & pre & Hq). split; [done|].
  split; [eapply frame_trans; [by apply keeps_frame|done]|].
  destruct Hk as [Ha _]. destruct (adv_queue _ _ Ha) as [pre' E].
  exists (pre' ++ pre). by rewrite E, <-!app_assoc, Hq.
Qed.

Lemma emits_reserve {A} n (k : option ptr -> M HS A) d a ws :
  idle d -> 0 < n <= 0x4000 -> n < rsize d.(fifo) ->
  (forall d' p fuel, pending d' p n -> keeps d d' ->
     exists d'', k (Some p) fuel d' = Some (a, d'') /\ committed d' d'' ws) ->
  emits (FIFOReserve (4 * n) ≫= k) d a ws.
Proof.
  intros Hi Hn Hs Hk fuel Hf.
  destruct (FIFOReserve_spec n d fuel Hi Hn Hs Hf) as (p & d' & E & Hp & Hkeep).
  destruct (Hk d' p fuel Hp Hkeep) as (d'' & E' & Hc). exists d''.
  rewrite (mbind_eq _ _ fuel d (Some p) d' E). split; [done|]. by eapply keeps_committed.
Qed.

(** Adjacent stores are one store. *)
Lemma store_store {A} p i j ws ws' (k : M HS A) fuel d :
  j = i + Z.of_nat (length ws) ->
  (store_words p i ws;; store_words p j ws';; k) fuel d = (store_words p i (ws ++ ws');; k) fuel d.
Proof.
  intros ->. unfold store_words, modify, mbind, M_bind.
  destruct (p_area p); rewrite write_words_app, <-Z.add_assoc; reflexivity.
Qed.

(** A reservation filled with [ws] and committed. *)
Lemma fill_commit {A} p n ws (a : A) fuel d :
  pending d p n -> Z.of_nat (length ws) = n ->
  exists d', (store_words p 0 ws;; FIFOCommitAll;; mret a) fuel d = Some (a, d') /\
    committed d d' ws.
Proof.
  intros Hp Hl. destruct (store_words_spec p n 0 ws fuel d Hp) as (d1 & E1 & Hp1 & Hk1 & Hr); [lia..|].
  destruct (FIFOCommit_spec p n fuel d1 Hp1) as (d2 & E2 & Hc).
  rewrite (mbind_eq _ _ fuel d tt d1 E1), (mbind_eq _ _ fuel d1 tt d2 E2).
  exists d2. split; [done|]. eapply keeps_committed; [done|].
  rewrite Hr in Hc. simpl in Hc. rewrite drop_ge, app_nil_r in Hc; [done|].
  rewrite length_region. lia.
Qed.
End proofs.

(** A request for the whole ring passes the size check but never fits: one word
    must stay free to tell a full ring from an empty one. *)
Lemma reserve_loop_whole_ring {HS} `{SvgaHostOK HS} fuel : forall (d : dev HS) b,
  ring_ok d.(fifo) ->
  reserve_loop fuel (d.(fifo) SVGA_FIFO_MAX) (d.(fifo) SVGA_FIFO_MIN) (d.(fifo) SVGA_FIFO_NEXT_CMD)
    (4 * rsize d.(fifo)) b d = None.
Proof.
  induction fuel as [|fuel IH]; intros d b R; [done|]. cbn [reserve_loop].
  destruct (hrun_spec O d R) as (d1 & E & Ha & _).
  rewrite (mbind_eq _ _ O d (d1.(fifo) SVGA_FIFO_STOP) d1)
    by (unfold vgetf; by rewrite (mbind_eq _ _ O d tt d1)).
  rewrite <-(adv_rsize Ha), <-(adv_MAX Ha), <-(adv_MIN Ha), <-(adv_NEXT_CMD Ha).
  pose proof (adv_ring _ _ Ha) as R1. clear E Ha R.
  assert ((let again : M HS ptr := fun _ => reserve_loop fuel (d1.(fifo) SVGA_FIFO_MAX)
      (d1.(fifo) SVGA_FIFO_MIN) (d1.(fifo) SVGA_FIFO_NEXT_CMD) (4 * rsize d1.(fifo)) b in
      FIFOFull;; again) O d1 = None) as Hfull.
  { destruct (FIFOFull_adv O d1 R1) as (d2 & E & Ha & _). rewrite (mbind_eq _ _ O d1 tt d2 E).
    rewrite <-(adv_rsize Ha), <-(adv_MAX Ha), <-(adv_MIN Ha), <-(adv_NEXT_CMD Ha).
    apply IH, Ha. }
  pose proof R1 as (m & s & h & t & Rw)%ring_ok_words.
  pose proof (ring_words_defs _ _ _ _ _ Rw) as (Em & Es & Eh & Et).
  pose proof Rw as [E1 E2 E3 E4 Hr]. rewrite E1, E2, E4, Es in *. rewrite E3. cbn in Hr.
  rewrite !(wrap_small 64) by (unfold fits; lia). rewrite !(wrap_small 32 (_ - _)) by (unfold fits; lia).
  destruct (Z.leb_spec (4 * (m + h)) (4 * (m + t))).
  - rewrite (wrap_small 32 (4 * (m + s) - _ + _)) by (unfold fits; lia).
    replace ((4 * (m + t) + 4 * s <? 4 * (m + s)) ||
      (4 * (m + t) + 4 * s =? 4 * (m + s)) && (4 * m <? 4 * (m + h))) with false by zcase.
    replace (4 * (m + s) - 4 * (m + t) + (4 * (m + h) - 4 * m) <=? 4 * s) with true by zcase. done.
  - replace (4 * (m + t) + 4 * s <? 4 * (m + h)) with false by zcase. done.
Qed.

(** The reservation fails without a change of the state: too large, not whole
    words, or a reservation is outstanding. *)
Lemma FIFOReserve_error {HS} `{SvgaHost HS} bytes fuel (d : dev HS) :
  (BOUNCE_BUFFER_SIZE < bytes \/ u32 (d.(fifo) SVGA_FIFO_MAX - d.(fifo) SVGA_FIFO_MIN) < bytes \/
   bytes mod 4 <> 0 \/ d.(m_reserved_size) <> 0) ->
  FIFOReserve bytes fuel d = Some (None, d).
Proof.
  intros Hc. unfold FIFOReserve. cbv [mbind M_bind mret M_ret getf gets HasFIFOCap].
  destruct (_ || _) eqn:E; [done|]. apply orb_false_iff in E as [E1%Z.ltb_ge E2%Z.ltb_ge].
  destruct (Z.eqb_spec (bytes mod 4) 0); [|done]. simpl.
  destruct (Z.eqb_spec (m_reserved_size d) 0); [|done]. exfalso. intuition lia.
Qed.

(** Nothing reserved: a commit does nothing. *)
Lemma FIFOCommit_unreserved {HS} `{SvgaHost HS} bytes k (d : dev HS) :
  d.(m_reserved_size) = 0 -> FIFOCommit bytes k d = Some (tt, d).
Proof.
  intros E. unfold FIFOCommit. cbv [mbind M_bind mret M_ret getf gets HasFIFOCap].
  destruct (negb _); [done|]. by rewrite E.
Qed.

(** The stores of a command body, merged into one. *)
Ltac merge_stores :=
  rewrite ?store_ptr_add4, ?store_ptr_add8, ?store_ptr_add12;
  repeat (rewrite store_store by (simpl; lia)).
