(* ===== verification/SvgaDevice.v ===== *)
(** The methods of [SVGADevice] over the FIFO (FB/SVGADevice.cpp): start-up,
    fences, cursor, mode setting, video overlay registers, 2D commands and
    guest memory regions. *)

From S2P Require Import Prelude Layout SvgaReg SvgaCmd Fifo.

(** The number of set bits of a 32-bit mask, by halving. *)
Definition count_bits (mask : Z) : Z :=
  let mask := u32 (Z.shiftr (Z.land mask 0xAAAAAAAA) 1 + Z.land mask 0x55555555) in
  let mask := u32 (Z.shiftr (Z.land mask 0xCCCCCCCC) 2 + Z.land mask 0x33333333) in
  let mask := u32 (Z.shiftr (Z.land mask 0xF0F0F0F0) 4 + Z.land mask 0x0F0F0F0F) in
  let mask := u32 (Z.shiftr (Z.land mask 0xFF00FF00) 8 + Z.land mask 0x00FF00FF) in
  u32 (Z.shiftr (Z.land mask 0xFFFF0000) 16 + Z.land mask 0x0000FFFF).

(** A fence has passed when the device's fence register is not behind it, on the
    circle of 32-bit numbers. *)
Definition HasFencePassedUnguarded (fifo_fence fence : Z) : bool := 0 <=? s32 (fifo_fence - fence).

(** What [Start] asks of the PCI provider and of the kernel's allocator. *)
Record pci := Pci {
  has_bar0 : bool;         (** the I/O ports are there *)
  has_bar2 : bool;         (** the FIFO memory is there *)
  bar2_maps : bool;        (** [createMappingInTask] succeeds *)
  bar2_address : bool;     (** the mapping has an address *)
  bounce_malloc : bool;    (** [IOMalloc] of the bounce buffer succeeds *)
}.

Definition SVGA_ESCAPE_NSID_CECL : Z := 0.
Definition SVGA_ESCAPE_CECL_VIDEO_SET_REGS : Z := 0x00020001.
Definition SVGA_ESCAPE_CECL_VIDEO_FLUSH : Z := 0x00020002.

Section device.
Context {HS : Type} `{SvgaHost HS}.
Implicit Types (d : dev HS).
Local Abbreviation M := (M HS).

(** ** Start-up *)

Definition Init : M bool :=
  modify (set_mapped false false);;
  modify (set_cursor_ptr None);;
  modify (set_next_fence 1);;
  modify (set_capabilities 0);;
  mret true.

Definition Cleanup : M unit :=
  modify (set_mapped false false);; modify (set_capabilities 0).

Definition FIFOInit : M bool :=
  ext ← HasCapability SVGA_CAP_EXTENDED_FIFO;
  if negb ext then mret false
  else
    setf SVGA_FIFO_MIN (u32 (SVGA_FIFO_NUM_REGS * 4));;
    size ← gets m_fifo_size;
    setf SVGA_FIFO_MAX size;;
    min ← getf SVGA_FIFO_MIN;
    setf SVGA_FIFO_NEXT_CMD min;;
    min ← getf SVGA_FIFO_MIN;
    setf SVGA_FIFO_STOP min;;
    WriteReg SVGA_REG_CONFIG_DONE 1;;
    fifo_capabilities ← getf SVGA_FIFO_CAPABILITIES;
    if negb (has_bits fifo_capabilities SVGA_FIFO_CAP_CURSOR_BYPASS_3) then mret false
    else if negb (has_bits fifo_capabilities SVGA_FIFO_CAP_RESERVE) then mret false
    else
      modify (set_reserved 0);;
      modify (set_using_bounce false);;
      mret true.

Definition fail : M bool := Cleanup;; mret false.

Definition Start (provider : pci) : M bool :=
  if negb provider.(has_bar0) then fail
  else
    WriteReg SVGA_REG_ENABLE 0;;
    WriteReg SVGA_REG_ID SVGA_ID_2;;
    reg_id ← ReadReg SVGA_REG_ID;
    if negb (reg_id =? SVGA_ID_2) then fail
    else
      WriteReg SVGA_REG_CONFIG_DONE 0;;
      WriteReg SVGA_REG_ENABLE 1;;
      caps ← ReadReg SVGA_REG_CAPABILITIES;
      modify (set_capabilities caps);;
      ext ← HasCapability SVGA_CAP_EXTENDED_FIFO;
      if negb ext then fail
      else
        size ← ReadReg SVGA_REG_MEM_SIZE;
        modify (set_fifo_size size);;
        if negb (provider.(has_bar2) && provider.(bar2_maps)) then fail
        else if negb provider.(bar2_address) then fail
        else
          modify (fun d => set_mapped true d.(m_bounce_allocated) d);;
          fb_offset ← ReadReg SVGA_REG_FB_OFFSET;
          fb_size ← ReadReg SVGA_REG_FB_SIZE;
          vram_size ← ReadReg SVGA_REG_VRAM_SIZE;
          max_width ← ReadReg SVGA_REG_MAX_WIDTH;
          max_height ← ReadReg SVGA_REG_MAX_HEIGHT;
          host_bpp ← ReadReg SVGA_REG_HOST_BITS_PER_PIXEL;
          guest_bpp ← ReadReg SVGA_REG_BITS_PER_PIXEL;
          width ← ReadReg SVGA_REG_WIDTH;
          height ← ReadReg SVGA_REG_HEIGHT;
          pitch ← ReadReg SVGA_REG_BYTES_PER_LINE;
          modify (set_geometry fb_offset fb_size vram_size max_width max_height width height pitch);;
          gmr ← HasCapability SVGA_CAP_GMR;
          when gmr
            (ids ← ReadReg SVGA_REG_GMR_MAX_IDS;
             len ← ReadReg SVGA_REG_GMR_MAX_DESCRIPTOR_LENGTH;
             modify (set_gmr_limits ids len));;
          gmr2 ← HasCapability SVGA_CAP_GMR2;
          when gmr2
            (pages ← ReadReg SVGA_REG_GMRS_MAX_PAGES;
             mem ← ReadReg SVGA_REG_MEMORY_SIZE;
             modify (set_gmr2_limits pages mem));;
          WriteReg SVGA_REG_DISPLAY_ID 0;;
          init ← FIFOInit;
          if negb init then fail
          else
            traces ← HasCapability SVGA_CAP_TRACES;
            when traces (WriteReg SVGA_REG_TRACES 1);;
            if negb provider.(bounce_malloc) then fail
            else
              modify (fun d => set_mapped d.(m_fifo_mapped) true d);;
              modify (set_cursor_ptr None);;
              mret true.

Definition Disable : M unit := WriteReg SVGA_REG_ENABLE 0.

(** ** Fences *)

Definition InsertFence : M Z :=
  cap ← HasFIFOCap SVGA_FIFO_CAP_FENCE;
  if negb cap then mret 1
  else
    next ← gets m_next_fence;
    when (next =? 0) (modify (set_next_fence 1));;
    fence ← gets m_next_fence;
    modify (set_next_fence (u32 (fence + 1)));;
    cmd ← FIFOReserve (2 * 4);
    match cmd with
    | None => mret 0
    | Some cmd =>
        store_words cmd 0 [(SVGA_CMD_FENCE : Z)];;
        store_words cmd 1 [fence];;
        FIFOCommitAll;;
        mret fence
    end.

Definition HasFencePassed (fence : Z) : M bool :=
  if fence =? 0 then mret true
  else
    cap ← HasFIFOCap SVGA_FIFO_CAP_FENCE;
    if negb cap then mret false
    else f ← vgetf SVGA_FIFO_FENCE; mret (HasFencePassedUnguarded f fence).

(** [while (ReadReg(SVGA_REG_BUSY));] *)
Fixpoint busy_loop (fuel : nat) : dev HS -> option (unit * dev HS) := fun d =>
  match fuel with
  | O => None
  | S fuel =>
      (busy ← ReadReg SVGA_REG_BUSY;
       if busy =? 0 then skip else ((fun _ => busy_loop fuel) : M unit)) O d
  end.
Definition busy_wait : M unit := fun fuel => busy_loop fuel.

Definition SyncFIFO : M unit := WriteReg SVGA_REG_SYNC 1;; busy_wait.

(** The loop of [SyncToFence]. *)
Fixpoint sync_loop (fuel : nat) (fence : Z) : dev HS -> option (unit * dev HS) := fun d =>
  match fuel with
  | O => None
  | S fuel =>
      (f ← vgetf SVGA_FIFO_FENCE;
       if HasFencePassedUnguarded f fence then skip
       else
         busy ← ReadReg SVGA_REG_BUSY;
         if busy =? 0 then skip else ((fun _ => sync_loop fuel fence) : M unit)) O d
  end.

Definition SyncToFence (fence : Z) : M unit :=
  if fence =? 0 then skip
  else
    cap ← HasFIFOCap SVGA_FIFO_CAP_FENCE;
    if negb cap then WriteReg SVGA_REG_SYNC 1;; busy_wait
    else
      f ← vgetf SVGA_FIFO_FENCE;
      if HasFencePassedUnguarded f fence then skip
      else WriteReg SVGA_REG_SYNC 1;; ((fun fuel => sync_loop fuel fence) : M unit).

Definition RingDoorBell : M unit :=
  valid ← IsFIFORegValid SVGA_FIFO_BUSY;
  if (valid : bool) then
    busy ← vgetf SVGA_FIFO_BUSY;
    when (busy =? 0) (setf SVGA_FIFO_BUSY 1;; WriteReg SVGA_REG_SYNC 1)
  else WriteReg SVGA_REG_SYNC 1.

(** ** Cursor *)

Definition bypass3 (x y : Z) (visible : bool) : M unit :=
  setf SVGA_FIFO_CURSOR_ON (if visible then 1 else 0);;
  setf SVGA_FIFO_CURSOR_X x;;
  setf SVGA_FIFO_CURSOR_Y y;;
  n ← getf SVGA_FIFO_CURSOR_COUNT;
  setf SVGA_FIFO_CURSOR_COUNT (u32 (n + 1)).

(** [bypass2] is the boot option CE1_OPTION_FB_CURSOR_BYPASS_2. *)
Definition setCursorState (bypass2 : bool) (x y : Z) (visible : bool) : M unit :=
  if bypass2 then
    WriteReg SVGA_REG_CURSOR_ID 1;;
    WriteReg SVGA_REG_CURSOR_X x;;
    WriteReg SVGA_REG_CURSOR_Y y;;
    WriteReg SVGA_REG_CURSOR_ON (if visible then 1 else 0)
  else bypass3 x y visible.

Definition setCursorStateScreen (screenId x y : Z) (visible : bool) : M unit :=
  cap ← HasFIFOCap (Z.lor SVGA_FIFO_CAP_SCREEN_OBJECT SVGA_FIFO_CAP_SCREEN_OBJECT_2);
  when cap (setf SVGA_FIFO_CURSOR_SCREEN_ID screenId);;
  bypass3 x y visible.

Definition BeginDefineAlphaCursor (width height bytespp : Z) : M (option ptr) :=
  let cmd_len := u64 (bsize SVGAFifoCmdDefineAlphaCursor_c + u32 (width * height * bytespp)) in
  cmd ← FIFOReserveCmd SVGA_CMD_DEFINE_ALPHA_CURSOR cmd_len;
  match cmd with
  | None => mret None
  | Some cmd =>
      modify (set_cursor_ptr (Some cmd));;
      mret (Some (ptr_add cmd (bsize SVGAFifoCmdDefineAlphaCursor_c)))
  end.

Definition EndDefineAlphaCursor (width height bytespp hotspot_x hotspot_y : Z) : M bool :=
  cmd ← gets m_cursor_ptr;
  match cmd with
  | None => mret false
  | Some cmd =>
      store_words cmd 0 (enc SVGAFifoCmdDefineAlphaCursor_c
        (mk_SVGAFifoCmdDefineAlphaCursor 1 hotspot_x hotspot_y width height));;
      let cmd_len :=
        u64 (4 + bsize SVGAFifoCmdDefineAlphaCursor_c + u32 (width * height * bytespp)) in
      FIFOCommit cmd_len;;
      modify (set_cursor_ptr None);;
      mret true
  end.

(** ** Mode and framebuffer *)

Definition SetMode (width height bpp : Z) : M unit :=
  SyncFIFO;;
  WriteReg SVGA_REG_WIDTH width;;
  WriteReg SVGA_REG_HEIGHT height;;
  WriteReg SVGA_REG_BITS_PER_PIXEL bpp;;
  WriteReg SVGA_REG_ENABLE 1;;
  pitch ← ReadReg SVGA_REG_BYTES_PER_LINE;
  fb_size ← ReadReg SVGA_REG_FB_SIZE;
  modify (set_mode width height pitch fb_size).

(** A command whose parameters are one structure. *)
Definition fixed_cmd {A} (id : SVGAFifoCmdId) (c : coder A) (a : A) : M bool :=
  cmd ← FIFOReserveCmd id (bsize c);
  match cmd with
  | None => mret false
  | Some cmd => store_words cmd 0 (enc c a);; FIFOCommitAll;; mret true
  end.

Definition UpdateFramebuffer (x y width height : Z) : M bool :=
  fixed_cmd SVGA_CMD_UPDATE SVGAFifoCmdUpdate_c (mk_SVGAFifoCmdUpdate x y width height).

Definition UpdateFullscreen : M bool :=
  w ← gets m_width; h ← gets m_height; UpdateFramebuffer 0 0 w h.

(** [rect] is an array of 4 words, in the order of [SVGAFifoCmdUpdate]. *)
Definition UpdateFramebuffer2 (rect : Z -> Z) : M bool :=
  fixed_cmd SVGA_CMD_UPDATE SVGAFifoCmdUpdate_c
    (mk_SVGAFifoCmdUpdate (rect 0) (rect 1) (rect 2) (rect 3)).

Definition RectCopy (copyRect : Z -> Z) : M bool :=
  fixed_cmd SVGA_CMD_RECT_COPY SVGAFifoCmdRectCopy_c
    (mk_SVGAFifoCmdRectCopy (copyRect 0) (copyRect 1) (copyRect 2)
       (copyRect 3) (copyRect 4) (copyRect 5)).

Definition RectFill (color : Z) (rect : Z -> Z) : M bool :=
  fixed_cmd SVGA_CMD_FRONT_ROP_FILL SVGAFifoCmdFrontRopFill_c
    (mk_SVGAFifoCmdFrontRopFill color (rect 0) (rect 1) (rect 2) (rect 3) SVGA_ROP_COPY).

(** ** Video overlay *)

(** Returns the pointer to the command; its items follow at word 2. *)
Definition BeginVideoSetRegs (streamId numItems : Z) : M (option ptr) :=
  let cmd_size := u64 (16 - 8 + numItems * 8) in
  cmd ← FIFOReserveEscape SVGA_ESCAPE_NSID_CECL cmd_size;
  match cmd with
  | None => mret None
  | Some cmd =>
      store_words cmd 0 [SVGA_ESCAPE_CECL_VIDEO_SET_REGS; streamId];;
      mret (Some cmd)
  end.

(** [setRegs->items[k] = {registerId, value}] *)
Definition set_item (setRegs : ptr) (k registerId value : Z) : M unit :=
  store_words setRegs (2 + 2 * k) [registerId; value].

Fixpoint range_loop (n : nat) (setRegs : ptr) (i minReg : Z) (regs : Z -> Z) : M unit :=
  match n with
  | O => skip
  | S n =>
      set_item setRegs i (u32 (i + minReg)) (regs (u32 (i + minReg)));;
      range_loop n setRegs (i + 1) minReg regs
  end.

Definition VideoSetRegsInRange (streamId : Z) (regs : Z -> Z) (minReg maxReg : Z) : M bool :=
  let numRegs := u32 (maxReg - minReg + 1) in
  if maxReg <? minReg then mret true
  else
    setRegs ← BeginVideoSetRegs streamId numRegs;
    match setRegs with
    | None => mret false
    | Some setRegs =>
        range_loop (Z.to_nat numRegs) setRegs 0 minReg regs;; FIFOCommitAll;; mret true
    end.

(** The loop ends when the mask has been shifted out: 32 rounds at most. *)
Fixpoint mask_loop (fuel : nat) (setRegs : ptr) (regMask numRegs i : Z) (regs : Z -> Z) : M unit :=
  match fuel with
  | O => fun _ _ => None
  | S fuel =>
      if regMask =? 0 then skip
      else if negb (Z.land regMask 1 =? 0) then
        set_item setRegs numRegs i (regs i);;
        mask_loop fuel setRegs (Z.shiftr regMask 1) (numRegs + 1) (i + 1) regs
      else mask_loop fuel setRegs (Z.shiftr regMask 1) numRegs (i + 1) regs
  end.

Definition VideoSetRegsWithMask (streamId : Z) (regs : Z -> Z) (regMask : Z) : M bool :=
  if regMask =? 0 then mret true
  else
    setRegs ← BeginVideoSetRegs streamId (count_bits regMask);
    match setRegs with
    | None => mret false
    | Some setRegs => mask_loop 33 setRegs regMask 0 0 regs;; FIFOCommitAll;; mret true
    end.

Definition VideoSetReg (streamId registerId value : Z) : M bool :=
  setRegs ← BeginVideoSetRegs streamId 1;
  match setRegs with
  | None => mret false
  | Some setRegs => set_item setRegs 0 registerId value;; FIFOCommitAll;; mret true
  end.

Definition VideoFlush (streamId : Z) : M bool :=
  cmd ← FIFOReserveEscape SVGA_ESCAPE_NSID_CECL 8;
  match cmd with
  | None => mret false
  | Some cmd =>
      store_words cmd 0 [SVGA_ESCAPE_CECL_VIDEO_FLUSH; streamId];; FIFOCommitAll;; mret true
  end.

(** ** 3D queries *)

Definition get3DHWVersion : M (option Z) :=
  min ← getf SVGA_FIFO_MIN;
  if min <=? u32 (4 * SVGA_FIFO_GUEST_3D_HWVERSION) then mret None
  else
    revised ← HasFIFOCap SVGA_FIFO_CAP_3D_HWVERSION_REVISED;
    v ← getf (if (revised : bool) then SVGA_FIFO_3D_HWVERSION_REVISED else SVGA_FIFO_3D_HWVERSION);
    mret (Some v).

(** The index of the first word of the block. *)
Definition get3DCapsBlock : M (option Z) :=
  min ← getf SVGA_FIFO_MIN;
  if min <=? u32 (4 * SVGA_FIFO_3D_CAPS_LAST) then mret None
  else mret (Some (SVGA_FIFO_3D_CAPS : Z)).

Fixpoint read_regs (n : nat) (i : Z) : M (list Z) :=
  match n with
  | O => mret []
  | S n => v ← ReadReg i; vs ← read_regs n (i + 1); mret (v :: vs)
  end.
Definition RegDump : M (list Z) := read_regs (Z.to_nat SVGA_REG_TOP) SVGA_REG_ID.

(** ** Guest memory regions *)

Definition defineGMR (gmrId ppn : Z) : M bool :=
  cap ← HasCapability SVGA_CAP_GMR;
  if negb cap then mret false
  else
    WriteReg SVGA_REG_GMR_ID gmrId;;
    WriteReg SVGA_REG_GMR_DESCRIPTOR ppn;;
    mret true.

Definition defineGMR2 (gmrId numPages : Z) : M bool :=
  fixed_cmd SVGA_CMD_DEFINE_GMR2 SVGAFifoCmdDefineGMR2_c (mk_SVGAFifoCmdDefineGMR2 gmrId numPages).

(** [suffix] is the words at the pointer, or a null pointer. *)
Definition remapGMR2 (gmrId flags offsetPages numPages : Z) (suffix : option (list Z))
    (suffixSize : Z) : M bool :=
  if (match suffix with None => true | Some _ => false end) && negb (suffixSize =? 0) then mret false
  else
    cmd ← FIFOReserveCmd SVGA_CMD_REMAP_GMR2 (u64 (bsize SVGAFifoCmdRemapGMR2_c + suffixSize));
    match cmd with
    | None => mret false
    | Some cmd =>
        store_words cmd 0 (enc SVGAFifoCmdRemapGMR2_c
          (mk_SVGAFifoCmdRemapGMR2 gmrId flags offsetPages numPages));;
        (match suffix with
         | None => skip
         | Some ws => store_words cmd 4 (take (Z.to_nat (suffixSize / 4)) ws)
         end);;
        FIFOCommitAll;;
        mret true
    end.
End device.
