(* ===== verification/Bits.v ===== *)
(** Bit-level facts: digits of an integer, the population count and the
    parallel addition behind [count_bits] (FB/SVGADevice.cpp). *)

From S2P Require Import Prelude SvgaDevice.

(** ** Integers as concatenations of fields *)

Lemma testbit_concat q r k i :
  0 <= k -> 0 <= q < 2 ^ k -> 0 <= i ->
  Z.testbit (q + 2 ^ k * r) i = if i <? k then Z.testbit q i else Z.testbit r (i - k).
Proof.
  intros Hk Hq Hi. pose proof (Z.pow_pos_nonneg 2 k). destruct (Z.ltb_spec i k).
  - rewrite <-(Z.mod_pow2_bits_low _ k) by lia. f_equal.
    rewrite Z.mul_comm, Z_mod_plus_full. by apply Z.mod_small.
  - replace i with (i - k + k) at 1 by lia. rewrite <-Z.div_pow2_bits by lia. f_equal.
    rewrite Z.mul_comm, Z_div_plus_full, Z.div_small by lia. lia.
Qed.

Lemma land_concat q r m s k :
  0 <= k -> 0 <= q < 2 ^ k -> 0 <= m < 2 ^ k ->
  Z.land (q + 2 ^ k * r) (m + 2 ^ k * s) = Z.land q m + 2 ^ k * Z.land r s.
Proof.
  intros Hk Hq Hm. apply Z.bits_inj'. intros i Hi.
  assert (0 <= Z.land q m < 2 ^ k).
  { split; [apply Z.land_nonneg; lia|]. destruct (Z.eq_dec (Z.land q m) 0) as [->|]; [lia|].
    apply Z.log2_lt_pow2; [pose proof (Z.land_nonneg q m); lia|].
    destruct (Z.eq_dec k 0) as [->|]; [|].
    { assert (q = 0) by lia. subst q. rewrite Z.land_0_l in *. lia. }
    pose proof (Z.log2_land q m ltac:(lia) ltac:(lia)).
    destruct (Z.eq_dec q 0) as [->|]; [rewrite Z.land_0_l in *; lia|].
    pose proof (proj1 (Z.log2_lt_pow2 q k ltac:(lia)) ltac:(lia)). lia. }
  rewrite Z.land_spec, !testbit_concat by lia. destruct (i <? k); by rewrite Z.land_spec.
Qed.

(** ** Population count *)

(** The [n] low bits, lowest first. *)
Fixpoint bits_of (n : nat) (x : Z) : list Z :=
  match n with
  | O => []
  | S n => x mod 2 :: bits_of n (x / 2)
  end.

Definition popcount (n : nat) (x : Z) : Z := foldr Z.add 0 (bits_of n x).

(** The value of a list of fields of [k] bits. *)
Definition fields (k : Z) (l : list Z) : Z := foldr (fun q r => q + 2 ^ k * r) 0 l.

Lemma fields_bits n x : 0 <= x < 2 ^ Z.of_nat n -> fields 1 (bits_of n x) = x.
Proof.
  revert x. induction n as [|n IH]; intros x Hx; cbn [bits_of fields foldr] in *; [simpl in *; lia|].
  fold (fields 1 (bits_of n (x / 2))). rewrite IH.
  - rewrite (Z.div_mod x 2) at 3 by lia. lia.
  - rewrite Nat2Z.inj_succ, Z.pow_succ_r in Hx by lia.
    split; [apply Z.div_pos; lia|apply Z.div_lt_upper_bound; lia].
Qed.

(** Sums of neighbours. *)
Fixpoint sums (l : list Z) : list Z :=
  match l with
  | a :: b :: l => (a + b) :: sums l
  | _ => []
  end.

Lemma sums_sum n : forall l, length l = (2 * n)%nat -> foldr Z.add 0 (sums l) = foldr Z.add 0 l.
Proof.
  induction n as [|n IH]; intros l Hl; [by destruct l|].
  destruct l as [|a [|b l]]; simpl in *; [lia..|]. rewrite IH by lia. lia.
Qed.

Lemma length_sums n : forall l, length l = (2 * n)%nat -> length (sums l) = n.
Proof.
  induction n as [|n IH]; intros l Hl; [by destruct l|].
  destruct l as [|a [|b l]]; simpl in *; [lia..|]. rewrite IH; lia.
Qed.

Lemma sums_bound n B : forall l, length l = (2 * n)%nat ->
  Forall (fun a => 0 <= a <= B) l -> Forall (fun a => 0 <= a <= 2 * B) (sums l).
Proof.
  induction n as [|n IH]; intros l Hl; [by destruct l|].
  destruct l as [|a [|b l]]; simpl in *; [lia..|].
  intros [? [? ?]%Forall_cons_1]%Forall_cons_1. constructor; [lia|]. apply IH; [lia|done].
Qed.

(** Even and odd fields. *)
Fixpoint evens (l : list Z) : list Z :=
  match l with a :: _ :: l => a :: evens l | _ => [] end.
Fixpoint odds (l : list Z) : list Z :=
  match l with _ :: b :: l => b :: odds l | _ => [] end.

Section masks.
Context (k : Z) (Hk : 0 < k).

Local Lemma pow_double : 2 ^ (2 * k) = 2 ^ k * 2 ^ k.
Proof. rewrite <-Z.pow_add_r by lia. f_equal. lia. Qed.

Local Lemma fields_cons2 a b l : fields k (a :: b :: l) = (a + 2 ^ k * b) + 2 ^ (2 * k) * fields k l.
Proof. unfold fields at 1. cbn [foldr]. fold (fields k l). rewrite pow_double. lia. Qed.

Local Lemma fields_cons a l : fields (2 * k) (a :: l) = a + 2 ^ (2 * k) * fields (2 * k) l.
Proof. done. Qed.

Lemma mask_low n : forall l, length l = (2 * n)%nat -> Forall (fun a => 0 <= a < 2 ^ k) l ->
  Z.land (fields k l) (fields (2 * k) (replicate n (Z.ones k))) = fields (2 * k) (evens l).
Proof.
  induction n as [|n IH]; intros l Hl Hb; [by destruct l|].
  destruct l as [|a [|b l]]; simpl in Hl; [lia..|].
  apply Forall_cons_1 in Hb as [Ha [Hb Hbl]%Forall_cons_1].
  cbn [replicate evens]. rewrite fields_cons2, !fields_cons.
  pose proof pow_double as E. pose proof (Z.ones_equiv k).
  rewrite land_concat, IH by (done || lia || nia).
  rewrite Z.land_ones, Z.mul_comm, Z_mod_plus_full, (Z.mod_small a) by lia. done.
Qed.

Lemma mask_high n : forall l, length l = (2 * n)%nat -> Forall (fun a => 0 <= a < 2 ^ k) l ->
  Z.land (fields k l) (fields (2 * k) (replicate n (2 ^ k * Z.ones k))) =
  2 ^ k * fields (2 * k) (odds l).
Proof.
  induction n as [|n IH]; intros l Hl Hb; [destruct l; [|done]|].
  { unfold fields. cbn [odds foldr replicate]. by rewrite Z.mul_0_r. }
  destruct l as [|a [|b l]]; simpl in Hl; [lia..|].
  apply Forall_cons_1 in Hb as [Ha [Hb Hbl]%Forall_cons_1].
  cbn [replicate odds]. rewrite fields_cons2, !fields_cons.
  pose proof pow_double as E. pose proof (Z.ones_equiv k).
  rewrite land_concat, IH by (done || lia || nia).
  rewrite <-(Z.add_0_l (2 ^ k * Z.ones k)), land_concat, Z.land_0_r, Z.land_ones, Z.mod_small by lia.
  lia.
Qed.

Lemma fields_sums n : forall l, length l = (2 * n)%nat ->
  fields (2 * k) (odds l) + fields (2 * k) (evens l) = fields (2 * k) (sums l).
Proof.
  induction n as [|n IH]; intros l Hl; [by destruct l|].
  destruct l as [|a [|b l]]; simpl in Hl; [lia..|]. cbn [odds evens sums].
  rewrite !fields_cons, <-IH by lia. lia.
Qed.

(** One round of parallel addition: even and odd fields are masked, aligned
    and added, all pairs at once. *)
Lemma add_fields n l : length l = (2 * n)%nat -> Forall (fun a => 0 <= a < 2 ^ k) l ->
  Z.shiftr (Z.land (fields k l) (fields (2 * k) (replicate n (2 ^ k * Z.ones k)))) k +
  Z.land (fields k l) (fields (2 * k) (replicate n (Z.ones k))) = fields (2 * k) (sums l).
Proof.
  intros Hl Hb. rewrite mask_low, mask_high by done. rewrite Z.shiftr_div_pow2 by lia.
  rewrite Z.mul_comm, Z.div_mul by lia. by apply (fields_sums n).
Qed.
End masks.

Lemma fields_bound k l : 0 < k -> Forall (fun a => 0 <= a < 2 ^ k) l ->
  0 <= fields k l < 2 ^ (k * Z.of_nat (length l)).
Proof.
  intros Hk. induction 1 as [|a l Ha Hl IH]; [simpl; lia|]. unfold fields. cbn [foldr].
  fold (fields k l). cbn [length]. rewrite Nat2Z.inj_succ, Z.mul_succ_r, Z.add_comm, Z.pow_add_r by lia.
  nia.
Qed.

(** One round on a 32-bit word: the total of the fields does not change. *)
Lemma round k k' n l hi lo :
  k' = 2 * k -> hi = fields (2 * k) (replicate n (2 ^ k * Z.ones k)) ->
  lo = fields (2 * k) (replicate n (Z.ones k)) ->
  0 < k -> 2 * k * Z.of_nat n = 32 -> length l = (2 * n)%nat -> Forall (fun a => 0 <= a <= k) l ->
  exists l', u32 (Z.shiftr (Z.land (fields k l) hi) k + Z.land (fields k l) lo) = fields k' l' /\
    length l' = n /\ Forall (fun a => 0 <= a <= k') l' /\ foldr Z.add 0 l' = foldr Z.add 0 l.
Proof.
  intros -> -> -> Hk Hn Hl Hb. pose proof (Z.pow_gt_lin_r 2 k ltac:(lia)).
  pose proof (Z.pow_gt_lin_r 2 (2 * k) ltac:(lia)). exists (sums l).
  pose proof (length_sums n l Hl) as Hs. pose proof (sums_bound n k l Hl Hb) as Hb'.
  split; [|split; [done|split; [done|by apply (sums_sum n)]]]. rewrite add_fields; [|done..|].
  - apply wrap_small. unfold fits. replace 32 with (2 * k * Z.of_nat (length (sums l))) by lia.
    apply fields_bound; [lia|]. eapply Forall_impl; [|exact Hb']. simpl. lia.
  - eapply Forall_impl; [|exact Hb]. simpl. lia.
Qed.

Lemma bits_of_spec n x : length (bits_of n x) = n /\ Forall (fun a => 0 <= a <= 1) (bits_of n x).
Proof.
  revert x. induction n as [|n IH]; intros x; cbn; [done|]. destruct (IH (x / 2)) as [? ?].
  split; [lia|]. constructor; [|done]. pose proof (Z.mod_pos_bound x 2). lia.
Qed.

(** The total after five rounds. *)
Lemma popcount_bound n x : 0 <= popcount n x <= Z.of_nat n.
Proof.
  unfold popcount. revert x. induction n as [|n IH]; intros x; cbn -[Z.of_nat]; [lia|].
  pose proof (IH (x / 2)). pose proof (Z.mod_pos_bound x 2). lia.
Qed.

Lemma count_bits_popcount x : is_u32 x -> count_bits x = popcount 32 x.
Proof.
  intros Hx. destruct (bits_of_spec 32 x) as [Hl Hb].
  pose proof (fields_bits 32 x Hx) as Ex. unfold popcount. remember (bits_of 32 x) as l0. subst x.
  clear Heql0 Hx. unfold count_bits. cbv zeta.
  edestruct (round 1 2 16) as (l1 & -> & Hl1 & Hb1 & <-); [reflexivity..|done|done|exact Hl|exact Hb|].
  edestruct (round 2 4 8) as (l2 & -> & Hl2 & Hb2 & <-); [reflexivity..|done|done|exact Hl1|exact Hb1|].
  edestruct (round 4 8 4) as (l3 & -> & Hl3 & Hb3 & <-); [reflexivity..|done|done|exact Hl2|exact Hb2|].
  edestruct (round 8 16 2) as (l4 & -> & Hl4 & Hb4 & <-); [reflexivity..|done|done|exact Hl3|exact Hb3|].
  edestruct (round 16 32 1) as (l5 & -> & Hl5 & Hb5 & <-); [reflexivity..|done|done|exact Hl4|exact Hb4|].
  by destruct l5 as [|a [|]]; unfold fields; cbn [foldr]; try lia.
Qed.
