(* ===== verification/DeviceProofs.v ===== *)
(** Correctness of the [SVGADevice] methods over the FIFO contract: every
    command function queues exactly the encoding of its command, fences are
    never zero and are compared on the circle of 32-bit numbers, the waiting
    loops end, and start-up leaves an idle, well-formed FIFO. *)

From S2P Require Import Prelude Layout SvgaReg SvgaCmd Fifo Ring FifoProofs SvgaDevice Bits.

(** There is room for a command of [n] words. *)
Definition room {HS} (d : dev HS) (n : Z) : Prop := 0 < n <= 0x4000 /\ n < rsize d.(fifo).

Section commands.
Context {HS : Type} `{SvgaHostOK HS}.
Implicit Types (d : dev HS).

Lemma mbind_assoc {A B C} (m : M HS A) (k : A -> M HS B) (k' : B -> M HS C) n d :
  ((m ≫= k) ≫= k') n d = (m ≫= fun a => k a ≫= k') n d.
Proof. unfold mbind, M_bind. by destruct (m n d) as [[? ?]|]. Qed.

Lemma mbind_ext {A B} (m : M HS A) (k k' : A -> M HS B) n d :
  (forall a d, k a n d = k' a n d) -> (m ≫= k) n d = (m ≫= k') n d.
Proof. intros E. unfold mbind, M_bind. destruct (m n d) as [[? ?]|]; [apply E|done]. Qed.

Lemma seq_ext {A B} (m : M HS A) (k k' : M HS B) n d :
  (forall d, k n d = k' n d) -> (m;; k) n d = (m;; k') n d.
Proof. intros E. by apply mbind_ext. Qed.

Lemma emits_ext {A} (m m' : M HS A) d a ws :
  (forall n, m n d = m' n d) -> emits m d a ws -> emits m' d a ws.
Proof. intros E Hm fuel Hf. rewrite <-E. by apply Hm. Qed.

(** A command that starts with its number. *)
Lemma emits_ReserveCmd {A} n id (k : option ptr -> M HS A) d a ws :
  idle d -> room d n ->
  (forall d' p fuel, pending d' p n -> keeps d d' ->
     exists d'', (store_words p 0 [id];; k (Some (ptr_add p 4))) fuel d' = Some (a, d'') /\
       committed d' d'' ws) ->
  emits (FIFOReserveCmd id (4 * (n - 1)) ≫= k) d a ws.
Proof.
  intros Hi [Hn Hs] Hk. unfold FIFOReserveCmd.
  replace (u64 (4 * (n - 1) + 4)) with (4 * n) by (rewrite wrap_small; unfold fits; lia).
  eapply emits_ext; [intros; symmetry; apply mbind_assoc|].
  apply emits_reserve; [done..|]. intros d' p fuel Hp Hkeep.
  destruct (Hk d' p fuel Hp Hkeep) as (d'' & E & Hc). exists d''.
  split; [|done]. rewrite <-E. apply mbind_assoc.
Qed.

(** A command with fixed parameters queues its number and its parameters. *)
Lemma fixed_cmd_emits {A} id (c : coder A) a d :
  idle d -> ok c a -> room d (1 + csize c) ->
  emits (fixed_cmd id c a) d true ((id : Z) :: enc c a).
Proof.
  intros Hi Hok Hr. unfold fixed_cmd, bsize. replace (csize c) with (1 + csize c - 1) by lia.
  apply emits_ReserveCmd; [done..|]. intros d' p fuel Hp _.
  merge_stores. apply (fill_commit p (1 + csize c)); [done|].
  simpl. rewrite <-(enc_size c a Hok). lia.
Qed.

(** An escape: header and padded data. *)
Lemma emits_ReserveEscape {A} nsid bytes (k : option ptr -> M HS A) d a ws :
  let n := 3 + (bytes + 3) / 4 in
  idle d -> 0 <= bytes -> room d n ->
  (forall d' p fuel, pending d' p n -> keeps d d' ->
     exists d'', (store_words p 0 [(SVGA_CMD_ESCAPE : Z); nsid; bytes];;
                  k (Some (ptr_add p 12))) fuel d' = Some (a, d'') /\ committed d' d'' ws) ->
  emits (FIFOReserveEscape nsid bytes ≫= k) d a ws.
Proof.
  intros n Hi Hb [Hn Hs] Hk. unfold FIFOReserveEscape.
  assert (bytes < 2 ^ 32) as Hb' by (unfold n in Hn; pose proof (Z_div_mod_eq_full (bytes + 3) 4);
    pose proof (Z.mod_pos_bound (bytes + 3) 4); lia).
  assert (Z.land (u64 (bytes + 3)) (u64 (Z.lnot 3)) = 4 * ((bytes + 3) / 4)) as ->.
  { rewrite wrap_small by (unfold fits; lia).
    change (u64 (Z.lnot 3)) with (Z.ldiff (Z.ones 64) (Z.ones 2)).
    rewrite Z.ldiff_land, Z.land_assoc, Z.land_ones by lia.
    rewrite Z.mod_small by lia. rewrite <-Z.ldiff_land, Z.ldiff_ones_r by lia.
    rewrite Z.shiftr_div_pow2, Z.shiftl_mul_pow2 by lia. change (2 ^ 2) with 4. lia. }
  rewrite (wrap_small 32 bytes) by (unfold fits; lia).
  replace (u64 (4 * ((bytes + 3) / 4) + 12)) with (4 * n)
    by (rewrite wrap_small; unfold fits, n in *; lia).
  eapply emits_ext; [intros; symmetry; apply mbind_assoc|].
  apply emits_reserve; [done..|]. intros d' p fuel Hp Hkeep.
  destruct (Hk d' p fuel Hp Hkeep) as (d'' & E & Hc). exists d''.
  split; [|done]. rewrite <-E. apply mbind_assoc.
Qed.

(** ** Video overlay registers *)

Definition flat (items : list (Z * Z)) : list Z := items ≫= fun it => [it.1; it.2].

Lemma length_flat items : Z.of_nat (length (flat items)) = 2 * Z.of_nat (length items).
Proof. unfold flat. induction items; csimpl; lia. Qed.

(** The command that sets the given overlay registers. *)
Definition video_cmd (streamId : Z) (items : list (Z * Z)) : svga_cmd :=
  CmdEscape (mk_SVGAFifoCmdEscape SVGA_ESCAPE_NSID_CECL (8 + 8 * Z.of_nat (length items)))
    ([SVGA_ESCAPE_CECL_VIDEO_SET_REGS; streamId] ++ flat items).

Lemma store_nil {A} p i (k : M HS A) n d : (store_words p i [];; k) n d = k n d.
Proof. unfold store_words, modify, mbind, M_bind. by destruct d, (p_area p). Qed.

(** A loop that stores the items, as one store. *)
Lemma emits_video (body : ptr -> M HS unit) streamId items d :
  idle d -> room d (5 + 2 * Z.of_nat (length items)) ->
  (forall p n d', (body p;; FIFOCommitAll;; mret true) n d' =
     (store_words p 2 (flat items);; FIFOCommitAll;; mret true) n d') ->
  emits (setRegs ← BeginVideoSetRegs streamId (Z.of_nat (length items));
         match setRegs with
         | None => mret false
         | Some setRegs => body setRegs;; FIFOCommitAll;; mret true
         end) d true (encode_cmd (video_cmd streamId items)).
Proof.
  intros Hi Hr Hbody. unfold BeginVideoSetRegs.
  set (len := Z.of_nat (length items)) in *. assert (0 <= len) by lia. pose proof Hr as [Hn _].
  replace (u64 (16 - 8 + len * 8)) with (8 + 8 * len) by (rewrite wrap_small; unfold fits; lia).
  assert (3 + (8 + 8 * len + 3) / 4 = 5 + 2 * len) as En.
  { replace (8 + 8 * len + 3) with (3 + (2 + 2 * len) * 4) by lia.
    rewrite Z.div_add by lia. change (3 / 4) with 0. lia. }
  eapply emits_ext; [intros; symmetry; apply mbind_assoc|].
  apply emits_ReserveEscape; rewrite ?En; [done|lia|done|].
  intros d' p fuel Hp _.
  change (8 + 8 * len) with (8 + 8 * Z.of_nat (length items)) in *.
  rewrite (mbind_ext (store_words p 0 _) _
    (fun _ => store_words (ptr_add p 12) 0 [SVGA_ESCAPE_CECL_VIDEO_SET_REGS; streamId];;
              store_words (ptr_add p 12) 2 (flat items);; FIFOCommitAll;; mret true)).
  2: { intros ? d1. rewrite mbind_assoc. apply mbind_ext. intros ? d2. exact (Hbody _ fuel d2). }
  merge_stores.
  apply (fill_commit p (5 + 2 * len)); [done|]. pose proof (length_flat items) as Hf. simpl in *. lia.
Qed.

(** The registers [minReg .. maxReg], in order. *)
Definition range_items (regs : Z -> Z) (i minReg : Z) (n : nat) : list (Z * Z) :=
  (fun j => (u32 (j + minReg), regs (u32 (j + minReg)))) <$> seqZ i (Z.of_nat n).

Lemma range_loop_store {A} n : forall p i minReg regs (k : M HS A) fuel d,
  (range_loop n p i minReg regs;; k) fuel d =
  (store_words p (2 + 2 * i) (flat (range_items regs i minReg n));; k) fuel d.
Proof.
  induction n as [|n IH]; intros p i minReg regs k fuel d; cbn [range_loop].
  { by rewrite store_nil. }
  rewrite mbind_assoc. unfold set_item.
  erewrite seq_ext; [|intros d1; apply IH]. rewrite store_store by (simpl; lia).
  unfold range_items. rewrite (seqZ_cons i (Z.of_nat (S n))) by lia.
  replace (Z.pred (Z.of_nat (S n))) with (Z.of_nat n) by lia. by rewrite Z.add_1_r.
Qed.

Lemma VideoSetRegsInRange_emits streamId regs minReg maxReg d :
  let items := range_items regs 0 minReg (Z.to_nat (maxReg - minReg + 1)) in
  idle d -> is_u32 minReg -> is_u32 maxReg -> minReg <= maxReg ->
  room d (5 + 2 * (maxReg - minReg + 1)) ->
  emits (VideoSetRegsInRange streamId regs minReg maxReg) d true
    (encode_cmd (video_cmd streamId items)).
Proof.
  intros items Hi Hm HM Hle Hr. unfold VideoSetRegsInRange. pose proof Hr as [Hn _]. cbv zeta.
  rewrite wrap_small by (unfold fits in *; lia). destruct (Z.ltb_spec maxReg minReg); [lia|].
  assert (Z.of_nat (length items) = maxReg - minReg + 1) as El.
  { unfold items, range_items. rewrite length_fmap, length_seqZ. lia. }
  rewrite <-El at 1. apply emits_video; [done|by rewrite El|].
  intros p n d'. apply (range_loop_store _ p 0).
Qed.

(** The registers whose bit is set, in ascending order. *)
Fixpoint mask_items (fuel : nat) (regMask i : Z) (regs : Z -> Z) : list (Z * Z) :=
  match fuel with
  | O => []
  | S fuel =>
      let rest := mask_items fuel (Z.shiftr regMask 1) (i + 1) regs in
      if Z.testbit regMask 0 then (i, regs i) :: rest else rest
  end.

Lemma mask_items_0 n i regs : mask_items n 0 i regs = [].
Proof. revert i. induction n as [|n IH]; intros i; cbn; [done|apply IH]. Qed.

Lemma shiftr1_range n x :
  0 <= x < 2 ^ Z.of_nat (S n) -> 0 <= Z.shiftr x 1 < 2 ^ Z.of_nat n.
Proof.
  rewrite Nat2Z.inj_succ, Z.pow_succ_r by lia. rewrite Z.shiftr_div_pow2 by lia.
  intros. split; [apply Z.div_pos; lia|apply Z.div_lt_upper_bound; lia].
Qed.

Lemma mask_loop_store {A} n : forall p regMask num i regs (k : M HS A) fuel d,
  0 <= regMask < 2 ^ Z.of_nat n ->
  (mask_loop (S n) p regMask num i regs;; k) fuel d =
  (store_words p (2 + 2 * num) (flat (mask_items n regMask i regs));; k) fuel d.
Proof.
  induction n as [|n IH]; intros p regMask num i regs k fuel d Hm.
  { assert (regMask = 0) as -> by (simpl in *; lia). by rewrite store_nil. }
  cbn [mask_loop mask_items]. destruct (Z.eqb_spec regMask 0) as [->|Hne].
  { rewrite mask_items_0, Z.bits_0. by rewrite store_nil. }
  pose proof (shiftr1_range n regMask Hm) as Hs.
  change (Z.land regMask 1) with (Z.land regMask (2 ^ 0)). fold (has_bits regMask (2 ^ 0)).
  rewrite has_bits_pow2 by lia. destruct (Z.testbit regMask 0).
  - rewrite mbind_assoc. unfold set_item.
    erewrite seq_ext; [|intros d1; by apply IH]. rewrite store_store by (simpl; lia). done.
  - by apply IH.
Qed.

Lemma length_mask_items n : forall x i regs,
  Z.of_nat (length (mask_items n x i regs)) = popcount n x.
Proof.
  unfold popcount. induction n as [|n IH]; intros x i regs; cbn [mask_items bits_of foldr]; [done|].
  replace (x / 2) with (Z.shiftr x 1) by (rewrite Z.shiftr_div_pow2; done).
  rewrite <-(IH _ (i + 1) regs), <-Z.bit0_mod.
  destruct (Z.testbit x 0); cbn [Z.b2z length]; lia.
Qed.

Lemma mask_items_in n : forall x i regs j,
  0 <= j - i < Z.of_nat n -> In (j, regs j) (mask_items n x i regs) <-> Z.testbit x (j - i) = true.
Proof.
  assert (forall m x i regs j v, In (j, v) (mask_items m x i regs) -> i <= j) as Hge.
  { intros m. induction m as [|m IH]; intros x i regs j v; cbn [mask_items]; [done|].
    destruct (Z.testbit x 0); cbn [In]; [intros [[= -> _]|?%IH]|intros ?%IH]; lia. }
  induction n as [|n IH]; intros x i regs j Hj; [lia|]. cbn [mask_items].
  destruct (Z.eq_dec j i) as [->|Hne].
  - rewrite Z.sub_diag. destruct (Z.testbit x 0); cbn [In]; [tauto|].
    split; [|done]. intros ?%Hge. lia.
  - specialize (IH (Z.shiftr x 1) (i + 1) regs j ltac:(lia)).
    rewrite Z.shiftr_spec in IH by lia. replace (j - (i + 1) + 1) with (j - i) in IH by lia.
    rewrite <-IH. destruct (Z.testbit x 0); cbn [In]; [|done].
    split; [intros [[= ? _]|?]; [lia|done]|tauto].
Qed.

Lemma VideoSetRegsWithMask_emits streamId regs regMask d :
  let items := mask_items 32 regMask 0 regs in
  idle d -> is_u32 regMask -> regMask <> 0 -> room d (5 + 2 * count_bits regMask) ->
  emits (VideoSetRegsWithMask streamId regs regMask) d true
    (encode_cmd (video_cmd streamId items)).
Proof.
  intros items Hi Hm Hne Hr. unfold VideoSetRegsWithMask. destruct (Z.eqb_spec regMask 0); [done|].
  assert (count_bits regMask = Z.of_nat (length items)) as El.
  { unfold items. by rewrite length_mask_items, count_bits_popcount. }
  rewrite El in *. apply emits_video; [done|done|]. intros p k d'.
  by apply (mask_loop_store 32 p regMask 0 0 regs).
Qed.

Lemma VideoSetReg_emits streamId registerId value d :
  idle d -> room d 7 ->
  emits (VideoSetReg streamId registerId value) d true
    (encode_cmd (video_cmd streamId [(registerId, value)])).
Proof.
  intros Hi Hr. unfold VideoSetReg.
  apply (emits_video (fun p => set_item p 0 registerId value) streamId [(registerId, value)]); done.
Qed.

(** ** Fences *)

(** The number of the next fence. *)
Definition next_fence d : Z := if d.(m_next_fence) =? 0 then 1 else d.(m_next_fence).

Lemma InsertFence_spec d fuel :
  has_bits (d.(fifo) SVGA_FIFO_CAPABILITIES) SVGA_FIFO_CAP_FENCE = true ->
  idle d -> room d 2 -> (Z.to_nat (used d.(fifo)) < fuel)%nat ->
  exists d', InsertFence fuel d = Some (next_fence d, d') /\
    d'.(m_next_fence) = u32 (next_fence d + 1) /\
    committed (set_next_fence (u32 (next_fence d + 1)) d) d'
      (encode_cmd (CmdFence (mk_SVGAFifoCmdFence (next_fence d)))).
Proof.
  intros Hcap Hi [Hn Hs] Hf. unfold InsertFence.
  rewrite (mbind_eq _ _ fuel d true d) by (cbv [HasFIFOCap mbind M_bind getf gets mret M_ret]; by rewrite Hcap).
  cbn [negb]. rewrite (mbind_eq _ _ fuel d d.(m_next_fence) d eq_refl).
  set (d1 := if d.(m_next_fence) =? 0 then set_next_fence 1 d else d).
  rewrite (mbind_eq _ _ fuel d tt d1) by (unfold d1; by destruct (_ =? 0)).
  assert (m_next_fence d1 = next_fence d) as E1 by (unfold d1, next_fence; by destruct (_ =? 0)).
  rewrite (mbind_eq _ _ fuel d1 (next_fence d) d1) by (unfold gets; by rewrite E1).
  set (d2 := set_next_fence (u32 (next_fence d + 1)) d).
  rewrite (mbind_eq _ _ fuel d1 tt d2) by (unfold modify, d1, d2; by destruct (_ =? 0)).
  destruct (emits_reserve 2 (fun cmd => match cmd with
    | None => mret 0
    | Some cmd => store_words cmd 0 [(SVGA_CMD_FENCE : Z)];; store_words cmd 1 [next_fence d];;
                  FIFOCommitAll;; mret (next_fence d) end) d2 (next_fence d)
    [(SVGA_CMD_FENCE : Z); next_fence d]) with (fuel := fuel) as (d' & E & Hc); [done..| |done|].
  - intros d3 p n Hp _. rewrite store_store by (simpl; lia). by apply (fill_commit p 2).
  - exists d'. split; [done|]. split; [|done]. destruct Hc as (_ & [_ Hrest] & _).
    unfold dev_rest in Hrest. by injection Hrest.
Qed.
End commands.

(** ** The circle of fences *)

(** A fence is passed for the 2^31 values of the register from itself on, and
    not passed for the 2^31 values before it. *)
Lemma fence_window r fence k :
  0 <= k < 2 ^ 32 -> r = u32 (fence + k) ->
  HasFencePassedUnguarded r fence = (k <? 2 ^ 31).
Proof.
  intros Hk ->. unfold HasFencePassedUnguarded, swrap. rewrite wrap_sub_l.
  replace (fence + k - fence) with k by lia. rewrite wrap_small by done.
  change (32 - 1) with 31. zcase.
Qed.

(** ** Waiting *)

Section waiting.
Context {HS : Type} `{SvgaHostOK HS}.
Implicit Types (d : dev HS).

Lemma WriteReg_spec r v n d :
  ring_ok d.(fifo) -> r <> SVGA_REG_CONFIG_DONE ->
  exists d', WriteReg r v n d = Some (tt, d') /\ keeps d d' /\
    d'.(m_reserved_size) = d.(m_reserved_size).
Proof.
  intros R Hr. unfold WriteReg. pose proof (host_write_step d.(host) d.(fifo) r v Hr R) as Hs.
  destruct (host_write d.(host) d.(fifo) r v) as [h f]. eexists. split; [done|].
  split; [|done]. split; [by apply adv_host|done].
Qed.

(** A look at BUSY: zero exactly when the queue is empty, and progress. *)
Lemma read_busy_spec n d :
  ring_ok d.(fifo) ->
  exists v d', ReadReg SVGA_REG_BUSY n d = Some (v, d') /\ keeps d d' /\
    d'.(m_reserved_size) = d.(m_reserved_size) /\ (v = 0 <-> used d'.(fifo) = 0) /\
    (0 < used d'.(fifo) -> used d'.(fifo) < used d.(fifo)).
Proof.
  intros R. unfold ReadReg.
  pose proof (host_read_step d.(host) d.(fifo) SVGA_REG_BUSY R) as Hs.
  pose proof (host_busy_progress d.(host) d.(fifo) R) as Hp.
  pose proof (host_busy_drained d.(host) d.(fifo) R) as Hd. apply adv_host in Hs as Ha; [|done].
  destruct (host_read d.(host) d.(fifo) SVGA_REG_BUSY) as [v [h f]]. do 2 eexists. split; [done|].
  split; [by split|]. split; [done|]. split; [done|]. simpl in *. intros.
  apply Hp. pose proof (adv_used _ _ Ha). lia.
Qed.

Lemma busy_loop_spec fuel : forall d,
  ring_ok d.(fifo) -> (Z.to_nat (used d.(fifo)) < fuel)%nat ->
  exists d', busy_loop fuel d = Some (tt, d') /\ keeps d d' /\
    d'.(m_reserved_size) = d.(m_reserved_size) /\ used d'.(fifo) = 0.
Proof.
  induction fuel as [|fuel IH]; intros d R Hf; [lia|]. cbn [busy_loop].
  destruct (read_busy_spec O d R) as (v & d1 & E & Hk & Hr & Hv & Hp).
  rewrite (mbind_eq _ _ O d v d1 E). destruct (Z.eqb_spec v 0) as [Ev|Ev].
  - exists d1. apply Hv in Ev. auto.
  - pose proof Hk as [Ha _]. pose proof (adv_ring _ _ Ha) as R1. pose proof (used_range _ R1).
    destruct (Z.eq_dec (used d1.(fifo)) 0) as [E0|]; [by apply Hv in E0|].
    destruct (IH d1 R1) as (d' & E' & Hk' & Hr' & Hu); [lia|]. exists d'. split; [done|].
    split; [by eapply keeps_trans|]. split; [congruence|done].
Qed.

(** [SyncFIFO] returns, with an empty queue. *)
Lemma SyncFIFO_spec fuel d :
  ring_ok d.(fifo) -> (Z.to_nat (used d.(fifo)) < fuel)%nat ->
  exists d', SyncFIFO fuel d = Some (tt, d') /\ keeps d d' /\
    d'.(m_reserved_size) = d.(m_reserved_size) /\ queue d'.(fifo) = [].
Proof.
  intros R Hf. unfold SyncFIFO, busy_wait.
  destruct (WriteReg_spec SVGA_REG_SYNC 1 fuel d R ltac:(done)) as (d1 & E1 & Hk1 & Hr1).
  rewrite (mbind_eq _ _ fuel d tt d1 E1). pose proof Hk1 as [Ha _].
  pose proof (adv_used _ _ Ha). pose proof (used_range _ (adv_ring _ _ Ha)).
  destruct (busy_loop_spec fuel d1 (adv_ring _ _ Ha)) as (d2 & E2 & Hk2 & Hr2 & Hu); [lia|].
  exists d2. split; [done|]. split; [by eapply keeps_trans|]. split; [congruence|].
  unfold queue. by rewrite Hu.
Qed.

(** What the loop of [SyncToFence] waits for. *)
Definition fence_reached d (fence : Z) : Prop :=
  HasFencePassedUnguarded (d.(fifo) SVGA_FIFO_FENCE) fence = true \/ queue d.(fifo) = [].

Lemma sync_loop_spec fence fuel : forall d,
  ring_ok d.(fifo) -> (Z.to_nat (used d.(fifo)) < fuel)%nat ->
  exists d', sync_loop fuel fence d = Some (tt, d') /\ keeps d d' /\
    d'.(m_reserved_size) = d.(m_reserved_size) /\ fence_reached d' fence.
Proof.
  induction fuel as [|fuel IH]; intros d R Hf; [lia|]. cbn [sync_loop].
  destruct (hrun_spec O d R) as (d0 & E0 & Ha0 & _ & _ & Hr0 & Hrest).
  assert (keeps d d0) as Hk0 by done. pose proof (adv_ring _ _ Ha0) as R0.
  pose proof (adv_used _ _ Ha0). pose proof (used_range _ R0).
  rewrite (mbind_eq _ _ O d (d0.(fifo) SVGA_FIFO_FENCE) d0)
    by (unfold vgetf; by rewrite (mbind_eq _ _ O d tt d0)).
  destruct (HasFencePassedUnguarded _ fence) eqn:Ep;
    [exists d0; split; [done|]; split; [done|]; split; [done|by left]|].
  destruct (read_busy_spec O d0 R0) as (v & d1 & E & Hk & Hr & Hv & Hp).
  rewrite (mbind_eq _ _ O d0 v d1 E). destruct (Z.eqb_spec v 0) as [Ev|Ev].
  - exists d1. split; [done|]. split; [by eapply keeps_trans|]. split; [congruence|]. right. apply Hv in Ev.
    unfold queue. by rewrite Ev.
  - pose proof Hk as [Ha _]. pose proof (adv_ring _ _ Ha) as R1. pose proof (used_range _ R1).
    destruct (Z.eq_dec (used d1.(fifo)) 0) as [Eu|]; [by apply Hv in Eu|].
    destruct (IH d1 R1) as (d' & E' & Hk' & Hr' & Hu); [lia|]. exists d'. split; [done|].
    split; [|split; [congruence|done]]. eapply keeps_trans; [done|]. by eapply keeps_trans.
Qed.

(** What a wait for [fence] ends with. *)
Definition synced d d' (fence : Z) : Prop :=
  if has_bits (d.(fifo) SVGA_FIFO_CAPABILITIES) SVGA_FIFO_CAP_FENCE
  then fence_reached d' fence else queue d'.(fifo) = [].

Lemma SyncToFence_spec fence fuel d :
  ring_ok d.(fifo) -> (Z.to_nat (used d.(fifo)) < fuel)%nat ->
  exists d', SyncToFence fence fuel d = Some (tt, d') /\ keeps d d' /\
    d'.(m_reserved_size) = d.(m_reserved_size) /\ (fence <> 0 -> synced d d' fence).
Proof.
  intros R Hf. unfold SyncToFence, synced. destruct (Z.eqb_spec fence 0).
  { exists d. split; [done|]. split; [split; [by apply adv_refl|done]|]. by split. }
  rewrite (mbind_eq _ _ fuel d (has_bits (d.(fifo) SVGA_FIFO_CAPABILITIES) SVGA_FIFO_CAP_FENCE) d eq_refl).
  destruct (has_bits _ _); cbn [negb].
  - destruct (hrun_spec fuel d R) as (d0 & E0 & Ha0 & _ & _ & Hr0 & Hrest).
    rewrite (mbind_eq _ _ fuel d (d0.(fifo) SVGA_FIFO_FENCE) d0)
      by (unfold vgetf; by rewrite (mbind_eq _ _ fuel d tt d0)).
    destruct (HasFencePassedUnguarded _ fence) eqn:Ep;
      [exists d0; split; [done|]; split; [done|]; split; [done|by left]|].
    destruct (WriteReg_spec SVGA_REG_SYNC 1 fuel d0 (adv_ring _ _ Ha0) ltac:(done)) as (d1 & E1 & Hk1 & Hr1).
    rewrite (mbind_eq _ _ fuel d0 tt d1 E1). pose proof Hk1 as [Ha1 _].
    pose proof (adv_used _ _ Ha0). pose proof (adv_used _ _ Ha1).
    pose proof (used_range _ (adv_ring _ _ Ha1)).
    destruct (sync_loop_spec fence fuel d1 (adv_ring _ _ Ha1)) as (d2 & E2 & Hk2 & Hr2 & Hr); [lia|].
    exists d2. split; [done|]. split; [|split; [congruence|done]].
    eapply keeps_trans; [by split|]. by eapply keeps_trans.
  - destruct (SyncFIFO_spec fuel d R Hf) as (d' & E & Hk & Hr & Hq). by exists d'.
Qed.

(** The doorbell changes nothing that the driver relies on. *)
Lemma RingDoorBell_spec fuel d :
  ring_ok d.(fifo) ->
  exists d', RingDoorBell fuel d = Some (tt, d') /\ keeps d d' /\ d'.(m_reserved_size) = d.(m_reserved_size).
Proof.
  intros R. unfold RingDoorBell.
  rewrite (mbind_eq _ _ fuel d (u32 (Z.shiftl SVGA_FIFO_BUSY 2) <? d.(fifo) SVGA_FIFO_MIN) d eq_refl).
  destruct (_ <? _); [|by apply WriteReg_spec].
  destruct (hrun_spec fuel d R) as (d0 & E0 & Ha0 & _ & _ & Hr0 & Hrest).
  rewrite (mbind_eq _ _ fuel d (d0.(fifo) SVGA_FIFO_BUSY) d0)
    by (unfold vgetf; by rewrite (mbind_eq _ _ fuel d tt d0)).
  pose proof (adv_ring _ _ Ha0) as R0. destruct (_ =? 0); cbn [when]; [|by exists d0].
  set (d1 := set_fifo (upd d0.(fifo) SVGA_FIFO_BUSY 1) d0).
  rewrite (mbind_eq (setf SVGA_FIFO_BUSY 1) _ fuel d0 tt d1) by done. pose proof (adv_busy d0.(fifo) 1 R0) as Ha1.
  destruct (WriteReg_spec SVGA_REG_SYNC 1 fuel d1 (adv_ring _ _ Ha1) ltac:(done)) as (d2 & E2 & Hk2 & Hr2).
  exists d2. split; [done|]. split; [|by rewrite Hr2].
  eapply keeps_trans; [by split|]. eapply keeps_trans; [|done]. by split.
Qed.
End waiting.

(** ** Start-up *)

(** A FIFO memory that the device can offer. *)
Definition fifo_size_ok (size : Z) : Prop :=
  4 * SVGA_FIFO_NUM_REGS < size <= 2 ^ 31 /\ aligned size.

Section startup.
Context {HS : Type} `{SvgaHostOK HS}.
Implicit Types (d : dev HS).

Lemma ReadReg_total r n d : exists v h f,
  ReadReg r n d = Some (v, set_host h f d) /\ v = (host_read d.(host) d.(fifo) r).1.
Proof. unfold ReadReg. destruct (host_read _ _ r) as [v [h f]]. eauto 10. Qed.

Lemma WriteReg_total r v n d : exists h f, WriteReg r v n d = Some (tt, set_host h f d).
Proof. unfold WriteReg. destruct (host_write _ _ r v) as [h f]. eauto. Qed.

Lemma WriteReg_config v n d : exists h f,
  WriteReg SVGA_REG_CONFIG_DONE v n d = Some (tt, set_host h f d) /\
  forall r : fifo_reg, In r [SVGA_FIFO_MIN; SVGA_FIFO_MAX; SVGA_FIFO_NEXT_CMD; SVGA_FIFO_STOP] ->
    f r = d.(fifo) r.
Proof.
  unfold WriteReg. pose proof (host_config_ring d.(host) d.(fifo) v) as Hc.
  destruct (host_write _ _ _ v) as [h f]. eauto.
Qed.

Local Ltac io_step :=
  match goal with
  | |- context [(ReadReg ?r ≫= ?k) ?n ?d] =>
      let v := fresh "v" in let h := fresh "h" in let f := fresh "f" in
      let E := fresh "E" in let Ev := fresh "Ev" in
      destruct (ReadReg_total r n d) as (v & h & f & E & Ev);
      rewrite (mbind_eq _ k n d v (set_host h f d) E); clear E
  | |- context [(WriteReg ?r ?x ≫= ?k) ?n ?d] =>
      let h := fresh "h" in let f := fresh "f" in let E := fresh "E" in
      destruct (WriteReg_total r x n d) as (h & f & E);
      rewrite (mbind_eq _ k n d tt (set_host h f d) E); clear E
  | |- context [(setf ?r ?v ≫= ?k) ?n ?d] =>
      rewrite (mbind_eq _ k n d tt (set_fifo (upd d.(fifo) r v) d) eq_refl)
  | |- context [(getf ?r ≫= ?k) ?n ?d] => rewrite (mbind_eq _ k n d (d.(fifo) r) d eq_refl)
  | |- context [(gets ?g ≫= ?k) ?n ?d] => rewrite (mbind_eq _ k n d (g d) d eq_refl)
  | |- context [(modify ?g ≫= ?k) ?n ?d] => rewrite (mbind_eq _ k n d tt (g d) eq_refl)
  | |- context [(HasCapability ?m ≫= ?k) ?n ?d] =>
      rewrite (mbind_eq _ k n d (has_bits d.(m_capabilities) m) d eq_refl)
  end.

Lemma FIFOInit_spec n d :
  fifo_size_ok d.(m_fifo_size) ->
  exists b d', FIFOInit n d = Some (b, d') /\
    (b = true -> idle d' /\ queue d'.(fifo) = [] /\ reservable d' = true /\
       d'.(fifo) SVGA_FIFO_MIN = 4 * SVGA_FIFO_NUM_REGS /\ d'.(fifo) SVGA_FIFO_MAX = d.(m_fifo_size) /\
       d'.(m_using_bounce_buffer) = false /\ dev_rest d' = dev_rest d).
Proof.
  intros [Hs Hal]. unfold FIFOInit. io_step.
  destruct (has_bits _ SVGA_CAP_EXTENDED_FIFO); [|by do 2 eexists]. cbn [negb].
  io_step. set (d1 := set_fifo _ d). io_step. io_step. set (d2 := set_fifo _ d1).
  io_step. io_step. set (d3 := set_fifo _ d2). io_step. io_step. set (d4 := set_fifo _ d3).
  assert (d4.(fifo) SVGA_FIFO_MIN = 1164 /\ d4.(fifo) SVGA_FIFO_MAX = m_fifo_size d /\
          d4.(fifo) SVGA_FIFO_NEXT_CMD = 1164 /\ d4.(fifo) SVGA_FIFO_STOP = 1164)
    as (E1 & E2 & E3 & E4) by done.
  assert (dev_rest d4 = dev_rest d) as Hrest by done. clearbody d4. clear d1 d2 d3.
  destruct (WriteReg_config 1 n d4) as (h & f & E & Hc). rewrite (mbind_eq _ _ n d4 tt _ E). clear E.
  assert (Hc1 : f SVGA_FIFO_MIN = 1164) by (rewrite <-E1; apply Hc; simpl; tauto).
  assert (Hc2 : f SVGA_FIFO_MAX = m_fifo_size d) by (rewrite <-E2; apply Hc; simpl; tauto).
  assert (Hc3 : f SVGA_FIFO_NEXT_CMD = 1164) by (rewrite <-E3; apply Hc; simpl; tauto).
  assert (Hc4 : f SVGA_FIFO_STOP = 1164) by (rewrite <-E4; apply Hc; simpl; tauto).
  assert (R : ring_ok f).
  { split; rewrite ?Hc1, ?Hc2, ?Hc3, ?Hc4; cbn in *; try lia. by repeat split. }
  io_step. destruct (has_bits _ SVGA_FIFO_CAP_CURSOR_BYPASS_3); [|by do 2 eexists]. cbn [negb].
  destruct (has_bits _ SVGA_FIFO_CAP_RESERVE) eqn:Er; [|by do 2 eexists]. cbn [negb].
  do 2 io_step. do 2 eexists. split; [done|]. intros _.
  split; [done|]. split; [|done].
  unfold queue, used, rtail, rhead. cbn [fifo set_using_bounce set_reserved set_host].
  rewrite Hc3, Hc4, Z.sub_diag. by rewrite Zmod_0_l.
Qed.

(** [Start] never blocks; a failed start has released everything, a
    successful one leaves an empty, well-formed FIFO and a bounce buffer. *)
Definition start_post (b : bool) d' : Prop :=
  if b then
    idle d' /\ reservable d' = true /\ d'.(m_fifo_mapped) = true /\ d'.(m_bounce_allocated) = true /\
    has_bits d'.(m_capabilities) SVGA_CAP_EXTENDED_FIFO = true /\ d'.(m_cursor_ptr) = None /\
    d'.(fifo) SVGA_FIFO_MIN = 4 * SVGA_FIFO_NUM_REGS /\ d'.(fifo) SVGA_FIFO_MAX = d'.(m_fifo_size)
  else d'.(m_fifo_mapped) = false /\ d'.(m_bounce_allocated) = false /\ d'.(m_capabilities) = 0.

Lemma fail_post n d : exists b d', fail n d = Some (b, d') /\ start_post b d'.
Proof. by exists false, (set_capabilities 0 (set_mapped false false d)). Qed.

(** An optional pair of register reads keeps all but the limits it stores. *)
Lemma when_limits (g : bool) (a b : Z) (set : Z -> Z -> dev HS -> dev HS) n d :
  (forall x y e, (set x y e).(fifo) = e.(fifo) /\ (set x y e).(m_fifo_size) = e.(m_fifo_size) /\
     (set x y e).(m_capabilities) = e.(m_capabilities) /\
     (set x y e).(m_fifo_mapped) = e.(m_fifo_mapped)) ->
  exists d', when g (x ← ReadReg a; y ← ReadReg b; modify (set x y)) n d = Some (tt, d') /\
    d'.(m_fifo_size) = d.(m_fifo_size) /\ d'.(m_capabilities) = d.(m_capabilities) /\
    d'.(m_fifo_mapped) = d.(m_fifo_mapped).
Proof.
  intros Hset. destruct g; [|by eexists]. cbn [when]. io_step. io_step. eexists. split; [done|].
  destruct (Hset v v0 (set_host h0 f0 (set_host h f d))) as (_ & -> & -> & ->). done.
Qed.

(** After the FIFO is up: traces, bounce buffer, cursor. *)
Lemma start_end provider n d b d1 :
  FIFOInit n d = Some (b, d1) -> d.(m_fifo_mapped) = true ->
  has_bits d.(m_capabilities) SVGA_CAP_EXTENDED_FIFO = true -> fifo_size_ok d.(m_fifo_size) ->
  exists b' d', (if negb b then fail
    else
      traces ← HasCapability SVGA_CAP_TRACES;
      when traces (WriteReg SVGA_REG_TRACES 1);;
      if negb provider.(bounce_malloc) then fail
      else
        modify (fun d => set_mapped d.(m_fifo_mapped) true d);;
        modify (set_cursor_ptr None);;
        mret true) n d1 = Some (b', d') /\ start_post b' d'.
Proof.
  intros E Hm Hc Hs. destruct b; [|apply fail_post]. cbn [negb].
  destruct (FIFOInit_spec n d Hs) as (b' & d1' & E' & Hpost). rewrite E in E'. simplify_eq.
  destruct (Hpost eq_refl) as (Hi & _ & Hr & Emin & Emax & _ & Hrest). io_step.
  assert (exists d2, when (has_bits (m_capabilities d1') SVGA_CAP_TRACES) (WriteReg SVGA_REG_TRACES 1) n d1'
    = Some (tt, d2) /\ keeps d1' d2 /\ m_reserved_size d2 = m_reserved_size d1') as (d2 & E2 & Hk & Hrs).
  { destruct (has_bits (m_capabilities d1') _); [by apply WriteReg_spec; [apply Hi|]|].
    exists d1'. split; [done|]. split; [|done]. split; [apply adv_refl; apply Hi|done]. }
  rewrite (mbind_eq _ _ n d1' tt d2 E2). destruct provider.(bounce_malloc); [|apply fail_post].
  cbn [negb]. do 2 io_step. do 2 eexists. split; [done|].
  destruct Hk as [Ha Hrest2]. rewrite Hrest in Hrest2. unfold dev_rest in Hrest2.
  injection Hrest2 as Em Eb Ec Efs Enf Ecap.
  assert (d2.(fifo) SVGA_FIFO_MIN = 4 * SVGA_FIFO_NUM_REGS /\ d2.(fifo) SVGA_FIFO_MAX = d2.(m_fifo_size)) as W
    by (by rewrite (adv_MIN Ha), (adv_MAX Ha), Emin, Emax, Efs).
  split; [split; [apply Ha|rewrite <-(proj2 Hi); exact Hrs]|]. simpl.
  split; [|rewrite Ecap, Em; split_and!; try done; apply W]. rewrite <-Hr. unfold reservable. by rewrite <-(adv_CAPABILITIES Ha).
Qed.

(** From the geometry on. *)
Lemma start_gmr provider n d :
  d.(m_fifo_mapped) = true -> has_bits d.(m_capabilities) SVGA_CAP_EXTENDED_FIFO = true ->
  fifo_size_ok d.(m_fifo_size) ->
  exists b d', (
    gmr ← HasCapability SVGA_CAP_GMR;
    when gmr
      (ids ← ReadReg SVGA_REG_GMR_MAX_IDS;
       len ← ReadReg SVGA_REG_GMR_MAX_DESCRIPTOR_LENGTH;
       modify (set_gmr_limits ids len));;
    gmr2 ← HasCapability SVGA_CAP_GMR2;
    when gmr2
      (pages ← ReadReg SVGA_REG_GMRS_MAX_PAGES;
       mem ← ReadReg SVGA_REG_MEMORY_SIZE;
       modify (set_gmr2_limits pages mem));;
    WriteReg SVGA_REG_DISPLAY_ID 0;;
    init ← FIFOInit;
    if negb init then fail
    else
      traces ← HasCapability SVGA_CAP_TRACES;
      when traces (WriteReg SVGA_REG_TRACES 1);;
      if negb provider.(bounce_malloc) then fail
      else
        modify (fun d => set_mapped d.(m_fifo_mapped) true d);;
        modify (set_cursor_ptr None);;
        mret true) n d = Some (b, d') /\ start_post b d'.
Proof.
  intros Hm Hc Hs. io_step.
  edestruct (when_limits (has_bits (m_capabilities d) SVGA_CAP_GMR) SVGA_REG_GMR_MAX_IDS
    SVGA_REG_GMR_MAX_DESCRIPTOR_LENGTH set_gmr_limits n d) as (d1 & E1 & S1 & C1 & M1); [done|].
  rewrite (mbind_eq _ _ n d tt d1 E1). io_step.
  edestruct (when_limits (has_bits (m_capabilities d1) SVGA_CAP_GMR2) SVGA_REG_GMRS_MAX_PAGES
    SVGA_REG_MEMORY_SIZE set_gmr2_limits n d1) as (d2 & E2 & S2 & C2 & M2); [done|].
  rewrite (mbind_eq _ _ n d1 tt d2 E2). io_step.
  set (d3 := set_host h f d2). assert (m_fifo_size d3 = m_fifo_size d) as S3 by (simpl; congruence).
  destruct (FIFOInit_spec n d3) as (b & d4 & E & _); [by rewrite S3|].
  rewrite (mbind_eq _ _ n d3 b d4 E). apply (start_end provider n d3 b d4); [done|simpl; congruence| |].
  - simpl. by rewrite C2, C1.
  - by rewrite S3.
Qed.

Lemma Start_total provider n d :
  (forall h f, fifo_size_ok (host_read h f SVGA_REG_MEM_SIZE).1) ->
  exists b d', Start provider n d = Some (b, d') /\ start_post b d'.
Proof.
  intros Hsize. unfold Start. destruct (has_bar0 provider); [|apply fail_post]. cbn [negb].
  do 3 io_step. destruct (v =? SVGA_ID_2); [|apply fail_post]. cbn [negb].
  do 5 io_step. destruct (has_bits _ SVGA_CAP_EXTENDED_FIFO) eqn:Ecap; [|apply fail_post].
  cbn [negb]. do 2 io_step.
  destruct (has_bar2 provider && bar2_maps provider); [|apply fail_post]. cbn [negb].
  destruct (bar2_address provider); [|apply fail_post]. cbn [negb].
  do 12 io_step. apply start_gmr; [done|exact Ecap|]. simpl. subst. apply Hsize.
Qed.
End startup.
