(* ===== verification/Driver.v ===== *)
(** The interface [Queues] between the FIFO and its users, the 2D methods as
    instances of it, and sequences of calls that satisfy it.  The properties of
    the FIFO layer (appending, refusals, fences, start-up) are stated here; the
    command stream as a whole is in [DriverStream]. *)

From S2P Require Import Prelude Layout SvgaReg SvgaCmd Fifo Ring FifoProofs SvgaDevice Bits DeviceProofs.

(** ** The interface *)

(** [m] queues the command [c] and returns true, from any idle state with room. *)
Class Queues {HS} `{SvgaHostOK HS} (m : M HS bool) (c : svga_cmd) : Prop :=
  queues d : idle d -> room d (Z.of_nat (length (encode_cmd c))) -> emits m d true (encode_cmd c).

(** Calls in sequence; the results in order. *)
Fixpoint run_calls {HS} (ms : list (M HS bool)) : M HS (list bool) :=
  match ms with
  | [] => mret []
  | m :: ms => b ← m; bs ← run_calls ms; mret (b :: bs)
  end.

(** ** A concrete device for the witnesses *)

(** A FIFO of 4096 words that offers all the capabilities that the driver asks for. *)
Definition demo_fifo : Z -> Z :=
  upd (upd (upd (upd (upd (fun _ => 0)
    SVGA_FIFO_MIN 1164) SVGA_FIFO_MAX 17548) SVGA_FIFO_NEXT_CMD 17500) SVGA_FIFO_STOP 17500)
    SVGA_FIFO_CAPABILITIES 0x7F.

Definition demo_dev : dev (Z -> Z) :=
  Dev demo_fifo (fun _ => 0) (fun r => if r =? SVGA_REG_MEM_SIZE then 17548 else
                                       if r =? SVGA_REG_ID then SVGA_ID_2 else
                                       if r =? SVGA_REG_CAPABILITIES then 0xF0C000 else 0)
    true true None 17548 false 0 1 0xF0C000 640 480 2560 1024 768 64 8 1024 0 0 0x1000000 0x100000.

Lemma demo_ring : ring_ok demo_fifo.
Proof. split; vm_compute; intuition congruence. Qed.

Lemma demo_idle : idle demo_dev.
Proof. split; [exact demo_ring|done]. Qed.

Section queues.
Context {HS : Type} `{SvgaHostOK HS}.
Implicit Types (d : dev HS).

Lemma fixed_queues {A} (id : SVGAFifoCmdId) (c : coder A) a (cmd : svga_cmd) :
  encode_cmd cmd = (id : Z) :: enc c a -> ok c a -> Queues (fixed_cmd id c a) cmd.
Proof.
  intros E Hok d Hi Hr. rewrite E in *. apply fixed_cmd_emits; [done..|].
  cbn [length] in Hr. rewrite Nat2Z.inj_succ, (enc_size c a Hok), <-Z.add_1_l in Hr. done.
Qed.

#[global] Instance UpdateFramebuffer_queues x y w h :
  ok SVGAFifoCmdUpdate_c (mk_SVGAFifoCmdUpdate x y w h) ->
  Queues (UpdateFramebuffer x y w h) (CmdUpdate (mk_SVGAFifoCmdUpdate x y w h)).
Proof. by apply fixed_queues. Qed.

#[global] Instance UpdateFramebuffer2_queues r :
  let a := mk_SVGAFifoCmdUpdate (r 0) (r 1) (r 2) (r 3) in
  ok SVGAFifoCmdUpdate_c a -> Queues (UpdateFramebuffer2 r) (CmdUpdate a).
Proof. by apply fixed_queues. Qed.

#[global] Instance RectCopy_queues r :
  let a := mk_SVGAFifoCmdRectCopy (r 0) (r 1) (r 2) (r 3) (r 4) (r 5) in
  ok SVGAFifoCmdRectCopy_c a -> Queues (RectCopy r) (CmdRectCopy a).
Proof. by apply fixed_queues. Qed.

#[global] Instance RectFill_queues color r :
  let a := mk_SVGAFifoCmdFrontRopFill color (r 0) (r 1) (r 2) (r 3) SVGA_ROP_COPY in
  ok SVGAFifoCmdFrontRopFill_c a -> Queues (RectFill color r) (CmdFrontRopFill a).
Proof. by apply fixed_queues. Qed.

#[global] Instance defineGMR2_queues gmrId numPages :
  let a := mk_SVGAFifoCmdDefineGMR2 gmrId numPages in
  ok SVGAFifoCmdDefineGMR2_c a -> Queues (defineGMR2 gmrId numPages) (CmdDefineGMR2 a).
Proof. by apply fixed_queues. Qed.

#[global] Instance VideoFlush_queues streamId :
  Queues (VideoFlush streamId)
    (CmdEscape (mk_SVGAFifoCmdEscape SVGA_ESCAPE_NSID_CECL 8)
       [SVGA_ESCAPE_CECL_VIDEO_FLUSH; streamId]).
Proof.
  intros d Hi Hr. unfold VideoFlush. apply emits_ReserveEscape; [done|lia|done|].
  intros d' p fuel Hp _. merge_stores. by apply (fill_commit p 5).
Qed.

#[global] Instance VideoSetReg_queues streamId registerId value :
  Queues (VideoSetReg streamId registerId value) (video_cmd streamId [(registerId, value)]).
Proof. intros d Hi Hr. by apply VideoSetReg_emits. Qed.

(** The page list must have the length that the call announces. *)
#[global] Instance remapGMR2_queues gmrId flags offsetPages numPages ws :
  let a := mk_SVGAFifoCmdRemapGMR2 gmrId flags offsetPages numPages in
  Queues (remapGMR2 gmrId flags offsetPages numPages (Some ws) (4 * Z.of_nat (length ws)))
    (CmdRemapGMR2 a ws).
Proof.
  intros a d Hi Hr. unfold remapGMR2. cbn [andb]. pose proof Hr as [Hn _].
  cbn [encode_cmd length] in Hr, Hn. rewrite length_app in Hr, Hn.
  replace (u64 (bsize SVGAFifoCmdRemapGMR2_c + 4 * Z.of_nat (length ws)))
    with (4 * (5 + Z.of_nat (length ws) - 1)).
  2: { change (bsize SVGAFifoCmdRemapGMR2_c) with 16. rewrite wrap_small; unfold fits; simpl in Hn; lia. }
  apply emits_ReserveCmd; [done|simpl in *; by replace (5 + _) with (Z.of_nat (S (4 + length ws))) by lia|].
  intros d' p fuel Hp _. rewrite (Z.mul_comm 4 (Z.of_nat (length ws))), Z.div_mul, Nat2Z.id, firstn_all by lia.
  merge_stores. apply (fill_commit p (5 + Z.of_nat (length ws))); [done|].
  simpl. lia.
Qed.

(** ** Sequences of commands *)

Lemma committed_rsize d d' ws : committed d d' ws -> rsize d'.(fifo) = rsize d.(fifo).
Proof.
  intros (_ & [Hf _] & _). unfold rsize.
  assert (d'.(fifo) SVGA_FIFO_MAX = d.(fifo) SVGA_FIFO_MAX) as -> by (apply Hf; cbn; lia).
  assert (d'.(fifo) SVGA_FIFO_MIN = d.(fifo) SVGA_FIFO_MIN) as -> by (apply Hf; cbn; lia). done.
Qed.

Lemma run_calls_spec fuel (calls : list (M HS bool * svga_cmd)) : forall d,
  idle d -> Forall (fun c => Queues c.1 c.2) calls ->
  Forall (fun c => room d (Z.of_nat (length (encode_cmd c.2)))) calls ->
  (Z.to_nat (rsize d.(fifo)) <= fuel)%nat ->
  exists d' bs pre, run_calls (calls.*1) fuel d = Some (bs, d') /\ idle d' /\
    bs = replicate (length calls) true /\
    pre ++ queue d'.(fifo) = queue d.(fifo) ++ (calls.*2 ≫= encode_cmd).
Proof.
  induction calls as [|[m c] calls IH]; intros d Hi Hq Hr Hf; cbn [fmap list_fmap fst snd] in *.
  { exists d, [], []. by rewrite app_nil_r. }
  apply Forall_cons_1 in Hq as [Hm Hq]. apply Forall_cons_1 in Hr as [Hrm Hr]. simpl in Hm, Hrm.
  pose proof (used_range _ (proj1 Hi)).
  destruct (Hm d Hi Hrm fuel) as (d1 & E1 & Hc); [lia|].
  pose proof (committed_rsize _ _ _ Hc) as Es. destruct Hc as (Hi1 & _ & pre1 & Hq1).
  destruct (IH d1) as (d2 & bs & pre2 & E2 & Hi2 & -> & Hq2); [done|done| |by rewrite Es|].
  { eapply Forall_impl; [|exact Hr]. intros x [? ?]. split; [done|by rewrite Es]. }
  exists d2, (true :: replicate (length calls) true), (pre1 ++ pre2). cbn [run_calls].
  rewrite (mbind_eq _ _ fuel d true d1 E1), (mbind_eq _ _ fuel d1 _ d2 E2).
  split; [done|]. split; [done|]. split; [done|]. csimpl.
  by rewrite <-app_assoc, Hq2, app_assoc, Hq1, <-app_assoc.
Qed.
End queues.

(** ** Properties *)

Section properties.
Context {HS : Type} `{SvgaHostOK HS}.
Implicit Types (d : dev HS).

(** C29: reserving, storing and committing append.  For every list of words
    that fits, a reservation of its size is granted, storing the words and
    committing returns, and the words are exactly what has been added at the
    end of the queue; this holds for reservations in place, through the
    bounce buffer around the end of the ring, and word by word on devices
    without the RESERVE capability. *)
Theorem fifo_append (ws : list Z) d :
  idle d -> room d (Z.of_nat (length ws)) ->
  emits (p ← FIFOReserve (4 * Z.of_nat (length ws));
         match p with
         | None => mret false
         | Some p => store_words p 0 ws;; FIFOCommitAll;; mret true
         end) d true ws.
Proof.
  intros Hi [Hn Hs]. apply emits_reserve; [done..|]. intros d' p fuel Hp _. by eapply fill_commit.
Qed.

(** Refused reservations.  A request that is larger than the bounce
    buffer or than the ring, that is not a whole number of words, or that is
    made while a reservation is outstanding returns a null pointer and
    changes nothing. *)
Theorem FIFOReserve_refused bytes fuel d :
  (BOUNCE_BUFFER_SIZE < bytes \/ u32 (d.(fifo) SVGA_FIFO_MAX - d.(fifo) SVGA_FIFO_MIN) < bytes \/
   bytes mod 4 <> 0 \/ d.(m_reserved_size) <> 0) ->
  FIFOReserve bytes fuel d = Some (None, d).
Proof. apply FIFOReserve_error. Qed.

(** A request for the whole ring hangs.  The size check of [FIFOReserve]
    admits a request of exactly MAX - MIN bytes, but the wait for room then
    never ends, however much the device consumes. *)
Theorem FIFOReserve_whole_ring_hangs fuel d :
  idle d -> 4 * rsize d.(fifo) <= BOUNCE_BUFFER_SIZE ->
  FIFOReserve (4 * rsize d.(fifo)) fuel d = None.
Proof.
  intros [R Hr] Hb. rewrite FIFOReserve_unfold, Hr. pose proof R as (m & s & h & t & Rw)%ring_ok_words.
  pose proof (ring_words_defs _ _ _ _ _ Rw) as (_ & Es & _ & _). pose proof Rw as [E1 E2 _ _ Hw].
  pose proof (reserve_loop_whole_ring fuel (set_reserved (4 * rsize d.(fifo)) d) (reservable d) R) as E.
  change (fifo (set_reserved (4 * rsize d.(fifo)) d)) with d.(fifo) in E. rewrite E, E1, E2, Es in *.
  rewrite wrap_small by (unfold fits; cbn in Hw; lia).
  rewrite (Z.mul_comm 4 s), Z_mod_mult, (Z.mul_comm s 4). cbn [negb].
  change (0 =? 0) with true. cbn [negb]. zcase.
Qed.

(** Fences.  With the FENCE capability, [InsertFence] returns a number
    that is never zero (the number that means no fence), queues the fence
    command with that number, and moves on to the next number modulo 2^32. *)
Theorem InsertFence_queued d fuel :
  has_bits (d.(fifo) SVGA_FIFO_CAPABILITIES) SVGA_FIFO_CAP_FENCE = true ->
  is_u32 d.(m_next_fence) -> idle d -> room d 2 -> (Z.to_nat (used d.(fifo)) < fuel)%nat ->
  exists fence d', InsertFence fuel d = Some (fence, d') /\ 0 < fence < 2 ^ 32 /\
    d'.(m_next_fence) = u32 (fence + 1) /\ idle d' /\
    exists consumed, consumed ++ queue d'.(fifo) =
      queue d.(fifo) ++ encode_cmd (CmdFence (mk_SVGAFifoCmdFence fence)).
Proof.
  intros Hc Hu Hi Hr Hf. destruct (InsertFence_spec d fuel Hc Hi Hr Hf) as (d' & E & En & Hi' & _ & Hq).
  exists (next_fence d), d'. split; [done|]. split; [|by auto].
  unfold next_fence. destruct Hu. zcase.
Qed.

(** C35: waiting for a fence ends.  [SyncToFence] returns, and when it has
    waited on a device with fences the fence has passed or the queue has been
    drained; without the capability the queue has been drained. *)
Theorem SyncToFence_returns fence fuel d :
  ring_ok d.(fifo) -> fence <> 0 -> (Z.to_nat (used d.(fifo)) < fuel)%nat ->
  exists d', SyncToFence fence fuel d = Some (tt, d') /\ keeps d d' /\
    if has_bits (d.(fifo) SVGA_FIFO_CAPABILITIES) SVGA_FIFO_CAP_FENCE
    then fence_reached d' fence else queue d'.(fifo) = [].
Proof.
  intros R Hne Hf. destruct (SyncToFence_spec fence fuel d R Hf) as (d' & E & Hk & _ & Hs).
  exists d'. split; [done|]. split; [done|]. by apply Hs.
Qed.

(** The overlay registers of a mask.  [VideoSetRegsWithMask] queues one
    escape that sets exactly the registers whose mask bit is set, in
    ascending order; [count_bits] reserves room for exactly these items. *)
Theorem VideoSetRegsWithMask_queued streamId regs regMask d :
  idle d -> is_u32 regMask -> regMask <> 0 -> room d (5 + 2 * count_bits regMask) ->
  let items := mask_items 32 regMask 0 regs in
  emits (VideoSetRegsWithMask streamId regs regMask) d true (encode_cmd (video_cmd streamId items)) /\
  Z.of_nat (length items) = count_bits regMask /\
  (forall i, 0 <= i < 32 -> In (i, regs i) items <-> Z.testbit regMask i = true).
Proof.
  intros Hi Hm Hne Hr items. split; [by apply VideoSetRegsWithMask_emits|].
  split; [unfold items; by rewrite length_mask_items, count_bits_popcount|].
  intros i Hi'. pose proof (mask_items_in 32 regMask 0 regs i) as E. rewrite Z.sub_0_r in E.
  apply E. lia.
Qed.

(** Start-up.  [Start] always returns; if it fails, the mapping and the
    bounce buffer are released and the capabilities cleared; if it succeeds,
    the FIFO is well-formed and idle, offers reservations, and the bounce
    buffer is there. *)
Theorem Start_ready provider fuel d :
  (forall h f, fifo_size_ok (host_read h f SVGA_REG_MEM_SIZE).1) ->
  exists b d', Start provider fuel d = Some (b, d') /\ start_post b d'.
Proof. apply Start_total. Qed.
End properties.

(** [count_bits] counts.  On every 32-bit mask the five rounds of parallel
    addition give the number of its set bits. *)
Theorem count_bits_correct mask : is_u32 mask -> count_bits mask = popcount 32 mask.
Proof. apply count_bits_popcount. Qed.

(** Fences are compared on the circle of 32-bit numbers: a fence counts as
    passed for the 2^31 register values from itself on, and as pending for the
    2^31 values before it, whatever wraps around. *)
Theorem fence_passed_window fence k :
  0 <= k < 2 ^ 32 ->
  HasFencePassedUnguarded (u32 (fence + k)) fence = (k <? 2 ^ 31).
Proof. intros Hk. exact (fence_window _ fence k Hk eq_refl). Qed.

(** Canonicity of the command language: whatever well-formed words the
    device accepts as a command are the encoding of that command, so no other
    words can be read as it. *)
Theorem decoded_is_encoded l c l' :
  Forall is_u32 l -> decode_cmd l = Some (c, l') -> l = encode_cmd c ++ l' /\ cmd_ok c.
Proof. apply encode_decode_cmd. Qed.

(** ** The hypotheses can be met: the concrete device *)

Lemma demo_rsize : rsize demo_fifo = 4096.
Proof. reflexivity. Qed.

Lemma demo_room n : 0 < n < 4096 -> room demo_dev n.
Proof. intros. split; [lia|]. change (fifo demo_dev) with demo_fifo. rewrite demo_rsize. lia. Qed.

Lemma demo_used : used demo_fifo = 0.
Proof. reflexivity. Qed.

Lemma fifo_append_witness :
  emits (p ← FIFOReserve (4 * 3);
         match p with
         | None => mret false
         | Some p => store_words p 0 [1; 2; 3];; FIFOCommitAll;; mret true
         end) demo_dev true [1; 2; 3].
Proof. apply (fifo_append [1; 2; 3] demo_dev); [exact demo_idle|]. apply demo_room. simpl. lia. Defined.

Lemma FIFOReserve_refused_witness : FIFOReserve 6 O demo_dev = Some (None, demo_dev).
Proof. apply (FIFOReserve_refused 6 O demo_dev). right. right. left. discriminate. Defined.

Lemma FIFOReserve_whole_ring_hangs_witness : FIFOReserve 16384 10%nat demo_dev = None.
Proof. apply (FIFOReserve_whole_ring_hangs 10%nat demo_dev); [exact demo_idle|]. vm_compute; intuition congruence. Defined.

Lemma InsertFence_queued_witness : exists fence d',
  InsertFence 1%nat demo_dev = Some (fence, d') /\ 0 < fence < 2 ^ 32 /\
  d'.(m_next_fence) = u32 (fence + 1) /\ idle d' /\
  exists consumed, consumed ++ queue d'.(fifo) =
    queue demo_dev.(fifo) ++ encode_cmd (CmdFence (mk_SVGAFifoCmdFence fence)).
Proof.
  apply (InsertFence_queued demo_dev 1%nat); [reflexivity|vm_compute; intuition congruence|exact demo_idle| |].
  - apply demo_room. lia.
  - change (fifo demo_dev) with demo_fifo. rewrite demo_used. simpl. lia.
Defined.

Lemma SyncToFence_returns_witness : exists d', SyncToFence 7 1%nat demo_dev = Some (tt, d') /\
  keeps demo_dev d' /\ fence_reached d' 7.
Proof.
  apply (SyncToFence_returns 7 1%nat demo_dev); [exact demo_ring|discriminate|].
  change (fifo demo_dev) with demo_fifo. rewrite demo_used. simpl. lia.
Defined.

Lemma VideoSetRegsWithMask_queued_witness :
  let items := mask_items 32 0x12 0 (fun r => r) in
  emits (VideoSetRegsWithMask 0 (fun r => r) 0x12) demo_dev true (encode_cmd (video_cmd 0 items)) /\
  Z.of_nat (length items) = count_bits 0x12 /\
  (forall i, 0 <= i < 32 -> In (i, i) items <-> Z.testbit 0x12 i = true).
Proof.
  apply (VideoSetRegsWithMask_queued 0 (fun r => r) 0x12 demo_dev);
    [exact demo_idle|vm_compute; intuition congruence|discriminate|].
  apply demo_room. change (count_bits 0x12) with 2. lia.
Defined.

(** A device whose FIFO memory is 17548 bytes whatever has been written. *)
Definition fixed_size_host : SvgaHost (Z -> Z) := {|
  host_write := host_write;
  host_read h f r := if r =? SVGA_REG_MEM_SIZE then (17548, (h, f)) else host_read h f r;
  host_run := host_run |}.

Lemma fixed_size_host_ok : @SvgaHostOK (Z -> Z) fixed_size_host.
Proof.
  destruct sync_host_ok as [Hrun Hread Hwrite Hprog Hdrain Hconf].
  split; [exact Hrun| |exact Hwrite|exact Hprog|exact Hdrain|exact Hconf].
  intros h f r R. cbn [host_read fixed_size_host].
  destruct (r =? SVGA_REG_MEM_SIZE); [by apply host_step_refl|by apply Hread].
Qed.

Lemma Start_ready_witness : exists b d',
  Start (H := fixed_size_host) (Pci true true true true true) O demo_dev = Some (b, d') /\ start_post b d'.
Proof.
  apply (Start_ready (H := fixed_size_host) (H0 := fixed_size_host_ok)
    (Pci true true true true true) O demo_dev).
  intros h f. vm_compute; intuition congruence.
Defined.

Lemma count_bits_correct_witness : count_bits 0xF0F01 = popcount 32 0xF0F01.
Proof. apply count_bits_correct. vm_compute; intuition congruence. Defined.

Lemma fence_passed_window_witness :
  HasFencePassedUnguarded (u32 (0xFFFFFFFF + 2)) 0xFFFFFFFF = true.
Proof. apply (fence_passed_window 0xFFFFFFFF 2). lia. Defined.

Lemma decoded_is_encoded_witness :
  [30; 5; 1] = encode_cmd (CmdFence (mk_SVGAFifoCmdFence 5)) ++ [1] /\
  cmd_ok (CmdFence (mk_SVGAFifoCmdFence 5)).
Proof.
  apply (decoded_is_encoded [30; 5; 1]); [|reflexivity].
  forall_list; range_solve.
Defined.
