(* ===== verification/Svga3dReg.v ===== *)
(** The 3D protocol of the SVGA-II device (ceinclude/svga3d_reg.h): the
    enumerations of formats, states and operations, the packed render-state
    words as bit-fields, and the structures of the 3D commands. *)

From S2P Require Import Prelude Layout SvgaReg SvgaCmd.

(** ** Enumerations *)

(** Versions of the 3D protocol. *)
Inductive SVGA3dHardwareVersion : Set :=
  | SVGA3D_HWVERSION_WS5_RC1 | SVGA3D_HWVERSION_WS5_RC2 | SVGA3D_HWVERSION_WS51_RC1
  | SVGA3D_HWVERSION_WS6_B1 | SVGA3D_HWVERSION_FUSION_11 | SVGA3D_HWVERSION_WS65_B1
  | SVGA3D_HWVERSION_WS8_B1.

Definition SVGA3dHardwareVersion_val (x : SVGA3dHardwareVersion) : Z :=
  match x with
  | SVGA3D_HWVERSION_WS5_RC1 => 1 | SVGA3D_HWVERSION_WS5_RC2 => 2
  | SVGA3D_HWVERSION_WS51_RC1 => 3 | SVGA3D_HWVERSION_WS6_B1 => 0x10001
  | SVGA3D_HWVERSION_FUSION_11 => 0x10004 | SVGA3D_HWVERSION_WS65_B1 => 0x20000
  | SVGA3D_HWVERSION_WS8_B1 => 0x20001
  end.
Coercion SVGA3dHardwareVersion_val : SVGA3dHardwareVersion >-> Z.

#[global] Program Instance SVGA3dHardwareVersion_enum : CEnum SVGA3dHardwareVersion :=
  {| cval := SVGA3dHardwareVersion_val;
     cvalues := [
       SVGA3D_HWVERSION_WS5_RC1; SVGA3D_HWVERSION_WS5_RC2; SVGA3D_HWVERSION_WS51_RC1;
       SVGA3D_HWVERSION_WS6_B1; SVGA3D_HWVERSION_FUSION_11; SVGA3D_HWVERSION_WS65_B1;
       SVGA3D_HWVERSION_WS8_B1] |}.
Solve Obligations with cenum_tac.

Definition SVGA3D_HWVERSION_CURRENT : SVGA3dHardwareVersion := SVGA3D_HWVERSION_WS8_B1.

(** Surface formats. *)
Inductive SVGA3dSurfaceFormat : Set :=
  | SVGA3D_FORMAT_INVALID | SVGA3D_X8R8G8B8 | SVGA3D_A8R8G8B8 | SVGA3D_R5G6B5
  | SVGA3D_X1R5G5B5 | SVGA3D_A1R5G5B5 | SVGA3D_A4R4G4B4 | SVGA3D_Z_D32 | SVGA3D_Z_D16
  | SVGA3D_Z_D24S8 | SVGA3D_Z_D15S1 | SVGA3D_LUMINANCE8 | SVGA3D_LUMINANCE4_ALPHA4
  | SVGA3D_LUMINANCE16 | SVGA3D_LUMINANCE8_ALPHA8 | SVGA3D_DXT1 | SVGA3D_DXT2
  | SVGA3D_DXT3 | SVGA3D_DXT4 | SVGA3D_DXT5 | SVGA3D_BUMPU8V8 | SVGA3D_BUMPL6V5U5
  | SVGA3D_BUMPX8L8V8U8 | SVGA3D_BUMPL8V8U8 | SVGA3D_ARGB_S10E5 | SVGA3D_ARGB_S23E8
  | SVGA3D_A2R10G10B10 | SVGA3D_V8U8 | SVGA3D_Q8W8V8U8 | SVGA3D_CxV8U8
  | SVGA3D_X8L8V8U8 | SVGA3D_A2W10V10U10 | SVGA3D_ALPHA8 | SVGA3D_R_S10E5
  | SVGA3D_R_S23E8 | SVGA3D_RG_S10E5 | SVGA3D_RG_S23E8 | SVGA3D_BUFFER | SVGA3D_Z_D24X8
  | SVGA3D_V16U16 | SVGA3D_G16R16 | SVGA3D_A16B16G16R16 | SVGA3D_UYVY | SVGA3D_YUY2
  | SVGA3D_NV12 | SVGA3D_AYUV | SVGA3D_BC4_UNORM | SVGA3D_BC5_UNORM | SVGA3D_Z_DF16
  | SVGA3D_Z_DF24 | SVGA3D_Z_D24S8_INT | SVGA3D_FORMAT_MAX.

Definition SVGA3dSurfaceFormat_val (x : SVGA3dSurfaceFormat) : Z :=
  match x with
  | SVGA3D_FORMAT_INVALID => 0 | SVGA3D_X8R8G8B8 => 1 | SVGA3D_A8R8G8B8 => 2
  | SVGA3D_R5G6B5 => 3 | SVGA3D_X1R5G5B5 => 4 | SVGA3D_A1R5G5B5 => 5
  | SVGA3D_A4R4G4B4 => 6 | SVGA3D_Z_D32 => 7 | SVGA3D_Z_D16 => 8 | SVGA3D_Z_D24S8 => 9
  | SVGA3D_Z_D15S1 => 10 | SVGA3D_LUMINANCE8 => 11 | SVGA3D_LUMINANCE4_ALPHA4 => 12
  | SVGA3D_LUMINANCE16 => 13 | SVGA3D_LUMINANCE8_ALPHA8 => 14 | SVGA3D_DXT1 => 15
  | SVGA3D_DXT2 => 16 | SVGA3D_DXT3 => 17 | SVGA3D_DXT4 => 18 | SVGA3D_DXT5 => 19
  | SVGA3D_BUMPU8V8 => 20 | SVGA3D_BUMPL6V5U5 => 21 | SVGA3D_BUMPX8L8V8U8 => 22
  | SVGA3D_BUMPL8V8U8 => 23 | SVGA3D_ARGB_S10E5 => 24 | SVGA3D_ARGB_S23E8 => 25
  | SVGA3D_A2R10G10B10 => 26 | SVGA3D_V8U8 => 27 | SVGA3D_Q8W8V8U8 => 28
  | SVGA3D_CxV8U8 => 29 | SVGA3D_X8L8V8U8 => 30 | SVGA3D_A2W10V10U10 => 31
  | SVGA3D_ALPHA8 => 32 | SVGA3D_R_S10E5 => 33 | SVGA3D_R_S23E8 => 34
  | SVGA3D_RG_S10E5 => 35 | SVGA3D_RG_S23E8 => 36 | SVGA3D_BUFFER => 37
  | SVGA3D_Z_D24X8 => 38 | SVGA3D_V16U16 => 39 | SVGA3D_G16R16 => 40
  | SVGA3D_A16B16G16R16 => 41 | SVGA3D_UYVY => 42 | SVGA3D_YUY2 => 43
  | SVGA3D_NV12 => 44 | SVGA3D_AYUV => 45 | SVGA3D_BC4_UNORM => 108
  | SVGA3D_BC5_UNORM => 111 | SVGA3D_Z_DF16 => 118 | SVGA3D_Z_DF24 => 119
  | SVGA3D_Z_D24S8_INT => 120 | SVGA3D_FORMAT_MAX => 121
  end.
Coercion SVGA3dSurfaceFormat_val : SVGA3dSurfaceFormat >-> Z.

#[global] Program Instance SVGA3dSurfaceFormat_enum : CEnum SVGA3dSurfaceFormat :=
  {| cval := SVGA3dSurfaceFormat_val;
     cvalues := [
       SVGA3D_FORMAT_INVALID; SVGA3D_X8R8G8B8; SVGA3D_A8R8G8B8; SVGA3D_R5G6B5;
       SVGA3D_X1R5G5B5; SVGA3D_A1R5G5B5; SVGA3D_A4R4G4B4; SVGA3D_Z_D32; SVGA3D_Z_D16;
       SVGA3D_Z_D24S8; SVGA3D_Z_D15S1; SVGA3D_LUMINANCE8; SVGA3D_LUMINANCE4_ALPHA4;
       SVGA3D_LUMINANCE16; SVGA3D_LUMINANCE8_ALPHA8; SVGA3D_DXT1; SVGA3D_DXT2;
       SVGA3D_DXT3; SVGA3D_DXT4; SVGA3D_DXT5; SVGA3D_BUMPU8V8; SVGA3D_BUMPL6V5U5;
       SVGA3D_BUMPX8L8V8U8; SVGA3D_BUMPL8V8U8; SVGA3D_ARGB_S10E5; SVGA3D_ARGB_S23E8;
       SVGA3D_A2R10G10B10; SVGA3D_V8U8; SVGA3D_Q8W8V8U8; SVGA3D_CxV8U8;
       SVGA3D_X8L8V8U8; SVGA3D_A2W10V10U10; SVGA3D_ALPHA8; SVGA3D_R_S10E5;
       SVGA3D_R_S23E8; SVGA3D_RG_S10E5; SVGA3D_RG_S23E8; SVGA3D_BUFFER; SVGA3D_Z_D24X8;
       SVGA3D_V16U16; SVGA3D_G16R16; SVGA3D_A16B16G16R16; SVGA3D_UYVY; SVGA3D_YUY2;
       SVGA3D_NV12; SVGA3D_AYUV; SVGA3D_BC4_UNORM; SVGA3D_BC5_UNORM; SVGA3D_Z_DF16;
       SVGA3D_Z_DF24; SVGA3D_Z_D24S8_INT; SVGA3D_FORMAT_MAX] |}.
Solve Obligations with cenum_tac.

(** Operations that a surface format supports, as flags. *)
Inductive SVGA3dFormatOp : Set :=
  | SVGA3DFORMAT_OP_TEXTURE | SVGA3DFORMAT_OP_VOLUMETEXTURE
  | SVGA3DFORMAT_OP_CUBETEXTURE | SVGA3DFORMAT_OP_OFFSCREEN_RENDERTARGET
  | SVGA3DFORMAT_OP_SAME_FORMAT_RENDERTARGET | SVGA3DFORMAT_OP_ZSTENCIL
  | SVGA3DFORMAT_OP_ZSTENCIL_WITH_ARBITRARY_COLOR_DEPTH
  | SVGA3DFORMAT_OP_SAME_FORMAT_UP_TO_ALPHA_RENDERTARGET | SVGA3DFORMAT_OP_DISPLAYMODE
  | SVGA3DFORMAT_OP_3DACCELERATION | SVGA3DFORMAT_OP_PIXELSIZE
  | SVGA3DFORMAT_OP_CONVERT_TO_ARGB | SVGA3DFORMAT_OP_OFFSCREENPLAIN
  | SVGA3DFORMAT_OP_SRGBREAD | SVGA3DFORMAT_OP_BUMPMAP | SVGA3DFORMAT_OP_DMAP
  | SVGA3DFORMAT_OP_NOFILTER | SVGA3DFORMAT_OP_MEMBEROFGROUP_ARGB
  | SVGA3DFORMAT_OP_SRGBWRITE | SVGA3DFORMAT_OP_NOALPHABLEND
  | SVGA3DFORMAT_OP_AUTOGENMIPMAP | SVGA3DFORMAT_OP_VERTEXTEXTURE
  | SVGA3DFORMAT_OP_NOTEXCOORDWRAPNORMIP.

Definition SVGA3dFormatOp_val (x : SVGA3dFormatOp) : Z :=
  match x with
  | SVGA3DFORMAT_OP_TEXTURE => 1 | SVGA3DFORMAT_OP_VOLUMETEXTURE => 2
  | SVGA3DFORMAT_OP_CUBETEXTURE => 4 | SVGA3DFORMAT_OP_OFFSCREEN_RENDERTARGET => 8
  | SVGA3DFORMAT_OP_SAME_FORMAT_RENDERTARGET => 16 | SVGA3DFORMAT_OP_ZSTENCIL => 64
  | SVGA3DFORMAT_OP_ZSTENCIL_WITH_ARBITRARY_COLOR_DEPTH => 128
  | SVGA3DFORMAT_OP_SAME_FORMAT_UP_TO_ALPHA_RENDERTARGET => 256
  | SVGA3DFORMAT_OP_DISPLAYMODE => 1024 | SVGA3DFORMAT_OP_3DACCELERATION => 2048
  | SVGA3DFORMAT_OP_PIXELSIZE => 0x1000 | SVGA3DFORMAT_OP_CONVERT_TO_ARGB => 0x2000
  | SVGA3DFORMAT_OP_OFFSCREENPLAIN => 0x4000 | SVGA3DFORMAT_OP_SRGBREAD => 0x8000
  | SVGA3DFORMAT_OP_BUMPMAP => 0x10000 | SVGA3DFORMAT_OP_DMAP => 0x20000
  | SVGA3DFORMAT_OP_NOFILTER => 0x40000 | SVGA3DFORMAT_OP_MEMBEROFGROUP_ARGB => 0x80000
  | SVGA3DFORMAT_OP_SRGBWRITE => 0x100000 | SVGA3DFORMAT_OP_NOALPHABLEND => 0x200000
  | SVGA3DFORMAT_OP_AUTOGENMIPMAP => 0x400000
  | SVGA3DFORMAT_OP_VERTEXTEXTURE => 0x800000
  | SVGA3DFORMAT_OP_NOTEXCOORDWRAPNORMIP => 0x1000000
  end.
Coercion SVGA3dFormatOp_val : SVGA3dFormatOp >-> Z.

#[global] Program Instance SVGA3dFormatOp_enum : CEnum SVGA3dFormatOp :=
  {| cval := SVGA3dFormatOp_val;
     cvalues := [
       SVGA3DFORMAT_OP_TEXTURE; SVGA3DFORMAT_OP_VOLUMETEXTURE;
       SVGA3DFORMAT_OP_CUBETEXTURE; SVGA3DFORMAT_OP_OFFSCREEN_RENDERTARGET;
       SVGA3DFORMAT_OP_SAME_FORMAT_RENDERTARGET; SVGA3DFORMAT_OP_ZSTENCIL;
       SVGA3DFORMAT_OP_ZSTENCIL_WITH_ARBITRARY_COLOR_DEPTH;
       SVGA3DFORMAT_OP_SAME_FORMAT_UP_TO_ALPHA_RENDERTARGET;
       SVGA3DFORMAT_OP_DISPLAYMODE; SVGA3DFORMAT_OP_3DACCELERATION;
       SVGA3DFORMAT_OP_PIXELSIZE; SVGA3DFORMAT_OP_CONVERT_TO_ARGB;
       SVGA3DFORMAT_OP_OFFSCREENPLAIN; SVGA3DFORMAT_OP_SRGBREAD;
       SVGA3DFORMAT_OP_BUMPMAP; SVGA3DFORMAT_OP_DMAP; SVGA3DFORMAT_OP_NOFILTER;
       SVGA3DFORMAT_OP_MEMBEROFGROUP_ARGB; SVGA3DFORMAT_OP_SRGBWRITE;
       SVGA3DFORMAT_OP_NOALPHABLEND; SVGA3DFORMAT_OP_AUTOGENMIPMAP;
       SVGA3DFORMAT_OP_VERTEXTEXTURE; SVGA3DFORMAT_OP_NOTEXCOORDWRAPNORMIP] |}.
Solve Obligations with cenum_tac.

(** Render states. *)
Inductive SVGA3dRenderStateName : Set :=
  | SVGA3D_RS_INVALID | SVGA3D_RS_ZENABLE | SVGA3D_RS_ZWRITEENABLE
  | SVGA3D_RS_ALPHATESTENABLE | SVGA3D_RS_DITHERENABLE | SVGA3D_RS_BLENDENABLE
  | SVGA3D_RS_FOGENABLE | SVGA3D_RS_SPECULARENABLE | SVGA3D_RS_STENCILENABLE
  | SVGA3D_RS_LIGHTINGENABLE | SVGA3D_RS_NORMALIZENORMALS | SVGA3D_RS_POINTSPRITEENABLE
  | SVGA3D_RS_POINTSCALEENABLE | SVGA3D_RS_STENCILREF | SVGA3D_RS_STENCILMASK
  | SVGA3D_RS_STENCILWRITEMASK | SVGA3D_RS_FOGSTART | SVGA3D_RS_FOGEND
  | SVGA3D_RS_FOGDENSITY | SVGA3D_RS_POINTSIZE | SVGA3D_RS_POINTSIZEMIN
  | SVGA3D_RS_POINTSIZEMAX | SVGA3D_RS_POINTSCALE_A | SVGA3D_RS_POINTSCALE_B
  | SVGA3D_RS_POINTSCALE_C | SVGA3D_RS_FOGCOLOR | SVGA3D_RS_AMBIENT
  | SVGA3D_RS_CLIPPLANEENABLE | SVGA3D_RS_FOGMODE | SVGA3D_RS_FILLMODE
  | SVGA3D_RS_SHADEMODE | SVGA3D_RS_LINEPATTERN | SVGA3D_RS_SRCBLEND
  | SVGA3D_RS_DSTBLEND | SVGA3D_RS_BLENDEQUATION | SVGA3D_RS_CULLMODE | SVGA3D_RS_ZFUNC
  | SVGA3D_RS_ALPHAFUNC | SVGA3D_RS_STENCILFUNC | SVGA3D_RS_STENCILFAIL
  | SVGA3D_RS_STENCILZFAIL | SVGA3D_RS_STENCILPASS | SVGA3D_RS_ALPHAREF
  | SVGA3D_RS_FRONTWINDING | SVGA3D_RS_COORDINATETYPE | SVGA3D_RS_ZBIAS
  | SVGA3D_RS_RANGEFOGENABLE | SVGA3D_RS_COLORWRITEENABLE
  | SVGA3D_RS_VERTEXMATERIALENABLE | SVGA3D_RS_DIFFUSEMATERIALSOURCE
  | SVGA3D_RS_SPECULARMATERIALSOURCE | SVGA3D_RS_AMBIENTMATERIALSOURCE
  | SVGA3D_RS_EMISSIVEMATERIALSOURCE | SVGA3D_RS_TEXTUREFACTOR | SVGA3D_RS_LOCALVIEWER
  | SVGA3D_RS_SCISSORTESTENABLE | SVGA3D_RS_BLENDCOLOR | SVGA3D_RS_STENCILENABLE2SIDED
  | SVGA3D_RS_CCWSTENCILFUNC | SVGA3D_RS_CCWSTENCILFAIL | SVGA3D_RS_CCWSTENCILZFAIL
  | SVGA3D_RS_CCWSTENCILPASS | SVGA3D_RS_VERTEXBLEND | SVGA3D_RS_SLOPESCALEDEPTHBIAS
  | SVGA3D_RS_DEPTHBIAS | SVGA3D_RS_OUTPUTGAMMA | SVGA3D_RS_ZVISIBLE
  | SVGA3D_RS_LASTPIXEL | SVGA3D_RS_CLIPPING | SVGA3D_RS_WRAP0 | SVGA3D_RS_WRAP1
  | SVGA3D_RS_WRAP2 | SVGA3D_RS_WRAP3 | SVGA3D_RS_WRAP4 | SVGA3D_RS_WRAP5
  | SVGA3D_RS_WRAP6 | SVGA3D_RS_WRAP7 | SVGA3D_RS_WRAP8 | SVGA3D_RS_WRAP9
  | SVGA3D_RS_WRAP10 | SVGA3D_RS_WRAP11 | SVGA3D_RS_WRAP12 | SVGA3D_RS_WRAP13
  | SVGA3D_RS_WRAP14 | SVGA3D_RS_WRAP15 | SVGA3D_RS_MULTISAMPLEANTIALIAS
  | SVGA3D_RS_MULTISAMPLEMASK | SVGA3D_RS_INDEXEDVERTEXBLENDENABLE
  | SVGA3D_RS_TWEENFACTOR | SVGA3D_RS_ANTIALIASEDLINEENABLE
  | SVGA3D_RS_COLORWRITEENABLE1 | SVGA3D_RS_COLORWRITEENABLE2
  | SVGA3D_RS_COLORWRITEENABLE3 | SVGA3D_RS_SEPARATEALPHABLENDENABLE
  | SVGA3D_RS_SRCBLENDALPHA | SVGA3D_RS_DSTBLENDALPHA | SVGA3D_RS_BLENDEQUATIONALPHA
  | SVGA3D_RS_TRANSPARENCYANTIALIAS | SVGA3D_RS_LINEAA | SVGA3D_RS_LINEWIDTH
  | SVGA3D_RS_MAX.

Definition SVGA3dRenderStateName_val (x : SVGA3dRenderStateName) : Z :=
  match x with
  | SVGA3D_RS_INVALID => 0 | SVGA3D_RS_ZENABLE => 1 | SVGA3D_RS_ZWRITEENABLE => 2
  | SVGA3D_RS_ALPHATESTENABLE => 3 | SVGA3D_RS_DITHERENABLE => 4
  | SVGA3D_RS_BLENDENABLE => 5 | SVGA3D_RS_FOGENABLE => 6
  | SVGA3D_RS_SPECULARENABLE => 7 | SVGA3D_RS_STENCILENABLE => 8
  | SVGA3D_RS_LIGHTINGENABLE => 9 | SVGA3D_RS_NORMALIZENORMALS => 10
  | SVGA3D_RS_POINTSPRITEENABLE => 11 | SVGA3D_RS_POINTSCALEENABLE => 12
  | SVGA3D_RS_STENCILREF => 13 | SVGA3D_RS_STENCILMASK => 14
  | SVGA3D_RS_STENCILWRITEMASK => 15 | SVGA3D_RS_FOGSTART => 16
  | SVGA3D_RS_FOGEND => 17 | SVGA3D_RS_FOGDENSITY => 18 | SVGA3D_RS_POINTSIZE => 19
  | SVGA3D_RS_POINTSIZEMIN => 20 | SVGA3D_RS_POINTSIZEMAX => 21
  | SVGA3D_RS_POINTSCALE_A => 22 | SVGA3D_RS_POINTSCALE_B => 23
  | SVGA3D_RS_POINTSCALE_C => 24 | SVGA3D_RS_FOGCOLOR => 25 | SVGA3D_RS_AMBIENT => 26
  | SVGA3D_RS_CLIPPLANEENABLE => 27 | SVGA3D_RS_FOGMODE => 28
  | SVGA3D_RS_FILLMODE => 29 | SVGA3D_RS_SHADEMODE => 30 | SVGA3D_RS_LINEPATTERN => 31
  | SVGA3D_RS_SRCBLEND => 32 | SVGA3D_RS_DSTBLEND => 33 | SVGA3D_RS_BLENDEQUATION => 34
  | SVGA3D_RS_CULLMODE => 35 | SVGA3D_RS_ZFUNC => 36 | SVGA3D_RS_ALPHAFUNC => 37
  | SVGA3D_RS_STENCILFUNC => 38 | SVGA3D_RS_STENCILFAIL => 39
  | SVGA3D_RS_STENCILZFAIL => 40 | SVGA3D_RS_STENCILPASS => 41
  | SVGA3D_RS_ALPHAREF => 42 | SVGA3D_RS_FRONTWINDING => 43
  | SVGA3D_RS_COORDINATETYPE => 44 | SVGA3D_RS_ZBIAS => 45
  | SVGA3D_RS_RANGEFOGENABLE => 46 | SVGA3D_RS_COLORWRITEENABLE => 47
  | SVGA3D_RS_VERTEXMATERIALENABLE => 48 | SVGA3D_RS_DIFFUSEMATERIALSOURCE => 49
  | SVGA3D_RS_SPECULARMATERIALSOURCE => 50 | SVGA3D_RS_AMBIENTMATERIALSOURCE => 51
  | SVGA3D_RS_EMISSIVEMATERIALSOURCE => 52 | SVGA3D_RS_TEXTUREFACTOR => 53
  | SVGA3D_RS_LOCALVIEWER => 54 | SVGA3D_RS_SCISSORTESTENABLE => 55
  | SVGA3D_RS_BLENDCOLOR => 56 | SVGA3D_RS_STENCILENABLE2SIDED => 57
  | SVGA3D_RS_CCWSTENCILFUNC => 58 | SVGA3D_RS_CCWSTENCILFAIL => 59
  | SVGA3D_RS_CCWSTENCILZFAIL => 60 | SVGA3D_RS_CCWSTENCILPASS => 61
  | SVGA3D_RS_VERTEXBLEND => 62 | SVGA3D_RS_SLOPESCALEDEPTHBIAS => 63
  | SVGA3D_RS_DEPTHBIAS => 64 | SVGA3D_RS_OUTPUTGAMMA => 65 | SVGA3D_RS_ZVISIBLE => 66
  | SVGA3D_RS_LASTPIXEL => 67 | SVGA3D_RS_CLIPPING => 68 | SVGA3D_RS_WRAP0 => 69
  | SVGA3D_RS_WRAP1 => 70 | SVGA3D_RS_WRAP2 => 71 | SVGA3D_RS_WRAP3 => 72
  | SVGA3D_RS_WRAP4 => 73 | SVGA3D_RS_WRAP5 => 74 | SVGA3D_RS_WRAP6 => 75
  | SVGA3D_RS_WRAP7 => 76 | SVGA3D_RS_WRAP8 => 77 | SVGA3D_RS_WRAP9 => 78
  | SVGA3D_RS_WRAP10 => 79 | SVGA3D_RS_WRAP11 => 80 | SVGA3D_RS_WRAP12 => 81
  | SVGA3D_RS_WRAP13 => 82 | SVGA3D_RS_WRAP14 => 83 | SVGA3D_RS_WRAP15 => 84
  | SVGA3D_RS_MULTISAMPLEANTIALIAS => 85 | SVGA3D_RS_MULTISAMPLEMASK => 86
  | SVGA3D_RS_INDEXEDVERTEXBLENDENABLE => 87 | SVGA3D_RS_TWEENFACTOR => 88
  | SVGA3D_RS_ANTIALIASEDLINEENABLE => 89 | SVGA3D_RS_COLORWRITEENABLE1 => 90
  | SVGA3D_RS_COLORWRITEENABLE2 => 91 | SVGA3D_RS_COLORWRITEENABLE3 => 92
  | SVGA3D_RS_SEPARATEALPHABLENDENABLE => 93 | SVGA3D_RS_SRCBLENDALPHA => 94
  | SVGA3D_RS_DSTBLENDALPHA => 95 | SVGA3D_RS_BLENDEQUATIONALPHA => 96
  | SVGA3D_RS_TRANSPARENCYANTIALIAS => 97 | SVGA3D_RS_LINEAA => 98
  | SVGA3D_RS_LINEWIDTH => 99 | SVGA3D_RS_MAX => 100
  end.
Coercion SVGA3dRenderStateName_val : SVGA3dRenderStateName >-> Z.

#[global] Program Instance SVGA3dRenderStateName_enum : CEnum SVGA3dRenderStateName :=
  {| cval := SVGA3dRenderStateName_val;
     cvalues := [
       SVGA3D_RS_INVALID; SVGA3D_RS_ZENABLE; SVGA3D_RS_ZWRITEENABLE;
       SVGA3D_RS_ALPHATESTENABLE; SVGA3D_RS_DITHERENABLE; SVGA3D_RS_BLENDENABLE;
       SVGA3D_RS_FOGENABLE; SVGA3D_RS_SPECULARENABLE; SVGA3D_RS_STENCILENABLE;
       SVGA3D_RS_LIGHTINGENABLE; SVGA3D_RS_NORMALIZENORMALS;
       SVGA3D_RS_POINTSPRITEENABLE; SVGA3D_RS_POINTSCALEENABLE; SVGA3D_RS_STENCILREF;
       SVGA3D_RS_STENCILMASK; SVGA3D_RS_STENCILWRITEMASK; SVGA3D_RS_FOGSTART;
       SVGA3D_RS_FOGEND; SVGA3D_RS_FOGDENSITY; SVGA3D_RS_POINTSIZE;
       SVGA3D_RS_POINTSIZEMIN; SVGA3D_RS_POINTSIZEMAX; SVGA3D_RS_POINTSCALE_A;
       SVGA3D_RS_POINTSCALE_B; SVGA3D_RS_POINTSCALE_C; SVGA3D_RS_FOGCOLOR;
       SVGA3D_RS_AMBIENT; SVGA3D_RS_CLIPPLANEENABLE; SVGA3D_RS_FOGMODE;
       SVGA3D_RS_FILLMODE; SVGA3D_RS_SHADEMODE; SVGA3D_RS_LINEPATTERN;
       SVGA3D_RS_SRCBLEND; SVGA3D_RS_DSTBLEND; SVGA3D_RS_BLENDEQUATION;
       SVGA3D_RS_CULLMODE; SVGA3D_RS_ZFUNC; SVGA3D_RS_ALPHAFUNC; SVGA3D_RS_STENCILFUNC;
       SVGA3D_RS_STENCILFAIL; SVGA3D_RS_STENCILZFAIL; SVGA3D_RS_STENCILPASS;
       SVGA3D_RS_ALPHAREF; SVGA3D_RS_FRONTWINDING; SVGA3D_RS_COORDINATETYPE;
       SVGA3D_RS_ZBIAS; SVGA3D_RS_RANGEFOGENABLE; SVGA3D_RS_COLORWRITEENABLE;
       SVGA3D_RS_VERTEXMATERIALENABLE; SVGA3D_RS_DIFFUSEMATERIALSOURCE;
       SVGA3D_RS_SPECULARMATERIALSOURCE; SVGA3D_RS_AMBIENTMATERIALSOURCE;
       SVGA3D_RS_EMISSIVEMATERIALSOURCE; SVGA3D_RS_TEXTUREFACTOR;
       SVGA3D_RS_LOCALVIEWER; SVGA3D_RS_SCISSORTESTENABLE; SVGA3D_RS_BLENDCOLOR;
       SVGA3D_RS_STENCILENABLE2SIDED; SVGA3D_RS_CCWSTENCILFUNC;
       SVGA3D_RS_CCWSTENCILFAIL; SVGA3D_RS_CCWSTENCILZFAIL; SVGA3D_RS_CCWSTENCILPASS;
       SVGA3D_RS_VERTEXBLEND; SVGA3D_RS_SLOPESCALEDEPTHBIAS; SVGA3D_RS_DEPTHBIAS;
       SVGA3D_RS_OUTPUTGAMMA; SVGA3D_RS_ZVISIBLE; SVGA3D_RS_LASTPIXEL;
       SVGA3D_RS_CLIPPING; SVGA3D_RS_WRAP0; SVGA3D_RS_WRAP1; SVGA3D_RS_WRAP2;
       SVGA3D_RS_WRAP3; SVGA3D_RS_WRAP4; SVGA3D_RS_WRAP5; SVGA3D_RS_WRAP6;
       SVGA3D_RS_WRAP7; SVGA3D_RS_WRAP8; SVGA3D_RS_WRAP9; SVGA3D_RS_WRAP10;
       SVGA3D_RS_WRAP11; SVGA3D_RS_WRAP12; SVGA3D_RS_WRAP13; SVGA3D_RS_WRAP14;
       SVGA3D_RS_WRAP15; SVGA3D_RS_MULTISAMPLEANTIALIAS; SVGA3D_RS_MULTISAMPLEMASK;
       SVGA3D_RS_INDEXEDVERTEXBLENDENABLE; SVGA3D_RS_TWEENFACTOR;
       SVGA3D_RS_ANTIALIASEDLINEENABLE; SVGA3D_RS_COLORWRITEENABLE1;
       SVGA3D_RS_COLORWRITEENABLE2; SVGA3D_RS_COLORWRITEENABLE3;
       SVGA3D_RS_SEPARATEALPHABLENDENABLE; SVGA3D_RS_SRCBLENDALPHA;
       SVGA3D_RS_DSTBLENDALPHA; SVGA3D_RS_BLENDEQUATIONALPHA;
       SVGA3D_RS_TRANSPARENCYANTIALIAS; SVGA3D_RS_LINEAA; SVGA3D_RS_LINEWIDTH;
       SVGA3D_RS_MAX] |}.
Solve Obligations with cenum_tac.

(** Transparency antialiasing. *)
Inductive SVGA3dTransparencyAntialiasType : Set :=
  | SVGA3D_TRANSPARENCYANTIALIAS_NORMAL | SVGA3D_TRANSPARENCYANTIALIAS_ALPHATOCOVERAGE
  | SVGA3D_TRANSPARENCYANTIALIAS_SUPERSAMPLE | SVGA3D_TRANSPARENCYANTIALIAS_MAX.

Definition SVGA3dTransparencyAntialiasType_val (x : SVGA3dTransparencyAntialiasType) : Z :=
  match x with
  | SVGA3D_TRANSPARENCYANTIALIAS_NORMAL => 0
  | SVGA3D_TRANSPARENCYANTIALIAS_ALPHATOCOVERAGE => 1
  | SVGA3D_TRANSPARENCYANTIALIAS_SUPERSAMPLE => 2
  | SVGA3D_TRANSPARENCYANTIALIAS_MAX => 3
  end.
Coercion SVGA3dTransparencyAntialiasType_val : SVGA3dTransparencyAntialiasType >-> Z.

#[global] Program Instance SVGA3dTransparencyAntialiasType_enum : CEnum SVGA3dTransparencyAntialiasType :=
  {| cval := SVGA3dTransparencyAntialiasType_val;
     cvalues := [
       SVGA3D_TRANSPARENCYANTIALIAS_NORMAL;
       SVGA3D_TRANSPARENCYANTIALIAS_ALPHATOCOVERAGE;
       SVGA3D_TRANSPARENCYANTIALIAS_SUPERSAMPLE; SVGA3D_TRANSPARENCYANTIALIAS_MAX] |}.
Solve Obligations with cenum_tac.

(** Source of a material colour. *)
Inductive SVGA3dVertexMaterial : Set :=
  | SVGA3D_VERTEXMATERIAL_NONE | SVGA3D_VERTEXMATERIAL_DIFFUSE
  | SVGA3D_VERTEXMATERIAL_SPECULAR.

Definition SVGA3dVertexMaterial_val (x : SVGA3dVertexMaterial) : Z :=
  match x with
  | SVGA3D_VERTEXMATERIAL_NONE => 0 | SVGA3D_VERTEXMATERIAL_DIFFUSE => 1
  | SVGA3D_VERTEXMATERIAL_SPECULAR => 2
  end.
Coercion SVGA3dVertexMaterial_val : SVGA3dVertexMaterial >-> Z.

#[global] Program Instance SVGA3dVertexMaterial_enum : CEnum SVGA3dVertexMaterial :=
  {| cval := SVGA3dVertexMaterial_val;
     cvalues := [
       SVGA3D_VERTEXMATERIAL_NONE; SVGA3D_VERTEXMATERIAL_DIFFUSE;
       SVGA3D_VERTEXMATERIAL_SPECULAR] |}.
Solve Obligations with cenum_tac.

(** Polygon fill modes. *)
Inductive SVGA3dFillModeType : Set :=
  | SVGA3D_FILLMODE_INVALID | SVGA3D_FILLMODE_POINT | SVGA3D_FILLMODE_LINE
  | SVGA3D_FILLMODE_FILL | SVGA3D_FILLMODE_MAX.

Definition SVGA3dFillModeType_val (x : SVGA3dFillModeType) : Z :=
  match x with
  | SVGA3D_FILLMODE_INVALID => 0 | SVGA3D_FILLMODE_POINT => 1
  | SVGA3D_FILLMODE_LINE => 2 | SVGA3D_FILLMODE_FILL => 3 | SVGA3D_FILLMODE_MAX => 4
  end.
Coercion SVGA3dFillModeType_val : SVGA3dFillModeType >-> Z.

#[global] Program Instance SVGA3dFillModeType_enum : CEnum SVGA3dFillModeType :=
  {| cval := SVGA3dFillModeType_val;
     cvalues := [
       SVGA3D_FILLMODE_INVALID; SVGA3D_FILLMODE_POINT; SVGA3D_FILLMODE_LINE;
       SVGA3D_FILLMODE_FILL; SVGA3D_FILLMODE_MAX] |}.
Solve Obligations with cenum_tac.

(** Shade modes. *)
Inductive SVGA3dShadeMode : Set :=
  | SVGA3D_SHADEMODE_INVALID | SVGA3D_SHADEMODE_FLAT | SVGA3D_SHADEMODE_SMOOTH
  | SVGA3D_SHADEMODE_PHONG | SVGA3D_SHADEMODE_MAX.

Definition SVGA3dShadeMode_val (x : SVGA3dShadeMode) : Z :=
  match x with
  | SVGA3D_SHADEMODE_INVALID => 0 | SVGA3D_SHADEMODE_FLAT => 1
  | SVGA3D_SHADEMODE_SMOOTH => 2 | SVGA3D_SHADEMODE_PHONG => 3
  | SVGA3D_SHADEMODE_MAX => 4
  end.
Coercion SVGA3dShadeMode_val : SVGA3dShadeMode >-> Z.

#[global] Program Instance SVGA3dShadeMode_enum : CEnum SVGA3dShadeMode :=
  {| cval := SVGA3dShadeMode_val;
     cvalues := [
       SVGA3D_SHADEMODE_INVALID; SVGA3D_SHADEMODE_FLAT; SVGA3D_SHADEMODE_SMOOTH;
       SVGA3D_SHADEMODE_PHONG; SVGA3D_SHADEMODE_MAX] |}.
Solve Obligations with cenum_tac.

(** Blend factors. *)
Inductive SVGA3dBlendOp : Set :=
  | SVGA3D_BLENDOP_INVALID | SVGA3D_BLENDOP_ZERO | SVGA3D_BLENDOP_ONE
  | SVGA3D_BLENDOP_SRCCOLOR | SVGA3D_BLENDOP_INVSRCCOLOR | SVGA3D_BLENDOP_SRCALPHA
  | SVGA3D_BLENDOP_INVSRCALPHA | SVGA3D_BLENDOP_DESTALPHA | SVGA3D_BLENDOP_INVDESTALPHA
  | SVGA3D_BLENDOP_DESTCOLOR | SVGA3D_BLENDOP_INVDESTCOLOR | SVGA3D_BLENDOP_SRCALPHASAT
  | SVGA3D_BLENDOP_BLENDFACTOR | SVGA3D_BLENDOP_INVBLENDFACTOR | SVGA3D_BLENDOP_MAX.

Definition SVGA3dBlendOp_val (x : SVGA3dBlendOp) : Z :=
  match x with
  | SVGA3D_BLENDOP_INVALID => 0 | SVGA3D_BLENDOP_ZERO => 1 | SVGA3D_BLENDOP_ONE => 2
  | SVGA3D_BLENDOP_SRCCOLOR => 3 | SVGA3D_BLENDOP_INVSRCCOLOR => 4
  | SVGA3D_BLENDOP_SRCALPHA => 5 | SVGA3D_BLENDOP_INVSRCALPHA => 6
  | SVGA3D_BLENDOP_DESTALPHA => 7 | SVGA3D_BLENDOP_INVDESTALPHA => 8
  | SVGA3D_BLENDOP_DESTCOLOR => 9 | SVGA3D_BLENDOP_INVDESTCOLOR => 10
  | SVGA3D_BLENDOP_SRCALPHASAT => 11 | SVGA3D_BLENDOP_BLENDFACTOR => 12
  | SVGA3D_BLENDOP_INVBLENDFACTOR => 13 | SVGA3D_BLENDOP_MAX => 14
  end.
Coercion SVGA3dBlendOp_val : SVGA3dBlendOp >-> Z.

#[global] Program Instance SVGA3dBlendOp_enum : CEnum SVGA3dBlendOp :=
  {| cval := SVGA3dBlendOp_val;
     cvalues := [
       SVGA3D_BLENDOP_INVALID; SVGA3D_BLENDOP_ZERO; SVGA3D_BLENDOP_ONE;
       SVGA3D_BLENDOP_SRCCOLOR; SVGA3D_BLENDOP_INVSRCCOLOR; SVGA3D_BLENDOP_SRCALPHA;
       SVGA3D_BLENDOP_INVSRCALPHA; SVGA3D_BLENDOP_DESTALPHA;
       SVGA3D_BLENDOP_INVDESTALPHA; SVGA3D_BLENDOP_DESTCOLOR;
       SVGA3D_BLENDOP_INVDESTCOLOR; SVGA3D_BLENDOP_SRCALPHASAT;
       SVGA3D_BLENDOP_BLENDFACTOR; SVGA3D_BLENDOP_INVBLENDFACTOR; SVGA3D_BLENDOP_MAX] |}.
Solve Obligations with cenum_tac.

(** Blend equations. *)
Inductive SVGA3dBlendEquation : Set :=
  | SVGA3D_BLENDEQ_INVALID | SVGA3D_BLENDEQ_ADD | SVGA3D_BLENDEQ_SUBTRACT
  | SVGA3D_BLENDEQ_REVSUBTRACT | SVGA3D_BLENDEQ_MINIMUM | SVGA3D_BLENDEQ_MAXIMUM
  | SVGA3D_BLENDEQ_MAX.

Definition SVGA3dBlendEquation_val (x : SVGA3dBlendEquation) : Z :=
  match x with
  | SVGA3D_BLENDEQ_INVALID => 0 | SVGA3D_BLENDEQ_ADD => 1
  | SVGA3D_BLENDEQ_SUBTRACT => 2 | SVGA3D_BLENDEQ_REVSUBTRACT => 3
  | SVGA3D_BLENDEQ_MINIMUM => 4 | SVGA3D_BLENDEQ_MAXIMUM => 5 | SVGA3D_BLENDEQ_MAX => 6
  end.
Coercion SVGA3dBlendEquation_val : SVGA3dBlendEquation >-> Z.

#[global] Program Instance SVGA3dBlendEquation_enum : CEnum SVGA3dBlendEquation :=
  {| cval := SVGA3dBlendEquation_val;
     cvalues := [
       SVGA3D_BLENDEQ_INVALID; SVGA3D_BLENDEQ_ADD; SVGA3D_BLENDEQ_SUBTRACT;
       SVGA3D_BLENDEQ_REVSUBTRACT; SVGA3D_BLENDEQ_MINIMUM; SVGA3D_BLENDEQ_MAXIMUM;
       SVGA3D_BLENDEQ_MAX] |}.
Solve Obligations with cenum_tac.

(** Front-face winding. *)
Inductive SVGA3dFrontWinding : Set :=
  | SVGA3D_FRONTWINDING_INVALID | SVGA3D_FRONTWINDING_CW | SVGA3D_FRONTWINDING_CCW
  | SVGA3D_FRONTWINDING_MAX.

Definition SVGA3dFrontWinding_val (x : SVGA3dFrontWinding) : Z :=
  match x with
  | SVGA3D_FRONTWINDING_INVALID => 0 | SVGA3D_FRONTWINDING_CW => 1
  | SVGA3D_FRONTWINDING_CCW => 2 | SVGA3D_FRONTWINDING_MAX => 3
  end.
Coercion SVGA3dFrontWinding_val : SVGA3dFrontWinding >-> Z.

#[global] Program Instance SVGA3dFrontWinding_enum : CEnum SVGA3dFrontWinding :=
  {| cval := SVGA3dFrontWinding_val;
     cvalues := [
       SVGA3D_FRONTWINDING_INVALID; SVGA3D_FRONTWINDING_CW; SVGA3D_FRONTWINDING_CCW;
       SVGA3D_FRONTWINDING_MAX] |}.
Solve Obligations with cenum_tac.

(** Faces. *)
Inductive SVGA3dFace : Set :=
  | SVGA3D_FACE_INVALID | SVGA3D_FACE_NONE | SVGA3D_FACE_FRONT | SVGA3D_FACE_BACK
  | SVGA3D_FACE_FRONT_BACK | SVGA3D_FACE_MAX.

Definition SVGA3dFace_val (x : SVGA3dFace) : Z :=
  match x with
  | SVGA3D_FACE_INVALID => 0 | SVGA3D_FACE_NONE => 1 | SVGA3D_FACE_FRONT => 2
  | SVGA3D_FACE_BACK => 3 | SVGA3D_FACE_FRONT_BACK => 4 | SVGA3D_FACE_MAX => 5
  end.
Coercion SVGA3dFace_val : SVGA3dFace >-> Z.

#[global] Program Instance SVGA3dFace_enum : CEnum SVGA3dFace :=
  {| cval := SVGA3dFace_val;
     cvalues := [
       SVGA3D_FACE_INVALID; SVGA3D_FACE_NONE; SVGA3D_FACE_FRONT; SVGA3D_FACE_BACK;
       SVGA3D_FACE_FRONT_BACK; SVGA3D_FACE_MAX] |}.
Solve Obligations with cenum_tac.

(** Comparison functions. *)
Inductive SVGA3dCmpFunc : Set :=
  | SVGA3D_CMP_INVALID | SVGA3D_CMP_NEVER | SVGA3D_CMP_LESS | SVGA3D_CMP_EQUAL
  | SVGA3D_CMP_LESSEQUAL | SVGA3D_CMP_GREATER | SVGA3D_CMP_NOTEQUAL
  | SVGA3D_CMP_GREATEREQUAL | SVGA3D_CMP_ALWAYS | SVGA3D_CMP_MAX.

Definition SVGA3dCmpFunc_val (x : SVGA3dCmpFunc) : Z :=
  match x with
  | SVGA3D_CMP_INVALID => 0 | SVGA3D_CMP_NEVER => 1 | SVGA3D_CMP_LESS => 2
  | SVGA3D_CMP_EQUAL => 3 | SVGA3D_CMP_LESSEQUAL => 4 | SVGA3D_CMP_GREATER => 5
  | SVGA3D_CMP_NOTEQUAL => 6 | SVGA3D_CMP_GREATEREQUAL => 7 | SVGA3D_CMP_ALWAYS => 8
  | SVGA3D_CMP_MAX => 9
  end.
Coercion SVGA3dCmpFunc_val : SVGA3dCmpFunc >-> Z.

#[global] Program Instance SVGA3dCmpFunc_enum : CEnum SVGA3dCmpFunc :=
  {| cval := SVGA3dCmpFunc_val;
     cvalues := [
       SVGA3D_CMP_INVALID; SVGA3D_CMP_NEVER; SVGA3D_CMP_LESS; SVGA3D_CMP_EQUAL;
       SVGA3D_CMP_LESSEQUAL; SVGA3D_CMP_GREATER; SVGA3D_CMP_NOTEQUAL;
       SVGA3D_CMP_GREATEREQUAL; SVGA3D_CMP_ALWAYS; SVGA3D_CMP_MAX] |}.
Solve Obligations with cenum_tac.

(** Fog functions. *)
Inductive SVGA3dFogFunction : Set :=
  | SVGA3D_FOGFUNC_INVALID | SVGA3D_FOGFUNC_EXP | SVGA3D_FOGFUNC_EXP2
  | SVGA3D_FOGFUNC_LINEAR | SVGA3D_FOGFUNC_PER_VERTEX.

Definition SVGA3dFogFunction_val (x : SVGA3dFogFunction) : Z :=
  match x with
  | SVGA3D_FOGFUNC_INVALID => 0 | SVGA3D_FOGFUNC_EXP => 1 | SVGA3D_FOGFUNC_EXP2 => 2
  | SVGA3D_FOGFUNC_LINEAR => 3 | SVGA3D_FOGFUNC_PER_VERTEX => 4
  end.
Coercion SVGA3dFogFunction_val : SVGA3dFogFunction >-> Z.

#[global] Program Instance SVGA3dFogFunction_enum : CEnum SVGA3dFogFunction :=
  {| cval := SVGA3dFogFunction_val;
     cvalues := [
       SVGA3D_FOGFUNC_INVALID; SVGA3D_FOGFUNC_EXP; SVGA3D_FOGFUNC_EXP2;
       SVGA3D_FOGFUNC_LINEAR; SVGA3D_FOGFUNC_PER_VERTEX] |}.
Solve Obligations with cenum_tac.

(** Fog per vertex or per pixel. *)
Inductive SVGA3dFogType : Set :=
  | SVGA3D_FOGTYPE_INVALID | SVGA3D_FOGTYPE_VERTEX | SVGA3D_FOGTYPE_PIXEL
  | SVGA3D_FOGTYPE_MAX.

Definition SVGA3dFogType_val (x : SVGA3dFogType) : Z :=
  match x with
  | SVGA3D_FOGTYPE_INVALID => 0 | SVGA3D_FOGTYPE_VERTEX => 1
  | SVGA3D_FOGTYPE_PIXEL => 2 | SVGA3D_FOGTYPE_MAX => 3
  end.
Coercion SVGA3dFogType_val : SVGA3dFogType >-> Z.

#[global] Program Instance SVGA3dFogType_enum : CEnum SVGA3dFogType :=
  {| cval := SVGA3dFogType_val;
     cvalues := [
       SVGA3D_FOGTYPE_INVALID; SVGA3D_FOGTYPE_VERTEX; SVGA3D_FOGTYPE_PIXEL;
       SVGA3D_FOGTYPE_MAX] |}.
Solve Obligations with cenum_tac.

(** Fog by depth or by range. *)
Inductive SVGA3dFogBase : Set :=
  | SVGA3D_FOGBASE_INVALID | SVGA3D_FOGBASE_DEPTHBASED | SVGA3D_FOGBASE_RANGEBASED
  | SVGA3D_FOGBASE_MAX.

Definition SVGA3dFogBase_val (x : SVGA3dFogBase) : Z :=
  match x with
  | SVGA3D_FOGBASE_INVALID => 0 | SVGA3D_FOGBASE_DEPTHBASED => 1
  | SVGA3D_FOGBASE_RANGEBASED => 2 | SVGA3D_FOGBASE_MAX => 3
  end.
Coercion SVGA3dFogBase_val : SVGA3dFogBase >-> Z.

#[global] Program Instance SVGA3dFogBase_enum : CEnum SVGA3dFogBase :=
  {| cval := SVGA3dFogBase_val;
     cvalues := [
       SVGA3D_FOGBASE_INVALID; SVGA3D_FOGBASE_DEPTHBASED; SVGA3D_FOGBASE_RANGEBASED;
       SVGA3D_FOGBASE_MAX] |}.
Solve Obligations with cenum_tac.

(** Stencil operations. *)
Inductive SVGA3dStencilOp : Set :=
  | SVGA3D_STENCILOP_INVALID | SVGA3D_STENCILOP_KEEP | SVGA3D_STENCILOP_ZERO
  | SVGA3D_STENCILOP_REPLACE | SVGA3D_STENCILOP_INCRSAT | SVGA3D_STENCILOP_DECRSAT
  | SVGA3D_STENCILOP_INVERT | SVGA3D_STENCILOP_INCR | SVGA3D_STENCILOP_DECR
  | SVGA3D_STENCILOP_MAX.

Definition SVGA3dStencilOp_val (x : SVGA3dStencilOp) : Z :=
  match x with
  | SVGA3D_STENCILOP_INVALID => 0 | SVGA3D_STENCILOP_KEEP => 1
  | SVGA3D_STENCILOP_ZERO => 2 | SVGA3D_STENCILOP_REPLACE => 3
  | SVGA3D_STENCILOP_INCRSAT => 4 | SVGA3D_STENCILOP_DECRSAT => 5
  | SVGA3D_STENCILOP_INVERT => 6 | SVGA3D_STENCILOP_INCR => 7
  | SVGA3D_STENCILOP_DECR => 8 | SVGA3D_STENCILOP_MAX => 9
  end.
Coercion SVGA3dStencilOp_val : SVGA3dStencilOp >-> Z.

#[global] Program Instance SVGA3dStencilOp_enum : CEnum SVGA3dStencilOp :=
  {| cval := SVGA3dStencilOp_val;
     cvalues := [
       SVGA3D_STENCILOP_INVALID; SVGA3D_STENCILOP_KEEP; SVGA3D_STENCILOP_ZERO;
       SVGA3D_STENCILOP_REPLACE; SVGA3D_STENCILOP_INCRSAT; SVGA3D_STENCILOP_DECRSAT;
       SVGA3D_STENCILOP_INVERT; SVGA3D_STENCILOP_INCR; SVGA3D_STENCILOP_DECR;
       SVGA3D_STENCILOP_MAX] |}.
Solve Obligations with cenum_tac.

(** Clip planes, as flags. *)
Inductive SVGA3dClipPlanes : Set :=
  | SVGA3D_CLIPPLANE_0 | SVGA3D_CLIPPLANE_1 | SVGA3D_CLIPPLANE_2 | SVGA3D_CLIPPLANE_3
  | SVGA3D_CLIPPLANE_4 | SVGA3D_CLIPPLANE_5.

Definition SVGA3dClipPlanes_val (x : SVGA3dClipPlanes) : Z :=
  match x with
  | SVGA3D_CLIPPLANE_0 => 1 | SVGA3D_CLIPPLANE_1 => 2 | SVGA3D_CLIPPLANE_2 => 4
  | SVGA3D_CLIPPLANE_3 => 8 | SVGA3D_CLIPPLANE_4 => 16 | SVGA3D_CLIPPLANE_5 => 32
  end.
Coercion SVGA3dClipPlanes_val : SVGA3dClipPlanes >-> Z.

#[global] Program Instance SVGA3dClipPlanes_enum : CEnum SVGA3dClipPlanes :=
  {| cval := SVGA3dClipPlanes_val;
     cvalues := [
       SVGA3D_CLIPPLANE_0; SVGA3D_CLIPPLANE_1; SVGA3D_CLIPPLANE_2; SVGA3D_CLIPPLANE_3;
       SVGA3D_CLIPPLANE_4; SVGA3D_CLIPPLANE_5] |}.
Solve Obligations with cenum_tac.

(** Buffers to clear, as flags. *)
Inductive SVGA3dClearFlag : Set :=
  | SVGA3D_CLEAR_COLOR | SVGA3D_CLEAR_DEPTH | SVGA3D_CLEAR_STENCIL.

Definition SVGA3dClearFlag_val (x : SVGA3dClearFlag) : Z :=
  match x with
  | SVGA3D_CLEAR_COLOR => 1 | SVGA3D_CLEAR_DEPTH => 2 | SVGA3D_CLEAR_STENCIL => 4
  end.
Coercion SVGA3dClearFlag_val : SVGA3dClearFlag >-> Z.

#[global] Program Instance SVGA3dClearFlag_enum : CEnum SVGA3dClearFlag :=
  {| cval := SVGA3dClearFlag_val;
     cvalues := [
       SVGA3D_CLEAR_COLOR; SVGA3D_CLEAR_DEPTH; SVGA3D_CLEAR_STENCIL] |}.
Solve Obligations with cenum_tac.

(** Render targets. *)
Inductive SVGA3dRenderTargetType : Set :=
  | SVGA3D_RT_DEPTH | SVGA3D_RT_STENCIL | SVGA3D_RT_COLOR0 | SVGA3D_RT_COLOR1
  | SVGA3D_RT_COLOR2 | SVGA3D_RT_COLOR3 | SVGA3D_RT_COLOR4 | SVGA3D_RT_COLOR5
  | SVGA3D_RT_COLOR6 | SVGA3D_RT_COLOR7 | SVGA3D_RT_MAX | SVGA3D_RT_INVALID.

Definition SVGA3dRenderTargetType_val (x : SVGA3dRenderTargetType) : Z :=
  match x with
  | SVGA3D_RT_DEPTH => 0 | SVGA3D_RT_STENCIL => 1 | SVGA3D_RT_COLOR0 => 2
  | SVGA3D_RT_COLOR1 => 3 | SVGA3D_RT_COLOR2 => 4 | SVGA3D_RT_COLOR3 => 5
  | SVGA3D_RT_COLOR4 => 6 | SVGA3D_RT_COLOR5 => 7 | SVGA3D_RT_COLOR6 => 8
  | SVGA3D_RT_COLOR7 => 9 | SVGA3D_RT_MAX => 10 | SVGA3D_RT_INVALID => 0xffffffff
  end.
Coercion SVGA3dRenderTargetType_val : SVGA3dRenderTargetType >-> Z.

#[global] Program Instance SVGA3dRenderTargetType_enum : CEnum SVGA3dRenderTargetType :=
  {| cval := SVGA3dRenderTargetType_val;
     cvalues := [
       SVGA3D_RT_DEPTH; SVGA3D_RT_STENCIL; SVGA3D_RT_COLOR0; SVGA3D_RT_COLOR1;
       SVGA3D_RT_COLOR2; SVGA3D_RT_COLOR3; SVGA3D_RT_COLOR4; SVGA3D_RT_COLOR5;
       SVGA3D_RT_COLOR6; SVGA3D_RT_COLOR7; SVGA3D_RT_MAX; SVGA3D_RT_INVALID] |}.
Solve Obligations with cenum_tac.

(** Vertex blending. *)
Inductive SVGA3dVertexBlendFlags : Set :=
  | SVGA3D_VBLEND_DISABLE | SVGA3D_VBLEND_1WEIGHT | SVGA3D_VBLEND_2WEIGHT
  | SVGA3D_VBLEND_3WEIGHT.

Definition SVGA3dVertexBlendFlags_val (x : SVGA3dVertexBlendFlags) : Z :=
  match x with
  | SVGA3D_VBLEND_DISABLE => 0 | SVGA3D_VBLEND_1WEIGHT => 1
  | SVGA3D_VBLEND_2WEIGHT => 2 | SVGA3D_VBLEND_3WEIGHT => 3
  end.
Coercion SVGA3dVertexBlendFlags_val : SVGA3dVertexBlendFlags >-> Z.

#[global] Program Instance SVGA3dVertexBlendFlags_enum : CEnum SVGA3dVertexBlendFlags :=
  {| cval := SVGA3dVertexBlendFlags_val;
     cvalues := [
       SVGA3D_VBLEND_DISABLE; SVGA3D_VBLEND_1WEIGHT; SVGA3D_VBLEND_2WEIGHT;
       SVGA3D_VBLEND_3WEIGHT] |}.
Solve Obligations with cenum_tac.

(** Texture coordinate wrapping. *)
Inductive SVGA3dWrapFlags : Set :=
  | SVGA3D_WRAPCOORD_0 | SVGA3D_WRAPCOORD_1 | SVGA3D_WRAPCOORD_2 | SVGA3D_WRAPCOORD_3
  | SVGA3D_WRAPCOORD_ALL.

Definition SVGA3dWrapFlags_val (x : SVGA3dWrapFlags) : Z :=
  match x with
  | SVGA3D_WRAPCOORD_0 => 1 | SVGA3D_WRAPCOORD_1 => 2 | SVGA3D_WRAPCOORD_2 => 4
  | SVGA3D_WRAPCOORD_3 => 8 | SVGA3D_WRAPCOORD_ALL => 15
  end.
Coercion SVGA3dWrapFlags_val : SVGA3dWrapFlags >-> Z.

#[global] Program Instance SVGA3dWrapFlags_enum : CEnum SVGA3dWrapFlags :=
  {| cval := SVGA3dWrapFlags_val;
     cvalues := [
       SVGA3D_WRAPCOORD_0; SVGA3D_WRAPCOORD_1; SVGA3D_WRAPCOORD_2; SVGA3D_WRAPCOORD_3;
       SVGA3D_WRAPCOORD_ALL] |}.
Solve Obligations with cenum_tac.

(** Texture states. *)
Inductive SVGA3dTextureStateName : Set :=
  | SVGA3D_TS_INVALID | SVGA3D_TS_BIND_TEXTURE | SVGA3D_TS_COLOROP
  | SVGA3D_TS_COLORARG1 | SVGA3D_TS_COLORARG2 | SVGA3D_TS_ALPHAOP | SVGA3D_TS_ALPHAARG1
  | SVGA3D_TS_ALPHAARG2 | SVGA3D_TS_ADDRESSU | SVGA3D_TS_ADDRESSV | SVGA3D_TS_MIPFILTER
  | SVGA3D_TS_MAGFILTER | SVGA3D_TS_MINFILTER | SVGA3D_TS_BORDERCOLOR
  | SVGA3D_TS_TEXCOORDINDEX | SVGA3D_TS_TEXTURETRANSFORMFLAGS | SVGA3D_TS_TEXCOORDGEN
  | SVGA3D_TS_BUMPENCEAT00 | SVGA3D_TS_BUMPENCEAT01 | SVGA3D_TS_BUMPENCEAT10
  | SVGA3D_TS_BUMPENCEAT11 | SVGA3D_TS_TEXTURE_MIPMAP_LEVEL
  | SVGA3D_TS_TEXTURE_LOD_BIAS | SVGA3D_TS_TEXTURE_ANISOTROPIC_LEVEL
  | SVGA3D_TS_ADDRESSW | SVGA3D_TS_GAMMA | SVGA3D_TS_BUMPENVLSCALE
  | SVGA3D_TS_BUMPENVLOFFSET | SVGA3D_TS_COLORARG0 | SVGA3D_TS_ALPHAARG0
  | SVGA3D_TS_MAX.

Definition SVGA3dTextureStateName_val (x : SVGA3dTextureStateName) : Z :=
  match x with
  | SVGA3D_TS_INVALID => 0 | SVGA3D_TS_BIND_TEXTURE => 1 | SVGA3D_TS_COLOROP => 2
  | SVGA3D_TS_COLORARG1 => 3 | SVGA3D_TS_COLORARG2 => 4 | SVGA3D_TS_ALPHAOP => 5
  | SVGA3D_TS_ALPHAARG1 => 6 | SVGA3D_TS_ALPHAARG2 => 7 | SVGA3D_TS_ADDRESSU => 8
  | SVGA3D_TS_ADDRESSV => 9 | SVGA3D_TS_MIPFILTER => 10 | SVGA3D_TS_MAGFILTER => 11
  | SVGA3D_TS_MINFILTER => 12 | SVGA3D_TS_BORDERCOLOR => 13
  | SVGA3D_TS_TEXCOORDINDEX => 14 | SVGA3D_TS_TEXTURETRANSFORMFLAGS => 15
  | SVGA3D_TS_TEXCOORDGEN => 16 | SVGA3D_TS_BUMPENCEAT00 => 17
  | SVGA3D_TS_BUMPENCEAT01 => 18 | SVGA3D_TS_BUMPENCEAT10 => 19
  | SVGA3D_TS_BUMPENCEAT11 => 20 | SVGA3D_TS_TEXTURE_MIPMAP_LEVEL => 21
  | SVGA3D_TS_TEXTURE_LOD_BIAS => 22 | SVGA3D_TS_TEXTURE_ANISOTROPIC_LEVEL => 23
  | SVGA3D_TS_ADDRESSW => 24 | SVGA3D_TS_GAMMA => 25 | SVGA3D_TS_BUMPENVLSCALE => 26
  | SVGA3D_TS_BUMPENVLOFFSET => 27 | SVGA3D_TS_COLORARG0 => 28
  | SVGA3D_TS_ALPHAARG0 => 29 | SVGA3D_TS_MAX => 30
  end.
Coercion SVGA3dTextureStateName_val : SVGA3dTextureStateName >-> Z.

#[global] Program Instance SVGA3dTextureStateName_enum : CEnum SVGA3dTextureStateName :=
  {| cval := SVGA3dTextureStateName_val;
     cvalues := [
       SVGA3D_TS_INVALID; SVGA3D_TS_BIND_TEXTURE; SVGA3D_TS_COLOROP;
       SVGA3D_TS_COLORARG1; SVGA3D_TS_COLORARG2; SVGA3D_TS_ALPHAOP;
       SVGA3D_TS_ALPHAARG1; SVGA3D_TS_ALPHAARG2; SVGA3D_TS_ADDRESSU;
       SVGA3D_TS_ADDRESSV; SVGA3D_TS_MIPFILTER; SVGA3D_TS_MAGFILTER;
       SVGA3D_TS_MINFILTER; SVGA3D_TS_BORDERCOLOR; SVGA3D_TS_TEXCOORDINDEX;
       SVGA3D_TS_TEXTURETRANSFORMFLAGS; SVGA3D_TS_TEXCOORDGEN; SVGA3D_TS_BUMPENCEAT00;
       SVGA3D_TS_BUMPENCEAT01; SVGA3D_TS_BUMPENCEAT10; SVGA3D_TS_BUMPENCEAT11;
       SVGA3D_TS_TEXTURE_MIPMAP_LEVEL; SVGA3D_TS_TEXTURE_LOD_BIAS;
       SVGA3D_TS_TEXTURE_ANISOTROPIC_LEVEL; SVGA3D_TS_ADDRESSW; SVGA3D_TS_GAMMA;
       SVGA3D_TS_BUMPENVLSCALE; SVGA3D_TS_BUMPENVLOFFSET; SVGA3D_TS_COLORARG0;
       SVGA3D_TS_ALPHAARG0; SVGA3D_TS_MAX] |}.
Solve Obligations with cenum_tac.

(** Texture combiners. *)
Inductive SVGA3dTextureCombiner : Set :=
  | SVGA3D_TC_INVALID | SVGA3D_TC_DISABLE | SVGA3D_TC_SELECTARG1 | SVGA3D_TC_SELECTARG2
  | SVGA3D_TC_MODULATE | SVGA3D_TC_ADD | SVGA3D_TC_ADDSIGNED | SVGA3D_TC_SUBTRACT
  | SVGA3D_TC_BLENDTEXTUREALPHA | SVGA3D_TC_BLENDDIFFUSEALPHA
  | SVGA3D_TC_BLENDCURRENTALPHA | SVGA3D_TC_BLENDFACTORALPHA | SVGA3D_TC_MODULATE2X
  | SVGA3D_TC_MODULATE4X | SVGA3D_TC_DSDT | SVGA3D_TC_DOTPRODUCT3
  | SVGA3D_TC_BLENDTEXTUREALPHAPM | SVGA3D_TC_ADDSIGNED2X | SVGA3D_TC_ADDSMOOTH
  | SVGA3D_TC_PREMODULATE | SVGA3D_TC_MODULATEALPHA_ADDCOLOR
  | SVGA3D_TC_MODULATECOLOR_ADDALPHA | SVGA3D_TC_MODULATEINVALPHA_ADDCOLOR
  | SVGA3D_TC_MODULATEINVCOLOR_ADDALPHA | SVGA3D_TC_BUMPENCEAPLUMINANCE
  | SVGA3D_TC_MULTIPLYADD | SVGA3D_TC_LERP | SVGA3D_TC_MAX.

Definition SVGA3dTextureCombiner_val (x : SVGA3dTextureCombiner) : Z :=
  match x with
  | SVGA3D_TC_INVALID => 0 | SVGA3D_TC_DISABLE => 1 | SVGA3D_TC_SELECTARG1 => 2
  | SVGA3D_TC_SELECTARG2 => 3 | SVGA3D_TC_MODULATE => 4 | SVGA3D_TC_ADD => 5
  | SVGA3D_TC_ADDSIGNED => 6 | SVGA3D_TC_SUBTRACT => 7
  | SVGA3D_TC_BLENDTEXTUREALPHA => 8 | SVGA3D_TC_BLENDDIFFUSEALPHA => 9
  | SVGA3D_TC_BLENDCURRENTALPHA => 10 | SVGA3D_TC_BLENDFACTORALPHA => 11
  | SVGA3D_TC_MODULATE2X => 12 | SVGA3D_TC_MODULATE4X => 13 | SVGA3D_TC_DSDT => 14
  | SVGA3D_TC_DOTPRODUCT3 => 15 | SVGA3D_TC_BLENDTEXTUREALPHAPM => 16
  | SVGA3D_TC_ADDSIGNED2X => 17 | SVGA3D_TC_ADDSMOOTH => 18
  | SVGA3D_TC_PREMODULATE => 19 | SVGA3D_TC_MODULATEALPHA_ADDCOLOR => 20
  | SVGA3D_TC_MODULATECOLOR_ADDALPHA => 21 | SVGA3D_TC_MODULATEINVALPHA_ADDCOLOR => 22
  | SVGA3D_TC_MODULATEINVCOLOR_ADDALPHA => 23 | SVGA3D_TC_BUMPENCEAPLUMINANCE => 24
  | SVGA3D_TC_MULTIPLYADD => 25 | SVGA3D_TC_LERP => 26 | SVGA3D_TC_MAX => 27
  end.
Coercion SVGA3dTextureCombiner_val : SVGA3dTextureCombiner >-> Z.

#[global] Program Instance SVGA3dTextureCombiner_enum : CEnum SVGA3dTextureCombiner :=
  {| cval := SVGA3dTextureCombiner_val;
     cvalues := [
       SVGA3D_TC_INVALID; SVGA3D_TC_DISABLE; SVGA3D_TC_SELECTARG1;
       SVGA3D_TC_SELECTARG2; SVGA3D_TC_MODULATE; SVGA3D_TC_ADD; SVGA3D_TC_ADDSIGNED;
       SVGA3D_TC_SUBTRACT; SVGA3D_TC_BLENDTEXTUREALPHA; SVGA3D_TC_BLENDDIFFUSEALPHA;
       SVGA3D_TC_BLENDCURRENTALPHA; SVGA3D_TC_BLENDFACTORALPHA; SVGA3D_TC_MODULATE2X;
       SVGA3D_TC_MODULATE4X; SVGA3D_TC_DSDT; SVGA3D_TC_DOTPRODUCT3;
       SVGA3D_TC_BLENDTEXTUREALPHAPM; SVGA3D_TC_ADDSIGNED2X; SVGA3D_TC_ADDSMOOTH;
       SVGA3D_TC_PREMODULATE; SVGA3D_TC_MODULATEALPHA_ADDCOLOR;
       SVGA3D_TC_MODULATECOLOR_ADDALPHA; SVGA3D_TC_MODULATEINVALPHA_ADDCOLOR;
       SVGA3D_TC_MODULATEINVCOLOR_ADDALPHA; SVGA3D_TC_BUMPENCEAPLUMINANCE;
       SVGA3D_TC_MULTIPLYADD; SVGA3D_TC_LERP; SVGA3D_TC_MAX] |}.
Solve Obligations with cenum_tac.

(** Texture addressing. *)
Inductive SVGA3dTextureAddress : Set :=
  | SVGA3D_TEX_ADDRESS_INVALID | SVGA3D_TEX_ADDRESS_WRAP | SVGA3D_TEX_ADDRESS_MIRROR
  | SVGA3D_TEX_ADDRESS_CLAMP | SVGA3D_TEX_ADDRESS_BORDER
  | SVGA3D_TEX_ADDRESS_MIRRORONCE | SVGA3D_TEX_ADDRESS_EDGE | SVGA3D_TEX_ADDRESS_MAX.

Definition SVGA3dTextureAddress_val (x : SVGA3dTextureAddress) : Z :=
  match x with
  | SVGA3D_TEX_ADDRESS_INVALID => 0 | SVGA3D_TEX_ADDRESS_WRAP => 1
  | SVGA3D_TEX_ADDRESS_MIRROR => 2 | SVGA3D_TEX_ADDRESS_CLAMP => 3
  | SVGA3D_TEX_ADDRESS_BORDER => 4 | SVGA3D_TEX_ADDRESS_MIRRORONCE => 5
  | SVGA3D_TEX_ADDRESS_EDGE => 6 | SVGA3D_TEX_ADDRESS_MAX => 7
  end.
Coercion SVGA3dTextureAddress_val : SVGA3dTextureAddress >-> Z.

#[global] Program Instance SVGA3dTextureAddress_enum : CEnum SVGA3dTextureAddress :=
  {| cval := SVGA3dTextureAddress_val;
     cvalues := [
       SVGA3D_TEX_ADDRESS_INVALID; SVGA3D_TEX_ADDRESS_WRAP; SVGA3D_TEX_ADDRESS_MIRROR;
       SVGA3D_TEX_ADDRESS_CLAMP; SVGA3D_TEX_ADDRESS_BORDER;
       SVGA3D_TEX_ADDRESS_MIRRORONCE; SVGA3D_TEX_ADDRESS_EDGE; SVGA3D_TEX_ADDRESS_MAX] |}.
Solve Obligations with cenum_tac.

(** Texture filters. *)
Inductive SVGA3dTextureFilter : Set :=
  | SVGA3D_TEX_FILTER_NONE | SVGA3D_TEX_FILTER_NEAREST | SVGA3D_TEX_FILTER_LINEAR
  | SVGA3D_TEX_FILTER_ANISOTROPIC | SVGA3D_TEX_FILTER_FLATCUBIC
  | SVGA3D_TEX_FILTER_GAUSSIANCUBIC | SVGA3D_TEX_FILTER_PYRAMIDALQUAD
  | SVGA3D_TEX_FILTER_GAUSSIANQUAD | SVGA3D_TEX_FILTER_MAX.

Definition SVGA3dTextureFilter_val (x : SVGA3dTextureFilter) : Z :=
  match x with
  | SVGA3D_TEX_FILTER_NONE => 0 | SVGA3D_TEX_FILTER_NEAREST => 1
  | SVGA3D_TEX_FILTER_LINEAR => 2 | SVGA3D_TEX_FILTER_ANISOTROPIC => 3
  | SVGA3D_TEX_FILTER_FLATCUBIC => 4 | SVGA3D_TEX_FILTER_GAUSSIANCUBIC => 5
  | SVGA3D_TEX_FILTER_PYRAMIDALQUAD => 6 | SVGA3D_TEX_FILTER_GAUSSIANQUAD => 7
  | SVGA3D_TEX_FILTER_MAX => 8
  end.
Coercion SVGA3dTextureFilter_val : SVGA3dTextureFilter >-> Z.

#[global] Program Instance SVGA3dTextureFilter_enum : CEnum SVGA3dTextureFilter :=
  {| cval := SVGA3dTextureFilter_val;
     cvalues := [
       SVGA3D_TEX_FILTER_NONE; SVGA3D_TEX_FILTER_NEAREST; SVGA3D_TEX_FILTER_LINEAR;
       SVGA3D_TEX_FILTER_ANISOTROPIC; SVGA3D_TEX_FILTER_FLATCUBIC;
       SVGA3D_TEX_FILTER_GAUSSIANCUBIC; SVGA3D_TEX_FILTER_PYRAMIDALQUAD;
       SVGA3D_TEX_FILTER_GAUSSIANQUAD; SVGA3D_TEX_FILTER_MAX] |}.
Solve Obligations with cenum_tac.

(** Texture transform flags. *)
Inductive SVGA3dTexTransformFlags : Set :=
  | SVGA3D_TEX_TRANSFORM_OFF | SVGA3D_TEX_TRANSFORM_S | SVGA3D_TEX_TRANSFORM_T
  | SVGA3D_TEX_TRANSFORM_R | SVGA3D_TEX_TRANSFORM_Q | SVGA3D_TEX_PROJECTED.

Definition SVGA3dTexTransformFlags_val (x : SVGA3dTexTransformFlags) : Z :=
  match x with
  | SVGA3D_TEX_TRANSFORM_OFF => 0 | SVGA3D_TEX_TRANSFORM_S => 1
  | SVGA3D_TEX_TRANSFORM_T => 2 | SVGA3D_TEX_TRANSFORM_R => 4
  | SVGA3D_TEX_TRANSFORM_Q => 8 | SVGA3D_TEX_PROJECTED => 0x8000
  end.
Coercion SVGA3dTexTransformFlags_val : SVGA3dTexTransformFlags >-> Z.

#[global] Program Instance SVGA3dTexTransformFlags_enum : CEnum SVGA3dTexTransformFlags :=
  {| cval := SVGA3dTexTransformFlags_val;
     cvalues := [
       SVGA3D_TEX_TRANSFORM_OFF; SVGA3D_TEX_TRANSFORM_S; SVGA3D_TEX_TRANSFORM_T;
       SVGA3D_TEX_TRANSFORM_R; SVGA3D_TEX_TRANSFORM_Q; SVGA3D_TEX_PROJECTED] |}.
Solve Obligations with cenum_tac.

(** Texture coordinate generation. *)
Inductive SVGA3dTextureCoordGen : Set :=
  | SVGA3D_TEXCOORD_GEN_OFF | SVGA3D_TEXCOORD_GEN_EYE_POSITION
  | SVGA3D_TEXCOORD_GEN_EYE_NORMAL | SVGA3D_TEXCOORD_GEN_REFLECTIONVECTOR
  | SVGA3D_TEXCOORD_GEN_SPHERE | SVGA3D_TEXCOORD_GEN_MAX.

Definition SVGA3dTextureCoordGen_val (x : SVGA3dTextureCoordGen) : Z :=
  match x with
  | SVGA3D_TEXCOORD_GEN_OFF => 0 | SVGA3D_TEXCOORD_GEN_EYE_POSITION => 1
  | SVGA3D_TEXCOORD_GEN_EYE_NORMAL => 2 | SVGA3D_TEXCOORD_GEN_REFLECTIONVECTOR => 3
  | SVGA3D_TEXCOORD_GEN_SPHERE => 4 | SVGA3D_TEXCOORD_GEN_MAX => 5
  end.
Coercion SVGA3dTextureCoordGen_val : SVGA3dTextureCoordGen >-> Z.

#[global] Program Instance SVGA3dTextureCoordGen_enum : CEnum SVGA3dTextureCoordGen :=
  {| cval := SVGA3dTextureCoordGen_val;
     cvalues := [
       SVGA3D_TEXCOORD_GEN_OFF; SVGA3D_TEXCOORD_GEN_EYE_POSITION;
       SVGA3D_TEXCOORD_GEN_EYE_NORMAL; SVGA3D_TEXCOORD_GEN_REFLECTIONVECTOR;
       SVGA3D_TEXCOORD_GEN_SPHERE; SVGA3D_TEXCOORD_GEN_MAX] |}.
Solve Obligations with cenum_tac.

(** Texture combiner arguments. *)
Inductive SVGA3dTextureArgData : Set :=
  | SVGA3D_TA_INVALID | SVGA3D_TA_CONSTANT | SVGA3D_TA_PREVIOUS | SVGA3D_TA_DIFFUSE
  | SVGA3D_TA_TEXTURE | SVGA3D_TA_SPECULAR | SVGA3D_TA_MAX.

Definition SVGA3dTextureArgData_val (x : SVGA3dTextureArgData) : Z :=
  match x with
  | SVGA3D_TA_INVALID => 0 | SVGA3D_TA_CONSTANT => 1 | SVGA3D_TA_PREVIOUS => 2
  | SVGA3D_TA_DIFFUSE => 3 | SVGA3D_TA_TEXTURE => 4 | SVGA3D_TA_SPECULAR => 5
  | SVGA3D_TA_MAX => 6
  end.
Coercion SVGA3dTextureArgData_val : SVGA3dTextureArgData >-> Z.

#[global] Program Instance SVGA3dTextureArgData_enum : CEnum SVGA3dTextureArgData :=
  {| cval := SVGA3dTextureArgData_val;
     cvalues := [
       SVGA3D_TA_INVALID; SVGA3D_TA_CONSTANT; SVGA3D_TA_PREVIOUS; SVGA3D_TA_DIFFUSE;
       SVGA3D_TA_TEXTURE; SVGA3D_TA_SPECULAR; SVGA3D_TA_MAX] |}.
Solve Obligations with cenum_tac.

(** Use of a vertex array. *)
Inductive SVGA3dDeclUsage : Set :=
  | SVGA3D_DECLUSAGE_POSITION | SVGA3D_DECLUSAGE_BLENDWEIGHT
  | SVGA3D_DECLUSAGE_BLENDINDICES | SVGA3D_DECLUSAGE_NORMAL | SVGA3D_DECLUSAGE_PSIZE
  | SVGA3D_DECLUSAGE_TEXCOORD | SVGA3D_DECLUSAGE_TANGENT | SVGA3D_DECLUSAGE_BINORMAL
  | SVGA3D_DECLUSAGE_TESSFACTOR | SVGA3D_DECLUSAGE_POSITIONT | SVGA3D_DECLUSAGE_COLOR
  | SVGA3D_DECLUSAGE_FOG | SVGA3D_DECLUSAGE_DEPTH | SVGA3D_DECLUSAGE_SAMPLE
  | SVGA3D_DECLUSAGE_MAX.

Definition SVGA3dDeclUsage_val (x : SVGA3dDeclUsage) : Z :=
  match x with
  | SVGA3D_DECLUSAGE_POSITION => 0 | SVGA3D_DECLUSAGE_BLENDWEIGHT => 1
  | SVGA3D_DECLUSAGE_BLENDINDICES => 2 | SVGA3D_DECLUSAGE_NORMAL => 3
  | SVGA3D_DECLUSAGE_PSIZE => 4 | SVGA3D_DECLUSAGE_TEXCOORD => 5
  | SVGA3D_DECLUSAGE_TANGENT => 6 | SVGA3D_DECLUSAGE_BINORMAL => 7
  | SVGA3D_DECLUSAGE_TESSFACTOR => 8 | SVGA3D_DECLUSAGE_POSITIONT => 9
  | SVGA3D_DECLUSAGE_COLOR => 10 | SVGA3D_DECLUSAGE_FOG => 11
  | SVGA3D_DECLUSAGE_DEPTH => 12 | SVGA3D_DECLUSAGE_SAMPLE => 13
  | SVGA3D_DECLUSAGE_MAX => 14
  end.
Coercion SVGA3dDeclUsage_val : SVGA3dDeclUsage >-> Z.

#[global] Program Instance SVGA3dDeclUsage_enum : CEnum SVGA3dDeclUsage :=
  {| cval := SVGA3dDeclUsage_val;
     cvalues := [
       SVGA3D_DECLUSAGE_POSITION; SVGA3D_DECLUSAGE_BLENDWEIGHT;
       SVGA3D_DECLUSAGE_BLENDINDICES; SVGA3D_DECLUSAGE_NORMAL; SVGA3D_DECLUSAGE_PSIZE;
       SVGA3D_DECLUSAGE_TEXCOORD; SVGA3D_DECLUSAGE_TANGENT; SVGA3D_DECLUSAGE_BINORMAL;
       SVGA3D_DECLUSAGE_TESSFACTOR; SVGA3D_DECLUSAGE_POSITIONT; SVGA3D_DECLUSAGE_COLOR;
       SVGA3D_DECLUSAGE_FOG; SVGA3D_DECLUSAGE_DEPTH; SVGA3D_DECLUSAGE_SAMPLE;
       SVGA3D_DECLUSAGE_MAX] |}.
Solve Obligations with cenum_tac.

(** Tessellation methods. *)
Inductive SVGA3dDeclMethod : Set :=
  | SVGA3D_DECLMETHOD_DEFAULT | SVGA3D_DECLMETHOD_PARTIALU | SVGA3D_DECLMETHOD_PARTIALV
  | SVGA3D_DECLMETHOD_CROSSUV | SVGA3D_DECLMETHOD_UV | SVGA3D_DECLMETHOD_LOOKUP
  | SVGA3D_DECLMETHOD_LOOKUPPRESAMPLED.

Definition SVGA3dDeclMethod_val (x : SVGA3dDeclMethod) : Z :=
  match x with
  | SVGA3D_DECLMETHOD_DEFAULT => 0 | SVGA3D_DECLMETHOD_PARTIALU => 1
  | SVGA3D_DECLMETHOD_PARTIALV => 2 | SVGA3D_DECLMETHOD_CROSSUV => 3
  | SVGA3D_DECLMETHOD_UV => 4 | SVGA3D_DECLMETHOD_LOOKUP => 5
  | SVGA3D_DECLMETHOD_LOOKUPPRESAMPLED => 6
  end.
Coercion SVGA3dDeclMethod_val : SVGA3dDeclMethod >-> Z.

#[global] Program Instance SVGA3dDeclMethod_enum : CEnum SVGA3dDeclMethod :=
  {| cval := SVGA3dDeclMethod_val;
     cvalues := [
       SVGA3D_DECLMETHOD_DEFAULT; SVGA3D_DECLMETHOD_PARTIALU;
       SVGA3D_DECLMETHOD_PARTIALV; SVGA3D_DECLMETHOD_CROSSUV; SVGA3D_DECLMETHOD_UV;
       SVGA3D_DECLMETHOD_LOOKUP; SVGA3D_DECLMETHOD_LOOKUPPRESAMPLED] |}.
Solve Obligations with cenum_tac.

(** Types of vertex data. *)
Inductive SVGA3dDeclType : Set :=
  | SVGA3D_DECLTYPE_FLOAT1 | SVGA3D_DECLTYPE_FLOAT2 | SVGA3D_DECLTYPE_FLOAT3
  | SVGA3D_DECLTYPE_FLOAT4 | SVGA3D_DECLTYPE_D3DCOLOR | SVGA3D_DECLTYPE_UBYTE4
  | SVGA3D_DECLTYPE_SHORT2 | SVGA3D_DECLTYPE_SHORT4 | SVGA3D_DECLTYPE_UBYTE4N
  | SVGA3D_DECLTYPE_SHORT2N | SVGA3D_DECLTYPE_SHORT4N | SVGA3D_DECLTYPE_USHORT2N
  | SVGA3D_DECLTYPE_USHORT4N | SVGA3D_DECLTYPE_UDEC3 | SVGA3D_DECLTYPE_DEC3N
  | SVGA3D_DECLTYPE_FLOAT16_2 | SVGA3D_DECLTYPE_FLOAT16_4 | SVGA3D_DECLTYPE_MAX.

Definition SVGA3dDeclType_val (x : SVGA3dDeclType) : Z :=
  match x with
  | SVGA3D_DECLTYPE_FLOAT1 => 0 | SVGA3D_DECLTYPE_FLOAT2 => 1
  | SVGA3D_DECLTYPE_FLOAT3 => 2 | SVGA3D_DECLTYPE_FLOAT4 => 3
  | SVGA3D_DECLTYPE_D3DCOLOR => 4 | SVGA3D_DECLTYPE_UBYTE4 => 5
  | SVGA3D_DECLTYPE_SHORT2 => 6 | SVGA3D_DECLTYPE_SHORT4 => 7
  | SVGA3D_DECLTYPE_UBYTE4N => 8 | SVGA3D_DECLTYPE_SHORT2N => 9
  | SVGA3D_DECLTYPE_SHORT4N => 10 | SVGA3D_DECLTYPE_USHORT2N => 11
  | SVGA3D_DECLTYPE_USHORT4N => 12 | SVGA3D_DECLTYPE_UDEC3 => 13
  | SVGA3D_DECLTYPE_DEC3N => 14 | SVGA3D_DECLTYPE_FLOAT16_2 => 15
  | SVGA3D_DECLTYPE_FLOAT16_4 => 16 | SVGA3D_DECLTYPE_MAX => 17
  end.
Coercion SVGA3dDeclType_val : SVGA3dDeclType >-> Z.

#[global] Program Instance SVGA3dDeclType_enum : CEnum SVGA3dDeclType :=
  {| cval := SVGA3dDeclType_val;
     cvalues := [
       SVGA3D_DECLTYPE_FLOAT1; SVGA3D_DECLTYPE_FLOAT2; SVGA3D_DECLTYPE_FLOAT3;
       SVGA3D_DECLTYPE_FLOAT4; SVGA3D_DECLTYPE_D3DCOLOR; SVGA3D_DECLTYPE_UBYTE4;
       SVGA3D_DECLTYPE_SHORT2; SVGA3D_DECLTYPE_SHORT4; SVGA3D_DECLTYPE_UBYTE4N;
       SVGA3D_DECLTYPE_SHORT2N; SVGA3D_DECLTYPE_SHORT4N; SVGA3D_DECLTYPE_USHORT2N;
       SVGA3D_DECLTYPE_USHORT4N; SVGA3D_DECLTYPE_UDEC3; SVGA3D_DECLTYPE_DEC3N;
       SVGA3D_DECLTYPE_FLOAT16_2; SVGA3D_DECLTYPE_FLOAT16_4; SVGA3D_DECLTYPE_MAX] |}.
Solve Obligations with cenum_tac.

(** Primitive types. *)
Inductive SVGA3dPrimitiveType : Set :=
  | SVGA3D_PRIMITIVE_INVALID | SVGA3D_PRIMITIVE_TRIANGLELIST
  | SVGA3D_PRIMITIVE_POINTLIST | SVGA3D_PRIMITIVE_LINELIST | SVGA3D_PRIMITIVE_LINESTRIP
  | SVGA3D_PRIMITIVE_TRIANGLESTRIP | SVGA3D_PRIMITIVE_TRIANGLEFAN
  | SVGA3D_PRIMITIVE_MAX.

Definition SVGA3dPrimitiveType_val (x : SVGA3dPrimitiveType) : Z :=
  match x with
  | SVGA3D_PRIMITIVE_INVALID => 0 | SVGA3D_PRIMITIVE_TRIANGLELIST => 1
  | SVGA3D_PRIMITIVE_POINTLIST => 2 | SVGA3D_PRIMITIVE_LINELIST => 3
  | SVGA3D_PRIMITIVE_LINESTRIP => 4 | SVGA3D_PRIMITIVE_TRIANGLESTRIP => 5
  | SVGA3D_PRIMITIVE_TRIANGLEFAN => 6 | SVGA3D_PRIMITIVE_MAX => 7
  end.
Coercion SVGA3dPrimitiveType_val : SVGA3dPrimitiveType >-> Z.

#[global] Program Instance SVGA3dPrimitiveType_enum : CEnum SVGA3dPrimitiveType :=
  {| cval := SVGA3dPrimitiveType_val;
     cvalues := [
       SVGA3D_PRIMITIVE_INVALID; SVGA3D_PRIMITIVE_TRIANGLELIST;
       SVGA3D_PRIMITIVE_POINTLIST; SVGA3D_PRIMITIVE_LINELIST;
       SVGA3D_PRIMITIVE_LINESTRIP; SVGA3D_PRIMITIVE_TRIANGLESTRIP;
       SVGA3D_PRIMITIVE_TRIANGLEFAN; SVGA3D_PRIMITIVE_MAX] |}.
Solve Obligations with cenum_tac.

(** Handedness. *)
Inductive SVGA3dCoordinateType : Set :=
  | SVGA3D_COORDINATE_INVALID | SVGA3D_COORDINATE_LEFTHANDED
  | SVGA3D_COORDINATE_RIGHTHANDED | SVGA3D_COORDINATE_MAX.

Definition SVGA3dCoordinateType_val (x : SVGA3dCoordinateType) : Z :=
  match x with
  | SVGA3D_COORDINATE_INVALID => 0 | SVGA3D_COORDINATE_LEFTHANDED => 1
  | SVGA3D_COORDINATE_RIGHTHANDED => 2 | SVGA3D_COORDINATE_MAX => 3
  end.
Coercion SVGA3dCoordinateType_val : SVGA3dCoordinateType >-> Z.

#[global] Program Instance SVGA3dCoordinateType_enum : CEnum SVGA3dCoordinateType :=
  {| cval := SVGA3dCoordinateType_val;
     cvalues := [
       SVGA3D_COORDINATE_INVALID; SVGA3D_COORDINATE_LEFTHANDED;
       SVGA3D_COORDINATE_RIGHTHANDED; SVGA3D_COORDINATE_MAX] |}.
Solve Obligations with cenum_tac.

(** Transforms. *)
Inductive SVGA3dTransformType : Set :=
  | SVGA3D_TRANSFORM_INVALID | SVGA3D_TRANSFORM_WORLD | SVGA3D_TRANSFORM_VIEW
  | SVGA3D_TRANSFORM_PROJECTION | SVGA3D_TRANSFORM_TEXTURE0 | SVGA3D_TRANSFORM_TEXTURE1
  | SVGA3D_TRANSFORM_TEXTURE2 | SVGA3D_TRANSFORM_TEXTURE3 | SVGA3D_TRANSFORM_TEXTURE4
  | SVGA3D_TRANSFORM_TEXTURE5 | SVGA3D_TRANSFORM_TEXTURE6 | SVGA3D_TRANSFORM_TEXTURE7
  | SVGA3D_TRANSFORM_WORLD1 | SVGA3D_TRANSFORM_WORLD2 | SVGA3D_TRANSFORM_WORLD3
  | SVGA3D_TRANSFORM_MAX.

Definition SVGA3dTransformType_val (x : SVGA3dTransformType) : Z :=
  match x with
  | SVGA3D_TRANSFORM_INVALID => 0 | SVGA3D_TRANSFORM_WORLD => 1
  | SVGA3D_TRANSFORM_VIEW => 2 | SVGA3D_TRANSFORM_PROJECTION => 3
  | SVGA3D_TRANSFORM_TEXTURE0 => 4 | SVGA3D_TRANSFORM_TEXTURE1 => 5
  | SVGA3D_TRANSFORM_TEXTURE2 => 6 | SVGA3D_TRANSFORM_TEXTURE3 => 7
  | SVGA3D_TRANSFORM_TEXTURE4 => 8 | SVGA3D_TRANSFORM_TEXTURE5 => 9
  | SVGA3D_TRANSFORM_TEXTURE6 => 10 | SVGA3D_TRANSFORM_TEXTURE7 => 11
  | SVGA3D_TRANSFORM_WORLD1 => 12 | SVGA3D_TRANSFORM_WORLD2 => 13
  | SVGA3D_TRANSFORM_WORLD3 => 14 | SVGA3D_TRANSFORM_MAX => 15
  end.
Coercion SVGA3dTransformType_val : SVGA3dTransformType >-> Z.

#[global] Program Instance SVGA3dTransformType_enum : CEnum SVGA3dTransformType :=
  {| cval := SVGA3dTransformType_val;
     cvalues := [
       SVGA3D_TRANSFORM_INVALID; SVGA3D_TRANSFORM_WORLD; SVGA3D_TRANSFORM_VIEW;
       SVGA3D_TRANSFORM_PROJECTION; SVGA3D_TRANSFORM_TEXTURE0;
       SVGA3D_TRANSFORM_TEXTURE1; SVGA3D_TRANSFORM_TEXTURE2; SVGA3D_TRANSFORM_TEXTURE3;
       SVGA3D_TRANSFORM_TEXTURE4; SVGA3D_TRANSFORM_TEXTURE5; SVGA3D_TRANSFORM_TEXTURE6;
       SVGA3D_TRANSFORM_TEXTURE7; SVGA3D_TRANSFORM_WORLD1; SVGA3D_TRANSFORM_WORLD2;
       SVGA3D_TRANSFORM_WORLD3; SVGA3D_TRANSFORM_MAX] |}.
Solve Obligations with cenum_tac.

(** Light types. *)
Inductive SVGA3dLightType : Set :=
  | SVGA3D_LIGHTTYPE_INVALID | SVGA3D_LIGHTTYPE_POINT | SVGA3D_LIGHTTYPE_SPOT1
  | SVGA3D_LIGHTTYPE_SPOT2 | SVGA3D_LIGHTTYPE_DIRECTIONAL | SVGA3D_LIGHTTYPE_MAX.

Definition SVGA3dLightType_val (x : SVGA3dLightType) : Z :=
  match x with
  | SVGA3D_LIGHTTYPE_INVALID => 0 | SVGA3D_LIGHTTYPE_POINT => 1
  | SVGA3D_LIGHTTYPE_SPOT1 => 2 | SVGA3D_LIGHTTYPE_SPOT2 => 3
  | SVGA3D_LIGHTTYPE_DIRECTIONAL => 4 | SVGA3D_LIGHTTYPE_MAX => 5
  end.
Coercion SVGA3dLightType_val : SVGA3dLightType >-> Z.

#[global] Program Instance SVGA3dLightType_enum : CEnum SVGA3dLightType :=
  {| cval := SVGA3dLightType_val;
     cvalues := [
       SVGA3D_LIGHTTYPE_INVALID; SVGA3D_LIGHTTYPE_POINT; SVGA3D_LIGHTTYPE_SPOT1;
       SVGA3D_LIGHTTYPE_SPOT2; SVGA3D_LIGHTTYPE_DIRECTIONAL; SVGA3D_LIGHTTYPE_MAX] |}.
Solve Obligations with cenum_tac.

(** Cube faces. *)
Inductive SVGA3dCubeFace : Set :=
  | SVGA3D_CUBEFACE_POSX | SVGA3D_CUBEFACE_NEGX | SVGA3D_CUBEFACE_POSY
  | SVGA3D_CUBEFACE_NEGY | SVGA3D_CUBEFACE_POSZ | SVGA3D_CUBEFACE_NEGZ.

Definition SVGA3dCubeFace_val (x : SVGA3dCubeFace) : Z :=
  match x with
  | SVGA3D_CUBEFACE_POSX => 0 | SVGA3D_CUBEFACE_NEGX => 1 | SVGA3D_CUBEFACE_POSY => 2
  | SVGA3D_CUBEFACE_NEGY => 3 | SVGA3D_CUBEFACE_POSZ => 4 | SVGA3D_CUBEFACE_NEGZ => 5
  end.
Coercion SVGA3dCubeFace_val : SVGA3dCubeFace >-> Z.

#[global] Program Instance SVGA3dCubeFace_enum : CEnum SVGA3dCubeFace :=
  {| cval := SVGA3dCubeFace_val;
     cvalues := [
       SVGA3D_CUBEFACE_POSX; SVGA3D_CUBEFACE_NEGX; SVGA3D_CUBEFACE_POSY;
       SVGA3D_CUBEFACE_NEGY; SVGA3D_CUBEFACE_POSZ; SVGA3D_CUBEFACE_NEGZ] |}.
Solve Obligations with cenum_tac.

(** Shader types. *)
Inductive SVGA3dShaderType : Set :=
  | SVGA3D_SHADERTYPE_VS | SVGA3D_SHADERTYPE_PS | SVGA3D_SHADERTYPE_MAX.

Definition SVGA3dShaderType_val (x : SVGA3dShaderType) : Z :=
  match x with
  | SVGA3D_SHADERTYPE_VS => 1 | SVGA3D_SHADERTYPE_PS => 2 | SVGA3D_SHADERTYPE_MAX => 3
  end.
Coercion SVGA3dShaderType_val : SVGA3dShaderType >-> Z.

#[global] Program Instance SVGA3dShaderType_enum : CEnum SVGA3dShaderType :=
  {| cval := SVGA3dShaderType_val;
     cvalues := [
       SVGA3D_SHADERTYPE_VS; SVGA3D_SHADERTYPE_PS; SVGA3D_SHADERTYPE_MAX] |}.
Solve Obligations with cenum_tac.

(** Types of shader constants. *)
Inductive SVGA3dShaderConstType : Set :=
  | SVGA3D_CONST_TYPE_FLOAT | SVGA3D_CONST_TYPE_INT | SVGA3D_CONST_TYPE_BOOL.

Definition SVGA3dShaderConstType_val (x : SVGA3dShaderConstType) : Z :=
  match x with
  | SVGA3D_CONST_TYPE_FLOAT => 0 | SVGA3D_CONST_TYPE_INT => 1
  | SVGA3D_CONST_TYPE_BOOL => 2
  end.
Coercion SVGA3dShaderConstType_val : SVGA3dShaderConstType >-> Z.

#[global] Program Instance SVGA3dShaderConstType_enum : CEnum SVGA3dShaderConstType :=
  {| cval := SVGA3dShaderConstType_val;
     cvalues := [
       SVGA3D_CONST_TYPE_FLOAT; SVGA3D_CONST_TYPE_INT; SVGA3D_CONST_TYPE_BOOL] |}.
Solve Obligations with cenum_tac.

(** Stretch filters. *)
Inductive SVGA3dStretchBltMode : Set :=
  | SVGA3D_STRETCH_BLT_POINT | SVGA3D_STRETCH_BLT_LINEAR | SVGA3D_STRETCH_BLT_MAX.

Definition SVGA3dStretchBltMode_val (x : SVGA3dStretchBltMode) : Z :=
  match x with
  | SVGA3D_STRETCH_BLT_POINT => 0 | SVGA3D_STRETCH_BLT_LINEAR => 1
  | SVGA3D_STRETCH_BLT_MAX => 2
  end.
Coercion SVGA3dStretchBltMode_val : SVGA3dStretchBltMode >-> Z.

#[global] Program Instance SVGA3dStretchBltMode_enum : CEnum SVGA3dStretchBltMode :=
  {| cval := SVGA3dStretchBltMode_val;
     cvalues := [
       SVGA3D_STRETCH_BLT_POINT; SVGA3D_STRETCH_BLT_LINEAR; SVGA3D_STRETCH_BLT_MAX] |}.
Solve Obligations with cenum_tac.

(** Query types. *)
Inductive SVGA3dQueryType : Set :=
  | SVGA3D_QUERYTYPE_OCCLUSION | SVGA3D_QUERYTYPE_MAX.

Definition SVGA3dQueryType_val (x : SVGA3dQueryType) : Z :=
  match x with
  | SVGA3D_QUERYTYPE_OCCLUSION => 0 | SVGA3D_QUERYTYPE_MAX => 1
  end.
Coercion SVGA3dQueryType_val : SVGA3dQueryType >-> Z.

#[global] Program Instance SVGA3dQueryType_enum : CEnum SVGA3dQueryType :=
  {| cval := SVGA3dQueryType_val;
     cvalues := [
       SVGA3D_QUERYTYPE_OCCLUSION; SVGA3D_QUERYTYPE_MAX] |}.
Solve Obligations with cenum_tac.

(** States of a query. *)
Inductive SVGA3dQueryState : Set :=
  | SVGA3D_QUERYSTATE_PENDING | SVGA3D_QUERYSTATE_SUCCEEDED | SVGA3D_QUERYSTATE_FAILED
  | SVGA3D_QUERYSTATE_NEW.

Definition SVGA3dQueryState_val (x : SVGA3dQueryState) : Z :=
  match x with
  | SVGA3D_QUERYSTATE_PENDING => 0 | SVGA3D_QUERYSTATE_SUCCEEDED => 1
  | SVGA3D_QUERYSTATE_FAILED => 2 | SVGA3D_QUERYSTATE_NEW => 3
  end.
Coercion SVGA3dQueryState_val : SVGA3dQueryState >-> Z.

#[global] Program Instance SVGA3dQueryState_enum : CEnum SVGA3dQueryState :=
  {| cval := SVGA3dQueryState_val;
     cvalues := [
       SVGA3D_QUERYSTATE_PENDING; SVGA3D_QUERYSTATE_SUCCEEDED;
       SVGA3D_QUERYSTATE_FAILED; SVGA3D_QUERYSTATE_NEW] |}.
Solve Obligations with cenum_tac.

(** Directions of a DMA transfer. *)
Inductive SVGA3dTransferType : Set :=
  | SVGA3D_WRITE_HOST_VRAM | SVGA3D_READ_HOST_VRAM.

Definition SVGA3dTransferType_val (x : SVGA3dTransferType) : Z :=
  match x with
  | SVGA3D_WRITE_HOST_VRAM => 1 | SVGA3D_READ_HOST_VRAM => 2
  end.
Coercion SVGA3dTransferType_val : SVGA3dTransferType >-> Z.

#[global] Program Instance SVGA3dTransferType_enum : CEnum SVGA3dTransferType :=
  {| cval := SVGA3dTransferType_val;
     cvalues := [
       SVGA3D_WRITE_HOST_VRAM; SVGA3D_READ_HOST_VRAM] |}.
Solve Obligations with cenum_tac.

(** Surface flags. *)
Inductive SVGA3dSurfaceFlags : Set :=
  | SVGA3D_SURFACE_CUBEMAP | SVGA3D_SURFACE_HINT_STATIC | SVGA3D_SURFACE_HINT_DYNAMIC
  | SVGA3D_SURFACE_HINT_INDEXBUFFER | SVGA3D_SURFACE_HINT_VERTEXBUFFER
  | SVGA3D_SURFACE_HINT_TEXTURE | SVGA3D_SURFACE_HINT_RENDERTARGET
  | SVGA3D_SURFACE_HINT_DEPTHSTENCIL | SVGA3D_SURFACE_HINT_WRITEONLY
  | SVGA3D_SURFACE_MASKABLE_ANTIALIAS | SVGA3D_SURFACE_AUTOGENMIPMAPS.

Definition SVGA3dSurfaceFlags_val (x : SVGA3dSurfaceFlags) : Z :=
  match x with
  | SVGA3D_SURFACE_CUBEMAP => 1 | SVGA3D_SURFACE_HINT_STATIC => 2
  | SVGA3D_SURFACE_HINT_DYNAMIC => 4 | SVGA3D_SURFACE_HINT_INDEXBUFFER => 8
  | SVGA3D_SURFACE_HINT_VERTEXBUFFER => 16 | SVGA3D_SURFACE_HINT_TEXTURE => 32
  | SVGA3D_SURFACE_HINT_RENDERTARGET => 64 | SVGA3D_SURFACE_HINT_DEPTHSTENCIL => 128
  | SVGA3D_SURFACE_HINT_WRITEONLY => 256 | SVGA3D_SURFACE_MASKABLE_ANTIALIAS => 512
  | SVGA3D_SURFACE_AUTOGENMIPMAPS => 1024
  end.
Coercion SVGA3dSurfaceFlags_val : SVGA3dSurfaceFlags >-> Z.

#[global] Program Instance SVGA3dSurfaceFlags_enum : CEnum SVGA3dSurfaceFlags :=
  {| cval := SVGA3dSurfaceFlags_val;
     cvalues := [
       SVGA3D_SURFACE_CUBEMAP; SVGA3D_SURFACE_HINT_STATIC; SVGA3D_SURFACE_HINT_DYNAMIC;
       SVGA3D_SURFACE_HINT_INDEXBUFFER; SVGA3D_SURFACE_HINT_VERTEXBUFFER;
       SVGA3D_SURFACE_HINT_TEXTURE; SVGA3D_SURFACE_HINT_RENDERTARGET;
       SVGA3D_SURFACE_HINT_DEPTHSTENCIL; SVGA3D_SURFACE_HINT_WRITEONLY;
       SVGA3D_SURFACE_MASKABLE_ANTIALIAS; SVGA3D_SURFACE_AUTOGENMIPMAPS] |}.
Solve Obligations with cenum_tac.

(** The 3D command numbers. *)
Inductive SVGA3dCmdId : Set :=
  | SVGA_3D_CMD_SURFACE_DEFINE | SVGA_3D_CMD_SURFACE_DESTROY | SVGA_3D_CMD_SURFACE_COPY
  | SVGA_3D_CMD_SURFACE_STRETCHBLT | SVGA_3D_CMD_SURFACE_DMA
  | SVGA_3D_CMD_CONTEXT_DEFINE | SVGA_3D_CMD_CONTEXT_DESTROY | SVGA_3D_CMD_SETTRANSFORM
  | SVGA_3D_CMD_SETZRANGE | SVGA_3D_CMD_SETRENDERSTATE | SVGA_3D_CMD_SETRENDERTARGET
  | SVGA_3D_CMD_SETTEXTURESTATE | SVGA_3D_CMD_SETMATERIAL | SVGA_3D_CMD_SETLIGHTDATA
  | SVGA_3D_CMD_SETLIGHTENABLED | SVGA_3D_CMD_SETVIEWPORT | SVGA_3D_CMD_SETCLIPPLANE
  | SVGA_3D_CMD_CLEAR | SVGA_3D_CMD_PRESENT | SVGA_3D_CMD_SHADER_DEFINE
  | SVGA_3D_CMD_SHADER_DESTROY | SVGA_3D_CMD_SET_SHADER | SVGA_3D_CMD_SET_SHADER_CONST
  | SVGA_3D_CMD_DRAW_PRIMITIVES | SVGA_3D_CMD_SETSCISSORRECT | SVGA_3D_CMD_BEGIN_QUERY
  | SVGA_3D_CMD_END_QUERY | SVGA_3D_CMD_WAIT_FOR_QUERY | SVGA_3D_CMD_PRESENT_READBACK
  | SVGA_3D_CMD_BLIT_SURFACE_TO_SCREEN | SVGA_3D_CMD_SURFACE_DEFINE_V2
  | SVGA_3D_CMD_GENERATE_MIPMAPS | SVGA_3D_CMD_ACTIVATE_SURFACE
  | SVGA_3D_CMD_DEACTIVATE_SURFACE | SVGA_3D_CMD_MAX.

Definition SVGA3dCmdId_val (x : SVGA3dCmdId) : Z :=
  match x with
  | SVGA_3D_CMD_SURFACE_DEFINE => 1040 | SVGA_3D_CMD_SURFACE_DESTROY => 1041
  | SVGA_3D_CMD_SURFACE_COPY => 1042 | SVGA_3D_CMD_SURFACE_STRETCHBLT => 1043
  | SVGA_3D_CMD_SURFACE_DMA => 1044 | SVGA_3D_CMD_CONTEXT_DEFINE => 1045
  | SVGA_3D_CMD_CONTEXT_DESTROY => 1046 | SVGA_3D_CMD_SETTRANSFORM => 1047
  | SVGA_3D_CMD_SETZRANGE => 1048 | SVGA_3D_CMD_SETRENDERSTATE => 1049
  | SVGA_3D_CMD_SETRENDERTARGET => 1050 | SVGA_3D_CMD_SETTEXTURESTATE => 1051
  | SVGA_3D_CMD_SETMATERIAL => 1052 | SVGA_3D_CMD_SETLIGHTDATA => 1053
  | SVGA_3D_CMD_SETLIGHTENABLED => 1054 | SVGA_3D_CMD_SETVIEWPORT => 1055
  | SVGA_3D_CMD_SETCLIPPLANE => 1056 | SVGA_3D_CMD_CLEAR => 1057
  | SVGA_3D_CMD_PRESENT => 1058 | SVGA_3D_CMD_SHADER_DEFINE => 1059
  | SVGA_3D_CMD_SHADER_DESTROY => 1060 | SVGA_3D_CMD_SET_SHADER => 1061
  | SVGA_3D_CMD_SET_SHADER_CONST => 1062 | SVGA_3D_CMD_DRAW_PRIMITIVES => 1063
  | SVGA_3D_CMD_SETSCISSORRECT => 1064 | SVGA_3D_CMD_BEGIN_QUERY => 1065
  | SVGA_3D_CMD_END_QUERY => 1066 | SVGA_3D_CMD_WAIT_FOR_QUERY => 1067
  | SVGA_3D_CMD_PRESENT_READBACK => 1068 | SVGA_3D_CMD_BLIT_SURFACE_TO_SCREEN => 1069
  | SVGA_3D_CMD_SURFACE_DEFINE_V2 => 1070 | SVGA_3D_CMD_GENERATE_MIPMAPS => 1071
  | SVGA_3D_CMD_ACTIVATE_SURFACE => 1080 | SVGA_3D_CMD_DEACTIVATE_SURFACE => 1081
  | SVGA_3D_CMD_MAX => 1082
  end.
Coercion SVGA3dCmdId_val : SVGA3dCmdId >-> Z.

#[global] Program Instance SVGA3dCmdId_enum : CEnum SVGA3dCmdId :=
  {| cval := SVGA3dCmdId_val;
     cvalues := [
       SVGA_3D_CMD_SURFACE_DEFINE; SVGA_3D_CMD_SURFACE_DESTROY;
       SVGA_3D_CMD_SURFACE_COPY; SVGA_3D_CMD_SURFACE_STRETCHBLT;
       SVGA_3D_CMD_SURFACE_DMA; SVGA_3D_CMD_CONTEXT_DEFINE;
       SVGA_3D_CMD_CONTEXT_DESTROY; SVGA_3D_CMD_SETTRANSFORM; SVGA_3D_CMD_SETZRANGE;
       SVGA_3D_CMD_SETRENDERSTATE; SVGA_3D_CMD_SETRENDERTARGET;
       SVGA_3D_CMD_SETTEXTURESTATE; SVGA_3D_CMD_SETMATERIAL; SVGA_3D_CMD_SETLIGHTDATA;
       SVGA_3D_CMD_SETLIGHTENABLED; SVGA_3D_CMD_SETVIEWPORT; SVGA_3D_CMD_SETCLIPPLANE;
       SVGA_3D_CMD_CLEAR; SVGA_3D_CMD_PRESENT; SVGA_3D_CMD_SHADER_DEFINE;
       SVGA_3D_CMD_SHADER_DESTROY; SVGA_3D_CMD_SET_SHADER;
       SVGA_3D_CMD_SET_SHADER_CONST; SVGA_3D_CMD_DRAW_PRIMITIVES;
       SVGA_3D_CMD_SETSCISSORRECT; SVGA_3D_CMD_BEGIN_QUERY; SVGA_3D_CMD_END_QUERY;
       SVGA_3D_CMD_WAIT_FOR_QUERY; SVGA_3D_CMD_PRESENT_READBACK;
       SVGA_3D_CMD_BLIT_SURFACE_TO_SCREEN; SVGA_3D_CMD_SURFACE_DEFINE_V2;
       SVGA_3D_CMD_GENERATE_MIPMAPS; SVGA_3D_CMD_ACTIVATE_SURFACE;
       SVGA_3D_CMD_DEACTIVATE_SURFACE; SVGA_3D_CMD_MAX] |}.
Solve Obligations with cenum_tac.

Definition SVGA3D_MAX_SURFACE_FACES : Z := 6.
Definition SVGA3D_MAX_CONTEXT_IDS : Z := 256.
Definition SVGA3D_MAX_SURFACE_IDS : Z := 32 * 1024.
Definition SVGA3D_MAX_VERTEX_ARRAYS : Z := 32.
Definition SVGA3D_MAX_DRAW_PRIMITIVE_RANGES : Z := 32.
Definition SVGA3D_INVALID_ID : Z := u32 (-1).

(** The version number of a major and a minor revision, and its parts. *)
Definition SVGA3D_MAKE_HWVERSION (major minor : Z) : Z := Z.lor (Z.shiftl major 16) (Z.land minor 0xFF).
Definition SVGA3D_MAJOR_HWVERSION (version : Z) : Z := Z.shiftr version 16.
Definition SVGA3D_MINOR_HWVERSION (version : Z) : Z := Z.land version 0xFF.

(** ** Packed words *)

(** The operations of a format as bits; bit [i] is flag [2 ^ i] of [SVGA3dFormatOp]. *)
Record SVGA3dSurfaceFormatCaps := mk_SVGA3dSurfaceFormatCaps {
  SVGA3dSurfaceFormatCaps_texture : Z;   (** 1 bit *)
  SVGA3dSurfaceFormatCaps_volumeTexture : Z;   (** 1 bit *)
  SVGA3dSurfaceFormatCaps_cubeTexture : Z;   (** 1 bit *)
  SVGA3dSurfaceFormatCaps_offscreenRenderTarget : Z;   (** 1 bit *)
  SVGA3dSurfaceFormatCaps_sameFormatRenderTarget : Z;   (** 1 bit *)
  SVGA3dSurfaceFormatCaps_unknown1 : Z;   (** 1 bit *)
  SVGA3dSurfaceFormatCaps_zStencil : Z;   (** 1 bit *)
  SVGA3dSurfaceFormatCaps_zStencilArbitraryDepth : Z;   (** 1 bit *)
  SVGA3dSurfaceFormatCaps_sameFormatUpToAlpha : Z;   (** 1 bit *)
  SVGA3dSurfaceFormatCaps_unknown2 : Z;   (** 1 bit *)
  SVGA3dSurfaceFormatCaps_displayMode : Z;   (** 1 bit *)
  SVGA3dSurfaceFormatCaps_acceleration3d : Z;   (** 1 bit *)
  SVGA3dSurfaceFormatCaps_pixelSize : Z;   (** 1 bit *)
  SVGA3dSurfaceFormatCaps_convertToARGB : Z;   (** 1 bit *)
  SVGA3dSurfaceFormatCaps_offscreenPlain : Z;   (** 1 bit *)
  SVGA3dSurfaceFormatCaps_sRGBRead : Z;   (** 1 bit *)
  SVGA3dSurfaceFormatCaps_bumpMap : Z;   (** 1 bit *)
  SVGA3dSurfaceFormatCaps_dmap : Z;   (** 1 bit *)
  SVGA3dSurfaceFormatCaps_noFilter : Z;   (** 1 bit *)
  SVGA3dSurfaceFormatCaps_memberOfGroupARGB : Z;   (** 1 bit *)
  SVGA3dSurfaceFormatCaps_sRGBWrite : Z;   (** 1 bit *)
  SVGA3dSurfaceFormatCaps_noAlphaBlend : Z;   (** 1 bit *)
  SVGA3dSurfaceFormatCaps_autoGenMipMap : Z;   (** 1 bit *)
  SVGA3dSurfaceFormatCaps_vertexTexture : Z;   (** 1 bit *)
  SVGA3dSurfaceFormatCaps_noTexCoordWrapNorMip : Z;   (** 1 bit *)
}.

#[global] Program Instance SVGA3dSurfaceFormatCaps_bits : CBits SVGA3dSurfaceFormatCaps := {|
  widths := [1; 1; 1; 1; 1; 1; 1; 1; 1; 1; 1; 1; 1; 1; 1; 1; 1; 1; 1; 1; 1; 1; 1; 1; 1];
  to_fields r :=
    [r.(SVGA3dSurfaceFormatCaps_texture); r.(SVGA3dSurfaceFormatCaps_volumeTexture);
    r.(SVGA3dSurfaceFormatCaps_cubeTexture);
    r.(SVGA3dSurfaceFormatCaps_offscreenRenderTarget);
    r.(SVGA3dSurfaceFormatCaps_sameFormatRenderTarget);
    r.(SVGA3dSurfaceFormatCaps_unknown1); r.(SVGA3dSurfaceFormatCaps_zStencil);
    r.(SVGA3dSurfaceFormatCaps_zStencilArbitraryDepth);
    r.(SVGA3dSurfaceFormatCaps_sameFormatUpToAlpha); r.(SVGA3dSurfaceFormatCaps_unknown2);
    r.(SVGA3dSurfaceFormatCaps_displayMode); r.(SVGA3dSurfaceFormatCaps_acceleration3d);
    r.(SVGA3dSurfaceFormatCaps_pixelSize); r.(SVGA3dSurfaceFormatCaps_convertToARGB);
    r.(SVGA3dSurfaceFormatCaps_offscreenPlain); r.(SVGA3dSurfaceFormatCaps_sRGBRead);
    r.(SVGA3dSurfaceFormatCaps_bumpMap); r.(SVGA3dSurfaceFormatCaps_dmap);
    r.(SVGA3dSurfaceFormatCaps_noFilter); r.(SVGA3dSurfaceFormatCaps_memberOfGroupARGB);
    r.(SVGA3dSurfaceFormatCaps_sRGBWrite); r.(SVGA3dSurfaceFormatCaps_noAlphaBlend);
    r.(SVGA3dSurfaceFormatCaps_autoGenMipMap); r.(SVGA3dSurfaceFormatCaps_vertexTexture);
    r.(SVGA3dSurfaceFormatCaps_noTexCoordWrapNorMip)];
  of_fields l :=
    match l with
    | [texture_; volumeTexture_; cubeTexture_; offscreenRenderTarget_;
    sameFormatRenderTarget_; unknown1_; zStencil_; zStencilArbitraryDepth_;
    sameFormatUpToAlpha_; unknown2_; displayMode_; acceleration3d_; pixelSize_;
    convertToARGB_; offscreenPlain_; sRGBRead_; bumpMap_; dmap_; noFilter_;
    memberOfGroupARGB_; sRGBWrite_; noAlphaBlend_; autoGenMipMap_; vertexTexture_;
    noTexCoordWrapNorMip_] =>
        Some (mk_SVGA3dSurfaceFormatCaps texture_ volumeTexture_ cubeTexture_
        offscreenRenderTarget_ sameFormatRenderTarget_ unknown1_ zStencil_
        zStencilArbitraryDepth_ sameFormatUpToAlpha_ unknown2_ displayMode_ acceleration3d_
        pixelSize_ convertToARGB_ offscreenPlain_ sRGBRead_ bumpMap_ dmap_ noFilter_
        memberOfGroupARGB_ sRGBWrite_ noAlphaBlend_ autoGenMipMap_ vertexTexture_
        noTexCoordWrapNorMip_)
    | _ => None
    end |}.
Solve Obligations with cbits_tac.

(** Fill mode and face. *)
Record SVGA3dFillMode := mk_SVGA3dFillMode {
  SVGA3dFillMode_mode : Z;   (** 16 bits *)
  SVGA3dFillMode_face : Z;   (** 16 bits *)
}.

#[global] Program Instance SVGA3dFillMode_bits : CBits SVGA3dFillMode := {|
  widths := [16; 16];
  to_fields r :=
    [r.(SVGA3dFillMode_mode); r.(SVGA3dFillMode_face)];
  of_fields l :=
    match l with
    | [mode_; face_] =>
        Some (mk_SVGA3dFillMode mode_ face_)
    | _ => None
    end |}.
Solve Obligations with cbits_tac.

(** Line stipple. *)
Record SVGA3dLinePattern := mk_SVGA3dLinePattern {
  SVGA3dLinePattern_repeat : Z;   (** 16 bits *)
  SVGA3dLinePattern_pattern : Z;   (** 16 bits *)
}.

#[global] Program Instance SVGA3dLinePattern_bits : CBits SVGA3dLinePattern := {|
  widths := [16; 16];
  to_fields r :=
    [r.(SVGA3dLinePattern_repeat); r.(SVGA3dLinePattern_pattern)];
  of_fields l :=
    match l with
    | [repeat_; pattern_] =>
        Some (mk_SVGA3dLinePattern repeat_ pattern_)
    | _ => None
    end |}.
Solve Obligations with cbits_tac.

(** Colour write mask. *)
Record SVGA3dColorMask := mk_SVGA3dColorMask {
  SVGA3dColorMask_red : Z;   (** 1 bit *)
  SVGA3dColorMask_green : Z;   (** 1 bit *)
  SVGA3dColorMask_blue : Z;   (** 1 bit *)
  SVGA3dColorMask_alpha : Z;   (** 1 bit *)
}.

#[global] Program Instance SVGA3dColorMask_bits : CBits SVGA3dColorMask := {|
  widths := [1; 1; 1; 1];
  to_fields r :=
    [r.(SVGA3dColorMask_red); r.(SVGA3dColorMask_green); r.(SVGA3dColorMask_blue);
    r.(SVGA3dColorMask_alpha)];
  of_fields l :=
    match l with
    | [red_; green_; blue_; alpha_] =>
        Some (mk_SVGA3dColorMask red_ green_ blue_ alpha_)
    | _ => None
    end |}.
Solve Obligations with cbits_tac.

(** Instancing divisor of a vertex array. *)
Record SVGA3dVertexDivisor := mk_SVGA3dVertexDivisor {
  SVGA3dVertexDivisor_count : Z;   (** 30 bits *)
  SVGA3dVertexDivisor_indexedData : Z;   (** 1 bit *)
  SVGA3dVertexDivisor_instanceData : Z;   (** 1 bit *)
}.

#[global] Program Instance SVGA3dVertexDivisor_bits : CBits SVGA3dVertexDivisor := {|
  widths := [30; 1; 1];
  to_fields r :=
    [r.(SVGA3dVertexDivisor_count); r.(SVGA3dVertexDivisor_indexedData);
    r.(SVGA3dVertexDivisor_instanceData)];
  of_fields l :=
    match l with
    | [count_; indexedData_; instanceData_] =>
        Some (mk_SVGA3dVertexDivisor count_ indexedData_ instanceData_)
    | _ => None
    end |}.
Solve Obligations with cbits_tac.

(** Fog function, type and base. *)
Record SVGA3dFogMode := mk_SVGA3dFogMode {
  SVGA3dFogMode_function : Z;   (** 16 bits *)
  SVGA3dFogMode_type : Z;   (** 8 bits *)
  SVGA3dFogMode_base : Z;   (** 8 bits *)
}.

#[global] Program Instance SVGA3dFogMode_bits : CBits SVGA3dFogMode := {|
  widths := [16; 8; 8];
  to_fields r :=
    [r.(SVGA3dFogMode_function); r.(SVGA3dFogMode_type); r.(SVGA3dFogMode_base)];
  of_fields l :=
    match l with
    | [function_; type_; base_] =>
        Some (mk_SVGA3dFogMode function_ type_ base_)
    | _ => None
    end |}.
Solve Obligations with cbits_tac.

(** Hints of a DMA transfer. *)
Record SVGA3dSurfaceDMAFlags := mk_SVGA3dSurfaceDMAFlags {
  SVGA3dSurfaceDMAFlags_discard : Z;   (** 1 bit *)
  SVGA3dSurfaceDMAFlags_unsynchronized : Z;   (** 1 bit *)
  SVGA3dSurfaceDMAFlags_reserved : Z;   (** 30 bits *)
}.

#[global] Program Instance SVGA3dSurfaceDMAFlags_bits : CBits SVGA3dSurfaceDMAFlags := {|
  widths := [1; 1; 30];
  to_fields r :=
    [r.(SVGA3dSurfaceDMAFlags_discard); r.(SVGA3dSurfaceDMAFlags_unsynchronized);
    r.(SVGA3dSurfaceDMAFlags_reserved)];
  of_fields l :=
    match l with
    | [discard_; unsynchronized_; reserved_] =>
        Some (mk_SVGA3dSurfaceDMAFlags discard_ unsynchronized_ reserved_)
    | _ => None
    end |}.
Solve Obligations with cbits_tac.

(** ** Structures *)

(** One image of a surface. *)
Record SVGA3dSurfaceImageId := mk_SVGA3dSurfaceImageId {
  SVGA3dSurfaceImageId_sid : Z;
  SVGA3dSurfaceImageId_face : Z;
  SVGA3dSurfaceImageId_mipmap : Z;
}.

#[global] Instance SVGA3dSurfaceImageId_c : CStruct SVGA3dSurfaceImageId :=
  struct{ word_c ⊗ word_c ⊗ word_c
  | fun r =>
      (r.(SVGA3dSurfaceImageId_sid), (r.(SVGA3dSurfaceImageId_face),
      r.(SVGA3dSurfaceImageId_mipmap)))
  | fun '(sid_, (face_, mipmap_)) =>
      mk_SVGA3dSurfaceImageId sid_ face_ mipmap_ }.

(** An image in guest memory. *)
Record SVGA3dGuestImage := mk_SVGA3dGuestImage {
  SVGA3dGuestImage_ptr : SVGAGuestPtr;
  SVGA3dGuestImage_pitch : Z;
}.

#[global] Instance SVGA3dGuestImage_c : CStruct SVGA3dGuestImage :=
  struct{ SVGAGuestPtr_c ⊗ word_c
  | fun r =>
      (r.(SVGA3dGuestImage_ptr), r.(SVGA3dGuestImage_pitch))
  | fun '(ptr_, pitch_) =>
      mk_SVGA3dGuestImage ptr_ pitch_ }.

(** The header of every 3D command. *)
Record SVGA3dCmdHeader := mk_SVGA3dCmdHeader {
  SVGA3dCmdHeader_id : Z;
  SVGA3dCmdHeader_size : Z;
}.

#[global] Instance SVGA3dCmdHeader_c : CStruct SVGA3dCmdHeader :=
  struct{ word_c ⊗ word_c
  | fun r =>
      (r.(SVGA3dCmdHeader_id), r.(SVGA3dCmdHeader_size))
  | fun '(id_, size_) =>
      mk_SVGA3dCmdHeader id_ size_ }.

(** Size of an image. *)
Record SVGA3dSize := mk_SVGA3dSize {
  SVGA3dSize_width : Z;
  SVGA3dSize_height : Z;
  SVGA3dSize_depth : Z;
}.

#[global] Instance SVGA3dSize_c : CStruct SVGA3dSize :=
  struct{ word_c ⊗ word_c ⊗ word_c
  | fun r =>
      (r.(SVGA3dSize_width), (r.(SVGA3dSize_height), r.(SVGA3dSize_depth)))
  | fun '(width_, (height_, depth_)) =>
      mk_SVGA3dSize width_ height_ depth_ }.

(** Number of mip levels of a face. *)
Record SVGA3dSurfaceFace := mk_SVGA3dSurfaceFace {
  SVGA3dSurfaceFace_numMipLevels : Z;
}.

#[global] Instance SVGA3dSurfaceFace_c : CStruct SVGA3dSurfaceFace :=
  struct{ word_c
  | fun r =>
      r.(SVGA3dSurfaceFace_numMipLevels)
  | fun numMipLevels_ =>
      mk_SVGA3dSurfaceFace numMipLevels_ }.

(** Define a surface; a size per mip level follows. *)
Record SVGA3dCmdDefineSurface := mk_SVGA3dCmdDefineSurface {
  SVGA3dCmdDefineSurface_sid : Z;
  SVGA3dCmdDefineSurface_surfaceFlags : Z;
  SVGA3dCmdDefineSurface_format : Z;
  SVGA3dCmdDefineSurface_face : list SVGA3dSurfaceFace;
}.

#[global] Instance SVGA3dCmdDefineSurface_c : CStruct SVGA3dCmdDefineSurface :=
  struct{ word_c ⊗ word_c ⊗ word_c ⊗ SVGA3dSurfaceFace_c ^ 6
  | fun r =>
      (r.(SVGA3dCmdDefineSurface_sid), (r.(SVGA3dCmdDefineSurface_surfaceFlags),
      (r.(SVGA3dCmdDefineSurface_format), r.(SVGA3dCmdDefineSurface_face))))
  | fun '(sid_, (surfaceFlags_, (format_, face_))) =>
      mk_SVGA3dCmdDefineSurface sid_ surfaceFlags_ format_ face_ }.

(** Define a surface, version 2. *)
Record SVGA3dCmdDefineSurface_v2 := mk_SVGA3dCmdDefineSurface_v2 {
  SVGA3dCmdDefineSurface_v2_sid : Z;
  SVGA3dCmdDefineSurface_v2_surfaceFlags : Z;
  SVGA3dCmdDefineSurface_v2_format : Z;
  SVGA3dCmdDefineSurface_v2_face : list SVGA3dSurfaceFace;
  SVGA3dCmdDefineSurface_v2_multisampleCount : Z;
  SVGA3dCmdDefineSurface_v2_autogenFilter : Z;
}.

#[global] Instance SVGA3dCmdDefineSurface_v2_c : CStruct SVGA3dCmdDefineSurface_v2 :=
  struct{ word_c ⊗ word_c ⊗ word_c ⊗ SVGA3dSurfaceFace_c ^ 6 ⊗ word_c ⊗ word_c
  | fun r =>
      (r.(SVGA3dCmdDefineSurface_v2_sid), (r.(SVGA3dCmdDefineSurface_v2_surfaceFlags),
      (r.(SVGA3dCmdDefineSurface_v2_format), (r.(SVGA3dCmdDefineSurface_v2_face),
      (r.(SVGA3dCmdDefineSurface_v2_multisampleCount),
      r.(SVGA3dCmdDefineSurface_v2_autogenFilter))))))
  | fun '(sid_, (surfaceFlags_, (format_, (face_, (multisampleCount_, autogenFilter_))))) =>
      mk_SVGA3dCmdDefineSurface_v2 sid_ surfaceFlags_ format_ face_ multisampleCount_
      autogenFilter_ }.

(** Destroy a surface. *)
Record SVGA3dCmdDestroySurface := mk_SVGA3dCmdDestroySurface {
  SVGA3dCmdDestroySurface_sid : Z;
}.

#[global] Instance SVGA3dCmdDestroySurface_c : CStruct SVGA3dCmdDestroySurface :=
  struct{ word_c
  | fun r =>
      r.(SVGA3dCmdDestroySurface_sid)
  | fun sid_ =>
      mk_SVGA3dCmdDestroySurface sid_ }.

(** Define a context. *)
Record SVGA3dCmdDefineContext := mk_SVGA3dCmdDefineContext {
  SVGA3dCmdDefineContext_cid : Z;
}.

#[global] Instance SVGA3dCmdDefineContext_c : CStruct SVGA3dCmdDefineContext :=
  struct{ word_c
  | fun r =>
      r.(SVGA3dCmdDefineContext_cid)
  | fun cid_ =>
      mk_SVGA3dCmdDefineContext cid_ }.

(** Destroy a context. *)
Record SVGA3dCmdDestroyContext := mk_SVGA3dCmdDestroyContext {
  SVGA3dCmdDestroyContext_cid : Z;
}.

#[global] Instance SVGA3dCmdDestroyContext_c : CStruct SVGA3dCmdDestroyContext :=
  struct{ word_c
  | fun r =>
      r.(SVGA3dCmdDestroyContext_cid)
  | fun cid_ =>
      mk_SVGA3dCmdDestroyContext cid_ }.

(** Clear; rectangles follow. *)
Record SVGA3dCmdClear := mk_SVGA3dCmdClear {
  SVGA3dCmdClear_cid : Z;
  SVGA3dCmdClear_clearFlag : Z;
  SVGA3dCmdClear_color : Z;
  SVGA3dCmdClear_depth : Z;
  SVGA3dCmdClear_stencil : Z;
}.

#[global] Instance SVGA3dCmdClear_c : CStruct SVGA3dCmdClear :=
  struct{ word_c ⊗ word_c ⊗ word_c ⊗ word_c ⊗ word_c
  | fun r =>
      (r.(SVGA3dCmdClear_cid), (r.(SVGA3dCmdClear_clearFlag), (r.(SVGA3dCmdClear_color),
      (r.(SVGA3dCmdClear_depth), r.(SVGA3dCmdClear_stencil)))))
  | fun '(cid_, (clearFlag_, (color_, (depth_, stencil_)))) =>
      mk_SVGA3dCmdClear cid_ clearFlag_ color_ depth_ stencil_ }.

(** A rectangle and its source. *)
Record SVGA3dCopyRect := mk_SVGA3dCopyRect {
  SVGA3dCopyRect_x : Z;
  SVGA3dCopyRect_y : Z;
  SVGA3dCopyRect_w : Z;
  SVGA3dCopyRect_h : Z;
  SVGA3dCopyRect_srcx : Z;
  SVGA3dCopyRect_srcy : Z;
}.

#[global] Instance SVGA3dCopyRect_c : CStruct SVGA3dCopyRect :=
  struct{ word_c ⊗ word_c ⊗ word_c ⊗ word_c ⊗ word_c ⊗ word_c
  | fun r =>
      (r.(SVGA3dCopyRect_x), (r.(SVGA3dCopyRect_y), (r.(SVGA3dCopyRect_w),
      (r.(SVGA3dCopyRect_h), (r.(SVGA3dCopyRect_srcx), r.(SVGA3dCopyRect_srcy))))))
  | fun '(x_, (y_, (w_, (h_, (srcx_, srcy_))))) =>
      mk_SVGA3dCopyRect x_ y_ w_ h_ srcx_ srcy_ }.

(** A box and its source. *)
Record SVGA3dCopyBox := mk_SVGA3dCopyBox {
  SVGA3dCopyBox_x : Z;
  SVGA3dCopyBox_y : Z;
  SVGA3dCopyBox_z : Z;
  SVGA3dCopyBox_w : Z;
  SVGA3dCopyBox_h : Z;
  SVGA3dCopyBox_d : Z;
  SVGA3dCopyBox_srcx : Z;
  SVGA3dCopyBox_srcy : Z;
  SVGA3dCopyBox_srcz : Z;
}.

#[global] Instance SVGA3dCopyBox_c : CStruct SVGA3dCopyBox :=
  struct{ word_c ⊗ word_c ⊗ word_c ⊗ word_c ⊗ word_c ⊗ word_c ⊗ word_c ⊗ word_c ⊗ word_c
  | fun r =>
      (r.(SVGA3dCopyBox_x), (r.(SVGA3dCopyBox_y), (r.(SVGA3dCopyBox_z),
      (r.(SVGA3dCopyBox_w), (r.(SVGA3dCopyBox_h), (r.(SVGA3dCopyBox_d),
      (r.(SVGA3dCopyBox_srcx), (r.(SVGA3dCopyBox_srcy), r.(SVGA3dCopyBox_srcz)))))))))
  | fun '(x_, (y_, (z_, (w_, (h_, (d_, (srcx_, (srcy_, srcz_)))))))) =>
      mk_SVGA3dCopyBox x_ y_ z_ w_ h_ d_ srcx_ srcy_ srcz_ }.

(** A rectangle. *)
Record SVGA3dRect := mk_SVGA3dRect {
  SVGA3dRect_x : Z;
  SVGA3dRect_y : Z;
  SVGA3dRect_w : Z;
  SVGA3dRect_h : Z;
}.

#[global] Instance SVGA3dRect_c : CStruct SVGA3dRect :=
  struct{ word_c ⊗ word_c ⊗ word_c ⊗ word_c
  | fun r =>
      (r.(SVGA3dRect_x), (r.(SVGA3dRect_y), (r.(SVGA3dRect_w), r.(SVGA3dRect_h))))
  | fun '(x_, (y_, (w_, h_))) =>
      mk_SVGA3dRect x_ y_ w_ h_ }.

(** A box. *)
Record SVGA3dBox := mk_SVGA3dBox {
  SVGA3dBox_x : Z;
  SVGA3dBox_y : Z;
  SVGA3dBox_z : Z;
  SVGA3dBox_w : Z;
  SVGA3dBox_h : Z;
  SVGA3dBox_d : Z;
}.

#[global] Instance SVGA3dBox_c : CStruct SVGA3dBox :=
  struct{ word_c ⊗ word_c ⊗ word_c ⊗ word_c ⊗ word_c ⊗ word_c
  | fun r =>
      (r.(SVGA3dBox_x), (r.(SVGA3dBox_y), (r.(SVGA3dBox_z), (r.(SVGA3dBox_w),
      (r.(SVGA3dBox_h), r.(SVGA3dBox_d))))))
  | fun '(x_, (y_, (z_, (w_, (h_, d_))))) =>
      mk_SVGA3dBox x_ y_ z_ w_ h_ d_ }.

(** A point. *)
Record SVGA3dPoint := mk_SVGA3dPoint {
  SVGA3dPoint_x : Z;
  SVGA3dPoint_y : Z;
  SVGA3dPoint_z : Z;
}.

#[global] Instance SVGA3dPoint_c : CStruct SVGA3dPoint :=
  struct{ word_c ⊗ word_c ⊗ word_c
  | fun r =>
      (r.(SVGA3dPoint_x), (r.(SVGA3dPoint_y), r.(SVGA3dPoint_z)))
  | fun '(x_, (y_, z_)) =>
      mk_SVGA3dPoint x_ y_ z_ }.

(** A light. *)
Record SVGA3dLightData := mk_SVGA3dLightData {
  SVGA3dLightData_type : Z;
  SVGA3dLightData_inWorldSpace : Z;
  SVGA3dLightData_diffuse : list Z;
  SVGA3dLightData_specular : list Z;
  SVGA3dLightData_ambient : list Z;
  SVGA3dLightData_position : list Z;
  SVGA3dLightData_direction : list Z;
  SVGA3dLightData_range : Z;
  SVGA3dLightData_falloff : Z;
  SVGA3dLightData_attenuation0 : Z;
  SVGA3dLightData_attenuation1 : Z;
  SVGA3dLightData_attenuation2 : Z;
  SVGA3dLightData_theta : Z;
  SVGA3dLightData_phi : Z;
}.

#[global] Instance SVGA3dLightData_c : CStruct SVGA3dLightData :=
  struct{ word_c ⊗ word_c ⊗ word_c ^ 4 ⊗ word_c ^ 4 ⊗ word_c ^ 4 ⊗ word_c ^ 4 ⊗ word_c ^ 4
           ⊗ word_c ⊗ word_c ⊗ word_c ⊗ word_c ⊗ word_c ⊗ word_c ⊗ word_c
  | fun r =>
      (r.(SVGA3dLightData_type), (r.(SVGA3dLightData_inWorldSpace),
      (r.(SVGA3dLightData_diffuse), (r.(SVGA3dLightData_specular),
      (r.(SVGA3dLightData_ambient), (r.(SVGA3dLightData_position),
      (r.(SVGA3dLightData_direction), (r.(SVGA3dLightData_range),
      (r.(SVGA3dLightData_falloff), (r.(SVGA3dLightData_attenuation0),
      (r.(SVGA3dLightData_attenuation1), (r.(SVGA3dLightData_attenuation2),
      (r.(SVGA3dLightData_theta), r.(SVGA3dLightData_phi))))))))))))))
  | fun '(type_, (inWorldSpace_, (diffuse_, (specular_, (ambient_, (position_, (direction_,
      (range_, (falloff_, (attenuation0_, (attenuation1_, (attenuation2_, (theta_,
      phi_))))))))))))) =>
      mk_SVGA3dLightData type_ inWorldSpace_ diffuse_ specular_ ambient_ position_
      direction_ range_ falloff_ attenuation0_ attenuation1_ attenuation2_ theta_ phi_ }.

(** Present a surface; rectangles follow. *)
Record SVGA3dCmdPresent := mk_SVGA3dCmdPresent {
  SVGA3dCmdPresent_sid : Z;
}.

#[global] Instance SVGA3dCmdPresent_c : CStruct SVGA3dCmdPresent :=
  struct{ word_c
  | fun r =>
      r.(SVGA3dCmdPresent_sid)
  | fun sid_ =>
      mk_SVGA3dCmdPresent sid_ }.

(** A render state. *)
Record SVGA3dRenderState := mk_SVGA3dRenderState {
  SVGA3dRenderState_state : Z;
  SVGA3dRenderState_uintValue : Z;
}.

#[global] Instance SVGA3dRenderState_c : CStruct SVGA3dRenderState :=
  struct{ word_c ⊗ word_c
  | fun r =>
      (r.(SVGA3dRenderState_state), r.(SVGA3dRenderState_uintValue))
  | fun '(state_, uintValue_) =>
      mk_SVGA3dRenderState state_ uintValue_ }.

(** Set render states; the states follow. *)
Record SVGA3dCmdSetRenderState := mk_SVGA3dCmdSetRenderState {
  SVGA3dCmdSetRenderState_cid : Z;
}.

#[global] Instance SVGA3dCmdSetRenderState_c : CStruct SVGA3dCmdSetRenderState :=
  struct{ word_c
  | fun r =>
      r.(SVGA3dCmdSetRenderState_cid)
  | fun cid_ =>
      mk_SVGA3dCmdSetRenderState cid_ }.

(** Set a render target. *)
Record SVGA3dCmdSetRenderTarget := mk_SVGA3dCmdSetRenderTarget {
  SVGA3dCmdSetRenderTarget_cid : Z;
  SVGA3dCmdSetRenderTarget_type : Z;
  SVGA3dCmdSetRenderTarget_target : SVGA3dSurfaceImageId;
}.

#[global] Instance SVGA3dCmdSetRenderTarget_c : CStruct SVGA3dCmdSetRenderTarget :=
  struct{ word_c ⊗ word_c ⊗ SVGA3dSurfaceImageId_c
  | fun r =>
      (r.(SVGA3dCmdSetRenderTarget_cid), (r.(SVGA3dCmdSetRenderTarget_type),
      r.(SVGA3dCmdSetRenderTarget_target)))
  | fun '(cid_, (type_, target_)) =>
      mk_SVGA3dCmdSetRenderTarget cid_ type_ target_ }.

(** Copy between surfaces; boxes follow. *)
Record SVGA3dCmdSurfaceCopy := mk_SVGA3dCmdSurfaceCopy {
  SVGA3dCmdSurfaceCopy_src : SVGA3dSurfaceImageId;
  SVGA3dCmdSurfaceCopy_dest : SVGA3dSurfaceImageId;
}.

#[global] Instance SVGA3dCmdSurfaceCopy_c : CStruct SVGA3dCmdSurfaceCopy :=
  struct{ SVGA3dSurfaceImageId_c ⊗ SVGA3dSurfaceImageId_c
  | fun r =>
      (r.(SVGA3dCmdSurfaceCopy_src), r.(SVGA3dCmdSurfaceCopy_dest))
  | fun '(src_, dest_) =>
      mk_SVGA3dCmdSurfaceCopy src_ dest_ }.

(** Stretch between surfaces. *)
Record SVGA3dCmdSurfaceStretchBlt := mk_SVGA3dCmdSurfaceStretchBlt {
  SVGA3dCmdSurfaceStretchBlt_src : SVGA3dSurfaceImageId;
  SVGA3dCmdSurfaceStretchBlt_dest : SVGA3dSurfaceImageId;
  SVGA3dCmdSurfaceStretchBlt_boxSrc : SVGA3dBox;
  SVGA3dCmdSurfaceStretchBlt_boxDest : SVGA3dBox;
  SVGA3dCmdSurfaceStretchBlt_mode : Z;
}.

#[global] Instance SVGA3dCmdSurfaceStretchBlt_c : CStruct SVGA3dCmdSurfaceStretchBlt :=
  struct{ SVGA3dSurfaceImageId_c ⊗ SVGA3dSurfaceImageId_c ⊗ SVGA3dBox_c ⊗ SVGA3dBox_c ⊗
           word_c
  | fun r =>
      (r.(SVGA3dCmdSurfaceStretchBlt_src), (r.(SVGA3dCmdSurfaceStretchBlt_dest),
      (r.(SVGA3dCmdSurfaceStretchBlt_boxSrc), (r.(SVGA3dCmdSurfaceStretchBlt_boxDest),
      r.(SVGA3dCmdSurfaceStretchBlt_mode)))))
  | fun '(src_, (dest_, (boxSrc_, (boxDest_, mode_)))) =>
      mk_SVGA3dCmdSurfaceStretchBlt src_ dest_ boxSrc_ boxDest_ mode_ }.

(** Transfer between guest memory and a surface; boxes follow. *)
Record SVGA3dCmdSurfaceDMA := mk_SVGA3dCmdSurfaceDMA {
  SVGA3dCmdSurfaceDMA_guest : SVGA3dGuestImage;
  SVGA3dCmdSurfaceDMA_host : SVGA3dSurfaceImageId;
  SVGA3dCmdSurfaceDMA_transfer : Z;
}.

#[global] Instance SVGA3dCmdSurfaceDMA_c : CStruct SVGA3dCmdSurfaceDMA :=
  struct{ SVGA3dGuestImage_c ⊗ SVGA3dSurfaceImageId_c ⊗ word_c
  | fun r =>
      (r.(SVGA3dCmdSurfaceDMA_guest), (r.(SVGA3dCmdSurfaceDMA_host),
      r.(SVGA3dCmdSurfaceDMA_transfer)))
  | fun '(guest_, (host_, transfer_)) =>
      mk_SVGA3dCmdSurfaceDMA guest_ host_ transfer_ }.

(** The suffix of a transfer. *)
Record SVGA3dCmdSurfaceDMASuffix := mk_SVGA3dCmdSurfaceDMASuffix {
  SVGA3dCmdSurfaceDMASuffix_suffixSize : Z;
  SVGA3dCmdSurfaceDMASuffix_maximumOffset : Z;
  SVGA3dCmdSurfaceDMASuffix_flags : Z;
}.

#[global] Instance SVGA3dCmdSurfaceDMASuffix_c : CStruct SVGA3dCmdSurfaceDMASuffix :=
  struct{ word_c ⊗ word_c ⊗ word_c
  | fun r =>
      (r.(SVGA3dCmdSurfaceDMASuffix_suffixSize),
      (r.(SVGA3dCmdSurfaceDMASuffix_maximumOffset), r.(SVGA3dCmdSurfaceDMASuffix_flags)))
  | fun '(suffixSize_, (maximumOffset_, flags_)) =>
      mk_SVGA3dCmdSurfaceDMASuffix suffixSize_ maximumOffset_ flags_ }.

(** Range of the indices used. *)
Record SVGA3dArrayRangeHint := mk_SVGA3dArrayRangeHint {
  SVGA3dArrayRangeHint_first : Z;
  SVGA3dArrayRangeHint_last : Z;
}.

#[global] Instance SVGA3dArrayRangeHint_c : CStruct SVGA3dArrayRangeHint :=
  struct{ word_c ⊗ word_c
  | fun r =>
      (r.(SVGA3dArrayRangeHint_first), r.(SVGA3dArrayRangeHint_last))
  | fun '(first_, last_) =>
      mk_SVGA3dArrayRangeHint first_ last_ }.

(** A vertex or index array. *)
Record SVGA3dArray := mk_SVGA3dArray {
  SVGA3dArray_surfaceId : Z;
  SVGA3dArray_offset : Z;
  SVGA3dArray_stride : Z;
}.

#[global] Instance SVGA3dArray_c : CStruct SVGA3dArray :=
  struct{ word_c ⊗ word_c ⊗ word_c
  | fun r =>
      (r.(SVGA3dArray_surfaceId), (r.(SVGA3dArray_offset), r.(SVGA3dArray_stride)))
  | fun '(surfaceId_, (offset_, stride_)) =>
      mk_SVGA3dArray surfaceId_ offset_ stride_ }.

(** Type and use of a vertex array. *)
Record SVGA3dVertexArrayIdentity := mk_SVGA3dVertexArrayIdentity {
  SVGA3dVertexArrayIdentity_type : Z;
  SVGA3dVertexArrayIdentity_method : Z;
  SVGA3dVertexArrayIdentity_usage : Z;
  SVGA3dVertexArrayIdentity_usageIndex : Z;
}.

#[global] Instance SVGA3dVertexArrayIdentity_c : CStruct SVGA3dVertexArrayIdentity :=
  struct{ word_c ⊗ word_c ⊗ word_c ⊗ word_c
  | fun r =>
      (r.(SVGA3dVertexArrayIdentity_type), (r.(SVGA3dVertexArrayIdentity_method),
      (r.(SVGA3dVertexArrayIdentity_usage), r.(SVGA3dVertexArrayIdentity_usageIndex))))
  | fun '(type_, (method_, (usage_, usageIndex_))) =>
      mk_SVGA3dVertexArrayIdentity type_ method_ usage_ usageIndex_ }.

(** A vertex array. *)
Record SVGA3dVertexDecl := mk_SVGA3dVertexDecl {
  SVGA3dVertexDecl_identity : SVGA3dVertexArrayIdentity;
  SVGA3dVertexDecl_array : SVGA3dArray;
  SVGA3dVertexDecl_rangeHint : SVGA3dArrayRangeHint;
}.

#[global] Instance SVGA3dVertexDecl_c : CStruct SVGA3dVertexDecl :=
  struct{ SVGA3dVertexArrayIdentity_c ⊗ SVGA3dArray_c ⊗ SVGA3dArrayRangeHint_c
  | fun r =>
      (r.(SVGA3dVertexDecl_identity), (r.(SVGA3dVertexDecl_array),
      r.(SVGA3dVertexDecl_rangeHint)))
  | fun '(identity_, (array_, rangeHint_)) =>
      mk_SVGA3dVertexDecl identity_ array_ rangeHint_ }.

(** A range of primitives. *)
Record SVGA3dPrimitiveRange := mk_SVGA3dPrimitiveRange {
  SVGA3dPrimitiveRange_primType : Z;
  SVGA3dPrimitiveRange_primitiveCount : Z;
  SVGA3dPrimitiveRange_indexArray : SVGA3dArray;
  SVGA3dPrimitiveRange_indexWidth : Z;
  SVGA3dPrimitiveRange_indexBias : Z;
}.

#[global] Instance SVGA3dPrimitiveRange_c : CStruct SVGA3dPrimitiveRange :=
  struct{ word_c ⊗ word_c ⊗ SVGA3dArray_c ⊗ word_c ⊗ sword_c
  | fun r =>
      (r.(SVGA3dPrimitiveRange_primType), (r.(SVGA3dPrimitiveRange_primitiveCount),
      (r.(SVGA3dPrimitiveRange_indexArray), (r.(SVGA3dPrimitiveRange_indexWidth),
      r.(SVGA3dPrimitiveRange_indexBias)))))
  | fun '(primType_, (primitiveCount_, (indexArray_, (indexWidth_, indexBias_)))) =>
      mk_SVGA3dPrimitiveRange primType_ primitiveCount_ indexArray_ indexWidth_ indexBias_ }.

(** Draw; declarations and ranges follow. *)
Record SVGA3dCmdDrawPrimitives := mk_SVGA3dCmdDrawPrimitives {
  SVGA3dCmdDrawPrimitives_cid : Z;
  SVGA3dCmdDrawPrimitives_numVertexDecls : Z;
  SVGA3dCmdDrawPrimitives_numRanges : Z;
}.

#[global] Instance SVGA3dCmdDrawPrimitives_c : CStruct SVGA3dCmdDrawPrimitives :=
  struct{ word_c ⊗ word_c ⊗ word_c
  | fun r =>
      (r.(SVGA3dCmdDrawPrimitives_cid), (r.(SVGA3dCmdDrawPrimitives_numVertexDecls),
      r.(SVGA3dCmdDrawPrimitives_numRanges)))
  | fun '(cid_, (numVertexDecls_, numRanges_)) =>
      mk_SVGA3dCmdDrawPrimitives cid_ numVertexDecls_ numRanges_ }.

(** A texture state. *)
Record SVGA3dTextureState := mk_SVGA3dTextureState {
  SVGA3dTextureState_stage : Z;
  SVGA3dTextureState_name : Z;
  SVGA3dTextureState_value : Z;
}.

#[global] Instance SVGA3dTextureState_c : CStruct SVGA3dTextureState :=
  struct{ word_c ⊗ word_c ⊗ word_c
  | fun r =>
      (r.(SVGA3dTextureState_stage), (r.(SVGA3dTextureState_name),
      r.(SVGA3dTextureState_value)))
  | fun '(stage_, (name_, value_)) =>
      mk_SVGA3dTextureState stage_ name_ value_ }.

(** Set texture states; the states follow. *)
Record SVGA3dCmdSetTextureState := mk_SVGA3dCmdSetTextureState {
  SVGA3dCmdSetTextureState_cid : Z;
}.

#[global] Instance SVGA3dCmdSetTextureState_c : CStruct SVGA3dCmdSetTextureState :=
  struct{ word_c
  | fun r =>
      r.(SVGA3dCmdSetTextureState_cid)
  | fun cid_ =>
      mk_SVGA3dCmdSetTextureState cid_ }.

(** Set a transform. *)
Record SVGA3dCmdSetTransform := mk_SVGA3dCmdSetTransform {
  SVGA3dCmdSetTransform_cid : Z;
  SVGA3dCmdSetTransform_type : Z;
  SVGA3dCmdSetTransform_matrix : list Z;
}.

#[global] Instance SVGA3dCmdSetTransform_c : CStruct SVGA3dCmdSetTransform :=
  struct{ word_c ⊗ word_c ⊗ word_c ^ 16
  | fun r =>
      (r.(SVGA3dCmdSetTransform_cid), (r.(SVGA3dCmdSetTransform_type),
      r.(SVGA3dCmdSetTransform_matrix)))
  | fun '(cid_, (type_, matrix_)) =>
      mk_SVGA3dCmdSetTransform cid_ type_ matrix_ }.

(** Depth range. *)
Record SVGA3dZRange := mk_SVGA3dZRange {
  SVGA3dZRange_min : Z;
  SVGA3dZRange_max : Z;
}.

#[global] Instance SVGA3dZRange_c : CStruct SVGA3dZRange :=
  struct{ word_c ⊗ word_c
  | fun r =>
      (r.(SVGA3dZRange_min), r.(SVGA3dZRange_max))
  | fun '(min_, max_) =>
      mk_SVGA3dZRange min_ max_ }.

(** Set the depth range. *)
Record SVGA3dCmdSetZRange := mk_SVGA3dCmdSetZRange {
  SVGA3dCmdSetZRange_cid : Z;
  SVGA3dCmdSetZRange_zRange : SVGA3dZRange;
}.

#[global] Instance SVGA3dCmdSetZRange_c : CStruct SVGA3dCmdSetZRange :=
  struct{ word_c ⊗ SVGA3dZRange_c
  | fun r =>
      (r.(SVGA3dCmdSetZRange_cid), r.(SVGA3dCmdSetZRange_zRange))
  | fun '(cid_, zRange_) =>
      mk_SVGA3dCmdSetZRange cid_ zRange_ }.

(** A material. *)
Record SVGA3dMaterial := mk_SVGA3dMaterial {
  SVGA3dMaterial_diffuse : list Z;
  SVGA3dMaterial_ambient : list Z;
  SVGA3dMaterial_specular : list Z;
  SVGA3dMaterial_emissive : list Z;
  SVGA3dMaterial_shininess : Z;
}.

#[global] Instance SVGA3dMaterial_c : CStruct SVGA3dMaterial :=
  struct{ word_c ^ 4 ⊗ word_c ^ 4 ⊗ word_c ^ 4 ⊗ word_c ^ 4 ⊗ word_c
  | fun r =>
      (r.(SVGA3dMaterial_diffuse), (r.(SVGA3dMaterial_ambient),
      (r.(SVGA3dMaterial_specular), (r.(SVGA3dMaterial_emissive),
      r.(SVGA3dMaterial_shininess)))))
  | fun '(diffuse_, (ambient_, (specular_, (emissive_, shininess_)))) =>
      mk_SVGA3dMaterial diffuse_ ambient_ specular_ emissive_ shininess_ }.

(** Set a material. *)
Record SVGA3dCmdSetMaterial := mk_SVGA3dCmdSetMaterial {
  SVGA3dCmdSetMaterial_cid : Z;
  SVGA3dCmdSetMaterial_face : Z;
  SVGA3dCmdSetMaterial_material : SVGA3dMaterial;
}.

#[global] Instance SVGA3dCmdSetMaterial_c : CStruct SVGA3dCmdSetMaterial :=
  struct{ word_c ⊗ word_c ⊗ SVGA3dMaterial_c
  | fun r =>
      (r.(SVGA3dCmdSetMaterial_cid), (r.(SVGA3dCmdSetMaterial_face),
      r.(SVGA3dCmdSetMaterial_material)))
  | fun '(cid_, (face_, material_)) =>
      mk_SVGA3dCmdSetMaterial cid_ face_ material_ }.

(** Set a light. *)
Record SVGA3dCmdSetLightData := mk_SVGA3dCmdSetLightData {
  SVGA3dCmdSetLightData_cid : Z;
  SVGA3dCmdSetLightData_index : Z;
  SVGA3dCmdSetLightData_data : SVGA3dLightData;
}.

#[global] Instance SVGA3dCmdSetLightData_c : CStruct SVGA3dCmdSetLightData :=
  struct{ word_c ⊗ word_c ⊗ SVGA3dLightData_c
  | fun r =>
      (r.(SVGA3dCmdSetLightData_cid), (r.(SVGA3dCmdSetLightData_index),
      r.(SVGA3dCmdSetLightData_data)))
  | fun '(cid_, (index_, data_)) =>
      mk_SVGA3dCmdSetLightData cid_ index_ data_ }.

(** Enable a light. *)
Record SVGA3dCmdSetLightEnabled := mk_SVGA3dCmdSetLightEnabled {
  SVGA3dCmdSetLightEnabled_cid : Z;
  SVGA3dCmdSetLightEnabled_index : Z;
  SVGA3dCmdSetLightEnabled_enabled : Z;
}.

#[global] Instance SVGA3dCmdSetLightEnabled_c : CStruct SVGA3dCmdSetLightEnabled :=
  struct{ word_c ⊗ word_c ⊗ word_c
  | fun r =>
      (r.(SVGA3dCmdSetLightEnabled_cid), (r.(SVGA3dCmdSetLightEnabled_index),
      r.(SVGA3dCmdSetLightEnabled_enabled)))
  | fun '(cid_, (index_, enabled_)) =>
      mk_SVGA3dCmdSetLightEnabled cid_ index_ enabled_ }.

(** Set the viewport. *)
Record SVGA3dCmdSetViewport := mk_SVGA3dCmdSetViewport {
  SVGA3dCmdSetViewport_cid : Z;
  SVGA3dCmdSetViewport_rect : SVGA3dRect;
}.

#[global] Instance SVGA3dCmdSetViewport_c : CStruct SVGA3dCmdSetViewport :=
  struct{ word_c ⊗ SVGA3dRect_c
  | fun r =>
      (r.(SVGA3dCmdSetViewport_cid), r.(SVGA3dCmdSetViewport_rect))
  | fun '(cid_, rect_) =>
      mk_SVGA3dCmdSetViewport cid_ rect_ }.

(** Set the scissor rectangle. *)
Record SVGA3dCmdSetScissorRect := mk_SVGA3dCmdSetScissorRect {
  SVGA3dCmdSetScissorRect_cid : Z;
  SVGA3dCmdSetScissorRect_rect : SVGA3dRect;
}.

#[global] Instance SVGA3dCmdSetScissorRect_c : CStruct SVGA3dCmdSetScissorRect :=
  struct{ word_c ⊗ SVGA3dRect_c
  | fun r =>
      (r.(SVGA3dCmdSetScissorRect_cid), r.(SVGA3dCmdSetScissorRect_rect))
  | fun '(cid_, rect_) =>
      mk_SVGA3dCmdSetScissorRect cid_ rect_ }.

(** Set a clip plane. *)
Record SVGA3dCmdSetClipPlane := mk_SVGA3dCmdSetClipPlane {
  SVGA3dCmdSetClipPlane_cid : Z;
  SVGA3dCmdSetClipPlane_index : Z;
  SVGA3dCmdSetClipPlane_plane : list Z;
}.

#[global] Instance SVGA3dCmdSetClipPlane_c : CStruct SVGA3dCmdSetClipPlane :=
  struct{ word_c ⊗ word_c ⊗ word_c ^ 4
  | fun r =>
      (r.(SVGA3dCmdSetClipPlane_cid), (r.(SVGA3dCmdSetClipPlane_index),
      r.(SVGA3dCmdSetClipPlane_plane)))
  | fun '(cid_, (index_, plane_)) =>
      mk_SVGA3dCmdSetClipPlane cid_ index_ plane_ }.

(** Define a shader; the byte code follows. *)
Record SVGA3dCmdDefineShader := mk_SVGA3dCmdDefineShader {
  SVGA3dCmdDefineShader_cid : Z;
  SVGA3dCmdDefineShader_shid : Z;
  SVGA3dCmdDefineShader_type : Z;
}.

#[global] Instance SVGA3dCmdDefineShader_c : CStruct SVGA3dCmdDefineShader :=
  struct{ word_c ⊗ word_c ⊗ word_c
  | fun r =>
      (r.(SVGA3dCmdDefineShader_cid), (r.(SVGA3dCmdDefineShader_shid),
      r.(SVGA3dCmdDefineShader_type)))
  | fun '(cid_, (shid_, type_)) =>
      mk_SVGA3dCmdDefineShader cid_ shid_ type_ }.

(** Destroy a shader. *)
Record SVGA3dCmdDestroyShader := mk_SVGA3dCmdDestroyShader {
  SVGA3dCmdDestroyShader_cid : Z;
  SVGA3dCmdDestroyShader_shid : Z;
  SVGA3dCmdDestroyShader_type : Z;
}.

#[global] Instance SVGA3dCmdDestroyShader_c : CStruct SVGA3dCmdDestroyShader :=
  struct{ word_c ⊗ word_c ⊗ word_c
  | fun r =>
      (r.(SVGA3dCmdDestroyShader_cid), (r.(SVGA3dCmdDestroyShader_shid),
      r.(SVGA3dCmdDestroyShader_type)))
  | fun '(cid_, (shid_, type_)) =>
      mk_SVGA3dCmdDestroyShader cid_ shid_ type_ }.

(** Set a shader constant. *)
Record SVGA3dCmdSetShaderConst := mk_SVGA3dCmdSetShaderConst {
  SVGA3dCmdSetShaderConst_cid : Z;
  SVGA3dCmdSetShaderConst_reg : Z;
  SVGA3dCmdSetShaderConst_type : Z;
  SVGA3dCmdSetShaderConst_ctype : Z;
  SVGA3dCmdSetShaderConst_values : list Z;
}.

#[global] Instance SVGA3dCmdSetShaderConst_c : CStruct SVGA3dCmdSetShaderConst :=
  struct{ word_c ⊗ word_c ⊗ word_c ⊗ word_c ⊗ word_c ^ 4
  | fun r =>
      (r.(SVGA3dCmdSetShaderConst_cid), (r.(SVGA3dCmdSetShaderConst_reg),
      (r.(SVGA3dCmdSetShaderConst_type), (r.(SVGA3dCmdSetShaderConst_ctype),
      r.(SVGA3dCmdSetShaderConst_values)))))
  | fun '(cid_, (reg_, (type_, (ctype_, values_)))) =>
      mk_SVGA3dCmdSetShaderConst cid_ reg_ type_ ctype_ values_ }.

(** Set the shader. *)
Record SVGA3dCmdSetShader := mk_SVGA3dCmdSetShader {
  SVGA3dCmdSetShader_cid : Z;
  SVGA3dCmdSetShader_type : Z;
  SVGA3dCmdSetShader_shid : Z;
}.

#[global] Instance SVGA3dCmdSetShader_c : CStruct SVGA3dCmdSetShader :=
  struct{ word_c ⊗ word_c ⊗ word_c
  | fun r =>
      (r.(SVGA3dCmdSetShader_cid), (r.(SVGA3dCmdSetShader_type),
      r.(SVGA3dCmdSetShader_shid)))
  | fun '(cid_, (type_, shid_)) =>
      mk_SVGA3dCmdSetShader cid_ type_ shid_ }.

(** Begin a query. *)
Record SVGA3dCmdBeginQuery := mk_SVGA3dCmdBeginQuery {
  SVGA3dCmdBeginQuery_cid : Z;
  SVGA3dCmdBeginQuery_type : Z;
}.

#[global] Instance SVGA3dCmdBeginQuery_c : CStruct SVGA3dCmdBeginQuery :=
  struct{ word_c ⊗ word_c
  | fun r =>
      (r.(SVGA3dCmdBeginQuery_cid), r.(SVGA3dCmdBeginQuery_type))
  | fun '(cid_, type_) =>
      mk_SVGA3dCmdBeginQuery cid_ type_ }.

(** End a query. *)
Record SVGA3dCmdEndQuery := mk_SVGA3dCmdEndQuery {
  SVGA3dCmdEndQuery_cid : Z;
  SVGA3dCmdEndQuery_type : Z;
  SVGA3dCmdEndQuery_guestResult : SVGAGuestPtr;
}.

#[global] Instance SVGA3dCmdEndQuery_c : CStruct SVGA3dCmdEndQuery :=
  struct{ word_c ⊗ word_c ⊗ SVGAGuestPtr_c
  | fun r =>
      (r.(SVGA3dCmdEndQuery_cid), (r.(SVGA3dCmdEndQuery_type),
      r.(SVGA3dCmdEndQuery_guestResult)))
  | fun '(cid_, (type_, guestResult_)) =>
      mk_SVGA3dCmdEndQuery cid_ type_ guestResult_ }.

(** Wait for a query. *)
Record SVGA3dCmdWaitForQuery := mk_SVGA3dCmdWaitForQuery {
  SVGA3dCmdWaitForQuery_cid : Z;
  SVGA3dCmdWaitForQuery_type : Z;
  SVGA3dCmdWaitForQuery_guestResult : SVGAGuestPtr;
}.

#[global] Instance SVGA3dCmdWaitForQuery_c : CStruct SVGA3dCmdWaitForQuery :=
  struct{ word_c ⊗ word_c ⊗ SVGAGuestPtr_c
  | fun r =>
      (r.(SVGA3dCmdWaitForQuery_cid), (r.(SVGA3dCmdWaitForQuery_type),
      r.(SVGA3dCmdWaitForQuery_guestResult)))
  | fun '(cid_, (type_, guestResult_)) =>
      mk_SVGA3dCmdWaitForQuery cid_ type_ guestResult_ }.

(** Blit a surface to a screen; clip rectangles follow. *)
Record SVGA3dCmdBlitSurfaceToScreen := mk_SVGA3dCmdBlitSurfaceToScreen {
  SVGA3dCmdBlitSurfaceToScreen_srcImage : SVGA3dSurfaceImageId;
  SVGA3dCmdBlitSurfaceToScreen_srcRect : SVGASignedRect;
  SVGA3dCmdBlitSurfaceToScreen_destScreenId : Z;
  SVGA3dCmdBlitSurfaceToScreen_destRect : SVGASignedRect;
}.

#[global] Instance SVGA3dCmdBlitSurfaceToScreen_c : CStruct SVGA3dCmdBlitSurfaceToScreen :=
  struct{ SVGA3dSurfaceImageId_c ⊗ SVGASignedRect_c ⊗ word_c ⊗ SVGASignedRect_c
  | fun r =>
      (r.(SVGA3dCmdBlitSurfaceToScreen_srcImage),
      (r.(SVGA3dCmdBlitSurfaceToScreen_srcRect),
      (r.(SVGA3dCmdBlitSurfaceToScreen_destScreenId),
      r.(SVGA3dCmdBlitSurfaceToScreen_destRect))))
  | fun '(srcImage_, (srcRect_, (destScreenId_, destRect_))) =>
      mk_SVGA3dCmdBlitSurfaceToScreen srcImage_ srcRect_ destScreenId_ destRect_ }.

(** Generate mip maps. *)
Record SVGA3dCmdGenerateMipmaps := mk_SVGA3dCmdGenerateMipmaps {
  SVGA3dCmdGenerateMipmaps_sid : Z;
  SVGA3dCmdGenerateMipmaps_filter : Z;
}.

#[global] Instance SVGA3dCmdGenerateMipmaps_c : CStruct SVGA3dCmdGenerateMipmaps :=
  struct{ word_c ⊗ word_c
  | fun r =>
      (r.(SVGA3dCmdGenerateMipmaps_sid), r.(SVGA3dCmdGenerateMipmaps_filter))
  | fun '(sid_, filter_) =>
      mk_SVGA3dCmdGenerateMipmaps sid_ filter_ }.

