(* ===== verification/Svga3d.v ===== *)
(** The 3D command layer (AC/SVGA3D.cpp) and the screen object layer
    (AC/SVGAScreen.cpp).

    [svga3d_cmd] is the language of 3D commands: a structure and, for some,
    lists of structures behind it.  The methods queue one command each, or
    begin one whose lists the caller fills in before it commits. *)

From S2P Require Import Prelude IOKit Layout SvgaReg SvgaCmd Fifo SvgaDevice Svga3dReg.

(** ** The language *)

Inductive svga3d_cmd :=
  | SurfaceDefine (a : SVGA3dCmdDefineSurface) (mips : list SVGA3dSize)
  | SurfaceDestroy (a : SVGA3dCmdDestroySurface)
  | SurfaceCopy (a : SVGA3dCmdSurfaceCopy) (boxes : list SVGA3dCopyBox)
  | SurfaceStretch (a : SVGA3dCmdSurfaceStretchBlt)
  | SurfaceDMA (a : SVGA3dCmdSurfaceDMA) (boxes : list SVGA3dCopyBox)
      (suffix : option SVGA3dCmdSurfaceDMASuffix)
  | ContextDefine (a : SVGA3dCmdDefineContext)
  | ContextDestroy (a : SVGA3dCmdDestroyContext)
  | TransformSet (a : SVGA3dCmdSetTransform)
  | ZRangeSet (a : SVGA3dCmdSetZRange)
  | RenderStateSet (a : SVGA3dCmdSetRenderState) (states : list SVGA3dRenderState)
  | RenderTargetSet (a : SVGA3dCmdSetRenderTarget)
  | TextureStateSet (a : SVGA3dCmdSetTextureState) (states : list SVGA3dTextureState)
  | MaterialSet (a : SVGA3dCmdSetMaterial)
  | LightDataSet (a : SVGA3dCmdSetLightData)
  | LightEnabledSet (a : SVGA3dCmdSetLightEnabled)
  | ViewportSet (a : SVGA3dCmdSetViewport)
  | ClipPlaneSet (a : SVGA3dCmdSetClipPlane)
  | Clear (a : SVGA3dCmdClear) (rects : list SVGA3dRect)
  | Present (a : SVGA3dCmdPresent) (rects : list SVGA3dCopyRect)
  | ShaderDefine (a : SVGA3dCmdDefineShader) (bytecode : list Z)
  | ShaderDestroy (a : SVGA3dCmdDestroyShader)
  | ShaderSet (a : SVGA3dCmdSetShader)
  | ShaderConstSet (a : SVGA3dCmdSetShaderConst)
  | DrawPrimitives (a : SVGA3dCmdDrawPrimitives) (decls : list SVGA3dVertexDecl)
      (ranges : list SVGA3dPrimitiveRange)
  | ScissorRectSet (a : SVGA3dCmdSetScissorRect)
  | QueryBegin (a : SVGA3dCmdBeginQuery)
  | QueryEnd (a : SVGA3dCmdEndQuery)
  | QueryWait (a : SVGA3dCmdWaitForQuery)
  | PresentReadback (rects : list SVGA3dRect)
  | BlitSurfaceToScreen (a : SVGA3dCmdBlitSurfaceToScreen) (clipRects : list SVGASignedRect).

(** The number and the body of a command. *)
Definition encode3d (c : svga3d_cmd) : SVGA3dCmdId * list Z :=
  match c with
  | SurfaceDefine a l =>
      (SVGA_3D_CMD_SURFACE_DEFINE, enc SVGA3dCmdDefineSurface_c a ++ (l ≫= enc SVGA3dSize_c))
  | SurfaceDestroy a => (SVGA_3D_CMD_SURFACE_DESTROY, enc SVGA3dCmdDestroySurface_c a)
  | SurfaceCopy a l =>
      (SVGA_3D_CMD_SURFACE_COPY, enc SVGA3dCmdSurfaceCopy_c a ++ (l ≫= enc SVGA3dCopyBox_c))
  | SurfaceStretch a => (SVGA_3D_CMD_SURFACE_STRETCHBLT, enc SVGA3dCmdSurfaceStretchBlt_c a)
  | SurfaceDMA a l s =>
      (SVGA_3D_CMD_SURFACE_DMA,
       enc SVGA3dCmdSurfaceDMA_c a ++ (l ≫= enc SVGA3dCopyBox_c) ++
       match s with None => [] | Some s => enc SVGA3dCmdSurfaceDMASuffix_c s end)
  | ContextDefine a => (SVGA_3D_CMD_CONTEXT_DEFINE, enc SVGA3dCmdDefineContext_c a)
  | ContextDestroy a => (SVGA_3D_CMD_CONTEXT_DESTROY, enc SVGA3dCmdDestroyContext_c a)
  | TransformSet a => (SVGA_3D_CMD_SETTRANSFORM, enc SVGA3dCmdSetTransform_c a)
  | ZRangeSet a => (SVGA_3D_CMD_SETZRANGE, enc SVGA3dCmdSetZRange_c a)
  | RenderStateSet a l =>
      (SVGA_3D_CMD_SETRENDERSTATE, enc SVGA3dCmdSetRenderState_c a ++ (l ≫= enc SVGA3dRenderState_c))
  | RenderTargetSet a => (SVGA_3D_CMD_SETRENDERTARGET, enc SVGA3dCmdSetRenderTarget_c a)
  | TextureStateSet a l =>
      (SVGA_3D_CMD_SETTEXTURESTATE, enc SVGA3dCmdSetTextureState_c a ++ (l ≫= enc SVGA3dTextureState_c))
  | MaterialSet a => (SVGA_3D_CMD_SETMATERIAL, enc SVGA3dCmdSetMaterial_c a)
  | LightDataSet a => (SVGA_3D_CMD_SETLIGHTDATA, enc SVGA3dCmdSetLightData_c a)
  | LightEnabledSet a => (SVGA_3D_CMD_SETLIGHTENABLED, enc SVGA3dCmdSetLightEnabled_c a)
  | ViewportSet a => (SVGA_3D_CMD_SETVIEWPORT, enc SVGA3dCmdSetViewport_c a)
  | ClipPlaneSet a => (SVGA_3D_CMD_SETCLIPPLANE, enc SVGA3dCmdSetClipPlane_c a)
  | Clear a l => (SVGA_3D_CMD_CLEAR, enc SVGA3dCmdClear_c a ++ (l ≫= enc SVGA3dRect_c))
  | Present a l => (SVGA_3D_CMD_PRESENT, enc SVGA3dCmdPresent_c a ++ (l ≫= enc SVGA3dCopyRect_c))
  | ShaderDefine a l => (SVGA_3D_CMD_SHADER_DEFINE, enc SVGA3dCmdDefineShader_c a ++ (l ≫= enc word_c))
  | ShaderDestroy a => (SVGA_3D_CMD_SHADER_DESTROY, enc SVGA3dCmdDestroyShader_c a)
  | ShaderSet a => (SVGA_3D_CMD_SET_SHADER, enc SVGA3dCmdSetShader_c a)
  | ShaderConstSet a => (SVGA_3D_CMD_SET_SHADER_CONST, enc SVGA3dCmdSetShaderConst_c a)
  | DrawPrimitives a l r =>
      (SVGA_3D_CMD_DRAW_PRIMITIVES,
       enc SVGA3dCmdDrawPrimitives_c a ++ (l ≫= enc SVGA3dVertexDecl_c) ++
       (r ≫= enc SVGA3dPrimitiveRange_c))
  | ScissorRectSet a => (SVGA_3D_CMD_SETSCISSORRECT, enc SVGA3dCmdSetScissorRect_c a)
  | QueryBegin a => (SVGA_3D_CMD_BEGIN_QUERY, enc SVGA3dCmdBeginQuery_c a)
  | QueryEnd a => (SVGA_3D_CMD_END_QUERY, enc SVGA3dCmdEndQuery_c a)
  | QueryWait a => (SVGA_3D_CMD_WAIT_FOR_QUERY, enc SVGA3dCmdWaitForQuery_c a)
  | PresentReadback l => (SVGA_3D_CMD_PRESENT_READBACK, l ≫= enc SVGA3dRect_c)
  | BlitSurfaceToScreen a l =>
      (SVGA_3D_CMD_BLIT_SURFACE_TO_SCREEN,
       enc SVGA3dCmdBlitSurfaceToScreen_c a ++ (l ≫= enc SVGASignedRect_c))
  end.

(** A 3D command as a command of the FIFO. *)
Definition cmd3d (c : svga3d_cmd) : svga_cmd := Cmd3D (encode3d c).1 (encode3d c).2.

(** The device's reading of a body. *)
Definition dec_alone {A} (c : coder A) (mk : A -> svga3d_cmd) (l : list Z) : option svga3d_cmd :=
  match dec c l with Some (a, []) => Some (mk a) | _ => None end.
Definition dec_list {A B} (c : coder A) (e : coder B) (mk : A -> list B -> svga3d_cmd) (l : list Z) :=
  '(a, l) ← dec c l; xs ← dec_all e (length l) l; Some (mk a xs).
Definition dec_draw (l : list Z) : option svga3d_cmd :=
  '(a, l) ← dec SVGA3dCmdDrawPrimitives_c l;
  '(decls, l) ← dec_array SVGA3dVertexDecl_c (Z.to_nat a.(SVGA3dCmdDrawPrimitives_numVertexDecls)) l;
  '(ranges, l) ← dec_array SVGA3dPrimitiveRange_c (Z.to_nat a.(SVGA3dCmdDrawPrimitives_numRanges)) l;
  match l with [] => Some (DrawPrimitives a decls ranges) | _ => None end.
(** Boxes are nine words and a suffix is three: the length tells them apart. *)
Definition dec_dma (l : list Z) : option svga3d_cmd :=
  '(a, l) ← dec SVGA3dCmdSurfaceDMA_c l;
  let n := Z.of_nat (length l) in
  '(boxes, l) ← dec_array SVGA3dCopyBox_c (Z.to_nat (n / 9)) l;
  if n mod 9 =? 0 then Some (SurfaceDMA a boxes None)
  else
    match dec SVGA3dCmdSurfaceDMASuffix_c l with
    | Some (s, []) => Some (SurfaceDMA a boxes (Some s))
    | _ => None
    end.

Definition decode3d (id : SVGA3dCmdId) (l : list Z) : option svga3d_cmd :=
  match id with
  | SVGA_3D_CMD_SURFACE_DEFINE => dec_list SVGA3dCmdDefineSurface_c SVGA3dSize_c SurfaceDefine l
  | SVGA_3D_CMD_SURFACE_DESTROY => dec_alone SVGA3dCmdDestroySurface_c SurfaceDestroy l
  | SVGA_3D_CMD_SURFACE_COPY => dec_list SVGA3dCmdSurfaceCopy_c SVGA3dCopyBox_c SurfaceCopy l
  | SVGA_3D_CMD_SURFACE_STRETCHBLT => dec_alone SVGA3dCmdSurfaceStretchBlt_c SurfaceStretch l
  | SVGA_3D_CMD_SURFACE_DMA => dec_dma l
  | SVGA_3D_CMD_CONTEXT_DEFINE => dec_alone SVGA3dCmdDefineContext_c ContextDefine l
  | SVGA_3D_CMD_CONTEXT_DESTROY => dec_alone SVGA3dCmdDestroyContext_c ContextDestroy l
  | SVGA_3D_CMD_SETTRANSFORM => dec_alone SVGA3dCmdSetTransform_c TransformSet l
  | SVGA_3D_CMD_SETZRANGE => dec_alone SVGA3dCmdSetZRange_c ZRangeSet l
  | SVGA_3D_CMD_SETRENDERSTATE => dec_list SVGA3dCmdSetRenderState_c SVGA3dRenderState_c RenderStateSet l
  | SVGA_3D_CMD_SETRENDERTARGET => dec_alone SVGA3dCmdSetRenderTarget_c RenderTargetSet l
  | SVGA_3D_CMD_SETTEXTURESTATE =>
      dec_list SVGA3dCmdSetTextureState_c SVGA3dTextureState_c TextureStateSet l
  | SVGA_3D_CMD_SETMATERIAL => dec_alone SVGA3dCmdSetMaterial_c MaterialSet l
  | SVGA_3D_CMD_SETLIGHTDATA => dec_alone SVGA3dCmdSetLightData_c LightDataSet l
  | SVGA_3D_CMD_SETLIGHTENABLED => dec_alone SVGA3dCmdSetLightEnabled_c LightEnabledSet l
  | SVGA_3D_CMD_SETVIEWPORT => dec_alone SVGA3dCmdSetViewport_c ViewportSet l
  | SVGA_3D_CMD_SETCLIPPLANE => dec_alone SVGA3dCmdSetClipPlane_c ClipPlaneSet l
  | SVGA_3D_CMD_CLEAR => dec_list SVGA3dCmdClear_c SVGA3dRect_c Clear l
  | SVGA_3D_CMD_PRESENT => dec_list SVGA3dCmdPresent_c SVGA3dCopyRect_c Present l
  | SVGA_3D_CMD_SHADER_DEFINE => dec_list SVGA3dCmdDefineShader_c word_c ShaderDefine l
  | SVGA_3D_CMD_SHADER_DESTROY => dec_alone SVGA3dCmdDestroyShader_c ShaderDestroy l
  | SVGA_3D_CMD_SET_SHADER => dec_alone SVGA3dCmdSetShader_c ShaderSet l
  | SVGA_3D_CMD_SET_SHADER_CONST => dec_alone SVGA3dCmdSetShaderConst_c ShaderConstSet l
  | SVGA_3D_CMD_DRAW_PRIMITIVES => dec_draw l
  | SVGA_3D_CMD_SETSCISSORRECT => dec_alone SVGA3dCmdSetScissorRect_c ScissorRectSet l
  | SVGA_3D_CMD_BEGIN_QUERY => dec_alone SVGA3dCmdBeginQuery_c QueryBegin l
  | SVGA_3D_CMD_END_QUERY => dec_alone SVGA3dCmdEndQuery_c QueryEnd l
  | SVGA_3D_CMD_WAIT_FOR_QUERY => dec_alone SVGA3dCmdWaitForQuery_c QueryWait l
  | SVGA_3D_CMD_PRESENT_READBACK => PresentReadback <$> dec_all SVGA3dRect_c (length l) l
  | SVGA_3D_CMD_BLIT_SURFACE_TO_SCREEN =>
      dec_list SVGA3dCmdBlitSurfaceToScreen_c SVGASignedRect_c BlitSurfaceToScreen l
  | _ => None
  end.

(** The fields are in range and the counts are those of the lists. *)
Definition ok3d (c : svga3d_cmd) : Prop :=
  match c with
  | SurfaceDefine a l => ok SVGA3dCmdDefineSurface_c a /\ Forall (ok SVGA3dSize_c) l
  | SurfaceDestroy a => ok SVGA3dCmdDestroySurface_c a
  | SurfaceCopy a l => ok SVGA3dCmdSurfaceCopy_c a /\ Forall (ok SVGA3dCopyBox_c) l
  | SurfaceStretch a => ok SVGA3dCmdSurfaceStretchBlt_c a
  | SurfaceDMA a l s =>
      ok SVGA3dCmdSurfaceDMA_c a /\ Forall (ok SVGA3dCopyBox_c) l /\
      match s with None => True | Some s => ok SVGA3dCmdSurfaceDMASuffix_c s end
  | ContextDefine a => ok SVGA3dCmdDefineContext_c a
  | ContextDestroy a => ok SVGA3dCmdDestroyContext_c a
  | TransformSet a => ok SVGA3dCmdSetTransform_c a
  | ZRangeSet a => ok SVGA3dCmdSetZRange_c a
  | RenderStateSet a l => ok SVGA3dCmdSetRenderState_c a /\ Forall (ok SVGA3dRenderState_c) l
  | RenderTargetSet a => ok SVGA3dCmdSetRenderTarget_c a
  | TextureStateSet a l => ok SVGA3dCmdSetTextureState_c a /\ Forall (ok SVGA3dTextureState_c) l
  | MaterialSet a => ok SVGA3dCmdSetMaterial_c a
  | LightDataSet a => ok SVGA3dCmdSetLightData_c a
  | LightEnabledSet a => ok SVGA3dCmdSetLightEnabled_c a
  | ViewportSet a => ok SVGA3dCmdSetViewport_c a
  | ClipPlaneSet a => ok SVGA3dCmdSetClipPlane_c a
  | Clear a l => ok SVGA3dCmdClear_c a /\ Forall (ok SVGA3dRect_c) l
  | Present a l => ok SVGA3dCmdPresent_c a /\ Forall (ok SVGA3dCopyRect_c) l
  | ShaderDefine a l => ok SVGA3dCmdDefineShader_c a /\ Forall (ok word_c) l
  | ShaderDestroy a => ok SVGA3dCmdDestroyShader_c a
  | ShaderSet a => ok SVGA3dCmdSetShader_c a
  | ShaderConstSet a => ok SVGA3dCmdSetShaderConst_c a
  | DrawPrimitives a l r =>
      ok SVGA3dCmdDrawPrimitives_c a /\ Forall (ok SVGA3dVertexDecl_c) l /\
      Forall (ok SVGA3dPrimitiveRange_c) r /\
      a.(SVGA3dCmdDrawPrimitives_numVertexDecls) = Z.of_nat (length l) /\
      a.(SVGA3dCmdDrawPrimitives_numRanges) = Z.of_nat (length r)
  | ScissorRectSet a => ok SVGA3dCmdSetScissorRect_c a
  | QueryBegin a => ok SVGA3dCmdBeginQuery_c a
  | QueryEnd a => ok SVGA3dCmdEndQuery_c a
  | QueryWait a => ok SVGA3dCmdWaitForQuery_c a
  | PresentReadback l => Forall (ok SVGA3dRect_c) l
  | BlitSurfaceToScreen a l => ok SVGA3dCmdBlitSurfaceToScreen_c a /\ Forall (ok SVGASignedRect_c) l
  end.


(** ** The methods *)

(** [bzero] of a number of bytes. *)
Definition zeros (bytes : Z) : list Z := replicate (Z.to_nat (bytes / 4)) 0.

Section svga3d.
Context {HS : Type} `{SvgaHost HS}.
Implicit Types (d : dev HS).
Local Abbreviation M := (M HS).

(** [device] says whether the argument is not null; the second result is the
    field [HWVersion]. *)
Definition SVGA3D_Init (device : bool) : M (bool * Z) :=
  if negb device then mret (false, 0)
  else
    ext ← HasCapability SVGA_CAP_EXTENDED_FIFO;
    if negb ext then mret (false, 0)
    else
      v ← get3DHWVersion;
      match v with
      | None => mret (false, 0)
      | Some HWVersion =>
          if HWVersion =? 0 then mret (false, HWVersion)
          else if HWVersion <? SVGA3D_HWVERSION_WS65_B1 then mret (false, HWVersion)
          else mret (true, HWVersion)
      end.

Definition SVGA3D_FIFOReserve (cmd cmdSize : Z) : M (option ptr) :=
  header ← FIFOReserve (u64 (bsize SVGA3dCmdHeader_c + cmdSize));
  match header with
  | None => mret None
  | Some header =>
      store_words header 0 (enc SVGA3dCmdHeader_c (mk_SVGA3dCmdHeader cmd (u32 cmdSize)));;
      mret (Some (ptr_add header (bsize SVGA3dCmdHeader_c)))
  end.

(** A command that is one structure: reserve, store, commit. *)
Definition fixed3d {A} (id : SVGA3dCmdId) (c : coder A) (a : A) : M bool :=
  cmd ← SVGA3D_FIFOReserve id (bsize c);
  match cmd with
  | None => mret false
  | Some cmd => store_words cmd 0 (enc c a);; FIFOCommitAll;; mret true
  end.

(** The start of a command that is a structure and [extra] bytes behind it. *)
Definition begin3d {A B} (id : SVGA3dCmdId) (c : coder A) (a : A) (extra : Z) (k : ptr -> M B)
    : M (option B) :=
  cmd ← SVGA3D_FIFOReserve id (u64 (bsize c + extra));
  match cmd with
  | None => mret None
  | Some cmd => store_words cmd 0 (enc c a);; r ← k cmd; mret (Some r)
  end.

(** Results: the pointers to the faces and to the mip sizes. *)
Definition BeginDefineSurface (sid flags format numMipSizes : Z) : M (option (ptr * ptr)) :=
  let size := u64 (bsize SVGA3dSize_c * numMipSizes) in
  begin3d SVGA_3D_CMD_SURFACE_DEFINE SVGA3dCmdDefineSurface_c
    (mk_SVGA3dCmdDefineSurface sid flags format (replicate 6 (mk_SVGA3dSurfaceFace 0))) size
    (fun cmd =>
       let faces := ptr_add cmd 12 in
       let mipSizes := ptr_add cmd (bsize SVGA3dCmdDefineSurface_c) in
       store_words mipSizes 0 (zeros size);;
       mret (faces, mipSizes)).

Definition DestroySurface (sid : Z) : M bool :=
  fixed3d SVGA_3D_CMD_SURFACE_DESTROY SVGA3dCmdDestroySurface_c (mk_SVGA3dCmdDestroySurface sid).

Definition BeginSurfaceDMA (guestImage : SVGA3dGuestImage) (hostImage : SVGA3dSurfaceImageId)
    (transfer numBoxes : Z) : M (option ptr) :=
  let boxesSize := u64 (bsize SVGA3dCopyBox_c * numBoxes) in
  begin3d SVGA_3D_CMD_SURFACE_DMA SVGA3dCmdSurfaceDMA_c
    (mk_SVGA3dCmdSurfaceDMA guestImage hostImage transfer) boxesSize
    (fun cmd =>
       let boxes := ptr_add cmd (bsize SVGA3dCmdSurfaceDMA_c) in
       store_words boxes 0 (zeros boxesSize);;
       mret boxes).

Definition BeginSurfaceDMAwithSuffix (guestImage : SVGA3dGuestImage)
    (hostImage : SVGA3dSurfaceImageId) (transfer numBoxes maximumOffset flags : Z)
    : M (option ptr) :=
  let boxesSize := u64 (bsize SVGA3dCopyBox_c * numBoxes) in
  begin3d SVGA_3D_CMD_SURFACE_DMA SVGA3dCmdSurfaceDMA_c
    (mk_SVGA3dCmdSurfaceDMA guestImage hostImage transfer)
    (u64 (boxesSize + bsize SVGA3dCmdSurfaceDMASuffix_c))
    (fun cmd =>
       let boxes := ptr_add cmd (bsize SVGA3dCmdSurfaceDMA_c) in
       store_words boxes 0 (zeros boxesSize);;
       let suffix := ptr_add boxes boxesSize in
       store_words suffix 0 (enc SVGA3dCmdSurfaceDMASuffix_c
         (mk_SVGA3dCmdSurfaceDMASuffix (bsize SVGA3dCmdSurfaceDMASuffix_c) maximumOffset flags));;
       mret boxes).

Definition DefineContext (cid : Z) : M bool :=
  fixed3d SVGA_3D_CMD_CONTEXT_DEFINE SVGA3dCmdDefineContext_c (mk_SVGA3dCmdDefineContext cid).

Definition DestroyContext (cid : Z) : M bool :=
  fixed3d SVGA_3D_CMD_CONTEXT_DESTROY SVGA3dCmdDestroyContext_c (mk_SVGA3dCmdDestroyContext cid).

Definition SetRenderTarget (cid type : Z) (target : SVGA3dSurfaceImageId) : M bool :=
  fixed3d SVGA_3D_CMD_SETRENDERTARGET SVGA3dCmdSetRenderTarget_c
    (mk_SVGA3dCmdSetRenderTarget cid type target).

(** [matrix] is the array of the caller: its first 16 floats are copied. *)
Definition SetTransform (cid type : Z) (matrix : list Z) : M bool :=
  fixed3d SVGA_3D_CMD_SETTRANSFORM SVGA3dCmdSetTransform_c
    (mk_SVGA3dCmdSetTransform cid type (take 16 matrix)).

Definition SetMaterial (cid face : Z) (material : SVGA3dMaterial) : M bool :=
  fixed3d SVGA_3D_CMD_SETMATERIAL SVGA3dCmdSetMaterial_c
    (mk_SVGA3dCmdSetMaterial cid face material).

Definition SetLightEnabled (cid index : Z) (enabled : bool) : M bool :=
  fixed3d SVGA_3D_CMD_SETLIGHTENABLED SVGA3dCmdSetLightEnabled_c
    (mk_SVGA3dCmdSetLightEnabled cid index (if enabled then 1 else 0)).

Definition SetLightData (cid index : Z) (data : SVGA3dLightData) : M bool :=
  fixed3d SVGA_3D_CMD_SETLIGHTDATA SVGA3dCmdSetLightData_c
    (mk_SVGA3dCmdSetLightData cid index data).

(** [bytecode] is the words at the pointer, [bytecodeLen] bytes of which are copied. *)
Definition DefineShader (cid shid type : Z) (bytecode : list Z) (bytecodeLen : Z) : M IOReturn :=
  if negb (Z.land bytecodeLen 3 =? 0) then mret kIOReturnBadArgument
  else
    cmd ← SVGA3D_FIFOReserve SVGA_3D_CMD_SHADER_DEFINE
            (u64 (bsize SVGA3dCmdDefineShader_c + bytecodeLen));
    match cmd with
    | None => mret kIOReturnNoMemory
    | Some cmd =>
        store_words cmd 0 (enc SVGA3dCmdDefineShader_c (mk_SVGA3dCmdDefineShader cid shid type));;
        store_words (ptr_add cmd (bsize SVGA3dCmdDefineShader_c)) 0
          (take (Z.to_nat (bytecodeLen / 4)) bytecode);;
        FIFOCommitAll;;
        mret kIOReturnSuccess
    end.

Definition DestroyShader (cid shid type : Z) : M bool :=
  fixed3d SVGA_3D_CMD_SHADER_DESTROY SVGA3dCmdDestroyShader_c
    (mk_SVGA3dCmdDestroyShader cid shid type).

(** The first four fields, then the values by the type of the constant. *)
Definition SetShaderConst (cid reg type ctype : Z) (value : list Z) : M IOReturn :=
  cmd ← SVGA3D_FIFOReserve SVGA_3D_CMD_SET_SHADER_CONST (bsize SVGA3dCmdSetShaderConst_c);
  match cmd with
  | None => mret kIOReturnNoMemory
  | Some cmd =>
      store_words cmd 0 [cid; reg; type; ctype];;
      if (ctype =? SVGA3D_CONST_TYPE_FLOAT) || (ctype =? SVGA3D_CONST_TYPE_INT) then
        store_words cmd 4 (take 4 value);; FIFOCommitAll;; mret kIOReturnSuccess
      else if ctype =? SVGA3D_CONST_TYPE_BOOL then
        store_words cmd 4 (zeros 16);;
        store_words cmd 4 (take 1 value);; FIFOCommitAll;; mret kIOReturnSuccess
      else FIFOCommit 0;; mret kIOReturnBadArgument
  end.

Definition SetShader (cid type shid : Z) : M bool :=
  fixed3d SVGA_3D_CMD_SET_SHADER SVGA3dCmdSetShader_c (mk_SVGA3dCmdSetShader cid type shid).

Definition BeginPresent (sid numRects : Z) : M (option ptr) :=
  begin3d SVGA_3D_CMD_PRESENT SVGA3dCmdPresent_c (mk_SVGA3dCmdPresent sid)
    (u64 (bsize SVGA3dCopyRect_c * numRects))
    (fun cmd => mret (ptr_add cmd (bsize SVGA3dCmdPresent_c))).

Definition BeginClear (cid flags color depth stencil numRects : Z) : M (option ptr) :=
  begin3d SVGA_3D_CMD_CLEAR SVGA3dCmdClear_c (mk_SVGA3dCmdClear cid flags color depth stencil)
    (u64 (bsize SVGA3dRect_c * numRects))
    (fun cmd => mret (ptr_add cmd (bsize SVGA3dCmdClear_c))).

(** Results: the pointers to the declarations and to the ranges. *)
Definition BeginDrawPrimitives (cid numVertexDecls numRanges : Z) : M (option (ptr * ptr)) :=
  let declSize := u64 (bsize SVGA3dVertexDecl_c * numVertexDecls) in
  let rangeSize := u64 (bsize SVGA3dPrimitiveRange_c * numRanges) in
  begin3d SVGA_3D_CMD_DRAW_PRIMITIVES SVGA3dCmdDrawPrimitives_c
    (mk_SVGA3dCmdDrawPrimitives cid (u32 numVertexDecls) (u32 numRanges))
    (u64 (declSize + rangeSize))
    (fun cmd =>
       let declArray := ptr_add cmd (bsize SVGA3dCmdDrawPrimitives_c) in
       let rangeArray := ptr_add declArray declSize in
       store_words declArray 0 (zeros declSize);;
       store_words rangeArray 0 (zeros rangeSize);;
       mret (declArray, rangeArray)).

Definition BeginSurfaceCopy (src dest : SVGA3dSurfaceImageId) (numBoxes : Z) : M (option ptr) :=
  let boxesSize := u64 (bsize SVGA3dCopyBox_c * numBoxes) in
  begin3d SVGA_3D_CMD_SURFACE_COPY SVGA3dCmdSurfaceCopy_c (mk_SVGA3dCmdSurfaceCopy src dest)
    boxesSize
    (fun cmd =>
       let boxes := ptr_add cmd (bsize SVGA3dCmdSurfaceCopy_c) in
       store_words boxes 0 (zeros boxesSize);;
       mret boxes).

Definition SurfaceStretchBlt (src dest : SVGA3dSurfaceImageId) (boxSrc boxDest : SVGA3dBox)
    (mode : Z) : M bool :=
  fixed3d SVGA_3D_CMD_SURFACE_STRETCHBLT SVGA3dCmdSurfaceStretchBlt_c
    (mk_SVGA3dCmdSurfaceStretchBlt src dest boxSrc boxDest mode).

Definition SetViewport (cid : Z) (rect : SVGA3dRect) : M bool :=
  fixed3d SVGA_3D_CMD_SETVIEWPORT SVGA3dCmdSetViewport_c (mk_SVGA3dCmdSetViewport cid rect).

Definition SetScissorRect (cid : Z) (rect : SVGA3dRect) : M bool :=
  fixed3d SVGA_3D_CMD_SETSCISSORRECT SVGA3dCmdSetScissorRect_c (mk_SVGA3dCmdSetScissorRect cid rect).

Definition SetZRange (cid zMin zMax : Z) : M bool :=
  fixed3d SVGA_3D_CMD_SETZRANGE SVGA3dCmdSetZRange_c
    (mk_SVGA3dCmdSetZRange cid (mk_SVGA3dZRange zMin zMax)).

Definition SetClipPlane (cid index : Z) (plane : list Z) : M bool :=
  fixed3d SVGA_3D_CMD_SETCLIPPLANE SVGA3dCmdSetClipPlane_c
    (mk_SVGA3dCmdSetClipPlane cid index (take 4 plane)).

Definition BeginSetTextureState (cid numStates : Z) : M (option ptr) :=
  begin3d SVGA_3D_CMD_SETTEXTURESTATE SVGA3dCmdSetTextureState_c (mk_SVGA3dCmdSetTextureState cid)
    (u64 (bsize SVGA3dTextureState_c * numStates))
    (fun cmd => mret (ptr_add cmd (bsize SVGA3dCmdSetTextureState_c))).

Definition BeginSetRenderState (cid numStates : Z) : M (option ptr) :=
  begin3d SVGA_3D_CMD_SETRENDERSTATE SVGA3dCmdSetRenderState_c (mk_SVGA3dCmdSetRenderState cid)
    (u64 (bsize SVGA3dRenderState_c * numStates))
    (fun cmd => mret (ptr_add cmd (bsize SVGA3dCmdSetRenderState_c))).

Definition BeginPresentReadback (numRects : Z) : M (option ptr) :=
  SVGA3D_FIFOReserve SVGA_3D_CMD_PRESENT_READBACK (u64 (bsize SVGA3dRect_c * numRects)).

Definition BeginBlitSurfaceToScreen (srcImage : SVGA3dSurfaceImageId) (srcRect : SVGASignedRect)
    (destScreenId : Z) (destRect : SVGASignedRect) (numClipRects : Z) : M (option ptr) :=
  begin3d SVGA_3D_CMD_BLIT_SURFACE_TO_SCREEN SVGA3dCmdBlitSurfaceToScreen_c
    (mk_SVGA3dCmdBlitSurfaceToScreen srcImage srcRect destScreenId destRect)
    (u64 (numClipRects * bsize SVGASignedRect_c))
    (fun cmd => mret (ptr_add cmd (bsize SVGA3dCmdBlitSurfaceToScreen_c))).

Definition BeginQuery (cid qtype : Z) : M bool :=
  fixed3d SVGA_3D_CMD_BEGIN_QUERY SVGA3dCmdBeginQuery_c (mk_SVGA3dCmdBeginQuery cid qtype).

Definition EndQuery (cid qtype gmrid offset_in_gmr : Z) : M bool :=
  fixed3d SVGA_3D_CMD_END_QUERY SVGA3dCmdEndQuery_c
    (mk_SVGA3dCmdEndQuery cid qtype (mk_SVGAGuestPtr gmrid offset_in_gmr)).

Definition WaitForQuery (cid qtype gmrid offset_in_gmr : Z) : M bool :=
  fixed3d SVGA_3D_CMD_WAIT_FOR_QUERY SVGA3dCmdWaitForQuery_c
    (mk_SVGA3dCmdWaitForQuery cid qtype (mk_SVGAGuestPtr gmrid offset_in_gmr)).

(** ** Screen objects *)

Definition SVGAScreen_Init (device : bool) : M bool :=
  if negb device then mret false
  else HasFIFOCap (Z.lor SVGA_FIFO_CAP_SCREEN_OBJECT SVGA_FIFO_CAP_SCREEN_OBJECT_2).

(** [structSize] bytes of the object are copied. *)
Definition DefineScreen (screen : SVGAScreenObject) : M bool :=
  let size := screen.(SVGAScreenObject_structSize) in
  cmd ← FIFOReserveCmd SVGA_CMD_DEFINE_SCREEN size;
  match cmd with
  | None => mret false
  | Some cmd =>
      store_words cmd 0 (take (Z.to_nat (size / 4)) (enc SVGAScreenObject_c screen));;
      FIFOCommitAll;;
      mret true
  end.

Definition DestroyScreen (screenId : Z) : M bool :=
  fixed_cmd SVGA_CMD_DESTROY_SCREEN SVGAFifoCmdDestroyScreen_c (mk_SVGAFifoCmdDestroyScreen screenId).

Definition DefineGMRFB (p : SVGAGuestPtr) (bytesPerLine format : Z) : M bool :=
  fixed_cmd SVGA_CMD_DEFINE_GMRFB SVGAFifoCmdDefineGMRFB_c
    (mk_SVGAFifoCmdDefineGMRFB p bytesPerLine format).

Definition BlitFromGMRFB (srcOrigin : SVGASignedPoint) (destRect : SVGASignedRect)
    (destScreen : Z) : M bool :=
  fixed_cmd SVGA_CMD_BLIT_GMRFB_TO_SCREEN SVGAFifoCmdBlitGMRFBToScreen_c
    (mk_SVGAFifoCmdBlitGMRFBToScreen srcOrigin destRect destScreen).

Definition BlitToGMRFB (destOrigin : SVGASignedPoint) (srcRect : SVGASignedRect)
    (srcScreen : Z) : M bool :=
  fixed_cmd SVGA_CMD_BLIT_SCREEN_TO_GMRFB SVGAFifoCmdBlitScreenToGMRFB_c
    (mk_SVGAFifoCmdBlitScreenToGMRFB destOrigin srcRect srcScreen).

Definition AnnotateFill (color : Z) : M bool :=
  fixed_cmd SVGA_CMD_ANNOTATION_FILL SVGAFifoCmdAnnotationFill_c (mk_SVGAFifoCmdAnnotationFill color).

Definition AnnotateCopy (srcOrigin : SVGASignedPoint) (srcScreen : Z) : M bool :=
  fixed_cmd SVGA_CMD_ANNOTATION_COPY SVGAFifoCmdAnnotationCopy_c
    (mk_SVGAFifoCmdAnnotationCopy srcOrigin srcScreen).
End svga3d.
