(* ===== verification/Svga3dProofs.v ===== *)
(** Correctness of the 3D and screen object layers: the device reads back the
    3D commands, every method queues the encoding of its command, and the
    commands that a caller completes are queued with what the caller stored. *)

From S2P Require Import Prelude IOKit Layout SvgaReg SvgaCmd Fifo Ring FifoProofs SvgaDevice Bits.
From S2P Require Import DeviceProofs Driver Svga3dReg Svga3d.

(** ** The language is unambiguous *)

Lemma dec_alone_enc {A} (c : coder A) mk a : ok c a -> dec_alone c mk (enc c a) = Some (mk a).
Proof.
  intros Ha. unfold dec_alone. rewrite <-(app_nil_r (enc c a)), dec_enc by done. done.
Qed.

Lemma length_flat_enc {A} (c : coder A) xs :
  Forall (ok c) xs -> Z.of_nat (length (xs ≫= enc c)) = csize c * Z.of_nat (length xs).
Proof.
  induction 1 as [|x xs Hx _ IH]; csimpl; [lia|].
  rewrite length_app, Nat2Z.inj_add, IH, enc_size by done. lia.
Qed.

Lemma dec_all_flat {A} (c : coder A) xs :
  0 < csize c -> Forall (ok c) xs ->
  dec_all c (length (xs ≫= enc c)) (xs ≫= enc c) = Some xs.
Proof.
  intros Hc Hxs. apply dec_all_enc; [done..|]. pose proof (length_flat_enc c xs Hxs). nia.
Qed.

Lemma dec_list_enc {A B} (c : coder A) (e : coder B) mk a xs :
  0 < csize e -> ok c a /\ Forall (ok e) xs ->
  dec_list c e mk (enc c a ++ (xs ≫= enc e)) = Some (mk a xs).
Proof.
  intros He [Ha Hxs]. unfold dec_list. rewrite dec_enc by done. simpl. by rewrite dec_all_flat.
Qed.

Lemma dec_array_enc {A} (c : coder A) xs l :
  Forall (ok c) xs -> dec_array c (length xs) ((xs ≫= enc c) ++ l) = Some (xs, l).
Proof. intros Hxs. by apply (dec_enc (array_c (length xs) c)). Qed.

Lemma dec_draw_enc a decls ranges :
  ok3d (DrawPrimitives a decls ranges) ->
  dec_draw (encode3d (DrawPrimitives a decls ranges)).2 = Some (DrawPrimitives a decls ranges).
Proof.
  intros (Ha & Hd & Hr & En & Er). unfold dec_draw. cbn [encode3d snd].
  rewrite dec_enc by done. cbn [mbind option_bind]. rewrite En, Nat2Z.id, dec_array_enc by done.
  cbn [mbind option_bind]. rewrite Er, Nat2Z.id, <-(app_nil_r (ranges ≫= _)), dec_array_enc by done.
  done.
Qed.

Lemma dec_dma_enc a boxes suffix :
  ok3d (SurfaceDMA a boxes suffix) ->
  dec_dma (encode3d (SurfaceDMA a boxes suffix)).2 = Some (SurfaceDMA a boxes suffix).
Proof.
  intros (Ha & Hb & Hs). unfold dec_dma. cbn [encode3d snd].
  rewrite dec_enc by done. cbn [mbind option_bind].
  pose proof (length_flat_enc SVGA3dCopyBox_c boxes Hb) as Hl.
  change (csize SVGA3dCopyBox_c) with 9 in Hl. rewrite length_app, Nat2Z.inj_add, Hl.
  destruct suffix as [s|].
  - rewrite (enc_size SVGA3dCmdSurfaceDMASuffix_c s Hs).
    change (csize SVGA3dCmdSurfaceDMASuffix_c) with 3.
    rewrite (Z.mul_comm 9), Z.add_comm, Z.div_add, Z.mod_add by lia. change (3 / 9) with 0.
    rewrite Z.add_0_l, Nat2Z.id, dec_array_enc by done. cbn [mbind option_bind].
    change (3 mod 9 =? 0) with false. cbv iota.
    by rewrite <-(app_nil_r (enc _ s)), dec_enc by done.
  - rewrite (Z.mul_comm 9), Z.add_0_r, Z.div_mul, Z.mod_mul, Nat2Z.id, dec_array_enc by done. done.
Qed.

Lemma decode3d_encode3d c : ok3d c -> decode3d (encode3d c).1 (encode3d c).2 = Some c.
Proof.
  intros Hok; destruct c;
    first
      [ exact (dec_dma_enc _ _ _ Hok)
      | exact (dec_draw_enc _ _ _ Hok)
      | exact (dec_alone_enc _ _ _ Hok)
      | refine (dec_list_enc _ _ _ _ _ _ Hok); done
      | cbn [encode3d fst snd decode3d]; rewrite dec_all_flat; done ].
Qed.

(** ** Words stored over words *)

(** [ws] over the words of [l] from index [i] on. *)
Definition splice (l : list Z) (s : Z * list Z) : list Z :=
  take (Z.to_nat s.1) l ++ s.2 ++ drop (Z.to_nat s.1 + length s.2) l.

Lemma splice_mid x y z w i :
  Z.to_nat i = length x -> length w = length y -> splice (x ++ y ++ z) (i, w) = x ++ w ++ z.
Proof.
  intros Hi Hw. unfold splice; cbn [fst snd]. rewrite Hi, Hw, take_app_length.
  do 2 f_equal. by rewrite (app_assoc x), <-length_app, drop_app_length.
Qed.

Lemma splice_last x y w i :
  Z.to_nat i = length x -> length w = length y -> splice (x ++ y) (i, w) = x ++ w.
Proof. intros. rewrite <-(app_nil_r y), splice_mid by done. by rewrite app_nil_r. Qed.

Lemma length_splice l s : 0 <= s.1 -> s.1 + Z.of_nat (length s.2) <= Z.of_nat (length l) ->
  length (splice l s) = length l.
Proof. intros. unfold splice. rewrite !length_app, length_take, length_drop. lia. Qed.

Lemma splice_shift h l s k :
  0 <= s.1 -> k = Z.of_nat (length h) -> splice (h ++ l) (k + s.1, s.2) = h ++ splice l s.
Proof.
  intros Hs ->. unfold splice; cbn [fst snd].
  replace (Z.to_nat (Z.of_nat (length h) + s.1)) with (length h + Z.to_nat s.1)%nat by lia.
  rewrite take_app_add, <-app_assoc, <-Nat.add_assoc. do 3 f_equal. by rewrite drop_app_add.
Qed.

(** Shifted stores leave the words before them. *)
Lemma splices_shift h k ss : forall l,
  k = Z.of_nat (length h) -> Forall (fun s => 0 <= s.1) ss ->
  foldl splice (h ++ l) ((fun s => (k + s.1, s.2)) <$> ss) = h ++ foldl splice l ss.
Proof.
  induction ss as [|s ss IH]; intros l Hk Hss; [done|]. apply Forall_cons_1 in Hss as [Hs Hss].
  cbn [fmap list_fmap foldl]. rewrite splice_shift by done. by apply IH.
Qed.

Lemma length_splices ss : forall l,
  Forall (fun s => 0 <= s.1 /\ s.1 + Z.of_nat (length s.2) <= Z.of_nat (length l)) ss ->
  length (foldl splice l ss) = length l.
Proof.
  induction ss as [|s ss IH]; intros l Hss; [done|]. apply Forall_cons_1 in Hss as [[? ?] Hss].
  pose proof (length_splice l s ltac:(done) ltac:(done)) as E.
  cbn [foldl]. rewrite IH; [done|]. by rewrite E.
Qed.

Section methods.
Context {HS : Type} `{SvgaHostOK HS}.
Implicit Types (d : dev HS).

(** Stores at word offsets from a pointer. *)
Fixpoint stores (p : ptr) (ss : list (Z * list Z)) : M HS unit :=
  match ss with
  | [] => skip
  | s :: ss => store_words p s.1 s.2;; stores p ss
  end.

(** A reservation of which all words have been stored, some again, and committed. *)
Lemma refill_commit {A} p n ss (a : A) fuel : forall ws d,
  pending d p n -> region d p n = ws ->
  Forall (fun s => 0 <= s.1 /\ s.1 + Z.of_nat (length s.2) <= n) ss ->
  exists d', (stores p ss;; FIFOCommitAll;; mret a) fuel d = Some (a, d') /\
    committed d d' (foldl splice ws ss).
Proof.
  induction ss as [|s ss IH]; intros ws d Hp Hw Hss; cbn [stores foldl].
  - rewrite (mbind_eq _ _ fuel d tt d eq_refl).
    destruct (FIFOCommit_spec p n fuel d Hp) as (d' & E & Hc). rewrite Hw in Hc.
    exists d'. by rewrite (mbind_eq _ _ fuel d tt d' E).
  - apply Forall_cons_1 in Hss as [[Hs1 Hs2] Hss].
    destruct (store_words_spec p n s.1 s.2 fuel d Hp Hs1 Hs2) as (d1 & E1 & Hp1 & Hk & Hr).
    destruct (IH (splice ws s) d1 Hp1) as (d' & E & Hc); [by rewrite Hr, Hw|done|].
    exists d'. rewrite mbind_assoc, (mbind_eq _ _ fuel d tt d1 E1). split; [done|].
    by eapply keeps_committed.
Qed.

Lemma full_store p n ws fuel d :
  pending d p n -> Z.of_nat (length ws) = n ->
  exists d', store_words p 0 ws fuel d = Some (tt, d') /\ pending d' p n /\ keeps d d' /\
    region d' p n = ws.
Proof.
  intros Hp Hl. destruct (store_words_spec p n 0 ws fuel d Hp) as (d1 & E1 & Hp1 & Hk1 & Hr); [lia..|].
  exists d1. repeat split; try done; try apply Hp1; try apply Hk1. rewrite Hr. simpl.
  rewrite drop_ge, app_nil_r; [done|]. rewrite length_region. lia.
Qed.

(** A 3D command: the header, then the body. *)
Lemma emits_Reserve3D {A} n (id : Z) (k : option ptr -> M HS A) d a ws :
  idle d -> room d (2 + n) -> 0 <= n ->
  (forall d' p fuel, pending d' p (2 + n) -> keeps d d' ->
     exists d'', (store_words p 0 [id; 4 * n];; k (Some (ptr_add p 8))) fuel d' = Some (a, d'') /\
       committed d' d'' ws) ->
  emits (SVGA3D_FIFOReserve id (4 * n) ≫= k) d a ws.
Proof.
  intros Hi [Hn Hs] H0n Hk. unfold SVGA3D_FIFOReserve. change (bsize SVGA3dCmdHeader_c) with 8.
  replace (u64 (8 + 4 * n)) with (4 * (2 + n)) by (rewrite wrap_small; unfold fits; lia).
  rewrite (wrap_small 32 (4 * n)) by (unfold fits; lia).
  eapply emits_ext; [intros; symmetry; apply mbind_assoc|].
  apply emits_reserve; [done..|]. intros d' p fuel Hp Hkeep.
  destruct (Hk d' p fuel Hp Hkeep) as (d'' & E & Hc). exists d''.
  split; [|done]. rewrite <-E. apply mbind_assoc.
Qed.

Lemma fixed3d_emits {A} (id : SVGA3dCmdId) (c : coder A) a d :
  idle d -> ok c a -> room d (2 + csize c) ->
  emits (fixed3d id c a) d true (encode_cmd (Cmd3D id (enc c a))).
Proof.
  intros Hi Hok Hr. pose proof (csize_nonneg _ c). unfold fixed3d, bsize.
  apply emits_Reserve3D; [done..|]. intros d' p fuel Hp _. merge_stores.
  cbn [encode_cmd]. rewrite (enc_size c a Hok).
  apply (fill_commit p (2 + csize c)); [done|]. simpl length. rewrite <-(enc_size c a Hok). lia.
Qed.

(** The caller's part of a command that it completes. *)
Definition complete {B} (m : M HS (option B)) (fill : B -> M HS unit) : M HS bool :=
  r ← m;
  match r with
  | None => mret false
  | Some r => fill r;; FIFOCommitAll;; mret true
  end.

(** Stores relative to a command pointer, after the fixed part. *)
Lemma stores_ptr_add p k ss fuel d :
  stores (ptr_add p (4 * k)) ss fuel d = stores p ((fun s => (k + s.1, s.2)) <$> ss) fuel d.
Proof.
  revert d. induction ss as [|s ss IH]; intros d; [done|]. cbn [stores fmap list_fmap fst snd].
  rewrite store_ptr_add. by apply seq_ext.
Qed.

(** The caller's stores [ss] make the words [body], whatever the reservation held. *)
Lemma reserve3d_stores {A} n (id : SVGA3dCmdId) ss body (K : option ptr -> M HS A) a d :
  (forall cmd fuel d, K (Some cmd) fuel d = (stores cmd ss;; FIFOCommitAll;; mret a) fuel d) ->
  n = Z.of_nat (length body) -> (forall old, Z.of_nat (length old) = n -> foldl splice old ss = body) ->
  Forall (fun s => 0 <= s.1 /\ s.1 + Z.of_nat (length s.2) <= n) ss ->
  idle d -> room d (2 + n) ->
  emits (SVGA3D_FIFOReserve id (4 * n) ≫= K) d a (encode_cmd (Cmd3D id body)).
Proof.
  intros HK En Hb Hss Hi Hr. apply emits_Reserve3D; [done|done|lia|]. intros d' p fuel Hp _.
  set (ss' := (0, [(id : Z); 4 * n]) :: ((fun s => (2 + s.1, s.2)) <$> ss)).
  destruct (refill_commit p (2 + n) ss' a fuel (region d' p (2 + n)) d' Hp eq_refl) as (d'' & E & Hc).
  { apply Forall_cons; [simpl; lia|]. apply Forall_fmap. eapply Forall_impl; [|exact Hss]. simpl. intros; lia. }
  exists d''. split.
  - rewrite <-E. unfold ss'. cbn [stores fst snd]. rewrite mbind_assoc. apply seq_ext; intros d1.
    rewrite HK. unfold mbind at 1 3, M_bind at 1 3. by rewrite (stores_ptr_add p 2).
  - pose proof (length_region d' p (2 + n)) as Hl.
    destruct (region d' p (2 + n)) as [|x [|y old]] eqn:Eo; [simpl in Hl; lia..|].
    unfold ss' in Hc. cbn [foldl] in Hc.
    change (splice (x :: y :: old) (0, [(id : Z); 4 * n])) with ([(id : Z); 4 * n] ++ old) in Hc.
    rewrite splices_shift in Hc; [|done|eapply Forall_impl; [|exact Hss]; simpl; intros; lia].
    rewrite Hb in Hc by (simpl in Hl; lia). cbn [encode_cmd]. by rewrite <-En.
Qed.

(** The same behind a structure. *)
Lemma begin3d_stores {A B} (id : SVGA3dCmdId) (c : coder A) a extra m ss body
    (k : ptr -> M HS B) (fill : B -> M HS unit) d :
  ok c a -> extra = 4 * m -> 0 <= m -> Z.of_nat (length body) = csize c + m ->
  (forall old, Z.of_nat (length old) = m -> foldl splice (enc c a ++ old) ss = body) ->
  (forall cmd fuel d, (k cmd ≫= fill) fuel d = stores cmd ss fuel d) ->
  Forall (fun s => 0 <= s.1 /\ s.1 + Z.of_nat (length s.2) <= csize c + m) ss ->
  idle d -> room d (2 + Z.of_nat (length body)) ->
  emits (complete (begin3d id c a extra k) fill) d true (encode_cmd (Cmd3D id body)).
Proof.
  intros Hok -> Hm Hl Hb Hk Hss Hi Hr. pose proof (enc_size c a Hok) as Hc.
  rewrite Hl in Hr. pose proof Hr as [Hn _]. unfold complete, begin3d, bsize.
  replace (u64 (4 * csize c + 4 * m)) with (4 * (csize c + m))
    by (pose proof (csize_nonneg _ c); rewrite wrap_small; unfold fits; lia).
  eapply emits_ext; [intros; symmetry; apply mbind_assoc|].
  apply (reserve3d_stores _ id ((0, enc c a) :: ss)); [|done| | |done|done].
  - intros cmd fuel d1. cbn [stores fst snd]. rewrite !mbind_assoc. apply seq_ext; intros d2.
    rewrite !mbind_assoc.
    transitivity (((k cmd ≫= fill) ≫= fun _ => FIFOCommitAll;; mret true) fuel d2);
      [by rewrite !mbind_assoc|].
    unfold mbind at 1, M_bind at 1. by rewrite Hk.
  - intros old Ho. cbn [foldl]. rewrite <-(take_drop (length (enc c a)) old).
    pose proof (csize_nonneg _ c).
    pose proof (splice_mid [] (take (length (enc c a)) old) (drop (length (enc c a)) old) (enc c a) 0) as E.
    cbn [app] in E. rewrite E by (try done; rewrite length_take; lia). apply Hb. rewrite length_drop. lia.
  - apply Forall_cons; [simpl; lia|done].
Qed.

(** The words behind the fixed part are first [zs], then changed by the
    caller's stores [ss]. *)
Lemma begin3d_emits {A B} (id : SVGA3dCmdId) (c : coder A) a extra zs ss body
    (k : ptr -> M HS B) (fill : B -> M HS unit) d :
  ok c a -> extra = 4 * Z.of_nat (length zs) -> body = foldl splice (enc c a ++ zs) ss ->
  (forall cmd fuel d, (k cmd ≫= fill) fuel d =
     (store_words cmd (csize c) zs;; stores cmd ss) fuel d) ->
  Forall (fun s => 0 <= s.1 /\ s.1 + Z.of_nat (length s.2) <= csize c + Z.of_nat (length zs)) ss ->
  idle d -> room d (2 + Z.of_nat (length body)) ->
  emits (complete (begin3d id c a extra k) fill) d true (encode_cmd (Cmd3D id body)).
Proof.
  intros Hok He -> Hk Hss Hi Hr. pose proof (csize_nonneg _ c). pose proof (enc_size c a Hok) as Hc.
  apply (begin3d_stores id c a extra (Z.of_nat (length zs)) ((csize c, zs) :: ss));
    [done|done|lia| | |exact Hk| |done|done].
  - rewrite length_splices, length_app; [lia|]. eapply Forall_impl; [|exact Hss]. simpl.
    rewrite length_app. intros; lia.
  - intros old Ho. cbn [foldl]. rewrite splice_last by lia. done.
  - apply Forall_cons; [simpl; lia|done].
Qed.

(** ** The methods queue their commands *)

Lemma seq_skip (m : M HS unit) fuel d : (m;; skip) fuel d = m fuel d.
Proof. unfold mbind, M_bind. by destruct (m fuel d) as [[[] ?]|]. Qed.

Lemma room_body d (id : Z) body :
  room d (Z.of_nat (length (encode_cmd (Cmd3D id body)))) -> room d (2 + Z.of_nat (length body)).
Proof. cbn [encode_cmd length]. by replace (2 + _) with (Z.of_nat (S (S (length body)))) by lia. Qed.

Lemma fixed3d_queues {A} (id : SVGA3dCmdId) (c : coder A) a cmd :
  encode3d cmd = (id, enc c a) -> ok c a -> Queues (fixed3d id c a) (cmd3d cmd).
Proof.
  intros E Hok d Hi Hr. unfold cmd3d in *. rewrite E in *. apply fixed3d_emits; [done..|].
  apply room_body in Hr. cbn [snd] in Hr. by rewrite enc_size in Hr.
Qed.

(** The size in bytes of a list of structures that fits. *)
Lemma flat_bytes {A} (e : coder A) xs :
  Forall (ok e) xs -> Z.of_nat (length (xs ≫= enc e)) <= 0x4000 ->
  u64 (bsize e * Z.of_nat (length xs)) = 4 * Z.of_nat (length (xs ≫= enc e)).
Proof.
  intros Hxs Hl. pose proof (length_flat_enc e xs Hxs) as E. unfold bsize.
  rewrite wrap_small; [lia|]. unfold fits. lia.
Qed.

Lemma length_zeros n : 0 <= n -> length (zeros (4 * n)) = Z.to_nat n.
Proof. intros. unfold zeros. by rewrite length_replicate, (Z.mul_comm 4), Z.div_mul. Qed.

(** The tail is what the caller stores. *)
Lemma begin_list_queues {A B} (id : SVGA3dCmdId) (c : coder A) (e : coder B) a xs cmd :
  encode3d cmd = (id, enc c a ++ (xs ≫= enc e)) -> ok c a -> Forall (ok e) xs ->
  Queues (complete (begin3d id c a (u64 (bsize e * Z.of_nat (length xs)))
                      (fun cmd => mret (ptr_add cmd (bsize c))))
            (fun p => store_words p 0 (xs ≫= enc e))) (cmd3d cmd).
Proof.
  intros E Ha Hxs d Hi Hr. unfold cmd3d in *. rewrite E in *. cbn [fst snd] in *.
  apply room_body in Hr. pose proof Hr as [Hn _]. rewrite length_app in Hn.
  apply (begin3d_emits id c a _ (xs ≫= enc e) []); [done|apply flat_bytes; [done|lia]|done| |done..].
  intros p fuel d'. rewrite (mbind_eq _ _ fuel d' (ptr_add p (bsize c)) d' eq_refl).
  unfold bsize. rewrite store_ptr_add, Z.add_0_r. done.
Qed.

(** The tail is cleared, then stored by the caller. *)
Lemma begin_zeroed_queues {A B} (id : SVGA3dCmdId) (c : coder A) (e : coder B) a xs cmd :
  encode3d cmd = (id, enc c a ++ (xs ≫= enc e)) -> ok c a -> Forall (ok e) xs ->
  let size := u64 (bsize e * Z.of_nat (length xs)) in
  Queues (complete (begin3d id c a size
                      (fun cmd => store_words (ptr_add cmd (bsize c)) 0 (zeros size);;
                                  mret (ptr_add cmd (bsize c))))
            (fun p => store_words p 0 (xs ≫= enc e))) (cmd3d cmd).
Proof.
  intros E Ha Hxs size d Hi Hr. unfold cmd3d in *. rewrite E in *. cbn [fst snd] in *.
  apply room_body in Hr. pose proof Hr as [Hn _]. rewrite length_app in Hn.
  assert (size = 4 * Z.of_nat (length (xs ≫= enc e))) as -> by (apply flat_bytes; [done|lia]).
  pose proof (csize_nonneg _ c). pose proof (enc_size c a Ha).
  apply (begin3d_emits id c a _ (zeros (4 * Z.of_nat (length (xs ≫= enc e))))
    [(csize c, xs ≫= enc e)]); [done|rewrite length_zeros; lia| | | |done|done].
  - cbn [foldl]. rewrite splice_last; [done|lia|rewrite length_zeros; lia].
  - intros p fuel d'. rewrite mbind_assoc. unfold bsize. rewrite store_ptr_add, Z.add_0_r.
    apply seq_ext; intros d2. rewrite (mbind_eq _ _ fuel d2 (ptr_add p (4 * csize c)) d2 eq_refl).
    rewrite store_ptr_add, Z.add_0_r. cbn [stores fst snd]. by rewrite seq_skip.
  - apply Forall_singleton. cbn [fst snd]. rewrite length_zeros; lia.
Qed.

#[global] Instance DestroySurface_queues sid :
  let cmd := SurfaceDestroy (mk_SVGA3dCmdDestroySurface sid) in
  ok3d cmd -> Queues (DestroySurface sid) (cmd3d cmd).
Proof. intros. by apply fixed3d_queues. Qed.

#[global] Instance DefineContext_queues cid :
  let cmd := ContextDefine (mk_SVGA3dCmdDefineContext cid) in
  ok3d cmd -> Queues (DefineContext cid) (cmd3d cmd).
Proof. intros. by apply fixed3d_queues. Qed.

#[global] Instance DestroyContext_queues cid :
  let cmd := ContextDestroy (mk_SVGA3dCmdDestroyContext cid) in
  ok3d cmd -> Queues (DestroyContext cid) (cmd3d cmd).
Proof. intros. by apply fixed3d_queues. Qed.

#[global] Instance SetRenderTarget_queues cid type target :
  let cmd := RenderTargetSet (mk_SVGA3dCmdSetRenderTarget cid type target) in
  ok3d cmd -> Queues (SetRenderTarget cid type target) (cmd3d cmd).
Proof. intros. by apply fixed3d_queues. Qed.

#[global] Instance SetTransform_queues cid type matrix :
  let cmd := TransformSet (mk_SVGA3dCmdSetTransform cid type (take 16 matrix)) in
  ok3d cmd -> Queues (SetTransform cid type matrix) (cmd3d cmd).
Proof. intros. by apply fixed3d_queues. Qed.

#[global] Instance SetMaterial_queues cid face material :
  let cmd := MaterialSet (mk_SVGA3dCmdSetMaterial cid face material) in
  ok3d cmd -> Queues (SetMaterial cid face material) (cmd3d cmd).
Proof. intros. by apply fixed3d_queues. Qed.

#[global] Instance SetLightEnabled_queues cid index (enabled : bool) :
  let cmd := LightEnabledSet (mk_SVGA3dCmdSetLightEnabled cid index (if enabled then 1 else 0)) in
  ok3d cmd -> Queues (SetLightEnabled cid index enabled) (cmd3d cmd).
Proof. intros. by apply fixed3d_queues. Qed.

#[global] Instance SetLightData_queues cid index data :
  let cmd := LightDataSet (mk_SVGA3dCmdSetLightData cid index data) in
  ok3d cmd -> Queues (SetLightData cid index data) (cmd3d cmd).
Proof. intros. by apply fixed3d_queues. Qed.

#[global] Instance DestroyShader_queues cid shid type :
  let cmd := ShaderDestroy (mk_SVGA3dCmdDestroyShader cid shid type) in
  ok3d cmd -> Queues (DestroyShader cid shid type) (cmd3d cmd).
Proof. intros. by apply fixed3d_queues. Qed.

#[global] Instance SetShader_queues cid type shid :
  let cmd := ShaderSet (mk_SVGA3dCmdSetShader cid type shid) in
  ok3d cmd -> Queues (SetShader cid type shid) (cmd3d cmd).
Proof. intros. by apply fixed3d_queues. Qed.

#[global] Instance SurfaceStretchBlt_queues src dest boxSrc boxDest mode :
  let cmd := SurfaceStretch (mk_SVGA3dCmdSurfaceStretchBlt src dest boxSrc boxDest mode) in
  ok3d cmd -> Queues (SurfaceStretchBlt src dest boxSrc boxDest mode) (cmd3d cmd).
Proof. intros. by apply fixed3d_queues. Qed.

#[global] Instance SetViewport_queues cid rect :
  let cmd := ViewportSet (mk_SVGA3dCmdSetViewport cid rect) in
  ok3d cmd -> Queues (SetViewport cid rect) (cmd3d cmd).
Proof. intros. by apply fixed3d_queues. Qed.

#[global] Instance SetScissorRect_queues cid rect :
  let cmd := ScissorRectSet (mk_SVGA3dCmdSetScissorRect cid rect) in
  ok3d cmd -> Queues (SetScissorRect cid rect) (cmd3d cmd).
Proof. intros. by apply fixed3d_queues. Qed.

#[global] Instance SetZRange_queues cid zMin zMax :
  let cmd := ZRangeSet (mk_SVGA3dCmdSetZRange cid (mk_SVGA3dZRange zMin zMax)) in
  ok3d cmd -> Queues (SetZRange cid zMin zMax) (cmd3d cmd).
Proof. intros. by apply fixed3d_queues. Qed.

#[global] Instance SetClipPlane_queues cid index plane :
  let cmd := ClipPlaneSet (mk_SVGA3dCmdSetClipPlane cid index (take 4 plane)) in
  ok3d cmd -> Queues (SetClipPlane cid index plane) (cmd3d cmd).
Proof. intros. by apply fixed3d_queues. Qed.

#[global] Instance BeginQuery_queues cid qtype :
  let cmd := QueryBegin (mk_SVGA3dCmdBeginQuery cid qtype) in
  ok3d cmd -> Queues (BeginQuery cid qtype) (cmd3d cmd).
Proof. intros. by apply fixed3d_queues. Qed.

#[global] Instance EndQuery_queues cid qtype gmrid off :
  let cmd := QueryEnd (mk_SVGA3dCmdEndQuery cid qtype (mk_SVGAGuestPtr gmrid off)) in
  ok3d cmd -> Queues (EndQuery cid qtype gmrid off) (cmd3d cmd).
Proof. intros. by apply fixed3d_queues. Qed.

#[global] Instance WaitForQuery_queues cid qtype gmrid off :
  let cmd := QueryWait (mk_SVGA3dCmdWaitForQuery cid qtype (mk_SVGAGuestPtr gmrid off)) in
  ok3d cmd -> Queues (WaitForQuery cid qtype gmrid off) (cmd3d cmd).
Proof. intros. by apply fixed3d_queues. Qed.

#[global] Instance BeginSurfaceDMA_queues guest host transfer xs :
  let cmd := SurfaceDMA (mk_SVGA3dCmdSurfaceDMA guest host transfer) xs None in
  ok3d cmd ->
  Queues (complete (BeginSurfaceDMA guest host transfer (Z.of_nat (length xs)))
            (fun p => store_words p 0 (xs ≫= enc SVGA3dCopyBox_c))) (cmd3d cmd).
Proof.
  intros cmd (Ha & Hxs & _). apply (begin_zeroed_queues _ SVGA3dCmdSurfaceDMA_c SVGA3dCopyBox_c); [|done..].
  unfold cmd. cbn [encode3d]. by rewrite app_nil_r.
Qed.

#[global] Instance BeginSurfaceCopy_queues src dest xs :
  let cmd := SurfaceCopy (mk_SVGA3dCmdSurfaceCopy src dest) xs in
  ok3d cmd ->
  Queues (complete (BeginSurfaceCopy src dest (Z.of_nat (length xs)))
            (fun p => store_words p 0 (xs ≫= enc SVGA3dCopyBox_c))) (cmd3d cmd).
Proof.
  intros cmd [Ha Hxs]. by apply (begin_zeroed_queues _ SVGA3dCmdSurfaceCopy_c SVGA3dCopyBox_c).
Qed.

#[global] Instance BeginPresent_queues sid xs :
  let cmd := Present (mk_SVGA3dCmdPresent sid) xs in
  ok3d cmd ->
  Queues (complete (BeginPresent sid (Z.of_nat (length xs)))
            (fun p => store_words p 0 (xs ≫= enc SVGA3dCopyRect_c))) (cmd3d cmd).
Proof.
  intros cmd [Ha Hxs]. by apply (begin_list_queues _ SVGA3dCmdPresent_c SVGA3dCopyRect_c).
Qed.

#[global] Instance BeginClear_queues cid flags color depth stencil xs :
  let cmd := Clear (mk_SVGA3dCmdClear cid flags color depth stencil) xs in
  ok3d cmd ->
  Queues (complete (BeginClear cid flags color depth stencil (Z.of_nat (length xs)))
            (fun p => store_words p 0 (xs ≫= enc SVGA3dRect_c))) (cmd3d cmd).
Proof.
  intros cmd [Ha Hxs]. by apply (begin_list_queues _ SVGA3dCmdClear_c SVGA3dRect_c).
Qed.

#[global] Instance BeginSetTextureState_queues cid xs :
  let cmd := TextureStateSet (mk_SVGA3dCmdSetTextureState cid) xs in
  ok3d cmd ->
  Queues (complete (BeginSetTextureState cid (Z.of_nat (length xs)))
            (fun p => store_words p 0 (xs ≫= enc SVGA3dTextureState_c))) (cmd3d cmd).
Proof.
  intros cmd [Ha Hxs]. by apply (begin_list_queues _ SVGA3dCmdSetTextureState_c SVGA3dTextureState_c).
Qed.

#[global] Instance BeginSetRenderState_queues cid xs :
  let cmd := RenderStateSet (mk_SVGA3dCmdSetRenderState cid) xs in
  ok3d cmd ->
  Queues (complete (BeginSetRenderState cid (Z.of_nat (length xs)))
            (fun p => store_words p 0 (xs ≫= enc SVGA3dRenderState_c))) (cmd3d cmd).
Proof.
  intros cmd [Ha Hxs]. by apply (begin_list_queues _ SVGA3dCmdSetRenderState_c SVGA3dRenderState_c).
Qed.

#[global] Instance BeginBlitSurfaceToScreen_queues img r scr r2 xs :
  let cmd := BlitSurfaceToScreen (mk_SVGA3dCmdBlitSurfaceToScreen img r scr r2) xs in
  ok3d cmd ->
  Queues (complete (BeginBlitSurfaceToScreen img r scr r2 (Z.of_nat (length xs)))
            (fun p => store_words p 0 (xs ≫= enc SVGASignedRect_c))) (cmd3d cmd).
Proof.
  intros cmd [Ha Hxs]. unfold BeginBlitSurfaceToScreen. rewrite Z.mul_comm.
  by apply (begin_list_queues _ SVGA3dCmdBlitSurfaceToScreen_c SVGASignedRect_c).
Qed.

(** The number of boxes must be the one announced; the suffix follows them. *)
#[global] Instance BeginSurfaceDMAwithSuffix_queues guest host transfer maximumOffset flags xs :
  let s := mk_SVGA3dCmdSurfaceDMASuffix 12 maximumOffset flags in
  let cmd := SurfaceDMA (mk_SVGA3dCmdSurfaceDMA guest host transfer) xs (Some s) in
  ok3d cmd ->
  Queues (complete (BeginSurfaceDMAwithSuffix guest host transfer (Z.of_nat (length xs)) maximumOffset flags)
            (fun p => store_words p 0 (xs ≫= enc SVGA3dCopyBox_c))) (cmd3d cmd).
Proof.
  intros s cmd (Ha & Hxs & Hs) d Hi Hr. unfold cmd, cmd3d in *. cbn [encode3d fst snd] in *.
  apply room_body in Hr. pose proof Hr as [Hn _]. rewrite !length_app in Hn.
  set (b := xs ≫= enc SVGA3dCopyBox_c) in *. unfold BeginSurfaceDMAwithSuffix. cbv zeta.
  assert (u64 (bsize SVGA3dCopyBox_c * Z.of_nat (length xs)) = 4 * Z.of_nat (length b)) as ->
    by (apply flat_bytes; [done|unfold b in Hn; lia]).
  pose proof (enc_size _ _ Ha) as Hla. pose proof (enc_size _ _ Hs) as Hls.
  change (csize SVGA3dCmdSurfaceDMASuffix_c) with 3 in Hls. change (csize SVGA3dCmdSurfaceDMA_c) with 7 in Hla.
  pose proof (length_zeros (Z.of_nat (length b)) ltac:(lia)) as Hz. rewrite Nat2Z.id in Hz.
  refine (begin3d_emits SVGA_3D_CMD_SURFACE_DMA SVGA3dCmdSurfaceDMA_c _ _
    (zeros (4 * Z.of_nat (length b)) ++ enc SVGA3dCmdSurfaceDMASuffix_c s) [(7, b)] _ _ _ d Ha _ _ _ _ Hi Hr).
  - rewrite length_app, Nat2Z.inj_add, Hz, Hls. change (bsize SVGA3dCmdSurfaceDMASuffix_c) with 12.
    rewrite wrap_small; unfold fits; lia.
  - cbn [foldl]. rewrite splice_mid; [done|lia|done].
  - intros p fuel d'. change (bsize SVGA3dCmdSurfaceDMA_c) with (4 * 7). rewrite !mbind_assoc.
    change (csize SVGA3dCmdSurfaceDMA_c) with 7.
    rewrite <-(store_store p 7 (7 + Z.of_nat (length b)) (zeros _)) by (rewrite Hz; done).
    rewrite !store_ptr_add, !Z.add_0_r. apply seq_ext; intros d2. rewrite mbind_assoc.
    apply seq_ext; intros d3. rewrite (mbind_eq _ _ fuel d3 (ptr_add p (4 * 7)) d3 eq_refl).
    rewrite store_ptr_add, Z.add_0_r. 
    cbn [stores fst snd]. by rewrite seq_skip.
  - apply Forall_singleton. cbn [fst snd]. rewrite length_app, Hz. change (csize SVGA3dCmdSurfaceDMA_c) with 7. lia.
Qed.

(** The caller stores the declarations and the ranges. *)
#[global] Instance BeginDrawPrimitives_queues cid decls ranges :
  let cmd := DrawPrimitives (mk_SVGA3dCmdDrawPrimitives cid (Z.of_nat (length decls))
               (Z.of_nat (length ranges))) decls ranges in
  ok3d cmd ->
  Queues (complete (BeginDrawPrimitives cid (Z.of_nat (length decls)) (Z.of_nat (length ranges)))
            (fun '(p, q) => store_words p 0 (decls ≫= enc SVGA3dVertexDecl_c);;
                            store_words q 0 (ranges ≫= enc SVGA3dPrimitiveRange_c))) (cmd3d cmd).
Proof.
  intros cmd (Ha & Hd & Hrs & _) d Hi Hr. unfold cmd, cmd3d in *. cbn [encode3d fst snd] in *.
  apply room_body in Hr. pose proof Hr as [Hn _]. rewrite !length_app in Hn.
  unfold BeginDrawPrimitives. cbv zeta.
  assert (u32 (Z.of_nat (length decls)) = Z.of_nat (length decls)) as -> by (apply wrap_small, Ha).
  assert (u32 (Z.of_nat (length ranges)) = Z.of_nat (length ranges)) as -> by (apply wrap_small, Ha).
  rewrite !flat_bytes by (done || lia).
  set (b := decls ≫= enc SVGA3dVertexDecl_c) in *. set (c := ranges ≫= enc SVGA3dPrimitiveRange_c) in *.
  pose proof (enc_size _ _ Ha) as Hla. change (csize SVGA3dCmdDrawPrimitives_c) with 3 in Hla.
  pose proof (length_zeros (Z.of_nat (length b)) ltac:(lia)) as Hzb. rewrite Nat2Z.id in Hzb.
  pose proof (length_zeros (Z.of_nat (length c)) ltac:(lia)) as Hzc. rewrite Nat2Z.id in Hzc.
  refine (begin3d_emits SVGA_3D_CMD_DRAW_PRIMITIVES SVGA3dCmdDrawPrimitives_c _ _
    (zeros (4 * Z.of_nat (length b)) ++ zeros (4 * Z.of_nat (length c)))
    [(3, b); (3 + Z.of_nat (length b), c)] _ _ _ d Ha _ _ _ _ Hi Hr).
  - rewrite length_app, Nat2Z.inj_add, Hzb, Hzc, wrap_small; unfold fits; lia.
  - cbn [foldl]. rewrite splice_mid by (done || lia).
    rewrite !app_assoc, splice_last; [done|rewrite length_app; lia|done].
  - intros p fuel d'. change (bsize SVGA3dCmdDrawPrimitives_c) with (4 * 3). rewrite !mbind_assoc.
    change (csize SVGA3dCmdDrawPrimitives_c) with 3.
    rewrite <-(store_store p 3 (3 + Z.of_nat (length b)) (zeros (4 * Z.of_nat (length b)))) by (rewrite Hzb; done).
    rewrite !store_ptr_add, !Z.add_0_r. apply seq_ext; intros d2. rewrite mbind_assoc.
    apply seq_ext; intros d3. erewrite (mbind_eq _ _ fuel d3 _ d3) by reflexivity.
    cbv beta iota. rewrite !store_ptr_add, !Z.add_0_r. cbn [stores fst snd].
    apply seq_ext; intros d4. by rewrite seq_skip.
  - change (csize SVGA3dCmdDrawPrimitives_c) with 3.
    rewrite length_app, Hzb, Hzc. forall_list; cbn [fst snd]; lia.
Qed.

(** The caller stores the number of mip levels of each face and their sizes. *)
#[global] Instance BeginDefineSurface_queues sid flags format faces mips :
  let cmd := SurfaceDefine (mk_SVGA3dCmdDefineSurface sid flags format faces) mips in
  ok3d cmd ->
  Queues (complete (BeginDefineSurface sid flags format (Z.of_nat (length mips)))
            (fun '(p, q) => store_words p 0 (faces ≫= enc SVGA3dSurfaceFace_c);;
                            store_words q 0 (mips ≫= enc SVGA3dSize_c))) (cmd3d cmd).
Proof.
  intros cmd [Ha Hm] d Hi Hr. unfold cmd, cmd3d in *. cbn [encode3d fst snd] in *.
  apply room_body in Hr. pose proof Hr as [Hn _]. rewrite !length_app in Hn.
  unfold BeginDefineSurface. cbv zeta. rewrite flat_bytes by (done || lia).
  set (b := mips ≫= enc SVGA3dSize_c) in *. pose proof Ha as (Hs & Hf & Hfm & Hl6 & Hfa).
  cbn [SVGA3dCmdDefineSurface_face SVGA3dCmdDefineSurface_sid fst snd] in Hl6, Hfa.
  pose proof (length_flat_enc SVGA3dSurfaceFace_c faces Hfa) as Hl.
  change (csize SVGA3dSurfaceFace_c) with 1 in Hl. rewrite Hl6 in Hl.
  pose proof (length_zeros (Z.of_nat (length b)) ltac:(lia)) as Hzb. rewrite Nat2Z.id in Hzb.
  change (enc SVGA3dCmdDefineSurface_c (mk_SVGA3dCmdDefineSurface sid flags format faces))
    with ([sid; flags; format] ++ (faces ≫= enc SVGA3dSurfaceFace_c)) in *.
  refine (begin3d_emits SVGA_3D_CMD_SURFACE_DEFINE SVGA3dCmdDefineSurface_c _ _
    (zeros (4 * Z.of_nat (length b))) [(3, faces ≫= enc SVGA3dSurfaceFace_c); (9, b)]
    _ _ _ d _ _ _ _ _ Hi Hr).
  - repeat split; try apply Hs; try apply Hf; try apply Hfm. cbn. forall_list; range_solve.
  - by rewrite Hzb.
  - change (enc SVGA3dCmdDefineSurface_c _) with ([sid; flags; format] ++ replicate 6 0).
    cbn [foldl]. rewrite <-!app_assoc, splice_mid by (done || rewrite length_replicate; lia).
    rewrite !app_assoc, splice_last; [done|rewrite length_app; change (length [_; _; _]) with 3%nat; lia|done].
  - intros p fuel d'. change (bsize SVGA3dCmdDefineSurface_c) with (4 * 9). change 12 with (4 * 3).
    change (csize SVGA3dCmdDefineSurface_c) with 9. rewrite !mbind_assoc.
    rewrite !store_ptr_add, !Z.add_0_r. apply seq_ext; intros d2.
    erewrite (mbind_eq _ _ fuel d2 _ d2) by reflexivity. cbv beta iota.
    rewrite !store_ptr_add, !Z.add_0_r. cbn [stores fst snd].
    apply seq_ext; intros d4. by rewrite seq_skip.
  - change (csize SVGA3dCmdDefineSurface_c) with 9. rewrite Hzb. forall_list; cbn [fst snd]; lia.
Qed.

#[global] Instance BeginPresentReadback_queues xs :
  ok3d (PresentReadback xs) ->
  Queues (complete (BeginPresentReadback (Z.of_nat (length xs)))
            (fun p => store_words p 0 (xs ≫= enc SVGA3dRect_c))) (cmd3d (PresentReadback xs)).
Proof.
  intros Hxs d Hi Hr. unfold cmd3d in *. cbn [encode3d fst snd] in *.
  apply room_body in Hr. pose proof Hr as [Hn _].
  unfold complete, BeginPresentReadback. rewrite flat_bytes by (done || lia).
  apply emits_Reserve3D; [done|done|lia|]. intros d' p fuel Hp _. merge_stores.
  cbn [encode_cmd]. apply (fill_commit p (2 + Z.of_nat (length (xs ≫= enc SVGA3dRect_c)))); [done|].
  simpl length. lia.
Qed.

(** *** Methods that return a code *)

Lemma flat_words (l : list Z) : (l ≫= enc word_c) = l.
Proof. induction l as [|x l IH]; [done|]. change (x :: (l ≫= enc word_c) = x :: l). by rewrite IH. Qed.

Lemma DefineShader_emits cid shid type bytecode d :
  let cmd := ShaderDefine (mk_SVGA3dCmdDefineShader cid shid type) bytecode in
  ok3d cmd -> idle d -> room d (Z.of_nat (length (encode_cmd (cmd3d cmd)))) ->
  emits (DefineShader cid shid type bytecode (4 * Z.of_nat (length bytecode))) d
    kIOReturnSuccess (encode_cmd (cmd3d cmd)).
Proof.
  intros cmd [Ha Hb] Hi Hr. unfold cmd, cmd3d in *. cbn [encode3d fst snd] in *.
  apply room_body in Hr. pose proof Hr as [Hn _]. rewrite length_app in Hr, Hn.
  rewrite flat_words in *. change (length (enc SVGA3dCmdDefineShader_c _)) with 3%nat in *.
  unfold DefineShader. change 3 with (Z.ones 2). rewrite Z.land_ones by lia.
  change (2 ^ 2) with 4. rewrite Z.mul_comm, Z_mod_mult. change (negb (0 =? 0)) with false. cbv iota.
  rewrite Z.div_mul, Nat2Z.id, firstn_all by lia.
  change (bsize SVGA3dCmdDefineShader_c) with (4 * 3).
  replace (u64 (4 * 3 + Z.of_nat (length bytecode) * 4)) with (4 * (3 + Z.of_nat (length bytecode)))
    by (rewrite wrap_small; unfold fits; lia).
  apply emits_Reserve3D; [done| |lia|].
  { by replace (2 + (3 + _)) with (2 + Z.of_nat (3 + length bytecode)) by lia. }
  intros d' p fuel Hp _. rewrite store_ptr_add. merge_stores.
  cbn [encode_cmd]. rewrite length_app.
  change (length (enc SVGA3dCmdDefineShader_c _)) with 3%nat.
  replace (4 * Z.of_nat (3 + length bytecode)) with (4 * (3 + Z.of_nat (length bytecode))) by lia.
  eapply fill_commit; [exact Hp|]. simpl. lia.
Qed.

(** The bytes of the shader must be whole words. *)
Lemma DefineShader_misaligned cid shid type bytecode len fuel d :
  len mod 4 <> 0 -> DefineShader cid shid type bytecode len fuel d = Some (kIOReturnBadArgument, d).
Proof.
  intros Hl. unfold DefineShader. change 3 with (Z.ones 2). rewrite Z.land_ones by lia.
  change (2 ^ 2) with 4. by destruct (Z.eqb_spec (len mod 4) 0).
Qed.

(** The four words of a shader constant: a boolean has one. *)
Definition const_values (ctype : Z) (value : list Z) : list Z :=
  if ctype =? SVGA3D_CONST_TYPE_BOOL then take 1 value ++ replicate 3 0 else take 4 value.

Definition const_known (ctype : Z) : bool :=
  (ctype =? SVGA3D_CONST_TYPE_FLOAT) || (ctype =? SVGA3D_CONST_TYPE_INT)
  || (ctype =? SVGA3D_CONST_TYPE_BOOL).

Lemma SetShaderConst_emits cid reg type ctype value d :
  (4 <= length value)%nat -> idle d -> room d 10 ->
  emits (SetShaderConst cid reg type ctype value) d
    (if const_known ctype then kIOReturnSuccess else kIOReturnBadArgument)
    (if const_known ctype then
       encode_cmd (cmd3d (ShaderConstSet
         (mk_SVGA3dCmdSetShaderConst cid reg type ctype (const_values ctype value))))
     else []).
Proof.
  intros Hv Hi Hr. destruct value as [|v0 [|v1 [|v2 [|v3 value]]]]; simpl in Hv; try lia. clear Hv.
  unfold SetShaderConst. change (bsize SVGA3dCmdSetShaderConst_c) with (4 * 8).
  apply emits_Reserve3D; [done|done|lia|]. intros d' p fuel Hp _.
  rewrite !store_ptr_add8. rewrite store_store by done.
  unfold const_known, const_values.
  destruct (Z.eqb_spec ctype SVGA3D_CONST_TYPE_FLOAT) as [->|Hf];
    [|destruct (Z.eqb_spec ctype SVGA3D_CONST_TYPE_INT) as [->|Hn]];
    [| |destruct (Z.eqb_spec ctype SVGA3D_CONST_TYPE_BOOL) as [->|Hb]]; cbn [orb].
  - rewrite store_store by done. by apply (fill_commit p 10).
  - rewrite store_store by done. by apply (fill_commit p 10).
  - rewrite store_store by done.
    destruct (full_store p 10 ([SVGA_3D_CMD_SET_SHADER_CONST : Z; 4 * 8] ++
      [cid; reg; type; SVGA3D_CONST_TYPE_BOOL : Z] ++ zeros 16) fuel d' Hp eq_refl)
      as (d1 & E1 & Hp1 & Hk1 & Hr1).
    destruct (refill_commit p 10 [(6, [v0])] kIOReturnSuccess fuel _ d1 Hp1 Hr1) as (d2 & E2 & Hc2);
      [apply Forall_singleton; simpl; lia|].
    exists d2. split; [|by eapply keeps_committed]. rewrite <-app_assoc.
    rewrite (mbind_eq _ _ fuel d' tt d1 E1), <-E2. cbn [stores fst snd]. rewrite mbind_assoc.
    by apply seq_ext.
  - destruct (store_words_spec p 10 0 ([SVGA_3D_CMD_SET_SHADER_CONST : Z; 4 * 8] ++ [cid; reg; type; ctype])
      fuel d' Hp ltac:(lia) ltac:(simpl; lia)) as (d1 & E1 & Hp1 & Hk1 & _).
    destruct (FIFOCommit_cancel p 10 fuel d1 Hp1) as (d2 & E2 & Hc2).
    exists d2. split; [|by eapply keeps_committed].
    by rewrite (mbind_eq _ _ fuel d' tt d1 E1), (mbind_eq _ _ fuel d1 tt d2 E2).
Qed.
End methods.

(** ** Screen objects *)

Section screen.
Context {HS : Type} `{SvgaHostOK HS}.
Implicit Types (d : dev HS).

#[global] Instance DestroyScreen_queues screenId :
  let a := mk_SVGAFifoCmdDestroyScreen screenId in
  ok SVGAFifoCmdDestroyScreen_c a -> Queues (DestroyScreen screenId) (CmdDestroyScreen a).
Proof. by apply fixed_queues. Qed.

#[global] Instance DefineGMRFB_queues p bytesPerLine format :
  let a := mk_SVGAFifoCmdDefineGMRFB p bytesPerLine format in
  ok SVGAFifoCmdDefineGMRFB_c a -> Queues (DefineGMRFB p bytesPerLine format) (CmdDefineGMRFB a).
Proof. by apply fixed_queues. Qed.

#[global] Instance BlitFromGMRFB_queues srcOrigin destRect destScreen :
  let a := mk_SVGAFifoCmdBlitGMRFBToScreen srcOrigin destRect destScreen in
  ok SVGAFifoCmdBlitGMRFBToScreen_c a ->
  Queues (BlitFromGMRFB srcOrigin destRect destScreen) (CmdBlitGMRFBToScreen a).
Proof. by apply fixed_queues. Qed.

#[global] Instance BlitToGMRFB_queues destOrigin srcRect srcScreen :
  let a := mk_SVGAFifoCmdBlitScreenToGMRFB destOrigin srcRect srcScreen in
  ok SVGAFifoCmdBlitScreenToGMRFB_c a ->
  Queues (BlitToGMRFB destOrigin srcRect srcScreen) (CmdBlitScreenToGMRFB a).
Proof. by apply fixed_queues. Qed.

#[global] Instance AnnotateFill_queues color :
  let a := mk_SVGAFifoCmdAnnotationFill color in
  ok SVGAFifoCmdAnnotationFill_c a -> Queues (AnnotateFill color) (CmdAnnotationFill a).
Proof. by apply fixed_queues. Qed.

#[global] Instance AnnotateCopy_queues srcOrigin srcScreen :
  let a := mk_SVGAFifoCmdAnnotationCopy srcOrigin srcScreen in
  ok SVGAFifoCmdAnnotationCopy_c a -> Queues (AnnotateCopy srcOrigin srcScreen) (CmdAnnotationCopy a).
Proof. by apply fixed_queues. Qed.

(** The object is copied as far as its size field says. *)
#[global] Instance DefineScreen_queues screen n :
  ok SVGAScreenObject_c screen -> 1 <= n <= csize SVGAScreenObject_c ->
  screen.(SVGAScreenObject_structSize) = 4 * n ->
  Queues (DefineScreen screen)
    (CmdDefineScreen (4 * n) (take (Z.to_nat (n - 1)) (drop 1 (enc SVGAScreenObject_c screen)))).
Proof.
  intros Hok Hn Es d Hi Hr. pose proof (enc_size _ _ Hok) as Hl.
  cbn [encode_cmd length] in *. rewrite length_take, length_drop in Hr.
  unfold DefineScreen. cbv zeta. rewrite Es.
  replace (4 * n) with (4 * (1 + n - 1)) at 1 by lia.
  apply emits_ReserveCmd; [done| |].
  { by replace (1 + n) with (Z.of_nat (S (S (Nat.min (Z.to_nat (n - 1))
      (length (enc SVGAScreenObject_c screen) - 1))))) by lia. }
  intros d' p fuel Hp _. rewrite (Z.mul_comm 4 n), Z.div_mul by lia.
  replace (Z.to_nat n) with (S (Z.to_nat (n - 1))) by lia.
  change (enc SVGAScreenObject_c screen)
    with (screen.(SVGAScreenObject_structSize) :: drop 1 (enc SVGAScreenObject_c screen)) at 1.
  cbn [take]. rewrite Es, (Z.mul_comm n 4). merge_stores. apply (fill_commit p (1 + n)); [done|].
  cbn [app length]. rewrite length_take, length_drop. lia.
Qed.
End screen.

(** ** The stream of 3D commands *)

(** The device's reading of a queue of 3D commands. *)
Definition decode_3d (c : svga_cmd) : option svga3d_cmd :=
  match c with Cmd3D id body => x ← (of_cval id : option SVGA3dCmdId); decode3d x body | _ => None end.

Lemma cmd3d_id c : is_3d_cmd (encode3d c).1 = true.
Proof. by destruct c. Qed.

Lemma Forall_flat {A} (c : coder A) xs : Forall (ok c) xs -> Forall is_u32 (xs ≫= enc c).
Proof. induction 1; csimpl; [done|]. apply Forall_app. eauto using enc_u32. Qed.
#[export] Hint Resolve Forall_flat enc_u32 : words.

Lemma encode3d_words c : ok3d c -> Forall is_u32 (encode3d c).2.
Proof.
  destruct c; cbn [ok3d encode3d snd]; intros;
    repeat match goal with
      | s : option _ |- _ => destruct s
      | Hc : _ /\ _ |- _ => destruct Hc
      end;
    rewrite ?Forall_app; eauto 10 with words.
Qed.

Lemma cmd3d_ok c : ok3d c -> Z.of_nat (length (encode3d c).2) < 2 ^ 30 -> cmd_ok (cmd3d c).
Proof.
  intros Hok Hl. split; [apply cmd3d_id|]. split; [unfold fits; lia|by apply encode3d_words].
Qed.

Lemma decode_3d_cmd3d c : ok3d c -> decode_3d (cmd3d c) = Some c.
Proof.
  intros Hok. cbn [decode_3d cmd3d].
  change (SVGA3dCmdId_val (encode3d c).1) with (cval (encode3d c).1).
  rewrite of_cval_cval. by apply decode3d_encode3d.
Qed.

Section properties3d.
Context {HS : Type} `{SvgaHostOK HS}.
Implicit Types (d : dev HS).

(** Shader constants.  A constant of a known type is queued as its four
    words (a boolean as one word and zeros); for any other type the method
    returns kIOReturnBadArgument, has given its reservation back, and has
    queued nothing. *)
Theorem SetShaderConst_queued cid reg type ctype value d :
  (4 <= length value)%nat -> idle d -> room d 10 ->
  emits (SetShaderConst cid reg type ctype value) d
    (if const_known ctype then kIOReturnSuccess else kIOReturnBadArgument)
    (if const_known ctype then
       encode_cmd (cmd3d (ShaderConstSet
         (mk_SVGA3dCmdSetShaderConst cid reg type ctype (const_values ctype value))))
     else []).
Proof. apply SetShaderConst_emits. Qed.

(** Shader definitions.  Bytecode of whole words is queued behind the
    identifiers word for word; bytecode whose length is not a multiple of four
    is refused before anything is reserved. *)
Theorem DefineShader_queued cid shid type bytecode d :
  let cmd := ShaderDefine (mk_SVGA3dCmdDefineShader cid shid type) bytecode in
  ok3d cmd -> idle d -> room d (Z.of_nat (length (encode_cmd (cmd3d cmd)))) ->
  emits (DefineShader cid shid type bytecode (4 * Z.of_nat (length bytecode))) d
    kIOReturnSuccess (encode_cmd (cmd3d cmd)) /\
  (forall len fuel, len mod 4 <> 0 ->
     DefineShader cid shid type bytecode len fuel d = Some (kIOReturnBadArgument, d)).
Proof.
  intros cmd Hok Hi Hr. split; [by apply DefineShader_emits|].
  intros. by apply DefineShader_misaligned.
Qed.
End properties3d.

(** The 3D command language is unambiguous: from the number and the body
    of an encoded command, whose lists carry no terminator, the device
    recovers the command with all its lists. *)
Theorem encode3d_roundtrip c : ok3d c -> decode3d (encode3d c).1 (encode3d c).2 = Some c.
Proof. apply decode3d_encode3d. Qed.

(** ** The hypotheses can be met *)

Lemma SetShaderConst_queued_witness :
  emits (SetShaderConst 1 2 1 9 [1; 2; 3; 4]) demo_dev kIOReturnBadArgument [].
Proof.
  apply (SetShaderConst_queued 1 2 1 9 [1; 2; 3; 4] demo_dev); [simpl; lia|exact demo_idle|].
  apply demo_room. lia.
Defined.

Lemma DefineShader_queued_witness :
  let cmd := ShaderDefine (mk_SVGA3dCmdDefineShader 1 2 1) [0xFFFE0200; 0xFFFF] in
  emits (DefineShader 1 2 1 [0xFFFE0200; 0xFFFF] 8) demo_dev kIOReturnSuccess (encode_cmd (cmd3d cmd)) /\
  (forall len fuel, len mod 4 <> 0 ->
     DefineShader 1 2 1 [0xFFFE0200; 0xFFFF] len fuel demo_dev = Some (kIOReturnBadArgument, demo_dev)).
Proof.
  apply (DefineShader_queued 1 2 1 [0xFFFE0200; 0xFFFF] demo_dev).
  - cbn. range_solve; forall_list; cbn; range_solve.
  - exact demo_idle.
  - apply demo_room. simpl. lia.
Defined.

Lemma encode3d_roundtrip_witness :
  let c := Clear (mk_SVGA3dCmdClear 1 7 0 0x3F800000 0) [mk_SVGA3dRect 0 0 640 480] in
  decode3d (encode3d c).1 (encode3d c).2 = Some c.
Proof. apply encode3d_roundtrip. cbn. range_solve; forall_list; cbn; range_solve. Defined.
