(* ===== verification/ShaderDefs.v ===== *)
(** The token format of shader byte code (ceinclude/svga3d_shaderdefs.h):
    operation codes, register files, modifiers, and the instruction, destination
    and source tokens as bit-fields. *)

From S2P Require Import Prelude Layout.

(** ** Limits and versions *)

Definition SVGA3D_INPUTREG_MAX : Z := 16.
Definition SVGA3D_OUTPUTREG_MAX : Z := 12.
Definition SVGA3D_VERTEX_SAMPLERREG_MAX : Z := 4.
Definition SVGA3D_PIXEL_SAMPLERREG_MAX : Z := 16.
Definition SVGA3D_SAMPLERREG_MAX : Z := SVGA3D_PIXEL_SAMPLERREG_MAX + SVGA3D_VERTEX_SAMPLERREG_MAX.
Definition SVGA3D_TEMPREG_MAX : Z := 32.
Definition SVGA3D_CONSTREG_MAX : Z := 256.
Definition SVGA3D_CONSTINTREG_MAX : Z := 16.
Definition SVGA3D_CONSTBOOLREG_MAX : Z := 16.
Definition SVGA3D_ADDRREG_MAX : Z := 1.
Definition SVGA3D_PREDREG_MAX : Z := 1.
Definition SVGA3D_MAX_SRC_REGS : Z := 4.
Definition SVGA3D_MAX_NESTING_LEVEL : Z := 32.
Definition SVGA3D_VS_TYPE : Z := 0xFFFE.
Definition SVGA3D_PS_TYPE : Z := 0xFFFF.
Definition SVGA3D_VS_10 : Z := Z.lor (Z.shiftl SVGA3D_VS_TYPE 16) (Z.shiftl 1 8).
Definition SVGA3D_VS_11 : Z := Z.lor SVGA3D_VS_10 1.
Definition SVGA3D_VS_20 : Z := Z.lor (Z.shiftl SVGA3D_VS_TYPE 16) (Z.shiftl 2 8).
Definition SVGA3D_VS_30 : Z := Z.lor (Z.shiftl SVGA3D_VS_TYPE 16) (Z.shiftl 3 8).
Definition SVGA3D_PS_10 : Z := Z.lor (Z.shiftl SVGA3D_PS_TYPE 16) (Z.shiftl 1 8).
Definition SVGA3D_PS_11 : Z := Z.lor SVGA3D_PS_10 1.
Definition SVGA3D_PS_12 : Z := Z.lor SVGA3D_PS_10 2.
Definition SVGA3D_PS_13 : Z := Z.lor SVGA3D_PS_10 3.
Definition SVGA3D_PS_14 : Z := Z.lor SVGA3D_PS_10 4.
Definition SVGA3D_PS_20 : Z := Z.lor (Z.shiftl SVGA3D_PS_TYPE 16) (Z.shiftl 2 8).
Definition SVGA3D_PS_30 : Z := Z.lor (Z.shiftl SVGA3D_PS_TYPE 16) (Z.shiftl 3 8).

(** The first token of a program. *)
Record SVGA3dShaderVersion := mk_SVGA3dShaderVersion {
  SVGA3dShaderVersion_minor : Z;   (** 8 bits *)
  SVGA3dShaderVersion_major : Z;   (** 8 bits *)
  SVGA3dShaderVersion_type : Z;   (** 16 bits *)
}.

#[global] Program Instance SVGA3dShaderVersion_bits : CBits SVGA3dShaderVersion := {|
  widths := [8; 8; 16];
  to_fields r :=
    [r.(SVGA3dShaderVersion_minor); r.(SVGA3dShaderVersion_major);
    r.(SVGA3dShaderVersion_type)];
  of_fields l :=
    match l with
    | [minor_; major_; type_] =>
        Some (mk_SVGA3dShaderVersion minor_ major_ type_)
    | _ => None
    end |}.
Solve Obligations with cbits_tac.

(** ** Enumerations *)

(** Versions of pixel shaders. *)
Inductive SVGA3dPixelShaderVersion : Set :=
  | SVGA3DPSVERSION_NONE | SVGA3DPSVERSION_ENABLED | SVGA3DPSVERSION_11
  | SVGA3DPSVERSION_12 | SVGA3DPSVERSION_13 | SVGA3DPSVERSION_14 | SVGA3DPSVERSION_20
  | SVGA3DPSVERSION_30 | SVGA3DPSVERSION_40 | SVGA3DPSVERSION_MAX.

Definition SVGA3dPixelShaderVersion_val (x : SVGA3dPixelShaderVersion) : Z :=
  match x with
  | SVGA3DPSVERSION_NONE => 0 | SVGA3DPSVERSION_ENABLED => 1 | SVGA3DPSVERSION_11 => 3
  | SVGA3DPSVERSION_12 => 5 | SVGA3DPSVERSION_13 => 7 | SVGA3DPSVERSION_14 => 9
  | SVGA3DPSVERSION_20 => 11 | SVGA3DPSVERSION_30 => 13 | SVGA3DPSVERSION_40 => 15
  | SVGA3DPSVERSION_MAX => 16
  end.
Coercion SVGA3dPixelShaderVersion_val : SVGA3dPixelShaderVersion >-> Z.

#[global] Program Instance SVGA3dPixelShaderVersion_enum : CEnum SVGA3dPixelShaderVersion :=
  {| cval := SVGA3dPixelShaderVersion_val;
     cvalues := [
       SVGA3DPSVERSION_NONE; SVGA3DPSVERSION_ENABLED; SVGA3DPSVERSION_11;
       SVGA3DPSVERSION_12; SVGA3DPSVERSION_13; SVGA3DPSVERSION_14; SVGA3DPSVERSION_20;
       SVGA3DPSVERSION_30; SVGA3DPSVERSION_40; SVGA3DPSVERSION_MAX] |}.
Solve Obligations with cenum_tac.

(** Versions of vertex shaders. *)
Inductive SVGA3dVertexShaderVersion : Set :=
  | SVGA3DVSVERSION_NONE | SVGA3DVSVERSION_ENABLED | SVGA3DVSVERSION_11
  | SVGA3DVSVERSION_20 | SVGA3DVSVERSION_30 | SVGA3DVSVERSION_40 | SVGA3DVSVERSION_MAX.

Definition SVGA3dVertexShaderVersion_val (x : SVGA3dVertexShaderVersion) : Z :=
  match x with
  | SVGA3DVSVERSION_NONE => 0 | SVGA3DVSVERSION_ENABLED => 1 | SVGA3DVSVERSION_11 => 3
  | SVGA3DVSVERSION_20 => 5 | SVGA3DVSVERSION_30 => 7 | SVGA3DVSVERSION_40 => 9
  | SVGA3DVSVERSION_MAX => 10
  end.
Coercion SVGA3dVertexShaderVersion_val : SVGA3dVertexShaderVersion >-> Z.

#[global] Program Instance SVGA3dVertexShaderVersion_enum : CEnum SVGA3dVertexShaderVersion :=
  {| cval := SVGA3dVertexShaderVersion_val;
     cvalues := [
       SVGA3DVSVERSION_NONE; SVGA3DVSVERSION_ENABLED; SVGA3DVSVERSION_11;
       SVGA3DVSVERSION_20; SVGA3DVSVERSION_30; SVGA3DVSVERSION_40; SVGA3DVSVERSION_MAX] |}.
Solve Obligations with cenum_tac.

(** Operation codes. *)
Inductive SVGA3dShaderOpCodeType : Set :=
  | SVGA3DOP_NOP | SVGA3DOP_MOV | SVGA3DOP_ADD | SVGA3DOP_SUB | SVGA3DOP_MAD
  | SVGA3DOP_MUL | SVGA3DOP_RCP | SVGA3DOP_RSQ | SVGA3DOP_DP3 | SVGA3DOP_DP4
  | SVGA3DOP_MIN | SVGA3DOP_MAX | SVGA3DOP_SLT | SVGA3DOP_SGE | SVGA3DOP_EXP
  | SVGA3DOP_LOG | SVGA3DOP_LIT | SVGA3DOP_DST | SVGA3DOP_LRP | SVGA3DOP_FRC
  | SVGA3DOP_M4x4 | SVGA3DOP_M4x3 | SVGA3DOP_M3x4 | SVGA3DOP_M3x3 | SVGA3DOP_M3x2
  | SVGA3DOP_CALL | SVGA3DOP_CALLNZ | SVGA3DOP_LOOP | SVGA3DOP_RET | SVGA3DOP_ENDLOOP
  | SVGA3DOP_LABEL | SVGA3DOP_DCL | SVGA3DOP_POW | SVGA3DOP_CRS | SVGA3DOP_SGN
  | SVGA3DOP_ABS | SVGA3DOP_NRM | SVGA3DOP_SINCOS | SVGA3DOP_REP | SVGA3DOP_ENDREP
  | SVGA3DOP_IF | SVGA3DOP_IFC | SVGA3DOP_ELSE | SVGA3DOP_ENDIF | SVGA3DOP_BREAK
  | SVGA3DOP_BREAKC | SVGA3DOP_MOVA | SVGA3DOP_DEFB | SVGA3DOP_DEFI | SVGA3DOP_TEXCOORD
  | SVGA3DOP_TEXKILL | SVGA3DOP_TEX | SVGA3DOP_TEXBEM | SVGA3DOP_TEXBEML
  | SVGA3DOP_TEXREG2AR | SVGA3DOP_TEXREG2GB | SVGA3DOP_TEXM3x2PAD | SVGA3DOP_TEXM3x2TEX
  | SVGA3DOP_TEXM3x3PAD | SVGA3DOP_TEXM3x3TEX | SVGA3DOP_RESERVED0
  | SVGA3DOP_TEXM3x3SPEC | SVGA3DOP_TEXM3x3VSPEC | SVGA3DOP_EXPP | SVGA3DOP_LOGP
  | SVGA3DOP_CND | SVGA3DOP_DEF | SVGA3DOP_TEXREG2RGB | SVGA3DOP_TEXDP3TEX
  | SVGA3DOP_TEXM3x2DEPTH | SVGA3DOP_TEXDP3 | SVGA3DOP_TEXM3x3 | SVGA3DOP_TEXDEPTH
  | SVGA3DOP_CMP | SVGA3DOP_BEM | SVGA3DOP_DP2ADD | SVGA3DOP_DSX | SVGA3DOP_DSY
  | SVGA3DOP_TEXLDD | SVGA3DOP_SETP | SVGA3DOP_TEXLDL | SVGA3DOP_BREAKP
  | SVGA3DOP_LAST_INST | SVGA3DOP_PHASE | SVGA3DOP_COMMENT | SVGA3DOP_END.

Definition SVGA3dShaderOpCodeType_val (x : SVGA3dShaderOpCodeType) : Z :=
  match x with
  | SVGA3DOP_NOP => 0 | SVGA3DOP_MOV => 1 | SVGA3DOP_ADD => 2 | SVGA3DOP_SUB => 3
  | SVGA3DOP_MAD => 4 | SVGA3DOP_MUL => 5 | SVGA3DOP_RCP => 6 | SVGA3DOP_RSQ => 7
  | SVGA3DOP_DP3 => 8 | SVGA3DOP_DP4 => 9 | SVGA3DOP_MIN => 10 | SVGA3DOP_MAX => 11
  | SVGA3DOP_SLT => 12 | SVGA3DOP_SGE => 13 | SVGA3DOP_EXP => 14 | SVGA3DOP_LOG => 15
  | SVGA3DOP_LIT => 16 | SVGA3DOP_DST => 17 | SVGA3DOP_LRP => 18 | SVGA3DOP_FRC => 19
  | SVGA3DOP_M4x4 => 20 | SVGA3DOP_M4x3 => 21 | SVGA3DOP_M3x4 => 22
  | SVGA3DOP_M3x3 => 23 | SVGA3DOP_M3x2 => 24 | SVGA3DOP_CALL => 25
  | SVGA3DOP_CALLNZ => 26 | SVGA3DOP_LOOP => 27 | SVGA3DOP_RET => 28
  | SVGA3DOP_ENDLOOP => 29 | SVGA3DOP_LABEL => 30 | SVGA3DOP_DCL => 31
  | SVGA3DOP_POW => 32 | SVGA3DOP_CRS => 33 | SVGA3DOP_SGN => 34 | SVGA3DOP_ABS => 35
  | SVGA3DOP_NRM => 36 | SVGA3DOP_SINCOS => 37 | SVGA3DOP_REP => 38
  | SVGA3DOP_ENDREP => 39 | SVGA3DOP_IF => 40 | SVGA3DOP_IFC => 41
  | SVGA3DOP_ELSE => 42 | SVGA3DOP_ENDIF => 43 | SVGA3DOP_BREAK => 44
  | SVGA3DOP_BREAKC => 45 | SVGA3DOP_MOVA => 46 | SVGA3DOP_DEFB => 47
  | SVGA3DOP_DEFI => 48 | SVGA3DOP_TEXCOORD => 64 | SVGA3DOP_TEXKILL => 65
  | SVGA3DOP_TEX => 66 | SVGA3DOP_TEXBEM => 67 | SVGA3DOP_TEXBEML => 68
  | SVGA3DOP_TEXREG2AR => 69 | SVGA3DOP_TEXREG2GB => 70 | SVGA3DOP_TEXM3x2PAD => 71
  | SVGA3DOP_TEXM3x2TEX => 72 | SVGA3DOP_TEXM3x3PAD => 73 | SVGA3DOP_TEXM3x3TEX => 74
  | SVGA3DOP_RESERVED0 => 75 | SVGA3DOP_TEXM3x3SPEC => 76 | SVGA3DOP_TEXM3x3VSPEC => 77
  | SVGA3DOP_EXPP => 78 | SVGA3DOP_LOGP => 79 | SVGA3DOP_CND => 80 | SVGA3DOP_DEF => 81
  | SVGA3DOP_TEXREG2RGB => 82 | SVGA3DOP_TEXDP3TEX => 83 | SVGA3DOP_TEXM3x2DEPTH => 84
  | SVGA3DOP_TEXDP3 => 85 | SVGA3DOP_TEXM3x3 => 86 | SVGA3DOP_TEXDEPTH => 87
  | SVGA3DOP_CMP => 88 | SVGA3DOP_BEM => 89 | SVGA3DOP_DP2ADD => 90
  | SVGA3DOP_DSX => 91 | SVGA3DOP_DSY => 92 | SVGA3DOP_TEXLDD => 93
  | SVGA3DOP_SETP => 94 | SVGA3DOP_TEXLDL => 95 | SVGA3DOP_BREAKP => 96
  | SVGA3DOP_LAST_INST => 97 | SVGA3DOP_PHASE => 0xfffd | SVGA3DOP_COMMENT => 0xfffe
  | SVGA3DOP_END => 0xffff
  end.
Coercion SVGA3dShaderOpCodeType_val : SVGA3dShaderOpCodeType >-> Z.

#[global] Program Instance SVGA3dShaderOpCodeType_enum : CEnum SVGA3dShaderOpCodeType :=
  {| cval := SVGA3dShaderOpCodeType_val;
     cvalues := [
       SVGA3DOP_NOP; SVGA3DOP_MOV; SVGA3DOP_ADD; SVGA3DOP_SUB; SVGA3DOP_MAD;
       SVGA3DOP_MUL; SVGA3DOP_RCP; SVGA3DOP_RSQ; SVGA3DOP_DP3; SVGA3DOP_DP4;
       SVGA3DOP_MIN; SVGA3DOP_MAX; SVGA3DOP_SLT; SVGA3DOP_SGE; SVGA3DOP_EXP;
       SVGA3DOP_LOG; SVGA3DOP_LIT; SVGA3DOP_DST; SVGA3DOP_LRP; SVGA3DOP_FRC;
       SVGA3DOP_M4x4; SVGA3DOP_M4x3; SVGA3DOP_M3x4; SVGA3DOP_M3x3; SVGA3DOP_M3x2;
       SVGA3DOP_CALL; SVGA3DOP_CALLNZ; SVGA3DOP_LOOP; SVGA3DOP_RET; SVGA3DOP_ENDLOOP;
       SVGA3DOP_LABEL; SVGA3DOP_DCL; SVGA3DOP_POW; SVGA3DOP_CRS; SVGA3DOP_SGN;
       SVGA3DOP_ABS; SVGA3DOP_NRM; SVGA3DOP_SINCOS; SVGA3DOP_REP; SVGA3DOP_ENDREP;
       SVGA3DOP_IF; SVGA3DOP_IFC; SVGA3DOP_ELSE; SVGA3DOP_ENDIF; SVGA3DOP_BREAK;
       SVGA3DOP_BREAKC; SVGA3DOP_MOVA; SVGA3DOP_DEFB; SVGA3DOP_DEFI; SVGA3DOP_TEXCOORD;
       SVGA3DOP_TEXKILL; SVGA3DOP_TEX; SVGA3DOP_TEXBEM; SVGA3DOP_TEXBEML;
       SVGA3DOP_TEXREG2AR; SVGA3DOP_TEXREG2GB; SVGA3DOP_TEXM3x2PAD;
       SVGA3DOP_TEXM3x2TEX; SVGA3DOP_TEXM3x3PAD; SVGA3DOP_TEXM3x3TEX;
       SVGA3DOP_RESERVED0; SVGA3DOP_TEXM3x3SPEC; SVGA3DOP_TEXM3x3VSPEC; SVGA3DOP_EXPP;
       SVGA3DOP_LOGP; SVGA3DOP_CND; SVGA3DOP_DEF; SVGA3DOP_TEXREG2RGB;
       SVGA3DOP_TEXDP3TEX; SVGA3DOP_TEXM3x2DEPTH; SVGA3DOP_TEXDP3; SVGA3DOP_TEXM3x3;
       SVGA3DOP_TEXDEPTH; SVGA3DOP_CMP; SVGA3DOP_BEM; SVGA3DOP_DP2ADD; SVGA3DOP_DSX;
       SVGA3DOP_DSY; SVGA3DOP_TEXLDD; SVGA3DOP_SETP; SVGA3DOP_TEXLDL; SVGA3DOP_BREAKP;
       SVGA3DOP_LAST_INST; SVGA3DOP_PHASE; SVGA3DOP_COMMENT; SVGA3DOP_END] |}.
Solve Obligations with cenum_tac.

(** Control of a texture instruction. *)
Inductive SVGA3dShaderOpCodeControlFnType : Set :=
  | SVGA3DOPCONT_NONE | SVGA3DOPCONT_PROJECT | SVGA3DOPCONT_BIAS.

Definition SVGA3dShaderOpCodeControlFnType_val (x : SVGA3dShaderOpCodeControlFnType) : Z :=
  match x with
  | SVGA3DOPCONT_NONE => 0 | SVGA3DOPCONT_PROJECT => 1 | SVGA3DOPCONT_BIAS => 2
  end.
Coercion SVGA3dShaderOpCodeControlFnType_val : SVGA3dShaderOpCodeControlFnType >-> Z.

#[global] Program Instance SVGA3dShaderOpCodeControlFnType_enum : CEnum SVGA3dShaderOpCodeControlFnType :=
  {| cval := SVGA3dShaderOpCodeControlFnType_val;
     cvalues := [
       SVGA3DOPCONT_NONE; SVGA3DOPCONT_PROJECT; SVGA3DOPCONT_BIAS] |}.
Solve Obligations with cenum_tac.

(** Comparisons. *)
Inductive SVGA3dShaderOpCodeCompFnType : Set :=
  | SVGA3DOPCOMP_RESERVED0 | SVGA3DOPCOMP_GT | SVGA3DOPCOMP_EQ | SVGA3DOPCOMP_GE
  | SVGA3DOPCOMP_LT | SVGA3DOPCOMPC_NE | SVGA3DOPCOMP_LE | SVGA3DOPCOMP_RESERVED1.

Definition SVGA3dShaderOpCodeCompFnType_val (x : SVGA3dShaderOpCodeCompFnType) : Z :=
  match x with
  | SVGA3DOPCOMP_RESERVED0 => 0 | SVGA3DOPCOMP_GT => 1 | SVGA3DOPCOMP_EQ => 2
  | SVGA3DOPCOMP_GE => 3 | SVGA3DOPCOMP_LT => 4 | SVGA3DOPCOMPC_NE => 5
  | SVGA3DOPCOMP_LE => 6 | SVGA3DOPCOMP_RESERVED1 => 7
  end.
Coercion SVGA3dShaderOpCodeCompFnType_val : SVGA3dShaderOpCodeCompFnType >-> Z.

#[global] Program Instance SVGA3dShaderOpCodeCompFnType_enum : CEnum SVGA3dShaderOpCodeCompFnType :=
  {| cval := SVGA3dShaderOpCodeCompFnType_val;
     cvalues := [
       SVGA3DOPCOMP_RESERVED0; SVGA3DOPCOMP_GT; SVGA3DOPCOMP_EQ; SVGA3DOPCOMP_GE;
       SVGA3DOPCOMP_LT; SVGA3DOPCOMPC_NE; SVGA3DOPCOMP_LE; SVGA3DOPCOMP_RESERVED1] |}.
Solve Obligations with cenum_tac.

(** Register files. *)
Inductive SVGA3dShaderRegType : Set :=
  | SVGA3DREG_TEMP | SVGA3DREG_INPUT | SVGA3DREG_CONST | SVGA3DREG_ADDR
  | SVGA3DREG_RASTOUT | SVGA3DREG_ATTROUT | SVGA3DREG_TEXCRDOUT | SVGA3DREG_CONSTINT
  | SVGA3DREG_COLOROUT | SVGA3DREG_DEPTHOUT | SVGA3DREG_SAMPLER | SVGA3DREG_CONST2
  | SVGA3DREG_CONST3 | SVGA3DREG_CONST4 | SVGA3DREG_CONSTBOOL | SVGA3DREG_LOOP
  | SVGA3DREG_TEMPFLOAT16 | SVGA3DREG_MISCTYPE | SVGA3DREG_LABEL | SVGA3DREG_PREDICATE.

Definition SVGA3dShaderRegType_val (x : SVGA3dShaderRegType) : Z :=
  match x with
  | SVGA3DREG_TEMP => 0 | SVGA3DREG_INPUT => 1 | SVGA3DREG_CONST => 2
  | SVGA3DREG_ADDR => 3 | SVGA3DREG_RASTOUT => 4 | SVGA3DREG_ATTROUT => 5
  | SVGA3DREG_TEXCRDOUT => 6 | SVGA3DREG_CONSTINT => 7 | SVGA3DREG_COLOROUT => 8
  | SVGA3DREG_DEPTHOUT => 9 | SVGA3DREG_SAMPLER => 10 | SVGA3DREG_CONST2 => 11
  | SVGA3DREG_CONST3 => 12 | SVGA3DREG_CONST4 => 13 | SVGA3DREG_CONSTBOOL => 14
  | SVGA3DREG_LOOP => 15 | SVGA3DREG_TEMPFLOAT16 => 16 | SVGA3DREG_MISCTYPE => 17
  | SVGA3DREG_LABEL => 18 | SVGA3DREG_PREDICATE => 19
  end.
Coercion SVGA3dShaderRegType_val : SVGA3dShaderRegType >-> Z.

#[global] Program Instance SVGA3dShaderRegType_enum : CEnum SVGA3dShaderRegType :=
  {| cval := SVGA3dShaderRegType_val;
     cvalues := [
       SVGA3DREG_TEMP; SVGA3DREG_INPUT; SVGA3DREG_CONST; SVGA3DREG_ADDR;
       SVGA3DREG_RASTOUT; SVGA3DREG_ATTROUT; SVGA3DREG_TEXCRDOUT; SVGA3DREG_CONSTINT;
       SVGA3DREG_COLOROUT; SVGA3DREG_DEPTHOUT; SVGA3DREG_SAMPLER; SVGA3DREG_CONST2;
       SVGA3DREG_CONST3; SVGA3DREG_CONST4; SVGA3DREG_CONSTBOOL; SVGA3DREG_LOOP;
       SVGA3DREG_TEMPFLOAT16; SVGA3DREG_MISCTYPE; SVGA3DREG_LABEL; SVGA3DREG_PREDICATE] |}.
Solve Obligations with cenum_tac.

Definition SVGA3DREG_TEXTURE : SVGA3dShaderRegType := SVGA3DREG_ADDR.
Definition SVGA3DREG_OUTPUT : SVGA3dShaderRegType := SVGA3DREG_TEXCRDOUT.

(** Rasterizer outputs. *)
Inductive SVGA3dShaderRastOutRegType : Set :=
  | SVGA3DRASTOUT_POSITION | SVGA3DRASTOUT_FOG | SVGA3DRASTOUT_PSIZE.

Definition SVGA3dShaderRastOutRegType_val (x : SVGA3dShaderRastOutRegType) : Z :=
  match x with
  | SVGA3DRASTOUT_POSITION => 0 | SVGA3DRASTOUT_FOG => 1 | SVGA3DRASTOUT_PSIZE => 2
  end.
Coercion SVGA3dShaderRastOutRegType_val : SVGA3dShaderRastOutRegType >-> Z.

#[global] Program Instance SVGA3dShaderRastOutRegType_enum : CEnum SVGA3dShaderRastOutRegType :=
  {| cval := SVGA3dShaderRastOutRegType_val;
     cvalues := [
       SVGA3DRASTOUT_POSITION; SVGA3DRASTOUT_FOG; SVGA3DRASTOUT_PSIZE] |}.
Solve Obligations with cenum_tac.

(** Miscellaneous registers. *)
Inductive SVGA3DShaderMiscRegType : Set :=
  | SVGA3DMISCREG_POSITION | SVGA3DMISCREG_FACE.

Definition SVGA3DShaderMiscRegType_val (x : SVGA3DShaderMiscRegType) : Z :=
  match x with
  | SVGA3DMISCREG_POSITION => 0 | SVGA3DMISCREG_FACE => 1
  end.
Coercion SVGA3DShaderMiscRegType_val : SVGA3DShaderMiscRegType >-> Z.

#[global] Program Instance SVGA3DShaderMiscRegType_enum : CEnum SVGA3DShaderMiscRegType :=
  {| cval := SVGA3DShaderMiscRegType_val;
     cvalues := [
       SVGA3DMISCREG_POSITION; SVGA3DMISCREG_FACE] |}.
Solve Obligations with cenum_tac.

(** Samplers. *)
Inductive SVGA3dShaderSamplerType : Set :=
  | SVGA3DSAMP_UNKNOWN | SVGA3DSAMP_2D | SVGA3DSAMP_CUBE | SVGA3DSAMP_VOLUME.

Definition SVGA3dShaderSamplerType_val (x : SVGA3dShaderSamplerType) : Z :=
  match x with
  | SVGA3DSAMP_UNKNOWN => 0 | SVGA3DSAMP_2D => 2 | SVGA3DSAMP_CUBE => 3
  | SVGA3DSAMP_VOLUME => 4
  end.
Coercion SVGA3dShaderSamplerType_val : SVGA3dShaderSamplerType >-> Z.

#[global] Program Instance SVGA3dShaderSamplerType_enum : CEnum SVGA3dShaderSamplerType :=
  {| cval := SVGA3dShaderSamplerType_val;
     cvalues := [
       SVGA3DSAMP_UNKNOWN; SVGA3DSAMP_2D; SVGA3DSAMP_CUBE; SVGA3DSAMP_VOLUME] |}.
Solve Obligations with cenum_tac.

(** Format classes of a sampler. *)
Inductive SVGA3DShaderSamplerFormatClass : Set :=
  | SVGA3DSAMPFORMAT_ARGB | SVGA3DSAMPFORMAT_V8U8 | SVGA3DSAMPFORMAT_Q8W8V8U8
  | SVGA3DSAMPFORMAT_CxV8U8 | SVGA3DSAMPFORMAT_X8L8V8U8 | SVGA3DSAMPFORMAT_A2W10V10U10
  | SVGA3DSAMPFORMAT_DXT_PMA | SVGA3DSAMPFORMAT_YUV | SVGA3DSAMPFORMAT_UYVY
  | SVGA3DSAMPFORMAT_Rx | SVGA3DSAMPFORMAT_RxGx | SVGA3DSAMPFORMAT_V16U16.

Definition SVGA3DShaderSamplerFormatClass_val (x : SVGA3DShaderSamplerFormatClass) : Z :=
  match x with
  | SVGA3DSAMPFORMAT_ARGB => 0 | SVGA3DSAMPFORMAT_V8U8 => 1
  | SVGA3DSAMPFORMAT_Q8W8V8U8 => 2 | SVGA3DSAMPFORMAT_CxV8U8 => 3
  | SVGA3DSAMPFORMAT_X8L8V8U8 => 4 | SVGA3DSAMPFORMAT_A2W10V10U10 => 5
  | SVGA3DSAMPFORMAT_DXT_PMA => 6 | SVGA3DSAMPFORMAT_YUV => 7
  | SVGA3DSAMPFORMAT_UYVY => 8 | SVGA3DSAMPFORMAT_Rx => 9 | SVGA3DSAMPFORMAT_RxGx => 10
  | SVGA3DSAMPFORMAT_V16U16 => 11
  end.
Coercion SVGA3DShaderSamplerFormatClass_val : SVGA3DShaderSamplerFormatClass >-> Z.

#[global] Program Instance SVGA3DShaderSamplerFormatClass_enum : CEnum SVGA3DShaderSamplerFormatClass :=
  {| cval := SVGA3DShaderSamplerFormatClass_val;
     cvalues := [
       SVGA3DSAMPFORMAT_ARGB; SVGA3DSAMPFORMAT_V8U8; SVGA3DSAMPFORMAT_Q8W8V8U8;
       SVGA3DSAMPFORMAT_CxV8U8; SVGA3DSAMPFORMAT_X8L8V8U8;
       SVGA3DSAMPFORMAT_A2W10V10U10; SVGA3DSAMPFORMAT_DXT_PMA; SVGA3DSAMPFORMAT_YUV;
       SVGA3DSAMPFORMAT_UYVY; SVGA3DSAMPFORMAT_Rx; SVGA3DSAMPFORMAT_RxGx;
       SVGA3DSAMPFORMAT_V16U16] |}.
Solve Obligations with cenum_tac.

(** Modifiers of a source. *)
Inductive SVGA3dShaderSrcModType : Set :=
  | SVGA3DSRCMOD_NONE | SVGA3DSRCMOD_NEG | SVGA3DSRCMOD_BIAS | SVGA3DSRCMOD_BIASNEG
  | SVGA3DSRCMOD_SIGN | SVGA3DSRCMOD_SIGNNEG | SVGA3DSRCMOD_COMP | SVGA3DSRCMOD_X2
  | SVGA3DSRCMOD_X2NEG | SVGA3DSRCMOD_DZ | SVGA3DSRCMOD_DW | SVGA3DSRCMOD_ABS
  | SVGA3DSRCMOD_ABSNEG | SVGA3DSRCMOD_NOT.

Definition SVGA3dShaderSrcModType_val (x : SVGA3dShaderSrcModType) : Z :=
  match x with
  | SVGA3DSRCMOD_NONE => 0 | SVGA3DSRCMOD_NEG => 1 | SVGA3DSRCMOD_BIAS => 2
  | SVGA3DSRCMOD_BIASNEG => 3 | SVGA3DSRCMOD_SIGN => 4 | SVGA3DSRCMOD_SIGNNEG => 5
  | SVGA3DSRCMOD_COMP => 6 | SVGA3DSRCMOD_X2 => 7 | SVGA3DSRCMOD_X2NEG => 8
  | SVGA3DSRCMOD_DZ => 9 | SVGA3DSRCMOD_DW => 10 | SVGA3DSRCMOD_ABS => 11
  | SVGA3DSRCMOD_ABSNEG => 12 | SVGA3DSRCMOD_NOT => 13
  end.
Coercion SVGA3dShaderSrcModType_val : SVGA3dShaderSrcModType >-> Z.

#[global] Program Instance SVGA3dShaderSrcModType_enum : CEnum SVGA3dShaderSrcModType :=
  {| cval := SVGA3dShaderSrcModType_val;
     cvalues := [
       SVGA3DSRCMOD_NONE; SVGA3DSRCMOD_NEG; SVGA3DSRCMOD_BIAS; SVGA3DSRCMOD_BIASNEG;
       SVGA3DSRCMOD_SIGN; SVGA3DSRCMOD_SIGNNEG; SVGA3DSRCMOD_COMP; SVGA3DSRCMOD_X2;
       SVGA3DSRCMOD_X2NEG; SVGA3DSRCMOD_DZ; SVGA3DSRCMOD_DW; SVGA3DSRCMOD_ABS;
       SVGA3DSRCMOD_ABSNEG; SVGA3DSRCMOD_NOT] |}.
Solve Obligations with cenum_tac.

(** ** Masks, modifiers and swizzles *)

Definition SVGA3DWRITEMASK_0 : Z := 1.
Definition SVGA3DWRITEMASK_1 : Z := 2.
Definition SVGA3DWRITEMASK_2 : Z := 4.
Definition SVGA3DWRITEMASK_3 : Z := 8.
Definition SVGA3DWRITEMASK_ALL : Z := 15.
Definition SVGA3DDSTMOD_NONE : Z := 0.
Definition SVGA3DDSTMOD_SATURATE : Z := 1.
Definition SVGA3DDSTMOD_PARTIALPRECISION : Z := 2.
Definition SVGA3DDSTMOD_MSAMPCENTROID : Z := 4.
Definition SVGA3DSWIZZLE_REPLICATEX : Z := 0x00.
Definition SVGA3DSWIZZLE_REPLICATEY : Z := 0x55.
Definition SVGA3DSWIZZLE_REPLICATEZ : Z := 0xAA.
Definition SVGA3DSWIZZLE_REPLICATEW : Z := 0xFF.
Definition SVGA3DSWIZZLE_NONE : Z := 0xE4.
Definition SVGA3DSWIZZLE_YZXW : Z := 0xC9.
Definition SVGA3DSWIZZLE_ZXYW : Z := 0xD2.
Definition SVGA3DSWIZZLE_WXYZ : Z := 0x1B.

(** ** Tokens *)

(** An instruction. *)
Record SVGA3dShaderInstToken := mk_SVGA3dShaderInstToken {
  SVGA3dShaderInstToken_op : Z;   (** 16 bits *)
  SVGA3dShaderInstToken_control : Z;   (** 3 bits *)
  SVGA3dShaderInstToken_reserved2 : Z;   (** 5 bits *)
  SVGA3dShaderInstToken_size : Z;   (** 4 bits *)
  SVGA3dShaderInstToken_predicated : Z;   (** 1 bit *)
  SVGA3dShaderInstToken_reserved1 : Z;   (** 1 bit *)
  SVGA3dShaderInstToken_coissue : Z;   (** 1 bit *)
  SVGA3dShaderInstToken_reserved0 : Z;   (** 1 bit *)
}.

#[global] Program Instance SVGA3dShaderInstToken_bits : CBits SVGA3dShaderInstToken := {|
  widths := [16; 3; 5; 4; 1; 1; 1; 1];
  to_fields r :=
    [r.(SVGA3dShaderInstToken_op); r.(SVGA3dShaderInstToken_control);
    r.(SVGA3dShaderInstToken_reserved2); r.(SVGA3dShaderInstToken_size);
    r.(SVGA3dShaderInstToken_predicated); r.(SVGA3dShaderInstToken_reserved1);
    r.(SVGA3dShaderInstToken_coissue); r.(SVGA3dShaderInstToken_reserved0)];
  of_fields l :=
    match l with
    | [op_; control_; reserved2_; size_; predicated_; reserved1_; coissue_; reserved0_] =>
        Some (mk_SVGA3dShaderInstToken op_ control_ reserved2_ size_ predicated_ reserved1_
        coissue_ reserved0_)
    | _ => None
    end |}.
Solve Obligations with cbits_tac.

(** A destination. *)
Record SVGA3dShaderDestToken := mk_SVGA3dShaderDestToken {
  SVGA3dShaderDestToken_num : Z;   (** 11 bits *)
  SVGA3dShaderDestToken_type_upper : Z;   (** 2 bits *)
  SVGA3dShaderDestToken_relAddr : Z;   (** 1 bit *)
  SVGA3dShaderDestToken_reserved1 : Z;   (** 2 bits *)
  SVGA3dShaderDestToken_mask : Z;   (** 4 bits *)
  SVGA3dShaderDestToken_dstMod : Z;   (** 4 bits *)
  SVGA3dShaderDestToken_shfScale : Z;   (** 4 bits *)
  SVGA3dShaderDestToken_type_lower : Z;   (** 3 bits *)
  SVGA3dShaderDestToken_reserved0 : Z;   (** 1 bit *)
}.

#[global] Program Instance SVGA3dShaderDestToken_bits : CBits SVGA3dShaderDestToken := {|
  widths := [11; 2; 1; 2; 4; 4; 4; 3; 1];
  to_fields r :=
    [r.(SVGA3dShaderDestToken_num); r.(SVGA3dShaderDestToken_type_upper);
    r.(SVGA3dShaderDestToken_relAddr); r.(SVGA3dShaderDestToken_reserved1);
    r.(SVGA3dShaderDestToken_mask); r.(SVGA3dShaderDestToken_dstMod);
    r.(SVGA3dShaderDestToken_shfScale); r.(SVGA3dShaderDestToken_type_lower);
    r.(SVGA3dShaderDestToken_reserved0)];
  of_fields l :=
    match l with
    | [num_; type_upper_; relAddr_; reserved1_; mask_; dstMod_; shfScale_; type_lower_;
    reserved0_] =>
        Some (mk_SVGA3dShaderDestToken num_ type_upper_ relAddr_ reserved1_ mask_ dstMod_
        shfScale_ type_lower_ reserved0_)
    | _ => None
    end |}.
Solve Obligations with cbits_tac.

(** A source. *)
Record SVGA3dShaderSrcToken := mk_SVGA3dShaderSrcToken {
  SVGA3dShaderSrcToken_num : Z;   (** 11 bits *)
  SVGA3dShaderSrcToken_type_upper : Z;   (** 2 bits *)
  SVGA3dShaderSrcToken_relAddr : Z;   (** 1 bit *)
  SVGA3dShaderSrcToken_reserved1 : Z;   (** 2 bits *)
  SVGA3dShaderSrcToken_swizzle : Z;   (** 8 bits *)
  SVGA3dShaderSrcToken_srcMod : Z;   (** 4 bits *)
  SVGA3dShaderSrcToken_type_lower : Z;   (** 3 bits *)
  SVGA3dShaderSrcToken_reserved0 : Z;   (** 1 bit *)
}.

#[global] Program Instance SVGA3dShaderSrcToken_bits : CBits SVGA3dShaderSrcToken := {|
  widths := [11; 2; 1; 2; 8; 4; 3; 1];
  to_fields r :=
    [r.(SVGA3dShaderSrcToken_num); r.(SVGA3dShaderSrcToken_type_upper);
    r.(SVGA3dShaderSrcToken_relAddr); r.(SVGA3dShaderSrcToken_reserved1);
    r.(SVGA3dShaderSrcToken_swizzle); r.(SVGA3dShaderSrcToken_srcMod);
    r.(SVGA3dShaderSrcToken_type_lower); r.(SVGA3dShaderSrcToken_reserved0)];
  of_fields l :=
    match l with
    | [num_; type_upper_; relAddr_; reserved1_; swizzle_; srcMod_; type_lower_; reserved0_]
    =>
        Some (mk_SVGA3dShaderSrcToken num_ type_upper_ relAddr_ reserved1_ swizzle_ srcMod_
        type_lower_ reserved0_)
    | _ => None
    end |}.
Solve Obligations with cbits_tac.

(** First token of the declaration of an input. *)
Record SVGA3DOpDclArgs_input := mk_SVGA3DOpDclArgs_input {
  SVGA3DOpDclArgs_input_usage : Z;   (** 5 bits *)
  SVGA3DOpDclArgs_input_reserved1 : Z;   (** 11 bits *)
  SVGA3DOpDclArgs_input_index : Z;   (** 4 bits *)
  SVGA3DOpDclArgs_input_reserved0 : Z;   (** 12 bits *)
}.

#[global] Program Instance SVGA3DOpDclArgs_input_bits : CBits SVGA3DOpDclArgs_input := {|
  widths := [5; 11; 4; 12];
  to_fields r :=
    [r.(SVGA3DOpDclArgs_input_usage); r.(SVGA3DOpDclArgs_input_reserved1);
    r.(SVGA3DOpDclArgs_input_index); r.(SVGA3DOpDclArgs_input_reserved0)];
  of_fields l :=
    match l with
    | [usage_; reserved1_; index_; reserved0_] =>
        Some (mk_SVGA3DOpDclArgs_input usage_ reserved1_ index_ reserved0_)
    | _ => None
    end |}.
Solve Obligations with cbits_tac.

(** First token of the declaration of a sampler. *)
Record SVGA3DOpDclArgs_sampler := mk_SVGA3DOpDclArgs_sampler {
  SVGA3DOpDclArgs_sampler_reserved3 : Z;   (** 27 bits *)
  SVGA3DOpDclArgs_sampler_type : Z;   (** 4 bits *)
  SVGA3DOpDclArgs_sampler_reserved2 : Z;   (** 1 bit *)
}.

#[global] Program Instance SVGA3DOpDclArgs_sampler_bits : CBits SVGA3DOpDclArgs_sampler := {|
  widths := [27; 4; 1];
  to_fields r :=
    [r.(SVGA3DOpDclArgs_sampler_reserved3); r.(SVGA3DOpDclArgs_sampler_type);
    r.(SVGA3DOpDclArgs_sampler_reserved2)];
  of_fields l :=
    match l with
    | [reserved3_; type_; reserved2_] =>
        Some (mk_SVGA3DOpDclArgs_sampler reserved3_ type_ reserved2_)
    | _ => None
    end |}.
Solve Obligations with cbits_tac.

(** ** Register types *)

(** The register type is split over two fields of a token. *)
Definition SVGA3dShaderGetRegType (token : Z) : option Z :=
  src ← (bits_of_value token : option SVGA3dShaderSrcToken);
  Some (Z.lor (Z.shiftl src.(SVGA3dShaderSrcToken_type_upper) 3) src.(SVGA3dShaderSrcToken_type_lower)).
