(* ===== verification/Asm.v ===== *)
(** The pixel-shader assembly of the listings in AC/GL/Shaders.c (ps_2_0):
    instructions, the assembler to the tokens of svga3d_shaderdefs.h, a
    disassembler, the meaning of a program over an arithmetic that is a
    parameter, and a checker of register use. *)

From S2P Require Import Prelude Layout ShaderDefs.

(** ** Instructions *)

(** Register files: [r], [v], [c], [t], [oC], [s]. *)
Inductive rfile := TempFile | InputFile | ConstFile | TexFile | ColorFile | SamplerFile.
#[global] Instance rfile_eq_dec : EqDecision rfile.
Proof. solve_decision. Defined.

Record areg := Reg { rf : rfile; rn : Z }.
#[global] Instance areg_eq_dec : EqDecision areg.
Proof. solve_decision. Defined.

Definition r := Reg TempFile.
Definition v := Reg InputFile.
Definition c := Reg ConstFile.
Definition t := Reg TexFile.
Definition oC := Reg ColorFile.
Definition s := Reg SamplerFile.

(** A destination with its write mask and the saturation modifier. *)
Record adst := Dst { d_reg : areg; d_mask : Z; d_sat : bool }.
(** A source with its swizzle and the negation modifier. *)
Record asrc := Src { s_reg : areg; s_swz : Z; s_neg : bool }.
#[global] Instance adst_eq_dec : EqDecision adst.
Proof. solve_decision. Defined.
#[global] Instance asrc_eq_dec : EqDecision asrc.
Proof. solve_decision. Defined.

Definition m_x := SVGA3DWRITEMASK_0.
Definition m_y := SVGA3DWRITEMASK_1.
Definition m_z := SVGA3DWRITEMASK_2.
Definition m_w := SVGA3DWRITEMASK_3.
Definition m_xy := Z.lor m_x m_y.
Definition m_yz := Z.lor m_y m_z.
Definition m_xyz := Z.lor m_xy m_z.
Definition m_xyzw := SVGA3DWRITEMASK_ALL.

Definition dst (m : Z) (x : areg) : adst := Dst x m false.
Definition dst_sat (m : Z) (x : areg) : adst := Dst x m true.
Definition all (x : areg) : asrc := Src x SVGA3DSWIZZLE_NONE false.
Definition sx (x : areg) : asrc := Src x SVGA3DSWIZZLE_REPLICATEX false.
Definition sy (x : areg) : asrc := Src x SVGA3DSWIZZLE_REPLICATEY false.
Definition sz (x : areg) : asrc := Src x SVGA3DSWIZZLE_REPLICATEZ false.
Definition sw (x : areg) : asrc := Src x SVGA3DSWIZZLE_REPLICATEW false.
Definition neg (x : asrc) : asrc := Src x.(s_reg) x.(s_swz) true.

Inductive aop := Mov | Add | Mad | Mul | Dp3 | Dp4 | Frc | Texld | Texldp.
#[global] Instance aop_eq_dec : EqDecision aop.
Proof. solve_decision. Defined.

Inductive asm :=
  | Dcl (x : areg) (m : Z)
  | Dcl2d (n : Z)
  | Def (n x y z w : Z)
  | Ins (o : aop) (d : adst) (l : list asrc).
#[global] Instance asm_eq_dec : EqDecision asm.
Proof. solve_decision. Defined.

Definition arity (o : aop) : nat :=
  match o with Mov | Frc => 1 | Mad => 3 | _ => 2 end.

(** ** Assembler *)

Definition rfile_type (f : rfile) : SVGA3dShaderRegType :=
  match f with
  | TempFile => SVGA3DREG_TEMP | InputFile => SVGA3DREG_INPUT | ConstFile => SVGA3DREG_CONST
  | TexFile => SVGA3DREG_TEXTURE | ColorFile => SVGA3DREG_COLOROUT
  | SamplerFile => SVGA3DREG_SAMPLER
  end.

Definition opcode (o : aop) : SVGA3dShaderOpCodeType :=
  match o with
  | Mov => SVGA3DOP_MOV | Add => SVGA3DOP_ADD | Mad => SVGA3DOP_MAD | Mul => SVGA3DOP_MUL
  | Dp3 => SVGA3DOP_DP3 | Dp4 => SVGA3DOP_DP4 | Frc => SVGA3DOP_FRC
  | Texld | Texldp => SVGA3DOP_TEX
  end.

Definition opcontrol (o : aop) : SVGA3dShaderOpCodeControlFnType :=
  match o with Texldp => SVGA3DOPCONT_PROJECT | _ => SVGA3DOPCONT_NONE end.

Definition inst_token (op control size : Z) : Z :=
  bits_value (mk_SVGA3dShaderInstToken op control 0 size 0 0 0 0).

Definition dst_fields (d : adst) : SVGA3dShaderDestToken :=
  let ty : Z := rfile_type d.(d_reg).(rf) in
  mk_SVGA3dShaderDestToken d.(d_reg).(rn) (ty / 8) 0 0 d.(d_mask)
    (if d.(d_sat) then SVGA3DDSTMOD_SATURATE else SVGA3DDSTMOD_NONE) 0 (ty mod 8) 1.
Definition dst_token (d : adst) : Z := bits_value (dst_fields d).

Definition src_fields (x : asrc) : SVGA3dShaderSrcToken :=
  let ty : Z := rfile_type x.(s_reg).(rf) in
  mk_SVGA3dShaderSrcToken x.(s_reg).(rn) (ty / 8) 0 0 x.(s_swz)
    (if x.(s_neg) then SVGA3DSRCMOD_NEG : Z else SVGA3DSRCMOD_NONE : Z) (ty mod 8) 1.
Definition src_token (x : asrc) : Z := bits_value (src_fields x).

Definition assemble_ins (i : asm) : list Z :=
  match i with
  | Dcl x m =>
      [inst_token SVGA3DOP_DCL 0 2; bits_value (mk_SVGA3DOpDclArgs_input 0 0 0 0x800);
       dst_token (dst m x)]
  | Dcl2d n =>
      [inst_token SVGA3DOP_DCL 0 2; bits_value (mk_SVGA3DOpDclArgs_sampler 0 SVGA3DSAMP_2D 1);
       dst_token (dst m_xyzw (s n))]
  | Def n x y z w => [inst_token SVGA3DOP_DEF 0 5; dst_token (dst m_xyzw (c n)); x; y; z; w]
  | Ins o d l =>
      inst_token (opcode o) (opcontrol o) (1 + Z.of_nat (length l)) ::
      dst_token d :: (src_token <$> l)
  end.

Definition assemble (p : list asm) : list Z :=
  SVGA3D_PS_20 :: (p ≫= assemble_ins) ++ [SVGA3DOP_END : Z].

(** ** Disassembler *)

Definition rfile_of (ty : Z) : option rfile :=
  find (fun f => (rfile_type f : Z) =? ty)
    [TempFile; InputFile; ConstFile; TexFile; ColorFile; SamplerFile].

Definition read_dst (w : Z) : option adst :=
  x ← (bits_of_value w : option SVGA3dShaderDestToken);
  f ← rfile_of (8 * x.(SVGA3dShaderDestToken_type_upper) + x.(SVGA3dShaderDestToken_type_lower));
  Some (Dst (Reg f x.(SVGA3dShaderDestToken_num)) x.(SVGA3dShaderDestToken_mask)
         (x.(SVGA3dShaderDestToken_dstMod) =? SVGA3DDSTMOD_SATURATE)).

Definition read_src (w : Z) : option asrc :=
  x ← (bits_of_value w : option SVGA3dShaderSrcToken);
  f ← rfile_of (8 * x.(SVGA3dShaderSrcToken_type_upper) + x.(SVGA3dShaderSrcToken_type_lower));
  Some (Src (Reg f x.(SVGA3dShaderSrcToken_num)) x.(SVGA3dShaderSrcToken_swizzle)
         (x.(SVGA3dShaderSrcToken_srcMod) =? SVGA3DSRCMOD_NEG)).

Definition op_of (op control : Z) : option aop :=
  find (fun o => ((opcode o : Z) =? op) && ((opcontrol o : Z) =? control))
    [Mov; Add; Mad; Mul; Dp3; Dp4; Frc; Texld; Texldp].

(** The instruction that the parameters of an instruction token suggest. *)
Definition guess (op control : Z) (args : list Z) : option asm :=
  if op =? SVGA3DOP_DCL then
    match args with
    | [_; w] =>
        d ← read_dst w;
        match d.(d_reg).(rf) with
        | SamplerFile => Some (Dcl2d d.(d_reg).(rn))
        | _ => Some (Dcl d.(d_reg) d.(d_mask))
        end
    | _ => None
    end
  else if op =? SVGA3DOP_DEF then
    match args with
    | [w; x; y; z; w'] => d ← read_dst w; Some (Def d.(d_reg).(rn) x y z w')
    | _ => None
    end
  else
    o ← op_of op control;
    match args with
    | w :: l => d ← read_dst w; l ← mapM read_src l; Some (Ins o d l)
    | [] => None
    end.

(** One instruction: it is accepted if it assembles to the words that it was
    read from, so no field is ignored. *)
Definition read_ins (l : list Z) : option (asm * list Z) :=
  match l with
  | [] => None
  | w :: l =>
      x ← (bits_of_value w : option SVGA3dShaderInstToken);
      let n := Z.to_nat x.(SVGA3dShaderInstToken_size) in
      i ← guess x.(SVGA3dShaderInstToken_op) x.(SVGA3dShaderInstToken_control) (take n l);
      if decide (assemble_ins i = w :: take n l) then Some (i, drop n l) else None
  end.

Fixpoint read_body (fuel : nat) (l : list Z) : option (list asm) :=
  match fuel with
  | O => None
  | S fuel =>
      if decide (l = [SVGA3DOP_END : Z]) then Some []
      else '(i, l) ← read_ins l; p ← read_body fuel l; Some (i :: p)
  end.

Definition disassemble (l : list Z) : option (list asm) :=
  match l with
  | w :: l => if w =? SVGA3D_PS_20 then read_body (length l) l else None
  | [] => None
  end.

(** The fields of an instruction are in range. *)
Definition reg_ok (x : areg) : Prop := 0 <= x.(rn) < 2 ^ 11.
Definition dst_ok (d : adst) : Prop := reg_ok d.(d_reg) /\ 0 <= d.(d_mask) < 2 ^ 4.
Definition src_ok (x : asrc) : Prop := reg_ok x.(s_reg) /\ 0 <= x.(s_swz) < 2 ^ 8.
Definition asm_ok (i : asm) : Prop :=
  match i with
  | Dcl x m => dst_ok (dst m x) /\ x.(rf) <> SamplerFile
  | Dcl2d n => reg_ok (s n)
  | Def n _ _ _ _ => reg_ok (c n)
  | Ins o d l => dst_ok d /\ Forall src_ok l /\ (length l <= 8)%nat
  end.

(** ** Meaning *)

(** The arithmetic of the device: addition, multiplication, negation, division
    (for projective texturing), clamping to [0, 1], fractional part, the number
    of a bit pattern, and the samplers. *)
Record arith (F : Type) := Arith {
  f_add : F -> F -> F;
  f_mul : F -> F -> F;
  f_neg : F -> F;
  f_div : F -> F -> F;
  f_sat : F -> F;
  f_frc : F -> F;
  f_bits : Z -> F;
  f_tex : Z -> F -> F -> Z -> F;    (** sampler, x, y, component *)
}.
Arguments f_add {F}. Arguments f_mul {F}. Arguments f_neg {F}. Arguments f_div {F}.
Arguments f_sat {F}. Arguments f_frc {F}. Arguments f_bits {F}. Arguments f_tex {F}.

Section meaning.
Context {F : Type} (A : arith F).

(** The registers: component 0 to 3 of every register. *)
Definition regs := areg -> Z -> F.

(** Component [i] of a source. *)
Definition swz (x : asrc) (i : Z) : Z := wrap 2 (Z.shiftr x.(s_swz) (2 * i)).
Definition get (g : regs) (x : asrc) (i : Z) : F :=
  let y := g x.(s_reg) (swz x i) in if x.(s_neg) then A.(f_neg) y else y.

(** The registers after a write under a mask. *)
Definition put (g : regs) (d : adst) (f : Z -> F) : regs := fun x i =>
  if decide (x = d.(d_reg)) then
    if Z.testbit d.(d_mask) i then if d.(d_sat) then A.(f_sat) (f i) else f i else g x i
  else g x i.

Definition dot (g : regs) (a b : asrc) (i : Z) : F := A.(f_mul) (get g a i) (get g b i).

(** Component [i] of the result of an operation. *)
Definition result (o : aop) (l : list asrc) (g : regs) (i : Z) : option F :=
  match o, l with
  | Mov, [a] => Some (get g a i)
  | Frc, [a] => Some (A.(f_frc) (get g a i))
  | Add, [a; b] => Some (A.(f_add) (get g a i) (get g b i))
  | Mul, [a; b] => Some (A.(f_mul) (get g a i) (get g b i))
  | Mad, [a; b; e] => Some (A.(f_add) (A.(f_mul) (get g a i) (get g b i)) (get g e i))
  | Dp3, [a; b] => Some (A.(f_add) (A.(f_add) (dot g a b 0) (dot g a b 1)) (dot g a b 2))
  | Dp4, [a; b] =>
      Some (A.(f_add) (A.(f_add) (A.(f_add) (dot g a b 0) (dot g a b 1)) (dot g a b 2)) (dot g a b 3))
  | Texld, [a; b] => Some (A.(f_tex) b.(s_reg).(rn) (get g a 0) (get g a 1) i)
  | Texldp, [a; b] =>
      Some (A.(f_tex) b.(s_reg).(rn) (A.(f_div) (get g a 0) (get g a 3))
              (A.(f_div) (get g a 1) (get g a 3)) i)
  | _, _ => None
  end.

Definition step (i : asm) (g : regs) : option regs :=
  match i with
  | Dcl _ _ | Dcl2d _ => Some g
  | Def n x y z w =>
      Some (put g (dst m_xyzw (c n)) (fun i => A.(f_bits)
        (if i =? 0 then x else if i =? 1 then y else if i =? 2 then z else w)))
  | Ins o d l =>
      if decide (length l = arity o) then
        Some (put g d (fun i => default (g d.(d_reg) i) (result o l g i)))
      else None
  end.

Fixpoint run (p : list asm) (g : regs) : option regs :=
  match p with
  | [] => Some g
  | i :: p => g ← step i g; run p g
  end.
End meaning.

(** ** Register use *)

(** The components of a source that an operation reads to write the mask [m]. *)
Definition reads (o : aop) (m : Z) (k : nat) : list Z :=
  match o with
  | Dp3 => [0; 1; 2]
  | Dp4 => [0; 1; 2; 3]
  | Texld => if decide (k = O) then [0; 1] else []
  | Texldp => if decide (k = O) then [0; 1; 3] else []
  | _ => filter (fun i => Z.testbit m i = true) [0; 1; 2; 3]
  end.

(** The components that may be read: those declared, defined or written. *)
Definition known := list (areg * Z).
Definition add_mask (x : areg) (m : Z) (K : known) : known :=
  ((fun i => (x, i)) <$> filter (fun i => Z.testbit m i = true) [0; 1; 2; 3]) ++ K.

(** Source [k] of an operation reads only known components; a constant may be
    set by the driver and is always known, a sampler has no components. *)
Definition src_known (K : known) (o : aop) (m : Z) (k : nat) (x : asrc) : bool :=
  match x.(s_reg).(rf) with
  | ConstFile => true
  | SamplerFile => bool_decide (reads o m k = [])
  | _ => forallb (fun i => bool_decide ((x.(s_reg), swz x i) ∈ K)) (reads o m k)
  end.

(** A texture instruction samples a declared sampler with an unmodified source. *)
Definition sampler_known (K : known) (o : aop) (l : list asrc) : bool :=
  match o, l with
  | (Texld | Texldp), [_; b] => bool_decide ((b.(s_reg), 0) ∈ K) && bool_decide (b.(s_reg).(rf) = SamplerFile)
  | (Texld | Texldp), _ => false
  | _, _ => true
  end.

Definition writable (x : areg) : bool :=
  match x.(rf) with
  | TempFile => (0 <=? x.(rn)) && (x.(rn) <? SVGA3D_TEMPREG_MAX)
  | ColorFile => (0 <=? x.(rn)) && (x.(rn) <? 4)
  | _ => false
  end.

(** The known components after an instruction, if it is well-formed. *)
Definition check_ins (i : asm) (K : known) : option known :=
  match i with
  | Dcl x m => match x.(rf) with InputFile | TexFile => Some (add_mask x m K) | _ => None end
  | Dcl2d n => if (0 <=? n) && (n <? SVGA3D_PIXEL_SAMPLERREG_MAX) then Some (add_mask (s n) m_xyzw K) else None
  | Def n _ _ _ _ => if (0 <=? n) && (n <? SVGA3D_CONSTREG_MAX) then Some K else None
  | Ins o d l =>
      if bool_decide (length l = arity o) && writable d.(d_reg) && sampler_known K o l
         && forallb (fun '(k, x) => src_known K o d.(d_mask) k x) (imap pair l)
      then Some (add_mask d.(d_reg) d.(d_mask) K) else None
  end.

Fixpoint check (p : list asm) (K : known) : option known :=
  match p with
  | [] => Some K
  | i :: p => K ← check_ins i K; check p K
  end.

(** A program is valid if it reads only what it may and writes all of [oC0]. *)
Definition valid (p : list asm) : bool :=
  match check p [] with
  | Some K => forallb (fun i => bool_decide ((oC 0, i) ∈ K)) [0; 1; 2; 3]
  | None => false
  end.
