(* ===== verification/Shaders.v ===== *)
(** The canned pixel shaders (AC/GL/Shaders.c): for each of them its assembly
    listing and the array of tokens that the driver hands to the device, and
    the table that maps the hash of an application's program to a canned
    shader and to the assignment of its texture coordinates to samplers. *)

From S2P Require Import Prelude Layout ShaderDefs Asm.

Definition asm_diffuse : list asm := [
  Dcl (v 0) m_xyzw;
  Ins Mov (dst m_xyzw (oC 0)) [all (v 0)]].

Definition g_ps20_diffuse : list Z := [
  0xFFFF0200; 0x0200001F; 0x80000000; 0x900F0000; 0x02000001; 0x800F0800;
  0x90E40000; 0x0000FFFF].

Definition asm_tex1_diffuse : list asm := [
  Dcl (t 0) m_xyzw;
  Dcl (v 0) m_xyzw;
  Dcl2d 0;
  Ins Texldp (dst m_xyzw (r 0)) [all (t 0); all (s 0)];
  Ins Mul (dst_sat m_xyzw (r 0)) [all (r 0); all (v 0)];
  Ins Mov (dst m_xyzw (oC 0)) [all (r 0)]].

Definition g_ps20_tex1_diffuse : list Z := [
  0xFFFF0200; 0x0200001F; 0x80000000; 0xB00F0000; 0x0200001F; 0x80000000;
  0x900F0000; 0x0200001F; 0x90000000; 0xA00F0800; 0x03010042; 0x800F0000;
  0xB0E40000; 0xA0E40800; 0x03000005; 0x801F0000; 0x80E40000; 0x90E40000;
  0x02000001; 0x800F0800; 0x80E40000; 0x0000FFFF].

Definition asm_tex1_diffuse_specular : list asm := [
  Dcl (t 0) m_xyzw;
  Dcl (v 0) m_xyzw;
  Dcl (v 1) m_xyz;
  Dcl2d 0;
  Ins Texldp (dst m_xyzw (r 0)) [all (t 0); all (s 0)];
  Ins Mul (dst_sat m_xyzw (r 0)) [all (r 0); all (v 0)];
  Ins Add (dst m_xyz (r 0)) [all (r 0); all (v 1)];
  Ins Mov (dst m_xyzw (oC 0)) [all (r 0)]].

Definition g_ps20_tex1_diffuse_specular : list Z := [
  0xFFFF0200; 0x0200001F; 0x80000000; 0xB00F0000; 0x0200001F; 0x80000000;
  0x900F0000; 0x0200001F; 0x80000000; 0x90070001; 0x0200001F; 0x90000000;
  0xA00F0800; 0x03010042; 0x800F0000; 0xB0E40000; 0xA0E40800; 0x03000005;
  0x801F0000; 0x80E40000; 0x90E40000; 0x03000002; 0x80070000; 0x80E40000;
  0x90E40001; 0x02000001; 0x800F0800; 0x80E40000; 0x0000FFFF].

Definition asm_chess : list asm := [
  Dcl (t 0) m_xyzw;
  Dcl (v 0) m_xyzw;
  Dcl2d 0;
  Ins Texldp (dst m_xyzw (r 0)) [all (t 0); all (s 0)];
  Ins Mul (dst_sat m_w (r 0)) [sw (r 0); sw (v 0)];
  Ins Mov (dst m_xyz (r 0)) [all (v 0)];
  Ins Mov (dst m_xyzw (oC 0)) [all (r 0)]].

Definition g_ps20_chess : list Z := [
  0xFFFF0200; 0x0200001F; 0x80000000; 0xB00F0000; 0x0200001F; 0x80000000;
  0x900F0000; 0x0200001F; 0x90000000; 0xA00F0800; 0x03010042; 0x800F0000;
  0xB0E40000; 0xA0E40800; 0x03000005; 0x80180000; 0x80FF0000; 0x90FF0000;
  0x02000001; 0x80070000; 0x90E40000; 0x02000001; 0x800F0800; 0x80E40000;
  0x0000FFFF].

Definition asm_vlc : list asm := [
  Dcl (t 0) m_xyzw;
  Dcl (v 0) m_xyzw;
  Dcl2d 0;
  Ins Texldp (dst m_xyzw (r 0)) [all (t 0); all (s 0)];
  Ins Mul (dst_sat m_xyz (r 0)) [all (r 0); all (v 0)];
  Ins Mov (dst m_w (r 0)) [sw (v 0)];
  Ins Mov (dst m_xyzw (oC 0)) [all (r 0)]].

Definition g_ps20_vlc : list Z := [
  0xFFFF0200; 0x0200001F; 0x80000000; 0xB00F0000; 0x0200001F; 0x80000000;
  0x900F0000; 0x0200001F; 0x90000000; 0xA00F0800; 0x03010042; 0x800F0000;
  0xB0E40000; 0xA0E40800; 0x03000005; 0x80170000; 0x80E40000; 0x90E40000;
  0x02000001; 0x80080000; 0x90FF0000; 0x02000001; 0x800F0800; 0x80E40000;
  0x0000FFFF].

Definition asm_divx : list asm := [
  Dcl (v 0) m_xyzw;
  Dcl (t 0) m_xyzw;
  Dcl (t 1) m_xyzw;
  Dcl (t 2) m_xyzw;
  Dcl2d 0;
  Dcl2d 1;
  Dcl2d 2;
  Ins Texldp (dst m_xyzw (r 0)) [all (t 1); all (s 1)];
  Ins Texldp (dst m_xyzw (r 1)) [all (t 0); all (s 0)];
  Ins Texldp (dst m_xyzw (r 2)) [all (t 2); all (s 2)];
  Ins Add (dst m_x (r 0)) [sx (r 0); neg (sx (c 1))];
  Ins Add (dst m_y (r 0)) [sx (r 1); neg (sw (c 0))];
  Ins Mul (dst m_y (r 0)) [sy (r 0); sx (c 0)];
  Ins Mad (dst m_z (r 0)) [sx (r 0); neg (sy (c 1)); sy (r 0)];
  Ins Mad (dst m_x (r 0)) [sx (r 0); sy (c 0); sy (r 0)];
  Ins Mul (dst_sat m_z (r 1)) [sx (r 0); sz (v 0)];
  Ins Add (dst m_x (r 0)) [sx (r 2); neg (sx (c 1))];
  Ins Mad (dst m_z (r 0)) [sx (r 0); neg (sz (c 1)); sz (r 0)];
  Ins Mad (dst m_x (r 0)) [sx (r 0); sz (c 0); sy (r 0)];
  Ins Mul (dst_sat m_x (r 1)) [sx (r 0); sx (v 0)];
  Ins Mul (dst_sat m_y (r 1)) [sz (r 0); sy (v 0)];
  Ins Mul (dst_sat m_w (r 1)) [sw (v 0); sw (c 1)];
  Ins Mov (dst m_xyzw (oC 0)) [all (r 1)]].

Definition g_ps20_divx : list Z := [
  0xFFFF0200; 0x0200001F; 0x80000000; 0x900F0000; 0x0200001F; 0x80000000;
  0xB00F0000; 0x0200001F; 0x80000000; 0xB00F0001; 0x0200001F; 0x80000000;
  0xB00F0002; 0x0200001F; 0x90000000; 0xA00F0800; 0x0200001F; 0x90000000;
  0xA00F0801; 0x0200001F; 0x90000000; 0xA00F0802; 0x03010042; 0x800F0000;
  0xB0E40001; 0xA0E40801; 0x03010042; 0x800F0001; 0xB0E40000; 0xA0E40800;
  0x03010042; 0x800F0002; 0xB0E40002; 0xA0E40802; 0x03000002; 0x80010000;
  0x80000000; 0xA1000001; 0x03000002; 0x80020000; 0x80000001; 0xA1FF0000;
  0x03000005; 0x80020000; 0x80550000; 0xA0000000; 0x04000004; 0x80040000;
  0x80000000; 0xA1550001; 0x80550000; 0x04000004; 0x80010000; 0x80000000;
  0xA0550000; 0x80550000; 0x03000005; 0x80140001; 0x80000000; 0x90AA0000;
  0x03000002; 0x80010000; 0x80000002; 0xA1000001; 0x04000004; 0x80040000;
  0x80000000; 0xA1AA0001; 0x80AA0000; 0x04000004; 0x80010000; 0x80000000;
  0xA0AA0000; 0x80550000; 0x03000005; 0x80110001; 0x80000000; 0x90000000;
  0x03000005; 0x80120001; 0x80AA0000; 0x90550000; 0x03000005; 0x80180001;
  0x90FF0000; 0xA0FF0001; 0x02000001; 0x800F0800; 0x80E40001; 0x0000FFFF].

Definition asm_QE1 : list asm := [
  Dcl (t 0) m_xyzw;
  Dcl2d 0;
  Dcl2d 1;
  Ins Texldp (dst m_xyzw (r 0)) [all (t 0); all (s 0)];
  Ins Mov (dst m_y (r 1)) [sx (c 1)];
  Ins Mov (dst m_x (r 1)) [sx (r 0)];
  Ins Mov (dst m_x (r 0)) [sy (r 0)];
  Ins Mov (dst m_x (r 2)) [sz (r 0)];
  Ins Mov (dst m_y (r 0)) [sx (c 1)];
  Ins Mov (dst m_y (r 2)) [sx (c 1)];
  Ins Texld (dst m_xyzw (r 1)) [all (r 1); all (s 1)];
  Ins Texld (dst m_xyzw (r 0)) [all (r 0); all (s 1)];
  Ins Texld (dst m_xyzw (r 2)) [all (r 2); all (s 1)];
  Ins Mov (dst m_x (r 2)) [sx (r 1)];
  Ins Mov (dst m_y (r 2)) [sy (r 0)];
  Ins Dp3 (dst m_w (r 2)) [all (r 2); all (c 2)];
  Ins Add (dst m_x (r 0)) [sw (r 2); sw (c 2)];
  Ins Mov (dst m_y (r 0)) [sx (c 5)];
  Ins Dp3 (dst m_w (r 2)) [all (r 2); all (c 3)];
  Ins Dp3 (dst m_z (r 0)) [all (r 2); all (c 4)];
  Ins Add (dst m_x (r 1)) [sz (r 0); sw (c 4)];
  Ins Add (dst m_x (r 2)) [sw (r 2); sw (c 3)];
  Ins Mov (dst m_y (r 2)) [sx (c 5)];
  Ins Mov (dst m_y (r 1)) [sx (c 5)];
  Ins Texld (dst m_xyzw (r 0)) [all (r 0); all (s 1)];
  Ins Texld (dst m_xyzw (r 2)) [all (r 2); all (s 1)];
  Ins Texld (dst m_xyzw (r 1)) [all (r 1); all (s 1)];
  Ins Mov (dst m_x (r 1)) [sx (r 0)];
  Ins Mov (dst m_y (r 1)) [sy (r 2)];
  Ins Mov (dst m_w (r 1)) [sx (c 0)];
  Ins Mov (dst m_xyzw (oC 0)) [all (r 1)]].

Definition g_ps20_QE1 : list Z := [
  0xFFFF0200; 0x0200001F; 0x80000000; 0xB00F0000; 0x0200001F; 0x90000000;
  0xA00F0800; 0x0200001F; 0x90000000; 0xA00F0801; 0x03010042; 0x800F0000;
  0xB0E40000; 0xA0E40800; 0x02000001; 0x80020001; 0xA0000001; 0x02000001;
  0x80010001; 0x80000000; 0x02000001; 0x80010000; 0x80550000; 0x02000001;
  0x80010002; 0x80AA0000; 0x02000001; 0x80020000; 0xA0000001; 0x02000001;
  0x80020002; 0xA0000001; 0x03000042; 0x800F0001; 0x80E40001; 0xA0E40801;
  0x03000042; 0x800F0000; 0x80E40000; 0xA0E40801; 0x03000042; 0x800F0002;
  0x80E40002; 0xA0E40801; 0x02000001; 0x80010002; 0x80000001; 0x02000001;
  0x80020002; 0x80550000; 0x03000008; 0x80080002; 0x80E40002; 0xA0E40002;
  0x03000002; 0x80010000; 0x80FF0002; 0xA0FF0002; 0x02000001; 0x80020000;
  0xA0000005; 0x03000008; 0x80080002; 0x80E40002; 0xA0E40003; 0x03000008;
  0x80040000; 0x80E40002; 0xA0E40004; 0x03000002; 0x80010001; 0x80AA0000;
  0xA0FF0004; 0x03000002; 0x80010002; 0x80FF0002; 0xA0FF0003; 0x02000001;
  0x80020002; 0xA0000005; 0x02000001; 0x80020001; 0xA0000005; 0x03000042;
  0x800F0000; 0x80E40000; 0xA0E40801; 0x03000042; 0x800F0002; 0x80E40002;
  0xA0E40801; 0x03000042; 0x800F0001; 0x80E40001; 0xA0E40801; 0x02000001;
  0x80010001; 0x80000000; 0x02000001; 0x80020001; 0x80550002; 0x02000001;
  0x80080001; 0xA0000000; 0x02000001; 0x800F0800; 0x80E40001; 0x0000FFFF].

Definition asm_QE2 : list asm := [
  Dcl (t 1) m_xy;
  Dcl (t 2) m_xy;
  Dcl (t 3) m_xy;
  Dcl (t 4) m_xy;
  Dcl (t 5) m_xy;
  Dcl (t 6) m_xy;
  Dcl (t 7) m_xy;
  Dcl2d 0;
  Ins Texld (dst m_xyzw (r 0)) [all (t 3); all (s 0)];
  Ins Texld (dst m_xyzw (r 1)) [all (t 5); all (s 0)];
  Ins Texld (dst m_xyzw (r 2)) [all (t 4); all (s 0)];
  Ins Texld (dst m_xyzw (r 3)) [all (t 2); all (s 0)];
  Ins Texld (dst m_xyzw (r 4)) [all (t 6); all (s 0)];
  Ins Texld (dst m_xyzw (r 5)) [all (t 1); all (s 0)];
  Ins Texld (dst m_xyzw (r 6)) [all (t 7); all (s 0)];
  Ins Add (dst m_xyzw (r 0)) [all (r 0); all (r 1)];
  Ins Mul (dst m_xyzw (r 0)) [all (r 0); sy (c 0)];
  Ins Mad (dst m_xyzw (r 0)) [all (r 2); sx (c 0); all (r 0)];
  Ins Add (dst m_xyzw (r 1)) [all (r 3); all (r 4)];
  Ins Mad (dst m_xyzw (r 0)) [sz (c 0); all (r 1); all (r 0)];
  Ins Add (dst m_xyzw (r 1)) [all (r 5); all (r 6)];
  Ins Mad (dst m_xyzw (r 0)) [sw (c 0); all (r 1); all (r 0)];
  Ins Mov (dst m_xyzw (oC 0)) [all (r 0)]].

Definition g_ps20_QE2 : list Z := [
  0xFFFF0200; 0x0200001F; 0x80000000; 0xB0030001; 0x0200001F; 0x80000000;
  0xB0030002; 0x0200001F; 0x80000000; 0xB0030003; 0x0200001F; 0x80000000;
  0xB0030004; 0x0200001F; 0x80000000; 0xB0030005; 0x0200001F; 0x80000000;
  0xB0030006; 0x0200001F; 0x80000000; 0xB0030007; 0x0200001F; 0x90000000;
  0xA00F0800; 0x03000042; 0x800F0000; 0xB0E40003; 0xA0E40800; 0x03000042;
  0x800F0001; 0xB0E40005; 0xA0E40800; 0x03000042; 0x800F0002; 0xB0E40004;
  0xA0E40800; 0x03000042; 0x800F0003; 0xB0E40002; 0xA0E40800; 0x03000042;
  0x800F0004; 0xB0E40006; 0xA0E40800; 0x03000042; 0x800F0005; 0xB0E40001;
  0xA0E40800; 0x03000042; 0x800F0006; 0xB0E40007; 0xA0E40800; 0x03000002;
  0x800F0000; 0x80E40000; 0x80E40001; 0x03000005; 0x800F0000; 0x80E40000;
  0xA0550000; 0x04000004; 0x800F0000; 0x80E40002; 0xA0000000; 0x80E40000;
  0x03000002; 0x800F0001; 0x80E40003; 0x80E40004; 0x04000004; 0x800F0000;
  0xA0AA0000; 0x80E40001; 0x80E40000; 0x03000002; 0x800F0001; 0x80E40005;
  0x80E40006; 0x04000004; 0x800F0000; 0xA0FF0000; 0x80E40001; 0x80E40000;
  0x02000001; 0x800F0800; 0x80E40000; 0x0000FFFF].

Definition asm_QE3 : list asm := [
  Dcl (t 0) m_xyz;
  Dcl (t 1) m_xy;
  Dcl (t 2) m_xy;
  Dcl (t 3) m_xy;
  Dcl (t 4) m_xy;
  Dcl (t 5) m_xy;
  Dcl (t 6) m_xy;
  Dcl (t 7) m_xy;
  Dcl2d 0;
  Ins Texld (dst m_xyzw (r 0)) [all (t 4); all (s 0)];
  Ins Texld (dst m_xyzw (r 1)) [all (t 7); all (s 0)];
  Ins Texld (dst m_xyzw (r 2)) [all (t 5); all (s 0)];
  Ins Texld (dst m_xyzw (r 3)) [all (t 6); all (s 0)];
  Ins Texld (dst m_xyzw (r 4)) [all (t 3); all (s 0)];
  Ins Texld (dst m_xyzw (r 5)) [all (t 2); all (s 0)];
  Ins Texld (dst m_xyzw (r 6)) [all (t 1); all (s 0)];
  Ins Add (dst m_xyzw (r 0)) [all (r 0); all (r 1)];
  Ins Mul (dst m_xyzw (r 0)) [all (r 0); sy (c 4)];
  Ins Add (dst m_xyzw (r 1)) [all (r 2); all (r 3)];
  Ins Mad (dst m_xyzw (r 0)) [all (r 1); sx (c 4); all (r 0)];
  Ins Add (dst m_xyz (r 1)) [all (t 0); all (c 3)];
  Ins Dp3 (dst m_w (r 1)) [all (r 1); all (c 1)];
  Ins Dp3 (dst m_x (r 1)) [all (r 1); all (c 2)];
  Ins Add (dst m_y (r 1)) [sx (r 1); sw (c 2)];
  Ins Add (dst m_x (r 1)) [sw (r 1); sw (c 1)];
  Ins Add (dst m_x (r 2)) [sx (t 0); sz (c 3)];
  Ins Add (dst m_y (r 2)) [sy (t 0); sw (c 3)];
  Ins Add (dst m_z (r 2)) [sz (t 0); sx (c 3)];
  Ins Dp3 (dst m_w (r 2)) [all (r 2); all (c 1)];
  Ins Dp3 (dst m_z (r 1)) [all (r 2); all (c 2)];
  Ins Add (dst m_y (r 2)) [sz (r 1); sw (c 2)];
  Ins Add (dst m_x (r 2)) [sw (r 2); sw (c 1)];
  Ins Add (dst m_xyz (r 3)) [all (t 0); all (c 0)];
  Ins Dp3 (dst m_w (r 3)) [all (r 3); all (c 1)];
  Ins Dp3 (dst m_z (r 1)) [all (r 3); all (c 2)];
  Ins Add (dst m_y (r 3)) [sz (r 1); sw (c 2)];
  Ins Add (dst m_x (r 3)) [sw (r 3); sw (c 1)];
  Ins Texld (dst m_xyzw (r 1)) [all (r 1); all (s 0)];
  Ins Texld (dst m_xyzw (r 2)) [all (r 2); all (s 0)];
  Ins Texld (dst m_xyzw (r 3)) [all (r 3); all (s 0)];
  Ins Add (dst m_xyzw (r 1)) [all (r 1); all (r 4)];
  Ins Mad (dst m_xyzw (r 0)) [sz (c 4); all (r 1); all (r 0)];
  Ins Add (dst m_xyzw (r 1)) [all (r 2); all (r 5)];
  Ins Mad (dst m_xyzw (r 0)) [sw (c 4); all (r 1); all (r 0)];
  Ins Add (dst m_xyzw (r 1)) [all (r 3); all (r 6)];
  Ins Mad (dst m_xyzw (r 0)) [sx (c 5); all (r 1); all (r 0)];
  Ins Mov (dst m_xyzw (oC 0)) [all (r 0)]].

Definition g_ps20_QE3 : list Z := [
  0xFFFF0200; 0x0200001F; 0x80000000; 0xB0070000; 0x0200001F; 0x80000000;
  0xB0030001; 0x0200001F; 0x80000000; 0xB0030002; 0x0200001F; 0x80000000;
  0xB0030003; 0x0200001F; 0x80000000; 0xB0030004; 0x0200001F; 0x80000000;
  0xB0030005; 0x0200001F; 0x80000000; 0xB0030006; 0x0200001F; 0x80000000;
  0xB0030007; 0x0200001F; 0x90000000; 0xA00F0800; 0x03000042; 0x800F0000;
  0xB0E40004; 0xA0E40800; 0x03000042; 0x800F0001; 0xB0E40007; 0xA0E40800;
  0x03000042; 0x800F0002; 0xB0E40005; 0xA0E40800; 0x03000042; 0x800F0003;
  0xB0E40006; 0xA0E40800; 0x03000042; 0x800F0004; 0xB0E40003; 0xA0E40800;
  0x03000042; 0x800F0005; 0xB0E40002; 0xA0E40800; 0x03000042; 0x800F0006;
  0xB0E40001; 0xA0E40800; 0x03000002; 0x800F0000; 0x80E40000; 0x80E40001;
  0x03000005; 0x800F0000; 0x80E40000; 0xA0550004; 0x03000002; 0x800F0001;
  0x80E40002; 0x80E40003; 0x04000004; 0x800F0000; 0x80E40001; 0xA0000004;
  0x80E40000; 0x03000002; 0x80070001; 0xB0E40000; 0xA0E40003; 0x03000008;
  0x80080001; 0x80E40001; 0xA0E40001; 0x03000008; 0x80010001; 0x80E40001;
  0xA0E40002; 0x03000002; 0x80020001; 0x80000001; 0xA0FF0002; 0x03000002;
  0x80010001; 0x80FF0001; 0xA0FF0001; 0x03000002; 0x80010002; 0xB0000000;
  0xA0AA0003; 0x03000002; 0x80020002; 0xB0550000; 0xA0FF0003; 0x03000002;
  0x80040002; 0xB0AA0000; 0xA0000003; 0x03000008; 0x80080002; 0x80E40002;
  0xA0E40001; 0x03000008; 0x80040001; 0x80E40002; 0xA0E40002; 0x03000002;
  0x80020002; 0x80AA0001; 0xA0FF0002; 0x03000002; 0x80010002; 0x80FF0002;
  0xA0FF0001; 0x03000002; 0x80070003; 0xB0E40000; 0xA0E40000; 0x03000008;
  0x80080003; 0x80E40003; 0xA0E40001; 0x03000008; 0x80040001; 0x80E40003;
  0xA0E40002; 0x03000002; 0x80020003; 0x80AA0001; 0xA0FF0002; 0x03000002;
  0x80010003; 0x80FF0003; 0xA0FF0001; 0x03000042; 0x800F0001; 0x80E40001;
  0xA0E40800; 0x03000042; 0x800F0002; 0x80E40002; 0xA0E40800; 0x03000042;
  0x800F0003; 0x80E40003; 0xA0E40800; 0x03000002; 0x800F0001; 0x80E40001;
  0x80E40004; 0x04000004; 0x800F0000; 0xA0AA0004; 0x80E40001; 0x80E40000;
  0x03000002; 0x800F0001; 0x80E40002; 0x80E40005; 0x04000004; 0x800F0000;
  0xA0FF0004; 0x80E40001; 0x80E40000; 0x03000002; 0x800F0001; 0x80E40003;
  0x80E40006; 0x04000004; 0x800F0000; 0xA0000005; 0x80E40001; 0x80E40000;
  0x02000001; 0x800F0800; 0x80E40000; 0x0000FFFF].

Definition asm_QE4 : list asm := [
  Dcl (t 0) m_xyzw;
  Dcl2d 0;
  Ins Texldp (dst m_xyzw (r 0)) [all (t 0); all (s 0)];
  Ins Mov (dst m_w (r 0)) [sx (c 0)];
  Ins Mov (dst m_xyzw (oC 0)) [all (r 0)]].

Definition g_ps20_QE4 : list Z := [
  0xFFFF0200; 0x0200001F; 0x80000000; 0xB00F0000; 0x0200001F; 0x90000000;
  0xA00F0800; 0x03010042; 0x800F0000; 0xB0E40000; 0xA0E40800; 0x02000001;
  0x80080000; 0xA0000000; 0x02000001; 0x800F0800; 0x80E40000; 0x0000FFFF].

Definition asm_QE5 : list asm := [
  Dcl (t 1) m_xy;
  Dcl2d 0;
  Ins Texld (dst m_xyzw (r 0)) [all (t 1); all (s 0)];
  Ins Mov (dst m_xyzw (oC 0)) [all (r 0)]].

Definition g_ps20_QE5 : list Z := [
  0xFFFF0200; 0x0200001F; 0x80000000; 0xB0030001; 0x0200001F; 0x90000000;
  0xA00F0800; 0x03000042; 0x800F0000; 0xB0E40001; 0xA0E40800; 0x02000001;
  0x800F0800; 0x80E40000; 0x0000FFFF].

Definition asm_QE6 : list asm := [
  Dcl (t 0) m_xyzw;
  Dcl2d 0;
  Ins Texldp (dst m_xyzw (r 0)) [all (t 0); all (s 0)];
  Ins Mov (dst m_xyzw (oC 0)) [all (r 0)]].

Definition g_ps20_QE6 : list Z := [
  0xFFFF0200; 0x0200001F; 0x80000000; 0xB00F0000; 0x0200001F; 0x90000000;
  0xA00F0800; 0x03010042; 0x800F0000; 0xB0E40000; 0xA0E40800; 0x02000001;
  0x800F0800; 0x80E40000; 0x0000FFFF].

Definition asm_QE7 : list asm := [
  Dcl (t 1) m_xyzw;
  Dcl (t 2) m_xyzw;
  Dcl (t 3) m_xyzw;
  Dcl (t 4) m_xyzw;
  Dcl2d 0;
  Ins Texldp (dst m_xyzw (r 0)) [all (t 1); all (s 0)];
  Ins Texldp (dst m_xyzw (r 1)) [all (t 2); all (s 0)];
  Ins Texldp (dst m_xyzw (r 2)) [all (t 3); all (s 0)];
  Ins Texldp (dst m_xyzw (r 3)) [all (t 4); all (s 0)];
  Ins Add (dst m_xyzw (r 0)) [all (r 0); all (r 1)];
  Ins Add (dst m_xyzw (r 0)) [all (r 2); all (r 0)];
  Ins Add (dst m_xyzw (r 0)) [all (r 3); all (r 0)];
  Ins Mul (dst m_xyzw (r 0)) [all (r 0); sx (c 0)];
  Ins Mov (dst m_xyzw (oC 0)) [all (r 0)]].

Definition g_ps20_QE7 : list Z := [
  0xFFFF0200; 0x0200001F; 0x80000000; 0xB00F0001; 0x0200001F; 0x80000000;
  0xB00F0002; 0x0200001F; 0x80000000; 0xB00F0003; 0x0200001F; 0x80000000;
  0xB00F0004; 0x0200001F; 0x90000000; 0xA00F0800; 0x03010042; 0x800F0000;
  0xB0E40001; 0xA0E40800; 0x03010042; 0x800F0001; 0xB0E40002; 0xA0E40800;
  0x03010042; 0x800F0002; 0xB0E40003; 0xA0E40800; 0x03010042; 0x800F0003;
  0xB0E40004; 0xA0E40800; 0x03000002; 0x800F0000; 0x80E40000; 0x80E40001;
  0x03000002; 0x800F0000; 0x80E40002; 0x80E40000; 0x03000002; 0x800F0000;
  0x80E40003; 0x80E40000; 0x03000005; 0x800F0000; 0x80E40000; 0xA0000000;
  0x02000001; 0x800F0800; 0x80E40000; 0x0000FFFF].

Definition asm_QE8 : list asm := [
  Dcl (t 1) m_xy;
  Dcl (t 2) m_xy;
  Dcl (t 5) m_xy;
  Dcl (t 6) m_xy;
  Dcl2d 0;
  Ins Texld (dst m_xyzw (r 0)) [all (t 1); all (s 0)];
  Ins Texld (dst m_xyzw (r 1)) [all (t 6); all (s 0)];
  Ins Texld (dst m_xyzw (r 2)) [all (t 2); all (s 0)];
  Ins Texld (dst m_xyzw (r 3)) [all (t 5); all (s 0)];
  Ins Add (dst m_xyzw (r 0)) [all (r 0); all (r 1)];
  Ins Add (dst m_xyzw (r 1)) [all (r 2); all (r 3)];
  Ins Mad (dst m_xyzw (r 0)) [sz (c 0); all (r 0); all (r 1)];
  Ins Mov (dst m_xyzw (oC 0)) [all (r 0)]].

Definition g_ps20_QE8 : list Z := [
  0xFFFF0200; 0x0200001F; 0x80000000; 0xB0030001; 0x0200001F; 0x80000000;
  0xB0030002; 0x0200001F; 0x80000000; 0xB0030005; 0x0200001F; 0x80000000;
  0xB0030006; 0x0200001F; 0x90000000; 0xA00F0800; 0x03000042; 0x800F0000;
  0xB0E40001; 0xA0E40800; 0x03000042; 0x800F0001; 0xB0E40006; 0xA0E40800;
  0x03000042; 0x800F0002; 0xB0E40002; 0xA0E40800; 0x03000042; 0x800F0003;
  0xB0E40005; 0xA0E40800; 0x03000002; 0x800F0000; 0x80E40000; 0x80E40001;
  0x03000002; 0x800F0001; 0x80E40002; 0x80E40003; 0x04000004; 0x800F0000;
  0xA0AA0000; 0x80E40000; 0x80E40001; 0x02000001; 0x800F0800; 0x80E40000;
  0x0000FFFF].

Definition asm_QE9 : list asm := [
  Dcl (t 0) m_xyzw;
  Dcl (v 0) m_xyzw;
  Dcl2d 0;
  Ins Texldp (dst m_xyzw (r 0)) [all (t 0); all (s 0)];
  Ins Mul (dst m_xyzw (r 0)) [all (r 0); all (v 0)];
  Ins Mov (dst m_xyzw (oC 0)) [all (r 0)]].

Definition g_ps20_QE9 : list Z := [
  0xFFFF0200; 0x0200001F; 0x80000000; 0xB00F0000; 0x0200001F; 0x80000000;
  0x900F0000; 0x0200001F; 0x90000000; 0xA00F0800; 0x03010042; 0x800F0000;
  0xB0E40000; 0xA0E40800; 0x03000005; 0x800F0000; 0x80E40000; 0x90E40000;
  0x02000001; 0x800F0800; 0x80E40000; 0x0000FFFF].

Definition asm_QE10 : list asm := [
  Dcl (t 1) m_xyz;
  Dcl2d 0;
  Ins Frc (dst m_w (r 0)) [sx (t 1)];
  Ins Add (dst m_x (r 0)) [neg (sw (r 0)); sx (t 1)];
  Ins Add (dst m_z (r 1)) [neg (sw (r 0)); sx (c 6)];
  Ins Mov (dst m_yz (r 0)) [all (t 1)];
  Ins Add (dst m_xyz (r 2)) [all (r 0); all (c 3)];
  Ins Dp3 (dst m_w (r 0)) [all (r 2); all (c 1)];
  Ins Dp3 (dst m_x (r 2)) [all (r 2); all (c 2)];
  Ins Add (dst m_y (r 2)) [sx (r 2); sw (c 2)];
  Ins Add (dst m_x (r 2)) [sw (r 0); sw (c 1)];
  Ins Add (dst m_xyz (r 3)) [all (r 0); all (c 4)];
  Ins Dp3 (dst m_w (r 0)) [all (r 3); all (c 1)];
  Ins Dp3 (dst m_z (r 2)) [all (r 3); all (c 2)];
  Ins Add (dst m_y (r 3)) [sz (r 2); sw (c 2)];
  Ins Add (dst m_x (r 3)) [sw (r 0); sw (c 1)];
  Ins Add (dst m_xyz (r 4)) [all (r 0); all (c 5)];
  Ins Add (dst m_xyz (r 0)) [all (r 0); all (c 0)];
  Ins Dp3 (dst m_w (r 0)) [all (r 4); all (c 1)];
  Ins Dp3 (dst m_z (r 2)) [all (r 4); all (c 2)];
  Ins Add (dst m_y (r 4)) [sz (r 2); sw (c 2)];
  Ins Add (dst m_x (r 4)) [sw (r 0); sw (c 1)];
  Ins Dp3 (dst m_w (r 0)) [all (r 0); all (c 1)];
  Ins Dp3 (dst m_x (r 0)) [all (r 0); all (c 2)];
  Ins Add (dst m_y (r 0)) [sx (r 0); sw (c 2)];
  Ins Add (dst m_x (r 0)) [sw (r 0); sw (c 1)];
  Ins Texld (dst m_xyzw (r 2)) [all (r 2); all (s 0)];
  Ins Texld (dst m_xyzw (r 3)) [all (r 3); all (s 0)];
  Ins Texld (dst m_xyzw (r 4)) [all (r 4); all (s 0)];
  Ins Texld (dst m_xyzw (r 0)) [all (r 0); all (s 0)];
  Ins Mul (dst m_y (r 1)) [sz (r 1); sz (r 1)];
  Ins Mul (dst m_x (r 1)) [sz (r 1); sy (r 1)];
  Ins Mov (dst m_w (r 1)) [sw (c 7)];
  Ins Dp4 (dst m_w (r 5)) [all (r 1); all (c 9)];
  Ins Dp4 (dst m_y (r 1)) [all (r 1); all (c 8)];
  Ins Mul (dst m_xyzw (r 2)) [all (r 2); sw (r 5)];
  Ins Mad (dst m_xyzw (r 2)) [all (r 3); sy (r 1); all (r 2)];
  Ins Mul (dst m_z (r 1)) [sx (r 1); sy (c 6)];
  Ins Mad (dst m_x (r 1)) [sx (r 1); neg (sy (c 6)); sx (c 6)];
  Ins Add (dst m_x (r 1)) [neg (sy (r 1)); sx (r 1)];
  Ins Add (dst m_x (r 1)) [neg (sw (r 5)); sx (r 1)];
  Ins Mad (dst m_xyzw (r 2)) [all (r 4); sz (r 1); all (r 2)];
  Ins Mad (dst m_xyzw (r 0)) [all (r 0); sx (r 1); all (r 2)];
  Ins Mov (dst m_xyzw (oC 0)) [all (r 0)]].

Definition g_ps20_QE10 : list Z := [
  0xFFFF0200; 0x0200001F; 0x80000000; 0xB0070001; 0x0200001F; 0x90000000;
  0xA00F0800; 0x02000013; 0x80080000; 0xB0000001; 0x03000002; 0x80010000;
  0x81FF0000; 0xB0000001; 0x03000002; 0x80040001; 0x81FF0000; 0xA0000006;
  0x02000001; 0x80060000; 0xB0E40001; 0x03000002; 0x80070002; 0x80E40000;
  0xA0E40003; 0x03000008; 0x80080000; 0x80E40002; 0xA0E40001; 0x03000008;
  0x80010002; 0x80E40002; 0xA0E40002; 0x03000002; 0x80020002; 0x80000002;
  0xA0FF0002; 0x03000002; 0x80010002; 0x80FF0000; 0xA0FF0001; 0x03000002;
  0x80070003; 0x80E40000; 0xA0E40004; 0x03000008; 0x80080000; 0x80E40003;
  0xA0E40001; 0x03000008; 0x80040002; 0x80E40003; 0xA0E40002; 0x03000002;
  0x80020003; 0x80AA0002; 0xA0FF0002; 0x03000002; 0x80010003; 0x80FF0000;
  0xA0FF0001; 0x03000002; 0x80070004; 0x80E40000; 0xA0E40005; 0x03000002;
  0x80070000; 0x80E40000; 0xA0E40000; 0x03000008; 0x80080000; 0x80E40004;
  0xA0E40001; 0x03000008; 0x80040002; 0x80E40004; 0xA0E40002; 0x03000002;
  0x80020004; 0x80AA0002; 0xA0FF0002; 0x03000002; 0x80010004; 0x80FF0000;
  0xA0FF0001; 0x03000008; 0x80080000; 0x80E40000; 0xA0E40001; 0x03000008;
  0x80010000; 0x80E40000; 0xA0E40002; 0x03000002; 0x80020000; 0x80000000;
  0xA0FF0002; 0x03000002; 0x80010000; 0x80FF0000; 0xA0FF0001; 0x03000042;
  0x800F0002; 0x80E40002; 0xA0E40800; 0x03000042; 0x800F0003; 0x80E40003;
  0xA0E40800; 0x03000042; 0x800F0004; 0x80E40004; 0xA0E40800; 0x03000042;
  0x800F0000; 0x80E40000; 0xA0E40800; 0x03000005; 0x80020001; 0x80AA0001;
  0x80AA0001; 0x03000005; 0x80010001; 0x80AA0001; 0x80550001; 0x02000001;
  0x80080001; 0xA0FF0007; 0x03000009; 0x80080005; 0x80E40001; 0xA0E40009;
  0x03000009; 0x80020001; 0x80E40001; 0xA0E40008; 0x03000005; 0x800F0002;
  0x80E40002; 0x80FF0005; 0x04000004; 0x800F0002; 0x80E40003; 0x80550001;
  0x80E40002; 0x03000005; 0x80040001; 0x80000001; 0xA0550006; 0x04000004;
  0x80010001; 0x80000001; 0xA1550006; 0xA0000006; 0x03000002; 0x80010001;
  0x81550001; 0x80000001; 0x03000002; 0x80010001; 0x81FF0005; 0x80000001;
  0x04000004; 0x800F0002; 0x80E40004; 0x80AA0001; 0x80E40002; 0x04000004;
  0x800F0000; 0x80E40000; 0x80000001; 0x80E40002; 0x02000001; 0x800F0800;
  0x80E40000; 0x0000FFFF].

Definition asm_QE11 : list asm := [
  Dcl (t 0) m_xyzw;
  Dcl (t 1) m_xy;
  Dcl2d 0;
  Ins Texld (dst m_xyzw (r 0)) [all (t 1); all (s 0)];
  Ins Mul (dst m_w (r 0)) [sw (r 0); sw (t 0)];
  Ins Mul (dst m_xyz (r 0)) [all (t 0); all (c 1)];
  Ins Mov (dst m_xyzw (oC 0)) [all (r 0)]].

Definition g_ps20_QE11 : list Z := [
  0xFFFF0200; 0x0200001F; 0x80000000; 0xB00F0000; 0x0200001F; 0x80000000;
  0xB0030001; 0x0200001F; 0x90000000; 0xA00F0800; 0x03000042; 0x800F0000;
  0xB0E40001; 0xA0E40800; 0x03000005; 0x80080000; 0x80FF0000; 0xB0FF0000;
  0x03000005; 0x80070000; 0xB0E40000; 0xA0E40001; 0x02000001; 0x800F0800;
  0x80E40000; 0x0000FFFF].

Definition asm_FR1 : list asm := [
  Dcl (t 0) m_xyzw;
  Ins Mov (dst m_xyzw (oC 0)) [all (t 0)]].

Definition g_ps20_FR1 : list Z := [
  0xFFFF0200; 0x0200001F; 0x80000000; 0xB00F0000; 0x02000001; 0x800F0800;
  0xB0E40000; 0x0000FFFF].

Definition asm_FR2 : list asm := [
  Dcl (t 0) m_xyzw;
  Dcl (t 1) m_xy;
  Dcl (t 2) m_xy;
  Dcl2d 0;
  Dcl2d 1;
  Ins Texld (dst m_xyzw (r 0)) [all (t 1); all (s 0)];
  Ins Texld (dst m_xyzw (r 1)) [all (t 2); all (s 1)];
  Ins Mul (dst m_xyzw (r 0)) [all (r 0); all (t 0)];
  Ins Mul (dst m_xyzw (r 0)) [sw (r 1); all (r 0)];
  Ins Mov (dst m_xyzw (oC 0)) [all (r 0)]].

Definition g_ps20_FR2 : list Z := [
  0xFFFF0200; 0x0200001F; 0x80000000; 0xB00F0000; 0x0200001F; 0x80000000;
  0xB0030001; 0x0200001F; 0x80000000; 0xB0030002; 0x0200001F; 0x90000000;
  0xA00F0800; 0x0200001F; 0x90000000; 0xA00F0801; 0x03000042; 0x800F0000;
  0xB0E40001; 0xA0E40800; 0x03000042; 0x800F0001; 0xB0E40002; 0xA0E40801;
  0x03000005; 0x800F0000; 0x80E40000; 0xB0E40000; 0x03000005; 0x800F0000;
  0x80FF0001; 0x80E40000; 0x02000001; 0x800F0800; 0x80E40000; 0x0000FFFF].

Definition asm_FR3 : list asm := [
  Dcl (t 0) m_xy;
  Dcl2d 0;
  Ins Texld (dst m_xyzw (r 0)) [all (t 0); all (s 0)];
  Ins Mov (dst m_xyzw (oC 0)) [all (r 0)]].

Definition g_ps20_FR3 : list Z := [
  0xFFFF0200; 0x0200001F; 0x80000000; 0xB0030000; 0x0200001F; 0x90000000;
  0xA00F0800; 0x03000042; 0x800F0000; 0xB0E40000; 0xA0E40800; 0x02000001;
  0x800F0800; 0x80E40000; 0x0000FFFF].

Definition asm_FR4 : list asm := [
  Dcl (t 0) m_xyzw;
  Dcl (t 1) m_xy;
  Dcl2d 0;
  Ins Texld (dst m_xyzw (r 0)) [all (t 1); all (s 0)];
  Ins Mul (dst m_xyzw (r 0)) [all (r 0); all (t 0)];
  Ins Mov (dst m_xyzw (oC 0)) [all (r 0)]].

Definition g_ps20_FR4 : list Z := [
  0xFFFF0200; 0x0200001F; 0x80000000; 0xB00F0000; 0x0200001F; 0x80000000;
  0xB0030001; 0x0200001F; 0x90000000; 0xA00F0800; 0x03000042; 0x800F0000;
  0xB0E40001; 0xA0E40800; 0x03000005; 0x800F0000; 0x80E40000; 0xB0E40000;
  0x02000001; 0x800F0800; 0x80E40000; 0x0000FFFF].

Definition asm_red : list asm := [
  Def 0 0x3F800000 0 0 0x3F800000;
  Ins Mov (dst m_xyzw (oC 0)) [all (c 0)]].

Definition g_ps20_red : list Z := [
  0xFFFF0200; 0x05000051; 0xA00F0000; 0x3F800000; 0x00000000; 0x00000000;
  0x3F800000; 0x02000001; 0x800F0800; 0xA0E40000; 0x0000FFFF].

Definition asm_debug : list asm := [
  Def 0 0x3F800000 0 0 0;
  Dcl (t 0) m_xyzw;
  Dcl2d 0;
  Ins Texldp (dst m_xyzw (r 0)) [all (t 0); all (s 0)];
  Ins Mov (dst m_w (r 0)) [sx (c 0)];
  Ins Mov (dst m_xyzw (oC 0)) [all (r 0)]].

Definition g_ps20_debug : list Z := [
  0xFFFF0200; 0x05000051; 0xA00F0000; 0x3F800000; 0x00000000; 0x00000000;
  0x00000000; 0x0200001F; 0x80000000; 0xB00F0000; 0x0200001F; 0x90000000;
  0xA00F0800; 0x03010042; 0x800F0000; 0xB0E40000; 0xA0E40800; 0x02000001;
  0x80080000; 0xA0000000; 0x02000001; 0x800F0800; 0x80E40000; 0x0000FFFF].

(** ** The table *)

Definition NUM_FIXED_SHADERS : Z := 22.

Record FixedShaderDescriptor := {
  hash : Z * Z;            (** the two halves of the MD5 hash *)
  bytecode : list Z;
  bytecode_length : Z;     (** in bytes *)
  tc2s_map : Z;            (** 4 bits for each texture coordinate *)
  tc2s_map_valids : Z;     (** 1 bit for each *)
}.

Definition g_fixed_shaders : list FixedShaderDescriptor := [
  {| hash := (0x385544c556f818c0, 0x76cbffeec186dc1a);
     bytecode := g_ps20_diffuse; bytecode_length := 4 * Z.of_nat (length g_ps20_diffuse);
     tc2s_map := 0xFFFFFFFF; tc2s_map_valids := 0 |};
  {| hash := (0x378e32c0b2333c3f, 0x8e1a2beb36cfad85);
     bytecode := g_ps20_tex1_diffuse; bytecode_length := 4 * Z.of_nat (length g_ps20_tex1_diffuse);
     tc2s_map := 0xFFFFFFF0; tc2s_map_valids := 1 |};
  {| hash := (0x4ef6e59e6c7e3edb, 0x2427f962846d9bb4);
     bytecode := g_ps20_tex1_diffuse_specular; bytecode_length := 4 * Z.of_nat (length g_ps20_tex1_diffuse_specular);
     tc2s_map := 0xFFFFFFF0; tc2s_map_valids := 1 |};
  {| hash := (0x7921856996d25590, 0x08344bdbe6b0423a);
     bytecode := g_ps20_chess; bytecode_length := 4 * Z.of_nat (length g_ps20_chess);
     tc2s_map := 0xFFFFFFF0; tc2s_map_valids := 1 |};
  {| hash := (0xd8420fec285af329, 0xfcb7f914aee4e615);
     bytecode := g_ps20_vlc; bytecode_length := 4 * Z.of_nat (length g_ps20_vlc);
     tc2s_map := 0xFFFFFFF0; tc2s_map_valids := 1 |};
  {| hash := (0xa0550f0964fb51f0, 0xe47de607d1573594);
     bytecode := g_ps20_divx; bytecode_length := 4 * Z.of_nat (length g_ps20_divx);
     tc2s_map := 0xFFFFF210; tc2s_map_valids := 7 |};
  {| hash := (0x108dea138e2def4a, 0x7c37ed0f7881c58a);
     bytecode := g_ps20_FR1; bytecode_length := 4 * Z.of_nat (length g_ps20_FR1);
     tc2s_map := 0xFFFFFFFF; tc2s_map_valids := 0 |};
  {| hash := (0x92b03f111abfcbf1, 0x71ddaf2c5c7d76d8);
     bytecode := g_ps20_FR2; bytecode_length := 4 * Z.of_nat (length g_ps20_FR2);
     tc2s_map := 0xFFFFF10F; tc2s_map_valids := 6 |};
  {| hash := (0x0775457e6d3446b6, 0x3bc4b59c1a86f59f);
     bytecode := g_ps20_FR3; bytecode_length := 4 * Z.of_nat (length g_ps20_FR3);
     tc2s_map := 0xFFFFFFF0; tc2s_map_valids := 1 |};
  {| hash := (0x90639fecc437119b, 0x8f9e18b41311f978);
     bytecode := g_ps20_FR4; bytecode_length := 4 * Z.of_nat (length g_ps20_FR4);
     tc2s_map := 0xFFFFFF0F; tc2s_map_valids := 2 |};
  {| hash := (0x34d277542392f353, 0x7e7dac7802609d0a);
     bytecode := g_ps20_QE1; bytecode_length := 4 * Z.of_nat (length g_ps20_QE1);
     tc2s_map := 0xFFFFFFF0; tc2s_map_valids := 1 |};
  {| hash := (0x82a331a772da312e, 0x325912431c283058);
     bytecode := g_ps20_QE2; bytecode_length := 4 * Z.of_nat (length g_ps20_QE2);
     tc2s_map := 0x0000000F; tc2s_map_valids := 254 |};
  {| hash := (0xdc65a6daa2791397, 0x2ccda5e131a56479);
     bytecode := g_ps20_QE3; bytecode_length := 4 * Z.of_nat (length g_ps20_QE3);
     tc2s_map := 0x00000000; tc2s_map_valids := 255 |};
  {| hash := (0x580d311c3c82b481, 0x727f4681dd9bee63);
     bytecode := g_ps20_QE4; bytecode_length := 4 * Z.of_nat (length g_ps20_QE4);
     tc2s_map := 0xFFFFFFF0; tc2s_map_valids := 1 |};
  {| hash := (0xf9a60ab41ec3d374, 0x9e5d1d796d836586);
     bytecode := g_ps20_QE5; bytecode_length := 4 * Z.of_nat (length g_ps20_QE5);
     tc2s_map := 0xFFFFFF0F; tc2s_map_valids := 2 |};
  {| hash := (0xe8ea0a3f3c341fe3, 0x27fb4e46e5d44e5e);
     bytecode := g_ps20_QE6; bytecode_length := 4 * Z.of_nat (length g_ps20_QE6);
     tc2s_map := 0xFFFFFFF0; tc2s_map_valids := 1 |};
  {| hash := (0x315b4daabc47d864, 0x6e5a96b5088108c5);
     bytecode := g_ps20_QE7; bytecode_length := 4 * Z.of_nat (length g_ps20_QE7);
     tc2s_map := 0xFFF0000F; tc2s_map_valids := 30 |};
  {| hash := (0x36bb496ef8735f38, 0x613569fb640edb82);
     bytecode := g_ps20_QE8; bytecode_length := 4 * Z.of_nat (length g_ps20_QE8);
     tc2s_map := 0xF000000F; tc2s_map_valids := 126 |};
  {| hash := (0x7a08f2eb33e9ab68, 0x3f727ba32a7765fb);
     bytecode := g_ps20_QE9; bytecode_length := 4 * Z.of_nat (length g_ps20_QE9);
     tc2s_map := 0xFFFFFFF0; tc2s_map_valids := 1 |};
  {| hash := (0x8f2e529bb202979e, 0xa1cf08e032e22424);
     bytecode := g_ps20_QE6; bytecode_length := 4 * Z.of_nat (length g_ps20_QE6);
     tc2s_map := 0xFFFFFFF0; tc2s_map_valids := 1 |};
  {| hash := (0xac611dbc572f3614, 0x53969198994417e3);
     bytecode := g_ps20_QE10; bytecode_length := 4 * Z.of_nat (length g_ps20_QE10);
     tc2s_map := 0xFFFFFFFF; tc2s_map_valids := 0 |};
  {| hash := (0xbb3a2191f2e8dc2e, 0x10b8ffcca70bcce4);
     bytecode := g_ps20_QE11; bytecode_length := 4 * Z.of_nat (length g_ps20_QE11);
     tc2s_map := 0xFFFFFF0F; tc2s_map_valids := 2 |}].

(** The listings with their arrays. *)
Definition shaders : list (list asm * list Z) := [
  (asm_diffuse, g_ps20_diffuse);
  (asm_tex1_diffuse, g_ps20_tex1_diffuse);
  (asm_tex1_diffuse_specular, g_ps20_tex1_diffuse_specular);
  (asm_chess, g_ps20_chess);
  (asm_vlc, g_ps20_vlc);
  (asm_divx, g_ps20_divx);
  (asm_QE1, g_ps20_QE1);
  (asm_QE2, g_ps20_QE2);
  (asm_QE3, g_ps20_QE3);
  (asm_QE4, g_ps20_QE4);
  (asm_QE5, g_ps20_QE5);
  (asm_QE6, g_ps20_QE6);
  (asm_QE7, g_ps20_QE7);
  (asm_QE8, g_ps20_QE8);
  (asm_QE9, g_ps20_QE9);
  (asm_QE10, g_ps20_QE10);
  (asm_QE11, g_ps20_QE11);
  (asm_FR1, g_ps20_FR1);
  (asm_FR2, g_ps20_FR2);
  (asm_FR3, g_ps20_FR3);
  (asm_FR4, g_ps20_FR4);
  (asm_red, g_ps20_red);
  (asm_debug, g_ps20_debug)].
