(* ===== verification/ShaderProofs.v ===== *)
(** Correctness of the shader data: the assembler and the disassembler are
    inverse, every canned array is the assembly of its listing, a checked
    program never depends on a register that it has not set up, and the table
    of canned shaders is consistent with the programs. *)

From S2P Require Import Prelude Layout ShaderDefs Asm Shaders.

(** ** Assembler and disassembler *)

Ltac bits_ok_tac :=
  unfold bits_ok; cbn; repeat apply Forall2_cons_2; try apply Forall2_nil_2; unfold fits;
  first [lia | vm_compute; intuition congruence | idtac].

Lemma rfile_of_type f : rfile_of (8 * ((rfile_type f : Z) / 8) + (rfile_type f : Z) mod 8) = Some f.
Proof. by destruct f. Qed.

Lemma dst_fields_ok d : dst_ok d -> bits_ok (dst_fields d).
Proof. intros [[? ?] [? ?]]. destruct d as [[[] n] m []]; simpl in *; bits_ok_tac. Qed.

Lemma src_fields_ok x : src_ok x -> bits_ok (src_fields x).
Proof. intros [[? ?] [? ?]]. destruct x as [[[] n] m []]; simpl in *; bits_ok_tac. Qed.

Lemma read_dst_token d : dst_ok d -> read_dst (dst_token d) = Some d.
Proof.
  intros Hd. unfold read_dst, dst_token. rewrite bits_of_bits_value by by apply dst_fields_ok.
  cbn [mbind option_bind dst_fields SVGA3dShaderDestToken_type_upper SVGA3dShaderDestToken_type_lower].
  rewrite rfile_of_type. by destruct d as [[f n] m []].
Qed.

Lemma read_src_token x : src_ok x -> read_src (src_token x) = Some x.
Proof.
  intros Hx. unfold read_src, src_token. rewrite bits_of_bits_value by by apply src_fields_ok.
  cbn [mbind option_bind src_fields SVGA3dShaderSrcToken_type_upper SVGA3dShaderSrcToken_type_lower].
  rewrite rfile_of_type. by destruct x as [[f n] m []].
Qed.

Lemma read_srcs l : Forall src_ok l -> mapM read_src (src_token <$> l) = Some l.
Proof.
  intros Hl. apply mapM_fmap_Forall_Some. eapply Forall_impl; [|exact Hl]. apply read_src_token.
Qed.

Lemma op_of_op o : op_of (opcode o) (opcontrol o) = Some o.
Proof. by destruct o. Qed.

(** The first word of an instruction and what is read from it. *)
Lemma read_ins_cons op control args i l :
  0 <= op < 2 ^ 16 -> 0 <= control < 2 ^ 3 -> (length args <= 15)%nat ->
  guess op control args = Some i ->
  assemble_ins i = inst_token op control (Z.of_nat (length args)) :: args ->
  read_ins (assemble_ins i ++ l) = Some (i, l).
Proof.
  intros Hop Hc Hl Hg E. unfold read_ins. rewrite E. cbn [app].
  assert (bits_of_value (inst_token op control (Z.of_nat (length args))) =
    Some (mk_SVGA3dShaderInstToken op control 0 (Z.of_nat (length args)) 0 0 0 0)) as ->
    by (apply bits_of_bits_value; bits_ok_tac).
  cbn [mbind option_bind SVGA3dShaderInstToken_size SVGA3dShaderInstToken_op SVGA3dShaderInstToken_control].
  rewrite Nat2Z.id, take_app_length, Hg. cbn [mbind option_bind].
  rewrite drop_app_length. destruct (decide _) as [_|n]; [done|]. by destruct n.
Qed.

Lemma read_ins_assemble i l : asm_ok i -> read_ins (assemble_ins i ++ l) = Some (i, l).
Proof.
  destruct i as [x m|n|n x y z w|o d srcs]; intros Hok.
  - destruct Hok as [Hd Hf].
    eapply (read_ins_cons SVGA3DOP_DCL 0 [_; _]); [| | | |reflexivity]; [done|done|simpl; lia|].
    unfold guess. rewrite Z.eqb_refl. rewrite read_dst_token by done.
    by destruct x as [[] ?].
  - eapply (read_ins_cons SVGA3DOP_DCL 0 [_; _]); [| | | |reflexivity]; [done|done|simpl; lia|].
    unfold guess. rewrite Z.eqb_refl. by rewrite read_dst_token by done.
  - eapply (read_ins_cons SVGA3DOP_DEF 0 [_; _; _; _; _]); [| | | |reflexivity]; [done|done|simpl; lia|].
    unfold guess. change (SVGA3DOP_DEF =? SVGA3DOP_DCL) with false. rewrite Z.eqb_refl. by rewrite read_dst_token by done.
  - destruct Hok as (Hd & Hs & Hl).
    eapply (read_ins_cons (opcode o) (opcontrol o) (dst_token d :: (src_token <$> srcs)));
      [by destruct o|by destruct o|simpl; rewrite length_fmap; lia| |].
    + unfold guess. replace (_ =? SVGA3DOP_DCL) with false by by destruct o.
      replace (_ =? SVGA3DOP_DEF) with false by by destruct o. rewrite op_of_op. cbn [mbind option_bind].
      rewrite read_dst_token by done. cbn [mbind option_bind]. by rewrite read_srcs.
    + cbn [assemble_ins length]. rewrite length_fmap. do 2 f_equal. lia.
Qed.

Lemma assemble_ins_length i : (2 <= length (assemble_ins i))%nat.
Proof. destruct i; simpl; lia. Qed.

Lemma read_body_assemble p : Forall asm_ok p -> forall fuel, (length p < fuel)%nat ->
  read_body fuel ((p ≫= assemble_ins) ++ [SVGA3DOP_END : Z]) = Some p.
Proof.
  induction 1 as [|i p Hi Hp IH]; intros [|fuel] Hf; simpl in Hf; try lia; csimpl; [done|].
  pose proof (assemble_ins_length i) as Hlen.
  destruct (decide _) as [E|_].
  { apply (f_equal length) in E. rewrite !length_app in E. simpl in E. lia. }
  rewrite <-app_assoc, read_ins_assemble by done. simpl. rewrite IH by lia. done.
Qed.

Lemma length_body (p : list asm) : (length p <= length (p ≫= assemble_ins))%nat.
Proof.
  induction p as [|i p IH]; csimpl; [done|]. rewrite length_app.
  pose proof (assemble_ins_length i). lia.
Qed.

Lemma disassemble_assemble p : Forall asm_ok p -> disassemble (assemble p) = Some p.
Proof.
  intros Hp. unfold disassemble, assemble. rewrite Z.eqb_refl. apply read_body_assemble; [done|].
  pose proof (length_body p). rewrite length_app. simpl. lia.
Qed.

Lemma read_ins_sound l i l' : read_ins l = Some (i, l') -> l = assemble_ins i ++ l'.
Proof.
  destruct l as [|w l]; [done|]. unfold read_ins.
  destruct (bits_of_value w) as [x|]; [|done]. cbn [mbind option_bind].
  destruct (guess _ _ _) as [j|]; [|done]. cbn [mbind option_bind].
  destruct (decide _) as [E|]; [|done]. intros [= <- <-]. rewrite E. cbn [app]. by rewrite take_drop.
Qed.

Lemma read_body_sound fuel : forall l p,
  read_body fuel l = Some p -> l = (p ≫= assemble_ins) ++ [SVGA3DOP_END : Z].
Proof.
  induction fuel as [|fuel IH]; intros l p; cbn [read_body]; [done|].
  destruct (decide _) as [->|_]; [by intros [= <-]|].
  destruct (read_ins l) as [[i l1]|] eqn:E1; [|done]. cbn [mbind option_bind].
  destruct (read_body fuel l1) as [q|] eqn:E2; [|done]. intros [= <-]. csimpl.
  apply read_ins_sound in E1 as ->. by rewrite (IH _ _ E2), <-app_assoc.
Qed.

Lemma disassemble_sound l p : disassemble l = Some p -> assemble p = l.
Proof.
  destruct l as [|w l]; [done|]. unfold disassemble, assemble.
  destruct (Z.eqb_spec w SVGA3D_PS_20) as [->|]; [|done].
  intros E%read_body_sound. by rewrite <-E.
Qed.

(** ** Checked programs *)

Ltac in_list := vm_compute; repeat first [apply list_elem_of_here | apply list_elem_of_further].

(** The components of the inputs that a program declares. *)
Definition declared (p : list asm) : known :=
  p ≫= fun i => match i with Dcl x m => add_mask x m [] | _ => [] end.

Section checker.
Context {F : Type} (A : arith F).
Implicit Types (g h : @regs F) (K : known).

(** Two states agree on some components. *)
Definition agree K g h : Prop := forall x i, (x, i) ∈ K -> 0 <= i < 4 ->
  x.(rf) <> SamplerFile -> g x i = h x i.
Definition agree_const g h : Prop := forall n i, g (c n) i = h (c n) i.

Lemma elem_of_add_mask x m K y i :
  (y, i) ∈ add_mask x m K <-> (y = x /\ 0 <= i < 4 /\ Z.testbit m i = true) \/ (y, i) ∈ K.
Proof.
  unfold add_mask. rewrite elem_of_app, list_elem_of_fmap. setoid_rewrite list_elem_of_filter.
  assert (forall j, j ∈ [0; 1; 2; 3] <-> 0 <= j < 4) as Hj.
  { intros j. rewrite !elem_of_cons, elem_of_nil. lia. }
  setoid_rewrite Hj. split.
  - intros [(j & [= -> ->] & ? & ?)|?]; [by left|by right].
  - intros [(-> & ? & ?)|?]; [left; by exists i|by right].
Qed.

Lemma agree_app K K' g h : agree (K ++ K') g h <-> agree K g h /\ agree K' g h.
Proof. unfold agree. setoid_rewrite elem_of_app. split; [split; auto|intros [? ?] ? ? [?|?]; auto]. Qed.

Lemma agree_add_mask x m K g h : agree (add_mask x m []) g h -> agree K g h -> agree (add_mask x m K) g h.
Proof.
  intros H1 H2 y i Hy Hi Hf. apply elem_of_add_mask in Hy as [Hy|Hy]; [|by apply H2].
  apply H1; [|done|done]. apply elem_of_add_mask. by left.
Qed.

Lemma swz_range x i : 0 <= swz x i < 4.
Proof. apply wrap_range. lia. Qed.

Lemma get_agree K g h o m k x i :
  src_known K o m k x = true -> i ∈ reads o m k -> agree K g h -> agree_const g h ->
  get A g x i = get A h x i.
Proof.
  intros Hk Hi HK Hc. unfold get. enough (g (s_reg x) (swz x i) = h (s_reg x) (swz x i)) as -> by done.
  destruct x as [[f n] w b]. unfold src_known in Hk. cbn [s_reg rf] in *.
  destruct f; try apply Hc;
    try (apply bool_decide_eq_true in Hk; rewrite Hk in Hi; by apply not_elem_of_nil in Hi);
    (apply HK; [|apply swz_range|done]; eapply forallb_forall in Hk; [|by apply list_elem_of_In];
     by apply bool_decide_eq_true in Hk).
Qed.

(** What the checker says of an instruction's sources. *)
Lemma srcs_known K o m l k x :
  forallb (fun '(k, x) => src_known K o m k x) (imap pair l) = true ->
  l !! k = Some x -> src_known K o m k x = true.
Proof.
  intros Hl Hx. rewrite forallb_forall in Hl. apply (Hl (k, x)), list_elem_of_In.
  apply list_elem_of_lookup. exists k. by rewrite list_lookup_imap, Hx.
Qed.

Lemma reads_mask o m k i :
  0 <= i < 4 -> Z.testbit m i = true ->
  match o with Dp3 | Dp4 | Texld | Texldp => True | _ => i ∈ reads o m k end.
Proof.
  intros Hi Hm. assert (i ∈ filter (fun i => Z.testbit m i = true) [0; 1; 2; 3]).
  { apply list_elem_of_filter. split; [done|]. rewrite !elem_of_cons. lia. }
  by destruct o.
Qed.

Lemma result_agree K g h o m l i :
  length l = arity o -> sampler_known K o l = true ->
  forallb (fun '(k, x) => src_known K o m k x) (imap pair l) = true ->
  agree K g h -> agree_const g h -> 0 <= i < 4 -> Z.testbit m i = true ->
  result A o l g i = result A o l h i /\ is_Some (result A o l g i).
Proof.
  intros Hl _ Hs HK Hc Hi Hm.
  assert (forall k x j, l !! k = Some x -> j ∈ reads o m k -> get A g x j = get A h x j) as Hget.
  { intros k x j Hx Hj. eapply get_agree; eauto using srcs_known. }
  pose proof (fun k => reads_mask o m k i Hi Hm) as Hr.
  destruct o; (destruct l as [|a [|b [|e []]]]; try discriminate Hl); cbn [result];
    (split; [|eauto]); unfold dot;
    repeat match goal with
      | |- context [get A g ?x ?j] =>
          first
            [ rewrite (Hget 0%nat x j eq_refl ltac:(first [apply (Hr 0%nat) | in_list]))
            | rewrite (Hget 1%nat x j eq_refl ltac:(first [apply (Hr 1%nat) | in_list]))
            | rewrite (Hget 2%nat x j eq_refl ltac:(first [apply (Hr 2%nat) | in_list])) ]
      end; try done.
Qed.

(** A write of equal values to a register extends the agreement. *)
Lemma put_agree K g h d (f e : Z -> F) :
  agree K g h -> (forall i, 0 <= i < 4 -> Z.testbit d.(d_mask) i = true -> f i = e i) ->
  agree (add_mask d.(d_reg) d.(d_mask) K) (put A g d f) (put A h d e).
Proof.
  intros HK Hfe x i Hx Hi Hf. unfold put. apply elem_of_add_mask in Hx.
  destruct (decide (x = d_reg d)) as [->|Hne].
  - destruct (Z.testbit (d_mask d) i) eqn:Em; [by rewrite Hfe|].
    destruct Hx as [(_ & _ & ?)|Hx]; [congruence|by apply HK].
  - destruct Hx as [[? _]|Hx]; [done|by apply HK].
Qed.

Lemma put_same K g h d (f : Z -> F) : agree K g h -> agree K (put A g d f) (put A h d f).
Proof.
  intros HK x i Hx Hi Hf. apply (put_agree K g h d f f HK); try done.
  apply elem_of_add_mask. by right.
Qed.

(** A write to a register leaves the components of the others. *)
Lemma put_other K g h d (f e : Z -> F) :
  (forall i, (d.(d_reg), i) ∉ K) -> agree K g h -> agree K (put A g d f) (put A h d e).
Proof.
  intros Hd HK x i Hx Hi Hf. unfold put. destruct (decide (x = d_reg d)) as [->|_]; [by destruct (Hd i)|].
  by apply HK.
Qed.

Lemma put_const g h d (f e : Z -> F) :
  agree_const g h -> writable d.(d_reg) = true -> agree_const (put A g d f) (put A h d e).
Proof.
  intros Hc Hw n i. unfold put. destruct (decide (c n = d_reg d)) as [E|_]; [|apply Hc].
  by rewrite <-E in Hw.
Qed.

(** Declared components are inputs. *)
Definition inputs K : Prop := forall x i, (x, i) ∈ K -> writable x = false /\ x.(rf) <> ConstFile.

Lemma check_ins_inputs i K K' : check_ins i K = Some K' -> inputs (declared [i]).
Proof.
  intros E x j Hx. destruct i as [y m| | |]; try (by apply not_elem_of_nil in Hx).
  unfold declared in Hx. csimpl in Hx. rewrite app_nil_r in Hx.
  apply elem_of_add_mask in Hx as [(-> & _)|Hx]; [|by apply not_elem_of_nil in Hx].
  destruct y as [[] ?]; by simplify_eq/=.
Qed.

(** One instruction, with [D] the inputs that are declared later. *)
Lemma step_agree i K K' D g h :
  check_ins i K = Some K' -> inputs D -> agree K g h -> agree (declared [i]) g h -> agree D g h ->
  agree_const g h ->
  exists g' h', step A i g = Some g' /\ step A i h = Some h' /\
    agree K' g' h' /\ agree D g' h' /\ agree_const g' h'.
Proof.
  intros E HD HK Hi HgD Hc. destruct i as [x m|n|n x y z w|o d l]; cbn [check_ins step] in *.
  - exists g, h. unfold declared in Hi. csimpl in Hi. rewrite app_nil_r in Hi.
    destruct (rf x); simplify_eq; eauto 10 using agree_add_mask.
  - exists g, h. destruct (_ && _); simplify_eq. repeat split; try done.
    intros x i Hx Hi4 Hf. apply elem_of_add_mask in Hx as [(-> & _)|Hx]; [done|by apply HK].
  - destruct (_ && _); simplify_eq. eexists _, _. split; [done|]. split; [done|].
    split; [by apply put_same|]. split; [by apply put_same|].
    intros n' i. unfold put. destruct (decide _); [|apply Hc]. by repeat case_match.
  - destruct (bool_decide _) eqn:El; [|done]. apply bool_decide_eq_true in El.
    destruct (writable _) eqn:Ew; [|done]. destruct (sampler_known _ _ _) eqn:Es; [|done].
    destruct (forallb _ _) eqn:Ef; [|done]. simplify_eq/=.
    destruct (decide _); [|done]. eexists _, _. split; [done|]. split; [done|]. split; [|split].
    + apply put_agree; [done|]. intros i Hi4 Hm.
      destruct (result_agree K g h o (d_mask d) l i) as [Eg [y Ey]]; try done.
      by rewrite <-Eg, Ey.
    + apply put_other; [|done]. intros i Hin. apply HD in Hin as [? _]. congruence.
    + by apply put_const.
Qed.

Lemma declared_cons i p : declared (i :: p) = declared [i] ++ declared p.
Proof. unfold declared. csimpl. by rewrite app_nil_r. Qed.

Lemma check_inputs p : forall K K', check p K = Some K' -> inputs (declared p).
Proof.
  induction p as [|i p IH]; intros K K' E; [by intros x j Hx%not_elem_of_nil|].
  cbn [check] in E. destruct (check_ins i K) as [K1|] eqn:E1; [|done].
  rewrite declared_cons. intros x j [Hx|Hx]%elem_of_app; [by eapply check_ins_inputs|].
  by eapply IH.
Qed.

Lemma run_agree p : forall K K' g h,
  check p K = Some K' -> agree K g h -> agree (declared p) g h -> agree_const g h ->
  exists g' h', run A p g = Some g' /\ run A p h = Some h' /\ agree K' g' h'.
Proof.
  induction p as [|i p IH]; intros K K' g h E HK HD Hc; cbn [check run] in *.
  { simplify_eq. eauto. }
  destruct (check_ins i K) as [K1|] eqn:E1; [|done]. cbn [mbind option_bind] in E.
  rewrite declared_cons in HD. apply agree_app in HD as [Hi HD].
  destruct (step_agree i K K1 (declared p) g h) as (g1 & h1 & Eg & Eh & HK1 & HD1 & Hc1); try done.
  { by eapply check_inputs. }
  rewrite Eg, Eh. cbn [mbind option_bind]. by apply (IH K1).
Qed.
End checker.

(** ** The table *)

(** The coordinates that a program samples with directly, and their samplers. *)
Definition samples (p : list asm) : list (Z * Z) :=
  p ≫= fun i =>
    match i with
    | Ins (Texld | Texldp) _ [a; b] =>
        match a.(s_reg).(rf) with TexFile => [(a.(s_reg).(rn), b.(s_reg).(rn))] | _ => [] end
    | _ => []
    end.

(** The sampler of a coordinate in a map of 4 bits each. *)
Definition tc_sampler (map i : Z) : Z := wrap 4 (Z.shiftr map (4 * i)).

(** An entry: its code is the assembly of a valid program, its length is the
    size of the code, a coordinate is valid if and only if it has a sampler,
    and every coordinate the program samples with has that sampler. *)
Definition entry_ok (e : FixedShaderDescriptor) : bool :=
  match disassemble e.(bytecode) with
  | Some p =>
      valid p && (e.(bytecode_length) =? 4 * Z.of_nat (length e.(bytecode))) &&
      forallb (fun i => eqb (Z.testbit e.(tc2s_map_valids) i) (negb (tc_sampler e.(tc2s_map) i =? 15)))
        (seqZ 0 8) &&
      forallb (fun '(i, k) => Z.testbit e.(tc2s_map_valids) i && (tc_sampler e.(tc2s_map) i =? k))
        (samples p)
  | None => false
  end.

(** Whatever a valid program computes depends on its declared inputs only. *)
Lemma valid_deterministic {F} (A : arith F) p g h :
  valid p = true -> agree (declared p) g h -> agree_const g h ->
  exists g' h', run A p g = Some g' /\ run A p h = Some h' /\
    forall i, 0 <= i < 4 -> g' (oC 0) i = h' (oC 0) i.
Proof.
  unfold valid. intros Hv HD Hc. destruct (check p []) as [K|] eqn:E; [|done].
  destruct (run_agree A p [] K g h E) as (g' & h' & Eg & Eh & HK); try done.
  { by intros x i Hx%not_elem_of_nil. }
  exists g', h'. split; [done|]. split; [done|]. intros i Hi. apply HK; try done.
  rewrite forallb_forall in Hv. eapply bool_decide_eq_true, Hv, list_elem_of_In.
  rewrite !elem_of_cons. lia.
Qed.

Lemma shaders_valid p : p ∈ shaders.*1 -> valid p = true.
Proof.
  intros Hp. assert (forallb valid (shaders.*1) = true) as Hall by by vm_compute.
  rewrite forallb_forall in Hall. by apply Hall, list_elem_of_In.
Qed.

(** ** Properties *)

(** The assembler and the disassembler are inverse: programs with fields in
    range are recovered from their tokens, and tokens that are accepted are
    the assembly of the program read, so that no bit of them is ignored. *)
Theorem assembler_inverse :
  (forall p, Forall asm_ok p -> disassemble (assemble p) = Some p) /\
  (forall l p, disassemble l = Some p -> assemble p = l).
Proof. split; [apply disassemble_assemble|apply disassemble_sound]. Qed.

(** The arrays are their listings.  Each of the 23 token arrays is, word for
    word, the assembly of the listing printed above it, disassembles to it,
    and the listing declares what it reads and writes all of its output. *)
Theorem arrays_match_listings :
  Forall (fun x => assemble x.1 = x.2 /\ disassemble x.2 = Some x.1 /\ valid x.1 = true) shaders.
Proof. repeat (apply Forall_cons_2; [vm_compute; auto|]). apply Forall_nil_2. Qed.

(** The table of canned shaders.  It has NUM_FIXED_SHADERS entries with
    distinct hashes; the code of each is one of the arrays, with its size, and
    the map from texture coordinates to samplers gives every coordinate that
    the program samples with the sampler it uses. *)
Theorem fixed_shaders_ok :
  Z.of_nat (length g_fixed_shaders) = NUM_FIXED_SHADERS /\
  NoDup (hash <$> g_fixed_shaders) /\
  Forall (fun e => e.(bytecode) ∈ shaders.*2 /\ entry_ok e = true) g_fixed_shaders.
Proof.
  split; [reflexivity|]. split; [apply (bool_decide_unpack _); by vm_compute|].
  assert (forallb (fun e => bool_decide (e.(bytecode) ∈ shaders.*2) && entry_ok e) g_fixed_shaders = true)
    as Hall by by vm_compute.
  apply Forall_forall. intros e He. rewrite forallb_forall in Hall. apply Hall in He.
  apply andb_prop in He as [He ?]. by apply bool_decide_eq_true in He.
Qed.

(** The canned shaders are functions of what they declare.  Whatever the
    device's arithmetic, each runs to its end, and the colour it computes
    depends on nothing but its constants and the components of its declared
    inputs: not on registers that it did not write. *)
Theorem canned_deterministic {F} (A : arith F) p g h :
  p ∈ shaders.*1 -> agree (declared p) g h -> agree_const g h ->
  exists g' h', run A p g = Some g' /\ run A p h = Some h' /\
    forall i, 0 <= i < 4 -> g' (oC 0) i = h' (oC 0) i.
Proof. intros Hp. by apply valid_deterministic, shaders_valid. Qed.

(** The colour that a program computes. *)
Definition color {F} (A : arith F) (p : list asm) (g : @regs F) (i : Z) : option F :=
  (fun g' => g' (oC 0) i) <$> run A p g.

(** C36: the fixed-function shaders compute the OpenGL pipeline's colours: the
    diffuse colour; the texture at the projected coordinate modulated by it
    and clamped; and that with the specular colour added to its first three
    components. *)
Theorem fixed_function_colors {F} (A : arith F) g i :
  0 <= i < 4 ->
  let texel := A.(f_tex) 0 (A.(f_div) (g (t 0) 0) (g (t 0) 3)) (A.(f_div) (g (t 0) 1) (g (t 0) 3)) i in
  let modulated := A.(f_sat) (A.(f_mul) texel (g (v 0) i)) in
  color A asm_diffuse g i = Some (g (v 0) i) /\
  color A asm_tex1_diffuse g i = Some modulated /\
  color A asm_tex1_diffuse_specular g i =
    Some (if i =? 3 then modulated else A.(f_add) modulated (g (v 1) i)).
Proof.
  intros Hi. assert (i = 0 \/ i = 1 \/ i = 2 \/ i = 3) as [->|[->|[->| ->]]] by lia; by vm_compute.
Qed.

(** ** The hypotheses can be met *)

(** Integers as an arithmetic. *)
Definition z_arith : arith Z :=
  Arith Z Z.add Z.mul Z.opp Z.div (fun x => Z.max 0 (Z.min 1 x)) (fun _ => 0) (fun x => x)
    (fun s x y i => s + x + y + i).

Lemma canned_deterministic_witness : exists g' h',
  run z_arith asm_divx (fun x i => if decide (x.(rf) = TempFile) then 7 else x.(rn) + i) = Some g' /\
  run z_arith asm_divx (fun x i => x.(rn) + i) = Some h' /\
  forall i, 0 <= i < 4 -> g' (oC 0) i = h' (oC 0) i.
Proof.
  apply (canned_deterministic z_arith asm_divx).
  - apply list_elem_of_In. simpl. tauto.
  - intros x i Hx _ _. destruct (decide (rf x = TempFile)) as [E|]; [|done]. exfalso.
    assert (forallb (fun y => bool_decide (rf y.1 <> TempFile)) (declared asm_divx) = true) as Hall
      by (vm_compute; reflexivity).
    rewrite forallb_forall in Hall. apply list_elem_of_In, Hall, bool_decide_eq_true in Hx. done.
  - intros n i. done.
Defined.

Lemma fixed_function_colors_witness :
  color z_arith asm_diffuse (fun x i => i) 2 = Some 2 /\
  color z_arith asm_tex1_diffuse (fun x i => i) 2 = Some 1 /\
  color z_arith asm_tex1_diffuse_specular (fun x i => i) 2 = Some 3.
Proof. apply (fixed_function_colors z_arith (fun x i => i) 2). lia. Defined.
