(* ===== verification/ShaderCache.v ===== *)
(** The shader cache of the command processor (AC/GL/CEsvga2IPP.cpp): programs
    of the application are looked up by hash in a list kept in order of last
    use; a program that is one of the canned ones is replaced by the canned
    code.  The MD5 function of the kernel is a parameter. *)

From S2P Require Import Prelude IOKit Layout SvgaReg SvgaCmd Fifo Ring FifoProofs SvgaDevice Bits.
From S2P Require Import DeviceProofs Driver Svga3dReg Svga3d Svga3dProofs ShaderDefs Asm Shaders.

(** The sign bit marks the identifiers that mean none. *)
Definition isIdValid (id : Z) : bool := 0 <=? s32 id.

Definition TC2S_MAP_ID : Z := 0x76543210.
Definition TC2S_MAP_ID_VALIDS : Z := 255.

Record ShaderEntry := {
  md5 : Z * Z;
  shader_type : Z;
  shader_id : Z;
  e_tc2s_map : Z;
  e_tc2s_map_valids : Z;
}.

(** The fields of the command processor that the cache uses. *)
Record ipp := {
  m_shader_cache : list ShaderEntry;
  m_next_shid : Z;
  m_active_shid : Z;
  m_context_id : Z;
}.

Definition set_cache (l : list ShaderEntry) (p : ipp) : ipp :=
  {| m_shader_cache := l; m_next_shid := p.(m_next_shid);
     m_active_shid := p.(m_active_shid); m_context_id := p.(m_context_id) |}.

(** The search: the entry with the hash, and the list without it. *)
Fixpoint find_entry (h : Z * Z) (l : list ShaderEntry) : option (ShaderEntry * list ShaderEntry) :=
  match l with
  | [] => None
  | e :: l =>
      if decide (e.(md5) = h) then Some (e, l)
      else '(x, l') ← find_entry h l; Some (x, e :: l')
  end.

Section cache.
Context {HS : Type} `{SvgaHost HS}.
Implicit Types (d : dev HS).
Local Abbreviation M := (M HS).

(** The result of the hash of the source; the allocation of an entry and the
    lock of the device may fail. *)
Variables (hash_of : list Z -> Z * Z) (malloc_ok lock_ok : bool).

Definition new_entry (h : Z * Z) : ShaderEntry :=
  {| md5 := h; shader_type := SVGA3D_SHADERTYPE_PS; shader_id := SVGA_ID_INVALID;
     e_tc2s_map := TC2S_MAP_ID; e_tc2s_map_valids := TC2S_MAP_ID_VALIDS |}.

(** [None] is a null source. *)
Definition cache_shader (source : option (list Z)) (p : ipp) : M (option ShaderEntry * ipp) :=
  match source with
  | None | Some [] => mret (None, p)
  | Some source =>
      let h := hash_of source in
      match find_entry h p.(m_shader_cache) with
      | Some (e, rest) => mret (Some e, set_cache (e :: rest) p)
      | None =>
          if negb malloc_ok then mret (None, p)
          else
            let e := new_entry h in
            let p := set_cache (e :: p.(m_shader_cache)) p in
            match find (fun x => bool_decide (x.(hash) = h)) g_fixed_shaders with
            | None => mret (Some e, p)
            | Some x =>
                if negb lock_ok then mret (Some e, p)
                else
                  let id := p.(m_next_shid) in
                  DefineShader p.(m_context_id) id e.(shader_type) x.(bytecode) x.(bytecode_length);;
                  let e' := {| md5 := h; shader_type := e.(shader_type); shader_id := id;
                               e_tc2s_map := x.(tc2s_map);
                               e_tc2s_map_valids := x.(tc2s_map_valids) |} in
                  mret (Some e',
                        {| m_shader_cache := e' :: tail p.(m_shader_cache);
                           m_next_shid := u32 (id + 1);
                           m_active_shid := p.(m_active_shid);
                           m_context_id := p.(m_context_id) |})
            end
      end
  end.

(** [DestroyShader] of every entry that has a shader. *)
Fixpoint destroy_loop (cid : Z) (l : list ShaderEntry) : M unit :=
  match l with
  | [] => skip
  | e :: l =>
      when (isIdValid e.(shader_id))
        (DestroyShader cid e.(shader_id) e.(shader_type);; skip);;
      destroy_loop cid l
  end.

(** [provider] says whether the pointer is not null. *)
Definition purge_shader_cache (provider : bool) (p : ipp) : M ipp :=
  let emptied active :=
    {| m_shader_cache := []; m_next_shid := 0; m_active_shid := active;
       m_context_id := p.(m_context_id) |} in
  if negb provider || negb (isIdValid p.(m_context_id)) || negb lock_ok then
    mret (emptied p.(m_active_shid))
  else
    SetShader p.(m_context_id) SVGA3D_SHADERTYPE_PS SVGA_ID_INVALID;;
    SetShader p.(m_context_id) SVGA3D_SHADERTYPE_VS SVGA_ID_INVALID;;
    destroy_loop p.(m_context_id) p.(m_shader_cache);;
    mret (emptied (u32 (SVGA_ID_INVALID - 1))).
End cache.

(** ** The list *)

Lemma find_entry_Some h l e rest :
  find_entry h l = Some (e, rest) -> e.(md5) = h /\ l ≡ₚ e :: rest.
Proof.
  revert rest. induction l as [|x l IH]; intros rest E; [done|]. cbn [find_entry] in E.
  destruct (decide _) as [Eh|_]; [by simplify_eq|].
  destruct (find_entry h l) as [[y l']|]; [|done]. simplify_eq/=.
  destruct (IH l' eq_refl) as [? Hp]. split; [done|]. rewrite Hp. apply Permutation_swap.
Qed.

Lemma find_entry_None h l : find_entry h l = None <-> h ∉ md5 <$> l.
Proof.
  induction l as [|x l IH]; cbn [find_entry]; csimpl.
  { split; [intros _; apply not_elem_of_nil|done]. }
  rewrite not_elem_of_cons, <-IH. destruct (decide (md5 x = h)) as [Eh|Hne].
  - split; [done|]. by intros [? _].
  - destruct (find_entry h l) as [[y l']|]; split; try done; by intros [_ ?].
Qed.

Lemma find_entry_head e l : find_entry e.(md5) (e :: l) = Some (e, l).
Proof. cbn [find_entry]. by rewrite decide_True. Qed.

(** The canned code is words, and its length in bytes is that of its words. *)
Lemma canned_code x :
  In x g_fixed_shaders ->
  Forall is_u32 x.(bytecode) /\ x.(bytecode_length) = 4 * Z.of_nat (length x.(bytecode)) /\
  Z.of_nat (length x.(bytecode)) <= 184.
Proof.
  intros Hx.
  assert (forallb (fun x => forallb (fun w => (0 <=? w) && (w <? 2 ^ 32)) x.(bytecode) &&
    (x.(bytecode_length) =? 4 * Z.of_nat (length x.(bytecode))) &&
    (Z.of_nat (length x.(bytecode)) <=? 184)) g_fixed_shaders = true) as Hall by by vm_compute.
  rewrite forallb_forall in Hall. apply Hall in Hx. rewrite !andb_true_iff in Hx.
  destruct Hx as [[Hw Hl] Hb]. split; [|split; [by apply Z.eqb_eq|by apply Z.leb_le]].
  apply Forall_forall. intros w Hi. rewrite forallb_forall in Hw. apply Hw in Hi. unfold fits. lia.
Qed.

Section purge.
Context {HS : Type} `{SvgaHostOK HS}.
Implicit Types (d : dev HS).

(** The commands of a purge. *)
Definition purge_cmds (cid : Z) (l : list ShaderEntry) : list svga3d_cmd :=
  [ShaderSet (mk_SVGA3dCmdSetShader cid SVGA3D_SHADERTYPE_PS SVGA_ID_INVALID);
   ShaderSet (mk_SVGA3dCmdSetShader cid SVGA3D_SHADERTYPE_VS SVGA_ID_INVALID)] ++
  ((fun e => ShaderDestroy (mk_SVGA3dCmdDestroyShader cid e.(shader_id) e.(shader_type))) <$>
     filter (fun e => isIdValid e.(shader_id) = true) l).

Definition purge_calls (cid : Z) (l : list ShaderEntry) : list (M HS bool) :=
  [SetShader cid SVGA3D_SHADERTYPE_PS SVGA_ID_INVALID;
   SetShader cid SVGA3D_SHADERTYPE_VS SVGA_ID_INVALID] ++
  ((fun e => DestroyShader cid e.(shader_id) e.(shader_type)) <$>
     filter (fun e => isIdValid e.(shader_id) = true) l).

Lemma destroy_loop_calls cid l fuel d bs d' :
  run_calls ((fun e => DestroyShader cid e.(shader_id) e.(shader_type)) <$>
     filter (fun e => isIdValid e.(shader_id) = true) l) fuel d = Some (bs, d') ->
  destroy_loop cid l fuel d = Some (tt, d').
Proof.
  revert d bs. induction l as [|e l IH]; intros d bs E; [by inversion E|].
  rewrite filter_cons in E. cbn [destroy_loop]. destruct (isIdValid (shader_id e)) eqn:Ev.
  - rewrite decide_True in E by done. csimpl in E. cbn [when]. cbn [run_calls] in E.
    apply bind_inv in E as (b & d1 & E1 & E). apply bind_inv in E as (bs' & d2 & E2 & E). cbv [mret M_ret] in E. simplify_eq.
    rewrite mbind_assoc, (mbind_eq _ _ fuel d b d1 E1), (mbind_eq _ _ fuel d1 tt d1 eq_refl).
    by eapply IH.
  - rewrite decide_False in E by congruence. cbn [when].
    rewrite (mbind_eq _ _ fuel d tt d eq_refl). by eapply IH.
Qed.

Lemma purge_calls_queue cid l :
  is_u32 cid -> Forall (fun e => is_u32 e.(shader_id) /\ is_u32 e.(shader_type)) l ->
  Forall (fun x => Queues x.1 x.2 /\ length (encode_cmd x.2) = 5%nat)
    (zip (purge_calls cid l) (cmd3d <$> purge_cmds cid l)).
Proof.
  intros Hc Hl. unfold purge_calls, purge_cmds. cbn [app fmap list_fmap zip_with].
  do 2 (apply Forall_cons_2; [split; [apply SetShader_queues; split; [exact Hc|done]|reflexivity]|]).
  induction Hl as [|e l [Hid Hty] _ IH]; [by apply Forall_nil_2|]. rewrite filter_cons.
  destruct (decide _); [|exact IH]. csimpl. apply Forall_cons_2; [|exact IH].
  split; [apply DestroyShader_queues; split; [exact Hc|by split]|reflexivity].
Qed.
End purge.

Section properties.
Context {HS : Type} `{SvgaHostOK HS}.
Implicit Types (d : dev HS).
Variable hash_of : list Z -> Z * Z.

(** A program in the cache.  The search returns the entry with the
    program's hash without touching the device, and moves it to the front of
    the list, which otherwise keeps its entries; a second search for the same
    program changes nothing at all. *)
Theorem cache_shader_hit malloc_ok lock_ok w source p fuel d :
  hash_of (w :: source) ∈ md5 <$> p.(m_shader_cache) ->
  exists e rest,
    cache_shader hash_of malloc_ok lock_ok (Some (w :: source)) p fuel d =
      Some ((Some e, set_cache (e :: rest) p), d) /\
    e.(md5) = hash_of (w :: source) /\ p.(m_shader_cache) ≡ₚ e :: rest /\
    cache_shader hash_of malloc_ok lock_ok (Some (w :: source)) (set_cache (e :: rest) p) fuel d =
      Some ((Some e, set_cache (e :: rest) p), d).
Proof.
  intros Hin. unfold cache_shader. set (h := hash_of (w :: source)) in *.
  destruct (find_entry h p.(m_shader_cache)) as [[e rest]|] eqn:E; [|by apply find_entry_None in E].
  pose proof (find_entry_Some _ _ _ _ E) as [He Hp]. exists e, rest.
  split; [done|]. split; [done|]. split; [done|]. cbn [set_cache m_shader_cache].
  rewrite <-He, find_entry_head. done.
Qed.

(** A canned program.  A program that is not in the cache but whose hash is
    in the table of canned shaders is defined under the next shader number:
    the device is sent the canned code word for word, and the entry put at the
    front of the cache carries the number and the canned coordinate map. *)
Theorem cache_shader_canned w source p x d :
  let h := hash_of (w :: source) in
  h ∉ md5 <$> p.(m_shader_cache) -> find (fun x => bool_decide (x.(hash) = h)) g_fixed_shaders = Some x ->
  is_u32 p.(m_context_id) -> is_u32 p.(m_next_shid) -> idle d -> 200 <= rsize d.(fifo) ->
  let e := {| md5 := h; shader_type := SVGA3D_SHADERTYPE_PS; shader_id := p.(m_next_shid);
              e_tc2s_map := x.(tc2s_map); e_tc2s_map_valids := x.(tc2s_map_valids) |} in
  emits (cache_shader hash_of true true (Some (w :: source)) p) d
    (Some e, {| m_shader_cache := e :: p.(m_shader_cache); m_next_shid := u32 (p.(m_next_shid) + 1);
                m_active_shid := p.(m_active_shid); m_context_id := p.(m_context_id) |})
    (encode_cmd (cmd3d (ShaderDefine
       (mk_SVGA3dCmdDefineShader p.(m_context_id) p.(m_next_shid) SVGA3D_SHADERTYPE_PS) x.(bytecode)))).
Proof.
  intros h Hn Hx Hc Hid Hi Hs e fuel Hf. unfold cache_shader. fold h.
  apply find_entry_None in Hn. rewrite Hn, Hx. cbn [negb].
  apply find_some in Hx as [Hx _]. destruct (canned_code x Hx) as (Hw & El & Hb).
  destruct (DefineShader_emits p.(m_context_id) p.(m_next_shid) SVGA3D_SHADERTYPE_PS x.(bytecode) d)
    with (fuel := fuel) as (d' & E & Hcm); [split; [split; [exact Hc|split; [exact Hid|done]]|exact Hw]|done| |done|].
  { unfold room. cbn [encode_cmd cmd3d encode3d snd length]. rewrite length_app, flat_words.
    change (length (enc SVGA3dCmdDefineShader_c _)) with 3%nat. lia. }
  exists d'. cbn [set_cache m_shader_cache m_next_shid m_context_id m_active_shid shader_type new_entry].
  rewrite El. rewrite (mbind_eq _ _ fuel d kIOReturnSuccess d' E). done.
Qed.

(** Purging the cache.  With a device, the shaders of the context are
    unbound, every shader that the cache has defined is destroyed, in the order
    of the list and with nothing else sent, and the cache is left empty. *)
Theorem purge_shader_cache_destroys p fuel d :
  isIdValid p.(m_context_id) = true -> is_u32 p.(m_context_id) ->
  Forall (fun e => is_u32 e.(shader_id) /\ is_u32 e.(shader_type)) p.(m_shader_cache) ->
  idle d -> 8 <= rsize d.(fifo) -> (Z.to_nat (rsize d.(fifo)) <= fuel)%nat ->
  exists p' d' consumed,
    purge_shader_cache true true p fuel d = Some (p', d') /\ p'.(m_shader_cache) = [] /\
    p'.(m_next_shid) = 0 /\ idle d' /\
    consumed ++ queue d'.(fifo) = queue d.(fifo) ++
      ((cmd3d <$> purge_cmds p.(m_context_id) p.(m_shader_cache)) ≫= encode_cmd).
Proof.
  intros Hv Hc Hl Hi Hs Hf. set (cid := m_context_id p) in *. set (l := m_shader_cache p) in *.
  set (calls := zip (purge_calls cid l) (cmd3d <$> purge_cmds cid l)).
  assert (length (purge_calls cid l) = length (cmd3d <$> purge_cmds cid l)) as Hlen.
  { unfold purge_calls, purge_cmds. by rewrite length_fmap, !length_app, !length_fmap. }
  pose proof (purge_calls_queue cid l Hc Hl) as Hq2. fold calls in Hq2.
  destruct (run_calls_spec fuel calls d Hi) as (d' & bs & pre & E & Hi' & _ & Hq); [| |done|].
  - eapply Forall_impl; [|exact Hq2]. by intros ? [? _].
  - eapply Forall_impl; [|exact Hq2]. intros ? [_ ->]. split; lia.
  - unfold calls in E, Hq. rewrite fst_zip, snd_zip in * by lia. unfold purge_calls in E. cbn [app run_calls] in E.
    apply bind_inv in E as (b1 & d1 & E1 & E). apply bind_inv in E as (r1 & e1 & E & R1).
    apply bind_inv in E as (b2 & d2 & E2 & E). apply bind_inv in E as (r2 & e2 & E & R2).
    cbv [mret M_ret] in R1, R2. simplify_eq. apply destroy_loop_calls in E.
    eexists _, d', pre. split; [|split; [|split; [|split; [exact Hi'|exact Hq]]]].
    + unfold purge_shader_cache. fold cid l. rewrite Hv. cbn [negb orb].
      rewrite (mbind_eq _ _ fuel d b1 d1 E1), (mbind_eq _ _ fuel d1 b2 d2 E2), (mbind_eq _ _ fuel d2 tt d' E).
      reflexivity.
    + done.
    + done.
Qed.
End properties.

(** ** The hypotheses can be met *)

Definition demo_hash (l : list Z) : Z * Z :=
  match l with [1] => (0x108dea138e2def4a, 0x7c37ed0f7881c58a) | _ => (0, 0) end.

Definition demo_ipp : ipp :=
  {| m_shader_cache := [{| md5 := (7, 7); shader_type := 2; shader_id := 4; e_tc2s_map := 0; e_tc2s_map_valids := 0 |};
                        {| md5 := (0, 0); shader_type := 2; shader_id := 5; e_tc2s_map := 0; e_tc2s_map_valids := 0 |}];
     m_next_shid := 6; m_active_shid := 0; m_context_id := 1 |}.

Lemma cache_shader_hit_witness : exists e rest,
  cache_shader demo_hash true true (Some [9]) demo_ipp O demo_dev =
    Some ((Some e, set_cache (e :: rest) demo_ipp), demo_dev) /\
  e.(md5) = (0, 0) /\ demo_ipp.(m_shader_cache) ≡ₚ e :: rest /\
  cache_shader demo_hash true true (Some [9]) (set_cache (e :: rest) demo_ipp) O demo_dev =
    Some ((Some e, set_cache (e :: rest) demo_ipp), demo_dev).
Proof.
  apply (cache_shader_hit demo_hash true true 9 [] demo_ipp O demo_dev).
  apply list_elem_of_In. vm_compute. tauto.
Defined.

Lemma cache_shader_canned_witness :
  let e := {| md5 := (0x108dea138e2def4a, 0x7c37ed0f7881c58a); shader_type := SVGA3D_SHADERTYPE_PS;
              shader_id := 6; e_tc2s_map := 0xFFFFFFFF; e_tc2s_map_valids := 0 |} in
  emits (cache_shader demo_hash true true (Some [1]) demo_ipp) demo_dev
    (Some e, {| m_shader_cache := e :: demo_ipp.(m_shader_cache); m_next_shid := 7;
                m_active_shid := 0; m_context_id := 1 |})
    (encode_cmd (cmd3d (ShaderDefine (mk_SVGA3dCmdDefineShader 1 6 SVGA3D_SHADERTYPE_PS) g_ps20_FR1))).
Proof.
  refine (cache_shader_canned demo_hash 1 [] demo_ipp
    {| hash := (0x108dea138e2def4a, 0x7c37ed0f7881c58a); bytecode := g_ps20_FR1;
       bytecode_length := 4 * Z.of_nat (length g_ps20_FR1);
       tc2s_map := 0xFFFFFFFF; tc2s_map_valids := 0 |} demo_dev _ _ _ _ _ _).
  - rewrite list_elem_of_In. vm_compute. intuition congruence.
  - vm_compute. reflexivity.
  - vm_compute. intuition congruence.
  - vm_compute. intuition congruence.
  - exact demo_idle.
  - change (fifo demo_dev) with demo_fifo. rewrite demo_rsize. lia.
Defined.

Lemma purge_shader_cache_destroys_witness : exists p' d' consumed,
  purge_shader_cache true true demo_ipp (Z.to_nat 4096) demo_dev = Some (p', d') /\
  p'.(m_shader_cache) = [] /\ p'.(m_next_shid) = 0 /\ idle d' /\
  consumed ++ queue d'.(fifo) = queue demo_dev.(fifo) ++
    ((cmd3d <$> purge_cmds 1 demo_ipp.(m_shader_cache)) ≫= encode_cmd).
Proof.
  apply (purge_shader_cache_destroys demo_ipp (Z.to_nat 4096) demo_dev).
  - reflexivity.
  - vm_compute. intuition congruence.
  - unfold demo_ipp. cbn [m_shader_cache]. forall_list; cbn; range_solve.
  - exact demo_idle.
  - change (fifo demo_dev) with demo_fifo. rewrite demo_rsize. lia.
  - change (fifo demo_dev) with demo_fifo. by rewrite demo_rsize.
Defined.
