(* ===== verification/GldDisplay.v ===== *)
(** The displays of the OpenGL bundle (GLD/CEsvga2GLDriver.c
    [gldInitializeLibrarySelf], [gldGetVersion], [gldGetRendererInfo],
    [gldGetString], [gldCreateShared]; GLD/GLDCode.c [glrPopulateDevice],
    [glrGetString], [load_libs], [unload_libs]): which displays of the mask are
    served, what is learnt of each from the kernel, and how a display mask is
    resolved afterwards.

    The constants of Apple's OpenGL headers are parameters, [CGLTypes]; the
    kernel calls answer by the parameter [IOEnv]. *)

From S2P Require Import Prelude.
From stdpp Require Import strings.

#[local] Open Scope string_scope.
#[local] Open Scope list_scope.
#[local] Open Scope Z_scope.

(** ** Parameters *)

Class CGLTypes := {
  kCGLNoError : Z;
  kCGLBadDisplay : Z;
  kCGLBadCodeModule : Z;
  kCGLRendererIntel900ID : Z;
  kCGLDoubleBufferBit : Z; kCGLSingleBufferBit : Z; kCGLMonoscopicBit : Z;
  kCGLARGB8888Bit : Z; kCGLARGB1555Bit : Z; kCGLRGBA16161616Bit : Z;
  kCGL24Bit : Z; kCGL16Bit : Z; kCGL8Bit : Z; kCGL0Bit : Z;
  GL_VENDOR : Z; GL_RENDERER : Z; GL_VERSION : Z; GL_EXTENSIONS : Z;
}.

Definition ERR_SUCCESS : Z := 0.

Class IOEnv := {
  (** [IOServiceOpen] of a service: the result and the connection *)
  service_open : Z -> Z * Z;
  (** [kIOCEDeviceGetConfig] on a connection: the result and the five words *)
  get_config : Z -> Z * (Z * Z * Z * Z * Z);
  (** [kIOCEDeviceCreateShared] and [kIOCEDeviceGetChannelMemory] *)
  create_shared : Z -> Z;
  get_channel_memory : Z -> Z * Z;
  (** [dlopen] of a library and [dlsym] of a symbol: the address, or 0 *)
  lib_open : string -> Z;
  lib_sym : Z -> string -> Z;
}.

(** ** Data *)

Record display_info_t := {
  service : Z;
  mask : Z;
  config : Z * Z * Z * Z * Z;
  engine1 : string;
  engine2 : string;
}.

Record glr_io_data_t := {
  displayMask : Z;
  lastDisplay : Z;
  pServices : option (Z -> Z);
  pServiceFlags : option (Z -> Z);
  IODataFlush : Z;
  IODataBindSurface : Z;
  surfaces : Z -> Z;
  surface_refcount : Z -> Z;
  num_displays : Z;
  dinfo : option (list display_info_t);
}.

(** ** Discovery *)

(** The locals of the scan of the display mask. *)
Record scan := {
  last_display : Z;
  num_found : Z;
  services : Z -> Z;
  masks : Z -> Z;
  scan_surfaces : Z -> Z;
  scan_refcount : Z -> Z;
}.

Section discovery.
Context (pSvc pFlags : Z -> Z) (GLDisplayMask : Z).

Definition scan_step (s : scan) (display_num : Z) : scan :=
  let sv := upd s.(services) display_num 0 in
  let ms := upd s.(masks) display_num 0 in
  let su := upd s.(scan_surfaces) display_num 0 in
  let rf := upd s.(scan_refcount) display_num 0 in
  if has_bits GLDisplayMask (Z.shiftl 1 display_num) then
    if pFlags display_num =? 0 then
      {| last_display := display_num + 1; num_found := s.(num_found) + 1;
         services := upd sv s.(num_found) (pSvc display_num);
         masks := upd ms s.(num_found) (Z.lor (ms s.(num_found)) (Z.shiftl 1 display_num));
         scan_surfaces := su; scan_refcount := rf |}
    else
      {| last_display := display_num + 1; num_found := s.(num_found); services := sv; masks := ms;
         scan_surfaces := su; scan_refcount := rf |}
  else
    {| last_display := s.(last_display); num_found := s.(num_found); services := sv; masks := ms;
       scan_surfaces := su; scan_refcount := rf |}.

(** [display_num] from 0 to 31; the arrays start with whatever they held. *)
Definition scan_displays (sv ms su rf : Z -> Z) : scan :=
  foldl scan_step
    {| last_display := 0; num_found := 0; services := sv; masks := ms;
       scan_surfaces := su; scan_refcount := rf |} (seqZ 0 32).
End discovery.

Definition glrPopulateDevice (d : display_info_t) : Z * display_info_t :=
  (ERR_SUCCESS,
   {| service := d.(service); mask := d.(mask); config := d.(config);
      engine1 := "CECL SVGA II OpenGL Engine"; engine2 := "CECL SVGA II Compute Engine" |}).

Definition set_service (sv m : Z) (d : display_info_t) : display_info_t :=
  {| service := sv; mask := m; config := d.(config); engine1 := d.(engine1); engine2 := d.(engine2) |}.

(** [dinfo->config[...]], the level of logging taken out of the second word. *)
Definition set_config (o : Z * Z * Z * Z * Z) (d : display_info_t) : display_info_t :=
  let '(o0, o1, o2, o3, o4) := o in
  {| service := d.(service); mask := d.(mask);
     config := (u32 o0, Z.ldiff (u32 o1) 7, u32 o2, u32 o3, u32 o4);
     engine1 := d.(engine1); engine2 := d.(engine2) |}.

Section displays.
Context `{CGLTypes, IOEnv}.

(** One display after the other; the array is given up at the first failure.
    [dinfo->config] and [glrPopulateDevice(connect, dinfo)] are about the first
    element of the array whichever display is opened. *)
Fixpoint open_displays (sv ms : Z -> Z) (todo : nat) (display_num : Z)
    (logLevel : Z) (d : list display_info_t) : option (list display_info_t) * Z :=
  match todo with
  | O => (Some d, logLevel)
  | S todo =>
      let d := alter (set_service (sv display_num) (ms display_num)) (Z.to_nat display_num) d in
      let '(rc, connect) := service_open (sv display_num) in
      if negb (rc =? ERR_SUCCESS) then (None, logLevel)
      else
        let '(rc, output) := get_config connect in
        if negb (rc =? ERR_SUCCESS) then (None, logLevel)
        else
          let '(_, o1, _, _, _) := output in
          let logLevel := Z.land o1 7 in
          let d := alter (set_config output) 0%nat d in
          let d := alter (fun x => (glrPopulateDevice x).2) 0%nat d in
          (* glrPopulateDevice always succeeds *)
          open_displays sv ms todo (display_num + 1) logLevel d
  end.

(** [io] is the data before; [junk] what the new array contains. *)
Definition gldInitializeLibrarySelf (svc flags : Z -> Z) (GLDisplayMask flush bind : Z)
    (sv ms : Z -> Z) (junk : nat -> display_info_t) (logLevel : Z) (io : glr_io_data_t)
    : glr_io_data_t * Z :=
  let s := scan_displays svc flags GLDisplayMask sv ms io.(surfaces) io.(surface_refcount) in
  let '(d, logLevel) :=
    open_displays s.(services) s.(masks) (Z.to_nat s.(num_found)) 0 logLevel
      (junk <$> seq 0 (Z.to_nat s.(num_found))) in
  ({| displayMask := GLDisplayMask; lastDisplay := s.(last_display);
      pServices := Some svc; pServiceFlags := Some flags;
      IODataFlush := flush; IODataBindSurface := bind;
      surfaces := s.(scan_surfaces); surface_refcount := s.(scan_refcount);
      num_displays := match d with Some _ => s.(num_found) | None => 0 end;
      dinfo := d |}, logLevel).

(** The part of [gldTerminateLibrary] that clears the data. *)
Definition gldTerminateLibrarySelf (io : glr_io_data_t) : glr_io_data_t :=
  {| displayMask := 0; lastDisplay := 0; pServices := None; pServiceFlags := None;
     IODataFlush := 0; IODataBindSurface := 0;
     surfaces := io.(surfaces); surface_refcount := io.(surface_refcount);
     num_displays := 0; dinfo := None |}.

(** ** Libraries *)

Record libglimage_t := {
  image_handle : Z; glg_processor_default_data : Z; glgConvertType : Z; glgPixelCenters : Z;
  glgProcessPixelsWithProcessor : Z; glgTerminateProcessor : Z;
}.
Record libglprogrammability_t := {
  prog_handle : Z; glpFreePPShaderLinearize : Z; glpFreePPShaderToProgram : Z;
  glpPPShaderLinearize : Z; glpPPShaderToProgram : Z;
}.
Record libs := { libglimage : libglimage_t; libglprogrammability : libglprogrammability_t }.

Definition LIBGLIMAGE : string :=
  "/System/Library/Frameworks/OpenGL.framework/Versions/A/Libraries/libGLImage.dylib".
Definition LIBGLPROGRAMMABILITY : string :=
  "/System/Library/Frameworks/OpenGL.framework/Versions/A/Libraries/libGLProgrammability.dylib".

Definition no_image : libglimage_t := Build_libglimage_t 0 0 0 0 0 0.
Definition no_prog : libglprogrammability_t := Build_libglprogrammability_t 0 0 0 0 0.

Definition load_libs : libs :=
  let h := lib_open LIBGLIMAGE in
  let p := lib_open LIBGLPROGRAMMABILITY in
  {| libglimage :=
       if h =? 0 then no_image
       else Build_libglimage_t h (lib_sym h "glg_processor_default_data") (lib_sym h "glgConvertType")
              (lib_sym h "glgPixelCenters") (lib_sym h "glgProcessPixelsWithProcessor")
              (lib_sym h "glgTerminateProcessor");
     libglprogrammability :=
       if p =? 0 then no_prog
       else Build_libglprogrammability_t p (lib_sym p "glpFreePPShaderLinearize")
              (lib_sym p "glpFreePPShaderToProgram") (lib_sym p "glpPPShaderLinearize")
              (lib_sym p "glpPPShaderToProgram") |}.

Definition unload_libs : libs := {| libglimage := no_image; libglprogrammability := no_prog |}.

(** ** Queries *)

Definition gldGetVersion (io : glr_io_data_t) : option (Z * Z * Z * Z) :=
  match io.(dinfo) with
  | None => None
  | Some _ => Some (3, 1, 0, Z.land kCGLRendererIntel900ID 0xFFFF)
  end.

(** The loop over the displays that [gldGetRendererInfo], [gldGetString] and
    [gldCreateShared] share: the first display in the mask, unless the mask has
    other displays too. *)
Fixpoint find_display (GLDisplayMask : Z) (i : Z) (d : list display_info_t) : option (Z * display_info_t) :=
  match d with
  | [] => None
  | x :: d =>
      if negb (has_bits GLDisplayMask x.(mask)) then find_display GLDisplayMask (i + 1) d
      else if negb (Z.ldiff GLDisplayMask x.(mask) =? 0) then None
      else Some (i, x)
  end.

Definition displays (io : glr_io_data_t) : list display_info_t :=
  take (Z.to_nat io.(num_displays)) (default [] io.(dinfo)).

Record RendererInfo := {
  rendererID : Z;
  flags : Z;                 (** the bit fields, from [bWindow] up *)
  bufferModes : Z; colorModes : Z; accumModes : Z; depthModes : Z; stencilModes : Z;
  info_displayMask : Z;
  maxAuxBuffers : Z;
  vramSize : Z;
  textureMemory : Z;
}.

Definition gldGetRendererInfo (GLDisplayMask : Z) (io : glr_io_data_t) : Z * option RendererInfo :=
  match find_display GLDisplayMask 0 (displays io) with
  | None => (kCGLBadDisplay, None)
  | Some (i, d) =>
      let '(_, _, c2, c3, _) := d.(config) in
      (kCGLNoError, Some
        {| rendererID := Z.lor (Z.land kCGLRendererIntel900ID 0xFFFF) (u32 (Z.shiftl (i + 1) 24));
           flags := 0xB58B;
           bufferModes := Z.lor (Z.lor kCGLDoubleBufferBit kCGLSingleBufferBit) kCGLMonoscopicBit;
           colorModes := Z.lor kCGLARGB8888Bit kCGLARGB1555Bit;
           accumModes := Z.lor kCGLRGBA16161616Bit kCGLARGB8888Bit;
           depthModes := Z.lor (Z.lor kCGL24Bit kCGL16Bit) kCGL0Bit;
           stencilModes := Z.lor kCGL8Bit kCGL0Bit;
           info_displayMask := d.(mask);
           maxAuxBuffers := 2;
           vramSize := Z.shiftr c3 20;
           textureMemory := Z.shiftr c2 20 |})
  end.

Definition glrGetString (d : display_info_t) (string_code : Z) : option string :=
  let '(c0, _, _, _, _) := d.(config) in
  if string_code =? GL_VENDOR then Some "CE1CECL"
  else if string_code =? GL_RENDERER then Some d.(engine1)
  else if string_code =? GL_VERSION then
    if has_bits c0 0x100000 then Some "2.1 APPLE-1.6.26"
    else if has_bits c0 0x80000 then Some "2.0 APPLE-1.6.26"
    else Some "1.4 APPLE-1.6.26"
  else if string_code =? GL_EXTENSIONS then None
  else if string_code =? GL_VENDOR + 4 then
    if has_bits c0 0x100000 then Some "IntelHDGraphicsGLDriver"
    else if has_bits c0 0x80000 then Some "Intel965GLDriver"
    else Some "Intel915GLDriver"
  else if string_code =? GL_VENDOR + 5 then Some d.(engine2)
  else None.

Definition gldGetString (GLDisplayMask string_code : Z) (io : glr_io_data_t) : option string :=
  '(_, d) ← find_display GLDisplayMask 0 (displays io);
  glrGetString d string_code.

(** The shared state of contexts, as [gldCreateShared] makes it. *)
Record gld_shared_t := {
  obj : Z; sh_arg2 : Z; sh_dinfo : Z;   (** position in the array of displays *)
  needs_locking : Z; num_contexts : Z; config0 : Z;
  f2 : Z; f3 : Z; f4 : Z; f5 : Z; f6 : Z; f7 : list Z;
  pp_list : Z; t0 : list Z; t1 : list Z;
  channel_memory : Z;
}.

Definition gldCreateShared (GLDisplayMask arg2 : Z) (l : libs) (io : glr_io_data_t)
    : Z * option gld_shared_t :=
  match find_display GLDisplayMask 0 (displays io) with
  | None => (kCGLBadDisplay, None)
  | Some (i, d) =>
      let '(kr, connect) := service_open d.(service) in
      if negb (kr =? ERR_SUCCESS) then (kCGLBadCodeModule, None)
      else if negb (create_shared connect =? ERR_SUCCESS) then (kCGLBadCodeModule, None)
      else
        let '(kr, mem) := get_channel_memory connect in
        if negb (kr =? ERR_SUCCESS) then (kCGLBadCodeModule, None)
        else
          let '(c0, _, _, _, _) := d.(config) in
          (kCGLNoError, Some
            {| obj := connect; sh_arg2 := arg2; sh_dinfo := i; needs_locking := 0; num_contexts := 1;
               config0 := c0; f2 := 0; f3 := 0; f4 := 0; f5 := 0;
               f6 := l.(libglimage).(glg_processor_default_data); f7 := replicate 8 0;
               pp_list := 0; t0 := replicate 7 0; t1 := replicate 7 0; channel_memory := mem |})
  end.
End displays.

(** ** The displays that are served *)

(** In the mask and not flagged. *)
Definition served (flags : Z -> Z) (M d : Z) : bool :=
  has_bits M (Z.shiftl 1 d) && (flags d =? 0).
Definition enabled (flags : Z -> Z) (M n : Z) : list Z :=
  filter (fun d => served flags M d = true) (seqZ 0 n).

Lemma enabled_S flags M n :
  enabled flags M (Z.of_nat (S n)) =
  enabled flags M (Z.of_nat n) ++ if served flags M (Z.of_nat n) then [Z.of_nat n] else [].
Proof.
  unfold enabled. rewrite seqZ_S, filter_app, filter_cons, Z.add_0_l.
  f_equal. by destruct (served _ _ _).
Qed.

(** What the scan has established after [n] displays. *)
Definition scanned (svc flags : Z -> Z) (M : Z) (n : nat) (s : scan) : Prop :=
  s.(num_found) = Z.of_nat (length (enabled flags M (Z.of_nat n))) /\
  s.(num_found) <= Z.of_nat n /\
  (forall i d, enabled flags M (Z.of_nat n) !! i = Some d ->
     s.(services) (Z.of_nat i) = svc d /\ s.(masks) (Z.of_nat i) = Z.shiftl 1 d) /\
  forall i, s.(num_found) <= i < Z.of_nat n -> s.(masks) i = 0.

Lemma scanned_lookup svc flags M n s i d :
  scanned svc flags M n s -> enabled flags M (Z.of_nat n) !! i = Some d ->
  Z.of_nat i < s.(num_found).
Proof. intros (-> & _) Hi%lookup_lt_Some. lia. Qed.

(** The arrays keep what the scan found when a later cell is cleared. *)
Lemma scanned_clear flags M n s i d (f : Z -> Z) :
  scanned f flags M n s -> enabled flags M (Z.of_nat n) !! i = Some d ->
  forall (g : Z -> Z), upd g (Z.of_nat n) 0 (Z.of_nat i) = g (Z.of_nat i).
Proof.
  intros Hs Hi g. pose proof (scanned_lookup _ _ _ _ _ _ _ Hs Hi). destruct Hs as (_ & ? & _).
  apply upd_ne. lia.
Qed.

Lemma scan_step_ok svc flags M n s :
  scanned svc flags M n s -> scanned svc flags M (S n) (scan_step svc flags M s (Z.of_nat n)).
Proof.
  intros Hs. pose proof (fun i d => scanned_clear flags M n s i d svc Hs) as Hc.
  pose proof (fun i d => scanned_lookup svc flags M n s i d Hs) as Hl.
  destruct Hs as (Hn & Hle & Hi & Hz). unfold scan_step, scanned. rewrite enabled_S. unfold served.
  assert (Hskip : forall i d, (enabled flags M (Z.of_nat n) ++ []) !! i = Some d ->
     upd s.(services) (Z.of_nat n) 0 (Z.of_nat i) = svc d /\
     upd s.(masks) (Z.of_nat n) 0 (Z.of_nat i) = Z.shiftl 1 d).
  { intros i d. rewrite app_nil_r. intros H1. rewrite !(Hc _ _ H1). by apply Hi. }
  assert (Hzero : forall i, s.(num_found) <= i < Z.of_nat (S n) -> upd s.(masks) (Z.of_nat n) 0 i = 0).
  { intros i H1. unfold upd. destruct (Z.eqb_spec i (Z.of_nat n)); [done|]. apply Hz. lia. }
  destruct (has_bits M (Z.shiftl 1 (Z.of_nat n))); [destruct (flags (Z.of_nat n) =? 0)|];
    cbn [andb num_found services masks];
    try (split; [by rewrite app_nil_r|]; split; [lia|]; split; [exact Hskip|exact Hzero]).
  split; [rewrite length_app; simpl; lia|]. split; [lia|]. split.
  - intros i d [H1|[H1 H2]]%lookup_app_Some.
    + specialize (Hl _ _ H1). rewrite !upd_ne by lia. by apply Hi.
    + assert (i = length (enabled flags M (Z.of_nat n))) as ->
        by (apply lookup_lt_Some in H2; simpl in H2; lia).
      rewrite Nat.sub_diag in H2. injection H2 as <-. rewrite <-Hn, !upd_eq. split; [done|].
      rewrite Hzero by lia. apply Z.lor_0_l.
  - intros i H1. rewrite upd_ne by lia. apply Hzero. lia.
Qed.

Lemma scan_displays_ok svc flags M sv ms su rf :
  scanned svc flags M 32 (scan_displays svc flags M sv ms su rf).
Proof.
  unfold scan_displays. change 32 with (Z.of_nat 32). generalize 32%nat as n.
  induction n as [|n IH].
  - split; [done|]. split; [done|]. split; [by intros|]. intros i. simpl. lia.
  - rewrite seqZ_S, foldl_app, Z.add_0_l. by apply scan_step_ok.
Qed.

(** ** What the array of displays contains *)

Definition ids (d : display_info_t) : Z * Z := (d.(service), d.(mask)).

Section served_displays.
Context `{CGLTypes, IOEnv}.

(** Every service can be opened and tells its configuration. *)
Definition kernel_answers : Prop := forall sv,
  (service_open sv).1 = ERR_SUCCESS /\ (get_config (service_open sv).2).1 = ERR_SUCCESS.

Lemma ids_alter f k (d : list display_info_t) :
  (forall x, ids (f x) = ids x) -> ids <$> alter f k d = ids <$> d.
Proof.
  intros Hf. apply list_eq. intros i. rewrite !list_lookup_fmap.
  destruct (decide (i = k)) as [->|Hne].
  - rewrite list_lookup_alter_eq.
    destruct (d !! k) as [x|]; simpl; [by rewrite Hf|done].
  - by rewrite list_lookup_alter_ne.
Qed.

Lemma ids_config o x : ids (set_config o x) = ids x.
Proof. by destruct o as [[[[? ?] ?] ?] ?]. Qed.

(** The array after all displays have been opened, in the terms of the array
    before: the identities are filled in, and only the first element is given a
    configuration. *)
Lemma open_displays_spec sv ms todo : kernel_answers -> forall k lv d,
  exists d' lv', open_displays sv ms todo (Z.of_nat k) lv d = (Some d', lv') /\
    length d' = length d /\
    (forall i x, d' !! i = Some x -> (k <= i < k + todo)%nat ->
       ids x = (sv (Z.of_nat i), ms (Z.of_nat i))) /\
    (forall i, (i < k)%nat -> (ids <$> d') !! i = (ids <$> d) !! i) /\
    forall i, (0 < i)%nat -> config <$> d' !! i = config <$> d !! i.
Proof.
  intros Hk. induction todo as [|todo IH]; intros k lv d.
  { exists d, lv. split; [done|]. split; [done|]. split; [lia|done]. }
  cbn [open_displays]. destruct (service_open (sv (Z.of_nat k))) as [rc connect] eqn:Eo.
  destruct (Hk (sv (Z.of_nat k))) as [E1 E2]. rewrite Eo in E1, E2. simpl in E1, E2. subst rc.
  destruct (get_config connect) as [rc output]. simpl in E2. subst rc.
  destruct output as [[[[o0 o1] o2] o3] o4]. cbn [Z.eqb negb ERR_SUCCESS].
  set (f := set_service _ _). set (g := set_config _). set (h := fun x => (glrPopulateDevice x).2).
  assert (Hids : forall x, ids (g x) = ids x /\ ids (h x) = ids x) by (intros x; done).
  assert (Hi : ids <$> alter h 0%nat (alter g 0%nat (alter f (Z.to_nat (Z.of_nat k)) d)) =
               ids <$> alter f k d).
  { rewrite Nat2Z.id, !ids_alter by (intros x; apply Hids). done. }
  replace (Z.of_nat k + 1) with (Z.of_nat (S k)) by lia.
  destruct (IH (S k) (Z.land o1 7)
    (alter h 0%nat (alter g 0%nat (alter f (Z.to_nat (Z.of_nat k)) d))))
    as (d' & lv' & -> & Hlen & Hids' & Hlow & Hcfg).
  exists d', lv'. split; [done|]. split; [by rewrite Hlen, !length_alter|]. split; [|split].
  - intros i x Hx Hr. destruct (decide (i = k)) as [->|Hne]; [|apply Hids'; [done|lia]].
    specialize (Hlow k ltac:(lia)). rewrite Hi in Hlow.
    rewrite !list_lookup_fmap, Hx, list_lookup_alter_eq in Hlow.
    destruct (d !! k) as [y|]; [|done]. by apply (inj Some) in Hlow as ->.
  - intros i Hlt. rewrite Hlow, Hi by lia. rewrite !list_lookup_fmap.
    by rewrite list_lookup_alter_ne by lia.
  - intros i Hpos. rewrite Hcfg by done. rewrite !(list_lookup_alter_ne _ _ 0%nat) by lia.
    rewrite Nat2Z.id. rewrite list_lookup_alter. destruct (decide (k = i)) as [->|]; [|done].
    by destruct (d !! i).
Qed.

Section init.
Context (svc fl : Z -> Z) (M flush bind : Z) (sv ms : Z -> Z) (junk : nat -> display_info_t)
        (lv : Z) (io : glr_io_data_t).

Definition initialized : glr_io_data_t :=
  (gldInitializeLibrarySelf svc fl M flush bind sv ms junk lv io).1.

Lemma initialized_spec : kernel_answers ->
  ids <$> displays initialized = (fun d => (svc d, Z.shiftl 1 d)) <$> enabled fl M 32 /\
  forall i x, (0 < i)%nat -> displays initialized !! i = Some x -> x.(config) = (junk i).(config).
Proof.
  intros Hk. unfold initialized, gldInitializeLibrarySelf.
  pose proof (scan_displays_ok svc fl M sv ms io.(surfaces) io.(surface_refcount)) as (Hn & _ & Hi & _).
  set (s := scan_displays _ _ _ _ _ _ _) in *. change (Z.of_nat 32) with 32 in *.
  destruct (open_displays_spec s.(services) s.(masks) (Z.to_nat s.(num_found)) Hk 0 lv
    (junk <$> seq 0 (Z.to_nat s.(num_found)))) as (d & lv' & E & Hlen & Hids & _ & Hcfg).
  change (Z.of_nat 0) with 0 in E. rewrite E. rewrite length_fmap, length_seq in Hlen.
  unfold displays. cbn [fst num_displays dinfo]. unfold default, from_option, id.
  rewrite take_ge by (rewrite Hlen; lia). split.
  - apply list_eq. intros i. rewrite !list_lookup_fmap.
    destruct (d !! i) as [x|] eqn:Ex.
    + pose proof (lookup_lt_Some _ _ _ Ex) as Hlt.
      destruct (lookup_lt_is_Some_2 (enabled fl M 32) i) as [y Hy]; [lia|].
      destruct (Hi _ _ Hy) as [E1 E2]. rewrite Hy. simpl. rewrite (Hids _ _ Ex) by lia. congruence.
    + apply lookup_ge_None in Ex. by rewrite lookup_ge_None_2 by lia.
  - intros i x Hpos Hx. specialize (Hcfg i Hpos). rewrite Hx, list_lookup_fmap in Hcfg.
    rewrite lookup_seq_lt in Hcfg by (apply lookup_lt_Some in Hx; lia). by injection Hcfg.
Qed.
End init.

(** A mask of one display is found where that display is in the array. *)
Lemma find_display_one svc d0 : 0 <= d0 -> forall en l i,
  ids <$> l = (fun d => (svc d, Z.shiftl 1 d)) <$> en -> Forall (fun d => 0 <= d) en ->
  match find_display (Z.shiftl 1 d0) i l with
  | Some (k, x) => i <= k /\ en !! Z.to_nat (k - i) = Some d0 /\ ids x = (svc d0, Z.shiftl 1 d0)
  | None => ~ In d0 en
  end.
Proof.
  intros Hd0. induction en as [|d en IH]; intros [|x l] i E Hp; try discriminate E; [by intros []|].
  rewrite !fmap_cons in E.
  assert (Ex : ids x = (svc d, Z.shiftl 1 d)) by congruence.
  assert (E' : ids <$> l = (fun d => (svc d, Z.shiftl 1 d)) <$> en) by congruence.
  apply Forall_cons in Hp as [Hd Hp]. cbn [find_display].
  assert (Em : mask x = Z.shiftl 1 d) by (by injection Ex).
  assert (Eb : has_bits (Z.shiftl 1 d0) (mask x) = (d0 =? d))
    by (rewrite Em, !Z.shiftl_1_l, has_bits_pow2, Z.pow2_bits_eqb by done; done).
  rewrite Eb. destruct (Z.eqb_spec d0 d) as [->|Hne]; cbn [negb].
  - rewrite Em, Z.ldiff_diag. cbn. rewrite Z.sub_diag. by split; [lia|].
  - specialize (IH l (i + 1) E' Hp). destruct (find_display _ _ l) as [[k y]|].
    + destruct IH as (Hk & Hy & Ey). split; [lia|]. split; [|done].
      by replace (Z.to_nat (k - i)) with (S (Z.to_nat (k - (i + 1)))) by lia.
    + intros [->|Hin]; [done|by apply IH].
Qed.


(** Only the first display is ever given a configuration: in the array of
    displays, the configuration of any later display is still what the memory
    contained when the array was allocated. *)
Theorem later_displays_unconfigured svc fl M flush bind sv ms junk lv io i x :
  kernel_answers -> (0 < i)%nat ->
  displays (initialized svc fl M flush bind sv ms junk lv io) !! i = Some x ->
  x.(config) = (junk i).(config).
Proof. intros Hk Hpos. by apply initialized_spec. Qed.
End served_displays.

(** ** A machine with two displays *)

Definition sample_cgl : CGLTypes := {|
  kCGLNoError := 0; kCGLBadDisplay := 10005; kCGLBadCodeModule := 10010;
  kCGLRendererIntel900ID := 0x24000;
  kCGLDoubleBufferBit := 8; kCGLSingleBufferBit := 4; kCGLMonoscopicBit := 1;
  kCGLARGB8888Bit := 0x8000; kCGLARGB1555Bit := 0x100; kCGLRGBA16161616Bit := 0x800000;
  kCGL24Bit := 0x800; kCGL16Bit := 0x400; kCGL8Bit := 0x80; kCGL0Bit := 1;
  GL_VENDOR := 0x1F00; GL_RENDERER := 0x1F01; GL_VERSION := 0x1F02; GL_EXTENSIONS := 0x1F03;
|}.
Definition sample_kernel : IOEnv := {|
  service_open := fun sv => (0, sv + 100);
  get_config := fun c => (0, (0x40000, 3, 0x8000000, 0x4000000, 0));
  create_shared := fun _ => 0; get_channel_memory := fun c => (0, c + 1000);
  lib_open := fun _ => 0; lib_sym := fun _ _ => 0;
|}.
Definition blank_display : display_info_t :=
  {| service := 0; mask := 0; config := (7, 7, 7, 7, 7); engine1 := ""; engine2 := "" |}.
Definition blank_io : glr_io_data_t :=
  {| displayMask := 0; lastDisplay := 0; pServices := None; pServiceFlags := None;
     IODataFlush := 0; IODataBindSurface := 0; surfaces := fun _ => 0; surface_refcount := fun _ => 0;
     num_displays := 0; dinfo := None |}.
(** Displays 1, 3 and 4 are in the mask, and 3 is flagged. *)
Definition sample_io : glr_io_data_t :=
  @initialized sample_kernel (fun d => 20 + d) (fun d => if d =? 3 then 1 else 0) 0x1A 0 0
    (fun _ => 0) (fun _ => 0) (fun _ => blank_display) 0 blank_io.

Lemma sample_answers : @kernel_answers sample_kernel.
Proof. by intros sv. Qed.


Lemma later_displays_unconfigured_witness :
  exists x, displays sample_io !! 1%nat = Some x /\ x.(config) = (7, 7, 7, 7, 7).
Proof.
  eexists. split; [vm_compute; reflexivity|].
  exact (@later_displays_unconfigured sample_kernel (fun d => 20 + d)
    (fun d => if d =? 3 then 1 else 0) 0x1A 0 0 (fun _ => 0) (fun _ => 0) (fun _ => blank_display)
    0 blank_io 1%nat _ sample_answers ltac:(lia) ltac:(vm_compute; reflexivity)).
Defined.
