(* ===== verification/Gld.v ===== *)
(** The OpenGL driver bundle (GLD/CEsvga2GLDriver.c, GLDCode.c, GLDData.c,
    EntryPointNames.c): it loads another vendor's bundle, forwards the entry
    points of the OpenGL engine to it by position in a table of names, and
    interposes on the rendering dispatch table, measuring how far each call
    moves the command buffer.

    The operations are state transformers [G]; calls into the other bundle are
    events of the state, and what they answer is a parameter, [GldEnv]. *)

From S2P Require Import Prelude GldDisplay.
From stdpp Require Import strings.

#[local] Open Scope string_scope.
#[local] Open Scope list_scope.
#[local] Open Scope Z_scope.

(** ** The table of entry points *)

Definition NUM_ENTRIES : Z := 92.

Definition entry_point_names : list string := [
  "gldGetVersion"; "gldGetRendererInfo"; "gldChoosePixelFormat";
  "gldDestroyPixelFormat"; "gldCreateShared"; "gldDestroyShared"; "gldCreateContext";
  "gldReclaimContext"; "gldDestroyContext"; "gldAttachDrawable"; "gldInitDispatch";
  "gldUpdateDispatch"; "gldGetString"; "gldGetError"; "gldSetInteger"; "gldGetInteger";
  "gldFlush"; "gldFinish"; "gldTestObject"; "gldFlushObject"; "gldFinishObject";
  "gldWaitObject"; "gldCreateTexture"; "gldIsTextureResident"; "gldModifyTexture";
  "gldLoadTexture"; "gldUnbindTexture"; "gldReclaimTexture"; "gldDestroyTexture";
  "gldCreateTextureLevel"; "gldGetTextureLevelInfo"; "gldGetTextureLevelImage";
  "gldModifyTextureLevel"; "gldDestroyTextureLevel"; "gldCreateBuffer";
  "gldLoadBuffer"; "gldFlushBuffer"; "gldPageoffBuffer"; "gldUnbindBuffer";
  "gldReclaimBuffer"; "gldDestroyBuffer"; "gldGetMemoryPlugin"; "gldSetMemoryPlugin";
  "gldTestMemoryPlugin"; "gldFlushMemoryPlugin"; "gldDestroyMemoryPlugin";
  "gldCreateFramebuffer"; "gldUnbindFramebuffer"; "gldReclaimFramebuffer";
  "gldDestroyFramebuffer"; "gldCreatePipelineProgram"; "gldGetPipelineProgramInfo";
  "gldModifyPipelineProgram"; "gldUnbindPipelineProgram"; "gldDestroyPipelineProgram";
  "gldCreateProgram"; "gldDestroyProgram"; "gldCreateVertexArray";
  "gldModifyVertexArray"; "gldFlushVertexArray"; "gldUnbindVertexArray";
  "gldReclaimVertexArray"; "gldDestroyVertexArray"; "gldCreateFence";
  "gldDestroyFence"; "gldCreateQuery"; "gldGetQueryInfo"; "gldDestroyQuery";
  "gldObjectPurgeable"; "gldObjectUnpurgeable"; "gldCreateComputeContext";
  "gldDestroyComputeContext"; "gldLoadHostBuffer"; "gldSyncBufferObject";
  "gldSyncTexture"; "gldGenerateTexMipmaps"; "gldCopyTexSubImage";
  "gldModifyTexSubImage"; "gldBufferSubData"; "gldModifyQuery";
  "gldDiscardFramebuffer"; "gldGetTextureLevel"; "gldDeleteTextureLevel";
  "gldDeleteTexture"; "gldAllocVertexBuffer"; "gldCompleteVertexBuffer";
  "gldFreeVertexBuffer"; "gldGetMemoryPluginData"; "gldSetMemoryPluginData";
  "gldFinishMemoryPluginData"; "gldTestMemoryPluginData"; "gldDestroyMemoryPluginData"].

(** ** State *)

(** Calls into the other bundle, by the symbol called or through the dispatch
    table it filled, and the counts that the checkpoints hand to the log. *)
Inductive event :=
  | ESym (name : string) (args : list Z)
  | EDispatch (index : Z) (args : list Z)
  | ESkipped (dwords : Z)
  | EAdded (dwords : Z).

Record gst := {
  bndl_handle : Z -> bool;               (** the bundle is open *)
  bndl_ptrs : Z -> Z -> option string;   (** the symbols that the pointers hold *)
  bndl_index : Z;
  remember : Z;                          (** static of [cb_chkpt]; 0 is null *)
  cb_iter1 : Z;                          (** [context->cb_iter[1]], in dwords *)
  glr_io_data : glr_io_data_t;
  loaded_libs : libs;
  logLevel : Z;
  events : list event;
}.

Class GldEnv := {
  gld_io :: IOEnv;
  (** arrays of the caller: services and service flags, by address and index *)
  services_at : Z -> Z -> Z;
  flags_at : Z -> Z -> Z;
  (** what new memory contains *)
  stack_junk : Z -> Z;
  heap_junk : nat -> display_info_t;
  (** [dlopen] of bundle [j] succeeds *)
  dl_open : Z -> bool;
  (** [dlsym] of a name in bundle [j] succeeds *)
  dl_sym : Z -> string -> bool;
  (** the answer of the last call *)
  answer : list event -> Z;
  (** where the last call leaves the command buffer pointer *)
  moved : list event -> Z -> Z;
  (** the address of the driver's own table [remote_dispatch] *)
  remote_dispatch : Z;
  (** whether an entry of the table [remote_dispatch] is set *)
  remote_has : list event -> Z -> bool;
}.

Definition G (A : Type) := gst -> A * gst.
#[global] Instance G_ret : MRet G := fun A a st => (a, st).
#[global] Instance G_bind : MBind G := fun A B k m st => let '(a, st) := m st in k a st.

Definition set_ptrs (h : Z -> bool) (f : Z -> Z -> option string) (st : gst) : gst :=
  {| bndl_handle := h; bndl_ptrs := f; bndl_index := st.(bndl_index);
     remember := st.(remember); cb_iter1 := st.(cb_iter1);
     glr_io_data := st.(glr_io_data); loaded_libs := st.(loaded_libs); logLevel := st.(logLevel);
     events := st.(events) |}.
Definition set_index (j : Z) (st : gst) : gst :=
  {| bndl_handle := st.(bndl_handle); bndl_ptrs := st.(bndl_ptrs); bndl_index := j;
     remember := st.(remember); cb_iter1 := st.(cb_iter1);
     glr_io_data := st.(glr_io_data); loaded_libs := st.(loaded_libs); logLevel := st.(logLevel);
     events := st.(events) |}.
Definition set_remember (r : Z) (st : gst) : gst :=
  {| bndl_handle := st.(bndl_handle); bndl_ptrs := st.(bndl_ptrs); bndl_index := st.(bndl_index);
     remember := r; cb_iter1 := st.(cb_iter1);
     glr_io_data := st.(glr_io_data); loaded_libs := st.(loaded_libs); logLevel := st.(logLevel);
     events := st.(events) |}.
Definition set_events (cb : Z) (l : list event) (st : gst) : gst :=
  {| bndl_handle := st.(bndl_handle); bndl_ptrs := st.(bndl_ptrs); bndl_index := st.(bndl_index);
     remember := st.(remember); cb_iter1 := cb;
     glr_io_data := st.(glr_io_data); loaded_libs := st.(loaded_libs); logLevel := st.(logLevel);
     events := l |}.
Definition set_io (l : libs) (io : glr_io_data_t) (lv : Z) (st : gst) : gst :=
  {| bndl_handle := st.(bndl_handle); bndl_ptrs := st.(bndl_ptrs); bndl_index := st.(bndl_index);
     remember := st.(remember); cb_iter1 := st.(cb_iter1);
     glr_io_data := io; loaded_libs := l; logLevel := lv; events := st.(events) |}.

Section gld.
Context `{GldEnv}.

Definition change (f : gst -> gst) : G unit := fun st => (tt, f st).

Definition call (e : event) : G Z := fun st =>
  let l := st.(events) ++ [e] in
  (answer l, set_events (moved l st.(cb_iter1)) l st).

Definition report (e : event) : G unit := fun st =>
  (tt, set_events st.(cb_iter1) (st.(events) ++ [e]) st).

(** ** Loading and unloading *)

(** [bndl_ptrs[j][i] = dlsym(bndl_handle[j], entry_point_names[i])] for all [i]. *)
Definition load_ptrs (j : Z) (f : Z -> Z -> option string) : Z -> Z -> option string := fun j' i =>
  if j' =? j then
    if (0 <=? i) && (i <? NUM_ENTRIES) then
      name ← entry_point_names !! Z.to_nat i;
      if dl_sym j name then Some name else None
    else f j' i
  else f j' i.

(** The body of the loading loop for bundle [j]. *)
Definition load_bundle (j : Z) (args : list Z) : G unit := fun st =>
  if negb (dl_open j) then (tt, set_ptrs (fun j' => if j' =? j then false else st.(bndl_handle) j') st.(bndl_ptrs) st)
  else if dl_sym j "gldInitializeLibrary" then
    let st := set_ptrs (fun j' => if j' =? j then true else st.(bndl_handle) j')
                (load_ptrs j st.(bndl_ptrs)) st in
    (call (ESym "gldInitializeLibrary" args) ≫= fun _ => mret tt) st
  else (tt, set_ptrs (fun j' => if j' =? j then false else st.(bndl_handle) j') st.(bndl_ptrs) st).

(** The loop runs for the first bundle only. *)
Definition gldInitializeLibrary (pServices pServiceFlags GLDisplayMask IODataFlush IODataBindSurface : Z)
    : G unit :=
  load_bundle 0 [pServices; pServiceFlags; GLDisplayMask; IODataFlush; IODataBindSurface];;
  change (fun st => if negb (st.(bndl_handle) 0) && st.(bndl_handle) 1 then set_index 1 st else st);;
  change (fun st =>
    let '(io, lv) :=
      gldInitializeLibrarySelf (services_at pServices) (flags_at pServiceFlags) GLDisplayMask
        IODataFlush IODataBindSurface stack_junk stack_junk heap_junk st.(logLevel) st.(glr_io_data) in
    set_io load_libs io lv st).

Definition unload_bundle (j : Z) : G unit := fun st =>
  if negb (st.(bndl_handle) j) then (tt, st)
  else
    ((if dl_sym j "gldTerminateLibrary" then
        call (ESym "gldTerminateLibrary" []) ≫= fun _ => mret tt
      else mret tt);;
     change (fun st => set_ptrs (fun j' => if j' =? j then false else st.(bndl_handle) j')
                         st.(bndl_ptrs) st)) st.

Definition gldTerminateLibrary : G unit :=
  change (fun st =>
    set_io unload_libs (gldTerminateLibrarySelf st.(glr_io_data)) st.(logLevel) st);;
  unload_bundle 0.

(** ** Checkpoints of the command buffer *)

Definition cb_chkpt (v : Z) : G unit := fun st =>
  let cb := st.(cb_iter1) in
  let num_done := cb - st.(remember) in
  if v =? 0 then
    let st :=
      if negb (st.(remember) =? 0) && negb (st.(remember) =? cb) && (0 <? num_done)
      then (report (ESkipped num_done) st).2 else st in
    (tt, set_remember cb st)
  else
    let st := set_remember cb st in
    if 0 <? num_done then report (EAdded num_done) st else (tt, st).

(** ** Entry points that are forwarded *)

Definition forward (index : Z) (args : list Z) : G Z := fun st =>
  match st.(bndl_ptrs) st.(bndl_index) index with
  | Some name => call (ESym name args) st
  | None => (-1, st)
  end.

Definition forward_void (index : Z) (args : list Z) : G unit := fun st =>
  match st.(bndl_ptrs) st.(bndl_index) index with
  | Some name => (call (ESym name args) ≫= fun _ => mret tt) st
  | None => (tt, st)
  end.

Definition forward_chkpt (index : Z) (args : list Z) : G Z := fun st =>
  match st.(bndl_ptrs) st.(bndl_index) index with
  | Some name => (cb_chkpt 0;; rc ← call (ESym name args); cb_chkpt 1;; mret rc) st
  | None => (-1, st)
  end.

Definition gldCreateContext (struct_out pixel_format shared arg3 arg4 arg5 : Z) : G Z :=
  forward 6 [struct_out; pixel_format; shared; arg3; arg4; arg5].
Definition gldReclaimContext (context : Z) : G Z :=
  forward 7 [context].
Definition gldDestroyContext (context : Z) : G Z :=
  forward 8 [context].
Definition gldAttachDrawable (context surface_type client_data options : Z) : G Z :=
  forward 9 [context; surface_type; client_data; options].
Definition gldSetInteger (context arg1 arg2 : Z) : G Z :=
  forward 14 [context; arg1; arg2].
Definition gldGetInteger (context arg1 arg2 : Z) : G Z :=
  forward 15 [context; arg1; arg2].
Definition gldFlush (context : Z) : G unit :=
  forward_void 16 [context].
Definition gldFinish (context : Z) : G unit :=
  forward_void 17 [context].
Definition gldTestObject (context object_type object : Z) : G Z :=
  forward 18 [context; object_type; object].
Definition gldFinishObject (context object_type object : Z) : G Z :=
  forward 20 [context; object_type; object].
Definition gldGenerateTexMipmaps (shared texture arg2 : Z) : G Z :=
  forward 75 [shared; texture; arg2].
Definition gldLoadTexture (context texture : Z) : G Z :=
  forward 25 [context; texture].
Definition gldUnbindTexture (context texture : Z) : G unit :=
  forward_void 26 [context; texture].
Definition gldReclaimTexture (shared texture : Z) : G unit :=
  forward_void 27 [shared; texture].
Definition gldCopyTexSubImage (context texture arg2 arg3 arg4 arg5 arg6 arg7 arg8 arg9 arg10 : Z) : G Z :=
  forward 76 [context; texture; arg2; arg3; arg4; arg5; arg6; arg7; arg8; arg9; arg10].
Definition gldModifyTexSubImage (context texture arg2 arg3 arg4 arg5 arg6 arg7 arg8 arg9 arg10 arg11 arg12 arg13 arg14 : Z) : G Z :=
  forward_chkpt 77 [context; texture; arg2; arg3; arg4; arg5; arg6; arg7; arg8; arg9; arg10; arg11; arg12; arg13; arg14].
Definition gldGetTextureLevelInfo (arg0 arg1 arg2 arg3 arg4 arg5 : Z) : G Z :=
  forward 30 [arg0; arg1; arg2; arg3; arg4; arg5].
Definition gldGetTextureLevelImage (arg0 arg1 arg2 arg3 : Z) : G Z :=
  forward 31 [arg0; arg1; arg2; arg3].
Definition gldPageoffBuffer (shared arg1 buffer : Z) : G unit :=
  forward_void 37 [shared; arg1; buffer].
Definition gldGetMemoryPlugin (arg0 arg1 struct_out : Z) : G unit :=
  forward_void 41 [arg0; arg1; struct_out].
Definition gldSetMemoryPlugin (arg0 arg1 struct_out : Z) : G unit :=
  forward_void 42 [arg0; arg1; struct_out].
Definition gldTestMemoryPlugin (arg0 arg1 : Z) : G Z :=
  forward 43 [arg0; arg1].
Definition gldFlushMemoryPlugin (arg0 arg1 : Z) : G unit :=
  forward_void 44 [arg0; arg1].
Definition gldDestroyMemoryPlugin (arg0 arg1 : Z) : G unit :=
  forward_void 45 [arg0; arg1].
Definition gldUnbindFramebuffer (context framebuffer : Z) : G unit :=
  forward_void 47 [context; framebuffer].
Definition gldGetPipelineProgramInfo (shared pp arg2 arg3 : Z) : G Z :=
  forward 51 [shared; pp; arg2; arg3].
Definition gldUnbindPipelineProgram (context pp : Z) : G Z :=
  forward 53 [context; pp].
Definition gldObjectPurgeable (context object_type object arg3 arg4 : Z) : G Z :=
  forward 68 [context; object_type; object; arg3; arg4].
Definition gldObjectUnpurgeable (context object_type object arg3 arg4 : Z) : G Z :=
  forward 69 [context; object_type; object; arg3; arg4].
Definition gldCreateTextureLevel (arg0 arg1 arg2 arg3 arg4 arg5 : Z) : G Z :=
  forward 29 [arg0; arg1; arg2; arg3; arg4; arg5].
Definition gldModifyTextureLevel (arg0 arg1 arg2 arg3 arg4 arg5 : Z) : G Z :=
  forward 32 [arg0; arg1; arg2; arg3; arg4; arg5].
Definition gldDestroyTextureLevel (arg0 arg1 arg2 arg3 arg4 arg5 : Z) : G Z :=
  forward 33 [arg0; arg1; arg2; arg3; arg4; arg5].
Definition gldGetTextureLevel (arg0 arg1 arg2 arg3 arg4 arg5 : Z) : G Z :=
  forward 81 [arg0; arg1; arg2; arg3; arg4; arg5].
Definition gldDeleteTextureLevel (arg0 arg1 arg2 arg3 arg4 arg5 : Z) : G Z :=
  forward 82 [arg0; arg1; arg2; arg3; arg4; arg5].
Definition gldDeleteTexture (arg0 arg1 arg2 arg3 arg4 arg5 : Z) : G Z :=
  forward 83 [arg0; arg1; arg2; arg3; arg4; arg5].
Definition gldAllocVertexBuffer (arg0 arg1 arg2 arg3 arg4 arg5 : Z) : G Z :=
  forward 84 [arg0; arg1; arg2; arg3; arg4; arg5].
Definition gldCompleteVertexBuffer (arg0 arg1 arg2 arg3 arg4 arg5 : Z) : G Z :=
  forward 85 [arg0; arg1; arg2; arg3; arg4; arg5].
Definition gldFreeVertexBuffer (arg0 arg1 arg2 arg3 arg4 arg5 : Z) : G Z :=
  forward 86 [arg0; arg1; arg2; arg3; arg4; arg5].
Definition gldGetMemoryPluginData (arg0 arg1 arg2 arg3 arg4 arg5 : Z) : G Z :=
  forward 87 [arg0; arg1; arg2; arg3; arg4; arg5].
Definition gldSetMemoryPluginData (arg0 arg1 arg2 arg3 arg4 arg5 : Z) : G Z :=
  forward 88 [arg0; arg1; arg2; arg3; arg4; arg5].
Definition gldFinishMemoryPluginData (arg0 arg1 arg2 arg3 arg4 arg5 : Z) : G Z :=
  forward 89 [arg0; arg1; arg2; arg3; arg4; arg5].
Definition gldTestMemoryPluginData (arg0 arg1 arg2 arg3 arg4 arg5 : Z) : G Z :=
  forward 90 [arg0; arg1; arg2; arg3; arg4; arg5].
Definition gldDestroyMemoryPluginData (arg0 arg1 arg2 arg3 arg4 arg5 : Z) : G Z :=
  forward 91 [arg0; arg1; arg2; arg3; arg4; arg5].

(** ** Rendering functions *)

(** A checkpoint on both sides of the call through [remote_dispatch]. *)
Definition dispatch (index : Z) (args : list Z) : G Z :=
  cb_chkpt 0;;
  rc ← ((fun st => if remote_has st.(events) index then call (EDispatch index args) st
                   else (0, st)) : G Z);
  cb_chkpt 1;;
  mret rc.
Definition dispatch_void (index : Z) (args : list Z) : G unit := dispatch index args;; mret tt.

(** [__builtin_apply] of the arguments as they came. *)
Definition apply_dispatch (index : Z) (args : list Z) : G unit := fun st =>
  if remote_has st.(events) index then (call (EDispatch index args) ≫= fun _ => mret tt) st
  else (tt, st).

Definition glrAccum (context mode accum : Z) : G unit :=
  dispatch_void 0 [context; mode; accum].
Definition glrClear (context mask : Z) : G unit :=
  dispatch_void 1 [context; mask].
Definition glrReadPixels (context x y w h format type pixels arg8 arg9 : Z) : G Z :=
  dispatch 2 [context; x; y; w; h; format; type; pixels; arg8; arg9].
Definition glrRenderPoints (context client_vertex_array num_vertices : Z) : G unit :=
  dispatch_void 6 [context; client_vertex_array; num_vertices].
Definition glrRenderLines (context client_vertex_array num_vertices : Z) : G unit :=
  dispatch_void 7 [context; client_vertex_array; num_vertices].
Definition glrRenderLineStrip (context client_vertex_array num_vertices mode : Z) : G unit :=
  dispatch_void 8 [context; client_vertex_array; num_vertices; mode].
Definition glrRenderLineLoop (context client_vertex_array num_vertices mode : Z) : G unit :=
  dispatch_void 9 [context; client_vertex_array; num_vertices; mode].
Definition glrRenderPolygon (context client_vertex_array num_vertices mode : Z) : G unit :=
  dispatch_void 10 [context; client_vertex_array; num_vertices; mode].
Definition glrRenderTriangles (context client_vertex_array num_vertices mode : Z) : G unit :=
  dispatch_void 11 [context; client_vertex_array; num_vertices; mode].
Definition glrRenderTriangleFan (context client_vertex_array num_vertices arg3 mode : Z) : G unit :=
  dispatch_void 12 [context; client_vertex_array; num_vertices; arg3; mode].
Definition glrRenderTriangleStrip (context client_vertex_array num_vertices mode : Z) : G unit :=
  dispatch_void 13 [context; client_vertex_array; num_vertices; mode].
Definition glrRenderQuads (context client_vertex_array num_vertices mode : Z) : G unit :=
  dispatch_void 14 [context; client_vertex_array; num_vertices; mode].
Definition glrRenderQuadStrip (context client_vertex_array num_vertices mode : Z) : G unit :=
  dispatch_void 15 [context; client_vertex_array; num_vertices; mode].
Definition glrRenderPointsPtr (context client_vertex_array num_vertices : Z) : G unit :=
  dispatch_void 20 [context; client_vertex_array; num_vertices].
Definition glrRenderLinesPtr (context client_vertex_array num_vertices mode : Z) : G unit :=
  dispatch_void 21 [context; client_vertex_array; num_vertices; mode].
Definition glrRenderPolygonPtr (context client_vertex_array num_vertices mode : Z) : G unit :=
  dispatch_void 22 [context; client_vertex_array; num_vertices; mode].
Definition glrBeginPrimitiveBuffer (context arg1 arg2 : Z) : G unit :=
  dispatch_void 23 [context; arg1; arg2].
Definition glrEndPrimitiveBuffer (context arg1 arg2 arg3 : Z) : G unit :=
  dispatch_void 24 [context; arg1; arg2; arg3].
Definition glrHookFinish (context : Z) : G unit :=
  dispatch_void 27 [context].
Definition glrHookFlush (context : Z) : G unit :=
  dispatch_void 28 [context].
Definition glrHookSwap (context : Z) : G unit :=
  dispatch_void 29 [context].
Definition glrSetFence (context arg1 : Z) : G unit :=
  dispatch_void 30 [context; arg1].
Definition glrDrawPixels (args : list Z)   : G unit :=
  apply_dispatch 3 args.
Definition glrCopyPixels (args : list Z)   : G unit :=
  apply_dispatch 4 args.
Definition glrRenderBitmap (args : list Z)   : G unit :=
  apply_dispatch 5 args.
Definition glrNoopRenderVertexArray (context : Z) : G Z := mret 0.

(** ** The dispatch table *)

(** The functions that the table can hold. *)
Inductive handler :=
  | H_Accum | H_Clear | H_ReadPixels | H_DrawPixels | H_CopyPixels | H_RenderBitmap
  | H_RenderPoints | H_RenderLines | H_RenderLineStrip | H_RenderLineLoop
  | H_RenderPolygon | H_RenderTriangles | H_RenderTriangleFan | H_RenderTriangleStrip
  | H_RenderQuads | H_RenderQuadStrip | H_RenderPointsPtr | H_RenderLinesPtr
  | H_RenderPolygonPtr | H_BeginPrimitiveBuffer | H_EndPrimitiveBuffer | H_HookFinish
  | H_HookFlush | H_HookSwap | H_SetFence | H_NoopRenderVertexArray.

(** What calling an entry of the table does; a call with a wrong number of
    arguments does nothing. *)
Definition run_handler (h : handler) (args : list Z) : G unit :=
  match h, args with
  | H_Accum, [a0; a1; a2] => glrAccum a0 a1 a2
  | H_Clear, [a0; a1] => glrClear a0 a1
  | H_ReadPixels, [a0; a1; a2; a3; a4; a5; a6; a7; a8; a9] => glrReadPixels a0 a1 a2 a3 a4 a5 a6 a7 a8 a9;; mret tt
  | H_DrawPixels, l => glrDrawPixels l
  | H_CopyPixels, l => glrCopyPixels l
  | H_RenderBitmap, l => glrRenderBitmap l
  | H_RenderPoints, [a0; a1; a2] => glrRenderPoints a0 a1 a2
  | H_RenderLines, [a0; a1; a2] => glrRenderLines a0 a1 a2
  | H_RenderLineStrip, [a0; a1; a2; a3] => glrRenderLineStrip a0 a1 a2 a3
  | H_RenderLineLoop, [a0; a1; a2; a3] => glrRenderLineLoop a0 a1 a2 a3
  | H_RenderPolygon, [a0; a1; a2; a3] => glrRenderPolygon a0 a1 a2 a3
  | H_RenderTriangles, [a0; a1; a2; a3] => glrRenderTriangles a0 a1 a2 a3
  | H_RenderTriangleFan, [a0; a1; a2; a3; a4] => glrRenderTriangleFan a0 a1 a2 a3 a4
  | H_RenderTriangleStrip, [a0; a1; a2; a3] => glrRenderTriangleStrip a0 a1 a2 a3
  | H_RenderQuads, [a0; a1; a2; a3] => glrRenderQuads a0 a1 a2 a3
  | H_RenderQuadStrip, [a0; a1; a2; a3] => glrRenderQuadStrip a0 a1 a2 a3
  | H_RenderPointsPtr, [a0; a1; a2] => glrRenderPointsPtr a0 a1 a2
  | H_RenderLinesPtr, [a0; a1; a2; a3] => glrRenderLinesPtr a0 a1 a2 a3
  | H_RenderPolygonPtr, [a0; a1; a2; a3] => glrRenderPolygonPtr a0 a1 a2 a3
  | H_BeginPrimitiveBuffer, [a0; a1; a2] => glrBeginPrimitiveBuffer a0 a1 a2
  | H_EndPrimitiveBuffer, [a0; a1; a2; a3] => glrEndPrimitiveBuffer a0 a1 a2 a3
  | H_HookFinish, [a0] => glrHookFinish a0
  | H_HookFlush, [a0] => glrHookFlush a0
  | H_HookSwap, [a0] => glrHookSwap a0
  | H_SetFence, [a0; a1] => glrSetFence a0 a1
  | H_NoopRenderVertexArray, [a] => glrNoopRenderVertexArray a;; mret tt
  | _, _ => mret tt
  end.

Definition dispatch_table : list (option handler) := [
  Some H_Accum; Some H_Clear; Some H_ReadPixels; Some H_DrawPixels; Some H_CopyPixels;
  Some H_RenderBitmap; Some H_RenderPoints; Some H_RenderLines; Some H_RenderLineStrip;
  Some H_RenderLineLoop; Some H_RenderPolygon; Some H_RenderTriangles;
  Some H_RenderTriangleFan; Some H_RenderTriangleStrip; Some H_RenderQuads;
  Some H_RenderQuadStrip; None; None; None; None; Some H_RenderPointsPtr;
  Some H_RenderLinesPtr; Some H_RenderPolygonPtr; Some H_BeginPrimitiveBuffer;
  Some H_EndPrimitiveBuffer; None; None; Some H_HookFinish; Some H_HookFlush;
  Some H_HookSwap; Some H_SetFence; Some H_NoopRenderVertexArray; None].

(** The caller's table is [table], by its entries: the result comes with what the
    table holds afterwards.  The other bundle does not get it: it fills the
    driver's own table [remote_dispatch]. *)
Definition gldInitDispatch (context : Z) (table : list (option handler)) (data_out : Z)
    : G (Z * list (option handler)) := fun st =>
  match st.(bndl_ptrs) st.(bndl_index) 10 with
  | None => ((-1, table), st)
  | Some name =>
      (rc ← call (ESym name [context; remote_dispatch; data_out]); mret (rc, dispatch_table)) st
  end.

(** The pointer [table] of the caller is not used: the other bundle updates the
    driver's own table. *)
Definition gldUpdateDispatch (context table data_out : Z) : G Z :=
  forward_chkpt 11 [context; remote_dispatch; data_out].
End gld.

(** The forwarded entry points by name. *)
Definition wrappers `{GldEnv} : list (string * (nat * (list Z -> G unit))) := [
  ("gldCreateContext", (6%nat, fun l => match l with
     | [a0; a1; a2; a3; a4; a5] =>
         gldCreateContext a0 a1 a2 a3 a4 a5;; mret tt
     | _ => mret tt end));
  ("gldReclaimContext", (1%nat, fun l => match l with
     | [a0] =>
         gldReclaimContext a0;; mret tt
     | _ => mret tt end));
  ("gldDestroyContext", (1%nat, fun l => match l with
     | [a0] =>
         gldDestroyContext a0;; mret tt
     | _ => mret tt end));
  ("gldAttachDrawable", (4%nat, fun l => match l with
     | [a0; a1; a2; a3] =>
         gldAttachDrawable a0 a1 a2 a3;; mret tt
     | _ => mret tt end));
  ("gldSetInteger", (3%nat, fun l => match l with
     | [a0; a1; a2] =>
         gldSetInteger a0 a1 a2;; mret tt
     | _ => mret tt end));
  ("gldGetInteger", (3%nat, fun l => match l with
     | [a0; a1; a2] =>
         gldGetInteger a0 a1 a2;; mret tt
     | _ => mret tt end));
  ("gldFlush", (1%nat, fun l => match l with
     | [a0] =>
         gldFlush a0
     | _ => mret tt end));
  ("gldFinish", (1%nat, fun l => match l with
     | [a0] =>
         gldFinish a0
     | _ => mret tt end));
  ("gldTestObject", (3%nat, fun l => match l with
     | [a0; a1; a2] =>
         gldTestObject a0 a1 a2;; mret tt
     | _ => mret tt end));
  ("gldFinishObject", (3%nat, fun l => match l with
     | [a0; a1; a2] =>
         gldFinishObject a0 a1 a2;; mret tt
     | _ => mret tt end));
  ("gldGenerateTexMipmaps", (3%nat, fun l => match l with
     | [a0; a1; a2] =>
         gldGenerateTexMipmaps a0 a1 a2;; mret tt
     | _ => mret tt end));
  ("gldLoadTexture", (2%nat, fun l => match l with
     | [a0; a1] =>
         gldLoadTexture a0 a1;; mret tt
     | _ => mret tt end));
  ("gldUnbindTexture", (2%nat, fun l => match l with
     | [a0; a1] =>
         gldUnbindTexture a0 a1
     | _ => mret tt end));
  ("gldReclaimTexture", (2%nat, fun l => match l with
     | [a0; a1] =>
         gldReclaimTexture a0 a1
     | _ => mret tt end));
  ("gldCopyTexSubImage", (11%nat, fun l => match l with
     | [a0; a1; a2; a3; a4; a5; a6; a7; a8; a9; a10] =>
         gldCopyTexSubImage a0 a1 a2 a3 a4 a5 a6 a7 a8 a9 a10;; mret tt
     | _ => mret tt end));
  ("gldModifyTexSubImage", (15%nat, fun l => match l with
     | [a0; a1; a2; a3; a4; a5; a6; a7; a8; a9; a10; a11; a12; a13; a14] =>
         gldModifyTexSubImage a0 a1 a2 a3 a4 a5 a6 a7 a8 a9 a10 a11 a12 a13 a14;; mret tt
     | _ => mret tt end));
  ("gldGetTextureLevelInfo", (6%nat, fun l => match l with
     | [a0; a1; a2; a3; a4; a5] =>
         gldGetTextureLevelInfo a0 a1 a2 a3 a4 a5;; mret tt
     | _ => mret tt end));
  ("gldGetTextureLevelImage", (4%nat, fun l => match l with
     | [a0; a1; a2; a3] =>
         gldGetTextureLevelImage a0 a1 a2 a3;; mret tt
     | _ => mret tt end));
  ("gldPageoffBuffer", (3%nat, fun l => match l with
     | [a0; a1; a2] =>
         gldPageoffBuffer a0 a1 a2
     | _ => mret tt end));
  ("gldGetMemoryPlugin", (3%nat, fun l => match l with
     | [a0; a1; a2] =>
         gldGetMemoryPlugin a0 a1 a2
     | _ => mret tt end));
  ("gldSetMemoryPlugin", (3%nat, fun l => match l with
     | [a0; a1; a2] =>
         gldSetMemoryPlugin a0 a1 a2
     | _ => mret tt end));
  ("gldTestMemoryPlugin", (2%nat, fun l => match l with
     | [a0; a1] =>
         gldTestMemoryPlugin a0 a1;; mret tt
     | _ => mret tt end));
  ("gldFlushMemoryPlugin", (2%nat, fun l => match l with
     | [a0; a1] =>
         gldFlushMemoryPlugin a0 a1
     | _ => mret tt end));
  ("gldDestroyMemoryPlugin", (2%nat, fun l => match l with
     | [a0; a1] =>
         gldDestroyMemoryPlugin a0 a1
     | _ => mret tt end));
  ("gldUnbindFramebuffer", (2%nat, fun l => match l with
     | [a0; a1] =>
         gldUnbindFramebuffer a0 a1
     | _ => mret tt end));
  ("gldGetPipelineProgramInfo", (4%nat, fun l => match l with
     | [a0; a1; a2; a3] =>
         gldGetPipelineProgramInfo a0 a1 a2 a3;; mret tt
     | _ => mret tt end));
  ("gldUnbindPipelineProgram", (2%nat, fun l => match l with
     | [a0; a1] =>
         gldUnbindPipelineProgram a0 a1;; mret tt
     | _ => mret tt end));
  ("gldObjectPurgeable", (5%nat, fun l => match l with
     | [a0; a1; a2; a3; a4] =>
         gldObjectPurgeable a0 a1 a2 a3 a4;; mret tt
     | _ => mret tt end));
  ("gldObjectUnpurgeable", (5%nat, fun l => match l with
     | [a0; a1; a2; a3; a4] =>
         gldObjectUnpurgeable a0 a1 a2 a3 a4;; mret tt
     | _ => mret tt end));
  ("gldCreateTextureLevel", (6%nat, fun l => match l with
     | [a0; a1; a2; a3; a4; a5] =>
         gldCreateTextureLevel a0 a1 a2 a3 a4 a5;; mret tt
     | _ => mret tt end));
  ("gldModifyTextureLevel", (6%nat, fun l => match l with
     | [a0; a1; a2; a3; a4; a5] =>
         gldModifyTextureLevel a0 a1 a2 a3 a4 a5;; mret tt
     | _ => mret tt end));
  ("gldDestroyTextureLevel", (6%nat, fun l => match l with
     | [a0; a1; a2; a3; a4; a5] =>
         gldDestroyTextureLevel a0 a1 a2 a3 a4 a5;; mret tt
     | _ => mret tt end));
  ("gldGetTextureLevel", (6%nat, fun l => match l with
     | [a0; a1; a2; a3; a4; a5] =>
         gldGetTextureLevel a0 a1 a2 a3 a4 a5;; mret tt
     | _ => mret tt end));
  ("gldDeleteTextureLevel", (6%nat, fun l => match l with
     | [a0; a1; a2; a3; a4; a5] =>
         gldDeleteTextureLevel a0 a1 a2 a3 a4 a5;; mret tt
     | _ => mret tt end));
  ("gldDeleteTexture", (6%nat, fun l => match l with
     | [a0; a1; a2; a3; a4; a5] =>
         gldDeleteTexture a0 a1 a2 a3 a4 a5;; mret tt
     | _ => mret tt end));
  ("gldAllocVertexBuffer", (6%nat, fun l => match l with
     | [a0; a1; a2; a3; a4; a5] =>
         gldAllocVertexBuffer a0 a1 a2 a3 a4 a5;; mret tt
     | _ => mret tt end));
  ("gldCompleteVertexBuffer", (6%nat, fun l => match l with
     | [a0; a1; a2; a3; a4; a5] =>
         gldCompleteVertexBuffer a0 a1 a2 a3 a4 a5;; mret tt
     | _ => mret tt end));
  ("gldFreeVertexBuffer", (6%nat, fun l => match l with
     | [a0; a1; a2; a3; a4; a5] =>
         gldFreeVertexBuffer a0 a1 a2 a3 a4 a5;; mret tt
     | _ => mret tt end));
  ("gldGetMemoryPluginData", (6%nat, fun l => match l with
     | [a0; a1; a2; a3; a4; a5] =>
         gldGetMemoryPluginData a0 a1 a2 a3 a4 a5;; mret tt
     | _ => mret tt end));
  ("gldSetMemoryPluginData", (6%nat, fun l => match l with
     | [a0; a1; a2; a3; a4; a5] =>
         gldSetMemoryPluginData a0 a1 a2 a3 a4 a5;; mret tt
     | _ => mret tt end));
  ("gldFinishMemoryPluginData", (6%nat, fun l => match l with
     | [a0; a1; a2; a3; a4; a5] =>
         gldFinishMemoryPluginData a0 a1 a2 a3 a4 a5;; mret tt
     | _ => mret tt end));
  ("gldTestMemoryPluginData", (6%nat, fun l => match l with
     | [a0; a1; a2; a3; a4; a5] =>
         gldTestMemoryPluginData a0 a1 a2 a3 a4 a5;; mret tt
     | _ => mret tt end));
  ("gldDestroyMemoryPluginData", (6%nat, fun l => match l with
     | [a0; a1; a2; a3; a4; a5] =>
         gldDestroyMemoryPluginData a0 a1 a2 a3 a4 a5;; mret tt
     | _ => mret tt end));
  ("gldUpdateDispatch", (3%nat, fun l => match l with
     | [a0; a1; a2] =>
         gldUpdateDispatch a0 a1 a2;; mret tt
     | _ => mret tt end))].
