(* ===== verification/GldProofs.v ===== *)
(** Correctness of the forwarding OpenGL bundle: every entry point reaches the
    symbol of its own name, every installed rendering function reaches its own
    slot, and the checkpoints account for every word of the command buffer. *)

From S2P Require Import Prelude GldDisplay Gld.
From stdpp Require Import strings.

#[local] Open Scope string_scope.
#[local] Open Scope list_scope.
#[local] Open Scope Z_scope.

(** The calls among the events, and the words the checkpoints reported. *)
Definition is_call (e : event) : bool :=
  match e with ESym _ _ | EDispatch _ _ => true | _ => false end.
Definition calls (st : gst) : list event := filter (fun e => is_call e = true) st.(events).

Fixpoint reported (l : list event) : Z :=
  match l with
  | [] => 0
  | (ESkipped n | EAdded n) :: l => n + reported l
  | _ :: l => reported l
  end.

Lemma reported_app l l' : reported (l ++ l') = reported l + reported l'.
Proof. induction l as [|[] l IH]; simpl; lia. Qed.

Section proofs.
Context `{GldEnv}.

(** The first bundle has been loaded. *)
Definition linked (st : gst) : Prop :=
  st.(bndl_index) = 0 /\
  forall i name, entry_point_names !! i = Some name ->
    st.(bndl_ptrs) 0 (Z.of_nat i) = if dl_sym 0 name then Some name else None.

Lemma calls_call e st : is_call e = true -> calls (call e st).2 = calls st ++ [e].
Proof.
  intros He. unfold calls, call. cbn [snd events set_events].
  by rewrite filter_app, filter_cons, He.
Qed.

Lemma calls_report e st : is_call e = false -> calls (report e st).2 = calls st.
Proof.
  intros He. unfold calls, report. cbn [snd events set_events].
  rewrite filter_app, filter_cons, He. cbn. by rewrite app_nil_r.
Qed.

Lemma chkpt_calls v st : calls (cb_chkpt v st).2 = calls st.
Proof.
  unfold cb_chkpt. destruct (v =? 0).
  - destruct (_ && _); [|done]. exact (calls_report (ESkipped _) st eq_refl).
  - destruct (0 <? _); [|done]. exact (calls_report (EAdded _) (set_remember _ st) eq_refl).
Qed.

Lemma chkpt_ptrs v st :
  (cb_chkpt v st).2.(bndl_ptrs) = st.(bndl_ptrs) /\ (cb_chkpt v st).2.(bndl_index) = st.(bndl_index) /\
  (cb_chkpt v st).2.(cb_iter1) = st.(cb_iter1) /\ (cb_chkpt v st).2.(remember) = st.(cb_iter1).
Proof. unfold cb_chkpt. by destruct (v =? 0); repeat case_match. Qed.

(** ** Forwarding *)

(** The calls that a forwarded entry adds. *)
Definition added (name : string) (args : list Z) : list event :=
  if dl_sym 0 name then [ESym name args] else [].

Lemma linked_ptr st i name :
  linked st -> entry_point_names !! Z.to_nat i = Some name -> 0 <= i ->
  st.(bndl_ptrs) st.(bndl_index) i = if dl_sym 0 name then Some name else None.
Proof.
  intros [E Hp] Hi H0. rewrite E. specialize (Hp _ _ Hi). by rewrite Z2Nat.id in Hp.
Qed.

Lemma forward_calls i name args st :
  linked st -> entry_point_names !! Z.to_nat i = Some name -> 0 <= i ->
  calls ((forward i args;; mret tt) st).2 = calls st ++ added name args /\
  calls (forward_void i args st).2 = calls st ++ added name args /\
  calls ((forward_chkpt i args;; mret tt) st).2 = calls st ++ added name args.
Proof.
  intros Hl Hi H0. pose proof (linked_ptr _ _ _ Hl Hi H0) as E.
  cbv [mbind G_bind mret G_ret]. unfold forward, forward_void, forward_chkpt, added. rewrite E.
  destruct (dl_sym 0 name); [|by rewrite app_nil_r]. cbv [mbind G_bind mret G_ret].
  split; [|split]; try (by rewrite <-(calls_call (ESym name args)) by done).
  destruct (cb_chkpt 0 st) as [[] st1] eqn:E1. destruct (call (ESym name args) st1) as [rc st2] eqn:E2.
  destruct (cb_chkpt 1 st2) as [[] st3] eqn:E3. simpl.
  pose proof (chkpt_calls 0 st) as C1. pose proof (chkpt_calls 1 st2) as C3.
  pose proof (calls_call (ESym name args) st1 eq_refl) as C2.
  rewrite E1 in C1. rewrite E2 in C2. rewrite E3 in C3. simpl in *. congruence.
Qed.

(** The arguments that the other bundle gets: the caller's own, except that the
    caller's dispatch table is replaced by the driver's. *)
Definition forwarded_args (name : string) (args : list Z) : list Z :=
  if String.eqb name "gldUpdateDispatch" then <[1%nat := remote_dispatch]> args else args.

Definition wrapper_ok (w : string * (nat * (list Z -> G unit))) : Prop :=
  forall st args, linked st -> length args = w.2.1 ->
    calls (w.2.2 args st).2 = calls st ++ added w.1 (forwarded_args w.1 args).

Ltac args_tac := intros st args ? E; cbn [fst snd] in *;
  repeat (destruct args as [|? args]; try discriminate E); cbv iota beta.

Lemma wrappers_ok : Forall wrapper_ok wrappers.
Proof.
  unfold wrappers.
  repeat (apply Forall_cons_2;
    [args_tac;
     first [ refine (proj1 (forward_calls _ _ _ _ _ _ _))
           | refine (proj1 (proj2 (forward_calls _ _ _ _ _ _ _)))
           | refine (proj2 (proj2 (forward_calls _ _ _ _ _ _ _))) ];
     [done|reflexivity|lia]|]).
  apply Forall_nil_2.
Qed.

(** ** Loading *)

Definition fresh : gst :=
  {| bndl_handle := fun _ => false; bndl_ptrs := fun _ _ => None; bndl_index := 0;
     remember := 0; cb_iter1 := 0; glr_io_data := blank_io; loaded_libs := unload_libs;
     logLevel := 0; events := [] |}.

(** The library is initialized, with arrays of services and flags at two addresses. *)
Definition loaded (svc fl M flush bind : Z) : gst :=
  (gldInitializeLibrary svc fl M flush bind fresh).2.

Lemma load_linked svc fl M flush bind :
  dl_open 0 = true -> dl_sym 0 "gldInitializeLibrary" = true ->
  linked (loaded svc fl M flush bind) /\
  calls (loaded svc fl M flush bind) = [ESym "gldInitializeLibrary" [svc; fl; M; flush; bind]].
Proof.
  intros Ho Hs. unfold loaded, gldInitializeLibrary, load_bundle. cbv [mbind G_bind change].
  rewrite Ho, Hs. cbn [negb]. cbv [mret G_ret call].
  destruct (gldInitializeLibrarySelf _ _ _ _ _ _ _ _ _ _) as [io lv]. split; [|done].
  split; [done|]. intros i name Hi.
  pose proof (lookup_lt_Some _ _ _ Hi) as Hlt. change (length entry_point_names) with 92%nat in Hlt.
  cbn [snd bndl_ptrs set_events set_ptrs set_io bndl_handle fresh andb negb Z.eqb].
  unfold load_ptrs. cbn [Z.eqb]. rewrite Nat2Z.id, Hi. unfold NUM_ENTRIES. cbn [mbind option_bind].
  by rewrite (proj2 (Z.leb_le _ _)), (proj2 (Z.ltb_lt _ _)) by lia.
Qed.

(** ** Rendering functions *)

Lemma dispatch_calls i args st :
  calls (dispatch_void i args st).2 =
  calls st ++ (if remote_has (cb_chkpt 0 st).2.(events) i then [EDispatch i args] else []).
Proof.
  unfold dispatch_void, dispatch. cbv [mbind G_bind mret G_ret].
  destruct (cb_chkpt 0 st) as [[] st1] eqn:E1. cbn [snd].
  pose proof (chkpt_calls 0 st) as C1. rewrite E1 in C1. simpl in C1.
  destruct (remote_has (events st1) i).
  - destruct (call (EDispatch i args) st1) as [rc st2] eqn:E2.
    destruct (cb_chkpt 1 st2) as [[] st3] eqn:E3. simpl.
    pose proof (chkpt_calls 1 st2) as C3. pose proof (calls_call (EDispatch i args) st1 eq_refl) as C2.
    rewrite E2 in C2. rewrite E3 in C3. simpl in *. congruence.
  - destruct (cb_chkpt 1 st1) as [[] st3] eqn:E3. simpl.
    pose proof (chkpt_calls 1 st1) as C3. rewrite E3 in C3. simpl in C3. by rewrite app_nil_r, C3.
Qed.

Lemma apply_dispatch_calls i args st :
  calls (apply_dispatch i args st).2 =
  calls st ++ (if remote_has st.(events) i then [EDispatch i args] else []).
Proof.
  unfold apply_dispatch. cbv [mbind G_bind mret G_ret].
  destruct (remote_has _ i); [|by rewrite app_nil_r].
  by rewrite <-(calls_call (EDispatch i args)).
Qed.

(** The arguments that a rendering function takes. *)
Definition arity (h : handler) : option nat :=
  match h with
  | H_DrawPixels | H_CopyPixels | H_RenderBitmap => None
  | H_HookFinish | H_HookFlush | H_HookSwap | H_NoopRenderVertexArray => Some 1%nat
  | H_Clear | H_SetFence => Some 2%nat
  | H_Accum | H_RenderPoints | H_RenderLines | H_RenderPointsPtr | H_BeginPrimitiveBuffer => Some 3%nat
  | H_RenderTriangleFan => Some 5%nat
  | H_ReadPixels => Some 10%nat
  | _ => Some 4%nat
  end.

Definition accepts (h : handler) (args : list Z) : Prop :=
  match arity h with Some n => length args = n | None => True end.

(** The handler of slot [i] calls slot [i] and nothing else. *)
Definition slot_ok (i : nat) (o : option handler) : Prop :=
  forall h st args,
    o = Some h -> h <> H_NoopRenderVertexArray -> accepts h args ->
    (forall l, remote_has l (Z.of_nat i) = true) ->
    calls (run_handler h args st).2 = calls st ++ [EDispatch (Z.of_nat i) args].

Ltac slot_case Hr :=
  match goal with |- context [remote_has ?l ?i] => rewrite (Hr l : remote_has l i = true) end;
  reflexivity.
Ltac slot_tac :=
  intros h st args E; first [discriminate E | injection E as <-]; intros Hn Ha Hr;
  first
  [ by destruct Hn
  | cbn [run_handler]; refine (eq_trans (apply_dispatch_calls _ _ _) _); slot_case Hr
  | cbn in Ha; repeat (destruct args as [|? args]; try discriminate Ha); cbn [run_handler];
    refine (eq_trans (dispatch_calls _ _ _) _); slot_case Hr ].

Lemma slots_ok i o : dispatch_table !! i = Some o -> slot_ok i o.
Proof.
  intros Hi. unfold dispatch_table in Hi.
  do 33 (destruct i as [|i]; [injection Hi as <-; slot_tac|simpl in Hi]). by destruct i.
Qed.

(** ** Accounting of the command buffer *)

(** The other bundle only appends to the buffer. *)
Definition appends : Prop := forall l cb, cb <= moved l cb.

(** A buffer that the checkpoints have seen. *)
Definition tracked (st : gst) : Prop := 0 < st.(remember) <= st.(cb_iter1).

(** Words appended that no checkpoint has reported yet. *)
Definition unreported (st : gst) : Z := st.(cb_iter1) - st.(remember).

Definition accounts {A} (m : G A) : Prop := forall st, tracked st ->
  tracked (m st).2 /\
  reported (m st).2.(events) + unreported (m st).2 - (m st).2.(cb_iter1) =
  reported st.(events) + unreported st - st.(cb_iter1).

Lemma accounts_bind {A B} (m : G A) (k : A -> G B) :
  accounts m -> (forall a, accounts (k a)) -> accounts (m ≫= k).
Proof.
  intros Hm Hk st Hst. cbv [mbind G_bind]. specialize (Hm st Hst).
  destruct (m st) as [a st1]. destruct Hm as [Ht E]. specialize (Hk a st1 Ht).
  destruct (k a st1) as [b st2]. simpl in *. destruct Hk as [? ?]. split; [done|lia].
Qed.

Lemma accounts_ret {A} (a : A) : accounts (mret a).
Proof. intros st Hst. by split. Qed.

Lemma accounts_chkpt v : accounts (cb_chkpt v).
Proof.
  intros st [H0 H1]. unfold cb_chkpt, tracked, unreported, report.
  destruct (v =? 0); cbn; [|destruct (Z.ltb_spec 0 (cb_iter1 st - remember st)); cbn;
    rewrite ?reported_app; simpl; lia].
  destruct (Z.eqb_spec (remember st) 0); [lia|].
  destruct (Z.eqb_spec (remember st) (cb_iter1 st)); cbn; [lia|].
  destruct (Z.ltb_spec 0 (cb_iter1 st - remember st)); cbn; rewrite ?reported_app; simpl; lia.
Qed.

Lemma accounts_call e : appends -> is_call e = true -> accounts (call e).
Proof.
  intros Ha He st [H0 H1]. unfold tracked, unreported, call; cbn.
  rewrite reported_app. specialize (Ha (events st ++ [e]) (cb_iter1 st)).
  destruct e; try discriminate He; simpl; lia.
Qed.

Lemma accounts_if_has {A} i (m : G A) a :
  accounts m -> accounts (fun st => if remote_has st.(events) i then m st else (a, st)).
Proof. intros Hm st Hst. destruct (remote_has _ i); [by apply Hm|by split]. Qed.

Lemma accounts_dispatch i args : appends -> accounts (dispatch i args).
Proof.
  intros Ha. unfold dispatch.
  repeat first [apply accounts_chkpt | apply accounts_ret | apply accounts_if_has
               | by apply accounts_call | apply accounts_bind; [|intros ?]].
Qed.

Lemma accounts_void i args : appends -> accounts (dispatch_void i args).
Proof. intros Ha. apply accounts_bind; [by apply accounts_dispatch|intros ?; apply accounts_ret]. Qed.

Lemma accounts_apply i args : appends -> accounts (apply_dispatch i args).
Proof.
  intros Ha. unfold apply_dispatch. apply accounts_if_has.
  apply accounts_bind; [by apply accounts_call|intros ?; apply accounts_ret].
Qed.

Lemma accounts_handler h args : appends -> accounts (run_handler h args).
Proof.
  intros Ha. destruct h; cbn [run_handler]; try (by apply accounts_apply);
    repeat match goal with |- accounts (match ?l with _ => _ end) => destruct l end;
    try (by apply accounts_void); try (apply accounts_ret);
    try (apply accounts_bind; [by apply accounts_dispatch|intros ?; apply accounts_ret]).
Qed.

(** A sequence of calls through the installed table. *)
Definition render (l : list (handler * list Z)) : G unit :=
  foldr (fun p k => run_handler p.1 p.2;; k) (mret tt) l.

Lemma accounts_render l : appends -> accounts (render l).
Proof.
  intros Ha. induction l as [|[h args] l IH]; [apply accounts_ret|].
  apply accounts_bind; [by apply accounts_handler|done].
Qed.

(** C37: After the library has been initialized, which calls the loaded bundle's
    own initialization once with the same arguments, every forwarding entry point of the
    driver calls, exactly once, the symbol of its own name in the loaded bundle when
    the bundle exports it, and calls nothing when the bundle does not.  The
    arguments are the caller's own, in order, with one exception:
    gldUpdateDispatch ignores the caller's dispatch table and passes the address
    of the driver's table [remote_dispatch] in its place. *)
Theorem entry_points_forward svc fl M flush bind name n f a :
  dl_open 0 = true -> dl_sym 0 "gldInitializeLibrary" = true ->
  In (name, (n, f)) wrappers -> length a = n ->
  calls (f a (loaded svc fl M flush bind)).2 =
  [ESym "gldInitializeLibrary" [svc; fl; M; flush; bind]] ++
  (if dl_sym 0 name then
     [ESym name (if String.eqb name "gldUpdateDispatch" then <[1%nat := remote_dispatch]> a else a)]
   else []).
Proof.
  intros Ho Hs Hw Ha. pose proof wrappers_ok as Hok. rewrite List.Forall_forall in Hok.
  destruct (load_linked svc fl M flush bind Ho Hs) as [Hl <-]. exact (Hok _ Hw _ a Hl Ha).
Qed.

(** The table that [gldInitDispatch] installs is the driver's own: the
    function in slot [i], called with the arguments it takes, calls slot [i] of
    the other bundle's table with these arguments, exactly once, and nothing
    else; the vertex array slot, which the driver answers itself, apart. *)
Theorem dispatch_slots_forward svc fl M flush bind context data_out table i h args st :
  dl_open 0 = true -> dl_sym 0 "gldInitializeLibrary" = true -> dl_sym 0 "gldInitDispatch" = true ->
  (forall l, remote_has l (Z.of_nat i) = true) ->
  (gldInitDispatch context table data_out (loaded svc fl M flush bind)).1.2 !! i = Some (Some h) ->
  h <> H_NoopRenderVertexArray -> accepts h args ->
  calls (run_handler h args st).2 = calls st ++ [EDispatch (Z.of_nat i) args].
Proof.
  intros Ho Hs Hd Hr Hi Hn Ha. set (st0 := loaded _ _ _ _ _) in Hi.
  destruct (load_linked svc fl M flush bind Ho Hs) as [Hl _].
  pose proof (linked_ptr st0 10 "gldInitDispatch" Hl eq_refl) as E.
  rewrite Hd in E. unfold gldInitDispatch in Hi. rewrite E in Hi by lia.
  cbv [mbind G_bind mret G_ret] in Hi. destruct (call _ st0). cbn [fst snd] in Hi.
  exact (slots_ok _ _ Hi _ _ _ eq_refl Hn Ha Hr).
Qed.

(** Over any sequence of calls through the installed table, the words that
    the checkpoints report, with those appended since the last checkpoint, are
    exactly the words by which the command buffer advanced; after a call that is
    measured nothing is left unreported. *)
Theorem checkpoints_account l st :
  appends -> tracked st -> unreported st = 0 ->
  let st' := (render l st).2 in
  reported st'.(events) - reported st.(events) + unreported st' = st'.(cb_iter1) - st.(cb_iter1) /\
  0 <= unreported st' /\
  forall i args, unreported (dispatch_void i args st').2 = 0.
Proof.
  intros Ha Ht Hu st'. destruct (accounts_render l Ha st Ht) as [[H0 H1] E].
  fold st' in H0, H1, E. split; [lia|]. split; [unfold unreported; lia|]. intros i args.
  unfold dispatch_void, dispatch. cbv [mbind G_bind mret G_ret].
  destruct (cb_chkpt 0 st') as [[] st1]. destruct (if remote_has _ i then _ else _) as [rc st2].
  destruct (cb_chkpt 1 st2) as [[] st3] eqn:E3. unfold unreported. cbn.
  pose proof (chkpt_ptrs 1 st2) as (_ & _ & Ec & Er). rewrite E3 in Ec, Er. cbn in Ec, Er. lia.
Qed.
End proofs.

(** ** A concrete bundle *)

(** It exports every entry point but [gldFlush], fills its whole table, and
    appends two words per call. *)
Definition sample_bundle : GldEnv := {|
  gld_io := sample_kernel;
  services_at := fun _ d => 20 + d; flags_at := fun _ _ => 0;
  stack_junk := fun _ => 0; heap_junk := fun _ => blank_display;
  dl_open := fun j => j =? 0;
  dl_sym := fun _ s => negb (String.eqb s "gldFlush");
  answer := fun l => Z.of_nat (length l);
  moved := fun _ cb => cb + 2;
  remote_dispatch := 0x5000;
  remote_has := fun _ _ => true;
|}.

Lemma entry_points_forward_witness :
  calls ((@gldAttachDrawable sample_bundle 1 2 3 4;; mret tt)
    (@loaded sample_bundle 21 22 3 23 24)).2 =
    [ESym "gldInitializeLibrary" [21; 22; 3; 23; 24]; ESym "gldAttachDrawable" [1; 2; 3; 4]] /\
  calls ((@gldUpdateDispatch sample_bundle 1 2 3;; mret tt)
    (@loaded sample_bundle 21 22 3 23 24)).2 =
    [ESym "gldInitializeLibrary" [21; 22; 3; 23; 24]; ESym "gldUpdateDispatch" [1; 0x5000; 3]].
Proof.
  split.
  - exact (@entry_points_forward sample_bundle 21 22 3 23 24 "gldAttachDrawable" 4%nat _ [1; 2; 3; 4]
      eq_refl eq_refl ltac:(simpl; do 3 right; left; reflexivity) eq_refl).
  - exact (@entry_points_forward sample_bundle 21 22 3 23 24 "gldUpdateDispatch" 3%nat _ [1; 2; 3]
      eq_refl eq_refl ltac:(simpl; repeat first [left; reflexivity|right]) eq_refl).
Defined.

Lemma dispatch_slots_forward_witness :
  calls (@run_handler sample_bundle H_Clear [1; 0x4000] fresh).2 = [EDispatch 1 [1; 0x4000]].
Proof.
  exact (@dispatch_slots_forward sample_bundle 21 22 3 23 24 1 3 [] 1%nat H_Clear [1; 0x4000] fresh
    eq_refl eq_refl eq_refl (fun _ => eq_refl) eq_refl ltac:(discriminate) eq_refl).
Defined.

Lemma checkpoints_account_witness :
  let st := set_remember 8 (set_events 8 [] fresh) in
  let st' := (@render sample_bundle [(H_Clear, [1; 2]); (H_DrawPixels, []); (H_HookSwap, [1])] st).2 in
  reported st'.(events) + unreported st' = 6.
Proof.
  intros st st'.
  destruct (@checkpoints_account sample_bundle
    [(H_Clear, [1; 2]); (H_DrawPixels, []); (H_HookSwap, [1])] st) as [E _].
  - intros l cb. simpl. lia.
  - split; simpl; lia.
  - reflexivity.
  - fold st' in E. change (cb_iter1 st') with 14 in E.
    change (cb_iter1 st) with 8 in E. change (reported (events st)) with 0 in E. lia.
Defined.
