(* ===== verification/GldFence.v ===== *)
(** Fences of the OpenGL bundle (GLD/CEsvga2GLDriver.c [gldCreateFence],
    [gldDestroyFence]): a bitmap of 32-bit words tells which fences are used, and
    both the bitmap and the kernel's array of fences grow when it is full. *)

From S2P Require Import Prelude.

(** ** State *)

Record gld_fence_t := { f0 : Z; f1 : Z }.

(** What a context keeps about fences; [stamp] is [command_buffer_ptr[6]]. *)
Record fence_context := {
  kfence_size_bytes : Z;
  fences_bitmap : Z -> Z;
  kfence_u : Z -> Z;
  kfence_v : Z -> Z;
  stamp : Z;
}.

Inductive outcome :=
  | Created (fence : gld_fence_t) (context : fence_context)
  | BadAlloc (context : fence_context)
  | Undefined              (** a shift by the width of the word or more *)
  | OutOfFuel.

(** [IOConnectMapMemory] by the size before, with the size after; [realloc] of
    the bitmap leaves words of its own in the part that is new. *)
Class FenceEnv := {
  map_memory : Z -> option Z;
  realloc_junk : Z -> Z;
}.

Section fences.
Context `{FenceEnv}.

(** ** Operations *)

(** The first word that is not full. *)
Fixpoint search (n : nat) (i : Z) (bitmap : Z -> Z) : option Z :=
  match n with
  | O => None
  | S n => if bitmap i =? 0xFFFFFFFF then search n (i + 1) bitmap else Some i
  end.

(** [for (j = 0U, m = 1U; m && (w & m); m <<= 1, ++j)]; [m] is zero after 32 turns. *)
Fixpoint free_bit (n : nat) (w j m : Z) : Z * Z :=
  match n with
  | O => (j, m)
  | S n => if negb (m =? 0) && has_bits w m then free_bit n w (j + 1) (u32 (Z.shiftl m 1)) else (j, m)
  end.

Definition set_bitmap (b : Z -> Z) (c : fence_context) : fence_context :=
  {| kfence_size_bytes := c.(kfence_size_bytes); fences_bitmap := b;
     kfence_u := c.(kfence_u); kfence_v := c.(kfence_v); stamp := c.(stamp) |}.

(** After the label [found_unused_fence]. The sum binds tighter than the shift. *)
Definition take_fence (i : Z) (c : fence_context) : outcome :=
  let '(j, m) := free_bit 33 (c.(fences_bitmap) i) 0 1 in
  let shift := 5 + Z.land j 31 in
  if 32 <=? shift then Undefined
  else
    let n := u32 (Z.shiftl i shift) in
    Created {| f0 := n; f1 := 1 |}
      {| kfence_size_bytes := c.(kfence_size_bytes);
         fences_bitmap := upd c.(fences_bitmap) i (Z.lor (c.(fences_bitmap) i) m);
         kfence_u := upd c.(kfence_u) n c.(stamp);
         kfence_v := upd c.(kfence_v) n 0;
         stamp := c.(stamp) |}.

(** The new array is mapped, the bitmap reallocated to [size >> 5] bytes, and
    [size >> 6] bytes of it cleared from the word [size >> 8]. *)
Definition grow (size : Z) (c : fence_context) : fence_context :=
  let old := Z.shiftr c.(kfence_size_bytes) 5 / 4 in
  let s := Z.shiftr size 8 in
  {| kfence_size_bytes := size;
     fences_bitmap := fun k =>
       if (s <=? k) && (k <? s + Z.shiftr size 6 / 4) then 0
       else if k <? old then c.(fences_bitmap) k else realloc_junk k;
     kfence_u := c.(kfence_u); kfence_v := c.(kfence_v); stamp := c.(stamp) |}.

Fixpoint gldCreateFence (fuel : nat) (c : fence_context) : outcome :=
  match fuel with
  | O => OutOfFuel
  | S fuel =>
      match search (Z.to_nat (u32 (Z.shiftr c.(kfence_size_bytes) 8))) 0 c.(fences_bitmap) with
      | Some i => take_fence i c
      | None =>
          match map_memory c.(kfence_size_bytes) with
          | None => BadAlloc c
          | Some size => gldCreateFence fuel (grow size c)
          end
      end
  end.

Definition gldDestroyFence (fence : gld_fence_t) (c : fence_context) : fence_context :=
  let k := Z.shiftr fence.(f0) 5 in
  set_bitmap (upd c.(fences_bitmap) k
    (Z.ldiff (c.(fences_bitmap) k) (Z.shiftl 1 (Z.land fence.(f0) 31)))) c.

(** ** The searches *)

Lemma search_spec n : forall i b,
  match search n i b with
  | Some k => i <= k < i + Z.of_nat n /\ b k <> 0xFFFFFFFF /\ forall q, i <= q < k -> b q = 0xFFFFFFFF
  | None => forall q, i <= q < i + Z.of_nat n -> b q = 0xFFFFFFFF
  end.
Proof.
  induction n as [|n IH]; intros i b; cbn [search]; [lia|].
  destruct (Z.eqb_spec (b i) 0xFFFFFFFF) as [E|E].
  - specialize (IH (i + 1) b). destruct (search n (i + 1) b) as [k|].
    + destruct IH as (Hk & Hb & Hq). split; [lia|]. split; [done|]. intros q Hr.
      destruct (Z.eq_dec q i) as [->|]; [done|]. apply Hq. lia.
    + intros q Hr. destruct (Z.eq_dec q i) as [->|]; [done|]. apply IH. lia.
  - split; [lia|]. split; [done|]. lia.
Qed.

(** The lowest clear bit of a word. *)
Definition lowest_clear (w j : Z) : Prop :=
  0 <= j < 32 /\ Z.testbit w j = false /\ forall q, 0 <= q < j -> Z.testbit w q = true.

Lemma free_bit_steps w n : forall j, 0 <= j -> (Z.of_nat n + j = 33) ->
  (forall q, 0 <= q < j -> Z.testbit w q = true) ->
  (exists q, 0 <= q < 32 /\ Z.testbit w q = false) ->
  exists k, free_bit n w j (u32 (Z.shiftl 1 j)) = (k, 2 ^ k) /\ lowest_clear w k.
Proof.
  induction n as [|n IH]; intros j H0 Hn Hq (q & Hr & Eq).
  { exfalso. specialize (Hq q ltac:(lia)). congruence. }
  assert (Hj : j < 32).
  { destruct (Z.lt_ge_cases j 32); [done|]. specialize (Hq q ltac:(lia)). congruence. }
  assert (E2 : u32 (Z.shiftl 1 j) = 2 ^ j).
  { rewrite Z.shiftl_1_l. apply wrap_small. split; [lia|]. by apply Z.pow_lt_mono_r. }
  cbn [free_bit]. rewrite E2, has_bits_pow2 by done.
  rewrite (proj2 (Z.eqb_neq _ _)) by lia. cbn [negb andb].
  destruct (Z.testbit w j) eqn:Ej; [|by exists j].
  replace (u32 (Z.shiftl (2 ^ j) 1)) with (u32 (Z.shiftl 1 (j + 1)))
    by (f_equal; rewrite Z.shiftl_1_l, Z.shiftl_mul_pow2, Z.pow_add_r by lia; done).
  apply IH; [lia|lia| |by exists q]. intros p Hp. destruct (Z.eq_dec p j) as [->|]; [done|]. apply Hq. lia.
Qed.

Lemma not_full w : is_u32 w -> w <> 0xFFFFFFFF -> exists q, 0 <= q < 32 /\ Z.testbit w q = false.
Proof.
  intros Hw Hne. destruct (existsb (fun q => negb (Z.testbit w q)) (seqZ 0 32)) eqn:E.
  - apply existsb_exists in E as (q & Hq%list_elem_of_In%elem_of_seqZ & Eq%negb_true_iff).
    exists q. split; [lia|done].
  - destruct Hne. change 0xFFFFFFFF with (Z.ones 32). apply Z.bits_inj'. intros q Hq.
    destruct (Z.lt_ge_cases q 32) as [Hlt|Hge].
    + rewrite Z.ones_spec_low by lia. apply not_false_iff_true. intros Ef.
      apply not_true_iff_false in E. apply E, existsb_exists. exists q. rewrite Ef.
      split; [|done]. apply list_elem_of_In, elem_of_seqZ. lia.
    + rewrite Z.ones_spec_high by lia.
      destruct (Z.eq_dec w 0) as [->|]; [apply Z.testbit_0_l|].
      apply Z.bits_above_log2; [apply Hw|]. apply Z.log2_lt_pow2; [destruct Hw; lia|].
      eapply Z.lt_le_trans; [apply Hw|]. by apply Z.pow_le_mono_r.
Qed.

Lemma free_bit_spec w : is_u32 w -> w <> 0xFFFFFFFF ->
  exists j, free_bit 33 w 0 1 = (j, 2 ^ j) /\ lowest_clear w j.
Proof.
  intros Hw Hne. apply (free_bit_steps w 33 0); [lia|lia|lia|by apply not_full].
Qed.

(** ** Creation *)

Definition words (c : fence_context) : Z := Z.shiftr c.(kfence_size_bytes) 8.

(** The part of the bitmap that is searched holds words. *)
Definition bitmap_ok (c : fence_context) : Prop :=
  is_u32 (words c) /\ forall k, 0 <= k < words c -> is_u32 (c.(fences_bitmap) k).

(** Word [i] is the first with a clear bit, and [j] its lowest. *)
Definition first_free (c : fence_context) (i j : Z) : Prop :=
  0 <= i < words c /\ (forall q, 0 <= q < i -> c.(fences_bitmap) q = 0xFFFFFFFF) /\
  lowest_clear (c.(fences_bitmap) i) j.

Lemma lowest_clear_full j : ~ lowest_clear 0xFFFFFFFF j.
Proof.
  intros (Hj & E & _). change 0xFFFFFFFF with (Z.ones 32) in E.
  rewrite Z.ones_spec_low in E by lia. discriminate E.
Qed.

Lemma lowest_clear_unique w j k : lowest_clear w j -> lowest_clear w k -> j = k.
Proof.
  intros (Hj & Ej & Fj) (Hk & Ek & Fk). destruct (Z.lt_trichotomy j k) as [L|[E|L]]; [|done|].
  - specialize (Fk j ltac:(lia)). congruence.
  - specialize (Fj k ltac:(lia)). congruence.
Qed.

Lemma create_first_free fuel c i j :
  bitmap_ok c -> first_free c i j -> gldCreateFence (S fuel) c = take_fence i c.
Proof.
  intros [Hs Hb] (Hi & Hq & Hj). cbn [gldCreateFence]. fold (words c).
  rewrite wrap_small by done.
  pose proof (search_spec (Z.to_nat (words c)) 0 c.(fences_bitmap)) as Hf.
  rewrite Z2Nat.id, Z.add_0_l in Hf by (destruct Hs; done).
  destruct (search _ _ _) as [k|].
  - destruct Hf as (Hk & Ek & Fk). replace i with k; [done|].
    destruct (Z.lt_trichotomy k i) as [L|[E|L]]; [|done|].
    + by rewrite (Hq k) in Ek by lia.
    + rewrite (Fk i) in Hj by lia. by apply lowest_clear_full in Hj.
  - rewrite (Hf i) in Hj by lia. by apply lowest_clear_full in Hj.
Qed.

Lemma take_first_free c i j :
  bitmap_ok c -> first_free c i j -> j < 27 ->
  take_fence i c = Created {| f0 := u32 (Z.shiftl i (5 + j)); f1 := 1 |}
    {| kfence_size_bytes := c.(kfence_size_bytes);
       fences_bitmap := upd c.(fences_bitmap) i (Z.lor (c.(fences_bitmap) i) (2 ^ j));
       kfence_u := upd c.(kfence_u) (u32 (Z.shiftl i (5 + j))) c.(stamp);
       kfence_v := upd c.(kfence_v) (u32 (Z.shiftl i (5 + j))) 0;
       stamp := c.(stamp) |}.
Proof.
  intros [Hs Hb] (Hi & Hq & Hj) Hlt. unfold take_fence.
  destruct (free_bit_spec (c.(fences_bitmap) i)) as (k & -> & Hk).
  { apply Hb. lia. }
  { intros E. rewrite E in Hj. by apply lowest_clear_full in Hj. }
  rewrite (lowest_clear_unique _ _ _ Hk Hj). destruct Hj as (Hj & _).
  replace (Z.land j 31) with j
    by (change 31 with (Z.ones 5); rewrite Z.land_ones, Z.mod_small; lia).
  by rewrite (proj2 (Z.leb_gt _ _)) by lia.
Qed.

(** A fence is created without a new mapping whenever some word of the bitmap
    has a clear bit: the lowest clear bit of the first such word is set, no other
    bit changes, and the kernel's fence is armed with the current stamp. *)
Theorem gldCreateFence_allocates fuel c i j :
  bitmap_ok c -> first_free c i j -> j < 27 ->
  exists fence c', gldCreateFence (S fuel) c = Created fence c' /\
    (forall k b, 0 <= b ->
       Z.testbit (c'.(fences_bitmap) k) b = Z.testbit (c.(fences_bitmap) k) b || ((k =? i) && (b =? j))) /\
    Z.testbit (c.(fences_bitmap) i) j = false /\
    c'.(kfence_u) fence.(f0) = c.(stamp) /\ c'.(kfence_v) fence.(f0) = 0 /\
    c'.(kfence_size_bytes) = c.(kfence_size_bytes).
Proof.
  intros Hc Hf Hj. eexists _, _. rewrite (create_first_free _ _ _ _ Hc Hf), (take_first_free _ _ _ Hc Hf Hj).
  split; [reflexivity|]. cbn [fences_bitmap kfence_u kfence_v kfence_size_bytes f0]. rewrite !upd_eq.
  destruct Hf as (_ & _ & (Hj0 & Ej & _)). repeat split; [|done].
  intros k b Hb. unfold upd. destruct (k =? i) eqn:Ek; [|by rewrite orb_false_r].
  apply Z.eqb_eq in Ek as ->. rewrite Z.lor_spec, Z.pow2_bits_eqb by lia. by rewrite Z.eqb_sym.
Qed.

(** Every fence that is taken from the first word of the bitmap gets the
    number 0, whatever bit was taken for it, because the number is computed as
    [i << (5 + j)]; destroying it releases the bit of the first fence and leaves
    its own bit taken. *)
Theorem first_word_fences_alias fuel c j :
  bitmap_ok c -> first_free c 0 j -> 0 < j < 27 ->
  exists fence c', gldCreateFence (S fuel) c = Created fence c' /\ fence.(f0) = 0 /\
    Z.testbit ((gldDestroyFence fence c').(fences_bitmap) 0) j = true /\
    Z.testbit ((gldDestroyFence fence c').(fences_bitmap) 0) 0 = false.
Proof.
  intros Hc Hf Hj. eexists _, _.
  rewrite (create_first_free _ _ _ _ Hc Hf), (take_first_free _ _ _ Hc Hf (proj2 Hj)).
  split; [reflexivity|]. rewrite Z.shiftl_0_l. split; [done|].
  unfold gldDestroyFence, set_bitmap. cbn [fences_bitmap f0].
  change (u32 0) with 0. change (Z.shiftr 0 5) with 0. rewrite !upd_eq, !Z.ldiff_spec.
  change (Z.shiftl 1 (Z.land 0 31)) with (2 ^ 0).
  rewrite Z.lor_spec, !Z.pow2_bits_eqb by lia. rewrite Z.eqb_refl.
  rewrite (proj2 (Z.eqb_neq 0 j)) by lia. by rewrite orb_true_r, andb_false_r.
Qed.

(** ** Growth *)

(** The bitmap is full, and the words after those in use are clear. *)
Definition full (c : fence_context) : Prop :=
  0 < words c /\ 2 * words c < 2 ^ 27 /\ c.(kfence_size_bytes) = 256 * words c /\
  (forall k, 0 <= k < words c -> c.(fences_bitmap) k = 0xFFFFFFFF) /\
  forall k, words c <= k < 2 * words c -> c.(fences_bitmap) k = 0.

Lemma shiftr_mul a n : 0 <= n -> Z.shiftr (a * 2 ^ n) n = a.
Proof. intros. rewrite Z.shiftr_div_pow2 by done. apply Z.div_mul. lia. Qed.

Lemma grow_double c :
  full c -> let c1 := grow (2 * c.(kfence_size_bytes)) c in
  words c1 = 2 * words c /\
  forall k, 0 <= k < 2 * words c1 -> c1.(fences_bitmap) k = if k <? words c then 0xFFFFFFFF else 0.
Proof.
  intros (H0 & H1 & Hsz & Hfull & Hclear) c1.
  assert (E8 : Z.shiftr (2 * c.(kfence_size_bytes)) 8 = 2 * words c)
    by (rewrite Hsz, <-(shiftr_mul (2 * words c) 8) by lia; f_equal; lia).
  assert (E6 : Z.shiftr (2 * c.(kfence_size_bytes)) 6 / 4 = 2 * words c).
  { rewrite Hsz. replace (2 * (256 * words c)) with (8 * words c * 2 ^ 6) by lia.
    rewrite shiftr_mul by lia. replace (8 * words c) with (2 * words c * 4) by lia.
    apply Z.div_mul. lia. }
  assert (E5 : Z.shiftr c.(kfence_size_bytes) 5 / 4 = 2 * words c).
  { rewrite Hsz. replace (256 * words c) with (8 * words c * 2 ^ 5) by lia.
    rewrite shiftr_mul by lia. replace (8 * words c) with (2 * words c * 4) by lia.
    apply Z.div_mul. lia. }
  assert (Ew : words c1 = 2 * words c) by exact E8.
  split; [done|]. rewrite Ew. intros k Hk. unfold c1, grow. cbn [fences_bitmap]. rewrite E8, E6, E5.
  destruct (Z.leb_spec (2 * words c) k), (Z.ltb_spec k (2 * words c + 2 * words c)),
    (Z.ltb_spec k (words c)), (Z.ltb_spec k (2 * words c)); cbn [andb]; try lia; try done;
    [apply Hfull; lia|apply Hclear; lia].
Qed.

Lemma search_full c :
  full c -> search (Z.to_nat (u32 (Z.shiftr c.(kfence_size_bytes) 8))) 0 c.(fences_bitmap) = None.
Proof.
  intros (H0 & H1 & _ & Hfull & _). fold (words c). rewrite wrap_small by (split; lia).
  pose proof (search_spec (Z.to_nat (words c)) 0 c.(fences_bitmap)) as Hs.
  destruct (search _ _ _) as [k|]; [|done].
  destruct Hs as (? & Hs & _). destruct Hs. apply Hfull. lia.
Qed.

Lemma create_full fuel c size :
  full c -> map_memory c.(kfence_size_bytes) = Some size ->
  gldCreateFence (S fuel) c = gldCreateFence fuel (grow size c).
Proof. intros Hf Hm. cbn [gldCreateFence]. by rewrite (search_full c Hf), Hm. Qed.

(** When the bitmap is full and the kernel maps an array of twice the size,
    the second turn of the loop takes the first fence of the new half, whose
    number is right, provided the words beyond the searched ones are clear; they
    are clear again for the next time the bitmap is full. When the mapping fails
    the context is as before. *)
Theorem gldCreateFence_grows fuel c :
  full c ->
  match map_memory c.(kfence_size_bytes) with
  | None => gldCreateFence (S fuel) c = BadAlloc c
  | Some size =>
      size = 2 * c.(kfence_size_bytes) ->
      exists fence c', gldCreateFence (S (S fuel)) c = Created fence c' /\
        fence.(f0) = 32 * words c /\ words c' = 2 * words c /\
        c'.(fences_bitmap) (words c) = 1 /\
        forall k, words c' <= k < 2 * words c' -> c'.(fences_bitmap) k = 0
  end.
Proof.
  intros Hf. destruct (map_memory _) as [size|] eqn:Hm.
  - intros ->. rewrite (create_full _ _ _ Hf Hm). destruct (grow_double c Hf) as [Hw Hb].
    set (c1 := grow _ c) in *. destruct Hf as (H0 & H1 & _).
    assert (Hok : bitmap_ok c1).
    { split; [split; lia|]. intros k Hk. rewrite Hb by lia. split; destruct (k <? words c); lia. }
    assert (Ez : c1.(fences_bitmap) (words c) = 0) by (rewrite Hb, Z.ltb_irrefl by lia; done).
    assert (Hff : first_free c1 (words c) 0).
    { split; [lia|]. split; [intros q Hq; rewrite Hb by lia; zcase|]. rewrite Ez.
      split; [lia|]. split; [done|lia]. }
    eexists _, _. rewrite (create_first_free _ _ _ _ Hok Hff), (take_first_free _ _ _ Hok Hff) by lia.
    split; [reflexivity|]. cbn [f0 fences_bitmap]. rewrite upd_eq, Ez.
    split; [|split; [exact Hw|split; [done|]]].
    + rewrite Z.shiftl_mul_pow2 by lia. change (2 ^ (5 + 0)) with 32. rewrite wrap_small; [lia|split; lia].
    + intros k Hk. change (words c1 <= k < 2 * words c1) in Hk. rewrite upd_ne, Hb by lia. zcase.
  - cbn [gldCreateFence]. by rewrite (search_full c Hf), Hm.
Qed.
End fences.

(** ** A context with 32 fences *)

Definition sample_fence_env : FenceEnv :=
  {| map_memory := fun n => if n =? 256 then Some 512 else None; realloc_junk := fun _ => 12345 |}.
Definition sample_context (w : Z) : fence_context :=
  {| kfence_size_bytes := 256; fences_bitmap := fun k => if k =? 0 then w else 0;
     kfence_u := fun _ => 0; kfence_v := fun _ => 9; stamp := 77 |}.

Lemma sample_ok w : is_u32 w -> bitmap_ok (sample_context w).
Proof.
  intros Hw. split; [by split|]. intros k Hk. change (words (sample_context w)) with 1 in Hk.
  simpl. destruct (Z.eqb_spec k 0); [done|lia].
Qed.

Lemma sample_free : first_free (sample_context 7) 0 3.
Proof.
  split; [done|]. split; [lia|]. split; [lia|]. split; [done|]. intros q Hq.
  assert (q = 0 \/ q = 1 \/ q = 2) as [->|[->| ->]] by lia; reflexivity.
Qed.

Lemma gldCreateFence_allocates_witness :
  exists fence c', @gldCreateFence sample_fence_env 1 (sample_context 7) = Created fence c' /\
    Z.testbit (c'.(fences_bitmap) 0) 3 = true /\ c'.(kfence_u) fence.(f0) = 77.
Proof.
  destruct (@gldCreateFence_allocates sample_fence_env 0 (sample_context 7) 0 3
    (sample_ok 7 ltac:(done)) sample_free ltac:(lia)) as (fence & c' & E & Hb & _ & Hu & _).
  exists fence, c'. split; [exact E|]. split; [|exact Hu]. rewrite Hb by lia. reflexivity.
Defined.

Lemma first_word_fences_alias_witness :
  exists fence c', @gldCreateFence sample_fence_env 1 (sample_context 7) = Created fence c' /\
    fence.(f0) = 0.
Proof.
  destruct (@first_word_fences_alias sample_fence_env 0 (sample_context 7) 3
    (sample_ok 7 ltac:(done)) sample_free ltac:(lia)) as (fence & c' & E & E0 & _).
  exists fence, c'. split; [exact E|exact E0].
Defined.

Lemma gldCreateFence_grows_witness :
  exists fence c', @gldCreateFence sample_fence_env 2 (sample_context 0xFFFFFFFF) = Created fence c' /\
    fence.(f0) = 32.
Proof.
  destruct (@gldCreateFence_grows sample_fence_env 0 (sample_context 0xFFFFFFFF)) as (fence & c' & E & E0 & _).
  - split; [done|]. split; [done|]. split; [done|]. change (words (sample_context 0xFFFFFFFF)) with 1.
    split; intros k Hk; simpl; [replace k with 0 by lia; reflexivity|].
    rewrite (proj2 (Z.eqb_neq k 0)) by lia. reflexivity.
  - reflexivity.
  - exists fence, c'. split; [exact E|exact E0].
Defined.
