(* ===== verification/Dll.v ===== *)
(** Doubly linked lists through a memory of links, as the OpenGL bundle keeps
    its pipeline programs and the programs cached for them, and the allocator of
    video memory its free blocks: what it means that the links from a head spell a
    list, and how insertion at the front and removal change that list. *)

From S2P Require Import Prelude.
From stdpp Require Import list.

#[local] Open Scope Z_scope.

(** The next and previous node of a node. *)
Definition links := Z -> option (Z * Z).

Section dll.
(** The value that ends a list. *)
Context (null : Z).

Definition first (l : list Z) : Z := default null (head l).
Definition final (l : list Z) : Z := default null (last l).

(** The nodes are distinct and not null, and every node of the list points to
    its neighbours. *)
Definition dll (g : links) (l : list Z) : Prop :=
  NoDup l /\ (null ∉ l) /\
  forall l1 p l2, l = l1 ++ p :: l2 -> g p = Some (first l2, final l1).

Lemma final_snoc l p : final (l ++ [p]) = p.
Proof. unfold final. by rewrite last_snoc. Qed.

Lemma final_cons p l : final (p :: l) = if decide (l = []) then p else final l.
Proof. unfold final. destruct l; [done|]. by rewrite decide_False, last_cons_cons by done. Qed.

Lemma first_in l : first l = null \/ first l ∈ l.
Proof. destruct l as [|p l]; [by left|]. right. left. Qed.

Lemma final_in l : final l = null \/ final l ∈ l.
Proof.
  destruct l as [|p l] using rev_ind; [by left|]. right. rewrite final_snoc.
  apply elem_of_app. right. left.
Qed.

(** In a list without repetition only the last node is [final], only the first [first]. *)
Lemma final_inv k q m : NoDup (k ++ q :: m) -> q = final (k ++ q :: m) -> m = [].
Proof.
  destruct m as [|x m _] using rev_ind; [done|]. intros Hn E.
  replace (k ++ q :: m ++ [x]) with ((k ++ q :: m) ++ [x]) in * by (by simplify_list_eq).
  rewrite final_snoc in E. subst. apply NoDup_app in Hn as (_ & Hd & _).
  destruct (Hd x); [apply elem_of_app; right; left|left].
Qed.

Lemma first_inv m q k : NoDup (m ++ q :: k) -> q = first (m ++ q :: k) -> m = [].
Proof.
  destruct m as [|x m]; [done|]. intros [Hn _]%NoDup_cons E. simpl in E. unfold first in E. simpl in E.
  subst. destruct Hn. apply elem_of_app. right. left.
Qed.

Lemma dll_node g l p : dll g l -> p ∈ l -> is_Some (g p).
Proof. intros (_ & _ & Hg) (l1 & l2 & E)%list_elem_of_split. eexists. by eapply Hg. Qed.

(** Links outside the list do not matter. *)
Lemma dll_ext g g' l : dll g l -> (forall p, p ∈ l -> g' p = g p) -> dll g' l.
Proof.
  intros (Hn & H0 & Hg) E. split; [done|]. split; [done|]. intros l1 p l2 El.
  rewrite E; [by apply Hg|]. rewrite El. apply elem_of_app. right. left.
Qed.

Lemma dll_nil g : dll g [].
Proof.
  split; [apply NoDup_nil_2|]. split; [apply not_elem_of_nil|]. intros l1 p l2 E.
  by destruct l1.
Qed.

(** A new node [p] in front: it points to the old head, which points back. *)
Lemma dll_push g g' l p :
  dll g l -> p <> null -> p ∉ l ->
  g' p = Some (first l, null) ->
  (forall q, q ∈ l -> g' q = prod_map id (fun v => if decide (q = first l) then p else v) <$> g q) ->
  dll g' (p :: l).
Proof.
  intros (Hn & H0 & Hg) Hp Hin Ep Eq. split; [by apply NoDup_cons_2|].
  split; [by apply not_elem_of_cons|]. intros l1 q l2 E.
  destruct l1 as [|p' l1]; injection E as -> E; [by subst|].
  assert (Hq : q ∈ l) by (rewrite E; apply elem_of_app; right; left).
  rewrite Eq, (Hg l1 q l2 E) by done. cbn [fmap option_fmap option_map prod_map]. f_equal. f_equal.
  rewrite final_cons. destruct l1 as [|a l1]; rewrite E.
  - by rewrite !decide_True.
  - rewrite !decide_False; [done|done|]. intros Ef. rewrite E in Hn.
    by apply (first_inv (a :: l1) q l2) in Ef.
Qed.

(** Removing [p]: the neighbours point to each other. *)
Lemma dll_remove g g' l1 p l2 :
  dll g (l1 ++ p :: l2) ->
  (forall q n v, q ∈ l1 ++ l2 -> g q = Some (n, v) ->
     g' q = Some (if decide (q = final l1) then first l2 else n,
                  if decide (q = first l2) then final l1 else v)) ->
  dll g' (l1 ++ l2).
Proof.
  intros (Hn & H0 & Hg) Hg'.
  assert (Hsub : forall q, q ∈ l1 ++ l2 -> q ∈ l1 ++ p :: l2).
  { intros q. rewrite !elem_of_app, elem_of_cons. tauto. }
  split; [|split; [by intros ?%Hsub|]].
  { apply NoDup_app in Hn as (? & Hd & [? ?]%NoDup_cons). apply NoDup_app. split; [done|].
    split; [|done]. intros x Hx Hx2. apply (Hd x Hx). by right. }
  intros k1 q k2 E.
  assert (Hq : q ∈ l1 ++ l2) by (rewrite E; apply elem_of_app; right; left).
  assert (Hcase : (exists m, l1 = k1 ++ q :: m /\ k2 = m ++ l2) \/ (exists m, k1 = l1 ++ m /\ l2 = m ++ q :: k2)).
  { apply app_eq_inv in E as [(m & -> & E)|(m & -> & E)].
    - destruct m as [|q' m]; simpl in E.
      + right. exists []. by rewrite !app_nil_r.
      + injection E as <- ->. left. by exists m.
    - right. by exists m. }
  apply NoDup_app in Hn as (Hn1 & Hd & [Hp Hn2]%NoDup_cons).
  assert (H02 : null ∉ l2) by (intros Hx; apply H0, elem_of_app; right; by right).
  assert (H01 : null ∉ l1) by (intros Hx; apply H0, elem_of_app; by left).
  destruct Hcase as [(m & -> & ->)|(m & -> & ->)].
  - (* before the removed node *)
    assert (Hq1 : q ∈ k1 ++ q :: m) by (apply elem_of_app; right; left).
    assert (Eg : g q = Some (first (m ++ p :: l2), final k1)) by (apply Hg; by simplify_list_eq).
    rewrite (Hg' _ _ _ Hq Eg). f_equal. f_equal.
    + destruct (decide (q = final (k1 ++ q :: m))) as [Ef|Ef].
      * by rewrite (final_inv _ _ _ Hn1 Ef).
      * destruct m; [|done]. by rewrite final_snoc in Ef.
    + rewrite decide_False; [done|]. intros Ef.
      destruct (first_in l2) as [Ez|Hin]; [congruence|]. apply (Hd q Hq1). right. congruence.
  - (* after it *)
    assert (Hq2 : q ∈ m ++ q :: k2) by (apply elem_of_app; right; left).
    assert (Eg : g q = Some (first k2, final (l1 ++ p :: m))) by (apply Hg; by simplify_list_eq).
    rewrite (Hg' _ _ _ Hq Eg). f_equal. f_equal.
    + rewrite decide_False; [done|]. intros Ef.
      destruct (final_in l1) as [Ez|Hin]; [congruence|]. apply (Hd q); [congruence|by right].
    + destruct (decide (q = first (m ++ q :: k2))) as [Ef|Ef].
      * by rewrite (first_inv _ _ _ Hn2 Ef), app_nil_r.
      * destruct m as [|x m]; [done|]. unfold final. by rewrite !last_app, !last_cons_cons.
Qed.
End dll.

Arguments dll_node {null}.
Arguments dll_ext {null}.
Arguments dll_push {null}.
Arguments dll_remove {null}.
Arguments final_inv {null}.
Arguments first_inv {null}.
Arguments dll_nil {null}.
