(* ===== verification/GldPipeline.v ===== *)
(** Pipeline programs of the OpenGL bundle (GLD/CEsvga2GLDriver.c
    [gldCreatePipelineProgram], [gldModifyPipelineProgram],
    [gldDestroyPipelineProgram]; GLD/GLDCode.c [glrDeleteCachedProgram],
    [glrReleaseVendCtxPipeProg], [glrModifySysPipelineProgram],
    [glrDeleteSysPipelineProgram]): the programs of a shared state are a doubly
    linked list in memory, each with a doubly linked list of programs cached for
    contexts, whose vendor data is reference counted.

    Memory is a finite map per structure; an operation is [None] when it would
    use memory that is not allocated. *)

From S2P Require Import Prelude Dll.
From stdpp Require Import list gmap.

#[local] Open Scope Z_scope.

(** The null pointer ends the lists. *)
#[local] Abbreviation first := (first 0).
#[local] Abbreviation final := (final 0).
#[local] Abbreviation dll := (dll 0).

(** ** Memory *)

Record vend_ctx_pipe_prog := { c_f0 : Z; c_next : Z; c_prev : Z; c_f2 : Z }.

Record gld_pipeline_program_t := {
  arg2 : Z;
  f0_p : Z;
  f0_f : Z;
  f1 : Z;
  f2 : Z;
  ctx_next : Z;
  ctx_prev : Z;
  ctx_count : Z;
  next : Z;
  prev : Z;
}.

Inductive ev := Lock | Unlock | FreePPShader (p : Z).

Record heap := {
  pps : gmap Z gld_pipeline_program_t;
  ctxs : gmap Z vend_ctx_pipe_prog;
  refs : gmap Z Z;             (** the counts that vendor data begins with *)
  pp_list : Z;
  needs_locking : Z;
  trace : list ev;
}.

Definition with_pps f (h : heap) : heap :=
  {| pps := f h.(pps); ctxs := h.(ctxs); refs := h.(refs); pp_list := h.(pp_list);
     needs_locking := h.(needs_locking); trace := h.(trace) |}.
Definition with_ctxs f (h : heap) : heap :=
  {| pps := h.(pps); ctxs := f h.(ctxs); refs := h.(refs); pp_list := h.(pp_list);
     needs_locking := h.(needs_locking); trace := h.(trace) |}.
Definition with_refs r (h : heap) : heap :=
  {| pps := h.(pps); ctxs := h.(ctxs); refs := r; pp_list := h.(pp_list);
     needs_locking := h.(needs_locking); trace := h.(trace) |}.
Definition with_list p (h : heap) : heap :=
  {| pps := h.(pps); ctxs := h.(ctxs); refs := h.(refs); pp_list := p;
     needs_locking := h.(needs_locking); trace := h.(trace) |}.
Definition emit (e : ev) (h : heap) : heap :=
  {| pps := h.(pps); ctxs := h.(ctxs); refs := h.(refs); pp_list := h.(pp_list);
     needs_locking := h.(needs_locking); trace := h.(trace) ++ [e] |}.

(** Assignments to fields. *)
Definition set_next n (x : gld_pipeline_program_t) : gld_pipeline_program_t :=
  Build_gld_pipeline_program_t x.(arg2) x.(f0_p) x.(f0_f) x.(f1) x.(f2)
    x.(ctx_next) x.(ctx_prev) x.(ctx_count) n x.(prev).
Definition set_prev v (x : gld_pipeline_program_t) : gld_pipeline_program_t :=
  Build_gld_pipeline_program_t x.(arg2) x.(f0_p) x.(f0_f) x.(f1) x.(f2)
    x.(ctx_next) x.(ctx_prev) x.(ctx_count) x.(next) v.
Definition set_ctx n v c (x : gld_pipeline_program_t) : gld_pipeline_program_t :=
  Build_gld_pipeline_program_t x.(arg2) x.(f0_p) x.(f0_f) x.(f1) x.(f2) n v c x.(next) x.(prev).
Definition set_f0 p f (x : gld_pipeline_program_t) : gld_pipeline_program_t :=
  Build_gld_pipeline_program_t x.(arg2) p f x.(f1) x.(f2)
    x.(ctx_next) x.(ctx_prev) x.(ctx_count) x.(next) x.(prev).
Definition set_f1 v (x : gld_pipeline_program_t) : gld_pipeline_program_t :=
  Build_gld_pipeline_program_t x.(arg2) x.(f0_p) x.(f0_f) v x.(f2)
    x.(ctx_next) x.(ctx_prev) x.(ctx_count) x.(next) x.(prev).
Definition set_f2 v (x : gld_pipeline_program_t) : gld_pipeline_program_t :=
  Build_gld_pipeline_program_t x.(arg2) x.(f0_p) x.(f0_f) x.(f1) v
    x.(ctx_next) x.(ctx_prev) x.(ctx_count) x.(next) x.(prev).
Definition c_set_next n (c : vend_ctx_pipe_prog) : vend_ctx_pipe_prog :=
  Build_vend_ctx_pipe_prog c.(c_f0) n c.(c_prev) c.(c_f2).
Definition c_set_prev v (c : vend_ctx_pipe_prog) : vend_ctx_pipe_prog :=
  Build_vend_ctx_pipe_prog c.(c_f0) c.(c_next) v c.(c_f2).

(** A store through a pointer that must be allocated. *)
Definition store_pp (p : Z) f (h : heap) : option heap :=
  x ← h.(pps) !! p; Some (with_pps <[p := f x]> h).
Definition store_ctx (c : Z) f (h : heap) : option heap :=
  x ← h.(ctxs) !! c; Some (with_ctxs <[c := f x]> h).

(** [if (b) s] *)
Definition when (b : bool) (s : heap -> option heap) (h : heap) : option heap :=
  if b then s h else Some h.
Definition nonzero (z : Z) : bool := negb (z =? 0).
Definition lock (h : heap) : heap := if nonzero h.(needs_locking) then emit Lock h else h.
Definition unlock (h : heap) : heap := if nonzero h.(needs_locking) then emit Unlock h else h.

(** ** Operations *)

(** [p] is the address that the allocation of the program returned. *)
Definition gldCreatePipelineProgram (p a2 : Z) (h : heap) : option heap :=
  let h := with_pps <[p := Build_gld_pipeline_program_t a2 0 0 3 0 0 0 0 0 0]> h in
  h ← when (nonzero h.(pp_list)) (store_pp h.(pp_list) (set_prev p)) h;
  h ← store_pp p (set_next h.(pp_list)) h;
  Some (with_list p h).

(** The vendor data of a cached program loses a reference. *)
Definition glrReleaseVendCtxPipeProg (o : Z) (h : heap) : option heap :=
  n ← h.(refs) !! o;
  Some (with_refs (if n - 1 =? 0 then delete o h.(refs) else <[o := n - 1]> h.(refs)) h).

Definition glrDeleteCachedProgram (pp ctxp : Z) (h : heap) : option heap :=
  c ← h.(ctxs) !! ctxp;
  h ← (if nonzero c.(c_prev) then store_ctx c.(c_prev) (c_set_next c.(c_next)) h
       else store_pp pp (fun x => set_ctx c.(c_next) x.(ctx_prev) x.(ctx_count) x) h);
  h ← (if nonzero c.(c_next) then store_ctx c.(c_next) (c_set_prev c.(c_prev)) h
       else store_pp pp (fun x => set_ctx x.(ctx_next) c.(c_prev) x.(ctx_count) x) h);
  h ← store_pp pp (fun x => set_ctx x.(ctx_next) x.(ctx_prev) (x.(ctx_count) - 1) x) h;
  h ← when (nonzero c.(c_f2)) (glrReleaseVendCtxPipeProg c.(c_f2)) h;
  Some (with_ctxs (delete ctxp) h).

(** [while (pp->ctx_count) glrDeleteCachedProgram(pp, pp->ctx_next)] *)
Fixpoint delete_cached (fuel : nat) (pp : Z) (h : heap) : option heap :=
  x ← h.(pps) !! pp;
  if x.(ctx_count) =? 0 then Some h
  else match fuel with
       | O => None
       | S fuel => h ← glrDeleteCachedProgram pp x.(ctx_next) h; delete_cached fuel pp h
       end.

Definition glrDeleteSysPipelineProgram (pp : Z) (h : heap) : option heap :=
  x ← h.(pps) !! pp;
  if nonzero x.(f0_f) then store_pp pp (set_f0 0 0) (emit (FreePPShader x.(f0_p)) h) else Some h.

(** The second test of [f0.f], under the lock, sees the same value: one thread. *)
Definition glrModifySysPipelineProgram (pp : Z) (h : heap) : option heap :=
  x ← h.(pps) !! pp;
  if negb (has_bits x.(f1) 5) || negb (nonzero x.(f0_f)) then Some h
  else
    h ← store_pp pp (set_f0 0 0) (emit (FreePPShader x.(f0_p)) (lock h));
    Some (unlock h).

Definition gldModifyPipelineProgram (pp a2 : Z) (h : heap) : option heap :=
  h ← store_pp pp (fun x => set_f1 (Z.lor x.(f1) a2) x) h;
  glrModifySysPipelineProgram pp h.

(** The program at [pp], whose fields are [x], leaves the list of the shared state. *)
Definition unlink_program (pp : Z) (x : gld_pipeline_program_t) (h : heap) : option heap :=
  let h := if h.(pp_list) =? pp then with_list x.(next) h else h in
  h ← when (nonzero x.(next)) (store_pp x.(next) (set_prev x.(prev))) h;
  when (nonzero x.(prev)) (store_pp x.(prev) (set_next x.(next))) h.

(** [glrReleaseVendShrPipeProg] has an empty body. *)
Definition gldDestroyPipelineProgram (fuel : nat) (pp : Z) (h : heap) : option heap :=
  x ← h.(pps) !! pp;
  h ← when (nonzero x.(f2)) (store_pp pp (set_f2 0)) h;
  h ← delete_cached fuel pp (lock h);
  x ← h.(pps) !! pp;
  h ← unlink_program pp x h;
  h ← glrDeleteSysPipelineProgram pp (unlock h);
  Some (with_pps (delete pp) h).

(** ** The lists in memory *)

Definition pp_links (h : heap) : links := fun p => (fun x => (x.(next), x.(prev))) <$> h.(pps) !! p.
Definition ctx_links (h : heap) : links := fun c => (fun x => (x.(c_next), x.(c_prev))) <$> h.(ctxs) !! c.

(** The programs of the shared state, in order. *)
Definition programs (h : heap) (l : list Z) : Prop := dll (pp_links h) l /\ h.(pp_list) = first l.

(** The programs cached for a program, in order. *)
Definition cached (h : heap) (x : gld_pipeline_program_t) (cl : list Z) : Prop :=
  dll (ctx_links h) cl /\ x.(ctx_next) = first cl /\ x.(ctx_prev) = final cl /\
  x.(ctx_count) = Z.of_nat (length cl).

Lemma alter_insert_Some {A} (f : A -> A) (m : gmap Z A) k x :
  m !! k = Some x -> <[k := f x]> m = alter f k m.
Proof.
  intros E. apply map_eq. intros i. destruct (decide (i = k)) as [->|Hne].
  - by rewrite lookup_insert_eq, lookup_alter_eq, E.
  - by rewrite lookup_insert_ne, lookup_alter_ne.
Qed.

Lemma store_pp_alter h p f : is_Some (h.(pps) !! p) -> store_pp p f h = Some (with_pps (alter f p) h).
Proof.
  intros [x E]. unfold store_pp. rewrite E. cbn. unfold with_pps.
  by rewrite (alter_insert_Some f _ _ _ E).
Qed.

Lemma store_ctx_alter h p f : is_Some (h.(ctxs) !! p) -> store_ctx p f h = Some (with_ctxs (alter f p) h).
Proof.
  intros [x E]. unfold store_ctx. rewrite E. cbn. unfold with_ctxs.
  by rewrite (alter_insert_Some f _ _ _ E).
Qed.

Lemma nonzero_true z : z <> 0 -> nonzero z = true.
Proof. intros Hz. unfold nonzero. by rewrite (proj2 (Z.eqb_neq _ _)). Qed.

(** A store that is skipped for the null pointer. *)
Lemma when_store h q f :
  (q <> 0 -> is_Some (h.(pps) !! q)) ->
  when (nonzero q) (store_pp q f) h =
  Some (with_pps (fun m => if decide (q = 0) then m else alter f q m) h).
Proof.
  intros Hq. unfold when, nonzero. destruct (Z.eqb_spec q 0) as [->|Hne]; cbn.
  - by destruct h.
  - rewrite store_pp_alter by auto. unfold with_pps. by rewrite decide_False.
Qed.

Lemma programs_node h l p : programs h l -> p ∈ l -> is_Some (h.(pps) !! p).
Proof.
  intros [Hd _] Hp. destruct (dll_node _ _ _ Hd Hp) as [y Hy]. unfold pp_links in Hy.
  by destruct (h.(pps) !! p).
Qed.

Lemma first_node h l : programs h l -> first l <> 0 -> is_Some (h.(pps) !! first l).
Proof.
  intros Hl Hne. apply (programs_node h l); [done|]. by destruct (first_in 0 l).
Qed.

Ltac lookups := repeat first
  [ rewrite lookup_insert_eq | rewrite lookup_alter_eq
  | rewrite lookup_insert_ne by congruence | rewrite lookup_alter_ne by congruence
  | rewrite lookup_delete_ne by congruence ].

(** Creating a program at a new address puts it at the front of the list of
    the shared state, in a list that is still well linked in both directions, with
    both modification flags set and nothing cached. *)
Theorem gldCreatePipelineProgram_pushes h l p a2 :
  programs h l -> p <> 0 -> h.(pps) !! p = None ->
  exists h', gldCreatePipelineProgram p a2 h = Some h' /\ programs h' (p :: l) /\
    (exists x, h'.(pps) !! p = Some x /\ x.(f1) = 3 /\ x.(arg2) = a2 /\ cached h' x []) /\
    h'.(ctxs) = h.(ctxs) /\ h'.(trace) = h.(trace).
Proof.
  intros Hl Hp Hnew. pose proof (first_node h l Hl) as Hfst. pose proof (programs_node h l) as Hnode.
  destruct Hl as [Hd Hf].
  assert (Hin : p ∉ l).
  { intros [? E]%(Hnode p); [|by split]. by rewrite Hnew in E. }
  assert (Hpf : p <> first l) by (destruct (first_in 0 l); congruence).
  unfold gldCreatePipelineProgram. cbn [pp_list with_pps]. rewrite Hf.
  rewrite when_store by (cbn; intros Hne; lookups; auto). cbn [mbind option_bind].
  rewrite store_pp_alter.
  2: { cbn. destruct (decide _); lookups; by eexists. }
  cbn [mbind option_bind]. eexists. split; [reflexivity|].
  split; [|split; [|done]].
  - split; [|done]. apply (dll_push (pp_links h)); [done|done|done| |].
    + unfold pp_links. cbn. lookups. destruct (decide _); lookups; cbn; by rewrite Hf.
    + intros q Hq. assert (q <> p) by congruence. unfold pp_links. cbn. lookups.
      destruct (decide (first l = 0)) as [Ez|Hne].
      * destruct l as [|q' l]; [by apply not_elem_of_nil in Hq|].
        destruct Hd as (_ & H0 & _). destruct H0. change (q' = 0) in Ez. subst q'. left.
      * destruct (decide (q = first l)) as [->|Hq']; lookups.
        -- destruct (Hfst Hne) as [x ->]. done.
        -- by destruct (pps h !! q).
  - cbn. lookups. destruct (decide _); lookups; eexists; (split; [reflexivity|]);
      (split; [done|]); (split; [done|]); (split; [apply dll_nil|done]).
Qed.

(** ** Deleting the cached programs *)

(** Cached programs that hold a reference on [o]. *)
Definition held (h : heap) (cl : list Z) (o : Z) : nat :=
  length (filter (fun c => c_f2 <$> h.(ctxs) !! c = Some o) cl).

(** References never exceed the counts. *)
Definition counted (h : heap) (cl : list Z) : Prop := forall o, o <> 0 -> (0 < held h cl o)%nat ->
  exists n, h.(refs) !! o = Some n /\ Z.of_nat (held h cl o) <= n.

Definition drop_refs (r : option Z) (k : nat) : option Z :=
  n ← r; if decide (k = 0%nat) then Some n else if n =? Z.of_nat k then None else Some (n - Z.of_nat k).

(** What deleting the programs of [cl] leaves of the rest. *)
Definition deleted (h h' : heap) (pp : Z) (x : gld_pipeline_program_t) (cl rest : list Z) : Prop :=
  h'.(pps) = <[pp := set_ctx (first rest) (final rest) (Z.of_nat (length rest)) x]> h.(pps) /\
  h'.(pp_list) = h.(pp_list) /\ h'.(needs_locking) = h.(needs_locking) /\ h'.(trace) = h.(trace) /\
  (forall c, c ∈ cl -> h'.(ctxs) !! c = None) /\
  (forall c, c ∉ cl -> c_f2 <$> h'.(ctxs) !! c = c_f2 <$> h.(ctxs) !! c) /\
  (forall c, c ∉ cl -> c ∉ rest -> h'.(ctxs) !! c = h.(ctxs) !! c) /\
  (forall o, o <> 0 -> h'.(refs) !! o = drop_refs (h.(refs) !! o) (held h cl o)).

Lemma held_cons h c cl o :
  held h (c :: cl) o = ((if decide (c_f2 <$> h.(ctxs) !! c = Some o) then 1 else 0) + held h cl o)%nat.
Proof. unfold held. rewrite filter_cons. by destruct (decide _). Qed.

Lemma release_spec h o n :
  h.(refs) !! o = Some n -> exists r, glrReleaseVendCtxPipeProg o h = Some (with_refs r h) /\
    (forall o', o' <> o -> r !! o' = h.(refs) !! o') /\ r !! o = drop_refs (Some n) 1.
Proof.
  intros E. unfold glrReleaseVendCtxPipeProg. rewrite E. cbn [mbind option_bind].
  eexists. split; [reflexivity|]. unfold drop_refs. cbn [mbind option_bind].
  rewrite decide_False by done. change (Z.of_nat 1) with 1.
  destruct (Z.eqb_spec (n - 1) 0), (Z.eqb_spec n 1); try lia; split; intros; lookups; auto.
  apply lookup_delete_eq.
Qed.

Lemma store_pp_insert h p x f :
  h.(pps) !! p = Some x -> store_pp p f h = Some (with_pps <[p := f x]> h).
Proof. intros E. unfold store_pp. by rewrite E. Qed.

(** The links of the deletion of the first cached program. *)
Definition unlink_first (h : heap) (pp : Z) (x : gld_pipeline_program_t) (cl : list Z) : heap :=
  {| pps := <[pp := set_ctx (first cl) (final cl) (Z.of_nat (length cl)) x]> h.(pps);
     ctxs := if decide (first cl = 0) then h.(ctxs) else alter (c_set_prev 0) (first cl) h.(ctxs);
     refs := h.(refs); pp_list := h.(pp_list); needs_locking := h.(needs_locking); trace := h.(trace) |}.

Lemma cached_inv h x c cl :
  cached h x (c :: cl) -> exists y, h.(ctxs) !! c = Some y /\ y.(c_next) = first cl /\ y.(c_prev) = 0 /\
    (first cl <> 0 -> is_Some (h.(ctxs) !! first cl) /\ cl <> []) /\ (first cl = 0 -> cl = []).
Proof.
  intros (Hd & _ & _ & _). pose proof (dll_node _ _ (first cl) Hd) as Hnode.
  destruct Hd as (Hnd & H0 & Hg). pose proof (Hg [] c cl eq_refl) as Ec. unfold ctx_links in *.
  destruct (h.(ctxs) !! c) as [y|]; [|done]. injection Ec as En Ev. exists y.
  split; [done|]. split; [done|]. split; [done|]. split.
  - intros Hne. destruct (first_in 0 cl) as [?|Hin]; [done|].
    destruct Hnode as [? E]; [by right|]. destruct (h.(ctxs) !! first cl); [|done].
    split; [by eexists|]. by intros ->.
  - destruct cl as [|d cl]; [done|]. intros E. change (d = 0) in E. subst d.
    destruct H0. right. left.
Qed.

Lemma delete_unlinks h pp x c cl y :
  h.(pps) !! pp = Some x -> cached h x (c :: cl) -> h.(ctxs) !! c = Some y ->
  glrDeleteCachedProgram pp c h =
  (h1 ← when (nonzero y.(c_f2)) (glrReleaseVendCtxPipeProg y.(c_f2)) (unlink_first h pp x cl);
   Some (with_ctxs (delete c) h1)).
Proof.
  intros Hx Hca Ey. destruct (cached_inv _ _ _ _ Hca) as (y' & Ey' & En & Ev & Hne & Hz).
  rewrite Ey in Ey'. injection Ey' as <-. destruct Hca as (_ & Hcn & Hcv & Hcc).
  unfold glrDeleteCachedProgram. rewrite Ey. cbn [mbind option_bind]. rewrite Ev, En.
  change (nonzero 0) with false. cbv iota. rewrite (store_pp_insert h pp x) by done.
  cbn [mbind option_bind]. unfold unlink_first.
  destruct (decide (first cl = 0)) as [Ez|Hnz].
  - rewrite Ez. change (nonzero 0) with false. cbv iota. erewrite store_pp_insert by apply lookup_insert_eq. cbn [mbind option_bind].
    erewrite store_pp_insert by apply lookup_insert_eq. cbn [mbind option_bind].
    unfold with_pps. cbn [pps ctxs refs pp_list needs_locking trace].
    rewrite !insert_insert_eq. rewrite (Hz Ez) in *. unfold set_ctx. cbn in *. rewrite Hcc. done.
  - destruct (Hne Hnz) as [Hs Hnil]. rewrite (nonzero_true _ Hnz), store_ctx_alter by done. cbn [mbind option_bind].
    erewrite store_pp_insert by apply lookup_insert_eq. cbn [mbind option_bind].
    unfold with_pps, with_ctxs.
    cbn [pps ctxs refs pp_list needs_locking trace]. rewrite !insert_insert_eq.
    unfold set_ctx. cbn. rewrite Hcv, Hcc, final_cons, decide_False by done.
    repeat f_equal. cbn [length]. lia.
Qed.

Lemma drop_refs_0 r : drop_refs r 0 = r.
Proof. by destruct r. Qed.

Lemma release_held h pp x c cl y :
  h.(ctxs) !! c = Some y -> counted h (c :: cl) ->
  exists r, when (nonzero y.(c_f2)) (glrReleaseVendCtxPipeProg y.(c_f2)) (unlink_first h pp x cl) =
            Some (with_refs r (unlink_first h pp x cl)) /\
    forall o, o <> 0 -> r !! o = drop_refs (h.(refs) !! o) (held h [c] o).
Proof.
  intros Ey Hc.
  assert (Hheld : forall o, held h [c] o = if decide (y.(c_f2) = o) then 1%nat else 0%nat).
  { intros o. rewrite held_cons, Ey. cbn. unfold held. cbn.
    destruct (decide (Some (c_f2 y) = Some o)), (decide (c_f2 y = o)); try done; congruence. }
  unfold when. destruct (decide (y.(c_f2) = 0)) as [Ez|Hnz].
  - rewrite Ez. change (nonzero 0) with false. exists h.(refs). split; [done|]. intros o Ho.
    rewrite Hheld, decide_False, drop_refs_0 by congruence. done.
  - rewrite (nonzero_true _ Hnz). destruct (Hc _ Hnz) as (n & En & _).
    { rewrite held_cons, Ey, decide_True by done. lia. }
    destruct (release_spec (unlink_first h pp x cl) (c_f2 y) n En) as (r & Er & Ho & Eo).
    exists r. split; [exact Er|]. intros o Hne. rewrite Hheld.
    destruct (decide (c_f2 y = o)) as [<-|Hno]; [by rewrite En|].
    rewrite drop_refs_0. apply Ho. congruence.
Qed.

Lemma delete_one h pp x c cl :
  h.(pps) !! pp = Some x -> cached h x (c :: cl) -> counted h (c :: cl) ->
  exists h', glrDeleteCachedProgram pp c h = Some h' /\ deleted h h' pp x [c] cl /\
    cached h' (set_ctx (first cl) (final cl) (Z.of_nat (length cl)) x) cl.
Proof.
  intros Hx Hca Hc. destruct (cached_inv _ _ _ _ Hca) as (y & Ey & En & Ev & Hne & Hz).
  rewrite (delete_unlinks _ _ _ _ _ _ Hx Hca Ey).
  destruct (release_held h pp x c cl y Ey Hc) as (r & -> & Hr). cbn [mbind option_bind].
  destruct Hca as (Hd & _). pose proof Hd as (Hnd & H0 & _). apply NoDup_cons in Hnd as [Hcin _].
  assert (Hlook : forall c', c' <> c -> delete c (unlink_first h pp x cl).(ctxs) !! c' =
    (if decide (first cl <> 0 /\ c' = first cl) then c_set_prev 0 else id) <$> h.(ctxs) !! c').
  { intros c' Hc'. rewrite lookup_delete_ne by congruence. cbn [ctxs unlink_first].
    destruct (decide (first cl = 0)), (decide (first cl <> 0 /\ c' = first cl)) as [[? ->]|Hf];
      lookups; try (by destruct (ctxs h !! c')); try done.
    rewrite lookup_alter_ne by (intros <-; tauto). by destruct (ctxs h !! c'). }
  eexists. split; [reflexivity|]. split; [|split; [|done]].
  - split; [done|]. split; [done|]. split; [done|]. split; [done|]. split; [|split; [|split]].
    + intros c' ->%list_elem_of_singleton. apply lookup_delete_eq.
    + intros c' Hc'%not_elem_of_cons. cbn [ctxs with_ctxs with_refs]. rewrite Hlook by tauto.
      by destruct (decide _), (ctxs h !! c').
    + intros c' Hc'%not_elem_of_cons Hrest. cbn [ctxs with_ctxs with_refs]. rewrite Hlook by tauto.
      rewrite decide_False; [by destruct (ctxs h !! c')|]. intros [Hnz ->].
      by destruct (first_in 0 cl).
    + exact Hr.
  - apply (dll_remove (ctx_links h) _ [] c cl Hd). cbn [app]. intros q n v Hq Eq.
    change (final []) with 0. assert (q <> 0) by (intros ->; apply H0; by right).
    assert (q <> c) by congruence. rewrite decide_False by done.
    unfold ctx_links in *. cbn [ctxs with_ctxs with_refs]. rewrite Hlook by done.
    destruct (ctxs h !! q) as [z|]; [|done]. injection Eq as <- <-.
    destruct (decide (q = first cl)) as [->|Hqf].
    + by rewrite decide_True by done.
    + by rewrite decide_False by tauto.
Qed.

(** Deletions compose. *)
Lemma held_ext h h' cl o :
  (forall c, c ∈ cl -> c_f2 <$> h'.(ctxs) !! c = c_f2 <$> h.(ctxs) !! c) -> held h' cl o = held h cl o.
Proof.
  induction cl as [|c cl IH]; intros E; [done|]. rewrite !held_cons, IH, E; [done|left|].
  intros c' Hc'. apply E. by right.
Qed.

Lemma drop_refs_add r k1 k2 :
  ((0 < k1 + k2)%nat -> exists n, r = Some n /\ Z.of_nat (k1 + k2) <= n) ->
  drop_refs (drop_refs r k1) k2 = drop_refs r (k1 + k2).
Proof.
  intros Hr. destruct (decide (k1 + k2 = 0)%nat).
  { replace k1 with 0%nat by lia. by rewrite drop_refs_0. }
  destruct Hr as (N & -> & Hn); [lia|]. unfold drop_refs. cbn [mbind option_bind].
  rewrite (decide_False (P := (k1 + k2)%nat = 0%nat)) by lia.
  destruct (decide (k1 = 0%nat)) as [->|]; cbn [mbind option_bind].
  { by rewrite decide_False. }
  destruct (Z.eqb_spec N (Z.of_nat k1)), (Z.eqb_spec N (Z.of_nat (k1 + k2))); cbn [mbind option_bind];
    try lia; try done; destruct (decide (k2 = 0%nat)) as [->|];
    try (destruct (Z.eqb_spec (N - Z.of_nat k1) (Z.of_nat k2))); try lia; try done; f_equal; lia.
Qed.

Lemma deleted_trans h h1 h2 pp x c cl :
  NoDup (c :: cl) -> counted h (c :: cl) ->
  deleted h h1 pp x [c] cl ->
  deleted h1 h2 pp (set_ctx (first cl) (final cl) (Z.of_nat (length cl)) x) cl [] ->
  deleted h h2 pp x (c :: cl) [].
Proof.
  intros [Hc _]%NoDup_cons Hn (P1 & L1 & K1 & T1 & N1 & F1 & C1 & R1)
    (P2 & L2 & K2 & T2 & N2 & F2 & C2 & R2).
  assert (Hheld : forall o, held h1 cl o = held h cl o).
  { intros o. apply held_ext. intros c' Hc'. apply F1. intros ->%list_elem_of_singleton. done. }
  assert (Hsing : forall c', c' ∉ [c] <-> c' <> c).
  { intros c'. by rewrite list_elem_of_singleton. }
  split; [by rewrite P2, P1, insert_insert_eq|]. split; [congruence|]. split; [congruence|].
  split; [congruence|]. split; [|split; [|split]].
  - intros c' [->|Hin]%elem_of_cons; [|by apply N2].
    rewrite C2; [by apply N1; left|done|apply not_elem_of_nil].
  - intros c' [? ?]%not_elem_of_cons. rewrite F2, F1 by (by rewrite ?Hsing). done.
  - intros c' [? ?]%not_elem_of_cons Hnil. rewrite C2, C1 by (by rewrite ?Hsing). done.
  - intros o Ho. rewrite R2, R1, Hheld by done.
    assert (E : held h (c :: cl) o = (held h [c] o + held h cl o)%nat).
    { rewrite !held_cons. change (held h [] o) with 0%nat. lia. }
    rewrite E. apply drop_refs_add. rewrite <-E. by apply Hn.
Qed.

Lemma counted_rest h h1 pp x c cl :
  c ∉ cl -> counted h (c :: cl) -> deleted h h1 pp x [c] cl -> counted h1 cl.
Proof.
  intros Hc Hn (_ & _ & _ & _ & _ & F1 & _ & R1) o Ho.
  rewrite (held_ext h h1) by (intros c' Hc'; apply F1; intros ->%list_elem_of_singleton; done).
  intros Hpos. destruct (Hn o Ho) as (n & En & Hle); rewrite held_cons in *; [lia|].
  rewrite R1, En by done. unfold drop_refs. cbn [mbind option_bind].
  rewrite held_cons. change (held h [] o) with 0%nat. rewrite Nat.add_0_r.
  destruct (decide (c_f2 <$> _ = Some o)); cbn [Nat.add] in *.
  - rewrite decide_False by done. destruct (Z.eqb_spec n (Z.of_nat 1)); [lia|]. eexists. split; [done|lia].
  - rewrite decide_True by done. by exists n.
Qed.

Lemma delete_cached_spec pp cl : forall fuel h x,
  (length cl <= fuel)%nat -> h.(pps) !! pp = Some x -> cached h x cl -> counted h cl ->
  exists h', delete_cached fuel pp h = Some h' /\ deleted h h' pp x cl [].
Proof.
  induction cl as [|c cl IH]; intros fuel h x Hf Hx Hca Hc.
  - exists h. destruct Hca as (_ & En & Ev & Ec). split.
    { destruct fuel; cbn [delete_cached]; rewrite Hx; cbn [mbind option_bind]; by rewrite Ec. }
    split; [|repeat split; try done].
    + apply map_eq. intros i. destruct (decide (i = pp)) as [->|]; lookups; [|done].
      rewrite Hx. f_equal. destruct x. cbn in *. by subst.
    + intros c ?%not_elem_of_nil. done.
    + intros o Ho. change (held h [] o) with 0%nat. by rewrite drop_refs_0.
  - destruct fuel as [|fuel]; [simpl in Hf; lia|]. cbn [delete_cached]. rewrite Hx.
    destruct (delete_one h pp x c cl Hx Hca Hc) as (h1 & E1 & D1 & Hca1).
    pose proof Hca as (Hd & En & _ & Ec). pose proof (proj1 Hd) as Hnd.
    cbn [mbind option_bind]. rewrite Ec, En. rewrite (proj2 (Z.eqb_neq _ _)) by (simpl; lia).
    change (first (c :: cl)) with c. rewrite E1. cbn [mbind option_bind].
    destruct (IH fuel h1 (set_ctx (first cl) (final cl) (Z.of_nat (length cl)) x)) as (h2 & E2 & D2).
    + simpl in Hf. lia.
    + destruct D1 as (-> & _). apply lookup_insert_eq.
    + done.
    + apply (counted_rest h h1 pp x c cl); [|done|done]. by apply NoDup_cons in Hnd as [? _].
    + exists h2. split; [exact E2|]. by apply (deleted_trans h h1 h2).
Qed.

(** ** Destroying a program *)

Lemma program_links h l1 p l2 x :
  programs h (l1 ++ p :: l2) -> h.(pps) !! p = Some x -> x.(next) = first l2 /\ x.(prev) = final l1.
Proof.
  intros [(_ & _ & Hg) _] Hx. specialize (Hg l1 p l2 eq_refl). unfold pp_links in Hg.
  rewrite Hx in Hg. by injection Hg.
Qed.

(** The neighbours of a program are other programs of the list, or null. *)
Lemma neighbours h l1 p l2 :
  programs h (l1 ++ p :: l2) ->
  (first l2 <> 0 -> is_Some (h.(pps) !! first l2)) /\ (final l1 <> 0 -> is_Some (h.(pps) !! final l1)) /\
  p <> first l2 /\ p <> final l1 /\ (first l2 = final l1 -> first l2 = 0).
Proof.
  intros Hl. pose proof (fun q => programs_node h _ q Hl) as Hn.
  destruct Hl as [(Hnd & H0 & _) _]. apply NoDup_app in Hnd as (_ & Hd & [Hp _]%NoDup_cons).
  assert (Hp0 : p <> 0) by (intros ->; apply H0, elem_of_app; right; left).
  pose proof (first_in 0 l2) as F. pose proof (final_in 0 l1) as L. split; [|split; [|split; [|split]]].
  - intros ?. apply Hn, elem_of_app. right. right. tauto.
  - intros ?. apply Hn, elem_of_app. left. tauto.
  - destruct F as [->|F]; [done|]. congruence.
  - destruct L as [->|L]; [done|]. intros E. apply (Hd p); [congruence|left].
  - destruct F as [F|F], L as [L|L]; intros E; try congruence. destruct (Hd (final l1) L). right. congruence.
Qed.

Lemma first_app_drop l1 (p : Z) l2 :
  first (l1 ++ l2) = if decide (l1 = []) then first l2 else first (l1 ++ p :: l2).
Proof. by destruct l1. Qed.

Lemma head_is l1 p l2 : NoDup (l1 ++ p :: l2) -> (first (l1 ++ p :: l2) =? p) = bool_decide (l1 = []).
Proof.
  intros Hn. destruct (Z.eqb_spec (first (l1 ++ p :: l2)) p) as [E|E].
  - rewrite bool_decide_true; [done|]. by apply (first_inv (null := 0) l1 p l2).
  - rewrite bool_decide_false; [done|]. by intros ->.
Qed.

Lemma cond_alter_lookup {A} (f : A -> A) (m : gmap Z A) k q : q <> 0 ->
  (if decide (k = 0) then m else alter f k m) !! q = (if decide (q = k) then f else id) <$> m !! q.
Proof.
  intros Hq. destruct (decide (k = 0)) as [->|].
  - rewrite decide_False by done. by destruct (m !! q).
  - destruct (decide (q = k)) as [->|]; lookups; [done|]. by destruct (m !! q).
Qed.

Lemma unlink_program_spec h l1 p l2 x :
  programs h (l1 ++ p :: l2) -> h.(pps) !! p = Some x ->
  exists h', unlink_program p x h = Some h' /\ programs h' (l1 ++ l2) /\ h'.(pps) !! p = Some x /\
    h'.(ctxs) = h.(ctxs) /\ h'.(refs) = h.(refs) /\ h'.(trace) = h.(trace) /\
    h'.(needs_locking) = h.(needs_locking).
Proof.
  intros Hl Hx. destruct (program_links _ _ _ _ _ Hl Hx) as [En Ev].
  destruct (neighbours _ _ _ _ Hl) as (Hs2 & Hs1 & Hp2 & Hp1 & Hne).
  destruct Hl as [Hd Hf]. pose proof Hd as (Hnd & H0 & _).
  assert (Hz : forall q, q ∈ l1 ++ p :: l2 -> q <> 0) by congruence.
  assert (Hp0 : p <> 0) by (apply Hz, elem_of_app; right; left).
  unfold unlink_program. rewrite Hf, (head_is _ _ _ Hnd), En, Ev.
  set (h1 := if bool_decide (l1 = []) then with_list (first l2) h else h).
  assert (E1 : h1.(pps) = h.(pps)) by (unfold h1; by case_bool_decide).
  rewrite when_store by (rewrite E1; done). cbn [mbind option_bind].
  rewrite when_store.
  2: { intros Hnz. cbn. rewrite E1, cond_alter_lookup by done. apply fmap_is_Some. by apply Hs1. }
  eexists. split; [reflexivity|]. split; [split|split].
  - apply (dll_remove (pp_links h) _ l1 p l2 Hd). intros q n v Hq Eq.
    assert (Hq0 : q <> 0) by (apply Hz; rewrite elem_of_app, elem_of_cons in *; tauto).
    unfold pp_links in *. cbn. rewrite !cond_alter_lookup, E1 by done.
    destruct (h.(pps) !! q) as [y|]; [|done]. injection Eq as <- <-.
    by destruct (decide (q = final l1)), (decide (q = first l2)).
  - cbn. rewrite (first_app_drop l1 p l2). unfold h1.
    by destruct (decide (l1 = [])); case_bool_decide.
  - cbn. rewrite !cond_alter_lookup, E1, Hx by done. by rewrite !decide_False.
  - unfold h1. by case_bool_decide.
Qed.

(** What the locking leaves in the trace. *)
Definition bracket (needs : Z) (l : list ev) : list ev :=
  if nonzero needs then Lock :: l ++ [Unlock] else l.

Lemma links_same h h' pp x y :
  h.(pps) !! pp = Some x -> h'.(pps) = <[pp := y]> h.(pps) -> y.(next) = x.(next) -> y.(prev) = x.(prev) ->
  forall q, pp_links h' q = pp_links h q.
Proof.
  intros Hx E En Ev q. unfold pp_links. rewrite E. destruct (decide (q = pp)) as [->|]; lookups; [|done].
  rewrite Hx. cbn. congruence.
Qed.

Lemma lock_fields h :
  (lock h).(pps) = h.(pps) /\ (lock h).(ctxs) = h.(ctxs) /\ (lock h).(refs) = h.(refs) /\
  (lock h).(pp_list) = h.(pp_list) /\ (lock h).(needs_locking) = h.(needs_locking) /\
  (unlock h).(pps) = h.(pps) /\ (unlock h).(ctxs) = h.(ctxs) /\ (unlock h).(refs) = h.(refs) /\
  (unlock h).(pp_list) = h.(pp_list).
Proof. unfold lock, unlock. by destruct (nonzero _). Qed.

Lemma unlock_pps h : (unlock h).(pps) = h.(pps).
Proof. unfold unlock. by destruct (nonzero _). Qed.

(** The first part of the destruction: everything that is cached is given up. *)
Lemma clear_program fuel h l pp x cl :
  programs h l -> h.(pps) !! pp = Some x -> cached h x cl -> counted h cl -> (length cl <= fuel)%nat ->
  exists h1, (h ← when (nonzero x.(f2)) (store_pp pp (set_f2 0)) h; delete_cached fuel pp (lock h)) = Some h1 /\
    programs h1 l /\ h1.(pps) !! pp = Some (set_ctx 0 0 0 (set_f2 0 x)) /\
    h1.(needs_locking) = h.(needs_locking) /\ h1.(trace) = (lock h).(trace) /\
    (forall c, c ∈ cl -> h1.(ctxs) !! c = None) /\
    (forall c, c ∉ cl -> h1.(ctxs) !! c = h.(ctxs) !! c) /\
    (forall o, o <> 0 -> h1.(refs) !! o = drop_refs (h.(refs) !! o) (held h cl o)).
Proof.
  intros Hl Hx Hca Hc Hf.
  assert (E0 : exists h0, when (nonzero x.(f2)) (store_pp pp (set_f2 0)) h = Some h0 /\
    h0 = with_pps <[pp := set_f2 0 x]> h).
  { unfold when, nonzero. destruct (Z.eqb_spec x.(f2) 0) as [Ez|]; cbn.
    - exists h. split; [done|]. destruct h as [m]. unfold with_pps. cbn in *. f_equal.
      symmetry. apply insert_id. rewrite Hx. f_equal. destruct x. cbn in *. by subst.
    - rewrite (store_pp_insert _ _ _ _ Hx). by eexists. }
  destruct E0 as (h0 & -> & ->). cbn [mbind option_bind].
  set (h0 := with_pps _ h). destruct (lock_fields h0) as (P & C & R & L & N & _).
  destruct (delete_cached_spec pp cl fuel (lock h0) (set_f2 0 x)) as (h1 & E1 & D1).
  - done.
  - rewrite P. apply lookup_insert_eq.
  - destruct Hca as (Hd & Hrest). split; [|exact Hrest]. apply (dll_ext (ctx_links h)); [done|].
    intros c _. unfold ctx_links. by rewrite C.
  - intros o Ho. unfold held. rewrite C, R. by apply Hc.
  - exists h1. split; [exact E1|]. destruct D1 as (P1 & L1 & K1 & T1 & N1 & _ & C1 & R1).
    rewrite P in P1. cbn in P1. rewrite insert_insert_eq in P1. split; [split|].
    + apply (dll_ext (pp_links h)); [apply Hl|]. intros q _. by apply (links_same h h1 pp x _ Hx P1).
    + rewrite L1, L. apply Hl.
    + split; [rewrite P1; apply lookup_insert_eq|]. split; [by rewrite K1, N|].
      split; [rewrite T1; unfold lock; cbn; by destruct (nonzero _)|]. split; [exact N1|]. split.
      * intros c Hc'. rewrite C1, C by (done || apply not_elem_of_nil). done.
      * intros o Ho. rewrite R1, R by done. unfold held. by rewrite C.
Qed.


(** Modifying a program frees a translated shader at most once: with a flag of
    the shader set and a shader held it is released under the lock and forgotten,
    so that the same modification again releases nothing. *)
Theorem gldModifyPipelineProgram_frees_once h pp a2 x :
  h.(pps) !! pp = Some x -> has_bits (Z.lor x.(f1) a2) 5 = true -> x.(f0_f) <> 0 ->
  exists h1 h2, gldModifyPipelineProgram pp a2 h = Some h1 /\
    h1.(trace) = h.(trace) ++ bracket h.(needs_locking) [FreePPShader x.(f0_p)] /\
    gldModifyPipelineProgram pp a2 h1 = Some h2 /\ h2.(trace) = h1.(trace).
Proof.
  intros Hx Hb Hf. unfold gldModifyPipelineProgram at 1.
  rewrite (store_pp_insert _ _ _ _ Hx). cbn [mbind option_bind]. unfold glrModifySysPipelineProgram at 1.
  cbn [pps with_pps]. rewrite lookup_insert_eq. cbn [mbind option_bind set_f1 f1 f0_f f0_p].
  rewrite Hb, (nonzero_true _ Hf). cbn [negb orb].
  set (h0 := with_pps _ h). destruct (lock_fields h0) as (P & _).
  erewrite store_pp_insert by (cbn; rewrite P; apply lookup_insert_eq). cbn [mbind option_bind].
  set (h1 := unlock _).
  assert (P1 : exists y, h1.(pps) !! pp = Some y /\ y.(f0_f) = 0).
  { unfold h1. rewrite unlock_pps. cbn. eexists. split; [apply lookup_insert_eq|done]. }
  destruct P1 as (y & Ey & Ef). exists h1. eexists. split; [reflexivity|]. split.
  { unfold h1, unlock, lock, bracket. cbn. destruct (nonzero (needs_locking h)) eqn:En; cbn; rewrite ?En;
      cbn; by rewrite <-?app_assoc. }
  unfold gldModifyPipelineProgram. rewrite (store_pp_insert _ _ _ _ Ey). cbn [mbind option_bind].
  unfold glrModifySysPipelineProgram. cbn [pps with_pps]. rewrite lookup_insert_eq.
  cbn [mbind option_bind set_f1 f0_f]. rewrite Ef. change (nonzero 0) with false.
  cbn [negb]. rewrite orb_true_r. split; reflexivity.
Qed.

(** ** A shared state with two programs *)

Definition sample_program (n v : Z) : gld_pipeline_program_t :=
  {| arg2 := 5; f0_p := 70; f0_f := 1; f1 := 3; f2 := 0;
     ctx_next := 0; ctx_prev := 0; ctx_count := 0; next := n; prev := v |}.
Definition sample_cached : vend_ctx_pipe_prog := {| c_f0 := 1; c_next := 0; c_prev := 0; c_f2 := 90 |}.

(** Programs at 10 and 20; one program is cached for the second, with a shared
    piece of vendor data. *)
Definition sample_second : gld_pipeline_program_t := set_ctx 30 30 1 (sample_program 0 10).
Definition sample_heap : heap :=
  {| pps := <[10 := sample_program 20 0]> (<[20 := sample_second]> ∅);
     ctxs := <[30 := sample_cached]> ∅; refs := <[90 := 2]> ∅;
     pp_list := 10; needs_locking := 1; trace := [] |}.

Lemma split_two {A} (a b : A) l1 p l2 : [a; b] = l1 ++ p :: l2 ->
  (l1 = [] /\ p = a /\ l2 = [b]) \/ (l1 = [a] /\ p = b /\ l2 = []).
Proof. destruct l1 as [|? [|? [|]]]; intros E; simplify_eq/=; auto. Qed.

Lemma split_one {A} (a : A) l1 p l2 : [a] = l1 ++ p :: l2 -> l1 = [] /\ p = a /\ l2 = [].
Proof. destruct l1 as [|? [|]]; intros E; simplify_eq/=; auto. Qed.

Lemma sample_programs : programs sample_heap [10; 20].
Proof.
  split; [|done]. split; [by apply (bool_decide_unpack _); vm_compute|].
  split; [by apply (bool_decide_unpack _); vm_compute|].
  intros l1 p l2 [(-> & -> & ->)|(-> & -> & ->)]%split_two; reflexivity.
Qed.

Lemma sample_cached_ok : cached sample_heap sample_second [30].
Proof.
  split; [|done]. split; [by apply (bool_decide_unpack _); vm_compute|].
  split; [by apply (bool_decide_unpack _); vm_compute|].
  intros l1 p l2 (-> & -> & ->)%split_one; reflexivity.
Qed.

Lemma sample_counted : counted sample_heap [30].
Proof.
  intros o Ho Hh. rewrite held_cons in *. change (held sample_heap [] o) with 0%nat in *.
  destruct (decide _) as [E|]; [|lia]. injection E as <-. exists 2. by split.
Qed.

Lemma gldCreatePipelineProgram_pushes_witness :
  exists h', gldCreatePipelineProgram 40 5 sample_heap = Some h' /\ programs h' [40; 10; 20].
Proof.
  destruct (gldCreatePipelineProgram_pushes sample_heap [10; 20] 40 5 sample_programs
    ltac:(done) eq_refl) as (h' & E & Hl & _).
  exists h'. split; [exact E|exact Hl].
Defined.


Lemma gldModifyPipelineProgram_frees_once_witness :
  exists h1 h2, gldModifyPipelineProgram 10 4 sample_heap = Some h1 /\
    h1.(trace) = [Lock; FreePPShader 70; Unlock] /\
    gldModifyPipelineProgram 10 4 h1 = Some h2 /\ h2.(trace) = h1.(trace).
Proof.
  exact (gldModifyPipelineProgram_frees_once sample_heap 10 4 (sample_program 20 0)
    eq_refl eq_refl ltac:(done)).
Defined.
