(* ===== verification/Allocator.v ===== *)
(** The allocator of video memory (AC/CEsvga2Allocator.cpp, [CEsvga2Allocator]): a
    buddy allocator of 4 kB blocks. A free block carries a magic number and its
    links in its first words and its size in its last word; a bitmap has a bit per
    block that is set at the last block of an allocated area.

    The words of the pool are numbered from its start, so that [Rebase] moves the
    start only. The build defines FRAGILE. *)

From S2P Require Import Prelude IOKit.
From stdpp Require Import list.

#[local] Open Scope Z_scope.

(** ** Constants *)

Definition HEADER_LEN : Z := 3.
Definition TRAILER_LEN : Z := 1.
Definition FREEBLOCK : Z := HEADER_LEN + TRAILER_LEN.
Definition OURNULL : Z := 0xFFFFFFFF.
Definition MAGIC : Z := 0xA7130423.
Definition OFF_MAGIC : Z := 0.
Definition OFF_PREV : Z := 1.
Definition OFF_NEXT : Z := 2.
Definition OFF_BITS : Z := -1.
Definition LEN_OFFSET : Z := 1234.

(** ** State *)

Record CEsvga2Allocator := {
  poolStart : Z;
  poolBlocks : Z;
  minBits : Z;
  numSizes : Z;
  freeList : Z -> Z;
  map_allocated : bool;     (** [map] is not null *)
  map : Z -> Z;             (** its bytes *)
  freeBytes : Z;
  pool : Z -> Z;            (** the words of the pool *)
}.

Implicit Types (s : CEsvga2Allocator).

Definition with_map f s :=
  {| poolStart := s.(poolStart); poolBlocks := s.(poolBlocks); minBits := s.(minBits);
     numSizes := s.(numSizes); freeList := s.(freeList); map_allocated := s.(map_allocated);
     map := f; freeBytes := s.(freeBytes); pool := s.(pool) |}.
Definition with_pool f s :=
  {| poolStart := s.(poolStart); poolBlocks := s.(poolBlocks); minBits := s.(minBits);
     numSizes := s.(numSizes); freeList := s.(freeList); map_allocated := s.(map_allocated);
     map := s.(map); freeBytes := s.(freeBytes); pool := f |}.
Definition with_list b v s :=
  {| poolStart := s.(poolStart); poolBlocks := s.(poolBlocks); minBits := s.(minBits);
     numSizes := s.(numSizes); freeList := upd s.(freeList) b v; map_allocated := s.(map_allocated);
     map := s.(map); freeBytes := s.(freeBytes); pool := s.(pool) |}.
Definition with_bytes v s :=
  {| poolStart := s.(poolStart); poolBlocks := s.(poolBlocks); minBits := s.(minBits);
     numSizes := s.(numSizes); freeList := s.(freeList); map_allocated := s.(map_allocated);
     map := s.(map); freeBytes := v; pool := s.(pool) |}.
Definition store k v s := with_pool (upd s.(pool) k v) s.

(** [(poolStart + (off << minBits))] as an index of words. *)
Definition at_block s (off : Z) : Z := u32 (Z.shiftl off s.(minBits)) / 4.
(** The words of a block of size [bits]. *)
Definition words_of s (bits : Z) : Z := u32 (Z.shiftl 1 (bits + s.(minBits))) / 4.
(** [POOL_ONE << n] *)
Definition pool_shl (n : Z) : Z := u32 (Z.shiftl 1 n).

(** ** The bitmap *)

Definition BITTEST s (n : Z) : bool := has_bits (s.(map) (Z.shiftr n 3)) (Z.shiftr 128 (Z.land n 7)).
Definition BITSET (n : Z) s :=
  with_map (upd s.(map) (Z.shiftr n 3) (Z.lor (s.(map) (Z.shiftr n 3)) (Z.shiftr 128 (Z.land n 7)))) s.
Definition BITCLEAR (n : Z) s :=
  with_map (upd s.(map) (Z.shiftr n 3) (Z.ldiff (s.(map) (Z.shiftr n 3)) (Z.shiftr 128 (Z.land n 7)))) s.

(** [repe scasb]: the count decreases with every byte that is compared, and the
    scan stops after the first byte that differs; the result is the count. *)
Fixpoint repe_scasb (count : nat) (mem : Z -> Z) (p al : Z) : Z :=
  match count with
  | O => 0
  | S count => if mem p =? al then repe_scasb count mem (p + 1) al else Z.of_nat count
  end.

Definition memAll s (p bytes : Z) : bool :=
  if bytes =? 0 then true else repe_scasb (Z.to_nat bytes) s.(map) p 0xFF =? 0.
Definition memAny s (p bytes : Z) : bool :=
  if bytes =? 0 then false else negb (repe_scasb (Z.to_nat bytes) s.(map) p 0 =? 0).

(** The three parts of a range of bits: up to a byte boundary, whole bytes, the rest. *)
Definition first_full (firstBit : Z) : Z := Z.ldiff (firstBit + 7) 7.
Definition past_full (pastBit : Z) : Z := Z.ldiff pastBit 7.

Definition testAll s (firstBit pastBit : Z) : bool :=
  let firstFull := first_full firstBit in
  let pastFull := past_full pastBit in
  let past := if firstFull <? pastBit then firstFull else pastBit in
  if negb (forallb (BITTEST s) (seqZ firstBit (past - firstBit))) then false
  else if (firstFull <? pastFull) && negb (memAll s (Z.shiftr firstFull 3) (Z.shiftr (pastFull - firstFull) 3))
  then false
  else
    let pastFull := if pastFull <? past then past else pastFull in
    forallb (BITTEST s) (seqZ pastFull (pastBit - pastFull)).

Definition clear_bits (l : list Z) s := foldl (fun s i => BITCLEAR i s) s l.
(** [bzero(map + p, bytes)] *)
Definition zero_bytes (p bytes : Z) s :=
  with_map (fun i => if (p <=? i) && (i <? p + bytes) then 0 else s.(map) i) s.

Definition clearAll (firstBit pastBit : Z) s :=
  let firstFull := first_full firstBit in
  let pastFull := past_full pastBit in
  let past := if firstFull <? pastBit then firstFull else pastBit in
  let s := clear_bits (seqZ firstBit (past - firstBit)) s in
  let s := if firstFull <? pastFull
           then zero_bytes (Z.shiftr firstFull 3) (Z.shiftr (pastFull - firstFull) 3) s else s in
  let pastFull := if pastFull <? past then past else pastFull in
  clear_bits (seqZ pastFull (pastBit - pastFull)) s.

Definition clearCheck (firstBit pastBit : Z) s : IOReturn * CEsvga2Allocator :=
  if negb (testAll s firstBit pastBit) then (kIOReturnBadMedia, s)
  else (kIOReturnSuccess, clearAll firstBit pastBit s).

Definition testAny s (firstBit pastBit : Z) : bool :=
  let firstFull := first_full firstBit in
  let pastFull := past_full pastBit in
  let past := if firstFull <? pastBit then firstFull else pastBit in
  if existsb (BITTEST s) (seqZ firstBit (past - firstBit)) then true
  else if (firstFull <? pastFull) && memAny s (Z.shiftr firstFull 3) (Z.shiftr (pastFull - firstFull) 3)
  then true
  else
    let pastFull := if pastFull <? past then past else pastFull in
    existsb (BITTEST s) (seqZ pastFull (pastBit - pastFull)).

(** ** Free blocks *)

Definition zero_words (p n : Z) s :=
  with_pool (fun i => if (p <=? i) && (i <? p + n) then 0 else s.(pool) i) s.

Definition makeFree (firstFree bitsFree : Z) (zap : bool) s :=
  let bytesToFree := pool_shl (bitsFree + s.(minBits)) in
  let blocksToFree := pool_shl bitsFree in
  let ptr := at_block s firstFree in
  let s := if zap then clearAll firstFree (firstFree + blocksToFree) (zero_words ptr (bytesToFree / 4) s)
           else s in
  let s := store (ptr + OFF_MAGIC) MAGIC s in
  let s := store (ptr + OFF_PREV) OURNULL s in
  let nextOff := s.(freeList) bitsFree in
  let s := store (ptr + OFF_NEXT) nextOff s in
  let pastPtr := ptr + bytesToFree / 4 in
  let s := store (pastPtr + OFF_BITS) (bitsFree + LEN_OFFSET) s in
  let s := if negb (nextOff =? OURNULL) then store (at_block s nextOff + OFF_PREV) firstFree s else s in
  with_bytes (u32 (s.(freeBytes) + bytesToFree)) (with_list bitsFree firstFree s).

(** The first inner loop of [toFree], for [n = numSizes - 1 - tryBits] turns at most. *)
Fixpoint try_larger (n : nat) (i pastBlock tryBits tryLen : Z) : Z * Z :=
  match n with
  | O => (tryBits, tryLen)
  | S n =>
      let nextLen := u32 (Z.shiftl tryLen 1) in
      if pastBlock <? u32 (i + nextLen) then (tryBits, tryLen)
      else if negb (Z.land i (nextLen - 1) =? 0) then (tryBits, tryLen)
      else try_larger n i pastBlock (tryBits + 1) nextLen
  end.

(** The second one, for [n = tryBits + 1] turns at most. *)
Fixpoint try_smaller (n : nat) (i pastBlock tryBits tryLen : Z) : Z * Z :=
  match n with
  | O => (tryBits, tryLen)
  | S n =>
      if (pastBlock <? u32 (i + tryLen)) || negb (Z.land i (tryLen - 1) =? 0)
      then try_smaller n i pastBlock (tryBits - 1) (Z.shiftr tryLen 1)
      else (tryBits, tryLen)
  end.

(** The outer loop; a turn covers a block at least. *)
Fixpoint to_free_loop (n : nat) (i pastBlock tryBits tryLen : Z) (zap : bool) s :=
  match n with
  | O => s
  | S n =>
      if pastBlock <=? i then s
      else
        let '(tryBits, tryLen) :=
          try_larger (Z.to_nat (s.(numSizes) - 1 - tryBits)) i pastBlock tryBits tryLen in
        let '(tryBits, tryLen) := try_smaller (Z.to_nat (tryBits + 1)) i pastBlock tryBits tryLen in
        if tryBits <? 0 then s
        else to_free_loop n (u32 (i + tryLen)) pastBlock tryBits tryLen zap (makeFree i tryBits zap s)
  end.

Definition toFree (firstBlock pastBlock : Z) (zap : bool) s :=
  to_free_loop (Z.to_nat (pastBlock - firstBlock)) firstBlock pastBlock 0 1 zap s.

(** ** Allocation *)

(** The first list with a block, from [retBits], or [retBits = numSizes]. *)
Fixpoint find_list (n : nat) (retBits : Z) (lists : Z -> Z) : Z :=
  match n with
  | O => retBits
  | S n => if negb (lists retBits =? OURNULL) then retBits else find_list n (retBits + 1) lists
  end.

(** The result, and the address where [newStore] is not null. *)
Definition BuddyMalloc (bits : Z) (newStore : bool) s : IOReturn * option Z * CEsvga2Allocator :=
  if negb newStore then (kIOReturnBadArgument, None, s)
  else if s.(freeBytes) <? pool_shl (bits + s.(minBits)) then (kIOReturnNoMemory, None, s)
  else
    let retBits := find_list (Z.to_nat (s.(numSizes) - bits)) bits s.(freeList) in
    if s.(numSizes) <=? retBits then (kIOReturnNoMemory, None, s)
    else
      let offset := s.(freeList) retBits in
      let ptr := at_block s offset in
      let pastPtr := ptr + pool_shl (retBits + s.(minBits)) / 4 in
      let nextOffset := s.(pool) (ptr + OFF_NEXT) in
      let nextPtr := at_block s nextOffset in
      if s.(poolBlocks) <=? offset then (kIOReturnInternalError, None, s)
      else if negb (s.(pool) (ptr + OFF_MAGIC) =? MAGIC) then (kIOReturnInternalError, None, s)
      else if negb (s.(pool) (ptr + OFF_PREV) =? OURNULL) then (kIOReturnInternalError, None, s)
      else if negb (s.(pool) (pastPtr + OFF_BITS) =? retBits + LEN_OFFSET)
      then (kIOReturnInternalError, None, s)
      else if negb (nextOffset =? OURNULL) && (s.(poolBlocks) <=? nextOffset)
      then (kIOReturnInternalError, None, s)
      else if negb (nextOffset =? OURNULL) &&
              (negb (s.(pool) (nextPtr + OFF_MAGIC) =? MAGIC) || negb (s.(pool) (nextPtr + OFF_PREV) =? offset))
      then (kIOReturnInternalError, None, s)
      else
        let s := if negb (nextOffset =? OURNULL) then store (nextPtr + OFF_PREV) OURNULL s else s in
        let s := with_list retBits nextOffset s in
        let past := u32 (offset + pool_shl bits) in
        let s := BITSET (past - 1) s in
        let s := with_bytes (u32 (s.(freeBytes) - pool_shl (retBits + s.(minBits)))) s in
        let s := toFree past (u32 (offset + pool_shl retBits)) false s in
        (kIOReturnSuccess, Some (s.(poolStart) + 4 * ptr), s).

(** The loop of [Malloc] for the size: [None] when it is too large. *)
Fixpoint size_bits (n : nat) (numSizes bits size bytes : Z) : option Z :=
  match n with
  | O => None
  | S n =>
      if bytes <=? size then Some bits
      else if numSizes <=? bits then None
      else
        let size := u64 (Z.shiftl size 1) in
        if size =? 0 then None else size_bits n numSizes (bits + 1) size bytes
  end.

(** The loop ends at [numSizes + 1] turns at the latest. *)
Definition Malloc (bytes : Z) (newStore : bool) s : IOReturn * option Z * CEsvga2Allocator :=
  if negb newStore then (kIOReturnBadArgument, None, s)
  else
    match size_bits (Z.to_nat (s.(numSizes) + 2)) s.(numSizes) 0 (u64 (Z.shiftl 1 s.(minBits))) bytes with
    | None => (kIOReturnNoResources, None, s)
    | Some bits => BuddyMalloc bits newStore s
    end.

(** ** Release *)

(** The size of the allocated area at a block; [n] bounds the sizes tried. *)
Fixpoint alloc_size (n : nat) (blockOff ourBits blocks : Z) s : option Z :=
  match n with
  | O => None
  | S n =>
      if (s.(poolBlocks) <? blockOff + blocks) || (s.(numSizes) <=? ourBits)
         || negb (Z.land blockOff (blocks - 1) =? 0) then None
      else if BITTEST s (blockOff + blocks - 1) then Some ourBits
      else alloc_size n blockOff (ourBits + 1) (Z.shiftl blocks 1) s
  end.

Definition BuddyAllocSize (storage : Z) s : IOReturn * option Z :=
  let byteOff := storage - s.(poolStart) in
  let blockOff := Z.shiftr byteOff s.(minBits) in
  if storage <? s.(poolStart) then (kIOReturnNotAligned, None)
  else if negb (byteOff =? Z.shiftl blockOff s.(minBits)) then (kIOReturnNotAligned, None)
  else if s.(poolBlocks) <=? blockOff then (kIOReturnNotAligned, None)
  else
    match alloc_size (Z.to_nat (s.(numSizes) + 1)) blockOff 0 1 s with
    | None => (kIOReturnNotAligned, None)
    | Some bits => (kIOReturnSuccess, Some bits)
    end.

(** Removing a block from the list of its size, with the checks of [Free]: [None]
    when one of them finds corruption. *)
Definition unlink_free (bits buddy : Z) s : option CEsvga2Allocator :=
  let buddyPtr := at_block s buddy in
  let prevOffset := s.(pool) (buddyPtr + OFF_PREV) in
  let nextOffset := s.(pool) (buddyPtr + OFF_NEXT) in
  let prevPtr := at_block s prevOffset in
  let nextPtr := at_block s nextOffset in
  let next_bad := negb (nextOffset =? OURNULL) &&
    ((s.(poolBlocks) <=? nextOffset) || negb (s.(pool) (nextPtr + OFF_MAGIC) =? MAGIC)
     || negb (s.(pool) (nextPtr + OFF_PREV) =? buddy)) in
  if prevOffset =? OURNULL then
    if next_bad then None
    else
      let s := if negb (nextOffset =? OURNULL) then store (nextPtr + OFF_PREV) OURNULL s else s in
      Some (with_list bits nextOffset s)
  else if (s.(poolBlocks) <=? prevOffset) || negb (s.(pool) (prevPtr + OFF_MAGIC) =? MAGIC)
          || negb (s.(pool) (prevPtr + OFF_NEXT) =? buddy) then None
  else if next_bad then None
  else
    let s := if negb (nextOffset =? OURNULL) then store (nextPtr + OFF_PREV) prevOffset s else s in
    Some (store (prevPtr + OFF_NEXT) nextOffset s).

(** The loop that merges with buddies, for [n = numSizes - 1 - bits] turns at most.
    Corruption ends it with the state reached. *)
Fixpoint merge (n : nat) (bits blockOff : Z) s : bool * Z * Z * CEsvga2Allocator :=
  match n with
  | O => (true, bits, blockOff, s)
  | S n =>
      let buddy := Z.lxor blockOff (pool_shl bits) in
      let pastBuddy := u32 (buddy + pool_shl bits) in
      if s.(poolBlocks) <? pastBuddy then (true, bits, blockOff, s)
      else if BITTEST s (pastBuddy - 1) then (true, bits, blockOff, s)
      else
        let pastPtr := at_block s pastBuddy in
        let trueBits := s32 (s.(pool) (pastPtr + OFF_BITS) - LEN_OFFSET) in
        if (trueBits <? 0) || (s.(numSizes) <=? trueBits) then (false, bits, blockOff, s)
        else if negb (trueBits =? bits) then (true, bits, blockOff, s)
        else
          let s := store (pastPtr + OFF_BITS) 0 s in
          let buddyPtr := at_block s buddy in
          if negb (s.(pool) (buddyPtr + OFF_MAGIC) =? MAGIC) then (false, bits, blockOff, s)
          else if s.(freeList) bits =? OURNULL then (false, bits, blockOff, s)
          else
            match unlink_free bits buddy s with
            | None => (false, bits, blockOff, s)
            | Some s =>
                let s := zero_words buddyPtr HEADER_LEN s in
                merge n (bits + 1) (if buddy <? blockOff then buddy else blockOff) s
            end
  end.

Definition Free (storage : Z) s : IOReturn * CEsvga2Allocator :=
  if storage =? 0 then (kIOReturnSuccess, s)
  else
    match BuddyAllocSize storage s with
    | (ret, None) => (ret, s)
    | (_, Some oldBits) =>
        let blocksHere := pool_shl oldBits in
        let blockOff := Z.shiftr (storage - s.(poolStart)) s.(minBits) in
        let s := BITCLEAR (blockOff + blocksHere - 1) s in
        match merge (Z.to_nat (s.(numSizes) - 1 - oldBits)) oldBits blockOff s with
        | (false, _, _, s) => (kIOReturnInternalError, s)
        | (true, bits, blockOff, s) =>
            let sptr := at_block s blockOff in
            let s := store (sptr + OFF_MAGIC) MAGIC s in
            let s := store (sptr + OFF_PREV) OURNULL s in
            let nextOffset := s.(freeList) bits in
            let nextPtr := at_block s nextOffset in
            if negb (nextOffset =? OURNULL) &&
               ((s.(poolBlocks) <=? nextOffset) || negb (s.(pool) (nextPtr + OFF_MAGIC) =? MAGIC)
                || negb (s.(pool) (nextPtr + OFF_PREV) =? OURNULL))
            then (kIOReturnInternalError, s)
            else
              let s := if negb (nextOffset =? OURNULL) then store (nextPtr + OFF_PREV) blockOff s else s in
              let s := store (sptr + OFF_NEXT) nextOffset s in
              let s := store (sptr + Z.shiftl 1 (s.(minBits) + bits) / 4 + OFF_BITS) (bits + LEN_OFFSET) s in
              let s := with_list bits blockOff s in
              (kIOReturnSuccess, with_bytes (u32 (s.(freeBytes) + pool_shl (oldBits + s.(minBits)))) s)
        end
    end.

(** ** Initialization *)

Definition ReleaseMap s :=
  if negb s.(map_allocated) then s
  else
    {| poolStart := s.(poolStart); poolBlocks := s.(poolBlocks); minBits := s.(minBits);
       numSizes := s.(numSizes); freeList := s.(freeList); map_allocated := false;
       map := s.(map); freeBytes := s.(freeBytes); pool := s.(pool) |}.

(** [mem_ok] tells whether the bitmap could be allocated. *)
Definition Init (startAddress bytes : Z) (mem_ok : bool) s : IOReturn * CEsvga2Allocator :=
  if negb (Z.land startAddress (2 ^ 12 - 1) =? 0) then (kIOReturnBadArgument, s)
  else if negb (bytes =? u32 bytes) then (kIOReturnBadArgument, s)
  else
    let s := ReleaseMap s in
    let setBits := Z.shiftr bytes 12 in
    let s' := {| poolStart := startAddress; poolBlocks := u32 setBits; minBits := 12; numSizes := 13;
                 freeList := s.(freeList); map_allocated := mem_ok; map := s.(map);
                 freeBytes := s.(freeBytes); pool := s.(pool) |} in
    if negb mem_ok then (kIOReturnNoMemory, s')
    else
      (kIOReturnSuccess,
       {| poolStart := startAddress; poolBlocks := u32 setBits; minBits := 12; numSizes := 13;
          freeList := fun i => if (0 <=? i) && (i <? 13) then OURNULL else s.(freeList) i;
          map_allocated := true;
          map := fun i => if (0 <=? i) && (i <? Z.shiftr (setBits + 7) 3) then 0xFF else s.(map) i;
          freeBytes := 0; pool := s.(pool) |}).

Definition Rebase (newStartAddress : Z) s : IOReturn * CEsvga2Allocator :=
  if negb (Z.land newStartAddress (Z.shiftl 1 s.(minBits) - 1) =? 0) then (kIOReturnBadArgument, s)
  else
    (kIOReturnSuccess,
     {| poolStart := newStartAddress; poolBlocks := s.(poolBlocks); minBits := s.(minBits);
        numSizes := s.(numSizes); freeList := s.(freeList); map_allocated := s.(map_allocated);
        map := s.(map); freeBytes := s.(freeBytes); pool := s.(pool) |}).

Definition Release (startOffsetBytes endOffsetBytes : Z) s : IOReturn * CEsvga2Allocator :=
  if negb (Z.land startOffsetBytes (Z.shiftl 1 s.(minBits) - 1) =? 0) then (kIOReturnBadArgument, s)
  else if negb (Z.land endOffsetBytes (Z.shiftl 1 s.(minBits) - 1) =? 0) then (kIOReturnBadArgument, s)
  else
    let startBlock := Z.shiftr startOffsetBytes s.(minBits) in
    let pastBlockOff := Z.shiftr endOffsetBytes s.(minBits) in
    if (s.(poolBlocks) <=? startBlock) || (s.(poolBlocks) <? pastBlockOff) then (kIOReturnBadArgument, s)
    else
      match clearCheck startBlock pastBlockOff s with
      | (kIOReturnSuccess, s) => (kIOReturnSuccess, toFree (u32 startBlock) (u32 pastBlockOff) false s)
      | (ret, s) => (ret, s)
      end.

(** [for (canBits = minBits; (1UL << canBits) < size; ++canBits)]; a size of 64
    bits is reached in 52 turns from 4096. *)
Fixpoint can_bits (n : nat) (canBits size : Z) : Z :=
  match n with
  | O => canBits
  | S n => if u64 (Z.shiftl 1 canBits) <? size then can_bits n (canBits + 1) size else canBits
  end.

(** [memcpy] of words from one block of the pool to another. *)
Definition copy_words (dst src n : Z) s :=
  with_pool (write_words s.(pool) dst (read_words s.(pool) src n)) s.

Definition Realloc (ptr size : Z) (newPtr : bool) s : IOReturn * option Z * CEsvga2Allocator :=
  if size =? 0 then let '(ret, s) := Free ptr s in (ret, None, s)
  else if ptr =? 0 then Malloc size newPtr s
  else
    match BuddyAllocSize ptr s with
    | (ret, None) => (ret, None, s)
    | (_, Some bits) =>
        let lg2Bytes := bits + s.(minBits) in
        if u64 (Z.shiftl 1 lg2Bytes) <? size then
          match Malloc size newPtr s with
          | (kIOReturnSuccess, Some p, s) =>
              let s := copy_words ((p - s.(poolStart)) / 4) ((ptr - s.(poolStart)) / 4)
                         (Z.shiftl 1 lg2Bytes / 4) s in
              match Free ptr s with
              | (kIOReturnSuccess, s) => (kIOReturnSuccess, Some p, s)
              | (error, s) => let '(_, s) := Free p s in (error, Some p, s)
              end
          | (error, p, s) => (error, p, s)
          end
        else
          let canBits := can_bits 52 s.(minBits) size in
          if lg2Bytes <=? canBits then (kIOReturnSuccess, Some ptr, s)
          else
            let oldBlocks := pool_shl bits in
            let newBlocks := pool_shl (canBits - s.(minBits)) in
            let blockNo := u32 (Z.shiftr (ptr - s.(poolStart)) s.(minBits)) in
            let s := BITSET (blockNo + newBlocks - 1) s in
            let s := BITCLEAR (blockNo + oldBlocks - 1) s in
            (kIOReturnSuccess, Some ptr, toFree (blockNo + newBlocks) (blockNo + oldBlocks) false s)
    end.

Definition Available (bytesFree : bool) s : IOReturn * option Z :=
  if negb bytesFree then (kIOReturnBadArgument, None) else (kIOReturnSuccess, Some s.(freeBytes)).

(** ** Checking *)

(** One free list: [None] is corruption, or the number of blocks and whether the
    list ended. *)
Fixpoint check_list (n : nat) (size offset prevOffset blocksSeen maxBlocks : Z) s : option (Z * Z) :=
  match n with
  | O => Some (offset, blocksSeen)
  | S n =>
      if (offset =? OURNULL) || (maxBlocks <=? blocksSeen) then Some (offset, blocksSeen)
      else if s.(poolBlocks) <=? offset then None
      else if testAny s offset (u32 (offset + pool_shl size)) then None
      else
        let ptr := at_block s offset in
        let pastPtr := ptr + pool_shl (s.(minBits) + size) / 4 in
        if negb (s.(pool) (ptr + OFF_MAGIC) =? MAGIC) then None
        else if negb (s.(pool) (ptr + OFF_PREV) =? prevOffset) then None
        else if negb (s.(pool) (pastPtr + OFF_BITS) =? size + LEN_OFFSET) then None
        else check_list n size (s.(pool) (ptr + OFF_NEXT)) offset (blocksSeen + 1) maxBlocks s
  end.

(** The lists of [sizes], with the blocks seen before; the counts of each list. *)
Fixpoint check_lists (sizes : list Z) (seenStore : Z) s : option (list Z * Z) :=
  match sizes with
  | [] => Some ([], seenStore)
  | size :: sizes =>
      let maxBlocks := Z.shiftr s.(poolBlocks) size in
      '(offset, blocksSeen) ←
        check_list (S (Z.to_nat maxBlocks)) size (s.(freeList) size) OURNULL 0 maxBlocks s;
      if negb (offset =? OURNULL) then None
      else
        '(counts, seenStore) ← check_lists sizes (u32 (seenStore + blocksSeen * pool_shl size)) s;
        Some (blocksSeen :: counts, seenStore)
  end.

(** The counts are reported on success; those of the lists before a corrupt one are
    not. *)
Definition Check s : IOReturn * list Z :=
  match check_lists (seqZ 0 s.(numSizes)) 0 s with
  | None => (kIOReturnInternalError, [])
  | Some (counts, seenStore) =>
      if negb (u32 (Z.shiftl seenStore s.(minBits)) =? s.(freeBytes)) then (kIOReturnInternalError, [])
      else (kIOReturnSuccess, counts)
  end.
