(* ===== verification/AllocatorBits.v ===== *)
(** The bitmap of the allocator: the routines on ranges of bits against their
    meaning bit by bit. *)

From stdpp Require Import list.
From S2P Require Import Prelude Allocator.

#[local] Open Scope Z_scope.

Implicit Types (s : CEsvga2Allocator).

(** ** Single bits *)

Lemma land_7 n : Z.land n 7 = n mod 8.
Proof. change 7 with (Z.ones 3). by rewrite Z.land_ones. Qed.

Lemma shiftr_3 n : Z.shiftr n 3 = n / 8.
Proof. by rewrite Z.shiftr_div_pow2. Qed.

Lemma bit_mask n : Z.shiftr 128 (Z.land n 7) = 2 ^ (7 - n mod 8).
Proof.
  rewrite land_7. pose proof (Z.mod_pos_bound n 8 ltac:(lia)) as Hr.
  change 128 with (2 ^ 7). rewrite Z.shiftr_div_pow2, <-Z.pow_sub_r by lia. done.
Qed.

Lemma BITTEST_bit s n : BITTEST s n = Z.testbit (s.(map) (n / 8)) (7 - n mod 8).
Proof.
  pose proof (Z.mod_pos_bound n 8 ltac:(lia)). unfold BITTEST.
  rewrite bit_mask, shiftr_3, has_bits_pow2 by lia. done.
Qed.

Lemma bit_eqb k n : ((k / 8 =? n / 8) && (7 - n mod 8 =? 7 - k mod 8)) = (k =? n).
Proof.
  pose proof (Z.div_mod k 8 ltac:(lia)). pose proof (Z.div_mod n 8 ltac:(lia)).
  destruct (Z.eqb_spec (k / 8) (n / 8)), (Z.eqb_spec (7 - n mod 8) (7 - k mod 8)), (Z.eqb_spec k n);
    cbn [andb]; subst; try done; lia.
Qed.

Lemma BITTEST_set s n k : BITTEST (BITSET n s) k = (k =? n) || BITTEST s k.
Proof.
  rewrite !BITTEST_bit, <-bit_eqb. unfold BITSET. cbn [map with_map]. rewrite bit_mask, shiftr_3. unfold upd.
  pose proof (Z.mod_pos_bound n 8 ltac:(lia)). pose proof (Z.mod_pos_bound k 8 ltac:(lia)).
  destruct (Z.eqb_spec (k / 8) (n / 8)) as [->|]; cbn [andb]; [|done].
  rewrite Z.lor_spec, Z.pow2_bits_eqb by lia. apply orb_comm.
Qed.

Lemma BITTEST_clear s n k : BITTEST (BITCLEAR n s) k = negb (k =? n) && BITTEST s k.
Proof.
  rewrite !BITTEST_bit, <-bit_eqb. unfold BITCLEAR. cbn [map with_map]. rewrite bit_mask, shiftr_3. unfold upd.
  pose proof (Z.mod_pos_bound n 8 ltac:(lia)). pose proof (Z.mod_pos_bound k 8 ltac:(lia)).
  destruct (Z.eqb_spec (k / 8) (n / 8)) as [->|]; cbn [andb negb]; [|done].
  rewrite Z.ldiff_spec, Z.pow2_bits_eqb by lia. apply andb_comm.
Qed.

(** ** Ranges *)

Definition between (a b k : Z) : bool := (a <=? k) && (k <? b).

Lemma BITTEST_clear_bits k : forall n a s,
  BITTEST (clear_bits (seqZ a (Z.of_nat n)) s) k = negb (between a (a + Z.of_nat n) k) && BITTEST s k.
Proof.
  induction n as [|n IH]; intros a s.
  - unfold between. replace (a + Z.of_nat 0) with a by lia. zcase.
  - rewrite seqZ_cons by lia. replace (Z.pred (Z.of_nat (S n))) with (Z.of_nat n) by lia.
    cbn [clear_bits foldl]. fold (clear_bits (seqZ (Z.succ a) (Z.of_nat n)) (BITCLEAR a s)).
    rewrite IH, BITTEST_clear. unfold between.
    destruct (BITTEST s k); rewrite ?andb_false_r, ?andb_true_r; [|done]. zcase.
Qed.

Lemma BITTEST_clear_range s a b k :
  BITTEST (clear_bits (seqZ a (b - a)) s) k = negb (between a b k) && BITTEST s k.
Proof.
  destruct (Z.le_gt_cases a b) as [Hle|Hgt].
  - replace (b - a) with (Z.of_nat (Z.to_nat (b - a))) by lia. rewrite BITTEST_clear_bits.
    by replace (a + Z.of_nat (Z.to_nat (b - a))) with b by lia.
  - unfold seqZ. rewrite Z2Nat.nonpos by lia. cbn. unfold between. zcase.
Qed.

Lemma BITTEST_zero_bytes s x y k :
  BITTEST (zero_bytes x (y - x) s) k = negb (between (8 * x) (8 * y) k) && BITTEST s k.
Proof.
  rewrite !BITTEST_bit. unfold zero_bytes, between. cbn [map with_map].
  pose proof (Z.div_mod k 8 ltac:(lia)). pose proof (Z.mod_pos_bound k 8 ltac:(lia)).
  replace (x + (y - x)) with y by lia.
  destruct (Z.leb_spec x (k / 8)), (Z.ltb_spec (k / 8) y), (Z.leb_spec (8 * x) k), (Z.ltb_spec k (8 * y));
    cbn [andb negb]; try lia; try done. apply Z.testbit_0_l.
Qed.

(** The byte boundaries that the routines use. *)
Lemma ldiff_7 n : Z.ldiff n 7 = 8 * (n / 8).
Proof. change 7 with (Z.ones 3). rewrite Z.ldiff_ones_r, Z.shiftl_mul_pow2, Z.shiftr_div_pow2 by lia. change (2 ^ 3) with 8. lia. Qed.

Lemma first_full_spec a : exists x, first_full a = 8 * x /\ a <= 8 * x < a + 8 /\ Z.shiftr (first_full a) 3 = x.
Proof.
  exists ((a + 7) / 8). unfold first_full. rewrite ldiff_7, shiftr_3.
  rewrite (Z.mul_comm 8), Z.div_mul by lia.
  pose proof (Z.div_mod (a + 7) 8 ltac:(lia)). pose proof (Z.mod_pos_bound (a + 7) 8 ltac:(lia)). lia.
Qed.

Lemma past_full_spec b : exists y, past_full b = 8 * y /\ 8 * y <= b < 8 * y + 8.
Proof.
  exists (b / 8). unfold past_full. rewrite ldiff_7.
  pose proof (Z.div_mod b 8 ltac:(lia)). pose proof (Z.mod_pos_bound b 8 ltac:(lia)). lia.
Qed.

Lemma shiftr_diff x y : Z.shiftr (8 * y - 8 * x) 3 = y - x.
Proof. rewrite shiftr_3. replace (8 * y - 8 * x) with ((y - x) * 8) by lia. apply Z.div_mul. lia. Qed.

Lemma clearAll_bits s a b k : BITTEST (clearAll a b s) k = negb (between a b k) && BITTEST s k.
Proof.
  unfold clearAll. destruct (first_full_spec a) as (x & -> & Hx & Ex). rewrite (shiftr_3 (8 * x)) in *.
  destruct (past_full_spec b) as (y & -> & Hy). rewrite BITTEST_clear_range.
  replace (8 * x / 8) with x by (rewrite (Z.mul_comm 8), Z.div_mul; lia). rewrite shiftr_diff.
  destruct (Z.ltb_spec (8 * x) (8 * y)); rewrite ?BITTEST_zero_bytes, BITTEST_clear_range;
    destruct (BITTEST s k); rewrite ?andb_false_r, ?andb_true_r; try done; unfold between;
    zcase.
Qed.

Lemma clearAll_fields s a b : exists f, clearAll a b s = with_map f s.
Proof.
  assert (Hc : forall l s, exists f, clear_bits l s = with_map f s).
  { induction l as [|i l IH]; intros s0; [exists s0.(map); by destruct s0|].
    cbn [clear_bits foldl]. destruct (IH (BITCLEAR i s0)) as [f E]. exists f. exact E. }
  unfold clearAll. destruct (Hc (seqZ a ((if first_full a <? b then first_full a else b) - a)) s) as [f ->].
  destruct (first_full a <? past_full b);
    match goal with |- context [clear_bits ?l ?s0] => destruct (Hc l s0) as [g ->] end; by exists g.
Qed.

(** ** Tests of ranges *)

Lemma repe_scasb_spec mem al : forall n p,
  (repe_scasb n mem p al =? 0) = forallb (fun i => mem i =? al) (seqZ p (Z.of_nat n - 1)).
Proof.
  induction n as [|n IH]; intros p; [done|]. cbn [repe_scasb].
  replace (Z.of_nat (S n) - 1) with (Z.of_nat n) by lia.
  destruct n as [|n].
  - cbn. by destruct (mem p =? al).
  - rewrite seqZ_cons by lia. cbn [forallb]. destruct (mem p =? al); [|done]. cbn [andb].
    rewrite IH. unfold Z.succ. by replace (Z.of_nat (S n) - 1) with (Z.pred (Z.of_nat (S n))) by lia.
Qed.

(** The bytes of the bitmap are bytes. *)
Definition bytes_ok s : Prop := forall i, 0 <= i < Z.shiftr (s.(poolBlocks) + 7) 3 -> fits 8 (s.(map) i).

Lemma byte_bits w (c : bool) :
  fits 8 w -> (forall j, 0 <= j < 8 -> Z.testbit w j = c) -> w = if c then 0xFF else 0.
Proof.
  intros Hw Hc. apply Z.bits_inj'. intros j Hj. destruct (Z.lt_ge_cases j 8) as [Hlt|Hge].
  - rewrite Hc by lia. destruct c; [|by rewrite Z.testbit_0_l].
    change 0xFF with (Z.ones 8). by rewrite Z.ones_spec_low.
  - replace (Z.testbit w j) with false.
    + destruct c; [|by rewrite Z.testbit_0_l]. change 0xFF with (Z.ones 8).
      by rewrite Z.ones_spec_high by lia.
    + symmetry. rewrite <-(wrap_small 8 w Hw). unfold wrap. apply Z.mod_pow2_bits_high. lia.
Qed.

(** A whole byte of equal bits. *)
Lemma map_byte s i (c : bool) :
  fits 8 (s.(map) i) -> (forall k, 8 * i <= k < 8 * i + 8 -> BITTEST s k = c) ->
  s.(map) i = if c then 0xFF else 0.
Proof.
  intros Hb Hc. apply byte_bits; [done|]. intros j Hj. specialize (Hc (8 * i + (7 - j)) ltac:(lia)).
  rewrite BITTEST_bit in Hc. rewrite <-Hc.
  replace ((8 * i + (7 - j)) / 8) with i by (apply (Z.div_unique _ 8 i (7 - j)); lia).
  replace ((8 * i + (7 - j)) mod 8) with (7 - j) by (apply (Z.mod_unique _ 8 i); lia).
  f_equal. lia.
Qed.

Lemma mem_scan s x y (c : bool) :
  (forall k, 8 * x <= k < 8 * y -> BITTEST s k = c) -> (forall i, x <= i < y -> fits 8 (s.(map) i)) ->
  x < y -> (repe_scasb (Z.to_nat (y - x)) s.(map) x (if c then 0xFF else 0) =? 0) = true.
Proof.
  intros Hk Hb Hlt. rewrite repe_scasb_spec. apply forallb_forall. intros i Hi%list_elem_of_In.
  apply elem_of_seqZ in Hi. apply Z.eqb_eq, map_byte; [apply Hb; lia|].
  intros k Hr. apply Hk. lia.
Qed.

Lemma range_bytes s a b i :
  0 <= a -> b <= s.(poolBlocks) -> bytes_ok s -> a <= 8 * i -> 8 * i + 8 <= b -> fits 8 (s.(map) i).
Proof.
  intros Ha Hb Hok H1 H2. apply Hok. rewrite shiftr_3. split; [lia|].
  apply Z.lt_le_trans with (i + 1); [lia|]. apply Z.div_le_lower_bound; lia.
Qed.

Lemma testAll_true s a b :
  0 <= a -> b <= s.(poolBlocks) -> bytes_ok s ->
  (forall k, a <= k < b -> BITTEST s k = true) -> testAll s a b = true.
Proof.
  intros Ha Hb Hok Hk. unfold testAll.
  destruct (first_full_spec a) as (x & -> & Hx & _). destruct (past_full_spec b) as (y & -> & Hy).
  assert (Hf : forall c d, a <= c \/ d <= c -> d <= b -> forallb (BITTEST s) (seqZ c (d - c)) = true).
  { intros c d Hc Hd. apply forallb_forall. intros k Hin%list_elem_of_In. apply elem_of_seqZ in Hin.
    apply Hk. lia. }
  rewrite Hf by zcase. cbn [negb].
  rewrite shiftr_diff, (shiftr_3 (8 * x)). replace (8 * x / 8) with x by (rewrite (Z.mul_comm 8), Z.div_mul; lia).
  destruct (Z.ltb_spec (8 * x) (8 * y)); cbn [andb]; [|apply Hf; [zcase|lia]].
  unfold memAll. rewrite (proj2 (Z.eqb_neq _ _)) by lia.
  rewrite (mem_scan s x y true); [|intros; apply Hk; lia| |lia].
  - cbn [negb]. apply Hf; [zcase|lia].
  - intros i Hi. apply (range_bytes s a b); try done; lia.
Qed.

Lemma testAny_false s a b :
  0 <= a -> b <= s.(poolBlocks) -> bytes_ok s ->
  (forall k, a <= k < b -> BITTEST s k = false) -> testAny s a b = false.
Proof.
  intros Ha Hb Hok Hk. unfold testAny.
  destruct (first_full_spec a) as (x & -> & Hx & _). destruct (past_full_spec b) as (y & -> & Hy).
  assert (Hf : forall c d, a <= c \/ d <= c -> d <= b -> existsb (BITTEST s) (seqZ c (d - c)) = false).
  { intros c d Hc Hd. apply not_true_iff_false. intros (k & Hin%list_elem_of_In & E)%existsb_exists.
    apply elem_of_seqZ in Hin. by rewrite Hk in E by lia. }
  rewrite Hf by zcase.
  rewrite shiftr_diff, (shiftr_3 (8 * x)). replace (8 * x / 8) with x by (rewrite (Z.mul_comm 8), Z.div_mul; lia).
  destruct (Z.ltb_spec (8 * x) (8 * y)); cbn [andb]; [|apply Hf; [zcase|lia]].
  unfold memAny. rewrite (proj2 (Z.eqb_neq _ _)) by lia.
  rewrite (mem_scan s x y false); [|intros; apply Hk; lia| |lia].
  - cbn [negb]. apply Hf; [zcase|lia].
  - intros i Hi. apply (range_bytes s a b); try done; lia.
Qed.

(** The tests of whole bytes do not look at the last byte: the scan leaves the
    count at zero both when all bytes agree and when only the last one differs. On
    a range of whole bytes [testAll] answers that all bits are set exactly when
    all bytes but the last are all ones. *)
Theorem testAll_ignores_last_byte s x y :
  x < y -> testAll s (8 * x) (8 * y) = forallb (fun i => s.(map) i =? 0xFF) (seqZ x (y - x - 1)).
Proof.
  intros Hlt. unfold testAll.
  destruct (first_full_spec (8 * x)) as (x' & -> & Hx & _). replace x' with x by lia.
  destruct (past_full_spec (8 * y)) as (y' & -> & Hy). replace y' with y by lia.
  rewrite (proj2 (Z.ltb_lt (8 * x) (8 * y))) by lia. rewrite Z.sub_diag. cbn [seqZ forallb negb andb].
  change (forallb (BITTEST s) (seqZ (8 * x) 0)) with true. cbn [negb].
  rewrite shiftr_diff, (shiftr_3 (8 * x)). replace (8 * x / 8) with x by (rewrite (Z.mul_comm 8), Z.div_mul; lia).
  unfold memAll. rewrite (proj2 (Z.eqb_neq _ _)) by lia. rewrite repe_scasb_spec, Z2Nat.id by lia.
  rewrite (proj2 (Z.ltb_ge (8 * y) (8 * x))) by lia. rewrite Z.sub_diag.
  change (forallb (BITTEST s) (seqZ (8 * y) 0)) with true. by destruct (forallb _ _).
Qed.

(** Two bytes of which the second is clear. *)
Lemma testAll_ignores_last_byte_witness :
  let s := {| poolStart := 0; poolBlocks := 16; minBits := 12; numSizes := 13; freeList := fun _ => OURNULL;
              map_allocated := true; map := fun i => if i =? 0 then 0xFF else 0; freeBytes := 0; pool := fun _ => 0 |} in
  testAll s (8 * 0) (8 * 2) = forallb (fun i => s.(map) i =? 0xFF) (seqZ 0 (2 - 0 - 1)) /\
  testAll s 0 16 = true /\ BITTEST s 8 = false.
Proof. intros s. split; [apply (testAll_ignores_last_byte s 0 2); lia|done]. Defined.
