(* ===== verification/AllocatorLists.v ===== *)
(** The free lists of the allocator in memory: which blocks they hold, that the
    blocks do not overlap, and how making and unlinking a free block changes them. *)

From S2P Require Import Prelude Dll Allocator AllocatorBits.
From stdpp Require Import list.

#[local] Open Scope Z_scope.

Implicit Types (s : CEsvga2Allocator) (F : Z -> list Z).

(** The value that ends a free list. *)
#[local] Abbreviation first := (first OURNULL).
#[local] Abbreviation final := (final OURNULL).
#[local] Abbreviation dll := (dll OURNULL).

(** ** Blocks and the cells they cover *)

(** A size that the allocator has. *)
Definition size_ok (b : Z) : Prop := 0 <= b < 13.

Definition area (o b : Z) : list Z := seqZ o (2 ^ b).

(** The blocks of one size, and of all sizes, by the contents of the lists. *)
Definition areas (b : Z) (l : list Z) : list Z := l ≫= fun o => area o b.
Definition cells F : list Z := seqZ 0 13 ≫= fun b => areas b (F b).

Lemma elem_of_area n o b : 0 <= b -> n ∈ area o b <-> o <= n < o + 2 ^ b.
Proof. intros Hb. unfold area. rewrite elem_of_seqZ. pose proof (Z.pow_nonneg 2 b). lia. Qed.

Lemma area_start o b : 0 <= b -> o ∈ area o b.
Proof. intros Hb. apply elem_of_area; [done|]. pose proof (Z.pow_pos_nonneg 2 b). lia. Qed.

Lemma length_area o b : 0 <= b -> Z.of_nat (length (area o b)) = 2 ^ b.
Proof. intros Hb. unfold area. rewrite length_seqZ. pose proof (Z.pow_nonneg 2 b). lia. Qed.

Lemma elem_of_cells n F : n ∈ cells F <-> exists b o, size_ok b /\ o ∈ F b /\ n ∈ area o b.
Proof.
  unfold cells, areas. rewrite list_elem_of_bind. split.
  - intros (b & (o & Hn & Ho)%list_elem_of_bind & Hb%elem_of_seqZ). exists b, o. split; [|done].
    unfold size_ok. lia.
  - intros (b & o & Hb & Ho & Hn). exists b. rewrite list_elem_of_bind, elem_of_seqZ. unfold size_ok in Hb.
    split; [by exists o|lia].
Qed.

Lemma cells_ext F F' : (forall b, size_ok b -> F b = F' b) -> cells F = cells F'.
Proof.
  intros E. unfold cells.
  assert (Hs : forall b, b ∈ seqZ 0 13 -> F b = F' b) by (intros b Hb%elem_of_seqZ; apply E; unfold size_ok; lia).
  revert Hs. generalize (seqZ 0 13). induction l as [|b l IH]; intros Hs; [done|]. cbn.
  rewrite (Hs b) by left. f_equal. apply IH. intros b' Hb'. apply Hs. by right.
Qed.

(** The lists with one of them taken out. *)
Lemma cells_split F b l : size_ok b -> cells (upd F b l) ≡ₚ areas b l ++ cells (upd F b []).
Proof.
  intros Hb. unfold cells.
  assert (Es : seqZ 0 13 = seqZ 0 b ++ b :: seqZ (b + 1) (12 - b)).
  { replace 13 with (b + (13 - b)) by lia. unfold size_ok in Hb. rewrite seqZ_app by lia. f_equal.
    rewrite seqZ_cons by lia. f_equal. unfold Z.succ. f_equal; lia. }
  assert (Ho : forall l' l0, (b ∉ l0) ->
    (l0 ≫= fun b' => areas b' (upd F b l' b')) = (l0 ≫= fun b' => areas b' (F b'))).
  { intros l' l0. induction l0 as [|b' l0 IH]; intros Hn; [done|]. apply not_elem_of_cons in Hn as [Hne Hn].
    cbn. by rewrite upd_ne, IH by done. }
  rewrite Es, !bind_app, !bind_cons, !upd_eq, !Ho by (rewrite elem_of_seqZ; lia).
  change (areas b []) with (@nil Z). rewrite app_nil_l. by rewrite Permutation_app_swap_app.
Qed.

Lemma cells_upd F b l : size_ok b -> F b = l -> cells F = cells (upd F b l).
Proof.
  intros Hb E. apply cells_ext. intros b' _. unfold upd. destruct (Z.eqb_spec b' b) as [->|]; done.
Qed.

Lemma upd_upd_cells F b l l' : cells (upd (upd F b l) b l') = cells (upd F b l').
Proof. apply cells_ext. intros b' _. unfold upd. by destruct (b' =? b). Qed.

Lemma cells_push F b o : size_ok b -> cells (upd F b (o :: F b)) ≡ₚ area o b ++ cells F.
Proof.
  intros Hb. rewrite (cells_split F b (o :: F b)) by done. rewrite (cells_upd F b (F b)) by done.
  rewrite (cells_split F b (F b)) by done. unfold areas. rewrite bind_cons. by rewrite <-app_assoc.
Qed.

Lemma cells_remove F b l1 o l2 :
  size_ok b -> F b = l1 ++ o :: l2 -> cells F ≡ₚ area o b ++ cells (upd F b (l1 ++ l2)).
Proof.
  intros Hb E. rewrite (cells_upd F b _ Hb E). rewrite (cells_split F b (l1 ++ o :: l2)) by done.
  rewrite (cells_split F b (l1 ++ l2)) by done. unfold areas. rewrite !bind_app, bind_cons.
  rewrite <-!app_assoc. by rewrite Permutation_app_swap_app.
Qed.

(** ** The shape of the free store *)

Record shape (P : Z) F : Prop := {
  shape_nodup : NoDup (cells F);
  shape_range n : n ∈ cells F -> 0 <= n < P;
  shape_aligned b o : size_ok b -> o ∈ F b -> o mod 2 ^ b = 0;
}.

(** Two free blocks that share a cell are the same. *)
Lemma cell_unique P F b o b' o' n :
  shape P F -> size_ok b -> size_ok b' -> o ∈ F b -> o' ∈ F b' -> n ∈ area o b -> n ∈ area o' b' ->
  o = o' /\ b = b'.
Proof.
  intros [Hn _ _] Hb Hb' (l1 & l2 & E)%list_elem_of_split Ho' Hnb Hnb'.
  rewrite (cells_remove F b l1 o l2 Hb E) in Hn. apply NoDup_app in Hn as (_ & Hd & _).
  destruct (decide (o = o' /\ b = b')) as [|Hne]; [done|]. destruct (Hd n Hnb).
  apply elem_of_cells. exists b', o'. split; [done|]. split; [|done]. unfold upd.
  destruct (Z.eqb_spec b' b) as [->|]; [|done]. rewrite E in Ho'. rewrite elem_of_app, elem_of_cons in *.
  destruct Ho' as [?|[->|?]]; [by left| |by right]. by destruct Hne.
Qed.

Lemma start_unique P F b o b' : shape P F -> size_ok b -> size_ok b' -> o ∈ F b -> o ∈ F b' -> b = b'.
Proof.
  intros Hs Hb Hb' Ho Ho'. eapply (cell_unique P F b o b' o o); try done; apply area_start; unfold size_ok in *; lia.
Qed.

Lemma block_range P F b o : shape P F -> size_ok b -> o ∈ F b -> 0 <= o /\ o + 2 ^ b <= P.
Proof.
  intros [_ Hr _] Hb Ho. unfold size_ok in *. pose proof (Z.pow_pos_nonneg 2 b ltac:(lia) ltac:(lia)).
  assert (H1 : o ∈ cells F) by (apply elem_of_cells; exists b, o; split; [done|split; [done|apply area_start; lia]]).
  assert (H2 : o + 2 ^ b - 1 ∈ cells F).
  { apply elem_of_cells. exists b, o. split; [done|]. split; [done|]. apply elem_of_area; lia. }
  apply Hr in H1, H2. lia.
Qed.

(** Free bytes never exceed the pool. *)
Lemma cells_bound P F : shape P F -> Z.of_nat (length (cells F)) <= Z.max 0 P.
Proof.
  intros [Hn Hr _]. assert (Hs : cells F ⊆+ seqZ 0 P).
  { apply NoDup_submseteq; [done|]. intros n Hin%Hr. apply elem_of_seqZ. lia. }
  apply submseteq_length in Hs. rewrite length_seqZ in Hs. lia.
Qed.

(** ** The lists in memory *)

Record params s : Prop := {
  par_minBits : s.(minBits) = 12;
  par_numSizes : s.(numSizes) = 13;
  par_blocks : 0 <= s.(poolBlocks) < 2 ^ 20;
}.

Lemma at_block_eq s o : params s -> 0 <= o <= 2 ^ 20 - 1 -> at_block s o = 1024 * o.
Proof.
  intros [Hm _ _] Ho. unfold at_block. rewrite Hm, Z.shiftl_mul_pow2, wrap_small by (try split; lia).
  change (2 ^ 12) with (1024 * 4). rewrite Z.mul_assoc, Z.div_mul by lia. lia.
Qed.

Lemma pool_shl_eq n : 0 <= n < 32 -> pool_shl n = 2 ^ n.
Proof.
  intros Hn. unfold pool_shl. rewrite Z.shiftl_1_l. apply wrap_small.
  split; [lia|]. apply Z.pow_lt_mono_r; lia.
Qed.

(** The words of a block of size [b]. *)
Lemma block_words b : size_ok b -> pool_shl (b + 12) / 4 = 1024 * 2 ^ b.
Proof.
  intros Hb. unfold size_ok in Hb. rewrite pool_shl_eq, Z.pow_add_r by lia.
  change (2 ^ 12) with (1024 * 4). rewrite Z.mul_assoc, Z.div_mul by lia. lia.
Qed.

Definition mem_links s : links := fun o => Some (s.(pool) (1024 * o + 2), s.(pool) (1024 * o + 1)).

Definition linked s F : Prop := forall b, size_ok b ->
  dll (mem_links s) (F b) /\ s.(freeList) b = first (F b).
Definition magic s F : Prop := forall b o, size_ok b -> o ∈ F b -> s.(pool) (1024 * o) = MAGIC.
Definition trailers s F : Prop := forall b o, size_ok b -> o ∈ F b ->
  s.(pool) (1024 * (o + 2 ^ b) - 1) = b + LEN_OFFSET.

(** Everything but the lists and the pool is as before. *)
Definition same_meta s s' : Prop :=
  s'.(poolStart) = s.(poolStart) /\ s'.(poolBlocks) = s.(poolBlocks) /\ s'.(minBits) = s.(minBits) /\
  s'.(numSizes) = s.(numSizes) /\ s'.(Allocator.map) = s.(Allocator.map) /\
  s'.(map_allocated) = s.(map_allocated).

(** Words outside the given blocks are as before. *)
Definition pool_frame (l : list Z) s s' : Prop := forall k, (k / 1024 ∉ l) -> s'.(pool) k = s.(pool) k.

Lemma same_meta_params s s' : same_meta s s' -> params s -> params s'.
Proof. intros (_ & E1 & E2 & E3 & _) [? ? ?]. split; congruence. Qed.

Lemma same_meta_trans s1 s2 s3 : same_meta s1 s2 -> same_meta s2 s3 -> same_meta s1 s3.
Proof. unfold same_meta. intuition congruence. Qed.

Lemma same_meta_BITTEST s s' k : same_meta s s' -> BITTEST s' k = BITTEST s k.
Proof. intros (_ & _ & _ & _ & E & _). unfold BITTEST. by rewrite E. Qed.

Lemma pool_frame_trans l s1 s2 s3 : pool_frame l s1 s2 -> pool_frame l s2 s3 -> pool_frame l s1 s3.
Proof. intros H1 H2 k Hk. by rewrite H2, H1. Qed.

Lemma pool_frame_weaken l l' s s' : pool_frame l s s' -> (forall n, n ∈ l -> n ∈ l') -> pool_frame l' s s'.
Proof. intros Hf Hl k Hk. apply Hf. intros ?%Hl. done. Qed.

(** A store that is made on a condition. *)
Lemma cond_store (c : bool) k v s : 
  let s' := if c then store k v s else s in
  same_meta s s' /\ s'.(freeList) = s.(freeList) /\ s'.(freeBytes) = s.(freeBytes) /\
  forall i, s'.(pool) i = if c && (i =? k) then v else s.(pool) i.
Proof. destruct c; by repeat split. Qed.

Lemma header_div o i : 0 <= i < 1024 -> (1024 * o + i) / 1024 = o.
Proof. intros Hi. symmetry. apply (Z.div_unique _ 1024 o i); lia. Qed.

(** ** Unlinking a block *)

Section unlink.
Context (s : CEsvga2Allocator) (F : Z -> list Z) (b o : Z) (l1 l2 : list Z).
Hypothesis Hp : params s.
Hypothesis Hsh : shape s.(poolBlocks) F.
Hypothesis Hl : linked s F.
Hypothesis Hm : magic s F.
Hypothesis Hb : size_ok b.
Hypothesis HF : F b = l1 ++ o :: l2.

Lemma in_list q : q ∈ l1 ++ l2 -> q ∈ F b.
Proof using HF. rewrite HF, !elem_of_app, elem_of_cons. tauto. Qed.

Lemma unlink_links : s.(pool) (1024 * o + 2) = first l2 /\ s.(pool) (1024 * o + 1) = final l1.
Proof using HF Hl Hb.
  destruct (Hl b Hb) as [(_ & _ & Hg) _]. specialize (Hg l1 o l2 HF). by injection Hg.
Qed.

Lemma list_offset q : q ∈ F b -> 0 <= q <= 2 ^ 20 - 1 /\ q < s.(poolBlocks).
Proof using Hp Hsh Hb.
  intros Hq. destruct (block_range _ _ _ _ Hsh Hb Hq). destruct Hp as [_ _ [? ?]].
  pose proof (Z.pow_pos_nonneg 2 b). unfold size_ok in Hb. lia.
Qed.

(** A neighbour is null, or a block of the list that points back. *)
Lemma next_ok : first l2 = OURNULL \/
  (first l2 ∈ F b /\ s.(pool) (1024 * first l2) = MAGIC /\ s.(pool) (1024 * first l2 + 1) = o).
Proof using HF Hl Hm Hb.
  destruct l2 as [|q l2']; [by left|]. right. change (Dll.first OURNULL (q :: l2')) with q.
  assert (Hq : q ∈ F b) by (rewrite HF, elem_of_app, !elem_of_cons; tauto).
  split; [done|]. split; [by apply (Hm b)|]. destruct (Hl b Hb) as [(_ & _ & Hg) _].
  specialize (Hg (l1 ++ [o]) q l2'). rewrite final_snoc in Hg.
  rewrite HF, <-app_assoc in Hg. specialize (Hg eq_refl). by injection Hg.
Qed.

Lemma prev_ok : final l1 = OURNULL /\ l1 = [] \/
  (final l1 <> OURNULL /\ l1 <> [] /\ final l1 ∈ F b /\
   s.(pool) (1024 * final l1) = MAGIC /\ s.(pool) (1024 * final l1 + 2) = o).
Proof using HF Hl Hm Hb.
  destruct l1 as [|q l1' _] using rev_ind; [by left|]. right. rewrite final_snoc.
  assert (Hq : q ∈ F b) by (rewrite HF, !elem_of_app, !elem_of_cons; tauto).
  destruct (Hl b Hb) as [(_ & Hn & Hg) _].
  split; [congruence|]. split; [by destruct l1'|]. split; [done|]. split; [by apply (Hm b)|].
  specialize (Hg l1' q (o :: l2)). rewrite HF, <-app_assoc in Hg. specialize (Hg eq_refl). by injection Hg.
Qed.

(** The words that unlinking changes. *)
Definition unlinked_pool (i : Z) : Z :=
  if negb (final l1 =? OURNULL) && (i =? 1024 * final l1 + 2) then first l2
  else if negb (first l2 =? OURNULL) && (i =? 1024 * first l2 + 1) then final l1
  else s.(pool) i.

Lemma unlink_free_eq : exists s', unlink_free b o s = Some s' /\ same_meta s s' /\
  s'.(freeBytes) = s.(freeBytes) /\ (forall i, s'.(pool) i = unlinked_pool i) /\
  (forall b', s'.(freeList) b' = if decide (l1 = [] /\ b' = b) then first l2 else s.(freeList) b').
Proof using Hp Hsh Hl Hm Hb HF.
  assert (Ho : 0 <= o <= 2 ^ 20 - 1 /\ o < s.(poolBlocks))
    by (apply list_offset; rewrite HF, elem_of_app, elem_of_cons; tauto).
  destruct unlink_links as [En Ev]. unfold unlink_free, OFF_PREV, OFF_NEXT, OFF_MAGIC.
  rewrite at_block_eq, En, Ev by (done || lia). rewrite !Z.add_0_r.
  set (bad := negb (first l2 =? OURNULL) && _).
  assert (Ebad : bad = false).
  { unfold bad. destruct next_ok as [->|(Hin & E1 & E2)]; [done|].
    destruct (list_offset _ Hin). rewrite at_block_eq, E1, E2, !Z.eqb_refl by (done || lia).
    rewrite (proj2 (Z.leb_gt _ _)) by lia. by rewrite andb_false_r. }
  rewrite Ebad.
  assert (Enext : forall v, 
    (if negb (first l2 =? OURNULL) then store (at_block s (first l2) + 1) v s else s) =
    (if negb (first l2 =? OURNULL) then store (1024 * first l2 + 1) v s else s)).
  { intros v. destruct next_ok as [->|(Hin & _)]; [done|]. destruct (list_offset _ Hin).
    by rewrite at_block_eq by (done || lia). }
  rewrite !Enext. unfold unlinked_pool.
  destruct prev_ok as [[-> ->]|(Hne & Hnil & Hin & E1 & E2)].
  - rewrite Z.eqb_refl. eexists. split; [reflexivity|].
    destruct (cond_store (negb (first l2 =? OURNULL)) (1024 * first l2 + 1) OURNULL s) as (M & L & B & E).
    split; [exact M|]. split; [exact B|]. split; [exact E|]. intros b'. cbn [freeList with_list].
    rewrite L. unfold upd. destruct (Z.eqb_spec b' b); [rewrite decide_True by done|rewrite decide_False by tauto]; done.
  - rewrite (proj2 (Z.eqb_neq _ _) Hne). destruct (list_offset _ Hin).
    rewrite at_block_eq, E1, E2, !Z.eqb_refl by (done || lia).
    rewrite (proj2 (Z.leb_gt _ _)) by lia. cbn [orb negb]. eexists. split; [reflexivity|].
    destruct (cond_store (negb (first l2 =? OURNULL)) (1024 * first l2 + 1) (final l1) s) as (M & L & B & E).
    split; [exact M|]. split; [exact B|]. cbn [freeList pool store with_pool]. rewrite L. split.
    + intros i. unfold upd. rewrite E. cbn [andb]. by destruct (i =? 1024 * final l1 + 2).
    + intros b'. by rewrite decide_False by tauto.
Qed.

(** The list without the block is well linked, and the others are untouched. *)
Lemma unlinked_linked s' :
  (forall i, s'.(pool) i = unlinked_pool i) ->
  (forall b', s'.(freeList) b' = if decide (l1 = [] /\ b' = b) then first l2 else s.(freeList) b') ->
  linked s' (upd F b (l1 ++ l2)).
Proof using Hp Hsh Hl Hm Hb HF.
  intros Epool Elist b' Hb'. unfold upd. rewrite Elist. destruct (Hl b Hb) as [Hd Hh].
  assert (Hlook : forall q, mem_links s' q =
    Some (if negb (final l1 =? OURNULL) && (q =? final l1) then first l2 else s.(pool) (1024 * q + 2),
          if negb (first l2 =? OURNULL) && (q =? first l2) then final l1 else s.(pool) (1024 * q + 1))).
  { intros q. unfold mem_links. rewrite !Epool. unfold unlinked_pool. f_equal. f_equal.
    - rewrite (proj2 (Z.eqb_neq (1024 * q + 2) (1024 * first l2 + 1))), andb_false_r by lia.
      replace (1024 * q + 2 =? 1024 * final l1 + 2) with (q =? final l1) by (zcase). done.
    - rewrite (proj2 (Z.eqb_neq (1024 * q + 1) (1024 * final l1 + 2))), andb_false_r by lia.
      replace (1024 * q + 1 =? 1024 * first l2 + 1) with (q =? first l2) by (zcase). done. }
  destruct (Z.eqb_spec b' b) as [->|Hne].
  - split.
    + rewrite HF in Hd. apply (dll_remove (mem_links s) _ l1 o l2 Hd). intros q n v Hq Eq.
      rewrite Hlook. unfold mem_links in Eq. injection Eq as <- <-.
      assert (Hqn : q <> OURNULL).
      { intros ->. destruct Hd as (_ & Hn & _). apply Hn. rewrite !elem_of_app, elem_of_cons in *. tauto. }
      f_equal. f_equal.
      * destruct (decide (q = final l1)) as [<-|Hq1]; [by rewrite (proj2 (Z.eqb_neq _ _) Hqn), Z.eqb_refl|].
        by rewrite (proj2 (Z.eqb_neq _ _) Hq1), andb_false_r.
      * destruct (decide (q = first l2)) as [<-|Hq2]; [by rewrite (proj2 (Z.eqb_neq _ _) Hqn), Z.eqb_refl|].
        by rewrite (proj2 (Z.eqb_neq _ _) Hq2), andb_false_r.
    + destruct (decide (l1 = [] /\ b = b)) as [[-> _]|Hn]; [done|]. rewrite Hh, HF.
      destruct l1; [|done]. by destruct Hn.
  - rewrite decide_False by tauto. destruct (Hl b' Hb') as [Hd' Hh']. split; [|done].
    apply (dll_ext (mem_links s)); [done|]. intros q Hq. rewrite Hlook. unfold mem_links.
    assert (Hnin : q ∉ F b) by (intros Hq'; by apply Hne, (start_unique _ _ _ q _ Hsh)).
    f_equal. f_equal.
    + destruct (Z.eqb_spec q (final l1)) as [->|]; [|by rewrite andb_false_r].
      destruct prev_ok as [[-> _]|(_ & _ & Hin & _)]; [done|by destruct Hnin].
    + destruct (Z.eqb_spec q (first l2)) as [->|]; [|by rewrite andb_false_r].
      destruct next_ok as [->|(Hin & _)]; [done|by destruct Hnin].
Qed.

(** Headers of other blocks of the list are the only words that change. *)
Lemma unlinked_words i : unlinked_pool i <> s.(pool) i ->
  exists q, q ∈ F b /\ q <> o /\ (i = 1024 * q + 1 \/ i = 1024 * q + 2).
Proof using Hp Hsh Hl Hm Hb HF.
  intros Hi. unfold unlinked_pool in Hi.
  destruct (Hl b Hb) as [(Hnd & _) _]. rewrite HF in Hnd.
  apply NoDup_app in Hnd as (_ & Hd & [Ho2 _]%NoDup_cons).
  destruct (Z.eqb_spec i (1024 * final l1 + 2)) as [E1|], (Z.eqb_spec i (1024 * first l2 + 1)) as [E2|];
    rewrite ?andb_false_r in Hi; try done; try lia; subst i.
  - destruct prev_ok as [[E _]|(Hne & _ & Hin & _)]; [by rewrite E, Z.eqb_refl in Hi|]. exists (final l1). split; [done|].
    split; [|by right]. intros E. destruct (final_in OURNULL l1) as [?|H1]; [done|].
    apply (Hd o); [congruence|left].
  - destruct next_ok as [E|(Hin & _)]; [by rewrite E, Z.eqb_refl in Hi|]. exists (first l2). split; [done|].
    split; [|by left]. intros E. destruct (first_in OURNULL l2) as [Ez|H2]; [|congruence].
    by rewrite Ez, Z.eqb_refl in Hi.
Qed.
End unlink.

(** ** Adding a block *)

Section push.
Context (s : CEsvga2Allocator) (F : Z -> list Z) (b o : Z).
Hypothesis Hp : params s.
Hypothesis Hsh : shape s.(poolBlocks) F.
Hypothesis Hl : linked s F.
Hypothesis Hm : magic s F.
Hypothesis Ht : trailers s F.
Hypothesis Hb : size_ok b.
Hypothesis Ho : 0 <= o /\ o + 2 ^ b <= s.(poolBlocks).
Hypothesis Hnew : forall n, n ∈ area o b -> n ∉ cells F.

(** The words that adding the block changes. *)
Definition pushed_pool (i : Z) : Z :=
  if i =? 1024 * o then MAGIC
  else if i =? 1024 * o + 1 then OURNULL
  else if i =? 1024 * o + 2 then first (F b)
  else if i =? 1024 * (o + 2 ^ b) - 1 then b + LEN_OFFSET
  else if negb (first (F b) =? OURNULL) && (i =? 1024 * first (F b) + 1) then o
  else s.(pool) i.

Lemma new_block b' q : size_ok b' -> q ∈ F b' -> q < o \/ o + 2 ^ b <= q.
Proof using Hnew Hb.
  intros Hb' Hq. unfold size_ok in *. destruct (Z.lt_ge_cases q o) as [|H1]; [by left|].
  destruct (Z.lt_ge_cases q (o + 2 ^ b)) as [H2|]; [|by right]. exfalso.
  apply (Hnew q); [apply elem_of_area; lia|]. apply elem_of_cells. exists b', q.
  split; [done|]. split; [done|]. apply area_start. lia.
Qed.

Lemma new_ne b' q : size_ok b' -> q ∈ F b' -> q <> o.
Proof using Hnew Hb.
  intros Hb' Hq ->. destruct (new_block b' o Hb' Hq); [lia|].
  pose proof (Z.pow_pos_nonneg 2 b). unfold size_ok in *. lia.
Qed.

Lemma first_ne : first (F b) <> o.
Proof using Hnew Hb Ho Hp.
  destruct (first_in OURNULL (F b)) as [->|Hin]; [|by apply (new_ne b)].
  destruct Hp as [_ _ ?]. pose proof (Z.pow_pos_nonneg 2 b). unfold size_ok, OURNULL in *. lia.
Qed.

(** Words of other blocks: all but the back link of the old first block. *)
Lemma pushed_other i q : 0 <= i < 1023 -> q <> o -> (i <> 1 \/ q <> first (F b)) ->
  pushed_pool (1024 * q + i) = s.(pool) (1024 * q + i).
Proof using.
  intros Hi Hq Hf. unfold pushed_pool.
  rewrite !(proj2 (Z.eqb_neq (1024 * q + i) _)) by lia. by rewrite andb_false_r.
Qed.

Lemma push_linked s' :
  (forall i, s'.(pool) i = pushed_pool i) -> (forall b', s'.(freeList) b' = upd s.(freeList) b o b') ->
  linked s' (upd F b (o :: F b)).
Proof using Hp Hsh Hl Hb Ho Hnew.
  intros Epool Elist b' Hb'. rewrite Elist. unfold upd. destruct (Z.eqb_spec b' b) as [->|Hne].
  - split; [|done]. destruct (Hl b Hb) as [Hd _].
    apply (dll_push (mem_links s)); [done| |by intros ?%(new_ne b)| |].
    + destruct Hp as [_ _ ?]. pose proof (Z.pow_pos_nonneg 2 b). unfold size_ok, OURNULL in *. lia.
    + unfold mem_links. rewrite !Epool. unfold pushed_pool.
      by rewrite !(proj2 (Z.eqb_neq (_ + _) (1024 * o))), (proj2 (Z.eqb_neq (1024 * o + 2) _)), !Z.eqb_refl by lia.
    + intros q Hq. pose proof (new_ne b q Hb Hq) as Hqo. unfold mem_links.
      cbn [fmap option_fmap option_map prod_map]. unfold id. rewrite !Epool, pushed_other by lia. f_equal. f_equal.
      destruct (decide (q = first (F b))) as [->|Hqf]; [|by apply pushed_other; lia].
      unfold pushed_pool. rewrite !(proj2 (Z.eqb_neq (1024 * first (F b) + 1) _)) by lia.
      rewrite Z.eqb_refl, (proj2 (Z.eqb_neq (first (F b)) OURNULL)); [done|].
      intros E. rewrite E in Hq. by destruct Hd as (_ & ? & _).
  - destruct (Hl b' Hb') as [Hd Hh]. split; [|done]. apply (dll_ext (mem_links s)); [done|]. intros q Hq.
    pose proof (new_ne b' q Hb' Hq). unfold mem_links. rewrite !Epool, !pushed_other; try lia; [done|].
    right. intros ->. destruct (first_in OURNULL (F b)) as [E|Hin].
    + rewrite E in Hq. by destruct Hd as (_ & ? & _).
    + by apply Hne, (start_unique _ _ _ (first (F b)) _ Hsh).
Qed.

Lemma push_magic s' : (forall i, s'.(pool) i = pushed_pool i) -> magic s' (upd F b (o :: F b)).
Proof using Hm Hb Hnew.
  intros Epool b' q Hb' Hq. rewrite Epool.
  assert (Hq' : q = o \/ q <> o /\ q ∈ F b').
  { unfold upd in Hq. destruct (Z.eqb_spec b' b) as [->|].
    - apply elem_of_cons in Hq as [?|Hq]; [by left|right]. split; [by apply (new_ne b)|done].
    - right. split; [by apply (new_ne b')|done]. }
  destruct Hq' as [->|[Hne Hq']].
  - unfold pushed_pool. by rewrite Z.eqb_refl.
  - rewrite <-(Z.add_0_r (1024 * q)), pushed_other, Z.add_0_r by lia. by apply (Hm b').
Qed.

Lemma push_trailers s' : (forall i, s'.(pool) i = pushed_pool i) -> trailers s' (upd F b (o :: F b)).
Proof using Ht Hb Hnew.
  intros Epool b' q Hb' Hq. rewrite Epool.
  assert (Hpos : forall c, size_ok c -> 0 < 2 ^ c) by (intros c ?; apply Z.pow_pos_nonneg; unfold size_ok in *; lia).
  assert (Hidx : forall x i, 0 <= i < 3 -> 1024 * (q + 2 ^ b') - 1 <> 1024 * x + i) by lia.
  unfold pushed_pool. rewrite !(proj2 (Z.eqb_neq _ (1024 * _ + _))) by (apply Hidx; lia).
  rewrite (proj2 (Z.eqb_neq _ (1024 * o))) by (rewrite <-(Z.add_0_r (1024 * o)); apply Hidx; lia).
  rewrite andb_false_r. unfold upd in Hq. destruct (Z.eqb_spec b' b) as [->|Hne].
  - apply elem_of_cons in Hq as [->|Hq]; [by rewrite Z.eqb_refl|].
    pose proof (new_ne b q Hb Hq). rewrite (proj2 (Z.eqb_neq _ _)) by lia. by apply Ht.
  - rewrite (proj2 (Z.eqb_neq _ _)); [by apply Ht|]. intros E.
    apply (Hnew (o + 2 ^ b - 1)); [apply elem_of_area; pose proof (Hpos b Hb); unfold size_ok in Hb; lia|].
    apply elem_of_cells. exists b', q. split; [done|]. split; [done|].
    apply elem_of_area; [unfold size_ok in Hb'; lia|]. pose proof (Hpos b' Hb'). lia.
Qed.

Lemma push_frame : forall k, (k / 1024 ∉ cells F) -> (k / 1024 ∉ area o b) -> pushed_pool k = s.(pool) k.
Proof using Hb Hp Hsh Hnew.
  intros k Hk1 Hk2. unfold pushed_pool. pose proof (Z.pow_pos_nonneg 2 b) as Hpos. unfold size_ok in Hb.
  assert (Hin : forall x i, 0 <= i < 1024 -> o <= x < o + 2 ^ b -> k <> 1024 * x + i).
  { intros x i Hi Hx ->. rewrite header_div in Hk2 by done. apply Hk2, elem_of_area; lia. }
  rewrite (proj2 (Z.eqb_neq k (1024 * o))) by (rewrite <-(Z.add_0_r (1024 * o)); apply Hin; lia).
  rewrite !(proj2 (Z.eqb_neq k (1024 * o + _))) by (apply Hin; lia).
  rewrite (proj2 (Z.eqb_neq k (1024 * (o + 2 ^ b) - 1)))
    by (replace (1024 * (o + 2 ^ b) - 1) with (1024 * (o + 2 ^ b - 1) + 1023) by lia; apply Hin; lia).
  destruct (first_in OURNULL (F b)) as [->|Hf]; [done|].
  rewrite (proj2 (Z.eqb_neq k (1024 * first (F b) + 1))); [by rewrite andb_false_r|].
  intros ->. rewrite header_div in Hk1 by lia. apply Hk1, elem_of_cells. exists b, (first (F b)).
  split; [done|]. split; [done|]. apply area_start. lia.
Qed.

Lemma push_shape : (o mod 2 ^ b = 0) -> shape s.(poolBlocks) (upd F b (o :: F b)).
Proof using Hsh Hb Ho Hnew.
  intros Ha. destruct Hsh as [Hn Hr Hal]. split.
  - rewrite cells_push by done. apply NoDup_app. split; [apply NoDup_seqZ|]. split; [|done].
    intros n Hn1. by apply Hnew.
  - intros n. rewrite cells_push, elem_of_app, elem_of_area by (done || (unfold size_ok in Hb; lia)).
    intros [?|?]; [lia|by apply Hr].
  - intros b' q Hb' Hq. unfold upd in Hq. destruct (Z.eqb_spec b' b) as [->|]; [|by apply Hal].
    apply elem_of_cons in Hq as [->|?]; [done|by apply Hal].
Qed.
End push.
