(* ===== verification/AllocatorProofs.v ===== *)
(** Correctness of the allocator: the invariant of its state and what each
    operation does to the sets of free and allocated blocks. *)

From S2P Require Import Prelude Dll Allocator AllocatorBits AllocatorLists.
From stdpp Require Import list.

#[local] Open Scope Z_scope.

Implicit Types (s : CEsvga2Allocator) (F : Z -> list Z).

#[local] Abbreviation first := (first OURNULL).
#[local] Abbreviation final := (final OURNULL).

(** ** The free store *)

Record store_ok s F : Prop := {
  so_params : params s;
  so_shape : shape s.(poolBlocks) F;
  so_linked : linked s F;
  so_magic : magic s F;
  so_trailers : trailers s F;
}.

(** The account of free bytes. *)
Definition accounted s F : Prop := s.(freeBytes) = 4096 * Z.of_nat (length (cells F)).

Lemma pow2_pos b : size_ok b -> 0 < 2 ^ b.
Proof. unfold size_ok. intros. apply Z.pow_pos_nonneg; lia. Qed.

Lemma store_ok_push s s' F b o :
  store_ok s F -> size_ok b -> 0 <= o -> o + 2 ^ b <= s.(poolBlocks) -> o mod 2 ^ b = 0 ->
  (forall n, n ∈ area o b -> n ∉ cells F) ->
  same_meta s s' -> (forall i, s'.(pool) i = pushed_pool s F b o i) ->
  (forall b', s'.(freeList) b' = upd s.(freeList) b o b') ->
  store_ok s' (upd F b (o :: F b)) /\ pool_frame (area o b ++ cells F) s s'.
Proof.
  intros [Hp Hsh Hl Hm Ht] Hb H0 H1 Ha Hnew Hmeta Epool Elist. split; [split|].
  - by apply (same_meta_params s).
  - destruct Hmeta as (_ & -> & _). by apply push_shape.
  - by apply (push_linked s F b o).
  - by apply (push_magic s F b o).
  - by apply (push_trailers s F b o).
  - intros k Hk. rewrite Epool. rewrite elem_of_app in Hk. apply push_frame; tauto.
Qed.

Lemma makeFree_fields s o b :
  same_meta s (makeFree o b false s) /\
  (forall b', (makeFree o b false s).(freeList) b' = upd s.(freeList) b o b') /\
  (makeFree o b false s).(freeBytes) = u32 (s.(freeBytes) + pool_shl (b + s.(minBits))).
Proof.
  unfold makeFree. cbv zeta. cbn [freeList store with_pool].
  destruct (negb (freeList s b =? OURNULL)); by repeat split.
Qed.

Lemma makeFree_pool s F b o :
  store_ok s F -> size_ok b -> 0 <= o -> o + 2 ^ b <= s.(poolBlocks) ->
  (forall n, n ∈ area o b -> n ∉ cells F) ->
  forall i, (makeFree o b false s).(pool) i = pushed_pool s F b o i.
Proof.
  intros [Hp Hsh Hl Hm Ht] Hb H0 H1 Hnew i. pose proof (pow2_pos b Hb) as Hpos.
  assert (Hfo : first (F b) <> o) by (apply (first_ne s F b o); done).
  destruct (Hl b Hb) as [Hd Hh]. pose proof Hp as [Emin _ Hblocks].
  unfold makeFree, pushed_pool, OFF_MAGIC, OFF_PREV, OFF_NEXT, OFF_BITS. cbv zeta.
  cbn [freeList store with_pool]. rewrite Hh, Emin, block_words by done.
  rewrite (at_block_eq s o Hp) by lia. rewrite !Z.add_0_r.
  replace (1024 * o + 1024 * 2 ^ b + -1) with (1024 * (o + 2 ^ b) - 1) by lia.
  destruct (Z.eqb_spec (first (F b)) OURNULL) as [E|E]; cbn [negb andb].
  - cbn [pool with_bytes with_list store with_pool]. unfold upd. zcase.
  - assert (Hq : first (F b) ∈ F b) by (by destruct (first_in OURNULL (F b))).
    assert (Ha : forall s', params s' -> at_block s' (first (F b)) = 1024 * first (F b)).
    { intros s' Hp'. apply at_block_eq; [done|]. destruct (block_range _ _ _ _ Hsh Hb Hq). lia. }
    rewrite Ha by (destruct Hp; by split). cbn [pool with_bytes with_list store with_pool]. unfold upd. zcase.
Qed.

Lemma makeFree_spec s F b o :
  store_ok s F -> size_ok b -> 0 <= o -> o + 2 ^ b <= s.(poolBlocks) -> o mod 2 ^ b = 0 ->
  (forall n, n ∈ area o b -> n ∉ cells F) ->
  let s' := makeFree o b false s in
  store_ok s' (upd F b (o :: F b)) /\ same_meta s s' /\ pool_frame (area o b ++ cells F) s s' /\
  (accounted s F -> accounted s' (upd F b (o :: F b))).
Proof.
  intros Hs Hb H0 H1 Ha Hnew s'. destruct (makeFree_fields s o b) as (M & L & B).
  destruct (store_ok_push s s' F b o) as [Hok Hfr]; try done; [by apply makeFree_pool|].
  split; [done|]. split; [done|]. split; [done|]. unfold accounted. intros Hacc. fold s' in B.
  pose proof (cells_bound _ _ (so_shape _ _ Hok)) as Hbound. destruct M as (_ & EM & _). fold s' in EM. rewrite EM in Hbound.
  rewrite cells_push in * by done. rewrite length_app, Nat2Z.inj_add, length_area in * by (unfold size_ok in Hb; lia).
  rewrite B, Hacc, pool_shl_eq by (destruct Hs as [[-> _ _]]; unfold size_ok in Hb; lia).
  destruct Hs as [[-> _ Hblocks] _ _ _ _]. rewrite Z.pow_add_r by (unfold size_ok in Hb; lia).
  pose proof (pow2_pos b Hb). rewrite wrap_small; [lia|]. split; lia.
Qed.

(** ** Splitting a range into blocks *)

Lemma land_low i k : 0 <= k -> Z.land i (2 ^ k - 1) = i mod 2 ^ k.
Proof. intros Hk. rewrite <-Z.land_ones by done. f_equal. rewrite Z.ones_equiv. lia. Qed.

Lemma try_larger_spec i past : forall n tb tl,
  0 <= tb -> Z.of_nat n + tb = 12 -> tl = 2 ^ tb ->
  exists tb', try_larger n i past tb tl = (tb', 2 ^ tb') /\ 0 <= tb' <= 12.
Proof.
  induction n as [|n IH]; intros tb tl H0 Hn ->; cbn [try_larger]; [exists tb; split; [done|lia]|].
  assert (E : u32 (Z.shiftl (2 ^ tb) 1) = 2 ^ (tb + 1)).
  { rewrite Z.shiftl_mul_pow2, <-Z.pow_add_r by lia. apply wrap_small. split; [lia|]. apply Z.pow_lt_mono_r; lia. }
  rewrite E. destruct (_ <? _); [exists tb; split; [done|lia]|].
  destruct (negb _); [exists tb; split; [done|lia]|]. apply IH; [lia|lia|done].
Qed.

Lemma try_smaller_spec i past : 0 <= i < past -> past <= 2 ^ 20 -> forall n tb tl,
  Z.of_nat n = tb + 1 -> 0 <= tb <= 12 -> tl = 2 ^ tb ->
  exists tb', try_smaller n i past tb tl = (tb', 2 ^ tb') /\ 0 <= tb' <= 12 /\
    i + 2 ^ tb' <= past /\ i mod 2 ^ tb' = 0.
Proof.
  intros Hi Hp. induction n as [|n IH]; intros tb tl Hn Htb ->; [lia|]. cbn [try_smaller].
  assert (Hlt : 2 ^ tb < 2 ^ 13) by (apply Z.pow_lt_mono_r; lia).
  assert (Hpos : 0 < 2 ^ tb) by (apply Z.pow_pos_nonneg; lia).
  rewrite wrap_small by (split; lia). rewrite land_low by lia.
  destruct (Z.ltb_spec past (i + 2 ^ tb)), (Z.eqb_spec (i mod 2 ^ tb) 0); cbn [orb negb];
    try (exists tb; split; [done|]; split; [lia|]; split; [lia|done]);
    (destruct (Z.eq_dec tb 0) as [->|]; [rewrite Z.pow_0_r, ?Z.mod_1_r in *; lia|]);
    (apply IH; [lia|lia|]); rewrite Z.shiftr_div_pow2 by lia;
    replace tb with (tb - 1 + 1) at 1 by lia; rewrite Z.pow_add_r, Z.div_mul by lia; done.
Qed.

Lemma to_free_loop_spec past : past <= 2 ^ 20 - 1 -> forall n i tb s F,
  store_ok s F -> past <= s.(poolBlocks) -> 0 <= i -> past - i <= Z.of_nat n -> 0 <= tb <= 12 ->
  (forall k, i <= k < past -> k ∉ cells F) ->
  exists F', let s' := to_free_loop n i past tb (2 ^ tb) false s in
    store_ok s' F' /\ same_meta s s' /\ cells F' ≡ₚ seqZ i (past - i) ++ cells F /\
    pool_frame (seqZ i (past - i) ++ cells F) s s' /\ (accounted s F -> accounted s' F').
Proof.
  intros Hpast. induction n as [|n IH]; intros i tb s F Hs Hb Hi Hn Htb Hnew; cbn [to_free_loop]; cbv zeta.
  { exists F. replace (seqZ i (past - i)) with (@nil Z) by (unfold seqZ; by rewrite Z2Nat.nonpos by lia).
    by repeat split; try apply Hs. }
  destruct (Z.leb_spec past i) as [Hge|Hlt].
  { exists F. replace (seqZ i (past - i)) with (@nil Z) by (unfold seqZ; by rewrite Z2Nat.nonpos by lia).
    by repeat split; try apply Hs. }
  destruct Hs as [Hp Hsh Hl Hm Ht] eqn:Es. pose proof Hp as [_ En _]. rewrite En.
  destruct (try_larger_spec i past (Z.to_nat (13 - 1 - tb)) tb (2 ^ tb)) as (t1 & -> & Ht1); [lia|lia|done|].
  destruct (try_smaller_spec i past ltac:(lia) ltac:(lia) (Z.to_nat (t1 + 1)) t1 (2 ^ t1))
    as (t2 & -> & Ht2 & Hle & Hal); [lia|lia|done|].
  rewrite (proj2 (Z.ltb_ge _ _)) by lia.
  assert (Hb2 : size_ok t2) by (unfold size_ok; lia). pose proof (pow2_pos t2 Hb2) as Hpos.
  destruct (makeFree_spec s F t2 i) as (Hok & M & Fr & Acc); try done; try lia.
  { intros k Hk. apply Hnew. apply elem_of_area in Hk; lia. }
  rewrite (wrap_small 32 (i + 2 ^ t2)) by (split; lia).
  destruct (IH (i + 2 ^ t2) t2 (makeFree i t2 false s) (upd F t2 (i :: F t2)) Hok) as (F' & H1 & H2 & H3 & H4 & H5);
    try lia.
  { destruct M as (_ & -> & _). done. }
  { intros k Hk. rewrite cells_push, elem_of_app, elem_of_area by (done || lia). intros [?|Hin]; [lia|].
    apply (Hnew k); [lia|done]. }
  assert (Eseq : seqZ i (past - i) ++ cells F ≡ₚ seqZ (i + 2 ^ t2) (past - (i + 2 ^ t2)) ++ cells (upd F t2 (i :: F t2))).
  { rewrite cells_push by done. replace (past - i) with (2 ^ t2 + (past - (i + 2 ^ t2))) by lia.
    rewrite seqZ_app by lia. unfold area. rewrite <-app_assoc. by rewrite Permutation_app_swap_app. }
  exists F'. split; [done|]. split; [by eapply same_meta_trans|]. split; [by rewrite Eseq|]. split; [|tauto].
  apply pool_frame_trans with (makeFree i t2 false s).
  - eapply pool_frame_weaken; [exact Fr|]. intros k. rewrite Eseq, cells_push by done. rewrite !elem_of_app. tauto.
  - eapply pool_frame_weaken; [exact H4|]. intros k. by rewrite Eseq.
Qed.

(** Adding a range of blocks that is not in the free store. *)
Lemma toFree_spec a past s F :
  store_ok s F -> 0 <= a -> past <= s.(poolBlocks) -> (forall k, a <= k < past -> k ∉ cells F) ->
  exists F', let s' := toFree a past false s in
    store_ok s' F' /\ same_meta s s' /\ cells F' ≡ₚ seqZ a (past - a) ++ cells F /\
    pool_frame (seqZ a (past - a) ++ cells F) s s' /\ (accounted s F -> accounted s' F').
Proof.
  intros Hs Ha Hp Hnew. unfold toFree. change 1 with (2 ^ 0).
  apply to_free_loop_spec; try done; try lia. pose proof (so_params _ _ Hs) as [_ _ ?]. lia.
Qed.

(** ** Taking a block out *)

Lemma shape_remove P F b l1 o l2 :
  shape P F -> size_ok b -> F b = l1 ++ o :: l2 -> shape P (upd F b (l1 ++ l2)).
Proof.
  intros [Hn Hr Ha] Hb E. pose proof (cells_remove F b l1 o l2 Hb E) as Hc. split.
  - rewrite Hc in Hn. by apply NoDup_app in Hn as (_ & _ & ?).
  - intros n Hin. apply Hr. rewrite Hc. apply elem_of_app. by right.
  - intros b' q Hb' Hq. unfold upd in Hq. destruct (Z.eqb_spec b' b) as [->|]; [|by apply Ha].
    apply Ha; [done|]. rewrite E. rewrite elem_of_app, elem_of_cons in *. tauto.
Qed.

(** The store after unlinking, of which the trailer of the block itself may be gone. *)
Lemma store_ok_unlink s s' F b l1 o l2 :
  params s -> shape s.(poolBlocks) F -> linked s F -> magic s F -> trailers s (upd F b (l1 ++ l2)) ->
  size_ok b -> F b = l1 ++ o :: l2 -> same_meta s s' ->
  (forall i, s'.(pool) i = unlinked_pool s l1 l2 i) ->
  (forall b', s'.(freeList) b' = if decide (l1 = [] /\ b' = b) then first l2 else s.(freeList) b') ->
  store_ok s' (upd F b (l1 ++ l2)) /\ pool_frame (cells F) s s'.
Proof.
  intros Hp Hsh Hl Hm Ht Hb E M Epool Elist.
  assert (Hsame : forall i, (forall q, q ∈ F b -> i <> 1024 * q + 1 /\ i <> 1024 * q + 2) -> s'.(pool) i = s.(pool) i).
  { intros i Hi. rewrite Epool. destruct (Z.eq_dec (unlinked_pool s l1 l2 i) (pool s i)) as [|Hne]; [done|].
    destruct (unlinked_words s F b o l1 l2 Hp Hsh Hl Hm Hb E i Hne) as (q & Hq & _ & Hc).
    destruct (Hi q Hq). tauto. }
  assert (Hin : forall b' q, size_ok b' -> q ∈ upd F b (l1 ++ l2) b' -> q ∈ F b').
  { intros b' q Hb' Hq. unfold upd in Hq. destruct (Z.eqb_spec b' b) as [->|]; [|done]. by apply (in_list F b o l1 l2). }
  split; [split|].
  - by apply (same_meta_params s).
  - destruct M as (_ & -> & _). by apply (shape_remove _ F b l1 o l2).
  - by apply (unlinked_linked s F b o l1 l2).
  - intros b' q Hb' Hq. rewrite Hsame by lia. by apply (Hm b'), Hin.
  - intros b' q Hb' Hq. rewrite Hsame by lia. by apply Ht.
  - intros k Hk. apply Hsame. intros q Hq.
    assert (Hc : q ∈ cells F).
    { apply elem_of_cells. exists b, q. split; [done|]. split; [done|]. apply area_start. unfold size_ok in Hb. lia. }
    split; intros ->; rewrite header_div in Hk by lia; done.
Qed.

Lemma trailers_sub s F b l1 o l2 : trailers s F -> F b = l1 ++ o :: l2 -> trailers s (upd F b (l1 ++ l2)).
Proof.
  intros Ht E b' q Hb' Hq. apply Ht; [done|]. unfold upd in Hq.
  destruct (Z.eqb_spec b' b) as [->|]; [|done]. by apply (in_list F b o l1 l2).
Qed.

(** Only the pool, the lists and the parameters matter to the store. *)
Lemma store_ok_same s s' F :
  store_ok s F -> s'.(poolBlocks) = s.(poolBlocks) -> s'.(minBits) = s.(minBits) ->
  s'.(numSizes) = s.(numSizes) -> s'.(pool) = s.(pool) -> s'.(freeList) = s.(freeList) -> store_ok s' F.
Proof.
  intros [[Hm Hn Hp] Hsh Hl Hg Ht] E1 E2 E3 E4 E5.
  assert (El : mem_links s' = mem_links s) by (unfold mem_links; by rewrite E4).
  split; [split; congruence|by rewrite E1| | | ].
  - intros b Hb. rewrite El, E5. by apply Hl.
  - intros b q Hb Hq. rewrite E4. by apply (Hg b).
  - intros b q Hb Hq. rewrite E4. by apply Ht.
Qed.

(** ** The invariant *)

Definition acells (A : list (Z * Z)) : list Z := A ≫= fun p => area p.1 p.2.

(** [F] are the free blocks by size, [A] the allocated ones as offset and size. Cells
    in neither were never released to the allocator. *)
Record inv s F (A : list (Z * Z)) : Prop := {
  inv_store : store_ok s F;
  inv_account : accounted s F;
  inv_bytes : bytes_ok s;
  inv_alloc o b : (o, b) ∈ A -> size_ok b /\ 0 <= o /\ o + 2 ^ b <= s.(poolBlocks) /\ o mod 2 ^ b = 0;
  inv_nodup : NoDup (cells F ++ acells A);
  inv_free_bits n : n ∈ cells F -> BITTEST s n = false;
  inv_alloc_bits o b n : (o, b) ∈ A -> n ∈ area o b -> BITTEST s n = (n =? o + 2 ^ b - 1);
  inv_foreign n : 0 <= n < s.(poolBlocks) -> n ∉ cells F -> n ∉ acells A -> BITTEST s n = true;
}.

Lemma elem_of_acells n A : n ∈ acells A <-> exists o b, (o, b) ∈ A /\ n ∈ area o b.
Proof.
  unfold acells. rewrite list_elem_of_bind. split.
  - intros ([o b] & Hn & Hin). by exists o, b.
  - intros (o & b & Hin & Hn). by exists (o, b).
Qed.

Lemma bytes_ok_set s n : bytes_ok s -> bytes_ok (BITSET n s).
Proof.
  intros Hb i Hi. unfold BITSET in *. cbn [Allocator.map with_map poolBlocks] in *. unfold upd.
  destruct (Z.eqb_spec i (Z.shiftr n 3)) as [->|]; [|by apply Hb]. rewrite bit_mask.
  pose proof (Z.mod_pos_bound n 8 ltac:(lia)). apply fits_lor; [by apply Hb|lia].
Qed.

Lemma bytes_ok_clear s n : bytes_ok s -> bytes_ok (BITCLEAR n s).
Proof.
  intros Hb i Hi. unfold BITCLEAR in *. cbn [Allocator.map with_map poolBlocks] in *. unfold upd.
  destruct (Z.eqb_spec i (Z.shiftr n 3)) as [->|]; [|by apply Hb]. apply fits_ldiff; [lia|by apply Hb].
Qed.

Lemma bytes_ok_meta s s' : same_meta s s' -> bytes_ok s -> bytes_ok s'.
Proof. intros (_ & E1 & _ & _ & E2 & _) Hb i Hi. rewrite E2. apply Hb. by rewrite <-E1. Qed.

(** A size for which there is a free block is accounted for. *)
Lemma free_bytes_ge s F A b o :
  inv s F A -> size_ok b -> o ∈ F b -> 2 ^ (b + 12) <= s.(freeBytes).
Proof.
  intros Hi Hb (l1 & l2 & E)%list_elem_of_split. rewrite (inv_account _ _ _ Hi).
  rewrite (cells_remove F b l1 o l2 Hb E), length_app, Nat2Z.inj_add, length_area by (unfold size_ok in Hb; lia).
  rewrite Z.pow_add_r by (unfold size_ok in Hb; lia). lia.
Qed.

Lemma find_list_spec lists : forall n r, 
  let r' := find_list n r lists in
  r <= r' <= r + Z.of_nat n /\ (forall q, r <= q < r' -> lists q = OURNULL) /\
  (r' < r + Z.of_nat n -> lists r' <> OURNULL).
Proof.
  induction n as [|n IH]; intros r; cbn [find_list]; cbv zeta; [repeat split; lia|].
  destruct (Z.eqb_spec (lists r) OURNULL) as [E|E]; cbn [negb].
  - destruct (IH (r + 1)) as (H1 & H2 & H3). split; [lia|]. split; [|intros; apply H3; lia].
    intros q Hq. destruct (Z.eq_dec q r) as [->|]; [done|]. apply H2. lia.
  - split; [lia|]. split; [lia|done].
Qed.
