(* ===== verification/AllocatorMalloc.v ===== *)
(** What allocation does to the sets of free and of allocated blocks. *)

From S2P Require Import Prelude IOKit Dll Allocator AllocatorBits AllocatorLists AllocatorProofs.
From stdpp Require Import list.

#[local] Open Scope Z_scope.

Implicit Types (s : CEsvga2Allocator) (F : Z -> list Z).

#[local] Abbreviation first := (first OURNULL).

(** ** Moving cells between the two sets *)

Lemma inv_disjoint s F A n : inv s F A -> n ∈ cells F -> n ∉ acells A.
Proof. intros Hi. pose proof (inv_nodup _ _ _ Hi) as Hn. apply NoDup_app in Hn as (_ & Hd & _). apply Hd. Qed.

Lemma acells_in A o b n : (o, b) ∈ A -> n ∈ area o b -> n ∈ acells A.
Proof. intros. apply elem_of_acells. by exists o, b. Qed.

Lemma acells_cons o b A : acells ((o, b) :: A) = area o b ++ acells A.
Proof. done. Qed.

(** A part of the free cells becomes an allocated block. *)
Lemma inv_take s s' F F' A o b :
  inv s F A -> store_ok s' F' -> accounted s' F' -> bytes_ok s' -> s'.(poolBlocks) = s.(poolBlocks) ->
  size_ok b -> o mod 2 ^ b = 0 -> cells F ≡ₚ area o b ++ cells F' ->
  (forall k, BITTEST s' k = (k =? o + 2 ^ b - 1) || BITTEST s k) ->
  inv s' F' ((o, b) :: A).
Proof.
  intros Hi Hs Hacc Hby Eb Hb Ha Hc Hbit. pose proof (pow2_pos b Hb) as Hpos.
  assert (Hin : forall n, o <= n < o + 2 ^ b -> n ∈ cells F).
  { intros n Hn. rewrite Hc, elem_of_app, elem_of_area by (unfold size_ok in Hb; lia). by left. }
  assert (Hr : forall n, n ∈ cells F -> 0 <= n < poolBlocks s) by apply (shape_range _ _ (so_shape _ _ (inv_store _ _ _ Hi))).
  assert (Hnd : NoDup (cells F' ++ acells ((o, b) :: A))).
  { pose proof (inv_nodup _ _ _ Hi) as Hn. rewrite Hc in Hn. rewrite acells_cons, app_assoc, (Permutation_app_comm (cells F')). done. }
  split; try done.
  - intros o' b' [[= -> ->]|Hin']%elem_of_cons.
    + pose proof (Hr o (Hin o ltac:(lia))). pose proof (Hr (o + 2 ^ b - 1) (Hin (o + 2 ^ b - 1) ltac:(lia))).
      rewrite Eb. split; [done|]. split; [lia|]. split; [lia|done].
    + rewrite Eb. by apply (inv_alloc _ _ _ Hi).
  - intros n Hn. rewrite Hbit, (inv_free_bits _ _ _ Hi n) by (rewrite Hc; apply elem_of_app; by right).
    rewrite orb_false_r. apply Z.eqb_neq. intros ->. apply NoDup_app in Hnd as (_ & Hd & _).
    apply (Hd _ Hn). rewrite acells_cons, elem_of_app, elem_of_area by (unfold size_ok in Hb; lia). left. lia.
  - intros o' b' n [[= -> ->]|Hin']%elem_of_cons Hn; rewrite Hbit.
    + rewrite elem_of_area in Hn by (unfold size_ok in Hb; lia).
      by rewrite (inv_free_bits _ _ _ Hi n), orb_false_r by (by apply Hin).
    + rewrite (inv_alloc_bits _ _ _ Hi o' b' n) by done. replace (n =? o + 2 ^ b - 1) with false; [done|].
      symmetry. apply Z.eqb_neq. intros ->. apply (inv_disjoint _ _ _ (o + 2 ^ b - 1) Hi); [apply Hin; lia|].
      by apply (acells_in _ o' b').
  - intros n Hn Hf Hal. rewrite Eb in Hn. rewrite acells_cons, elem_of_app in Hal.
    rewrite Hbit, (inv_foreign _ _ _ Hi n), orb_true_r; [done..| |tauto].
    rewrite Hc, elem_of_app. tauto.
Qed.

(** ** Taking the first block of a list *)

Lemma area_split o b r : 0 <= b <= r -> area o r = area o b ++ seqZ (o + 2 ^ b) (2 ^ r - 2 ^ b).
Proof.
  intros Hb. unfold area. pose proof (Z.pow_le_mono_r 2 b r ltac:(lia) ltac:(lia)).
  pose proof (Z.pow_pos_nonneg 2 b ltac:(lia) ltac:(lia)).
  rewrite <-seqZ_app by lia. f_equal. lia.
Qed.

Section pop.
Context (s : CEsvga2Allocator) (F : Z -> list Z) (bits r o : Z) (l : list Z).
Hypothesis Hs : store_ok s F.
Hypothesis Hbits : 0 <= bits <= r.
Hypothesis Hr : size_ok r.
Hypothesis HF : F r = o :: l.
Hypothesis Henough : pool_shl (bits + s.(minBits)) <= s.(freeBytes).
Hypothesis Hfind : find_list (Z.to_nat (s.(numSizes) - bits)) bits s.(freeList) = r.

Lemma pop_range : 0 <= o /\ o + 2 ^ r <= s.(poolBlocks) /\ s.(poolBlocks) < 2 ^ 20.
Proof using Hs Hr HF.
  destruct (block_range _ _ r o (so_shape _ _ Hs) Hr) as [? ?]; [rewrite HF; left|].
  destruct Hs as [[_ _ ?] _ _ _ _]. lia.
Qed.

Definition popped s1 : CEsvga2Allocator :=
  with_bytes (u32 (s.(freeBytes) - 2 ^ (r + 12))) (BITSET (o + 2 ^ bits - 1) s1).

Lemma BuddyMalloc_pop : exists s1, unlink_free r o s = Some s1 /\
  BuddyMalloc bits true s =
    (let s2 := toFree (o + 2 ^ bits) (o + 2 ^ r) false (popped s1) in
     (kIOReturnSuccess, Some (s2.(poolStart) + 4096 * o), s2)).
Proof using Hs Hbits Hr HF Henough Hfind.
  destruct Hs as [Hp Hsh Hl Hm Ht]. pose proof Hp as [Emin Enum Hblk]. pose proof pop_range as (H0 & H1 & H2).
  pose proof (pow2_pos r Hr) as Hpos. unfold size_ok in Hr.
  pose proof (Z.pow_le_mono_r 2 bits r ltac:(lia) ltac:(lia)) as Hle.
  pose proof (Z.pow_pos_nonneg 2 bits ltac:(lia) ltac:(lia)) as Hpos'.
  destruct (unlink_free_eq s F r o [] l Hp Hsh Hl Hm Hr HF) as (s1 & E & M & B & _).
  destruct (unlink_links s F r o [] l Hl Hr HF) as [En Ev]. exists s1. split; [done|].
  assert (Et : s.(pool) (1024 * o + 1024 * 2 ^ r + -1) = r + LEN_OFFSET).
  { rewrite <-(Ht r o Hr) by (rewrite HF; left). f_equal. lia. }
  assert (Em : s.(pool) (1024 * o) = MAGIC) by (apply (Hm r); [done|rewrite HF; left]).
  destruct (Hl r Hr) as [_ Hh]. rewrite HF in Hh. cbn in Hh.
  unfold unlink_free, OFF_PREV, OFF_NEXT, OFF_MAGIC in E. rewrite at_block_eq, Ev, En in E by (done || lia).
  rewrite Z.eqb_refl, Z.add_0_r in E.
  unfold BuddyMalloc, OFF_PREV, OFF_NEXT, OFF_MAGIC, OFF_BITS. cbn [negb].
  rewrite (proj2 (Z.ltb_ge _ _) Henough), Hfind, Enum, Hh, (proj2 (Z.leb_gt 13 r)) by lia.
  rewrite (at_block_eq s o), Emin, block_words, En, Ev, Et, !Z.add_0_r, Em, !Z.eqb_refl by (done || lia).
  rewrite (proj2 (Z.leb_gt _ _)) by lia. cbn [negb].
  destruct (_ && _) eqn:Eb in E; [done|]. injection E as E.
  destruct (Z.eqb_spec (first l) OURNULL) as [Ez|Ez]; cbn [negb andb] in *.
  - rewrite <-E. unfold popped. rewrite !pool_shl_eq, !(wrap_small 32 (o + _)) by (try split; lia).
    cbn [freeBytes BITSET with_map with_list minBits]. rewrite Emin, pool_shl_eq by lia.
    by replace (4 * (1024 * o)) with (4096 * o) by lia.
  - rewrite !orb_false_iff in Eb. destruct Eb as [[-> ->] ->]. cbn [orb]. rewrite <-E. unfold popped.
    rewrite !pool_shl_eq, !(wrap_small 32 (o + _)) by (try split; lia).
    cbn [freeBytes BITSET with_map with_list minBits store with_pool]. rewrite Emin, pool_shl_eq by lia.
    by replace (4 * (1024 * o)) with (4096 * o) by lia.
Qed.
End pop.

(** What a successful allocation of a block of size [b] at [o] leaves. *)
Record took s F (A : list (Z * Z)) (o b : Z) s' F' : Prop := {
  took_inv : inv s' F' ((o, b) :: A);
  took_cells : cells F ≡ₚ area o b ++ cells F';
  took_start : s'.(poolStart) = s.(poolStart);
  took_blocks : s'.(poolBlocks) = s.(poolBlocks);
  took_frame : pool_frame (cells F) s s';
}.

Lemma popped_took s F A bits r o l s1 :
  inv s F A -> 0 <= bits <= r -> size_ok r -> F r = o :: l -> unlink_free r o s = Some s1 ->
  exists F', took s F A o bits (toFree (o + 2 ^ bits) (o + 2 ^ r) false (popped s bits r o s1)) F'.
Proof.
  intros Hi Hbits Hr HF E1. pose proof (inv_store _ _ _ Hi) as Hs. pose proof Hs as [Hp Hsh Hl Hm Ht].
  destruct (pop_range s F r o l Hs Hr HF) as (H0 & H1 & H2).
  pose proof (Z.pow_le_mono_r 2 bits r ltac:(lia) ltac:(lia)) as Hle.
  pose proof (Z.pow_pos_nonneg 2 bits ltac:(lia) ltac:(lia)) as Hpos.
  destruct (unlink_free_eq s F r o [] l Hp Hsh Hl Hm Hr HF) as (s1' & E1' & M & B & EP & EL).
  rewrite E1' in E1. injection E1 as ->.
  destruct (store_ok_unlink s s1 F r [] o l) as [Hok1 Hfr1]; try done; [by apply (trailers_sub s F r [] o l)|].
  pose proof (cells_remove F r [] o l Hr HF) as Hc. rewrite app_nil_l in Hok1, Hc. set (F1 := upd F r l) in *.
  set (s2 := popped s bits r o s1).
  assert (Hok2 : store_ok s2 F1) by (by apply (store_ok_same s1)).
  assert (Hacc2 : accounted s2 F1).
  { unfold accounted, s2, popped. cbn [freeBytes with_bytes]. rewrite (inv_account _ _ _ Hi), Hc, length_app.
    rewrite Nat2Z.inj_add, length_area, Z.pow_add_r by (unfold size_ok in Hr; lia).
    pose proof (cells_bound _ _ (so_shape _ _ Hok1)) as Hbd. destruct M as (_ & E & _). rewrite E in Hbd.
    rewrite wrap_small; [lia|split; lia]. }
  destruct M as (MS & MB & M). pose proof (area_split o bits r Hbits) as Ha.
  assert (Hnd : NoDup (area o r ++ cells F1)) by (rewrite <-Hc; apply Hsh).
  apply NoDup_app in Hnd as (_ & Hd & _).
  destruct (toFree_spec (o + 2 ^ bits) (o + 2 ^ r) s2 F1 Hok2) as (F' & Hok & M2 & Hc' & Hfr & Hacc); [lia| | |].
  { change (poolBlocks s2) with (poolBlocks s1). lia. }
  { intros k Hk. apply Hd, elem_of_area; [unfold size_ok in Hr; lia|lia]. }
  replace (o + 2 ^ r - (o + 2 ^ bits)) with (2 ^ r - 2 ^ bits) in * by lia.
  assert (Hcells : cells F ≡ₚ area o bits ++ cells F') by (by rewrite Hc, Hc', Ha, <-app_assoc).
  exists F'. pose proof M2 as (M2S & M2B & _). split; [|done|by rewrite M2S|by rewrite M2B|].
  - apply (inv_take s _ F); try done.
    + by apply Hacc.
    + apply (bytes_ok_meta _ _ M2). apply bytes_ok_set. destruct M as (_ & _ & EM & _). intros i. rewrite MB, EM.
      apply (inv_bytes _ _ _ Hi).
    + by rewrite M2B.
    + unfold size_ok in *. lia.
    + apply Z.mod_divide; [lia|]. apply (Z.divide_trans _ (2 ^ r)).
      * replace r with (r - bits + bits) by lia. rewrite Z.pow_add_r by lia. apply Z.divide_factor_r.
      * apply Z.mod_divide; [lia|]. apply (shape_aligned _ _ Hsh); [done|]. rewrite HF. left.
    + intros k. rewrite (same_meta_BITTEST _ _ k M2). unfold s2, popped.
      change (BITTEST (with_bytes ?x ?y) k) with (BITTEST y k). rewrite BITTEST_set. f_equal.
      destruct M as (_ & _ & EM & _). unfold BITTEST. by rewrite EM.
  - apply pool_frame_trans with s2.
    + intros k Hk. change (pool s2) with (pool s1). by apply Hfr1.
    + eapply pool_frame_weaken; [exact Hfr|]. intros k. rewrite Hcells, Hc', elem_of_app. intros Hk. 
      apply elem_of_app. by right; apply elem_of_app.
Qed.

(** No free block of size [bits] or larger. *)
Definition none_from F (bits : Z) : Prop := forall q, bits <= q < 13 -> F q = [].

Lemma BuddyMalloc_spec s F A bits :
  inv s F A -> 0 <= bits <= 13 ->
  (exists o F' s', BuddyMalloc bits true s = (kIOReturnSuccess, Some (s.(poolStart) + 4096 * o), s') /\
     bits < 13 /\ took s F A o bits s' F') \/
  (BuddyMalloc bits true s = (kIOReturnNoMemory, None, s) /\ none_from F bits).
Proof.
  intros Hi Hbits. pose proof (inv_store _ _ _ Hi) as Hs. pose proof Hs as [[Emin Enum Hblk] Hsh Hl Hm Ht].
  destruct (Z.lt_ge_cases s.(freeBytes) (pool_shl (bits + s.(minBits)))) as [Hlt|Henough].
  { right. split; [unfold BuddyMalloc; by rewrite (proj2 (Z.ltb_lt _ _) Hlt)|]. intros q Hq.
    destruct (F q) as [|o l] eqn:E; [done|]. exfalso.
    assert (Hge : 2 ^ (q + 12) <= freeBytes s) by (apply (free_bytes_ge s F A q o Hi); [unfold size_ok; lia|rewrite E; left]).
    rewrite Emin, pool_shl_eq in Hlt by lia. pose proof (Z.pow_le_mono_r 2 (bits + 12) (q + 12)). lia. }
  destruct (find_list_spec s.(freeList) (Z.to_nat (s.(numSizes) - bits)) bits) as (Hr1 & Hr2 & Hr3).
  remember (find_list _ _ _) as r eqn:Er. symmetry in Er. rewrite Enum in Hr1, Hr3.
  destruct (Z.eq_dec r 13) as [->|Hne].
  - right. split.
    + unfold BuddyMalloc. cbn [negb]. by rewrite (proj2 (Z.ltb_ge _ _) Henough), Er, Enum.
    + intros q Hq. destruct (Hl q) as [(_ & Hn & _) Hh]; [unfold size_ok; lia|]. rewrite Hr2 in Hh by lia.
      destruct (F q) as [|o l]; [done|]. cbn in Hh. subst o. destruct Hn. left.
  - left. assert (Hr : size_ok r) by (unfold size_ok; lia). specialize (Hr3 ltac:(lia)).
    destruct (F r) as [|o l] eqn:HF; [destruct (Hl r Hr) as [_ Hh]; by rewrite HF in Hh|].
    destruct (BuddyMalloc_pop s F bits r o l Hs ltac:(lia) Hr HF Henough Er) as (s1 & E1 & E).
    destruct (popped_took s F A bits r o l s1 Hi ltac:(lia) Hr HF E1) as (F' & Ht').
    exists o, F', (toFree (o + 2 ^ bits) (o + 2 ^ r) false (popped s bits r o s1)). rewrite E.
    cbv zeta. rewrite (took_start _ _ _ _ _ _ _ Ht'). split; [done|]. split; [lia|done].
Qed.

(** ** The size to allocate *)

Lemma size_bits_spec bytes : forall n b, 0 <= b <= 13 -> Z.of_nat n = 15 - b ->
  (b = 0 \/ 2 ^ (b - 1 + 12) < bytes) ->
  match size_bits n 13 b (2 ^ (b + 12)) bytes with
  | Some b' => 0 <= b' <= 13 /\ bytes <= 2 ^ (b' + 12) /\ (b' = 0 \/ 2 ^ (b' - 1 + 12) < bytes)
  | None => 2 ^ (13 + 12) < bytes
  end.
Proof.
  induction n as [|n IH]; intros b Hb Hn Hlow; [lia|]. cbn [size_bits].
  destruct (Z.leb_spec bytes (2 ^ (b + 12))); [done|].
  destruct (Z.leb_spec 13 b); [replace b with 13 in * by lia; done|].
  assert (E : u64 (Z.shiftl (2 ^ (b + 12)) 1) = 2 ^ (b + 1 + 12)).
  { rewrite Z.shiftl_mul_pow2, <-Z.pow_add_r by lia. replace (b + 12 + 1) with (b + 1 + 12) by lia.
    apply wrap_small. split; [lia|]. apply Z.pow_lt_mono_r; lia. }
  rewrite E, (proj2 (Z.eqb_neq _ _)) by (pose proof (Z.pow_pos_nonneg 2 (b + 1 + 12)); lia).
  apply IH; [lia|lia|]. right. by replace (b + 1 - 1) with b by lia.
Qed.

(** The smallest block that holds a number of bytes. *)
Definition smallest_for (bytes b : Z) : Prop :=
  bytes <= 4096 * 2 ^ b /\ (b = 0 \/ 4096 * 2 ^ (b - 1) < bytes).

(** Allocation. On a well-formed state [Malloc] either succeeds, with the address
    of an aligned block that was free and is of the smallest size that holds the
    request: the block leaves the free store and joins the allocated ones, the state
    stays well formed and no word outside the free store is touched; or no free block
    is large enough, and then it reports so and changes nothing. In particular, it
    never reports an internal error. *)
Lemma Malloc_ok s F A bytes :
  inv s F A ->
  (exists o b s' F', Malloc bytes true s = (kIOReturnSuccess, Some (s.(poolStart) + 4096 * o), s') /\
     size_ok b /\ smallest_for bytes b /\ took s F A o b s' F') \/
  (exists ret, Malloc bytes true s = (ret, None, s) /\ (ret = kIOReturnNoMemory \/ ret = kIOReturnNoResources) /\
     forall b, size_ok b -> bytes <= 4096 * 2 ^ b -> F b = []).
Proof.
  intros Hi. pose proof (inv_store _ _ _ Hi) as [[Emin Enum Hblk] _ _ _ _]. unfold Malloc. cbn [negb].
  rewrite Emin, Enum. pose proof (size_bits_spec bytes (Z.to_nat (13 + 2)) 0) as Hsz.
  change (u64 (Z.shiftl 1 12)) with (2 ^ (0 + 12)).
  assert (E12 : forall b, 0 <= b -> 2 ^ (b + 12) = 4096 * 2 ^ b) by (intros; rewrite Z.pow_add_r by lia; lia).
  destruct (size_bits _ _ _ _ _) as [b|].
  - destruct Hsz as (Hb & Hle & Hmin); [lia|lia|by left|]. rewrite E12 in Hle by lia.
    destruct (BuddyMalloc_spec s F A b Hi Hb) as [(o & F' & s' & E & Hlt & Ht)|[E Hn]].
    + left. exists o, b, s', F'. split; [done|]. split; [unfold size_ok; lia|]. split; [|done]. split; [done|].
      destruct Hmin as [?|Hmin]; [by left|]. destruct (Z.eq_dec b 0); [by left|]. right.
      by rewrite E12 in Hmin by lia.
    + right. exists kIOReturnNoMemory. split; [done|]. split; [by left|]. intros q Hq Hfit. apply Hn.
      unfold size_ok in Hq. split; [|lia]. destruct Hmin as [->|Hmin]; [lia|].
      destruct (Z.lt_ge_cases q b) as [Hlt|]; [|done]. exfalso.
      destruct (Z.eq_dec b 0); [lia|]. rewrite E12 in Hmin by lia.
      pose proof (Z.pow_le_mono_r 2 q (b - 1)). lia.
  - right. exists kIOReturnNoResources. split; [done|]. split; [by right|]. intros q Hq Hfit. exfalso.
    specialize (Hsz ltac:(lia) ltac:(lia) ltac:(by left)). unfold size_ok in Hq.
    pose proof (Z.pow_lt_mono_r 2 q 13). lia.
Qed.
