(* ===== verification/AllocatorFree.v ===== *)
(** What releasing a block does to the sets of free and of allocated blocks: its
    size is found from the bitmap, and it is merged with its free buddies. *)

From S2P Require Import Prelude IOKit Dll Allocator AllocatorBits AllocatorLists AllocatorProofs AllocatorMalloc.
From stdpp Require Import list.

#[local] Open Scope Z_scope.

Implicit Types (s : CEsvga2Allocator) (F : Z -> list Z).

#[local] Abbreviation first := (first OURNULL).

(** ** Buddies *)

Lemma lxor_even j : Z.lxor (2 * j) 1 = 2 * j + 1.
Proof.
  symmetry. apply Z.add_nocarry_lxor. change 1 with (Z.ones 1). rewrite Z.land_ones by lia.
  rewrite Z.mul_comm. apply Z.mod_mul. lia.
Qed.

Lemma buddy_cases cur k :
  0 <= k -> cur mod 2 ^ k = 0 ->
  (Z.lxor cur (2 ^ k) = cur + 2 ^ k /\ cur mod 2 ^ (k + 1) = 0) \/
  (Z.lxor cur (2 ^ k) = cur - 2 ^ k /\ (cur - 2 ^ k) mod 2 ^ (k + 1) = 0).
Proof.
  intros Hk Hm. pose proof (Z.pow_pos_nonneg 2 k ltac:(lia) Hk) as Hpos.
  apply Z.mod_divide in Hm as [m ->]; [|lia].
  rewrite <-(Z.mul_1_l (2 ^ k)) at 2 7. rewrite <-!Z.shiftl_mul_pow2, <-Z.shiftl_lxor, !Z.shiftl_mul_pow2 by done.
  rewrite Z.pow_add_r, Z.pow_1_r by lia. destruct (Z.Even_or_Odd m) as [[j ->]|[j ->]].
  - left. rewrite lxor_even. split; [lia|]. apply Z.mod_divide; [lia|]. exists j. lia.
  - right. rewrite <-lxor_even, Z.lxor_assoc, Z.lxor_nilpotent, Z.lxor_0_r, lxor_even. split; [lia|].
    apply Z.mod_divide; [lia|]. exists j. lia.
Qed.

(** An aligned block that holds the last cell of an aligned range either ends with
    it or contains the range of twice the size around it. *)
Lemma aligned_end o b k x :
  0 <= b -> 0 <= k -> o mod 2 ^ b = 0 -> x mod 2 ^ k = 0 -> o <= x - 1 < o + 2 ^ b ->
  (b <= k /\ o + 2 ^ b = x) \/
  (k < b /\ forall p, p mod 2 ^ (k + 1) = 0 -> p <= x - 1 < p + 2 ^ (k + 1) -> o <= p /\ p + 2 ^ (k + 1) <= o + 2 ^ b).
Proof.
  intros Hb Hk Ho Hx Hin. pose proof (Z.pow_pos_nonneg 2 b ltac:(lia) Hb) as Hpb.
  pose proof (Z.pow_pos_nonneg 2 k ltac:(lia) Hk) as Hpk.
  apply Z.mod_divide in Ho as [u ->]; [|lia]. apply Z.mod_divide in Hx as [v ->]; [|lia].
  destruct (Z.le_gt_cases b k) as [Hle|Hgt].
  - left. split; [done|]. replace k with (k - b + b) in * by lia. rewrite Z.pow_add_r in * by lia.
    rewrite Z.mul_assoc in *. set (w := v * 2 ^ (k - b)) in *. assert (w = u + 1) by nia. nia.
  - right. split; [done|]. intros p Hp Hpx. assert (0 < 2 ^ (k + 1)) by (apply Z.pow_pos_nonneg; lia).
    apply Z.mod_divide in Hp as [w ->]; [|lia]. set (c := 2 ^ (k + 1)) in *. set (z := 2 ^ (b - (k + 1))).
    assert (E : 2 ^ b = z * c) by (unfold z, c; rewrite <-Z.pow_add_r by lia; f_equal; lia).
    rewrite E, ?Z.mul_assoc in *. set (y := u * z) in *.
    assert (y <= w) by (apply Z.lt_succ_r, (Z.mul_lt_mono_pos_r c); lia).
    assert (w < y + z) by (apply (Z.mul_lt_mono_pos_r c); lia). nia.
Qed.

(** ** A block between allocated and free *)

(** The block at [cur] is taken from both sets; its bit in the bitmap is clear. *)
Record limbo s F (A : list (Z * Z)) (cur bits : Z) : Prop := {
  lim_store : store_ok s F;
  lim_alloc o b : (o, b) ∈ (cur, bits) :: A -> size_ok b /\ 0 <= o /\ o + 2 ^ b <= s.(poolBlocks) /\ o mod 2 ^ b = 0;
  lim_nodup : NoDup (cells F ++ acells ((cur, bits) :: A));
  lim_alloc_bits o b n : (o, b) ∈ A -> n ∈ area o b -> BITTEST s n = (n =? o + 2 ^ b - 1);
  lim_foreign n : 0 <= n < s.(poolBlocks) -> n ∉ cells F -> n ∉ acells ((cur, bits) :: A) -> BITTEST s n = true;
}.

Section buddy.
Context (s : CEsvga2Allocator) (F : Z -> list Z) (A : list (Z * Z)) (cur bits : Z).
Hypothesis Hlim : limbo s F A cur bits.

Let buddy := Z.lxor cur (2 ^ bits).
Let parent := Z.min cur buddy.

Lemma cur_ok : size_ok bits /\ 0 <= cur /\ cur + 2 ^ bits <= s.(poolBlocks) /\ cur mod 2 ^ bits = 0.
Proof using Hlim. apply (lim_alloc _ _ _ _ _ Hlim). left. Qed.

Lemma parent_ok :
  parent mod 2 ^ (bits + 1) = 0 /\ buddy mod 2 ^ bits = 0 /\ 0 <= parent /\
  ((cur = parent /\ buddy = parent + 2 ^ bits) \/ (buddy = parent /\ cur = parent + 2 ^ bits)).
Proof using Hlim.
  destruct cur_ok as (Hb & H0 & H1 & Ha). pose proof (pow2_pos bits Hb) as Hpos. unfold size_ok in Hb.
  pose proof (buddy_cases cur bits ltac:(lia) Ha) as Hc. fold buddy in Hc. unfold parent.
  apply Z.mod_divide in Ha as [v Hv]; [|lia].
  destruct Hc as [[E Hm]|[E Hm]]; rewrite E in *.
  - rewrite Z.min_l by lia. split; [done|]. split; [apply Z.mod_divide; [lia|]; exists (v + 1); lia|].
    split; [done|]. left. lia.
  - rewrite Z.min_r by lia. split; [done|]. split; [apply Z.mod_divide; [lia|]; exists (v - 1); lia|].
    split; [|right; lia]. apply Z.mod_divide in Hm as [w Hw]; [|apply Z.pow_nonzero; lia].
    rewrite Z.pow_add_r, Z.pow_1_r in Hw by lia. destruct (Z.le_gt_cases 0 w); nia.
Qed.

(** The last cell of the buddy is not in a block that contains both. *)
Lemma buddy_end o b :
  size_ok b -> o mod 2 ^ b = 0 -> (cur ∉ area o b) -> buddy + 2 ^ bits - 1 ∈ area o b ->
  b <= bits /\ o + 2 ^ b = buddy + 2 ^ bits.
Proof using Hlim.
  intros Hb Ho Hcur Hin. destruct cur_ok as (Hbits & H0 & H1 & Ha). destruct parent_ok as (Hp & Hbm & Hp0 & Hc).
  pose proof (pow2_pos bits Hbits) as Hpos. unfold size_ok in Hb, Hbits. rewrite elem_of_area in * by lia.
  destruct (aligned_end o b bits (buddy + 2 ^ bits)) as [?|[_ Hall]]; try done; try lia.
  - by rewrite Z.add_mod, Hbm, Z.mod_same, Z.add_0_l, Z.mod_0_l by lia.
  - destruct (Hall parent Hp) as [H2 H3]; rewrite Z.pow_add_r, Z.pow_1_r in * by lia; [lia|].
    destruct Hcur. lia.
Qed.

(** When the bit of the buddy's last cell is clear that cell is free, and its
    free block ends there. *)
Lemma buddy_free :
  buddy + 2 ^ bits <= s.(poolBlocks) -> BITTEST s (buddy + 2 ^ bits - 1) = false ->
  exists q b, size_ok b /\ q ∈ F b /\ b <= bits /\ q + 2 ^ b = buddy + 2 ^ bits.
Proof using Hlim.
  intros Hpast Hbit. destruct cur_ok as (Hbits & H0 & H1 & Ha). destruct parent_ok as (Hp & Hbm & Hp0 & Hc).
  pose proof (pow2_pos bits Hbits) as Hpos. pose proof (lim_nodup _ _ _ _ _ Hlim) as Hnd.
  apply NoDup_app in Hnd as (_ & Hd & Hna). rewrite acells_cons in Hna. apply NoDup_app in Hna as (_ & Hda & _).
  assert (Hcc : cur ∈ area cur bits) by (apply area_start; unfold size_ok in Hbits; lia).
  destruct (decide (buddy + 2 ^ bits - 1 ∈ cells F)) as [Hin|Hnin].
  { apply elem_of_cells in Hin as (b & q & Hb & Hq & Hin). exists q, b. split; [done|]. split; [done|].
    apply buddy_end; [done| | |done].
    - by apply (shape_aligned _ _ (so_shape _ _ (lim_store _ _ _ _ _ Hlim))).
    - intros Hx. apply (Hd cur); [apply elem_of_cells; by exists b, q|]. rewrite acells_cons. apply elem_of_app. by left. }
  exfalso. destruct (decide (buddy + 2 ^ bits - 1 ∈ acells ((cur, bits) :: A))) as [Hin|Hnin2].
  - rewrite acells_cons, elem_of_app in Hin. destruct Hin as [Hin|Hin].
    + rewrite elem_of_area in Hin by (unfold size_ok in Hbits; lia). lia.
    + apply elem_of_acells in Hin as (o & b & HA & Hin). rewrite (lim_alloc_bits _ _ _ _ _ Hlim o b) in Hbit by done.
      destruct (lim_alloc _ _ _ _ _ Hlim o b) as (Hb & _ & _ & Ho); [by right|].
      destruct (buddy_end o b) as [_ E]; [done|done| |done|].
      * intros Hx. apply (Hda cur Hcc). by apply (acells_in _ o b).
      * apply Z.eqb_neq in Hbit. lia.
  - rewrite (lim_foreign _ _ _ _ _ Hlim) in Hbit; [done| |done|done]. lia.
Qed.
End buddy.

(** ** Taking the buddy out *)

(** Words that are not headers of free blocks do not matter to the lists. *)
Lemma headers_words s s' F :
  linked s F -> magic s F -> s'.(freeList) = s.(freeList) ->
  (forall b q i, size_ok b -> q ∈ F b -> 0 <= i < 3 -> s'.(pool) (1024 * q + i) = s.(pool) (1024 * q + i)) ->
  linked s' F /\ magic s' F.
Proof.
  intros Hl Hm El Ew. split.
  - intros b Hb. destruct (Hl b Hb) as [Hd Hh]. rewrite El. split; [|done].
    apply (dll_ext (mem_links s)); [done|]. intros q Hq. unfold mem_links. by rewrite !(Ew b) by (done || lia).
  - intros b q Hb Hq. rewrite <-(Z.add_0_r (1024 * q)), (Ew b), Z.add_0_r by (done || lia). by apply (Hm b).
Qed.

Section unlink_buddy.
Context (s : CEsvga2Allocator) (F : Z -> list Z) (b o : Z) (l1 l2 : list Z).
Hypothesis Hs : store_ok s F.
Hypothesis Hb : size_ok b.
Hypothesis HF : F b = l1 ++ o :: l2.

Let F1 := upd F b (l1 ++ l2).
(** The trailer of the block is cleared first. *)
Let s1 := store (1024 * (o + 2 ^ b) - 1) 0 s.

Lemma rest_in b' q : size_ok b' -> q ∈ F1 b' -> q ∈ F b' /\ (q <> o) /\ (q + 2 ^ b' <> o + 2 ^ b).
Proof using Hs Hb HF.
  intros Hb' Hq. pose proof (so_shape _ _ Hs) as Hsh. unfold F1 in Hq.
  assert (Hin : q ∈ F b').
  { unfold upd in Hq. destruct (Z.eqb_spec b' b) as [->|]; [|done]. by apply (in_list F b o l1 l2). }
  assert (Ho : o ∈ F b) by (rewrite HF, elem_of_app, elem_of_cons; tauto).
  assert (Hne : ~ (q = o /\ b' = b)).
  { intros [-> ->]. rewrite upd_eq in Hq. destruct (so_linked _ _ Hs b Hb) as [(Hnd & _) _]. rewrite HF in Hnd.
    rewrite <-Permutation_middle in Hnd. by apply NoDup_cons in Hnd as [? _]. }
  split; [done|]. pose proof (pow2_pos b Hb). pose proof (pow2_pos b' Hb'). split.
  - intros ->. apply Hne. split; [done|]. by apply (start_unique _ _ _ o _ Hsh).
  - intros E. apply Hne. apply (cell_unique _ _ _ _ _ _ (o + 2 ^ b - 1) Hsh); try done;
      apply elem_of_area; unfold size_ok in *; lia.
Qed.

Lemma cleared_ok : params s1 /\ linked s1 F /\ magic s1 F /\ trailers s1 F1.
Proof using Hs Hb HF.
  destruct Hs as [Hp Hsh Hl Hm Ht]. split; [destruct Hp; by split|]. apply and_assoc. split.
  - apply (headers_words s); try done. intros b' q i Hb' Hq Hi. unfold s1, store. cbn [pool with_pool].
    apply upd_ne. lia.
  - intros b' q Hb' Hq. destruct (rest_in b' q Hb' Hq) as (Hin & _ & Hne). unfold s1, store. cbn [pool with_pool].
    rewrite upd_ne by lia. by apply Ht.
Qed.

Lemma unlink_buddy : exists s2, let s3 := zero_words (1024 * o) HEADER_LEN s2 in
  unlink_free b o s1 = Some s2 /\ store_ok s3 F1 /\ same_meta s s2 /\ same_meta s s3 /\
  s3.(freeBytes) = s.(freeBytes) /\ pool_frame (cells F) s s3.
Proof using Hs Hb HF.
  destruct cleared_ok as (Hp & Hl & Hm & Ht). pose proof (so_shape _ _ Hs) as Hsh.
  assert (Hsh1 : shape (poolBlocks s1) F) by done.
  destruct (unlink_free_eq s1 F b o l1 l2 Hp Hsh1 Hl Hm Hb HF) as (s2 & E & M & B & EP & EL).
  destruct (store_ok_unlink s1 s2 F b l1 o l2) as [Hok Hfr]; try done.
  exists s2. cbv zeta. set (s3 := zero_words _ _ s2). split; [done|].
  assert (Hw : forall i, (forall x, 0 <= x < 3 -> i <> 1024 * o + x) -> s3.(pool) i = s2.(pool) i).
  { intros i Hi. unfold s3, zero_words, HEADER_LEN. cbn [pool with_pool].
    pose proof (Hi (i - 1024 * o)). destruct (Z.leb_spec (1024 * o) i), (Z.ltb_spec i (1024 * o + 3)); cbn [andb]; lia. }
  split.
  - destruct (headers_words s2 s3 F1) as [H1 H2]; try apply Hok; [done| |].
    + intros b' q i Hb' Hq Hi. apply Hw. destruct (rest_in b' q Hb' Hq) as (_ & ? & _). lia.
    + destruct Hok as [[? ? ?] ? ? ? Ht2]. split; try done. intros b' q Hb' Hq. rewrite Hw by lia. by apply Ht2.
  - split; [exact M|]. split; [exact M|]. split; [exact B|].
    assert (Hoc : forall n, o <= n < o + 2 ^ b -> n ∈ cells F).
    { intros n Hn. apply elem_of_cells. exists b, o. split; [done|]. split; [rewrite HF, elem_of_app, elem_of_cons; tauto|].
      apply elem_of_area; [unfold size_ok in Hb|]; lia. }
    pose proof (pow2_pos b Hb). intros k Hk. rewrite Hw, Hfr; [|done|].
    + unfold s1, store. cbn [pool with_pool]. apply upd_ne. intros ->.
      replace (1024 * (o + 2 ^ b) - 1) with (1024 * (o + 2 ^ b - 1) + 1023) in Hk by lia.
      rewrite header_div in Hk by lia. apply Hk, Hoc. lia.
    + intros x Hx ->. rewrite header_div in Hk by lia. apply Hk, Hoc. lia.
Qed.
End unlink_buddy.

(** ** Merging *)

Lemma area_parent s F A cur bits :
  limbo s F A cur bits ->
  area (Z.min cur (Z.lxor cur (2 ^ bits))) (bits + 1) ≡ₚ area cur bits ++ area (Z.lxor cur (2 ^ bits)) bits.
Proof.
  intros Hlim. destruct (cur_ok _ _ _ _ _ Hlim) as (Hb & _). pose proof (pow2_pos bits Hb).
  destruct (parent_ok _ _ _ _ _ Hlim) as (_ & _ & _ & Hc).
  set (buddy := Z.lxor _ _) in *. set (parent := Z.min _ _) in *.
  assert (E : area parent (bits + 1) = area parent bits ++ area (parent + 2 ^ bits) bits).
  { unfold area, size_ok in *. rewrite Z.pow_add_r, Z.pow_1_r by lia.
    replace (2 ^ bits * 2) with (2 ^ bits + 2 ^ bits) by lia. apply seqZ_app; lia. }
  rewrite E. clearbody parent buddy. destruct Hc as [[-> ->]|[-> ->]]; [done|]. apply Permutation_app_comm.
Qed.

Lemma limbo_merge s s' F A cur bits l1 l2 :
  let buddy := Z.lxor cur (2 ^ bits) in
  limbo s F A cur bits -> bits + 1 < 13 -> F bits = l1 ++ buddy :: l2 ->
  store_ok s' (upd F bits (l1 ++ l2)) -> same_meta s s' ->
  limbo s' (upd F bits (l1 ++ l2)) A (Z.min cur buddy) (bits + 1) /\
  cells (upd F bits (l1 ++ l2)) ++ area (Z.min cur buddy) (bits + 1) ≡ₚ cells F ++ area cur bits.
Proof.
  intros buddy Hlim Hlt HF Hs' M. destruct (cur_ok _ _ _ _ _ Hlim) as (Hb & H0 & H1 & _).
  pose proof (area_parent _ _ _ _ _ Hlim) as Hpar. destruct (parent_ok _ _ _ _ _ Hlim) as (Hpm & _ & Hp0 & Hc).
  fold buddy in Hpar, Hc, Hpm, Hp0. set (parent := Z.min cur buddy) in *.
  pose proof (cells_remove F bits l1 buddy l2 Hb HF) as Hcells. set (F1 := upd F bits (l1 ++ l2)) in *.
  assert (Hbud : buddy + 2 ^ bits <= s.(poolBlocks)).
  { apply (block_range _ F bits); [apply (lim_store _ _ _ _ _ Hlim)|done|]. rewrite HF, elem_of_app, elem_of_cons. tauto. }
  assert (Hperm : cells F1 ++ area parent (bits + 1) ≡ₚ cells F ++ area cur bits).
  { rewrite Hcells, Hpar. rewrite (Permutation_app_comm (area cur bits)), app_assoc. f_equiv. apply Permutation_app_comm. }
  assert (Hall : cells F1 ++ acells ((parent, bits + 1) :: A) ≡ₚ cells F ++ acells ((cur, bits) :: A)).
  { rewrite !acells_cons, !app_assoc. by rewrite Hperm. }
  pose proof M as (_ & MB & _). split; [|done]. split; [done| | | |].
  - intros o b [[= -> ->]|Hin]%elem_of_cons; [|rewrite MB; apply (lim_alloc _ _ _ _ _ Hlim); by right].
    rewrite MB. unfold size_ok in *. rewrite (Z.pow_add_r 2 bits 1), Z.pow_1_r in * by lia. repeat split; try done; lia.
  - rewrite Hall. apply (lim_nodup _ _ _ _ _ Hlim).
  - intros o b n. rewrite (same_meta_BITTEST _ _ _ M). apply (lim_alloc_bits _ _ _ _ _ Hlim).
  - intros n Hn H2 H3. rewrite (same_meta_BITTEST _ _ _ M), MB in *.
    assert (Hx : n ∉ cells F ++ acells ((cur, bits) :: A)) by (rewrite <-Hall, elem_of_app; tauto).
    rewrite elem_of_app in Hx. apply (lim_foreign _ _ _ _ _ Hlim); tauto.
Qed.

Lemma merge_spec A : forall n bits cur s F,
  limbo s F A cur bits -> Z.of_nat n = 12 - bits ->
  exists bits' cur' s' F', Allocator.merge n bits cur s = (true, bits', cur', s') /\ limbo s' F' A cur' bits' /\
    cells F' ++ area cur' bits' ≡ₚ cells F ++ area cur bits /\ same_meta s s' /\
    s'.(freeBytes) = s.(freeBytes) /\ pool_frame (cells F ++ area cur bits) s s'.
Proof.
  induction n as [|n IH]; intros bits cur s F Hlim Hn.
  { exists bits, cur, s, F. by split_and!. }
  assert (Hstop : exists bits' cur' s' F', (true, bits, cur, s) = (true, bits', cur', s') /\ limbo s' F' A cur' bits' /\
    cells F' ++ area cur' bits' ≡ₚ cells F ++ area cur bits /\ same_meta s s' /\
    s'.(freeBytes) = s.(freeBytes) /\ pool_frame (cells F ++ area cur bits) s s').
  { exists bits, cur, s, F. by split_and!. }
  destruct (cur_ok _ _ _ _ _ Hlim) as (Hb & H0 & H1 & Ha). pose proof (pow2_pos bits Hb) as Hpos.
  destruct (parent_ok _ _ _ _ _ Hlim) as (Hpm & Hbm & Hp0 & Hc).
  pose proof (lim_store _ _ _ _ _ Hlim) as Hs. pose proof Hs as [Hp Hsh Hl Hm Ht]. pose proof Hp as [Emin Enum Hblk].
  cbn [Allocator.merge]. rewrite pool_shl_eq by (unfold size_ok in Hb; lia).
  pose proof (buddy_free _ _ _ _ _ Hlim) as Hfree. pose proof (limbo_merge s) as Hmerge.
  set (buddy := Z.lxor cur (2 ^ bits)) in *. set (parent := Z.min cur buddy) in *.
  assert (Hp2 : 2 ^ bits <= 2 ^ 12) by (apply Z.pow_le_mono_r; unfold size_ok in *; lia).
  rewrite wrap_small by (split; lia).
  destruct (Z.ltb_spec s.(poolBlocks) (buddy + 2 ^ bits)) as [|Hle]; [done|].
  destruct (BITTEST s (buddy + 2 ^ bits - 1)) eqn:Ebit; [done|].
  destruct (Hfree Hle eq_refl) as (q & t & Hbt & Hq & Htb & Eq).
  rewrite at_block_eq by (done || lia). unfold OFF_BITS, OFF_MAGIC. replace (1024 * (buddy + 2 ^ bits) + -1) with (1024 * (q + 2 ^ t) - 1) by lia.
  rewrite Ht by done.
  replace (t + LEN_OFFSET - LEN_OFFSET) with t by lia.
  rewrite s32_small by (unfold size_ok in Hbt; lia).
  rewrite Enum, (proj2 (Z.ltb_ge t 0)), (proj2 (Z.leb_gt 13 t)) by (unfold size_ok in Hbt; lia). cbn [orb].
  destruct (Z.eqb_spec t bits) as [->|]; cbn [negb]; [|done]. replace q with buddy in * by lia. clear Eq.
  pose proof Hq as (l1 & l2 & HF)%list_elem_of_split.
  destruct (cleared_ok s F bits buddy l1 l2 Hs Hb HF) as (Hp1 & Hl1 & Hm1 & _).
  destruct (unlink_buddy s F bits buddy l1 l2 Hs Hb HF) as (s2 & E2 & Hok3 & M2 & M3 & B3 & Fr3).
  rewrite at_block_eq by (done || lia). rewrite Z.add_0_r, (Hm1 bits buddy), Z.eqb_refl by done. cbn [negb].
  destruct (Hl1 bits Hb) as [(_ & Hnn & _) Hh1]. rewrite Hh1, (proj2 (Z.eqb_neq _ OURNULL)).
  2:{ intros E. apply Hnn. rewrite <-E at 1. rewrite HF. destruct l1; left. }
  rewrite E2. destruct (Hmerge _ F A cur bits l1 l2 Hlim ltac:(lia) HF Hok3 M3) as [Hlim' Hperm].
  fold buddy in Hlim', Hperm. fold parent in Hlim', Hperm.
  replace (if buddy <? cur then buddy else cur) with parent by (unfold parent; destruct (Z.ltb_spec buddy cur); lia).
  destruct (IH (bits + 1) parent _ _ Hlim' ltac:(lia)) as (bits' & cur' & s' & F' & E' & HL & HP & HM & HB & HFr).
  exists bits', cur', s', F'. split; [done|]. split; [done|]. split; [by rewrite HP|].
  split; [by apply (same_meta_trans _ _ _ M3)|]. split; [by rewrite HB|].
  apply pool_frame_trans with (zero_words (1024 * buddy) HEADER_LEN s2).
  - eapply pool_frame_weaken; [exact Fr3|]. intros k Hk. apply elem_of_app. by left.
  - eapply pool_frame_weaken; [exact HFr|]. intros k. by rewrite Hperm.
Qed.

(** ** The size of an allocated block *)

Lemma aligned_smaller o t b : 0 <= t <= b -> o mod 2 ^ b = 0 -> o mod 2 ^ t = 0.
Proof.
  intros Ht Ho. assert (0 < 2 ^ t) by (apply Z.pow_pos_nonneg; lia). assert (0 < 2 ^ b) by (apply Z.pow_pos_nonneg; lia).
  apply Z.mod_divide in Ho as [k ->]; [|lia]. replace b with (b - t + t) by lia.
  rewrite Z.pow_add_r, Z.mul_assoc by lia. apply Z.mod_mul. lia.
Qed.

Lemma alloc_size_spec s F A o b :
  inv s F A -> (o, b) ∈ A -> forall n t, 0 <= t <= b -> b - t < Z.of_nat n ->
  alloc_size n o t (2 ^ t) s = Some b.
Proof.
  intros Hi HA. destruct (inv_alloc _ _ _ Hi o b HA) as (Hb & H0 & H1 & Ha).
  pose proof (inv_store _ _ _ Hi) as [[_ Enum _] _ _ _ _]. pose proof (pow2_pos b Hb).
  induction n as [|n IH]; intros t Ht Hn; [lia|]. cbn [alloc_size]. unfold size_ok in Hb.
  pose proof (Z.pow_le_mono_r 2 t b ltac:(lia) ltac:(lia)) as Hle.
  pose proof (Z.pow_pos_nonneg 2 t ltac:(lia) ltac:(lia)).
  rewrite (proj2 (Z.ltb_ge _ _)), Enum, (proj2 (Z.leb_gt 13 t)), land_low, (aligned_smaller o t b) by (done || lia).
  cbn [orb negb Z.eqb]. rewrite (inv_alloc_bits _ _ _ Hi o b) by (try apply elem_of_area; done || lia).
  destruct (Z.eq_dec t b) as [->|Hne]; [by rewrite Z.eqb_refl|].
  pose proof (Z.pow_lt_mono_r 2 t b ltac:(lia) ltac:(lia) ltac:(lia)).
  rewrite (proj2 (Z.eqb_neq _ _)), Z.shiftl_mul_pow2, <-Z.pow_add_r by lia. apply IH; lia.
Qed.

Lemma BuddyAllocSize_spec s F A o b :
  inv s F A -> (o, b) ∈ A ->
  BuddyAllocSize (s.(poolStart) + 4096 * o) s = (kIOReturnSuccess, Some b) /\
  Z.shiftr (s.(poolStart) + 4096 * o - s.(poolStart)) s.(minBits) = o.
Proof.
  intros Hi HA. destruct (inv_alloc _ _ _ Hi o b HA) as (Hb & H0 & H1 & Ha). pose proof (pow2_pos b Hb).
  pose proof (inv_store _ _ _ Hi) as [[Emin Enum _] _ _ _ _].
  assert (E : Z.shiftr (s.(poolStart) + 4096 * o - s.(poolStart)) s.(minBits) = o).
  { rewrite Emin, Z.shiftr_div_pow2 by lia. replace (_ + _ - _) with (o * 2 ^ 12) by lia. apply Z.div_mul. lia. }
  split; [|done]. unfold BuddyAllocSize. rewrite E, Emin, Z.shiftl_mul_pow2 by lia.
  rewrite (proj2 (Z.ltb_ge _ _)), (proj2 (Z.eqb_eq _ (o * 2 ^ 12))), (proj2 (Z.leb_gt _ _)) by lia. cbn [negb].
  change 1 with (2 ^ 0). rewrite Enum, (alloc_size_spec s F A o b) by (done || (unfold size_ok in Hb; lia)). done.
Qed.

(** ** Giving a block back *)

Lemma inv_perm s F A A' : A ≡ₚ A' -> inv s F A -> inv s F A'.
Proof.
  intros HA Hi. assert (Hac : acells A ≡ₚ acells A') by (unfold acells; by rewrite HA).
  destruct Hi as [? ? ? H1 H2 ? H3 H4]. split; try done.
  - intros o b. rewrite <-HA. apply H1.
  - by rewrite <-Hac.
  - intros o b n. rewrite <-HA. apply H3.
  - intros n. rewrite <-Hac. apply H4.
Qed.

Lemma inv_alloc_disjoint s F A o b n o' b' :
  inv s F ((o, b) :: A) -> (o', b') ∈ A -> n ∈ area o b -> n ∉ area o' b'.
Proof.
  intros Hi HA Hn Hn'. pose proof (inv_nodup _ _ _ Hi) as Hnd. rewrite acells_cons in Hnd.
  apply NoDup_app in Hnd as (_ & _ & (_ & Hd & _)%NoDup_app). apply (Hd n Hn). by apply (acells_in _ o' b').
Qed.

Section give.
Context (s : CEsvga2Allocator) (F : Z -> list Z) (A : list (Z * Z)) (o b : Z).
Hypothesis Hi : inv s F ((o, b) :: A).

Lemma given_ok : size_ok b /\ 0 <= o /\ o + 2 ^ b <= s.(poolBlocks) /\ o mod 2 ^ b = 0.
Proof using Hi. apply (inv_alloc _ _ _ Hi). left. Qed.

(** The last cell, whose bit is cleared, is in no other block. *)
Lemma last_ne o' b' n : (o', b') ∈ A -> n ∈ area o' b' -> n <> o + 2 ^ b - 1.
Proof using Hi.
  destruct given_ok as (Hb & _). pose proof (pow2_pos b Hb). intros HA Hn ->.
  apply (inv_alloc_disjoint s F A o b (o + 2 ^ b - 1) o' b'); try done. apply elem_of_area; unfold size_ok in Hb; lia.
Qed.

Lemma limbo_start : limbo (BITCLEAR (o + 2 ^ b - 1) s) F A o b.
Proof using Hi.
  destruct given_ok as (Hb & _). pose proof (pow2_pos b Hb). split.
  - by apply (store_ok_same s); try apply (inv_store _ _ _ Hi).
  - apply (inv_alloc _ _ _ Hi).
  - apply (inv_nodup _ _ _ Hi).
  - intros o' b' n HA Hn. rewrite BITTEST_clear, (inv_alloc_bits _ _ _ Hi o' b') by (done || by right).
    by rewrite (proj2 (Z.eqb_neq n (o + 2 ^ b - 1))) by (by apply (last_ne o' b')).
  - intros n Hn H1 H2. rewrite BITTEST_clear, (inv_foreign _ _ _ Hi), andb_true_r by done.
    apply negb_true_iff, Z.eqb_neq. intros ->. apply H2, (acells_in _ o b); [left|].
    apply elem_of_area; unfold size_ok in Hb; lia.
Qed.

Lemma inv_give s' F' :
  store_ok s' F' -> accounted s' F' -> bytes_ok s' -> s'.(poolBlocks) = s.(poolBlocks) ->
  cells F' ≡ₚ area o b ++ cells F ->
  (forall k, BITTEST s' k = negb (k =? o + 2 ^ b - 1) && BITTEST s k) -> inv s' F' A.
Proof using Hi.
  intros Hs Hacc Hby Eb Hc Hbit. destruct given_ok as (Hb & _). pose proof (pow2_pos b Hb).
  assert (Hall : cells F' ++ acells A ≡ₚ cells F ++ acells ((o, b) :: A)).
  { rewrite acells_cons, Hc, app_assoc. f_equiv. apply Permutation_app_comm. }
  split; try done.
  - intros o' b' HA. rewrite Eb. apply (inv_alloc _ _ _ Hi). by right.
  - rewrite Hall. apply (inv_nodup _ _ _ Hi).
  - intros n Hn. rewrite Hbit. rewrite Hc, elem_of_app in Hn. destruct Hn as [Hn|Hn].
    + rewrite (inv_alloc_bits _ _ _ Hi o b n) by (done || left). by destruct (n =? o + 2 ^ b - 1).
    + by rewrite (inv_free_bits _ _ _ Hi n), andb_false_r.
  - intros o' b' n HA Hn. rewrite Hbit, (inv_alloc_bits _ _ _ Hi o' b') by (done || by right).
    by rewrite (proj2 (Z.eqb_neq n (o + 2 ^ b - 1))) by (by apply (last_ne o' b')).
  - intros n Hn H1 H2. rewrite Eb in Hn.
    assert (Hx : n ∉ cells F ++ acells ((o, b) :: A)) by (rewrite <-Hall, elem_of_app; tauto).
    rewrite elem_of_app in Hx. rewrite Hbit, (inv_foreign _ _ _ Hi), andb_true_r by tauto.
    apply negb_true_iff, Z.eqb_neq. intros ->. apply Hx. right. apply (acells_in _ o b); [left|].
    apply elem_of_area; unfold size_ok in Hb; lia.
Qed.
End give.

(** The end of [Free]: the merged block becomes the first of its list. *)
Definition free_push (bits blockOff freed : Z) s : IOReturn * CEsvga2Allocator :=
  let sptr := at_block s blockOff in
  let s := store (sptr + OFF_MAGIC) MAGIC s in
  let s := store (sptr + OFF_PREV) OURNULL s in
  let nextOffset := s.(freeList) bits in
  let nextPtr := at_block s nextOffset in
  if negb (nextOffset =? OURNULL) &&
     ((s.(poolBlocks) <=? nextOffset) || negb (s.(pool) (nextPtr + OFF_MAGIC) =? MAGIC)
      || negb (s.(pool) (nextPtr + OFF_PREV) =? OURNULL))
  then (kIOReturnInternalError, s)
  else
    let s := if negb (nextOffset =? OURNULL) then store (nextPtr + OFF_PREV) blockOff s else s in
    let s := store (sptr + OFF_NEXT) nextOffset s in
    let s := store (sptr + Z.shiftl 1 (s.(minBits) + bits) / 4 + OFF_BITS) (bits + LEN_OFFSET) s in
    let s := with_list bits blockOff s in
    (kIOReturnSuccess, with_bytes (u32 (s.(freeBytes) + pool_shl (freed + s.(minBits)))) s).

Lemma Free_unfold storage s bits :
  storage <> 0 -> BuddyAllocSize storage s = (kIOReturnSuccess, Some bits) ->
  Free storage s =
    let blockOff := Z.shiftr (storage - s.(poolStart)) s.(minBits) in
    match Allocator.merge (Z.to_nat (s.(numSizes) - 1 - bits)) bits blockOff (BITCLEAR (blockOff + pool_shl bits - 1) s) with
    | (false, _, _, s) => (kIOReturnInternalError, s)
    | (true, bits', blockOff, s) => free_push bits' blockOff bits s
    end.
Proof. intros H0 E. unfold Free. by rewrite (proj2 (Z.eqb_neq _ _) H0), E. Qed.

Lemma first_header s F b :
  store_ok s F -> size_ok b -> first (F b) <> OURNULL ->
  first (F b) ∈ F b /\ 0 <= first (F b) < s.(poolBlocks) /\
  s.(pool) (1024 * first (F b)) = MAGIC /\ s.(pool) (1024 * first (F b) + 1) = OURNULL.
Proof.
  intros [Hp Hsh Hl Hm Ht] Hb Hne. destruct (first_in OURNULL (F b)) as [|Hin]; [done|].
  split; [done|]. destruct (block_range _ _ _ _ Hsh Hb Hin). pose proof (pow2_pos b Hb). split; [lia|].
  split; [by apply (Hm b)|]. destruct (Hl b Hb) as [(_ & _ & Hg) _]. destruct (F b) as [|q l] eqn:E; [done|].
  specialize (Hg [] q l eq_refl). by injection Hg.
Qed.

Lemma free_push_eq s F b o freed :
  store_ok s F -> size_ok b -> 0 <= o -> o + 2 ^ b <= s.(poolBlocks) ->
  (forall n, n ∈ area o b -> n ∉ cells F) ->
  exists s', free_push b o freed s = (kIOReturnSuccess, s') /\ same_meta s s' /\
    (forall i, s'.(pool) i = pushed_pool s F b o i) /\ (forall b', s'.(freeList) b' = upd s.(freeList) b o b') /\
    s'.(freeBytes) = u32 (s.(freeBytes) + pool_shl (freed + s.(minBits))).
Proof.
  intros Hs Hb H0 H1 Hnew. pose proof (pow2_pos b Hb) as Hpos.
  assert (Hfo : first (F b) <> o) by (apply (first_ne s F b o); try apply Hs; done).
  pose proof (first_header s F b Hs Hb) as Hf.
  pose proof Hs as [Hp Hsh Hl _ _]. pose proof Hp as [Emin _ Hblk]. destruct (Hl b Hb) as [_ Hh].
  unfold free_push, pushed_pool, OFF_MAGIC, OFF_PREV, OFF_NEXT, OFF_BITS. cbv zeta.
  assert (Eat : forall k v x n, at_block (store k v x) n = at_block x n) by done. rewrite !Eat.
  cbn [freeList store with_pool poolBlocks pool]. rewrite Hh.
  assert (Ew : Z.shiftl 1 (12 + b) / 4 = 1024 * 2 ^ b).
  { unfold size_ok in Hb. rewrite Z.shiftl_1_l, Z.pow_add_r by lia. change (2 ^ 12) with (1024 * 4).
    replace (1024 * 4 * 2 ^ b) with (1024 * 2 ^ b * 4) by lia. apply Z.div_mul. lia. }
  rewrite (at_block_eq s o Hp), !Z.add_0_r by lia.
  destruct (Z.eqb_spec (first (F b)) OURNULL) as [E|E]; cbn [negb andb].
  - eexists. split; [reflexivity|]. cbn [minBits store with_pool pool freeList with_list with_bytes freeBytes].
    rewrite Emin, Ew. split; [done|]. split; [|done]. intros i. unfold upd. zcase.
  - destruct (Hf E) as (Hin & Hr & E1 & E2). rewrite (at_block_eq s (first (F b)) Hp) by lia.
    rewrite !upd_ne, E1, E2, !Z.eqb_refl, (proj2 (Z.leb_gt _ _)) by lia. cbn [orb negb].
    eexists. split; [reflexivity|]. cbn [minBits store with_pool pool freeList with_list with_bytes freeBytes].
    rewrite Emin, Ew. split; [done|]. split; [|done]. intros i. unfold upd. zcase.
Qed.

(** Release. [Free] of the address of an allocated block succeeds: it never
    reports corruption or a bad address. The block, of the size that was allocated,
    leaves the allocated ones and its cells join the free store, merged with its free
    buddies; the state stays well formed and no word outside the free store and the
    block is touched. *)
Lemma Free_ok s F A o b :
  inv s F ((o, b) :: A) -> 0 < s.(poolStart) ->
  exists s' F', Free (s.(poolStart) + 4096 * o) s = (kIOReturnSuccess, s') /\ inv s' F' A /\
    cells F' ≡ₚ area o b ++ cells F /\ s'.(poolStart) = s.(poolStart) /\
    pool_frame (area o b ++ cells F) s s'.
Proof.
  intros Hi Hstart. destruct (given_ok _ _ _ _ _ Hi) as (Hb & H0 & H1 & Ha). pose proof (pow2_pos b Hb).
  destruct (BuddyAllocSize_spec s F ((o, b) :: A) o b Hi) as [E1 E2]; [left|].
  rewrite (Free_unfold _ _ b) by (done || lia). cbv zeta. rewrite E2, pool_shl_eq by (unfold size_ok in Hb; lia).
  set (s1 := BITCLEAR _ s). pose proof (inv_store _ _ _ Hi) as [[Emin Enum Hblk] _ _ _ _]. rewrite Enum.
  destruct (merge_spec A (Z.to_nat (13 - 1 - b)) b o s1 F) as (b' & o' & s2 & F2 & -> & Hlim & Hperm & M & B & Fr).
  { by apply limbo_start. }
  { unfold size_ok in Hb. lia. }
  destruct (cur_ok _ _ _ _ _ Hlim) as (Hb' & H0' & H1' & Ha'). pose proof (lim_store _ _ _ _ _ Hlim) as Hs2.
  assert (Hnew : forall n, n ∈ area o' b' -> n ∉ cells F2).
  { pose proof (lim_nodup _ _ _ _ _ Hlim) as Hnd. rewrite acells_cons in Hnd. apply NoDup_app in Hnd as (_ & Hd & _).
    intros n Hn Hc. apply (Hd n Hc). apply elem_of_app. by left. }
  destruct (free_push_eq s2 F2 b' o' b Hs2 Hb' H0' H1' Hnew) as (s3 & -> & M3 & EP & EL & EB).
  destruct (store_ok_push s2 s3 F2 b' o') as [Hok Hfr]; try done.
  pose proof (cells_push F2 b' o' Hb') as Hcp. set (F3 := upd F2 b' (o' :: F2 b')) in *.
  assert (Hc3 : cells F3 ≡ₚ area o b ++ cells F).
  { by rewrite Hcp, Permutation_app_comm, Hperm, Permutation_app_comm. }
  pose proof (same_meta_trans _ _ _ M M3) as M13. pose proof M13 as (MS & MB & _).
  exists s3, F3. split; [done|]. split; [|split; [done|]; split; [done|]].
  - apply (inv_give s F A o b Hi); try done.
    + unfold accounted. rewrite EB, B. destruct M as (_ & _ & -> & _). change (minBits s1) with (minBits s).
      change (freeBytes s1) with (freeBytes s). rewrite Emin, pool_shl_eq, (inv_account _ _ _ Hi) by (unfold size_ok in Hb; lia).
      pose proof (cells_bound _ _ (so_shape _ _ Hok)) as Hbd. rewrite MB in Hbd. change (poolBlocks s1) with (poolBlocks s) in Hbd.
      rewrite Hc3, length_app, Nat2Z.inj_add, length_area in * by (unfold size_ok in Hb; lia).
      rewrite Z.pow_add_r by (unfold size_ok in Hb; lia). rewrite wrap_small; [lia|split; lia].
    + apply (bytes_ok_meta _ _ M13). apply bytes_ok_clear, (inv_bytes _ _ _ Hi).
    + intros k. rewrite (same_meta_BITTEST _ _ k M13). apply BITTEST_clear.
  - apply pool_frame_trans with s2.
    + intros k Hk. rewrite Fr; [done|]. by rewrite Permutation_app_comm.
    + eapply pool_frame_weaken; [exact Hfr|]. intros k. by rewrite <-Hcp, Hc3.
Qed.
