(* ===== verification/AllocatorInit.v ===== *)
(** The start of the allocator: [Init] gives a well-formed state in which all blocks
    are set aside, and [Release] adds a range of them to the free store. [Check]
    accepts every well-formed state. *)

From S2P Require Import Prelude IOKit Dll Allocator AllocatorBits AllocatorLists AllocatorProofs AllocatorMalloc AllocatorFree.
From stdpp Require Import list.

#[local] Open Scope Z_scope.

Implicit Types (s : CEsvga2Allocator) (F : Z -> list Z).

#[local] Abbreviation first := (first OURNULL).

(** ** Init *)

Definition no_blocks : Z -> list Z := fun _ => [].

Lemma cells_none : cells no_blocks = [].
Proof. done. Qed.

Lemma store_ok_none s :
  params s -> (forall b, size_ok b -> s.(freeList) b = OURNULL) -> store_ok s no_blocks.
Proof.
  intros Hp Hl. split; [done| | | |].
  - split; rewrite ?cells_none; [constructor|intros n Hn; by apply not_elem_of_nil in Hn|].
    intros b o _ Ho. by apply not_elem_of_nil in Ho.
  - intros b Hb. split; [apply dll_nil|]. by apply Hl.
  - intros b o _ Ho. by apply not_elem_of_nil in Ho.
  - intros b o _ Ho. by apply not_elem_of_nil in Ho.
Qed.

Lemma Init_spec start bytes s :
  Z.land start (2 ^ 12 - 1) = 0 -> is_u32 bytes ->
  exists s', Init start bytes true s = (kIOReturnSuccess, s') /\ inv s' no_blocks [] /\
    s'.(poolStart) = start /\ s'.(poolBlocks) = bytes / 4096 /\ s'.(pool) = s.(pool).
Proof.
  intros Ha Hb. unfold Init. rewrite Ha, wrap_small, !Z.eqb_refl by done. cbn [negb].
  eexists. split; [reflexivity|].
  assert (Hblk : 0 <= bytes / 4096 < 2 ^ 20).
  { destruct Hb. split; [apply Z.div_pos; lia|]. apply Z.div_lt_upper_bound; lia. }
  rewrite Z.shiftr_div_pow2 by lia. change (2 ^ 12) with 4096. rewrite wrap_small by (split; lia).
  set (s' := Build_CEsvga2Allocator _ _ _ _ _ _ _ _ _).
  split; [|split; [done|]; split; [done|]; unfold s', ReleaseMap; by destruct (map_allocated s)].
  assert (Hbyte : forall i, 0 <= i < Z.shiftr (bytes / 4096 + 7) 3 -> Allocator.map s' i = 0xFF).
  { intros i Hi. unfold s'. cbn [Allocator.map]. by rewrite (proj2 (Z.leb_le _ _)), (proj2 (Z.ltb_lt _ _)) by lia. }
  split.
  - apply store_ok_none; [done|]. intros b Hb'. unfold s'. cbn [freeList]. unfold size_ok in Hb'.
    by rewrite (proj2 (Z.leb_le _ _)), (proj2 (Z.ltb_lt _ _)) by lia.
  - done.
  - intros i Hi. rewrite Hbyte by done. done.
  - intros o b Ho. by apply not_elem_of_nil in Ho.
  - constructor.
  - intros n Hn. by apply not_elem_of_nil in Hn.
  - intros o b n Ho. by apply not_elem_of_nil in Ho.
  - intros n Hn _ _. rewrite BITTEST_bit, Hbyte.
    + pose proof (Z.mod_pos_bound n 8 ltac:(lia)). change 0xFF with (Z.ones 8). apply Z.ones_spec_low. lia.
    + change (poolBlocks s') with (bytes / 4096) in Hn. rewrite shiftr_3. split; [apply Z.div_pos; lia|].
      apply Z.lt_le_trans with (n / 8 + 1); [lia|]. replace (n / 8 + 1) with ((n + 1 * 8) / 8) by (rewrite Z.div_add; lia).
      apply Z.div_le_mono; lia.
Qed.

(** ** Release *)

Lemma bytes_ok_clear_bits l : forall s, bytes_ok s -> bytes_ok (clear_bits l s).
Proof.
  unfold clear_bits. induction l as [|i l IH]; intros s Hs; [done|]. cbn [foldl]. by apply IH, bytes_ok_clear.
Qed.

Lemma bytes_ok_clearAll a e s : bytes_ok s -> bytes_ok (clearAll a e s).
Proof.
  intros Hs. unfold clearAll. apply bytes_ok_clear_bits. pose proof (bytes_ok_clear_bits
    (seqZ a ((if first_full a <? e then first_full a else e) - a)) s Hs) as H1.
  destruct (_ <? past_full e); [|done]. intros i Hi. unfold zero_bytes. cbn [Allocator.map with_map].
  destruct (_ && _); [done|by apply H1].
Qed.

(** Blocks that were set aside become free. *)
Lemma inv_release s s' F F' A a e :
  inv s F A -> store_ok s' F' -> accounted s' F' -> bytes_ok s' -> s'.(poolBlocks) = s.(poolBlocks) ->
  (forall n, a <= n < e -> n ∉ acells A) -> cells F' ≡ₚ seqZ a (e - a) ++ cells F ->
  (forall k, BITTEST s' k = negb (AllocatorBits.between a e k) && BITTEST s k) -> inv s' F' A.
Proof.
  intros Hi Hs Hacc Hby Eb Hnew Hc Hbit.
  assert (Hout : forall n, n ∈ acells A -> AllocatorBits.between a e n = false).
  { intros n Hn. unfold AllocatorBits.between. destruct (Z.leb_spec a n), (Z.ltb_spec n e); try done. by destruct (Hnew n). }
  pose proof (inv_nodup _ _ _ Hi) as Hnd. apply NoDup_app in Hnd as (_ & Hd & Hna).
  split; try done.
  - intros o b. rewrite Eb. apply (inv_alloc _ _ _ Hi).
  - apply NoDup_app. split; [apply (so_shape _ _ Hs)|]. split; [|done].
    intros n. rewrite Hc, elem_of_app, elem_of_seqZ. intros [Hn|Hn]; [apply Hnew; lia|by apply Hd].
  - intros n. rewrite Hbit, Hc, elem_of_app, elem_of_seqZ. intros [Hn|Hn].
    + unfold AllocatorBits.between. rewrite (proj2 (Z.leb_le _ _)), (proj2 (Z.ltb_lt _ _)) by lia. done.
    + by rewrite (inv_free_bits _ _ _ Hi n), andb_false_r.
  - intros o b n HA Hn. rewrite Hbit, Hout by (by apply (acells_in _ o b)). by apply (inv_alloc_bits _ _ _ Hi).
  - intros n Hn. rewrite Hc, elem_of_app, elem_of_seqZ. intros Hf Hal.
    rewrite Hbit, (inv_foreign _ _ _ Hi n), andb_true_r by (rewrite ?Eb in Hn; tauto).
    unfold AllocatorBits.between. destruct (Z.leb_spec a n), (Z.ltb_spec n e); try done. destruct Hf. left. lia.
Qed.

(** Adding memory. [Release] of a range of blocks that are set aside (neither
    free nor allocated, as all are after [Init]) succeeds; exactly these blocks
    join the free store, the allocated blocks stay, the state stays well formed, and
    no word outside the free store is written. *)
Lemma Release_ok s F A a e :
  inv s F A -> 0 <= a < s.(poolBlocks) -> 0 <= e <= s.(poolBlocks) ->
  (forall n, a <= n < e -> (n ∉ cells F) /\ (n ∉ acells A)) ->
  exists s' F', Release (4096 * a) (4096 * e) s = (kIOReturnSuccess, s') /\ inv s' F' A /\
    cells F' ≡ₚ seqZ a (e - a) ++ cells F /\ s'.(poolStart) = s.(poolStart) /\
    pool_frame (seqZ a (e - a) ++ cells F) s s'.
Proof.
  intros Hi Ha He Hnew. pose proof (inv_store _ _ _ Hi) as Hs. pose proof Hs as [[Emin Enum Hblk] _ _ _ _].
  assert (Hal : forall x, Z.land (4096 * x) (Z.shiftl 1 12 - 1) = 0).
  { intros x. change (Z.shiftl 1 12) with (2 ^ 12). rewrite land_low by lia. change 4096 with (2 ^ 12).
    rewrite Z.mul_comm. apply Z.mod_mul. lia. }
  assert (Hsh : forall x, Z.shiftr (4096 * x) 12 = x).
  { intros x. rewrite Z.shiftr_div_pow2, Z.mul_comm by lia. apply Z.div_mul. lia. }
  unfold Release. rewrite Emin, !Hal, !Hsh, (proj2 (Z.leb_gt _ _)), (proj2 (Z.ltb_ge _ _)) by lia. cbn [negb Z.eqb orb].
  unfold clearCheck. rewrite testAll_true; [|lia|lia|apply Hi|].
  2:{ intros k Hk. destruct (Hnew k Hk). apply (inv_foreign _ _ _ Hi); try done. lia. }
  cbn [negb]. destruct (clearAll_fields s a e) as [f Ef].
  assert (Hok : store_ok (clearAll a e s) F) by (rewrite Ef; by apply (store_ok_same s)).
  rewrite !wrap_small by (split; lia).
  assert (Eb : (clearAll a e s).(poolBlocks) = s.(poolBlocks)) by (by rewrite Ef).
  destruct (toFree_spec a e (clearAll a e s) F Hok) as (F' & Hok' & M & Hc & Hfr & Hacc); [lia|lia|intros k Hk; by destruct (Hnew k Hk)|].
  eexists _, F'. split; [reflexivity|]. pose proof M as (MS & MB & _). split; [|split; [done|split]].
  - apply (inv_release s _ F F' A a e Hi Hok'); [| |by rewrite MB|intros n Hn; by destruct (Hnew n Hn)|done|].
    + apply Hacc. rewrite Ef. apply (inv_account _ _ _ Hi).
    + apply (bytes_ok_meta _ _ M). apply bytes_ok_clearAll, (inv_bytes _ _ _ Hi).
    + intros k. rewrite (same_meta_BITTEST _ _ k M). apply clearAll_bits.
  - by rewrite MS, Ef.
  - intros k Hk. rewrite Hfr by done. by rewrite Ef.
Qed.

(** ** Check *)

Lemma length_areas b l : 0 <= b -> Z.of_nat (length (areas b l)) = Z.of_nat (length l) * 2 ^ b.
Proof.
  intros Hb. unfold areas. induction l as [|o l IH]; [done|].
  rewrite bind_cons, length_app, Nat2Z.inj_add, IH, length_area by done. cbn [length]. lia.
Qed.

(** A list has no more blocks than fit the pool. *)
Lemma list_bound P F b : shape P F -> 0 <= P -> size_ok b -> Z.of_nat (length (F b)) <= Z.shiftr P b.
Proof.
  intros Hsh HP Hb. pose proof (cells_bound P F Hsh) as Hbd. pose proof (pow2_pos b Hb) as Hpos.
  rewrite (cells_upd F b (F b)), cells_split, length_app, Nat2Z.inj_add, length_areas in Hbd by (done || (unfold size_ok in Hb; lia)).
  unfold size_ok in Hb. rewrite Z.shiftr_div_pow2 by lia. apply Z.div_le_lower_bound; lia.
Qed.

Section check.
Context (s : CEsvga2Allocator) (F : Z -> list Z) (A : list (Z * Z)).
Hypothesis Hi : inv s F A.

(** The checks of one block. *)
Lemma check_block b l1 o l2 :
  size_ok b -> F b = l1 ++ o :: l2 ->
  0 <= o < s.(poolBlocks) /\ at_block s o = 1024 * o /\ testAny s o (u32 (o + pool_shl b)) = false /\
  s.(pool) (1024 * o) = MAGIC /\ s.(pool) (1024 * o + 1) = final OURNULL l1 /\
  s.(pool) (1024 * o + 2) = first l2 /\ s.(pool) (1024 * o + 1024 * 2 ^ b + -1) = b + LEN_OFFSET.
Proof using Hi.
  intros Hb HF. pose proof (inv_store _ _ _ Hi) as [Hp Hsh Hl Hm Ht]. pose proof Hp as [Emin Enum Hblk].
  assert (Ho : o ∈ F b) by (rewrite HF, elem_of_app, elem_of_cons; tauto).
  destruct (block_range _ _ _ _ Hsh Hb Ho) as [H0 H1]. pose proof (pow2_pos b Hb) as Hpos.
  destruct (unlink_links s F b o l1 l2 Hl Hb HF) as [En Ev].
  split; [lia|]. split; [apply at_block_eq; [done|lia]|]. split; [|split; [by apply (Hm b)|]; split; [done|]; split; [done|]].
  - unfold size_ok in Hb. rewrite pool_shl_eq, wrap_small by (try split; lia).
    apply testAny_false; [lia|lia|apply Hi|]. intros k Hk. apply (inv_free_bits _ _ _ Hi), elem_of_cells.
    exists b, o. split; [done|]. split; [done|]. apply elem_of_area; lia.
  - rewrite <-(Ht b o) by done. f_equal. lia.
Qed.

Lemma check_list_spec b : size_ok b -> forall l2 l1 n, F b = l1 ++ l2 -> (length l2 < n)%nat ->
  check_list n b (first l2) (final OURNULL l1) (Z.of_nat (length l1)) (Z.shiftr s.(poolBlocks) b) s
  = Some (OURNULL, Z.of_nat (length (F b))).
Proof using Hi.
  intros Hb. pose proof (inv_store _ _ _ Hi) as [Hp Hsh Hl _ _]. pose proof Hp as [Emin Enum Hblk].
  pose proof (list_bound _ _ b Hsh ltac:(lia) Hb) as Hmax.
  induction l2 as [|o l2 IH]; intros l1 n HF Hn; (destruct n as [|n]; [cbn in Hn; lia|]); cbn [check_list].
  - rewrite app_nil_r in HF. by rewrite HF.
  - destruct (check_block b l1 o l2 Hb HF) as (Hr & Ea & Et & Em & Ev & En & Ebits).
    change (Dll.first OURNULL (o :: l2)) with o. rewrite (proj2 (Z.eqb_neq o OURNULL)) by (unfold OURNULL; lia).
    rewrite (proj2 (Z.leb_gt _ (Z.of_nat (length l1))))
      by (rewrite HF, length_app in Hmax; cbn [length] in Hmax; lia).
    rewrite (proj2 (Z.leb_gt _ _)), Et by lia. cbn [orb].
    unfold OFF_MAGIC, OFF_PREV, OFF_NEXT, OFF_BITS. rewrite Ea, Emin, (Z.add_comm 12), block_words, !Z.add_0_r by done.
    rewrite Em, Ev, En, Ebits, !Z.eqb_refl. cbn [negb].
    specialize (IH (l1 ++ [o]) n). rewrite final_snoc, length_app, Nat2Z.inj_add in IH. apply IH.
    + by rewrite <-app_assoc.
    + cbn in Hn. lia.
Qed.

Lemma check_lists_spec sizes : forall seen,
  (forall b, b ∈ sizes -> size_ok b) -> 0 <= seen ->
  seen + Z.of_nat (length (sizes ≫= fun b => areas b (F b))) < 2 ^ 32 ->
  check_lists sizes seen s =
  Some ((fun b => Z.of_nat (length (F b))) <$> sizes, seen + Z.of_nat (length (sizes ≫= fun b => areas b (F b)))).
Proof using Hi.
  induction sizes as [|b sizes IH]; intros seen Hok H0 Hlt; [cbn; repeat f_equal; lia|].
  assert (Hb : size_ok b) by (apply Hok; left). pose proof (inv_store _ _ _ Hi) as [Hp Hsh Hl _ _].
  destruct (Hl b Hb) as [_ Hh]. cbn [check_lists]. rewrite Hh.
  pose proof (list_bound _ _ b Hsh ltac:(destruct Hp; lia) Hb) as Hmax.
  pose proof (check_list_spec b Hb (F b) [] (S (Z.to_nat (Z.shiftr (poolBlocks s) b))) eq_refl) as E.
  change (final OURNULL []) with OURNULL in E. change (Z.of_nat (length [])) with 0 in E. rewrite E by lia.
  cbn [mbind option_bind]. rewrite Z.eqb_refl. cbn [negb].
  rewrite bind_cons, length_app, Nat2Z.inj_add, length_areas in * by (unfold size_ok in Hb; lia).
  pose proof (pow2_pos b Hb). rewrite pool_shl_eq by (unfold size_ok in Hb; lia).
  rewrite wrap_small by (split; nia). rewrite IH; [|intros; apply Hok; by right|nia|nia].
  cbn [mbind option_bind]. by rewrite Z.add_assoc.
Qed.

Lemma Check_ok : Check s = (kIOReturnSuccess, (fun b => Z.of_nat (length (F b))) <$> seqZ 0 13).
Proof using Hi.
  pose proof (inv_store _ _ _ Hi) as [[Emin Enum Hblk] Hsh _ _ _]. pose proof (cells_bound _ _ Hsh) as Hbd.
  unfold Check. rewrite Enum, check_lists_spec; [|intros b Hb%elem_of_seqZ; unfold size_ok; lia|lia|].
  - fold (cells F). rewrite Emin, Z.shiftl_mul_pow2, wrap_small by (try split; lia).
    rewrite (inv_account _ _ _ Hi), (proj2 (Z.eqb_eq _ _)) by lia. done.
  - fold (cells F). lia.
Qed.
End check.
