(* ===== verification/AllocatorRealloc.v ===== *)
(** Changing the size of an allocated block: in place when it shrinks, by a copy
    when it grows. *)

From S2P Require Import Prelude IOKit Dll Allocator AllocatorBits AllocatorLists AllocatorProofs AllocatorMalloc AllocatorFree.
From stdpp Require Import list.

#[local] Open Scope Z_scope.

Implicit Types (s : CEsvga2Allocator) (F : Z -> list Z).

(** ** Writing to allocated memory *)

(** A word of a block that is not free is no part of the free store. *)
Lemma inv_pool s s' F A :
  inv s F A -> same_meta s s' -> s'.(freeList) = s.(freeList) -> s'.(freeBytes) = s.(freeBytes) ->
  (forall k, k / 1024 ∈ cells F -> s'.(pool) k = s.(pool) k) -> inv s' F A.
Proof.
  intros [[Hp Hsh Hl Hm Ht] Hacc Hby Hal Hnd Hfb Hab Hfo] M EL EB EP.
  assert (Hin : forall b q n, size_ok b -> q ∈ F b -> q <= n < q + 2 ^ b -> n ∈ cells F).
  { intros b q n Hb Hq Hn. apply elem_of_cells. exists b, q. split; [done|]. split; [done|].
    apply elem_of_area; [unfold size_ok in Hb|]; lia. }
  destruct (headers_words s s' F Hl Hm EL) as [Hl' Hm'].
  { intros b q i Hb Hq Hi. apply EP. rewrite header_div by lia. apply (Hin b q); try done.
    pose proof (pow2_pos b Hb). lia. }
  pose proof M as (MS & MB & _). split; try (rewrite ?MB; done).
  - split; [by apply (same_meta_params s)|by rewrite MB|done|done|].
    intros b q Hb Hq. rewrite EP; [by apply Ht|].
    replace (1024 * (q + 2 ^ b) - 1) with (1024 * (q + 2 ^ b - 1) + 1023) by lia. rewrite header_div by lia.
    apply (Hin b q); try done. pose proof (pow2_pos b Hb). lia.
  - unfold accounted. by rewrite EB.
  - by apply (bytes_ok_meta s).
  - intros n Hn. rewrite (same_meta_BITTEST _ _ _ M). by apply Hfb.
  - intros o b n. rewrite (same_meta_BITTEST _ _ _ M). apply Hab.
  - intros n. rewrite MB, (same_meta_BITTEST _ _ _ M). apply Hfo.
Qed.

(** ** Shrinking *)

Lemma inv_shrink s s' F F' A o b b' :
  inv s F ((o, b) :: A) -> 0 <= b' < b -> store_ok s' F' -> accounted s' F' -> bytes_ok s' ->
  s'.(poolBlocks) = s.(poolBlocks) ->
  cells F' ≡ₚ seqZ (o + 2 ^ b') (2 ^ b - 2 ^ b') ++ cells F ->
  (forall k, BITTEST s' k = negb (k =? o + 2 ^ b - 1) && ((k =? o + 2 ^ b' - 1) || BITTEST s k)) ->
  inv s' F' ((o, b') :: A).
Proof.
  intros Hi Hlt Hs Hacc Hby Eb Hc Hbit. destruct (given_ok _ _ _ _ _ Hi) as (Hb & H0 & H1 & Ha).
  pose proof (pow2_pos b Hb) as Hpos. unfold size_ok in Hb.
  pose proof (Z.pow_lt_mono_r 2 b' b ltac:(lia) ltac:(lia) ltac:(lia)) as Hpl.
  pose proof (Z.pow_pos_nonneg 2 b' ltac:(lia) ltac:(lia)) as Hpos'.
  pose proof (area_split o b' b ltac:(lia)) as Es.
  assert (Hall : cells F' ++ acells ((o, b') :: A) ≡ₚ cells F ++ acells ((o, b) :: A)).
  { rewrite !acells_cons, Hc, Es, !app_assoc. f_equiv. rewrite (Permutation_app_comm _ (area o b')), !app_assoc.
    rewrite (Permutation_app_comm (cells F) (area o b')), <-!app_assoc. f_equiv. apply Permutation_app_comm. }
  assert (Hsub : forall n, n ∈ area o b' -> n ∈ area o b) by (intros n; rewrite !elem_of_area by lia; lia).
  assert (Hl : forall o' b'' n x, (o', b'') ∈ A -> n ∈ area o' b'' -> x ∈ area o b -> n <> x).
  { intros o' b'' n x HA Hn Hx ->. by apply (inv_alloc_disjoint s F A o b x o' b''). }
  split; try done.
  - intros o' b'' [[= -> ->]|Hin]%elem_of_cons; [|rewrite Eb; apply (inv_alloc _ _ _ Hi); by right].
    unfold size_ok. split; [lia|]. split; [lia|]. split; [lia|]. apply (aligned_smaller o b' b); [lia|done].
  - rewrite Hall. apply (inv_nodup _ _ _ Hi).
  - intros n. rewrite Hbit, Hc, elem_of_app, elem_of_seqZ. intros [Hn|Hn].
    + rewrite (inv_alloc_bits _ _ _ Hi o b n) by (try left; apply elem_of_area; lia).
      rewrite (proj2 (Z.eqb_neq n (o + 2 ^ b' - 1))) by lia. by destruct (n =? o + 2 ^ b - 1).
    + rewrite (inv_free_bits _ _ _ Hi n Hn), orb_false_r. replace (n =? o + 2 ^ b' - 1) with false; [by rewrite andb_false_r|].
      symmetry. apply Z.eqb_neq. intros ->. apply (inv_disjoint _ _ _ (o + 2 ^ b' - 1) Hi Hn), (acells_in _ o b); [left|].
      apply elem_of_area; lia.
  - intros o' b'' n [[= -> ->]|Hin]%elem_of_cons Hn; rewrite Hbit.
    + rewrite elem_of_area in Hn by lia. rewrite (inv_alloc_bits _ _ _ Hi o b n) by (try left; apply elem_of_area; lia).
      rewrite (proj2 (Z.eqb_neq n (o + 2 ^ b - 1))) by lia. cbn [negb andb]. apply orb_false_r.
    + rewrite (inv_alloc_bits _ _ _ Hi o' b'' n) by (done || by right).
      rewrite !(proj2 (Z.eqb_neq n (o + _ - 1))); [done|apply (Hl o' b''); try done; apply elem_of_area; lia..].
  - intros n Hn Hf Hal. rewrite Eb in Hn.
    assert (Hx : n ∉ cells F ++ acells ((o, b) :: A)) by (rewrite <-Hall, elem_of_app; tauto).
    rewrite elem_of_app in Hx. rewrite Hbit, (inv_foreign _ _ _ Hi), orb_true_r, andb_true_r by tauto.
    apply negb_true_iff, Z.eqb_neq. intros ->. apply Hx. right. apply (acells_in _ o b); [left|]. apply elem_of_area; lia.
Qed.

Lemma can_bits_spec size b : 0 <= b < 13 -> size <= 2 ^ (b + 12) -> forall n c,
  12 <= c <= b + 12 -> b + 12 - c < Z.of_nat n -> (c = 12 \/ 2 ^ (c - 1) < size) ->
  exists c', can_bits n c size = c' /\ 12 <= c' <= b + 12 /\ size <= 2 ^ c' /\ (c' = 12 \/ 2 ^ (c' - 1) < size).
Proof.
  intros Hb Hsz. induction n as [|n IH]; intros c Hc Hn Hlow; [lia|]. cbn [can_bits].
  rewrite Z.shiftl_1_l, wrap_small by (split; [lia|apply Z.pow_lt_mono_r; lia]).
  destruct (Z.ltb_spec (2 ^ c) size) as [Hlt|]; [|by exists c].
  assert (c <> b + 12) by (intros ->; lia). apply IH; [lia|lia|]. right. by replace (c + 1 - 1) with c by lia.
Qed.

Lemma smallest_bits size c : 12 <= c -> size <= 2 ^ c -> (c = 12 \/ 2 ^ (c - 1) < size) -> smallest_for size (c - 12).
Proof.
  intros Hc Hle Hlow. assert (E : forall x, 12 <= x -> 4096 * 2 ^ (x - 12) = 2 ^ x).
  { intros x Hx. change 4096 with (2 ^ 12). rewrite <-Z.pow_add_r by lia. f_equal. lia. }
  split; [by rewrite E|]. destruct Hlow as [->|Hlow]; [by left|]. destruct (Z.eq_dec c 12) as [->|]; [by left|]. right.
  replace (c - 12 - 1) with (c - 1 - 12) by lia. by rewrite E by lia.
Qed.

Lemma Realloc_shrink s F A o b size :
  inv s F ((o, b) :: A) -> 0 < s.(poolStart) -> 0 < size <= 4096 * 2 ^ b ->
  exists b' s' F', Realloc (s.(poolStart) + 4096 * o) size true s = (kIOReturnSuccess, Some (s.(poolStart) + 4096 * o), s') /\
    0 <= b' <= b /\ smallest_for size b' /\ inv s' F' ((o, b') :: A) /\ s'.(poolStart) = s.(poolStart) /\
    pool_frame (seqZ (o + 2 ^ b') (2 ^ b - 2 ^ b') ++ cells F) s s'.
Proof.
  intros Hi Hstart Hsz. destruct (given_ok _ _ _ _ _ Hi) as (Hb & H0 & H1 & Ha).
  destruct (BuddyAllocSize_spec s F ((o, b) :: A) o b Hi) as [E1 E2]; [left|].
  pose proof (inv_store _ _ _ Hi) as Hs. pose proof Hs as [[Emin Enum Hblk] _ _ _ _].
  pose proof (pow2_pos b Hb) as Hpos. unfold size_ok in Hb.
  assert (E12 : 2 ^ (b + 12) = 4096 * 2 ^ b) by (rewrite Z.pow_add_r by lia; lia).
  unfold Realloc. rewrite (proj2 (Z.eqb_neq size 0)), (proj2 (Z.eqb_neq _ 0)), E1, E2, Emin by lia.
  rewrite Z.shiftl_1_l, wrap_small by (split; [lia|apply Z.pow_lt_mono_r; lia]).
  rewrite (proj2 (Z.ltb_ge _ _)) by lia.
  destruct (can_bits_spec size b Hb ltac:(lia) 52 12) as (c & -> & Hc & Hle & Hlow); [lia|lia|by left|].
  pose proof (smallest_bits size c ltac:(lia) Hle Hlow) as Hsm.
  destruct (Z.leb_spec (b + 12) c) as [Hge|Hlt].
  { replace c with (b + 12) in * by lia. replace (b + 12 - 12) with b in Hsm by lia.
    exists b, s, F. split; [done|]. split; [lia|]. split; [done|]. split; [done|]. done. }
  set (b' := c - 12) in *. assert (Hb' : 0 <= b' < b) by lia.
  pose proof (Z.pow_lt_mono_r 2 b' b ltac:(lia) ltac:(lia) ltac:(lia)) as Hpl.
  pose proof (Z.pow_pos_nonneg 2 b' ltac:(lia) ltac:(lia)) as Hpos'.
  rewrite !pool_shl_eq, (wrap_small 32 o) by (try split; lia). set (s2 := BITCLEAR _ _).
  assert (Hok : store_ok s2 F) by (by apply (store_ok_same s)).
  assert (Hacc : accounted s2 F) by apply (inv_account _ _ _ Hi).
  assert (Hout : forall k, o + 2 ^ b' <= k < o + 2 ^ b -> k ∉ cells F).
  { intros k Hk Hin. apply (inv_disjoint _ _ _ k Hi Hin), (acells_in _ o b); [left|]. apply elem_of_area; lia. }
  destruct (toFree_spec (o + 2 ^ b') (o + 2 ^ b) s2 F Hok ltac:(lia) H1 Hout) as (F' & Hok' & M & Hcl & Hfr & Hacc').
  replace (o + 2 ^ b - (o + 2 ^ b')) with (2 ^ b - 2 ^ b') in * by lia. pose proof M as (MS & MB & _).
  exists b'. eexists _, F'. split; [reflexivity|]. split; [lia|]. split; [done|]. split; [|done].
  apply (inv_shrink s _ F F' A o b b'); try done; [by apply Hacc'| |].
  - apply (bytes_ok_meta _ _ M), bytes_ok_clear, bytes_ok_set, (inv_bytes _ _ _ Hi).
  - intros k. rewrite (same_meta_BITTEST _ _ k M). unfold s2. by rewrite BITTEST_clear, BITTEST_set.
Qed.

(** ** Growing *)

Lemma copy_words_spec dst src n s :
  (forall i, 0 <= i < n -> (copy_words dst src n s).(pool) (dst + i) = s.(pool) (src + i)) /\
  (forall k, k < dst \/ dst + n <= k -> 0 <= n -> (copy_words dst src n s).(pool) k = s.(pool) k).
Proof.
  unfold copy_words. cbn [pool with_pool]. split.
  - intros i Hi. replace i with (Z.of_nat (Z.to_nat i)) at 1 by lia. apply write_words_lookup.
    unfold read_words. rewrite list_lookup_fmap, lookup_seqZ_lt by lia. cbn. do 2 f_equal. lia.
  - intros k Hk Hn. apply write_words_out. rewrite length_read_words. lia.
Qed.

Section grow.
Context (s : CEsvga2Allocator) (F : Z -> list Z) (A : list (Z * Z)) (o b : Z) (s1 : CEsvga2Allocator)
  (F1 : Z -> list Z) (o' b' : Z).
Hypothesis Hi : inv s F ((o, b) :: A).
Hypothesis Ht : took s F ((o, b) :: A) o' b' s1 F1.
Hypothesis Hlt : b < b'.

Let s2 := copy_words (1024 * o') (1024 * o) (1024 * 2 ^ b) s1.

Lemma new_cells n : n ∈ area o' b' -> (n ∉ cells F1) /\ (n ∉ acells ((o, b) :: A)).
Proof using Ht.
  intros Hn. pose proof (inv_nodup _ _ _ (took_inv _ _ _ _ _ _ _ Ht)) as Hnd. rewrite acells_cons in Hnd.
  apply NoDup_app in Hnd as (_ & H1 & (_ & H2 & _)%NoDup_app). split; [|by apply H2].
  intros Hc. apply (H1 n Hc). apply elem_of_app. by left.
Qed.

Lemma copied_range k : 1024 * o' <= k < 1024 * o' + 1024 * 2 ^ b -> k / 1024 ∈ area o' b'.
Proof using Hi Ht Hlt.
  destruct (given_ok _ _ _ _ _ Hi) as (Hb & _). unfold size_ok in Hb.
  pose proof (Z.pow_lt_mono_r 2 b b' ltac:(lia) ltac:(lia) ltac:(lia)). intros Hk. apply elem_of_area; [lia|].
  pose proof (Z.div_mod k 1024 ltac:(lia)). pose proof (Z.mod_pos_bound k 1024 ltac:(lia)). lia.
Qed.

Lemma copied_inv : inv s2 F1 ((o, b) :: (o', b') :: A).
Proof using Hi Ht Hlt.
  destruct (given_ok _ _ _ _ _ Hi) as (Hb & _). pose proof (pow2_pos b Hb).
  apply (inv_perm _ _ ((o', b') :: (o, b) :: A)); [constructor|].
  apply (inv_pool s1); try done; [apply (took_inv _ _ _ _ _ _ _ Ht)|]. intros k Hk.
  apply copy_words_spec; [|lia]. destruct (Z.lt_ge_cases k (1024 * o')) as [|H1]; [by left|].
  destruct (Z.lt_ge_cases k (1024 * o' + 1024 * 2 ^ b)) as [H2|]; [|by right]. exfalso.
  by destruct (new_cells (k / 1024)); [apply copied_range; lia|].
Qed.

(** The words of the allocated blocks. *)
Lemma copied_words :
  (forall i, 0 <= i < 1024 * 2 ^ b -> s2.(pool) (1024 * o' + i) = s.(pool) (1024 * o + i)) /\
  (forall k, k / 1024 ∈ acells A -> s2.(pool) k = s.(pool) k).
Proof using Hi Ht Hlt.
  destruct (given_ok _ _ _ _ _ Hi) as (Hb & _). pose proof (pow2_pos b Hb).
  assert (Hfr : forall k, k / 1024 ∈ acells ((o, b) :: A) -> s1.(pool) k = s.(pool) k).
  { intros k Hk. apply (took_frame _ _ _ _ _ _ _ Ht). intros Hc. by apply (inv_disjoint _ _ _ (k / 1024) Hi). }
  split.
  - intros i Hr. unfold s2. rewrite (proj1 (copy_words_spec _ _ _ _)) by done. apply Hfr, (acells_in _ o b); [left|].
    apply elem_of_area; [unfold size_ok in Hb; lia|].
    pose proof (Z.div_mod (1024 * o + i) 1024 ltac:(lia)). pose proof (Z.mod_pos_bound (1024 * o + i) 1024 ltac:(lia)). lia.
  - intros k Hk. rewrite <-Hfr by (rewrite acells_cons; apply elem_of_app; by right).
    apply copy_words_spec; [|lia]. destruct (Z.lt_ge_cases k (1024 * o')) as [|H1]; [by left|].
    destruct (Z.lt_ge_cases k (1024 * o' + 1024 * 2 ^ b)) as [H2|]; [|by right]. exfalso.
    destruct (new_cells (k / 1024)) as [_ Hn]; [apply copied_range; lia|].
    apply Hn. rewrite acells_cons. apply elem_of_app. by right.
Qed.
End grow.

Lemma Realloc_grow s F A o b size :
  inv s F ((o, b) :: A) -> 0 < s.(poolStart) -> 4096 * 2 ^ b < size ->
  (exists o' b' s' F', Realloc (s.(poolStart) + 4096 * o) size true s = (kIOReturnSuccess, Some (s.(poolStart) + 4096 * o'), s') /\
    b < b' /\ smallest_for size b' /\ inv s' F' ((o', b') :: A) /\ s'.(poolStart) = s.(poolStart) /\
    (forall i, 0 <= i < 1024 * 2 ^ b -> s'.(pool) (1024 * o' + i) = s.(pool) (1024 * o + i)) /\
    (forall k, k / 1024 ∈ acells A -> s'.(pool) k = s.(pool) k)) \/
  (exists ret, Realloc (s.(poolStart) + 4096 * o) size true s = (ret, None, s) /\
    (ret = kIOReturnNoMemory \/ ret = kIOReturnNoResources)).
Proof.
  intros Hi Hstart Hsz. destruct (given_ok _ _ _ _ _ Hi) as (Hb & H0 & H1 & Ha).
  destruct (BuddyAllocSize_spec s F ((o, b) :: A) o b Hi) as [E1 _]; [left|].
  pose proof (inv_store _ _ _ Hi) as [[Emin Enum Hblk] _ _ _ _]. pose proof (pow2_pos b Hb) as Hpos. unfold size_ok in Hb.
  assert (E12 : 2 ^ (b + 12) = 4096 * 2 ^ b) by (rewrite Z.pow_add_r by lia; lia).
  unfold Realloc. rewrite (proj2 (Z.eqb_neq size 0)), (proj2 (Z.eqb_neq _ 0)), E1, Emin by lia.
  rewrite Z.shiftl_1_l, wrap_small by (split; [lia|apply Z.pow_lt_mono_r; lia]). rewrite (proj2 (Z.ltb_lt _ _)) by lia.
  destruct (Malloc_ok s F ((o, b) :: A) size Hi) as [(o' & b' & s1 & F1 & -> & Hb' & Hsm & Ht)|(ret & -> & Hret & _)].
  2:{ right. exists ret. split; [|done]. destruct Hret as [-> | ->]; done. }
  left. assert (Hlt : b < b').
  { destruct Hsm as [Hle _]. destruct (Z.lt_ge_cases b b') as [|Hge]; [done|].
    pose proof (Z.pow_le_mono_r 2 b' b ltac:(lia) ltac:(lia)). lia. }
  pose proof (took_start _ _ _ _ _ _ _ Ht) as Es. rewrite Es.
  assert (Ediv : forall x, (poolStart s + 4096 * x - poolStart s) / 4 = 1024 * x).
  { intros x. replace (_ + _ - _) with (1024 * x * 4) by lia. apply Z.div_mul. lia. }
  rewrite !Ediv, E12. replace (4096 * 2 ^ b / 4) with (1024 * 2 ^ b)
    by (replace (4096 * 2 ^ b) with (1024 * 2 ^ b * 4) by lia; by rewrite Z.div_mul).
  pose proof (copied_inv s F A o b s1 F1 o' b' Hi Ht Hlt) as Hi2.
  destruct (copied_words s F A o b s1 F1 o' b' Hi Ht Hlt) as [Hw1 Hw2]. set (s2 := copy_words _ _ _ s1) in *.
  destruct (Free_ok s2 F1 ((o', b') :: A) o b Hi2) as (s3 & F3 & E3 & Hi3 & _ & Es3 & Hfr3).
  { change (poolStart s2) with (poolStart s1). by rewrite Es. }
  change (poolStart s2) with (poolStart s1) in *. rewrite Es in *. rewrite E3.
  assert (Hkeep : forall k, k / 1024 ∈ acells ((o', b') :: A) -> s3.(pool) k = s2.(pool) k).
  { intros k Hk. apply Hfr3. rewrite elem_of_app. pose proof (inv_nodup _ _ _ Hi2) as Hnd. rewrite acells_cons in Hnd.
    apply NoDup_app in Hnd as (_ & H2 & (_ & H3 & _)%NoDup_app). intros [Hk'|Hk']; [by apply (H3 (k / 1024))|].
    apply (H2 (k / 1024) Hk'). apply elem_of_app. by right. }
  exists o', b', s3, F3. split; [done|]. split; [done|]. split; [done|]. split; [done|]. split; [done|].
  rewrite acells_cons in Hkeep. split.
  - intros i Hr. rewrite Hkeep; [by apply Hw1|]. apply elem_of_app. left. apply (copied_range s F A o b s1 F1 o' b'); try done. lia.
  - intros k Hk. rewrite Hkeep; [by apply Hw2|]. apply elem_of_app. by right.
Qed.
