(* ===== verification/AllocatorSpec.v ===== *)
(** The allocator as its clients see it: what each operation promises, and the
    refinement of an abstract store in which the live blocks are arrays of their
    own, for every sequence of operations. *)

From S2P Require Import Prelude IOKit Dll Allocator AllocatorBits AllocatorLists AllocatorProofs AllocatorMalloc AllocatorFree.
From S2P Require Import AllocatorInit AllocatorRealloc.
From stdpp Require Import list.

#[local] Open Scope Z_scope.

Implicit Types (s : CEsvga2Allocator) (F : Z -> list Z).

(** ** Clients *)

(** A client refers to its blocks by their position in the list of live ones. *)
Inductive op :=
  | OpMalloc (bytes : N)
  | OpFree (k : nat)
  | OpRealloc (k : nat) (size : N)
  | OpWrite (k : nat) (i v : Z).

(** The state of the allocator and the addresses of the live blocks. *)
Definition client : Type := CEsvga2Allocator * list Z.

Definition exec (c : op) (st : client) : IOReturn * client :=
  let '(s, live) := st in
  match c with
  | OpMalloc bytes =>
      match Malloc (Z.of_N bytes) true s with
      | (ret, Some p, s) => (ret, (s, p :: live))
      | (ret, None, s) => (ret, (s, live))
      end
  | OpFree k =>
      match live !! k with
      | None => (kIOReturnBadArgument, st)
      | Some p => let '(ret, s) := Free p s in (ret, (s, delete k live))
      end
  | OpRealloc k size =>
      match live !! k with
      | None => (kIOReturnBadArgument, st)
      | Some p =>
          match Realloc p (Z.of_N size) true s with
          | (ret, Some p, s) => (ret, (s, <[k := p]> live))
          | (ret, None, s) => (ret, (s, if (size =? 0)%N then delete k live else live))
          end
      end
  | OpWrite k i v =>
      match live !! k with
      | None => (kIOReturnBadArgument, st)
      | Some p =>
          match BuddyAllocSize p s with
          | (_, Some bits) =>
              if (0 <=? i) && (i <? 1024 * 2 ^ bits)
              then (kIOReturnSuccess, (store ((p - s.(poolStart)) / 4 + i) v s, live))
              else (kIOReturnBadArgument, st)
          | (ret, None) => (ret, st)
          end
      end
  end.

Fixpoint run (cs : list op) (st : client) : list IOReturn * client :=
  match cs with
  | [] => ([], st)
  | c :: cs =>
      let '(ret, st) := exec c st in
      let '(rets, st) := run cs st in
      (ret :: rets, st)
  end.

(** ** The abstract store *)

Record ablock := { ab_bits : Z; ab_words : Z -> Z }.

Implicit Types (L : list ablock).

Definition out_of_memory (ret : IOReturn) : Prop := ret = kIOReturnNoMemory \/ ret = kIOReturnNoResources.

Inductive astep : op -> list ablock -> IOReturn -> list ablock -> Prop :=
  | A_malloc bytes b w L :
      smallest_for (Z.of_N bytes) b -> astep (OpMalloc bytes) L kIOReturnSuccess ({| ab_bits := b; ab_words := w |} :: L)
  | A_malloc_fails bytes ret L : out_of_memory ret -> astep (OpMalloc bytes) L ret L
  | A_free k L : (k < length L)%nat -> astep (OpFree k) L kIOReturnSuccess (delete k L)
  | A_realloc k size a b' w' L :
      L !! k = Some a -> (0 < size)%N -> smallest_for (Z.of_N size) b' ->
      (forall i, 0 <= i < 1024 * 2 ^ Z.min a.(ab_bits) b' -> w' i = a.(ab_words) i) ->
      astep (OpRealloc k size) L kIOReturnSuccess (<[k := {| ab_bits := b'; ab_words := w' |}]> L)
  | A_realloc_zero k L : (k < length L)%nat -> astep (OpRealloc k 0) L kIOReturnSuccess (delete k L)
  | A_realloc_fails k size L : (k < length L)%nat -> forall ret, out_of_memory ret -> astep (OpRealloc k size) L ret L
  | A_write k i v a L :
      L !! k = Some a -> 0 <= i < 1024 * 2 ^ a.(ab_bits) ->
      astep (OpWrite k i v) L kIOReturnSuccess (<[k := {| ab_bits := a.(ab_bits); ab_words := upd a.(ab_words) i v |}]> L)
  | A_write_outside k i v a L :
      L !! k = Some a -> ~ (0 <= i < 1024 * 2 ^ a.(ab_bits)) -> astep (OpWrite k i v) L kIOReturnBadArgument L
  | A_no_block c k L :
      (c = OpFree k \/ (exists size, c = OpRealloc k size) \/ exists i v, c = OpWrite k i v) ->
      (length L <= k)%nat -> astep c L kIOReturnBadArgument L.

Inductive asteps : list op -> list ablock -> list IOReturn -> list ablock -> Prop :=
  | A_nil L : asteps [] L [] L
  | A_cons c cs L ret L1 rets L2 :
      astep c L ret L1 -> asteps cs L1 rets L2 -> asteps (c :: cs) L (ret :: rets) L2.

(** ** The simulation *)

(** The words of a live block are those of the abstract one. *)
Definition holds s (p : Z * Z) (a : ablock) : Prop :=
  a.(ab_bits) = p.2 /\ forall i, 0 <= i < 1024 * 2 ^ p.2 -> s.(pool) (1024 * p.1 + i) = a.(ab_words) i.

Definition address s (p : Z * Z) : Z := s.(poolStart) + 4096 * p.1.

Definition sim (st : client) L : Prop := exists F A,
  inv st.1 F A /\ 0 < st.1.(poolStart) /\ st.2 = (address st.1 <$> A) /\ Forall2 (holds st.1) A L.

Lemma holds_frame s s' p a :
  holds s p a -> 0 <= p.2 -> (forall k, k / 1024 ∈ area p.1 p.2 -> s'.(pool) k = s.(pool) k) -> holds s' p a.
Proof.
  intros [Hb Hw] H2 Hfr. split; [done|]. intros i Hi. rewrite Hfr; [by apply Hw|]. apply elem_of_area; [done|].
  pose proof (Z.div_mod (1024 * p.1 + i) 1024 ltac:(lia)). pose proof (Z.mod_pos_bound (1024 * p.1 + i) 1024 ltac:(lia)). lia.
Qed.

(** The blocks of a list keep their words when no word of them changes. *)
Lemma holds_all s s' F A A0 L :
  inv s F A0 -> (forall p, p ∈ A -> p ∈ A0) -> Forall2 (holds s) A L ->
  (forall k, k / 1024 ∈ acells A -> s'.(pool) k = s.(pool) k) -> Forall2 (holds s') A L.
Proof.
  intros Hi Hsub HL Hfr. apply Forall2_same_length_lookup in HL as [Hlen Hlook]. apply Forall2_same_length_lookup.
  split; [done|]. intros k [o b] a Hp Ha. apply (holds_frame s); [by eapply Hlook| |].
  - destruct (inv_alloc _ _ _ Hi o b) as (Hb & _); [by apply Hsub; eapply list_elem_of_lookup_2|]. unfold size_ok in Hb. cbn. lia.
  - intros k' Hk'. apply Hfr, (acells_in _ o b); [by eapply list_elem_of_lookup_2|done].
Qed.

Lemma address_start s s' (A : list (Z * Z)) : s'.(poolStart) = s.(poolStart) -> address s' <$> A = address s <$> A.
Proof. intros E. apply list_fmap_ext. intros. unfold address. by rewrite E. Qed.

(** Replacing the block at a position. *)
Lemma delete_insert_list {B} (y : B) : forall (A : list B) k, delete k (<[k := y]> A) = delete k A.
Proof. induction A as [|x A IH]; intros [|k]; cbn; [done..|]. f_equal. apply IH. Qed.

Lemma insert_perm {B} (A : list B) k x y : A !! k = Some x -> <[k := y]> A ≡ₚ y :: delete k A.
Proof.
  intros Hk. pose proof (lookup_lt_Some _ _ _ Hk). rewrite (delete_Permutation (<[k := y]> A) k y).
  - by rewrite delete_insert_list.
  - by apply list_lookup_insert_eq.
Qed.

Lemma sim_malloc st L bytes :
  sim st L -> let '(ret, st') := exec (OpMalloc bytes) st in exists L', astep (OpMalloc bytes) L ret L' /\ sim st' L'.
Proof.
  destruct st as [s live]. intros (F & A & Hi & Hs & El & HL). cbn [fst snd] in *. subst live. cbn [exec].
  destruct (Malloc_ok s F A (Z.of_N bytes) Hi) as [(o & b & s' & F' & -> & Hb & Hsm & Ht)|(ret & -> & Hret & _)].
  - exists ({| ab_bits := b; ab_words := fun i => s'.(pool) (1024 * o + i) |} :: L). split; [by constructor|].
    exists F', ((o, b) :: A). cbn [fst snd]. rewrite (took_start _ _ _ _ _ _ _ Ht).
    split; [apply (took_inv _ _ _ _ _ _ _ Ht)|]. split; [done|]. split.
    + by rewrite (address_start s s') by apply (took_start _ _ _ _ _ _ _ Ht).
    + constructor; [done|]. apply (holds_all s s' F A A); try done. intros k Hk.
      apply (took_frame _ _ _ _ _ _ _ Ht). intros Hc. by apply (inv_disjoint _ _ _ (k / 1024) Hi).
  - exists L. split; [by constructor|]. by exists F, A.
Qed.

Lemma lookup_live s (A : list (Z * Z)) L k :
  Forall2 (holds s) A L ->
  ((address s <$> A) !! k = None /\ (length L <= k)%nat) \/
  exists o b a, A !! k = Some (o, b) /\ L !! k = Some a /\ holds s (o, b) a /\ (k < length L)%nat /\
    (address s <$> A) !! k = Some (s.(poolStart) + 4096 * o) /\ A ≡ₚ (o, b) :: delete k A.
Proof.
  intros HL. pose proof (Forall2_length _ _ _ HL) as Hlen. destruct (A !! k) as [[o b]|] eqn:E.
  - right. destruct (Forall2_lookup_l _ _ _ _ _ HL E) as (a & Ha & Hh). exists o, b, a.
    split; [done|]. split; [done|]. split; [done|]. split; [by eapply lookup_lt_Some|].
    split; [by rewrite list_lookup_fmap, E|]. by apply delete_Permutation.
  - left. rewrite list_lookup_fmap, E. split; [done|]. apply lookup_ge_None in E. lia.
Qed.

Lemma acells_perm A A' : A ≡ₚ A' -> acells A ≡ₚ acells A'.
Proof. intros E. unfold acells. by rewrite E. Qed.

(** Releasing the block at a position, from [Free] and from [Realloc] to size 0. *)
Lemma sim_release s A F L k o b :
  inv s F A -> 0 < s.(poolStart) -> Forall2 (holds s) A L -> A !! k = Some (o, b) ->
  exists s', Free (s.(poolStart) + 4096 * o) s = (kIOReturnSuccess, s') /\ sim (s', delete k (address s <$> A)) (delete k L).
Proof.
  intros Hi Hs HL Hk. pose proof (delete_Permutation _ _ _ Hk) as HA.
  destruct (Free_ok s F (delete k A) o b) as (s' & F' & E & Hi' & _ & Es & Hfr); [by apply (inv_perm _ _ A)|done|].
  exists s'. split; [done|]. exists F', (delete k A). cbn [fst snd]. split; [done|]. split; [by rewrite Es|]. split.
  - rewrite (address_start s s') by done. by rewrite list_fmap_delete.
  - apply (holds_all s s' F _ A); try done; [|by apply Forall2_delete|].
    + intros p Hp. rewrite HA. by right.
    + intros j Hj. apply Hfr. rewrite elem_of_app. pose proof (inv_nodup _ _ _ Hi) as Hnd.
      rewrite (acells_perm _ _ HA), acells_cons in Hnd.
      apply NoDup_app in Hnd as (_ & H2 & (_ & H3 & _)%NoDup_app). intros [Hj'|Hj']; [by apply (H3 (j / 1024))|].
      apply (H2 (j / 1024) Hj'). apply elem_of_app. by right.
Qed.

Lemma sim_free st L k :
  sim st L -> let '(ret, st') := exec (OpFree k) st in exists L', astep (OpFree k) L ret L' /\ sim st' L'.
Proof.
  destruct st as [s live]. intros (F & A & Hi & Hs & El & HL). cbn [fst snd] in *. subst live. cbn [exec].
  destruct (lookup_live s A L k HL) as [[-> Hk]|(o & b & a & HA & Ha & Hh & Hk & -> & _)].
  - exists L. split; [by apply (A_no_block _ k); [left|]|]. by exists F, A.
  - destruct (sim_release s A F L k o b Hi Hs HL HA) as (s' & -> & Hsim). exists (delete k L). split; [by constructor|done].
Qed.

(** The block at a position is replaced and the others keep their words. *)
Lemma sim_insert s s' A F F' L k o b o' b' a' :
  inv s F A -> 0 < s.(poolStart) -> Forall2 (holds s) A L -> A !! k = Some (o, b) ->
  inv s' F' ((o', b') :: delete k A) -> s'.(poolStart) = s.(poolStart) -> holds s' (o', b') a' ->
  (forall j, j / 1024 ∈ acells (delete k A) -> s'.(pool) j = s.(pool) j) ->
  sim (s', <[k := s.(poolStart) + 4096 * o']> (address s <$> A)) (<[k := a']> L).
Proof.
  intros Hi Hs HL Hk Hi' Es Hh Hfr. exists F', (<[k := (o', b')]> A). cbn [fst snd].
  assert (HP : <[k := (o', b')]> A ≡ₚ (o', b') :: delete k A) by (by apply (insert_perm _ _ (o, b))).
  split; [by apply (inv_perm _ _ ((o', b') :: delete k A))|]. split; [by rewrite Es|]. split.
  - rewrite (address_start s s') by done. by rewrite list_fmap_insert.
  - assert (Hd : Forall2 (holds s') (delete k A) (delete k L)).
    { apply (holds_all s s' F _ A); try done; [|by apply Forall2_delete]. intros p Hp.
      rewrite (delete_Permutation _ _ _ Hk). by right. }
    apply Forall2_same_length_lookup. pose proof (Forall2_length _ _ _ HL) as Hlen. split; [by rewrite !length_insert|].
    intros j p a. destruct (decide (j = k)) as [->|Hne].
    + rewrite !list_lookup_insert_eq; [by intros [= <-] [= <-]| |]; apply lookup_lt_Some in Hk; lia.
    + rewrite !list_lookup_insert_ne by done. intros Hp Ha. apply Forall2_same_length_lookup in Hd as [_ Hd].
      destruct (decide (j < k)%nat).
      * apply (Hd j); by rewrite list_lookup_delete_lt.
      * apply (Hd (j - 1)%nat); rewrite list_lookup_delete_ge by lia; by replace (S (j - 1))%nat with j by lia.
Qed.

Lemma word_in_area o b i : 0 <= b -> 0 <= i < 1024 * 2 ^ b -> (1024 * o + i) / 1024 ∈ area o b.
Proof.
  intros Hb Hi. apply elem_of_area; [done|]. pose proof (Z.div_mod (1024 * o + i) 1024 ltac:(lia)).
  pose proof (Z.mod_pos_bound (1024 * o + i) 1024 ltac:(lia)). lia.
Qed.

(** The words of a block and of the others after shrinking it. *)
Lemma shrink_words s s' F A o b b' :
  inv s F ((o, b) :: A) -> 0 <= b' <= b -> pool_frame (seqZ (o + 2 ^ b') (2 ^ b - 2 ^ b') ++ cells F) s s' ->
  (forall i, 0 <= i < 1024 * 2 ^ b' -> s'.(pool) (1024 * o + i) = s.(pool) (1024 * o + i)) /\
  (forall j, j / 1024 ∈ acells A -> s'.(pool) j = s.(pool) j).
Proof.
  intros Hi Hb' Hfr. pose proof (area_split o b' b Hb') as Es.
  assert (Hr : forall n, n ∈ seqZ (o + 2 ^ b') (2 ^ b - 2 ^ b') -> n ∈ area o b) by (intros n Hn; rewrite Es; apply elem_of_app; by right).
  assert (Hle : 2 ^ b' <= 2 ^ b) by (apply Z.pow_le_mono_r; lia).
  split.
  - intros i Hb. apply Hfr. pose proof (word_in_area o b' i ltac:(lia) Hb) as Hin. rewrite elem_of_app. intros [Hx|Hx].
    + rewrite elem_of_seqZ in Hx. apply elem_of_area in Hin; lia.
    + apply (inv_disjoint _ _ _ _ Hi Hx), (acells_in _ o b); [left|]. apply word_in_area; lia.
  - intros j Hj. apply Hfr. rewrite elem_of_app. apply elem_of_acells in Hj as (o2 & b2 & HA & Hj). intros [Hx%Hr|Hx].
    + by apply (inv_alloc_disjoint s F A o b (j / 1024) o2 b2).
    + apply (inv_disjoint _ _ _ _ Hi Hx), (acells_in _ o2 b2); [by right|done].
Qed.

Lemma sim_realloc st L k size :
  sim st L -> let '(ret, st') := exec (OpRealloc k size) st in exists L', astep (OpRealloc k size) L ret L' /\ sim st' L'.
Proof.
  destruct st as [s live]. intros (F & A & Hi & Hs & El & HL). cbn [fst snd] in *. subst live. cbn [exec].
  destruct (lookup_live s A L k HL) as [[-> Hk]|(o & b & a & HA & Ha & [Eb Hw] & Hk & -> & HP)].
  { exists L. split; [by apply (A_no_block _ k); [right; left; exists size|]|]. by exists F, A. }
  cbn [fst snd] in Eb, Hw. pose proof (inv_perm _ _ _ _ HP Hi) as Hi1.
  destruct (given_ok _ _ _ _ _ Hi1) as (Hb & _). unfold size_ok in Hb.
  destruct (decide (size = 0%N)) as [->|Hne].
  { destruct (sim_release s A F L k o b Hi Hs HL HA) as (s' & E & Hsim). unfold Realloc. cbn [Z.of_N Z.eqb].
    rewrite E. exists (delete k L). split; [by constructor|done]. }
  destruct (Z.le_gt_cases (Z.of_N size) (4096 * 2 ^ b)) as [Hle|Hgt].
  - destruct (Realloc_shrink s F (delete k A) o b (Z.of_N size) Hi1 Hs) as (b' & s' & F' & -> & Hb' & Hsm & Hi' & Es & Hfr); [lia|].
    destruct (shrink_words s s' F (delete k A) o b b' Hi1 Hb' Hfr) as [W1 W2].
    eexists. split; [apply (A_realloc k size a b' (fun i => s'.(pool) (1024 * o + i))); [done|lia|done|]|].
    + intros i Hr. rewrite Eb, Z.min_r in Hr by lia. rewrite W1 by done. apply Hw.
      pose proof (Z.pow_le_mono_r 2 b' b ltac:(lia) ltac:(lia)). lia.
    + by apply (sim_insert s s' A F F' L k o b o b').
  - destruct (Realloc_grow s F (delete k A) o b (Z.of_N size) Hi1 Hs Hgt)
      as [(o' & b' & s' & F' & -> & Hb' & Hsm & Hi' & Es & W1 & W2)|(ret & -> & Hret)].
    + eexists. split; [apply (A_realloc k size a b' (fun i => s'.(pool) (1024 * o' + i))); [done|lia|done|]|].
      * intros i Hr. rewrite Eb, Z.min_l in Hr by lia. rewrite W1 by done. by apply Hw.
      * by apply (sim_insert s s' A F F' L k o b o' b').
    + rewrite (proj2 (N.eqb_neq _ _) Hne). exists L. split; [by constructor|]. by exists F, A.
Qed.

Lemma sim_write st L k i v :
  sim st L -> let '(ret, st') := exec (OpWrite k i v) st in exists L', astep (OpWrite k i v) L ret L' /\ sim st' L'.
Proof.
  destruct st as [s live]. intros (F & A & Hi & Hs & El & HL). cbn [fst snd] in *. subst live. cbn [exec].
  destruct (lookup_live s A L k HL) as [[-> Hk]|(o & b & a & HA & Ha & [Eb Hw] & Hk & -> & HP)].
  { exists L. split; [by apply (A_no_block _ k); [right; right; exists i, v|]|]. by exists F, A. }
  cbn [fst snd] in Eb, Hw. pose proof (inv_perm _ _ _ _ HP Hi) as Hi1.
  destruct (given_ok _ _ _ _ _ Hi1) as (Hb & _). unfold size_ok in Hb.
  destruct (BuddyAllocSize_spec s F ((o, b) :: delete k A) o b Hi1) as [-> _]; [left|].
  destruct (Z.leb_spec 0 i) as [H0|], (Z.ltb_spec i (1024 * 2 ^ b)) as [H1|]; cbn [andb];
    try (exists L; split; [apply (A_write_outside k i v a); [done|rewrite Eb; lia]|by exists F, A]).
  replace (s.(poolStart) + 4096 * o - s.(poolStart)) with (1024 * o * 4) by lia. rewrite Z.div_mul by lia.
  set (s' := store (1024 * o + i) v s).
  assert (Hfr : forall j, (j / 1024 ∉ area o b) -> s'.(pool) j = s.(pool) j).
  { intros j Hj. unfold s', store. cbn [pool with_pool]. apply upd_ne. intros ->. apply Hj. apply word_in_area; lia. }
  eexists. split; [apply (A_write k i v a); [done|by rewrite Eb]|].
  replace (address s <$> A) with (<[k := s.(poolStart) + 4096 * o]> (address s <$> A))
    by (apply list_insert_id; by rewrite list_lookup_fmap, HA).
  apply (sim_insert s s' A F F L k o b o b); try done.
  - apply (inv_pool s); try done. intros j Hj. apply Hfr. intros Hx. apply (inv_disjoint _ _ _ (j / 1024) Hi1 Hj).
    apply (acells_in _ o b); [left|done].
  - split; [done|]. cbn [fst snd]. intros j Hj. unfold s', store. cbn [pool with_pool ab_words]. unfold upd.
    destruct (Z.eqb_spec j i) as [->|Hne]; [by rewrite Z.eqb_refl|]. rewrite (proj2 (Z.eqb_neq _ _)) by lia. by apply Hw.
  - intros j Hj. apply Hfr. intros Hx. apply elem_of_acells in Hj as (o2 & b2 & HA2 & Hj).
    by apply (inv_alloc_disjoint s F (delete k A) o b (j / 1024) o2 b2).
Qed.

Lemma exec_refines c st L :
  sim st L -> let '(ret, st') := exec c st in exists L', astep c L ret L' /\ sim st' L'.
Proof. destruct c; [apply sim_malloc|apply sim_free|apply sim_realloc|apply sim_write]. Qed.

Lemma run_refines cs : forall st L,
  sim st L -> let '(rets, st') := run cs st in exists L', asteps cs L rets L' /\ sim st' L'.
Proof.
  induction cs as [|c cs IH]; intros st L Hsim; cbn [run].
  { exists L. split; [constructor|done]. }
  pose proof (exec_refines c st L Hsim) as Hc. destruct (exec c st) as [ret st1]. destruct Hc as (L1 & H1 & Hsim1).
  specialize (IH st1 L1 Hsim1). destruct (run cs st1) as [rets st2]. destruct IH as (L2 & H2 & Hsim2).
  exists L2. split; [by econstructor|done].
Qed.

(** ** The promises *)

(** C3: The allocator refines the abstract store. After [Init] and the [Release] of a
    range, whatever sequence of allocations, releases, reallocations and writes to
    their blocks the clients make, the results are those of a run of the abstract
    store: an allocation fails for want of memory only, and never reports
    corruption; a live block is of the smallest size for its request and holds the
    words its owner wrote, whatever is done to the others; a reallocation keeps the
    words that fit both sizes. The consistency check accepts the final state. *)
Theorem allocator_refines start bytes s0 a e cs :
  Z.land start (2 ^ 12 - 1) = 0 -> 0 < start -> is_u32 bytes -> 0 <= a < bytes / 4096 -> 0 <= e <= bytes / 4096 ->
  exists s1 s2,
    Init start bytes true s0 = (kIOReturnSuccess, s1) /\
    Release (4096 * a) (4096 * e) s1 = (kIOReturnSuccess, s2) /\
    let '(rets, (s, live)) := run cs (s2, []) in
    exists L, asteps cs [] rets L /\ length live = length L /\
      (forall k p b i, live !! k = Some p -> L !! k = Some b -> 0 <= i < 1024 * 2 ^ b.(ab_bits) ->
         s.(pool) ((p - s.(poolStart)) / 4 + i) = b.(ab_words) i) /\
      fst (Check s) = kIOReturnSuccess.
Proof.
  intros Hal Hst Hb Ha He. destruct (Init_spec start bytes s0 Hal Hb) as (s1 & E1 & Hi1 & Es1 & Eb1 & _).
  destruct (Release_ok s1 no_blocks [] a e Hi1) as (s2 & F2 & E2 & Hi2 & _ & Es2 & _); try (rewrite Eb1; lia).
  { intros n _. split; apply not_elem_of_nil. }
  exists s1, s2. split; [done|]. split; [done|].
  assert (Hsim : sim (s2, []) []).
  { exists F2, []. cbn [fst snd]. split; [done|]. split; [by rewrite Es2, Es1|]. split; [done|constructor]. }
  pose proof (run_refines cs (s2, []) [] Hsim) as Hr. destruct (run cs (s2, [])) as [rets [s live]].
  destruct Hr as (L & HL & F & A & Hi & Hs & El & Hh). cbn [fst snd] in *. subst live. exists L.
  split; [done|]. split; [by rewrite length_fmap, (Forall2_length _ _ _ Hh)|]. split; [|by rewrite (Check_ok s F A Hi)].
  intros k p b i Hp Hk Hr. rewrite list_lookup_fmap in Hp. apply fmap_Some in Hp as ([o c] & HA & ->).
  destruct (Forall2_lookup_lr _ _ _ _ _ _ Hh HA Hk) as [Eb Hw]. cbn [fst snd] in *. unfold address. cbn [fst].
  replace (s.(poolStart) + 4096 * o - s.(poolStart)) with (1024 * o * 4) by lia. rewrite Z.div_mul by lia.
  apply Hw. by rewrite <-Eb.
Qed.

(** Allocation. On a well-formed state [Malloc] either succeeds, with the address
    of an aligned block that was free and is of the smallest size that holds the
    request: the block leaves the free store and joins the allocated ones, the state
    stays well formed and no word outside the free store is touched; or no free block
    is large enough, and then it reports so and changes nothing. In particular it
    never reports an internal error. *)
Theorem Malloc_spec s F A bytes :
  inv s F A ->
  (exists o b s' F', Malloc bytes true s = (kIOReturnSuccess, Some (s.(poolStart) + 4096 * o), s') /\
     size_ok b /\ smallest_for bytes b /\ took s F A o b s' F') \/
  (exists ret, Malloc bytes true s = (ret, None, s) /\ out_of_memory ret /\
     forall b, size_ok b -> bytes <= 4096 * 2 ^ b -> F b = []).
Proof. apply Malloc_ok. Qed.

(** Release. [Free] of the address of an allocated block succeeds: it never
    reports corruption or a bad address. The block, of the size that was allocated,
    leaves the allocated ones and its cells join the free store, merged with its free
    buddies; the state stays well formed and no word outside the free store and the
    block is touched. *)
Theorem Free_spec s F A o b :
  inv s F ((o, b) :: A) -> 0 < s.(poolStart) ->
  exists s' F', Free (s.(poolStart) + 4096 * o) s = (kIOReturnSuccess, s') /\ inv s' F' A /\
    cells F' ≡ₚ area o b ++ cells F /\ s'.(poolStart) = s.(poolStart) /\
    pool_frame (area o b ++ cells F) s s'.
Proof. apply Free_ok. Qed.

(** ** Examples *)

(** A pool of 16 blocks, of which all but the first are released. *)
Definition blank : CEsvga2Allocator :=
  {| poolStart := 0; poolBlocks := 0; minBits := 0; numSizes := 0; freeList := fun _ => 0; map_allocated := false;
     Allocator.map := fun _ => 0; freeBytes := 0; pool := fun _ => 0 |}.
Definition demo : CEsvga2Allocator := (Release 4096 65536 (Init 0x10000 65536 true blank).2).2.

Lemma demo_inv : exists F, inv demo F [].
Proof.
  destruct (Init_spec 0x10000 65536 blank eq_refl) as (s1 & E1 & Hi1 & _); [done|].
  destruct (Release_ok s1 no_blocks [] 1 16 Hi1) as (s2 & F2 & E2 & Hi2 & _);
    try (injection E1 as <-; vm_compute; done); [intros n _; split; apply not_elem_of_nil|].
  exists F2. unfold demo. rewrite E1. cbn [snd]. change 4096 with (4096 * 1). change 65536 with (4096 * 16).
  by rewrite E2.
Qed.

Lemma allocator_refines_witness :
  let '(rets, (s, live)) := run [OpMalloc 5000; OpMalloc 100; OpWrite 0 7 42; OpFree 1; OpRealloc 0 70000; OpRealloc 0 9000] (demo, []) in
  rets = [kIOReturnSuccess; kIOReturnSuccess; kIOReturnSuccess; kIOReturnSuccess; kIOReturnNoMemory; kIOReturnSuccess] /\
  live = [0x14000] /\
  exists L, asteps [OpMalloc 5000; OpMalloc 100; OpWrite 0 7 42; OpFree 1; OpRealloc 0 70000; OpRealloc 0 9000] [] rets L /\
      length live = length L /\
      (forall k p b i, live !! k = Some p -> L !! k = Some b -> 0 <= i < 1024 * 2 ^ b.(ab_bits) ->
         s.(pool) ((p - s.(poolStart)) / 4 + i) = b.(ab_words) i) /\
      fst (Check s) = kIOReturnSuccess.
Proof.
  destruct (allocator_refines 0x10000 65536 blank 1 16
    [OpMalloc 5000; OpMalloc 100; OpWrite 0 7 42; OpFree 1; OpRealloc 0 70000; OpRealloc 0 9000])
    as (s1 & s2 & E1 & E2 & H); [done|done|done|vm_compute; done|vm_compute; done|].
  assert (Ed : s2 = demo) by (unfold demo; rewrite E1; cbn [snd]; change 4096 with (4096 * 1);
    change 65536 with (4096 * 16); by rewrite E2).
  rewrite Ed in H. clear E1 E2 Ed. revert H. destruct (run _ _) as [rets [s live]] eqn:E. intros H.
  assert (Er : (rets, live) = (fun r => (r.1, r.2.2)) (run [OpMalloc 5000; OpMalloc 100; OpWrite 0 7 42; OpFree 1;
    OpRealloc 0 70000; OpRealloc 0 9000] (demo, []))) by (by rewrite E).
  vm_compute in Er. injection Er as Er El. by split; [|split].
Defined.

Lemma Malloc_spec_witness : exists F, inv demo F [] /\
  ((exists o b s' F', Malloc 5000 true demo = (kIOReturnSuccess, Some (demo.(poolStart) + 4096 * o), s') /\
      size_ok b /\ smallest_for 5000 b /\ took demo F [] o b s' F') \/
   (exists ret, Malloc 5000 true demo = (ret, None, demo) /\ out_of_memory ret /\
      forall b, size_ok b -> 5000 <= 4096 * 2 ^ b -> F b = [])) /\
  (Malloc 5000 true demo).1 = (kIOReturnSuccess, Some 0x12000).
Proof.
  destruct demo_inv as [F H]. exists F. split; [exact H|]. split; [|vm_compute; reflexivity].
  apply (Malloc_spec demo F [] 5000 H).
Defined.

Lemma smallest_5000 b : size_ok b -> smallest_for 5000 b -> b = 1.
Proof.
  intros Hb [H1 H2]. unfold size_ok in Hb. destruct (Z.eq_dec b 0) as [->|]; [cbn in H1; lia|].
  destruct H2 as [|H2]; [lia|]. destruct (Z.le_gt_cases b 1); [lia|].
  pose proof (Z.pow_le_mono_r 2 1 (b - 1) ltac:(lia) ltac:(lia)). lia.
Qed.

(** The state after that allocation. *)
Lemma allocated_inv : exists F, inv (Malloc 5000 true demo).2 F [(2, 1)].
Proof.
  destruct demo_inv as [F H]. destruct (Malloc_ok demo F [] 5000 H) as [(o & b & s' & F' & E & Hb & Hsm & Ht)|(ret & E & Hret & _)].
  - exists F'. rewrite E. cbn [snd]. assert (Eo : (Malloc 5000 true demo).1.2 = Some 0x12000) by (vm_compute; reflexivity).
    rewrite E in Eo. cbn [fst snd] in Eo. change (poolStart demo) with 0x10000 in Eo. injection Eo as Eo.
    replace o with 2 in Ht by lia. rewrite (smallest_5000 b Hb Hsm) in Ht. apply (took_inv _ _ _ _ _ _ _ Ht).
  - exfalso. assert (Eo : (Malloc 5000 true demo).1.2 = Some 0x12000) by (vm_compute; reflexivity). by rewrite E in Eo.
Qed.

Lemma Free_spec_witness : exists F, inv (Malloc 5000 true demo).2 F [(2, 1)] /\
  exists s' F', Free ((Malloc 5000 true demo).2.(poolStart) + 4096 * 2) (Malloc 5000 true demo).2 = (kIOReturnSuccess, s') /\
    inv s' F' [] /\ cells F' ≡ₚ area 2 1 ++ cells F /\
    s'.(poolStart) = (Malloc 5000 true demo).2.(poolStart) /\ pool_frame (area 2 1 ++ cells F) (Malloc 5000 true demo).2 s'.
Proof.
  destruct allocated_inv as [F H]. exists F. split; [exact H|].
  apply (Free_spec _ F [] 2 1 H). reflexivity.
Defined.

(** Releasing twice: a range that ends a byte of the bitmap is accepted again, and
    its block is in the free list twice; the check then finds the list corrupt. *)
Definition released_twice : IOReturn * CEsvga2Allocator :=
  Release 0 32768 (Release 0 32768 (Init 0x10000 65536 true blank).2).2.

Lemma release_twice_accepted :
  released_twice.1 = kIOReturnSuccess /\ Available true released_twice.2 = (kIOReturnSuccess, Some 65536) /\
  (Check released_twice.2).1 = kIOReturnInternalError.
Proof. vm_compute. done. Qed.
