(* ===== verification/AccelIds.v ===== *)
(** Identifiers of surfaces, contexts, streams and memory regions, which the
    accelerator hands out from bit masks (AC/CEsvga2Accel.cpp), and the ring of fences
    of presentations (AC/FenceTracker.h). *)

From S2P Require Import Prelude Bits.
From stdpp Require Import list.

#[local] Open Scope Z_scope.

(** ** Bit searches *)

Definition log_2_32 (x : Z) : Z :=
  let y := 0 in
  let '(x, y) := if has_bits x 0xFFFF0000 then (Z.shiftr x 16, Z.lor y 16) else (x, y) in
  let '(x, y) := if has_bits x 0xFF00 then (Z.shiftr x 8, Z.lor y 8) else (x, y) in
  let '(x, y) := if has_bits x 0xF0 then (Z.shiftr x 4, Z.lor y 4) else (x, y) in
  let '(x, y) := if has_bits x 0xC then (Z.shiftr x 2, Z.lor y 2) else (x, y) in
  let '(x, y) := if has_bits x 0x2 then (Z.shiftr x 1, Z.lor y 1) else (x, y) in
  if negb (has_bits x 0x1) then -1 else y.

Definition log_2_64 (x : Z) : Z :=
  let y := 0 in
  let '(x, y) := if has_bits x 0xFFFFFFFF00000000 then (Z.shiftr x 32, Z.lor y 32) else (x, y) in
  Z.lor y (log_2_32 (u32 x)).

(** The word that a search finds has the lowest clear bit of the array set. The
    result is the position of that bit, counted from [i] at the start, or -1; the
    array is given from its word [p] on. *)
Fixpoint find_bit_in_array32 (num_entries : nat) (array : Z -> Z) (p i : Z) : Z * (Z -> Z) :=
  match num_entries with
  | O => (u32 (-1), array)
  | S num_entries =>
      let x := array p in
      let x := Z.land (u32 (Z.lnot x)) (u32 (x + 1)) in
      if x =? 0 then find_bit_in_array32 num_entries array (p + 1) (i + 8 * 4)
      else (u32 (i + log_2_32 x), upd array p (Z.lor (array p) x))
  end.

Fixpoint find_bit_in_array64 (num_entries : nat) (array : Z -> Z) (p i : Z) : Z * (Z -> Z) :=
  match num_entries with
  | O => (u32 (-1), array)
  | S num_entries =>
      let x := array p in
      let x := Z.land (u64 (Z.lnot x)) (u64 (x + 1)) in
      if x =? 0 then find_bit_in_array64 num_entries array (p + 1) (i + 8 * 8)
      else (u32 (i + log_2_64 x), upd array p (Z.lor (array p) x))
  end.

(** [array[i >> 6] |= 1ULL << (i & 63UL)] for the positions of a list. *)
Definition set_bits (l : list Z) (array : Z -> Z) : Z -> Z :=
  foldl (fun array i =>
    upd array (Z.shiftr i 6) (Z.lor (array (Z.shiftr i 6)) (u64 (Z.shiftl 1 (Z.land i 63))))) array l.

Definition mask_array64 (array : Z -> Z) (mask_start mask_end : Z) : Z -> Z :=
  let firstFull := Z.ldiff (mask_start + 63) 63 in
  let pastFull := Z.ldiff mask_end 63 in
  let past := if firstFull <=? mask_end then firstFull else mask_end in
  let array := set_bits (seqZ mask_start (past - mask_start)) array in
  let array :=
    if firstFull <? pastFull then
      foldl (fun array i => upd array i (u64 (-1))) array
        (seqZ (Z.shiftr firstFull 6) (Z.shiftr (pastFull - firstFull) 6))
    else array in
  let pastFull := if pastFull <? past then past else pastFull in
  set_bits (seqZ pastFull (mask_end - pastFull)) array.

(** ** State and operations *)

Record ids := {
  m_surface_id_mask : Z -> Z;
  m_context_id_mask : Z -> Z;      (** one word *)
  m_gmr_id_mask : Z -> Z;
  m_surface_ids_unmanaged : Z;
  m_context_ids_unmanaged : Z;
  m_surface_id_idx : Z;
  m_gmr_id_idx : Z;
  m_stream_id_mask : Z -> Z;       (** one word *)
}.

Implicit Types (s : ids).

Definition AllocSurfaceID s : Z * ids :=
  let num_entries := 4 in
  let '(r, mask) := find_bit_in_array64 (Z.to_nat (num_entries - s.(m_surface_id_idx))) s.(m_surface_id_mask)
                      s.(m_surface_id_idx) 0 in
  if s32 r <? 0 then
    (u32 (Z.shiftl num_entries 6 + s.(m_surface_ids_unmanaged)),
     {| m_surface_id_mask := mask; m_context_id_mask := s.(m_context_id_mask); m_gmr_id_mask := s.(m_gmr_id_mask);
        m_surface_ids_unmanaged := u32 (s.(m_surface_ids_unmanaged) + 1);
        m_context_ids_unmanaged := s.(m_context_ids_unmanaged); m_surface_id_idx := num_entries;
        m_gmr_id_idx := s.(m_gmr_id_idx); m_stream_id_mask := s.(m_stream_id_mask) |})
  else
    let t := Z.shiftr r 6 in
    (u32 (r + Z.shiftl s.(m_surface_id_idx) 6),
     {| m_surface_id_mask := mask; m_context_id_mask := s.(m_context_id_mask); m_gmr_id_mask := s.(m_gmr_id_mask);
        m_surface_ids_unmanaged := s.(m_surface_ids_unmanaged);
        m_context_ids_unmanaged := s.(m_context_ids_unmanaged); m_surface_id_idx := u32 (s.(m_surface_id_idx) + t);
        m_gmr_id_idx := s.(m_gmr_id_idx); m_stream_id_mask := s.(m_stream_id_mask) |}).

(** [mask[r] &= ~(1ULL << n)] *)
Definition clear_bit (mask : Z -> Z) (r n : Z) : Z -> Z :=
  upd mask r (Z.ldiff (mask r) (Z.shiftl 1 n)).

Definition FreeSurfaceID (sid : Z) s : ids :=
  let num_entries := 4 in
  let r := Z.shiftr sid 6 in
  if num_entries <=? r then s
  else
    {| m_surface_id_mask := clear_bit s.(m_surface_id_mask) r (Z.land sid 63);
       m_context_id_mask := s.(m_context_id_mask); m_gmr_id_mask := s.(m_gmr_id_mask);
       m_surface_ids_unmanaged := s.(m_surface_ids_unmanaged); m_context_ids_unmanaged := s.(m_context_ids_unmanaged);
       m_surface_id_idx := if r <? s.(m_surface_id_idx) then r else s.(m_surface_id_idx);
       m_gmr_id_idx := s.(m_gmr_id_idx); m_stream_id_mask := s.(m_stream_id_mask) |}.

Definition AllocContextID s : Z * ids :=
  let '(r, mask) := find_bit_in_array64 1 s.(m_context_id_mask) 0 0 in
  let unmanaged := s32 r <? 0 in
  (if unmanaged then u32 (8 * 8 + s.(m_context_ids_unmanaged)) else r,
   {| m_surface_id_mask := s.(m_surface_id_mask); m_context_id_mask := mask; m_gmr_id_mask := s.(m_gmr_id_mask);
      m_surface_ids_unmanaged := s.(m_surface_ids_unmanaged);
      m_context_ids_unmanaged := if unmanaged then u32 (s.(m_context_ids_unmanaged) + 1) else s.(m_context_ids_unmanaged);
      m_surface_id_idx := s.(m_surface_id_idx); m_gmr_id_idx := s.(m_gmr_id_idx);
      m_stream_id_mask := s.(m_stream_id_mask) |}).

Definition FreeContextID (cid : Z) s : ids :=
  if 8 * 8 <=? cid then s
  else
    {| m_surface_id_mask := s.(m_surface_id_mask); m_context_id_mask := clear_bit s.(m_context_id_mask) 0 cid;
       m_gmr_id_mask := s.(m_gmr_id_mask); m_surface_ids_unmanaged := s.(m_surface_ids_unmanaged);
       m_context_ids_unmanaged := s.(m_context_ids_unmanaged); m_surface_id_idx := s.(m_surface_id_idx);
       m_gmr_id_idx := s.(m_gmr_id_idx); m_stream_id_mask := s.(m_stream_id_mask) |}.

Definition AllocStreamID s : Z * ids :=
  let '(r, mask) := find_bit_in_array32 1 s.(m_stream_id_mask) 0 0 in
  (r,
   {| m_surface_id_mask := s.(m_surface_id_mask); m_context_id_mask := s.(m_context_id_mask);
      m_gmr_id_mask := s.(m_gmr_id_mask); m_surface_ids_unmanaged := s.(m_surface_ids_unmanaged);
      m_context_ids_unmanaged := s.(m_context_ids_unmanaged); m_surface_id_idx := s.(m_surface_id_idx);
      m_gmr_id_idx := s.(m_gmr_id_idx); m_stream_id_mask := mask |}).

Definition FreeStreamID (streamId : Z) s : ids :=
  if 8 * 4 <=? streamId then s
  else
    {| m_surface_id_mask := s.(m_surface_id_mask); m_context_id_mask := s.(m_context_id_mask);
       m_gmr_id_mask := s.(m_gmr_id_mask); m_surface_ids_unmanaged := s.(m_surface_ids_unmanaged);
       m_context_ids_unmanaged := s.(m_context_ids_unmanaged); m_surface_id_idx := s.(m_surface_id_idx);
       m_gmr_id_idx := s.(m_gmr_id_idx); m_stream_id_mask := clear_bit s.(m_stream_id_mask) 0 streamId |}.

Definition AllocGMRID s : Z * ids :=
  let num_entries := 2 in
  let '(r, mask) := find_bit_in_array64 (Z.to_nat (num_entries - s.(m_gmr_id_idx))) s.(m_gmr_id_mask) s.(m_gmr_id_idx) 0 in
  let none := s32 r <? 0 in
  let t := Z.shiftr r 6 in
  (if none then r else u32 (r + Z.shiftl s.(m_gmr_id_idx) 6),
   {| m_surface_id_mask := s.(m_surface_id_mask); m_context_id_mask := s.(m_context_id_mask); m_gmr_id_mask := mask;
      m_surface_ids_unmanaged := s.(m_surface_ids_unmanaged); m_context_ids_unmanaged := s.(m_context_ids_unmanaged);
      m_surface_id_idx := s.(m_surface_id_idx);
      m_gmr_id_idx := if none then num_entries else u32 (s.(m_gmr_id_idx) + t);
      m_stream_id_mask := s.(m_stream_id_mask) |}).

Definition FreeGMRID (gmrId : Z) s : ids :=
  let num_entries := 2 in
  let r := Z.shiftr gmrId 6 in
  if num_entries <=? r then s
  else
    {| m_surface_id_mask := s.(m_surface_id_mask); m_context_id_mask := s.(m_context_id_mask);
       m_gmr_id_mask := clear_bit s.(m_gmr_id_mask) r (Z.land gmrId 63);
       m_surface_ids_unmanaged := s.(m_surface_ids_unmanaged); m_context_ids_unmanaged := s.(m_context_ids_unmanaged);
       m_surface_id_idx := s.(m_surface_id_idx);
       m_gmr_id_idx := if r <? s.(m_gmr_id_idx) then r else s.(m_gmr_id_idx);
       m_stream_id_mask := s.(m_stream_id_mask) |}.

(** The masks of a new service, of which [start] reserves the regions that the
    device does not have. *)
Definition start_ids (max_gmr_ids : Z) : ids :=
  {| m_surface_id_mask := fun _ => 0; m_context_id_mask := fun _ => 0;
     m_gmr_id_mask := mask_array64 (fun _ => 0) max_gmr_ids (8 * 16);
     m_surface_ids_unmanaged := 0; m_context_ids_unmanaged := 0; m_surface_id_idx := 0; m_gmr_id_idx := 0;
     m_stream_id_mask := fun _ => 0 |}.

(** ** Fences of presentations *)

Record FenceTracker := { counter : Z; fences : Z -> Z }.

Definition tracker_init : FenceTracker := {| counter := 0; fences := fun _ => 0 |}.
Definition tracker_before (t : FenceTracker) : Z := t.(fences) t.(counter).
Definition tracker_after (N fence : Z) (t : FenceTracker) : FenceTracker :=
  let c := t.(counter) + 1 in
  {| counter := if c =? N then 0 else c; fences := upd t.(fences) t.(counter) fence |}.

(** ** The lowest clear bit *)

Definition lowest (x k : Z) : Prop :=
  0 <= k /\ Z.testbit x k = false /\ forall q, 0 <= q < k -> Z.testbit x q = true.

Lemma lowest_dec x (n : nat) :
  (forall q, 0 <= q < Z.of_nat n -> Z.testbit x q = true) \/ exists k, k < Z.of_nat n /\ lowest x k.
Proof.
  induction n as [|n [IH|(k & Hk & Hl)]]; [left; lia| |right; exists k; split; [lia|done]].
  destruct (Z.testbit x (Z.of_nat n)) eqn:E; [left|right; exists (Z.of_nat n); split; [lia|split; [lia|done]]].
  intros q Hq. destruct (Z.eq_dec q (Z.of_nat n)) as [->|]; [done|]. apply IH. lia.
Qed.

Lemma all_ones w x : 0 <= w -> fits w x -> (forall q, 0 <= q < w -> Z.testbit x q = true) -> x = 2 ^ w - 1.
Proof.
  intros Hw Hx Hq. replace (2 ^ w - 1) with (Z.ones w) by (rewrite Z.ones_equiv; lia).
  apply Z.bits_inj'. intros q H0. destruct (Z.lt_ge_cases q w).
  - by rewrite Hq, Z.ones_spec_low by lia.
  - rewrite Z.ones_spec_high by lia. rewrite <-(Z.mod_small _ _ Hx). by apply Z.mod_pow2_bits_high.
Qed.

(** Adding one carries into the lowest clear bit. *)
Lemma lowest_succ x k : lowest x k -> x + 1 = 2 ^ k + 2 ^ (k + 1) * (x / 2 ^ (k + 1)).
Proof.
  intros (H0 & Hk & Hq). assert (Hpos : 0 < 2 ^ (k + 1)) by (apply Z.pow_pos_nonneg; lia).
  rewrite (Z.div_mod x (2 ^ (k + 1))) at 1 by lia.
  enough (x mod 2 ^ (k + 1) = 2 ^ k - 1) by lia. replace (2 ^ k - 1) with (Z.ones k) by (rewrite Z.ones_equiv; lia).
  apply Z.bits_inj'. intros q Hr. rewrite Z.testbit_mod_pow2 by lia. destruct (Z.lt_ge_cases q k).
  - rewrite Hq, Z.ones_spec_low by lia. by rewrite (proj2 (Z.ltb_lt _ _)) by lia.
  - rewrite Z.ones_spec_high by lia. destruct (Z.eq_dec q k) as [->|]; [by rewrite Hk, andb_false_r|].
    by rewrite (proj2 (Z.ltb_ge _ _)) by lia.
Qed.

Lemma low_bit w x k : 0 < w -> fits w x -> k < w -> lowest x k ->
  Z.land (wrap w (Z.lnot x)) (wrap w (x + 1)) = 2 ^ k.
Proof.
  intros Hw Hx Hk Hl. pose proof (lowest_succ x k Hl) as E. destruct Hl as (H0 & Hb & Hq).
  pose proof (Z.pow_pos_nonneg 2 k ltac:(lia) H0) as Hpos.
  assert (Hpk : 2 ^ (k + 1) = 2 * 2 ^ k) by (rewrite Z.pow_add_r by lia; lia).
  apply Z.bits_inj'. intros q Hr. unfold wrap. rewrite Z.land_spec, !Z.testbit_mod_pow2, Z.lnot_spec by lia.
  rewrite Z.pow2_bits_eqb, E, testbit_concat by lia. rewrite Z.pow2_bits_eqb by lia.
  destruct (Z.ltb_spec q w); cbn [andb]; [|symmetry; apply Z.eqb_neq; lia].
  destruct (Z.ltb_spec q (k + 1)).
  - destruct (Z.eqb_spec k q) as [<-|]; [by rewrite Hb|]. apply andb_false_r.
  - rewrite Z.div_pow2_bits by lia. replace (q - (k + 1) + (k + 1)) with q by lia.
    rewrite (proj2 (Z.eqb_neq k q)) by lia. by destruct (Z.testbit x q).
Qed.

Lemma log_2_64_pow k : 0 <= k < 64 -> log_2_64 (2 ^ k) = k.
Proof.
  intros Hk. assert (H : forallb (fun k => log_2_64 (2 ^ k) =? k) (seqZ 0 64) = true) by (vm_compute; done).
  rewrite forallb_forall in H. apply Z.eqb_eq, H, list_elem_of_In, elem_of_seqZ. lia.
Qed.

Lemma log_2_32_pow k : 0 <= k < 32 -> log_2_32 (2 ^ k) = k.
Proof.
  intros Hk. assert (H : forallb (fun k => log_2_32 (2 ^ k) =? k) (seqZ 0 32) = true) by (vm_compute; done).
  rewrite forallb_forall in H. apply Z.eqb_eq, H, list_elem_of_In, elem_of_seqZ. lia.
Qed.

(** ** Arrays of bits *)

(** The bit at a position of an array of words of [w] bits. *)
Definition bit (w : Z) (array : Z -> Z) (n : Z) : bool := Z.testbit (array (n / w)) (n mod w).
Definition words_fit (w : Z) (array : Z -> Z) : Prop := forall i, fits w (array i).

Lemma bit_index w p q : 0 < w -> 0 <= q < w -> (w * p + q) / w = p /\ (w * p + q) mod w = q.
Proof. intros Hw Hq. split; [symmetry; apply (Z.div_unique _ w p q)|symmetry; apply (Z.mod_unique _ w p q)]; lia. Qed.

Lemma bit_word w array p q : 0 < w -> 0 <= q < w -> bit w array (w * p + q) = Z.testbit (array p) q.
Proof. intros Hw Hq. unfold bit. by destruct (bit_index w p q Hw Hq) as [-> ->]. Qed.

Lemma pos_eqb w p q n : 0 < w -> 0 <= q < w -> (n =? w * p + q) = (n / w =? p) && (n mod w =? q).
Proof.
  intros Hw Hq. pose proof (Z.div_mod n w ltac:(lia)). pose proof (Z.mod_pos_bound n w Hw).
  destruct (Z.eqb_spec n (w * p + q)) as [->|Hne].
  - destruct (bit_index w p q Hw Hq) as [-> ->]. by rewrite !Z.eqb_refl.
  - destruct (Z.eqb_spec (n / w) p), (Z.eqb_spec (n mod w) q); cbn [andb]; try done. subst. lia.
Qed.

Lemma bit_set w array p q n : 0 < w -> 0 <= q < w ->
  bit w (upd array p (Z.lor (array p) (2 ^ q))) n = (n =? w * p + q) || bit w array n.
Proof.
  intros Hw Hq. rewrite pos_eqb by done. unfold bit, upd. pose proof (Z.mod_pos_bound n w Hw).
  destruct (Z.eqb_spec (n / w) p) as [->|]; cbn [andb]; [|done].
  rewrite Z.lor_spec, Z.pow2_bits_eqb, (Z.eqb_sym q) by lia. apply orb_comm.
Qed.

Lemma bit_clear w array p q n : 0 < w -> 0 <= q < w ->
  bit w (clear_bit array p q) n = negb (n =? w * p + q) && bit w array n.
Proof.
  intros Hw Hq. rewrite pos_eqb by done. unfold bit, clear_bit, upd. pose proof (Z.mod_pos_bound n w Hw).
  destruct (Z.eqb_spec (n / w) p) as [->|]; cbn [andb negb]; [|done].
  rewrite Z.ldiff_spec, Z.shiftl_1_l, Z.pow2_bits_eqb, (Z.eqb_sym q) by lia. apply andb_comm.
Qed.

Lemma words_fit_upd w array p x : words_fit w array -> fits w x -> words_fit w (upd array p x).
Proof. intros Ha Hx i. unfold upd. destruct (i =? p); [done|apply Ha]. Qed.

(** Both searches, by the width of the words. *)
Fixpoint find_bit (w : Z) (log2 : Z -> Z) (n : nat) (array : Z -> Z) (p i : Z) : Z * (Z -> Z) :=
  match n with
  | O => (u32 (-1), array)
  | S n =>
      let x := Z.land (wrap w (Z.lnot (array p))) (wrap w (array p + 1)) in
      if x =? 0 then find_bit w log2 n array (p + 1) (i + w)
      else (u32 (i + log2 x), upd array p (Z.lor (array p) x))
  end.

Lemma find_bit_64 n : forall array p i, find_bit_in_array64 n array p i = find_bit 64 log_2_64 n array p i.
Proof. induction n as [|n IH]; intros; cbn [find_bit_in_array64 find_bit]; [done|]. by rewrite IH. Qed.

Lemma find_bit_32 n : forall array p i, find_bit_in_array32 n array p i = find_bit 32 log_2_32 n array p i.
Proof. induction n as [|n IH]; intros; cbn [find_bit_in_array32 find_bit]; [done|]. by rewrite IH. Qed.

(** What a search does from the word [p] on, for [n] words. *)
Definition found (w p n i : Z) (array : Z -> Z) (res : Z * (Z -> Z)) : Prop :=
  (res = (u32 (-1), array) /\ forall m, w * p <= m < w * (p + n) -> bit w array m = true) \/
  (exists k, w * p <= k < w * (p + n) /\ res.1 = i + (k - w * p) /\ bit w array k = false /\
     (forall m, w * p <= m < k -> bit w array m = true) /\
     (forall m, bit w res.2 m = (m =? k) || bit w array m) /\ words_fit w res.2).

Lemma find_bit_spec w log2 : 0 < w -> (forall k, 0 <= k < w -> log2 (2 ^ k) = k) -> forall n array p i,
  words_fit w array -> 0 <= i -> i + w * Z.of_nat n < 2 ^ 31 ->
  found w p (Z.of_nat n) i array (find_bit w log2 n array p i).
Proof.
  intros Hw Hlog. induction n as [|n IH]; intros array p i Ha Hi Hn; cbn [find_bit].
  { left. split; [done|]. lia. }
  assert (Hword : forall m, w * p <= m < w * (p + 1) -> 0 <= m - w * p < w /\ bit w array m = Z.testbit (array p) (m - w * p)).
  { intros m Hm. split; [lia|]. rewrite <-(bit_word w array p) by lia. f_equal. lia. }
  pose proof (lowest_dec (array p) (Z.to_nat w)) as Hd. rewrite Z2Nat.id in Hd by lia. destruct Hd as [Hall|(k & Hk & Hl)].
  - rewrite (all_ones w (array p)) by (done || lia || apply Ha).
    replace (2 ^ w - 1 + 1) with (1 * 2 ^ w) by lia. unfold wrap at 2. rewrite Z.mod_mul, Z.land_0_r by (apply Z.pow_nonzero; lia).
    cbn [Z.eqb]. destruct (IH array (p + 1) (i + w) Ha) as [[-> Hm]|(k & Hk & Er & Hb & Hm & Hs & Hf)]; [lia|lia| |].
    + left. split; [done|]. intros m Hr. destruct (Z.lt_ge_cases m (w * (p + 1))); [|apply Hm; lia].
      destruct (Hword m ltac:(lia)) as [? ->]. by apply Hall.
    + right. exists k. split; [lia|]. split; [lia|]. split; [done|]. split; [|done]. intros m Hr.
      destruct (Z.lt_ge_cases m (w * (p + 1))); [|apply Hm; lia]. destruct (Hword m ltac:(lia)) as [? ->]. by apply Hall.
  - rewrite (low_bit w (array p) k) by (done || apply Ha). destruct Hl as (H0 & Hb & Hq).
    rewrite (proj2 (Z.eqb_neq _ _)) by (pose proof (Z.pow_pos_nonneg 2 k); lia). right. exists (w * p + k).
    rewrite Hlog by lia. split; [lia|]. cbn [fst snd]. split; [rewrite wrap_small; [lia|split; lia]|].
    split; [by rewrite bit_word by lia|]. split; [|split].
    + intros m Hm. destruct (Hword m ltac:(lia)) as [? ->]. apply Hq. lia.
    + intros m. by apply bit_set.
    + apply words_fit_upd; [done|]. apply fits_lor; [apply Ha|lia].
Qed.

(** ** One allocator *)

(** The bits that are set: ids in use or, from [limit] on, reserved. Words before
    the index are full. *)
Record pool_ok (w N : Z) (mask : Z -> Z) (idx limit : Z) (live : list Z) : Prop := {
  po_fit : words_fit w mask;
  po_idx : 0 <= idx <= N;
  po_limit : 0 <= limit <= w * N;
  po_full m : 0 <= m < w * idx -> bit w mask m = true;
  po_used m : 0 <= m < w * N -> bit w mask m = true <-> m ∈ live \/ limit <= m;
}.

(** The next id: the smallest one that is free, if any. *)
Definition next_id (limit : Z) (live : list Z) (r : Z) : Prop :=
  (0 <= r < limit /\ (r ∉ live) /\ forall m, 0 <= m < r -> m ∈ live).
Definition no_id (limit : Z) (live : list Z) : Prop := forall m, 0 <= m < limit -> m ∈ live.

Lemma pool_alloc w N mask idx limit live res :
  0 < w -> pool_ok w N mask idx limit live -> found w idx (N - idx) 0 mask res ->
  (res = (u32 (-1), mask) /\ no_id limit live /\ pool_ok w N mask N limit live) \/
  (exists r, res.1 = r - w * idx /\ 0 <= res.1 < w * N /\ next_id limit live r /\
     pool_ok w N res.2 (idx + res.1 / w) limit (r :: live)).
Proof.
  intros Hw [Hf Hi Hl Hfull Hu] [[-> Hm]|(k & Hk & Er & Hb & Hm & Hs & Hf')].
  - replace (idx + (N - idx)) with N in Hm by lia.
    assert (Hall : forall m, 0 <= m < w * N -> bit w mask m = true).
    { intros m Hr. destruct (Z.lt_ge_cases m (w * idx)); [apply Hfull|apply Hm]; lia. }
    left. split; [done|]. split; [|split; try done; lia]. intros m Hr.
    destruct (proj1 (Hu m ltac:(lia)) (Hall m ltac:(lia))); [done|lia].
  - right. exists k. replace (idx + (N - idx)) with N in Hk by lia.
    assert (Hk0 : 0 <= k) by nia.
    assert (Hlt : forall m, 0 <= m < k -> bit w mask m = true).
    { intros m Hr. destruct (Z.lt_ge_cases m (w * idx)); [apply Hfull|apply Hm]; lia. }
    assert (Hnot : (k ∉ live) /\ k < limit).
    { pose proof (proj2 (Hu k ltac:(lia))) as Hn. rewrite Hb in Hn. split; [intros ?; by assert (false = true) by tauto|].
      destruct (Z.lt_ge_cases k limit); [done|]. by assert (false = true) by tauto. }
    split; [lia|]. split; [nia|]. split.
    + split; [lia|]. split; [tauto|]. intros m Hr. destruct (proj1 (Hu m ltac:(lia)) (Hlt m Hr)); [done|lia].
    + assert (Hdiv : w * (idx + res.1 / w) <= k).
      { rewrite Er. pose proof (Z.mul_div_le (0 + (k - w * idx)) w ltac:(lia)). lia. }
      split; try done.
      * rewrite Er. pose proof (Z.div_pos (0 + (k - w * idx)) w ltac:(lia) ltac:(lia)). split; [lia|].
        assert ((0 + (k - w * idx)) / w < N - idx) by (apply Z.div_lt_upper_bound; lia). lia.
      * intros m Hr. rewrite Hs. rewrite (Hlt m) by lia. by rewrite orb_true_r.
      * intros m Hr. rewrite Hs, orb_true_iff, Z.eqb_eq, (Hu m Hr), elem_of_cons. tauto.
Qed.

Lemma pool_free w N mask idx limit live live' r :
  0 < w -> pool_ok w N mask idx limit live -> live ≡ₚ r :: live' -> NoDup live -> 0 <= r < limit ->
  pool_ok w N (clear_bit mask (r / w) (r mod w)) (if r / w <? idx then r / w else idx) limit live'.
Proof.
  intros Hw [Hf Hi Hl Hfull Hu] HP Hnd Hr. pose proof (Z.mod_pos_bound r w Hw) as Hq.
  assert (Hbit : forall n, bit w (clear_bit mask (r / w) (r mod w)) n = negb (n =? r) && bit w mask n).
  { intros n. rewrite bit_clear by done. by rewrite <-Z.div_mod by lia. }
  assert (Hdiv : 0 <= r / w) by (apply Z.div_pos; lia). pose proof (Z.mul_div_le r w Hw) as Hle.
  split; try done.
  - apply words_fit_upd; [done|]. apply fits_ldiff; [lia|apply Hf].
  - destruct (Z.ltb_spec (r / w) idx); lia.
  - intros m Hm. assert (Hmi : m < w * idx) by (destruct (Z.ltb_spec (r / w) idx); nia).
    rewrite Hbit, (Hfull m), andb_true_r by lia. apply negb_true_iff, Z.eqb_neq. intros ->.
    destruct (Z.ltb_spec (r / w) idx) as [|Hge]; [lia|].
    pose proof (Z.mul_le_mono_nonneg_l idx (r / w) w ltac:(lia) Hge). lia.
  - intros m Hm. rewrite Hbit, andb_true_iff, negb_true_iff, Z.eqb_neq, (Hu m Hm), HP, elem_of_cons.
    rewrite HP in Hnd. apply NoDup_cons in Hnd as [Hn _]. split; [tauto|]. intros Hc. split; [|tauto].
    intros ->. destruct Hc; [done|lia].
Qed.

(** ** The reserved ids *)

Definition in_range (a b k : Z) : bool := (a <=? k) && (k <? b).

Lemma set_bits_spec n : forall a array, words_fit 64 array ->
  words_fit 64 (set_bits (seqZ a (Z.of_nat n)) array) /\
  forall k, bit 64 (set_bits (seqZ a (Z.of_nat n)) array) k = in_range a (a + Z.of_nat n) k || bit 64 array k.
Proof.
  induction n as [|n IH]; intros a array Ha.
  { split; [done|]. intros k. unfold in_range. replace (a + Z.of_nat 0) with a by lia. zcase. }
  rewrite seqZ_cons by lia. replace (Z.pred (Z.of_nat (S n))) with (Z.of_nat n) by lia.
  unfold set_bits. cbn [foldl]. fold (set_bits (seqZ (Z.succ a) (Z.of_nat n))).
  pose proof (Z.mod_pos_bound a 64 ltac:(lia)) as Hm.
  assert (Eb : u64 (Z.shiftl 1 (Z.land a 63)) = 2 ^ (a mod 64)).
  { change 63 with (Z.ones 6). rewrite Z.land_ones, Z.shiftl_1_l by lia. change (2 ^ 6) with 64. apply wrap_small.
    split; [lia|]. apply Z.pow_lt_mono_r; lia. }
  rewrite Eb, Z.shiftr_div_pow2 by lia. change (2 ^ 6) with 64.
  destruct (IH (Z.succ a) (upd array (a / 64) (Z.lor (array (a / 64)) (2 ^ (a mod 64))))) as [Hf Hb].
  { apply words_fit_upd; [done|]. apply fits_lor; [apply Ha|lia]. }
  split; [done|]. intros k. rewrite Hb, bit_set by lia. rewrite <-Z.div_mod by lia. unfold in_range.
  destruct (bit 64 array k); rewrite ?orb_true_r, ?orb_false_r; [done|]. zcase.
Qed.

Lemma set_bits_range a b array : words_fit 64 array ->
  words_fit 64 (set_bits (seqZ a (b - a)) array) /\
  forall k, bit 64 (set_bits (seqZ a (b - a)) array) k = in_range a b k || bit 64 array k.
Proof.
  intros Ha. destruct (Z.le_gt_cases a b) as [Hle|Hgt].
  - replace (b - a) with (Z.of_nat (Z.to_nat (b - a))) by lia. destruct (set_bits_spec (Z.to_nat (b - a)) a array Ha) as [Hf Hb].
    split; [done|]. intros k. rewrite Hb. by replace (a + Z.of_nat (Z.to_nat (b - a))) with b by lia.
  - unfold seqZ. rewrite Z2Nat.nonpos by lia. split; [done|]. intros k. cbn. unfold in_range. zcase.
Qed.

Lemma set_words_spec n : forall p array, words_fit 64 array ->
  let array' := foldl (fun array i => upd array i (u64 (-1))) array (seqZ p (Z.of_nat n)) in
  words_fit 64 array' /\ forall k, bit 64 array' k = in_range (64 * p) (64 * (p + Z.of_nat n)) k || bit 64 array k.
Proof.
  induction n as [|n IH]; intros p array Ha.
  { split; [done|]. intros k. unfold in_range. cbn [foldl seqZ]. replace (p + Z.of_nat 0) with p by lia. zcase. }
  rewrite seqZ_cons by lia. replace (Z.pred (Z.of_nat (S n))) with (Z.of_nat n) by lia. cbn [foldl].
  destruct (IH (Z.succ p) (upd array p (u64 (-1)))) as [Hf Hb]; [by apply words_fit_upd|].
  split; [done|]. intros k. cbv zeta in Hb. rewrite Hb. unfold in_range, bit, upd.
  pose proof (Z.div_mod k 64 ltac:(lia)) as Hk. pose proof (Z.mod_pos_bound k 64 ltac:(lia)) as Hm.
  destruct (Z.eqb_spec (k / 64) p) as [Ep|Ep].
  - change (u64 (-1)) with (Z.ones 64). rewrite Z.ones_spec_low by lia. rewrite orb_true_r. symmetry.
    apply orb_true_iff. left. zcase.
  - f_equal. zcase.
Qed.

Lemma mask_array64_spec array a b : words_fit 64 array ->
  words_fit 64 (mask_array64 array a b) /\
  forall k, bit 64 (mask_array64 array a b) k = in_range a b k || bit 64 array k.
Proof.
  intros Ha. unfold mask_array64.
  assert (El : forall n, Z.ldiff n 63 = 64 * (n / 64)).
  { intros n. change 63 with (Z.ones 6). rewrite Z.ldiff_ones_r, Z.shiftl_mul_pow2, Z.shiftr_div_pow2 by lia. change (2 ^ 6) with 64. lia. }
  rewrite !El. set (x := (a + 63) / 64). set (y := b / 64).
  assert (Hx : a <= 64 * x < a + 64) by (unfold x; pose proof (Z.div_mod (a + 63) 64 ltac:(lia));
    pose proof (Z.mod_pos_bound (a + 63) 64 ltac:(lia)); lia).
  assert (Hy : 64 * y <= b < 64 * y + 64) by (unfold y; pose proof (Z.div_mod b 64 ltac:(lia));
    pose proof (Z.mod_pos_bound b 64 ltac:(lia)); lia).
  clearbody x y. rewrite !Z.shiftr_div_pow2 by lia. change (2 ^ 6) with 64.
  replace (64 * x / 64) with x by (rewrite Z.mul_comm, Z.div_mul; lia).
  replace ((64 * y - 64 * x) / 64) with (y - x) by (replace (64 * y - 64 * x) with ((y - x) * 64) by lia; by rewrite Z.div_mul).
  set (past := if 64 * x <=? b then 64 * x else b).
  destruct (set_bits_range a past array Ha) as [H1 B1]. set (array1 := set_bits _ array) in *.
  set (array2 := if 64 * x <? 64 * y then _ else array1).
  assert (H2 : words_fit 64 array2 /\ forall k, bit 64 array2 k = in_range (64 * x) (64 * y) k || bit 64 array1 k).
  { unfold array2. destruct (Z.ltb_spec (64 * x) (64 * y)).
    - replace (y - x) with (Z.of_nat (Z.to_nat (y - x))) by lia. destruct (set_words_spec (Z.to_nat (y - x)) x array1 H1) as [Hf Hb].
      split; [done|]. intros k. cbv zeta in Hb. rewrite Hb. by replace (x + Z.of_nat (Z.to_nat (y - x))) with y by lia.
    - split; [done|]. intros k. unfold in_range. zcase. }
  destruct H2 as [H2 B2]. clearbody array2.
  destruct (set_bits_range (if 64 * y <? past then past else 64 * y) b array2 H2) as [H3 B3].
  split; [done|]. intros k. rewrite B3, B2, B1. unfold past, in_range.
  destruct (bit 64 array k); rewrite ?orb_true_r, ?orb_false_r; [done|]. zcase.
Qed.

(** ** Runs *)

(** The ids of each kind that clients hold. *)
Record held := { h_surfaces : list Z; h_contexts : list Z; h_streams : list Z; h_gmrs : list Z }.

Inductive id_op :=
  | OpAllocSurface | OpFreeSurface (k : nat)
  | OpAllocContext | OpFreeContext (k : nat)
  | OpAllocStream | OpFreeStream (k : nat)
  | OpAllocGMR | OpFreeGMR (k : nat).

(** An id that is not -1 is held; a client frees an id that it holds. *)
Definition take_id (r : Z) (l : list Z) : list Z := if s32 r <? 0 then l else r :: l.

Definition exec_id (c : id_op) (st : ids * held) : ids * held :=
  let '(s, h) := st in
  match c with
  | OpAllocSurface => let '(r, s) := AllocSurfaceID s in
      (s, {| h_surfaces := r :: h.(h_surfaces); h_contexts := h.(h_contexts); h_streams := h.(h_streams); h_gmrs := h.(h_gmrs) |})
  | OpFreeSurface k => match h.(h_surfaces) !! k with None => st | Some r =>
      (FreeSurfaceID r s, {| h_surfaces := delete k h.(h_surfaces); h_contexts := h.(h_contexts); h_streams := h.(h_streams); h_gmrs := h.(h_gmrs) |}) end
  | OpAllocContext => let '(r, s) := AllocContextID s in
      (s, {| h_surfaces := h.(h_surfaces); h_contexts := r :: h.(h_contexts); h_streams := h.(h_streams); h_gmrs := h.(h_gmrs) |})
  | OpFreeContext k => match h.(h_contexts) !! k with None => st | Some r =>
      (FreeContextID r s, {| h_surfaces := h.(h_surfaces); h_contexts := delete k h.(h_contexts); h_streams := h.(h_streams); h_gmrs := h.(h_gmrs) |}) end
  | OpAllocStream => let '(r, s) := AllocStreamID s in
      (s, {| h_surfaces := h.(h_surfaces); h_contexts := h.(h_contexts); h_streams := take_id r h.(h_streams); h_gmrs := h.(h_gmrs) |})
  | OpFreeStream k => match h.(h_streams) !! k with None => st | Some r =>
      (FreeStreamID r s, {| h_surfaces := h.(h_surfaces); h_contexts := h.(h_contexts); h_streams := delete k h.(h_streams); h_gmrs := h.(h_gmrs) |}) end
  | OpAllocGMR => let '(r, s) := AllocGMRID s in
      (s, {| h_surfaces := h.(h_surfaces); h_contexts := h.(h_contexts); h_streams := h.(h_streams); h_gmrs := take_id r h.(h_gmrs) |})
  | OpFreeGMR k => match h.(h_gmrs) !! k with None => st | Some r =>
      (FreeGMRID r s, {| h_surfaces := h.(h_surfaces); h_contexts := h.(h_contexts); h_streams := h.(h_streams); h_gmrs := delete k h.(h_gmrs) |}) end
  end.

Definition run_ids (max_gmr_ids : Z) (ops : list id_op) : ids * held :=
  foldl (fun st c => exec_id c st) (start_ids max_gmr_ids, {| h_surfaces := []; h_contexts := []; h_streams := []; h_gmrs := [] |}) ops.

(** ** The invariant *)

(** Ids below the limit only. *)
Definition bounded (w N : Z) (mask : Z -> Z) (idx limit : Z) (live : list Z) : Prop :=
  pool_ok w N mask idx limit live /\ NoDup live /\ Forall (fun r => 0 <= r < limit) live.

(** Ids from the masks and, behind them, [um] ids that were counted up. *)
Definition counted (w N : Z) (mask : Z -> Z) (idx um : Z) (live : list Z) : Prop :=
  pool_ok w N mask idx (w * N) live /\ NoDup live /\ Forall (fun r => 0 <= r < w * N + um) live /\ 0 <= um.

(** Ids behind the masks do not matter to them. *)
Lemma pool_ok_live w N mask idx limit live live' :
  pool_ok w N mask idx limit live -> (forall m, 0 <= m < w * N -> m ∈ live <-> m ∈ live') ->
  pool_ok w N mask idx limit live'.
Proof. intros [H1 H2 H3 H4 H5] He. split; try done. intros m Hm. by rewrite (H5 m Hm), He. Qed.

Lemma s32_id r : 0 <= r < 2 ^ 31 -> (s32 r <? 0) = false.
Proof. intros Hr. rewrite s32_small by done. apply Z.ltb_ge. lia. Qed.

Lemma take_some r l : 0 <= r < 2 ^ 31 -> take_id r l = r :: l.
Proof. intros Hr. unfold take_id. by rewrite s32_id. Qed.

Lemma next_id_fresh w N mask idx limit live r :
  pool_ok w N mask idx limit live -> next_id limit live r -> NoDup live -> NoDup (r :: live).
Proof. intros _ (_ & Hn & _) Hd. by constructor. Qed.

(** The result of an allocation among counted ids. *)
Lemma counted_alloc w N mask idx um live res :
  0 < w -> counted w N mask idx um live -> found w idx (N - idx) 0 mask res ->
  (res = (u32 (-1), mask) /\ no_id (w * N) live /\ (w * N + um ∉ live) /\
     forall idx', idx' = N \/ idx' = idx -> counted w N mask idx' (um + 1) (w * N + um :: live)) \/
  (exists r, res.1 = r - w * idx /\ 0 <= res.1 < w * N /\ next_id (w * N) live r /\
     counted w N res.2 (idx + res.1 / w) um (r :: live)).
Proof.
  intros Hw (Hp & Hnd & Hall & Hum) Hf. rewrite Forall_forall in Hall.
  destruct (pool_alloc w N mask idx (w * N) live res Hw Hp Hf) as [(E & Hno & HpN)|(r & E & Hr & Hn & Hp')].
  - left. split; [done|]. split; [done|].
    assert (Hfresh : w * N + um ∉ live) by (intros Hin%Hall; lia). split; [done|]. intros idx' Hidx.
    split; [|split; [by constructor|split; [|lia]]].
    + apply (pool_ok_live w N mask idx' (w * N) live); [by destruct Hidx as [-> | ->]|].
      intros m Hm. rewrite elem_of_cons. split; [tauto|]. intros [->|?]; [lia|done].
    + constructor; [destruct Hp; nia|]. apply Forall_forall. intros x Hx%Hall. lia.
  - right. exists r. split; [done|]. split; [done|]. split; [done|]. destruct Hn as (Hr0 & Hn & _).
    split; [done|]. split; [by constructor|]. split; [|done]. constructor; [lia|]. by apply Forall_forall.
Qed.

Lemma Permutation_Forall_tail {B} (P : B -> Prop) l x l' : l ≡ₚ x :: l' -> Forall P l -> P x /\ Forall P l'.
Proof. intros HP Hl. rewrite HP in Hl. by apply Forall_cons in Hl. Qed.

Lemma counted_free w N mask idx um live live' r :
  0 < w -> counted w N mask idx um live -> live ≡ₚ r :: live' ->
  (w * N <= r -> counted w N mask idx um live') /\
  (r < w * N -> counted w N (clear_bit mask (r / w) (r mod w)) (if r / w <? idx then r / w else idx) um live').
Proof.
  intros Hw (Hp & Hnd & Hall & Hum) HP. destruct (Permutation_Forall_tail _ _ _ _ HP Hall) as [Hr Hall'].
  pose proof Hnd as Hnd'. rewrite HP in Hnd'. apply NoDup_cons in Hnd' as [Hn Hnd'].
  split; intros Hc; (split; [|split; [done|split; [done|done]]]).
  - apply (pool_ok_live _ _ _ _ _ live); [done|]. intros m Hm. rewrite HP, elem_of_cons.
    split; [intros [->|?]; [lia|done]|by right].
  - apply (pool_free w N mask idx (w * N) live); try done. lia.
Qed.

Lemma bounded_alloc w N mask idx limit live res :
  0 < w -> bounded w N mask idx limit live -> found w idx (N - idx) 0 mask res ->
  (res = (u32 (-1), mask) /\ no_id limit live /\ bounded w N mask N limit live) \/
  (exists r, res.1 = r - w * idx /\ 0 <= res.1 < w * N /\ next_id limit live r /\
     bounded w N res.2 (idx + res.1 / w) limit (r :: live)).
Proof.
  intros Hw (Hp & Hnd & Hall) Hf.
  destruct (pool_alloc w N mask idx limit live res Hw Hp Hf) as [(E & Hno & HpN)|(r & E & Hr & Hn & Hp')].
  - left. done.
  - right. exists r. split; [done|]. split; [done|]. split; [done|]. destruct Hn as (Hr0 & Hn & _).
    split; [done|]. split; [by constructor|]. by constructor.
Qed.

Lemma bounded_free w N mask idx limit live live' r :
  0 < w -> bounded w N mask idx limit live -> live ≡ₚ r :: live' ->
  0 <= r < limit /\ bounded w N (clear_bit mask (r / w) (r mod w)) (if r / w <? idx then r / w else idx) limit live'.
Proof.
  intros Hw (Hp & Hnd & Hall) HP. destruct (Permutation_Forall_tail _ _ _ _ HP Hall) as [Hr Hall']. split; [done|].
  pose proof Hnd as Hnd'. rewrite HP in Hnd'. apply NoDup_cons in Hnd' as [Hn Hnd'].
  split; [|done]. by apply (pool_free w N mask idx limit live).
Qed.

(** ** The operations *)

(** The ids of a state, after at most [n] operations. *)
Record ids_ok (limit n : Z) s (h : held) : Prop := {
  ok_surfaces : counted 64 4 s.(m_surface_id_mask) s.(m_surface_id_idx) s.(m_surface_ids_unmanaged) h.(h_surfaces);
  ok_contexts : counted 64 1 s.(m_context_id_mask) 0 s.(m_context_ids_unmanaged) h.(h_contexts);
  ok_streams : bounded 32 1 s.(m_stream_id_mask) 0 32 h.(h_streams);
  ok_gmrs : bounded 64 2 s.(m_gmr_id_mask) s.(m_gmr_id_idx) limit h.(h_gmrs);
  ok_unmanaged : s.(m_surface_ids_unmanaged) <= n /\ s.(m_context_ids_unmanaged) <= n;
}.

(** A result of an allocator whose ids may run over the masks, and of one that fails. *)
Definition id_result (limit : Z) (live : list Z) (r : Z) : Prop :=
  next_id limit live r \/ (no_id limit live /\ limit <= r /\ (r ∉ live)).
Definition id_or_none (limit : Z) (live : list Z) (r : Z) : Prop :=
  next_id limit live r \/ (no_id limit live /\ r = u32 (-1)).

Lemma words64 N idx mask : words_fit 64 mask -> 0 <= idx <= N -> N <= 4 ->
  found 64 idx (N - idx) 0 mask (find_bit_in_array64 (Z.to_nat (N - idx)) mask idx 0).
Proof.
  intros Hm Hi HN. rewrite find_bit_64. replace (N - idx) with (Z.of_nat (Z.to_nat (N - idx))) at 1 by lia.
  apply find_bit_spec; [lia|apply log_2_64_pow|done|lia|lia].
Qed.

Lemma shiftr_6 n : Z.shiftr n 6 = n / 64.
Proof. by rewrite Z.shiftr_div_pow2. Qed.

Lemma land_63 n : Z.land n 63 = n mod 64.
Proof. change 63 with (Z.ones 6). by rewrite Z.land_ones. Qed.

Section ops.
Context (limit n : Z) (s : ids) (h : held).
Hypothesis Hn : 0 <= n < 2 ^ 30.
Hypothesis Hlimit : 0 <= limit <= 128.
Hypothesis Hok : ids_ok limit n s h.

Lemma alloc_surface : exists r s', AllocSurfaceID s = (r, s') /\ id_result 256 h.(h_surfaces) r /\
  ids_ok limit (n + 1) s' {| h_surfaces := r :: h.(h_surfaces); h_contexts := h.(h_contexts);
                             h_streams := h.(h_streams); h_gmrs := h.(h_gmrs) |}.
Proof using Hn Hok.
  destruct Hok as [Hs Hc Ht Hg [Hu1 Hu2]]. pose proof Hs as ([Hfit Hidx _ _ _] & _ & _ & Hum). unfold AllocSurfaceID.
  destruct (counted_alloc 64 4 _ _ _ _ _ ltac:(lia) Hs (words64 4 _ _ Hfit Hidx ltac:(lia)))
    as [(E & Hno & Hfresh & Hc')|(r & E & Hr & Hnext & Hc')].
  - rewrite E. cbn [Z.ltb s32]. change (s32 (u32 (-1)) <? 0) with true. cbn [Z.shiftl].
    change (Z.shiftl 4 6) with 256. rewrite !wrap_small by (split; lia). eexists _, _. split; [reflexivity|].
    split; [right; split; [done|]; split; [lia|done]|]. split; cbn; try done; [|lia]. apply Hc'. by left.
  - destruct (find_bit_in_array64 _ _ _ _) as [x mask']. cbn [fst snd] in *. subst x.
    rewrite s32_id by lia. rewrite Z.shiftl_mul_pow2 by lia. change (2 ^ 6) with 64.
    replace (r - 64 * m_surface_id_idx s + m_surface_id_idx s * 64) with r by lia. destruct Hnext as (Hr0 & Hnext).
    pose proof Hc' as ([_ Hidx' _ _ _] & _). rewrite (wrap_small 32 r), shiftr_6, (wrap_small 32 (_ + _)) by (split; lia).
    eexists _, _. split; [reflexivity|]. split; [by left|]. by split; cbn; try lia.
Qed.

Lemma alloc_context : exists r s', AllocContextID s = (r, s') /\ id_result 64 h.(h_contexts) r /\
  ids_ok limit (n + 1) s' {| h_surfaces := h.(h_surfaces); h_contexts := r :: h.(h_contexts);
                             h_streams := h.(h_streams); h_gmrs := h.(h_gmrs) |}.
Proof using Hn Hok.
  destruct Hok as [Hs Hc Ht Hg [Hu1 Hu2]]. pose proof Hc as ([Hfit Hidx _ _ _] & _ & _ & Hum). unfold AllocContextID.
  destruct (counted_alloc 64 1 _ _ _ _ _ ltac:(lia) Hc (words64 1 _ _ Hfit Hidx ltac:(lia)))
    as [(E & Hno & Hfresh & Hc')|(r & E & Hr & Hnext & Hc')]; change (Z.to_nat (1 - 0)) with 1%nat in *.
  - rewrite E. change (s32 (u32 (-1)) <? 0) with true. cbv zeta iota. rewrite !wrap_small by (split; lia).
    eexists _, _. split; [reflexivity|]. split; [right; split; [done|]; split; [lia|done]|].
    split; cbn; try done; [|lia]. apply Hc'. by right.
  - destruct (find_bit_in_array64 _ _ _ _) as [x mask']. cbn [fst snd] in *. rewrite Z.mul_0_r, Z.sub_0_r in E. subst x.
    rewrite s32_id by lia. eexists _, _. split; [reflexivity|]. split; [by left|].
    rewrite Z.div_small in Hc' by lia. by split; cbn; try lia.
Qed.

Lemma alloc_stream : exists r s', AllocStreamID s = (r, s') /\ id_or_none 32 h.(h_streams) r /\
  ids_ok limit (n + 1) s' {| h_surfaces := h.(h_surfaces); h_contexts := h.(h_contexts);
                             h_streams := take_id r h.(h_streams); h_gmrs := h.(h_gmrs) |}.
Proof using Hn Hok.
  destruct Hok as [Hs Hc Ht Hg [Hu1 Hu2]]. pose proof Ht as ([Hfit Hidx _ _ _] & _). unfold AllocStreamID.
  assert (Hf : found 32 0 (1 - 0) 0 (m_stream_id_mask s) (find_bit_in_array32 1 (m_stream_id_mask s) 0 0)).
  { rewrite find_bit_32. apply (find_bit_spec 32 log_2_32); [lia|apply log_2_32_pow|done|lia|lia]. }
  destruct (bounded_alloc 32 1 _ _ _ _ _ ltac:(lia) Ht Hf) as [(E & Hno & _)|(r & E & Hr & Hnext & Hc')].
  - rewrite E. eexists _, _. split; [reflexivity|]. split; [by right|]. by split; cbn; try lia.
  - destruct (find_bit_in_array32 _ _ _ _) as [x mask']. cbn [fst snd] in *. rewrite Z.mul_0_r, Z.sub_0_r in E. subst x.
    eexists _, _. split; [reflexivity|]. split; [by left|].
    rewrite take_some by lia. rewrite Z.div_small in Hc' by lia. by split; cbn; try lia.
Qed.

Lemma alloc_gmr : exists r s', AllocGMRID s = (r, s') /\ id_or_none limit h.(h_gmrs) r /\
  ids_ok limit (n + 1) s' {| h_surfaces := h.(h_surfaces); h_contexts := h.(h_contexts);
                             h_streams := h.(h_streams); h_gmrs := take_id r h.(h_gmrs) |}.
Proof using Hn Hok Hlimit.
  destruct Hok as [Hs Hc Ht Hg [Hu1 Hu2]]. pose proof Hg as ([Hfit Hidx _ _ _] & _). unfold AllocGMRID.
  destruct (bounded_alloc 64 2 _ _ _ _ _ ltac:(lia) Hg (words64 2 _ _ Hfit Hidx ltac:(lia)))
    as [(E & Hno & Hc')|(r & E & Hr & Hnext & Hc')].
  - rewrite E. change (s32 (u32 (-1)) <? 0) with true. eexists _, _. split; [reflexivity|]. split; [by right|].
    by split; cbn; try lia.
  - destruct (find_bit_in_array64 _ _ _ _) as [x mask']. cbn [fst snd] in *. subst x. cbv zeta.
    rewrite s32_id by lia. rewrite Z.shiftl_mul_pow2 by lia. change (2 ^ 6) with 64.
    replace (r - 64 * m_gmr_id_idx s + m_gmr_id_idx s * 64) with r by lia. pose proof Hnext as (Hr0 & _).
    pose proof Hc' as ([_ Hidx' _ _ _] & _). rewrite (wrap_small 32 r), shiftr_6, (wrap_small 32 (_ + _)) by (split; lia).
    eexists _, _. split; [reflexivity|]. split; [by left|]. rewrite take_some by lia. by split; cbn; try lia.
Qed.

Lemma free_surface r l : h.(h_surfaces) ≡ₚ r :: l ->
  ids_ok limit (n + 1) (FreeSurfaceID r s) {| h_surfaces := l; h_contexts := h.(h_contexts); h_streams := h.(h_streams); h_gmrs := h.(h_gmrs) |}.
Proof using Hok.
  intros HP. destruct Hok as [Hs Hc Ht Hg [Hu1 Hu2]]. destruct (counted_free 64 4 _ _ _ _ _ _ ltac:(lia) Hs HP) as [H1 H2].
  unfold FreeSurfaceID. rewrite shiftr_6, land_63. destruct (Z.leb_spec 4 (r / 64)) as [Hge|Hlt].
  - split; cbn; try done; [|lia]. apply H1. pose proof (Z.mul_div_le r 64 ltac:(lia)). lia.
  - split; cbn; try done; [|lia]. apply H2. pose proof (Z.div_mod r 64 ltac:(lia)). pose proof (Z.mod_pos_bound r 64 ltac:(lia)). lia.
Qed.

Lemma free_context r l : h.(h_contexts) ≡ₚ r :: l ->
  ids_ok limit (n + 1) (FreeContextID r s) {| h_surfaces := h.(h_surfaces); h_contexts := l; h_streams := h.(h_streams); h_gmrs := h.(h_gmrs) |}.
Proof using Hok.
  intros HP. destruct Hok as [Hs Hc Ht Hg [Hu1 Hu2]]. destruct (counted_free 64 1 _ _ _ _ _ _ ltac:(lia) Hc HP) as [H1 H2].
  pose proof Hc as (_ & _ & Hall & _). destruct (Permutation_Forall_tail _ _ _ _ HP Hall) as [Hr _].
  unfold FreeContextID. destruct (Z.leb_spec (8 * 8) r) as [Hge|Hlt]; split; cbn; try done; try lia; [apply H1; lia|].
  specialize (H2 ltac:(lia)). by rewrite Z.div_small, Z.mod_small in H2 by lia.
Qed.

Lemma free_stream r l : h.(h_streams) ≡ₚ r :: l ->
  ids_ok limit (n + 1) (FreeStreamID r s) {| h_surfaces := h.(h_surfaces); h_contexts := h.(h_contexts); h_streams := l; h_gmrs := h.(h_gmrs) |}.
Proof using Hok.
  intros HP. destruct Hok as [Hs Hc Ht Hg [Hu1 Hu2]]. destruct (bounded_free 32 1 _ _ _ _ _ _ ltac:(lia) Ht HP) as [Hr H2].
  unfold FreeStreamID. rewrite (proj2 (Z.leb_gt (8 * 4) r)) by lia. split; cbn; try done; [|lia].
  by rewrite Z.div_small, Z.mod_small in H2 by lia.
Qed.

Lemma free_gmr r l : h.(h_gmrs) ≡ₚ r :: l ->
  ids_ok limit (n + 1) (FreeGMRID r s) {| h_surfaces := h.(h_surfaces); h_contexts := h.(h_contexts); h_streams := h.(h_streams); h_gmrs := l |}.
Proof using Hok Hlimit.
  intros HP. destruct Hok as [Hs Hc Ht Hg [Hu1 Hu2]]. destruct (bounded_free 64 2 _ _ _ _ _ _ ltac:(lia) Hg HP) as [Hr H2].
  unfold FreeGMRID. rewrite shiftr_6, land_63.
  rewrite (proj2 (Z.leb_gt 2 (r / 64))) by (apply Z.div_lt_upper_bound; lia). split; cbn; try done. lia.
Qed.
End ops.

(** ** Every run *)

Lemma start_ids_ok max :
  0 <= max -> ids_ok (Z.min max 128) 0 (start_ids max) {| h_surfaces := []; h_contexts := []; h_streams := []; h_gmrs := [] |}.
Proof.
  intros Hmax. assert (Hz : forall w, 0 < w -> words_fit w (fun _ => 0)).
  { intros w Hw i. split; [lia|]. apply Z.pow_pos_nonneg; lia. }
  assert (Hb : forall w n, bit w (fun _ => 0) n = false) by (intros; apply Z.testbit_0_l).
  assert (Hp : forall w N, 0 < w -> 0 <= N -> pool_ok w N (fun _ => 0) 0 (w * N) []).
  { intros w N Hw HN. split; [by apply Hz|lia|nia|lia|]. intros m Hm. rewrite Hb. split; [done|].
    intros [Hin|?]; [by apply not_elem_of_nil in Hin|lia]. }
  destruct (mask_array64_spec (fun _ => 0) max (8 * 16) (Hz 64 ltac:(lia))) as [Hf Hm].
  split; cbn [start_ids m_surface_id_mask m_context_id_mask m_gmr_id_mask m_surface_ids_unmanaged m_context_ids_unmanaged
    m_surface_id_idx m_gmr_id_idx m_stream_id_mask h_surfaces h_contexts h_streams h_gmrs]; [| | | |done].
  - split; [apply Hp; lia|]. by repeat constructor.
  - split; [apply Hp; lia|]. by repeat constructor.
  - split; [apply (Hp 32 1); lia|]. by repeat constructor.
  - split; [|by repeat constructor]. split; [done|lia|lia|lia|]. intros m Hr. rewrite Hm, Hb, orb_false_r.
    unfold in_range. rewrite andb_true_iff, Z.leb_le, Z.ltb_lt. split; [right; lia|].
    intros [Hin|?]; [by apply not_elem_of_nil in Hin|lia].
Qed.

Lemma exec_id_ok limit n c s h :
  0 <= n < 2 ^ 30 -> 0 <= limit <= 128 -> ids_ok limit n s h ->
  ids_ok limit (n + 1) (exec_id c (s, h)).1 (exec_id c (s, h)).2.
Proof.
  intros Hn Hl Hok.
  assert (Hstay : ids_ok limit (n + 1) s h) by (destruct Hok as [? ? ? ? [? ?]]; split; try done; lia).
  destruct c; cbn [exec_id].
  - by destruct (alloc_surface limit n s h Hn Hok) as (r & s' & -> & _ & ?).
  - destruct (h_surfaces h !! k) as [r|] eqn:E; [|done]. apply free_surface; [done|by apply delete_Permutation].
  - by destruct (alloc_context limit n s h Hn Hok) as (r & s' & -> & _ & ?).
  - destruct (h_contexts h !! k) as [r|] eqn:E; [|done]. apply free_context; [done|by apply delete_Permutation].
  - by destruct (alloc_stream limit n s h Hn Hok) as (r & s' & -> & _ & ?).
  - destruct (h_streams h !! k) as [r|] eqn:E; [|done]. apply free_stream; [done|by apply delete_Permutation].
  - by destruct (alloc_gmr limit n s h Hn Hl Hok) as (r & s' & -> & _ & ?).
  - destruct (h_gmrs h !! k) as [r|] eqn:E; [|done]. apply free_gmr; [done|done|by apply delete_Permutation].
Qed.

Lemma run_ids_ok limit ops : 0 <= limit <= 128 -> forall n s h,
  0 <= n -> n + Z.of_nat (length ops) < 2 ^ 30 -> ids_ok limit n s h ->
  let st := foldl (fun st c => exec_id c st) (s, h) ops in ids_ok limit (n + Z.of_nat (length ops)) st.1 st.2.
Proof.
  intros Hl. induction ops as [|c ops IH]; intros n s h Hn Hlen Hok; cbn [foldl length] in *.
  { by rewrite Z.add_0_r. }
  pose proof (exec_id_ok limit n c s h ltac:(lia) Hl Hok) as H1. destruct (exec_id c (s, h)) as [s1 h1]. cbn [fst snd] in H1.
  replace (n + Z.of_nat (S (length ops))) with (n + 1 + Z.of_nat (length ops)) by lia. apply IH; [lia|lia|done].
Qed.

(** C34: Identifiers. Whatever surface, context, stream and memory-region ids clients
    take and give back, no id is held twice, and ids of streams and regions
    stay below the numbers that the device has. The next id of each kind is the
    smallest free one; when all are taken, surfaces and contexts get a fresh id
    behind the masks, and streams and regions get -1, in that case only: ids that
    are given back are never lost. *)
Theorem ids_distinct max_gmr_ids ops :
  0 <= max_gmr_ids -> Z.of_nat (length ops) < 2 ^ 30 ->
  let '(s, h) := run_ids max_gmr_ids ops in
  let limit := Z.min max_gmr_ids 128 in
  (NoDup h.(h_surfaces) /\ NoDup h.(h_contexts) /\ NoDup h.(h_streams) /\ NoDup h.(h_gmrs)) /\
  Forall (fun r => 0 <= r < 32) h.(h_streams) /\ Forall (fun r => 0 <= r < limit) h.(h_gmrs) /\
  id_result 256 h.(h_surfaces) (AllocSurfaceID s).1 /\ id_result 64 h.(h_contexts) (AllocContextID s).1 /\
  id_or_none 32 h.(h_streams) (AllocStreamID s).1 /\ id_or_none limit h.(h_gmrs) (AllocGMRID s).1.
Proof.
  intros Hmax Hlen. set (limit := Z.min max_gmr_ids 128).
  pose proof (run_ids_ok limit ops ltac:(lia) 0 _ _ ltac:(lia) ltac:(lia) (start_ids_ok _ Hmax)) as Hok.
  unfold run_ids. destruct (foldl _ _ _) as [s h]. cbn [fst snd] in Hok. rewrite Z.add_0_l in Hok.
  destruct (alloc_surface limit (Z.of_nat (length ops)) s h ltac:(lia) Hok) as (r1 & s1 & -> & H1 & _).
  destruct (alloc_context limit (Z.of_nat (length ops)) s h ltac:(lia) Hok) as (r2 & s2 & -> & H2 & _).
  destruct (alloc_stream limit (Z.of_nat (length ops)) s h ltac:(lia) Hok) as (r3 & s3 & -> & H3 & _).
  destruct (alloc_gmr limit (Z.of_nat (length ops)) s h ltac:(lia) ltac:(lia) Hok) as (r4 & s4 & -> & H4 & _).
  destruct Hok as [(_ & ? & _) (_ & ? & _) (_ & ? & ?) (_ & ? & ?) _]. done.
Qed.

Lemma ids_distinct_witness :
  let ops := [OpAllocSurface; OpAllocSurface; OpFreeSurface 1; OpAllocGMR; OpAllocGMR; OpAllocStream] in
  let '(s, h) := run_ids 2 ops in
  h.(h_surfaces) = [1] /\ h.(h_gmrs) = [1; 0] /\ (AllocSurfaceID s).1 = 0 /\ (AllocGMRID s).1 = u32 (-1) /\
  ((NoDup h.(h_surfaces) /\ NoDup h.(h_contexts) /\ NoDup h.(h_streams) /\ NoDup h.(h_gmrs)) /\
  Forall (fun r => 0 <= r < 32) h.(h_streams) /\ Forall (fun r => 0 <= r < Z.min 2 128) h.(h_gmrs) /\
  id_result 256 h.(h_surfaces) (AllocSurfaceID s).1 /\ id_result 64 h.(h_contexts) (AllocContextID s).1 /\
  id_or_none 32 h.(h_streams) (AllocStreamID s).1 /\ id_or_none (Z.min 2 128) h.(h_gmrs) (AllocGMRID s).1).
Proof.
  intros ops. pose proof (ids_distinct 2 ops ltac:(lia) ltac:(done)) as H. revert H.
  destruct (run_ids 2 ops) as [s h] eqn:E. intros H.
  assert (Er : (fun st => (st.2.(h_surfaces), st.2.(h_gmrs), (AllocSurfaceID st.1).1, (AllocGMRID st.1).1)) (run_ids 2 ops)
    = ([1], [1; 0], 0, u32 (-1))) by (vm_compute; reflexivity).
  rewrite E in Er. cbn beta iota delta [fst snd] in Er. injection Er as E1 E2 E3 E4. split; [exact E1|]. split; [exact E2|]. split; [exact E3|].
  split; [exact E4|exact H].
Defined.
