(* ===== verification/AccelBlit.v ===== *)
(** Rectangles, regions and the copies that the accelerator makes with the processor
    (AC/CEsvga2Accel.cpp): [set_region], [clip_rect], [convert_rect], the generic
    blit between two images in memory and the fill of the frame buffer.

    Copies and fills are recorded as a trace of the calls of [memcpy] and of
    [memset32], with their addresses. *)

From S2P Require Import Prelude IOKit Layout SvgaReg.
From stdpp Require Import list.

#[local] Open Scope Z_scope.

(** ** Regions *)

(** A region of one rectangle. *)
Definition set_region1 (x y w h : Z) : IOAccelDeviceRegion :=
  let b := mk_bounds (s16 x) (s16 y) (s16 w) (s16 h) in
  mk_region 1 b [b].

(** The loop over the rectangles, on the bounds as edges; the array of the region
    had the contents [old], of which the first entry is never written. *)
Definition bounds_step (b : IOAccelBounds) (r : IOAccelBounds) : IOAccelBounds :=
  let b := if r.(b_x) <? b.(b_x) then mk_bounds r.(b_x) b.(b_y) b.(b_w) b.(b_h) else b in
  let b := if b.(b_w) <? r.(b_x) + r.(b_w) then mk_bounds b.(b_x) b.(b_y) (s16 (r.(b_x) + r.(b_w))) b.(b_h) else b in
  let b := if r.(b_y) <? b.(b_y) then mk_bounds b.(b_x) r.(b_y) b.(b_w) b.(b_h) else b in
  if b.(b_h) <? r.(b_y) + r.(b_h) then mk_bounds b.(b_x) b.(b_y) b.(b_w) (s16 (r.(b_y) + r.(b_h))) else b.

Definition to_bounds (r : IOBlitRectangle) : IOAccelBounds :=
  mk_bounds (s16 r.(r_x)) (s16 r.(r_y)) (s16 r.(r_width)) (s16 r.(r_height)).

Definition set_region (first : IOBlitRectangle) (rects : list IOBlitRectangle) (old : IOAccelBounds) : IOAccelDeviceRegion :=
  let b := mk_bounds (s16 first.(r_x)) (s16 first.(r_y)) (s16 (s32 (first.(r_x) + first.(r_width))))
             (s16 (s32 (first.(r_y) + first.(r_height)))) in
  let rest := to_bounds <$> rects in
  let b := foldl bounds_step b rest in
  mk_region (1 + Z.of_nat (length rects)) (mk_bounds b.(b_x) b.(b_y) (s16 (b.(b_w) - b.(b_x))) (s16 (b.(b_h) - b.(b_y))))
    (old :: rest).

Definition clip_rect (rect : IOBlitRectangle) (w h : Z) : IOBlitRectangle :=
  let x := if rect.(r_x) <? 0 then 0 else rect.(r_x) in
  let y := if rect.(r_y) <? 0 then 0 else rect.(r_y) in
  let width := if rect.(r_width) <? 0 then 0 else rect.(r_width) in
  let height := if rect.(r_height) <? 0 then 0 else rect.(r_height) in
  let width := if w <? s32 (x + width) then s32 (w - x) else width in
  let height := if h <? s32 (y + height) then s32 (h - y) else height in
  mk_rectangle x y width height.

Definition convert_rect (src_rect : IOAccelBounds) (delta : option SVGASignedPoint) : SVGASignedRect :=
  let dx := match delta with Some d => d.(SVGASignedPoint_x) | None => 0 end in
  let dy := match delta with Some d => d.(SVGASignedPoint_y) | None => 0 end in
  let left := s32 (src_rect.(b_x) + dx) in
  let top := s32 (src_rect.(b_y) + dy) in
  mk_SVGASignedRect left top (s32 (left + src_rect.(b_w))) (s32 (top + src_rect.(b_h))).

Definition GMR_VRAM : Z := u32 (-2).

(** ** The generic blit *)

(** A call of [memcpy]: destination, source and length. *)
Record copy := mk_copy { c_dst : Z; c_src : Z; c_len : Z }.

Section blit.
Context (dst_base dst_limit dst_pitch src_base src_limit src_pitch : Z).

(** A row is outside of one of the areas. *)
Definition outside (addr1 addr2 l : Z) : bool :=
  (addr1 <? dst_base) || (dst_limit <? u64 (addr1 + l)) || (addr2 <? src_base) || (src_limit <? u64 (addr2 + l)).

(** The loop over [n] rows: a row that is outside is skipped, and the addresses
    stay as they are. *)
Fixpoint blit_rows (n : nat) (addr1 addr2 l : Z) : list copy :=
  match n with
  | O => []
  | S n =>
      if outside addr1 addr2 l then blit_rows n addr1 addr2 l
      else mk_copy addr1 addr2 l :: blit_rows n (u64 (addr1 + dst_pitch)) (u64 (addr2 + src_pitch)) l
  end.
End blit.

(** The address of the first pixel of a rectangle. The row offset is a 32-bit
    unsigned product, the column offset an [int]. *)
Definition first_pixel (base pitch bytes_per_pixel : Z) (rect : IOAccelBounds) (delta : SVGASignedPoint) : Z :=
  u64 (base + u32 (s32 (rect.(b_y) + delta.(SVGASignedPoint_y)) * pitch)
       + s32 (s32 (rect.(b_x) + delta.(SVGASignedPoint_x)) * bytes_per_pixel)).

Definition blit_rect (dst_base : Z) (dst_image : SVGAGuestImage) (dst_delta : SVGASignedPoint) (src_base : Z)
    (src_image : SVGAGuestImage) (src_delta : SVGASignedPoint) (bytes_per_pixel : Z) (rect : IOAccelBounds) : list copy :=
  if (rect.(b_w) <=? 0) || (rect.(b_h) <=? 0) then []
  else
    let dst_limit := u64 (dst_base + dst_image.(SVGAGuestImage_ptr).(SVGAGuestPtr_offset)) in
    let src_limit := u64 (src_base + src_image.(SVGAGuestImage_ptr).(SVGAGuestPtr_offset)) in
    let addr1 := first_pixel dst_base dst_image.(SVGAGuestImage_pitch) bytes_per_pixel rect dst_delta in
    let addr2 := first_pixel src_base src_image.(SVGAGuestImage_pitch) bytes_per_pixel rect src_delta in
    let l := rect.(b_w) * bytes_per_pixel in
    blit_rows dst_base dst_limit dst_image.(SVGAGuestImage_pitch) src_base src_limit src_image.(SVGAGuestImage_pitch)
      (Z.to_nat rect.(b_h)) addr1 addr2 l.

Definition genericBlitCopy (dst_base : Z) (dst_image : option SVGAGuestImage) (dst_delta : option SVGASignedPoint)
    (src_base : Z) (src_image : option SVGAGuestImage) (src_delta : option SVGASignedPoint)
    (region : option IOAccelDeviceRegion) (bytes_per_pixel : Z) : IOReturn * list copy :=
  match dst_image, dst_delta, src_image, src_delta with
  | Some dst_image, Some dst_delta, Some src_image, Some src_delta =>
      if (dst_base =? 0) || (src_base =? 0) then (kIOReturnBadArgument, [])
      else
        let rects := match region with Some rgn => take (Z.to_nat rgn.(rgn_num_rects)) rgn.(rgn_rect) | None => [] end in
        (kIOReturnSuccess,
         rects ≫= blit_rect dst_base dst_image dst_delta src_base src_image src_delta bytes_per_pixel)
  | _, _, _, _ => (kIOReturnBadArgument, [])
  end.

(** What [memcpy] does to memory, byte by byte. *)
Definition memcpy (c : copy) (mem : Z -> Z) : Z -> Z :=
  fun a => if (c.(c_dst) <=? a) && (a <? c.(c_dst) + c.(c_len)) then mem (c.(c_src) + (a - c.(c_dst))) else mem a.

(** ** Filling the frame buffer *)

(** A call of [memset32]: address, value and number of words (a [size_t]). *)
Record fill := mk_fill { f_addr : Z; f_value : Z; f_count : Z }.

(** The loop over rows. *)
Definition fill_rows (addr pitch color width height : Z) : list fill :=
  (fun j => mk_fill (u64 (addr + j * pitch)) color (u64 width)) <$> seqZ 0 height.

Definition clear_rect (gfb_start gfb_w gfb_h gfb_pitch color : Z) (r : IOBlitRectangle) : list fill :=
  let bytes_per_pixel := 4 in
  let rect := clip_rect r gfb_w gfb_h in
  let addr := u64 (gfb_start + s32 (rect.(r_y) * gfb_pitch) + s32 (rect.(r_x) * bytes_per_pixel)) in
  if s32 (rect.(r_width) * bytes_per_pixel) =? gfb_pitch
  then [mk_fill addr color (u64 (s32 (rect.(r_height) * rect.(r_width))))]
  else fill_rows addr gfb_pitch color rect.(r_width) rect.(r_height).

(** [gfb]: start, width, height and pitch of the frame buffer, or no frame buffer. *)
Definition clearGFB (gfb : option (Z * Z * Z * Z)) (color : Z) (rects : list IOBlitRectangle) : IOReturn * list fill :=
  match gfb with
  | None => (kIOReturnNotReady, [])
  | Some (gfb_start, gfb_w, gfb_h, gfb_pitch) =>
      (kIOReturnSuccess, rects ≫= clear_rect gfb_start gfb_w gfb_h gfb_pitch color)
  end.

(** ** The copies of the blit *)

(** The rows of a rectangle: address of row [j] in an image. *)
Definition row_addr (addr pitch j : Z) : Z := addr + j * pitch.

Section rows.
Context (dst_base dst_limit dst_pitch src_base src_limit src_pitch l : Z).
Hypothesis Hdp : 0 <= dst_pitch < 2 ^ 32.
Hypothesis Hsp : 0 <= src_pitch < 2 ^ 32.
Hypothesis Hl : 0 <= l < 2 ^ 32.
Hypothesis Hd : 0 <= dst_base /\ dst_limit + 2 ^ 34 <= 2 ^ 64.
Hypothesis Hs : 0 <= src_base /\ src_limit + 2 ^ 34 <= 2 ^ 64.

(** A row lies in both areas. *)
Definition inside (addr1 addr2 : Z) : Prop :=
  dst_base <= addr1 /\ addr1 + l <= dst_limit /\ src_base <= addr2 /\ addr2 + l <= src_limit.

Lemma outside_spec addr1 addr2 : 0 <= addr1 < 2 ^ 64 - 2 ^ 32 -> 0 <= addr2 < 2 ^ 64 - 2 ^ 32 ->
  outside dst_base dst_limit src_base src_limit addr1 addr2 l = false <-> inside addr1 addr2.
Proof using Hdp Hsp Hl Hd Hs.
  intros H1 H2. unfold outside, inside. rewrite !wrap_small by (split; lia).
  rewrite !orb_false_iff, !Z.ltb_ge. tauto.
Qed.

(** The number of rows before the first one that is outside. *)
Fixpoint rows_inside (n : nat) (addr1 addr2 : Z) : Z :=
  match n with
  | O => 0
  | S n => if outside dst_base dst_limit src_base src_limit addr1 addr2 l then 0
           else 1 + rows_inside n (addr1 + dst_pitch) (addr2 + src_pitch)
  end.

Lemma rows_skipped n addr1 addr2 :
  outside dst_base dst_limit src_base src_limit addr1 addr2 l = true ->
  blit_rows dst_base dst_limit dst_pitch src_base src_limit src_pitch n addr1 addr2 l = [].
Proof using. intros E. induction n as [|n IH]; cbn [blit_rows]; [done|]. by rewrite E. Qed.

Lemma blit_rows_spec n : forall addr1 addr2, 0 <= addr1 < 2 ^ 64 - 2 ^ 32 -> 0 <= addr2 < 2 ^ 64 - 2 ^ 32 ->
  let k := rows_inside n addr1 addr2 in
  0 <= k <= Z.of_nat n /\
  blit_rows dst_base dst_limit dst_pitch src_base src_limit src_pitch n addr1 addr2 l =
    (fun j => mk_copy (row_addr addr1 dst_pitch j) (row_addr addr2 src_pitch j) l) <$> seqZ 0 k /\
  (forall j, 0 <= j < k -> inside (row_addr addr1 dst_pitch j) (row_addr addr2 src_pitch j)) /\
  (k < Z.of_nat n -> ~ inside (row_addr addr1 dst_pitch k) (row_addr addr2 src_pitch k)).
Proof using Hdp Hsp Hl Hd Hs.
  induction n as [|n IH]; intros addr1 addr2 H1 H2; cbn [rows_inside blit_rows]; cbv zeta.
  { split; [lia|]. split; [done|]. split; lia. }
  destruct (outside _ _ _ _ addr1 addr2 l) eqn:Eo.
  - rewrite rows_skipped by done. split; [lia|]. split; [done|]. split; [lia|]. intros _.
    unfold row_addr. rewrite !Z.mul_0_l, !Z.add_0_r. rewrite <-outside_spec by done. by rewrite Eo.
  - pose proof Eo as Hin. rewrite outside_spec in Hin by done. destruct Hin as (I1 & I2 & I3 & I4).
    rewrite !wrap_small by (split; lia). destruct (IH (addr1 + dst_pitch) (addr2 + src_pitch)) as (Hk & E & Hall & Hlast); [lia|lia|].
    set (k := rows_inside n _ _) in *. split; [lia|]. split; [|split].
    + rewrite E. rewrite (seqZ_cons 0 (1 + k)) by lia. rewrite fmap_cons. f_equal.
      { unfold row_addr. by rewrite !Z.mul_0_l, !Z.add_0_r. }
      replace (Z.pred (1 + k)) with k by lia. apply list_eq. intros i. rewrite !list_lookup_fmap.
      destruct (decide (Z.of_nat i < k)).
      * rewrite !lookup_seqZ_lt by lia. cbn. unfold row_addr. f_equal. f_equal; lia.
      * rewrite !lookup_seqZ_ge by lia. done.
    + intros j Hj. destruct (Z.eq_dec j 0) as [->|].
      { unfold row_addr. rewrite !Z.mul_0_l, !Z.add_0_r. done. }
      specialize (Hall (j - 1) ltac:(lia)). unfold row_addr, inside in *. nia.
    + intros Hlt Hc. apply Hlast; [lia|]. unfold row_addr, inside in *. nia.
Qed.
End rows.

(** An image in memory: addresses of its area and beyond do not wrap around. *)
Definition image_ok (base : Z) (image : SVGAGuestImage) : Prop :=
  2 ^ 31 <= base /\ base + 2 ^ 35 <= 2 ^ 64 /\
  is_u32 image.(SVGAGuestImage_ptr).(SVGAGuestPtr_offset) /\ is_u32 image.(SVGAGuestImage_pitch).
Definition image_limit (base : Z) (image : SVGAGuestImage) : Z :=
  base + image.(SVGAGuestImage_ptr).(SVGAGuestPtr_offset).

Lemma s32_range x : - 2 ^ 31 <= s32 x < 2 ^ 31.
Proof.
  unfold swrap. pose proof (wrap_range 32 x ltac:(lia)) as [H1 H2]. destruct (Z.ltb_spec (wrap 32 x) (2 ^ (32 - 1))); lia.
Qed.

Lemma first_pixel_range base image bpp rect delta :
  image_ok base image -> 0 <= first_pixel base image.(SVGAGuestImage_pitch) bpp rect delta < 2 ^ 64 - 2 ^ 32.
Proof.
  intros (H1 & H2 & _ & _). unfold first_pixel.
  set (a := s32 (b_y rect + _) * _). set (c := s32 (b_x rect + _) * _).
  pose proof (wrap_range 32 a ltac:(lia)) as [? ?]. pose proof (s32_range c). rewrite wrap_small; [lia|split; lia].
Qed.

(** The copies of a rectangle are its rows up to the first one that is outside. *)
Definition rows_copied (dst_base : Z) (dst_image : SVGAGuestImage) (dst_delta : SVGASignedPoint) (src_base : Z)
    (src_image : SVGAGuestImage) (src_delta : SVGASignedPoint) (bpp : Z) (rect : IOAccelBounds) (cs : list copy) : Prop :=
  let addr1 := row_addr (first_pixel dst_base dst_image.(SVGAGuestImage_pitch) bpp rect dst_delta) dst_image.(SVGAGuestImage_pitch) in
  let addr2 := row_addr (first_pixel src_base src_image.(SVGAGuestImage_pitch) bpp rect src_delta) src_image.(SVGAGuestImage_pitch) in
  let row_inside j := inside dst_base (image_limit dst_base dst_image) src_base (image_limit src_base src_image)
                        (rect.(b_w) * bpp) (addr1 j) (addr2 j) in
  exists k, cs = ((fun j => mk_copy (addr1 j) (addr2 j) (rect.(b_w) * bpp)) <$> seqZ 0 k) /\
    0 <= k <= Z.max 0 rect.(b_h) /\ (forall j, 0 <= j < k -> row_inside j) /\
    (0 < rect.(b_w) -> k < rect.(b_h) -> ~ row_inside k).

Lemma blit_rect_rows dst_base dst_image dst_delta src_base src_image src_delta bpp rect :
  image_ok dst_base dst_image -> image_ok src_base src_image -> 0 <= bpp < 256 -> bounds_ok rect ->
  rows_copied dst_base dst_image dst_delta src_base src_image src_delta bpp rect
    (blit_rect dst_base dst_image dst_delta src_base src_image src_delta bpp rect).
Proof.
  intros Hd Hs Hb (_ & _ & Hw & Hh). pose proof Hd as (D1 & D2 & D3 & D4). pose proof Hs as (S1 & S2 & S3 & S4).
  unfold rows_copied, blit_rect.
  pose proof (first_pixel_range dst_base dst_image bpp rect dst_delta Hd) as A1.
  pose proof (first_pixel_range src_base src_image bpp rect src_delta Hs) as A2.
  set (a1 := first_pixel dst_base _ _ _ _) in *. set (a2 := first_pixel src_base _ _ _ _) in *.
  destruct (Z.leb_spec rect.(b_w) 0); cbn [orb]; [exists 0; split; [done|]; split; [lia|]; split; lia|].
  destruct (Z.leb_spec rect.(b_h) 0); [exists 0; split; [done|]; split; [lia|]; split; lia|].
  unfold fits in D3, S3. rewrite !wrap_small by (split; lia). fold (image_limit dst_base dst_image). fold (image_limit src_base src_image).
  destruct (blit_rows_spec dst_base (image_limit dst_base dst_image) dst_image.(SVGAGuestImage_pitch) src_base
    (image_limit src_base src_image) src_image.(SVGAGuestImage_pitch) (rect.(b_w) * bpp) D4 S4 ltac:(nia)
    ltac:(unfold image_limit; lia) ltac:(unfold image_limit; lia) (Z.to_nat rect.(b_h)) a1 a2 A1 A2) as (Hk & E & Hall & Hlast).
  eexists. split; [exact E|]. split; [lia|]. split; [exact Hall|]. intros _ Hlt. apply Hlast. lia.
Qed.

(** Memory after a list of copies. *)
Definition copied (mem : Z -> Z) (cs : list copy) : Z -> Z := foldl (fun mem c => memcpy c mem) mem cs.

Lemma copied_outside lo hi cs : forall mem a,
  Forall (fun c => lo <= c.(c_dst) /\ c.(c_dst) + c.(c_len) <= hi) cs -> a < lo \/ hi <= a -> copied mem cs a = mem a.
Proof.
  unfold copied. induction cs as [|c cs IH]; intros mem a Hall Ha; [done|]. cbn [foldl].
  apply Forall_cons in Hall as [Hc Hall]. rewrite IH by done. unfold memcpy.
  destruct (Z.leb_spec (c_dst c) a), (Z.ltb_spec a (c_dst c + c_len c)); cbn [andb]; try done. lia.
Qed.

(** C40: The generic blit stays in its areas. For each rectangle of the region, row
    after row is copied between the two images, to and from addresses that lie
    inside both; the first row that would leave one of the areas ends the rectangle
    (the rows below it are dropped too, since the addresses no longer advance). No
    byte outside the destination area changes. *)
Theorem genericBlitCopy_rows dst_base dst_image dst_delta src_base src_image src_delta rgn bpp mem :
  image_ok dst_base dst_image -> image_ok src_base src_image -> 0 <= bpp < 256 -> Forall bounds_ok rgn.(rgn_rect) ->
  exists cs, genericBlitCopy dst_base (Some dst_image) (Some dst_delta) src_base (Some src_image) (Some src_delta) (Some rgn) bpp
      = (kIOReturnSuccess, concat cs) /\
    Forall2 (rows_copied dst_base dst_image dst_delta src_base src_image src_delta bpp)
      (take (Z.to_nat rgn.(rgn_num_rects)) rgn.(rgn_rect)) cs /\
    (forall a, a < dst_base \/ image_limit dst_base dst_image <= a -> copied mem (concat cs) a = mem a).
Proof.
  intros Hd Hs Hb Hall. unfold genericBlitCopy. pose proof Hd as (D1 & _). pose proof Hs as (S1 & _).
  rewrite !(proj2 (Z.eqb_neq _ 0)) by lia. cbn [orb].
  set (rects := take _ _). assert (Hr : Forall bounds_ok rects) by (by apply Forall_take).
  set (f := blit_rect _ _ _ _ _ _ _). assert (Hf : Forall2 (rows_copied dst_base dst_image dst_delta src_base src_image src_delta bpp) rects (f <$> rects)).
  { apply Forall2_fmap_r, Forall_Forall2_diag. eapply Forall_impl; [exact Hr|]. intros r Hok. by apply blit_rect_rows. }
  exists (f <$> rects). split; [f_equal; clear; induction rects as [|r rects IH]; cbn; [done|by f_equal]|]. split; [done|].
  intros a Ha. apply (copied_outside dst_base (image_limit dst_base dst_image)); [|done]. apply Forall_concat.
  eapply Forall2_Forall_r; [exact Hf|]. apply Forall_true. intros r cs (k & -> & _ & Hin & _).
  apply Forall_fmap, Forall_forall. intros j Hj%elem_of_seqZ. destruct (Hin j) as (I1 & I2 & _); [lia|]. cbn. lia.
Qed.

Lemma genericBlitCopy_rows_witness :
  let image := mk_SVGAGuestImage (mk_SVGAGuestPtr 0 4096) 64 in
  let rgn := mk_region 1 (mk_bounds 1 2 3 2) [mk_bounds 1 2 3 2] in
  let origin := mk_SVGASignedPoint 0 0 in
  genericBlitCopy 0x100000000 (Some image) (Some origin) 0x200000000 (Some image) (Some origin) (Some rgn) 4
    = (kIOReturnSuccess, [mk_copy 0x100000084 0x200000084 12; mk_copy 0x1000000C4 0x2000000C4 12]) /\
  exists cs, genericBlitCopy 0x100000000 (Some image) (Some origin) 0x200000000 (Some image) (Some origin) (Some rgn) 4
      = (kIOReturnSuccess, concat cs) /\
    Forall2 (rows_copied 0x100000000 image origin 0x200000000 image origin 4) (take (Z.to_nat 1) [mk_bounds 1 2 3 2]) cs /\
    (forall a, a < 0x100000000 \/ image_limit 0x100000000 image <= a -> copied (fun _ => 7) (concat cs) a = 7).
Proof.
  intros image rgn origin. split; [vm_compute; reflexivity|].
  apply (genericBlitCopy_rows 0x100000000 image origin 0x200000000 image origin rgn 4 (fun _ => 7)).
  - by repeat split.
  - by repeat split.
  - lia.
  - constructor; [|constructor]. unfold bounds_ok. cbn. lia.
Defined.

(** ** Defects *)

(** A rectangle that starts above the image is dropped whole, though its lower rows
    are inside. *)
Lemma blit_above_dropped :
  let image := mk_SVGAGuestImage (mk_SVGAGuestPtr 0 4096) 64 in
  let origin := mk_SVGASignedPoint 0 0 in
  genericBlitCopy 0x100000000 (Some image) (Some origin) 0x200000000 (Some image) (Some origin)
    (Some (mk_region 1 (mk_bounds 0 (-1) 4 8) [mk_bounds 0 (-1) 4 8])) 4 = (kIOReturnSuccess, []).
Proof. vm_compute. done. Qed.

(** A rectangle to the right of the screen is clipped to a negative width, which
    [memset32] takes as an enormous count. *)
Lemma clear_beyond_overruns start color x y h : 1024 <= x < 2 ^ 20 -> 0 <= y < 768 -> 0 < h -> y + h <= 768 -> x <> 1024 ->
  exists f fs, clear_rect start 1024 768 4096 color (mk_rectangle x y 1 h) = f :: fs /\ 2 ^ 63 < f.(f_count).
Proof.
  intros Hx Hy Hh Hyh Hne. unfold clear_rect, clip_rect. cbn [r_x r_y r_width r_height].
  rewrite (proj2 (Z.ltb_ge x 0)), (proj2 (Z.ltb_ge y 0)), (proj2 (Z.ltb_ge 1 0)), (proj2 (Z.ltb_ge h 0)) by lia.
  rewrite (s32_small (x + 1)), (s32_small (y + h)) by lia.
  rewrite (proj2 (Z.ltb_lt 1024 (x + 1))), (proj2 (Z.ltb_ge 768 (y + h))) by lia. cbn [r_x r_y r_width r_height].
  assert (Hneg : forall z, - 2 ^ 31 <= z < 0 -> s32 z = z).
  { intros z Hz. unfold swrap. rewrite (wrap_unique 32 z (z + 2 ^ 32) (-1)) by (try split; lia).
    rewrite (proj2 (Z.ltb_ge (z + 2 ^ 32) _)) by lia. lia. }
  rewrite (Hneg (1024 - x)), (Hneg ((1024 - x) * 4)), (proj2 (Z.eqb_neq _ 4096)) by lia.
  unfold fill_rows. rewrite seqZ_cons by lia. cbn [fmap list_fmap]. eexists _, _. split; [reflexivity|]. cbn [f_count].
  rewrite (wrap_unique 64 (1024 - x) (1024 - x + 2 ^ 64) (-1)) by (try split; lia). lia.
Qed.

(** The first rectangle of a region is never stored: its entry keeps what the memory
    held. *)
Lemma set_region_first_lost first rects old : (set_region first rects old).(rgn_rect) !! 0%nat = Some old.
Proof. done. Qed.
