(* ===== verification/Accel.v ===== *)
(** The methods of the accelerator (AC/CEsvga2Accel.cpp) that drive the device:
    synchronisation, the 2D context, surfaces, contexts, drawing state, screens,
    video and the master surface.

    The device is the state of the monad [M]; the fields of the object that a method
    reads are the record [Accel], which a method that changes them returns.  Null
    pointers are [None].  The device lock is held over each method, so that methods
    are atomic. *)

From S2P Require Import Prelude IOKit Layout SvgaReg SvgaCmd Fifo SvgaDevice Svga3dReg Svga3d AccelIds AccelBlit.

(** ** State *)

Definition AUTO_SYNC_PRESENT_FENCE_COUNT : Z := 2.
Definition CE1_OPTION_AC_REGION_BOUNDS_COPY : Z := 0x0400.
Definition SVGA_SCREEN_HAS_ROOT : Z := Z.shiftl 1 0.
Definition SVGA_SCREEN_IS_PRIMARY : Z := Z.shiftl 1 1.

Record Accel := mk_Accel {
  m_framebuffer : bool;
  bHaveSVGA3D : bool;
  bHaveScreenObject : bool;
  m_ids : ids;
  m_master_surface_retain_count : Z;
  m_master_surface_id : Z;
  m_primary_screen_w : Z;
  m_primary_screen_h : Z;
  m_present_tracker : FenceTracker;
  m_updating_ga : Z;
  ce1_options_ac : Z;
}.

Definition set_ids (i : ids) (a : Accel) : Accel :=
  mk_Accel a.(m_framebuffer) a.(bHaveSVGA3D) a.(bHaveScreenObject) i a.(m_master_surface_retain_count)
    a.(m_master_surface_id) a.(m_primary_screen_w) a.(m_primary_screen_h) a.(m_present_tracker)
    a.(m_updating_ga) a.(ce1_options_ac).
Definition set_master (count id : Z) (a : Accel) : Accel :=
  mk_Accel a.(m_framebuffer) a.(bHaveSVGA3D) a.(bHaveScreenObject) a.(m_ids) count
    id a.(m_primary_screen_w) a.(m_primary_screen_h) a.(m_present_tracker)
    a.(m_updating_ga) a.(ce1_options_ac).
Definition set_primary_screen (w h : Z) (a : Accel) : Accel :=
  mk_Accel a.(m_framebuffer) a.(bHaveSVGA3D) a.(bHaveScreenObject) a.(m_ids) a.(m_master_surface_retain_count)
    a.(m_master_surface_id) w h a.(m_present_tracker) a.(m_updating_ga) a.(ce1_options_ac).
Definition set_present_tracker (t : FenceTracker) (a : Accel) : Accel :=
  mk_Accel a.(m_framebuffer) a.(bHaveSVGA3D) a.(bHaveScreenObject) a.(m_ids) a.(m_master_surface_retain_count)
    a.(m_master_surface_id) a.(m_primary_screen_w) a.(m_primary_screen_h) t a.(m_updating_ga) a.(ce1_options_ac).
Definition set_updating_ga (t : Z) (a : Accel) : Accel :=
  mk_Accel a.(m_framebuffer) a.(bHaveSVGA3D) a.(bHaveScreenObject) a.(m_ids) a.(m_master_surface_retain_count)
    a.(m_master_surface_id) a.(m_primary_screen_w) a.(m_primary_screen_h) a.(m_present_tracker) t a.(ce1_options_ac).

Definition HaveFrontBuffer (a : Accel) : bool := a.(bHaveScreenObject) || a.(bHaveSVGA3D).

(** The two structures of parameters. *)
Record ExtraInfo := mk_ExtraInfo {
  mem_offset_in_gmr : Z; mem_pitch : Z; srcDeltaX : Z; srcDeltaY : Z; dstDeltaX : Z; dstDeltaY : Z; mem_gmr_id : Z }.
Record ExtraInfoEx := mk_ExtraInfoEx {
  ex_mem_offset_in_gmr : Z; ex_mem_pitch : Z; ex_mem_limit : Z; ex_mem_gmr_id : Z; ex_suffix_flags : Z }.

(** [rgn ? rgn->num_rects : 0], and the entries that a loop over them visits. *)
Definition num_rects (rgn : option IOAccelDeviceRegion) : Z :=
  match rgn with Some r => r.(rgn_num_rects) | None => 0 end.
Definition rects_of (rgn : option IOAccelDeviceRegion) : list IOAccelBounds :=
  match rgn with Some r => take (Z.to_nat r.(rgn_num_rects)) r.(rgn_rect) | None => [] end.

Definition image0 (sid : Z) : SVGA3dSurfaceImageId := mk_SVGA3dSurfaceImageId sid 0 0.

Section accel.
Context {HS : Type} `{SvgaHost HS}.
Local Abbreviation M := (M HS).

(** The body of a loop over rectangles gets the index. *)
Fixpoint for_rects (body : Z -> IOAccelBounds -> M unit) (i : Z) (rects : list IOAccelBounds) : M unit :=
  match rects with
  | [] => skip
  | r :: rects => body i r;; for_rects body (i + 1) rects
  end.

(** [if (!rc) goto exit; ...; FIFOCommitAll(); ...]: whether or not the command
    could be begun, the result is success. *)
Definition filled {B C} (m : M (option B)) (fill : B -> M unit) (failed : C) (k : M C) : M C :=
  r ← m;
  match r with
  | None => mret failed
  | Some r => fill r;; FIFOCommitAll;; k
  end.

(** [if (fence) *fence = m_svga->InsertFence();] *)
Definition fence_if (fence : bool) : M (option Z) :=
  if fence then f ← InsertFence; mret (Some f) else mret None.

(** ** Synchronisation *)

Definition SyncFIFO (a : Accel) : M IOReturn :=
  if negb a.(m_framebuffer) then mret kIOReturnNoDevice
  else SvgaDevice.SyncFIFO;; mret kIOReturnSuccess.

Definition RingDoorBell (a : Accel) : M IOReturn :=
  if negb a.(m_framebuffer) then mret kIOReturnNoDevice
  else SvgaDevice.RingDoorBell;; mret kIOReturnSuccess.

Definition SyncToFence (a : Accel) (fence : Z) : M IOReturn :=
  if negb a.(m_framebuffer) then mret kIOReturnNoDevice
  else SvgaDevice.SyncToFence fence;; mret kIOReturnSuccess.

(** ** 2D context *)

(** Tasks are numbers, 0 is none; the second result is the flag given to the frame
    buffer. *)
Definition useAccelUpdates (a : Accel) (state : bool) (owningTask : Z) : IOReturn * Accel * option bool :=
  if negb (a.(m_updating_ga) =? 0) && negb (a.(m_updating_ga) =? owningTask) then (kIOReturnSuccess, a, None)
  else if negb a.(m_framebuffer) then (kIOReturnNoDevice, a, None)
  else (kIOReturnSuccess, set_updating_ga (if state then owningTask else 0) a, Some state).

(** The six words of a copy rectangle. *)
Definition copy_rect (x y dx dy w h : Z) (i : Z) : Z := nth (Z.to_nat i) [u32 x; u32 y; u32 dx; u32 dy; u32 w; u32 h] 0.

(** Calls until one fails; [b] is the result before the first. *)
Fixpoint until_fails (b : bool) (ms : list (M bool)) : M bool :=
  match ms with
  | [] => mret b
  | m :: ms => rc ← m; if negb rc then mret false else until_fails true ms
  end.

(** [garbage] is what the variable [rc] holds before anything is assigned to it;
    [regionSize] is the size that the caller passes. *)
Definition CopyRegion (garbage : bool) (a : Accel) (destX destY : Z) (region : option IOAccelDeviceRegion) (regionSize : Z) : M IOReturn :=
  match region with
  | None => mret kIOReturnBadArgument
  | Some rgn =>
      if regionSize <? 12 + 8 * rgn.(rgn_num_rects) then mret kIOReturnBadArgument
      else if HaveFrontBuffer a then mret kIOReturnSuccess
      else if negb a.(m_framebuffer) then mret kIOReturnNoDevice
      else
        let rect := rgn.(rgn_bounds) in
        rc ← (if negb (Z.land a.(ce1_options_ac) CE1_OPTION_AC_REGION_BOUNDS_COPY =? 0) then
                SvgaDevice.RectCopy (copy_rect rect.(b_x) rect.(b_y) destX destY rect.(b_w) rect.(b_h))
              else
                let deltaX := destX - rect.(b_x) in
                let deltaY := destY - rect.(b_y) in
                until_fails garbage
                  ((fun rect => SvgaDevice.RectCopy (copy_rect rect.(b_x) rect.(b_y) (rect.(b_x) + deltaX) (rect.(b_y) + deltaY)
                                                       rect.(b_w) rect.(b_h))) <$> rects_of (Some rgn)));
        mret (if (rc : bool) then kIOReturnSuccess else kIOReturnNoMemory)
  end.

(** A rectangle with its source, as six words of the caller. *)
Record IOBlitCopyRectangle := mk_copy_rectangle { cr_x : Z; cr_y : Z; cr_width : Z; cr_height : Z; cr_sourceX : Z; cr_sourceY : Z }.
Definition copy_words (r : IOBlitCopyRectangle) (i : Z) : Z :=
  nth (Z.to_nat i) [u32 r.(cr_sourceX); u32 r.(cr_sourceY); u32 r.(cr_x); u32 r.(cr_y); u32 r.(cr_width); u32 r.(cr_height)] 0.

(** [for (...) { rv = ...; if (rv != kIOReturnSuccess) break; }] *)
Fixpoint while_success (ms : list (M IOReturn)) : M IOReturn :=
  match ms with
  | [] => mret kIOReturnSuccess
  | m :: ms => rv ← m; if bool_decide (rv = kIOReturnSuccess) then while_success ms else mret rv
  end.

Definition RectCopy (garbage : bool) (a : Accel) (copyRects : list IOBlitCopyRectangle) : M IOReturn :=
  match copyRects with
  | [] => mret kIOReturnBadArgument
  | _ =>
      if HaveFrontBuffer a then
        while_success
          ((fun rect => CopyRegion garbage a rect.(cr_x) rect.(cr_y)
              (Some (set_region1 rect.(cr_sourceX) rect.(cr_sourceY) rect.(cr_width) rect.(cr_height))) (12 + 8)) <$> copyRects)
      else if negb a.(m_framebuffer) then mret kIOReturnNoDevice
      else
        rc ← until_fails true ((fun r => SvgaDevice.RectCopy (copy_words r)) <$> copyRects);
        mret (if (rc : bool) then kIOReturnSuccess else kIOReturnNoMemory)
  end.

Definition rect_words (r : IOBlitRectangle) (i : Z) : Z :=
  nth (Z.to_nat i) [u32 r.(r_x); u32 r.(r_y); u32 r.(r_width); u32 r.(r_height)] 0.

Definition RectFill (a : Accel) (color : Z) (rects : list IOBlitRectangle) : M IOReturn :=
  match rects with
  | [] => mret kIOReturnBadArgument
  | _ =>
      if negb a.(m_framebuffer) then mret kIOReturnNoDevice
      else
        rc ← until_fails true ((fun r => SvgaDevice.RectFill color (rect_words r)) <$> rects);
        mret (if (rc : bool) then kIOReturnSuccess else kIOReturnNoMemory)
  end.

Definition UpdateFramebufferAutoRing (a : Accel) (rect : option (Z -> Z)) : M IOReturn :=
  match rect with
  | None => mret kIOReturnBadArgument
  | Some rect =>
      if HaveFrontBuffer a then mret kIOReturnSuccess
      else if negb a.(m_framebuffer) then mret kIOReturnNoDevice
      else UpdateFramebuffer2 rect;; SvgaDevice.RingDoorBell;; mret kIOReturnSuccess
  end.

(** ** Surfaces *)

(** The stores to [faces[0]] and [mipSizes[0]]. *)
Definition createSurface (a : Accel) (sid surfaceFlags surfaceFormat width height : Z) : M IOReturn :=
  if negb a.(bHaveSVGA3D) then mret kIOReturnNoDevice
  else
    filled (BeginDefineSurface sid surfaceFlags surfaceFormat 1)
      (fun '(faces, mipSizes) =>
         store_words faces 0 [1];;
         store_words mipSizes 0 [width];;
         store_words mipSizes 1 [height];;
         store_words mipSizes 2 [1])
      kIOReturnSuccess (mret kIOReturnSuccess).

Definition destroySurface (a : Accel) (sid : Z) : M IOReturn :=
  if negb a.(bHaveSVGA3D) then mret kIOReturnNoDevice
  else DestroySurface sid;; mret kIOReturnSuccess.

(** The fields of [SVGA3dCopyBox] are x, y, z, w, h, d, srcx, srcy, srcz; the source
    is stored first, z and srcz not at all. *)
Definition store_box (extra : ExtraInfo) (copyBoxes : ptr) (i : Z) (src : IOAccelBounds) : M unit :=
  let dst := ptr_add copyBoxes (bsize SVGA3dCopyBox_c * i) in
  store_words dst 6 [u32 (src.(b_x) + extra.(srcDeltaX))];;
  store_words dst 7 [u32 (src.(b_y) + extra.(srcDeltaY))];;
  store_words dst 0 [u32 (src.(b_x) + extra.(dstDeltaX))];;
  store_words dst 1 [u32 (src.(b_y) + extra.(dstDeltaY))];;
  store_words dst 3 [u32 src.(b_w)];;
  store_words dst 4 [u32 src.(b_h)];;
  store_words dst 5 [1].

(** [fence] says whether the caller wants one; the second result is what it gets. *)
Definition surfaceDMA2D (a : Accel) (sid transfer : Z) (region : option IOAccelDeviceRegion) (extra : option ExtraInfo)
    (fence : bool) : M (IOReturn * option Z) :=
  match extra with
  | None => mret (kIOReturnBadArgument, None)
  | Some extra =>
      if negb a.(bHaveSVGA3D) then mret (kIOReturnNoDevice, None)
      else
        let guestImage := mk_SVGA3dGuestImage (mk_SVGAGuestPtr extra.(mem_gmr_id) (u32 extra.(mem_offset_in_gmr)))
                            (u32 extra.(mem_pitch)) in
        filled (BeginSurfaceDMA guestImage (image0 sid) transfer (num_rects region))
          (fun copyBoxes => for_rects (store_box extra copyBoxes) 0 (rects_of region))
          (kIOReturnSuccess, None)
          (f ← fence_if fence; mret (kIOReturnSuccess, f))
  end.

Definition surfaceCopy (a : Accel) (src_sid dst_sid : Z) (region : option IOAccelDeviceRegion) (extra : option ExtraInfo)
    : M IOReturn :=
  match extra with
  | None => mret kIOReturnBadArgument
  | Some extra =>
      if negb a.(bHaveSVGA3D) then mret kIOReturnNoDevice
      else
        filled (BeginSurfaceCopy (image0 src_sid) (image0 dst_sid) (num_rects region))
          (fun copyBoxes => for_rects (store_box extra copyBoxes) 0 (rects_of region))
          kIOReturnSuccess (mret kIOReturnSuccess)
  end.

Definition box_of (r : IOAccelBounds) : SVGA3dBox := mk_SVGA3dBox (u32 r.(b_x)) (u32 r.(b_y)) 0 (u32 r.(b_w)) (u32 r.(b_h)) 1.

Definition surfaceStretch (a : Accel) (src_sid dst_sid mode : Z) (src_rect dest_rect : IOAccelBounds) : M IOReturn :=
  if negb a.(bHaveSVGA3D) then mret kIOReturnNoDevice
  else
    SurfaceStretchBlt (image0 src_sid) (image0 dst_sid) (box_of src_rect) (box_of dest_rect) mode;;
    mret kIOReturnSuccess.

(** The fields of [SVGA3dCopyRect] are x, y, w, h, srcx, srcy. *)
Definition store_copy_rect (extra : ExtraInfo) (copyRects : ptr) (i : Z) (src : IOAccelBounds) : M unit :=
  let dst := ptr_add copyRects (bsize SVGA3dCopyRect_c * i) in
  store_words dst 4 [u32 (src.(b_x) + extra.(srcDeltaX))];;
  store_words dst 5 [u32 (src.(b_y) + extra.(srcDeltaY))];;
  store_words dst 0 [u32 (src.(b_x) + extra.(dstDeltaX))];;
  store_words dst 1 [u32 (src.(b_y) + extra.(dstDeltaY))];;
  store_words dst 2 [u32 src.(b_w)];;
  store_words dst 3 [u32 src.(b_h)].

Definition surfacePresentAutoSync (a : Accel) (sid : Z) (region : option IOAccelDeviceRegion) (extra : option ExtraInfo)
    : M (IOReturn * Accel) :=
  match extra with
  | None => mret (kIOReturnBadArgument, a)
  | Some extra =>
      if negb a.(bHaveSVGA3D) then mret (kIOReturnNoDevice, a)
      else
        SvgaDevice.SyncToFence (tracker_before a.(m_present_tracker));;
        filled (BeginPresent sid (num_rects region))
          (fun copyRects => for_rects (store_copy_rect extra copyRects) 0 (rects_of region))
          (kIOReturnSuccess, a)
          (fence ← InsertFence;
           mret (kIOReturnSuccess,
                 set_present_tracker (tracker_after AUTO_SYNC_PRESENT_FENCE_COUNT fence a.(m_present_tracker)) a))
  end.

Definition store_rect (rects : ptr) (i : Z) (src : IOAccelBounds) : M unit :=
  let dst := ptr_add rects (bsize SVGA3dRect_c * i) in
  store_words dst 0 [u32 src.(b_x)];;
  store_words dst 1 [u32 src.(b_y)];;
  store_words dst 2 [u32 src.(b_w)];;
  store_words dst 3 [u32 src.(b_h)].

Definition surfacePresentReadback (a : Accel) (region : option IOAccelDeviceRegion) : M IOReturn :=
  if negb a.(bHaveSVGA3D) then mret kIOReturnNoDevice
  else
    filled (BeginPresentReadback (num_rects region))
      (fun rects => for_rects (store_rect rects) 0 (rects_of region))
      kIOReturnSuccess (mret kIOReturnSuccess).

Definition setRenderTarget (a : Accel) (cid rtype sid : Z) : M IOReturn :=
  if negb a.(bHaveSVGA3D) then mret kIOReturnNoDevice
  else SetRenderTarget cid rtype (image0 sid);; mret kIOReturnSuccess.

(** [depth] is the word that represents the floating point number. *)
Definition clear (a : Accel) (cid flags : Z) (region : option IOAccelDeviceRegion) (color depth stencil : Z) : M IOReturn :=
  if negb a.(bHaveSVGA3D) then mret kIOReturnNoDevice
  else
    filled (BeginClear cid flags color depth stencil (num_rects region))
      (fun rects => for_rects (store_rect rects) 0 (rects_of region))
      kIOReturnSuccess (mret kIOReturnSuccess).

Definition createContext (a : Accel) (cid : Z) : M IOReturn :=
  if negb a.(bHaveSVGA3D) then mret kIOReturnNoDevice
  else DefineContext cid;; mret kIOReturnSuccess.

Definition destroyContext (a : Accel) (cid : Z) : M IOReturn :=
  if negb a.(bHaveSVGA3D) then mret kIOReturnNoDevice
  else DestroyContext cid;; mret kIOReturnSuccess.

(** The counts are those of the lists that are copied. *)
Definition drawPrimitives (a : Accel) (cid : Z) (decls : list SVGA3dVertexDecl) (ranges : list SVGA3dPrimitiveRange)
    : M IOReturn :=
  if negb a.(bHaveSVGA3D) then mret kIOReturnNoDevice
  else
    filled (BeginDrawPrimitives cid (Z.of_nat (length decls)) (Z.of_nat (length ranges)))
      (fun '(ds, rs) =>
         store_words ds 0 (decls ≫= enc SVGA3dVertexDecl_c);;
         store_words rs 0 (ranges ≫= enc SVGA3dPrimitiveRange_c))
      kIOReturnSuccess (mret kIOReturnSuccess).

Definition setTextureState (a : Accel) (cid : Z) (states : list SVGA3dTextureState) : M IOReturn :=
  if negb a.(bHaveSVGA3D) then mret kIOReturnNoDevice
  else
    filled (BeginSetTextureState cid (Z.of_nat (length states)))
      (fun st => store_words st 0 (states ≫= enc SVGA3dTextureState_c))
      kIOReturnSuccess (mret kIOReturnSuccess).

Definition setRenderState (a : Accel) (cid : Z) (states : list SVGA3dRenderState) : M IOReturn :=
  if negb a.(bHaveSVGA3D) then mret kIOReturnNoDevice
  else
    filled (BeginSetRenderState cid (Z.of_nat (length states)))
      (fun st => store_words st 0 (states ≫= enc SVGA3dRenderState_c))
      kIOReturnSuccess (mret kIOReturnSuccess).

Definition surfaceDMA3DEx (a : Accel) (hostImage : SVGA3dSurfaceImageId) (transfer : Z) (copyBox : option SVGA3dCopyBox)
    (extra : option ExtraInfoEx) (fence : bool) : M (IOReturn * option Z) :=
  match extra, copyBox with
  | Some extra, Some copyBox =>
      if negb a.(bHaveSVGA3D) then mret (kIOReturnNoDevice, None)
      else
        let guestImage := mk_SVGA3dGuestImage (mk_SVGAGuestPtr extra.(ex_mem_gmr_id) (u32 extra.(ex_mem_offset_in_gmr)))
                            (u32 extra.(ex_mem_pitch)) in
        filled (BeginSurfaceDMAwithSuffix guestImage hostImage transfer 1 (u32 extra.(ex_mem_limit)) extra.(ex_suffix_flags))
          (fun copyBoxes => store_words copyBoxes 0 (enc SVGA3dCopyBox_c copyBox))
          (kIOReturnSuccess, None)
          (f ← fence_if fence; mret (kIOReturnSuccess, f))
  | _, _ => mret (kIOReturnBadArgument, None)
  end.

(** ** Screens *)

Definition createPrimaryScreen (a : Accel) (width height : Z) : M (IOReturn * Accel) :=
  if negb a.(bHaveScreenObject) then mret (kIOReturnNoDevice, a)
  else if (width =? a.(m_primary_screen_w)) && (height =? a.(m_primary_screen_h)) then mret (kIOReturnSuccess, a)
  else
    let pitch := u32 (Z.land (u64 (width * 4 + 7)) (u64 (-8))) in
    DefineScreen (mk_SVGAScreenObject (bsize SVGAScreenObject_c) 0 (Z.lor SVGA_SCREEN_HAS_ROOT SVGA_SCREEN_IS_PRIMARY)
      width height 0 0 (mk_SVGAGuestImage (mk_SVGAGuestPtr GMR_VRAM 0) pitch) 0);;
    mret (kIOReturnSuccess, set_primary_screen width height a).

Definition gmrfb_ptr (extra : ExtraInfo) : SVGAGuestPtr :=
  mk_SVGAGuestPtr extra.(mem_gmr_id) (u32 extra.(mem_offset_in_gmr)).
Definition gmrfb_format : Z := 0x1820.
Definition src_delta (extra : ExtraInfo) : SVGASignedPoint := mk_SVGASignedPoint extra.(srcDeltaX) extra.(srcDeltaY).
Definition dst_delta (extra : ExtraInfo) : SVGASignedPoint := mk_SVGASignedPoint extra.(dstDeltaX) extra.(dstDeltaY).

Definition blitFromScreen (a : Accel) (srcScreenId : Z) (region : option IOAccelDeviceRegion) (extra : option ExtraInfo)
    (fence : bool) : M (IOReturn * option Z) :=
  match extra with
  | None => mret (kIOReturnBadArgument, None)
  | Some extra =>
      if negb a.(bHaveScreenObject) then mret (kIOReturnNoDevice, None)
      else
        DefineGMRFB (gmrfb_ptr extra) (u32 extra.(mem_pitch)) gmrfb_format;;
        for_rects
          (fun _ src =>
             let srcRect := convert_rect src (Some (src_delta extra)) in
             let destOrigin := mk_SVGASignedPoint (s32 (src.(b_x) + extra.(dstDeltaX))) (s32 (src.(b_y) + extra.(dstDeltaY))) in
             BlitToGMRFB destOrigin srcRect srcScreenId;; skip) 0 (rects_of region);;
        f ← fence_if fence;
        mret (kIOReturnSuccess, f)
  end.

Definition blitToScreen (a : Accel) (destScreenId : Z) (region : option IOAccelDeviceRegion) (extra : option ExtraInfo)
    (fence : bool) : M (IOReturn * option Z) :=
  match extra with
  | None => mret (kIOReturnBadArgument, None)
  | Some extra =>
      if negb a.(bHaveScreenObject) then mret (kIOReturnNoDevice, None)
      else
        DefineGMRFB (gmrfb_ptr extra) (u32 extra.(mem_pitch)) gmrfb_format;;
        for_rects
          (fun _ src =>
             let destRect := convert_rect src (Some (dst_delta extra)) in
             let srcOrigin := mk_SVGASignedPoint (s32 (src.(b_x) + extra.(srcDeltaX))) (s32 (src.(b_y) + extra.(srcDeltaY))) in
             BlitFromGMRFB srcOrigin destRect destScreenId;; skip) 0 (rects_of region);;
        f ← fence_if fence;
        SvgaDevice.RingDoorBell;;
        mret (kIOReturnSuccess, f)
  end.

(** The clip rectangles are relative to the destination.  The region must not be
    null: its bounds are read without a test. *)
Definition blitSurfaceToScreen (a : Accel) (src_sid destScreenId : Z) (src_rect : IOAccelBounds) (rgn : IOAccelDeviceRegion)
    : M IOReturn :=
  if negb a.(bHaveScreenObject) then mret kIOReturnNoDevice
  else
    let srcRect := convert_rect src_rect None in
    let destRect := convert_rect rgn.(rgn_bounds) None in
    let shift := mk_SVGASignedPoint (s32 (- destRect.(SVGASignedRect_left))) (s32 (- destRect.(SVGASignedRect_top))) in
    filled (BeginBlitSurfaceToScreen (image0 src_sid) srcRect destScreenId destRect rgn.(rgn_num_rects))
      (fun clipRects =>
         for_rects
           (fun i src => store_words (ptr_add clipRects (bsize SVGASignedRect_c * i)) 0
                           (enc SVGASignedRect_c (convert_rect src (Some shift)))) 0 (rects_of (Some rgn)))
      kIOReturnSuccess (SvgaDevice.RingDoorBell;; mret kIOReturnSuccess).

Definition isPrimaryScreenActive (a : Accel) : bool :=
  if negb a.(bHaveScreenObject) then false
  else (0 <? s32 a.(m_primary_screen_w)) && (0 <? s32 a.(m_primary_screen_h)).

(** ** The master surface *)

Definition createMasterSurface (a : Accel) (width height : Z) : M (bool * Accel) :=
  let '(sid, i) := AllocSurfaceID a.(m_ids) in
  let a := set_ids i (set_master a.(m_master_surface_retain_count) sid a) in
  rc ← createSurface a sid 0 SVGA3D_X8R8G8B8 width height;
  if bool_decide (rc = kIOReturnSuccess) then mret (true, a)
  else
    let a := set_ids (FreeSurfaceID sid a.(m_ids)) a in
    mret (false, set_master a.(m_master_surface_retain_count) SVGA_ID_INVALID a).

Definition destroyMasterSurface (a : Accel) : M Accel :=
  if s32 a.(m_master_surface_id) <? 0 then mret a
  else
    destroySurface a a.(m_master_surface_id);;
    let a := set_ids (FreeSurfaceID a.(m_master_surface_id) a.(m_ids)) a in
    mret (set_master a.(m_master_surface_retain_count) SVGA_ID_INVALID a).

Definition retainMasterSurface (a : Accel) : M (bool * Accel) :=
  if negb a.(bHaveSVGA3D) then mret (false, a)
  else
    let v := a.(m_master_surface_retain_count) in
    let a := set_master (s32 (v + 1)) a.(m_master_surface_id) a in
    if v =? 0 then
      width ← gets m_width;
      height ← gets m_height;
      r ← createMasterSurface a width height;
      let '(rc, a) := r in
      mret (rc, if (rc : bool) then a else set_master 0 a.(m_master_surface_id) a)
    else mret (true, a).

Definition releaseMasterSurface (a : Accel) : M Accel :=
  if negb a.(bHaveSVGA3D) then mret a
  else
    let v := a.(m_master_surface_retain_count) in
    let a := set_master (s32 (v - 1)) a.(m_master_surface_id) a in
    if v <=? 0 then mret (set_master 0 a.(m_master_surface_id) a)
    else if v =? 1 then destroyMasterSurface a
    else mret a.

(** ** Video *)

Definition VideoSetRegsInRange (a : Accel) (streamId : Z) (regs : option (Z -> Z)) (regMin regMax : Z) (fence : bool)
    : M (IOReturn * option Z) :=
  if negb a.(m_framebuffer) then mret (kIOReturnNoDevice, None)
  else
    (match regs with
     | Some regs => SvgaDevice.VideoSetRegsInRange streamId regs regMin regMax;; skip
     | None => skip
     end);;
    VideoFlush streamId;;
    f ← fence_if fence;
    SvgaDevice.RingDoorBell;;
    mret (kIOReturnSuccess, f).

Definition VideoSetReg (a : Accel) (streamId registerId value : Z) (fence : bool) : M (IOReturn * option Z) :=
  if negb a.(m_framebuffer) then mret (kIOReturnNoDevice, None)
  else
    SvgaDevice.VideoSetReg streamId registerId value;;
    VideoFlush streamId;;
    f ← fence_if fence;
    SvgaDevice.RingDoorBell;;
    mret (kIOReturnSuccess, f).

(** ** Fills of the master surface *)

(** [old] is the first entry of the region, which is allocated but not written. *)
Definition RectFill3D (a : Accel) (color : Z) (first : IOBlitRectangle) (rects : list IOBlitRectangle) (old : IOAccelBounds)
    : M (IOReturn * Accel) :=
  if a.(m_master_surface_retain_count) <=? 0 then mret (kIOReturnSuccess, a)
  else
    let rgn := Some (set_region first rects old) in
    let sid := a.(m_master_surface_id) in
    let '(cid, i) := AllocContextID a.(m_ids) in
    let a := set_ids i a in
    rc ← createContext a cid;
    if negb (bool_decide (rc = kIOReturnSuccess)) then mret (kIOReturnError, set_ids (FreeContextID cid a.(m_ids)) a)
    else
      setRenderTarget a cid SVGA3D_RT_COLOR0 sid;;
      clear a cid SVGA3D_CLEAR_COLOR rgn color 0x3F800000 0;;
      destroyContext a cid;;
      let a := set_ids (FreeContextID cid a.(m_ids)) a in
      r ← surfacePresentAutoSync a sid rgn (Some (mk_ExtraInfo 0 0 0 0 0 0 0));
      mret (kIOReturnSuccess, r.2).
End accel.
