(* ===== verification/AccelProofs.v ===== *)
(** Correctness of the methods of the accelerator: the loops over the rectangles of a
    region store exactly the arrays that the commands need, and every method appends
    its commands, and its fence, to the stream that the device reads. *)

From S2P Require Import Prelude IOKit Layout SvgaReg SvgaCmd Fifo Ring FifoProofs SvgaDevice Bits.
From S2P Require Import DeviceProofs Driver Svga3dReg Svga3d Svga3dProofs AccelIds AccelBlit Accel.


(** ** Arrays filled element by element *)

Lemma splice_app l l' s : 0 <= s.1 -> s.1 + Z.of_nat (length s.2) <= Z.of_nat (length l) ->
  splice (l ++ l') s = splice l s ++ l'.
Proof.
  intros H0 Hs. unfold splice. rewrite take_app_le, drop_app_le, <-!app_assoc by lia. done.
Qed.

Lemma splices_app ss : forall l l',
  Forall (fun s => 0 <= s.1 /\ s.1 + Z.of_nat (length s.2) <= Z.of_nat (length l)) ss ->
  foldl splice (l ++ l') ss = foldl splice l ss ++ l'.
Proof.
  induction ss as [|s ss IH]; intros l l' Hss; [done|]. apply Forall_cons_1 in Hss as [[? ?] Hss].
  cbn [foldl]. rewrite splice_app by done. apply IH. by rewrite length_splice.
Qed.

(** The stores of an array whose elements have [size] words, from word [k] on. *)
Fixpoint elem_stores {R} (size k : Z) (fs : R -> list (Z * list Z)) (rs : list R) : list (Z * list Z) :=
  match rs with
  | [] => []
  | r :: rs => ((fun s => (k + s.1, s.2)) <$> fs r) ++ elem_stores size (k + size) fs rs
  end.

(** The stores [fs] of one element stay inside and make it [target], over words of
    which [P] holds. *)
Record fills {R} (size : Z) (P : Z -> Prop) (fs : R -> list (Z * list Z)) (target : R -> list Z) : Prop := {
  fills_size : 0 <= size;
  fills_bounds r : Forall (fun s => 0 <= s.1 /\ s.1 + Z.of_nat (length s.2) <= size) (fs r);
  fills_target r old : Z.of_nat (length old) = size -> Forall P old -> foldl splice old (fs r) = target r;
}.

Lemma elem_bounds {R} size P (fs : R -> list (Z * list Z)) target rs : fills size P fs target -> forall k n, 0 <= k ->
  k + size * Z.of_nat (length rs) <= n ->
  Forall (fun s => 0 <= s.1 /\ s.1 + Z.of_nat (length s.2) <= n) (elem_stores size k fs rs).
Proof.
  intros Hf. pose proof (fills_size _ _ _ _ Hf). induction rs as [|r rs IH]; intros k n Hk Hn; [done|].
  cbn [elem_stores]. cbn [length] in Hn. apply Forall_app. split.
  - apply Forall_fmap. eapply Forall_impl; [|apply (fills_bounds _ _ _ _ Hf)]. simpl. intros; nia.
  - apply IH; nia.
Qed.

Lemma elem_fill {R} size P (fs : R -> list (Z * list Z)) target rs : fills size P fs target -> forall k h old,
  Z.of_nat (length h) = k -> Z.of_nat (length old) = size * Z.of_nat (length rs) -> Forall P old ->
  foldl splice (h ++ old) (elem_stores size k fs rs) = h ++ (rs ≫= target).
Proof.
  intros Hf. pose proof (fills_size _ _ _ _ Hf). induction rs as [|r rs IH]; intros k h old Hk Ho HP.
  - destruct old; [done|simpl in Ho; lia].
  - cbn [elem_stores length] in *. rewrite <-(take_drop (Z.to_nat size) old).
    assert (Z.of_nat (length (take (Z.to_nat size) old)) = size) as Hl by (rewrite length_take; nia).
    pose proof (fills_bounds _ _ _ _ Hf r) as Hb.
    rewrite foldl_app, splices_shift; [|done|eapply Forall_impl; [|exact Hb]; simpl; tauto].
    rewrite (splices_app (fs r)) by (by rewrite Hl). rewrite (fills_target _ _ _ _ Hf) by (auto using Forall_take).
    assert (Z.of_nat (length (target r)) = size) as Ht.
    { rewrite <-(fills_target _ _ _ _ Hf r (take (Z.to_nat size) old)) by (auto using Forall_take).
      rewrite length_splices; [done|by rewrite Hl]. }
    rewrite app_assoc, IH; [csimpl; by rewrite <-app_assoc| | |by apply Forall_drop].
    + rewrite length_app. lia.
    + rewrite length_drop. nia.
Qed.

Section loops.
Context {HS : Type} `{SvgaHostOK HS}.
Implicit Types (d : dev HS).

Lemma stores_app p ss ss' fuel d : stores p (ss ++ ss') fuel d = (stores p ss;; stores p ss') fuel d.
Proof.
  revert d. induction ss as [|s ss IH]; intros d; cbn [stores app];
    [by rewrite (mbind_eq _ _ fuel d tt d eq_refl)|].
  rewrite mbind_assoc. by apply seq_ext.
Qed.

(** A loop over rectangles is the stores of its array. *)
Lemma for_rects_stores p k size body (fs : IOAccelBounds -> list (Z * list Z)) fuel rs :
  (forall i r d, body i r fuel d = stores (ptr_add (ptr_add p (4 * k)) (4 * size * i)) (fs r) fuel d) -> forall i d,
  for_rects body i rs fuel d = stores p (elem_stores size (k + size * i) fs rs) fuel d.
Proof.
  intros Hb. induction rs as [|r rs IH]; intros i d; cbn [for_rects elem_stores]; [done|].
  rewrite stores_app. replace (k + size * i + size) with (k + size * (i + 1)) by lia.
  transitivity ((stores p ((fun s => (k + size * i + s.1, s.2)) <$> fs r);; for_rects body (i + 1) rs) fuel d).
  2: by apply seq_ext.
  unfold mbind at 1 2, M_bind at 1 2. rewrite Hb. rewrite <-Z.mul_assoc, stores_ptr_add, stores_ptr_add.
  rewrite <-list_fmap_compose. unfold compose. cbn [fst snd].
  replace ((fun s : Z * list Z => (k + (size * i + s.1), s.2)) <$> fs r)
    with ((fun s : Z * list Z => (k + size * i + s.1, s.2)) <$> fs r); [done|].
  apply list_fmap_ext. intros ? [? ?] _. simpl. f_equal. lia.
Qed.
End loops.

(** ** The elements *)

Definition copy_box (extra : ExtraInfo) (r : IOAccelBounds) : SVGA3dCopyBox :=
  mk_SVGA3dCopyBox (u32 (r.(b_x) + extra.(dstDeltaX))) (u32 (r.(b_y) + extra.(dstDeltaY))) 0
    (u32 r.(b_w)) (u32 r.(b_h)) 1 (u32 (r.(b_x) + extra.(srcDeltaX))) (u32 (r.(b_y) + extra.(srcDeltaY))) 0.
Definition copy_rect3d (extra : ExtraInfo) (r : IOAccelBounds) : SVGA3dCopyRect :=
  mk_SVGA3dCopyRect (u32 (r.(b_x) + extra.(dstDeltaX))) (u32 (r.(b_y) + extra.(dstDeltaY)))
    (u32 r.(b_w)) (u32 r.(b_h)) (u32 (r.(b_x) + extra.(srcDeltaX))) (u32 (r.(b_y) + extra.(srcDeltaY))).
Definition rect3d (r : IOAccelBounds) : SVGA3dRect :=
  mk_SVGA3dRect (u32 r.(b_x)) (u32 r.(b_y)) (u32 r.(b_w)) (u32 r.(b_h)).

Definition box_stores (extra : ExtraInfo) (r : IOAccelBounds) : list (Z * list Z) :=
  [(6, [u32 (r.(b_x) + extra.(srcDeltaX))]); (7, [u32 (r.(b_y) + extra.(srcDeltaY))]);
   (0, [u32 (r.(b_x) + extra.(dstDeltaX))]); (1, [u32 (r.(b_y) + extra.(dstDeltaY))]);
   (3, [u32 r.(b_w)]); (4, [u32 r.(b_h)]); (5, [1])].
Definition copy_rect_stores (extra : ExtraInfo) (r : IOAccelBounds) : list (Z * list Z) :=
  [(4, [u32 (r.(b_x) + extra.(srcDeltaX))]); (5, [u32 (r.(b_y) + extra.(srcDeltaY))]);
   (0, [u32 (r.(b_x) + extra.(dstDeltaX))]); (1, [u32 (r.(b_y) + extra.(dstDeltaY))]);
   (2, [u32 r.(b_w)]); (3, [u32 r.(b_h)])].
Definition rect_stores (r : IOAccelBounds) : list (Z * list Z) :=
  [(0, [u32 r.(b_x)]); (1, [u32 r.(b_y)]); (2, [u32 r.(b_w)]); (3, [u32 r.(b_h)])].

Local Ltac fills_solve :=
  split; [lia|intros r; simpl; repeat (apply Forall_cons; [simpl; lia|]); by apply Forall_nil|].

Lemma box_fills extra : fills 9 (fun x => x = 0) (box_stores extra) (fun r => enc SVGA3dCopyBox_c (copy_box extra r)).
Proof.
  fills_solve. intros r old Hl HP.
  destruct old as [|w0 [|w1 [|w2 [|w3 [|w4 [|w5 [|w6 [|w7 [|w8 [|]]]]]]]]]]; simpl in Hl; try lia.
  repeat (apply Forall_cons_1 in HP as [-> HP]). done.
Qed.

Lemma copy_rect_fills extra :
  fills 6 (fun _ => True) (copy_rect_stores extra) (fun r => enc SVGA3dCopyRect_c (copy_rect3d extra r)).
Proof.
  fills_solve. intros r old Hl _.
  destruct old as [|w0 [|w1 [|w2 [|w3 [|w4 [|w5 [|]]]]]]]; simpl in Hl; try lia. done.
Qed.

Lemma rect_fills : fills 4 (fun _ => True) rect_stores (fun r => enc SVGA3dRect_c (rect3d r)).
Proof.
  fills_solve. intros r old Hl _. destruct old as [|w0 [|w1 [|w2 [|w3 [|]]]]]; simpl in Hl; try lia. done.
Qed.

Lemma clip_fills shift : fills 4 (fun _ => True) (fun r => [(0, enc SVGASignedRect_c (convert_rect r shift))])
  (fun r => enc SVGASignedRect_c (convert_rect r shift)).
Proof.
  fills_solve. intros r old Hl _. destruct old as [|w0 [|w1 [|w2 [|w3 [|]]]]]; simpl in Hl; try lia. done.
Qed.

Lemma copy_box_ok extra r : ok SVGA3dCopyBox_c (copy_box extra r).
Proof. cbn. repeat split; try apply wrap_range; lia. Qed.
Lemma copy_rect3d_ok extra r : ok SVGA3dCopyRect_c (copy_rect3d extra r).
Proof. cbn. repeat split; try apply wrap_range; lia. Qed.
Lemma rect3d_ok r : ok SVGA3dRect_c (rect3d r).
Proof. cbn. repeat split; try apply wrap_range; lia. Qed.

(** ** Commands with an array *)

Lemma fills_length {R} size (P : Z -> Prop) (fs : R -> list (Z * list Z)) target r :
  fills size P fs target -> P 0 -> Z.of_nat (length (target r)) = size.
Proof.
  intros Hf H0. pose proof (fills_size _ _ _ _ Hf).
  assert (Z.of_nat (length (replicate (Z.to_nat size) 0)) = size) as Hl by (rewrite length_replicate; lia).
  rewrite <-(fills_target _ _ _ _ Hf r _ Hl) by by apply Forall_replicate.
  rewrite length_splices; [done|]. rewrite Hl. apply (fills_bounds _ _ _ _ Hf).
Qed.

Lemma fills_flat {R} size (P : Z -> Prop) (fs : R -> list (Z * list Z)) target rs :
  fills size P fs target -> P 0 -> Z.of_nat (length (rs ≫= target)) = size * Z.of_nat (length rs).
Proof.
  intros Hf H0. induction rs as [|r rs IH]; csimpl; [lia|].
  rewrite length_app, Nat2Z.inj_add, IH, (fills_length size P fs target r Hf H0). lia.
Qed.

Section arrays.
Context {HS : Type} `{SvgaHostOK HS}.
Implicit Types (d : dev HS).

(** The array is filled rectangle by rectangle, over words that are not cleared. *)
Lemma begin_rects_emits {A} (id : SVGA3dCmdId) (c : coder A) a size fs target extra body rs d :
  ok c a -> fills size (fun _ => True) fs target -> extra = 4 * (size * Z.of_nat (length rs)) ->
  (forall p i r fuel d, body p i r fuel d = stores (ptr_add p (4 * size * i)) (fs r) fuel d) ->
  idle d -> room d (2 + Z.of_nat (length (enc c a ++ (rs ≫= target)))) ->
  emits (complete (begin3d id c a extra (fun cmd => mret (ptr_add cmd (bsize c))))
           (fun p => for_rects (body p) 0 rs)) d true (encode_cmd (Cmd3D id (enc c a ++ (rs ≫= target)))).
Proof.
  intros Hok Hf He Hb Hi Hr. pose proof (fills_size _ _ _ _ Hf). pose proof (csize_nonneg _ c).
  apply (begin3d_stores id c a extra (size * Z.of_nat (length rs)) (elem_stores size (csize c) fs rs));
    [done|done|nia| | | |by eapply elem_bounds; [|lia..]|done|done].
  - rewrite length_app, Nat2Z.inj_add, (enc_size c a Hok), (fills_flat size (fun _ => True) fs target rs Hf I). lia.
  - intros old Ho. apply (elem_fill size (fun _ => True)); [done|by apply enc_size|done|by apply Forall_true].
  - intros cmd fuel d'. rewrite (mbind_eq _ _ fuel d' (ptr_add cmd (bsize c)) d' eq_refl).
    rewrite (for_rects_stores cmd (csize c) size _ fs); [by rewrite Z.mul_0_r, Z.add_0_r|].
    intros i r d1. unfold bsize. by rewrite Hb.
Qed.

(** The array is cleared first. *)
Lemma begin_boxes_emits {A} (id : SVGA3dCmdId) (c : coder A) a size fs target extra body rs d :
  ok c a -> fills size (fun x => x = 0) fs target -> extra = 4 * (size * Z.of_nat (length rs)) ->
  (forall p i r fuel d, body p i r fuel d = stores (ptr_add p (4 * size * i)) (fs r) fuel d) ->
  idle d -> room d (2 + Z.of_nat (length (enc c a ++ (rs ≫= target)))) ->
  emits (complete (begin3d id c a extra (fun cmd => store_words (ptr_add cmd (bsize c)) 0 (zeros extra);;
                                                    mret (ptr_add cmd (bsize c))))
           (fun p => for_rects (body p) 0 rs)) d true (encode_cmd (Cmd3D id (enc c a ++ (rs ≫= target)))).
Proof.
  intros Hok Hf He Hb Hi Hr. pose proof (fills_size _ _ _ _ Hf). pose proof (csize_nonneg _ c).
  assert (Z.of_nat (length (zeros extra)) = size * Z.of_nat (length rs)) as Hz
    by (rewrite He, length_zeros; nia).
  apply (begin3d_emits id c a extra (zeros extra) (elem_stores size (csize c) fs rs));
    [done|lia| | | |done|done].
  - symmetry. apply (elem_fill size (fun x => x = 0)); [done|by apply enc_size|done|].
    apply Forall_replicate. done.
  - intros cmd fuel d'. rewrite mbind_assoc. unfold bsize. rewrite store_ptr_add, Z.add_0_r.
    apply seq_ext; intros d2. rewrite (mbind_eq _ _ fuel d2 (ptr_add cmd (4 * csize c)) d2 eq_refl).
    rewrite (for_rects_stores cmd (csize c) size _ fs); [by rewrite Z.mul_0_r, Z.add_0_r|].
    intros i r d1. by rewrite Hb.
  - rewrite Hz. by eapply elem_bounds; [|lia..].
Qed.
End arrays.

(** ** The stream and the fences *)

(** The number of a fence after [nf]: zero is skipped. *)
Definition fence_no (nf : Z) : Z := if nf =? 0 then 1 else nf.
Definition fence_cmd (nf : Z) : svga_cmd := CmdFence (mk_SVGAFifoCmdFence (fence_no nf)).

Section stream.
Context {HS : Type} `{SvgaHostOK HS}.
Implicit Types (d : dev HS).

(** [ws] has been queued and the next fence is [nf]; nothing else has changed. *)
Definition advances d d' (nf : Z) (ws : list Z) : Prop :=
  d'.(m_next_fence) = nf /\ committed (set_next_fence nf d) d' ws.

(** [m] returns [a], queues [ws] and leaves [nf] as the next fence. *)
Definition produces {A} (m : M HS A) d (a : A) (nf : Z) (ws : list Z) : Prop :=
  forall fuel, (Z.to_nat (rsize d.(fifo)) <= fuel)%nat ->
  exists d', m fuel d = Some (a, d') /\ advances d d' nf ws.

(** An idle device with fences. *)
Definition ready d : Prop :=
  idle d /\ has_bits (d.(fifo) SVGA_FIFO_CAPABILITIES) SVGA_FIFO_CAP_FENCE = true.

Lemma advances_rsize d d' nf ws : advances d d' nf ws -> rsize d'.(fifo) = rsize d.(fifo).
Proof. intros [_ Hc]. by apply committed_rsize in Hc. Qed.

Lemma advances_ready d d' nf ws : advances d d' nf ws -> ready d -> ready d'.
Proof.
  intros [_ Hc] [_ Hcap]. destruct Hc as (Hi & [Hf _] & _). split; [done|].
  rewrite (Hf SVGA_FIFO_CAPABILITIES); [done|cbn; lia..].
Qed.

Lemma advances_room d d' nf ws n : advances d d' nf ws -> room d n -> room d' n.
Proof. intros Ha [Hn Hs]. split; [done|]. by rewrite (advances_rsize _ _ _ _ Ha). Qed.

Lemma advances_frame d d' nf ws : advances d d' nf ws -> d'.(m_width) = d.(m_width) /\ d'.(m_height) = d.(m_height).
Proof. intros [_ (_ & [_ Hr] & _)]. unfold dev_rest in Hr. by injection Hr. Qed.

Lemma rest_next_fence n d d' : dev_rest d' = dev_rest d -> dev_rest (set_next_fence n d') = dev_rest (set_next_fence n d).
Proof. unfold dev_rest. simpl. intros E. injection E. intros. congruence. Qed.

Lemma advances_trans d d1 d2 nf1 nf2 ws1 ws2 :
  advances d d1 nf1 ws1 -> advances d1 d2 nf2 ws2 -> advances d d2 nf2 (ws1 ++ ws2).
Proof.
  intros [E1 (Hi1 & [Hf1 Hd1] & pre1 & Hq1)] [E2 (Hi2 & [Hf2 Hd2] & pre2 & Hq2)]. split; [done|].
  split; [done|]. split.
  - split; [intros i ? ? ? ?; rewrite Hf2 by done; by apply Hf1|].
    rewrite Hd2. by apply (rest_next_fence nf2 _ d1) in Hd1.
  - exists (pre1 ++ pre2). simpl in *. by rewrite <-app_assoc, Hq2, app_assoc, Hq1, app_assoc.
Qed.

Lemma set_next_fence_same d : set_next_fence d.(m_next_fence) d = d.
Proof. by destruct d. Qed.

Lemma produces_ret {A} (a : A) d : idle d -> produces (mret a) d a d.(m_next_fence) [].
Proof.
  intros Hi fuel _. exists d. split; [done|]. split; [done|]. rewrite set_next_fence_same.
  split; [done|]. split; [by split|]. exists []. by rewrite app_nil_r.
Qed.

Lemma produces_bind {A B} (m : M HS A) (k : A -> M HS B) d a b nf1 nf2 ws1 ws2 :
  produces m d a nf1 ws1 -> (forall d', advances d d' nf1 ws1 -> produces (k a) d' b nf2 ws2) ->
  produces (m ≫= k) d b nf2 (ws1 ++ ws2).
Proof.
  intros Hm Hk fuel Hf. destruct (Hm fuel Hf) as (d1 & E1 & Ha1).
  destruct (Hk d1 Ha1 fuel) as (d2 & E2 & Ha2); [by rewrite (advances_rsize _ _ _ _ Ha1)|].
  exists d2. rewrite (mbind_eq _ _ fuel d a d1 E1). split; [done|]. by eapply advances_trans.
Qed.

(** The last step of a method that only returns. *)
Lemma produces_then {A B} (m : M HS A) (b : A -> B) d a nf ws :
  produces m d a nf ws -> produces (x ← m; mret (b x)) d (b a) nf ws.
Proof.
  intros Hm. rewrite <-(app_nil_r ws). eapply produces_bind; [done|]. intros d' Ha.
  destruct Ha as [En Hc]. rewrite <-En. apply produces_ret, Hc.
Qed.

Lemma produces_emits {A} (m : M HS A) d a ws : idle d -> emits m d a ws -> produces m d a d.(m_next_fence) ws.
Proof.
  intros Hi Hm fuel Hf. pose proof (used_range _ (proj1 Hi)). destruct (Hm fuel) as (d' & E & Hc); [lia|].
  exists d'. split; [done|]. split; [|by rewrite set_next_fence_same].
  destruct Hc as (_ & [_ Hr] & _). unfold dev_rest in Hr. by injection Hr.
Qed.

Lemma produces_keeps {A} (m : M HS A) d a : idle d ->
  (forall fuel, (Z.to_nat (used d.(fifo)) < fuel)%nat -> exists d', m fuel d = Some (a, d') /\ keeps d d' /\
     d'.(m_reserved_size) = d.(m_reserved_size)) ->
  produces m d a d.(m_next_fence) [].
Proof.
  intros Hi Hm. apply produces_emits; [done|]. intros fuel Hf. destruct (Hm fuel Hf) as (d' & E & Hk & Hr).
  exists d'. split; [done|]. eapply keeps_committed; [done|]. destruct Hk as [Ha _]. destruct Hi as [_ Hi].
  split; [split; [apply Ha|congruence]|]. split; [by split|]. exists []. by rewrite app_nil_r.
Qed.

Lemma produces_doorbell d : idle d -> produces SvgaDevice.RingDoorBell d tt d.(m_next_fence) [].
Proof. intros Hi. apply produces_keeps; [done|]. intros fuel _. apply RingDoorBell_spec, Hi. Qed.

Lemma produces_sync fence d : idle d -> produces (SvgaDevice.SyncToFence fence) d tt d.(m_next_fence) [].
Proof.
  intros Hi. apply produces_keeps; [done|]. intros fuel Hf.
  destruct (SyncToFence_spec fence fuel d (proj1 Hi) Hf) as (d' & E & Hk & Hr & _). by exists d'.
Qed.

Lemma produces_drain d : idle d -> produces SvgaDevice.SyncFIFO d tt d.(m_next_fence) [].
Proof.
  intros Hi. apply produces_keeps; [done|]. intros fuel Hf.
  destruct (SyncFIFO_spec fuel d (proj1 Hi) Hf) as (d' & E & Hk & Hr & _). by exists d'.
Qed.

Lemma produces_fence d : ready d -> room d 2 ->
  produces InsertFence d (fence_no d.(m_next_fence)) (u32 (fence_no d.(m_next_fence) + 1))
    (encode_cmd (fence_cmd d.(m_next_fence))).
Proof.
  intros [Hi Hcap] Hr fuel Hf. pose proof (used_range _ (proj1 Hi)).
  destruct (InsertFence_spec d fuel Hcap Hi Hr) as (d' & E & En & Hc); [lia|]. by exists d'.
Qed.

Lemma filled_complete {B C} (m : M HS (option B)) (fill : B -> M HS unit) (failed : C) (k : M HS C) fuel d :
  filled m fill failed k fuel d = (b ← complete m fill; if (b : bool) then k else mret failed) fuel d.
Proof.
  unfold filled, complete. rewrite mbind_assoc. apply mbind_ext. intros [r|] d'; [|done].
  rewrite mbind_assoc. apply seq_ext; intros d1. by rewrite mbind_assoc.
Qed.

Lemma filled_produces {B C} (m : M HS (option B)) (fill : B -> M HS unit) (failed c : C) (k : M HS C) d nf ws ws' :
  idle d -> emits (complete m fill) d true ws ->
  (forall d', advances d d' d.(m_next_fence) ws -> produces k d' c nf ws') ->
  produces (filled m fill failed k) d c nf (ws ++ ws').
Proof.
  intros Hi Hm Hk fuel Hf. rewrite filled_complete. revert fuel Hf.
  apply (produces_bind _ _ d true c d.(m_next_fence)); [by apply produces_emits|done].
Qed.

(** The same when nothing follows. *)
Lemma filled_only {B} (m : M HS (option B)) (fill : B -> M HS unit) (c : IOReturn) d ws :
  idle d -> emits (complete m fill) d true ws -> produces (filled m fill c (mret c)) d c d.(m_next_fence) ws.
Proof.
  intros Hi Hm. rewrite <-(app_nil_r ws). apply filled_produces; [done..|]. intros d' [<- Ha].
  apply produces_ret, Ha.
Qed.
End stream.
