(* ===== verification/DriverStream.v ===== *)
(** The driver's command stream, method by method.

    [svga_call] has one constructor per method of FB/SVGADevice.cpp and
    AC/SVGAScreen.cpp that queues a command, and [svga3d_call] one per method of
    AC/SVGA3D.cpp.  [run_call] and [run_call3d] run the methods; [call_spec] and
    [call3d_spec] say, from the arguments alone, what each returns and which
    commands the device has to read.  The theorems relate the two for any
    sequence of calls. *)

From S2P Require Import Prelude IOKit Layout SvgaReg SvgaCmd Fifo Ring FifoProofs SvgaDevice Bits.
From S2P Require Import DeviceProofs Driver Svga3dReg Svga3d Svga3dProofs AccelProofs.

(** What a method returns: a success flag, the number of a fence or a return code. *)
Inductive answer := Flag (b : bool) | Fence (f : Z) | Code (rc : IOReturn).

(** ** The calls of SVGADevice.cpp and SVGAScreen.cpp *)

Inductive svga_call :=
  | CallInsertFence
  | CallUpdateFramebuffer (x y width height : Z)
  | CallUpdateFullscreen
  | CallUpdateFramebuffer2 (rect : Z -> Z)
  | CallRectCopy (copyRect : Z -> Z)
  | CallRectFill (color : Z) (rect : Z -> Z)
  | CallVideoSetRegsInRange (streamId : Z) (regs : Z -> Z) (minReg maxReg : Z)
  | CallVideoSetRegsWithMask (streamId : Z) (regs : Z -> Z) (regMask : Z)
  | CallVideoSetReg (streamId registerId value : Z)
  | CallVideoFlush (streamId : Z)
  | CallDefineGMR2 (gmrId numPages : Z)
  | CallRemapGMR2 (gmrId flags offsetPages numPages : Z) (suffix : option (list Z)) (suffixSize : Z)
  | CallDefineScreen (screen : SVGAScreenObject)
  | CallDestroyScreen (screenId : Z)
  | CallDefineGMRFB (p : SVGAGuestPtr) (bytesPerLine format : Z)
  | CallBlitFromGMRFB (srcOrigin : SVGASignedPoint) (destRect : SVGASignedRect) (destScreen : Z)
  | CallBlitToGMRFB (destOrigin : SVGASignedPoint) (srcRect : SVGASignedRect) (srcScreen : Z)
  | CallAnnotateFill (color : Z)
  | CallAnnotateCopy (srcOrigin : SVGASignedPoint) (srcScreen : Z).

(** What the answers depend on beside the arguments: the FENCE capability, the
    number of the next fence and the size of the screen. *)
Record driver_view := View { v_fences : bool; v_next : Z; v_width : Z; v_height : Z }.

Definition view_of {HS} (d : dev HS) : driver_view :=
  View (has_bits (d.(fifo) SVGA_FIFO_CAPABILITIES) SVGA_FIFO_CAP_FENCE) d.(m_next_fence) d.(m_width) d.(m_height).

(** The answer, the next fence and the commands. *)
Definition outcome : Type := answer * Z * list svga_cmd.

Definition one (v : driver_view) (c : svga_cmd) : outcome := (Flag true, v.(v_next), [c]).
Definition none (v : driver_view) (b : bool) : outcome := (Flag b, v.(v_next), []).

(** The values of the registers [first .. first + n - 1], with their numbers. *)
Definition registers (regs : Z -> Z) (first n : Z) : list (Z * Z) := (fun i => (i, regs i)) <$> seqZ first n.

(** The overlay command: its name, its size in bytes, then stream, registers and values. *)
Definition set_regs_cmd (streamId : Z) (items : list (Z * Z)) : svga_cmd :=
  CmdEscape (mk_SVGAFifoCmdEscape 0 (8 + 8 * Z.of_nat (length items)))
    (0x00020001 :: streamId :: (items ≫= fun it => [it.1; it.2])).

Definition call_spec (v : driver_view) (c : svga_call) : outcome :=
  match c with
  | CallInsertFence =>
      if v.(v_fences) then
        let fence := if v.(v_next) =? 0 then 1 else v.(v_next) in
        (Fence fence, u32 (fence + 1), [CmdFence (mk_SVGAFifoCmdFence fence)])
      else (Fence 1, v.(v_next), [])
  | CallUpdateFramebuffer x y w h => one v (CmdUpdate (mk_SVGAFifoCmdUpdate x y w h))
  | CallUpdateFullscreen => one v (CmdUpdate (mk_SVGAFifoCmdUpdate 0 0 v.(v_width) v.(v_height)))
  | CallUpdateFramebuffer2 r => one v (CmdUpdate (mk_SVGAFifoCmdUpdate (r 0) (r 1) (r 2) (r 3)))
  | CallRectCopy r => one v (CmdRectCopy (mk_SVGAFifoCmdRectCopy (r 0) (r 1) (r 2) (r 3) (r 4) (r 5)))
  | CallRectFill color r =>
      one v (CmdFrontRopFill (mk_SVGAFifoCmdFrontRopFill color (r 0) (r 1) (r 2) (r 3) SVGA_ROP_COPY))
  | CallVideoSetRegsInRange s regs lo hi =>
      if hi <? lo then none v true else one v (set_regs_cmd s (registers regs lo (hi - lo + 1)))
  | CallVideoSetRegsWithMask s regs mask =>
      if mask =? 0 then none v true
      else one v (set_regs_cmd s (filter (fun it => Z.testbit mask it.1) (registers regs 0 32)))
  | CallVideoSetReg s r value => one v (set_regs_cmd s [(r, value)])
  | CallVideoFlush s => one v (CmdEscape (mk_SVGAFifoCmdEscape 0 8) [0x00020002; s])
  | CallDefineGMR2 gmrId n => one v (CmdDefineGMR2 (mk_SVGAFifoCmdDefineGMR2 gmrId n))
  | CallRemapGMR2 gmrId flags off n suffix size =>
      match suffix with
      | None => none v false
      | Some ws => one v (CmdRemapGMR2 (mk_SVGAFifoCmdRemapGMR2 gmrId flags off n) ws)
      end
  | CallDefineScreen screen =>
      let n := screen.(SVGAScreenObject_structSize) in
      one v (CmdDefineScreen n (take (Z.to_nat (n / 4 - 1)) (drop 1 (enc SVGAScreenObject_c screen))))
  | CallDestroyScreen id => one v (CmdDestroyScreen (mk_SVGAFifoCmdDestroyScreen id))
  | CallDefineGMRFB p bpl format => one v (CmdDefineGMRFB (mk_SVGAFifoCmdDefineGMRFB p bpl format))
  | CallBlitFromGMRFB o r id => one v (CmdBlitGMRFBToScreen (mk_SVGAFifoCmdBlitGMRFBToScreen o r id))
  | CallBlitToGMRFB o r id => one v (CmdBlitScreenToGMRFB (mk_SVGAFifoCmdBlitScreenToGMRFB o r id))
  | CallAnnotateFill color => one v (CmdAnnotationFill (mk_SVGAFifoCmdAnnotationFill color))
  | CallAnnotateCopy o id => one v (CmdAnnotationCopy (mk_SVGAFifoCmdAnnotationCopy o id))
  end.

(** The arguments are machine words, a page list has the length that the call
    announces and the flags imply (or is null with a size that is not zero), and
    a screen object has whole words up to its size. *)
Definition call_ok (c : svga_call) : Prop :=
  match c with
  | CallInsertFence | CallUpdateFullscreen => True
  | CallUpdateFramebuffer x y w h => Forall is_u32 [x; y; w; h]
  | CallUpdateFramebuffer2 r => Forall is_u32 (r <$> seqZ 0 4)
  | CallRectCopy r => Forall is_u32 (r <$> seqZ 0 6)
  | CallRectFill color r => is_u32 color /\ Forall is_u32 (r <$> seqZ 0 4)
  | CallVideoSetRegsInRange s regs lo hi => Forall is_u32 [s; lo; hi] /\ forall i, is_u32 (regs i)
  | CallVideoSetRegsWithMask s regs mask => Forall is_u32 [s; mask] /\ forall i, is_u32 (regs i)
  | CallVideoSetReg s r value => Forall is_u32 [s; r; value]
  | CallVideoFlush s => is_u32 s
  | CallDefineGMR2 gmrId n => Forall is_u32 [gmrId; n]
  | CallRemapGMR2 gmrId flags off n suffix size =>
      match suffix with
      | None => size <> 0
      | Some ws => Forall is_u32 [gmrId; flags; off; n] /\ Forall is_u32 ws /\ size = 4 * Z.of_nat (length ws) /\
          Z.of_nat (length ws) = remap_words (mk_SVGAFifoCmdRemapGMR2 gmrId flags off n)
      end
  | CallDefineScreen screen =>
      ok SVGAScreenObject_c screen /\
      exists n, 1 <= n <= csize SVGAScreenObject_c /\ screen.(SVGAScreenObject_structSize) = 4 * n
  | CallDestroyScreen id => is_u32 id
  | CallDefineGMRFB p bpl format => ok SVGAFifoCmdDefineGMRFB_c (mk_SVGAFifoCmdDefineGMRFB p bpl format)
  | CallBlitFromGMRFB o r id => ok SVGAFifoCmdBlitGMRFBToScreen_c (mk_SVGAFifoCmdBlitGMRFBToScreen o r id)
  | CallBlitToGMRFB o r id => ok SVGAFifoCmdBlitScreenToGMRFB_c (mk_SVGAFifoCmdBlitScreenToGMRFB o r id)
  | CallAnnotateFill color => ok SVGAFifoCmdAnnotationFill_c (mk_SVGAFifoCmdAnnotationFill color)
  | CallAnnotateCopy o id => ok SVGAFifoCmdAnnotationCopy_c (mk_SVGAFifoCmdAnnotationCopy o id)
  end.

(** A sequence: the answers, the next fence and the commands in order. *)
Definition with_next (v : driver_view) (nf : Z) : driver_view := View v.(v_fences) nf v.(v_width) v.(v_height).

Fixpoint stream_spec {C} (spec : driver_view -> C -> outcome) (v : driver_view) (cs : list C)
    : list answer * Z * list svga_cmd :=
  match cs with
  | [] => ([], v.(v_next), [])
  | c :: cs =>
      let '(a, nf, cmds) := spec v c in
      let '(l, nf', cmds') := stream_spec spec (with_next v nf) cs in
      (a :: l, nf', cmds ++ cmds')
  end.

(** ** The calls of SVGA3D.cpp *)

(** A method that begins a command comes with the lists that its caller stores. *)
Inductive svga3d_call :=
  | CallDefineSurface (sid flags format : Z) (faces : list SVGA3dSurfaceFace) (mips : list SVGA3dSize)
  | CallDestroySurface (sid : Z)
  | CallSurfaceDMA (guest : SVGA3dGuestImage) (host : SVGA3dSurfaceImageId) (transfer : Z) (boxes : list SVGA3dCopyBox)
  | CallSurfaceDMAwithSuffix (guest : SVGA3dGuestImage) (host : SVGA3dSurfaceImageId)
      (transfer maximumOffset flags : Z) (boxes : list SVGA3dCopyBox)
  | CallDefineContext (cid : Z)
  | CallDestroyContext (cid : Z)
  | CallSetRenderTarget (cid type : Z) (target : SVGA3dSurfaceImageId)
  | CallSetTransform (cid type : Z) (matrix : list Z)
  | CallSetMaterial (cid face : Z) (material : SVGA3dMaterial)
  | CallSetLightEnabled (cid index : Z) (enabled : bool)
  | CallSetLightData (cid index : Z) (data : SVGA3dLightData)
  | CallDefineShader (cid shid type : Z) (bytecode : list Z)
  | CallDestroyShader (cid shid type : Z)
  | CallSetShaderConst (cid reg type ctype : Z) (value : list Z)
  | CallSetShader (cid type shid : Z)
  | CallPresent (sid : Z) (rects : list SVGA3dCopyRect)
  | CallClear (cid flags color depth stencil : Z) (rects : list SVGA3dRect)
  | CallDrawPrimitives (cid : Z) (decls : list SVGA3dVertexDecl) (ranges : list SVGA3dPrimitiveRange)
  | CallSurfaceCopy (src dest : SVGA3dSurfaceImageId) (boxes : list SVGA3dCopyBox)
  | CallSurfaceStretchBlt (src dest : SVGA3dSurfaceImageId) (boxSrc boxDest : SVGA3dBox) (mode : Z)
  | CallSetViewport (cid : Z) (rect : SVGA3dRect)
  | CallSetScissorRect (cid : Z) (rect : SVGA3dRect)
  | CallSetZRange (cid zMin zMax : Z)
  | CallSetClipPlane (cid index : Z) (plane : list Z)
  | CallSetTextureState (cid : Z) (states : list SVGA3dTextureState)
  | CallSetRenderState (cid : Z) (states : list SVGA3dRenderState)
  | CallPresentReadback (rects : list SVGA3dRect)
  | CallBlitSurfaceToScreen (src : SVGA3dSurfaceImageId) (srcRect : SVGASignedRect) (screen : Z)
      (destRect : SVGASignedRect) (clipRects : list SVGASignedRect)
  | CallBeginQuery (cid qtype : Z)
  | CallEndQuery (cid qtype gmrid offset_in_gmr : Z)
  | CallWaitForQuery (cid qtype gmrid offset_in_gmr : Z).

(** The answer, and the command if one is sent. *)
Definition call3d_spec (c : svga3d_call) : answer * option svga3d_cmd :=
  match c with
  | CallDefineSurface sid flags format faces mips =>
      (Flag true, Some (SurfaceDefine (mk_SVGA3dCmdDefineSurface sid flags format faces) mips))
  | CallDestroySurface sid => (Flag true, Some (SurfaceDestroy (mk_SVGA3dCmdDestroySurface sid)))
  | CallSurfaceDMA guest host transfer boxes =>
      (Flag true, Some (SurfaceDMA (mk_SVGA3dCmdSurfaceDMA guest host transfer) boxes None))
  | CallSurfaceDMAwithSuffix guest host transfer maximumOffset flags boxes =>
      (Flag true, Some (SurfaceDMA (mk_SVGA3dCmdSurfaceDMA guest host transfer) boxes
                          (Some (mk_SVGA3dCmdSurfaceDMASuffix 12 maximumOffset flags))))
  | CallDefineContext cid => (Flag true, Some (ContextDefine (mk_SVGA3dCmdDefineContext cid)))
  | CallDestroyContext cid => (Flag true, Some (ContextDestroy (mk_SVGA3dCmdDestroyContext cid)))
  | CallSetRenderTarget cid type target =>
      (Flag true, Some (RenderTargetSet (mk_SVGA3dCmdSetRenderTarget cid type target)))
  | CallSetTransform cid type matrix => (Flag true, Some (TransformSet (mk_SVGA3dCmdSetTransform cid type matrix)))
  | CallSetMaterial cid face material => (Flag true, Some (MaterialSet (mk_SVGA3dCmdSetMaterial cid face material)))
  | CallSetLightEnabled cid index enabled =>
      (Flag true, Some (LightEnabledSet (mk_SVGA3dCmdSetLightEnabled cid index (Z.b2z enabled))))
  | CallSetLightData cid index data => (Flag true, Some (LightDataSet (mk_SVGA3dCmdSetLightData cid index data)))
  | CallDefineShader cid shid type bytecode =>
      (Code kIOReturnSuccess, Some (ShaderDefine (mk_SVGA3dCmdDefineShader cid shid type) bytecode))
  | CallDestroyShader cid shid type => (Flag true, Some (ShaderDestroy (mk_SVGA3dCmdDestroyShader cid shid type)))
  | CallSetShaderConst cid reg type ctype value =>
      if const_known ctype then
        (Code kIOReturnSuccess,
         Some (ShaderConstSet (mk_SVGA3dCmdSetShaderConst cid reg type ctype (const_values ctype value))))
      else (Code kIOReturnBadArgument, None)
  | CallSetShader cid type shid => (Flag true, Some (ShaderSet (mk_SVGA3dCmdSetShader cid type shid)))
  | CallPresent sid rects => (Flag true, Some (Present (mk_SVGA3dCmdPresent sid) rects))
  | CallClear cid flags color depth stencil rects =>
      (Flag true, Some (Clear (mk_SVGA3dCmdClear cid flags color depth stencil) rects))
  | CallDrawPrimitives cid decls ranges =>
      (Flag true, Some (DrawPrimitives (mk_SVGA3dCmdDrawPrimitives cid (Z.of_nat (length decls))
                                          (Z.of_nat (length ranges))) decls ranges))
  | CallSurfaceCopy src dest boxes => (Flag true, Some (SurfaceCopy (mk_SVGA3dCmdSurfaceCopy src dest) boxes))
  | CallSurfaceStretchBlt src dest boxSrc boxDest mode =>
      (Flag true, Some (SurfaceStretch (mk_SVGA3dCmdSurfaceStretchBlt src dest boxSrc boxDest mode)))
  | CallSetViewport cid rect => (Flag true, Some (ViewportSet (mk_SVGA3dCmdSetViewport cid rect)))
  | CallSetScissorRect cid rect => (Flag true, Some (ScissorRectSet (mk_SVGA3dCmdSetScissorRect cid rect)))
  | CallSetZRange cid zMin zMax =>
      (Flag true, Some (ZRangeSet (mk_SVGA3dCmdSetZRange cid (mk_SVGA3dZRange zMin zMax))))
  | CallSetClipPlane cid index plane => (Flag true, Some (ClipPlaneSet (mk_SVGA3dCmdSetClipPlane cid index plane)))
  | CallSetTextureState cid states => (Flag true, Some (TextureStateSet (mk_SVGA3dCmdSetTextureState cid) states))
  | CallSetRenderState cid states => (Flag true, Some (RenderStateSet (mk_SVGA3dCmdSetRenderState cid) states))
  | CallPresentReadback rects => (Flag true, Some (PresentReadback rects))
  | CallBlitSurfaceToScreen src srcRect screen destRect clipRects =>
      (Flag true, Some (BlitSurfaceToScreen (mk_SVGA3dCmdBlitSurfaceToScreen src srcRect screen destRect) clipRects))
  | CallBeginQuery cid qtype => (Flag true, Some (QueryBegin (mk_SVGA3dCmdBeginQuery cid qtype)))
  | CallEndQuery cid qtype gmrid off =>
      (Flag true, Some (QueryEnd (mk_SVGA3dCmdEndQuery cid qtype (mk_SVGAGuestPtr gmrid off))))
  | CallWaitForQuery cid qtype gmrid off =>
      (Flag true, Some (QueryWait (mk_SVGA3dCmdWaitForQuery cid qtype (mk_SVGAGuestPtr gmrid off))))
  end.

Definition call3d_outcome (v : driver_view) (c : svga3d_call) : outcome :=
  ((call3d_spec c).1, v.(v_next), match (call3d_spec c).2 with Some x => [cmd3d x] | None => [] end).

(** The fields of the command are machine words; a constant's array holds four. *)
Definition call3d_ok (c : svga3d_call) : Prop :=
  match (call3d_spec c).2 with Some x => ok3d x | None => True end /\
  match c with CallSetShaderConst _ _ _ _ value => (4 <= length value)%nat | _ => True end.

(** ** The methods that the calls run *)

Section run.
Context {HS : Type} `{SvgaHost HS}.
Local Abbreviation M := (M HS).

Definition flag (m : M bool) : M answer := b ← m; mret (Flag b).
Definition numbered (m : M Z) : M answer := f ← m; mret (Fence f).
Definition code (m : M IOReturn) : M answer := rc ← m; mret (Code rc).

Definition run_call (c : svga_call) : M answer :=
  match c with
  | CallInsertFence => numbered InsertFence
  | CallUpdateFramebuffer x y width height => flag (UpdateFramebuffer x y width height)
  | CallUpdateFullscreen => flag UpdateFullscreen
  | CallUpdateFramebuffer2 rect => flag (UpdateFramebuffer2 rect)
  | CallRectCopy copyRect => flag (RectCopy copyRect)
  | CallRectFill color rect => flag (RectFill color rect)
  | CallVideoSetRegsInRange streamId regs minReg maxReg => flag (VideoSetRegsInRange streamId regs minReg maxReg)
  | CallVideoSetRegsWithMask streamId regs regMask => flag (VideoSetRegsWithMask streamId regs regMask)
  | CallVideoSetReg streamId registerId value => flag (VideoSetReg streamId registerId value)
  | CallVideoFlush streamId => flag (VideoFlush streamId)
  | CallDefineGMR2 gmrId numPages => flag (defineGMR2 gmrId numPages)
  | CallRemapGMR2 gmrId flags offsetPages numPages suffix suffixSize =>
      flag (remapGMR2 gmrId flags offsetPages numPages suffix suffixSize)
  | CallDefineScreen screen => flag (DefineScreen screen)
  | CallDestroyScreen screenId => flag (DestroyScreen screenId)
  | CallDefineGMRFB p bytesPerLine format => flag (DefineGMRFB p bytesPerLine format)
  | CallBlitFromGMRFB srcOrigin destRect destScreen => flag (BlitFromGMRFB srcOrigin destRect destScreen)
  | CallBlitToGMRFB destOrigin srcRect srcScreen => flag (BlitToGMRFB destOrigin srcRect srcScreen)
  | CallAnnotateFill color => flag (AnnotateFill color)
  | CallAnnotateCopy srcOrigin srcScreen => flag (AnnotateCopy srcOrigin srcScreen)
  end.

(** The caller of a method that begins a command stores its list and commits. *)
Definition filled_with {A} (m : M (option ptr)) (c : coder A) (xs : list A) : M answer :=
  flag (complete m (fun p => store_words p 0 (xs ≫= enc c))).

Definition filled_both {A B} (m : M (option (ptr * ptr))) (c : coder A) (xs : list A) (e : coder B) (ys : list B)
    : M answer :=
  flag (complete m (fun '(p, q) => store_words p 0 (xs ≫= enc c);; store_words q 0 (ys ≫= enc e))).

Definition run_call3d (c : svga3d_call) : M answer :=
  match c with
  | CallDefineSurface sid flags format faces mips =>
      filled_both (BeginDefineSurface sid flags format (Z.of_nat (length mips))) SVGA3dSurfaceFace_c faces SVGA3dSize_c mips
  | CallDestroySurface sid => flag (DestroySurface sid)
  | CallSurfaceDMA guest host transfer boxes =>
      filled_with (BeginSurfaceDMA guest host transfer (Z.of_nat (length boxes))) SVGA3dCopyBox_c boxes
  | CallSurfaceDMAwithSuffix guest host transfer maximumOffset flags boxes =>
      filled_with (BeginSurfaceDMAwithSuffix guest host transfer (Z.of_nat (length boxes)) maximumOffset flags)
        SVGA3dCopyBox_c boxes
  | CallDefineContext cid => flag (DefineContext cid)
  | CallDestroyContext cid => flag (DestroyContext cid)
  | CallSetRenderTarget cid type target => flag (SetRenderTarget cid type target)
  | CallSetTransform cid type matrix => flag (SetTransform cid type matrix)
  | CallSetMaterial cid face material => flag (SetMaterial cid face material)
  | CallSetLightEnabled cid index enabled => flag (SetLightEnabled cid index enabled)
  | CallSetLightData cid index data => flag (SetLightData cid index data)
  | CallDefineShader cid shid type bytecode =>
      code (DefineShader cid shid type bytecode (4 * Z.of_nat (length bytecode)))
  | CallDestroyShader cid shid type => flag (DestroyShader cid shid type)
  | CallSetShaderConst cid reg type ctype value => code (SetShaderConst cid reg type ctype value)
  | CallSetShader cid type shid => flag (SetShader cid type shid)
  | CallPresent sid rects => filled_with (BeginPresent sid (Z.of_nat (length rects))) SVGA3dCopyRect_c rects
  | CallClear cid flags color depth stencil rects =>
      filled_with (BeginClear cid flags color depth stencil (Z.of_nat (length rects))) SVGA3dRect_c rects
  | CallDrawPrimitives cid decls ranges =>
      filled_both (BeginDrawPrimitives cid (Z.of_nat (length decls)) (Z.of_nat (length ranges)))
        SVGA3dVertexDecl_c decls SVGA3dPrimitiveRange_c ranges
  | CallSurfaceCopy src dest boxes =>
      filled_with (BeginSurfaceCopy src dest (Z.of_nat (length boxes))) SVGA3dCopyBox_c boxes
  | CallSurfaceStretchBlt src dest boxSrc boxDest mode => flag (SurfaceStretchBlt src dest boxSrc boxDest mode)
  | CallSetViewport cid rect => flag (SetViewport cid rect)
  | CallSetScissorRect cid rect => flag (SetScissorRect cid rect)
  | CallSetZRange cid zMin zMax => flag (SetZRange cid zMin zMax)
  | CallSetClipPlane cid index plane => flag (SetClipPlane cid index plane)
  | CallSetTextureState cid states =>
      filled_with (BeginSetTextureState cid (Z.of_nat (length states))) SVGA3dTextureState_c states
  | CallSetRenderState cid states =>
      filled_with (BeginSetRenderState cid (Z.of_nat (length states))) SVGA3dRenderState_c states
  | CallPresentReadback rects => filled_with (BeginPresentReadback (Z.of_nat (length rects))) SVGA3dRect_c rects
  | CallBlitSurfaceToScreen src srcRect screen destRect clipRects =>
      filled_with (BeginBlitSurfaceToScreen src srcRect screen destRect (Z.of_nat (length clipRects)))
        SVGASignedRect_c clipRects
  | CallBeginQuery cid qtype => flag (BeginQuery cid qtype)
  | CallEndQuery cid qtype gmrid offset_in_gmr => flag (EndQuery cid qtype gmrid offset_in_gmr)
  | CallWaitForQuery cid qtype gmrid offset_in_gmr => flag (WaitForQuery cid qtype gmrid offset_in_gmr)
  end.

Fixpoint run_stream {C} (run : C -> M answer) (cs : list C) : M (list answer) :=
  match cs with
  | [] => mret []
  | c :: cs => a ← run c; l ← run_stream run cs; mret (a :: l)
  end.
End run.

(** ** One call *)

(** The register list of the loop is the one of the specification. *)
Lemma range_items_registers regs lo n : 0 <= lo -> lo + Z.of_nat n <= 2 ^ 32 ->
  range_items regs 0 lo n = registers regs lo (Z.of_nat n).
Proof.
  intros H0 Hn. unfold range_items, registers. replace (seqZ lo (Z.of_nat n)) with (seqZ (lo + 0) (Z.of_nat n)) by (f_equal; lia).
  rewrite <-(fmap_add_seqZ lo 0), <-list_fmap_compose.
  apply list_fmap_ext. intros k i Hi%lookup_seqZ. unfold compose.
  rewrite wrap_small by (unfold fits; lia). by replace (i + lo) with (lo + i) by lia.
Qed.

Lemma mask_items_registers regs n : forall x i,
  mask_items n x i regs = filter (fun it => Z.testbit x (it.1 - i)) (registers regs i (Z.of_nat n)).
Proof.
  induction n as [|n IH]; intros x i; [done|]. cbn [mask_items]. unfold registers.
  rewrite seqZ_cons by lia. replace (Z.pred (Z.of_nat (S n))) with (Z.of_nat n) by lia. csimpl.
  rewrite filter_cons. cbn [fst]. rewrite Z.sub_diag, IH.
  assert (forall l, Forall (fun it => i < it.1) l ->
    filter (fun it : Z * Z => Z.testbit (Z.shiftr x 1) (it.1 - (i + 1))) l = filter (fun it => Z.testbit x (it.1 - i)) l) as E.
  { induction 1 as [|it l Hit _ IHl]; [done|]. rewrite !filter_cons, IHl, Z.shiftr_spec by lia.
    by replace (it.1 - (i + 1) + 1) with (it.1 - i) by lia. }
  unfold registers. rewrite <-Z.add_1_r, E;
    [change (Z.testbit x 0) with (Z.odd x); by destruct (Z.odd x)|].
  apply Forall_fmap, Forall_seqZ. intros j Hj. simpl. lia.
Qed.

(** The words of a call, from [call_ok]. *)
Ltac words :=
  cbn [call_ok] in *;
  repeat match goal with
  | K : context [?r <$> seqZ 0 4] |- _ => change (r <$> seqZ 0 4) with [r 0; r 1; r 2; r 3] in K
  | K : context [?r <$> seqZ 0 6] |- _ => change (r <$> seqZ 0 6) with [r 0; r 1; r 2; r 3; r 4; r 5] in K
  | K : Forall _ (_ :: _) |- _ => apply Forall_cons_1 in K as [? K]
  end;
  cbn; repeat split; first [assumption|done|unfold fits in *; lia].

Section stream.
Context {HS : Type} `{SvgaHostOK HS}.
Implicit Types (d : dev HS).

(** [m] does what [o] says. *)
Definition yields (m : M HS answer) d (o : outcome) : Prop := produces m d o.1.1 o.1.2 (o.2 ≫= encode_cmd).

Definition fits_ring d (cmds : list svga_cmd) : Prop :=
  Forall (fun c => room d (Z.of_nat (length (encode_cmd c)))) cmds.

Lemma fits_one d c : fits_ring d [c] -> room d (Z.of_nat (length (encode_cmd c))).
Proof. unfold fits_ring. by rewrite Forall_singleton. Qed.

Lemma yields_one (m : M HS bool) c d : Queues m c -> idle d -> fits_ring d [c] ->
  yields (flag m) d (one (view_of d) c).
Proof.
  intros Hq Hi Hr%fits_one. unfold yields. csimpl. rewrite app_nil_r.
  apply (produces_then _ Flag _ true), produces_emits; [done|]. by apply Hq.
Qed.

Lemma yields_emits (m : M HS bool) c d : emits m d true (encode_cmd c) -> idle d ->
  yields (flag m) d (one (view_of d) c).
Proof.
  intros Hq Hi. unfold yields. csimpl. rewrite app_nil_r.
  by apply (produces_then _ Flag _ true), produces_emits.
Qed.

Lemma yields_none (m : M HS bool) b d : idle d -> (forall fuel, m fuel d = Some (b, d)) ->
  yields (flag m) d (none (view_of d) b).
Proof.
  intros Hi Hm. unfold yields. apply (produces_then _ Flag _ b). intros fuel Hf. rewrite Hm.
  by apply (produces_ret b d Hi fuel).
Qed.

Lemma InsertFence_yields d : idle d -> fits_ring d (call_spec (view_of d) CallInsertFence).2 ->
  yields (numbered InsertFence) d (call_spec (view_of d) CallInsertFence).
Proof.
  intros Hi. unfold yields. cbn [call_spec view_of v_fences v_next].
  destruct (has_bits _ _) eqn:Ec; csimpl; intros Hr.
  - apply fits_one in Hr. apply (produces_then _ Fence). by apply produces_fence.
  - apply (produces_then _ Fence _ 1). intros fuel Hf. destruct (produces_ret 1 d Hi fuel Hf) as (d' & E & Ha).
    exists d'. split; [|done]. rewrite <-E. unfold InsertFence.
    rewrite (mbind_eq _ _ fuel d false d); [done|].
    cbv [HasFIFOCap mbind M_bind getf gets mret M_ret]. by rewrite Ec.
Qed.

Lemma video_yields (m : M HS bool) s items d : emits m d true (encode_cmd (video_cmd s items)) -> idle d ->
  yields (flag m) d (one (view_of d) (set_regs_cmd s items)).
Proof. intros Hm. by apply (yields_emits m (set_regs_cmd s items)). Qed.

Lemma room_video d s items : fits_ring d [set_regs_cmd s items] -> room d (5 + 2 * Z.of_nat (length items)).
Proof.
  intros Hr%fits_one. cbn [set_regs_cmd encode_cmd length] in Hr. rewrite length_app in Hr. simpl in Hr.
  pose proof (length_flat items) as El. unfold flat in El.
  by replace (5 + 2 * Z.of_nat (length items)) with (Z.of_nat (S (S (S (S (S (length
    (items ≫= fun it => [it.1; it.2]))))))))  by lia.
Qed.

Lemma in_range_yields s regs lo hi d : idle d -> is_u32 lo -> is_u32 hi ->
  fits_ring d (call_spec (view_of d) (CallVideoSetRegsInRange s regs lo hi)).2 ->
  yields (flag (VideoSetRegsInRange s regs lo hi)) d (call_spec (view_of d) (CallVideoSetRegsInRange s regs lo hi)).
Proof.
  intros Hi Hlo Hhi Hr. cbn [call_spec] in *. destruct (Z.ltb_spec hi lo) as [Hlt|Hge].
  - apply yields_none; [done|]. intros fuel. unfold VideoSetRegsInRange. by destruct (Z.ltb_spec hi lo); [|lia].
  - apply room_video in Hr. unfold registers in Hr. rewrite length_fmap, length_seqZ, Z2Nat.id in Hr by lia.
    apply video_yields; [|done].
    pose proof (VideoSetRegsInRange_emits s regs lo hi d Hi Hlo Hhi Hge Hr) as E. cbv zeta in E.
    unfold fits in *. rewrite range_items_registers, Z2Nat.id in E by lia. done.
Qed.

Lemma with_mask_yields s regs mask d : idle d -> is_u32 mask ->
  fits_ring d (call_spec (view_of d) (CallVideoSetRegsWithMask s regs mask)).2 ->
  yields (flag (VideoSetRegsWithMask s regs mask)) d (call_spec (view_of d) (CallVideoSetRegsWithMask s regs mask)).
Proof.
  intros Hi Hm Hr. cbn [call_spec] in *. destruct (Z.eqb_spec mask 0) as [->|Hne]; [by apply yields_none|].
  assert (filter (fun it => Z.testbit mask it.1) (registers regs 0 32) = mask_items 32 mask 0 regs) as E.
  { rewrite (mask_items_registers regs 32). apply list_filter_iff. intros it. by rewrite Z.sub_0_r. }
  rewrite E in *. apply room_video in Hr. apply video_yields; [|done]. apply VideoSetRegsWithMask_emits; [done..|].
  by rewrite count_bits_popcount, <-(length_mask_items 32 mask 0 regs).
Qed.

Lemma remap_yields g f o n suffix size d : idle d -> call_ok (CallRemapGMR2 g f o n suffix size) ->
  fits_ring d (call_spec (view_of d) (CallRemapGMR2 g f o n suffix size)).2 ->
  yields (flag (remapGMR2 g f o n suffix size)) d (call_spec (view_of d) (CallRemapGMR2 g f o n suffix size)).
Proof.
  intros Hi Hok Hr. cbn [call_spec call_ok] in *. destruct suffix as [ws|].
  - destruct Hok as (_ & _ & -> & _). by apply yields_one; [apply remapGMR2_queues|..].
  - apply yields_none; [done|]. intros fuel. unfold remapGMR2. by destruct (Z.eqb_spec size 0).
Qed.

Lemma screen_yields screen d : idle d -> call_ok (CallDefineScreen screen) ->
  fits_ring d (call_spec (view_of d) (CallDefineScreen screen)).2 ->
  yields (flag (DefineScreen screen)) d (call_spec (view_of d) (CallDefineScreen screen)).
Proof.
  intros Hi (Hs & n & Hn & E) Hr. cbn [call_spec] in *. rewrite E in *.
  replace (4 * n / 4) with n in * by (rewrite Z.mul_comm, Z.div_mul; lia).
  apply yields_one; [by apply DefineScreen_queues|done..].
Qed.

Lemma UpdateFullscreen_yields d : idle d -> is_u32 d.(m_width) -> is_u32 d.(m_height) ->
  fits_ring d (call_spec (view_of d) CallUpdateFullscreen).2 ->
  yields (flag UpdateFullscreen) d (call_spec (view_of d) CallUpdateFullscreen).
Proof.
  intros Hi Hw Hh Hr. apply yields_emits; [|exact Hi]. intros fuel Hf. apply fits_one in Hr.
  assert (ok SVGAFifoCmdUpdate_c (mk_SVGAFifoCmdUpdate 0 0 d.(m_width) d.(m_height))) as Hok by words.
  destruct (UpdateFramebuffer_queues 0 0 d.(m_width) d.(m_height) Hok d Hi Hr fuel Hf) as (d' & E & Hc).
  exists d'. split; [|exact Hc]. rewrite <-E. unfold UpdateFullscreen, UpdateFramebuffer.
  rewrite (mbind_eq _ _ fuel d d.(m_width) d eq_refl), (mbind_eq _ _ fuel d d.(m_height) d eq_refl). reflexivity.
Qed.

Lemma run_call_yields c d : idle d -> call_ok c /\ is_u32 d.(m_width) /\ is_u32 d.(m_height) ->
  fits_ring d (call_spec (view_of d) c).2 -> yields (run_call c) d (call_spec (view_of d) c).
Proof.
  intros Hi (Hok & Hw & Hh) Hr. destruct c; cbn [run_call].
  - by apply InsertFence_yields.
  - apply yields_one; [|exact Hi|exact Hr]. apply UpdateFramebuffer_queues. words.
  - apply UpdateFullscreen_yields; [exact Hi|exact Hw|exact Hh|exact Hr].
  - apply yields_one; [|exact Hi|exact Hr]. apply UpdateFramebuffer2_queues. words.
  - apply yields_one; [|exact Hi|exact Hr]. apply RectCopy_queues. words.
  - destruct Hok as [Hc Hok]. apply yields_one; [|exact Hi|exact Hr]. apply RectFill_queues. words.
  - destruct Hok as [Hok _]. apply in_range_yields; [exact Hi|words|words|exact Hr].
  - destruct Hok as [Hok _]. apply with_mask_yields; [exact Hi|words|exact Hr].
  - apply video_yields; [|exact Hi]. apply VideoSetReg_emits; [exact Hi|]. exact (room_video _ _ _ Hr).
  - apply yields_one; [|exact Hi|exact Hr]. apply VideoFlush_queues.
  - apply yields_one; [|exact Hi|exact Hr]. apply defineGMR2_queues. words.
  - by apply remap_yields.
  - by apply screen_yields.
  - apply yields_one; [|exact Hi|exact Hr]. apply DestroyScreen_queues. words.
  - apply yields_one; [|exact Hi|exact Hr]. by apply DefineGMRFB_queues.
  - apply yields_one; [|exact Hi|exact Hr]. by apply BlitFromGMRFB_queues.
  - apply yields_one; [|exact Hi|exact Hr]. by apply BlitToGMRFB_queues.
  - apply yields_one; [|exact Hi|exact Hr]. by apply AnnotateFill_queues.
  - apply yields_one; [|exact Hi|exact Hr]. by apply AnnotateCopy_queues.
Qed.

(** *** The calls of SVGA3D.cpp *)

Lemma yields3d (m : M HS bool) x d : Queues m (cmd3d x) -> idle d -> fits_ring d [cmd3d x] ->
  produces (flag m) d (Flag true) d.(m_next_fence) ([cmd3d x] ≫= encode_cmd).
Proof. apply (yields_one m (cmd3d x)). Qed.

Lemma DefineShader_yields cid shid type bytecode d :
  let c := CallDefineShader cid shid type bytecode in
  idle d -> call3d_ok c -> fits_ring d (call3d_outcome (view_of d) c).2 ->
  yields (run_call3d c) d (call3d_outcome (view_of d) c).
Proof.
  intros c Hi [Hok _] Hr%fits_one. unfold yields, c. csimpl. rewrite app_nil_r.
  apply (produces_then _ Code _ kIOReturnSuccess), produces_emits; [done|]. by apply DefineShader_emits.
Qed.

Lemma SetShaderConst_yields cid reg type ctype value d :
  let c := CallSetShaderConst cid reg type ctype value in
  idle d -> room d 10 -> call3d_ok c -> yields (run_call3d c) d (call3d_outcome (view_of d) c).
Proof.
  intros c Hi Hr [_ Hl]. unfold yields, c, call3d_outcome. cbn [call3d_spec run_call3d].
  pose proof (produces_emits _ d _ _ Hi (SetShaderConst_emits cid reg type ctype value d Hl Hi Hr)) as Hm.
  destruct (const_known ctype); csimpl; rewrite ?app_nil_r; by apply (produces_then _ Code).
Qed.

(** A refused constant reserves its command before it is refused. *)
Definition const_room d (c : svga3d_call) : Prop :=
  match c with CallSetShaderConst _ _ _ _ _ => room d 10 | _ => True end.

Lemma run_call3d_yields c d : idle d -> call3d_ok c /\ const_room d c ->
  fits_ring d (call3d_outcome (view_of d) c).2 -> yields (run_call3d c) d (call3d_outcome (view_of d) c).
Proof.
  intros Hi [Hok Hc] Hr. destruct c;
    try (apply yields3d; [|exact Hi|exact Hr]; destruct Hok as [Hok _]; cbn [call3d_spec snd] in Hok).
  - exact (BeginDefineSurface_queues _ _ _ _ _ Hok).
  - exact (DestroySurface_queues _ Hok).
  - exact (BeginSurfaceDMA_queues _ _ _ _ Hok).
  - exact (BeginSurfaceDMAwithSuffix_queues _ _ _ _ _ _ Hok).
  - exact (DefineContext_queues _ Hok).
  - exact (DestroyContext_queues _ Hok).
  - exact (SetRenderTarget_queues _ _ _ Hok).
  - pose proof (SetTransform_queues cid type matrix) as Hq. cbv zeta in Hq.
    rewrite take_ge in Hq; [exact (Hq Hok)|]. cbn in Hok. lia.
  - exact (SetMaterial_queues _ _ _ Hok).
  - exact (SetLightEnabled_queues _ _ _ Hok).
  - exact (SetLightData_queues _ _ _ Hok).
  - by apply DefineShader_yields.
  - exact (DestroyShader_queues _ _ _ Hok).
  - by apply SetShaderConst_yields.
  - exact (SetShader_queues _ _ _ Hok).
  - exact (BeginPresent_queues _ _ Hok).
  - exact (BeginClear_queues _ _ _ _ _ _ Hok).
  - exact (BeginDrawPrimitives_queues _ _ _ Hok).
  - exact (BeginSurfaceCopy_queues _ _ _ Hok).
  - exact (SurfaceStretchBlt_queues _ _ _ _ _ Hok).
  - exact (SetViewport_queues _ _ Hok).
  - exact (SetScissorRect_queues _ _ Hok).
  - exact (SetZRange_queues _ _ _ Hok).
  - pose proof (SetClipPlane_queues cid index plane) as Hq. cbv zeta in Hq.
    rewrite take_ge in Hq; [exact (Hq Hok)|]. cbn in Hok. lia.
  - exact (BeginSetTextureState_queues _ _ Hok).
  - exact (BeginSetRenderState_queues _ _ Hok).
  - exact (BeginPresentReadback_queues _ Hok).
  - exact (BeginBlitSurfaceToScreen_queues _ _ _ _ _ Hok).
  - exact (BeginQuery_queues _ _ Hok).
  - exact (EndQuery_queues _ _ _ _ Hok).
  - exact (WaitForQuery_queues _ _ _ _ Hok).
Qed.

(** *** Sequences *)

Lemma view_advances d d' nf ws : advances d d' nf ws -> view_of d' = with_next (view_of d) nf.
Proof.
  intros Ha. pose proof (advances_frame _ _ _ _ Ha) as [Ew Eh]. destruct Ha as [En (_ & [Hf _] & _)].
  unfold view_of, with_next. cbn [v_fences v_width v_height]. rewrite En, Ew, Eh.
  rewrite (Hf SVGA_FIFO_CAPABILITIES) by (cbn; lia). done.
Qed.

Lemma fits_ring_advances d d' nf ws cmds : advances d d' nf ws -> fits_ring d cmds -> fits_ring d' cmds.
Proof. intros Ha. apply Forall_impl. intros c. by apply (advances_room _ _ _ _ _ Ha). Qed.

(** Calls of any kind: [good] is what a call needs, and lasts. *)
Section calls.
Context {C : Type} (run : C -> M HS answer) (spec : driver_view -> C -> outcome) (good : dev HS -> C -> Prop).
Hypothesis good_advances : forall d d' nf ws c, advances d d' nf ws -> good d c -> good d' c.
Hypothesis run_yields : forall c d, idle d -> good d c -> fits_ring d (spec (view_of d) c).2 ->
  yields (run c) d (spec (view_of d) c).

Lemma run_stream_produces cs : forall d, idle d -> Forall (good d) cs ->
  let o := stream_spec spec (view_of d) cs in
  fits_ring d o.2 -> produces (run_stream run cs) d o.1.1 o.1.2 (o.2 ≫= encode_cmd).
Proof.
  induction cs as [|c cs IH]; intros d Hi Hg o Hr; [by apply produces_ret|].
  apply Forall_cons_1 in Hg as [Hg1 Hg]. unfold o in *. clear o. cbn [run_stream stream_spec] in *.
  pose proof (run_yields c d Hi Hg1) as Hy. unfold yields in Hy.
  destruct (spec (view_of d) c) as [[a nf] cmds]. cbn [fst snd] in *.
  destruct (stream_spec spec (with_next (view_of d) nf) cs) as [[l nf'] cmds'] eqn:E. cbn [fst snd] in *.
  apply Forall_app in Hr as [Hr1 Hr2]. rewrite bind_app. eapply produces_bind; [exact (Hy Hr1)|].
  intros d' Ha. apply (produces_then _ (cons a)). pose proof Ha as [_ (Hi' & _)].
  specialize (IH d' Hi'). rewrite (view_advances _ _ _ _ Ha), E in IH. apply IH.
  - eapply Forall_impl; [|exact Hg]. intros x. by eapply good_advances.
  - by eapply fits_ring_advances.
Qed.
End calls.
End stream.

(** ** The commands of the specification are well formed *)

Definition view_ok (v : driver_view) : Prop := is_u32 v.(v_next) /\ is_u32 v.(v_width) /\ is_u32 v.(v_height).

Definition short (c : svga_cmd) : Prop := Z.of_nat (length (encode_cmd c)) <= 0x4000.

Lemma set_regs_ok s items : is_u32 s -> Forall (fun it => is_u32 it.1 /\ is_u32 it.2) items ->
  short (set_regs_cmd s items) -> cmd_ok (set_regs_cmd s items).
Proof.
  intros Hs Hit Hl. unfold short in Hl. cbn [set_regs_cmd encode_cmd length cmd_ok] in *.
  rewrite length_app in Hl. pose proof (length_flat items) as El. unfold flat in El. simpl in Hl.
  split; [cbn; range_solve|]. split.
  - unfold escape_words. cbn [SVGAFifoCmdEscape_size length].
    replace (8 + 8 * Z.of_nat (length items) + 3) with (3 + (2 + 2 * Z.of_nat (length items)) * 4) by lia.
    rewrite Z.div_add by lia. change (3 / 4) with 0. lia.
  - forall_list; [range_solve|done|]. clear -Hit.
    induction Hit as [|it l [? ?] _ IH]; csimpl; [done|]. by forall_list.
Qed.

Lemma registers_ok regs lo n : 0 <= lo -> lo + n <= 2 ^ 32 -> (forall i, is_u32 (regs i)) ->
  Forall (fun it => is_u32 it.1 /\ is_u32 it.2) (registers regs lo n).
Proof.
  intros H0 Hn Hr. unfold registers. apply Forall_fmap, Forall_seqZ. intros i Hi. split; [|apply Hr].
  unfold fits. simpl. lia.
Qed.

Lemma call_cmds_ok v c : view_ok v -> call_ok c -> Forall short (call_spec v c).2 ->
  Forall cmd_ok (call_spec v c).2 /\ is_u32 (call_spec v c).1.2.
Proof.
  intros (Hn & Hw & Hh) Hok. destruct c; cbn [call_spec]; intros Hs;
    repeat match goal with |- context [if ?b then _ else _] => destruct b eqn:? end;
    try match goal with o : option _ |- _ => destruct o end;
    (split; [|first [exact Hn|apply wrap_range; lia]]); cbn [snd one none] in *; try apply Forall_nil_2;
    apply Forall_cons_1 in Hs as [Hs _]; apply Forall_singleton; try exact Hok; try (words; fail).
  - destruct Hok as [? Hok]. words.
  - destruct Hok as [Hok Hr]. apply set_regs_ok; [words| |exact Hs].
    repeat match goal with K : Forall _ (_ :: _) |- _ => apply Forall_cons_1 in K as [? K] end. unfold fits in *.
    apply registers_ok; [lia..|exact Hr].
  - destruct Hok as [Hok Hr]. apply set_regs_ok; [words| |exact Hs].
    apply list.Forall_forall. intros it [_ Hit]%list_elem_of_filter. revert it Hit. apply list.Forall_forall.
    apply registers_ok; [lia..|exact Hr].
  - apply set_regs_ok; [words| |exact Hs]. forall_list. words.
  - split; [cbn; range_solve|]. split; [done|]. forall_list; [range_solve|exact Hok].
  - destruct Hok as (Ha & Hl & _ & El). split; [words|]. by split.
  - destruct Hok as (Ha & n & Hn' & E). cbn [cmd_ok]. rewrite E. pose proof (enc_size _ _ Ha) as El.
    assert (csize SVGAScreenObject_c <= 0x100) by (vm_compute; discriminate).
    replace (4 * n / 4) with n by (rewrite Z.mul_comm, Z.div_mul; lia). split; [unfold fits; lia|]. split.
    + rewrite length_take, length_drop. lia.
    + apply Forall_take, Forall_drop, enc_u32, Ha.
Qed.

Lemma stream_cmds_ok cs : forall v, view_ok v -> Forall call_ok cs -> Forall short (stream_spec call_spec v cs).2 ->
  Forall cmd_ok (stream_spec call_spec v cs).2.
Proof.
  induction cs as [|c cs IH]; intros v Hv Hok Hs; [apply Forall_nil_2|].
  apply Forall_cons_1 in Hok as [Hc Hok]. cbn [stream_spec] in *. pose proof (call_cmds_ok v c Hv Hc) as Hcmd.
  destruct (call_spec v c) as [[a nf] cmds]. specialize (IH (with_next v nf)).
  destruct (stream_spec call_spec (with_next v nf) cs) as [[l nf'] cmds']. cbn [fst snd] in *.
  apply Forall_app in Hs as [Hs1 Hs2]. destruct (Hcmd Hs1) as [Hc1 Hn]. apply Forall_app. split; [exact Hc1|].
  destruct Hv as [_ Hv]. by apply IH.
Qed.

(** The 3D commands of the specification, in order. *)
Definition sent3d (cs : list svga3d_call) : list svga3d_cmd := omap (fun c => (call3d_spec c).2) cs.

Lemma stream3d_spec cs : forall v,
  stream_spec call3d_outcome v cs = ((fun c => (call3d_spec c).1) <$> cs, v.(v_next), cmd3d <$> sent3d cs).
Proof.
  induction cs as [|c cs IH]; intros v; [done|]. cbn [stream_spec call3d_outcome]. rewrite IH.
  unfold sent3d. csimpl. by destruct (call3d_spec c).2.
Qed.

(** ** Properties *)

Section properties.
Context {HS : Type} `{SvgaHostOK HS}.
Implicit Types (d : dev HS).

Lemma fits_ring_short d cmds : fits_ring d cmds -> Forall short cmds.
Proof. apply Forall_impl. intros c [[_ Hn] _]. exact Hn. Qed.


(** C32: the stream of 3D commands.  Take any sequence of calls of the
    methods of SVGA3D.cpp, where a method that begins a command counts together
    with its caller's stores of the announced lists and the commit, with
    arguments that are machine words, on an idle device with an empty queue
    whose ring and bounce buffer have room for each command.  All calls return
    the answer of [call3d_spec]: success, or kIOReturnBadArgument for a shader
    constant of an unknown type.  The device reads from the queue exactly the
    commands of [call3d_spec], in the order of the calls, each with exactly the
    lists that its caller stored, and nothing for a refused constant. *)
Theorem driver_stream3d_decodes fuel (calls : list svga3d_call) d :
  idle d -> queue d.(fifo) = [] -> Forall call3d_ok calls ->
  fits_ring d (cmd3d <$> sent3d calls) -> Forall (const_room d) calls ->
  (Z.to_nat (rsize d.(fifo)) <= fuel)%nat ->
  exists d' consumed cmds,
    run_stream run_call3d calls fuel d = Some ((fun c => (call3d_spec c).1) <$> calls, d') /\ idle d' /\
    decode_cmds (length (sent3d calls)) (consumed ++ queue d'.(fifo)) = Some cmds /\
    mapM decode_3d cmds = Some (sent3d calls).
Proof.
  intros Hi He Hok Hr Hc Hf.
  pose proof (run_stream_produces run_call3d call3d_outcome (fun d c => call3d_ok c /\ const_room d c)) as Hrun.
  specialize (Hrun ltac:(intros d1 d2 nf ws [] Ha [? Hcr]; (split; [done|]); try done;
    exact (advances_room _ _ _ _ _ Ha Hcr)) run_call3d_yields calls d Hi).
  rewrite stream3d_spec in Hrun. cbn [fst snd] in Hrun.
  destruct (Hrun ltac:(apply list.Forall_and; by split) Hr fuel Hf) as (d' & E & _ & Hi' & _ & pre & Hq).
  assert (Forall ok3d (sent3d calls)) as Ho.
  { apply list.Forall_forall. intros x (c & Hin & Ex)%list_elem_of_omap.
    rewrite list.Forall_forall in Hok. destruct (Hok c Hin) as [Hx _]. by rewrite Ex in Hx. }
  exists d', pre, (cmd3d <$> sent3d calls). do 2 (split; [done|]). split.
  - rewrite Hq. change (queue (fifo (set_next_fence _ d))) with (queue d.(fifo)). rewrite He.
    apply decode_cmds_encode; [|by rewrite length_fmap]. apply Forall_fmap, list.Forall_forall. intros x Hx.
    rewrite list.Forall_forall in Ho. apply cmd3d_ok; [by apply Ho|]. unfold fits_ring in Hr.
    rewrite list.Forall_forall in Hr. destruct (Hr (cmd3d x)) as [[_ Hn] _]; [by apply list_elem_of_fmap_2|]. cbn [encode_cmd cmd3d length] in Hn. lia.
  - apply mapM_fmap_Forall_Some. eapply Forall_impl; [|exact Ho]. apply decode_3d_cmd3d.
Qed.
End properties.

(** ** The hypotheses can be met: the concrete device *)

Definition demo_calls : list svga_call :=
  [CallUpdateFramebuffer 0 0 640 480; CallInsertFence; CallUpdateFullscreen;
   CallVideoSetRegsWithMask 2 (fun _ => 7) 0x12; CallRemapGMR2 1 0 0 16 None 4; CallDefineGMR2 1 16; CallInsertFence].

Definition demo_cmds : list svga_cmd :=
  [CmdUpdate (mk_SVGAFifoCmdUpdate 0 0 640 480); CmdFence (mk_SVGAFifoCmdFence 1);
   CmdUpdate (mk_SVGAFifoCmdUpdate 0 0 demo_dev.(m_width) demo_dev.(m_height));
   CmdEscape (mk_SVGAFifoCmdEscape 0 24) [0x20001; 2; 1; 7; 4; 7];
   CmdDefineGMR2 (mk_SVGAFifoCmdDefineGMR2 1 16); CmdFence (mk_SVGAFifoCmdFence 2)].

Definition demo_answers : list answer :=
  [Flag true; Fence 1; Flag true; Flag true; Flag false; Flag true; Fence 2].

Lemma demo_spec : stream_spec call_spec (view_of demo_dev) demo_calls = (demo_answers, 3, demo_cmds).
Proof. vm_compute. reflexivity. Qed.


Definition demo3d_calls : list svga3d_call :=
  [CallDefineContext 1;
   CallDefineSurface 5 0 2 (mk_SVGA3dSurfaceFace 1 :: replicate 5 (mk_SVGA3dSurfaceFace 0)) [mk_SVGA3dSize 64 32 1];
   CallSetShaderConst 1 2 1 9 [1; 2; 3; 4];
   CallClear 1 7 0 0x3F800000 0 [mk_SVGA3dRect 0 0 640 480]].

Lemma driver_stream3d_decodes_witness : exists d' consumed cmds,
  run_stream run_call3d demo3d_calls (Z.to_nat 4096) demo_dev =
    Some ([Flag true; Flag true; Code kIOReturnBadArgument; Flag true], d') /\ idle d' /\
  decode_cmds 3 (consumed ++ queue d'.(fifo)) = Some cmds /\
  mapM decode_3d cmds =
    Some [ContextDefine (mk_SVGA3dCmdDefineContext 1);
          SurfaceDefine (mk_SVGA3dCmdDefineSurface 5 0 2
            (mk_SVGA3dSurfaceFace 1 :: replicate 5 (mk_SVGA3dSurfaceFace 0))) [mk_SVGA3dSize 64 32 1];
          Clear (mk_SVGA3dCmdClear 1 7 0 0x3F800000 0) [mk_SVGA3dRect 0 0 640 480]].
Proof.
  apply (driver_stream3d_decodes (Z.to_nat 4096) demo3d_calls demo_dev).
  - exact demo_idle.
  - reflexivity.
  - unfold demo3d_calls. forall_list; (split; [|simpl; lia]); cbn; range_solve; forall_list; cbn; range_solve.
  - unfold fits_ring, demo3d_calls. cbn [sent3d omap list_omap call3d_spec snd fmap list_fmap].
    change (const_known 9) with false. cbv iota. repeat (apply Forall_cons_2; [apply demo_room; simpl; lia|]). apply Forall_nil_2.
  - unfold demo3d_calls. forall_list; cbn [const_room]; first [exact I|apply demo_room; lia].
  - change (fifo demo_dev) with demo_fifo. by rewrite demo_rsize.
Defined.
