(* ===== verification/AccelSpec.v ===== *)
(** What the accelerator promises to its user clients: the sequence of device commands
    that each of its operations stands for, and the refinement theorem that any
    sequence of operations sends exactly these commands. *)

From S2P Require Import Prelude IOKit Layout SvgaReg SvgaCmd Fifo Ring FifoProofs SvgaDevice Bits.
From S2P Require Import DeviceProofs Driver Svga3dReg Svga3d Svga3dProofs AccelIds AccelBlit Accel AccelProofs.

(** ** Operations *)

Inductive accel_op :=
  | OpRectCopy (rects : list IOBlitCopyRectangle)
  | OpRectFill (color : Z) (rects : list IOBlitRectangle)
  | OpUpdate (rect : option (Z -> Z))
  | OpCopyRegion (garbage : bool) (destX destY : Z) (rgn : option IOAccelDeviceRegion) (regionSize : Z)
  | OpCreateSurface (sid flags format width height : Z)
  | OpDestroySurface (sid : Z)
  | OpSurfaceDMA2D (sid transfer : Z) (rgn : option IOAccelDeviceRegion) (extra : option ExtraInfo) (fence : bool)
  | OpSurfaceCopy (src dst : Z) (rgn : option IOAccelDeviceRegion) (extra : option ExtraInfo)
  | OpSurfaceStretch (src dst mode : Z) (src_rect dest_rect : IOAccelBounds)
  | OpPresent (sid : Z) (rgn : option IOAccelDeviceRegion) (extra : option ExtraInfo)
  | OpReadback (rgn : option IOAccelDeviceRegion)
  | OpSetRenderTarget (cid rtype sid : Z)
  | OpClear (cid flags : Z) (rgn : option IOAccelDeviceRegion) (color depth stencil : Z)
  | OpCreateContext (cid : Z)
  | OpDestroyContext (cid : Z)
  | OpDraw (cid : Z) (decls : list SVGA3dVertexDecl) (ranges : list SVGA3dPrimitiveRange)
  | OpTextureState (cid : Z) (states : list SVGA3dTextureState)
  | OpRenderState (cid : Z) (states : list SVGA3dRenderState)
  | OpSurfaceDMA3D (image : SVGA3dSurfaceImageId) (transfer : Z) (box : option SVGA3dCopyBox) (extra : option ExtraInfoEx)
      (fence : bool)
  | OpPrimaryScreen (width height : Z)
  | OpBlitFromScreen (screen : Z) (rgn : option IOAccelDeviceRegion) (extra : option ExtraInfo) (fence : bool)
  | OpBlitToScreen (screen : Z) (rgn : option IOAccelDeviceRegion) (extra : option ExtraInfo) (fence : bool)
  | OpBlitSurface (sid screen : Z) (src_rect : IOAccelBounds) (rgn : IOAccelDeviceRegion)
  | OpVideoSetReg (streamId registerId value : Z) (fence : bool)
  | OpVideoSetRegs (streamId : Z) (regs : option (Z -> Z)) (regMin regMax : Z) (fence : bool).

Section exec.
Context {HS : Type} `{SvgaHost HS}.

(** The methods, with the results of all of them: a code, a fence, the object. *)
Definition code_only (a : Accel) (m : M HS IOReturn) : M HS (IOReturn * option Z * Accel) := r ← m; mret (r, None, a).
Definition code_fence (a : Accel) (m : M HS (IOReturn * option Z)) : M HS (IOReturn * option Z * Accel) := r ← m; mret (r, a).
Definition code_accel (m : M HS (IOReturn * Accel)) : M HS (IOReturn * option Z * Accel) := r ← m; mret (r.1, None, r.2).

Definition exec_op (a : Accel) (op : accel_op) : M HS (IOReturn * option Z * Accel) :=
  match op with
  | OpRectCopy rects => code_only a (RectCopy false a rects)
  | OpRectFill color rects => code_only a (RectFill a color rects)
  | OpUpdate rect => code_only a (UpdateFramebufferAutoRing a rect)
  | OpCopyRegion garbage destX destY rgn regionSize => code_only a (CopyRegion garbage a destX destY rgn regionSize)
  | OpCreateSurface sid flags format width height => code_only a (createSurface a sid flags format width height)
  | OpDestroySurface sid => code_only a (destroySurface a sid)
  | OpSurfaceDMA2D sid transfer rgn extra fence => code_fence a (surfaceDMA2D a sid transfer rgn extra fence)
  | OpSurfaceCopy src dst rgn extra => code_only a (surfaceCopy a src dst rgn extra)
  | OpSurfaceStretch src dst mode src_rect dest_rect => code_only a (surfaceStretch a src dst mode src_rect dest_rect)
  | OpPresent sid rgn extra => code_accel (surfacePresentAutoSync a sid rgn extra)
  | OpReadback rgn => code_only a (surfacePresentReadback a rgn)
  | OpSetRenderTarget cid rtype sid => code_only a (setRenderTarget a cid rtype sid)
  | OpClear cid flags rgn color depth stencil => code_only a (clear a cid flags rgn color depth stencil)
  | OpCreateContext cid => code_only a (createContext a cid)
  | OpDestroyContext cid => code_only a (destroyContext a cid)
  | OpDraw cid decls ranges => code_only a (drawPrimitives a cid decls ranges)
  | OpTextureState cid states => code_only a (setTextureState a cid states)
  | OpRenderState cid states => code_only a (setRenderState a cid states)
  | OpSurfaceDMA3D image transfer box extra fence => code_fence a (surfaceDMA3DEx a image transfer box extra fence)
  | OpPrimaryScreen width height => code_accel (createPrimaryScreen a width height)
  | OpBlitFromScreen screen rgn extra fence => code_fence a (blitFromScreen a screen rgn extra fence)
  | OpBlitToScreen screen rgn extra fence => code_fence a (blitToScreen a screen rgn extra fence)
  | OpBlitSurface sid screen src_rect rgn => code_only a (blitSurfaceToScreen a sid screen src_rect rgn)
  | OpVideoSetReg streamId registerId value fence => code_fence a (VideoSetReg a streamId registerId value fence)
  | OpVideoSetRegs streamId regs regMin regMax fence => code_fence a (VideoSetRegsInRange a streamId regs regMin regMax fence)
  end.

(** Operations in sequence; the results in order and the final object. *)
Fixpoint run_accel (a : Accel) (ops : list accel_op) : M HS (list (IOReturn * option Z) * Accel) :=
  match ops with
  | [] => mret ([], a)
  | op :: ops => r ← exec_op a op; rs ← run_accel r.2 ops; mret (r.1 :: rs.1, rs.2)
  end.
End exec.

(** ** Their meaning *)

(** A command of the device, 2D or 3D. *)
Inductive acmd := In2D (c : svga_cmd) | In3D (c : svga3d_cmd).

Definition to_cmd (c : acmd) : svga_cmd := match c with In2D c => c | In3D c => cmd3d c end.
Definition acmd_ok (c : acmd) : Prop :=
  match c with In2D (Cmd3D _ _) => False | In2D c => cmd_ok c | In3D c => ok3d c end.
(** The device's reading of a command. *)
Definition of_cmd (c : svga_cmd) : option acmd :=
  match c with Cmd3D _ _ => In3D <$> decode_3d c | _ => Some (In2D c) end.

(** Commands, result, object and next fence. *)
Record outcome := mk_outcome { o_cmds : list acmd; o_result : IOReturn * option Z; o_accel : Accel; o_next : Z }.

Definition refused (a : Accel) (nf : Z) (rc : IOReturn) : outcome := mk_outcome [] (rc, None) a nf.
Definition sends (a : Accel) (nf : Z) (cmds : list acmd) : outcome := mk_outcome cmds (kIOReturnSuccess, None) a nf.
Definition sends_fence (fence : bool) (a : Accel) (nf : Z) (cmds : list acmd) : outcome :=
  if fence then
    mk_outcome (cmds ++ [In2D (fence_cmd nf)]) (kIOReturnSuccess, Some (fence_no nf)) a (u32 (fence_no nf + 1))
  else sends a nf cmds.

Definition guest_image (extra : ExtraInfo) : SVGA3dGuestImage :=
  mk_SVGA3dGuestImage (gmrfb_ptr extra) (u32 extra.(mem_pitch)).
Definition guest_image_ex (extra : ExtraInfoEx) : SVGA3dGuestImage :=
  mk_SVGA3dGuestImage (mk_SVGAGuestPtr extra.(ex_mem_gmr_id) (u32 extra.(ex_mem_offset_in_gmr))) (u32 extra.(ex_mem_pitch)).
(** The corner of a rectangle, moved. *)
Definition origin (r : IOAccelBounds) (delta : SVGASignedPoint) : SVGASignedPoint :=
  mk_SVGASignedPoint (s32 (r.(b_x) + delta.(SVGASignedPoint_x))) (s32 (r.(b_y) + delta.(SVGASignedPoint_y))).
Definition blit_from (screen : Z) (extra : ExtraInfo) (r : IOAccelBounds) : acmd :=
  In2D (CmdBlitScreenToGMRFB (mk_SVGAFifoCmdBlitScreenToGMRFB (origin r (dst_delta extra))
    (convert_rect r (Some (src_delta extra))) screen)).
Definition blit_to (screen : Z) (extra : ExtraInfo) (r : IOAccelBounds) : acmd :=
  In2D (CmdBlitGMRFBToScreen (mk_SVGAFifoCmdBlitGMRFBToScreen (origin r (src_delta extra))
    (convert_rect r (Some (dst_delta extra))) screen)).
Definition gmrfb (extra : ExtraInfo) : acmd :=
  In2D (CmdDefineGMRFB (mk_SVGAFifoCmdDefineGMRFB (gmrfb_ptr extra) (u32 extra.(mem_pitch)) gmrfb_format)).
(** The primary screen: eleven words, of which the first is their size. *)
Definition primary_screen (width height : Z) : acmd :=
  In2D (CmdDefineScreen 44 [0; 3; width; height; 0; 0; GMR_VRAM; 0; u32 (Z.land (u64 (width * 4 + 7)) (u64 (-8))); 0]).

Definition video_flush (streamId : Z) : acmd :=
  In2D (CmdEscape (mk_SVGAFifoCmdEscape SVGA_ESCAPE_NSID_CECL 8) [SVGA_ESCAPE_CECL_VIDEO_FLUSH; streamId]).
(** The registers of a range; no command for an empty one. *)
Definition video_regs (streamId : Z) (regs : option (Z -> Z)) (regMin regMax : Z) : list acmd :=
  match regs with
  | Some regs =>
      if regMax <? regMin then [] else [In2D (video_cmd streamId (range_items regs 0 regMin (Z.to_nat (regMax - regMin + 1))))]
  | None => []
  end.

(** A copy on the screen to the given place. *)
Definition copy_cmd (x y : Z) (r : IOAccelBounds) : svga_cmd :=
  CmdRectCopy (mk_SVGAFifoCmdRectCopy (u32 r.(b_x)) (u32 r.(b_y)) (u32 x) (u32 y) (u32 r.(b_w)) (u32 r.(b_h))).

Definition accel_spec (a : Accel) (nf : Z) (op : accel_op) : outcome :=
  let with3d o := if a.(bHaveSVGA3D) then o else refused a nf kIOReturnNoDevice in
  let with_screen o := if a.(bHaveScreenObject) then o else refused a nf kIOReturnNoDevice in
  let with_fb o := if a.(m_framebuffer) then o else refused a nf kIOReturnNoDevice in
  match op with
  | OpRectCopy [] | OpRectFill _ [] | OpUpdate None | OpSurfaceDMA2D _ _ _ None _ | OpSurfaceCopy _ _ _ None
  | OpPresent _ _ None | OpSurfaceDMA3D _ _ None _ _ | OpSurfaceDMA3D _ _ _ None _ | OpBlitFromScreen _ _ None _
  | OpBlitToScreen _ _ None _ | OpCopyRegion _ _ _ None _ => refused a nf kIOReturnBadArgument
  | OpRectCopy rects =>
      if HaveFrontBuffer a then sends a nf []
      else with_fb (sends a nf
        ((fun r => In2D (CmdRectCopy (mk_SVGAFifoCmdRectCopy (u32 r.(cr_sourceX)) (u32 r.(cr_sourceY)) (u32 r.(cr_x))
                                       (u32 r.(cr_y)) (u32 r.(cr_width)) (u32 r.(cr_height))))) <$> rects))
  | OpRectFill color rects =>
      with_fb (sends a nf
        ((fun r => In2D (CmdFrontRopFill (mk_SVGAFifoCmdFrontRopFill color (u32 r.(r_x)) (u32 r.(r_y)) (u32 r.(r_width))
                                           (u32 r.(r_height)) SVGA_ROP_COPY))) <$> rects))
  | OpUpdate (Some rect) =>
      if HaveFrontBuffer a then sends a nf []
      else with_fb (sends a nf [In2D (CmdUpdate (mk_SVGAFifoCmdUpdate (rect 0) (rect 1) (rect 2) (rect 3)))])
  | OpCopyRegion garbage destX destY (Some rgn) regionSize =>
      let b := rgn.(rgn_bounds) in
      if regionSize <? 12 + 8 * rgn.(rgn_num_rects) then refused a nf kIOReturnBadArgument
      else if HaveFrontBuffer a then sends a nf []
      else with_fb
        (if negb (Z.land a.(ce1_options_ac) CE1_OPTION_AC_REGION_BOUNDS_COPY =? 0) then sends a nf [In2D (copy_cmd destX destY b)]
         else match rects_of (Some rgn) with
              | [] => refused a nf (if garbage then kIOReturnSuccess else kIOReturnNoMemory)
              | rects => sends a nf ((fun r => In2D (copy_cmd (r.(b_x) + (destX - b.(b_x))) (r.(b_y) + (destY - b.(b_y))) r)) <$> rects)
              end)
  | OpCreateSurface sid flags format width height =>
      with3d (sends a nf [In3D (SurfaceDefine (mk_SVGA3dCmdDefineSurface sid flags format
        (mk_SVGA3dSurfaceFace 1 :: replicate 5 (mk_SVGA3dSurfaceFace 0))) [mk_SVGA3dSize width height 1])])
  | OpDestroySurface sid => with3d (sends a nf [In3D (SurfaceDestroy (mk_SVGA3dCmdDestroySurface sid))])
  | OpSurfaceDMA2D sid transfer rgn (Some extra) fence =>
      with3d (sends_fence fence a nf
        [In3D (SurfaceDMA (mk_SVGA3dCmdSurfaceDMA (guest_image extra) (image0 sid) transfer)
                 (copy_box extra <$> rects_of rgn) None)])
  | OpSurfaceCopy src dst rgn (Some extra) =>
      with3d (sends a nf
        [In3D (SurfaceCopy (mk_SVGA3dCmdSurfaceCopy (image0 src) (image0 dst)) (copy_box extra <$> rects_of rgn))])
  | OpSurfaceStretch src dst mode src_rect dest_rect =>
      with3d (sends a nf
        [In3D (SurfaceStretch (mk_SVGA3dCmdSurfaceStretchBlt (image0 src) (image0 dst) (box_of src_rect) (box_of dest_rect) mode))])
  | OpPresent sid rgn (Some extra) =>
      with3d (mk_outcome [In3D (Present (mk_SVGA3dCmdPresent sid) (copy_rect3d extra <$> rects_of rgn)); In2D (fence_cmd nf)]
        (kIOReturnSuccess, None)
        (set_present_tracker (tracker_after AUTO_SYNC_PRESENT_FENCE_COUNT (fence_no nf) a.(m_present_tracker)) a)
        (u32 (fence_no nf + 1)))
  | OpReadback rgn => with3d (sends a nf [In3D (PresentReadback (rect3d <$> rects_of rgn))])
  | OpSetRenderTarget cid rtype sid =>
      with3d (sends a nf [In3D (RenderTargetSet (mk_SVGA3dCmdSetRenderTarget cid rtype (image0 sid)))])
  | OpClear cid flags rgn color depth stencil =>
      with3d (sends a nf [In3D (Clear (mk_SVGA3dCmdClear cid flags color depth stencil) (rect3d <$> rects_of rgn))])
  | OpCreateContext cid => with3d (sends a nf [In3D (ContextDefine (mk_SVGA3dCmdDefineContext cid))])
  | OpDestroyContext cid => with3d (sends a nf [In3D (ContextDestroy (mk_SVGA3dCmdDestroyContext cid))])
  | OpDraw cid decls ranges =>
      with3d (sends a nf [In3D (DrawPrimitives (mk_SVGA3dCmdDrawPrimitives cid (Z.of_nat (length decls))
        (Z.of_nat (length ranges))) decls ranges)])
  | OpTextureState cid states => with3d (sends a nf [In3D (TextureStateSet (mk_SVGA3dCmdSetTextureState cid) states)])
  | OpRenderState cid states => with3d (sends a nf [In3D (RenderStateSet (mk_SVGA3dCmdSetRenderState cid) states)])
  | OpSurfaceDMA3D image transfer (Some box) (Some extra) fence =>
      with3d (sends_fence fence a nf
        [In3D (SurfaceDMA (mk_SVGA3dCmdSurfaceDMA (guest_image_ex extra) image transfer) [box]
                 (Some (mk_SVGA3dCmdSurfaceDMASuffix 12 (u32 extra.(ex_mem_limit)) extra.(ex_suffix_flags))))])
  | OpPrimaryScreen width height =>
      with_screen
        (if (width =? a.(m_primary_screen_w)) && (height =? a.(m_primary_screen_h)) then sends a nf []
         else mk_outcome [primary_screen width height] (kIOReturnSuccess, None) (set_primary_screen width height a) nf)
  | OpBlitFromScreen screen rgn (Some extra) fence =>
      with_screen (sends_fence fence a nf (gmrfb extra :: (blit_from screen extra <$> rects_of rgn)))
  | OpBlitToScreen screen rgn (Some extra) fence =>
      with_screen (sends_fence fence a nf (gmrfb extra :: (blit_to screen extra <$> rects_of rgn)))
  | OpBlitSurface sid screen src_rect rgn =>
      let dest := convert_rect rgn.(rgn_bounds) None in
      let shift := mk_SVGASignedPoint (s32 (- dest.(SVGASignedRect_left))) (s32 (- dest.(SVGASignedRect_top))) in
      with_screen (sends a nf
        [In3D (BlitSurfaceToScreen (mk_SVGA3dCmdBlitSurfaceToScreen (image0 sid) (convert_rect src_rect None) screen dest)
                 ((fun r => convert_rect r (Some shift)) <$> rects_of (Some rgn)))])
  | OpVideoSetReg streamId registerId value fence =>
      with_fb (sends_fence fence a nf
        [In2D (video_cmd streamId [(registerId, value)]); video_flush streamId])
  | OpVideoSetRegs streamId regs regMin regMax fence =>
      with_fb (sends_fence fence a nf (video_regs streamId regs regMin regMax ++ [video_flush streamId]))
  end.

(** Outcomes in sequence: the commands, the results and the final object. *)
Fixpoint accel_specs (a : Accel) (nf : Z) (ops : list accel_op) : list acmd * (list (IOReturn * option Z) * Accel) * Z :=
  match ops with
  | [] => ([], ([], a), nf)
  | op :: ops =>
      let o := accel_spec a nf op in
      let '(cmds, (rs, a'), nf') := accel_specs o.(o_accel) o.(o_next) ops in
      (o.(o_cmds) ++ cmds, (o.(o_result) :: rs, a'), nf')
  end.

(** The regions have the number of rectangles that they say. *)
Definition region_ok (rgn : option IOAccelDeviceRegion) : Prop := num_rects rgn = Z.of_nat (length (rects_of rgn)).
Definition op_ok (op : accel_op) : Prop :=
  match op with
  | OpSurfaceDMA2D _ _ rgn _ _ | OpSurfaceCopy _ _ rgn _ | OpPresent _ rgn _ | OpReadback rgn | OpClear _ _ rgn _ _ _
  | OpBlitFromScreen _ rgn _ _ | OpBlitToScreen _ rgn _ _ => region_ok rgn
  | OpBlitSurface _ _ _ rgn => region_ok (Some rgn)
  | OpVideoSetRegs _ _ regMin regMax _ => is_u32 regMin /\ is_u32 regMax
  | _ => True
  end.

(** ** Every operation means what it says *)

Definition words_of (cmds : list acmd) : list Z := cmds ≫= (fun c => encode_cmd (to_cmd c)).

Lemma words_of_app l l' : words_of (l ++ l') = words_of l ++ words_of l'.
Proof. apply bind_app. Qed.

Lemma words_of_cons c l : words_of (c :: l) = encode_cmd (to_cmd c) ++ words_of l.
Proof. done. Qed.

Lemma words_of_one c : words_of [c] = encode_cmd (to_cmd c).
Proof. apply app_nil_r. Qed.

Lemma list_bind_to_cmd cmds : (to_cmd <$> cmds) ≫= encode_cmd = words_of cmds.
Proof. induction cmds as [|c cmds IH]; [done|]. rewrite words_of_cons, <-IH. done. Qed.

Section proofs.
Context {HS : Type} `{SvgaHostOK HS}.
Implicit Types (d : dev HS).

(** There is room for each command. *)
Definition rooms d (cmds : list acmd) : Prop :=
  Forall (fun c => room d (Z.of_nat (length (encode_cmd (to_cmd c))))) cmds.

(** [m] does what the outcome [o] says. *)
Definition implements {R} (m : M HS R) d (r : R) (o : outcome) : Prop :=
  produces m d r o.(o_next) (words_of o.(o_cmds)).

Lemma refused_produces {R} (r : R) d a rc : idle d -> implements (mret r) d r (refused a d.(m_next_fence) rc).
Proof. intros. by apply produces_ret. Qed.

Lemma queues_produces (m : M HS bool) c d : Queues m c -> idle d -> room d (Z.of_nat (length (encode_cmd c))) ->
  produces m d true d.(m_next_fence) (encode_cmd c).
Proof. intros Hq Hi Hr. apply produces_emits; [done|]. by apply Hq. Qed.

Lemma produces_seq {A B} (m : M HS A) (k : M HS B) d a b nf nf' ws ws' :
  produces m d a nf ws -> (forall d', advances d d' nf ws -> produces k d' b nf' ws') ->
  produces (m;; k) d b nf' (ws ++ ws').
Proof. intros. by eapply produces_bind. Qed.

Lemma mbind_cong {A B} (m m' : M HS A) (k : A -> M HS B) fuel d : m fuel d = m' fuel d -> (m ≫= k) fuel d = (m' ≫= k) fuel d.
Proof. intros E. unfold mbind, M_bind. by rewrite E. Qed.

Lemma produces_silent {A B} (m : M HS A) (k : M HS B) d a b nf nf' ws :
  produces m d a nf [] -> (forall d', advances d d' nf [] -> produces k d' b nf' ws) -> produces (m;; k) d b nf' ws.
Proof. intros Hm Hk. exact (produces_seq m k d a b nf nf' [] ws Hm Hk). Qed.

(** One command and a code. *)
Lemma sends_queues (m : M HS bool) c a d : Queues m (to_cmd c) -> idle d -> rooms d [c] ->
  implements (code_only a (m;; mret kIOReturnSuccess)) d (kIOReturnSuccess, None, a) (sends a d.(m_next_fence) [c]).
Proof.
  intros Hq Hi Hr. apply Forall_cons_1 in Hr as [Hr _]. unfold implements. cbn [o_cmds sends o_next]. rewrite words_of_one.
  apply (produces_then _ (fun r => (r, None, a))), (produces_then _ (fun _ => kIOReturnSuccess) _ true).
  by apply queues_produces.
Qed.

Lemma sends_filled {B} (m : M HS (option B)) (fill : B -> M HS unit) c a d :
  emits (complete m fill) d true (encode_cmd (cmd3d c)) -> idle d ->
  implements (code_only a (filled m fill kIOReturnSuccess (mret kIOReturnSuccess))) d (kIOReturnSuccess, None, a)
    (sends a d.(m_next_fence) [In3D c]).
Proof.
  intros Hq Hi. unfold implements. cbn [o_cmds sends o_next]. rewrite words_of_one.
  apply (produces_then _ (fun r => (r, None, a))). by apply filled_only.
Qed.

Definition fence_words (fence : bool) (nf : Z) : list Z := if fence then encode_cmd (fence_cmd nf) else [].

Lemma fence_if_produces (fence : bool) d : ready d -> room d 2 \/ fence = false ->
  produces (fence_if fence) d (if fence then Some (fence_no d.(m_next_fence)) else None)
    (if fence then u32 (fence_no d.(m_next_fence) + 1) else d.(m_next_fence)) (fence_words fence d.(m_next_fence)).
Proof.
  intros Hd [Hr| ->]; [|apply produces_ret, Hd]. destruct fence; [|apply produces_ret, Hd].
  by apply (produces_then _ Some), produces_fence.
Qed.

Lemma sends_fence_words fence a nf cmds :
  words_of (sends_fence fence a nf cmds).(o_cmds) = words_of cmds ++ fence_words fence nf.
Proof. destruct fence; cbn; [by rewrite words_of_app|by rewrite app_nil_r]. Qed.

Lemma sends_fence_rooms fence a nf cmds d :
  rooms d (sends_fence fence a nf cmds).(o_cmds) -> rooms d cmds /\ (room d 2 \/ fence = false).
Proof.
  unfold rooms. destruct fence; cbn; [|auto]. rewrite Forall_app. intros [Hr Hf].
  apply Forall_cons_1 in Hf as [Hf _]. auto.
Qed.

(** A tail that inserts the fence and may ring the bell. *)
Lemma fence_tail (fence : bool) (bell : M HS unit) a d ws0 d0 :
  ready d0 -> advances d0 d d0.(m_next_fence) ws0 -> room d0 2 \/ fence = false ->
  (forall d, idle d -> produces bell d tt d.(m_next_fence) []) ->
  produces (f ← fence_if fence; bell;; mret (kIOReturnSuccess, f)) d (sends_fence fence a d0.(m_next_fence) []).(o_result)
    (sends_fence fence a d0.(m_next_fence) []).(o_next) (fence_words fence d0.(m_next_fence)).
Proof.
  intros Hd Ha Hr Hb. pose proof (advances_ready _ _ _ _ Ha Hd) as Hd'. destruct Ha as [En Hc].
  assert (room d 2 \/ fence = false) as Hr'.
  { destruct Hr as [Hr|]; [left|by right]. eapply advances_room; [by split|done]. }
  rewrite <-(app_nil_r (fence_words _ _)), <-En. eapply produces_bind; [by apply fence_if_produces|].
  intros d1 Ha1. pose proof (advances_ready _ _ _ _ Ha1 Hd') as Hd1. destruct Ha1 as [En1 _].
  eapply produces_silent; [apply Hb, Hd1|].
  intros d2 [En2 Hc2]. rewrite En1 in En2.
  replace (o_next _) with (d2.(m_next_fence)) by (rewrite En2; by destruct fence).
  replace (o_result _) with (kIOReturnSuccess, if fence then Some (fence_no d.(m_next_fence)) else None) by by destruct fence.
  apply produces_ret, Hc2.
Qed.

Lemma filled_fence {B} (m : M HS (option B)) (fill : B -> M HS unit) c fence a d :
  emits (complete m fill) d true (encode_cmd (cmd3d c)) -> ready d ->
  rooms d (sends_fence fence a d.(m_next_fence) [In3D c]).(o_cmds) ->
  let o := sends_fence fence a d.(m_next_fence) [In3D c] in
  implements (code_fence a (filled m fill (kIOReturnSuccess, None) (f ← fence_if fence; mret (kIOReturnSuccess, f)))) d
    (o.(o_result), a) o.
Proof.
  intros Hq Hd Hr o. apply sends_fence_rooms in Hr as [_ Hr]. unfold implements, o.
  rewrite sends_fence_words. apply (produces_then _ (fun r => (r, a))).
  rewrite words_of_one.
  replace (o_next _) with (o_next (sends_fence fence a d.(m_next_fence) [])) by by destruct fence.
  replace (o_result _) with (o_result (sends_fence fence a d.(m_next_fence) [])) by by destruct fence.
  apply filled_produces; [apply Hd|done|]. intros d' Ha fuel Hf.
  destruct (fence_tail fence skip a d' _ d Hd Ha Hr ltac:(intros; by apply produces_ret) fuel Hf) as (d2 & E & Ha2).
  exists d2. split; [|done]. rewrite <-E. apply mbind_ext. intros f d3.
  by rewrite (mbind_eq _ _ fuel d3 tt d3 eq_refl).
Qed.

(** *** Loops of commands *)

Lemma for_rects_produces (m : IOAccelBounds -> M HS bool) c rs : (forall r, r ∈ rs -> Queues (m r) (c r)) -> forall i d,
  idle d -> Forall (fun r => room d (Z.of_nat (length (encode_cmd (c r))))) rs ->
  produces (for_rects (fun _ r => m r;; skip) i rs) d tt d.(m_next_fence) (rs ≫= (fun r => encode_cmd (c r))).
Proof.
  induction rs as [|r rs IH]; intros Hq i d Hi Hr; cbn [for_rects]; [by apply produces_ret|].
  apply Forall_cons_1 in Hr as [Hr1 Hr]. csimpl. apply (produces_seq _ _ d tt tt d.(m_next_fence)).
  - apply (produces_then _ (fun _ => tt) _ true), queues_produces; [|done..]. apply Hq. left.
  - intros d1 Ha. pose proof Ha as [<- Hc]. apply IH; [|apply Hc|].
    + intros x Hx. apply Hq. by right.
    + eapply Forall_impl; [|exact Hr]. intros x. by apply (advances_room _ _ _ _ _ Ha).
Qed.

Lemma until_fails_produces {R} (m : R -> M HS bool) c rs : (forall r, r ∈ rs -> Queues (m r) (c r)) -> forall d,
  idle d -> Forall (fun r => room d (Z.of_nat (length (encode_cmd (c r))))) rs ->
  produces (until_fails true (m <$> rs)) d true d.(m_next_fence) (rs ≫= (fun r => encode_cmd (c r))).
Proof.
  induction rs as [|r rs IH]; intros Hq d Hi Hr; cbn [until_fails fmap list_fmap]; [by apply produces_ret|].
  apply Forall_cons_1 in Hr as [Hr1 Hr]. csimpl. eapply produces_bind.
  - apply queues_produces; [|done..]. apply Hq. left.
  - intros d1 Ha. cbn [negb]. pose proof Ha as [<- Hc]. apply IH; [|apply Hc|].
    + intros x Hx. apply Hq. by right.
    + eapply Forall_impl; [|exact Hr]. intros x. by apply (advances_room _ _ _ _ _ Ha).
Qed.

Lemma words_of_fmap {R} (c : R -> svga_cmd) rs : words_of ((fun r => In2D (c r)) <$> rs) = rs ≫= (fun r => encode_cmd (c r)).
Proof. unfold words_of. induction rs as [|r rs IH]; [done|]. csimpl. by rewrite IH. Qed.

Lemma rooms_fmap {R} (c : R -> svga_cmd) rs d : rooms d ((fun r => In2D (c r)) <$> rs) ->
  Forall (fun r => room d (Z.of_nat (length (encode_cmd (c r))))) rs.
Proof. unfold rooms. rewrite Forall_fmap. done. Qed.

(** *** The 2D context *)

Lemma copy_words_queues r : Queues (HS := HS) (SvgaDevice.RectCopy (copy_words r))
  (CmdRectCopy (mk_SVGAFifoCmdRectCopy (u32 r.(cr_sourceX)) (u32 r.(cr_sourceY)) (u32 r.(cr_x)) (u32 r.(cr_y))
                  (u32 r.(cr_width)) (u32 r.(cr_height)))).
Proof.
  assert (ok SVGAFifoCmdRectCopy_c (mk_SVGAFifoCmdRectCopy (u32 r.(cr_sourceX)) (u32 r.(cr_sourceY)) (u32 r.(cr_x))
    (u32 r.(cr_y)) (u32 r.(cr_width)) (u32 r.(cr_height)))) as Hok by (cbn; repeat split; try apply wrap_range; lia).
  exact (RectCopy_queues (copy_words r) Hok).
Qed.

Lemma copy_cmd_queues x y r : Queues (HS := HS) (SvgaDevice.RectCopy (copy_rect r.(b_x) r.(b_y) x y r.(b_w) r.(b_h))) (copy_cmd x y r).
Proof.
  assert (ok SVGAFifoCmdRectCopy_c (mk_SVGAFifoCmdRectCopy (u32 r.(b_x)) (u32 r.(b_y)) (u32 x) (u32 y) (u32 r.(b_w)) (u32 r.(b_h)))) as Hok
    by (cbn; repeat split; try apply wrap_range; lia).
  exact (RectCopy_queues (copy_rect r.(b_x) r.(b_y) x y r.(b_w) r.(b_h)) Hok).
Qed.

Lemma rect_words_queues color r : is_u32 color -> Queues (HS := HS) (SvgaDevice.RectFill color (rect_words r))
  (CmdFrontRopFill (mk_SVGAFifoCmdFrontRopFill color (u32 r.(r_x)) (u32 r.(r_y)) (u32 r.(r_width)) (u32 r.(r_height))
                      SVGA_ROP_COPY)).
Proof.
  intros Hc. assert (ok SVGAFifoCmdFrontRopFill_c (mk_SVGAFifoCmdFrontRopFill color (u32 r.(r_x)) (u32 r.(r_y))
    (u32 r.(r_width)) (u32 r.(r_height)) SVGA_ROP_COPY)) as Hok
    by (cbn; repeat match goal with |- _ /\ _ => split end; try apply wrap_range; try done; range_solve).
  exact (RectFill_queues color (rect_words r) Hok).
Qed.

(** With a front buffer, copies are skipped. *)
Lemma while_copy_success a rects fuel d : HaveFrontBuffer a = true ->
  while_success ((fun rect => CopyRegion false a rect.(cr_x) rect.(cr_y)
     (Some (set_region1 rect.(cr_sourceX) rect.(cr_sourceY) rect.(cr_width) rect.(cr_height))) (12 + 8)) <$> rects) fuel d =
  Some (kIOReturnSuccess, d).
Proof.
  intros Hh. induction rects as [|r rects IH]; [done|]. cbn [fmap list_fmap while_success].
  rewrite (mbind_eq _ _ fuel d kIOReturnSuccess d); [exact IH|]. unfold CopyRegion. cbn [set_region1 rgn_num_rects].
  rewrite Hh. done.
Qed.

Lemma RectCopy_implements a d rects : idle d -> rooms d (accel_spec a d.(m_next_fence) (OpRectCopy rects)).(o_cmds) ->
  let o := accel_spec a d.(m_next_fence) (OpRectCopy rects) in
  implements (exec_op a (OpRectCopy rects)) d (o.(o_result), o.(o_accel)) o.
Proof.
  intros Hi. cbn [accel_spec exec_op]. unfold RectCopy. destruct rects as [|r0 rects0]; [intros; by apply refused_produces|].
  set (rects := r0 :: rects0). intros Hr.
  destruct (HaveFrontBuffer a) eqn:Hh.
  - unfold implements. cbn [sends o_cmds o_result o_accel o_next]. intros fuel _. exists d. split.
    + unfold code_only. rewrite (mbind_eq _ _ fuel d kIOReturnSuccess d); [done|]. by apply while_copy_success.
    + destruct (produces_ret tt d Hi (Z.to_nat (rsize d.(fifo)))) as (d' & E & Ha); [lia|]. by injection E as <-.
  - destruct (m_framebuffer a); [|by apply refused_produces]. cbn [negb sends o_cmds o_result o_accel o_next] in *.
    unfold implements. cbn [o_cmds sends o_next]. rewrite words_of_fmap. apply rooms_fmap in Hr.
    apply (produces_then _ (fun r => (r, None, a))).
    apply (produces_then _ (fun rc : bool => if rc then kIOReturnSuccess else kIOReturnNoMemory) _ true).
    apply until_fails_produces; [|done..]. intros r _. apply copy_words_queues.
Qed.

Lemma CopyRegion_implements garbage a d destX destY rgn regionSize : idle d ->
  let o := accel_spec a d.(m_next_fence) (OpCopyRegion garbage destX destY rgn regionSize) in rooms d o.(o_cmds) ->
  implements (exec_op a (OpCopyRegion garbage destX destY rgn regionSize)) d (o.(o_result), o.(o_accel)) o.
Proof.
  intros Hi. cbn [accel_spec exec_op]. unfold CopyRegion. destruct rgn as [rgn|]; [|intros; by apply refused_produces].
  case_match; [intros; by apply refused_produces|]. case_match; [intros; by apply refused_produces|].
  destruct (m_framebuffer a); [|intros; by apply refused_produces]. cbn [negb]. intros Hr. unfold implements.
  case_match.
  - cbn [sends o_cmds o_result o_accel o_next] in Hr |- *. rewrite words_of_one. apply (produces_then _ (fun r => (r, None, a))).
    apply (produces_then _ (fun rc : bool => if rc then kIOReturnSuccess else kIOReturnNoMemory) _ true), queues_produces; [apply copy_cmd_queues|done|].
    by apply Forall_cons_1 in Hr as [Hr _].
  - destruct (rects_of (Some rgn)) as [|r0 rs] eqn:Er; [by destruct garbage; apply produces_ret|]. set (rs' := r0 :: rs) in *.
    cbn [sends o_cmds o_result o_accel o_next] in Hr |- *. rewrite words_of_fmap. apply rooms_fmap in Hr. apply (produces_then _ (fun r => (r, None, a))).
    apply (produces_then _ (fun rc : bool => if rc then kIOReturnSuccess else kIOReturnNoMemory) _ true).
    match goal with |- produces (until_fails garbage ?l) _ _ _ _ => change (until_fails garbage l) with (until_fails true l) end.
    apply until_fails_produces; [|done..]. intros r _. apply copy_cmd_queues.
Qed.

Lemma RectFill_implements a d color rects : idle d ->
  rooms d (accel_spec a d.(m_next_fence) (OpRectFill color rects)).(o_cmds) ->
  Forall acmd_ok (accel_spec a d.(m_next_fence) (OpRectFill color rects)).(o_cmds) ->
  let o := accel_spec a d.(m_next_fence) (OpRectFill color rects) in
  implements (exec_op a (OpRectFill color rects)) d (o.(o_result), o.(o_accel)) o.
Proof.
  intros Hi. cbn [accel_spec exec_op]. unfold RectFill. destruct rects as [|r0 rects0]; [intros; by apply refused_produces|].
  set (rects := r0 :: rects0). intros Hr Hok.
  destruct (m_framebuffer a); [|by apply refused_produces]. cbn [negb sends o_cmds o_result o_accel o_next] in *.
  assert (is_u32 color) as Hc by (apply Forall_cons_1 in Hok as [Hok _]; apply Hok).
  unfold implements. cbn [o_cmds sends o_next]. rewrite words_of_fmap. apply rooms_fmap in Hr.
  apply (produces_then _ (fun r => (r, None, a))).
  apply (produces_then _ (fun rc : bool => if rc then kIOReturnSuccess else kIOReturnNoMemory) _ true).
  apply until_fails_produces; [|done..]. intros r _. by apply rect_words_queues.
Qed.

Lemma Update_implements a d rect : idle d ->
  rooms d (accel_spec a d.(m_next_fence) (OpUpdate rect)).(o_cmds) ->
  Forall acmd_ok (accel_spec a d.(m_next_fence) (OpUpdate rect)).(o_cmds) ->
  let o := accel_spec a d.(m_next_fence) (OpUpdate rect) in
  implements (exec_op a (OpUpdate rect)) d (o.(o_result), o.(o_accel)) o.
Proof.
  intros Hi Hr Hok. cbn [accel_spec exec_op] in *. unfold UpdateFramebufferAutoRing.
  destruct rect as [rect|]; [|by apply refused_produces].
  destruct (HaveFrontBuffer a); [by apply refused_produces|].
  destruct (m_framebuffer a); [|by apply refused_produces]. cbn [negb sends o_cmds o_result o_accel o_next] in *.
  apply Forall_cons_1 in Hr as [Hr _]. apply Forall_cons_1 in Hok as [Hok _].
  unfold implements. cbn [o_cmds sends o_next]. rewrite words_of_one, <-(app_nil_r (encode_cmd _)).
  apply (produces_then _ (fun r => (r, None, a))).
  apply (produces_seq _ _ d true _ d.(m_next_fence)); [apply queues_produces; [by apply UpdateFramebuffer2_queues|done..]|].
  intros d1 [<- Hc]. apply (produces_then _ (fun _ => kIOReturnSuccess) _ tt), produces_doorbell, Hc.
Qed.

(** *** Surfaces, contexts and state *)

Definition op_correct (op : accel_op) : Prop := forall a d,
  ready d -> op_ok op -> let o := accel_spec a d.(m_next_fence) op in
  Forall acmd_ok o.(o_cmds) -> rooms d o.(o_cmds) -> implements (exec_op a op) d (o.(o_result), o.(o_accel)) o.

(** The cases in which a flag refuses the operation; the commands in the other one. *)
Local Ltac op_intro :=
  let a := fresh "a" in let d := fresh "d" in let Hd := fresh "Hd" in
  intros a d Hd Hop; cbn [accel_spec exec_op]; pose proof (proj1 Hd) as Hi.
Local Ltac op_start :=
  repeat match goal with
    | |- context [match ?x with Some _ => _ | None => _ end] => is_var x; destruct x; [|intros; by apply refused_produces]
    end;
  try (destruct (bHaveSVGA3D _); [|intros; by apply refused_produces]);
  try (destruct (bHaveScreenObject _); [|intros; by apply refused_produces]);
  cbn [negb sends o_cmds o_result o_accel o_next]; intros Hok Hr.

Local Ltac one_ok := let H := fresh in match goal with Hok : Forall acmd_ok _ |- _ => apply Forall_cons_1 in Hok as [Hok H]; clear H end.
Local Ltac one_room :=
  let H := fresh in match goal with Hr : rooms _ _ |- _ => apply Forall_cons_1 in Hr as [Hr H]; clear H; cbn [to_cmd] in Hr end.

Lemma createSurface_correct sid flags format width height : op_correct (OpCreateSurface sid flags format width height).
Proof.
  op_intro. unfold createSurface. op_start. one_ok. one_room. apply sends_filled; [|done].
  destruct Hok as [Hc Hm]. unfold cmd3d in *. cbn [encode3d fst snd] in *. apply room_body in Hr.
  apply (begin3d_emits SVGA_3D_CMD_SURFACE_DEFINE SVGA3dCmdDefineSurface_c _ _ (zeros 12)
    [(3, [1]); (9, [width]); (10, [height]); (11, [1])]); [|done|done| | |done|done].
  - destruct Hc as (H1 & H2 & H3 & _). refine (conj H1 (conj H2 (conj H3 _))). cbn. split; [done|].
    forall_list; cbn; range_solve.
  - intros cmd fuel d'. change (u64 (bsize SVGA3dSize_c * 1)) with 12. rewrite mbind_assoc.
    change (bsize SVGA3dCmdDefineSurface_c) with (4 * 9). change 12 with (4 * 3) at 1 3. rewrite store_ptr_add.
    apply seq_ext; intros d1. rewrite (mbind_eq _ _ fuel d1 (ptr_add cmd (4 * 3), ptr_add cmd (4 * 9)) d1 eq_refl).
    cbn [stores fst snd]. rewrite !store_ptr_add. repeat (apply seq_ext; intros). by rewrite seq_skip.
  - repeat (apply Forall_cons; [simpl; lia|]). apply Forall_nil_2.
Qed.

Lemma destroySurface_correct sid : op_correct (OpDestroySurface sid).
Proof.
  op_intro. unfold destroySurface. op_start. one_ok. apply sends_queues; [by apply DestroySurface_queues|done..].
Qed.

Lemma surfaceStretch_correct src dst mode r1 r2 : op_correct (OpSurfaceStretch src dst mode r1 r2).
Proof.
  op_intro. unfold surfaceStretch. op_start. one_ok. apply sends_queues; [by apply SurfaceStretchBlt_queues|done..].
Qed.

Lemma setRenderTarget_correct cid rtype sid : op_correct (OpSetRenderTarget cid rtype sid).
Proof.
  op_intro. unfold setRenderTarget. op_start. one_ok. apply sends_queues; [by apply SetRenderTarget_queues|done..].
Qed.

Lemma createContext_correct cid : op_correct (OpCreateContext cid).
Proof.
  op_intro. unfold createContext. op_start. one_ok. apply sends_queues; [by apply DefineContext_queues|done..].
Qed.

Lemma destroyContext_correct cid : op_correct (OpDestroyContext cid).
Proof.
  op_intro. unfold destroyContext. op_start. one_ok. apply sends_queues; [by apply DestroyContext_queues|done..].
Qed.

Lemma drawPrimitives_correct cid decls ranges : op_correct (OpDraw cid decls ranges).
Proof.
  op_intro. unfold drawPrimitives. op_start. one_ok. one_room. apply sends_filled; [|done].
  by apply BeginDrawPrimitives_queues.
Qed.

Lemma setTextureState_correct cid states : op_correct (OpTextureState cid states).
Proof.
  op_intro. unfold setTextureState. op_start. one_ok. one_room. apply sends_filled; [|done].
  by apply BeginSetTextureState_queues.
Qed.

Lemma setRenderState_correct cid states : op_correct (OpRenderState cid states).
Proof.
  op_intro. unfold setRenderState. op_start. one_ok. one_room. apply sends_filled; [|done].
  by apply BeginSetRenderState_queues.
Qed.

(** *** Commands with an array of rectangles *)

Lemma fmap_bind_enc {R A} (c : coder A) (f : R -> A) rs : (f <$> rs) ≫= enc c = rs ≫= (fun r => enc c (f r)).
Proof. induction rs as [|r rs IH]; [done|]. csimpl. by rewrite IH. Qed.

(** The size in bytes of an array of [n] elements. *)
Lemma array_bytes size n : 0 <= size -> 0 <= n -> size * n <= 0x4000 -> u64 (4 * size * n) = 4 * (size * n).
Proof. intros. rewrite wrap_small; [lia|]. unfold fits. lia. Qed.

Lemma flat_bound {R} size (P : Z -> Prop) (fs : R -> list (Z * list Z)) target rs (l : list Z) d :
  fills size P fs target -> P 0 -> room d (2 + Z.of_nat (length (l ++ (rs ≫= target)))) ->
  size * Z.of_nat (length rs) <= 0x4000.
Proof.
  intros Hf H0' [Hn _]. rewrite length_app, Nat2Z.inj_add, (fills_flat size P fs target rs Hf H0') in Hn. lia.
Qed.

Lemma store_box_stores extra p i r fuel d :
  store_box extra p i r fuel d = stores (ptr_add p (4 * 9 * i)) (box_stores extra r) fuel d.
Proof. cbn [stores box_stores fst snd]. unfold store_box. repeat (apply seq_ext; intros). by rewrite seq_skip. Qed.

Lemma store_copy_rect_stores extra p i r fuel d :
  store_copy_rect extra p i r fuel d = stores (ptr_add p (4 * 6 * i)) (copy_rect_stores extra r) fuel d.
Proof. cbn [stores copy_rect_stores fst snd]. unfold store_copy_rect. repeat (apply seq_ext; intros). by rewrite seq_skip. Qed.

Lemma store_rect_stores p i r fuel d :
  store_rect p i r fuel d = stores (ptr_add p (4 * 4 * i)) (rect_stores r) fuel d.
Proof. cbn [stores rect_stores fst snd]. unfold store_rect. repeat (apply seq_ext; intros). by rewrite seq_skip. Qed.

(** The boxes of a copy, behind any structure. *)
Lemma boxes_emits {A} (id : SVGA3dCmdId) (c : coder A) a extra rgn d :
  ok c a -> region_ok rgn -> idle d ->
  room d (2 + Z.of_nat (length (enc c a ++ ((copy_box extra <$> rects_of rgn) ≫= enc SVGA3dCopyBox_c)))) ->
  let size := u64 (bsize SVGA3dCopyBox_c * num_rects rgn) in
  emits (complete (begin3d id c a size (fun cmd => let boxes := ptr_add cmd (bsize c) in
                                          store_words boxes 0 (zeros size);; mret boxes))
           (fun p => for_rects (store_box extra p) 0 (rects_of rgn))) d true
    (encode_cmd (Cmd3D id (enc c a ++ ((copy_box extra <$> rects_of rgn) ≫= enc SVGA3dCopyBox_c)))).
Proof.
  intros Ha Hrgn Hi Hr size. rewrite fmap_bind_enc in *.
  apply (begin_boxes_emits id c a 9 (box_stores extra)); [done|apply box_fills| |apply store_box_stores|done|done].
  unfold size, region_ok in *. rewrite Hrgn. apply (array_bytes 9); [lia..|].
  exact (flat_bound _ _ _ _ _ _ d (box_fills extra) eq_refl Hr).
Qed.

Lemma surfaceDMA2D_correct sid transfer rgn extra fence : op_correct (OpSurfaceDMA2D sid transfer rgn extra fence).
Proof.
  op_intro. unfold surfaceDMA2D. op_start. pose proof Hr as Hr'. apply sends_fence_rooms in Hr' as [Hr' _].
  apply Forall_cons_1 in Hr' as [Hr' _]. cbn [to_cmd] in Hr'.
  assert (ok SVGA3dCmdSurfaceDMA_c (mk_SVGA3dCmdSurfaceDMA (guest_image e) (image0 sid) transfer)) as Ha.
  { destruct fence; apply Forall_cons_1 in Hok as [[Hok _] _]; exact Hok. }
  unfold cmd3d in Hr'. cbn [encode3d fst snd] in Hr'. rewrite app_nil_r in Hr'. apply room_body in Hr'.
  replace (o_accel _) with a by by destruct fence. apply filled_fence; [|done|done].
  unfold cmd3d. cbn [encode3d fst snd]. rewrite app_nil_r. by apply boxes_emits.
Qed.

Lemma surfaceCopy_correct src dst rgn extra : op_correct (OpSurfaceCopy src dst rgn extra).
Proof.
  op_intro. unfold surfaceCopy. op_start. one_ok. one_room. apply sends_filled; [|done]. destruct Hok as [Ha _].
  unfold cmd3d in *. cbn [encode3d fst snd] in *. apply room_body in Hr. by apply boxes_emits.
Qed.

Lemma rects_emits {A} (id : SVGA3dCmdId) (c : coder A) a rgn d :
  ok c a -> region_ok rgn -> idle d ->
  room d (2 + Z.of_nat (length (enc c a ++ ((rect3d <$> rects_of rgn) ≫= enc SVGA3dRect_c)))) ->
  emits (complete (begin3d id c a (u64 (bsize SVGA3dRect_c * num_rects rgn)) (fun cmd => mret (ptr_add cmd (bsize c))))
           (fun p => for_rects (store_rect p) 0 (rects_of rgn))) d true
    (encode_cmd (Cmd3D id (enc c a ++ ((rect3d <$> rects_of rgn) ≫= enc SVGA3dRect_c)))).
Proof.
  intros Ha Hrgn Hi Hr. rewrite fmap_bind_enc in *.
  apply (begin_rects_emits id c a 4 rect_stores); [done|apply rect_fills| |apply store_rect_stores|done|done].
  unfold region_ok in *. rewrite Hrgn. apply (array_bytes 4); [lia..|].
  exact (flat_bound _ _ _ _ _ _ d rect_fills I Hr).
Qed.

Lemma clear_correct cid flags rgn color depth stencil : op_correct (OpClear cid flags rgn color depth stencil).
Proof.
  op_intro. unfold clear. op_start. one_ok. one_room. apply sends_filled; [|done]. destruct Hok as [Ha _].
  unfold cmd3d in *. cbn [encode3d fst snd] in *. apply room_body in Hr. by apply rects_emits.
Qed.

Lemma present_emits sid extra rgn d :
  let cmd := Present (mk_SVGA3dCmdPresent sid) (copy_rect3d extra <$> rects_of rgn) in
  ok3d cmd -> region_ok rgn -> idle d -> room d (Z.of_nat (length (encode_cmd (cmd3d cmd)))) ->
  emits (complete (BeginPresent sid (num_rects rgn)) (fun p => for_rects (store_copy_rect extra p) 0 (rects_of rgn))) d
    true (encode_cmd (cmd3d cmd)).
Proof.
  intros cmd [Ha _] Hrgn Hi Hr. unfold cmd, cmd3d in *. cbn [encode3d fst snd] in *. apply room_body in Hr.
  rewrite fmap_bind_enc in *.
  apply (begin_rects_emits SVGA_3D_CMD_PRESENT SVGA3dCmdPresent_c _ 6 (copy_rect_stores extra));
    [done|apply copy_rect_fills| |apply store_copy_rect_stores|done|done].
  unfold region_ok in *. rewrite Hrgn. apply (array_bytes 6); [lia..|].
  exact (flat_bound _ _ _ _ _ _ d (copy_rect_fills extra) I Hr).
Qed.

Lemma Present_correct sid rgn extra : op_correct (OpPresent sid rgn extra).
Proof.
  op_intro. unfold surfacePresentAutoSync. op_start. one_ok.
  apply Forall_cons_1 in Hr as [Hr Hf]. apply Forall_cons_1 in Hf as [Hf _]. cbn [to_cmd] in Hr, Hf.
  unfold implements. cbn [o_cmds o_next].
  set (t := set_present_tracker _ _).
  apply (produces_then _ (fun r => (r.1, None, r.2)) _ (kIOReturnSuccess, t)).
  eapply produces_silent; [by apply produces_sync|]. intros d1 Ha1.
  pose proof (advances_ready _ _ _ _ Ha1 Hd) as Hd1. pose proof (advances_room _ _ _ _ _ Ha1 Hr) as Hr1.
  pose proof (advances_room _ _ _ _ _ Ha1 Hf) as Hf1. destruct Ha1 as [En1 _].
  rewrite words_of_cons, words_of_one.
  apply filled_produces; [apply Hd1|by apply present_emits; [..|apply Hd1|]|]. intros d2 Ha2.
  pose proof (advances_ready _ _ _ _ Ha2 Hd1) as Hd2. pose proof (advances_room _ _ _ _ _ Ha2 Hf1) as Hf2.
  destruct Ha2 as [En _]. unfold t. rewrite <-En1, <-En.
  by apply (produces_then _ (fun fence => (kIOReturnSuccess,
    set_present_tracker (tracker_after AUTO_SYNC_PRESENT_FENCE_COUNT fence (m_present_tracker a)) a))), produces_fence.
Qed.

Lemma Readback_correct rgn : op_correct (OpReadback rgn).
Proof.
  op_intro. unfold surfacePresentReadback. op_start. one_room. apply sends_filled; [|done].
  unfold cmd3d in *. cbn [encode3d fst snd] in *. rewrite fmap_bind_enc in *. apply room_body in Hr.
  pose proof (fills_flat _ _ _ _ (rects_of rgn) rect_fills I) as Hl.
  unfold complete, BeginPresentReadback. cbn [op_ok] in Hop. unfold region_ok in Hop. rewrite Hop.
  change (bsize SVGA3dRect_c) with (4 * 4). rewrite array_bytes by (destruct Hr; lia). rewrite <-Hl.
  apply (reserve3d_stores _ SVGA_3D_CMD_PRESENT_READBACK (elem_stores 4 0 rect_stores (rects_of rgn)));
    [|done| | |done|done].
  - intros cmd fuel d1. unfold mbind at 1 3, M_bind at 1 3.
    rewrite (for_rects_stores cmd 0 4 _ rect_stores); [done|]. intros i r d2. rewrite store_rect_stores.
    by replace (ptr_add cmd (4 * 0)) with cmd by (destruct cmd; unfold ptr_add; simpl; f_equal; lia).
  - intros old Ho. apply (elem_fill 4 (fun _ => True) rect_stores _ _ rect_fills 0 []); [done|lia|by apply Forall_true].
  - eapply elem_bounds; [apply rect_fills|lia|lia].
Qed.

Lemma surfaceDMA3D_correct image transfer box extra fence : op_correct (OpSurfaceDMA3D image transfer box extra fence).
Proof.
  op_intro. unfold surfaceDMA3DEx. destruct box as [box|]; [|destruct extra; intros; by apply refused_produces].
  op_start. pose proof Hr as Hr'. apply sends_fence_rooms in Hr' as [Hr' _].
  apply Forall_cons_1 in Hr' as [Hr' _]. cbn [to_cmd] in Hr'.
  replace (o_accel _) with a by by destruct fence. apply filled_fence; [|done|done].
  rewrite <-(app_nil_r (enc SVGA3dCopyBox_c box)).
  apply (BeginSurfaceDMAwithSuffix_queues (guest_image_ex e) image transfer _ _ [box]); [|done|done].
  destruct fence; apply Forall_cons_1 in Hok as [Hok _]; exact Hok.
Qed.

(** *** Screens and video *)

Lemma PrimaryScreen_correct width height : op_correct (OpPrimaryScreen width height).
Proof.
  op_intro. unfold createPrimaryScreen. op_start. destruct (_ && _); [by apply refused_produces|].
  cbn [o_cmds o_result o_accel o_next] in *. one_ok. one_room. unfold implements. cbn [o_cmds o_next].
  set (a' := set_primary_screen width height a).
  apply (produces_then _ (fun r => (r.1, None, r.2)) _ (kIOReturnSuccess, a')).
  apply (produces_then _ (fun _ => (kIOReturnSuccess, a')) _ true). rewrite words_of_one.
  apply queues_produces; [|done..]. destruct Hok as (_ & _ & Hw).
  assert (is_u32 width /\ is_u32 height) as [Hw1 Hh1]
    by (do 2 apply Forall_cons_1 in Hw as [_ Hw]; apply Forall_cons_1 in Hw as [? Hw]; by apply Forall_cons_1 in Hw as [? _]).
  match goal with |- Queues (DefineScreen ?x) _ => set (scr := x) end.
  change (to_cmd (primary_screen width height))
    with (CmdDefineScreen (4 * 11) (take (Z.to_nat (11 - 1)) (drop 1 (enc SVGAScreenObject_c scr)))).
  apply (DefineScreen_queues _ 11); [|done|done]. cbn.
  repeat match goal with |- _ /\ _ => split end; try apply wrap_range; try done; range_solve.
Qed.

(** A definition of the frame buffer, blits, a fence, and the bell or not. *)
Lemma blits_implement (m : IOAccelBounds -> M HS bool) c extra rs fence (bell : M HS unit) a d :
  let o := sends_fence fence a d.(m_next_fence) (gmrfb extra :: ((fun r => In2D (c r)) <$> rs)) in
  (forall r, r ∈ rs -> Queues (m r) (c r)) -> (forall d, idle d -> produces bell d tt d.(m_next_fence) []) ->
  ready d -> Forall acmd_ok o.(o_cmds) -> rooms d o.(o_cmds) ->
  implements (code_fence a (DefineGMRFB (gmrfb_ptr extra) (u32 extra.(mem_pitch)) gmrfb_format;;
                            for_rects (fun _ r => m r;; skip) 0 rs;;
                            f ← fence_if fence; bell;; mret (kIOReturnSuccess, f))) d (o.(o_result), a) o.
Proof.
  intros o Hq Hb Hd Hok Hr. apply sends_fence_rooms in Hr as [Hr Hf]. apply Forall_cons_1 in Hr as [Hr1 Hr].
  apply rooms_fmap in Hr. unfold implements, o. rewrite sends_fence_words, words_of_cons, words_of_fmap, <-app_assoc.
  replace (o_next _) with (o_next (sends_fence fence a d.(m_next_fence) [])) by by destruct fence.
  replace (o_result _) with (o_result (sends_fence fence a d.(m_next_fence) [])) by by destruct fence.
  apply (produces_then _ (fun r => (r, a))). apply (produces_seq _ _ d true _ d.(m_next_fence)).
  { apply queues_produces; [|apply Hd|done]. apply DefineGMRFB_queues.
    unfold o in Hok. destruct fence; apply Forall_cons_1 in Hok as [Hok _]; exact Hok. }
  intros d1 Ha1. pose proof (advances_ready _ _ _ _ Ha1 Hd) as Hd1.
  assert (Forall (fun r => room d1 (Z.of_nat (length (encode_cmd (c r))))) rs) as Hrs
    by (eapply Forall_impl; [|exact Hr]; intros x; by apply (advances_room _ _ _ _ _ Ha1)).
  apply (produces_seq _ _ d1 tt _ d1.(m_next_fence)); [apply for_rects_produces; [done|apply Hd1|done]|].
  intros d2 Ha2. destruct Ha1 as [En1 Hc1]. rewrite <-En1. eapply (fence_tail _ _ _ _ _ d1); [done|exact Ha2| |done].
  destruct Hf as [Hf|]; [left|by right]. eapply advances_room; [by split|done].
Qed.

Lemma origin_ok r delta : ok SVGASignedPoint_c (origin r delta).
Proof. cbn. split; apply s32_range. Qed.
Lemma convert_rect_ok r delta : ok SVGASignedRect_c (convert_rect r delta).
Proof. cbn. repeat match goal with |- _ /\ _ => split end; apply s32_range. Qed.

Lemma sends_fence_in fence a nf x (f : IOAccelBounds -> acmd) rs r :
  r ∈ rs -> Forall acmd_ok (sends_fence fence a nf (x :: (f <$> rs))).(o_cmds) -> acmd_ok (f r).
Proof.
  intros Hin Hok. assert (Forall acmd_ok (f <$> rs)) as Hf.
  { destruct fence; apply Forall_cons_1 in Hok as [_ Hok]; [|done]. by apply Forall_app in Hok as [Hok _]. }
  rewrite Forall_fmap in Hf. rewrite Forall_forall in Hf. by apply (Hf r), list_elem_of_In.
Qed.

Lemma blitToScreen_correct screen rgn extra fence : op_correct (OpBlitToScreen screen rgn extra fence).
Proof.
  op_intro. unfold blitToScreen. op_start. replace (o_accel _) with a by by destruct fence.
  apply (blits_implement (fun r => BlitFromGMRFB (origin r (src_delta e)) (convert_rect r (Some (dst_delta e))) screen)
    (fun r => CmdBlitGMRFBToScreen (mk_SVGAFifoCmdBlitGMRFBToScreen (origin r (src_delta e))
                (convert_rect r (Some (dst_delta e))) screen))); [|apply produces_doorbell|done..].
  intros r Hin. apply BlitFromGMRFB_queues. exact (sends_fence_in _ _ _ _ (blit_to screen e) _ r Hin Hok).
Qed.

Lemma blitFromScreen_correct screen rgn extra fence : op_correct (OpBlitFromScreen screen rgn extra fence).
Proof.
  op_intro. unfold blitFromScreen. op_start. replace (o_accel _) with a by by destruct fence.
  pose proof (blits_implement (fun r => BlitToGMRFB (origin r (dst_delta e)) (convert_rect r (Some (src_delta e))) screen)
    (fun r => CmdBlitScreenToGMRFB (mk_SVGAFifoCmdBlitScreenToGMRFB (origin r (dst_delta e))
                (convert_rect r (Some (src_delta e))) screen)) e (rects_of rgn) fence skip a d) as Hb.
  intros fuel Hf. destruct (fun q => Hb q (fun d Hi => produces_ret tt d Hi) Hd Hok Hr fuel Hf) as (d' & E & Ha).
  { intros r Hin. apply BlitToGMRFB_queues. exact (sends_fence_in _ _ _ _ (blit_from screen e) _ r Hin Hok). }
  exists d'. split; [|exact Ha]. etransitivity; [|exact E]. unfold code_fence. apply mbind_cong.
  apply seq_ext; intros d1. apply seq_ext; intros d2. apply mbind_ext. intros f d3.
  by rewrite (mbind_eq _ _ fuel d3 tt d3 eq_refl).
Qed.

Lemma blitSurface_correct sid screen src_rect rgn : op_correct (OpBlitSurface sid screen src_rect rgn).
Proof.
  op_intro. unfold blitSurfaceToScreen. op_start. one_ok. one_room. destruct Hok as [Ha _].
  unfold implements. cbn [o_cmds sends o_next]. rewrite words_of_one, <-(app_nil_r (encode_cmd _)).
  apply (produces_then _ (fun r => (r, None, a))).
  apply filled_produces; [done| |].
  - cbn [to_cmd] in *. unfold cmd3d in *. cbn [encode3d fst snd] in *. rewrite fmap_bind_enc in *. apply room_body in Hr.
    match goal with |- context [convert_rect _ (Some ?x)] => set (shift := x) in * end.
    refine (begin_rects_emits SVGA_3D_CMD_BLIT_SURFACE_TO_SCREEN SVGA3dCmdBlitSurfaceToScreen_c
      (mk_SVGA3dCmdBlitSurfaceToScreen (image0 sid) (convert_rect src_rect None) screen (convert_rect rgn.(rgn_bounds) None)) 4
      (fun r => [(0, enc SVGASignedRect_c (convert_rect r (Some shift)))])
      (fun r => enc SVGASignedRect_c (convert_rect r (Some shift))) (u64 (rgn.(rgn_num_rects) * bsize SVGASignedRect_c))
      (fun p i r => store_words (ptr_add p (bsize SVGASignedRect_c * i)) 0 (enc SVGASignedRect_c (convert_rect r (Some shift))))
      (rects_of (Some rgn)) d Ha (clip_fills (Some shift)) _ _ Hi Hr).
    + cbn [op_ok] in Hop. unfold region_ok in Hop. cbn [num_rects] in Hop. rewrite Hop, Z.mul_comm.
      apply (array_bytes 4); [lia..|]. exact (flat_bound _ _ _ _ _ _ d (clip_fills (Some shift)) I Hr).
    + intros p i r fuel d'. cbn [stores fst snd]. by rewrite seq_skip.
  - intros d1 [<- Hc]. apply (produces_then _ (fun _ => kIOReturnSuccess) _ tt), produces_doorbell, Hc.
Qed.

(** The end of the two methods: the flush, the fence and the bell. *)
Lemma video_tail (m : M HS unit) a d cmds streamId fence :
  ready d -> rooms d (sends_fence fence a d.(m_next_fence) (cmds ++ [video_flush streamId])).(o_cmds) ->
  produces m d tt d.(m_next_fence) (words_of cmds) ->
  let o := sends_fence fence a d.(m_next_fence) (cmds ++ [video_flush streamId]) in
  implements (code_fence a (m;; VideoFlush streamId;; f ← fence_if fence; SvgaDevice.RingDoorBell;; mret (kIOReturnSuccess, f))) d
    (o.(o_result), o.(o_accel)) o.
Proof.
  intros Hd Hr Hm o. unfold o. replace (o_accel _) with a by by destruct fence.
  apply sends_fence_rooms in Hr as [Hr Hf]. apply Forall_app in Hr as [_ Hr]. apply Forall_cons_1 in Hr as [Hr2 _].
  unfold implements. rewrite sends_fence_words, words_of_app, words_of_one, <-app_assoc.
  replace (o_next _) with (o_next (sends_fence fence a d.(m_next_fence) [])) by by destruct fence.
  replace (o_result _) with (o_result (sends_fence fence a d.(m_next_fence) [])) by by destruct fence.
  apply (produces_then _ (fun r => (r, a))). apply (produces_seq _ _ d tt _ d.(m_next_fence)); [exact Hm|].
  intros d1 Ha1. pose proof (advances_ready _ _ _ _ Ha1 Hd) as Hd1. pose proof (advances_room _ _ _ _ _ Ha1 Hr2) as Hr2'.
  apply (produces_seq _ _ d1 true _ d1.(m_next_fence)); [apply queues_produces; [apply VideoFlush_queues|apply Hd1|done]|].
  intros d2 Ha2. destruct Ha1 as [En1 Hc1]. rewrite <-En1.
  eapply (fence_tail _ _ _ _ _ d1); [done|exact Ha2| |apply produces_doorbell].
  destruct Hf as [Hf|]; [left|by right]. eapply advances_room; [by split|done].
Qed.

Lemma VideoSetReg_correct streamId registerId value fence : op_correct (OpVideoSetReg streamId registerId value fence).
Proof.
  op_intro. unfold VideoSetReg. destruct (m_framebuffer a); [|intros; by apply refused_produces].
  cbn [negb]. intros Hok Hr.
  assert (rooms d [In2D (video_cmd streamId [(registerId, value)])]) as Hr1.
  { apply sends_fence_rooms in Hr as [Hr _]. apply Forall_cons_1 in Hr as [Hr _]. by apply Forall_singleton. }
  intros fuel Hf.
  destruct (video_tail (SvgaDevice.VideoSetReg streamId registerId value;; skip) a d
    [In2D (video_cmd streamId [(registerId, value)])] streamId fence Hd Hr) with (fuel := fuel) as (d' & E & Ha); [|done|].
  - apply (produces_then _ (fun _ => tt) _ true). rewrite words_of_one. apply queues_produces; [apply VideoSetReg_queues|done|].
    by apply Forall_cons_1 in Hr1 as [Hr1 _].
  - exists d'. split; [|done]. refine (eq_trans _ E). apply mbind_cong. rewrite mbind_assoc. apply mbind_ext. intros b d1.
    by rewrite (mbind_eq _ _ fuel d1 tt d1 eq_refl).
Qed.

Lemma video_cmd_length streamId items :
  Z.of_nat (length (encode_cmd (video_cmd streamId items))) = 5 + 2 * Z.of_nat (length items).
Proof. rewrite <-length_flat. unfold video_cmd. cbn [encode_cmd length]. rewrite !length_app. cbn [length enc]. simpl. lia. Qed.

Lemma VideoSetRegs_correct streamId regs regMin regMax fence : op_correct (OpVideoSetRegs streamId regs regMin regMax fence).
Proof.
  op_intro. unfold VideoSetRegsInRange. destruct Hop as [Hm HM]. destruct (m_framebuffer a); [|intros; by apply refused_produces].
  cbn [negb]. intros Hok Hr. apply video_tail; [done|done|].
  apply sends_fence_rooms in Hr as [Hr _]. apply Forall_app in Hr as [Hr _].
  destruct regs as [regs|]; [|apply produces_ret, Hi]. unfold video_regs in *. apply (produces_then _ (fun _ => tt) _ true).
  destruct (Z.ltb_spec regMax regMin).
  - unfold SvgaDevice.VideoSetRegsInRange. destruct (Z.ltb_spec regMax regMin); [|lia]. apply produces_ret, Hi.
  - rewrite words_of_one. apply produces_emits; [done|]. apply VideoSetRegsInRange_emits; [done..|].
    apply Forall_cons_1 in Hr as [Hr _]. revert Hr. unfold to_cmd. rewrite video_cmd_length.
    unfold range_items at 1. rewrite length_fmap, length_seqZ. by replace (Z.of_nat _) with (regMax - regMin + 1) by lia.
Qed.

Lemma exec_op_correct op : op_correct op.
Proof.
  destruct op; auto using createSurface_correct, destroySurface_correct, surfaceDMA2D_correct, surfaceCopy_correct,
    surfaceStretch_correct, Present_correct, Readback_correct, setRenderTarget_correct, clear_correct, createContext_correct,
    destroyContext_correct, drawPrimitives_correct, setTextureState_correct, setRenderState_correct, surfaceDMA3D_correct,
    PrimaryScreen_correct, blitFromScreen_correct, blitToScreen_correct, blitSurface_correct, VideoSetReg_correct,
    VideoSetRegs_correct.
  - intros a d [Hi _] _ o _ Hr. by apply RectCopy_implements.
  - intros a d [Hi _] _ o Hok Hr. by apply RectFill_implements.
  - intros a d [Hi _] _ o Hok Hr. by apply Update_implements.
  - intros a d [Hi _] _ o Hok Hr. by apply CopyRegion_implements.
Qed.

(** ** Sequences *)

Lemma run_accel_produces ops : forall a d, ready d -> Forall op_ok ops ->
  let '(cmds, r, nf) := accel_specs a d.(m_next_fence) ops in
  Forall acmd_ok cmds -> rooms d cmds -> produces (run_accel a ops) d r nf (words_of cmds).
Proof.
  induction ops as [|op ops IH]; intros a d Hd Hops; cbn [accel_specs run_accel]; [intros; apply produces_ret, Hd|].
  apply Forall_cons_1 in Hops as [Hop Hops]. set (o := accel_spec a d.(m_next_fence) op).
  destruct (accel_specs o.(o_accel) o.(o_next) ops) as [[cmds [rs a']] nf'] eqn:Es. intros Hok Hr.
  apply Forall_app in Hok as [Hok1 Hok]. apply Forall_app in Hr as [Hr1 Hr]. rewrite words_of_app.
  eapply produces_bind; [by apply exec_op_correct|]. intros d1 Ha. fold o in Ha |- *.
  pose proof (advances_ready _ _ _ _ Ha Hd) as Hd1. specialize (IH o.(o_accel) d1 Hd1 Hops).
  assert (rooms d1 cmds) as Hr' by (eapply Forall_impl; [|exact Hr]; intros x; by apply (advances_room _ _ _ _ _ Ha)).
  destruct Ha as [En _]. rewrite En, Es in IH. specialize (IH Hok Hr').
  by apply (produces_then _ (fun rs => (o.(o_result) :: rs.1, rs.2)) d1 (rs, a')).
Qed.

Lemma to_cmd_ok d c : acmd_ok c -> room d (Z.of_nat (length (encode_cmd (to_cmd c)))) -> cmd_ok (to_cmd c).
Proof.
  destruct c as [c|c]; cbn [acmd_ok to_cmd]; [by destruct c|]. intros Hok [Hn _]. apply cmd3d_ok; [done|].
  cbn [encode_cmd cmd3d length] in Hn. lia.
Qed.

Lemma of_to_cmd c : acmd_ok c -> of_cmd (to_cmd c) = Some c.
Proof.
  destruct c as [c|c]; cbn [acmd_ok to_cmd]; [by destruct c|]. intros Hok. unfold of_cmd, cmd3d.
  fold (cmd3d c). by rewrite decode_3d_cmd3d.
Qed.

(** What has been produced is what the device decodes. *)
Lemma produces_decodes {R} fuel (m : M HS R) d (r : R) nf cmds :
  ready d -> queue d.(fifo) = [] -> Forall acmd_ok cmds -> rooms d cmds -> (Z.to_nat (rsize d.(fifo)) <= fuel)%nat ->
  produces m d r nf (words_of cmds) ->
  exists d' consumed decoded,
    m fuel d = Some (r, d') /\ ready d' /\ d'.(m_next_fence) = nf /\
    decode_cmds (length cmds) (consumed ++ queue d'.(fifo)) = Some decoded /\ mapM of_cmd decoded = Some cmds.
Proof.
  intros Hd He Hok Hr Hf Hrun. destruct (Hrun fuel Hf) as (d' & E & Ha). pose proof (advances_ready _ _ _ _ Ha Hd) as Hd'.
  destruct Ha as [En (_ & _ & pre & Hq)]. exists d', pre, (to_cmd <$> cmds).
  split; [done|]. split; [done|]. split; [done|]. split.
  - rewrite Hq. cbn [set_next_fence fifo]. rewrite He. cbn [app].
    rewrite <-(list_bind_to_cmd cmds). apply decode_cmds_encode; [|by rewrite length_fmap].
    apply Forall_fmap, Forall_forall. intros c Hc. unfold rooms in Hr. rewrite Forall_forall in Hok, Hr.
    eapply to_cmd_ok; [by apply Hok|by apply Hr].
  - apply mapM_fmap_Forall_Some. eapply Forall_impl; [|exact Hok]. apply of_to_cmd.
Qed.

(** C2: the accelerator.  Any sequence of operations of the accelerator, from an idle
    device with an empty queue, runs to completion; codes, fence numbers, and the
    state of the object are those that the specification computes, and what the
    device has read and still finds in the queue is exactly the commands of the
    specification, in order: the arrays of rectangles that the methods fill in
    place, the fences with their numbers, and nothing for an operation that a
    missing capability or a null argument refuses. *)
Theorem accel_stream_decodes fuel a ops d :
  ready d -> queue d.(fifo) = [] -> Forall op_ok ops ->
  let '(cmds, r, nf) := accel_specs a d.(m_next_fence) ops in
  Forall acmd_ok cmds -> rooms d cmds -> (Z.to_nat (rsize d.(fifo)) <= fuel)%nat ->
  exists d' consumed decoded,
    run_accel a ops fuel d = Some (r, d') /\ ready d' /\ d'.(m_next_fence) = nf /\
    decode_cmds (length cmds) (consumed ++ queue d'.(fifo)) = Some decoded /\ mapM of_cmd decoded = Some cmds.
Proof.
  intros Hd He Hops. pose proof (run_accel_produces ops a d Hd Hops) as Hrun.
  destruct (accel_specs a d.(m_next_fence) ops) as [[cmds r] nf]. intros Hok Hr Hf.
  apply produces_decodes; auto.
Qed.
End proofs.

(** ** Commands are well formed *)

(** The arguments are values of their C types. *)
Definition extra_typed (e : ExtraInfo) : Prop := is_u32 e.(mem_gmr_id).
Definition op_typed (op : accel_op) : Prop :=
  match op with
  | OpRectCopy _ | OpCopyRegion _ _ _ _ _ | OpReadback _ => True
  | OpRectFill color _ => is_u32 color
  | OpUpdate rect => forall r i, rect = Some r -> is_u32 (r i)
  | OpCreateSurface sid flags format width height =>
      is_u32 sid /\ is_u32 flags /\ is_u32 format /\ is_u32 width /\ is_u32 height
  | OpDestroySurface id | OpCreateContext id | OpDestroyContext id => is_u32 id
  | OpSurfaceDMA2D sid transfer _ extra _ => is_u32 sid /\ is_u32 transfer /\ forall e, extra = Some e -> extra_typed e
  | OpSurfaceCopy src dst _ _ => is_u32 src /\ is_u32 dst
  | OpSurfaceStretch src dst mode _ _ => is_u32 src /\ is_u32 dst /\ is_u32 mode
  | OpPresent sid _ _ => is_u32 sid
  | OpSetRenderTarget cid rtype sid => is_u32 cid /\ is_u32 rtype /\ is_u32 sid
  | OpClear cid flags _ color depth stencil =>
      is_u32 cid /\ is_u32 flags /\ is_u32 color /\ is_u32 depth /\ is_u32 stencil
  | OpDraw cid decls ranges =>
      is_u32 cid /\ is_u32 (Z.of_nat (length decls)) /\ is_u32 (Z.of_nat (length ranges)) /\
      Forall (ok SVGA3dVertexDecl_c) decls /\ Forall (ok SVGA3dPrimitiveRange_c) ranges
  | OpTextureState cid states => is_u32 cid /\ Forall (ok SVGA3dTextureState_c) states
  | OpRenderState cid states => is_u32 cid /\ Forall (ok SVGA3dRenderState_c) states
  | OpSurfaceDMA3D image transfer box extra _ =>
      ok SVGA3dSurfaceImageId_c image /\ is_u32 transfer /\ (forall b, box = Some b -> ok SVGA3dCopyBox_c b) /\
      forall e, extra = Some e -> is_u32 e.(ex_mem_gmr_id) /\ is_u32 e.(ex_suffix_flags)
  | OpPrimaryScreen width height => is_u32 width /\ is_u32 height
  | OpBlitFromScreen screen _ extra _ | OpBlitToScreen screen _ extra _ =>
      is_u32 screen /\ forall e, extra = Some e -> extra_typed e
  | OpBlitSurface sid screen _ _ => is_u32 sid /\ is_u32 screen
  | OpVideoSetReg streamId registerId value _ => is_u32 streamId /\ is_u32 registerId /\ is_u32 value
  | OpVideoSetRegs streamId regs regMin regMax _ =>
      is_u32 streamId /\ 0 <= regMin /\ regMax < 2 ^ 16 /\ forall r i, regs = Some r -> is_u32 (r i)
  end.

Lemma u32_is x : is_u32 (u32 x).
Proof. apply wrap_range. lia. Qed.
Lemma is_u32_small x : 0 <= x < 2 ^ 32 -> is_u32 x.
Proof. done. Qed.
Lemma fence_cmd_ok nf : is_u32 nf -> acmd_ok (In2D (fence_cmd nf)).
Proof. intros Hn. cbn. unfold fence_no. destruct (nf =? 0); [by apply is_u32_small|done]. Qed.

Lemma sends_fence_typed fence a nf cmds : is_u32 nf -> Forall acmd_ok cmds -> Forall acmd_ok (sends_fence fence a nf cmds).(o_cmds).
Proof.
  intros Hn Hc. destruct fence; [|done]. apply Forall_app. split; [done|]. apply Forall_singleton. by apply fence_cmd_ok.
Qed.

Lemma if_typed (b : bool) a nf rc o : Forall acmd_ok o.(o_cmds) -> Forall acmd_ok (if b then o else refused a nf rc).(o_cmds).
Proof. by destruct b. Qed.

Local Ltac each_ok :=
  repeat match goal with
    | |- _ /\ _ => split
    | |- Forall _ [] => apply Forall_nil_2
    | |- Forall _ (_ :: _) => apply Forall_cons
    | |- Forall _ (_ <$> _) => apply Forall_fmap, Forall_forall; intros ? _; unfold compose
    | |- acmd_ok _ => cbn [acmd_ok ok3d cmd_ok]
    | |- ok _ _ => progress cbn
    end.
Local Ltac field := first [assumption | apply u32_is | apply is_u32_small; lia].

Lemma gmrfb_ok e : extra_typed e -> acmd_ok (gmrfb e).
Proof. intros He. unfold gmrfb. each_ok; try field. by apply is_u32_small. Qed.

Lemma video_cmd_typed streamId items : is_u32 streamId -> Z.of_nat (length items) <= 2 ^ 16 ->
  Forall (fun p => is_u32 p.1 /\ is_u32 p.2) items -> acmd_ok (In2D (video_cmd streamId items)).
Proof.
  intros Hs Hl Hi. unfold video_cmd. cbn [acmd_ok cmd_ok]. split.
  - cbn. split; [by apply is_u32_small|]. apply is_u32_small. lia.
  - unfold var_ok, escape_words. cbn [SVGAFifoCmdEscape_size]. split.
    + rewrite length_app, Nat2Z.inj_add, length_flat. cbn [length].
      replace (8 + 8 * Z.of_nat (length items) + 3) with (3 + (2 + 2 * Z.of_nat (length items)) * 4) by lia.
      rewrite Z.div_add by lia. change (3 / 4) with 0. lia.
    + cbn [app]. apply Forall_cons; [by apply is_u32_small|]. apply Forall_cons; [done|]. unfold flat.
      induction Hi as [|[k v] items [Hk Hv] _ IH]; [done|]. csimpl. apply Forall_cons; [done|]. apply Forall_cons; [done|].
      apply IH. cbn [length] in Hl. lia.
Qed.

(** Well-formed commands.  Whatever the arguments, as values of their C types, the
    commands that an operation stands for are well formed: every field fits its word,
    counts are those of the arrays, and coordinates that the additions take out of
    range are reduced to 32 bits. *)
Theorem accel_spec_typed a nf op : is_u32 nf -> op_typed op -> Forall acmd_ok (accel_spec a nf op).(o_cmds).
Proof.
  intros Hn Hop. destruct op; cbn [accel_spec op_typed] in Hop |- *.
  - destruct rects; [done|]. destruct (HaveFrontBuffer a); [done|]. apply if_typed. cbn [sends o_cmds]. each_ok; field.
  - destruct rects; [done|]. apply if_typed. cbn [sends o_cmds]. each_ok; try field; by apply is_u32_small.
  - destruct rect as [rect|]; [|done]. destruct (HaveFrontBuffer a); [done|]. apply if_typed. cbn [sends o_cmds].
    each_ok; by apply Hop.
  - destruct rgn as [rgn|]; [|done]. case_match; [done|]. case_match; [done|]. apply if_typed. case_match; [cbn [sends o_cmds]; unfold copy_cmd; each_ok; field|].
    case_match; [done|]. cbn [sends o_cmds]. unfold copy_cmd. each_ok; field.
  - destruct Hop as (? & ? & ? & ? & ?). apply if_typed. cbn [sends o_cmds]. each_ok; try field; done.
  - apply if_typed. cbn [sends o_cmds]. each_ok; field.
  - destruct extra as [e|]; [|done]. destruct Hop as (? & ? & He). specialize (He e eq_refl). apply if_typed, sends_fence_typed; [done|].
    each_ok; try field; try apply copy_box_ok; done.
  - destruct extra as [e|]; [|done]. destruct Hop. apply if_typed. cbn [sends o_cmds]. each_ok; try field; done.
  - destruct Hop as (? & ? & ?). apply if_typed. cbn [sends o_cmds]. each_ok; try field; done.
  - destruct extra as [e|]; [|done]. apply if_typed. cbn [o_cmds].
    apply Forall_cons; [|apply Forall_singleton; by apply fence_cmd_ok]. each_ok; try field; done.
  - apply if_typed. cbn [sends o_cmds]. each_ok; try field; done.
  - destruct Hop as (? & ? & ?). apply if_typed. cbn [sends o_cmds]. each_ok; try field; done.
  - destruct Hop as (? & ? & ? & ? & ?). apply if_typed. cbn [sends o_cmds]. each_ok; try field; done.
  - apply if_typed. cbn [sends o_cmds]. each_ok; try field; done.
  - apply if_typed. cbn [sends o_cmds]. each_ok; try field; done.
  - destruct Hop as (? & ? & ? & ? & ?). apply if_typed. cbn [sends o_cmds]. apply Forall_singleton.
    cbn [acmd_ok ok3d]. each_ok; try field; done.
  - destruct Hop. apply if_typed. cbn [sends o_cmds]. apply Forall_singleton. cbn [acmd_ok ok3d]. by each_ok.
  - destruct Hop. apply if_typed. cbn [sends o_cmds]. apply Forall_singleton. cbn [acmd_ok ok3d]. by each_ok.
  - destruct box as [box|]; [|done]. destruct extra as [e|]; [|done]. destruct Hop as ((? & ? & ?) & ? & Hb & He).
    specialize (Hb box eq_refl). destruct (He e eq_refl). apply if_typed, sends_fence_typed; [done|].
    apply Forall_singleton. cbn [acmd_ok ok3d]. split; [each_ok; try field; done|]. split; [by apply Forall_singleton|].
    each_ok; try field; by apply is_u32_small.
  - destruct Hop. apply if_typed. destruct (_ && _); [done|]. cbn [o_cmds]. apply Forall_singleton. cbn [primary_screen acmd_ok cmd_ok].
    split; [by apply is_u32_small|]. split; [done|]. each_ok; first [field|apply (u32_is (-2))].
  - destruct extra as [e|]; [|done]. destruct Hop as [? He]. specialize (He e eq_refl). apply if_typed, sends_fence_typed; [done|].
    apply Forall_cons; [by apply gmrfb_ok|]. apply Forall_fmap, Forall_forall. intros r _.
    unfold compose, blit_from. cbn [acmd_ok cmd_ok]. split; [apply origin_ok|]. split; [apply convert_rect_ok|done].
  - destruct extra as [e|]; [|done]. destruct Hop as [? He]. specialize (He e eq_refl). apply if_typed, sends_fence_typed; [done|].
    apply Forall_cons; [by apply gmrfb_ok|]. apply Forall_fmap, Forall_forall. intros r _.
    unfold compose, blit_to. cbn [acmd_ok cmd_ok]. split; [apply origin_ok|]. split; [apply convert_rect_ok|done].
  - destruct Hop. apply if_typed. cbn [sends o_cmds]. apply Forall_singleton. cbn [acmd_ok ok3d]. split.
    + split; [each_ok; field|]. split; [apply convert_rect_ok|]. split; [done|apply convert_rect_ok].
    + apply Forall_fmap, Forall_forall. intros r _. apply convert_rect_ok.
  - destruct Hop as (? & ? & ?). apply if_typed, sends_fence_typed; [done|].
    unfold video_cmd. each_ok; cbn; each_ok; try done; try (split; [done|]; each_ok); try field; by apply is_u32_small.
  - destruct Hop as (Hs & Hm & HM & Hregs). apply if_typed, sends_fence_typed; [done|]. apply Forall_app. split.
    + unfold video_regs. destruct regs as [regs|]; [|done]. destruct (Z.ltb_spec regMax regMin); [done|]. apply Forall_singleton.
      apply video_cmd_typed; [done| |].
      * unfold range_items. rewrite length_fmap, length_seqZ. lia.
      * apply Forall_fmap, Forall_forall. intros j _. split; [apply u32_is|by apply (Hregs regs)].
    + each_ok; cbn; each_ok; try done; try (split; [done|]; each_ok); try field; by apply is_u32_small.
Qed.

(** ** The hypotheses can be met *)

Definition demo_accel : Accel :=
  mk_Accel true true true (start_ids 64) 0 SVGA_ID_INVALID (u32 (-1)) (u32 (-1)) tracker_init 0 0x0400.
Definition demo_region : IOAccelDeviceRegion :=
  mk_region 2 (mk_bounds 0 0 64 32) [mk_bounds 0 0 64 16; mk_bounds 8 16 16 16].
Definition demo_ops : list accel_op :=
  [OpCreateSurface 5 0 2 64 32;
   OpSurfaceDMA2D 5 1 (Some demo_region) (Some (mk_ExtraInfo 4096 256 (-8) 0 0 4 7)) true;
   OpPresent 5 (Some demo_region) (Some (mk_ExtraInfo 0 0 0 0 100 100 0));
   OpSurfaceCopy 5 6 (Some demo_region) None;
   OpBlitToScreen 0 (Some demo_region) (Some (mk_ExtraInfo 0 256 0 0 0 0 7)) false;
   OpPrimaryScreen 640 480].

Lemma accel_stream_decodes_witness : exists d' consumed decoded,
  run_accel demo_accel demo_ops (Z.to_nat 4096) demo_dev =
    Some (([(kIOReturnSuccess, None); (kIOReturnSuccess, Some 1); (kIOReturnSuccess, None); (kIOReturnBadArgument, None);
            (kIOReturnSuccess, None); (kIOReturnSuccess, None)],
           set_primary_screen 640 480 (set_present_tracker (tracker_after 2 2 tracker_init) demo_accel)), d') /\
  ready d' /\ d'.(m_next_fence) = 3 /\
  decode_cmds 9 (consumed ++ queue d'.(fifo)) = Some decoded /\
  mapM of_cmd decoded = Some (accel_specs demo_accel 1 demo_ops).1.1.
Proof.
  apply (accel_stream_decodes (Z.to_nat 4096) demo_accel demo_ops demo_dev).
  - split; [exact demo_idle|reflexivity].
  - reflexivity.
  - unfold demo_ops. forall_list; done.
  - match goal with |- Forall _ ?l => let l' := eval vm_compute in l in change l with l' end.
    forall_list; cbn; range_solve; forall_list; cbn; range_solve.
  - match goal with |- rooms _ ?l => let l' := eval vm_compute in l in change l with l' end.
    unfold rooms. forall_list; apply demo_room; simpl; lia.
  - change (fifo demo_dev) with demo_fifo. by rewrite demo_rsize.
Defined.

Lemma accel_spec_typed_witness :
  Forall acmd_ok (accel_spec demo_accel 0 (OpPresent 5 (Some demo_region) (Some (mk_ExtraInfo 0 0 (- 2 ^ 31) 0 (2 ^ 31 - 1) 0 0)))).(o_cmds).
Proof. apply accel_spec_typed; vm_compute; intuition discriminate. Defined.
