(* ===== verification/AccelGmr.v ===== *)
(** Guest memory regions (createGMR, createGMR2, destroyGMR, destroyGMR2 of
    AC/CEsvga2Accel.cpp): the table of descriptors in which the accelerator tells the
    device where the pages of a region are, and the reading of it by the device.

    A memory descriptor of the kernel is the function [getPhysicalSegment] from an
    offset to the physical address there and the number of bytes that are contiguous;
    the address is zero at the end.  The buffer of the table is allocated by the
    kernel: the parameter [inTaskWithPhysicalMask] gives, for a number of pages, the code
    of [prepare] and the descriptor of the buffer, or nothing. *)

From S2P Require Import Prelude IOKit Layout SvgaReg SvgaCmd Fifo Ring FifoProofs SvgaDevice DeviceProofs Accel.

Definition PAGE_SHIFT : Z := 12.
Definition PAGE_SIZE : Z := 4096.

(** A descriptor: address and length of the segment at an offset. *)
Definition segments_fn : Type := Z -> Z * Z.

(** Descriptors in a page, less one for the link to the next page. *)
Definition dpp : Z := PAGE_SIZE / bsize SVGAGuestMemDescriptor_c - 1.
Definition max_bits : Z := PAGE_SHIFT + 8 * 4.

(** The first loop: the number of segments.  The outer [None]: out of fuel; the inner
    one: an address that the device cannot reach. *)
Fixpoint count_ranges (fuel : nat) (getPhysicalSegment : segments_fn) (offset num : Z) : option (option Z) :=
  match fuel with
  | O => None
  | S fuel =>
      let '(phys_addr, length) := getPhysicalSegment offset in
      if phys_addr =? 0 then Some (Some num)
      else if negb (Z.shiftr phys_addr max_bits =? 0) then Some None
      else count_ranges fuel getPhysicalSegment (u64 (offset + length)) (num + 1)
  end.

(** The pages of a segment. *)
Definition num_pages_of (phys_addr length : Z) : Z :=
  let length := u64 (length + Z.land phys_addr (PAGE_SIZE - 1)) in
  let length := Z.land (u64 (length + (PAGE_SIZE - 1))) (u64 (- PAGE_SIZE)) in
  u32 (Z.shiftr length PAGE_SHIFT).

(** Descriptor [n] of the table is the words [2 * n] and [2 * n + 1]. *)
Definition set_ppn (n v : Z) (mem : Z -> Z) : Z -> Z := upd mem (2 * n) v.
Definition set_num_pages (n v : Z) (mem : Z -> Z) : Z -> Z := upd mem (2 * n + 1) v.

(** The second loop.  [helper] is the descriptor of the table, [helper_ptr] the index
    of the next descriptor. *)
Fixpoint fill_table (fuel : nat) (md helper : segments_fn) (num_pages : Z) (mem : Z -> Z)
    (offset helper_ptr next_page in_page_count helper_ppn helper_length : Z) : option (Z -> Z) :=
  match fuel with
  | O => None
  | S fuel =>
      let '(phys_addr, length) := md offset in
      if phys_addr =? 0 then Some mem
      else
        let offset := u64 (offset + length) in
        let mem := set_ppn helper_ptr (u32 (Z.shiftr phys_addr PAGE_SHIFT)) mem in
        let mem := set_num_pages helper_ptr (num_pages_of phys_addr length) mem in
        let helper_ptr := helper_ptr + 1 in
        let in_page_count := in_page_count - 1 in
        let link helper_ppn helper_length :=
          let mem := set_ppn helper_ptr helper_ppn mem in
          fill_table fuel md helper num_pages mem offset (next_page * (PAGE_SIZE / bsize SVGAGuestMemDescriptor_c))
            (next_page + 1) dpp (u32 (helper_ppn + 1)) (u64 (helper_length - PAGE_SIZE)) in
        if negb (in_page_count =? 0) then
          fill_table fuel md helper num_pages mem offset helper_ptr next_page in_page_count helper_ppn helper_length
        else if 0 <? swrap 64 helper_length then link helper_ppn helper_length
        else if next_page <? num_pages then
          let '(phys_addr, helper_length) := helper (Z.shiftl next_page PAGE_SHIFT) in
          link (u32 (Z.shiftr phys_addr PAGE_SHIFT)) helper_length
        else Some mem
  end.

Section gmr.
Context {HS : Type} `{SvgaHost HS}.
Local Abbreviation M := (M HS).

(** A pure computation with fuel. *)
Definition with_fuel {A} (f : nat -> option A) : M A := fun fuel d => a ← f fuel; Some (a, d).

(** The second result is the table at the time when the device is told of it: the page
    number of its first page, and its contents. *)
Definition createGMR (a : Accel) (gmrId : Z) (md : option segments_fn)
    (inTaskWithPhysicalMask : Z -> option (IOReturn * segments_fn)) : M (IOReturn * option (Z * (Z -> Z))) :=
  match md with
  | None => mret (kIOReturnBadArgument, None)
  | Some md =>
      if negb a.(m_framebuffer) then mret (kIOReturnNoDevice, None)
      else
        cap ← HasCapability SVGA_CAP_GMR;
        if negb cap then mret (kIOReturnUnsupported, None)
        else
          n ← with_fuel (fun fuel => count_ranges fuel md 0 0);
          match n with
          | None => mret (kIOReturnUnsupported, None)
          | Some num_physical_ranges =>
              if num_physical_ranges =? 0 then mret (kIOReturnBadArgument, None)
              else
                let num_pages := (num_physical_ranges + (dpp - 1)) / dpp in
                max ← gets m_max_gmr_descriptor_length;
                if max <? num_physical_ranges + num_pages then mret (kIOReturnNoResources, None)
                else
                  match inTaskWithPhysicalMask num_pages with
                  | None => mret (kIOReturnNoResources, None)
                  | Some (rc, helper) =>
                      if negb (bool_decide (rc = kIOReturnSuccess)) then mret (rc, None)
                      else
                        let '(phys_addr, helper_length) := helper 0 in
                        let helper_base_ppn := u32 (Z.shiftr phys_addr PAGE_SHIFT) in
                        mem ← with_fuel (fun fuel =>
                          fill_table fuel md helper num_pages (fun _ => 0) 0 0 1 dpp
                            (u32 (helper_base_ppn + 1)) (u64 (helper_length - PAGE_SIZE)));
                        defineGMR gmrId helper_base_ppn;;
                        mret (kIOReturnSuccess, Some (helper_base_ppn, mem))
                  end
          end
  end.

(** The page numbers of [length] pages. *)
Definition ppns (phys_addr length : Z) : list Z := u32 <$> seqZ phys_addr length.

(** The loop of createGMR2 collects the page list; the inner [None]: an address that the
    device cannot reach. *)
Fixpoint page_list (fuel : nat) (md : segments_fn) (offset : Z) : option (option (list Z)) :=
  match fuel with
  | O => None
  | S fuel =>
      let '(phys_addr, length) := md offset in
      if phys_addr =? 0 then Some (Some [])
      else if negb (Z.shiftr phys_addr max_bits =? 0) then Some None
      else
        let offset := u64 (offset + length) in
        let length := u64 (length + Z.land phys_addr (PAGE_SIZE - 1)) in
        let length := Z.shiftr (u64 (length + (PAGE_SIZE - 1))) PAGE_SHIFT in
        match page_list fuel md offset with
        | None => None
        | Some None => Some None
        | Some (Some l) => Some (Some (ppns (Z.shiftr phys_addr PAGE_SHIFT) length ++ l))
        end
  end.

(** [IOMalloc] says whether the list could be allocated; it is written from the start,
    the rest of it is [garbage].  The source assumes that the region starts at a page
    boundary, so that the pages are as many as the list has room for. *)
Definition createGMR2 (a : Accel) (gmrId : Z) (md : option (segments_fn * Z)) (IOMalloc : Z -> bool) (garbage : list Z) : M IOReturn :=
  match md with
  | None => mret kIOReturnBadArgument
  | Some (md, getLength) =>
      if negb a.(m_framebuffer) then mret kIOReturnNoDevice
      else
        cap ← HasCapability SVGA_CAP_GMR2;
        if negb cap then mret kIOReturnUnsupported
        else
          let num_pages := Z.shiftr (u64 (getLength + PAGE_SIZE - 1)) PAGE_SHIFT in
          if num_pages =? 0 then mret kIOReturnBadArgument
          else
            max ← gets m_max_gmr_pages;
            if max <? num_pages then mret kIOReturnUnsupported
            else
              let list_size := num_pages * 4 in
              if negb (IOMalloc list_size) then mret kIOReturnNoMemory
              else
                l ← with_fuel (fun fuel => page_list fuel md 0);
                match l with
                | None => mret kIOReturnUnsupported
                | Some l =>
                    let ppn_list := take (Z.to_nat num_pages) (l ++ garbage) in
                    rc ← defineGMR2 gmrId (u32 num_pages);
                    if negb rc then mret kIOReturnDeviceError
                    else
                      remapGMR2 gmrId 0 0 (u32 num_pages) (Some ppn_list) list_size;;
                      mret kIOReturnSuccess
                end
  end.

Definition destroyGMR (a : Accel) (gmrId : Z) : M IOReturn :=
  if negb a.(m_framebuffer) then mret kIOReturnNoDevice
  else
    cap ← HasCapability SVGA_CAP_GMR;
    if negb cap then mret kIOReturnUnsupported
    else defineGMR gmrId 0;; mret kIOReturnSuccess.

Definition destroyGMR2 (a : Accel) (gmrId : Z) : M IOReturn :=
  if negb a.(m_framebuffer) then mret kIOReturnNoDevice
  else
    cap ← HasCapability SVGA_CAP_GMR2;
    if negb cap then mret kIOReturnUnsupported
    else defineGMR2 gmrId 0;; mret kIOReturnSuccess.
End gmr.

(** ** What the kernel's descriptors promise *)

(** From [offset] on, the memory consists of the segments [l]. *)
Inductive segments (f : segments_fn) : Z -> list (Z * Z) -> Prop :=
  | segments_end offset len : f offset = (0, len) -> segments f offset []
  | segments_next offset addr len l :
      f offset = (addr, len) -> addr <> 0 -> 0 < len -> 0 <= offset /\ offset + len < 2 ^ 64 ->
      segments f (offset + len) l -> segments f offset ((addr, len) :: l).

(** A segment that the device can reach, not in page 0. *)
Definition seg_ok (s : Z * Z) : Prop := PAGE_SIZE <= s.1 /\ 0 < s.2 /\ s.1 + s.2 <= 2 ^ 44.

(** A segment of the table: whole pages. *)
Definition table_seg_ok (s : Z * Z) : Prop := seg_ok s /\ s.1 mod PAGE_SIZE = 0 /\ s.2 mod PAGE_SIZE = 0.
Definition pages_of (l : list (Z * Z)) : list Z := l ≫= (fun s => seqZ (s.1 / PAGE_SIZE) (s.2 / PAGE_SIZE)).

(** ** The device's reading of the table *)

(** [page p i] is descriptor [i] of the physical page [p].  A page has 512 descriptors;
    the device does not read past it. *)
Fixpoint read_gmr (fuel : nat) (page : Z -> Z -> Z * Z) (p i : Z) : option (list (Z * Z)) :=
  match fuel with
  | O => None
  | S fuel =>
      if 512 <=? i then None
      else
        let '(ppn, numPages) := page p i in
        if numPages =? 0 then if ppn =? 0 then Some [] else read_gmr fuel page ppn 0
        else l ← read_gmr fuel page p (i + 1); Some ((ppn, numPages) :: l)
  end.

(** The table [mem], in the pages [pages] of physical memory. *)
Definition table_page (pages : list Z) (mem : Z -> Z) (p i : Z) : Z * Z :=
  match list_find (eq p) pages with
  | Some (k, _) => let n := 512 * Z.of_nat k + i in (mem (2 * n), mem (2 * n + 1))
  | None => (0, 0)
  end.

(** The page number and the number of pages of a segment. *)
Definition descriptor (s : Z * Z) : Z * Z :=
  (s.1 / PAGE_SIZE, (s.1 + s.2 - 1) / PAGE_SIZE - s.1 / PAGE_SIZE + 1).

Lemma shiftr_12 x : Z.shiftr x PAGE_SHIFT = x / PAGE_SIZE.
Proof. unfold PAGE_SHIFT, PAGE_SIZE. by rewrite Z.shiftr_div_pow2 by lia. Qed.

Lemma descriptor_pos s : seg_ok s -> 0 < (descriptor s).1 < 2 ^ 32 /\ 0 < (descriptor s).2 < 2 ^ 32.
Proof.
  intros (? & ? & ?). unfold descriptor, PAGE_SIZE in *. cbn [fst snd]. Z.to_euclidean_division_equations. lia.
Qed.

Lemma num_pages_of_spec s : seg_ok s -> num_pages_of s.1 s.2 = (descriptor s).2.
Proof.
  intros Hs. pose proof (descriptor_pos s Hs) as [_ Hd]. destruct s as [addr len]. destruct Hs as (Ha & Hl & Hs).
  unfold num_pages_of, descriptor, PAGE_SIZE in *. cbn [fst snd] in *.
  change (4096 - 1) with (Z.ones 12) at 1. rewrite Z.land_ones by lia. change (2 ^ 12) with 4096.
  pose proof (Z.mod_pos_bound addr 4096 ltac:(lia)).
  rewrite (wrap_small 64 (len + _)) by (unfold fits; lia). rewrite (wrap_small 64 (_ + _)) by (unfold fits; lia).
  rewrite Z.shiftr_land. change (Z.shiftr (u64 (- (4096))) PAGE_SHIFT) with (Z.ones 52).
  rewrite Z.land_ones, shiftr_12 by lia. unfold PAGE_SIZE.
  replace ((len + addr mod 4096 + (4096 - 1)) / 4096) with ((addr + len - 1) / 4096 - addr / 4096 + 1)
    by (Z.to_euclidean_division_equations; lia).
  rewrite Z.mod_small by lia. rewrite wrap_small; [done|]. unfold fits. lia.
Qed.

Lemma count_ranges_spec f l : forall fuel offset n, segments f offset l -> Forall seg_ok l -> (length l < fuel)%nat ->
  count_ranges fuel f offset n = Some (Some (n + Z.of_nat (length l))).
Proof.
  induction l as [|[addr len] l IH]; intros fuel offset n Hs Hok Hf; (destruct fuel as [|fuel]; [simpl in Hf; lia|]);
    cbn [count_ranges].
  - inversion Hs; subst. rewrite H. cbn. do 2 f_equal. lia.
  - inversion Hs; subst. rewrite H2. apply Forall_cons_1 in Hok as [[Ha Hb] Hok]. cbn [fst snd] in *.
    destruct (Z.eqb_spec addr 0); [done|].
    replace (Z.shiftr addr max_bits) with 0.
    2: { symmetry. apply Z.shiftr_eq_0; [unfold PAGE_SIZE in *; lia|].
         apply Z.log2_lt_pow2; unfold max_bits, PAGE_SHIFT, PAGE_SIZE in *; cbn; lia. }
    cbn [Z.eqb negb]. rewrite wrap_small by (unfold fits; lia). rewrite IH; [|done..|simpl in Hf; lia].
    do 2 f_equal. cbn [length]. lia.
Qed.

Section table.
Context (md helper : segments_fn) (pages : list Z).
Context (Hnodup : NoDup pages) (Hpos : Forall (fun p => 0 < p) pages).

(** What remains of the table's own pages after page [k]: [helper_length] bytes of the
    current segment, from page [helper_ppn] on, and the segments behind it. *)
Definition table_rest (k : nat) (helper_ppn helper_length : Z) : Prop := exists m l,
  0 <= m /\ helper_length = PAGE_SIZE * m /\ drop (S k) pages = seqZ helper_ppn m ++ pages_of l /\
  (0 < m -> 0 <= helper_ppn /\ helper_ppn + m <= 2 ^ 32) /\
  segments helper (PAGE_SIZE * (Z.of_nat (S k) + m)) l /\ Forall table_seg_ok l.

Lemma seqZ_more p m : 0 < m -> seqZ p m = p :: seqZ (p + 1) (m - 1).
Proof. intros. by rewrite seqZ_cons by done. Qed.

Lemma lookup_first k p l : drop k pages = p :: l -> pages !! k = Some p /\ drop (S k) pages = l.
Proof.
  intros E. split.
  - replace k with (k + 0)%nat by lia. by rewrite <-lookup_drop, E.
  - replace (S k) with (k + 1)%nat by lia. by rewrite <-drop_drop, E.
Qed.

Lemma rest_more k ppn len : table_rest k ppn len -> 0 < len < 2 ^ 63 ->
  pages !! S k = Some ppn /\ is_u32 ppn /\ table_rest (S k) (u32 (ppn + 1)) (u64 (len - PAGE_SIZE)).
Proof.
  intros (m & l & Hm & -> & Ed & Hb & Hs & Hl) Hlen. unfold PAGE_SIZE in *. assert (0 < m) as Hm' by lia.
  specialize (Hb Hm'). rewrite seqZ_more in Ed by done. apply lookup_first in Ed as [E1 E2].
  split; [done|]. split; [split; lia|]. exists (m - 1), l. rewrite wrap_small by (unfold fits; lia).
  split; [lia|]. split; [unfold PAGE_SIZE; lia|]. split; [|split; [|split; [|done]]].
  - destruct (Z.eq_dec m 1) as [->|]; [done|]. by rewrite (wrap_small 32) by (unfold fits; lia).
  - intros. rewrite wrap_small by (unfold fits; lia). lia.
  - by replace (Z.of_nat (S (S k)) + (m - 1)) with (Z.of_nat (S k) + m) by lia.
Qed.

(** At the end of a segment, the next one. *)
Lemma rest_next k ppn : table_rest k ppn 0 -> (S k < length pages)%nat -> exists addr len,
  helper (PAGE_SIZE * Z.of_nat (S k)) = (addr, len) /\ 0 < len < 2 ^ 63 /\ table_rest k (u32 (addr / PAGE_SIZE)) len.
Proof.
  intros (m & l & Hm & E0 & Ed & _ & Hs & Hl) Hk. assert (m = 0) as -> by (unfold PAGE_SIZE in *; lia).
  rewrite Z.add_0_r in Hs. change (seqZ ppn 0) with (@nil Z) in Ed. cbn [app] in Ed.
  destruct l as [|[addr len] l].
  { apply (f_equal length) in Ed. rewrite length_drop in Ed. simpl in Ed. lia. }
  inversion Hs; subst. apply Forall_cons_1 in Hl as [((Ha & Hlen & Hal) & Hm1 & Hm2) Hl]. cbn [fst snd] in *.
  unfold PAGE_SIZE in *.
  exists addr, len. split; [done|]. split; [lia|]. exists (len / 4096), l.
  pose proof (Z.div_mod len 4096 ltac:(lia)). pose proof (Z.div_mod addr 4096 ltac:(lia)).
  assert (0 <= addr / 4096 < 2 ^ 32) by (split; [apply Z.div_pos; lia|apply Z.div_lt_upper_bound; lia]).
  rewrite (wrap_small 32) by (unfold fits; lia).
  unfold PAGE_SIZE. split; [apply Z.div_pos; lia|]. split; [lia|]. split; [done|]. split; [|split; [|done]].
  - intros _. split; [lia|]. Z.to_euclidean_division_equations. lia.
  - by replace (4096 * (Z.of_nat (S k) + len / 4096)) with (4096 * Z.of_nat (S k) + len) by lia.
Qed.

Lemma table_page_at mem k p i : pages !! k = Some p ->
  table_page pages mem p i = (mem (2 * (512 * Z.of_nat k + i)), mem (2 * (512 * Z.of_nat k + i) + 1)).
Proof using Hnodup.
  intros Hk. unfold table_page. assert (list_find (eq p) pages = Some (k, p)) as ->; [|done].
  apply list_find_Some. split; [done|]. split; [done|]. intros k' p' Hk' Hlt ->.
  assert (k' = k) by (by eapply NoDup_lookup). lia.
Qed.

(** One step of the device: an entry, a link, the end. *)
Lemma read_entry fuel mem k p i : pages !! k = Some p -> i < 512 -> mem (2 * (512 * Z.of_nat k + i) + 1) <> 0 ->
  read_gmr (S fuel) (table_page pages mem) p i =
  l ← read_gmr fuel (table_page pages mem) p (i + 1);
  Some ((mem (2 * (512 * Z.of_nat k + i)), mem (2 * (512 * Z.of_nat k + i) + 1)) :: l).
Proof using Hnodup.
  intros Hk Hi Hn. cbn [read_gmr]. rewrite (table_page_at mem k p i Hk).
  destruct (Z.leb_spec 512 i); [lia|]. by destruct (Z.eqb_spec (mem (2 * (512 * Z.of_nat k + i) + 1)) 0).
Qed.

Lemma read_link fuel mem k p i : pages !! k = Some p -> i < 512 -> mem (2 * (512 * Z.of_nat k + i) + 1) = 0 ->
  read_gmr (S fuel) (table_page pages mem) p i =
  if mem (2 * (512 * Z.of_nat k + i)) =? 0 then Some []
  else read_gmr fuel (table_page pages mem) (mem (2 * (512 * Z.of_nat k + i))) 0.
Proof using Hnodup.
  intros Hk Hi Hn. cbn [read_gmr]. rewrite (table_page_at mem k p i Hk).
  destruct (Z.leb_spec 512 i); [lia|]. by rewrite Hn.
Qed.

(** The entry of a segment. *)
Definition put (n : Z) (s : Z * Z) (mem : Z -> Z) : Z -> Z := upd (upd mem (2 * n) (descriptor s).1) (2 * n + 1) (descriptor s).2.

Lemma put_before n s mem w : w < 2 * n -> put n s mem w = mem w.
Proof using. intros. unfold put. by rewrite !upd_ne by lia. Qed.
Lemma put_after n s mem w : 2 * (n + 1) <= w -> put n s mem w = mem w.
Proof using. intros. unfold put. by rewrite !upd_ne by lia. Qed.
Lemma put_ppn n s mem : put n s mem (2 * n) = (descriptor s).1.
Proof using. unfold put. rewrite upd_ne by lia. apply upd_eq. Qed.
Lemma put_num n s mem : put n s mem (2 * n + 1) = (descriptor s).2.
Proof using. apply upd_eq. Qed.

(** The step of the loop for a segment, with the table's entry made explicit. *)
Lemma fill_table_step fuel mem offset n next count ppn len addr seglen l :
  segments md offset ((addr, seglen) :: l) -> seg_ok (addr, seglen) ->
  let mem1 := put n (addr, seglen) mem in
  let link ppn len := fill_table fuel md helper (Z.of_nat (length pages)) (upd mem1 (2 * (n + 1)) ppn) (offset + seglen)
                        (next * 512) (next + 1) dpp (u32 (ppn + 1)) (u64 (len - PAGE_SIZE)) in
  fill_table (S fuel) md helper (Z.of_nat (length pages)) mem offset n next count ppn len =
  if negb (count - 1 =? 0) then
    fill_table fuel md helper (Z.of_nat (length pages)) mem1 (offset + seglen) (n + 1) next (count - 1) ppn len
  else if 0 <? swrap 64 len then link ppn len
  else if next <? Z.of_nat (length pages) then
    link (u32 ((helper (PAGE_SIZE * next)).1 / PAGE_SIZE)) (helper (PAGE_SIZE * next)).2
  else Some mem1.
Proof using.
  intros Hs Hok mem1 link. inversion Hs as [|? ? ? ? E Ha Hl Ho]; subst. cbn [fill_table]. rewrite E.
  destruct (Z.eqb_spec addr 0); [done|]. rewrite (wrap_small 64 (offset + seglen)) by (unfold fits; lia).
  rewrite shiftr_12. pose proof (descriptor_pos _ Hok) as [Hd _].
  change (addr / PAGE_SIZE) with (descriptor (addr, seglen)).1.
  rewrite (wrap_small 32) by (unfold fits; lia).
  change (num_pages_of addr seglen) with (num_pages_of (addr, seglen).1 (addr, seglen).2). rewrite num_pages_of_spec by done.
  rewrite Z.shiftl_mul_pow2 by (unfold PAGE_SHIFT; lia). rewrite (Z.mul_comm next (2 ^ PAGE_SHIFT)).
  change (2 ^ PAGE_SHIFT) with PAGE_SIZE. destruct (helper (PAGE_SIZE * next)) as [a b]. rewrite shiftr_12. done.
Qed.

(** What the loop leaves, from entry [j] of page [k] on. *)
Definition filled_from (mem mem' : Z -> Z) (k : nat) (j : Z) (l : list (Z * Z)) : Prop :=
  (forall w, w < 2 * (512 * Z.of_nat k + j) -> mem' w = mem w) /\
  forall p fuel, pages !! k = Some p -> (S (2 * length l) < fuel)%nat ->
    read_gmr fuel (table_page pages mem') p j = Some (descriptor <$> l).

Lemma filled_end mem k j : j < 512 -> (forall w, 2 * (512 * Z.of_nat k + j) <= w -> mem w = 0) -> filled_from mem mem k j [].
Proof using Hnodup.
  intros Hj Hz. split; [done|]. intros p fuel Hp Hf. destruct fuel; [simpl in Hf; lia|].
  rewrite (read_link _ _ k) by (done || apply Hz; lia). by rewrite Hz by lia.
Qed.

(** An entry, given how the reading goes on behind it. *)
Lemma read_put fuel mem mem' k j s l p : seg_ok s -> j < 511 -> pages !! k = Some p ->
  (forall w, 2 * (512 * Z.of_nat k + j) <= w < 2 * (512 * Z.of_nat k + j + 1) ->
     mem' w = put (512 * Z.of_nat k + j) s mem w) ->
  read_gmr fuel (table_page pages mem') p (j + 1) = Some (descriptor <$> l) ->
  read_gmr (S fuel) (table_page pages mem') p j = Some (descriptor <$> s :: l).
Proof using Hnodup.
  intros Hs Hj Hp Hb Hr. pose proof (descriptor_pos s Hs) as [_ Hd]. set (n := 512 * Z.of_nat k + j) in *.
  assert (mem' (2 * n) = (descriptor s).1) as E1 by (rewrite Hb by lia; apply put_ppn).
  assert (mem' (2 * n + 1) = (descriptor s).2) as E2 by (rewrite Hb by lia; apply put_num).
  rewrite (read_entry _ _ k) by (done || (fold n; lia)). fold n. rewrite E1, E2, Hr.
  cbn [mbind option_bind fmap list_fmap]. by rewrite <-surjective_pairing.
Qed.

Lemma filled_entry mem mem' k j s l : seg_ok s -> j < 511 ->
  filled_from (put (512 * Z.of_nat k + j) s mem) mem' k (j + 1) l -> filled_from mem mem' k j (s :: l).
Proof using Hnodup.
  intros Hs Hj [Hb Hr]. split.
  - intros w Hw. rewrite Hb by lia. apply put_before. lia.
  - intros p fuel Hp Hf. destruct fuel as [|fuel]; [simpl in Hf; lia|].
    apply (read_put fuel mem mem' k); [done..| |apply Hr; [done|simpl in Hf; lia]]. intros w Hw. apply Hb. lia.
Qed.

(** The last entry of a page, and the link to the next. *)
Lemma filled_link mem mem' k ppn s l : seg_ok s -> (forall w, 2 * (512 * Z.of_nat k + 510) <= w -> mem w = 0) -> 0 < ppn ->
  pages !! S k = Some ppn ->
  filled_from (upd (put (512 * Z.of_nat k + 510) s mem) (2 * (512 * Z.of_nat k + 511)) ppn) mem' (S k) 0 l ->
  filled_from mem mem' k 510 (s :: l).
Proof using Hnodup.
  intros Hs Hz Hpp Hk [Hb Hr]. split.
  - intros w Hw. rewrite Hb, upd_ne, put_before by lia. done.
  - intros p fuel Hp Hf. destruct fuel as [|[|fuel]]; [simpl in Hf; lia..|].
    apply (read_put _ mem mem' k); [done|lia|done| |].
    + intros w Hw. rewrite Hb, upd_ne by lia. done.
    + change (510 + 1) with 511. rewrite (read_link _ _ k); [|done|lia|].
      * rewrite Hb, upd_eq by lia. destruct (Z.eqb_spec ppn 0); [lia|]. apply Hr; [done|simpl in Hf; lia].
      * rewrite Hb, upd_ne, put_after by lia. apply Hz. lia.
Qed.

(** The loop writes the table. *)
Lemma fill_table_spec l : forall fuel mem offset k j ppn len,
  segments md offset l -> Forall seg_ok l -> (length l < fuel)%nat -> (k < length pages)%nat -> 0 <= j < 511 ->
  table_rest k ppn len -> len < 2 ^ 63 ->
  Z.of_nat (length l) <= 511 - j + 511 * (Z.of_nat (length pages) - 1 - Z.of_nat k) ->
  (forall w, 2 * (512 * Z.of_nat k + j) <= w -> mem w = 0) ->
  exists mem', fill_table fuel md helper (Z.of_nat (length pages)) mem offset (512 * Z.of_nat k + j) (Z.of_nat (S k)) (511 - j)
    ppn len = Some mem' /\ filled_from mem mem' k j l.
Proof using Hnodup Hpos.
  induction l as [|[addr seglen] l IH]; intros fuel mem offset k j ppn len Hs Hok Hf Hk Hj Hrest Hlen Hcap Hz;
    (destruct fuel as [|fuel]; [simpl in Hf; lia|]).
  { inversion Hs as [? ? E|]; subst. cbn [fill_table]. rewrite E. exists mem. split; [done|]. apply filled_end; [lia|done]. }
  apply Forall_cons_1 in Hok as [Hseg Hok]. cbn [length] in Hf, Hcap.
  rewrite (fill_table_step _ _ _ _ _ _ _ _ addr seglen l) by done.
  inversion Hs as [|? ? ? ? _ _ _ _ Hs']; subst. set (n := 512 * Z.of_nat k + j) in *.
  destruct (Z.eqb_spec (511 - j - 1) 0) as [Ej|Ej]; cbn [negb].
  2: { destruct (IH fuel (put n (addr, seglen) mem) (offset + seglen) k (j + 1) ppn len) as (mem' & E & Hr);
         [done|done|lia|done|lia|done|done|lia| |].
       - intros w Hw. rewrite put_after by lia. apply Hz. lia.
       - exists mem'. split; [|by apply filled_entry; [|lia|]].
         rewrite <-E. unfold n. f_equal; lia. }
  assert (j = 510) as -> by lia.
  assert (forall ppn' len', pages !! S k = Some ppn' -> table_rest (S k) (u32 (ppn' + 1)) (u64 (len' - PAGE_SIZE)) ->
    PAGE_SIZE <= len' < 2 ^ 63 ->
    exists mem', fill_table fuel md helper (Z.of_nat (length pages)) (upd (put n (addr, seglen) mem) (2 * (n + 1)) ppn')
      (offset + seglen) (Z.of_nat (S k) * 512) (Z.of_nat (S k) + 1) dpp (u32 (ppn' + 1)) (u64 (len' - PAGE_SIZE)) = Some mem' /\
      filled_from mem mem' k 510 ((addr, seglen) :: l)) as Hlink.
  { intros ppn' len' Hp Hr' Hl'. apply lookup_lt_Some in Hp as Hlt. pose proof (Forall_lookup_1 _ _ _ _ Hpos Hp) as Hpp.
    destruct (IH fuel (upd (put n (addr, seglen) mem) (2 * (n + 1)) ppn') (offset + seglen) (S k) 0 (u32 (ppn' + 1))
      (u64 (len' - PAGE_SIZE))) as (mem' & E & Hr); [done|done|lia|done|lia|done| |lia| |].
    - unfold PAGE_SIZE in *. rewrite wrap_small by (unfold fits; lia). lia.
    - intros w Hw. rewrite upd_ne, put_after by lia. apply Hz. lia.
    - exists mem'. split; [rewrite <-E; f_equal; unfold dpp; lia|].
      apply (filled_link _ _ _ ppn'); [done..|]. by replace (512 * Z.of_nat k + 511) with (n + 1) by lia. }
  assert (0 <= len) as Hlen0 by (destruct Hrest as (m & ? & ? & -> & _); unfold PAGE_SIZE; lia).
  replace (swrap 64 len) with len by (unfold swrap; rewrite wrap_small by (unfold fits; lia); zcase).
  destruct (Z.ltb_spec 0 len) as [Hl|Hl].
  { destruct (rest_more k ppn len Hrest ltac:(lia)) as (Hp & _ & Hr). apply Hlink; [done..|].
    destruct Hrest as (m & ? & ? & -> & _). unfold PAGE_SIZE in *. lia. }
  destruct (Z.ltb_spec (Z.of_nat (S k)) (Z.of_nat (length pages))) as [Hn|Hn].
  - assert (len = 0) as -> by lia. destruct (rest_next k ppn Hrest ltac:(lia)) as (addr' & len' & Eh & Hl' & Hr').
    rewrite Eh. cbn [fst snd]. destruct (rest_more k _ len' Hr' Hl') as (Hp & _ & Hr). apply Hlink; [done..|].
    destruct Hr' as (m & ? & ? & -> & _). unfold PAGE_SIZE in *. lia.
  - assert (l = []) as -> by (destruct l; [done|simpl in Hcap; lia]).
    exists (put n (addr, seglen) mem). split; [done|]. apply filled_entry; [done|lia|]. apply filled_end; [lia|].
    intros w Hw. rewrite put_after by lia. apply Hz. lia.
Qed.
End table.

(** The first page of the table, and the rest of it. *)
Lemma rest_first helper l : segments helper 0 l -> Forall table_seg_ok l -> pages_of l <> [] -> exists addr len,
  helper 0 = (addr, len) /\ is_u32 (addr / PAGE_SIZE) /\ pages_of l !! 0%nat = Some (addr / PAGE_SIZE) /\
  len < 2 ^ 63 /\ u64 (len - PAGE_SIZE) < 2 ^ 63 /\
  table_rest helper (pages_of l) 0 (u32 (addr / PAGE_SIZE + 1)) (u64 (len - PAGE_SIZE)).
Proof.
  intros Hs Hl Hne. destruct l as [|[addr len] l]; [done|]. inversion Hs as [|? ? ? ? E _ _ _ Hs']; subst.
  apply Forall_cons_1 in Hl as [((Ha & Hlen & Hal) & Hm1 & Hm2) Hl]. cbn [fst snd] in *. unfold PAGE_SIZE in *.
  pose proof (Z.div_mod len 4096 ltac:(lia)). pose proof (Z.div_mod addr 4096 ltac:(lia)).
  assert (0 < len / 4096) as Hm by lia.
  assert (pages_of ((addr, len) :: l) = addr / 4096 :: seqZ (addr / 4096 + 1) (len / 4096 - 1) ++ pages_of l) as Ep
    by (unfold pages_of; csimpl; unfold PAGE_SIZE; by rewrite (seqZ_more _ (len / 4096)) by done).
  assert (0 <= addr / 4096 < 2 ^ 32) by (split; [apply Z.div_pos; lia|apply Z.div_lt_upper_bound; lia]).
  exists addr, len. rewrite Ep. split; [done|]. split; [split; lia|]. split; [done|].
  rewrite (wrap_small 64) by (unfold fits; lia). split; [lia|]. split; [lia|].
  exists (len / 4096 - 1), l. unfold PAGE_SIZE. split; [lia|]. split; [lia|]. split; [|split; [|split; [|done]]].
  - cbn [drop]. destruct (Z.eq_dec (len / 4096) 1) as [->|]; [done|].
    by rewrite (wrap_small 32) by (unfold fits; Z.to_euclidean_division_equations; lia).
  - intros. rewrite (wrap_small 32) by (unfold fits; Z.to_euclidean_division_equations; lia).
    Z.to_euclidean_division_equations; lia.
  - replace (4096 * (Z.of_nat 1 + (len / 4096 - 1))) with (0 + len) by lia. done.
Qed.

Section properties.
Context {HS : Type} `{SvgaHost HS}.
Implicit Types (d : dev HS).

(** C33: the table of a memory region.  For a region of any segments that the device can
    reach, in a table whose own pages may lie anywhere, createGMR succeeds; it writes
    the id and then the page number of the table to the device, and when the device
    reads the table from that page, following the links between pages, it finds
    exactly the pages of the segments, in order. *)
Theorem createGMR_table a gmrId md segs alloc helper hsegs fuel d :
  let pages := pages_of hsegs in
  let num_pages := (Z.of_nat (length segs) + 510) / 511 in
  a.(m_framebuffer) = true -> has_bits d.(m_capabilities) SVGA_CAP_GMR = true ->
  segments md 0 segs -> Forall seg_ok segs -> segs <> [] ->
  Z.of_nat (length segs) + num_pages <= d.(m_max_gmr_descriptor_length) ->
  alloc num_pages = Some (kIOReturnSuccess, helper) ->
  segments helper 0 hsegs -> Forall table_seg_ok hsegs -> NoDup pages -> Z.of_nat (length pages) = num_pages ->
  (length segs < fuel)%nat ->
  exists base mem d',
    createGMR a gmrId (Some md) alloc fuel d = Some ((kIOReturnSuccess, Some (base, mem)), d') /\
    (WriteReg SVGA_REG_GMR_ID gmrId;; WriteReg SVGA_REG_GMR_DESCRIPTOR base) fuel d = Some (tt, d') /\
    forall rfuel, (S (2 * length segs) < rfuel)%nat ->
      read_gmr rfuel (table_page pages mem) base 0 = Some (descriptor <$> segs).
Proof.
  intros pages num_pages Hfb Hcap Hs Hok Hne Hmax Ha Hhs Hhok Hnd Hn Hf.
  assert (0 < Z.of_nat (length segs)) as Hlen by (destruct segs; [done|simpl; lia]).
  assert (0 < num_pages) as Hnp by (unfold num_pages; Z.to_euclidean_division_equations; lia).
  assert (pages <> []) as Hpne by (intros E; rewrite E in Hn; simpl in Hn; lia).
  destruct (rest_first helper hsegs Hhs Hhok Hpne) as (addr & len & Eh & Hu & Hp0 & Hl1 & Hl2 & Hrest).
  assert (Forall (fun p => 0 < p) pages) as Hpos.
  { unfold pages. apply Forall_bind. eapply Forall_impl; [|exact Hhok]. intros [a1 l1] ((Ha1 & ? & ?) & _ & _).
    apply Forall_forall. intros x Hx. apply list_elem_of_In, elem_of_seqZ in Hx. unfold PAGE_SIZE in *. cbn [fst snd] in *.
    Z.to_euclidean_division_equations; lia. }
  destruct (fill_table_spec md helper pages Hnd Hpos segs fuel (fun _ => 0) 0 0 0 _ _ Hs Hok Hf ltac:(destruct pages; [done|simpl; lia])
    ltac:(lia) Hrest Hl2) as (mem & E & Hfill); [|done|].
  { unfold num_pages in *. Z.to_euclidean_division_equations. lia. }
  assert (exists d', (WriteReg SVGA_REG_GMR_ID gmrId;; WriteReg SVGA_REG_GMR_DESCRIPTOR (addr / PAGE_SIZE)) fuel d = Some (tt, d'))
    as [d' Ed].
  { cbv [mbind M_bind WriteReg]. destruct (host_write _ _ _ _) as [h f]. destruct (host_write _ _ _ _) as [h' f']. eauto. }
  exists (addr / PAGE_SIZE), mem, d'. split; [|split; [done|]].
  2: { intros rfuel Hrf. by apply Hfill. }
  unfold createGMR. rewrite Hfb. cbn [negb].
  rewrite (mbind_eq _ _ fuel d true d) by (unfold HasCapability, gets, mbind, M_bind, mret, M_ret; by rewrite Hcap). cbn [negb].
  rewrite (mbind_eq _ _ fuel d (Some (Z.of_nat (length segs))) d)
    by (unfold with_fuel; by rewrite (count_ranges_spec md segs)).
  destruct (Z.eqb_spec (Z.of_nat (length segs)) 0); [lia|].
  change ((Z.of_nat (length segs) + (dpp - 1)) / dpp) with num_pages.
  rewrite (mbind_eq _ _ fuel d d.(m_max_gmr_descriptor_length) d eq_refl).
  destruct (Z.ltb_spec d.(m_max_gmr_descriptor_length) (Z.of_nat (length segs) + num_pages)); [lia|].
  rewrite Ha. rewrite bool_decide_true by done. cbn [negb]. rewrite Eh, shiftr_12, (wrap_small 32 (addr / PAGE_SIZE)) by done.
  rewrite (mbind_eq _ _ fuel d mem d).
  2: { unfold with_fuel. rewrite <-Hn.
       change (512 * Z.of_nat 0 + 0) with 0 in E. change (511 - 0) with dpp in E. change (Z.of_nat 1) with 1 in E. by rewrite E. }
  unfold defineGMR. rewrite mbind_assoc.
  rewrite (mbind_eq _ _ fuel d true d) by (unfold HasCapability, gets, mbind, M_bind, mret, M_ret; by rewrite Hcap). cbn [negb].
  transitivity (((WriteReg SVGA_REG_GMR_ID gmrId;; WriteReg SVGA_REG_GMR_DESCRIPTOR (addr / PAGE_SIZE));;
    mret (kIOReturnSuccess, Some (addr / PAGE_SIZE, mem))) fuel d).
  { rewrite !mbind_assoc. apply seq_ext; intros d1. by rewrite !mbind_assoc. }
  by rewrite (mbind_eq _ _ fuel d tt d' Ed).
Qed.
End properties.

(** ** The hypotheses can be met: 600 scattered pages, in a table of two pages *)

Definition demo_md : segments_fn := fun offset =>
  if offset <? 4096 * 600 then (4096 * (1000 + 2 * (offset / 4096)), 4096) else (0, 0).
Definition demo_segs (k : Z) : list (Z * Z) := (fun i => (4096 * (1000 + 2 * i), 4096)) <$> seqZ k (600 - k).
Definition demo_helper : segments_fn := fun offset =>
  if offset =? 0 then (4096 * 77, 4096) else if offset =? 4096 then (4096 * 55, 4096) else (0, 0).

Lemma demo_segments (n : nat) : forall k, 0 <= k -> 600 - k = Z.of_nat n -> segments demo_md (4096 * k) (demo_segs k).
Proof.
  unfold demo_segs. induction n as [|n IH]; intros k Hk Hn.
  - replace (600 - k) with 0 by lia. apply (segments_end _ _ 0). unfold demo_md. destruct (Z.ltb_spec (4096 * k) (4096 * 600)); [lia|done].
  - rewrite (seqZ_cons k) by lia. cbn [fmap list_fmap]. apply segments_next; [|lia|lia|lia|].
    + unfold demo_md. destruct (Z.ltb_spec (4096 * k) (4096 * 600)); [|lia]. by rewrite (Z.mul_comm 4096 k), Z.div_mul by lia.
    + replace (4096 * k + 4096) with (4096 * (k + 1)) by lia. replace (Z.pred (600 - k)) with (600 - (k + 1)) by lia.
      apply (IH (k + 1)); lia.
Qed.

Lemma demo_segs_ok k : 0 <= k -> Forall seg_ok (demo_segs k).
Proof.
  intros Hk. apply Forall_fmap, Forall_forall. intros i Hi. apply list_elem_of_In, elem_of_seqZ in Hi.
  unfold seg_ok, PAGE_SIZE. simpl. lia.
Qed.

Definition demo_gmr_dev : dev (Z -> Z) :=
  Dev (fun _ => 0) (fun _ => 0) (fun _ => 0) true true None 0 false 0 1 0x100000 640 480 2560 1024 768 64 1024 1024 0 0 0 0.
#[local] Instance silent_host : SvgaHost (Z -> Z) :=
  { host_run h f := (h, f); host_read h f r := (h r, (h, f)); host_write h f r v := (upd h r v, f) }.

Lemma createGMR_table_witness : exists base mem d',
  createGMR (mk_Accel true true true (AccelIds.start_ids 64) 0 0 0 0 AccelIds.tracker_init 0 0) 3 (Some demo_md)
    (fun n => if n =? 2 then Some (kIOReturnSuccess, demo_helper) else None) 601%nat demo_gmr_dev =
    Some ((kIOReturnSuccess, Some (base, mem)), d') /\
  (WriteReg SVGA_REG_GMR_ID 3;; WriteReg SVGA_REG_GMR_DESCRIPTOR base) 601%nat demo_gmr_dev = Some (tt, d') /\
  forall rfuel, (S (2 * length (demo_segs 0)) < rfuel)%nat ->
    read_gmr rfuel (table_page (pages_of [(4096 * 77, 4096); (4096 * 55, 4096)]) mem) base 0 = Some (descriptor <$> demo_segs 0).
Proof.
  apply (createGMR_table _ 3 demo_md (demo_segs 0) _ demo_helper [(4096 * 77, 4096); (4096 * 55, 4096)] 601 demo_gmr_dev).
  - reflexivity.
  - reflexivity.
  - apply (demo_segments 600 0); lia.
  - apply demo_segs_ok. lia.
  - discriminate.
  - vm_compute. discriminate.
  - reflexivity.
  - apply segments_next; [reflexivity|lia|lia|lia|]. apply segments_next; [reflexivity|lia|lia|lia|].
    apply (segments_end _ _ 0). reflexivity.
  - repeat apply Forall_cons; try apply Forall_nil_2; (split; [unfold seg_ok, PAGE_SIZE; simpl; lia|split; reflexivity]).
  - apply NoDup_ListNoDup. vm_compute. repeat (constructor; [simpl; intuition discriminate|]). constructor.
  - vm_compute. reflexivity.
  - vm_compute. lia.
Defined.
