(* ===== verification/Provider.v ===== *)
(** What a client of the accelerator asks of it.  The code of a client is a program:
    a tree of requests to the accelerator, to the 3D command layer that it hands out,
    and to the state that client and accelerator keep in memory.  A program runs in
    two ways: on the device, through the methods of the accelerator, and on the
    specification, where a request is the commands that it stands for.  The theorem of
    this file is that the two agree, so that a client is verified on the
    specification. *)

From S2P Require Import Allocator.
From S2P Require Import Prelude IOKit Layout SvgaReg SvgaCmd Fifo Ring FifoProofs SvgaDevice Bits.
From S2P Require Import DeviceProofs Driver Svga3dReg Svga3d Svga3dProofs AccelIds AccelBlit Accel AccelProofs AccelSpec.

(** ** Requests *)

(** The methods of the 3D command layer that clients call under the lock. *)
Inductive direct :=
  | DSetShader (cid type shid : Z)
  | DSetShaderConst (cid reg type : Z) (value : Z * Z * Z * Z)
  | DSetScissorRect (cid : Z) (rect : SVGA3dRect)
  | DSetViewport (cid : Z) (rect : SVGA3dRect)
  | DSetZRange (cid zMin zMax : Z)
  | DSetRenderTarget (cid type : Z) (target : SVGA3dSurfaceImageId)
  | DSetTextureState (cid : Z) (states : list SVGA3dTextureState)
  | DDefineSurface (sid flags format : Z) (faces : list SVGA3dSurfaceFace) (mips : list SVGA3dSize).

(** The memory that a client works on: the object of the accelerator, its allocator
    of video memory, the capabilities of the device and the client's own state. *)
Record world (S : Type) := mk_world {
  w_accel : Accel;
  w_vram : CEsvga2Allocator;
  w_caps : Z -> Z;
  w_client : S;
}.
Arguments mk_world {S}. Arguments w_accel {S}. Arguments w_vram {S}. Arguments w_caps {S}. Arguments w_client {S}.

Definition set_accel {S} (a : Accel) (w : world S) : world S := mk_world a w.(w_vram) w.(w_caps) w.(w_client).
Definition set_vram {S} (v : CEsvga2Allocator) (w : world S) : world S := mk_world w.(w_accel) v w.(w_caps) w.(w_client).
Definition set_client {S} (s : S) (w : world S) : world S := mk_world w.(w_accel) w.(w_vram) w.(w_caps) s.

(** What a client tells the device besides commands, and what an observer of memory
    sees: that the pages of region [id] are listed from page [ppn] on, and that memory
    is given back, a block of video memory or the pages of a descriptor. *)
Inductive tell :=
  | Region (id ppn : Z)
  | VramReturned (ptr : Z)
  | PagesGiven (md : Z)
  | PagesReturned (md : Z).

(** [Wild] is a read outside of the memory that the program may read. *)
Inductive prog (S A : Type) : Type :=
  | Ret (a : A)
  | Wild
  | Ask (op : accel_op) (k : IOReturn * option Z -> prog S A)
  | Direct (c : direct) (k : bool -> prog S A)
  | InsertFence (k : Z -> prog S A)
  | SyncToFence (fence : Z) (k : prog S A)
  | SyncFIFO (k : prog S A)
  | Tell (t : tell) (k : prog S A)
  | State (B : Set) (f : world S -> B * world S) (k : B -> prog S A).
Arguments Ret {S A}. Arguments Wild {S A}. Arguments Ask {S A}. Arguments Direct {S A}.
Arguments InsertFence {S A}. Arguments SyncToFence {S A}. Arguments SyncFIFO {S A}. Arguments Tell {S A}. Arguments State {S A}.

#[global] Instance prog_ret {S} : MRet (prog S) := fun _ a => Ret a.
#[global] Instance prog_bind {S} : MBind (prog S) := fun A B f =>
  fix go (p : prog S A) : prog S B :=
  match p with
  | Ret a => f a
  | Wild => Wild
  | Ask op k => Ask op (fun r => go (k r))
  | Direct c k => Direct c (fun r => go (k r))
  | InsertFence k => InsertFence (fun r => go (k r))
  | SyncToFence fence k => SyncToFence fence (go k)
  | SyncFIFO k => SyncFIFO (go k)
  | Tell t k => Tell t (go k)
  | State T f k => State T f (fun r => go (k r))
  end.

Section requests.
Context {S : Type}.
Local Abbreviation prog := (prog S).

Definition ask (op : accel_op) : prog (IOReturn * option Z) := Ask op Ret.
Definition direct_call (c : direct) : prog bool := Direct c Ret.
Definition insert_fence : prog Z := InsertFence Ret.
Definition sync_to (fence : Z) : prog unit := SyncToFence fence (Ret tt).
Definition sync_all : prog unit := SyncFIFO (Ret tt).
Definition tells (t : tell) : prog unit := Tell t (Ret tt).
Definition state {B : Set} (f : world S -> B * world S) : prog B := State B f Ret.
Definition gets {B : Set} (f : S -> B) : prog B := state (fun w => (f w.(w_client), w)).
Definition modify (f : S -> S) : prog unit := state (fun w => (tt, set_client (f w.(w_client)) w)).
Definition when (b : bool) (p : prog unit) : prog unit := if b then p else Ret tt.

(** [for (...)] over a list. *)
Fixpoint for_each {X} (body : X -> prog unit) (l : list X) : prog unit :=
  match l with
  | [] => Ret tt
  | x :: l => body x;; for_each body l
  end.

(** [m_provider->lock3D()]: null if the device has no 3D. *)
Definition lock3D : prog bool := state (fun w => (w.(w_accel).(bHaveSVGA3D), w)).
Definition getDevCap (index : Z) : prog Z := state (fun w => (w.(w_caps) index, w)).

(** Identifiers. *)
Definition allocSurfaceID : prog Z := state (fun w =>
  let '(id, i) := AllocSurfaceID w.(w_accel).(m_ids) in (id, set_accel (set_ids i w.(w_accel)) w)).
Definition freeSurfaceID (id : Z) : prog unit := state (fun w =>
  (tt, set_accel (set_ids (FreeSurfaceID id w.(w_accel).(m_ids)) w.(w_accel)) w)).
Definition allocContextID : prog Z := state (fun w =>
  let '(id, i) := AllocContextID w.(w_accel).(m_ids) in (id, set_accel (set_ids i w.(w_accel)) w)).
Definition freeContextID (id : Z) : prog unit := state (fun w =>
  (tt, set_accel (set_ids (FreeContextID id w.(w_accel).(m_ids)) w.(w_accel)) w)).

(** Video memory.  Addresses are those of the kernel's mapping; [None] is null. *)
Definition VRAMMalloc (bytes : Z) : prog (option Z) := state (fun w =>
  let '(_, p, v) := Malloc bytes true w.(w_vram) in (p, set_vram v w)).
Definition VRAMRealloc (ptr bytes : Z) : prog (option Z) := state (fun w =>
  let '(_, p, v) := Realloc ptr bytes true w.(w_vram) in (p, set_vram v w)).
Definition VRAMFree (ptr : Z) : prog unit := state (fun w => (tt, set_vram (Free ptr w.(w_vram)).2 w)).
Definition offsetInVRAM (ptr : Z) : prog Z := state (fun w => (u64 (ptr - w.(w_vram).(poolStart)), w)).

(** Stores to video memory, by a function on its words; the function gets the index of
    the word at the address. *)
Definition poke (ptr : Z) (f : Z -> (Z -> Z) -> (Z -> Z)) : prog unit := state (fun w =>
  let v := w.(w_vram) in (tt, set_vram (with_pool (f ((ptr - v.(poolStart)) / 4) v.(pool)) v) w)).
End requests.

(** ** On the device *)

Section device.
Context {HS : Type} `{SvgaHost HS}.
Local Abbreviation M := (M HS).

Definition run_direct (c : direct) : M bool :=
  match c with
  | DSetShader cid type shid => SetShader cid type shid
  | DSetShaderConst cid reg type (x, y, z, w) =>
      r ← SetShaderConst cid reg type SVGA3D_CONST_TYPE_FLOAT [x; y; z; w]; mret (bool_decide (r = kIOReturnSuccess))
  | DSetScissorRect cid rect => SetScissorRect cid rect
  | DSetViewport cid rect => SetViewport cid rect
  | DSetZRange cid zMin zMax => SetZRange cid zMin zMax
  | DSetRenderTarget cid type target => SetRenderTarget cid type target
  | DSetTextureState cid states =>
      st ← BeginSetTextureState cid (Z.of_nat (length states));
      match st with
      | None => mret false
      | Some st => store_words st 0 (states ≫= enc SVGA3dTextureState_c);; FIFOCommitAll;; mret true
      end
  | DDefineSurface sid flags format faces mips =>
      st ← BeginDefineSurface sid flags format (Z.of_nat (length mips));
      match st with
      | None => mret false
      | Some (p, q) =>
          (store_words p 0 (faces ≫= enc SVGA3dSurfaceFace_c);; store_words q 0 (mips ≫= enc SVGA3dSize_c));;
          FIFOCommitAll;; mret true
      end
  end.

Definition run_tell (t : tell) : M unit :=
  match t with
  | Region id ppn => defineGMR id ppn;; skip
  | VramReturned _ | PagesGiven _ | PagesReturned _ => skip
  end.

Fixpoint run {S A} (p : prog S A) (w : world S) : M (A * world S) :=
  match p with
  | Ret a => mret (a, w)
  | Wild => fun _ _ => None
  | Ask op k => r ← exec_op w.(w_accel) op; run (k r.1) (set_accel r.2 w)
  | Direct c k => b ← run_direct c; run (k b) w
  | InsertFence k => f ← SvgaDevice.InsertFence; run (k f) w
  | SyncToFence fence k => Accel.SyncToFence w.(w_accel) fence;; run k w
  | SyncFIFO k => Accel.SyncFIFO w.(w_accel);; run k w
  | Tell t k => run_tell t;; run k w
  | State _ f k => let '(b, w) := f w in run (k b) w
  end.
End device.

(** ** On the specification *)

(** What an observer of the requests sees: commands in the stream, points at which
    the driver waits until the device has passed a fence or has executed all commands,
    and what the client tells besides. *)
Inductive event := Sent (c : acmd) | Waited (fence : Z) | Drained | Told (t : tell).
#[global] Instance acmd_of_event : Inhabited event := populate (Waited 0).

Definition sent (l : list event) : list acmd := omap (fun e => match e with Sent c => Some c | _ => None end) l.

Definition direct_cmd (c : direct) : acmd :=
  In3D match c with
  | DSetShader cid type shid => ShaderSet (mk_SVGA3dCmdSetShader cid type shid)
  | DSetShaderConst cid reg type (x, y, z, w) =>
      ShaderConstSet (mk_SVGA3dCmdSetShaderConst cid reg type SVGA3D_CONST_TYPE_FLOAT
                        (const_values SVGA3D_CONST_TYPE_FLOAT [x; y; z; w]))
  | DSetScissorRect cid rect => ScissorRectSet (mk_SVGA3dCmdSetScissorRect cid rect)
  | DSetViewport cid rect => ViewportSet (mk_SVGA3dCmdSetViewport cid rect)
  | DSetZRange cid zMin zMax => ZRangeSet (mk_SVGA3dCmdSetZRange cid (mk_SVGA3dZRange zMin zMax))
  | DSetRenderTarget cid type target => RenderTargetSet (mk_SVGA3dCmdSetRenderTarget cid type target)
  | DSetTextureState cid states => TextureStateSet (mk_SVGA3dCmdSetTextureState cid) states
  | DDefineSurface sid flags format faces mips => SurfaceDefine (mk_SVGA3dCmdDefineSurface sid flags format faces) mips
  end.

(** The result, the events in order, the world and the number of the next fence. *)
Record trace (S A : Type) := mk_trace { t_result : A; t_events : list event; t_world : world S; t_next : Z }.
Arguments mk_trace {S A}. Arguments t_result {S A}. Arguments t_events {S A}. Arguments t_world {S A}. Arguments t_next {S A}.

Definition after {S A} (es : list event) (t : option (trace S A)) : option (trace S A) :=
  t ← t; Some (mk_trace t.(t_result) (es ++ t.(t_events)) t.(t_world) t.(t_next)).

Fixpoint spec {S A} (p : prog S A) (w : world S) (nf : Z) : option (trace S A) :=
  match p with
  | Ret a => Some (mk_trace a [] w nf)
  | Wild => None
  | Ask op k =>
      let o := accel_spec w.(w_accel) nf op in
      after (Sent <$> o.(o_cmds)) (spec (k o.(o_result)) (set_accel o.(o_accel) w) o.(o_next))
  | Direct c k => after [Sent (direct_cmd c)] (spec (k true) w nf)
  | InsertFence k => after [Sent (In2D (fence_cmd nf))] (spec (k (fence_no nf)) w (u32 (fence_no nf + 1)))
  | SyncToFence fence k => after (if w.(w_accel).(m_framebuffer) then [Waited fence] else []) (spec k w nf)
  | SyncFIFO k => after (if w.(w_accel).(m_framebuffer) then [Drained] else []) (spec k w nf)
  | Tell t k => after [Told t] (spec k w nf)
  | State _ f k => let '(b, w) := f w in spec (k b) w nf
  end.

(** The regions that a program passes have as many rectangles as they say. *)
Fixpoint regions_ok {S A} (p : prog S A) : Prop :=
  match p with
  | Ret _ | Wild => True
  | Ask op k => op_ok op /\ forall r, regions_ok (k r)
  | Direct _ k => forall r, regions_ok (k r)
  | InsertFence k => forall r, regions_ok (k r)
  | SyncToFence _ k | SyncFIFO k | Tell _ k => regions_ok k
  | State _ _ k => forall r, regions_ok (k r)
  end.

(** ** Laws *)

Section laws.
Context {S : Type}.
Implicit Types w : world S.

Lemma prog_ext {A B} (p : prog S A) (f g : A -> prog S B) w nf :
  (forall a w nf, spec (f a) w nf = spec (g a) w nf) -> spec (p ≫= f) w nf = spec (p ≫= g) w nf.
Proof.
  intros E. revert w nf. induction p as [a| |op k IH|c k IH|k IH|fence p IH|p IH|x p IH|T f' k IH]; intros w nf; cbn; auto.
  - by rewrite IH.
  - by rewrite IH.
  - by rewrite IH.
  - by rewrite IH.
  - by rewrite IH.
  - by rewrite IH.
  - destruct (f' w) as [b w']. apply IH.
Qed.

Lemma after_after {A} es es' (t : option (trace S A)) : after es (after es' t) = after (es ++ es') t.
Proof. destruct t; cbn; [|done]. by rewrite app_assoc. Qed.

Lemma after_nil {A} (t : option (trace S A)) : after [] t = t.
Proof. by destruct t as [[]|]. Qed.

Lemma after_Some {A} es (t : option (trace S A)) t' : after es t = Some t' ->
  exists t0, t = Some t0 /\ t' = mk_trace t0.(t_result) (es ++ t0.(t_events)) t0.(t_world) t0.(t_next).
Proof. destruct t as [t0|]; cbn; [|done]. intros [= <-]. by exists t0. Qed.

(** Sequences of programs are sequences of traces. *)
Lemma spec_bind {A B} (p : prog S A) (f : A -> prog S B) w nf :
  spec (p ≫= f) w nf =
  (t ← spec p w nf; after t.(t_events) (spec (f t.(t_result)) t.(t_world) t.(t_next))).
Proof.
  assert (forall es (u : option (trace S A)),
    (t ← after es u; after t.(t_events) (spec (f t.(t_result)) t.(t_world) t.(t_next))) =
    after es (t ← u; after t.(t_events) (spec (f t.(t_result)) t.(t_world) t.(t_next)))) as E.
  { intros es [t|]; [|done]. symmetry. apply (after_after es (t_events t)). }
  revert w nf. induction p as [a| |op k IH|c k IH|k IH|fence p IH|p IH|x p IH|T f' k IH]; intros w nf; cbn [spec mbind prog_bind].
  - cbn. by rewrite after_nil.
  - done.
  - rewrite E. f_equal. apply IH.
  - rewrite E. f_equal. apply IH.
  - rewrite E. f_equal. apply IH.
  - rewrite E. f_equal. apply IH.
  - rewrite E. f_equal. apply IH.
  - rewrite E. f_equal. apply IH.
  - destruct (f' w) as [b w']. apply IH.
Qed.

Lemma spec_assoc {A B C} (p : prog S A) (f : A -> prog S B) (g : B -> prog S C) w nf :
  spec ((p ≫= f) ≫= g) w nf = spec (p ≫= fun a => f a ≫= g) w nf.
Proof.
  revert w nf. induction p as [a| |op k IH|c k IH|k IH|fence p IH|p IH|x p IH|T f' k IH]; intros w nf; cbn [spec mbind prog_bind] in *.
  - done.
  - done.
  - f_equal. apply IH.
  - f_equal. apply IH.
  - f_equal. apply IH.
  - f_equal. apply IH.
  - f_equal. apply IH.
  - f_equal. apply IH.
  - destruct (f' w) as [b w']. apply IH.
Qed.

Lemma regions_ok_bind {A B} (p : prog S A) (f : A -> prog S B) :
  regions_ok p -> (forall a, regions_ok (f a)) -> regions_ok (p ≫= f).
Proof.
  intros Hp Hf. induction p as [a| |op k IH|c k IH|k IH|fence p IH|p IH|x p IH|T f' k IH]; cbn in *; auto.
  destruct Hp. auto.
Qed.

Lemma regions_ok_for {X} (body : X -> prog S unit) l :
  (forall x, regions_ok (body x)) -> regions_ok (for_each body l).
Proof. intros Hb. induction l; [done|]. by apply regions_ok_bind. Qed.

Lemma sent_app l l' : sent (l ++ l') = sent l ++ sent l'.
Proof. apply omap_app. Qed.

Lemma sent_Sent cmds : sent (Sent <$> cmds) = cmds.
Proof. induction cmds as [|c cmds IH]; [done|]. cbn. by f_equal. Qed.
End laws.

(** ** The device does what the specification says *)

Section refinement.
Context {HS : Type} `{SvgaHostOK HS} {S : Type}.
Implicit Types (d : dev HS) (w : world S).

Lemma run_direct_produces c d : ready d -> acmd_ok (direct_cmd c) -> rooms d [direct_cmd c] ->
  produces (run_direct c) d true d.(m_next_fence) (words_of [direct_cmd c]).
Proof.
  intros [Hi _] Hok Hr. apply Forall_cons_1 in Hr as [Hr _]. rewrite words_of_one.
  destruct c as [cid type shid| cid reg type [[[x y] z] v]|cid rect|cid rect|cid zMin zMax|cid type target|cid states|sid flags format faces mips];
    cbn [run_direct direct_cmd to_cmd acmd_ok] in *.
  - apply queues_produces; [by apply SetShader_queues|done..].
  - change true with ((fun r => bool_decide (r = kIOReturnSuccess)) kIOReturnSuccess).
    apply (produces_then _ (fun r => bool_decide (r = kIOReturnSuccess))).
    apply produces_emits; [done|].
    by apply (SetShaderConst_emits cid reg type SVGA3D_CONST_TYPE_FLOAT [x; y; z; v] d); [simpl; lia|..].
  - apply queues_produces; [by apply SetScissorRect_queues|done..].
  - apply queues_produces; [by apply SetViewport_queues|done..].
  - apply queues_produces; [by apply SetZRange_queues|done..].
  - apply queues_produces; [by apply SetRenderTarget_queues|done..].
  - apply queues_produces; [by apply BeginSetTextureState_queues|done..].
  - assert (produces (complete (BeginDefineSurface sid flags format (Z.of_nat (length mips)))
      (fun '(p, q) => store_words p 0 (faces ≫= enc SVGA3dSurfaceFace_c);; store_words q 0 (mips ≫= enc SVGA3dSize_c))) d true
      d.(m_next_fence) (encode_cmd (cmd3d (SurfaceDefine (mk_SVGA3dCmdDefineSurface sid flags format faces) mips)))) as Hp
      by (apply queues_produces; [by apply BeginDefineSurface_queues|done..]).
    intros fuel Hf. destruct (Hp fuel Hf) as (d' & E & Ha). exists d'. split; [|exact Ha]. rewrite <-E.
    unfold complete. apply mbind_ext. by intros [[p q]|] d1.
Qed.

Lemma run_tell_produces t d : ready d -> produces (run_tell t) d tt d.(m_next_fence) [].
Proof.
  intros [Hi _]. destruct t as [id ppn|ptr|md|md]; cbn [run_tell]; try by apply produces_ret.
  apply produces_keeps; [done|]. intros fuel _.
  destruct (has_bits d.(m_capabilities) SVGA_CAP_GMR) eqn:Ecap.
  - destruct (WriteReg_spec SVGA_REG_GMR_ID id fuel d (proj1 Hi) ltac:(done)) as (d1 & E1 & Hk1 & Hr1).
    destruct (WriteReg_spec SVGA_REG_GMR_DESCRIPTOR ppn fuel d1 (adv_ring _ _ (proj1 Hk1)) ltac:(done)) as (d2 & E2 & Hk2 & Hr2).
    exists d2. split; [|split; [by eapply keeps_trans|congruence]].
    unfold defineGMR, HasCapability, Fifo.gets, mbind, M_bind, mret, M_ret. rewrite Ecap. cbn [negb]. rewrite E1, E2. done.
  - exists d. split; [|split; [split; [apply adv_refl, Hi|done]|done]].
    unfold defineGMR, HasCapability, Fifo.gets, mbind, M_bind, mret, M_ret. rewrite Ecap. done.
Qed.

Lemma run_produces {A} (p : prog S A) : forall w d t, ready d -> regions_ok p ->
  spec p w d.(m_next_fence) = Some t -> Forall acmd_ok (sent t.(t_events)) -> rooms d (sent t.(t_events)) ->
  produces (run p w) d (t.(t_result), t.(t_world)) t.(t_next) (words_of (sent t.(t_events))).
Proof.
  assert (forall d d' nf ws cmds, advances d d' nf ws -> rooms d cmds -> rooms d' cmds) as Hrooms.
  { intros d d' nf ws cmds Ha Hr. eapply Forall_impl; [|exact Hr]. intros c. by apply (advances_room _ _ _ _ _ Ha). }
  induction p as [a| |op k IH|c k IH|k IH|fence p IH|p IH|x p IH|T f k IH]; intros w d t Hd Hp Ht Hok Hr; cbn [spec run] in *.
  - injection Ht as <-. apply produces_ret, Hd.
  - done.
  - apply after_Some in Ht as (t0 & Ht & ->). cbn [t_events t_result t_world t_next] in *.
    rewrite sent_app, sent_Sent in Hok, Hr |- *. apply Forall_app in Hok as [Hok1 Hok]. apply Forall_app in Hr as [Hr1 Hr].
    rewrite words_of_app. destruct Hp as [Hop Hk].
    eapply produces_bind; [by apply exec_op_correct|]. intros d' Ha. pose proof (advances_ready _ _ _ _ Ha Hd) as Hd'.
    apply IH; [done|apply Hk| |done|by eapply Hrooms]. destruct Ha as [-> _]. exact Ht.
  - apply after_Some in Ht as (t0 & Ht & ->). cbn [t_events t_result t_world t_next] in *.
    rewrite sent_app in Hok, Hr |- *. apply Forall_app in Hok as [Hok1 Hok]. apply Forall_app in Hr as [Hr1 Hr].
    rewrite words_of_app. apply Forall_cons_1 in Hok1 as [Hok1 _].
    eapply produces_bind; [by apply run_direct_produces|]. intros d' Ha. pose proof (advances_ready _ _ _ _ Ha Hd) as Hd'.
    apply IH; [done|apply Hp| |done|by eapply Hrooms]. destruct Ha as [-> _]. exact Ht.
  - apply after_Some in Ht as (t0 & Ht & ->). cbn [t_events t_result t_world t_next] in *.
    rewrite sent_app in Hok, Hr |- *. apply Forall_app in Hok as [Hok1 Hok]. apply Forall_app in Hr as [Hr1 Hr].
    change (sent [Sent ?c]) with [c]. rewrite words_of_app, words_of_one. apply Forall_cons_1 in Hr1 as [Hr1 _].
    eapply produces_bind; [by apply produces_fence|]. intros d' Ha. pose proof (advances_ready _ _ _ _ Ha Hd) as Hd'.
    apply IH; [done|apply Hp| |done|by eapply Hrooms]. destruct Ha as [-> _]. exact Ht.
  - apply after_Some in Ht as (t0 & Ht & ->). cbn [t_events t_result t_world t_next] in *.
    assert (sent ((if m_framebuffer (w_accel w) then [Waited fence] else []) ++ t_events t0) = sent (t_events t0)) as Es
      by by destruct (m_framebuffer (w_accel w)).
    rewrite Es in *. unfold Accel.SyncToFence. destruct (m_framebuffer (w_accel w)); cbn [negb].
    + apply (produces_silent _ _ d kIOReturnSuccess _ d.(m_next_fence)).
      { apply (produces_then _ (fun _ => kIOReturnSuccess) d tt). apply produces_sync, Hd. }
      intros d' Ha. pose proof (advances_ready _ _ _ _ Ha Hd) as Hd'.
      apply IH; [done|done| |done|by eapply Hrooms]. destruct Ha as [-> _]. exact Ht.
    + apply (produces_silent _ _ d kIOReturnNoDevice _ d.(m_next_fence)); [apply produces_ret, Hd|].
      intros d' Ha. pose proof (advances_ready _ _ _ _ Ha Hd) as Hd'.
      apply IH; [done|done| |done|by eapply Hrooms]. destruct Ha as [-> _]. exact Ht.
  - apply after_Some in Ht as (t0 & Ht & ->). cbn [t_events t_result t_world t_next] in *.
    assert (sent ((if m_framebuffer (w_accel w) then [Drained] else []) ++ t_events t0) = sent (t_events t0)) as Es
      by by destruct (m_framebuffer (w_accel w)).
    rewrite Es in *. unfold Accel.SyncFIFO. destruct (m_framebuffer (w_accel w)); cbn [negb].
    + apply (produces_silent _ _ d kIOReturnSuccess _ d.(m_next_fence)).
      { apply (produces_then _ (fun _ => kIOReturnSuccess) d tt). apply produces_drain, Hd. }
      intros d' Ha. pose proof (advances_ready _ _ _ _ Ha Hd) as Hd'.
      apply IH; [done|done| |done|by eapply Hrooms]. destruct Ha as [-> _]. exact Ht.
    + apply (produces_silent _ _ d kIOReturnNoDevice _ d.(m_next_fence)); [apply produces_ret, Hd|].
      intros d' Ha. pose proof (advances_ready _ _ _ _ Ha Hd) as Hd'.
      apply IH; [done|done| |done|by eapply Hrooms]. destruct Ha as [-> _]. exact Ht.
  - apply after_Some in Ht as (t0 & Ht & ->). cbn [t_events t_result t_world t_next] in *.
    change (sent ([Told x] ++ ?l)) with (sent l) in *.
    eapply produces_silent; [by apply run_tell_produces|].
    intros d' Ha. pose proof (advances_ready _ _ _ _ Ha Hd) as Hd'.
    apply IH; [done|done| |done|by eapply Hrooms]. destruct Ha as [-> _]. exact Ht.
  - destruct (f w) as [b w']. by apply IH.
Qed.
End refinement.
