(* ===== verification/VertexArray.v ===== *)
(** The buffer for vertices and indices (AC/GL/VertexArray.cpp): one block of video
    memory and one surface of the device.  Pieces are handed out one after the other;
    when the block is full it is used again from its start, after the device has
    passed the fence of the last transfer, and when a request exceeds it, a larger
    block replaces it. *)

From S2P Require Import Allocator.
From S2P Require Import AllocatorLists AllocatorProofs AllocatorMalloc AllocatorFree AllocatorSpec.
From S2P Require Import Prelude IOKit Layout SvgaReg SvgaCmd Fifo SvgaDevice Svga3dReg Svga3d AccelIds AccelBlit.
From S2P Require Import Accel AccelProofs AccelSpec ShaderCache Provider.

Definition PAGE_SIZE : Z := 4096.
Definition PAGE_MASK : Z := 4095.

(** A null pointer is [None]. *)
Record VertexArray := mk_VertexArray {
  kernel_ptr : option Z;
  size_bytes : Z;
  offset_in_gmr : Z;
  next_avail : Z;
  va_sid : Z;
  va_gmr_id : Z;
  va_fence : Z;
}.

Definition set_fence (f : Z) (v : VertexArray) : VertexArray :=
  mk_VertexArray v.(kernel_ptr) v.(size_bytes) v.(offset_in_gmr) v.(next_avail) v.(va_sid) v.(va_gmr_id) f.
Definition set_next_avail (n : Z) (v : VertexArray) : VertexArray :=
  mk_VertexArray v.(kernel_ptr) v.(size_bytes) v.(offset_in_gmr) n v.(va_sid) v.(va_gmr_id) v.(va_fence).
Definition set_sid (s : Z) (v : VertexArray) : VertexArray :=
  mk_VertexArray v.(kernel_ptr) v.(size_bytes) v.(offset_in_gmr) v.(next_avail) s v.(va_gmr_id) v.(va_fence).
Definition set_gmr_id (g : Z) (v : VertexArray) : VertexArray :=
  mk_VertexArray v.(kernel_ptr) v.(size_bytes) v.(offset_in_gmr) v.(next_avail) v.(va_sid) g v.(va_fence).

(** The other fields of a new object are zero. *)
Definition init (v : VertexArray) : VertexArray := set_gmr_id SVGA_ID_INVALID (set_sid SVGA_ID_INVALID v).

Section array.
Context {S : Type}.
Local Abbreviation prog := (prog S).

(** [if (fence) { provider->SyncToFence(fence); fence = 0U; }] *)
Definition sync (v : VertexArray) : prog VertexArray :=
  if v.(va_fence) =? 0 then mret v
  else sync_to v.(va_fence);; mret (set_fence 0 v).

Definition drop_surface (v : VertexArray) : prog VertexArray :=
  if isIdValid v.(va_sid) then
    ask (OpDestroySurface v.(va_sid));;
    freeSurfaceID v.(va_sid);;
    mret (set_sid SVGA_ID_INVALID v)
  else mret v.

(** [provider] says whether the pointer is not null. *)
Definition purge (provider : bool) (v : VertexArray) : prog VertexArray :=
  if negb provider then mret v
  else
    v ← sync v;
    let v := set_gmr_id SVGA_ID_INVALID v in
    v ← (match v.(kernel_ptr) with
         | None => mret v
         | Some p => VRAMFree p;; mret (mk_VertexArray None 0 0 0 v.(va_sid) v.(va_gmr_id) v.(va_fence))
         end);
    drop_surface v.

(** The label [done]. *)
Definition take_piece (num_bytes : Z) (v : VertexArray) : IOReturn * option Z * VertexArray :=
  match v.(kernel_ptr) with
  | Some p => (kIOReturnSuccess, Some (p + v.(next_avail)), set_next_avail (u64 (v.(next_avail) + num_bytes)) v)
  | None => (kIOReturnNoMemory, None, v)
  end.

Definition round4 (num_bytes : Z) : Z := Z.land (u64 (num_bytes + 4 - 1)) (u64 (- 4)).
Definition round_page (num_bytes : Z) : Z := Z.land (u64 (num_bytes + PAGE_MASK)) (u64 (- PAGE_SIZE)).

Definition surface_flags : Z :=
  Z.lor (Z.lor SVGA3D_SURFACE_HINT_VERTEXBUFFER SVGA3D_SURFACE_HINT_DYNAMIC) SVGA3D_SURFACE_HINT_WRITEONLY.

(** A new surface and a new block. *)
Definition alloc_block (num_bytes : Z) (v : VertexArray) : prog (IOReturn * option Z * VertexArray) :=
  let alloc_bytes := round_page num_bytes in
  sid ← allocSurfaceID;
  let v := set_sid sid v in
  rc ← ask (OpCreateSurface sid surface_flags SVGA3D_BUFFER (u32 alloc_bytes) 1);
  if negb (bool_decide (rc.1 = kIOReturnSuccess)) then
    freeSurfaceID sid;; mret (rc.1, None, set_sid SVGA_ID_INVALID v)
  else
    p ← VRAMMalloc alloc_bytes;
    match p with
    | None => v ← purge true v; mret (kIOReturnNoMemory, None, v)
    | Some p =>
        off ← offsetInVRAM p;
        mret (take_piece num_bytes
                (mk_VertexArray (Some p) alloc_bytes off v.(next_avail) v.(va_sid) GMR_VRAM v.(va_fence)))
    end.

(** The second result is the address. *)
Definition alloc (provider : bool) (num_bytes : Z) (v : VertexArray) : prog (IOReturn * option Z * VertexArray) :=
  if negb provider then mret (kIOReturnNotReady, None, v)
  else
    let num_bytes := round4 num_bytes in
    match v.(kernel_ptr) with
    | None => alloc_block num_bytes v
    | Some p =>
        if u64 (v.(next_avail) + num_bytes) <=? v.(size_bytes) then mret (take_piece num_bytes v)
        else if num_bytes <=? v.(size_bytes) then
          v ← sync v; mret (take_piece num_bytes (set_next_avail 0 v))
        else v ← purge true v; alloc_block num_bytes v
    end.

(** The second result is the surface, if the code gets that far. *)
Definition upload (provider : bool) (p num_bytes : Z) (v : VertexArray) : prog (IOReturn * option Z * VertexArray) :=
  let kp := default 0 v.(kernel_ptr) in
  if negb provider then mret (kIOReturnNotReady, None, v)
  else if p <? kp then mret (kIOReturnUnderrun, None, v)
  else
    let additional_offset := p - kp in
    if v.(size_bytes) <? u64 (additional_offset + num_bytes) then mret (kIOReturnOverrun, None, v)
    else
      let extra := mk_ExtraInfoEx (u64 (v.(offset_in_gmr) + additional_offset)) 0 num_bytes v.(va_gmr_id) 3 in
      let copyBox := mk_SVGA3dCopyBox 0 0 0 (u32 num_bytes) 1 1 0 0 0 in
      r ← ask (OpSurfaceDMA3D (image0 v.(va_sid)) SVGA3D_WRITE_HOST_VRAM (Some copyBox) (Some extra) true);
      mret (r.1, Some v.(va_sid), match r.2 with Some f => set_fence f v | None => v end).
End array.

(** ** Rounding *)

Lemma land_neg_pow2 x k : 0 <= k < 64 -> Z.land (u64 x) (u64 (- 2 ^ k)) = 2 ^ k * (u64 x / 2 ^ k).
Proof.
  intros Hk. unfold wrap. rewrite <-!Z.land_ones by lia.
  rewrite <-Z.land_assoc, (Z.land_comm (Z.ones 64)), <-Z.land_assoc, Z.land_diag.
  rewrite (Z.land_comm (- 2 ^ k)), Z.land_assoc.
  replace (- 2 ^ k) with (Z.lnot (Z.ones k)) by (rewrite Z.ones_equiv; unfold Z.lnot; lia).
  rewrite <-Z.ldiff_land, Z.ldiff_ones_r, Z.shiftl_mul_pow2, Z.shiftr_div_pow2 by lia. lia.
Qed.

Lemma round_up n k : 0 < k -> 0 <= n -> let r := k * ((n + (k - 1)) / k) in n <= r < n + k /\ r mod k = 0.
Proof.
  intros Hk Hn r. pose proof (Z_div_mod_eq_full (n + (k - 1)) k). pose proof (Z.mod_pos_bound (n + (k - 1)) k Hk).
  split; [subst r; lia|]. unfold r. rewrite Z.mul_comm. by apply Z_mod_mult.
Qed.

Lemma round4_spec n : 0 <= n < 2 ^ 62 -> n <= round4 n < n + 4 /\ round4 n mod 4 = 0.
Proof.
  intros Hn. unfold round4. pose proof (land_neg_pow2 (n + 4 - 1) 2 ltac:(lia)) as E. change (- 2 ^ 2) with (-4) in E. change (2 ^ 2) with 4 in E. rewrite E.
  rewrite wrap_small by (unfold fits; lia). replace (n + 4 - 1) with (n + (4 - 1)) by lia. apply (round_up n 4); lia.
Qed.

Lemma round_page_spec n : 0 <= n < 2 ^ 62 -> n <= round_page n < n + PAGE_SIZE /\ round_page n mod PAGE_SIZE = 0.
Proof.
  intros Hn. unfold round_page, PAGE_SIZE, PAGE_MASK. pose proof (land_neg_pow2 (n + 4095) 12 ltac:(lia)) as E. change (- 2 ^ 12) with (- (4096)) in E. change (2 ^ 12) with 4096 in E. rewrite E.
  rewrite wrap_small by (unfold fits; lia). apply (round_up n 4096); lia.
Qed.

(** ** Ownership *)

(** The pieces handed out since the buffer was last known to be unused, the last one
    first: they lie one below the other, so that no two overlap. *)
Fixpoint stacked (top : Z) (live : list (Z * Z)) : Prop :=
  match live with
  | [] => True
  | (off, n) :: live => 0 <= off /\ 0 <= n /\ off + n <= top /\ off mod 4 = 0 /\ stacked off live
  end.

Definition apart (r r' : Z * Z) : Prop := r.1 + r.2 <= r'.1 \/ r'.1 + r'.2 <= r.1.

Lemma stacked_mono top top' live : stacked top live -> top <= top' -> stacked top' live.
Proof. destruct live as [|[off n] live]; [done|]. cbn. intros (? & ? & ? & ? & ?) ?. repeat split; try done; lia. Qed.

Lemma stacked_below top off n live : stacked top live -> top <= off -> Forall (apart (off, n)) live.
Proof.
  revert top. induction live as [|[o m] live IH]; intros top; [done|]. cbn. intros (? & ? & ? & ? & Hs) ?.
  apply Forall_cons; [right; cbn; lia|]. apply (IH o Hs). lia.
Qed.

(** The state of the buffer between operations: no block, or a block of the allocator
    that is large enough, next to the blocks [A] of other owners. *)
Record owns {S} (F : Z -> list Z) (A : list (Z * Z)) (w : world S) (v : VertexArray) (live : list (Z * Z)) : Prop := {
  own_start : 0 < w.(w_vram).(poolStart);
  own_high : w.(w_vram).(poolStart) < 2 ^ 63;
  own_dev : w.(w_accel).(m_framebuffer) = true;
  own_block :
    match v.(kernel_ptr) with
    | None => inv w.(w_vram) F A /\ v.(size_bytes) = 0 /\ v.(next_avail) = 0 /\ v.(va_fence) = 0 /\ live = []
    | Some p => exists o b, p = w.(w_vram).(poolStart) + 4096 * o /\ inv w.(w_vram) F ((o, b) :: A) /\
        0 <= v.(size_bytes) <= 4096 * 2 ^ b /\ v.(offset_in_gmr) = 4096 * o /\ v.(va_gmr_id) = GMR_VRAM /\
        0 <= v.(next_avail) <= v.(size_bytes) /\ v.(next_avail) mod 4 = 0 /\ stacked v.(next_avail) live
    end;
}.

(** The transfers from the buffer have been waited for. *)
Definition waited (v : VertexArray) (es : list event) : Prop := v.(va_fence) = 0 \/ Waited v.(va_fence) ∈ es.

Section proofs.
Context {S : Type}.
Implicit Types (w : world S) (v : VertexArray).

Lemma sync_spec w v nf : w.(w_accel).(m_framebuffer) = true ->
  exists es, spec (sync v) w nf = Some (mk_trace (set_fence 0 v) es w nf) /\ waited v es.
Proof.
  intros Hfb. unfold sync, waited. destruct (Z.eqb_spec v.(va_fence) 0) as [E|E].
  - exists []. split; [|by left]. destruct v. cbn in *. by rewrite E.
  - exists [Waited v.(va_fence)]. split; [cbn; by rewrite Hfb|]. right. by left.
Qed.

Lemma drop_surface_spec F A w v nf : owns F A w v [] -> v.(kernel_ptr) = None ->
  exists t, spec (drop_surface v) w nf = Some t /\ owns F A t.(t_world) t.(t_result) [] /\ t.(t_result).(kernel_ptr) = None.
Proof.
  intros [Hst Hhi Hdev Hb] Hk. unfold drop_surface. destruct (isIdValid _).
  - eexists. split; [reflexivity|]. cbn [t_world t_result]. split; [|done]. rewrite Hk in Hb.
    split; cbn; destruct (bHaveSVGA3D (w_accel w)); cbn; try done; by rewrite Hk.
  - eexists. split; [reflexivity|]. by split.
Qed.

(** [spec_bind] for a first program whose trace is known. *)
Lemma spec_seq {B C} (p : prog S B) (f : B -> prog S C) w nf t : spec p w nf = Some t ->
  spec (p ≫= f) w nf = after t.(t_events) (spec (f t.(t_result)) t.(t_world) t.(t_next)).
Proof. intros E. by rewrite spec_bind, E. Qed.

Lemma free_block F A w v live nf : owns F A w v live ->
  let v' := mk_VertexArray None 0 0 0 v.(va_sid) SVGA_ID_INVALID 0 in
  forall p, v.(kernel_ptr) = Some p -> exists w' F',
    spec (VRAMFree p) w nf = Some (mk_trace tt [] w' nf) /\ owns F' A w' v' [].
Proof.
  intros [Hst Hhi Hdev Hb] v' p Hk. rewrite Hk in Hb. destruct Hb as (o & b & -> & Hi & _).
  destruct (Free_ok _ _ _ _ _ Hi Hst) as (s' & F' & E & Hi' & _ & Es & _).
  exists (set_vram s' w), F'. split; [cbn; by rewrite E|]. split; cbn; rewrite ?Es; try done.
Qed.

Lemma purge_spec F A w v live nf : owns F A w v live ->
  exists t F', spec (purge true v) w nf = Some t /\ owns F' A t.(t_world) t.(t_result) [] /\
    t.(t_result).(kernel_ptr) = None /\ waited v t.(t_events).
Proof.
  intros Ho. pose proof Ho as [Hst Hhi Hdev Hb]. destruct (sync_spec w v nf Hdev) as (es & Es & Hw). unfold purge. cbn [negb].
  rewrite (spec_seq _ _ w nf _ Es). cbn [t_events t_result t_world t_next].
  assert (forall (u : option (trace S VertexArray)) F',
    (exists t, u = Some t /\ owns F' A t.(t_world) t.(t_result) [] /\ t.(t_result).(kernel_ptr) = None) ->
    exists t F', after es u = Some t /\ owns F' A t.(t_world) t.(t_result) [] /\
      t.(t_result).(kernel_ptr) = None /\ waited v t.(t_events)) as Hafter.
  { intros u F' (t & -> & Hot & Hkt). eexists _, F'. split; [reflexivity|]. cbn. split; [done|]. split; [done|].
    destruct Hw as [?|?]; [by left|right; apply elem_of_app; by left]. }
  destruct (kernel_ptr v) as [p|] eqn:Hk.
  - destruct (free_block F A w v live nf Ho p Hk) as (w' & F' & Ef & Ho'). eapply (Hafter _ F').
    cbn [kernel_ptr set_gmr_id set_fence]. rewrite Hk, spec_bind, (spec_seq (VRAMFree p) _ w nf _ Ef), after_nil.
    cbn [t_events t_result t_world t_next spec mret prog_ret mbind option_bind]. rewrite after_nil.
    by apply drop_surface_spec.
  - apply (Hafter _ F). cbn [kernel_ptr set_gmr_id set_fence]. rewrite Hk.
    destruct Hb as (Hi & Hs & Hn & Hf & ->).
    apply (drop_surface_spec F A w (set_gmr_id SVGA_ID_INVALID (set_fence 0 v))); [|done].
    split; try done. cbn. by rewrite Hk.
Qed.
Lemma block_offset s F A o b : inv s F ((o, b) :: A) -> 0 <= o < 2 ^ 20.
Proof.
  intros Hi. destruct (inv_alloc _ _ _ Hi o b) as (Hb & Ho & He & _); [left|].
  pose proof (inv_store _ _ _ Hi) as [[_ _ Hblk] _ _ _ _]. pose proof (pow2_pos b Hb). lia.
Qed.

(** What the result of an allocation of [n] bytes means: the piece lies in the block,
    on a word, apart from the pieces that are in use. *)
Definition piece (n : Z) (old : list (Z * Z)) (F : Z -> list Z) (A : list (Z * Z)) (t : trace S (IOReturn * option Z * VertexArray))
    : Prop :=
  let '(rc, p, v) := t.(t_result) in
  match p with
  | None => rc <> kIOReturnSuccess /\ exists live, owns F A t.(t_world) v live
  | Some p => rc = kIOReturnSuccess /\ exists kp off, v.(kernel_ptr) = Some kp /\ p = kp + off /\
      0 <= off /\ off + n <= v.(size_bytes) /\ off mod 4 = 0 /\ Forall (apart (off, n)) old /\
      owns F A t.(t_world) v ((off, n) :: old)
  end.

Lemma take_piece_spec F A w v live n es nf : owns F A w v live -> v.(kernel_ptr) <> None ->
  0 <= n -> n mod 4 = 0 -> v.(next_avail) + n <= v.(size_bytes) ->
  piece n live F A (mk_trace (take_piece n v) es w nf).
Proof.
  intros [Hst Hhi Hdev Hb] Hk Hn Hn4 Hfit. unfold piece, take_piece. cbn [t_result t_world].
  destruct (kernel_ptr v) as [kp|] eqn:Ek; [|done]. destruct Hb as (o & b & -> & Hi & Hs & Ho & Hg & Ha & Ha4 & Hl).
  destruct (block_offset _ _ _ _ _ Hi) as [H0 H1].
  assert (u64 (v.(next_avail) + n) = v.(next_avail) + n) as E.
  { apply wrap_small. unfold fits. destruct (inv_alloc _ _ _ Hi o b) as (Hb & _); [left|]. unfold size_ok in Hb.
    pose proof (Z.pow_le_mono_r 2 b 12). lia. }
  split; [done|]. exists (w.(w_vram).(poolStart) + 4096 * o), v.(next_avail).
  split; [done|]. split; [done|]. split; [lia|]. split; [done|]. split; [done|].
  split; [by eapply stacked_below|]. split; try done. cbn. rewrite Ek, E. exists o, b.
  repeat (split; [done || lia|]). split; [rewrite Z.add_mod, Ha4, Hn4 by lia; done|].
  split; [lia|]. split; [lia|]. split; [lia|]. by split.
Qed.

Lemma alloc_block_spec F A w v n nf : owns F A w v [] -> v.(kernel_ptr) = None -> 0 <= n < 2 ^ 62 -> n mod 4 = 0 ->
  exists t F', spec (alloc_block n v) w nf = Some t /\ piece n [] F' A t.
Proof.
  intros Ho Hk Hn Hn4. pose proof Ho as [Hst Hhi Hdev Hb]. rewrite Hk in Hb. destruct Hb as (Hi & Hs & Ha & Hf & _).
  unfold alloc_block, allocSurfaceID, ask. cbn [mbind prog_bind spec state].
  destruct (AllocSurfaceID _) as [sid i]. cbn [accel_spec w_accel set_accel].
  destruct (bHaveSVGA3D _); cbn [sends refused o_cmds o_result o_accel o_next fst].
  2: { eexists _, F. split; [reflexivity|]. cbn. split; [done|]. exists []. split; cbn; try done. by rewrite Hk. }
  rewrite bool_decide_true by done. cbn [negb].
  set (a' := set_ids i (w_accel w)). set (w1 := set_accel a' (set_accel a' w)).
  assert (owns F A w1 (set_sid sid v) []) as Ho1 by (split; cbn; try done; by rewrite Hk).
  assert (forall es u F', (exists t, u = Some t /\ piece n [] F' A t) ->
    exists t F', after (S := S) es u = Some t /\ piece n [] F' A t) as Hafter.
  { intros es u F' (t & -> & Hp). eexists _, F'. split; [reflexivity|]. exact Hp. }
  unfold VRAMMalloc. cbn [mbind prog_bind spec state]. change (w_vram w1) with (w_vram w).
  destruct (Malloc_ok (w_vram w) F A (round_page n) Hi) as [(o & b & s' & F' & -> & Hb & [Hle _] & Ht)|(ret & -> & Hret & _)].
  - apply (Hafter _ _ F'). eexists. split; [reflexivity|].
    destruct Ht as [Hi' _ Est _ _]. destruct (block_offset _ _ _ _ _ Hi') as [H0 H1].
    pose proof (round_page_spec n Hn) as [Hr _].
    apply take_piece_spec; [|done|lia|done|cbn; lia].
    split; cbn; rewrite ?Est; try done. exists o, b. split; [done|]. split; [done|]. split; [lia|].
    split; [rewrite wrap_small; [lia|unfold fits; lia]|]. split; [done|]. rewrite Ha. split; [lia|]. by split.
  - assert (owns F A (set_vram (w_vram w) w1) (set_sid sid v) []) as Ho2 by (split; cbn; try done; by rewrite Hk).
    destruct (purge_spec F A _ _ [] nf Ho2) as (t & F' & Et & Hot & _). apply (Hafter _ _ F').
    rewrite (spec_seq _ _ _ _ _ Et). eexists. split; [reflexivity|]. cbn. split; [done|]. by exists [].
Qed.

(** C28: vertex memory.  An allocation of the vertex buffer always returns.  On success
    the piece lies inside of the block that the buffer has from the allocator of video
    memory, at the address of a word, and overlaps no piece that may still be in use:
    either the earlier pieces remain in use and the new one is apart from all of them,
    or they are given up, and then the driver has waited for the fence of the last
    transfer from the buffer.  The blocks of other owners are not affected, and after a
    failure the buffer is well formed too. *)
Theorem alloc_safe F A w v live n nf :
  owns F A w v live -> 0 <= n < 2 ^ 61 ->
  exists t F' old, spec (alloc true n v) w nf = Some t /\ piece (round4 n) old F' A t /\
    (old = live \/ old = [] /\ waited v t.(t_events)).
Proof.
  intros Ho Hn. pose proof Ho as [Hst Hhi Hdev Hb]. pose proof (round4_spec n) as [Hr Hr4]; [lia|].
  unfold alloc. cbn [negb]. destruct (kernel_ptr v) as [kp|] eqn:Hk.
  - destruct Hb as (o & b & Hkp & Hi & Hs & Hoff & Hg & Ha & Ha4 & Hl).
    destruct (inv_alloc _ _ _ Hi o b) as (Hb & _); [left|].
    assert (4096 * 2 ^ b <= 2 ^ 24) as Hsz by (unfold size_ok in Hb; pose proof (Z.pow_le_mono_r 2 b 12); lia).
    rewrite wrap_small by (unfold fits; lia). destruct (Z.leb_spec (v.(next_avail) + round4 n) v.(size_bytes)).
    { eexists _, F, live. split; [reflexivity|]. split; [|by left]. apply take_piece_spec; try done; [by rewrite Hk|lia]. }
    destruct (Z.leb_spec (round4 n) v.(size_bytes)).
    + destruct (sync_spec w v nf Hdev) as (es & Es & Hw). rewrite (spec_seq _ _ _ _ _ Es).
      eexists _, F, []. split; [reflexivity|]. cbn [t_result t_world t_events]. split.
      * apply take_piece_spec; [|cbn; by rewrite Hk|lia|done|cbn; lia].
        split; try done. cbn. rewrite Hk. exists o, b. repeat (split; [done || lia|]). by split.
      * right. split; [done|]. rewrite app_nil_r. exact Hw.
    + destruct (purge_spec F A w v live nf Ho) as (t & F' & Et & Hot & Hkt & Hw). rewrite (spec_seq _ _ _ _ _ Et).
      destruct (alloc_block_spec F' A _ _ (round4 n) t.(t_next) Hot Hkt) as (t' & F'' & -> & Hp); [lia|done|].
      eexists _, F'', []. split; [reflexivity|]. split; [exact Hp|]. right. split; [done|]. cbn.
      destruct Hw as [?|?]; [by left|right; apply elem_of_app; by left].
  - destruct Hb as (Hi & Hs & Hnx & Hf & ->).
    destruct (alloc_block_spec F A w v (round4 n) nf Ho Hk) as (t & F' & Et & Hp); [lia|done|].
    exists t, F', []. split; [done|]. split; [done|]. by left.
Qed.
(** The command that moves [n] bytes of video memory at [off] to the start of a surface. *)
Definition transfer (v : VertexArray) (off n : Z) : acmd :=
  In3D (SurfaceDMA (mk_SVGA3dCmdSurfaceDMA (mk_SVGA3dGuestImage (mk_SVGAGuestPtr v.(va_gmr_id) (u32 off)) 0)
                      (image0 v.(va_sid)) SVGA3D_WRITE_HOST_VRAM)
          [mk_SVGA3dCopyBox 0 0 0 (u32 n) 1 1 0 0 0] (Some (mk_SVGA3dCmdSurfaceDMASuffix 12 (u32 n) 3))).

Lemma upload_spec F A w v live off n nf kp :
  owns F A w v live -> w.(w_accel).(bHaveSVGA3D) = true -> v.(kernel_ptr) = Some kp -> 0 <= off -> 0 <= n < 2 ^ 62 ->
  off + n <= v.(size_bytes) ->
  spec (upload true (kp + off) n v) w nf =
    Some (mk_trace (kIOReturnSuccess, Some v.(va_sid), set_fence (fence_no nf) v)
            [Sent (transfer v (v.(offset_in_gmr) + off) n); Sent (In2D (fence_cmd nf))] w (u32 (fence_no nf + 1))) /\
  owns F A w (set_fence (fence_no nf) v) live.
Proof.
  intros Ho H3 Hk Hoff Hn Hfit. pose proof Ho as [Hst Hhi Hdev Hb]. rewrite Hk in Hb.
  destruct Hb as (o & b & -> & Hi & Hs & Eo & Hrest). destruct (block_offset _ _ _ _ _ Hi) as [H0 H1].
  destruct (inv_alloc _ _ _ Hi o b) as (Hb & _); [left|]. unfold size_ok in Hb. pose proof (Z.pow_le_mono_r 2 b 12).
  split; [|split; try done; cbn; rewrite Hk; exists o, b; by repeat (split; [done|])].
  unfold upload. cbn [negb]. rewrite Hk.
  set (kp := poolStart (w_vram w) + 4096 * o) in *. rewrite (eq_refl : default 0 (Some kp) = kp).
  rewrite (proj2 (Z.ltb_ge (kp + off) kp)) by lia. replace (kp + off - kp) with off by lia.
  rewrite wrap_small by (unfold fits; lia). rewrite (proj2 (Z.ltb_ge _ _)) by lia.
  unfold ask. cbn [mbind prog_bind spec accel_spec]. rewrite H3. cbn [sends_fence o_cmds o_result o_accel o_next guest_image_ex
    ex_mem_gmr_id ex_mem_offset_in_gmr ex_mem_pitch ex_mem_limit ex_suffix_flags fst snd mret prog_ret].
  rewrite (wrap_small 64) by (unfold fits; lia). unfold transfer. by destruct w.
Qed.
End proofs.

(** ** The hypotheses can be met *)

Definition fresh : VertexArray := init (mk_VertexArray None 0 0 0 0 0 0).
Definition demo_world {S} (s : S) : world S := mk_world demo_accel demo (fun _ => 0) s.

Lemma fresh_owns {S} (s : S) : exists F, owns F [] (demo_world s) fresh [].
Proof. destruct demo_inv as [F Hi]. exists F. by split. Qed.

(** A piece of 5000 bytes from a buffer that has no block yet. *)
Lemma alloc_safe_witness : exists F t F' old, owns F [] (demo_world tt) fresh [] /\
  spec (alloc true 5000 fresh) (demo_world tt) 1 = Some t /\ piece (round4 5000) old F' [] t /\
  (old = [] \/ old = [] /\ waited fresh t.(t_events)).
Proof.
  destruct (fresh_owns tt) as [F HF]. destruct (alloc_safe F [] (demo_world tt) fresh [] 5000 1 HF ltac:(lia)) as (t & F' & old & H).
  exists F, t, F', old. split; [exact HF|exact H].
Defined.
