(* ===== verification/Float32.v ===== *)
(** Single precision numbers as the words that represent them: the arithmetic that the
    command processor does on coordinates is that of IEEE 754 with rounding to nearest,
    taken from the Standard Library's [SpecFloat].  A number that is not a number has
    one representation. *)

From Stdlib Require Import SpecFloat.
From S2P Require Import Prelude.

(** ** Representation *)

Definition prec : Z := 24.
Definition emax : Z := 128.
Definition sign_bit (s : bool) : Z := if s then 2 ^ 31 else 0.

(** A mantissa with its exponent. *)
Definition finite (s : bool) (m e : Z) : spec_float :=
  match m with Zpos m => S754_finite s m e | _ => S754_zero s end.

Definition float_of_word (w : Z) : spec_float :=
  let s := 2 ^ 31 <=? w in
  let e := (w / 2 ^ 23) mod 2 ^ 8 in
  let m := w mod 2 ^ 23 in
  if e =? 255 then (if m =? 0 then S754_infinity s else S754_nan)
  else if e =? 0 then finite s m (-149)
  else finite s (2 ^ 23 + m) (e - 150).

Definition word_of_float (f : spec_float) : Z :=
  match f with
  | S754_zero s => sign_bit s
  | S754_infinity s => sign_bit s + 255 * 2 ^ 23
  | S754_nan => 0x7FC00000
  | S754_finite s m e =>
      u32 (sign_bit s + (if Zpos m <? 2 ^ 23 then Zpos m else (e + 150) * 2 ^ 23 + (Zpos m - 2 ^ 23)))
  end.

(** ** Operations on words *)

Definition fadd (x y : Z) : Z := word_of_float (SFadd prec emax (float_of_word x) (float_of_word y)).
Definition fsub (x y : Z) : Z := word_of_float (SFsub prec emax (float_of_word x) (float_of_word y)).
Definition fmul (x y : Z) : Z := word_of_float (SFmul prec emax (float_of_word x) (float_of_word y)).
Definition fdiv (x y : Z) : Z := word_of_float (SFdiv prec emax (float_of_word x) (float_of_word y)).

(** The conversion from an integer. *)
Definition float_of_int (n : Z) : Z := word_of_float (binary_normalize prec emax n 0 false).

(** The conversion to a 32-bit unsigned integer, by way of one of 64 bits, of which
    the lower half remains: towards zero; what does not fit in 64 bits becomes the
    least number of 64 bits, whose lower half is zero. *)
Definition uint_of_float (w : Z) : Z :=
  match float_of_word w with
  | S754_finite s m e =>
      let a := if 0 <=? e then Zpos m * 2 ^ e else Zpos m / 2 ^ (- e) in
      if a <? 2 ^ 63 then u32 (if s then - a else a) else 0
  | _ => 0
  end.

Definition float_half : Z := 0x3F000000.
Definition float_one : Z := 0x3F800000.

(** ** Laws *)

Lemma word_of_float_typed f : is_u32 (word_of_float f).
Proof.
  destruct f as [s|s| |s m e]; cbn [word_of_float].
  - by destruct s.
  - by destruct s.
  - done.
  - apply wrap_range. lia.
Qed.

Definition is_nan (w : Z) : bool := ((w / 2 ^ 23) mod 2 ^ 8 =? 255) && negb (w mod 2 ^ 23 =? 0).

Lemma word_fields w : is_u32 w -> w = sign_bit (2 ^ 31 <=? w) + ((w / 2 ^ 23) mod 2 ^ 8) * 2 ^ 23 + w mod 2 ^ 23.
Proof.
  unfold fits. intros Hw. unfold sign_bit. pose proof (Z_div_mod_eq_full w (2 ^ 23)).
  pose proof (Z_div_mod_eq_full (w / 2 ^ 23) (2 ^ 8)).
  assert (w / 2 ^ 23 / 2 ^ 8 = if 2 ^ 31 <=? w then 1 else 0) as E.
  { rewrite Z.div_div by lia. change (2 ^ 23 * 2 ^ 8) with (2 ^ 31). destruct (Z.leb_spec (2 ^ 31) w).
    - symmetry. apply (Z.div_unique w (2 ^ 31) 1 (w - 2 ^ 31)); lia.
    - apply Z.div_small. lia. }
  destruct (2 ^ 31 <=? w); lia.
Qed.

(** Every word but those of the numbers that are not numbers represents itself. *)
Lemma word_float_word w : is_u32 w -> is_nan w = false -> word_of_float (float_of_word w) = w.
Proof.
  intros Hw Hn. unfold is_nan in Hn. pose proof (word_fields w Hw) as E. unfold float_of_word.
  pose proof (Z.mod_pos_bound w (2 ^ 23)). pose proof (Z.mod_pos_bound (w / 2 ^ 23) (2 ^ 8)).
  set (s := 2 ^ 31 <=? w) in *. set (e := (w / 2 ^ 23) mod 2 ^ 8) in *. set (m := w mod 2 ^ 23) in *.
  assert (0 <= sign_bit s + e * 2 ^ 23 + m < 2 ^ 32) as Hr by (unfold fits in Hw; lia).
  destruct (Z.eqb_spec e 255) as [He|He].
  - destruct (Z.eqb_spec m 0); [|done]. cbn [word_of_float]. lia.
  - destruct (Z.eqb_spec e 0) as [He0|He0]; unfold finite.
    + destruct m as [|m'|m'] eqn:Em; [cbn [word_of_float]; lia| |lia]. cbn [word_of_float].
      rewrite (proj2 (Z.ltb_lt (Zpos m') (2 ^ 23))) by lia. rewrite wrap_small; [lia|]. unfold fits. lia.
    + destruct (2 ^ 23 + m) as [|m'|m'] eqn:Em; [lia| |lia]. cbn [word_of_float].
      rewrite (proj2 (Z.ltb_ge (Zpos m') (2 ^ 23))) by lia. rewrite wrap_small; [lia|]. unfold fits. lia.
Qed.
