(* ===== verification/DevCaps.v ===== *)
(** The capabilities of the 3D device (ceinclude/svga3d_reg.h, svga3d_caps.h,
    AC/GL/DevCaps.c): their indices, the block of records in which the device publishes
    them, its reader, and the report of the capabilities. *)

From Stdlib Require Import String.
From S2P Require Import Prelude Layout.
Local Open Scope Z_scope.

(** ** Indices *)

Inductive SVGA3dDevCapIndex : Set :=
  | SVGA3D_DEVCAP_3D | SVGA3D_DEVCAP_MAX_LIGHTS | SVGA3D_DEVCAP_MAX_TEXTURES
  | SVGA3D_DEVCAP_MAX_CLIP_PLANES | SVGA3D_DEVCAP_VERTEX_SHADER_VERSION
  | SVGA3D_DEVCAP_VERTEX_SHADER | SVGA3D_DEVCAP_FRAGMENT_SHADER_VERSION
  | SVGA3D_DEVCAP_FRAGMENT_SHADER | SVGA3D_DEVCAP_MAX_RENDER_TARGETS
  | SVGA3D_DEVCAP_S23E8_TEXTURES | SVGA3D_DEVCAP_S10E5_TEXTURES
  | SVGA3D_DEVCAP_MAX_FIXED_VERTEXBLEND | SVGA3D_DEVCAP_D16_BUFFER_FORMAT
  | SVGA3D_DEVCAP_D24S8_BUFFER_FORMAT | SVGA3D_DEVCAP_D24X8_BUFFER_FORMAT
  | SVGA3D_DEVCAP_QUERY_TYPES | SVGA3D_DEVCAP_TEXTURE_GRADIENT_SAMPLING
  | SVGA3D_DEVCAP_MAX_POINT_SIZE | SVGA3D_DEVCAP_MAX_SHADER_TEXTURES
  | SVGA3D_DEVCAP_MAX_TEXTURE_WIDTH | SVGA3D_DEVCAP_MAX_TEXTURE_HEIGHT
  | SVGA3D_DEVCAP_MAX_VOLUME_EXTENT | SVGA3D_DEVCAP_MAX_TEXTURE_REPEAT
  | SVGA3D_DEVCAP_MAX_TEXTURE_ASPECT_RATIO | SVGA3D_DEVCAP_MAX_TEXTURE_ANISOTROPY
  | SVGA3D_DEVCAP_MAX_PRIMITIVE_COUNT | SVGA3D_DEVCAP_MAX_VERTEX_INDEX
  | SVGA3D_DEVCAP_MAX_VERTEX_SHADER_INSTRUCTIONS | SVGA3D_DEVCAP_MAX_FRAGMENT_SHADER_INSTRUCTIONS
  | SVGA3D_DEVCAP_MAX_VERTEX_SHADER_TEMPS | SVGA3D_DEVCAP_MAX_FRAGMENT_SHADER_TEMPS
  | SVGA3D_DEVCAP_TEXTURE_OPS | SVGA3D_DEVCAP_SURFACEFMT_X8R8G8B8
  | SVGA3D_DEVCAP_SURFACEFMT_A8R8G8B8 | SVGA3D_DEVCAP_SURFACEFMT_A2R10G10B10
  | SVGA3D_DEVCAP_SURFACEFMT_X1R5G5B5 | SVGA3D_DEVCAP_SURFACEFMT_A1R5G5B5
  | SVGA3D_DEVCAP_SURFACEFMT_A4R4G4B4 | SVGA3D_DEVCAP_SURFACEFMT_R5G6B5
  | SVGA3D_DEVCAP_SURFACEFMT_LUMINANCE16 | SVGA3D_DEVCAP_SURFACEFMT_LUMINANCE8_ALPHA8
  | SVGA3D_DEVCAP_SURFACEFMT_ALPHA8 | SVGA3D_DEVCAP_SURFACEFMT_LUMINANCE8
  | SVGA3D_DEVCAP_SURFACEFMT_Z_D16 | SVGA3D_DEVCAP_SURFACEFMT_Z_D24S8
  | SVGA3D_DEVCAP_SURFACEFMT_Z_D24X8 | SVGA3D_DEVCAP_SURFACEFMT_DXT1
  | SVGA3D_DEVCAP_SURFACEFMT_DXT2 | SVGA3D_DEVCAP_SURFACEFMT_DXT3 | SVGA3D_DEVCAP_SURFACEFMT_DXT4
  | SVGA3D_DEVCAP_SURFACEFMT_DXT5 | SVGA3D_DEVCAP_SURFACEFMT_BUMPX8L8V8U8
  | SVGA3D_DEVCAP_SURFACEFMT_A2W10V10U10 | SVGA3D_DEVCAP_SURFACEFMT_BUMPU8V8
  | SVGA3D_DEVCAP_SURFACEFMT_Q8W8V8U8 | SVGA3D_DEVCAP_SURFACEFMT_CxV8U8
  | SVGA3D_DEVCAP_SURFACEFMT_R_S10E5 | SVGA3D_DEVCAP_SURFACEFMT_R_S23E8
  | SVGA3D_DEVCAP_SURFACEFMT_RG_S10E5 | SVGA3D_DEVCAP_SURFACEFMT_RG_S23E8
  | SVGA3D_DEVCAP_SURFACEFMT_ARGB_S10E5 | SVGA3D_DEVCAP_SURFACEFMT_ARGB_S23E8
  | SVGA3D_DEVCAP_MAX_VERTEX_SHADER_TEXTURES | SVGA3D_DEVCAP_MAX_SIMULTANEOUS_RENDER_TARGETS
  | SVGA3D_DEVCAP_SURFACEFMT_V16U16 | SVGA3D_DEVCAP_SURFACEFMT_G16R16
  | SVGA3D_DEVCAP_SURFACEFMT_A16B16G16R16 | SVGA3D_DEVCAP_SURFACEFMT_UYVY
  | SVGA3D_DEVCAP_SURFACEFMT_YUY2 | SVGA3D_DEVCAP_MULTISAMPLE_NONMASKABLESAMPLES
  | SVGA3D_DEVCAP_MULTISAMPLE_MASKABLESAMPLES | SVGA3D_DEVCAP_ALPHATOCOVERAGE
  | SVGA3D_DEVCAP_SUPERSAMPLE | SVGA3D_DEVCAP_AUTOGENMIPMAPS | SVGA3D_DEVCAP_SURFACEFMT_NV12
  | SVGA3D_DEVCAP_SURFACEFMT_AYUV | SVGA3D_DEVCAP_MAX_CONTEXT_IDS | SVGA3D_DEVCAP_MAX_SURFACE_IDS
  | SVGA3D_DEVCAP_SURFACEFMT_Z_DF16 | SVGA3D_DEVCAP_SURFACEFMT_Z_DF24
  | SVGA3D_DEVCAP_SURFACEFMT_Z_D24S8_INT | SVGA3D_DEVCAP_SURFACEFMT_BC4_UNORM
  | SVGA3D_DEVCAP_SURFACEFMT_BC5_UNORM | SVGA3D_DEVCAP_MAX.

Definition SVGA3dDevCapIndex_val (x : SVGA3dDevCapIndex) : Z :=
  match x with
  | SVGA3D_DEVCAP_3D => 0 | SVGA3D_DEVCAP_MAX_LIGHTS => 1 | SVGA3D_DEVCAP_MAX_TEXTURES => 2
  | SVGA3D_DEVCAP_MAX_CLIP_PLANES => 3 | SVGA3D_DEVCAP_VERTEX_SHADER_VERSION => 4
  | SVGA3D_DEVCAP_VERTEX_SHADER => 5 | SVGA3D_DEVCAP_FRAGMENT_SHADER_VERSION => 6
  | SVGA3D_DEVCAP_FRAGMENT_SHADER => 7 | SVGA3D_DEVCAP_MAX_RENDER_TARGETS => 8
  | SVGA3D_DEVCAP_S23E8_TEXTURES => 9 | SVGA3D_DEVCAP_S10E5_TEXTURES => 10
  | SVGA3D_DEVCAP_MAX_FIXED_VERTEXBLEND => 11 | SVGA3D_DEVCAP_D16_BUFFER_FORMAT => 12
  | SVGA3D_DEVCAP_D24S8_BUFFER_FORMAT => 13 | SVGA3D_DEVCAP_D24X8_BUFFER_FORMAT => 14
  | SVGA3D_DEVCAP_QUERY_TYPES => 15 | SVGA3D_DEVCAP_TEXTURE_GRADIENT_SAMPLING => 16
  | SVGA3D_DEVCAP_MAX_POINT_SIZE => 17 | SVGA3D_DEVCAP_MAX_SHADER_TEXTURES => 18
  | SVGA3D_DEVCAP_MAX_TEXTURE_WIDTH => 19 | SVGA3D_DEVCAP_MAX_TEXTURE_HEIGHT => 20
  | SVGA3D_DEVCAP_MAX_VOLUME_EXTENT => 21 | SVGA3D_DEVCAP_MAX_TEXTURE_REPEAT => 22
  | SVGA3D_DEVCAP_MAX_TEXTURE_ASPECT_RATIO => 23 | SVGA3D_DEVCAP_MAX_TEXTURE_ANISOTROPY => 24
  | SVGA3D_DEVCAP_MAX_PRIMITIVE_COUNT => 25 | SVGA3D_DEVCAP_MAX_VERTEX_INDEX => 26
  | SVGA3D_DEVCAP_MAX_VERTEX_SHADER_INSTRUCTIONS => 27
  | SVGA3D_DEVCAP_MAX_FRAGMENT_SHADER_INSTRUCTIONS => 28
  | SVGA3D_DEVCAP_MAX_VERTEX_SHADER_TEMPS => 29 | SVGA3D_DEVCAP_MAX_FRAGMENT_SHADER_TEMPS => 30
  | SVGA3D_DEVCAP_TEXTURE_OPS => 31 | SVGA3D_DEVCAP_SURFACEFMT_X8R8G8B8 => 32
  | SVGA3D_DEVCAP_SURFACEFMT_A8R8G8B8 => 33 | SVGA3D_DEVCAP_SURFACEFMT_A2R10G10B10 => 34
  | SVGA3D_DEVCAP_SURFACEFMT_X1R5G5B5 => 35 | SVGA3D_DEVCAP_SURFACEFMT_A1R5G5B5 => 36
  | SVGA3D_DEVCAP_SURFACEFMT_A4R4G4B4 => 37 | SVGA3D_DEVCAP_SURFACEFMT_R5G6B5 => 38
  | SVGA3D_DEVCAP_SURFACEFMT_LUMINANCE16 => 39 | SVGA3D_DEVCAP_SURFACEFMT_LUMINANCE8_ALPHA8 => 40
  | SVGA3D_DEVCAP_SURFACEFMT_ALPHA8 => 41 | SVGA3D_DEVCAP_SURFACEFMT_LUMINANCE8 => 42
  | SVGA3D_DEVCAP_SURFACEFMT_Z_D16 => 43 | SVGA3D_DEVCAP_SURFACEFMT_Z_D24S8 => 44
  | SVGA3D_DEVCAP_SURFACEFMT_Z_D24X8 => 45 | SVGA3D_DEVCAP_SURFACEFMT_DXT1 => 46
  | SVGA3D_DEVCAP_SURFACEFMT_DXT2 => 47 | SVGA3D_DEVCAP_SURFACEFMT_DXT3 => 48
  | SVGA3D_DEVCAP_SURFACEFMT_DXT4 => 49 | SVGA3D_DEVCAP_SURFACEFMT_DXT5 => 50
  | SVGA3D_DEVCAP_SURFACEFMT_BUMPX8L8V8U8 => 51 | SVGA3D_DEVCAP_SURFACEFMT_A2W10V10U10 => 52
  | SVGA3D_DEVCAP_SURFACEFMT_BUMPU8V8 => 53 | SVGA3D_DEVCAP_SURFACEFMT_Q8W8V8U8 => 54
  | SVGA3D_DEVCAP_SURFACEFMT_CxV8U8 => 55 | SVGA3D_DEVCAP_SURFACEFMT_R_S10E5 => 56
  | SVGA3D_DEVCAP_SURFACEFMT_R_S23E8 => 57 | SVGA3D_DEVCAP_SURFACEFMT_RG_S10E5 => 58
  | SVGA3D_DEVCAP_SURFACEFMT_RG_S23E8 => 59 | SVGA3D_DEVCAP_SURFACEFMT_ARGB_S10E5 => 60
  | SVGA3D_DEVCAP_SURFACEFMT_ARGB_S23E8 => 61 | SVGA3D_DEVCAP_MAX_VERTEX_SHADER_TEXTURES => 63
  | SVGA3D_DEVCAP_MAX_SIMULTANEOUS_RENDER_TARGETS => 64 | SVGA3D_DEVCAP_SURFACEFMT_V16U16 => 65
  | SVGA3D_DEVCAP_SURFACEFMT_G16R16 => 66 | SVGA3D_DEVCAP_SURFACEFMT_A16B16G16R16 => 67
  | SVGA3D_DEVCAP_SURFACEFMT_UYVY => 68 | SVGA3D_DEVCAP_SURFACEFMT_YUY2 => 69
  | SVGA3D_DEVCAP_MULTISAMPLE_NONMASKABLESAMPLES => 70
  | SVGA3D_DEVCAP_MULTISAMPLE_MASKABLESAMPLES => 71 | SVGA3D_DEVCAP_ALPHATOCOVERAGE => 72
  | SVGA3D_DEVCAP_SUPERSAMPLE => 73 | SVGA3D_DEVCAP_AUTOGENMIPMAPS => 74
  | SVGA3D_DEVCAP_SURFACEFMT_NV12 => 75 | SVGA3D_DEVCAP_SURFACEFMT_AYUV => 76
  | SVGA3D_DEVCAP_MAX_CONTEXT_IDS => 77 | SVGA3D_DEVCAP_MAX_SURFACE_IDS => 78
  | SVGA3D_DEVCAP_SURFACEFMT_Z_DF16 => 79 | SVGA3D_DEVCAP_SURFACEFMT_Z_DF24 => 80
  | SVGA3D_DEVCAP_SURFACEFMT_Z_D24S8_INT => 81 | SVGA3D_DEVCAP_SURFACEFMT_BC4_UNORM => 82
  | SVGA3D_DEVCAP_SURFACEFMT_BC5_UNORM => 83 | SVGA3D_DEVCAP_MAX => 84
  end.
Coercion SVGA3dDevCapIndex_val : SVGA3dDevCapIndex >-> Z.

#[global] Program Instance SVGA3dDevCapIndex_enum : CEnum SVGA3dDevCapIndex :=
  {| cval := SVGA3dDevCapIndex_val;
     cvalues := [
       SVGA3D_DEVCAP_3D; SVGA3D_DEVCAP_MAX_LIGHTS; SVGA3D_DEVCAP_MAX_TEXTURES;
       SVGA3D_DEVCAP_MAX_CLIP_PLANES; SVGA3D_DEVCAP_VERTEX_SHADER_VERSION;
       SVGA3D_DEVCAP_VERTEX_SHADER; SVGA3D_DEVCAP_FRAGMENT_SHADER_VERSION;
       SVGA3D_DEVCAP_FRAGMENT_SHADER; SVGA3D_DEVCAP_MAX_RENDER_TARGETS;
       SVGA3D_DEVCAP_S23E8_TEXTURES; SVGA3D_DEVCAP_S10E5_TEXTURES;
       SVGA3D_DEVCAP_MAX_FIXED_VERTEXBLEND; SVGA3D_DEVCAP_D16_BUFFER_FORMAT;
       SVGA3D_DEVCAP_D24S8_BUFFER_FORMAT; SVGA3D_DEVCAP_D24X8_BUFFER_FORMAT;
       SVGA3D_DEVCAP_QUERY_TYPES; SVGA3D_DEVCAP_TEXTURE_GRADIENT_SAMPLING;
       SVGA3D_DEVCAP_MAX_POINT_SIZE; SVGA3D_DEVCAP_MAX_SHADER_TEXTURES;
       SVGA3D_DEVCAP_MAX_TEXTURE_WIDTH; SVGA3D_DEVCAP_MAX_TEXTURE_HEIGHT;
       SVGA3D_DEVCAP_MAX_VOLUME_EXTENT; SVGA3D_DEVCAP_MAX_TEXTURE_REPEAT;
       SVGA3D_DEVCAP_MAX_TEXTURE_ASPECT_RATIO; SVGA3D_DEVCAP_MAX_TEXTURE_ANISOTROPY;
       SVGA3D_DEVCAP_MAX_PRIMITIVE_COUNT; SVGA3D_DEVCAP_MAX_VERTEX_INDEX;
       SVGA3D_DEVCAP_MAX_VERTEX_SHADER_INSTRUCTIONS;
       SVGA3D_DEVCAP_MAX_FRAGMENT_SHADER_INSTRUCTIONS; SVGA3D_DEVCAP_MAX_VERTEX_SHADER_TEMPS;
       SVGA3D_DEVCAP_MAX_FRAGMENT_SHADER_TEMPS; SVGA3D_DEVCAP_TEXTURE_OPS;
       SVGA3D_DEVCAP_SURFACEFMT_X8R8G8B8; SVGA3D_DEVCAP_SURFACEFMT_A8R8G8B8;
       SVGA3D_DEVCAP_SURFACEFMT_A2R10G10B10; SVGA3D_DEVCAP_SURFACEFMT_X1R5G5B5;
       SVGA3D_DEVCAP_SURFACEFMT_A1R5G5B5; SVGA3D_DEVCAP_SURFACEFMT_A4R4G4B4;
       SVGA3D_DEVCAP_SURFACEFMT_R5G6B5; SVGA3D_DEVCAP_SURFACEFMT_LUMINANCE16;
       SVGA3D_DEVCAP_SURFACEFMT_LUMINANCE8_ALPHA8; SVGA3D_DEVCAP_SURFACEFMT_ALPHA8;
       SVGA3D_DEVCAP_SURFACEFMT_LUMINANCE8; SVGA3D_DEVCAP_SURFACEFMT_Z_D16;
       SVGA3D_DEVCAP_SURFACEFMT_Z_D24S8; SVGA3D_DEVCAP_SURFACEFMT_Z_D24X8;
       SVGA3D_DEVCAP_SURFACEFMT_DXT1; SVGA3D_DEVCAP_SURFACEFMT_DXT2;
       SVGA3D_DEVCAP_SURFACEFMT_DXT3; SVGA3D_DEVCAP_SURFACEFMT_DXT4;
       SVGA3D_DEVCAP_SURFACEFMT_DXT5; SVGA3D_DEVCAP_SURFACEFMT_BUMPX8L8V8U8;
       SVGA3D_DEVCAP_SURFACEFMT_A2W10V10U10; SVGA3D_DEVCAP_SURFACEFMT_BUMPU8V8;
       SVGA3D_DEVCAP_SURFACEFMT_Q8W8V8U8; SVGA3D_DEVCAP_SURFACEFMT_CxV8U8;
       SVGA3D_DEVCAP_SURFACEFMT_R_S10E5; SVGA3D_DEVCAP_SURFACEFMT_R_S23E8;
       SVGA3D_DEVCAP_SURFACEFMT_RG_S10E5; SVGA3D_DEVCAP_SURFACEFMT_RG_S23E8;
       SVGA3D_DEVCAP_SURFACEFMT_ARGB_S10E5; SVGA3D_DEVCAP_SURFACEFMT_ARGB_S23E8;
       SVGA3D_DEVCAP_MAX_VERTEX_SHADER_TEXTURES; SVGA3D_DEVCAP_MAX_SIMULTANEOUS_RENDER_TARGETS;
       SVGA3D_DEVCAP_SURFACEFMT_V16U16; SVGA3D_DEVCAP_SURFACEFMT_G16R16;
       SVGA3D_DEVCAP_SURFACEFMT_A16B16G16R16; SVGA3D_DEVCAP_SURFACEFMT_UYVY;
       SVGA3D_DEVCAP_SURFACEFMT_YUY2; SVGA3D_DEVCAP_MULTISAMPLE_NONMASKABLESAMPLES;
       SVGA3D_DEVCAP_MULTISAMPLE_MASKABLESAMPLES; SVGA3D_DEVCAP_ALPHATOCOVERAGE;
       SVGA3D_DEVCAP_SUPERSAMPLE; SVGA3D_DEVCAP_AUTOGENMIPMAPS; SVGA3D_DEVCAP_SURFACEFMT_NV12;
       SVGA3D_DEVCAP_SURFACEFMT_AYUV; SVGA3D_DEVCAP_MAX_CONTEXT_IDS;
       SVGA3D_DEVCAP_MAX_SURFACE_IDS; SVGA3D_DEVCAP_SURFACEFMT_Z_DF16;
       SVGA3D_DEVCAP_SURFACEFMT_Z_DF24; SVGA3D_DEVCAP_SURFACEFMT_Z_D24S8_INT;
       SVGA3D_DEVCAP_SURFACEFMT_BC4_UNORM; SVGA3D_DEVCAP_SURFACEFMT_BC5_UNORM; SVGA3D_DEVCAP_MAX] |}.
Solve Obligations with cenum_tac.

(** ** The block *)

Definition SVGA3DCAPS_RECORD_UNKNOWN : Z := 0.
Definition SVGA3DCAPS_RECORD_DEVCAPS_MIN : Z := 0x100.
Definition SVGA3DCAPS_RECORD_DEVCAPS : Z := 0x100.
Definition SVGA3DCAPS_RECORD_DEVCAPS_MAX : Z := 0x1FF.

(** A record; its data are pairs of an index and a value if it is one of
    capabilities. *)
Record SVGA3dCapsRecord := mk_caps_record { rec_length : Z; rec_type : Z; rec_data : list Z }.

(** The loop [for (offset = 0; capsBlock[offset] != 0; offset += capsBlock[offset])];
    a pointer is the words from there on.  [None]: a read behind the end, or more
    rounds than words. *)
Fixpoint caps_records (n : nat) (block : list Z) : option (list SVGA3dCapsRecord) :=
  match n, block with
  | S n, len :: rest =>
      if len =? 0 then Some []
      else
        type ← head rest;
        l ← caps_records n (drop (Z.to_nat len) block);
        Some (mk_caps_record len type (drop 2 block) :: l)
  | _, _ => None
  end.

Definition better (recordTypeMin recordTypeMax : Z) (found : option SVGA3dCapsRecord) (r : SVGA3dCapsRecord) : option SVGA3dCapsRecord :=
  if (recordTypeMin <=? r.(rec_type)) && (r.(rec_type) <=? recordTypeMax) &&
     match found with None => true | Some f => f.(rec_type) <? r.(rec_type) end
  then Some r else found.

Definition SVGA3dCaps_FindRecord (capsBlock : list Z) (recordTypeMin recordTypeMax : Z) : option (option SVGA3dCapsRecord) :=
  rs ← caps_records (List.length capsBlock) capsBlock;
  Some (foldl (better recordTypeMin recordTypeMax) None rs).

(** ** The driver's copy *)

(** The array of capabilities; [None] if there is no memory. *)
Definition allocGPUCaps (mem_ok : bool) : option (Z -> Z) := if mem_ok then Some (fun _ => 0) else None.

(** [for (i = 2U; i < len; i += 2U)], on the words from [offset + i] on. *)
Fixpoint read_pairs (n : nat) (i len : Z) (data : list Z) (accelBlock : Z -> Z) : option (Z -> Z) :=
  if len <=? i then Some accelBlock
  else
    match n, data with
    | S n, c :: v :: data =>
        read_pairs n (i + 2) len data (if c <? SVGA3D_DEVCAP_MAX then upd accelBlock c v else accelBlock)
    | _, _ => None
    end.

Fixpoint caps_loop (n : nat) (block : list Z) (accelBlock : Z -> Z) : option (Z -> Z) :=
  match n, block with
  | S n, len :: rest =>
      if len =? 0 then Some accelBlock
      else
        type ← head rest;
        acc ← (if negb (type =? SVGA3DCAPS_RECORD_DEVCAPS) then Some accelBlock
               else read_pairs (List.length block) 2 len (drop 2 block) accelBlock);
        caps_loop n (drop (Z.to_nat len) block) acc
  | _, _ => None
  end.

(** [None] for the block is a null pointer. *)
Definition getGPUCaps (deviceBlock : option (list Z)) (accelBlock : Z -> Z) : option (Z -> Z) :=
  match deviceBlock with
  | None => Some accelBlock
  | Some block => caps_loop (List.length block) block accelBlock
  end.

(** ** The report *)

Definition cap_names : list (option string) :=
  [
   None; Some "Max Lights"; Some "Max FFP Texture Stages"; Some "Max Clip Planes";
   Some "Vertex Shader Version"; Some "Vertex Shaders"; Some "Pixel Shader Version";
   Some "Pixel Shaders"; Some "Max Render Targets"; Some "S23E8 Textures"; Some "S10E5 Textures";
   Some "Max Fixed VertexBlend"; None; None; None; Some "Occlusion Query";
   Some "Texture Gradient Sampling"; Some "Max Point Size"; Some "Max Pixel Shader Textures";
   Some "Max Texture Width"; Some "Max Texture Height"; Some "Max Volume Extent";
   Some "Max Texture Repeat"; Some "Max Texture Aspect Ratio"; Some "Max Texture Anisotropy";
   Some "Max Primitive Count"; Some "Max Vertex Index"; Some "Max Vertex Shader Instructions";
   Some "Max Pixel Shader Instructions"; Some "Max Vertex Shader Temps";
   Some "Max Pixel Shader Temps"; Some "Texture Ops"; Some "X8R8G8B8"; Some "A8R8G8B8";
   Some "A2R10G10B10"; Some "X1R5G5B5"; Some "A1R5G5B5"; Some "A4R4G4B4"; Some "R5G6B5";
   Some "L16"; Some "L8A8"; Some "A8"; Some "L8"; Some "Z_D16"; Some "Z_D24S8"; Some "Z_D24X8";
   Some "DXT1"; Some "DXT2"; Some "DXT3"; Some "DXT4"; Some "DXT5"; Some "BUMPX8L8V8U8";
   Some "A2W10V10U10"; Some "BUMPU8V8"; Some "Q8W8V8U8"; Some "CxV8U8"; Some "R_S10E5";
   Some "R_S23E8"; Some "RG_S10E5"; Some "RG_S23E8"; Some "ARGB_S10E5"; Some "ARGB_S23E8"; None;
   Some "Max Vertex Shader Textures"; Some "Max Simultaneous Render Targets"; Some "V16U16";
   Some "G16R16"; Some "A16B16G16R16"; Some "UYVY"; Some "YUY2"; Some "Nonmaskable Samples";
   Some "Maskable Samples"; Some "AlphaToCoverage"; Some "SuperSample"; Some "AutoGenMipmaps";
   Some "NV12"; Some "AYUV"; Some "Max Context IDs"; Some "Max Surface IDs"; Some "Z_DF16";
   Some "Z_DF24"; Some "Z_D24S8_INT"; Some "BC4_UNORM"; Some "BC5_UNORM"]%string.

Definition cap_types : list Z :=
  [
   0; 1; 1; 1; 4; 0; 5; 0; 1; 0; 0; 1; 0; 0; 0; 0; 0; 3; 1; 1; 1; 1; 1; 1; 1; 1; 1; 2; 2; 1; 1;
   6; 7; 7; 7; 7; 7; 7; 7; 7; 7; 7; 7; 7; 7; 7; 7; 7; 7; 7; 7; 7; 7; 7; 7; 7; 7; 7; 7; 7; 7; 7;
   1; 1; 1; 7; 7; 7; 7; 7; 1; 1; 1; 1; 1; 7; 7; 1; 1; 7; 7; 7; 7; 7].

Definition cap_psver : list string :=
  [
   "Enabled"; "ps_1_1"; "ps_1_2"; "ps_1_3"; "ps_1_4"; "ps_2_0"; "ps_3_0"; "ps_4_0"]%string.

Definition cap_vsver : list string :=
  [
   "Enabled"; "vs_1_1"; "vs_2_0"; "vs_3_0"; "vs_4_0"]%string.

Definition cap_sf_names : list (option string) :=
  [
   Some "Texture"; Some "VolumeTexture"; Some "CubeTexture"; Some "OffscreenRenderTarget";
   Some "SameFormatRenderTarget"; None; Some "ZStencil"; Some "ZStencilArbitraryDepth";
   Some "SameFormatUpToAlpha"; None; Some "DisplayMode"; Some "3DAcceleration"; Some "PixelSize";
   Some "ConvertToARGB"; Some "OffscreenPlain"; Some "SRGBRead"; Some "BumpMap"; Some "DMap";
   Some "NoFilter"; Some "MemberOfGroupARGB"; Some "SRGBWrite"; Some "NoAlphaBlend";
   Some "AutoGenMipMap"; Some "VertexTexture"; Some "NoTexCoordWrapNorMip"]%string.

Definition cap_ps_version (num : Z) : string :=
  if negb (Z.land num 1 =? 0) && (Z.shiftr num 1 <=? 7) then nth (Z.to_nat (Z.shiftr num 1)) cap_psver EmptyString else "None"%string.
Definition cap_vs_version (num : Z) : string :=
  if negb (Z.land num 1 =? 0) && (Z.shiftr num 1 <=? 4) then nth (Z.to_nat (Z.shiftr num 1)) cap_vsver EmptyString else "None"%string.

(** A line of the report: the name and what is printed of the value. *)
Inductive report :=
  | Flag (name : option string) (yes : bool)
  | Unsigned (name : option string) (u : Z)
  | Signed (name : option string) (i : Z)
  | Real (name : option string) (word : Z)
  | Text (name : option string) (s : string)
  | Hex (name : option string) (u : Z)
  | Surface (name : option string) (caps : list (option string * Z))
  | Unnamed (c u : Z).

(** The names of the set bits, with the bits. *)
Definition dumpSurfaceCaps (caps : Z) : list (option string * Z) :=
  (fun i => (nth (Z.to_nat i) cap_sf_names None, Z.shiftl 1 i)) <$>
    filter (fun i => has_bits caps (Z.shiftl 1 i) = true) (seqZ 0 25).

Definition dump_cap (accelBlock : Z -> Z) (c : Z) : list report :=
  if bool_decide (c ∈ [12; 13; 14; 62]) then []
  else
    let v := accelBlock c in
    if Z.of_nat (List.length cap_types) <=? c then [Unnamed c v]
    else
      let name := nth (Z.to_nat c) cap_names None in
      match nth (Z.to_nat c) cap_types 8 with
      | 0 => [Flag name (negb (Z.land v 1 =? 0))]
      | 1 => [Unsigned name v]
      | 2 => [Signed name (s32 v)]
      | 3 => [Real name v]
      | 4 => [Text name (cap_vs_version (u8 v))]
      | 5 => [Text name (cap_ps_version (u8 v))]
      | 6 => [Hex name v]
      | 7 => if has_bits v 0x1FFFDDF then [Surface name (dumpSurfaceCaps v)] else []
      | _ => []
      end.
Definition dumpGPUCaps (accelBlock : Z -> Z) : list report := seqZ 1 (SVGA3D_DEVCAP_MAX - 1) ≫= dump_cap accelBlock.

(** ** Reading back a block *)

(** What the device publishes: records of pairs. *)
Definition encode_record (r : Z * list (Z * Z)) : list Z :=
  (2 + 2 * Z.of_nat (List.length r.2)) :: r.1 :: (r.2 ≫= fun p => [p.1; p.2]).
Definition encode_block (rs : list (Z * list (Z * Z))) : list Z := (rs ≫= encode_record) ++ [0].

(** What a record means: a value for each index that the driver knows. *)
Definition apply_pair (acc : Z -> Z) (p : Z * Z) : Z -> Z := if p.1 <? SVGA3D_DEVCAP_MAX then upd acc p.1 p.2 else acc.
Definition apply_record (acc : Z -> Z) (r : Z * list (Z * Z)) : Z -> Z :=
  if r.1 =? SVGA3DCAPS_RECORD_DEVCAPS then foldl apply_pair acc r.2 else acc.

Lemma read_pairs_encode ps : forall n i acc tl, (List.length ps <= n)%nat ->
  read_pairs n i (i + 2 * Z.of_nat (List.length ps)) ((ps ≫= fun p => [p.1; p.2]) ++ tl) acc = Some (foldl apply_pair acc ps).
Proof.
  induction ps as [|p ps IH]; intros n i acc tl Hn; cbn [List.length] in *.
  - destruct n; cbn [read_pairs]; rewrite (proj2 (Z.leb_le _ _)) by lia; done.
  - destruct n as [|n]; [lia|]. cbn [read_pairs]. rewrite (proj2 (Z.leb_gt _ _)) by lia. csimpl.
    rewrite <-(IH n (i + 2) _ tl) by lia. f_equal; lia.
Qed.

Lemma length_pairs (ps : list (Z * Z)) : List.length (ps ≫= fun p => [p.1; p.2]) = (2 * List.length ps)%nat.
Proof. induction ps as [|p ps IH]; csimpl; [done|]. rewrite IH. lia. Qed.

Lemma drop_record r tl : drop (Z.to_nat (2 + 2 * Z.of_nat (List.length r.2))) (encode_record r ++ tl) = tl.
Proof.
  replace (Z.to_nat _) with (List.length (encode_record r)); [apply drop_app_length|].
  unfold encode_record. cbn [List.length]. rewrite length_pairs. lia.
Qed.

Lemma caps_loop_record n r tl acc : caps_loop (S n) (encode_record r ++ tl) acc = caps_loop n tl (apply_record acc r).
Proof.
  pose proof (drop_record r tl) as Hd. pose proof (read_pairs_encode r.2) as Hp. pose proof (length_pairs r.2) as Hl.
  revert Hd. unfold encode_record. set (body := r.2 ≫= _) in *. cbn [app]. intros Hd. cbn [caps_loop].
  rewrite Hd, (proj2 (Z.eqb_neq _ 0)) by lia. cbn [head mbind option_bind]. unfold apply_record.
  destruct (Z.eqb_spec r.1 SVGA3DCAPS_RECORD_DEVCAPS); cbn [negb]; [|done].
  cbn [drop]. rewrite drop_0, Hp; [done|]. cbn [List.length]. rewrite length_app. lia.
Qed.

Lemma caps_loop_encode rs : forall n acc, (List.length rs < n)%nat ->
  caps_loop n (encode_block rs) acc = Some (foldl apply_record acc rs).
Proof.
  induction rs as [|r rs IH]; intros n acc Hn; (destruct n as [|n]; [lia|]); [done|].
  cbn [List.length] in Hn. unfold encode_block in *. cbn [mbind list_bind]. rewrite <-app_assoc, caps_loop_record.
  apply IH. lia.
Qed.

(** Capabilities.  From any block of records that the device publishes, the driver
    reads exactly the capabilities: for every index that it knows, the last value that a
    record of capabilities gives; records of other types and indices that are too large
    change nothing. *)
Theorem getGPUCaps_reads rs acc :
  getGPUCaps (Some (encode_block rs)) acc = Some (foldl apply_record acc rs).
Proof.
  cbn [getGPUCaps]. apply caps_loop_encode. unfold encode_block. rewrite length_app. cbn [List.length].
  assert (List.length rs <= List.length (rs ≫= encode_record))%nat; [|lia].
  induction rs as [|r rs IH]; csimpl; [lia|]. rewrite length_app. lia.
Qed.

(** ** The record of the highest type *)

Definition in_range (lo hi : Z) (r : SVGA3dCapsRecord) : Prop := lo <= r.(rec_type) <= hi.

Lemma better_best lo hi rs : forall found,
  (forall f, found = Some f -> in_range lo hi f) ->
  match foldl (better lo hi) found rs with
  | None => found = None /\ Forall (fun r => ~ in_range lo hi r) rs
  | Some f => in_range lo hi f /\ (found = Some f \/ f ∈ rs) /\ Forall (fun r => in_range lo hi r -> r.(rec_type) <= f.(rec_type)) rs /\
      (forall f0, found = Some f0 -> f0.(rec_type) <= f.(rec_type))
  end.
Proof.
  induction rs as [|r rs IH]; intros found Hf; cbn [foldl].
  { destruct found as [f|]; [|done]. split; [by apply Hf|]. split; [by left|]. split; [done|]. by intros f0 [= ->]. }
  assert (Hb : forall f, better lo hi found r = Some f -> in_range lo hi f).
  { unfold better. intros f. destruct (lo <=? rec_type r) eqn:E1, (rec_type r <=? hi) eqn:E2; cbn [andb]; try apply Hf.
    destruct (match found with None => _ | _ => _ end); [|apply Hf]. intros [= <-]. unfold in_range. lia. }
  specialize (IH _ Hb). destruct (foldl _ _ rs) as [f|].
  - destruct IH as (Hr & Hin & Hall & Hmax). unfold better in Hin, Hmax.
    destruct ((lo <=? rec_type r) && (rec_type r <=? hi)) eqn:E; cbn [andb] in *.
    2: { split; [done|]. split; [destruct Hin; [by left|right; by right]|]. split; [|done].
         apply Forall_cons; [|done]. intros Hr'. unfold in_range in Hr'. apply andb_false_iff in E. lia. }
    destruct found as [f0|].
    + destruct (Z.ltb_spec (rec_type f0) (rec_type r)).
      * specialize (Hmax r eq_refl). split; [done|]. split; [destruct Hin as [[= ->]|]; [right; by left|right; by right]|].
        split; [by apply Forall_cons|]. intros f1 [= <-]. lia.
      * specialize (Hmax f0 eq_refl). split; [done|]. split; [destruct Hin; [by left|right; by right]|].
        split; [apply Forall_cons; [lia|done]|]. by intros f1 [= <-].
    + specialize (Hmax r eq_refl). split; [done|]. split; [destruct Hin as [[= ->]|]; [right; by left|right; by right]|].
      split; [by apply Forall_cons|done].
  - destruct IH as [E Hall]. unfold better in E.
    destruct ((lo <=? rec_type r) && (rec_type r <=? hi)) eqn:E1; cbn [andb] in E.
    + destruct found as [f0|]; [|done]. by destruct (rec_type f0 <? rec_type r).
    + split; [done|]. apply Forall_cons; [|done]. unfold in_range. apply andb_false_iff in E1. lia.
Qed.

(** The search for a record finds one of the highest type of the range, if any. *)
Theorem FindRecord_best block lo hi rs :
  caps_records (List.length block) block = Some rs ->
  match SVGA3dCaps_FindRecord block lo hi with
  | Some (Some f) => f ∈ rs /\ in_range lo hi f /\ Forall (fun r => in_range lo hi r -> r.(rec_type) <= f.(rec_type)) rs
  | Some None => Forall (fun r => ~ in_range lo hi r) rs
  | None => False
  end.
Proof.
  intros E. unfold SVGA3dCaps_FindRecord. rewrite E. cbn [mbind option_bind].
  pose proof (better_best lo hi rs None ltac:(done)) as Hb. destruct (foldl _ None rs) as [f|]; [|apply Hb].
  destruct Hb as (Hr & [?|Hin] & Hall & _); [done|]. done.
Qed.
