(* ===== verification/Ipp.v ===== *)
(** The Intel 915 command processor (AC/GL/CEsvga2IPP.cpp, .h): its state and the
    translations that it is made of.  The application writes commands for an Intel 915;
    the processor turns them into commands of the device.  Names of source functions
    are kept; memory of vertices is the video memory, word by word. *)

From S2P Require Import Prelude IOKit Layout SvgaReg Svga3dReg ShaderCache VertexArray Float32.

(** ** State *)

Record IPP := mk_IPP {
  m_fences : option (Z -> Z * Z);
  m_fences_len : Z;
  m_float_cache : Z -> Z;
  m_shaders : ipp;
  m_arrays : VertexArray;
  imm_s : Z -> Z;
  param_cache_mask : Z;
  nonnormalized_tex_coordinates : Z;
  clear_mask : Z;
  clear_color : Z;
  clear_depth : Z;
  clear_stencil : Z;
  surface_ids : Z -> Z;
  s2t_map : Z;
  tc2s_map : Z;
  tc2s_map_valids : Z;
  bound_samplers : Z;
}.

Definition cid (s : IPP) : Z := s.(m_shaders).(m_context_id).

Definition set_fences f l s := mk_IPP f l s.(m_float_cache) s.(m_shaders) s.(m_arrays) s.(imm_s) s.(param_cache_mask)
  s.(nonnormalized_tex_coordinates) s.(clear_mask) s.(clear_color) s.(clear_depth) s.(clear_stencil) s.(surface_ids)
  s.(s2t_map) s.(tc2s_map) s.(tc2s_map_valids) s.(bound_samplers).
Definition set_float_cache f s := mk_IPP s.(m_fences) s.(m_fences_len) f s.(m_shaders) s.(m_arrays) s.(imm_s) s.(param_cache_mask)
  s.(nonnormalized_tex_coordinates) s.(clear_mask) s.(clear_color) s.(clear_depth) s.(clear_stencil) s.(surface_ids)
  s.(s2t_map) s.(tc2s_map) s.(tc2s_map_valids) s.(bound_samplers).
Definition set_shaders h s := mk_IPP s.(m_fences) s.(m_fences_len) s.(m_float_cache) h s.(m_arrays) s.(imm_s) s.(param_cache_mask)
  s.(nonnormalized_tex_coordinates) s.(clear_mask) s.(clear_color) s.(clear_depth) s.(clear_stencil) s.(surface_ids)
  s.(s2t_map) s.(tc2s_map) s.(tc2s_map_valids) s.(bound_samplers).
Definition set_arrays v s := mk_IPP s.(m_fences) s.(m_fences_len) s.(m_float_cache) s.(m_shaders) v s.(imm_s) s.(param_cache_mask)
  s.(nonnormalized_tex_coordinates) s.(clear_mask) s.(clear_color) s.(clear_depth) s.(clear_stencil) s.(surface_ids)
  s.(s2t_map) s.(tc2s_map) s.(tc2s_map_valids) s.(bound_samplers).
Definition set_imm i v s := mk_IPP s.(m_fences) s.(m_fences_len) s.(m_float_cache) s.(m_shaders) s.(m_arrays) (upd s.(imm_s) i v)
  s.(param_cache_mask) s.(nonnormalized_tex_coordinates) s.(clear_mask) s.(clear_color) s.(clear_depth) s.(clear_stencil)
  s.(surface_ids) s.(s2t_map) s.(tc2s_map) s.(tc2s_map_valids) s.(bound_samplers).
Definition set_cache_mask m s := mk_IPP s.(m_fences) s.(m_fences_len) s.(m_float_cache) s.(m_shaders) s.(m_arrays) s.(imm_s) m
  s.(nonnormalized_tex_coordinates) s.(clear_mask) s.(clear_color) s.(clear_depth) s.(clear_stencil) s.(surface_ids)
  s.(s2t_map) s.(tc2s_map) s.(tc2s_map_valids) s.(bound_samplers).
Definition set_nonnormalized m s := mk_IPP s.(m_fences) s.(m_fences_len) s.(m_float_cache) s.(m_shaders) s.(m_arrays) s.(imm_s)
  s.(param_cache_mask) m s.(clear_mask) s.(clear_color) s.(clear_depth) s.(clear_stencil) s.(surface_ids)
  s.(s2t_map) s.(tc2s_map) s.(tc2s_map_valids) s.(bound_samplers).
Definition set_clear m c d st s := mk_IPP s.(m_fences) s.(m_fences_len) s.(m_float_cache) s.(m_shaders) s.(m_arrays) s.(imm_s)
  s.(param_cache_mask) s.(nonnormalized_tex_coordinates) m c d st s.(surface_ids)
  s.(s2t_map) s.(tc2s_map) s.(tc2s_map_valids) s.(bound_samplers).
Definition set_surface_id i v s := mk_IPP s.(m_fences) s.(m_fences_len) s.(m_float_cache) s.(m_shaders) s.(m_arrays) s.(imm_s)
  s.(param_cache_mask) s.(nonnormalized_tex_coordinates) s.(clear_mask) s.(clear_color) s.(clear_depth) s.(clear_stencil)
  (upd s.(surface_ids) i v) s.(s2t_map) s.(tc2s_map) s.(tc2s_map_valids) s.(bound_samplers).
Definition set_s2t m s := mk_IPP s.(m_fences) s.(m_fences_len) s.(m_float_cache) s.(m_shaders) s.(m_arrays) s.(imm_s)
  s.(param_cache_mask) s.(nonnormalized_tex_coordinates) s.(clear_mask) s.(clear_color) s.(clear_depth) s.(clear_stencil)
  s.(surface_ids) m s.(tc2s_map) s.(tc2s_map_valids) s.(bound_samplers).
Definition set_tc2s m v s := mk_IPP s.(m_fences) s.(m_fences_len) s.(m_float_cache) s.(m_shaders) s.(m_arrays) s.(imm_s)
  s.(param_cache_mask) s.(nonnormalized_tex_coordinates) s.(clear_mask) s.(clear_color) s.(clear_depth) s.(clear_stencil)
  s.(surface_ids) s.(s2t_map) m v s.(bound_samplers).
Definition set_bound m s := mk_IPP s.(m_fences) s.(m_fences_len) s.(m_float_cache) s.(m_shaders) s.(m_arrays) s.(imm_s)
  s.(param_cache_mask) s.(nonnormalized_tex_coordinates) s.(clear_mask) s.(clear_color) s.(clear_depth) s.(clear_stencil)
  s.(surface_ids) s.(s2t_map) s.(tc2s_map) s.(tc2s_map_valids) m.

(** ** Fields of words *)

Definition bit_select (val shift num_bits : Z) : Z := Z.land (Z.shiftr val shift) (Z.shiftl 1 num_bits - 1).
Definition bit (val shift : Z) : bool := negb (bit_select val shift 1 =? 0).

Definition get4bits_64 (v index : Z) : Z := Z.land (u8 (Z.shiftr v (Z.land index 15 * 4))) 15.
Definition get4bits_32 (v index : Z) : Z := Z.land (u8 (Z.shiftr v (Z.land index 7 * 4))) 15.
Definition set4bits_64 (v index n : Z) : Z :=
  let index := Z.land index 15 * 4 in
  Z.lor (Z.land v (u64 (Z.lnot (Z.shiftl 15 index)))) (Z.shiftl (Z.land n 15) index).

(** ** Translations *)

Definition translate_clear_mask (mask : Z) : Z :=
  let out_mask := 0 in
  let out_mask := if has_bits mask 4 then Z.lor out_mask SVGA3D_CLEAR_COLOR else out_mask in
  let out_mask := if has_bits mask 2 then Z.lor out_mask SVGA3D_CLEAR_DEPTH else out_mask in
  if has_bits mask 1 then Z.lor out_mask SVGA3D_CLEAR_STENCIL else out_mask.

Definition xlate_taddress (v : Z) : Z :=
  match v with
  | 0 | 1 | 2 => v + 1
  | 3 => SVGA3D_TEX_ADDRESS_EDGE
  | 4 | 5 => v
  | _ => SVGA3D_TEX_ADDRESS_INVALID
  end.

Definition xlate_filter1 (v : Z) : Z :=
  match v with
  | 1 => SVGA3D_TEX_FILTER_NEAREST
  | 3 => SVGA3D_TEX_FILTER_LINEAR
  | _ => SVGA3D_TEX_FILTER_NONE
  end.

Definition xlate_filter2 (v : Z) : Z :=
  match v with
  | 0 => SVGA3D_TEX_FILTER_NEAREST
  | 1 => SVGA3D_TEX_FILTER_LINEAR
  | 2 => SVGA3D_TEX_FILTER_ANISOTROPIC
  | _ => SVGA3D_TEX_FILTER_NEAREST
  end.

Definition xlate_comparefunc (v : Z) : Z := if v =? 0 then SVGA3D_CMP_ALWAYS else v.

Definition xlate_stencilop (v : Z) : Z :=
  match v with
  | 0 | 1 | 2 | 3 | 4 => v + 1
  | 5 | 6 => v + 2
  | 7 => SVGA3D_STENCILOP_INVERT
  | _ => SVGA3D_STENCILOP_INVALID
  end.

(** ** Vertex formats *)

Definition MAX_NUM_DECLS : Z := 12.

Definition decl (type usage usageIndex offset : Z) : SVGA3dVertexDecl :=
  mk_SVGA3dVertexDecl (mk_SVGA3dVertexArrayIdentity type 0 usage usageIndex) (mk_SVGA3dArray 0 offset 0)
    (mk_SVGA3dArrayRangeHint 0 0).
Definition zero_decl : SVGA3dVertexDecl := decl 0 0 0 0.

(** An error, or the declarations and the size of a vertex. *)
Definition layout : Type := IOReturn + list SVGA3dVertexDecl * Z.

(** Entry [i] of the array, [bytes] long; [if (i >= *num_decls) goto set_strides]. *)
Definition put (num : Z) (d : Z -> SVGA3dVertexDecl) (bytes : Z) (k : list SVGA3dVertexDecl -> Z -> layout)
    (acc : list SVGA3dVertexDecl) (d3d_size : Z) : layout :=
  let acc := acc ++ [d d3d_size] in
  let d3d_size := d3d_size + bytes in
  if num <=? Z.of_nat (length acc) then inr (acc, d3d_size) else k acc d3d_size.

Definition put_if (b : bool) num d bytes k (acc : list SVGA3dVertexDecl) (d3d_size : Z) : layout :=
  if b then put num d bytes k acc d3d_size else k acc d3d_size.

Definition texcoord (fmt : Z) : option (Z * Z) :=
  match fmt with
  | 0 => Some (SVGA3D_DECLTYPE_FLOAT2 : Z, 8)
  | 1 => Some (SVGA3D_DECLTYPE_FLOAT3 : Z, 12)
  | 2 => Some (SVGA3D_DECLTYPE_FLOAT4 : Z, 16)
  | 3 => Some (SVGA3D_DECLTYPE_FLOAT1 : Z, 4)
  | 4 => Some (SVGA3D_DECLTYPE_FLOAT16_2 : Z, 4)
  | 5 => Some (SVGA3D_DECLTYPE_FLOAT16_4 : Z, 8)
  | _ => None
  end.

(** [for (tc = 0U; tc != 8U && s2 != -1; ++tc, s2 >>= 4)], with [n] rounds to go. *)
Fixpoint texcoords (n : nat) (num tc s2 : Z) (acc : list SVGA3dVertexDecl) (d3d_size : Z) : layout :=
  match n with
  | O => inr (acc, d3d_size)
  | S n =>
      if s2 =? -1 then inr (acc, d3d_size)
      else
        let fmt := Z.land s2 15 in
        if fmt =? 15 then texcoords n num (tc + 1) (Z.shiftr s2 4) acc d3d_size
        else
          match texcoord fmt with
          | None => inl kIOReturnError
          | Some (type, bytes) =>
              put num (decl type SVGA3D_DECLUSAGE_TEXCOORD tc) bytes (texcoords n num (tc + 1) (Z.shiftr s2 4)) acc d3d_size
          end
  end.

Definition position (fmt : Z) : IOReturn + Z * Z :=
  match fmt with
  | 1 => inr (SVGA3D_DECLTYPE_FLOAT3 : Z, 12)
  | 2 => inr (SVGA3D_DECLTYPE_FLOAT4 : Z, 16)
  | 3 => inr (SVGA3D_DECLTYPE_FLOAT2 : Z, 8)
  | 4 => inl kIOReturnUnsupported
  | _ => inl kIOReturnError
  end.

Definition set_stride (stride : Z) (d : SVGA3dVertexDecl) : SVGA3dVertexDecl :=
  mk_SVGA3dVertexDecl d.(SVGA3dVertexDecl_identity)
    (mk_SVGA3dArray d.(SVGA3dVertexDecl_array).(SVGA3dArray_surfaceId) d.(SVGA3dVertexDecl_array).(SVGA3dArray_offset) stride)
    d.(SVGA3dVertexDecl_rangeHint).

Definition vertex_layout (s2 s4 num : Z) : layout :=
  match position (bit_select s4 6 3) with
  | inl rc => inl rc
  | inr (type, bytes) =>
      put num (decl type SVGA3D_DECLUSAGE_POSITIONT 0) bytes
      (put_if (has_bits s4 (Z.shiftl 1 12)) num (decl SVGA3D_DECLTYPE_FLOAT1 SVGA3D_DECLUSAGE_PSIZE 0) 4
      (put_if (has_bits s4 (Z.shiftl 1 10)) num (decl SVGA3D_DECLTYPE_D3DCOLOR SVGA3D_DECLUSAGE_COLOR 0) 4
      (put_if (has_bits s4 (Z.shiftl 1 11)) num (decl SVGA3D_DECLTYPE_D3DCOLOR SVGA3D_DECLUSAGE_COLOR 1) 4
      (put_if (has_bits s4 (Z.shiftl 1 2)) num (fun _ => zero_decl) 4
      (texcoords 8 num 0 s2))))) [] 0
  end.

(** The result is the return code and the first [*num_decls] entries of the array;
    [pArray] says whether the pointer is not null, [num_decls] is [None] if it is null. *)
Definition analyze_vertex_format (s2 s4 : Z) (pArray : bool) (num_decls : option Z) : IOReturn * list SVGA3dVertexDecl :=
  match num_decls with
  | None => (kIOReturnBadArgument, [])
  | Some num =>
      if num <=? 0 then (kIOReturnSuccess, [])
      else if negb pArray then (kIOReturnBadArgument, [])
      else
        match vertex_layout s2 s4 num with
        | inl rc => (rc, [])
        | inr (acc, d3d_size) => (kIOReturnSuccess, set_stride (u32 d3d_size) <$> acc)
        end
  end.

(** ** Polygons *)

Fixpoint polygon_loop (n : nat) (base v1 v2 : Z) : list Z :=
  match n with
  | O => []
  | S n =>
      if v1 <? v2 then u16 (base + v1) :: u16 (base + v2) :: polygon_loop n base (v1 + 1) (v2 - 1)
      else if v1 =? v2 then [u16 (base + v1)] else []
  end.

(** What is stored, in order. *)
Definition make_polygon_index_array (base_index num_vertices : Z) : list Z :=
  if num_vertices =? 0 then []
  else u16 base_index :: polygon_loop (Z.to_nat num_vertices) base_index 1 (num_vertices - 1).

(** 16-bit stores to memory of words; [h] counts halves. *)
Definition store_u16 (h v : Z) (mem : Z -> Z) : Z -> Z :=
  let w := h / 2 in
  upd mem w (if Z.even h then mem w - mem w mod 2 ^ 16 + v else mem w mod 2 ^ 16 + v * 2 ^ 16).
Fixpoint store_u16s (h : Z) (l : list Z) (mem : Z -> Z) : Z -> Z :=
  match l with [] => mem | v :: l => store_u16s (h + 1) l (store_u16 h v mem) end.

Definition decl_offset (d : SVGA3dVertexDecl) : Z := d.(SVGA3dVertexDecl_array).(SVGA3dArray_offset).
Definition decl_stride (d : SVGA3dVertexDecl) : Z := d.(SVGA3dVertexDecl_array).(SVGA3dArray_stride).
Definition decl_type (d : SVGA3dVertexDecl) : Z := d.(SVGA3dVertexDecl_identity).(SVGA3dVertexArrayIdentity_type).
Definition decl_usage (d : SVGA3dVertexDecl) : Z := d.(SVGA3dVertexDecl_identity).(SVGA3dVertexArrayIdentity_usage).
Definition decl_usageIndex (d : SVGA3dVertexDecl) : Z := d.(SVGA3dVertexDecl_identity).(SVGA3dVertexArrayIdentity_usageIndex).

(** The word of vertex [j] that a declaration names, in an array at word [base]. *)
Definition vertex_word (base : Z) (d : SVGA3dVertexDecl) (j : Z) : Z := base + (decl_offset d + j * decl_stride d) / 4.

Definition flatshade_decl (base num_vertices : Z) (mem : Z -> Z) (d : SVGA3dVertexDecl) : Z -> Z :=
  if decl_type d =? SVGA3D_DECLTYPE_D3DCOLOR then
    let color := mem (vertex_word base d 0) in
    foldl (fun mem j => upd mem (vertex_word base d j) color) mem (seqZ 1 (num_vertices - 1))
  else mem.
Definition flatshade_polygon (base num_vertices : Z) (decls : list SVGA3dVertexDecl) (mem : Z -> Z) : Z -> Z :=
  foldl (flatshade_decl base num_vertices) mem decls.

(** ** Texture coordinates *)

(** The texture stage of each set of coordinates that is not normalised, and the mask
    of these sets. *)
Fixpoint adjustment_loop (n : nat) (s : IPP) (i s2 tc2s valids : Z) (map : Z -> Z) (mask : Z) : (Z -> Z) * Z :=
  match n with
  | O => (map, mask)
  | S n =>
      if (s2 =? -1) || (valids =? 0) then (map, mask)
      else
        let next := adjustment_loop n s (i + 1) (Z.shiftr s2 4) (Z.shiftr tc2s 4) (Z.shiftr valids 1) in
        if (Z.land s2 15 =? 15) || (Z.land valids 1 =? 0)
           || (bit_select s.(nonnormalized_tex_coordinates) (Z.land tc2s 15) 1 =? 0)
        then next map mask
        else next (upd map i (get4bits_64 s.(s2t_map) (Z.land tc2s 15))) (Z.lor mask (Z.shiftl 1 i))
  end.
Definition calc_adjustment_map (s : IPP) : (Z -> Z) * Z :=
  if s.(nonnormalized_tex_coordinates) =? 0 then (fun _ => 0, 0)
  else adjustment_loop 8 s 0 (s32 (s.(imm_s) 2)) s.(tc2s_map) s.(tc2s_map_valids) (fun _ => 0) 0.

(** [q[0] = (q[0] + 0.5F) * f[0]; q[1] = (q[1] + 0.5F) * f[1];] *)
Definition adjust_vertex (f : Z -> Z) (q : Z) (mem : Z -> Z) : Z -> Z :=
  let mem := upd mem q (fmul (fadd (mem q) float_half) (f 0)) in
  upd mem (q + 1) (fmul (fadd (mem (q + 1)) float_half) (f 1)).
Definition adjust_decl (s : IPP) (map : Z -> Z) (mask base num_vertices : Z) (mem : Z -> Z) (d : SVGA3dVertexDecl) : Z -> Z :=
  if negb (decl_usage d =? SVGA3D_DECLUSAGE_TEXCOORD) || (bit_select mask (decl_usageIndex d) 1 =? 0) then mem
  else
    let f k := s.(m_float_cache) (4 * map (decl_usageIndex d) + k) in
    foldl (fun mem j => adjust_vertex f (vertex_word base d j) mem) mem (seqZ 0 num_vertices).
Definition adjust_texture_coords (s : IPP) (map : Z -> Z) (mask base num_vertices : Z) (decls : list SVGA3dVertexDecl)
    (mem : Z -> Z) : Z -> Z :=
  foldl (adjust_decl s map mask base num_vertices) mem decls.

(** ** Caches *)

Definition calc_color_write_enable (s : IPP) : Z :=
  if bit_select (s.(imm_s) 6) 2 1 =? 0 then 0
  else if Z.land s.(param_cache_mask) (Z.shiftl 1 5) =? 0 then 15
  else
    let mask0 := Z.land (Z.lnot (bit_select (s.(imm_s) 5) 28 4)) 15 in
    let mask1 := Z.land mask0 10 in
    let mask1 := Z.lor mask1 (bit_select mask0 2 1) in
    Z.lor mask1 (Z.shiftl (bit_select mask0 0 1) 2).

Definition cache_misc_reg (regnum value : Z) (s : IPP) : bool * IPP :=
  if 8 <=? regnum then (true, s)
  else
    let mask := Z.shiftl 1 (8 + regnum) in
    if has_bits s.(param_cache_mask) mask then
      if value =? s.(imm_s) (8 + regnum) then (false, s) else (true, set_imm (8 + regnum) value s)
    else (true, set_cache_mask (Z.lor s.(param_cache_mask) mask) (set_imm (8 + regnum) value s)).
