(* ===== verification/IppCmds.v ===== *)
(** The commands of the Intel 915 command processor (AC/GL/CEsvga2IPP.cpp): the methods
    [ip_*], the decoders [decode_*] and the loop over the command buffer.

    A method is a program over the requests of Provider.v, with the state of the
    processor in the world.  A pointer into the command buffer is the list of words from
    there on; a read behind its end is [Wild].  The diagnostics that are compiled in at
    higher logging levels are left out. *)

From S2P Require Import Prelude IOKit Layout SvgaReg SvgaCmd Fifo SvgaDevice Svga3dReg Svga3d AccelIds AccelBlit.
From S2P Require Import Accel AccelProofs AccelSpec DevCaps ShaderCache Provider VertexArray Float32 Ipp.

(** The positions of the ones of a mask, from the lowest, each with the number of ones
    below it: the loops [for (i = 0U; mask; ++i, mask >>= 1) if (mask & 1U)]. *)
Definition ones_of (width : Z) (mask : Z) : list Z := filter (fun i => Z.testbit mask i = true) (seqZ 0 width).
Definition enum_ones (width : Z) (mask : Z) : list (Z * Z) := imap (fun k i => (i, Z.of_nat k)) (ones_of width mask).

Section commands.
(** The approximate reciprocal of the processor, on words ([rcpps]). *)
Variable rcp : Z -> Z.
Local Abbreviation prog := (prog IPP).
Implicit Types (m : list Z).

(** ** Memory *)

(** [p[i]] *)
Definition rd m (i : Z) : prog Z := match m !! Z.to_nat i with Some x => Ret x | None => Wild end.
(** [n] words from [p[i]]. *)
Definition rd_block m (i n : Z) : prog (list Z) :=
  let l := take (Z.to_nat n) (drop (Z.to_nat i) m) in
  if bool_decide (length l = Z.to_nat n) then Ret l else Wild.

Definition render_state (state : SVGA3dRenderStateName) (value : Z) : SVGA3dRenderState := mk_SVGA3dRenderState state value.
Definition setRenderState (states : list SVGA3dRenderState) : prog unit :=
  c ← gets cid; ask (OpRenderState c states);; mret tt.

(** ** Samplers *)

Definition unbind_state (i : Z) : SVGA3dTextureState := mk_SVGA3dTextureState i SVGA3D_TS_BIND_TEXTURE SVGA_ID_INVALID.
Definition unbind_samplers (mask : Z) : prog unit :=
  bound ← gets bound_samplers;
  let mask := Z.land mask bound in
  if mask =? 0 then mret tt
  else
    ok ← lock3D;
    if negb ok then mret tt
    else
      c ← gets cid;
      begun ← direct_call (DSetTextureState c (unbind_state <$> ones_of 16 mask));
      if negb begun then mret tt
      else modify (fun s => set_bound (Z.lxor s.(bound_samplers) mask) s).

(** ** Primitives *)

(** The state is read, so that the declarations and the size of a vertex are known. *)
Definition vertex_decls : prog (IOReturn * list SVGA3dVertexDecl) :=
  gets (fun s => analyze_vertex_format (s32 (s.(imm_s) 2)) (s.(imm_s) 4) true (Some MAX_NUM_DECLS)).

Definition bind_decl (sid num_vertices : Z) (d : SVGA3dVertexDecl) : SVGA3dVertexDecl :=
  mk_SVGA3dVertexDecl d.(SVGA3dVertexDecl_identity)
    (mk_SVGA3dArray sid d.(SVGA3dVertexDecl_array).(SVGA3dArray_offset) d.(SVGA3dVertexDecl_array).(SVGA3dArray_stride))
    (mk_SVGA3dArrayRangeHint d.(SVGA3dVertexDecl_rangeHint).(SVGA3dArrayRangeHint_first) (u32 num_vertices)).

(** What is stored behind the [vsize] bytes of vertices, and into them. *)
Definition store_vertices (s : IPP) (decls : list SVGA3dVertexDecl) (num_vertices : Z) (data indices : list Z) (flat : bool)
    (base : Z) (mem : Z -> Z) : Z -> Z :=
  let mem := write_words mem base data in
  let mem := store_u16s (2 * (base + Z.of_nat (length data))) indices mem in
  let '(map, mask) := calc_adjustment_map s in
  let mem := if mask =? 0 then mem else adjust_texture_coords s map mask base num_vertices decls mem in
  if flat then flatshade_polygon base num_vertices decls mem else mem.

(** The part common to both kinds of primitives: memory, vertices, transfer, drawing.
    [range] gets the identifier of the surface. *)
Definition draw_arrays m (num_dwords isize num_vertices : Z) (decls : list SVGA3dVertexDecl) (indices : list Z) (flat : bool)
    (range : Z -> SVGA3dPrimitiveRange) : prog unit :=
  let vsize := num_dwords * 4 in
  v ← gets m_arrays;
  r ← alloc true (vsize + isize) v;
  let '(rc, p, v) := r in
  modify (set_arrays v);;
  match p with
  | None => mret tt
  | Some p =>
      data ← rd_block m 1 num_dwords;
      s ← gets id;
      poke p (store_vertices s decls num_vertices data indices flat);;
      r ← upload true p (vsize + isize) v;
      let '(rc, sid, v) := r in
      modify (set_arrays v);;
      match rc, sid with
      | kIOReturnSuccess, Some sid =>
          c ← gets cid;
          ask (OpDraw c (bind_decl sid num_vertices <$> decls) [range sid]);;
          mret tt
      | _, _ => mret tt
      end
  end.

Definition ip_prim3d_poly m (num_vertex_dwords : Z) : prog unit :=
  if num_vertex_dwords =? 0 then mret tt
  else
    r ← vertex_decls;
    match r with
    | (kIOReturnSuccess, (d0 :: _) as decls) =>
        if decl_stride d0 =? 0 then mret tt
        else
          let vsize := num_vertex_dwords * 4 in
          let num_vertices := vsize / decl_stride d0 in
          if num_vertices <? 3 then mret tt
          else
            flat ← gets (fun s => has_bits (s.(imm_s) 4) (Z.shiftl 1 15));
            draw_arrays m num_vertex_dwords (num_vertices * 2) num_vertices decls
              (make_polygon_index_array 0 (u16 num_vertices)) flat
              (fun sid => mk_SVGA3dPrimitiveRange SVGA3D_PRIMITIVE_TRIANGLESTRIP (u32 (num_vertices - 2))
                 (mk_SVGA3dArray sid (u32 vsize) 2) 2 0)
    | _ => mret tt
    end.

(** The least number of vertices, the type of primitive and their number. *)
Definition direct_kind (prim_kind num_vertices : Z) : option (Z * Z * Z) :=
  match prim_kind with
  | 0 => Some (3, SVGA3D_PRIMITIVE_TRIANGLELIST : Z, num_vertices / 3)
  | 1 => Some (3, SVGA3D_PRIMITIVE_TRIANGLESTRIP : Z, num_vertices - 2)
  | 3 => Some (3, SVGA3D_PRIMITIVE_TRIANGLEFAN : Z, num_vertices - 2)
  | 5 => Some (2, SVGA3D_PRIMITIVE_LINELIST : Z, Z.shiftr num_vertices 1)
  | 6 => Some (2, SVGA3D_PRIMITIVE_LINESTRIP : Z, num_vertices - 1)
  | 8 => Some (1, SVGA3D_PRIMITIVE_POINTLIST : Z, num_vertices)
  | _ => None
  end.

Definition ip_prim3d_direct (prim_kind : Z) m (num_vertex_dwords : Z) : prog unit :=
  if num_vertex_dwords =? 0 then mret tt
  else
    r ← vertex_decls;
    match r with
    | (kIOReturnSuccess, (d0 :: _) as decls) =>
        if decl_stride d0 =? 0 then mret tt
        else
          let num_vertices := num_vertex_dwords * 4 / decl_stride d0 in
          match direct_kind prim_kind num_vertices with
          | None => mret tt
          | Some (least, primType, primitiveCount) =>
              if num_vertices <? least then mret tt
              else
                draw_arrays m num_vertex_dwords 0 num_vertices decls [] false
                  (fun _ => mk_SVGA3dPrimitiveRange primType (u32 primitiveCount) (mk_SVGA3dArray SVGA_ID_INVALID 0 2) 2 0)
          end
    | _ => mret tt
    end.

(** [for (skip = 0U; q[skip++] != 0xFFFFU;);] on the halves of the words. *)
Fixpoint halves_to_end (skip : Z) (m : list Z) : option Z :=
  match m with
  | [] => None
  | w :: m =>
      if w mod 2 ^ 16 =? 0xFFFF then Some (skip + 1)
      else if w / 2 ^ 16 =? 0xFFFF then Some (skip + 2)
      else halves_to_end (skip + 2) m
  end.

Definition clear_rect m : prog unit :=
  mask ← gets clear_mask;
  if Z.land mask 7 =? 0 then mret tt
  else
    f0 ← rd m 1; f1 ← rd m 2; f4 ← rd m 5; f5 ← rd m 6;
    s ← gets id;
    ask (OpClear (cid s) (translate_clear_mask s.(clear_mask))
           (Some (set_region1 (uint_of_float f4) (uint_of_float f5) (uint_of_float (fsub f0 f4)) (uint_of_float (fsub f1 f5))))
           s.(clear_color) s.(clear_depth) s.(clear_stencil));;
    mret tt.

Definition ip_prim3d m (cmd : Z) : prog Z :=
  if bit cmd 23 then
    if bit cmd 17 then
      let count := Z.land cmd 0xFFFF in
      if count =? 0 then
        match halves_to_end 0 (drop 1 m) with
        | Some skip => mret ((skip + 1) / 2 + 1)
        | None => Wild
        end
      else mret ((count + 1) / 2 + 1)
    else mret 2
  else
    let skip := Z.land cmd 0xFFFF + 2 in
    let primkind := bit_select cmd 18 5 in
    (match primkind with
     | 0 | 1 | 3 | 5 | 6 | 8 => ip_prim3d_direct primkind m (skip - 1)
     | 4 => ip_prim3d_poly m (skip - 1)
     | 10 => clear_rect m
     | _ => mret tt
     end);;
    mret skip.

(** ** Immediate state *)

Definition imm4_states (x : Z) : list SVGA3dRenderState :=
  [render_state SVGA3D_RS_POINTSIZE (float_of_int (bit_select x 23 9));
   render_state SVGA3D_RS_SHADEMODE (if has_bits x (Z.shiftl 1 15) then SVGA3D_SHADEMODE_FLAT else SVGA3D_SHADEMODE_SMOOTH);
   render_state SVGA3D_RS_CULLMODE (bit_select x 13 2);
   render_state SVGA3D_RS_POINTSPRITEENABLE (bit_select x 1 1);
   render_state SVGA3D_RS_ANTIALIASEDLINEENABLE (bit_select x 0 1)].

Definition imm5_states (x : Z) : list SVGA3dRenderState :=
  [render_state SVGA3D_RS_DITHERENABLE (bit_select x 1 1);
   render_state SVGA3D_RS_LASTPIXEL (bit_select x 26 1);
   render_state SVGA3D_RS_FOGENABLE (bit_select x 24 1);
   render_state SVGA3D_RS_STENCILREF (bit_select x 16 8);
   render_state SVGA3D_RS_STENCILFUNC (if bit x 2 then xlate_comparefunc (bit_select x 13 3) else SVGA3D_CMP_ALWAYS);
   render_state SVGA3D_RS_STENCILFAIL (xlate_stencilop (bit_select x 10 3));
   render_state SVGA3D_RS_STENCILZFAIL (xlate_stencilop (bit_select x 7 3));
   render_state SVGA3D_RS_STENCILPASS (xlate_stencilop (bit_select x 4 3));
   render_state SVGA3D_RS_STENCILENABLE (bit_select x 3 1)].

Definition imm6_states (write_enable x : Z) : list SVGA3dRenderState :=
  [render_state SVGA3D_RS_COLORWRITEENABLE write_enable;
   render_state SVGA3D_RS_BLENDENABLE (bit_select x 15 1);
   render_state SVGA3D_RS_BLENDEQUATION (bit_select x 12 3 + 1);
   render_state SVGA3D_RS_SRCBLEND (bit_select x 8 4);
   render_state SVGA3D_RS_DSTBLEND (bit_select x 4 4);
   render_state SVGA3D_RS_ALPHATESTENABLE (bit_select x 31 1);
   render_state SVGA3D_RS_ALPHAFUNC (xlate_comparefunc (bit_select x 28 3));
   render_state SVGA3D_RS_ALPHAREF (bit_select x 20 8);
   render_state SVGA3D_RS_ZENABLE (bit_select x 19 1);
   render_state SVGA3D_RS_ZFUNC (xlate_comparefunc (bit_select x 16 3));
   render_state SVGA3D_RS_ZWRITEENABLE (bit_select x 3 1)].

Definition imm7_states (s : IPP) (x : Z) : list SVGA3dRenderState :=
  [render_state SVGA3D_RS_DEPTHBIAS (if bit s.(param_cache_mask) 5 && bit (s.(imm_s) 5) 25 then x else 0)].

(** The states that immediate word [i] stands for, after it is stored. *)
Definition imm_states (s : IPP) (i : Z) : option (list SVGA3dRenderState) :=
  let x := s.(imm_s) i in
  match i with
  | 4 => Some (imm4_states x)
  | 5 => Some (imm5_states x)
  | 6 => Some (imm6_states (calc_color_write_enable s) x)
  | 7 => Some (imm7_states s x)
  | _ => None
  end.

Definition imm_cached (i : Z) : bool := (4 <=? i) && (i <=? 7).

Definition load_imm (i x : Z) : prog unit :=
  s ← gets id;
  if imm_cached i && has_bits s.(param_cache_mask) (Z.shiftl 1 i) && (s.(imm_s) i =? x) then mret tt
  else
    let s := set_imm i x s in
    let s := if imm_cached i then set_cache_mask (Z.lor s.(param_cache_mask) (Z.shiftl 1 i)) s else s in
    modify (fun _ => s);;
    match imm_states s i with
    | None => mret tt
    | Some states => setRenderState states
    end.

(** [for (i = 0U, ++p; mask && p < limit; ++i, mask >>= 1) if (mask & 1U)]; [pos]
    counts words from [p]. *)
Fixpoint load_imms m (skip : Z) (todo : list Z) (pos : Z) : prog unit :=
  match todo with
  | [] => mret tt
  | i :: todo =>
      if skip <=? pos then mret tt
      else x ← rd m pos; load_imm i x;; load_imms m skip todo (pos + 1)
  end.

Definition ip_load_immediate m (cmd : Z) : prog Z :=
  let skip := Z.land cmd 0xF + 2 in
  load_imms m skip (ones_of 8 (bit_select cmd 4 8)) 1;;
  mret skip.

Definition ip_clear_params m (cmd : Z) : prog Z :=
  let skip := Z.land cmd 0xFFFF + 2 in
  if skip <? 7 then mret skip
  else
    mask ← rd m 1; color ← rd m 4; depth ← rd m 5; stencil ← rd m 6;
    modify (set_clear mask color depth stencil);;
    mret skip.

(** ** Textures *)

(** The surface of texture stage [i], and the reciprocals of its size; the other two
    floats of the stage are not used. *)
Definition map_stage m (ik : Z * Z) : prog unit :=
  let '(i, k) := ik in
  q0 ← rd m (2 + 3 * k); q1 ← rd m (3 + 3 * k);
  let width := bit_select q1 10 11 + 1 in
  let height := bit_select q1 21 11 + 1 in
  modify (fun s =>
    set_float_cache (upd (upd s.(m_float_cache) (4 * i) (rcp (float_of_int width))) (4 * i + 1) (rcp (float_of_int height)))
      (set_surface_id i q0 s)).

Definition ip_3d_map_state m : prog unit :=
  mask ← rd m 1;
  for_each (map_stage m) (enum_ones 16 (u16 mask)).

Definition texture_state (i : Z) (name : SVGA3dTextureStateName) (value : Z) : SVGA3dTextureState := mk_SVGA3dTextureState i name value.

Definition sampler_states (s : IPP) (i q0 q1 q2 max_aniso : Z) : list SVGA3dTextureState :=
  [texture_state i SVGA3D_TS_BIND_TEXTURE (s.(surface_ids) (bit_select q1 1 4));
   texture_state i SVGA3D_TS_BORDERCOLOR q2;
   texture_state i SVGA3D_TS_ADDRESSU (xlate_taddress (bit_select q1 12 3));
   texture_state i SVGA3D_TS_ADDRESSV (xlate_taddress (bit_select q1 9 3));
   texture_state i SVGA3D_TS_ADDRESSW (xlate_taddress (bit_select q1 6 3));
   texture_state i SVGA3D_TS_MIPFILTER (xlate_filter1 (bit_select q0 20 2));
   texture_state i SVGA3D_TS_MAGFILTER (xlate_filter2 (bit_select q0 17 3));
   texture_state i SVGA3D_TS_MINFILTER (xlate_filter2 (bit_select q0 14 3));
   texture_state i SVGA3D_TS_TEXTURE_ANISOTROPIC_LEVEL (Z.min (if bit q0 3 then 4 else 2) max_aniso);
   texture_state i SVGA3D_TS_GAMMA (if bit q0 31 then 0 else float_one)].

Definition sampler_stage m (max_aniso : Z) (ik : Z * Z) : prog unit :=
  let '(i, k) := ik in
  q0 ← rd m (2 + 3 * k); q1 ← rd m (3 + 3 * k); q2 ← rd m (4 + 3 * k);
  let tmi := bit_select q1 1 4 in
  modify (fun s =>
    let s := set_s2t (set4bits_64 s.(s2t_map) i tmi) s in
    let s := set_nonnormalized (if bit q1 5 then Z.ldiff s.(nonnormalized_tex_coordinates) (Z.shiftl 1 i)
                                else Z.lor s.(nonnormalized_tex_coordinates) (Z.shiftl 1 i)) s in
    set_bound (if isIdValid (s.(surface_ids) tmi) then Z.lor s.(bound_samplers) (Z.shiftl 1 i)
               else Z.ldiff s.(bound_samplers) (Z.shiftl 1 i)) s);;
  s ← gets id;
  ask (OpTextureState (cid s) (sampler_states s i q0 q1 q2 max_aniso));;
  mret tt.

Definition ip_3d_sampler_state m : prog unit :=
  mask ← rd m 1;
  let mask := u16 mask in
  max_aniso ← getDevCap SVGA3D_DEVCAP_MAX_TEXTURE_ANISOTROPY;
  unbind_samplers (u16 (Z.lnot mask));;
  modify (fun s => set_nonnormalized (Z.land s.(nonnormalized_tex_coordinates) mask) s);;
  for_each (sampler_stage m max_aniso) (enum_ones 16 mask).

(** ** Other render states *)

Definition modes4_states (x : Z) : list SVGA3dRenderState :=
  [render_state SVGA3D_RS_STENCILMASK (if bit x 17 then bit_select x 8 8 else 0xFFFFFFFF);
   render_state SVGA3D_RS_STENCILWRITEMASK (if bit x 16 then bit_select x 0 8 else 0xFFFFFFFF)].

Definition ip_misc_render_state (selector : Z) m : prog unit :=
  match selector with
  | 0 => p1 ← rd m 1; setRenderState [render_state SVGA3D_RS_SLOPESCALEDEPTHBIAS p1]
  | 1 => p0 ← rd m 0; setRenderState [render_state SVGA3D_RS_SCISSORTESTENABLE (bit_select p0 0 1)]
  | 2 =>
      ok ← lock3D;
      if negb ok then mret tt
      else
        p1 ← rd m 1; p2 ← rd m 2;
        c ← gets cid;
        let x := bit_select p1 0 16 in
        let y := bit_select p1 16 16 in
        direct_call (DSetScissorRect c (mk_SVGA3dRect x y (u32 (bit_select p2 0 16 - x + 1)) (u32 (bit_select p2 16 16 - y + 1))));;
        mret tt
  | 3 => p1 ← rd m 1; setRenderState [render_state SVGA3D_RS_BLENDCOLOR p1]
  | 4 => p0 ← rd m 0; setRenderState (modes4_states p0)
  | _ => mret tt
  end.

Definition alpha_blend_states (cmd : Z) : list SVGA3dRenderState :=
  (if bit cmd 23 then [render_state SVGA3D_RS_SEPARATEALPHABLENDENABLE (bit_select cmd 22 1)] else []) ++
  (if bit cmd 21 then [render_state SVGA3D_RS_BLENDEQUATIONALPHA (bit_select cmd 16 3 + 1)] else []) ++
  (if bit cmd 11 then [render_state SVGA3D_RS_SRCBLENDALPHA (bit_select cmd 6 4 + 1)] else []) ++
  (if bit cmd 5 then [render_state SVGA3D_RS_DSTBLENDALPHA (bit_select cmd 0 4 + 1)] else []).

(** [if (i) m_provider->setRenderState(m_context_id, i, &rs[0]);] *)
Definition send_some (states : list SVGA3dRenderState) : prog unit :=
  match states with [] => mret tt | _ => setRenderState states end.

Definition ip_independent_alpha_blend (cmd : Z) : prog unit := send_some (alpha_blend_states cmd).

Definition backface_states (cmd : Z) : list SVGA3dRenderState :=
  (if bit cmd 1 then [render_state SVGA3D_RS_STENCILENABLE2SIDED (bit_select cmd 0 1)] else []) ++
  (if bit cmd 14 then
     [render_state SVGA3D_RS_CCWSTENCILFUNC (xlate_comparefunc (bit_select cmd 11 3));
      render_state SVGA3D_RS_CCWSTENCILFAIL (xlate_stencilop (bit_select cmd 8 3));
      render_state SVGA3D_RS_CCWSTENCILZFAIL (xlate_stencilop (bit_select cmd 5 3));
      render_state SVGA3D_RS_CCWSTENCILPASS (xlate_stencilop (bit_select cmd 2 3))]
   else []).

Definition ip_backface_stencil_ops (cmd : Z) : prog unit := send_some (backface_states cmd).

(** ** Shaders, targets, view *)

(** The fixed shaders: the program of the application is not looked at. *)
Definition shader_for (s : IPP) : Z :=
  if has_bits (s.(imm_s) 4) (Z.shiftl 1 11) then 3
  else if negb (Z.land (s.(imm_s) 2) 15 =? 15) then 2
  else if has_bits (s.(imm_s) 4) (Z.shiftl 1 10) then 1
  else SVGA_ID_INVALID.

Definition ip_select_and_load_ps : prog unit :=
  modify (set_tc2s TC2S_MAP_ID TC2S_MAP_ID_VALIDS);;
  ok ← lock3D;
  if negb ok then mret tt
  else s ← gets id; direct_call (DSetShader (cid s) SVGA3D_SHADERTYPE_PS (shader_for s));; mret tt.

Definition load_const m (ik : Z * Z) : prog unit :=
  let '(i, k) := ik in
  x ← rd m (2 + 4 * k); y ← rd m (3 + 4 * k); z ← rd m (4 + 4 * k); w ← rd m (5 + 4 * k);
  c ← gets cid;
  direct_call (DSetShaderConst c i SVGA3D_SHADERTYPE_PS (x, y, z, w));;
  mret tt.

Definition ip_load_ps_const m : prog unit :=
  mask ← rd m 1;
  let mask := u16 mask in
  if mask =? 0 then mret tt
  else
    ok ← lock3D;
    if negb ok then mret tt else for_each (load_const m) (enum_ones 16 mask).

Definition ip_buf_info m : prog unit :=
  p1 ← rd m 1;
  let kind := bit_select p1 24 3 in
  if negb (kind =? 3) && negb (kind =? 7) then mret tt
  else
    sid ← rd m 2;
    ok ← lock3D;
    if negb ok then mret tt
    else
      c ← gets cid;
      direct_call (DSetRenderTarget c (if kind =? 3 then SVGA3D_RT_COLOR0 else SVGA3D_RT_DEPTH)
                     (mk_SVGA3dSurfaceImageId sid (bit_select p1 8 8) (bit_select p1 0 8)));;
      mret tt.

Definition ip_draw_rect m : prog unit :=
  x ← rd m 1; y ← rd m 2; w ← rd m 3; h ← rd m 4;
  ok ← lock3D;
  if negb ok then mret tt
  else
    c ← gets cid;
    direct_call (DSetViewport c (mk_SVGA3dRect x y w h));;
    direct_call (DSetZRange c 0 float_one);;
    mret tt.

(** ** Decoders *)

(** A fence number is stored if the array has an entry for it. *)
Definition store_index m : prog unit :=
  p1 ← rd m 1;
  if negb (p1 =? 64) then mret tt
  else
    fence_num ← rd m 2;
    s ← gets id;
    match s.(m_fences) with
    | None => mret tt
    | Some fences =>
        if s.(m_fences_len) <=? u64 (fence_num * 8) then mret tt
        else
          ok ← lock3D;
          if negb ok then mret tt
          else
            f ← insert_fence;
            modify (fun s => set_fences (Some (upd fences fence_num (f, 0))) s.(m_fences_len) s)
    end.

Definition decode_mi m (cmd : Z) : prog Z :=
  match bit_select cmd 23 6 with
  | 0 | 2 | 3 | 4 | 7 | 8 | 10 => mret 1
  | 20 | 34 | 36 | 48 => mret 3
  | 17 | 18 | 19 | 24 | 49 => mret 2
  | 32 => mret (Z.land cmd 0x3F + 2)
  | 33 => store_index m;; mret (Z.land cmd 0x3F + 2)
  | _ => mret 0
  end.

Definition decode_2d (cmd : Z) : prog Z :=
  match bit_select cmd 22 7 with
  | 0x01 | 0x03 | 0x11 | 0x24 | 0x25 | 0x26 | 0x31 | 0x40 | 0x50 | 0x51 | 0x52 | 0x53 | 0x54 | 0x55 | 0x56 | 0x57
  | 0x58 | 0x59 | 0x71 | 0x72 | 0x75 | 0x76 | 0x77 | 0x43 => mret (Z.land cmd 0xFF + 2)
  | _ => mret 0
  end.

Definition decode_3d_1d m (cmd : Z) : prog Z :=
  let skip := Z.land cmd 0xFFFF + 2 in
  match bit_select cmd 16 8 with
  | 0x00 => ip_3d_map_state m;; mret skip
  | 0x01 => ip_3d_sampler_state m;; mret skip
  | 0x04 => ip_load_immediate m cmd
  | 0x05 => ip_select_and_load_ps;; mret skip
  | 0x06 => ip_load_ps_const m;; mret skip
  | 0x80 => ip_draw_rect m;; mret skip
  | 0x81 => ip_misc_render_state 2 m;; mret skip
  | 0x88 => ip_misc_render_state 3 m;; mret skip
  | 0x8E => ip_buf_info m;; mret skip
  | 0x97 => ip_misc_render_state 0 m;; mret skip
  | 0x9C => ip_clear_params m cmd
  | _ => mret skip
  end.

(** [if (cache_misc_reg(regnum, cmd & 0xFFFFFFU)) ...] *)
Definition if_changed (regnum cmd : Z) (p : prog unit) : prog unit :=
  changed ← state (fun w => let '(b, s) := cache_misc_reg regnum (Z.land cmd 0xFFFFFF) w.(w_client) in (b, set_client s w));
  if (changed : bool) then p else mret tt.

Definition decode_3d m (cmd : Z) : prog Z :=
  match bit_select cmd 24 5 with
  | 0x06 | 0x07 | 0x09 | 0x0C | 0x15 => mret 1
  | 0x08 => if_changed 1 cmd (ip_backface_stencil_ops cmd);; mret 1
  | 0x0B => if_changed 3 cmd (ip_independent_alpha_blend cmd);; mret 1
  | 0x0D => if_changed 4 cmd (ip_misc_render_state 4 m);; mret 1
  | 0x1C =>
      match bit_select cmd 16 8 with
      | 0x80 => ip_misc_render_state 1 m;; mret 1
      | 0x88 => mret 1
      | _ => mret 0
      end
  | 0x1D => decode_3d_1d m cmd
  | 0x1F => ip_prim3d m cmd
  | _ => mret 0
  end.

(** ** The buffer *)

(** One round: the number of words to skip, which is never zero. *)
Definition process m : prog Z :=
  cmd ← rd m 0;
  skip ← (match Z.shiftr cmd 29 with
          | 0 => decode_mi m cmd
          | 2 => decode_2d cmd
          | 3 => decode_3d m cmd
          | _ => mret 0
          end);
  mret (if skip =? 0 then 1 else skip).

(** [for (; p < limit; p += skip)], with [size] words to go; the result says whether
    the loop has ended within [n] rounds. *)
Fixpoint submit_loop (n : nat) m (size : Z) : prog bool :=
  if size <=? 0 then mret true
  else
    match n with
    | O => mret false
    | S n => skip ← process m; submit_loop n (drop (Z.to_nat skip) m) (size - skip)
    end.
Definition submit_buffer (kernel_buffer_ptr : list Z) (size_dwords : Z) : prog bool :=
  submit_loop (Z.to_nat size_dwords) kernel_buffer_ptr size_dwords.

(** ** Life cycle *)

Definition setFences (fences_ptr : option (Z -> Z * Z)) (fences_len : Z) (s : IPP) : IPP := set_fences fences_ptr fences_len s.
Definition discard_cached_state (s : IPP) : IPP := set_cache_mask 0 s.

Definition no_image : SVGA3dSurfaceImageId := mk_SVGA3dSurfaceImageId SVGA_ID_INVALID 0 0.
(** The provider is not null. *)
Definition detach_render_targets : prog unit :=
  c ← gets cid;
  if negb (isIdValid c) then mret tt
  else
    ok ← lock3D;
    if negb ok then mret tt
    else
      direct_call (DSetRenderTarget c SVGA3D_RT_COLOR0 no_image);;
      direct_call (DSetRenderTarget c SVGA3D_RT_DEPTH no_image);;
      mret tt.

Definition set_context_id (c : Z) (s : IPP) : IPP :=
  set_shaders {| m_shader_cache := s.(m_shaders).(m_shader_cache); m_next_shid := s.(m_shaders).(m_next_shid);
                 m_active_shid := s.(m_shaders).(m_active_shid); m_context_id := c |} s.

(** [Cleanup] after the shader cache is empty. *)
Definition cleanup_context : prog unit :=
  c ← gets cid;
  (if isIdValid c then
     unbind_samplers 0xFFFF;;
     detach_render_targets;;
     ask (OpDestroyContext c);;
     freeContextID c;;
     modify (set_context_id SVGA_ID_INVALID)
   else mret tt);;
  v ← gets m_arrays;
  v ← purge true v;
  modify (set_arrays v).

(** [IOMallocAligned] and the context; [Cleanup] after a failure finds no shaders, no
    context and an empty buffer. *)
Definition start (mem_ok : bool) : prog bool :=
  if negb mem_ok then mret false
  else
    c ← allocContextID;
    rc ← ask (OpCreateContext c);
    if negb (bool_decide (rc.1 = kIOReturnSuccess)) then
      freeContextID c;;
      modify (set_context_id SVGA_ID_INVALID);;
      cleanup_context;;
      mret false
    else modify (set_context_id c);; mret true.
End commands.

(** The object after [Init]; the memory of a new object is zero. *)
Definition Init : IPP :=
  mk_IPP None 0 (fun _ => 0)
    {| m_shader_cache := []; m_next_shid := 0; m_active_shid := u32 (SVGA_ID_INVALID - 1); m_context_id := SVGA_ID_INVALID |}
    (init (mk_VertexArray None 0 0 0 0 0 0)) (fun _ => 0) 0 0 0 0 0 0 (fun i => if (0 <=? i) && (i <? 16) then SVGA_ID_INVALID else 0)
    0 0 0 0.

Section cleanup.
Context {HS : Type} `{SvgaHost HS}.

(** [purge_shader_cache], then the context and the buffer. *)
Definition Cleanup (lock_ok : bool) (w : world IPP) : M HS (world IPP) :=
  h ← purge_shader_cache lock_ok true w.(w_client).(m_shaders);
  r ← run cleanup_context (set_client (set_shaders h w.(w_client)) w);
  mret r.2.
End cleanup.
