(* ===== verification/IppProofs.v ===== *)
(** The command processor as a whole: the loop over the buffer ends, what it asks for
    arrives at the device, and what it remembers of the state of the device is true. *)

From S2P Require Import Prelude IOKit Layout SvgaReg SvgaCmd Fifo Ring FifoProofs SvgaDevice Bits DeviceProofs.
From S2P Require Import Driver Svga3dReg Svga3d Svga3dProofs AccelIds AccelBlit Accel AccelProofs AccelSpec DevCaps.
From S2P Require Import ShaderCache Provider VertexArray Float32 Ipp IppCmds.

(** ** Sequencing *)

Section sequencing.
Context {S : Type}.
Implicit Types w : world S.

Lemma spec_bind_Some {A B} (p : prog S A) (f : A -> prog S B) w nf t : spec (p ≫= f) w nf = Some t ->
  exists t1 t2, spec p w nf = Some t1 /\ spec (f t1.(t_result)) t1.(t_world) t1.(t_next) = Some t2 /\
    t = mk_trace t2.(t_result) (t1.(t_events) ++ t2.(t_events)) t2.(t_world) t2.(t_next).
Proof.
  rewrite spec_bind. destruct (spec p w nf) as [t1|]; [|done]. cbn [mbind option_bind]. intros Ht.
  apply after_Some in Ht as (t2 & Ht2 & ->). by exists t1, t2.
Qed.

(** The result of a program that returns a known value. *)
Definition returns {A} (P : A -> Prop) (p : prog S A) : Prop :=
  forall w nf t, spec p w nf = Some t -> P t.(t_result).

Lemma returns_ret {A} (P : A -> Prop) (a : A) : P a -> returns P (mret a).
Proof. intros Ha w nf t [= <-]. done. Qed.

Lemma returns_bind {A B} (P : B -> Prop) (p : prog S A) (f : A -> prog S B) :
  (forall a, returns P (f a)) -> returns P (p ≫= f).
Proof. intros Hf w nf t Ht. apply spec_bind_Some in Ht as (t1 & t2 & _ & H2 & ->). by apply Hf in H2. Qed.

Lemma returns_wild {A} (P : A -> Prop) : returns P Wild.
Proof. intros w nf t Ht. done. Qed.
End sequencing.

Create HintDb prog.
#[export] Hint Resolve returns_bind returns_ret returns_wild : prog.

(** ** The loop ends *)

Section loop.
Variable rcp : Z -> Z.

Local Ltac skip_solve :=
  repeat first [apply returns_wild | apply returns_ret | apply returns_bind; intros ? | case_match]; try lia.

Lemma land_nonneg x y : 0 <= y -> 0 <= Z.land x y.
Proof. intros. apply Z.land_nonneg. by right. Qed.

Lemma halves_positive m : forall k n, 0 <= k -> halves_to_end k m = Some n -> 0 <= n.
Proof.
  induction m as [|x m IH]; intros k n Hk; cbn [halves_to_end]; [done|].
  destruct (_ =? _); [intros [= <-]; lia|]. destruct (_ =? _); [intros [= <-]; lia|]. apply IH. lia.
Qed.

Lemma prim3d_skip m cmd : returns (fun skip => 0 <= skip) (ip_prim3d m cmd).
Proof.
  unfold ip_prim3d. pose proof (land_nonneg cmd 0xFFFF). destruct (bit cmd 23).
  - destruct (bit cmd 17); [|skip_solve]. destruct (_ =? 0).
    + destruct (halves_to_end 0 (drop 1 m)) eqn:E; [|skip_solve]. apply halves_positive in E; [|lia].
      apply returns_ret. pose proof (Z.div_pos (z + 1) 2). lia.
    + apply returns_ret. pose proof (Z.div_pos (Z.land cmd 0xFFFF + 1) 2). lia.
  - apply returns_bind. intros _. apply returns_ret. lia.
Qed.

Lemma decode_mi_skip m cmd : returns (fun skip => 0 <= skip) (decode_mi m cmd).
Proof. unfold decode_mi. pose proof (land_nonneg cmd 0x3F). skip_solve. Qed.

Lemma decode_2d_skip cmd : returns (fun skip => 0 <= skip) (decode_2d cmd).
Proof. unfold decode_2d. pose proof (land_nonneg cmd 0xFF). skip_solve. Qed.

Lemma decode_3d_1d_skip m cmd : returns (fun skip => 0 <= skip) (decode_3d_1d rcp m cmd).
Proof.
  unfold decode_3d_1d, ip_load_immediate, ip_clear_params. pose proof (land_nonneg cmd 0xFFFF). pose proof (land_nonneg cmd 0xF).
  skip_solve.
Qed.

Lemma decode_3d_skip m cmd : returns (fun skip => 0 <= skip) (decode_3d rcp m cmd).
Proof.
  unfold decode_3d. repeat case_match; try (by apply prim3d_skip); try (by apply decode_3d_1d_skip); skip_solve.
Qed.

Lemma process_skip m : returns (fun skip => 1 <= skip) (process rcp m).
Proof.
  intros w nf t Ht. apply spec_bind_Some in Ht as (t1 & t2 & _ & Ht & ->). cbn [t_result].
  apply spec_bind_Some in Ht as (t3 & t4 & H3 & H4 & ->). injection H4 as <-. cbn [t_result].
  assert (0 <= t3.(t_result)) as Hs; [|destruct (Z.eqb_spec (t_result t3) 0); lia].
  revert H3. generalize t1.(t_result), t1.(t_world), t1.(t_next). intros cmd w1 nf1.
  assert (returns (fun skip => 0 <= skip)
    (match Z.shiftr cmd 29 with 0 => decode_mi m cmd | 2 => decode_2d cmd | 3 => decode_3d rcp m cmd | _ => mret 0 end)) as Hr.
  { destruct (Z.shiftr cmd 29) as [|[[?|?|]|[?|?|]|]|]; try (by apply returns_ret).
    - apply decode_mi_skip.
    - apply decode_3d_skip.
    - apply decode_2d_skip. }
  apply Hr.
Qed.

Lemma submit_loop_ends n : forall m size, size <= Z.of_nat n -> returns (fun b => b = true) (submit_loop rcp n m size).
Proof.
  induction n as [|n IH]; intros m size Hn; cbn [submit_loop].
  - rewrite (proj2 (Z.leb_le size 0)) by lia. by apply returns_ret.
  - destruct (size <=? 0); [by apply returns_ret|]. intros w nf t Ht.
    apply spec_bind_Some in Ht as (t1 & t2 & H1 & H2 & ->). apply process_skip in H1. cbn [t_result].
    eapply IH; [|exact H2]. lia.
Qed.
End loop.

(** ** Programs without wild reads *)

Section total.
Context {S : Type}.

Fixpoint total {A} (p : prog S A) : Prop :=
  match p with
  | Ret _ => True
  | Wild => False
  | Ask _ k => forall r, total (k r)
  | Direct _ k => forall r, total (k r)
  | InsertFence k => forall r, total (k r)
  | SyncToFence _ k | SyncFIFO k | Tell _ k => total k
  | State _ _ k => forall r, total (k r)
  end.

Lemma total_spec {A} (p : prog S A) : total p -> forall w nf, exists t, spec p w nf = Some t.
Proof.
  induction p as [a| |op k IH|c k IH|k IH|fence p IH|p IH|x p IH|T f k IH]; intros Hp w nf; cbn [total spec] in *; [eauto|done|..].
  - set (o := accel_spec w.(w_accel) nf op).
    destruct (IH o.(o_result) (Hp _) (set_accel o.(o_accel) w) o.(o_next)) as [t ->]. cbn. eauto.
  - destruct (IH _ (Hp true) w nf) as [t ->]. cbn. eauto.
  - destruct (IH _ (Hp (fence_no nf)) w (u32 (fence_no nf + 1))) as [t ->]. cbn. eauto.
  - destruct (IH Hp w nf) as [t ->]. cbn. eauto.
  - destruct (IH Hp w nf) as [t ->]. cbn. eauto.
  - destruct (IH Hp w nf) as [t ->]. cbn. eauto.
  - destruct (f w) as [b w']. by apply IH.
Qed.

Lemma total_bind {A B} (p : prog S A) (f : A -> prog S B) : total p -> (forall a, total (f a)) -> total (p ≫= f).
Proof.
  intros Hp Hf. induction p as [a| |op k IH|c k IH|k IH|fence p IH|p IH|x p IH|T f' k IH]; cbn in *; auto.
Qed.

Lemma total_for {X} (body : X -> prog S unit) l : (forall x, x ∈ l -> total (body x)) -> total (for_each body l).
Proof.
  induction l as [|x l IH]; intros Hb; [done|]. cbn [for_each]. apply total_bind; [apply Hb; left|].
  intros _. apply IH. intros y Hy. apply Hb. by right.
Qed.
End total.

(** Steps through a program whose reads are known to be inside. *)
Ltac total_step :=
  match goal with
  | |- total (Ret _) => exact I
  | |- total (mret _) => exact I
  | |- total (for_each _ _) => fail 1
  | |- total (_ ≫= _) => apply total_bind; [|intros ?]
  | |- total (ask _) => intros ?; exact I
  | |- total (direct_call _) => intros ?; exact I
  | |- total insert_fence => intros ?; exact I
  | |- total (sync_to _) => exact I
  | |- total sync_all => exact I
  | |- total (tells _) => exact I
  | |- total (state _) => intros ?; exact I
  | |- total (gets _) => intros ?; exact I
  | |- total (modify _) => intros ?; exact I
  | |- total (poke _ _) => intros ?; exact I
  | |- total lock3D => intros ?; exact I
  | |- total (getDevCap _) => intros ?; exact I
  | |- total allocSurfaceID => intros ?; exact I
  | |- total (freeSurfaceID _) => intros ?; exact I
  | |- total (VRAMMalloc _) => intros ?; exact I
  | |- total (VRAMFree _) => intros ?; exact I
  | |- total (offsetInVRAM _) => intros ?; exact I
  | |- total (match ?x with _ => _ end) => destruct x
  | |- total (let '_ := ?x in _) => destruct x
  end.
Ltac total_solve := repeat total_step.

Section buffer_totals.
Context {S : Type}.

Lemma sync_total v : total (S := S) (sync v).
Proof. unfold sync. total_solve. Qed.
Lemma purge_total b v : total (S := S) (purge b v).
Proof. unfold purge, drop_surface. destruct (negb b); [total_solve|]. apply total_bind; [apply sync_total|]. intros. cbv zeta. total_solve. Qed.
Lemma alloc_block_total n v : total (S := S) (alloc_block n v).
Proof. unfold alloc_block. cbv zeta. total_solve. apply purge_total. Qed.
Lemma alloc_total b n v : total (S := S) (alloc b n v).
Proof.
  unfold alloc. cbv zeta. total_solve; first [apply alloc_block_total|apply sync_total|apply purge_total].
Qed.
Lemma upload_total b p n v : total (S := S) (upload b p n v).
Proof. unfold upload. cbv zeta. total_solve. Qed.
End buffer_totals.

(** ** Complete commands *)

Definition count_ones (mask : Z) : Z := Z.of_nat (length (ones_of 16 (u16 mask))).

(** The number of words that a command is read with, its first word included; it is
    determined by the first two words. *)
Definition words_needed (m : list Z) : Z :=
  let cmd := nth 0 m 0 in
  let p1 := nth 1 m 0 in
  let skip := Z.land cmd 0xFFFF + 2 in
  match Z.shiftr cmd 29 with
  | 0 => if bit_select cmd 23 6 =? 33 then (if p1 =? 64 then 3 else 2) else 1
  | 3 =>
      match bit_select cmd 24 5 with
      | 0x1D =>
          match bit_select cmd 16 8 with
          | 0x00 | 0x01 => 2 + 3 * count_ones p1
          | 0x04 => Z.land cmd 0xF + 2
          | 0x06 => 2 + 4 * count_ones p1
          | 0x80 => 5
          | 0x81 | 0x8E => 3
          | 0x88 | 0x97 => 2
          | 0x9C => if skip <? 7 then 1 else 7
          | _ => 1
          end
      | 0x1F =>
          if bit cmd 23 then 1
          else match bit_select cmd 18 5 with 0 | 1 | 3 | 4 | 5 | 6 | 8 => skip | 10 => 7 | _ => 1 end
      | _ => 1
      end
  | _ => 1
  end.

(** A list of indices of variable length has its end mark. *)
Definition has_end (m : list Z) : Prop :=
  let cmd := nth 0 m 0 in
  Z.shiftr cmd 29 = 3 -> bit_select cmd 24 5 = 0x1F -> bit cmd 23 = true -> bit cmd 17 = true -> Z.land cmd 0xFFFF = 0 ->
  halves_to_end 0 (drop 1 m) <> None.

Definition complete_cmd (m : list Z) : Prop :=
  m <> [] /\ words_needed m <= Z.of_nat (length m) /\ has_end m.

Lemma rd_total m i : 0 <= i < Z.of_nat (length m) -> total (rd m i).
Proof.
  intros Hi. unfold rd. destruct (lookup_lt_is_Some_2 m (Z.to_nat i)) as [x ->]; [lia|done].
Qed.

Lemma rd_block_total m i n : 0 <= i -> 0 <= n -> i + n <= Z.of_nat (length m) -> total (rd_block m i n).
Proof.
  intros Hi Hn Hl. unfold rd_block. rewrite bool_decide_true; [done|]. rewrite length_take, length_drop. lia.
Qed.

Lemma enum_ones_bound width mask i k : (i, k) ∈ enum_ones width mask -> 0 <= k < Z.of_nat (length (ones_of width mask)).
Proof.
  intros Hin. apply elem_of_lookup_imap in Hin as (n & x & [= -> ->] & Hl). apply lookup_lt_Some in Hl. lia.
Qed.

Section complete.
Variable rcp : Z -> Z.

Local Ltac reads := repeat first [progress total_solve | apply rd_total; cbn [length]; lia | apply rd_total; lia].

Lemma draw_arrays_total m n isize nv decls idx flat range : 0 <= n -> 1 + n <= Z.of_nat (length m) ->
  total (draw_arrays m n isize nv decls idx flat range).
Proof.
  intros Hn Hl. unfold draw_arrays. cbv zeta. total_solve;
    first [apply alloc_total|apply upload_total|apply rd_block_total; lia].
Qed.

Lemma prim3d_direct_total k m n : 0 <= n -> 1 + n <= Z.of_nat (length m) -> total (ip_prim3d_direct k m n).
Proof.
  intros Hn Hl. unfold ip_prim3d_direct. cbv zeta. total_solve; try by apply draw_arrays_total. all: intros ?; exact I.
Qed.

Lemma prim3d_poly_total m n : 0 <= n -> 1 + n <= Z.of_nat (length m) -> total (ip_prim3d_poly m n).
Proof.
  intros Hn Hl. unfold ip_prim3d_poly. cbv zeta. total_solve; try by apply draw_arrays_total. all: intros ?; exact I.
Qed.

Lemma clear_rect_total m : 7 <= Z.of_nat (length m) -> total (clear_rect m).
Proof. intros Hl. unfold clear_rect. reads. Qed.

Lemma load_imm_total i x : total (load_imm i x).
Proof. unfold load_imm. cbv zeta. total_solve. unfold setRenderState. total_solve. Qed.

Lemma load_imms_total m skip todo : skip <= Z.of_nat (length m) -> forall pos, 0 <= pos -> total (load_imms m skip todo pos).
Proof.
  intros Hl. induction todo as [|i todo IH]; intros pos Hp; cbn [load_imms]; [done|].
  destruct (Z.leb_spec skip pos); [done|]. apply total_bind; [apply rd_total; lia|]. intros x.
  apply total_bind; [apply load_imm_total|]. intros _. apply IH. lia.
Qed.

Lemma unbind_total mask : total (unbind_samplers mask).
Proof. unfold unbind_samplers. cbv zeta. total_solve. Qed.

Lemma map_state_total cmd p1 args : 2 + 3 * count_ones p1 <= Z.of_nat (length (cmd :: p1 :: args)) ->
  total (ip_3d_map_state rcp (cmd :: p1 :: args)).
Proof.
  intros Hl. unfold ip_3d_map_state. change (rd (cmd :: p1 :: args) 1) with (Ret (S := IPP) p1). cbn [mbind prog_bind].
  apply total_for. intros [i k] Hk. apply enum_ones_bound in Hk. unfold map_stage, count_ones in *. reads.
Qed.

Lemma sampler_state_total cmd p1 args : 2 + 3 * count_ones p1 <= Z.of_nat (length (cmd :: p1 :: args)) ->
  total (ip_3d_sampler_state (cmd :: p1 :: args)).
Proof.
  intros Hl. unfold ip_3d_sampler_state. change (rd (cmd :: p1 :: args) 1) with (Ret (S := IPP) p1). cbn [mbind prog_bind].
  cbv zeta. apply total_bind; [intros ?; exact I|]. intros aniso. apply total_bind; [apply unbind_total|]. intros _.
  apply total_bind; [intros ?; exact I|]. intros _.
  apply total_for. intros [i k] Hk. apply enum_ones_bound in Hk. unfold sampler_stage, count_ones in *. cbv zeta. reads.
Qed.

Lemma ps_const_total cmd p1 args : 2 + 4 * count_ones p1 <= Z.of_nat (length (cmd :: p1 :: args)) ->
  total (ip_load_ps_const (cmd :: p1 :: args)).
Proof.
  intros Hl. unfold ip_load_ps_const. change (rd (cmd :: p1 :: args) 1) with (Ret (S := IPP) p1). cbn [mbind prog_bind].
  cbv zeta. total_solve. apply total_for. intros [i k] Hk. apply enum_ones_bound in Hk. unfold load_const, count_ones in *. reads.
Qed.
Lemma misc_total sel m : (match sel with 2 => 3 | 0 | 3 => 2 | _ => 1 end) <= Z.of_nat (length m) -> total (ip_misc_render_state sel m).
Proof.
  intros Hl. unfold ip_misc_render_state, setRenderState. cbv zeta. repeat case_match; simplify_eq; try exact I; reads.
Qed.

Lemma buf_info_total m : 3 <= Z.of_nat (length m) -> total (ip_buf_info m).
Proof. intros Hl. unfold ip_buf_info. cbv zeta. reads. Qed.

Lemma draw_rect_total m : 5 <= Z.of_nat (length m) -> total (ip_draw_rect m).
Proof. intros Hl. unfold ip_draw_rect. reads. Qed.

Lemma select_ps_total : total ip_select_and_load_ps.
Proof. unfold ip_select_and_load_ps. total_solve. Qed.

Lemma store_index_total m : (if nth 1 m 0 =? 64 then 3 else 2) <= Z.of_nat (length m) -> total (store_index m).
Proof.
  intros Hl. destruct m as [|cmd [|p1 args]]; cbn [nth length] in Hl; [destruct (0 =? 64); lia..|].
  unfold store_index. change (rd (cmd :: p1 :: args) 1) with (Ret (S := IPP) p1). cbn [mbind prog_bind].
  destruct (p1 =? 64); cbn [negb]; [|done]. reads.
Qed.

Lemma if_changed_total r cmd p : total p -> total (if_changed r cmd p).
Proof. intros Hp. unfold if_changed. total_solve; done. Qed.

Lemma send_some_total l : total (send_some l).
Proof. unfold send_some, setRenderState. total_solve. Qed.

Lemma clear_params_total m cmd : (if Z.land cmd 0xFFFF + 2 <? 7 then 1 else 7) <= Z.of_nat (length m) -> total (ip_clear_params m cmd).
Proof. intros Hl. unfold ip_clear_params. cbv zeta. destruct (_ <? 7); [done|]. reads. Qed.

(** A total program, and then a value. *)
Lemma total_then {A} (p : prog IPP unit) (a : A) : total p -> total (p;; mret a).
Proof. intros Hp. by apply total_bind. Qed.

Lemma two_words (m : list Z) n : 0 <= n -> 2 + n <= Z.of_nat (length m) -> exists cmd p1 args, m = cmd :: p1 :: args.
Proof. intros. destruct m as [|? [|? ?]]; cbn [length] in *; try lia. eauto. Qed.

Lemma decode_3d_1d_total m : complete_cmd m -> Z.shiftr (nth 0 m 0) 29 = 3 -> bit_select (nth 0 m 0) 24 5 = 0x1D ->
  total (decode_3d_1d rcp m (nth 0 m 0)).
Proof.
  intros (Hne & Hl & _) E3 E1D. unfold words_needed in Hl. rewrite E3, E1D in Hl. unfold decode_3d_1d. cbv zeta.
  set (cmd := nth 0 m 0) in *.
  assert (0 <= count_ones (nth 1 m 0)) by (unfold count_ones; lia).
  repeat match goal with
    | H : (match ?x with _ => _ end) <= _ |- total (match ?x with _ => _ end) => destruct x
    end; try exact I; try apply total_then.
  all: first
    [ apply misc_total; exact Hl | apply buf_info_total; exact Hl | apply draw_rect_total; exact Hl | apply select_ps_total
    | apply clear_params_total; exact Hl | idtac ].
  - destruct (two_words m (3 * count_ones (nth 1 m 0))) as (c & p1 & args & ->); [lia|exact Hl|]. by apply map_state_total.
  - destruct (two_words m (4 * count_ones (nth 1 m 0))) as (c & p1 & args & ->); [lia|exact Hl|]. by apply ps_const_total.
  - apply load_imms_total; [exact Hl|lia].
  - destruct (two_words m (3 * count_ones (nth 1 m 0))) as (c & p1 & args & ->); [lia|exact Hl|]. by apply sampler_state_total.
Qed.

Lemma prim3d_total m : complete_cmd m -> Z.shiftr (nth 0 m 0) 29 = 3 -> bit_select (nth 0 m 0) 24 5 = 0x1F ->
  total (ip_prim3d m (nth 0 m 0)).
Proof.
  intros (Hne & Hl & He) E3 E1F. unfold words_needed in Hl. rewrite E3, E1F in Hl. unfold has_end in He. unfold ip_prim3d. cbv zeta in *.
  set (cmd := nth 0 m 0) in *. pose proof (land_nonneg cmd 0xFFFF ltac:(lia)).
  destruct (bit cmd 23) eqn:E23.
  - destruct (bit cmd 17) eqn:E17; [|done]. destruct (Z.eqb_spec (Z.land cmd 0xFFFF) 0) as [E0|]; [|done].
    specialize (He E3 E1F eq_refl eq_refl E0). by destruct (halves_to_end 0 (drop 1 m)).
  - apply total_then.
    repeat match goal with
      | H : (match ?x with _ => _ end) <= _ |- total (match ?x with _ => _ end) => destruct x
      end; try exact I.
    all: first [ apply prim3d_direct_total; lia | apply prim3d_poly_total; lia | apply clear_rect_total; lia ].
Qed.

Lemma decode_3d_total m : complete_cmd m -> Z.shiftr (nth 0 m 0) 29 = 3 -> total (decode_3d rcp m (nth 0 m 0)).
Proof.
  intros Hc E3. pose proof (decode_3d_1d_total m Hc E3) as H1D. pose proof (prim3d_total m Hc E3) as H1F.
  destruct Hc as (Hne & _ & _). assert (1 <= Z.of_nat (length m)) by (destruct m; [done|cbn [length]; lia]).
  unfold decode_3d. set (cmd := nth 0 m 0) in *.
  destruct (Z.eqb_spec (bit_select cmd 24 5) 0x1D) as [E|N1]; [rewrite E; by apply H1D|].
  destruct (Z.eqb_spec (bit_select cmd 24 5) 0x1F) as [E|N2]; [rewrite E; by apply H1F|].
  repeat case_match;
    match goal with
    | |- total (mret _) => exact I
    | |- total (decode_3d_1d _ _ _) => congruence
    | |- total (ip_prim3d _ _) => congruence
    | |- _ => apply total_then
    end;
    match goal with
    | |- total (if_changed _ _ _) => apply if_changed_total
    | |- _ => idtac
    end;
    match goal with
    | |- total (ip_misc_render_state _ _) => by apply misc_total
    | |- _ => apply send_some_total
    end.
Qed.

Lemma process_total m : complete_cmd m -> total (process rcp m).
Proof.
  intros Hc. pose proof (decode_3d_total m Hc) as H3. pose proof Hc as (Hne & Hl & _). destruct m as [|cmd args]; [done|].
  unfold process. change (rd (cmd :: args) 0) with (Ret (S := IPP) cmd). cbn [mbind prog_bind nth] in *.
  apply total_bind; [|by intros]. unfold words_needed in Hl. cbn [nth] in Hl.
  destruct (Z.eqb_spec (Z.shiftr cmd 29) 3) as [E|N]; [rewrite E in *; by apply H3|].
  destruct (Z.eqb_spec (Z.shiftr cmd 29) 0) as [E0|N0].
  - rewrite E0 in *. unfold decode_mi. destruct (Z.eqb_spec (bit_select cmd 23 6) 33) as [E33|N33].
    + rewrite E33. apply total_then. by apply store_index_total.
    + repeat case_match; match goal with |- total (mret _) => exact I | |- _ => congruence end.
  - unfold decode_2d. destruct (Z.shiftr cmd 29) as [|[[?|?|]|[?|?|]|]|]; match goal with |- total (mret _) => exact I | |- _ => try congruence end.
    repeat case_match; exact I.
Qed.
End complete.

(** ** Lengths *)

(** The length of a command, as its words say: the reference for the decoders. *)
Definition known (op : Z) (ops : list Z) : bool := bool_decide (op ∈ ops).
Definition cmd_length (m : list Z) : Z :=
  let cmd := nth 0 m 0 in
  let long := Z.land cmd 0xFFFF + 2 in
  match Z.shiftr cmd 29 with
  | 0 =>
      let op := bit_select cmd 23 6 in
      if known op [17; 18; 19; 24; 49] then 2 else if known op [20; 34; 36; 48] then 3
      else if known op [32; 33] then Z.land cmd 0x3F + 2 else 1
  | 2 =>
      if known (bit_select cmd 22 7)
           [0x01; 0x03; 0x11; 0x24; 0x25; 0x26; 0x31; 0x40; 0x43; 0x50; 0x51; 0x52; 0x53; 0x54; 0x55; 0x56; 0x57; 0x58; 0x59;
            0x71; 0x72; 0x75; 0x76; 0x77]
      then Z.land cmd 0xFF + 2 else 1
  | 3 =>
      let op := bit_select cmd 24 5 in
      if op =? 0x1D then (if bit_select cmd 16 8 =? 0x04 then Z.land cmd 0xF + 2 else long)
      else if op =? 0x1F then
        if bit cmd 23 then
          if bit cmd 17 then
            let count := if Z.land cmd 0xFFFF =? 0 then default 0 (halves_to_end 0 (drop 1 m)) else Z.land cmd 0xFFFF in
            (count + 1) / 2 + 1
          else 2
        else long
      else 1
  | _ => 1
  end.

Section lengths.
Variable rcp : Z -> Z.

Definition counts (n : Z) (skip : Z) : Prop := (if skip =? 0 then 1 else skip) = n.

Lemma returns_counts {A} (p : prog IPP A) n skip : counts n skip -> returns (counts n) (p;; mret skip).
Proof. intros Hc. apply returns_bind. intros _. by apply returns_ret. Qed.

Lemma counts_pos n : 0 < n -> counts n n.
Proof. intros. unfold counts. destruct (Z.eqb_spec n 0); lia. Qed.

Local Ltac head_word m :=
  let cmd := fresh "cmd" in set (cmd := nth 0 m 0) in *;
  pose proof (land_nonneg cmd 0xFFFF ltac:(lia)); pose proof (land_nonneg cmd 0xFF ltac:(lia));
  pose proof (land_nonneg cmd 0x3F ltac:(lia)); pose proof (land_nonneg cmd 0xF ltac:(lia)).
Local Ltac one_length := first [apply returns_counts | apply returns_ret]; first [done | apply counts_pos; lia].

Lemma decode_mi_length m : Z.shiftr (nth 0 m 0) 29 = 0 -> returns (counts (cmd_length m)) (decode_mi m (nth 0 m 0)).
Proof.
  intros E. unfold cmd_length, decode_mi. rewrite E. cbv zeta. head_word m.
  destruct (bit_select cmd 23 6) as [|p|p]; [one_length| |one_length].
  repeat (destruct p as [p|p|]; try one_length).
Qed.

Lemma decode_2d_length m : Z.shiftr (nth 0 m 0) 29 = 2 -> returns (counts (cmd_length m)) (decode_2d (nth 0 m 0)).
Proof.
  intros E. unfold cmd_length, decode_2d. rewrite E. cbv zeta. head_word m.
  destruct (bit_select cmd 22 7) as [|p|p]; [one_length| |one_length].
  repeat (destruct p as [p|p|]; try one_length).
Qed.
Lemma clear_params_length m cmd n : counts n (Z.land cmd 0xFFFF + 2) -> returns (counts n) (ip_clear_params m cmd).
Proof.
  intros Hc. unfold ip_clear_params. cbv zeta. destruct (_ <? 7); [by apply returns_ret|].
  repeat (apply returns_bind; intros ?). by apply returns_ret.
Qed.

Lemma decode_3d_1d_length m cmd :
  returns (counts (if bit_select cmd 16 8 =? 0x04 then Z.land cmd 0xF + 2 else Z.land cmd 0xFFFF + 2)) (decode_3d_1d rcp m cmd).
Proof.
  pose proof (land_nonneg cmd 0xFFFF ltac:(lia)). pose proof (land_nonneg cmd 0xF ltac:(lia)). unfold decode_3d_1d. cbv zeta.
  destruct (Z.eqb_spec (bit_select cmd 16 8) 0x04) as [E|N].
  - rewrite E. unfold ip_load_immediate. cbv zeta. apply returns_counts, counts_pos. lia.
  - repeat case_match; try congruence;
      first [apply returns_ret, counts_pos; lia | apply clear_params_length, counts_pos; lia | apply returns_counts, counts_pos; lia].
Qed.

Lemma prim3d_length m : Z.shiftr (nth 0 m 0) 29 = 3 -> bit_select (nth 0 m 0) 24 5 = 0x1F ->
  returns (counts (cmd_length m)) (ip_prim3d m (nth 0 m 0)).
Proof.
  intros E E1F. unfold cmd_length, ip_prim3d. rewrite E, E1F. cbv zeta. head_word m. cbn [Z.eqb Pos.eqb].
  destruct (bit cmd 23); [|apply returns_counts, counts_pos; lia].
  destruct (bit cmd 17); [|by apply returns_ret]. destruct (Z.land cmd 0xFFFF =? 0).
  - destruct (halves_to_end 0 (drop 1 m)) as [k|] eqn:Ek; [|apply returns_wild].
    apply halves_positive in Ek; [|lia]. apply returns_ret, counts_pos. pose proof (Z.div_pos (k + 1) 2). lia.
  - apply returns_ret, counts_pos. pose proof (Z.div_pos (Z.land cmd 0xFFFF + 1) 2). lia.
Qed.

Lemma decode_3d_length m : Z.shiftr (nth 0 m 0) 29 = 3 -> returns (counts (cmd_length m)) (decode_3d rcp m (nth 0 m 0)).
Proof.
  intros E. destruct (Z.eqb_spec (bit_select (nth 0 m 0) 24 5) 0x1F) as [E1F|N1F].
  { unfold decode_3d. rewrite E1F. by apply prim3d_length. }
  destruct (Z.eqb_spec (bit_select (nth 0 m 0) 24 5) 0x1D) as [E1D|N1D].
  { unfold cmd_length, decode_3d. rewrite E, E1D. apply decode_3d_1d_length. }
  unfold cmd_length. rewrite E. cbv zeta. rewrite (proj2 (Z.eqb_neq _ _) N1D), (proj2 (Z.eqb_neq _ _) N1F).
  unfold decode_3d. repeat case_match; try congruence; first [by apply returns_counts | by apply returns_ret].
Qed.

Lemma process_length m : m <> [] -> returns (fun skip => skip = cmd_length m) (process rcp m).
Proof.
  intros Hne w nf t Ht. destruct m as [|cmd args]; [done|]. unfold process in Ht.
  change (rd (cmd :: args) 0) with (Ret (S := IPP) cmd) in Ht. cbn [mbind prog_bind] in Ht.
  apply spec_bind_Some in Ht as (t1 & t2 & H1 & H2 & ->). injection H2 as <-. cbn [t_result].
  enough (returns (counts (cmd_length (cmd :: args))) (match Z.shiftr cmd 29 with
    | 0 => decode_mi (cmd :: args) cmd | 2 => decode_2d cmd | 3 => decode_3d rcp (cmd :: args) cmd | _ => mret 0 end)) as Hr
    by by apply Hr in H1.
  pose proof (decode_mi_length (cmd :: args)) as M0. pose proof (decode_2d_length (cmd :: args)) as M2.
  pose proof (decode_3d_length (cmd :: args)) as M3. cbn [nth] in *.
  destruct (Z.eqb_spec (Z.shiftr cmd 29) 0) as [E|N0]; [rewrite E; auto|].
  destruct (Z.eqb_spec (Z.shiftr cmd 29) 2) as [E|N2]; [rewrite E; auto|].
  destruct (Z.eqb_spec (Z.shiftr cmd 29) 3) as [E|N3]; [rewrite E; auto|].
  unfold cmd_length. cbn [nth]. repeat case_match; try congruence; by apply returns_ret.
Qed.

Lemma cmd_length_pos m : 1 <= cmd_length m.
Proof.
  unfold cmd_length. cbv zeta. head_word m. pose proof (halves_positive (drop 1 m) 0) as Hh.
  assert (0 <= default 0 (halves_to_end 0 (drop 1 m))) as Hd.
  { destruct (halves_to_end 0 (drop 1 m)) eqn:Eh; cbn; [by eapply Hh|lia]. }
  pose proof (Z.div_pos (default 0 (halves_to_end 0 (drop 1 m)) + 1) 2). pose proof (Z.div_pos (Z.land cmd 0xFFFF + 1) 2).
  repeat case_match; lia.
Qed.

(** The commands of a buffer of [size] words, one after the other. *)
Fixpoint split_cmds (n : nat) (m : list Z) (size : Z) : list (list Z) :=
  if size <=? 0 then []
  else
    match n with
    | O => []
    | S n => m :: split_cmds n (drop (Z.to_nat (cmd_length m)) m) (size - cmd_length m)
    end.

Definition run_cmds (cmds : list (list Z)) : prog IPP bool := for_each (fun m => process rcp m;; mret tt) cmds;; mret true.

Lemma run_cmds_cons m cmds w nf : spec (run_cmds (m :: cmds)) w nf = spec (process rcp m;; run_cmds cmds) w nf.
Proof. unfold run_cmds. cbn [for_each]. by rewrite !spec_assoc. Qed.

Lemma submit_loop_split n : forall m size, size <= Z.of_nat n -> size <= Z.of_nat (length m) ->
  Forall complete_cmd (split_cmds n m size) -> forall w nf,
  spec (submit_loop rcp n m size) w nf = spec (run_cmds (split_cmds n m size)) w nf.
Proof.
  induction n as [|n IH]; intros m size Hn Hl Hc w nf; cbn [submit_loop split_cmds] in *;
    (destruct (Z.leb_spec size 0); [done|]); [lia|].
  apply Forall_cons_1 in Hc as [Hcmd Hc]. pose proof (cmd_length_pos m). rewrite run_cmds_cons, !spec_bind.
  destruct (spec (process rcp m) w nf) as [t|] eqn:E; [|done]. pose proof (process_length m (proj1 Hcmd) w nf t E) as Hlen.
  cbn [mbind option_bind]. rewrite Hlen, (IH (drop (Z.to_nat (cmd_length m)) m) (size - cmd_length m)); [done|lia| |done].
  rewrite length_drop. lia.
Qed.

Lemma run_cmds_total cmds : Forall complete_cmd cmds -> total (run_cmds cmds).
Proof.
  intros Hc. apply total_bind; [|done]. apply total_for. intros m Hm. apply total_bind; [|done].
  apply process_total. apply list_elem_of_In in Hm. by apply (proj1 (Forall_forall _ _) Hc).
Qed.

(** C27: the loop over the command buffer.  A buffer of [size] words is split into
    commands by the lengths that their first words give.  If every command is complete,
    that is, the words that its handler reads are in the memory of the buffer, then
    [submit_buffer] ends, within [size] rounds; it executes exactly these commands, each
    once, in order; and no read goes behind the end of the memory. *)
Theorem submit_buffer_runs m size w nf :
  size <= Z.of_nat (length m) -> Forall complete_cmd (split_cmds (Z.to_nat size) m size) ->
  exists t, spec (submit_buffer rcp m size) w nf = Some t /\ t.(t_result) = true /\
    spec (run_cmds (split_cmds (Z.to_nat size) m size)) w nf = Some t.
Proof.
  intros Hs Hc. unfold submit_buffer. assert (size <= Z.of_nat (Z.to_nat size)) by lia.
  destruct (total_spec _ (run_cmds_total _ Hc) w nf) as [t E]. exists t.
  rewrite submit_loop_split by done. split; [done|]. split; [|done].
  eapply (submit_loop_ends rcp (Z.to_nat size) m size); [done|]. by rewrite submit_loop_split.
Qed.

(** The length of a command does not depend on the state of the processor, and the
    loop ends in any case: a wild read is the only way not to return. *)
Theorem submit_buffer_ends m size w nf t : spec (submit_buffer rcp m size) w nf = Some t -> t.(t_result) = true.
Proof. intros E. exact (submit_loop_ends rcp (Z.to_nat size) m size ltac:(lia) w nf t E). Qed.
End lengths.

(** ** On the device *)

Ltac regions_step :=
  match goal with
  | |- regions_ok (Ret _) => exact I
  | |- regions_ok (mret _) => exact I
  | |- regions_ok Wild => exact I
  | |- regions_ok (for_each _ _) => apply regions_ok_for; intros ?
  | |- regions_ok (_ ≫= _) => apply regions_ok_bind; [|intros ?]
  | |- regions_ok (ask _) => split; [done|intros ?; exact I]
  | |- regions_ok (direct_call _) => intros ?; exact I
  | |- regions_ok insert_fence => intros ?; exact I
  | |- regions_ok (sync_to _) => exact I
  | |- regions_ok (state _) => intros ?; exact I
  | |- regions_ok (gets _) => intros ?; exact I
  | |- regions_ok (modify _) => intros ?; exact I
  | |- regions_ok (poke _ _) => intros ?; exact I
  | |- regions_ok lock3D => intros ?; exact I
  | |- regions_ok (getDevCap _) => intros ?; exact I
  | |- regions_ok allocSurfaceID => intros ?; exact I
  | |- regions_ok (freeSurfaceID _) => intros ?; exact I
  | |- regions_ok (VRAMMalloc _) => intros ?; exact I
  | |- regions_ok (VRAMFree _) => intros ?; exact I
  | |- regions_ok (offsetInVRAM _) => intros ?; exact I
  | |- regions_ok (rd _ _) => unfold rd
  | |- regions_ok (rd_block _ _ _) => unfold rd_block; cbv zeta
  | |- regions_ok (setRenderState _) => unfold setRenderState
  | |- regions_ok (send_some _) => unfold send_some
  | |- regions_ok (sync _) => unfold sync
  | |- regions_ok (drop_surface _) => unfold drop_surface
  | |- regions_ok (purge _ _) => unfold purge; cbv zeta
  | |- regions_ok (alloc_block _ _) => unfold alloc_block; cbv zeta
  | |- regions_ok (alloc _ _ _) => unfold alloc; cbv zeta
  | |- regions_ok (upload _ _ _ _) => unfold upload; cbv zeta
  | |- regions_ok (match ?x with _ => _ end) => destruct x
  end.
Ltac regions := repeat regions_step.

Section regions.
Variable rcp : Z -> Z.

Lemma draw_arrays_regions m n isize nv decls idx flat range : regions_ok (draw_arrays m n isize nv decls idx flat range).
Proof. unfold draw_arrays. cbv zeta. regions. Qed.

Lemma prim3d_regions m cmd : regions_ok (ip_prim3d m cmd).
Proof.
  unfold ip_prim3d, ip_prim3d_direct, ip_prim3d_poly, clear_rect, vertex_decls. cbv zeta.
  destruct (bit cmd 23); [regions|]. apply regions_ok_bind; [|done].
  repeat first [match goal with |- regions_ok (draw_arrays _ _ _ _ _ _ _ _) => apply draw_arrays_regions end | regions_step].
Qed.

Lemma load_imms_regions m skip todo : forall pos, regions_ok (load_imms m skip todo pos).
Proof.
  induction todo as [|i todo IH]; intros pos; cbn [load_imms]; [done|]. unfold load_imm. cbv zeta. regions. apply IH.
Qed.

Lemma decode_3d_1d_regions m cmd : regions_ok (decode_3d_1d rcp m cmd).
Proof.
  unfold decode_3d_1d, ip_3d_map_state, map_stage, ip_3d_sampler_state, unbind_samplers, sampler_stage, ip_load_immediate,
    ip_select_and_load_ps, ip_load_ps_const, load_const, ip_draw_rect, ip_misc_render_state, ip_buf_info, ip_clear_params.
  cbv zeta. repeat first [match goal with |- regions_ok (load_imms _ _ _ _) => apply load_imms_regions end | regions_step].
Qed.

Lemma decode_3d_regions m cmd : regions_ok (decode_3d rcp m cmd).
Proof.
  unfold decode_3d, if_changed, ip_backface_stencil_ops, ip_independent_alpha_blend, ip_misc_render_state.
  repeat first
    [ match goal with
      | |- regions_ok (ip_prim3d _ _) => apply prim3d_regions
      | |- regions_ok (decode_3d_1d _ _ _) => apply decode_3d_1d_regions
      end
    | regions_step ].
Qed.

Lemma process_regions m : regions_ok (process rcp m).
Proof.
  unfold process, decode_mi, decode_2d, store_index.
  repeat first [match goal with |- regions_ok (decode_3d _ _ _) => apply decode_3d_regions end | regions_step].
Qed.

Lemma submit_loop_regions n : forall m size, regions_ok (submit_loop rcp n m size).
Proof.
  induction n as [|n IH]; intros m size; cbn [submit_loop]; regions; [apply process_regions|apply IH].
Qed.
End regions.

Section on_device.
Context {HS : Type} `{SvgaHostOK HS}.
Variable rcp : Z -> Z.
Implicit Types (d : dev HS).

(** The command processor on the device.  Whenever the specification gives a buffer
    a meaning, the processor run on the device returns the same result and leaves the
    same state, of its own, of the accelerator and of video memory; and what the device
    has read and still finds in its queue decodes to exactly the commands of the
    specification, in order. *)
Theorem submit_buffer_stream fuel m size w d t :
  ready d -> queue d.(fifo) = [] -> (Z.to_nat (rsize d.(fifo)) <= fuel)%nat ->
  spec (submit_buffer rcp m size) w d.(m_next_fence) = Some t ->
  Forall acmd_ok (sent t.(t_events)) -> rooms d (sent t.(t_events)) ->
  exists d' consumed decoded,
    run (submit_buffer rcp m size) w fuel d = Some (true, t.(t_world), d') /\ ready d' /\ d'.(m_next_fence) = t.(t_next) /\
    decode_cmds (length (sent t.(t_events))) (consumed ++ queue d'.(fifo)) = Some decoded /\
    mapM of_cmd decoded = Some (sent t.(t_events)).
Proof.
  intros Hd He Hf Ht Hok Hr. pose proof (run_produces _ w d t Hd (submit_loop_regions rcp _ m size) Ht Hok Hr) as Hp.
  rewrite (submit_loop_ends rcp (Z.to_nat size) m size ltac:(lia) w _ t Ht) in Hp. by apply produces_decodes.
Qed.
End on_device.

(** ** The hypotheses can be met *)

Definition exact_rcp (x : Z) : Z := fdiv float_one x.
Definition demo_ipp : IPP := set_context_id 1 Init.

(** Immediate words 4, 5 and 6; then word 6 again, which is not sent; then a sampler
    without a texture. *)
Definition demo_buffer : list Z :=
  [0x7D040702; 0x00800040; 0x0000000C; 0x00000004; 0x7D040400; 0x00000004; 0x7D010003; 0x00000001; 0; 0; 0].

Lemma submit_buffer_runs_witness : exists t,
  spec (submit_buffer exact_rcp demo_buffer 11) (demo_world demo_ipp) 1 = Some t /\ t.(t_result) = true /\
  spec (run_cmds exact_rcp (split_cmds 11 demo_buffer 11)) (demo_world demo_ipp) 1 = Some t.
Proof.
  apply (submit_buffer_runs exact_rcp demo_buffer 11); [by vm_compute|].
  assert (split_cmds (Z.to_nat 11) demo_buffer 11 = [demo_buffer; drop 4 demo_buffer; drop 6 demo_buffer]) as -> by by vm_compute.
  repeat (apply Forall_cons; [split; [done|]; split; [by vm_compute|by intros ? E]|]). by apply Forall_nil.
Defined.

Definition demo_sent : list acmd :=
  match spec (submit_buffer exact_rcp demo_buffer 11) (demo_world demo_ipp) 1 with Some t => sent t.(t_events) | None => [] end.

Lemma submit_buffer_stream_witness : exists t d' consumed decoded,
  spec (submit_buffer exact_rcp demo_buffer 11) (demo_world demo_ipp) 1 = Some t /\
  run (submit_buffer exact_rcp demo_buffer 11) (demo_world demo_ipp) (Z.to_nat 4096) demo_dev = Some (true, t.(t_world), d') /\
  ready d' /\ decode_cmds (length (sent t.(t_events))) (consumed ++ queue d'.(fifo)) = Some decoded /\
  mapM of_cmd decoded = Some (sent t.(t_events)).
Proof.
  destruct (spec (submit_buffer exact_rcp demo_buffer 11) (demo_world demo_ipp) 1) as [t|] eqn:Et.
  2: { exfalso. assert (is_Some (spec (submit_buffer exact_rcp demo_buffer 11) (demo_world demo_ipp) 1)) as [? E]
         by (vm_compute; by eexists). by rewrite E in Et. }
  assert (sent t.(t_events) = demo_sent) as Es by (unfold demo_sent; by rewrite Et).
  destruct (submit_buffer_stream exact_rcp (Z.to_nat 4096) demo_buffer 11 (demo_world demo_ipp) demo_dev t)
    as (d' & consumed & decoded & E & Hd & _ & Hdec).
  - split; [exact demo_idle|reflexivity].
  - reflexivity.
  - change (fifo demo_dev) with demo_fifo. by rewrite demo_rsize.
  - exact Et.
  - rewrite Es. match goal with |- Forall _ ?l => let l' := eval vm_compute in l in change l with l' end.
    forall_list; cbn; range_solve; forall_list; cbn; range_solve.
  - rewrite Es. match goal with |- rooms _ ?l => let l' := eval vm_compute in l in change l with l' end.
    unfold rooms. forall_list; apply demo_room; simpl; lia.
  - exists t, d', consumed, decoded. split; [reflexivity|]. split; [exact E|]. split; [exact Hd|]. exact Hdec.
Defined.
