(* ===== verification/IppState.v ===== *)
(** What the command processor remembers of the device.  It keeps the last value of the
    state words of the Intel 915 and sends a word again only if it changes; and it keeps
    the set of samplers that have a texture.  Both are true of the device after any
    sequence of commands, so that nothing that is left out is missing. *)

From S2P Require Import Prelude IOKit Layout SvgaReg SvgaCmd Fifo Svga3dReg Svga3d Accel AccelSpec.
From S2P Require Import ShaderCache Provider VertexArray Float32 Ipp IppCmds IppProofs.
From stdpp Require Import list.
Local Open Scope Z_scope.

(** ** The state of a context of the device *)

Record context := mk_context { c_rs : Z -> option Z; c_tex : Z -> Z }.

Definition apply_rs (c : context) (r : SVGA3dRenderState) : context :=
  mk_context (upd c.(c_rs) r.(SVGA3dRenderState_state) (Some r.(SVGA3dRenderState_uintValue))) c.(c_tex).
Definition apply_ts (c : context) (t : SVGA3dTextureState) : context :=
  if t.(SVGA3dTextureState_name) =? SVGA3D_TS_BIND_TEXTURE
  then mk_context c.(c_rs) (upd c.(c_tex) t.(SVGA3dTextureState_stage) t.(SVGA3dTextureState_value)) else c.

(** What a command does to the context [id]. *)
Definition apply_cmd (id : Z) (c : context) (cmd : acmd) : context :=
  match cmd with
  | In3D (RenderStateSet a states) => if a.(SVGA3dCmdSetRenderState_cid) =? id then foldl apply_rs c states else c
  | In3D (TextureStateSet a states) => if a.(SVGA3dCmdSetTextureState_cid) =? id then foldl apply_ts c states else c
  | _ => c
  end.
Definition after_events (id : Z) (c : context) (es : list event) : context := foldl (apply_cmd id) c (sent es).

(** ** What is remembered *)

(** The state words whose values are sent to the device, each with the render states
    that it determines.  The mask of colours and the depth bias, which depend on a
    second word, are not among them. *)
Definition blocks : list (Z * (Z -> list SVGA3dRenderState)) :=
  [(4, imm4_states); (5, imm5_states); (6, fun x => tail (imm6_states 0 x)); (9, backface_states); (11, alpha_blend_states);
   (12, modes4_states)].

Definition holds_rs (c : context) (r : SVGA3dRenderState) : Prop :=
  c.(c_rs) r.(SVGA3dRenderState_state) = Some r.(SVGA3dRenderState_uintValue).

Record coherent (s : IPP) (c : context) : Prop := {
  coh_rs i f : (i, f) ∈ blocks -> Z.testbit s.(param_cache_mask) i = true -> Forall (holds_rs c) (f (s.(imm_s) i));
  coh_tex i : 0 <= i < 16 -> Z.testbit s.(bound_samplers) i = isIdValid (c.(c_tex) i);
  coh_width : fits 16 s.(bound_samplers);
}.

(** The names of the states of each word: no two words share one. *)
Definition names (i : Z) : list SVGA3dRenderStateName :=
  match i with
  | 4 => [SVGA3D_RS_POINTSIZE; SVGA3D_RS_SHADEMODE; SVGA3D_RS_CULLMODE; SVGA3D_RS_POINTSPRITEENABLE; SVGA3D_RS_ANTIALIASEDLINEENABLE]
  | 5 => [SVGA3D_RS_DITHERENABLE; SVGA3D_RS_LASTPIXEL; SVGA3D_RS_FOGENABLE; SVGA3D_RS_STENCILREF; SVGA3D_RS_STENCILFUNC;
          SVGA3D_RS_STENCILFAIL; SVGA3D_RS_STENCILZFAIL; SVGA3D_RS_STENCILPASS; SVGA3D_RS_STENCILENABLE]
  | 6 => [SVGA3D_RS_COLORWRITEENABLE; SVGA3D_RS_BLENDENABLE; SVGA3D_RS_BLENDEQUATION; SVGA3D_RS_SRCBLEND; SVGA3D_RS_DSTBLEND;
          SVGA3D_RS_ALPHATESTENABLE; SVGA3D_RS_ALPHAFUNC; SVGA3D_RS_ALPHAREF; SVGA3D_RS_ZENABLE; SVGA3D_RS_ZFUNC;
          SVGA3D_RS_ZWRITEENABLE]
  | 9 => [SVGA3D_RS_STENCILENABLE2SIDED; SVGA3D_RS_CCWSTENCILFUNC; SVGA3D_RS_CCWSTENCILFAIL; SVGA3D_RS_CCWSTENCILZFAIL;
          SVGA3D_RS_CCWSTENCILPASS]
  | 11 => [SVGA3D_RS_SEPARATEALPHABLENDENABLE; SVGA3D_RS_BLENDEQUATIONALPHA; SVGA3D_RS_SRCBLENDALPHA; SVGA3D_RS_DSTBLENDALPHA]
  | 12 => [SVGA3D_RS_STENCILMASK; SVGA3D_RS_STENCILWRITEMASK]
  | _ => [SVGA3D_RS_DEPTHBIAS; SVGA3D_RS_SLOPESCALEDEPTHBIAS; SVGA3D_RS_SCISSORTESTENABLE; SVGA3D_RS_BLENDCOLOR]
  end.
Definition name_values (i : Z) : list Z := (fun n : SVGA3dRenderStateName => n : Z) <$> names i.
Definition states_of (l : list SVGA3dRenderState) : list Z := SVGA3dRenderState_state <$> l.

Lemma block_indices i f : (i, f) ∈ blocks -> i = 4 \/ i = 5 \/ i = 6 \/ i = 9 \/ i = 11 \/ i = 12.
Proof. unfold blocks. intros Hin. repeat (apply elem_of_cons in Hin as [[= -> ->]|Hin]); [lia..|]. by apply not_elem_of_nil in Hin. Qed.

(** The states of a word have different names, which are those of the word. *)
Definition well_named (i : Z) (l : list SVGA3dRenderState) : Prop := NoDup (states_of l) /\ states_of l ⊆ name_values i.

Lemma sublist_well_named i (l : list SVGA3dRenderState) : sublist (states_of l) (name_values i) -> NoDup (name_values i) -> well_named i l.
Proof.
  intros Hs Hn. split; [by eapply sublist_NoDup|]. intros x Hx. by eapply sublist_subseteq.
Qed.

Definition indices : list Z := [4; 5; 6; 7; 9; 11; 12].
Definition owner (x : Z) : Z := default 0 (head (filter (fun i => x ∈ name_values i) indices)).

Lemma owner_spec i x : i ∈ indices -> x ∈ name_values i -> owner x = i.
Proof.
  assert (Forall (fun i => Forall (fun x => owner x = i) (name_values i)) indices) as Hall.
  { by apply (bool_decide_unpack _); vm_compute. }
  intros Hi Hx. rewrite Forall_forall in Hall. specialize (Hall i Hi). rewrite Forall_forall in Hall. by apply Hall.
Qed.

Lemma names_apart i j x : i ∈ indices -> j ∈ indices -> x ∈ name_values i -> x ∈ name_values j -> i = j.
Proof. intros Hi Hj Hx Hy. by rewrite <-(owner_spec i x Hi Hx), <-(owner_spec j x Hj Hy). Qed.

Local Ltac sublists :=
  cbn; repeat first [apply sublist_nil_l | apply sublist_skip | apply sublist_cons].

Lemma block_named i f x : (i, f) ∈ blocks -> well_named i (f x).
Proof.
  unfold blocks. intros Hin.
  repeat (apply elem_of_cons in Hin as [[= -> ->]|Hin]); [..|by apply not_elem_of_nil in Hin];
    apply sublist_well_named; try (by apply (bool_decide_unpack _)).
  - reflexivity.
  - reflexivity.
  - apply sublist_cons. reflexivity.
  - unfold backface_states, states_of. destruct (bit x 1), (bit x 14); sublists.
  - unfold alpha_blend_states, states_of. destruct (bit x 23), (bit x 21), (bit x 11), (bit x 5); sublists.
  - reflexivity.
Qed.

(** ** Setting states *)

Lemma apply_rs_other l : forall c x, x ∉ states_of l -> (foldl apply_rs c l).(c_rs) x = c.(c_rs) x.
Proof.
  induction l as [|r l IH]; intros c x Hx; [done|]. apply not_elem_of_cons in Hx as [Hne Hx]. cbn [foldl].
  rewrite IH by done. cbn. by rewrite upd_ne.
Qed.

Lemma apply_rs_tex l : forall c, (foldl apply_rs c l).(c_tex) = c.(c_tex).
Proof. induction l as [|r l IH]; intros c; [done|]. cbn [foldl]. by rewrite IH. Qed.

Lemma apply_rs_holds l : NoDup (states_of l) -> forall c, Forall (holds_rs (foldl apply_rs c l)) l.
Proof.
  induction l as [|r l IH]; intros Hn c; [done|]. apply NoDup_cons in Hn as [Hr Hn]. cbn [foldl].
  apply Forall_cons. split; [|by apply IH]. unfold holds_rs. rewrite apply_rs_other by done. cbn. by rewrite upd_eq.
Qed.

Lemma apply_rs_keeps l i j f c x : (i, f) ∈ blocks -> j ∈ indices -> i <> j -> states_of l ⊆ name_values j ->
  Forall (holds_rs c) (f x) -> Forall (holds_rs (foldl apply_rs c l)) (f x).
Proof.
  intros Hb Hj Hne Hl Hf. destruct (block_named i f x Hb) as [_ Hs].
  rewrite Forall_forall in Hf |- *. intros r Hr. unfold holds_rs. rewrite apply_rs_other; [by apply Hf|].
  intros Hin. apply Hne. apply (names_apart i j (SVGA3dRenderState_state r)); [|done| |by apply Hl].
  - apply block_indices in Hb. unfold indices. rewrite !elem_of_cons. lia.
  - apply Hs. apply list_elem_of_fmap. by exists r.
Qed.

(** Sending the states of word [i] and remembering its value. *)
Lemma coherent_send s s' c i x l :
  coherent s c -> i ∈ indices -> states_of l ⊆ name_values i -> NoDup (states_of l) ->
  (forall f, (i, f) ∈ blocks -> f x ⊆ l) ->
  s'.(bound_samplers) = s.(bound_samplers) -> s'.(imm_s) i = x -> (forall j, j <> i -> s'.(imm_s) j = s.(imm_s) j) ->
  (forall j, j <> i -> Z.testbit s'.(param_cache_mask) j = Z.testbit s.(param_cache_mask) j) ->
  coherent s' (foldl apply_rs c l).
Proof.
  intros [Hrs Htex Hw] Hi Hl Hn Hsub Eb Ei Ej Em. split; [|by rewrite apply_rs_tex, Eb|by rewrite Eb].
  intros j f Hf Hbit. destruct (Z.eq_dec j i) as [->|Hne].
  - rewrite Ei. pose proof (apply_rs_holds l Hn c) as Hall. rewrite Forall_forall in Hall |- *.
    intros r Hr. apply Hall. by apply (Hsub f Hf).
  - rewrite Ej by done. rewrite Em in Hbit by done. by apply (apply_rs_keeps l j i); auto.
Qed.

(** ** Programs that keep what is remembered true *)

Section logic.
Variables (id : Z) (c0 : context).

Definition truth (w : world IPP) (es : list event) : Prop :=
  w.(w_accel).(bHaveSVGA3D) = true /\ cid w.(w_client) = id /\ coherent w.(w_client) (after_events id c0 es).

Definition stays {A} (p : prog IPP A) : Prop :=
  forall w nf es t, truth w es -> spec p w nf = Some t -> truth t.(t_world) (es ++ t.(t_events)).

Lemma after_events_app es es' : after_events id c0 (es ++ es') = foldl (apply_cmd id) (after_events id c0 es) (sent es').
Proof. unfold after_events. by rewrite sent_app, foldl_app. Qed.

Lemma stays_ret {A} (a : A) : stays (mret a).
Proof. intros w nf es t Ht [= <-]. cbn. by rewrite app_nil_r. Qed.

Lemma stays_wild {A} : stays (A := A) Wild.
Proof. by intros w nf es t _. Qed.

Lemma stays_bind {A B} (p : prog IPP A) (f : A -> prog IPP B) : stays p -> (forall a, stays (f a)) -> stays (p ≫= f).
Proof.
  intros Hp Hf w nf es t Hw Ht. apply spec_bind_Some in Ht as (t1 & t2 & H1 & H2 & ->). cbn [t_world t_events].
  rewrite app_assoc. eapply Hf; [|exact H2]. by eapply Hp.
Qed.

Lemma stays_for {X} (body : X -> prog IPP unit) l : (forall x, x ∈ l -> stays (body x)) -> stays (for_each body l).
Proof.
  induction l as [|x l IH]; intros Hb; cbn [for_each]; [apply stays_ret|]. apply stays_bind; [apply Hb; left|]. intros _.
  apply IH. intros y Hy. apply Hb. by right.
Qed.

(** Commands that have nothing to do with what is remembered. *)
Definition neutral (cmd : acmd) : Prop := forall c, apply_cmd id c cmd = c.

Lemma neutral_foldl cmds : Forall neutral cmds -> forall c, foldl (apply_cmd id) c cmds = c.
Proof. induction 1 as [|cmd cmds Hc _ IH]; intros c; [done|]. cbn [foldl]. by rewrite Hc, IH. Qed.

Lemma truth_neutral w es es' a : truth w es -> Forall neutral (sent es') -> a.(bHaveSVGA3D) = true -> truth (set_accel a w) (es ++ es').
Proof.
  intros (_ & Hc & Hco) Hn Ha. split; [done|]. split; [done|]. by rewrite after_events_app, neutral_foldl.
Qed.

Definition harmless (op : accel_op) : Prop := forall a nf, a.(bHaveSVGA3D) = true ->
  (accel_spec a nf op).(o_accel).(bHaveSVGA3D) = true /\ Forall neutral (accel_spec a nf op).(o_cmds).

Lemma stays_ask op : harmless op -> stays (ask op).
Proof.
  intros Hop w nf es t Hw Ht. cbn [ask spec] in Ht. apply after_Some in Ht as (t0 & [= <-] & ->). cbn [t_world t_events t_result].
  destruct (Hop w.(w_accel) nf (proj1 Hw)) as [Ha Hn]. rewrite app_nil_r. apply truth_neutral; [done| |done].
  by rewrite sent_Sent.
Qed.

Lemma stays_direct c : neutral (direct_cmd c) -> stays (direct_call c).
Proof.
  intros Hc w nf es t (H3 & Hid & Hco) Ht. cbn [direct_call spec] in Ht. apply after_Some in Ht as (t0 & [= <-] & ->). cbn [t_world t_events].
  split; [done|]. split; [done|]. rewrite app_nil_r, after_events_app.
  change (sent [Sent ?x]) with [x]. cbn [foldl]. by rewrite Hc.
Qed.

Lemma stays_fence : stays insert_fence.
Proof.
  intros w nf es t (H3 & Hid & Hco) Ht. cbn [insert_fence spec] in Ht. apply after_Some in Ht as (t0 & [= <-] & ->). cbn [t_world t_events].
  split; [done|]. split; [done|]. by rewrite app_nil_r, after_events_app.
Qed.

Lemma stays_sync f : stays (sync_to f).
Proof.
  intros w nf es t (H3 & Hid & Hco) Ht. cbn [sync_to spec] in Ht. apply after_Some in Ht as (t0 & [= <-] & ->). cbn [t_world t_events].
  split; [done|]. split; [done|]. rewrite app_nil_r, after_events_app. by destruct (m_framebuffer _).
Qed.

(** Changes of memory that concern nothing that is remembered. *)
Record same (s s' : IPP) : Prop := {
  same_cid : cid s' = cid s;
  same_mask : s'.(param_cache_mask) = s.(param_cache_mask);
  same_bound : s'.(bound_samplers) = s.(bound_samplers);
  same_imm i f : (i, f) ∈ blocks -> s'.(imm_s) i = s.(imm_s) i;
}.

Lemma coherent_same s s' c : same s s' -> coherent s c -> coherent s' c.
Proof.
  intros [_ Em Eb Ei] [Hrs Htex Hw]. split; [|by rewrite Eb|by rewrite Eb].
  intros i f Hf. rewrite Em, (Ei i f Hf). by apply Hrs.
Qed.

Lemma stays_state {B : Set} (f : world IPP -> B * world IPP) :
  (forall w, (f w).2.(w_accel).(bHaveSVGA3D) = w.(w_accel).(bHaveSVGA3D) /\ same w.(w_client) (f w).2.(w_client)) ->
  stays (state f).
Proof.
  intros Hf w nf es t (H3 & Hid & Hco) Ht. cbn [state spec] in Ht. specialize (Hf w). destruct (f w) as [b w'].
  injection Ht as <-. cbn [t_world t_events fst snd] in *. destruct Hf as [H3' Hs]. rewrite app_nil_r. split; [congruence|].
  split; [by rewrite (same_cid _ _ Hs)|]. by eapply coherent_same.
Qed.

Lemma same_refl s : same s s.
Proof. by split. Qed.

Lemma stays_gets {B : Set} (f : IPP -> B) : stays (gets f).
Proof. apply stays_state. intros w. split; [done|apply same_refl]. Qed.

Lemma stays_modify f : (forall s, same s (f s)) -> stays (modify f).
Proof. intros Hf. apply stays_state. intros w. by split. Qed.

Lemma stays_rd m i : stays (rd m i).
Proof. unfold rd. destruct (_ !! _); [apply stays_ret|apply stays_wild]. Qed.

(** A value read is that of the state. *)
Lemma stays_gets_bind {B : Set} {A} (g : IPP -> B) (f : B -> prog IPP A) :
  (forall w nf es t, truth w es -> spec (f (g w.(w_client))) w nf = Some t -> truth t.(t_world) (es ++ t.(t_events))) ->
  stays (x ← gets g; f x).
Proof. intros Hf w nf es t Hw Ht. exact (Hf w nf es t Hw Ht). Qed.
(** ** Render states *)

Lemma spec_setRenderState (w : world IPP) nf l : w.(w_accel).(bHaveSVGA3D) = true ->
  spec (setRenderState l) w nf =
    Some (mk_trace tt [Sent (In3D (RenderStateSet (mk_SVGA3dCmdSetRenderState (cid w.(w_client))) l))] w nf).
Proof.
  intros H3. unfold setRenderState, ask. cbn [gets state mbind prog_bind spec accel_spec]. rewrite H3. by destruct w.
Qed.

Lemma after_render_states es l :
  after_events id c0 (es ++ [Sent (In3D (RenderStateSet (mk_SVGA3dCmdSetRenderState id) l))]) = foldl apply_rs (after_events id c0 es) l.
Proof.
  rewrite after_events_app. change (sent [Sent ?x]) with [x]. cbn [foldl apply_cmd SVGA3dCmdSetRenderState_cid]. by rewrite Z.eqb_refl.
Qed.

(** States that no remembered word determines. *)
Lemma stays_other_states l : states_of l ⊆ name_values 7 -> stays (setRenderState l).
Proof.
  intros Hl w nf es t (H3 & Hid & [Hrs Htex Hw]) Ht. rewrite spec_setRenderState in Ht by done. injection Ht as <-. cbn [t_world t_events].
  split; [done|]. split; [done|]. rewrite Hid, after_render_states. split; [|by rewrite apply_rs_tex|done].
  intros i f Hf Hbit. apply (apply_rs_keeps l i 7); [done|by apply (bool_decide_unpack _)| |done|by apply Hrs].
  apply block_indices in Hf. lia.
Qed.

(** Remembering word [i] and sending the states [l]. *)
Lemma truth_send w es i x l s' : truth w es -> i ∈ indices -> well_named i l -> (forall f, (i, f) ∈ blocks -> f x ⊆ l) ->
  cid s' = cid w.(w_client) -> s'.(bound_samplers) = w.(w_client).(bound_samplers) ->
  s'.(imm_s) = upd w.(w_client).(imm_s) i x ->
  (forall j, j <> i -> Z.testbit s'.(param_cache_mask) j = Z.testbit w.(w_client).(param_cache_mask) j) ->
  truth (set_client s' w) (es ++ [Sent (In3D (RenderStateSet (mk_SVGA3dCmdSetRenderState id) l))]).
Proof.
  intros (H3 & Hid & Hco) Hi [Hn Hl] Hsub Ec Eb Ei Em. split; [done|]. split; [by cbn; congruence|].
  rewrite after_render_states. cbn [w_client set_client]. apply (coherent_send w.(w_client) s' _ i x); try done.
  - by rewrite Ei, upd_eq.
  - intros j Hj. by rewrite Ei, upd_ne.
Qed.

Lemma testbit_set_other m i j : 0 <= i -> j <> i -> Z.testbit (Z.lor m (Z.shiftl 1 i)) j = Z.testbit m j.
Proof.
  intros Hi Hj. rewrite Z.lor_spec. replace (Z.testbit (Z.shiftl 1 i) j) with false; [by rewrite orb_false_r|].
  symmetry. destruct (Z.lt_ge_cases j 0); [by apply Z.testbit_neg_r|]. rewrite Z.shiftl_spec by lia.
  destruct (Z.lt_ge_cases (j - i) 0); [by apply Z.testbit_neg_r|]. apply (Z.bits_above_log2 1); [lia|cbn; lia].
Qed.

Lemma blocks_at i f : (i, f) ∈ blocks -> f = match i with
  | 4 => imm4_states | 5 => imm5_states | 6 => fun x => tail (imm6_states 0 x) | 9 => backface_states | 11 => alpha_blend_states
  | _ => modes4_states end.
Proof. unfold blocks. intros Hin. repeat (apply elem_of_cons in Hin as [[= -> ->]|Hin]); [done..|]. by apply not_elem_of_nil in Hin. Qed.

(** What a loaded word sends is what it determines. *)
Lemma imm_states_block s i l : 4 <= i <= 7 -> imm_states s i = Some l ->
  well_named i l /\ forall f, (i, f) ∈ blocks -> f (s.(imm_s) i) ⊆ l.
Proof.
  intros Hi. assert (i = 4 \/ i = 5 \/ i = 6 \/ i = 7) as [->|[->|[->| ->]]] by lia; cbn [imm_states]; intros [= <-].
  - split; [by apply (block_named 4 imm4_states); left|]. intros f Hf. by apply blocks_at in Hf as ->.
  - split; [by apply (block_named 5 imm5_states); right; left|]. intros f Hf. by apply blocks_at in Hf as ->.
  - split; [apply sublist_well_named; [reflexivity|by apply (bool_decide_unpack _)]|].
    intros f Hf. apply blocks_at in Hf as ->. intros r Hr. by right.
  - split; [apply sublist_well_named; [sublists|by apply (bool_decide_unpack _)]|].
    intros f Hf. apply block_indices in Hf. lia.
Qed.
Lemma stays_load_imm i x : 0 <= i < 8 -> stays (load_imm i x).
Proof.
  intros Hi. unfold load_imm. apply stays_gets_bind. intros w nf es t Hw Ht. cbv beta zeta in Ht. cbn [Datatypes.id] in Ht.
  destruct (_ && _ && _).
  { injection Ht as <-. cbn. by rewrite app_nil_r. }
  set (s := w_client w) in *. set (s1 := set_imm i x s) in Ht.
  set (s2 := if imm_cached i then set_cache_mask (Z.lor s1.(param_cache_mask) (Z.shiftl 1 i)) s1 else s1) in Ht.
  assert (cid s2 = cid s /\ s2.(bound_samplers) = s.(bound_samplers) /\ s2.(imm_s) = upd s.(imm_s) i x /\
    (forall j, j <> i -> Z.testbit s2.(param_cache_mask) j = Z.testbit s.(param_cache_mask) j) /\
    (imm_cached i = false -> s2.(param_cache_mask) = s.(param_cache_mask))) as (Ec & Eb & Ei & Em & Ec').
  { subst s2. destruct (imm_cached i); repeat split; try done. intros j Hj. apply testbit_set_other; [lia|done]. }
  cbn [modify state mbind prog_bind spec] in Ht. pose proof Hw as (H3 & Hid & Hco). destruct (imm_states s2 i) as [l|] eqn:El.
  - rewrite spec_setRenderState in Ht by done. injection Ht as <-. cbn [t_world t_events w_client set_client].
    assert (4 <= i <= 7).
    { destruct (Z.le_gt_cases 4 i); [lia|]. exfalso. assert (i = 0 \/ i = 1 \/ i = 2 \/ i = 3) as [->|[->|[->| ->]]] by lia; done. }
    destruct (imm_states_block s2 i l ltac:(done) El) as [Hn Hb]. rewrite Ei, upd_eq in Hb. rewrite Ec. subst s. rewrite Hid.
    apply (truth_send w es i x); try done. unfold indices. rewrite !elem_of_cons. lia.
  - injection Ht as <-. cbn [t_world t_events]. rewrite app_nil_r. split; [done|]. split; [cbn [w_client set_client]; by rewrite Ec|].
    assert (i < 4).
    { destruct (Z.lt_ge_cases i 4); [done|]. exfalso. assert (i = 4 \/ i = 5 \/ i = 6 \/ i = 7) as [->|[->|[->| ->]]] by lia; done. }
    eapply coherent_same; [|exact Hco]. cbn [w_client set_client]. split; [done| |done|].
    + apply Ec'. unfold imm_cached. rewrite (proj2 (Z.leb_gt 4 i)) by lia. done.
    + intros j f Hf. rewrite Ei, upd_ne; [done|]. apply block_indices in Hf. lia.
Qed.

(** ** Words of other commands *)

Lemma bit_select_land cmd sh n : 0 <= sh -> 0 <= n -> sh + n <= 24 -> bit_select (Z.land cmd 0xFFFFFF) sh n = bit_select cmd sh n.
Proof.
  intros Hs Hn Hsn. unfold bit_select. change 0xFFFFFF with (Z.ones 24). replace (Z.shiftl 1 n - 1) with (Z.ones n) by (rewrite Z.ones_equiv, Z.shiftl_1_l; lia).
  apply Z.bits_inj'. intros k Hk. rewrite !Z.land_spec, !Z.shiftr_spec, Z.land_spec by lia.
  destruct (Z.lt_ge_cases k n).
  - rewrite (Z.ones_spec_low 24) by lia. by rewrite andb_true_r.
  - rewrite (Z.ones_spec_high n) by lia. by rewrite !andb_false_r.
Qed.

Lemma bit_land cmd sh : 0 <= sh < 24 -> bit (Z.land cmd 0xFFFFFF) sh = bit cmd sh.
Proof. intros. unfold bit. by rewrite bit_select_land by lia. Qed.

Lemma block_land i f cmd : (i, f) ∈ blocks -> 8 <= i -> f (Z.land cmd 0xFFFFFF) = f cmd.
Proof.
  intros Hf Hi. pose proof (blocks_at i f Hf) as ->. apply block_indices in Hf.
  assert (i = 9 \/ i = 11 \/ i = 12) as [->|[->| ->]] by lia.
  - unfold backface_states. by rewrite !bit_land, !bit_select_land by lia.
  - unfold alpha_blend_states. by rewrite !bit_land, !bit_select_land by lia.
  - unfold modes4_states. by rewrite !bit_land, !bit_select_land by lia.
Qed.

(** The program sends the states of the command. *)
Lemma stays_if_changed r cmd f p : (8 + r, f) ∈ blocks -> 0 <= r < 8 ->
  (forall w nf, w.(w_accel).(bHaveSVGA3D) = true -> spec p w nf = spec (send_some (f cmd)) w nf) -> stays (if_changed r cmd p).
Proof.
  intros Hf Hr Hp w nf es t Hw Ht. unfold if_changed in Ht. cbn [state mbind prog_bind spec] in Ht. pose proof Hw as (H3 & Hid & Hco).
  unfold cache_misc_reg in Ht. rewrite (proj2 (Z.leb_gt 8 r)) in Ht by lia. cbv zeta in Ht.
  set (s := w_client w) in *. set (x := Z.land cmd 0xFFFFFF) in *.
  assert (forall s', cid s' = cid s -> s'.(bound_samplers) = s.(bound_samplers) -> s'.(imm_s) = upd s.(imm_s) (8 + r) x ->
    (forall j, j <> 8 + r -> Z.testbit s'.(param_cache_mask) j = Z.testbit s.(param_cache_mask) j) ->
    spec p (set_client s' w) nf = Some t -> truth t.(t_world) (es ++ t.(t_events))) as Hsend.
  { intros s' Ec Eb Ei Em Et. rewrite Hp in Et by done. unfold send_some in Et.
    assert (8 + r ∈ indices) as Hin.
    { apply block_indices in Hf. unfold indices. rewrite !elem_of_cons. lia. }
    assert (well_named (8 + r) (f cmd)) as Hn by by apply block_named.
    assert (forall g, (8 + r, g) ∈ blocks -> g x ⊆ f cmd) as Hg.
    { intros g Hg. rewrite (blocks_at _ _ Hg), <-(blocks_at _ _ Hf). subst x. by rewrite (block_land (8 + r) f cmd Hf) by lia. }
    destruct (f cmd) as [|r0 l0] eqn:El.
    - injection Et as <-. cbn [t_world t_events]. rewrite app_nil_r. split; [done|]. split; [cbn [w_client set_client]; by rewrite Ec|].
      destruct Hn as [Hn Hsub]. apply (coherent_send s s' _ (8 + r) x []); try done.
      + by rewrite Ei, upd_eq.
      + intros j Hj. by rewrite Ei, upd_ne.
    - rewrite spec_setRenderState in Et by done. injection Et as <-. cbn [t_world t_events w_client set_client].
      rewrite Ec. subst s. rewrite Hid. by apply (truth_send w es (8 + r) x). }
  destruct (has_bits _ _).
  - destruct (x =? _).
    + injection Ht as <-. cbn [t_world t_events]. rewrite app_nil_r. by destruct w.
    + by apply (Hsend (set_imm (8 + r) x s)).
  - apply (Hsend (set_cache_mask (Z.lor s.(param_cache_mask) (Z.shiftl 1 (8 + r))) (set_imm (8 + r) x s))); try done.
    intros j Hj. by apply testbit_set_other; [lia|].
Qed.
(** ** Samplers *)

Lemma ones_of_spec width mask i : i ∈ ones_of width mask <-> 0 <= i < width /\ Z.testbit mask i = true.
Proof. unfold ones_of. rewrite list_elem_of_filter, elem_of_seqZ. tauto. Qed.

Lemma unbind_rs l : forall c, (foldl apply_ts c (unbind_state <$> l)).(c_rs) = c.(c_rs).
Proof. induction l as [|i l IH]; intros c; [done|]. cbn [fmap list_fmap foldl]. by rewrite IH. Qed.

Lemma unbind_tex l : forall c i,
  (foldl apply_ts c (unbind_state <$> l)).(c_tex) i = if decide (i ∈ l) then SVGA_ID_INVALID else c.(c_tex) i.
Proof.
  induction l as [|j l IH]; intros c i; [done|]. cbn [fmap list_fmap foldl]. rewrite IH. cbn.
  destruct (decide (i ∈ l)) as [Hi|Hi].
  - by rewrite decide_True by by right.
  - destruct (Z.eq_dec i j) as [->|Hne].
    + rewrite decide_True by left. by rewrite upd_eq.
    + rewrite decide_False by (rewrite elem_of_cons; tauto). by rewrite upd_ne.
Qed.

Lemma after_texture_states es l :
  after_events id c0 (es ++ [Sent (In3D (TextureStateSet (mk_SVGA3dCmdSetTextureState id) l))]) = foldl apply_ts (after_events id c0 es) l.
Proof.
  rewrite after_events_app. change (sent [Sent ?x]) with [x]. cbn [foldl apply_cmd SVGA3dCmdSetTextureState_cid]. by rewrite Z.eqb_refl.
Qed.

Lemma lxor_land a m : Z.lxor a (Z.land m a) = Z.ldiff a m.
Proof. apply Z.bits_inj'. intros i Hi. rewrite Z.lxor_spec, Z.land_spec, Z.ldiff_spec. by destruct (Z.testbit a i), (Z.testbit m i). Qed.

Lemma stays_unbind mask : stays (unbind_samplers mask).
Proof.
  unfold unbind_samplers. apply stays_gets_bind. intros w nf es t Hw Ht. cbv zeta in Ht.
  set (s := w_client w) in *. set (m := Z.land mask s.(bound_samplers)) in *. destruct (m =? 0).
  { injection Ht as <-. cbn. by rewrite app_nil_r. }
  pose proof Hw as (H3 & Hid & [Hrs Htex Hfit]). cbn [lock3D state gets mbind prog_bind spec direct_call modify] in Ht. rewrite H3 in Ht.
  cbn [negb mbind prog_bind spec after option_bind t_result t_events t_world t_next direct_cmd] in Ht. injection Ht as <-.
  cbn [t_world t_events app]. split; [done|]. split; [done|]. fold s. rewrite (Hid : cid s = id). 
  change (direct_cmd (DSetTextureState ?a ?b)) with (In3D (TextureStateSet (mk_SVGA3dCmdSetTextureState a) b)).
  rewrite after_texture_states.
  cbn [w_client set_client]. split.
  - intros i f Hf Hbit. cbn in Hbit |- *. unfold holds_rs. rewrite unbind_rs. by apply Hrs.
  - intros i Hi. rewrite unbind_tex. cbn [bound_samplers set_bound]. rewrite Z.lxor_spec. subst m. rewrite Z.land_spec.
    destruct (decide _) as [Hin|Hin]; rewrite ones_of_spec, Z.land_spec in Hin.
    + destruct Hin as [_ Hin]. apply andb_true_iff in Hin as [-> ->]. done.
    + rewrite <-(Htex i Hi). fold s. destruct (Z.testbit mask i), (Z.testbit (bound_samplers s) i); try done. exfalso. by apply Hin.
  - cbn [bound_samplers set_bound]. fold s. subst m. rewrite lxor_land. by apply fits_ldiff.
Qed.

Lemma sampler_states_apply s i q0 q1 q2 aniso c :
  let c' := foldl apply_ts c (sampler_states s i q0 q1 q2 aniso) in
  c'.(c_rs) = c.(c_rs) /\ c'.(c_tex) = upd c.(c_tex) i (s.(surface_ids) (bit_select q1 1 4)).
Proof. done. Qed.

Lemma testbit_set i m j : 0 <= i -> 0 <= j -> Z.testbit (Z.lor m (Z.shiftl 1 i)) j = (j =? i) || Z.testbit m j.
Proof.
  intros Hi Hj. destruct (Z.eqb_spec j i) as [->|Hne]; [|by rewrite testbit_set_other].
  rewrite Z.lor_spec, Z.shiftl_spec, Z.sub_diag by lia. apply orb_true_r.
Qed.

Lemma testbit_clear i m j : 0 <= i -> 0 <= j -> Z.testbit (Z.ldiff m (Z.shiftl 1 i)) j = negb (j =? i) && Z.testbit m j.
Proof.
  intros Hi Hj. pose proof (testbit_set i 0 j Hi Hj) as E. rewrite Z.lor_0_l, Z.bits_0, orb_false_r in E.
  rewrite Z.ldiff_spec, E. by destruct (j =? i), (Z.testbit m j).
Qed.

Lemma stays_sampler_stage m aniso i k : 0 <= i < 16 -> stays (sampler_stage m aniso (i, k)).
Proof.
  intros Hi. unfold sampler_stage. apply stays_bind; [apply stays_rd|]. intros q0. apply stays_bind; [apply stays_rd|]. intros q1.
  apply stays_bind; [apply stays_rd|]. intros q2. cbv zeta. intros w nf es t (H3 & Hid & [Hrs Htex Hfit]) Ht.
  cbn [modify state gets ask mbind prog_bind spec accel_spec w_accel set_client] in Ht. rewrite H3 in Ht.
  cbn [sends o_cmds o_result o_accel o_next fmap list_fmap spec after mbind option_bind mret prog_ret] in Ht. injection Ht as <-.
  cbn [t_world t_events app]. set (s := w_client w) in *.
  match goal with |- truth (set_accel _ (set_client ?x w)) _ => set (s' := x) end.
  split; [done|]. split; [done|]. rewrite (Hid : cid s' = id), after_texture_states.
  pose proof (sampler_states_apply s' i q0 q1 q2 aniso (after_events id c0 es)) as [Er Et].
  cbn [w_client set_client set_accel]. split.
  - intros j f Hf Hbit. unfold holds_rs. rewrite Er. by apply Hrs.
  - intros j Hj. rewrite Et. subst s'. cbn [bound_samplers set_bound surface_ids set_s2t set_nonnormalized].
    unfold upd. destruct (isIdValid (surface_ids s (bit_select q1 1 4))) eqn:Ev.
    + rewrite testbit_set by lia. destruct (Z.eqb_spec j i) as [->|]; [done|]. by apply Htex.
    + rewrite testbit_clear by lia. destruct (Z.eqb_spec j i) as [->|]; [done|]. by apply Htex.
  - subst s'. cbn [bound_samplers set_bound set_s2t set_nonnormalized surface_ids]. destruct (isIdValid _).
    + rewrite Z.shiftl_1_l. by apply fits_lor.
    + by apply fits_ldiff.
Qed.
(** ** Everything else *)

Local Ltac quiet_state :=
  apply stays_state; intros ?; repeat case_match; split; try done; by split.

Local Ltac harmless_op :=
  let H := fresh "H3" in intros ? ? H; cbn [accel_spec]; rewrite H; split; [done|]; cbn [sends sends_fence o_cmds app];
  repeat (apply Forall_cons; split; [by intros ?|]); by apply Forall_nil.

Local Ltac stays_step :=
  match goal with
  | |- stays (Ret _) => apply stays_ret
  | |- stays (mret _) => apply stays_ret
  | |- stays Wild => apply stays_wild
  | |- stays (_ ≫= _) => apply stays_bind; [|intros ?]
  | |- stays (ask _) => apply stays_ask; harmless_op
  | |- stays (direct_call (DSetTextureState _ _)) => fail 1
  | |- stays (direct_call (DSetShaderConst _ _ _ ?v)) => destruct v as [[[? ?] ?] ?]; apply stays_direct; by intros ?
  | |- stays (direct_call _) => apply stays_direct; by intros ?
  | |- stays insert_fence => apply stays_fence
  | |- stays (sync_to _) => apply stays_sync
  | |- stays (gets _) => apply stays_gets
  | |- stays (modify _) => apply stays_modify; intros ?; by split
  | |- stays (poke _ _) => unfold poke; quiet_state
  | |- stays lock3D => unfold lock3D; quiet_state
  | |- stays (getDevCap _) => unfold getDevCap; quiet_state
  | |- stays allocSurfaceID => unfold allocSurfaceID; quiet_state
  | |- stays (freeSurfaceID _) => unfold freeSurfaceID; quiet_state
  | |- stays (VRAMMalloc _) => unfold VRAMMalloc; quiet_state
  | |- stays (VRAMFree _) => unfold VRAMFree; quiet_state
  | |- stays (offsetInVRAM _) => unfold offsetInVRAM; quiet_state
  | |- stays (rd _ _) => apply stays_rd
  | |- stays (rd_block _ _ _) => unfold rd_block; cbv zeta
  | |- stays (sync _) => unfold sync
  | |- stays (drop_surface _) => unfold drop_surface
  | |- stays (purge _ _) => unfold purge; cbv zeta
  | |- stays (alloc_block _ _) => unfold alloc_block; cbv zeta
  | |- stays (alloc _ _ _) => unfold alloc; cbv zeta
  | |- stays (upload _ _ _ _) => unfold upload; cbv zeta
  | |- stays (setRenderState _) => apply stays_other_states; by apply (bool_decide_unpack _)
  | |- stays (match ?x with _ => _ end) => destruct x
  end.

Lemma stays_draw_arrays m n isize nv decls idx flat range : stays (draw_arrays m n isize nv decls idx flat range).
Proof. unfold draw_arrays. cbv zeta. repeat stays_step. Qed.

Lemma stays_prim3d m cmd : stays (ip_prim3d m cmd).
Proof.
  unfold ip_prim3d, ip_prim3d_direct, ip_prim3d_poly, clear_rect, vertex_decls. cbv zeta.
  destruct (bit cmd 23); [repeat stays_step|]. apply stays_bind; [|intros _; apply stays_ret].
  repeat first [match goal with |- stays (draw_arrays _ _ _ _ _ _ _ _) => apply stays_draw_arrays end | stays_step].
Qed.
Lemma stays_load_imms m skip todo : Forall (fun i => 0 <= i < 8) todo -> forall pos, stays (load_imms m skip todo pos).
Proof.
  induction 1 as [|i todo Hi _ IH]; intros pos; cbn [load_imms]; [apply stays_ret|].
  destruct (skip <=? pos); [apply stays_ret|]. apply stays_bind; [apply stays_rd|]. intros x.
  apply stays_bind; [by apply stays_load_imm|]. intros _. apply IH.
Qed.

Lemma ones_bounds width mask : Forall (fun i => 0 <= i < width) (ones_of width mask).
Proof. apply Forall_forall. intros i Hi. by apply ones_of_spec in Hi as [? _]. Qed.

Lemma enum_ones_bounds width mask i k : (i, k) ∈ enum_ones width mask -> 0 <= i < width.
Proof.
  intros Hin. apply elem_of_lookup_imap in Hin as (n & x & [= -> ->] & Hl). apply list_elem_of_lookup_2 in Hl.
  by apply ones_of_spec in Hl as [? _].
Qed.

Lemma stays_map_stage rcp m ik : stays (map_stage rcp m ik).
Proof. destruct ik as [i k]. unfold map_stage. cbv zeta. repeat stays_step. Qed.

Lemma stays_load_const m ik : stays (load_const m ik).
Proof. destruct ik as [i k]. unfold load_const. repeat stays_step. Qed.

Lemma stays_sampler_state m : stays (ip_3d_sampler_state m).
Proof.
  unfold ip_3d_sampler_state. cbv zeta. apply stays_bind; [apply stays_rd|]. intros mask. apply stays_bind; [stays_step|].
  intros aniso. apply stays_bind; [apply stays_unbind|]. intros _. apply stays_bind; [stays_step|]. intros _.
  apply stays_for. intros [i k] Hik. apply enum_ones_bounds in Hik. by apply stays_sampler_stage.
Qed.

Lemma stays_misc sel m : sel <> 4 -> stays (ip_misc_render_state sel m).
Proof. intros Hs. unfold ip_misc_render_state. cbv zeta. repeat case_match; try done; repeat stays_step. Qed.

Lemma stays_decode_3d_1d rcp m cmd : stays (decode_3d_1d rcp m cmd).
Proof.
  unfold decode_3d_1d, ip_3d_map_state, ip_load_immediate, ip_select_and_load_ps, ip_load_ps_const, ip_draw_rect, ip_buf_info,
    ip_clear_params. cbv zeta.
  repeat first
    [ match goal with
      | |- stays (ip_3d_sampler_state _) => apply stays_sampler_state
      | |- stays (ip_misc_render_state _ _) => by apply stays_misc
      | |- stays (load_imms _ _ _ _) => apply stays_load_imms, ones_bounds
      | |- stays (for_each (map_stage _ _) _) => apply stays_for; intros ? _; apply stays_map_stage
      | |- stays (for_each (load_const _) _) => apply stays_for; intros ? _; apply stays_load_const
      end
    | stays_step ].
Qed.

Lemma stays_decode_3d rcp cmd args : stays (decode_3d rcp (cmd :: args) cmd).
Proof.
  unfold decode_3d.
  repeat first
    [ match goal with
      | |- stays (ip_misc_render_state _ _) => by apply stays_misc
      | |- stays (decode_3d_1d _ _ _) => apply stays_decode_3d_1d
      | |- stays (ip_prim3d _ _) => apply stays_prim3d
      | |- stays (if_changed 1 _ _) => apply (stays_if_changed 1 cmd backface_states); [by do 3 right; left|lia|done]
      | |- stays (if_changed 3 _ _) => apply (stays_if_changed 3 cmd alpha_blend_states); [by do 4 right; left|lia|done]
      | |- stays (if_changed 4 _ _) => apply (stays_if_changed 4 cmd modes4_states); [by do 5 right; left|lia|done]
      end
    | stays_step ].
Qed.

Lemma stays_process rcp m : stays (process rcp m).
Proof.
  destruct m as [|cmd args]; [by intros w nf es t _|]. unfold process, decode_mi, decode_2d, store_index.
  change (rd (cmd :: args) 0) with (Ret (S := IPP) cmd). cbn [mbind prog_bind].
  repeat first [match goal with |- stays (decode_3d _ _ _) => apply stays_decode_3d end | stays_step].
Qed.

Lemma stays_submit rcp n : forall m size, stays (submit_loop rcp n m size).
Proof.
  induction n as [|n IH]; intros m size; cbn [submit_loop]; (destruct (size <=? 0); [apply stays_ret|]); [apply stays_ret|].
  apply stays_bind; [apply stays_process|]. intros skip. apply IH.
Qed.
End logic.

(** ** The theorem *)

(** C26: the caches of the command processor.  Suppose that what the processor remembers
    is true of its context on the device: every render state that a remembered state
    word determines has the value that the word gives, and a sampler is noted as bound
    if and only if its last texture is a valid one.  Then it is true again after any
    buffer of commands, of the context as the commands that were sent have left it: a
    word that is not sent because it has not changed would have changed nothing, and no
    sampler is missed when samplers are unbound. *)
Theorem submit_buffer_coherent rcp m size w nf c t :
  w.(w_accel).(bHaveSVGA3D) = true -> coherent w.(w_client) c ->
  spec (submit_buffer rcp m size) w nf = Some t ->
  cid t.(t_world).(w_client) = cid w.(w_client) /\ coherent t.(t_world).(w_client) (after_events (cid w.(w_client)) c t.(t_events)).
Proof.
  intros H3 Hc Ht. destruct (stays_submit (cid w.(w_client)) c rcp (Z.to_nat size) m size w nf [] t) as (_ & Hid & Hco); [|done|by split].
  split; [done|]. by split.
Qed.

(** After the caches are discarded, with no sampler bound, nothing is remembered. *)
Lemma discarded_coherent s c : s.(bound_samplers) = 0 -> (forall i, isIdValid (c.(c_tex) i) = false) -> coherent (discard_cached_state s) c.
Proof.
  intros Hb Hc. split; cbn [discard_cached_state set_cache_mask param_cache_mask bound_samplers].
  - intros i f _. by rewrite Z.bits_0.
  - intros i _. by rewrite Hb, Z.bits_0, Hc.
  - by rewrite Hb.
Qed.

(** ** Examples *)

Definition blank_context : context := mk_context (fun _ => None) (fun _ => SVGA_ID_INVALID).

Lemma submit_buffer_coherent_witness : exists t,
  spec (submit_buffer exact_rcp demo_buffer 11) (demo_world demo_ipp) 1 = Some t /\
  length (sent t.(t_events)) = 4%nat /\ coherent t.(t_world).(w_client) (after_events 1 blank_context t.(t_events)).
Proof.
  destruct (spec (submit_buffer exact_rcp demo_buffer 11) (demo_world demo_ipp) 1) as [t|] eqn:Et.
  2: { exfalso. assert (is_Some (spec (submit_buffer exact_rcp demo_buffer 11) (demo_world demo_ipp) 1)) as [? E]
         by (vm_compute; by eexists). by rewrite E in Et. }
  exists t. split; [done|]. split.
  - assert ((t ← spec (submit_buffer exact_rcp demo_buffer 11) (demo_world demo_ipp) 1; Some (length (sent t.(t_events)))) = Some 4%nat) as E
      by by vm_compute. rewrite Et in E. by injection E.
  - apply (submit_buffer_coherent exact_rcp demo_buffer 11 (demo_world demo_ipp) 1 blank_context t); [done| |done].
    by apply (discarded_coherent demo_ipp blank_context).
Defined.

(** ** Two words that depend on each other *)

(** The device's mask of colours after a buffer, and the mask that the state of the
    processor stands for. *)
Definition color_masks (m : list Z) : option (option Z * Z) :=
  t ← spec (submit_buffer exact_rcp m (Z.of_nat (length m))) (demo_world demo_ipp) 1;
  Some ((after_events 1 blank_context t.(t_events)).(c_rs) SVGA3D_RS_COLORWRITEENABLE, calc_color_write_enable t.(t_world).(w_client)).

(** Word 6 enables writes to the colour buffer, word 5 then disables all four
    components: the device goes on with all components enabled, until word 6 changes.
    Sent in one command, in the order of their numbers, the words have their effect. *)
Theorem color_mask_stale :
  color_masks [0x7D040400; 0x00000004; 0x7D040200; 0xF0000000] = Some (Some 15, 0) /\
  color_masks [0x7D040601; 0xF0000000; 0x00000004] = Some (Some 0, 0).
Proof. by vm_compute. Qed.

(** A command at the end of the buffer whose words are missing is read behind the end. *)
Theorem truncated_command_wild w nf : spec (submit_buffer exact_rcp [0x7D8E0001] 1) w nf = None.
Proof. done. Qed.
