(* ===== verification/IppGeometry.v ===== *)
(** The geometry of the command processor: the order in which the vertices of a polygon
    are drawn as a strip of triangles, and the layout of vertices. *)

From S2P Require Import Prelude IOKit Layout SvgaReg Svga3dReg Ipp.
From stdpp Require Import list.
Local Open Scope Z_scope.

(** ** Polygons *)

(** The triangles that the device draws for a strip of indices. *)
Fixpoint strip (l : list Z) : list (list Z) :=
  match l with
  | x :: ((y :: z :: _) as l') => [x; y; z] :: strip l'
  | _ => []
  end.

(** A triangulation of a convex polygon, given by its vertices in order around it: a
    corner is cut off, at one end of the list or at the other, until two vertices are
    left. *)
Inductive triangulates : list Z -> list (list Z) -> Prop :=
  | tri_done a b : triangulates [a; b] []
  | tri_first t a b l z ts : t ≡ₚ [z; a; b] -> triangulates (b :: l ++ [z]) ts -> triangulates (a :: b :: l ++ [z]) (t :: ts)
  | tri_last t a l y z ts : t ≡ₚ [y; z; a] -> triangulates (a :: l ++ [y]) ts -> triangulates (a :: l ++ [y; z]) (t :: ts).

Lemma seqZ_first a n : 0 < n -> seqZ a n = a :: seqZ (a + 1) (n - 1).
Proof. intros. by rewrite seqZ_cons by done. Qed.

Lemma seqZ_last a n : 0 < n -> seqZ a n = seqZ a (n - 1) ++ [a + (n - 1)].
Proof.
  intros. replace n with ((n - 1) + 1) at 1 by lia. rewrite seqZ_app by lia. f_equal.
Qed.

(** Polygons as intervals of vertices. *)
Lemma cut_first t a b ts : a + 1 < b -> t ≡ₚ [b; a; a + 1] -> triangulates (seqZ (a + 1) (b - a)) ts ->
  triangulates (seqZ a (b - a + 1)) (t :: ts).
Proof.
  intros Hab Ht Hts. rewrite (seqZ_first a), (seqZ_first (a + 1)), (seqZ_last (a + 1 + 1)) by lia.
  rewrite (seqZ_first (a + 1)), (seqZ_last (a + 1 + 1)) in Hts by lia.
  replace (a + 1 + 1 + (b - a + 1 - 1 - 1 - 1)) with b by lia. replace (a + 1 + 1 + (b - a - 1 - 1)) with b in Hts by lia.
  replace (b - a + 1 - 1 - 1 - 1) with (b - a - 1 - 1) by lia. by apply tri_first.
Qed.

Lemma cut_last t a b ts : a + 1 < b -> t ≡ₚ [b - 1; b; a] -> triangulates (seqZ a (b - a)) ts ->
  triangulates (seqZ a (b - a + 1)) (t :: ts).
Proof.
  intros Hab Ht Hts. rewrite (seqZ_first a), (seqZ_last (a + 1)), (seqZ_last (a + 1) (_ - 1 - 1)) by lia.
  rewrite (seqZ_first a), (seqZ_last (a + 1)) in Hts by lia. rewrite <-app_assoc. cbn [app].
  replace (a + 1 + (b - a + 1 - 1 - 1)) with b by lia. replace (a + 1 + (b - a + 1 - 1 - 1 - 1)) with (b - 1) by lia.
  replace (a + 1 + (b - a - 1 - 1)) with (b - 1) in Hts by lia.
  replace (b - a + 1 - 1 - 1 - 1) with (b - a - 1 - 1) by lia. by apply tri_last.
Qed.

Lemma two_left a : triangulates (seqZ a 2) [].
Proof. rewrite (seqZ_first a), (seqZ_first (a + 1)) by lia. apply tri_done. Qed.

(** The rest of the strip, after the two vertices that enclose the rest of the polygon. *)
Lemma polygon_loop_strip n : forall base v1 v2, 0 <= base -> base + v2 + 1 < 2 ^ 16 -> 1 <= v1 <= v2 + 1 -> v2 - v1 + 1 <= Z.of_nat n ->
  triangulates (seqZ (base + v1 - 1) (v2 - v1 + 3)) (strip ((base + v1 - 1) :: (base + v2 + 1) :: polygon_loop n base v1 v2)).
Proof.
  induction n as [|n IH]; intros base v1 v2 Hb Hr Hv Hn.
  { assert (v1 = v2 + 1) as -> by lia. cbn [polygon_loop strip]. replace (v2 - (v2 + 1) + 3) with 2 by lia. apply two_left. }
  cbn [polygon_loop]. destruct (Z.ltb_spec v1 v2).
  - rewrite !wrap_small by (unfold fits; lia). cbn [strip].
    replace (v2 - v1 + 3) with (base + v2 + 1 - (base + v1 - 1) + 1) by lia.
    apply cut_first; [lia| |].
    { replace (base + v1 - 1 + 1) with (base + v1) by lia. rewrite Permutation_swap. by apply perm_skip. }
    replace (base + v1 - 1 + 1) with (base + v1) by lia.
    replace (base + v2 + 1 - (base + v1 - 1)) with (base + v2 + 1 - (base + v1) + 1) by lia.
    apply cut_last; [lia| |].
    { replace (base + v2 + 1 - 1) with (base + v2) by lia. rewrite (Permutation_swap (base + v2)), (Permutation_swap (base + v2)). done. }
    specialize (IH base (v1 + 1) (v2 - 1) Hb ltac:(lia) ltac:(lia) ltac:(lia)).
    replace (base + (v1 + 1) - 1) with (base + v1) in IH by lia. replace (base + (v2 - 1) + 1) with (base + v2) in IH by lia.
    replace (base + v2 + 1 - (base + v1)) with (v2 - 1 - (v1 + 1) + 3) by lia. exact IH.
  - destruct (Z.eqb_spec v1 v2) as [->|].
    + rewrite wrap_small by (unfold fits; lia). cbn [strip].
      replace (v2 - v2 + 3) with (base + v2 + 1 - (base + v2 - 1) + 1) by lia. apply cut_first; [lia| |].
      * replace (base + v2 - 1 + 1) with (base + v2) by lia. rewrite Permutation_swap. by apply perm_skip.
      * replace (base + v2 + 1 - (base + v2 - 1)) with 2 by lia. apply two_left.
    + assert (v1 = v2 + 1) as -> by lia. cbn [strip]. replace (v2 - (v2 + 1) + 3) with 2 by lia. apply two_left.
Qed.

Lemma polygon_loop_perm n : forall base v1 v2, 0 <= base -> base + v2 < 2 ^ 16 -> 0 <= v1 <= v2 + 1 -> v2 - v1 + 1 <= Z.of_nat n ->
  polygon_loop n base v1 v2 ≡ₚ seqZ (base + v1) (v2 - v1 + 1).
Proof.
  induction n as [|n IH]; intros base v1 v2 Hb Hr Hv Hn.
  { assert (v1 = v2 + 1) as -> by lia. by replace (v2 - (v2 + 1) + 1) with 0 by lia. }
  cbn [polygon_loop]. destruct (Z.ltb_spec v1 v2).
  - rewrite !wrap_small by (unfold fits; lia). rewrite IH by lia. rewrite (seqZ_first (base + v1)), (seqZ_last (base + v1 + 1)) by lia.
    apply perm_skip. rewrite <-Permutation_cons_append. replace (base + v1 + 1 + (v2 - v1 + 1 - 1 - 1)) with (base + v2) by lia.
    apply perm_skip. replace (base + (v1 + 1)) with (base + v1 + 1) by lia.
    by replace (v2 - 1 - (v1 + 1) + 1) with (v2 - v1 + 1 - 1 - 1) by lia.
  - destruct (Z.eqb_spec v1 v2) as [->|].
    + rewrite wrap_small by (unfold fits; lia). replace (v2 - v2 + 1) with 1 by lia. by rewrite seqZ_first by lia.
    + assert (v1 = v2 + 1) as -> by lia. by replace (v2 - (v2 + 1) + 1) with 0 by lia.
Qed.

Lemma length_strip l : length (strip l) = (length l - 2)%nat.
Proof.
  induction l as [|x l IH]; [done|]. destruct l as [|y [|z l]]; [done..|]. cbn [strip length] in *. lia.
Qed.

(** C30: polygons.  For a convex polygon of at least three vertices, whose indices fit in
    16 bits, the index array names every vertex exactly once, and the triangles that the
    device draws for it as a strip triangulate the polygon: each one cuts off one corner
    of what is left. *)
Theorem polygon_triangulated base n : 0 <= base -> 3 <= n -> base + n <= 2 ^ 16 ->
  make_polygon_index_array base n ≡ₚ seqZ base n /\
  triangulates (seqZ base n) (strip (make_polygon_index_array base n)) /\
  length (strip (make_polygon_index_array base n)) = Z.to_nat (n - 2).
Proof.
  intros Hb Hn Hr. unfold make_polygon_index_array. rewrite (proj2 (Z.eqb_neq n 0)) by lia. rewrite (wrap_small 16 base) by (unfold fits; lia).
  assert (base :: polygon_loop (Z.to_nat n) base 1 (n - 1) ≡ₚ seqZ base n) as Hp.
  { rewrite polygon_loop_perm, (seqZ_first base) by lia. by replace (n - 1 - 1 + 1) with (n - 1) by lia. }
  split; [done|]. split.
  - destruct (Z.to_nat n) as [|k] eqn:Ek; [lia|]. cbn [polygon_loop]. rewrite (proj2 (Z.ltb_lt 1 (n - 1))) by lia.
    rewrite !wrap_small by (unfold fits; lia). cbn [strip].
    replace n with (base + (n - 1) - base + 1) at 1 by lia. apply cut_first; [lia| |].
    + apply (Permutation_app_comm [base; base + 1] [base + (n - 1)]).
    + pose proof (polygon_loop_strip k base 2 (n - 2) Hb ltac:(lia) ltac:(lia) ltac:(lia)) as Hs.
      replace (base + 2 - 1) with (base + 1) in Hs by lia. replace (base + (n - 2) + 1) with (base + (n - 1)) in Hs by lia.
      replace (base + (n - 1) - base) with (n - 2 - 2 + 3) by lia. change (1 + 1) with 2. replace (n - 1 - 1) with (n - 2) by lia.
      exact Hs.
  - rewrite length_strip, Hp, length_seqZ. lia.
Qed.

Lemma polygon_triangulated_witness :
  make_polygon_index_array 0 7 ≡ₚ seqZ 0 7 /\
  triangulates (seqZ 0 7) [[0; 1; 6]; [1; 6; 2]; [6; 2; 5]; [2; 5; 3]; [5; 3; 4]] /\
  length (strip (make_polygon_index_array 0 7)) = 5%nat.
Proof. apply (polygon_triangulated 0 7); lia. Defined.

(** ** Vertices *)

(** The size of a field of each type. *)
Definition type_size (type : Z) : Z :=
  if bool_decide (type = SVGA3D_DECLTYPE_FLOAT2) then 8 else if bool_decide (type = SVGA3D_DECLTYPE_FLOAT3) then 12
  else if bool_decide (type = SVGA3D_DECLTYPE_FLOAT4) then 16 else if bool_decide (type = SVGA3D_DECLTYPE_FLOAT16_4) then 8 else 4.

(** The fields lie one behind the other, from [off] to [total]. *)
Fixpoint contiguous (off : Z) (decls : list SVGA3dVertexDecl) (total : Z) : Prop :=
  match decls with
  | [] => off = total
  | d :: decls => decl_offset d = off /\ contiguous (off + type_size (decl_type d)) decls total
  end.

Lemma contiguous_snoc decls d : forall off total, contiguous off decls total -> decl_offset d = total ->
  contiguous off (decls ++ [d]) (total + type_size (decl_type d)).
Proof.
  induction decls as [|e decls IH]; intros off total Hc Hd; cbn [app contiguous] in *.
  - split; congruence.
  - destruct Hc as [He Hc]. split; [done|]. by apply IH.
Qed.

(** What a layout must be: contiguous, of at most [num] declarations, of a size that
    fits. *)
Definition good (num : Z) (l : layout) : Prop :=
  match l with
  | inl rc => rc <> kIOReturnSuccess
  | inr (acc, size) => contiguous 0 acc size /\ acc <> [] /\ Z.of_nat (length acc) <= num
  end.

Definition fresh_field (num : Z) (acc : list SVGA3dVertexDecl) (size : Z) : Prop := contiguous 0 acc size /\ Z.of_nat (length acc) < num.

Lemma put_good num d bytes k acc size :
  fresh_field num acc size -> decl_offset (d size) = size -> type_size (decl_type (d size)) = bytes ->
  (forall acc size, fresh_field num acc size -> acc <> [] -> good num (k acc size)) -> good num (put num d bytes k acc size).
Proof.
  intros [Hc Hl] Ho Ht Hk. unfold put. cbv zeta. pose proof (contiguous_snoc acc (d size) 0 size Hc Ho) as Hc'. rewrite Ht in Hc'.
  assert (acc ++ [d size] <> []) by by destruct acc.
  destruct (Z.leb_spec num (Z.of_nat (length (acc ++ [d size])))) as [Hn|Hn]; [|by apply Hk].
  split; [done|]. split; [done|]. rewrite length_app in *. cbn [length] in *. lia.
Qed.

Lemma put_if_good num b d bytes k acc size :
  fresh_field num acc size -> acc <> [] -> decl_offset (d size) = size -> type_size (decl_type (d size)) = bytes ->
  (forall acc size, fresh_field num acc size -> acc <> [] -> good num (k acc size)) -> good num (put_if b num d bytes k acc size).
Proof. intros Hf Hne Ho Ht Hk. unfold put_if. destruct b; [by apply put_good|by apply Hk]. Qed.

Lemma texcoords_good n : forall num tc s2 acc size, fresh_field num acc size -> acc <> [] -> good num (texcoords n num tc s2 acc size).
Proof.
  induction n as [|n IH]; intros num tc s2 acc size Hf Hne; cbn [texcoords].
  { destruct Hf. split; [done|]. split; [done|lia]. }
  destruct (s2 =? -1); [destruct Hf; split; [done|]; split; [done|lia]|]. cbv zeta. destruct (_ =? 15); [by apply IH|].
  destruct (texcoord (Z.land s2 15)) as [[type bytes]|] eqn:E; [|done].
  apply put_good; [done|done| |intros; by apply IH].
  unfold texcoord in E. repeat case_match; by simplify_eq.
Qed.

Lemma vertex_format_ok s2 s4 num decls :
  0 < num -> has_bits s4 (Z.shiftl 1 2) = false -> analyze_vertex_format s2 s4 true (Some num) = (kIOReturnSuccess, decls) ->
  exists size, contiguous 0 decls size /\ Forall (fun d => decl_stride d = u32 size) decls /\ decls <> [] /\
    Z.of_nat (length decls) <= num.
Proof.
  intros Hn Hfog. unfold analyze_vertex_format. rewrite (proj2 (Z.leb_gt num 0)) by lia. cbn [negb].
  assert (good num (vertex_layout s2 s4 num)) as Hg.
  { unfold vertex_layout. destruct (position _) as [rc|[type bytes]] eqn:Ep.
    { unfold position in Ep. repeat case_match; by simplify_eq. }
    apply put_good; [by split|done| |].
    { unfold position in Ep. repeat case_match; by simplify_eq. }
    intros. apply put_if_good; [done..|]. intros. apply put_if_good; [done..|]. intros. apply put_if_good; [done..|]. intros.
    rewrite Hfog. cbn [put_if]. by apply texcoords_good. }
  destruct (vertex_layout s2 s4 num) as [rc|[acc size]]; [by intros [= ->]|]. intros [= <-].
  destruct Hg as (Hc & Hne & Hl). exists size. split.
  { clear Hne Hl. revert Hc. generalize 0. induction acc as [|d acc IH]; intros off Hc; [done|].
    destruct Hc as [Ho Hc]. split; [done|]. by apply IH. }
  split; [apply Forall_fmap, Forall_forall; by intros d _|]. split; [by destruct acc|]. by rewrite length_fmap.
Qed.



(** A format with a fog parameter, of a position and the parameter: the second
    declaration says that a position lies at the start of the vertex, where the first one
    lies already, and nothing describes the parameter. *)
Theorem fog_parameter_undeclared :
  analyze_vertex_format (-1) 0x0044 true (Some MAX_NUM_DECLS) =
    (kIOReturnSuccess,
     [set_stride 16 (decl SVGA3D_DECLTYPE_FLOAT3 SVGA3D_DECLUSAGE_POSITIONT 0 0);
      set_stride 16 (decl SVGA3D_DECLTYPE_FLOAT1 SVGA3D_DECLUSAGE_POSITION 0 0)]).
Proof. reflexivity. Qed.

(** A format with all thirteen fields: the array has room for twelve, and the stride,
    which is that of the twelve, is not the length of the vertex. *)
Definition layout_size (l : layout) : option (nat * Z) := match l with inr (acc, size) => Some (length acc, size) | inl _ => None end.
Theorem thirteen_fields_stride :
  layout_size (vertex_layout 0 0x1C44 MAX_NUM_DECLS) = Some (12%nat, 84) /\ layout_size (vertex_layout 0 0x1C44 13) = Some (13%nat, 92).
Proof. by vm_compute. Qed.

(** ** Flat shading *)

Lemma upd_all (f : Z -> Z) (color : Z) l : forall (mem : Z -> Z) w,
  foldl (fun mem j => upd mem (f j) color) mem l w = if decide (w ∈ f <$> l) then color else mem w.
Proof.
  induction l as [|j l IH]; intros mem w; [done|]. cbn [foldl fmap list_fmap]. rewrite IH.
  destruct (decide (w ∈ f <$> l)) as [Hin|Hin]; [by rewrite decide_True by by right|].
  destruct (Z.eq_dec w (f j)) as [->|Hne].
  - rewrite decide_True by left. apply upd_eq.
  - rewrite decide_False by (rewrite elem_of_cons; tauto). by apply upd_ne.
Qed.

Definition is_color (d : SVGA3dVertexDecl) : Prop := decl_type d = SVGA3D_DECLTYPE_D3DCOLOR.

(** The words that shading a declaration writes. *)
Definition shaded (base n : Z) (d : SVGA3dVertexDecl) : list Z := vertex_word base d <$> seqZ 1 (n - 1).

Lemma flatshade_decl_at base n mem d w :
  flatshade_decl base n mem d w = if decide (is_color d /\ w ∈ shaded base n d) then mem (vertex_word base d 0) else mem w.
Proof.
  unfold flatshade_decl, is_color. destruct (Z.eqb_spec (decl_type d) SVGA3D_DECLTYPE_D3DCOLOR) as [E|E].
  - cbv zeta. rewrite upd_all. unfold shaded. destruct (decide _) as [Hin|Hin].
    + by rewrite decide_True.
    + rewrite decide_False; [done|]. tauto.
  - rewrite decide_False; [done|]. tauto.
Qed.

(** Two declarations name different words. *)
Definition words_apart (base n : Z) (d d' : SVGA3dVertexDecl) : Prop :=
  forall j j', 0 <= j < n -> 0 <= j' < n -> vertex_word base d j <> vertex_word base d' j'.

Lemma shaded_spec base n d w : w ∈ shaded base n d <-> exists j, 1 <= j < n /\ w = vertex_word base d j.
Proof.
  unfold shaded. rewrite list_elem_of_fmap. split.
  - intros (j & -> & Hj%elem_of_seqZ). exists j. split; [lia|done].
  - intros (j & Hj & ->). exists j. split; [done|]. apply elem_of_seqZ. lia.
Qed.

Lemma flatshade_other base n decls : forall mem w,
  (forall d, d ∈ decls -> is_color d -> w ∉ shaded base n d) -> flatshade_polygon base n decls mem w = mem w.
Proof.
  unfold flatshade_polygon. induction decls as [|d decls IH]; intros mem w Hw; [done|]. cbn [foldl].
  rewrite IH by (intros d' Hd'; apply Hw; by right). rewrite flatshade_decl_at, decide_False; [done|].
  intros [Hc Hin]. by apply (Hw d (list_elem_of_here _ _) Hc).
Qed.

Lemma flatshade_color base n decls : 0 < n -> forall mem d j,
  ForallOrdPairs (words_apart base n) decls -> d ∈ decls -> is_color d -> 0 <= j < n ->
  flatshade_polygon base n decls mem (vertex_word base d j) = mem (vertex_word base d 0).
Proof.
  intros Hn. induction decls as [|e decls IH]; intros mem d j Hp Hd Hc Hj; [by apply not_elem_of_nil in Hd|].
  inversion Hp as [|? ? He Hp' [E1 E2]]; subst. change (flatshade_polygon base n (e :: decls) mem) with
    (flatshade_polygon base n decls (flatshade_decl base n mem e)). rewrite Forall_forall in He.
  apply elem_of_cons in Hd as [->|Hd].
  - rewrite flatshade_other.
    + rewrite flatshade_decl_at. destruct (decide _) as [Hin|Hin]; [done|].
      destruct (Z.eq_dec j 0) as [->|Hj0]; [done|]. exfalso. apply Hin. split; [done|]. apply shaded_spec. exists j. split; [lia|done].
    + intros d' Hd' _ (j' & Hj' & E)%shaded_spec. apply (He d' Hd' j j'); [lia|lia|done].
  - rewrite (IH _ d j Hp' Hd Hc Hj), flatshade_decl_at, decide_False; [done|].
    intros [_ (j' & Hj' & E)%shaded_spec]. apply (He d Hd j' 0); [lia|lia|done].
Qed.

Lemma type_size_range t : 4 <= type_size t <= 16 /\ type_size t mod 4 = 0.
Proof. unfold type_size. repeat case_bool_decide; done. Qed.

Lemma contiguous_bounds decls : forall off total, contiguous off decls total -> off mod 4 = 0 ->
  off <= total /\ total mod 4 = 0 /\ Forall (fun d => off <= decl_offset d /\ decl_offset d < total /\ decl_offset d mod 4 = 0) decls.
Proof.
  induction decls as [|d decls IH]; intros off total Hc H4; cbn [contiguous] in Hc; [subst; split; [lia|by split]|].
  destruct Hc as [Ho Hc]. destruct (type_size_range (decl_type d)) as [Hs Hs4].
  destruct (IH _ _ Hc) as (Hle & Ht & Hall); [rewrite Z.add_mod, H4, Hs4 by lia; done|].
  split; [lia|]. split; [done|]. apply Forall_cons. split; [rewrite Ho; lia|].
  eapply Forall_impl; [exact Hall|]. simpl. lia.
Qed.

Lemma contiguous_sorted decls : forall off total, contiguous off decls total -> off mod 4 = 0 ->
  ForallOrdPairs (fun d d' => decl_offset d < decl_offset d') decls.
Proof.
  induction decls as [|d decls IH]; intros off total Hc H4; [constructor|]. destruct Hc as [Ho Hc].
  destruct (type_size_range (decl_type d)) as [Hs Hs4].
  assert ((off + type_size (decl_type d)) mod 4 = 0) as H4' by (rewrite Z.add_mod, H4, Hs4 by lia; done).
  constructor; [|by eapply IH]. destruct (contiguous_bounds _ _ _ Hc H4') as (_ & _ & Hall).
  eapply Forall_impl; [exact Hall|]. simpl. lia.
Qed.

Lemma word_of_field base d j stride : decl_offset d mod 4 = 0 -> stride mod 4 = 0 -> decl_stride d = stride ->
  vertex_word base d j = base + decl_offset d / 4 + j * (stride / 4).
Proof.
  intros Ho Hs <-. unfold vertex_word. set (s := decl_stride d) in *. set (o := decl_offset d) in *.
  rewrite (Z_div_exact_full_2 o 4), (Z_div_exact_full_2 s 4) at 1 by lia.
  replace (4 * (o / 4) + j * (4 * (s / 4))) with ((o / 4 + j * (s / 4)) * 4) by lia. rewrite Z.div_mul by lia. lia.
Qed.

Lemma fields_apart base n d d' stride :
  decl_offset d mod 4 = 0 -> decl_offset d' mod 4 = 0 -> stride mod 4 = 0 -> decl_stride d = stride -> decl_stride d' = stride ->
  0 <= decl_offset d < stride -> 0 <= decl_offset d' < stride -> decl_offset d <> decl_offset d' -> words_apart base n d d'.
Proof.
  intros Ho Ho' Hs Ed Ed' Hr Hr' Hne j j' _ _. rewrite (word_of_field base d j stride), (word_of_field base d' j' stride) by done.
  intros E. assert (decl_offset d / 4 + j * (stride / 4) = decl_offset d' / 4 + j' * (stride / 4)) as E' by lia.
  assert (forall o, 0 <= o < stride -> 0 <= o / 4 < stride / 4) as Hq.
  { intros o Hro. split; [apply Z.div_pos; lia|]. apply Z.div_lt_upper_bound; [lia|].
    rewrite <-(Z_div_exact_full_2 stride 4) by lia. lia. }
  pose proof (Hq _ Hr). pose proof (Hq _ Hr'). apply Hne.
  assert (decl_offset d / 4 = decl_offset d' / 4).
  { apply (f_equal (fun x => x mod (stride / 4))) in E'. rewrite !Z_mod_plus_full, !Z.mod_small in E' by lia. done. }
  rewrite (Z_div_exact_full_2 (decl_offset d) 4), (Z_div_exact_full_2 (decl_offset d') 4) by lia. lia.
Qed.

Lemma contiguous_size decls : forall off total, contiguous off decls total -> total <= off + 16 * Z.of_nat (length decls).
Proof.
  induction decls as [|d decls IH]; intros off total Hc; cbn [contiguous length] in *; [lia|].
  destruct Hc as [Ho Hc]. apply IH in Hc. pose proof (type_size_range (decl_type d)). lia.
Qed.

(** The fields of an accepted format, as words. *)
Lemma format_apart s2 s4 num decls base n :
  0 < num < 2 ^ 20 -> has_bits s4 (Z.shiftl 1 2) = false -> analyze_vertex_format s2 s4 true (Some num) = (kIOReturnSuccess, decls) ->
  ForallOrdPairs (words_apart base n) decls.
Proof.
  intros Hn Hfog Ha. destruct (vertex_format_ok s2 s4 num decls ltac:(lia) Hfog Ha) as (size & Hc & Hs & _ & Hl).
  pose proof (contiguous_size _ _ _ Hc) as Hsize. destruct (contiguous_bounds _ _ _ Hc eq_refl) as (H0 & H4 & Hall).
  pose proof (contiguous_sorted _ _ _ Hc eq_refl) as Hsort. rewrite wrap_small in Hs by (unfold fits; lia).
  clear Hc Ha Hl Hsize. induction Hsort as [|d decls Hd _ IH]; [constructor|].
  apply Forall_cons in Hs as [Es Hs]. apply Forall_cons in Hall as [Hr Hall]. constructor; [|by apply IH].
  apply Forall_forall. intros d' Hd'. rewrite Forall_forall in Hd, Hs, Hall. specialize (Hd d' Hd'). specialize (Hs d' Hd').
  specialize (Hall d' Hd'). simpl in Hd, Hall, Hr. apply (fields_apart base n d d' size); try done; lia.
Qed.

(** Flat shading.  For vertices of an accepted format, flat shading gives every vertex
    of a polygon the colours of the first vertex, in each of its colour fields, and
    changes no other word: the fields of the vertices do not overlap. *)
Theorem flatshade_polygon_colors s2 s4 decls base n mem :
  has_bits s4 (Z.shiftl 1 2) = false -> analyze_vertex_format s2 s4 true (Some MAX_NUM_DECLS) = (kIOReturnSuccess, decls) -> 0 < n ->
  (forall d j, d ∈ decls -> is_color d -> 0 <= j < n ->
     flatshade_polygon base n decls mem (vertex_word base d j) = mem (vertex_word base d 0)) /\
  (forall w, (forall d j, d ∈ decls -> is_color d -> 1 <= j < n -> w <> vertex_word base d j) ->
     flatshade_polygon base n decls mem w = mem w).
Proof.
  intros Hfog Ha Hn. pose proof (format_apart s2 s4 MAX_NUM_DECLS decls base n ltac:(done) Hfog Ha) as Hap. split.
  - intros d j Hd Hc Hj. by apply flatshade_color.
  - intros w Hw. apply flatshade_other. intros d Hd Hc (j & Hj & E)%shaded_spec. by apply (Hw d j).
Qed.

(** Three vertices of a position and two colours. *)
Lemma flatshade_polygon_colors_witness :
  let decls := (analyze_vertex_format (-1) 0x0C40 true (Some MAX_NUM_DECLS)).2 in
  let mem := flatshade_polygon 100 3 decls (fun w => w) in
  length decls = 3%nat /\ mem 109 = 104 /\
  forall w, (forall d j, d ∈ decls -> is_color d -> 1 <= j < 3 -> w <> vertex_word 100 d j) -> mem w = w.
Proof.
  destruct (flatshade_polygon_colors (-1) 0x0C40 (analyze_vertex_format (-1) 0x0C40 true (Some MAX_NUM_DECLS)).2 100 3 (fun w => w))
    as [H1 H2]; [reflexivity|reflexivity|lia|].
  split; [reflexivity|]. split; [|exact H2].
  refine (H1 (set_stride 20 (decl SVGA3D_DECLTYPE_D3DCOLOR SVGA3D_DECLUSAGE_COLOR 1 16)) 1 _ _ _); [|reflexivity|lia].
  right; right; left.
Defined.
