(* ===== verification/Kernel.v ===== *)
(** The kernel as the user clients of the accelerator see it, and the services of the
    accelerator that involve it (AC/CEsvga2Accel.cpp): objects that are created and
    released, memory descriptors that are prepared and completed, mappings, memory
    regions of the device, the current mode, and copies that the processor makes.

    The kernel is not code of the driver: where it decides something (a creation that
    fails, the address of a mapping, the code of [prepare], a word that the device has
    written), the decision is the next of an arbitrary sequence of answers.  What it
    does keep is which objects are alive and which are prepared: releasing an object
    that is not alive, or completing a descriptor that is not prepared, is [Wild]. *)

From S2P Require Import Allocator.
From S2P Require Import Prelude IOKit Layout SvgaReg Svga3dReg AccelIds AccelBlit Accel AccelSpec Provider.
From stdpp Require Import gmap gmultiset.

#[local] Open Scope Z_scope.

(** ** State *)

(** The accelerator's view of the current mode, and the address of its mapping of
    video memory. *)
Record mode := mk_mode { fb_offset : Z; fb_size : Z; cur_width : Z; cur_height : Z; cur_pitch : Z; vram_addr : Z }.

(** What clients do to memory and to the registry. *)
Inductive action :=
  | Copied (cs : list copy)
  | Filled (f : fill)
  | SetProperty (value : Z).

Record kernel := mk_kernel {
  k_answers : nat -> Z;
  k_pos : nat;                     (** the next answer *)
  k_fresh : Z;                     (** the next object *)
  k_live : gset Z;                 (** objects *)
  k_prepared : gmultiset Z;        (** descriptors, as often as they are prepared *)
  k_mode : mode;
  k_blitbug : IOReturn;            (** [m_blitbug_result] of the accelerator *)
  k_log : list action;             (** newest first *)
}.

Definition set_pos (n : nat) (k : kernel) : kernel :=
  mk_kernel k.(k_answers) n k.(k_fresh) k.(k_live) k.(k_prepared) k.(k_mode) k.(k_blitbug) k.(k_log).
Definition set_objects (fresh : Z) (live : gset Z) (k : kernel) : kernel :=
  mk_kernel k.(k_answers) k.(k_pos) fresh live k.(k_prepared) k.(k_mode) k.(k_blitbug) k.(k_log).
Definition set_prepared (p : gmultiset Z) (k : kernel) : kernel :=
  mk_kernel k.(k_answers) k.(k_pos) k.(k_fresh) k.(k_live) p k.(k_mode) k.(k_blitbug) k.(k_log).
Definition set_blitbug (r : IOReturn) (k : kernel) : kernel :=
  mk_kernel k.(k_answers) k.(k_pos) k.(k_fresh) k.(k_live) k.(k_prepared) k.(k_mode) r k.(k_log).
Definition set_log (l : list action) (k : kernel) : kernel :=
  mk_kernel k.(k_answers) k.(k_pos) k.(k_fresh) k.(k_live) k.(k_prepared) k.(k_mode) k.(k_blitbug) l.

(** [IOMemoryDescriptor] and [IOMemoryMap]: a reference, and what does not change. *)
Record descriptor := mk_descriptor { md_ref : Z; md_length : Z }.
Record mapping := mk_mapping { mp_ref : Z; mp_task : Z; mp_addr : Z; mp_length : Z }.

(** The codes that the kernel's methods return; 0 is success. *)
Definition code_of (a : Z) : IOReturn :=
  nth (Z.to_nat a)
    [kIOReturnSuccess; kIOReturnNoMemory; kIOReturnBadArgument; kIOReturnNoResources; kIOReturnNotReady;
     kIOReturnUnsupported; kIOReturnNoDevice] kIOReturnError.

(** ** Requests to the kernel *)

Local Abbreviation prog := (prog kernel).

Definition answer : prog Z := state (fun w =>
  let k := w.(w_client) in (k.(k_answers) k.(k_pos), set_client (set_pos (S k.(k_pos)) k) w)).

(** Creation of an object, or null. *)
Definition new_object : prog (option Z) :=
  a ← answer;
  if a =? 0 then mret None
  else
    o ← gets k_fresh;
    modify (fun k => set_objects (k.(k_fresh) + 1) ({[k.(k_fresh)]} ∪ k.(k_live)) k);;
    mret (Some o).

Definition is_live (o : Z) : prog bool := gets (fun k => bool_decide (o ∈ k.(k_live))).
Definition release (o : Z) : prog unit :=
  b ← is_live o;
  if b : bool then modify (fun k => set_objects k.(k_fresh) (k.(k_live) ∖ {[o]}) k) else Wild.

Definition new_descriptor (length : Z) : prog (option descriptor) :=
  o ← new_object; mret (option_map (fun o => mk_descriptor o length) o).

Definition md_prepare (md : descriptor) : prog IOReturn :=
  b ← is_live md.(md_ref);
  if negb b then Wild
  else
    a ← answer;
    let rc := code_of a in
    when (bool_decide (rc = kIOReturnSuccess)) (modify (fun k => set_prepared ({[+ md.(md_ref) +]} ⊎ k.(k_prepared)) k));;
    mret rc.

Definition md_complete (md : descriptor) : prog unit :=
  b ← gets (fun k => bool_decide (md.(md_ref) ∈ k.(k_prepared)));
  if b : bool then
    tells (PagesReturned md.(md_ref));;
    modify (fun k => set_prepared (k.(k_prepared) ∖ {[+ md.(md_ref) +]}) k)
  else Wild.

Definition new_mapping (task length : Z) : prog (option mapping) :=
  o ← new_object;
  a ← answer;
  mret (option_map (fun o => mk_mapping o task a length) o).
Definition createMappingInTask (md : descriptor) (task : Z) : prog (option mapping) :=
  b ← is_live md.(md_ref);
  if negb b then Wild else new_mapping task md.(md_length).

Definition log (a : action) : prog unit := modify (fun k => set_log (a :: k.(k_log)) k).

(** A pointer that is used without a test. *)
Definition deref {A} (p : option A) : prog A := match p with Some a => mret a | None => Wild end.

(** ** Services of the accelerator *)

Definition accel : prog Accel := state (fun w => (w.(w_accel), w)).
Definition HaveScreen : prog bool := a ← accel; mret a.(Accel.bHaveScreenObject).
Definition Have3D : prog bool := a ← accel; mret a.(bHaveSVGA3D).
Definition checkOptionAC (mask : Z) : prog bool := a ← accel; mret (has_bits a.(ce1_options_ac) mask).
Definition getMasterSurfaceID : prog Z := a ← accel; mret a.(m_master_surface_id).
Definition set_master_of (count id : Z) : prog unit := state (fun w => (tt, set_accel (set_master count id w.(w_accel)) w)).

Definition allocGMRID : prog Z := state (fun w =>
  let '(id, i) := AllocGMRID w.(w_accel).(m_ids) in (id, set_accel (set_ids i w.(w_accel)) w)).
Definition freeGMRID (id : Z) : prog unit := state (fun w =>
  (tt, set_accel (set_ids (FreeGMRID id w.(w_accel).(m_ids)) w.(w_accel)) w)).
Definition allocStreamID : prog Z := state (fun w =>
  let '(id, i) := AllocStreamID w.(w_accel).(m_ids) in (id, set_accel (set_ids i w.(w_accel)) w)).
Definition freeStreamID (id : Z) : prog unit := state (fun w =>
  (tt, set_accel (set_ids (FreeStreamID id w.(w_accel).(m_ids)) w.(w_accel)) w)).

(** Giving video memory back, as an observer sees it. *)
Definition returnVRAM (ptr : Z) : prog unit := tells (VramReturned ptr);; VRAMFree ptr.

Definition mapVRAMRangeForTask (task offset_in_vram size : Z) : prog (option mapping) := new_mapping task size.

(** Telling the device of a region: whether the descriptor can be listed is up to the
    kernel, and so is the first page of the list ([AccelGmr] has the list itself). *)
Definition createGMR (gmrId : Z) (md : descriptor) : prog IOReturn :=
  a ← answer;
  let rc := code_of a in
  if bool_decide (rc = kIOReturnSuccess) then
    ppn ← answer;
    tells (PagesGiven md.(md_ref));;
    tells (Region gmrId (u32 ppn));;
    mret kIOReturnSuccess
  else mret rc.

Definition destroyGMR (gmrId : Z) : prog IOReturn :=
  a ← accel;
  if negb a.(m_framebuffer) then mret kIOReturnNoDevice
  else tells (Region gmrId 0);; mret kIOReturnSuccess.

(** [IOAccelSurfaceReadData] *)
Record ScreenInfo := mk_ScreenInfo { si_x : Z; si_y : Z; si_w : Z; si_h : Z; si_client_addr : Z; si_client_row_bytes : Z }.

Definition getScreenInfo : prog (IOReturn * option ScreenInfo) :=
  a ← accel;
  if negb a.(m_framebuffer) then mret (kIOReturnNoDevice, None)
  else
    m ← gets k_mode;
    mret (kIOReturnSuccess,
          Some (mk_ScreenInfo (s32 m.(fb_offset)) (s32 m.(fb_size)) (s32 m.(cur_width)) (s32 m.(cur_height)) m.(vram_addr) m.(cur_pitch))).

(** Copies between the frame buffer and memory; [direction] is to the frame buffer. *)
Definition blitGFB (region : option IOAccelDeviceRegion) (extra : ExtraInfo) (gmrPtr limitFromGmrPtr : Z) (direction : bool)
    : prog IOReturn :=
  a ← accel;
  if negb a.(m_framebuffer) then mret kIOReturnNotReady
  else
    m ← gets k_mode;
    let gfb_base := m.(vram_addr) in
    if (gmrPtr =? 0) && negb (extra.(mem_gmr_id) =? GMR_VRAM) then mret kIOReturnBadArgument
    else
      let gmrPtr := if gmrPtr =? 0 then gfb_base else gmrPtr in
      let gfb_base := u64 (gfb_base + m.(fb_offset)) in
      let gfb_image := mk_SVGAGuestImage (mk_SVGAGuestPtr 0 m.(fb_size)) m.(cur_pitch) in
      let gmr_base := u64 (gmrPtr + extra.(mem_offset_in_gmr)) in
      let gmr_image := mk_SVGAGuestImage (mk_SVGAGuestPtr 0 (u32 (limitFromGmrPtr - extra.(mem_offset_in_gmr)))) (u32 extra.(mem_pitch)) in
      let gmr_delta := dst_delta extra in
      let gfb_delta := src_delta extra in
      let '(rc, cs) :=
        if direction
        then genericBlitCopy gfb_base (Some gfb_image) (Some gfb_delta) gmr_base (Some gmr_image) (Some gmr_delta) region 4
        else genericBlitCopy gmr_base (Some gmr_image) (Some gmr_delta) gfb_base (Some gfb_image) (Some gfb_delta) region 4 in
      log (Copied cs);;
      mret rc.

(** The master surface ([Accel] has these methods on the device). *)
Definition createMasterSurface (width height : Z) : prog bool :=
  sid ← allocSurfaceID;
  a ← accel;
  set_master_of a.(m_master_surface_retain_count) sid;;
  r ← ask (OpCreateSurface sid 0 SVGA3D_X8R8G8B8 width height);
  if bool_decide (r.1 = kIOReturnSuccess) then mret true
  else
    freeSurfaceID sid;;
    set_master_of a.(m_master_surface_retain_count) SVGA_ID_INVALID;;
    mret false.

Definition destroyMasterSurface : prog unit :=
  a ← accel;
  if s32 a.(m_master_surface_id) <? 0 then mret tt
  else
    ask (OpDestroySurface a.(m_master_surface_id));;
    freeSurfaceID a.(m_master_surface_id);;
    a ← accel;
    set_master_of a.(m_master_surface_retain_count) SVGA_ID_INVALID.

Definition retainMasterSurface : prog bool :=
  a ← accel;
  if negb a.(bHaveSVGA3D) then mret false
  else
    let v := a.(m_master_surface_retain_count) in
    set_master_of (s32 (v + 1)) a.(m_master_surface_id);;
    if v =? 0 then
      m ← gets k_mode;
      rc ← createMasterSurface m.(cur_width) m.(cur_height);
      (if rc : bool then mret tt else a ← accel; set_master_of 0 a.(m_master_surface_id));;
      mret rc
    else mret true.

Definition releaseMasterSurface : prog unit :=
  a ← accel;
  if negb a.(bHaveSVGA3D) then mret tt
  else
    let v := a.(m_master_surface_retain_count) in
    set_master_of (s32 (v - 1)) a.(m_master_surface_id);;
    if v <=? 0 then set_master_of 0 a.(m_master_surface_id)
    else if v =? 1 then destroyMasterSurface
    else mret tt.
