(* ===== verification/Transfer.v ===== *)
(** Transfer buffers (AC/VendorTransferBuffer.cpp): memory of a descriptor that the
    device reaches as a region, with the fence of the last transfer. *)

From S2P Require Import Prelude IOKit SvgaReg AccelIds AccelBlit AccelSpec Provider ShaderCache VertexArray Kernel.
From stdpp Require Import gmap gmultiset.

#[local] Open Scope Z_scope.

Local Abbreviation prog := (prog kernel).

(** The fields [pad1], [offset12] and [counter14] belong to textures. *)
Record VendorTransferBuffer := mk_vtb { gart_ptr : Z; md : option descriptor; gmr_id : Z; fence : Z }.

Definition set_gart_ptr (g : Z) (v : VendorTransferBuffer) : VendorTransferBuffer := mk_vtb g v.(md) v.(gmr_id) v.(fence).
Definition set_md (m : option descriptor) (v : VendorTransferBuffer) : VendorTransferBuffer := mk_vtb v.(gart_ptr) m v.(gmr_id) v.(fence).
Definition set_gmr (g : Z) (v : VendorTransferBuffer) : VendorTransferBuffer := mk_vtb v.(gart_ptr) v.(md) g v.(fence).
Definition set_fence (f : Z) (v : VendorTransferBuffer) : VendorTransferBuffer := mk_vtb v.(gart_ptr) v.(md) v.(gmr_id) f.

Definition init (v : VendorTransferBuffer) : VendorTransferBuffer := set_gmr SVGA_ID_INVALID v.

(** [provider] says whether the pointer is not null. *)
Definition prepare (provider : bool) (v : VendorTransferBuffer) : prog (IOReturn * VendorTransferBuffer) :=
  if negb provider then mret (kIOReturnNotReady, v)
  else if isIdValid v.(gmr_id) then mret (kIOReturnSuccess, v)
  else
    match v.(md) with
    | None => mret (kIOReturnNotReady, v)
    | Some d =>
        id ← allocGMRID;
        let v := set_gmr id v in
        if negb (isIdValid id) then mret (kIOReturnNoResources, v)
        else
          rc ← md_prepare d;
          if negb (bool_decide (rc = kIOReturnSuccess)) then
            freeGMRID id;;
            mret (rc, set_gmr SVGA_ID_INVALID v)
          else
            rc ← createGMR id d;
            if negb (bool_decide (rc = kIOReturnSuccess)) then
              md_complete d;;
              freeGMRID id;;
              mret (rc, set_gmr SVGA_ID_INVALID v)
            else mret (kIOReturnSuccess, v)
    end.

Definition sync (provider : bool) (v : VendorTransferBuffer) : prog VendorTransferBuffer :=
  if negb provider || (v.(fence) =? 0) then mret v
  else sync_to v.(fence);; mret (set_fence 0 v).

Definition complete (provider : bool) (v : VendorTransferBuffer) : prog VendorTransferBuffer :=
  v ← sync provider v;
  if negb provider || negb (isIdValid v.(gmr_id)) then mret v
  else
    destroyGMR v.(gmr_id);;
    (match v.(md) with Some d => md_complete d | None => mret tt end);;
    freeGMRID v.(gmr_id);;
    mret (set_gmr SVGA_ID_INVALID v).

Definition discard (v : VendorTransferBuffer) : prog VendorTransferBuffer :=
  match v.(md) with
  | None => mret v
  | Some d => release d.(md_ref);; mret (set_md None v)
  end.
