(* ===== verification/Surface.v ===== *)
(** Window surfaces (AC/UC/CEsvga2Surface.cpp): a user client whose pixels are in a
    block of video memory, in memory of the kernel or in memory of its owner, and which
    puts them on the screen, hands them out under locks, shows them as video, or lets an
    OpenGL context draw them.

    A method is a program that takes the object and returns it.  The methods run between
    [start] and [clientClose], so that the provider is not null; methods that test for
    it do so here, and so does the first use that a closed surface can reach.  Diagnostics are left out, except that the build enables the flush
    of the window server's surface in [touchRenderTarget]. *)

From S2P Require Import Allocator.
From S2P Require Import Prelude IOKit Layout SvgaReg Svga3dReg AccelIds AccelBlit Accel AccelSpec ShaderCache Provider.
From S2P Require Import AccelGmr Kernel Transfer.
From stdpp Require Import gmap gmultiset.

#[local] Open Scope Z_scope.

Local Abbreviation prog := (prog kernel).

(** ** Data *)

(** [m_backing], [m_client_backing], [m_scale], [m_video] and [m_gl].  Of the reserved words
    of a scaling the driver uses three. *)
Record Backing := mk_Backing {
  bk_self : option Z;
  bk_offset : Z;
  bk_size : Z;
  bk_map0 : option mapping;
  bk_map1 : option mapping;
  bk_vtb : VendorTransferBuffer;
}.
Record ClientBacking := mk_ClientBacking {
  cb_addr : Z;
  cb_rowbytes : Z;
  cb_size : Z;
}.
Record Scaling := mk_Scaling {
  sc_buffer : IOAccelBounds;
  sc_source_w : Z;
  sc_source_h : Z;
  sc_reserved0 : Z;
  sc_reserved1 : Z;
  sc_reserved2 : Z;
}.
Record Video := mk_Video {
  vd_stream_id : Z;
  vd_cecl_pixel_format : Z;
  vd_unit : SVGAOverlayUnit;
}.
Record GL := mk_GL {
  gl_original_mode_bits : Z;
  gl_rt_w : Z;
  gl_rt_h : Z;
  gl_attach_count : Z;
  gl_color_sid : Z;
  gl_depth_sid : Z;
  gl_ds_format : Z;
  gl_rt_dirty : Z;
}.

(** The object.  A null pointer is [None], or 0 for a task; [m_provider] says whether
    the pointer is not null. *)
Record Surface := mk_Surface {
  m_owning_task : Z;
  m_provider : bool;
  bHaveID : bool;
  bHaveMasterSurface : bool;
  bVideoMode : bool;
  bDirectBlit : bool;
  bHaveScreenObject : bool;
  bSkipWriteLockOnce : bool;
  bGLMode : bool;
  bIsLocked : Z;
  m_wID : Z;
  m_surfaceFormat : Z;
  m_bytes_per_pixel : Z;
  m_pixel_format : Z;
  m_backing : Backing;
  m_client_backing : ClientBacking;
  m_last_shape : option Z;
  m_last_region : option IOAccelDeviceRegion;
  m_framebufferIndex : Z;
  m_scale : Scaling;
  m_screenInfo : ScreenInfo;
  m_video : Video;
  m_gl : GL;
}.

(** Assignments to fields. *)
Definition set_bk_self (x : option Z) (b : Backing) : Backing :=
  mk_Backing x b.(bk_offset) b.(bk_size) b.(bk_map0) b.(bk_map1) b.(bk_vtb).
Definition set_bk_offset (x : Z) (b : Backing) : Backing :=
  mk_Backing b.(bk_self) x b.(bk_size) b.(bk_map0) b.(bk_map1) b.(bk_vtb).
Definition set_bk_size (x : Z) (b : Backing) : Backing :=
  mk_Backing b.(bk_self) b.(bk_offset) x b.(bk_map0) b.(bk_map1) b.(bk_vtb).
Definition set_bk_map0 (x : option mapping) (b : Backing) : Backing :=
  mk_Backing b.(bk_self) b.(bk_offset) b.(bk_size) x b.(bk_map1) b.(bk_vtb).
Definition set_bk_map1 (x : option mapping) (b : Backing) : Backing :=
  mk_Backing b.(bk_self) b.(bk_offset) b.(bk_size) b.(bk_map0) x b.(bk_vtb).
Definition set_bk_vtb (x : VendorTransferBuffer) (b : Backing) : Backing :=
  mk_Backing b.(bk_self) b.(bk_offset) b.(bk_size) b.(bk_map0) b.(bk_map1) x.
Definition set_sc_reserved0 (x : Z) (c : Scaling) : Scaling :=
  mk_Scaling c.(sc_buffer) c.(sc_source_w) c.(sc_source_h) x c.(sc_reserved1) c.(sc_reserved2).
Definition set_sc_reserved1 (x : Z) (c : Scaling) : Scaling :=
  mk_Scaling c.(sc_buffer) c.(sc_source_w) c.(sc_source_h) c.(sc_reserved0) x c.(sc_reserved2).
Definition set_sc_reserved2 (x : Z) (c : Scaling) : Scaling :=
  mk_Scaling c.(sc_buffer) c.(sc_source_w) c.(sc_source_h) c.(sc_reserved0) c.(sc_reserved1) x.
Definition set_vd_stream_id (x : Z) (v : Video) : Video :=
  mk_Video x v.(vd_cecl_pixel_format) v.(vd_unit).
Definition set_vd_cecl_pixel_format (x : Z) (v : Video) : Video :=
  mk_Video v.(vd_stream_id) x v.(vd_unit).
Definition set_vd_unit (x : SVGAOverlayUnit) (v : Video) : Video :=
  mk_Video v.(vd_stream_id) v.(vd_cecl_pixel_format) x.
Definition set_gl_original_mode_bits (x : Z) (g : GL) : GL :=
  mk_GL x g.(gl_rt_w) g.(gl_rt_h) g.(gl_attach_count) g.(gl_color_sid) g.(gl_depth_sid) g.(gl_ds_format)
    g.(gl_rt_dirty).
Definition set_gl_rt_w (x : Z) (g : GL) : GL :=
  mk_GL g.(gl_original_mode_bits) x g.(gl_rt_h) g.(gl_attach_count) g.(gl_color_sid) g.(gl_depth_sid) g.(gl_ds_format)
    g.(gl_rt_dirty).
Definition set_gl_rt_h (x : Z) (g : GL) : GL :=
  mk_GL g.(gl_original_mode_bits) g.(gl_rt_w) x g.(gl_attach_count) g.(gl_color_sid) g.(gl_depth_sid) g.(gl_ds_format)
    g.(gl_rt_dirty).
Definition set_gl_attach_count (x : Z) (g : GL) : GL :=
  mk_GL g.(gl_original_mode_bits) g.(gl_rt_w) g.(gl_rt_h) x g.(gl_color_sid) g.(gl_depth_sid) g.(gl_ds_format)
    g.(gl_rt_dirty).
Definition set_gl_color_sid (x : Z) (g : GL) : GL :=
  mk_GL g.(gl_original_mode_bits) g.(gl_rt_w) g.(gl_rt_h) g.(gl_attach_count) x g.(gl_depth_sid) g.(gl_ds_format)
    g.(gl_rt_dirty).
Definition set_gl_depth_sid (x : Z) (g : GL) : GL :=
  mk_GL g.(gl_original_mode_bits) g.(gl_rt_w) g.(gl_rt_h) g.(gl_attach_count) g.(gl_color_sid) x g.(gl_ds_format)
    g.(gl_rt_dirty).
Definition set_gl_ds_format (x : Z) (g : GL) : GL :=
  mk_GL g.(gl_original_mode_bits) g.(gl_rt_w) g.(gl_rt_h) g.(gl_attach_count) g.(gl_color_sid) g.(gl_depth_sid) x
    g.(gl_rt_dirty).
Definition set_gl_rt_dirty (x : Z) (g : GL) : GL :=
  mk_GL g.(gl_original_mode_bits) g.(gl_rt_w) g.(gl_rt_h) g.(gl_attach_count) g.(gl_color_sid) g.(gl_depth_sid)
    g.(gl_ds_format) x.
Definition set_m_owning_task (x : Z) (s : Surface) : Surface :=
  mk_Surface x s.(m_provider) s.(bHaveID) s.(bHaveMasterSurface) s.(bVideoMode) s.(bDirectBlit) s.(bHaveScreenObject)
    s.(bSkipWriteLockOnce) s.(bGLMode) s.(bIsLocked) s.(m_wID) s.(m_surfaceFormat) s.(m_bytes_per_pixel)
    s.(m_pixel_format) s.(m_backing) s.(m_client_backing) s.(m_last_shape) s.(m_last_region) s.(m_framebufferIndex)
    s.(m_scale) s.(m_screenInfo) s.(m_video) s.(m_gl).
Definition set_m_provider (x : bool) (s : Surface) : Surface :=
  mk_Surface s.(m_owning_task) x s.(bHaveID) s.(bHaveMasterSurface) s.(bVideoMode) s.(bDirectBlit)
    s.(bHaveScreenObject) s.(bSkipWriteLockOnce) s.(bGLMode) s.(bIsLocked) s.(m_wID) s.(m_surfaceFormat)
    s.(m_bytes_per_pixel) s.(m_pixel_format) s.(m_backing) s.(m_client_backing) s.(m_last_shape) s.(m_last_region)
    s.(m_framebufferIndex) s.(m_scale) s.(m_screenInfo) s.(m_video) s.(m_gl).
Definition set_bHaveID (x : bool) (s : Surface) : Surface :=
  mk_Surface s.(m_owning_task) s.(m_provider) x s.(bHaveMasterSurface) s.(bVideoMode) s.(bDirectBlit)
    s.(bHaveScreenObject) s.(bSkipWriteLockOnce) s.(bGLMode) s.(bIsLocked) s.(m_wID) s.(m_surfaceFormat)
    s.(m_bytes_per_pixel) s.(m_pixel_format) s.(m_backing) s.(m_client_backing) s.(m_last_shape) s.(m_last_region)
    s.(m_framebufferIndex) s.(m_scale) s.(m_screenInfo) s.(m_video) s.(m_gl).
Definition set_bHaveMasterSurface (x : bool) (s : Surface) : Surface :=
  mk_Surface s.(m_owning_task) s.(m_provider) s.(bHaveID) x s.(bVideoMode) s.(bDirectBlit) s.(bHaveScreenObject)
    s.(bSkipWriteLockOnce) s.(bGLMode) s.(bIsLocked) s.(m_wID) s.(m_surfaceFormat) s.(m_bytes_per_pixel)
    s.(m_pixel_format) s.(m_backing) s.(m_client_backing) s.(m_last_shape) s.(m_last_region) s.(m_framebufferIndex)
    s.(m_scale) s.(m_screenInfo) s.(m_video) s.(m_gl).
Definition set_bVideoMode (x : bool) (s : Surface) : Surface :=
  mk_Surface s.(m_owning_task) s.(m_provider) s.(bHaveID) s.(bHaveMasterSurface) x s.(bDirectBlit)
    s.(bHaveScreenObject) s.(bSkipWriteLockOnce) s.(bGLMode) s.(bIsLocked) s.(m_wID) s.(m_surfaceFormat)
    s.(m_bytes_per_pixel) s.(m_pixel_format) s.(m_backing) s.(m_client_backing) s.(m_last_shape) s.(m_last_region)
    s.(m_framebufferIndex) s.(m_scale) s.(m_screenInfo) s.(m_video) s.(m_gl).
Definition set_bDirectBlit (x : bool) (s : Surface) : Surface :=
  mk_Surface s.(m_owning_task) s.(m_provider) s.(bHaveID) s.(bHaveMasterSurface) s.(bVideoMode) x
    s.(bHaveScreenObject) s.(bSkipWriteLockOnce) s.(bGLMode) s.(bIsLocked) s.(m_wID) s.(m_surfaceFormat)
    s.(m_bytes_per_pixel) s.(m_pixel_format) s.(m_backing) s.(m_client_backing) s.(m_last_shape) s.(m_last_region)
    s.(m_framebufferIndex) s.(m_scale) s.(m_screenInfo) s.(m_video) s.(m_gl).
Definition set_bHaveScreenObject (x : bool) (s : Surface) : Surface :=
  mk_Surface s.(m_owning_task) s.(m_provider) s.(bHaveID) s.(bHaveMasterSurface) s.(bVideoMode) s.(bDirectBlit) x
    s.(bSkipWriteLockOnce) s.(bGLMode) s.(bIsLocked) s.(m_wID) s.(m_surfaceFormat) s.(m_bytes_per_pixel)
    s.(m_pixel_format) s.(m_backing) s.(m_client_backing) s.(m_last_shape) s.(m_last_region) s.(m_framebufferIndex)
    s.(m_scale) s.(m_screenInfo) s.(m_video) s.(m_gl).
Definition set_bSkipWriteLockOnce (x : bool) (s : Surface) : Surface :=
  mk_Surface s.(m_owning_task) s.(m_provider) s.(bHaveID) s.(bHaveMasterSurface) s.(bVideoMode) s.(bDirectBlit)
    s.(bHaveScreenObject) x s.(bGLMode) s.(bIsLocked) s.(m_wID) s.(m_surfaceFormat) s.(m_bytes_per_pixel)
    s.(m_pixel_format) s.(m_backing) s.(m_client_backing) s.(m_last_shape) s.(m_last_region) s.(m_framebufferIndex)
    s.(m_scale) s.(m_screenInfo) s.(m_video) s.(m_gl).
Definition set_bGLMode (x : bool) (s : Surface) : Surface :=
  mk_Surface s.(m_owning_task) s.(m_provider) s.(bHaveID) s.(bHaveMasterSurface) s.(bVideoMode) s.(bDirectBlit)
    s.(bHaveScreenObject) s.(bSkipWriteLockOnce) x s.(bIsLocked) s.(m_wID) s.(m_surfaceFormat) s.(m_bytes_per_pixel)
    s.(m_pixel_format) s.(m_backing) s.(m_client_backing) s.(m_last_shape) s.(m_last_region) s.(m_framebufferIndex)
    s.(m_scale) s.(m_screenInfo) s.(m_video) s.(m_gl).
Definition set_bIsLocked (x : Z) (s : Surface) : Surface :=
  mk_Surface s.(m_owning_task) s.(m_provider) s.(bHaveID) s.(bHaveMasterSurface) s.(bVideoMode) s.(bDirectBlit)
    s.(bHaveScreenObject) s.(bSkipWriteLockOnce) s.(bGLMode) x s.(m_wID) s.(m_surfaceFormat) s.(m_bytes_per_pixel)
    s.(m_pixel_format) s.(m_backing) s.(m_client_backing) s.(m_last_shape) s.(m_last_region) s.(m_framebufferIndex)
    s.(m_scale) s.(m_screenInfo) s.(m_video) s.(m_gl).
Definition set_m_wID (x : Z) (s : Surface) : Surface :=
  mk_Surface s.(m_owning_task) s.(m_provider) s.(bHaveID) s.(bHaveMasterSurface) s.(bVideoMode) s.(bDirectBlit)
    s.(bHaveScreenObject) s.(bSkipWriteLockOnce) s.(bGLMode) s.(bIsLocked) x s.(m_surfaceFormat) s.(m_bytes_per_pixel)
    s.(m_pixel_format) s.(m_backing) s.(m_client_backing) s.(m_last_shape) s.(m_last_region) s.(m_framebufferIndex)
    s.(m_scale) s.(m_screenInfo) s.(m_video) s.(m_gl).
Definition set_m_surfaceFormat (x : Z) (s : Surface) : Surface :=
  mk_Surface s.(m_owning_task) s.(m_provider) s.(bHaveID) s.(bHaveMasterSurface) s.(bVideoMode) s.(bDirectBlit)
    s.(bHaveScreenObject) s.(bSkipWriteLockOnce) s.(bGLMode) s.(bIsLocked) s.(m_wID) x s.(m_bytes_per_pixel)
    s.(m_pixel_format) s.(m_backing) s.(m_client_backing) s.(m_last_shape) s.(m_last_region) s.(m_framebufferIndex)
    s.(m_scale) s.(m_screenInfo) s.(m_video) s.(m_gl).
Definition set_m_bytes_per_pixel (x : Z) (s : Surface) : Surface :=
  mk_Surface s.(m_owning_task) s.(m_provider) s.(bHaveID) s.(bHaveMasterSurface) s.(bVideoMode) s.(bDirectBlit)
    s.(bHaveScreenObject) s.(bSkipWriteLockOnce) s.(bGLMode) s.(bIsLocked) s.(m_wID) s.(m_surfaceFormat) x
    s.(m_pixel_format) s.(m_backing) s.(m_client_backing) s.(m_last_shape) s.(m_last_region) s.(m_framebufferIndex)
    s.(m_scale) s.(m_screenInfo) s.(m_video) s.(m_gl).
Definition set_m_pixel_format (x : Z) (s : Surface) : Surface :=
  mk_Surface s.(m_owning_task) s.(m_provider) s.(bHaveID) s.(bHaveMasterSurface) s.(bVideoMode) s.(bDirectBlit)
    s.(bHaveScreenObject) s.(bSkipWriteLockOnce) s.(bGLMode) s.(bIsLocked) s.(m_wID) s.(m_surfaceFormat)
    s.(m_bytes_per_pixel) x s.(m_backing) s.(m_client_backing) s.(m_last_shape) s.(m_last_region)
    s.(m_framebufferIndex) s.(m_scale) s.(m_screenInfo) s.(m_video) s.(m_gl).
Definition set_m_backing (x : Backing) (s : Surface) : Surface :=
  mk_Surface s.(m_owning_task) s.(m_provider) s.(bHaveID) s.(bHaveMasterSurface) s.(bVideoMode) s.(bDirectBlit)
    s.(bHaveScreenObject) s.(bSkipWriteLockOnce) s.(bGLMode) s.(bIsLocked) s.(m_wID) s.(m_surfaceFormat)
    s.(m_bytes_per_pixel) s.(m_pixel_format) x s.(m_client_backing) s.(m_last_shape) s.(m_last_region)
    s.(m_framebufferIndex) s.(m_scale) s.(m_screenInfo) s.(m_video) s.(m_gl).
Definition set_m_client_backing (x : ClientBacking) (s : Surface) : Surface :=
  mk_Surface s.(m_owning_task) s.(m_provider) s.(bHaveID) s.(bHaveMasterSurface) s.(bVideoMode) s.(bDirectBlit)
    s.(bHaveScreenObject) s.(bSkipWriteLockOnce) s.(bGLMode) s.(bIsLocked) s.(m_wID) s.(m_surfaceFormat)
    s.(m_bytes_per_pixel) s.(m_pixel_format) s.(m_backing) x s.(m_last_shape) s.(m_last_region) s.(m_framebufferIndex)
    s.(m_scale) s.(m_screenInfo) s.(m_video) s.(m_gl).
Definition set_m_last_shape (x : option Z) (s : Surface) : Surface :=
  mk_Surface s.(m_owning_task) s.(m_provider) s.(bHaveID) s.(bHaveMasterSurface) s.(bVideoMode) s.(bDirectBlit)
    s.(bHaveScreenObject) s.(bSkipWriteLockOnce) s.(bGLMode) s.(bIsLocked) s.(m_wID) s.(m_surfaceFormat)
    s.(m_bytes_per_pixel) s.(m_pixel_format) s.(m_backing) s.(m_client_backing) x s.(m_last_region)
    s.(m_framebufferIndex) s.(m_scale) s.(m_screenInfo) s.(m_video) s.(m_gl).
Definition set_m_last_region (x : option IOAccelDeviceRegion) (s : Surface) : Surface :=
  mk_Surface s.(m_owning_task) s.(m_provider) s.(bHaveID) s.(bHaveMasterSurface) s.(bVideoMode) s.(bDirectBlit)
    s.(bHaveScreenObject) s.(bSkipWriteLockOnce) s.(bGLMode) s.(bIsLocked) s.(m_wID) s.(m_surfaceFormat)
    s.(m_bytes_per_pixel) s.(m_pixel_format) s.(m_backing) s.(m_client_backing) s.(m_last_shape) x
    s.(m_framebufferIndex) s.(m_scale) s.(m_screenInfo) s.(m_video) s.(m_gl).
Definition set_m_framebufferIndex (x : Z) (s : Surface) : Surface :=
  mk_Surface s.(m_owning_task) s.(m_provider) s.(bHaveID) s.(bHaveMasterSurface) s.(bVideoMode) s.(bDirectBlit)
    s.(bHaveScreenObject) s.(bSkipWriteLockOnce) s.(bGLMode) s.(bIsLocked) s.(m_wID) s.(m_surfaceFormat)
    s.(m_bytes_per_pixel) s.(m_pixel_format) s.(m_backing) s.(m_client_backing) s.(m_last_shape) s.(m_last_region) x
    s.(m_scale) s.(m_screenInfo) s.(m_video) s.(m_gl).
Definition set_m_scale (x : Scaling) (s : Surface) : Surface :=
  mk_Surface s.(m_owning_task) s.(m_provider) s.(bHaveID) s.(bHaveMasterSurface) s.(bVideoMode) s.(bDirectBlit)
    s.(bHaveScreenObject) s.(bSkipWriteLockOnce) s.(bGLMode) s.(bIsLocked) s.(m_wID) s.(m_surfaceFormat)
    s.(m_bytes_per_pixel) s.(m_pixel_format) s.(m_backing) s.(m_client_backing) s.(m_last_shape) s.(m_last_region)
    s.(m_framebufferIndex) x s.(m_screenInfo) s.(m_video) s.(m_gl).
Definition set_m_screenInfo (x : ScreenInfo) (s : Surface) : Surface :=
  mk_Surface s.(m_owning_task) s.(m_provider) s.(bHaveID) s.(bHaveMasterSurface) s.(bVideoMode) s.(bDirectBlit)
    s.(bHaveScreenObject) s.(bSkipWriteLockOnce) s.(bGLMode) s.(bIsLocked) s.(m_wID) s.(m_surfaceFormat)
    s.(m_bytes_per_pixel) s.(m_pixel_format) s.(m_backing) s.(m_client_backing) s.(m_last_shape) s.(m_last_region)
    s.(m_framebufferIndex) s.(m_scale) x s.(m_video) s.(m_gl).
Definition set_m_video (x : Video) (s : Surface) : Surface :=
  mk_Surface s.(m_owning_task) s.(m_provider) s.(bHaveID) s.(bHaveMasterSurface) s.(bVideoMode) s.(bDirectBlit)
    s.(bHaveScreenObject) s.(bSkipWriteLockOnce) s.(bGLMode) s.(bIsLocked) s.(m_wID) s.(m_surfaceFormat)
    s.(m_bytes_per_pixel) s.(m_pixel_format) s.(m_backing) s.(m_client_backing) s.(m_last_shape) s.(m_last_region)
    s.(m_framebufferIndex) s.(m_scale) s.(m_screenInfo) x s.(m_gl).
Definition set_m_gl (x : GL) (s : Surface) : Surface :=
  mk_Surface s.(m_owning_task) s.(m_provider) s.(bHaveID) s.(bHaveMasterSurface) s.(bVideoMode) s.(bDirectBlit)
    s.(bHaveScreenObject) s.(bSkipWriteLockOnce) s.(bGLMode) s.(bIsLocked) s.(m_wID) s.(m_surfaceFormat)
    s.(m_bytes_per_pixel) s.(m_pixel_format) s.(m_backing) s.(m_client_backing) s.(m_last_shape) s.(m_last_region)
    s.(m_framebufferIndex) s.(m_scale) s.(m_screenInfo) s.(m_video) x.

(** ** Constants *)

Definition ceSurfaceLockRead : Z := 0.
Definition ceSurfaceLockWrite : Z := 1.
Definition ceSurfaceLockContext : Z := 2.

Definition kIOAccelSurfaceModeColorDepth1555 : Z := 0x3.
Definition kIOAccelSurfaceModeColorDepth8888 : Z := 0x4.
Definition kIOAccelSurfaceModeColorDepthYUV : Z := 0x6.
Definition kIOAccelSurfaceModeColorDepthYUV2 : Z := 0x9.
Definition kIOAccelSurfaceModeColorDepthBGRA32 : Z := 0xA.
Definition kIOAccelSurfaceModeColorDepthBits : Z := 0xF.
Definition kIOAccelSurfaceModeWindowedBit : Z := 0x20.
Definition kIOAccelSurfaceShapeNonBlockingBit : Z := 0x1.
Definition kIOAccelSurfaceShapeIdentityScaleBit : Z := 0x4.
Definition kIOAccelSurfaceShapeFrameSyncBit : Z := 0x8.
Definition kIOBlitFixedSource : Z := 0x2.
Definition kIO32BGRAPixelFormat : Z := 0x42475241.    (* 'BGRA' *)
Definition kIOYUVSPixelFormat : Z := 0x79757673.      (* 'yuvs' *)
Definition kIO2vuyPixelFormat : Z := 0x32767579.      (* '2vuy' *)
Definition CECL_FOURCC_YUY2 : Z := 0x32595559.
Definition CECL_FOURCC_UYVY : Z := 0x59565955.
Definition CE1_OPTION_AC_NO_YUV : Z := 0x0020.
Definition CE1_OPTION_AC_DIRECT_BLIT : Z := 0x0040.
Definition CE1_OPTION_AC_PACKED_BACKING : Z := 0x0200.
Definition CGLCMB_DepthMode0 : Z := 0x40.
Definition CGLCMB_StencilMode0 : Z := 0x80.
Definition CGLCMB_DepthMode16 : Z := 0x01000000.
Definition CGLCMB_DepthMode32 : Z := 0x02000000.
(** Tasks are numbers; this is the kernel's. *)
Definition kernel_task : Z := -1.

(** ** Functions *)

(** Bit [n] of a byte, counted from its top; the results say whether it was set, and
    whether it was clear. *)
Definition OSTestAndSet (n x : Z) : bool * Z :=
  let m := Z.shiftr 0x80 n in (has_bits x m, Z.lor x m).
Definition OSTestAndClear (n x : Z) : bool * Z :=
  let m := Z.shiftr 0x80 n in (negb (has_bits x m), Z.ldiff x m).

Definition round_up_to_power2 (s power2 : Z) : Z := Z.land (u32 (s + power2 - 1)) (u32 (- power2)).
Definition page_residue (addr : Z) : Z := Z.land addr (PAGE_SIZE - 1).

Definition isRegionEmpty (rgn : option IOAccelDeviceRegion) : bool :=
  match rgn with
  | None => false
  | Some rgn =>
      negb (rgn.(rgn_num_rects) =? 0) &&
      match rgn.(rgn_rect) with r :: _ => (r.(b_w) <=? 0) || (r.(b_h) <=? 0) | [] => false end
  end.

Definition select_ds_format (context_mode_bits : Z) : Z :=
  if has_bits context_mode_bits CGLCMB_StencilMode0 then
    if has_bits context_mode_bits CGLCMB_DepthMode32 then SVGA3D_Z_D24S8 else SVGA3D_Z_D15S1
  else if has_bits context_mode_bits CGLCMB_DepthMode32 then
    if has_bits context_mode_bits CGLCMB_DepthMode16 then SVGA3D_Z_D24X8 else SVGA3D_Z_D32
  else if has_bits context_mode_bits (Z.lor CGLCMB_DepthMode16 CGLCMB_DepthMode0) then SVGA3D_Z_D16
  else SVGA3D_FORMAT_INVALID.

Implicit Types (s : Surface).

Definition haveFrontBuffer s : bool := s.(bHaveScreenObject) || s.(bHaveMasterSurface).

Definition is_some {A} (o : option A) : bool := match o with Some _ => true | None => false end.
Definition isBackingValid s : bool := is_some s.(m_backing).(bk_self) || is_some s.(m_backing).(bk_vtb).(md).

Definition classifyBacking s : Z :=
  if is_some s.(m_backing).(bk_self) then 1
  else if is_some s.(m_backing).(bk_vtb).(md) then
    if negb (s.(m_backing).(bk_vtb).(gart_ptr) =? 0) then 2 else 1
  else 0.

Definition hasSourceGrown s : bool := s.(m_backing).(bk_size) <? s.(m_scale).(sc_reserved0).
Definition isSourceValid s : bool := (0 <? s.(m_scale).(sc_source_w)) && (0 <? s.(m_scale).(sc_source_h)).
Definition isClientBackingValid s : bool := negb (s.(m_client_backing).(cb_addr) =? 0).

(** With the region that the caller has tested for. *)
Definition isIdentityScale s (rgn : IOAccelDeviceRegion) : bool :=
  (s.(m_scale).(sc_buffer).(b_w) =? rgn.(rgn_bounds).(b_w)) && (s.(m_scale).(sc_buffer).(b_h) =? rgn.(rgn_bounds).(b_h)).

Definition InitGL s : Surface :=
  set_m_gl (set_gl_depth_sid SVGA_ID_INVALID (set_gl_color_sid SVGA_ID_INVALID s.(m_gl))) s.

Definition Init s : Surface :=
  let s := set_m_backing (set_bk_vtb (init s.(m_backing).(bk_vtb)) s.(m_backing)) s in
  let s := set_m_video (set_vd_stream_id SVGA_ID_INVALID s.(m_video)) s in
  InitGL s.

Definition clearLastRegion s : Surface :=
  if is_some s.(m_last_region) then set_m_framebufferIndex 0 (set_m_last_region None s) else s.

(** [IOAccelSurfaceInformation]: the entries that are written; the others are zero. *)
Record SurfaceInformation := mk_SurfaceInformation {
  i_address : Z; i_width : Z; i_height : Z; i_rowBytes : Z; i_pixelFormat : Z; i_colorTemperature : Z }.

Definition calculateSurfaceInformation s : prog SurfaceInformation :=
  address ← (if isClientBackingValid s then mret s.(m_client_backing).(cb_addr)
             else m ← deref s.(m_backing).(bk_map0); mret m.(mp_addr));
  mret (mk_SurfaceInformation (u64 (address + s.(m_scale).(sc_reserved2))) (u32 s.(m_scale).(sc_buffer).(b_w))
          (u32 s.(m_scale).(sc_buffer).(b_h)) s.(m_scale).(sc_reserved1) s.(m_pixel_format) 0x1CCCC).

Definition calculateScaleParameters s (bFromGFB : bool) : Surface :=
  let c := s.(m_scale) in
  let c :=
    if bFromGFB then set_sc_reserved1 s.(m_screenInfo).(si_client_row_bytes) (set_sc_reserved0 (u32 s.(m_screenInfo).(si_y)) c)
    else if isClientBackingValid s then
      set_sc_reserved1 (u32 s.(m_client_backing).(cb_rowbytes))
        (set_sc_reserved0 (u32 (s.(m_client_backing).(cb_size) + page_residue s.(m_client_backing).(cb_addr))) c)
    else
      let c := set_sc_reserved1 (u32 (u32 c.(sc_source_w) * s.(m_bytes_per_pixel))) c in
      set_sc_reserved0 (u32 (u32 c.(sc_source_h) * c.(sc_reserved1))) c in
  let c := set_sc_reserved0 (round_up_to_power2 c.(sc_reserved0) PAGE_SIZE) c in
  let c := set_sc_reserved2 (u32 (c.(sc_buffer).(b_y) * c.(sc_reserved1) + c.(sc_buffer).(b_x) * s.(m_bytes_per_pixel))) c in
  set_m_scale c s.

(** The body of the loop over rectangles. *)
Definition clipRectToBuffer s (deltaX deltaY : Z) (rect : IOAccelBounds) : IOAccelBounds :=
  let x := s32 (rect.(b_x) + deltaX) in
  let y := s32 (rect.(b_y) + deltaY) in
  let '(rect, x) := if x <? 0 then (mk_bounds (s16 (s32 (- deltaX))) rect.(b_y) (s16 (s32 (rect.(b_w) + x))) rect.(b_h), 0) else (rect, x) in
  let '(rect, y) := if y <? 0 then (mk_bounds rect.(b_x) (s16 (s32 (- deltaY))) rect.(b_w) (s16 (s32 (rect.(b_h) + y))), 0) else (rect, y) in
  let w := s.(m_scale).(sc_buffer).(b_w) in
  let h := s.(m_scale).(sc_buffer).(b_h) in
  let rect := if w <? s32 (x + rect.(b_w)) then mk_bounds rect.(b_x) rect.(b_y) (s16 (s32 (w - x))) rect.(b_h) else rect in
  let rect := if h <? s32 (y + rect.(b_h)) then mk_bounds rect.(b_x) rect.(b_y) rect.(b_w) (s16 (s32 (h - y))) else rect in
  let rect := if rect.(b_w) <? 0 then mk_bounds rect.(b_x) rect.(b_y) 0 rect.(b_h) else rect in
  if rect.(b_h) <? 0 then mk_bounds rect.(b_x) rect.(b_y) rect.(b_w) 0 else rect.

Definition clipRegionToBuffer s (region : IOAccelDeviceRegion) (deltaX deltaY : Z) : IOAccelDeviceRegion :=
  let n := Z.to_nat region.(rgn_num_rects) in
  mk_region region.(rgn_num_rects) region.(rgn_bounds)
    ((clipRectToBuffer s deltaX deltaY <$> take n region.(rgn_rect)) ++ drop n region.(rgn_rect)).

(** ** Backing *)

Definition on_backing (f : Backing -> Backing) s : Surface := set_m_backing (f s.(m_backing)) s.
Definition on_vtb (f : VendorTransferBuffer -> VendorTransferBuffer) s : Surface :=
  on_backing (fun b => set_bk_vtb (f b.(bk_vtb)) b) s.

Definition get_map (index : Z) (b : Backing) : option mapping := if index =? 0 then b.(bk_map0) else b.(bk_map1).
Definition put_map (index : Z) (m : option mapping) (b : Backing) : Backing :=
  if index =? 0 then set_bk_map0 m b else set_bk_map1 m b.

Definition release_map (m : option mapping) : prog unit :=
  match m with Some m => release m.(mp_ref) | None => mret tt end.

Definition releaseBackingMap (index : Z) s : prog Surface :=
  if 2 <=? index then mret s
  else
    match get_map index s.(m_backing) with
    | Some m => release m.(mp_ref);; mret (on_backing (put_map index None) s)
    | None => mret s
    end.

(** The backing as [bzero] and [init] leave it. *)
Definition no_backing : Backing := mk_Backing None 0 0 None None (init (mk_vtb 0 None 0 0)).

Definition releaseBacking s : prog Surface :=
  let b := s.(m_backing) in
  release_map b.(bk_map0);;
  release_map b.(bk_map1);;
  v ← complete s.(m_provider) b.(bk_vtb);
  v ← discard v;
  (match b.(bk_self) with Some p => when s.(m_provider) (returnVRAM p) | None => mret tt end);;
  mret (set_m_backing no_backing s).

(** Preparing the descriptor of a new backing, for the client's memory or the kernel's. *)
Definition adopt_descriptor (client : Z) (d : descriptor) s : prog (bool * Surface) :=
  let s := on_vtb (set_md (Some d)) s in
  r ← prepare s.(m_provider) s.(m_backing).(bk_vtb);
  let '(rc, v) := r in
  let s := on_vtb (fun _ => v) s in
  if negb (bool_decide (rc = kIOReturnSuccess)) then
    let s := on_vtb (set_md None) s in
    release d.(md_ref);;
    mret (false, s)
  else mret (true, on_vtb (fun v => set_fence 0 (set_gart_ptr client v)) s).

Definition wrapClientBacking s : prog (bool * Surface) :=
  if (classifyBacking s =? 2) && (s.(m_backing).(bk_vtb).(gart_ptr) =? 1) then mret (true, s)
  else
    s ← (if classifyBacking s =? 0 then mret s else releaseBacking s);
    let s := on_backing (set_bk_offset (page_residue s.(m_client_backing).(cb_addr))) s in
    let s := on_backing (set_bk_size s.(m_scale).(sc_reserved0)) s in
    d ← new_descriptor s.(m_backing).(bk_size);
    match d with
    | None => mret (false, s)
    | Some d => adopt_descriptor 1 d s
    end.

Definition allocGMRBacking s : prog (bool * Surface) :=
  d ← new_descriptor s.(m_backing).(bk_size);
  match d with
  | None => mret (false, s)
  | Some d => adopt_descriptor 0 d (on_backing (set_bk_offset 0) s)
  end.

(** [static_cast<uint8_t*>(m_provider->VRAMRealloc(m_backing.self, m_backing.size))]: a
    block that grows may be given back by the reallocation. *)
Definition reallocVRAM (p : option Z) (bytes : Z) : prog (option Z) :=
  (match p with Some p => tells (VramReturned p) | None => mret tt end);;
  VRAMRealloc (default 0 p) bytes.

(** [m_provider->]: the pointer is null after [clientClose]; on a surface that was closed
    but is still referred to, this is the first use of it. *)
Definition provider s : prog unit := if s.(m_provider) then mret tt else Wild.

(** The second part of [allocBacking]. *)
Definition alloc_new_backing s : prog (bool * Surface) :=
  let s := on_backing (set_bk_size s.(m_scale).(sc_reserved0)) s in
  provider s;;
  p ← reallocVRAM s.(m_backing).(bk_self) s.(m_backing).(bk_size);
  let s := on_backing (set_bk_self p) s in
  match p with
  | None => allocGMRBacking s
  | Some p =>
      let s := on_backing (set_bk_offset (u64 (p - s.(m_screenInfo).(si_client_addr)))) s in
      mret (true, on_vtb (fun v => set_fence 0 (set_gmr GMR_VRAM v)) s)
  end.

Definition allocBacking s : prog (bool * Surface) :=
  if isClientBackingValid s then wrapClientBacking s
  else if (classifyBacking s =? 1) && negb (hasSourceGrown s) then mret (true, s)
  else
    s ← (if classifyBacking s =? 1 then
           s ← releaseBackingMap 0 s;
           s ← releaseBackingMap 1 s;
           v ← complete s.(m_provider) s.(m_backing).(bk_vtb);
           v ← discard v;
           mret (on_vtb (fun _ => v) s)
         else if classifyBacking s =? 2 then releaseBacking s
         else mret s);
    alloc_new_backing s.

Definition mapBacking (for_task index : Z) s : prog (bool * Surface) :=
  if 2 <=? index then mret (false, s)
  else if is_some (get_map index s.(m_backing)) then mret (true, s)
  else
    m ← (if is_some s.(m_backing).(bk_self) then mapVRAMRangeForTask for_task s.(m_backing).(bk_offset) s.(m_backing).(bk_size)
         else match s.(m_backing).(bk_vtb).(md) with
              | Some d => createMappingInTask d for_task
              | None => mret None
              end);
    mret (is_some m, on_backing (put_map index m) s).

(** The code, base, limit and holder. *)
Record kernel_ptrs := mk_ptrs { kp_rc : IOReturn; kp_base : Z; kp_limit : Z; kp_holder : option mapping }.

Definition obtainKernelPtrs s : prog kernel_ptrs :=
  match s.(m_backing).(bk_vtb).(md) with
  | Some d =>
      m ← createMappingInTask d kernel_task;
      match m with
      | None => mret (mk_ptrs kIOReturnError 0 0 None)
      | Some m =>
          let t := u64 (s.(m_backing).(bk_offset) + s.(m_scale).(sc_reserved2)) in
          mret (mk_ptrs kIOReturnSuccess (u64 (m.(mp_addr) + t)) (u64 (m.(mp_length) - t)) (Some m))
      end
  | None =>
      match s.(m_backing).(bk_self) with
      | Some p =>
          let t := s.(m_scale).(sc_reserved2) in
          mret (mk_ptrs kIOReturnSuccess (u64 (p + t)) (u64 (s.(m_backing).(bk_size) - t)) None)
      | None => mret (mk_ptrs kIOReturnNotReady 0 0 None)
      end
  end.

(** ** 3D *)

(** The words that the device has written are answers. *)
Fixpoint check_pixels (n : nat) (value : Z) : prog IOReturn :=
  match n with
  | O => mret kIOReturnSuccess
  | S n => v ← answer; if negb (v =? value) then mret kIOReturnUnsupported else check_pixels n value
  end.

(** [for (i = 0; i < pixels; ++i) ptr[i] = value;] *)
Definition fill_pixels (pixels value : Z) (i : Z) (mem : Z -> Z) : Z -> Z :=
  fun k => if (i <=? k) && (k <? i + pixels) then value else mem k.

Definition detectBlitBug s : prog IOReturn :=
  let sid := 666 in
  let pixval_check := 0xFF000000 in
  let pixval_green := 0xFF00 in
  let w := 10 in
  let h := 10 in
  let bytes_per_pixel := 4 in
  if negb s.(m_provider) then mret kIOReturnNotReady
  else
    let pixels := w * h / 4 in
    r ← ask (OpCreateSurface sid 0 SVGA3D_X8R8G8B8 w h);
    if negb (bool_decide (r.1 = kIOReturnSuccess)) then mret kIOReturnError
    else
      ptr ← VRAMMalloc PAGE_SIZE;
      rc ← match ptr with
           | None => mret kIOReturnNoMemory
           | Some ptr =>
               let tmpRegion := set_region1 0 0 (w / 2) (h / 2) in
               poke ptr (fill_pixels pixels pixval_green);;
               let extra dx dy :=
                 mk_ExtraInfo (u64 (ptr - s.(m_screenInfo).(si_client_addr))) (w * bytes_per_pixel / 2) 0 0 dx dy GMR_VRAM in
               r ← ask (OpSurfaceDMA2D sid SVGA3D_WRITE_HOST_VRAM (Some tmpRegion) (Some (extra (w / 2) (h / 2))) false);
               if negb (bool_decide (r.1 = kIOReturnSuccess)) then mret kIOReturnError
               else
                 r ← ask (OpSurfaceDMA2D sid SVGA3D_READ_HOST_VRAM (Some tmpRegion) (Some (extra 0 0)) false);
                 if negb (bool_decide (r.1 = kIOReturnSuccess)) then mret kIOReturnError
                 else sync_all;; check_pixels (Z.to_nat pixels) pixval_check
           end;
      (match ptr with Some ptr => returnVRAM ptr | None => mret tt end);;
      ask (OpDestroySurface sid);;
      mret rc.

Definition Start3D s : prog Surface :=
  screen ← HaveScreen;
  let s := set_bHaveScreenObject screen s in
  if screen : bool then mret s
  else
    master ← retainMasterSurface;
    let s := set_bHaveMasterSurface master s in
    if negb master then mret s
    else
      direct ← checkOptionAC CE1_OPTION_AC_DIRECT_BLIT;
      if direct : bool then mret (set_bDirectBlit true s)
      else
        rc ← gets k_blitbug;
        rc ← (if bool_decide (rc = kIOReturnNotFound) then
                rc ← detectBlitBug s;
                modify (set_blitbug rc);;
                mret rc
              else mret rc);
        mret (set_bDirectBlit (bool_decide (rc = kIOReturnSuccess)) s).

Definition Cleanup3D s : prog Surface :=
  if negb s.(m_provider) || negb (haveFrontBuffer s) then mret s
  else
    when s.(bHaveMasterSurface) releaseMasterSurface;;
    mret (set_bHaveScreenObject false (set_bHaveMasterSurface false s)).

(** [withFence ? &m_backing.vtb.fence : 0]: the fence that a request has returned. *)
Definition store_fence (f : option Z) s : Surface :=
  match f with Some f => on_vtb (set_fence f) s | None => s end.
Definition ok (r : IOReturn * option Z) : bool := bool_decide (r.1 = kIOReturnSuccess).

(** The parameters of a transfer from or to the backing. *)
Definition backing_extra s (srcX srcY dstX dstY : Z) : ExtraInfo :=
  mk_ExtraInfo (u64 (s.(m_backing).(bk_offset) + s.(m_scale).(sc_reserved2))) s.(m_scale).(sc_reserved1) srcX srcY dstX dstY
    s.(m_backing).(bk_vtb).(gmr_id).

(** [if (!m_last_region || !isBackingValid()) return kIOReturnNotReady;] *)
Definition with_region s (k : IOAccelDeviceRegion -> prog (IOReturn * Surface)) : prog (IOReturn * Surface) :=
  match s.(m_last_region) with
  | Some rgn => if isBackingValid s then k rgn else mret (kIOReturnNotReady, s)
  | None => mret (kIOReturnNotReady, s)
  end.

Definition DMAOutDirect (withFence : bool) s : prog (IOReturn * Surface) :=
  with_region s (fun rgn =>
    let extra := backing_extra s (- rgn.(rgn_bounds).(b_x)) (- rgn.(rgn_bounds).(b_y)) 0 0 in
    master ← getMasterSurfaceID;
    r ← ask (OpSurfaceDMA2D master SVGA3D_WRITE_HOST_VRAM (Some rgn) (Some extra) withFence);
    let s := store_fence r.2 s in
    mret (if ok r then kIOReturnSuccess else kIOReturnDMAError, s)).

(** An id for a surface of the given size, and the surface. *)
Definition new_surface s (width height : Z) : prog (option Z) :=
  sid ← allocSurfaceID;
  r ← ask (OpCreateSurface sid 0 s.(m_surfaceFormat) width height);
  if negb (ok r) then freeSurfaceID sid;; mret None else mret (Some sid).
Definition drop_surface (sid : Z) : prog unit := ask (OpDestroySurface sid);; freeSurfaceID sid.

Definition DMAOutWithCopy (withFence : bool) s : prog (IOReturn * Surface) :=
  with_region s (fun rgn =>
    let deltaX := - rgn.(rgn_bounds).(b_x) in
    let deltaY := - rgn.(rgn_bounds).(b_y) in
    aux ← new_surface s (u32 s.(m_scale).(sc_buffer).(b_w)) (u32 s.(m_scale).(sc_buffer).(b_h));
    match aux with
    | None => mret (kIOReturnNoResources, s)
    | Some aux_sid =>
        r ← ask (OpSurfaceDMA2D aux_sid SVGA3D_WRITE_HOST_VRAM (Some rgn)
                   (Some (backing_extra s deltaX deltaY deltaX deltaY)) withFence);
        let s := store_fence r.2 s in
        if negb (ok r) then drop_surface aux_sid;; mret (kIOReturnDMAError, s)
        else
          master ← getMasterSurfaceID;
          r ← ask (OpSurfaceCopy aux_sid master (Some rgn) (Some (mk_ExtraInfo 0 0 deltaX deltaY 0 0 0)));
          drop_surface aux_sid;;
          mret (if ok r then kIOReturnSuccess else kIOReturnNotWritable, s)
    end).

Definition DMAOutStretchWithCopy (withFence : bool) s : prog (IOReturn * Surface) :=
  with_region s (fun rgn =>
    let width := u32 s.(m_scale).(sc_buffer).(b_w) in
    let height := u32 s.(m_scale).(sc_buffer).(b_h) in
    aux ← new_surface s width height;
    match aux with
    | None => mret (kIOReturnNoResources, s)
    | Some aux_sid1 =>
        let tmpRegion := set_region1 0 0 width height in
        r ← ask (OpSurfaceDMA2D aux_sid1 SVGA3D_WRITE_HOST_VRAM (Some tmpRegion) (Some (backing_extra s 0 0 0 0)) withFence);
        let s := store_fence r.2 s in
        if negb (ok r) then drop_surface aux_sid1;; mret (kIOReturnDMAError, s)
        else
          let bounds := mk_bounds 0 0 rgn.(rgn_bounds).(b_w) rgn.(rgn_bounds).(b_h) in
          aux ← new_surface s (u32 bounds.(b_w)) (u32 bounds.(b_h));
          match aux with
          | None => drop_surface aux_sid1;; mret (kIOReturnNoResources, s)
          | Some aux_sid0 =>
              r ← ask (OpSurfaceStretch aux_sid1 aux_sid0 SVGA3D_STRETCH_BLT_LINEAR tmpRegion.(rgn_bounds) bounds);
              drop_surface aux_sid1;;
              if negb (ok r) then drop_surface aux_sid0;; mret (kIOReturnNotWritable, s)
              else
                master ← getMasterSurfaceID;
                r ← ask (OpSurfaceCopy aux_sid0 master (Some rgn)
                           (Some (mk_ExtraInfo 0 0 (- rgn.(rgn_bounds).(b_x)) (- rgn.(rgn_bounds).(b_y)) 0 0 0)));
                drop_surface aux_sid0;;
                mret (if ok r then kIOReturnSuccess else kIOReturnNotWritable, s)
          end
    end).

Definition doPresent s : prog IOReturn :=
  match s.(m_last_region) with
  | None => mret kIOReturnNotReady
  | Some rgn =>
      master ← getMasterSurfaceID;
      r ← ask (OpPresent master (Some rgn) (Some (mk_ExtraInfo 0 0 0 0 0 0 0)));
      mret (if ok r then kIOReturnSuccess else kIOReturnIOError)
  end.

(** ** Screen objects and the frame buffer *)

Definition ScreenObjectOutDirect (withFence : bool) s : prog (IOReturn * Surface) :=
  with_region s (fun rgn =>
    let extra := backing_extra s (- rgn.(rgn_bounds).(b_x)) (- rgn.(rgn_bounds).(b_y)) 0 0 in
    r ← ask (OpBlitToScreen s.(m_framebufferIndex) (Some rgn) (Some extra) withFence);
    let s := store_fence r.2 s in
    mret (if ok r then kIOReturnSuccess else kIOReturnDMAError, s)).

Definition ScreenObjectOutVia3D (withFence : bool) s : prog (IOReturn * Surface) :=
  with_region s (fun rgn =>
    let width := u32 s.(m_scale).(sc_buffer).(b_w) in
    let height := u32 s.(m_scale).(sc_buffer).(b_h) in
    aux ← new_surface s width height;
    match aux with
    | None => mret (kIOReturnNoResources, s)
    | Some aux_sid =>
        let tmpRegion := set_region1 0 0 width height in
        r ← ask (OpSurfaceDMA2D aux_sid SVGA3D_WRITE_HOST_VRAM (Some tmpRegion) (Some (backing_extra s 0 0 0 0)) withFence);
        let s := store_fence r.2 s in
        if negb (ok r) then drop_surface aux_sid;; mret (kIOReturnDMAError, s)
        else
          r ← ask (OpBlitSurface aux_sid s.(m_framebufferIndex) tmpRegion.(rgn_bounds) rgn);
          drop_surface aux_sid;;
          mret (if ok r then kIOReturnSuccess else kIOReturnNotWritable, s)
    end).

Definition GFBOutDirect s : prog (IOReturn * Surface) :=
  with_region s (fun rgn =>
    kp ← obtainKernelPtrs s;
    if negb (bool_decide (kp.(kp_rc) = kIOReturnSuccess)) then mret (kp.(kp_rc), s)
    else
      let bounds := rgn.(rgn_bounds) in
      let extra := mk_ExtraInfo 0 s.(m_scale).(sc_reserved1) 0 0 (- bounds.(b_x)) (- bounds.(b_y)) s.(m_backing).(bk_vtb).(gmr_id) in
      rc ← blitGFB (Some rgn) extra kp.(kp_base) kp.(kp_limit) true;
      release_map kp.(kp_holder);;
      if negb (bool_decide (rc = kIOReturnSuccess)) then mret (kIOReturnDMAError, s)
      else
        let rect i := nth (Z.to_nat i) [u32 bounds.(b_x); u32 bounds.(b_y); u32 bounds.(b_w); u32 bounds.(b_h)] 0 in
        ask (OpUpdate (Some rect));;
        mret (kIOReturnSuccess, s)).

(** ** Video *)

Definition clear_yuv_to_black s (buffer size : Z) : prog unit :=
  let fmt := s.(m_video).(vd_cecl_pixel_format) in
  if fmt =? CECL_FOURCC_UYVY then log (Filled (mk_fill buffer 0x10801080 (size / 4)))
  else if fmt =? CECL_FOURCC_YUY2 then log (Filled (mk_fill buffer 0x80108010 (size / 4)))
  else mret tt.

Definition setup_trick_buffer s : prog (IOReturn * Surface) :=
  if negb (isBackingValid s) then mret (kIOReturnNotReady, s)
  else
    mem ← new_descriptor s.(m_backing).(bk_size);
    match mem with
    | None => mret (kIOReturnNoMemory, s)
    | Some mem =>
        rc ← md_prepare mem;
        if negb (bool_decide (rc = kIOReturnSuccess)) then release mem.(md_ref);; mret (kIOReturnNoMemory, s)
        else
          my_map_of_mem ← createMappingInTask mem kernel_task;
          match my_map_of_mem with
          | None => md_complete mem;; release mem.(md_ref);; mret (kIOReturnNoMemory, s)
          | Some my_map_of_mem =>
              clear_yuv_to_black s my_map_of_mem.(mp_addr) s.(m_backing).(bk_size);;
              release my_map_of_mem.(mp_ref);;
              md_complete mem;;
              s ← releaseBackingMap 0 s;
              m ← createMappingInTask mem s.(m_owning_task);
              let s := on_backing (set_bk_map0 m) s in
              release mem.(md_ref);;
              mret (kIOReturnSuccess, s)
          end
    end.

Definition on_unit (f : SVGAOverlayUnit -> SVGAOverlayUnit) s : Surface :=
  set_m_video (set_vd_unit (f s.(m_video).(vd_unit)) s.(m_video)) s.

Definition set_enabled (x : Z) (u : SVGAOverlayUnit) : SVGAOverlayUnit :=
  mk_SVGAOverlayUnit x u.(SVGAOverlayUnit_flags) u.(SVGAOverlayUnit_dataOffset) u.(SVGAOverlayUnit_format)
    u.(SVGAOverlayUnit_colorKey) u.(SVGAOverlayUnit_size) u.(SVGAOverlayUnit_width) u.(SVGAOverlayUnit_height)
    u.(SVGAOverlayUnit_srcX) u.(SVGAOverlayUnit_srcY) u.(SVGAOverlayUnit_srcWidth) u.(SVGAOverlayUnit_srcHeight)
    u.(SVGAOverlayUnit_dstX) u.(SVGAOverlayUnit_dstY) u.(SVGAOverlayUnit_dstWidth) u.(SVGAOverlayUnit_dstHeight)
    u.(SVGAOverlayUnit_pitches) u.(SVGAOverlayUnit_dataGMRId) u.(SVGAOverlayUnit_dstScreenId).
Definition set_dest (x y w h : Z) (u : SVGAOverlayUnit) : SVGAOverlayUnit :=
  mk_SVGAOverlayUnit u.(SVGAOverlayUnit_enabled) u.(SVGAOverlayUnit_flags) u.(SVGAOverlayUnit_dataOffset) u.(SVGAOverlayUnit_format)
    u.(SVGAOverlayUnit_colorKey) u.(SVGAOverlayUnit_size) u.(SVGAOverlayUnit_width) u.(SVGAOverlayUnit_height)
    u.(SVGAOverlayUnit_srcX) u.(SVGAOverlayUnit_srcY) u.(SVGAOverlayUnit_srcWidth) u.(SVGAOverlayUnit_srcHeight) x y w h
    u.(SVGAOverlayUnit_pitches) u.(SVGAOverlayUnit_dataGMRId) u.(SVGAOverlayUnit_dstScreenId).

Definition setVideoDest s : bool * Surface :=
  match s.(m_last_region) with
  | None => (false, s)
  | Some rgn =>
      if isRegionEmpty (Some rgn) then (true, on_unit (set_dest 0 0 0 0) s)
      else
        let b := rgn.(rgn_bounds) in
        (true, on_unit (set_dest b.(b_x) b.(b_y) (u32 b.(b_w)) (u32 b.(b_h))) s)
  end.

Definition setVideoRegs s : bool * Surface :=
  if negb (isBackingValid s) then (false, s)
  else
    let c := s.(m_scale) in
    let height := u32 c.(sc_source_h) in
    (true,
     on_unit (fun _ =>
       mk_SVGAOverlayUnit 0 0 (u32 s.(m_backing).(bk_offset)) s.(m_video).(vd_cecl_pixel_format) 0 (u32 (height * c.(sc_reserved1)))
         (u32 c.(sc_source_w)) height (u32 c.(sc_buffer).(b_x)) (u32 c.(sc_buffer).(b_y)) (u32 c.(sc_buffer).(b_w))
         (u32 c.(sc_buffer).(b_h)) 0 0 0 0 [c.(sc_reserved1); 0; 0] s.(m_backing).(bk_vtb).(gmr_id) s.(m_framebufferIndex)) s).

(** The structure as an array of registers. *)
Definition unit_regs (u : SVGAOverlayUnit) (i : Z) : Z := nth (Z.to_nat i) (enc SVGAOverlayUnit_c u) 0.

Definition enabled s : bool := negb (s.(m_video).(vd_unit).(SVGAOverlayUnit_enabled) =? 0).

Definition videoReshape s : prog Surface :=
  if negb s.(bVideoMode) || negb (enabled s) then mret s
  else
    let '(b, s) := setVideoDest s in
    if negb b then mret s
    else
      r ← ask (OpVideoSetRegs s.(m_video).(vd_stream_id) (Some (unit_regs s.(m_video).(vd_unit))) SVGA_VIDEO_DST_X SVGA_VIDEO_DST_HEIGHT true);
      mret (store_fence r.2 s).

Definition surface_video_off s : prog Surface :=
  if negb s.(bVideoMode) || negb (enabled s) then mret s
  else
    let s := on_unit (set_enabled 0) s in
    ask (OpVideoSetReg s.(m_video).(vd_stream_id) SVGA_VIDEO_ENABLED 0 false);;
    freeStreamID s.(m_video).(vd_stream_id);;
    mret (set_m_video (set_vd_stream_id SVGA_ID_INVALID s.(m_video)) s).

Definition surface_flush_video s : prog (IOReturn * Surface) :=
  if negb s.(bHaveID) || negb (is_some s.(m_last_region)) || negb (isBackingValid s) then mret (kIOReturnNotReady, s)
  else if negb s.(bVideoMode) then mret (kIOReturnUnsupported, s)
  else if enabled s then
    r ← ask (OpVideoSetRegs s.(m_video).(vd_stream_id) None 0 0 true);
    mret (r.1, store_fence r.2 s)
  else
    stream ← allocStreamID;
    let s := set_m_video (set_vd_stream_id stream s.(m_video)) s in
    if negb (isIdValid stream) then mret (kIOReturnNoResources, s)
    else
      let s := (setVideoRegs s).2 in
      let s := (setVideoDest s).2 in
      let s := on_unit (set_enabled 1) s in
      r ← ask (OpVideoSetRegs stream (Some (unit_regs s.(m_video).(vd_unit))) SVGA_VIDEO_ENABLED SVGA_VIDEO_DST_SCREEN_ID true);
      mret (r.1, store_fence r.2 s).

(** ** OpenGL *)

Definition on_gl (f : GL -> GL) s : Surface := set_m_gl (f s.(m_gl)) s.

Definition CleanupGL s : prog Surface :=
  s ← (if isIdValid s.(m_gl).(gl_color_sid) then
         drop_surface s.(m_gl).(gl_color_sid);;
         mret (on_gl (set_gl_color_sid SVGA_ID_INVALID) s)
       else mret s);
  s ← (if isIdValid s.(m_gl).(gl_depth_sid) then
         drop_surface s.(m_gl).(gl_depth_sid);;
         mret (on_gl (set_gl_depth_sid SVGA_ID_INVALID) s)
       else mret s);
  mret (set_bGLMode false s).

(** The second assignment to [srcDeltaX] is the one that counts; [srcDeltaY] is zero. *)
Definition flushGLSurface s : prog IOReturn :=
  rgn ← deref s.(m_last_region);
  if s.(bHaveScreenObject) then
    let rect := mk_bounds 0 0 s.(m_scale).(sc_buffer).(b_w) s.(m_scale).(sc_buffer).(b_h) in
    r ← ask (OpBlitSurface s.(m_gl).(gl_color_sid) s.(m_framebufferIndex) rect rgn);
    mret r.1
  else
    r ← ask (OpPresent s.(m_gl).(gl_color_sid) (Some rgn) (Some (mk_ExtraInfo 0 0 (- rgn.(rgn_bounds).(b_y)) 0 0 0 0)));
    mret r.1.

Definition copyGLSurfaceToBacking s : prog (IOReturn * Surface) :=
  let '(clean, dirty) := OSTestAndClear 0 s.(m_gl).(gl_rt_dirty) in
  let s := on_gl (set_gl_rt_dirty dirty) s in
  if clean && (0 <? s.(m_gl).(gl_attach_count)) then mret (kIOReturnSuccess, s)
  else
    let copyBox := mk_SVGA3dCopyBox 0 0 0 (u32 s.(m_scale).(sc_buffer).(b_w)) (u32 s.(m_scale).(sc_buffer).(b_h)) 1 0 0 0 in
    let extra := mk_ExtraInfoEx (u64 (s.(m_backing).(bk_offset) + s.(m_scale).(sc_reserved2))) s.(m_scale).(sc_reserved1)
                   (u64 (s.(m_backing).(bk_size) - s.(m_scale).(sc_reserved2))) s.(m_backing).(bk_vtb).(gmr_id) 2 in
    r ← ask (OpSurfaceDMA3D (image0 s.(m_gl).(gl_color_sid)) SVGA3D_READ_HOST_VRAM (Some copyBox) (Some extra) true);
    (if ok r then match r.2 with Some f => sync_to f | None => mret tt end else mret tt);;
    s ← (if s.(m_gl).(gl_attach_count) <=? 0 then CleanupGL s else mret s);
    mret (r.1, s).

Definition getBoundsForGL s : Z * Z * Z * Z :=
  let w := u32 s.(m_scale).(sc_buffer).(b_w) in
  let h := u32 s.(m_scale).(sc_buffer).(b_h) in
  (w, h, w, h).

Definition getSurfacesForGL s : option (Z * Z) :=
  if negb s.(bGLMode) then None else Some (s.(m_gl).(gl_color_sid), s.(m_gl).(gl_depth_sid)).

Definition touchRenderTarget s : prog Surface :=
  let s := on_gl (set_gl_rt_dirty (OSTestAndSet 0 s.(m_gl).(gl_rt_dirty)).2) s in
  (if s.(m_wID) =? 1 then flushGLSurface s;; mret tt else mret tt);;
  mret s.

(** A render target or a depth buffer of the size of the surface. *)
Definition create_target s (sid flags format : Z) : prog IOReturn :=
  r ← ask (OpCreateSurface sid flags format (u32 s.(m_scale).(sc_buffer).(b_w)) (u32 s.(m_scale).(sc_buffer).(b_h)));
  mret r.1.

(** [m_gl.rt_size = ...; touchRenderTarget();] *)
Definition finish_targets s : prog Surface :=
  touchRenderTarget (on_gl (fun g => set_gl_rt_h s.(m_scale).(sc_buffer).(b_h) (set_gl_rt_w s.(m_scale).(sc_buffer).(b_w) g)) s).

(** A failed target: its id is given back, and then the other target. *)
Definition lose_color s : prog Surface :=
  freeSurfaceID s.(m_gl).(gl_color_sid);;
  mret (on_gl (set_gl_color_sid SVGA_ID_INVALID) s).
Definition lose_depth s : prog Surface :=
  freeSurfaceID s.(m_gl).(gl_depth_sid);;
  CleanupGL (on_gl (set_gl_depth_sid SVGA_ID_INVALID) s).

Definition no_extent s : bool := (s.(m_scale).(sc_buffer).(b_w) <=? 0) || (s.(m_scale).(sc_buffer).(b_h) <=? 0).

Definition attachGL (cmb : Z) s : prog (IOReturn * Surface) :=
  if s.(bGLMode) then
    mret (kIOReturnSuccess, on_gl (set_gl_attach_count (s32 (s.(m_gl).(gl_attach_count) + 1))) s)
  else if negb s.(m_provider) || no_extent s then mret (kIOReturnNotReady, s)
  else
    let s := on_gl (set_gl_ds_format (select_ds_format cmb)) s in
    s ← (if isIdValid s.(m_gl).(gl_color_sid) then mret s
         else sid ← allocSurfaceID; mret (on_gl (set_gl_color_sid sid) s));
    rc ← create_target s s.(m_gl).(gl_color_sid) SVGA3D_SURFACE_HINT_RENDERTARGET s.(m_surfaceFormat);
    if negb (bool_decide (rc = kIOReturnSuccess)) then s ← lose_color s; mret (rc, s)
    else
      r ← (if s.(m_gl).(gl_ds_format) =? SVGA3D_FORMAT_INVALID then mret (kIOReturnSuccess, s)
           else
             s ← (if isIdValid s.(m_gl).(gl_depth_sid) then mret s
                  else sid ← allocSurfaceID; mret (on_gl (set_gl_depth_sid sid) s));
             rc ← create_target s s.(m_gl).(gl_depth_sid) SVGA3D_SURFACE_HINT_DEPTHSTENCIL s.(m_gl).(gl_ds_format);
             if negb (bool_decide (rc = kIOReturnSuccess)) then s ← lose_depth s; mret (rc, s)
             else mret (kIOReturnSuccess, s));
      let '(rc, s) := r in
      if negb (bool_decide (rc = kIOReturnSuccess)) then mret (rc, s)
      else
        s ← finish_targets (on_gl (set_gl_attach_count 1) s);
        mret (kIOReturnSuccess, set_bGLMode true s).

Definition resizeGL s : prog (IOReturn * Surface) :=
  if negb s.(bGLMode) || (s.(m_gl).(gl_attach_count) <=? 0) ||
     ((s.(m_scale).(sc_buffer).(b_w) <=? s.(m_gl).(gl_rt_w)) && (s.(m_scale).(sc_buffer).(b_h) <=? s.(m_gl).(gl_rt_h)))
  then mret (kIOReturnSuccess, s)
  else if negb s.(m_provider) || no_extent s then mret (kIOReturnNotReady, s)
  else
    ask (OpDestroySurface s.(m_gl).(gl_color_sid));;
    rc ← create_target s s.(m_gl).(gl_color_sid) SVGA3D_SURFACE_HINT_RENDERTARGET s.(m_surfaceFormat);
    if negb (bool_decide (rc = kIOReturnSuccess)) then s ← lose_color s; s ← CleanupGL s; mret (rc, s)
    else
      rc ← (if isIdValid s.(m_gl).(gl_depth_sid) then
              ask (OpDestroySurface s.(m_gl).(gl_depth_sid));;
              create_target s s.(m_gl).(gl_depth_sid) SVGA3D_SURFACE_HINT_DEPTHSTENCIL s.(m_gl).(gl_ds_format)
            else mret kIOReturnSuccess);
      if negb (bool_decide (rc = kIOReturnSuccess)) then s ← lose_depth s; mret (rc, s)
      else s ← finish_targets s; mret (kIOReturnSuccess, s).

Definition detachGL s : prog (IOReturn * Surface) :=
  if s.(bGLMode) then
    let v := s.(m_gl).(gl_attach_count) in
    mret (kIOReturnSuccess, on_gl (set_gl_attach_count (if v <=? 0 then 0 else s32 (v - 1))) s)
  else mret (kIOReturnSuccess, s).

(** ** Locks *)

(** [infoSize] is the value behind the pointer, and null if [info] or it is null; the
    structure has 88 bytes. *)
Definition sizeof_info : Z := 88.
Definition bad_info (infoSize : option Z) : bool :=
  match infoSize with Some n => n <? sizeof_info | None => true end.

Definition set_lock (n : Z) s : bool * Surface :=
  let '(old, x) := OSTestAndSet n s.(bIsLocked) in (old, set_bIsLocked x s).
Definition clear_lock (n : Z) s : Surface := set_bIsLocked (OSTestAndClear n s.(bIsLocked)).2 s.

Definition lock_result : Type := IOReturn * option SurfaceInformation * Surface.

(** [allocBacking() && mapBacking(task, index)] *)
Definition alloc_and_map (task index : Z) s : prog (bool * Surface) :=
  r ← allocBacking s;
  let '(b, s) := r in
  if negb b then mret (false, s) else mapBacking task index s.

Definition surface_read_lock_options (infoSize : option Z) s : prog lock_result :=
  if bad_info infoSize then mret (kIOReturnBadArgument, None, s)
  else if negb s.(bHaveID) || negb (isSourceValid s) then mret (kIOReturnNotReady, None, s)
  else
    let '(old, s) := set_lock ceSurfaceLockRead s in
    if old : bool then mret (kIOReturnCannotLock, None, s)
    else
      r ← (if isClientBackingValid s then
             if s.(bGLMode) then allocBacking s else mret (true, s)
           else alloc_and_map s.(m_owning_task) 0 s);
      let '(b, s) := r in
      if negb b then mret (kIOReturnNoMemory, None, clear_lock ceSurfaceLockRead s)
      else
        info ← calculateSurfaceInformation s;
        if s.(bGLMode) then r ← copyGLSurfaceToBacking s; mret (r.1, Some info, r.2)
        else mret (kIOReturnSuccess, Some info, s).

Definition surface_read_unlock_options s : IOReturn * Surface := (kIOReturnSuccess, clear_lock ceSurfaceLockRead s).

Definition get_state : IOReturn * Z := (kIOReturnSuccess, 0).

Definition surface_write_lock_options (infoSize : option Z) s : prog lock_result :=
  if bad_info infoSize then mret (kIOReturnBadArgument, None, s)
  else if negb s.(bHaveID) || negb (isSourceValid s) then mret (kIOReturnNotReady, None, s)
  else
    let '(old, s) :=
      if s.(bSkipWriteLockOnce) then (false, set_bSkipWriteLockOnce false s) else set_lock ceSurfaceLockWrite s in
    if old : bool then mret (kIOReturnCannotLock, None, s)
    else
      r ← (if isClientBackingValid s then mret (true, s) else alloc_and_map s.(m_owning_task) 0 s);
      let '(b, s) := r in
      if negb b then mret (kIOReturnNoMemory, None, clear_lock ceSurfaceLockWrite s)
      else
        info ← calculateSurfaceInformation s;
        s ← (if s.(m_scale).(sc_reserved2) =? 0 then
               v ← sync s.(m_provider) s.(m_backing).(bk_vtb);
               mret (on_vtb (fun _ => v) s)
             else mret s);
        mret (kIOReturnSuccess, Some info, s).

Definition surface_write_unlock_options s : IOReturn * Surface := (kIOReturnSuccess, clear_lock ceSurfaceLockWrite s).

Definition surface_read : IOReturn := kIOReturnUnsupported.

Definition surface_query_lock s : IOReturn :=
  if has_bits s.(bIsLocked) (Z.lor (Z.shiftr 128 ceSurfaceLockRead) (Z.shiftr 128 ceSurfaceLockWrite))
  then kIOReturnCannotLock else kIOReturnSuccess.

Definition surface_read_lock (infoSize : option Z) s : prog lock_result := surface_read_lock_options infoSize s.
Definition surface_read_unlock s : IOReturn * Surface := surface_read_unlock_options s.
Definition surface_write_lock (infoSize : option Z) s : prog lock_result := surface_write_lock_options infoSize s.
Definition surface_write_unlock s : IOReturn * Surface := surface_write_unlock_options s.

(** The code and the result. *)
Definition surface_control (selector : Z) : IOReturn * option Z :=
  if selector =? 1 then (kIOReturnSuccess, None)
  else if selector =? 4 then (kIOReturnSuccess, Some 1)
  else if selector =? 5 then (kIOReturnSuccess, Some 1)
  else (kIOReturnBadArgument, None).

(** ** Mode, scale and shape *)

(** Surface format, bytes per pixel and pixel format of a colour depth. *)
Definition depth_format (depth : Z) : option (Z * Z * Z) :=
  if depth =? kIOAccelSurfaceModeColorDepth1555 then Some (cval SVGA3D_X1R5G5B5, 2, kIOAccelSurfaceModeColorDepth1555)
  else if depth =? kIOAccelSurfaceModeColorDepth8888 then Some (cval SVGA3D_X8R8G8B8, 4, kIOAccelSurfaceModeColorDepth8888)
  else if depth =? kIOAccelSurfaceModeColorDepthBGRA32 then Some (cval SVGA3D_A8R8G8B8, 4, kIOAccelSurfaceModeColorDepth8888)
  else if depth =? kIOAccelSurfaceModeColorDepthYUV then Some (cval SVGA3D_YUY2, 2, kIOYUVSPixelFormat)
  else if depth =? kIOAccelSurfaceModeColorDepthYUV2 then Some (cval SVGA3D_UYVY, 2, kIO2vuyPixelFormat)
  else None.

Definition set_format (format bytes_per_pixel pixel_format : Z) s : Surface :=
  set_m_pixel_format pixel_format (set_m_bytes_per_pixel bytes_per_pixel (set_m_surfaceFormat format s)).

Definition set_id_mode (wID modebits : Z) s : prog (IOReturn * Surface) :=
  rc ← (if wID =? 1 then
          if negb (haveFrontBuffer s) then mret kIOReturnUnsupported
          else if s.(bHaveScreenObject) then
            r ← ask (OpPrimaryScreen (u32 s.(m_screenInfo).(si_w)) (u32 s.(m_screenInfo).(si_h)));
            mret r.1
          else mret kIOReturnSuccess
        else mret kIOReturnSuccess);
  if negb (bool_decide (rc = kIOReturnSuccess)) then mret (rc, s)
  else if negb (Z.ldiff modebits (Z.lor kIOAccelSurfaceModeColorDepthBits kIOAccelSurfaceModeWindowedBit) =? 0)
  then mret (kIOReturnUnsupported, s)
  else if negb (has_bits modebits kIOAccelSurfaceModeWindowedBit) then mret (kIOReturnUnsupported, s)
  else
    match depth_format (Z.land modebits kIOAccelSurfaceModeColorDepthBits) with
    | None => mret (kIOReturnUnsupported, s)
    | Some (format, bytes_per_pixel, pixel_format) =>
        let s := set_m_wID (u32 wID) (set_format format bytes_per_pixel pixel_format s) in
        let s := on_gl (set_gl_original_mode_bits modebits) s in
        log (SetProperty s.(m_wID));;
        mret (kIOReturnSuccess, set_bHaveID true s)
    end.

Definition sizeof_scaling : Z := 44.

Definition set_scale (scaling : option Scaling) (scalingSize : Z) s : IOReturn * Surface :=
  match scaling with
  | None => (kIOReturnBadArgument, s)
  | Some c =>
      if scalingSize <? sizeof_scaling then (kIOReturnBadArgument, s)
      else (kIOReturnSuccess, calculateScaleParameters (set_m_scale c s) false)
  end.

(** [m_scale.source] is given a size, and [m_scale.buffer] is all of it. *)
Definition set_extent (w h : Z) s : Surface :=
  set_m_scale (mk_Scaling (mk_bounds 0 0 w h) w h s.(m_scale).(sc_reserved0) s.(m_scale).(sc_reserved1) s.(m_scale).(sc_reserved2)) s.

(** [IOACCEL_SIZEOF_DEVICE_REGION] *)
Definition sizeof_region (rgn : IOAccelDeviceRegion) : Z := 12 + 8 * rgn.(rgn_num_rects).

(** The checks of the client's memory; the address, pitch and length. *)
Definition client_backing (backing rowbytes backingLength : Z) (rgn : IOAccelDeviceRegion) s : option ClientBacking :=
  let min_row_bytes := u64 (u64 rgn.(rgn_bounds).(b_w) * s.(m_bytes_per_pixel)) in
  if (0 <? swrap 64 rowbytes) && (rowbytes <? min_row_bytes) then None
  else
    let rowbytes := if swrap 64 rowbytes <=? 0 then min_row_bytes else rowbytes in
    let min_size := u64 (u64 rgn.(rgn_bounds).(b_h) * rowbytes) in
    if negb (backingLength =? 0) && (backingLength <? min_size) then None
    else Some (mk_ClientBacking backing rowbytes (if backingLength =? 0 then min_size else backingLength)).

Definition no_client_backing : ClientBacking := mk_ClientBacking 0 0 0.

(** [m_last_shape] gets the region, in new memory or in the object that is there. *)
Definition store_shape s : prog (bool * Surface) :=
  match s.(m_last_shape) with
  | None => o ← new_object; mret (is_some o, set_m_last_shape o s)
  | Some _ => a ← answer; mret (negb (a =? 0), s)
  end.

(** The part of [set_shape_backing_length_ext] after the checks. *)
Definition apply_shape (options framebufferIndex : Z) (rgn : IOAccelDeviceRegion) s : prog (IOReturn * Surface) :=
  r ← store_shape s;
  let '(bAllocShapeOk, s) := r in
  if negb bAllocShapeOk then mret (kIOReturnNoMemory, set_m_client_backing no_client_backing s)
  else
    let s := set_m_framebufferIndex (u32 framebufferIndex) (set_m_last_region (Some rgn) s) in
    packed ← checkOptionAC CE1_OPTION_AC_PACKED_BACKING;
    let s :=
      if has_bits options kIOAccelSurfaceShapeIdentityScaleBit then
        if negb (s.(m_wID) =? 1) || packed then
          calculateScaleParameters (set_extent rgn.(rgn_bounds).(b_w) rgn.(rgn_bounds).(b_h) s) false
        else
          calculateScaleParameters
            (set_m_scale (mk_Scaling rgn.(rgn_bounds) (s16 s.(m_screenInfo).(si_w)) (s16 s.(m_screenInfo).(si_h))
                            s.(m_scale).(sc_reserved0) s.(m_scale).(sc_reserved1) s.(m_scale).(sc_reserved2)) s) true
      else s in
    s ← videoReshape s;
    mret (kIOReturnSuccess, if (s.(m_wID) =? 1) && (options =? 0x5) then set_bSkipWriteLockOnce true s else s).

Definition set_shape_backing_length_ext (options framebufferIndex backing rowbytes backingLength : Z)
    (rgn : option IOAccelDeviceRegion) (rgnSize : Z) s : prog (IOReturn * Surface) :=
  let expectedOptions := Z.lor kIOAccelSurfaceShapeIdentityScaleBit kIOAccelSurfaceShapeFrameSyncBit in
  match rgn with
  | None => mret (kIOReturnBadArgument, s)
  | Some rgn =>
      if rgnSize <? sizeof_region rgn then mret (kIOReturnBadArgument, s)
      else if 4096 <? rgnSize then mret (kIOReturnNoSpace, s)
      else
        let s := set_m_client_backing no_client_backing (clearLastRegion s) in
        if negb (has_bits options kIOAccelSurfaceShapeNonBlockingBit) then mret (kIOReturnUnsupported, s)
        else if negb (Z.land options expectedOptions =? expectedOptions) then mret (kIOReturnSuccess, s)
        else if negb s.(bVideoMode) && isRegionEmpty (Some rgn) then
          mret (kIOReturnSuccess,
            if negb (s.(m_wID) =? 1)
            then calculateScaleParameters (set_extent rgn.(rgn_bounds).(b_w) rgn.(rgn_bounds).(b_h) s) false
            else s)
        else if negb s.(bHaveID) then mret (kIOReturnNotReady, s)
        else if backing =? 0 then apply_shape options framebufferIndex rgn s
        else
          match client_backing backing rowbytes backingLength rgn s with
          | None => mret (kIOReturnOverrun, s)
          | Some cb =>
              let s := set_m_client_backing cb s in
              let s := if negb (s.(m_backing).(bk_vtb).(gart_ptr) =? 0) then on_vtb (set_gart_ptr 2) s else s in
              apply_shape options framebufferIndex rgn s
          end
  end.

Definition set_shape_backing (options framebufferIndex backing rowbytes : Z) (rgn : option IOAccelDeviceRegion) (rgnSize : Z) s
    : prog (IOReturn * Surface) := set_shape_backing_length_ext options framebufferIndex backing rowbytes 0 rgn rgnSize s.

Definition set_shape (options framebufferIndex : Z) (rgn : option IOAccelDeviceRegion) (rgnSize : Z) s : prog (IOReturn * Surface) :=
  set_shape_backing_length_ext options framebufferIndex 0 (u64 (-1)) 0 rgn rgnSize s.

Definition set_shape_backing_length (options framebufferIndex backing rowbytes backingLength : Z) (rgn : option IOAccelDeviceRegion) s
    : prog (IOReturn * Surface) :=
  set_shape_backing_length_ext options framebufferIndex backing rowbytes backingLength rgn
    match rgn with Some rgn => sizeof_region rgn | None => 0 end s.

(** ** Flush *)

(** The way out: direct, copy and stretch through the master surface, to a screen
    directly and through a surface, and to the frame buffer. *)
Inductive DMA_type := DMADirect | DMACopy | DMAStretch | ScreenDirect | ScreenVia3D | GFB.

Definition select_DMA_type (have3D : bool) (rgn : IOAccelDeviceRegion) s : option DMA_type :=
  if s.(bHaveScreenObject) then
    if (s.(m_surfaceFormat) =? SVGA3D_X8R8G8B8) && isIdentityScale s rgn then Some ScreenDirect
    else if have3D then Some ScreenVia3D else None
  else if s.(bHaveMasterSurface) then
    if negb (isIdentityScale s rgn) then Some DMAStretch
    else if (s.(m_surfaceFormat) =? SVGA3D_X8R8G8B8) && s.(bDirectBlit) then Some DMADirect
    else Some DMACopy
  else if negb (s.(m_surfaceFormat) =? SVGA3D_X8R8G8B8) || negb (isIdentityScale s rgn) then None
  else Some GFB.

Definition surface_flush (framebufferMask : Z) s : prog (IOReturn * Surface) :=
  match s.(m_last_region) with
  | None => mret (kIOReturnNotReady, s)
  | Some rgn =>
      if negb s.(bHaveID) || negb (isBackingValid s) then mret (kIOReturnNotReady, s)
      else if s.(bVideoMode) then mret (kIOReturnSuccess, s)
      else if negb (has_bits framebufferMask (u64 (Z.shiftl 1 s.(m_framebufferIndex)))) then mret (kIOReturnSuccess, s)
      else if s.(bGLMode) then rc ← flushGLSurface s; mret (rc, s)
      else
        have3D ← Have3D;
        match select_DMA_type have3D rgn s with
        | None => mret (kIOReturnUnsupported, s)
        | Some t =>
            r ← match t with
                | DMADirect => DMAOutDirect true s
                | DMAStretch => DMAOutStretchWithCopy true s
                | ScreenDirect => ScreenObjectOutDirect true s
                | ScreenVia3D => ScreenObjectOutVia3D true s
                | GFB => GFBOutDirect s
                | DMACopy => DMAOutWithCopy true s
                end;
            let '(rc, s) := r in
            if negb (bool_decide (rc = kIOReturnSuccess)) then mret (rc, s)
            else
              match t with
              | DMADirect | DMACopy | DMAStretch => rc ← doPresent s; mret (rc, s)
              | _ => mret (kIOReturnSuccess, s)
              end
        end
  end.

(** ** For 2D contexts *)

Definition context_set_surface (cecl_pixel_format apple_pixel_format : Z) s : prog (IOReturn * Surface) :=
  if cecl_pixel_format =? 0 then
    s ← surface_video_off s;
    let s := set_bVideoMode false s in
    let s := if apple_pixel_format =? kIO32BGRAPixelFormat then set_format SVGA3D_A8R8G8B8 4 kIOAccelSurfaceModeColorDepth8888 s else s in
    s ← (if haveFrontBuffer s then mret s else Start3D s);
    mret (kIOReturnSuccess, s)
  else
    no_yuv ← checkOptionAC CE1_OPTION_AC_NO_YUV;
    if no_yuv : bool then mret (kIOReturnUnsupported, s)
    else
      let s := on_unit (set_enabled 0) (set_bVideoMode true s) in
      let s := set_m_video (set_vd_cecl_pixel_format cecl_pixel_format s.(m_video)) s in
      let s :=
        if cecl_pixel_format =? CECL_FOURCC_UYVY then set_m_surfaceFormat SVGA3D_UYVY s
        else if cecl_pixel_format =? CECL_FOURCC_YUY2 then set_m_surfaceFormat SVGA3D_YUY2 s
        else s in
      let s := set_m_pixel_format apple_pixel_format (set_m_bytes_per_pixel 2 s) in
      s ← Cleanup3D s;
      mret (kIOReturnSuccess, s).

Definition context_scale_surface (options width height : Z) s : IOReturn * Surface :=
  if negb (has_bits options kIOBlitFixedSource) then (kIOReturnSuccess, s)
  else (kIOReturnSuccess, calculateScaleParameters (set_extent (s16 width) (s16 height) s) false).

(** The code, the address and the pitch. *)
Definition context_lock_memory (context_owning_task : Z) s : prog (IOReturn * option (Z * Z) * Surface) :=
  if negb s.(bHaveID) || negb (isSourceValid s) then mret (kIOReturnNotReady, None, s)
  else
    let '(old, s) := set_lock ceSurfaceLockContext s in
    if old : bool then mret (kIOReturnCannotLock, None, s)
    else
      r ← alloc_and_map context_owning_task 1 s;
      let '(b, s) := r in
      if negb b then mret (kIOReturnNoMemory, None, clear_lock ceSurfaceLockContext s)
      else
        screen ← HaveScreen;
        have3D ← Have3D;
        s ← (if s.(bVideoMode) && (screen || negb have3D) then r ← setup_trick_buffer s; mret r.2 else mret s);
        m ← deref s.(m_backing).(bk_map1);
        mret (kIOReturnSuccess, Some (m.(mp_addr), s.(m_scale).(sc_reserved1)), s).

Definition context_unlock_memory s : prog (IOReturn * Surface) :=
  s ← releaseBackingMap 1 (clear_lock ceSurfaceLockContext s);
  mret (kIOReturnSuccess, s).

(** The check at the start of the copies. *)
Definition bad_region (region : option IOAccelDeviceRegion) (regionSize : Z) : bool :=
  match region with Some rgn => regionSize <? sizeof_region rgn | None => true end.

(** [extra.mem_offset_in_bar1] is the offset, which now has another name.  The region is
    the caller's memory, and is returned as the method leaves it. *)
Definition copy_framebuffer_region_to_self (framebufferIndex destX destY : Z) (region : option IOAccelDeviceRegion) (regionSize : Z) s
    : prog (IOReturn * option IOAccelDeviceRegion * Surface) :=
  match region with
  | None => mret (kIOReturnBadArgument, region, s)
  | Some rgn =>
      if bad_region region regionSize then mret (kIOReturnBadArgument, region, s)
      else if negb s.(bHaveID) || negb (isSourceValid s) then mret (kIOReturnNotReady, region, s)
      else if s.(bVideoMode) then mret (kIOReturnUnsupported, region, s)
      else if s.(bGLMode) then mret (kIOReturnUnsupported, region, s)
      else if negb (s.(m_surfaceFormat) =? SVGA3D_X8R8G8B8) then mret (kIOReturnUnsupportedMode, region, s)
      else
        r ← allocBacking s;
        let '(b, s) := r in
        if negb b then mret (kIOReturnNoMemory, region, s)
        else
          let dx := s32 (destX - rgn.(rgn_bounds).(b_x)) in
          let dy := s32 (destY - rgn.(rgn_bounds).(b_y)) in
          let rgn := clipRegionToBuffer s rgn dx dy in
          a ← accel;
          if isPrimaryScreenActive a then
            r ← ask (OpBlitFromScreen framebufferIndex (Some rgn) (Some (backing_extra s 0 0 dx dy)) true);
            let s := store_fence r.2 s in
            if negb (ok r) then mret (kIOReturnNotReadable, Some rgn, s)
            else v ← sync s.(m_provider) s.(m_backing).(bk_vtb); mret (kIOReturnSuccess, Some rgn, on_vtb (fun _ => v) s)
          else if s.(bHaveMasterSurface) then
            let e := backing_extra s 0 0 0 0 in
            let shift := s32 (s32 (dy * s32 e.(mem_pitch)) + s32 (dx * s32 s.(m_bytes_per_pixel))) in
            let e := mk_ExtraInfo (u64 (e.(mem_offset_in_gmr) + shift)) e.(mem_pitch) 0 0 0 0 e.(mem_gmr_id) in
            r ← ask (OpSurfaceDMA2D a.(m_master_surface_id) SVGA3D_READ_HOST_VRAM (Some rgn) (Some e) true);
            let s := store_fence r.2 s in
            if negb (ok r) then mret (kIOReturnNotReadable, Some rgn, s)
            else v ← sync s.(m_provider) s.(m_backing).(bk_vtb); mret (kIOReturnSuccess, Some rgn, on_vtb (fun _ => v) s)
          else
            kp ← obtainKernelPtrs s;
            if negb (bool_decide (kp.(kp_rc) = kIOReturnSuccess)) then mret (kp.(kp_rc), Some rgn, s)
            else
              let e := mk_ExtraInfo 0 s.(m_scale).(sc_reserved1) 0 0 dx dy s.(m_backing).(bk_vtb).(gmr_id) in
              rc ← blitGFB (Some rgn) e kp.(kp_base) kp.(kp_limit) false;
              release_map kp.(kp_holder);;
              mret (rc, Some rgn, s)
  end.

Definition copy_self_region_to_framebuffer (region : option IOAccelDeviceRegion) (regionSize : Z) : IOReturn :=
  if bad_region region regionSize then kIOReturnBadArgument else kIOReturnUnsupported.

(** The source may be the surface itself, which [allocBacking] may have changed. *)
Inductive source := NoSource | Self | Other (s : Surface).
Definition source_of (src : source) s : option Surface :=
  match src with NoSource => None | Self => Some s | Other s' => Some s' end.

(** [if (!rgn->num_rects) { memcpy(&rgn->rect[0], &rgn->bounds, ...); ++rgn->num_rects; }] *)
Definition at_least_bounds (rgn : IOAccelDeviceRegion) : IOAccelDeviceRegion :=
  if rgn.(rgn_num_rects) =? 0 then mk_region 1 rgn.(rgn_bounds) (rgn.(rgn_bounds) :: drop 1 rgn.(rgn_rect)) else rgn.

Definition copy_surface_region_to_self (src : source) (destX destY : Z) (region : option IOAccelDeviceRegion) (regionSize : Z) s
    : prog (IOReturn * option IOAccelDeviceRegion * Surface) :=
  match source_of src s, region with
  | None, _ | _, None => mret (kIOReturnBadArgument, region, s)
  | Some source_surface, Some rgn =>
      if bad_region region regionSize then mret (kIOReturnBadArgument, region, s)
      else if negb s.(bHaveID) || negb (isSourceValid s) then mret (kIOReturnNotReady, region, s)
      else if s.(bGLMode) then mret (kIOReturnUnsupported, region, s)
      else if negb source_surface.(bHaveID) || negb (isBackingValid source_surface) then mret (kIOReturnNotReady, region, s)
      else if negb (s.(m_surfaceFormat) =? source_surface.(m_surfaceFormat)) ||
              negb (s.(m_bytes_per_pixel) =? source_surface.(m_bytes_per_pixel)) then mret (kIOReturnUnsupported, region, s)
      else if source_surface.(bGLMode) then mret (kIOReturnUnsupported, region, s)
      else
        r ← allocBacking s;
        let '(b, s) := r in
        if negb b then mret (kIOReturnNoMemory, region, s)
        else
          source_surface ← deref (source_of src s);
          let delta := mk_SVGASignedPoint (s32 (destX - rgn.(rgn_bounds).(b_x))) (s32 (destY - rgn.(rgn_bounds).(b_y))) in
          let rgn := clipRegionToBuffer s rgn delta.(SVGASignedPoint_x) delta.(SVGASignedPoint_y) in
          dst ← obtainKernelPtrs s;
          if negb (bool_decide (dst.(kp_rc) = kIOReturnSuccess)) then mret (dst.(kp_rc), Some rgn, s)
          else
            src ← obtainKernelPtrs source_surface;
            if negb (bool_decide (src.(kp_rc) = kIOReturnSuccess)) then
              release_map dst.(kp_holder);;
              mret (src.(kp_rc), Some rgn, s)
            else
              let rgn := at_least_bounds rgn in
              let image limit pitch := mk_SVGAGuestImage (mk_SVGAGuestPtr 0 (u32 limit)) pitch in
              let '(rc, cs) :=
                genericBlitCopy dst.(kp_base) (Some (image dst.(kp_limit) s.(m_scale).(sc_reserved1))) (Some delta)
                  src.(kp_base) (Some (image src.(kp_limit) source_surface.(m_scale).(sc_reserved1))) (Some (mk_SVGASignedPoint 0 0))
                  (Some rgn) (wrap 8 s.(m_bytes_per_pixel)) in
              log (Copied cs);;
              release_map src.(kp_holder);;
              release_map dst.(kp_holder);;
              mret (rc, Some rgn, s)
  end.

(** ** Life of the object *)

Definition zero_unit : SVGAOverlayUnit := mk_SVGAOverlayUnit 0 0 0 0 0 0 0 0 0 0 0 0 0 0 0 0 [0; 0; 0] 0 0.
Definition zero_surface : Surface :=
  mk_Surface 0 false false false false false false false false 0 0 0 0 0 (mk_Backing None 0 0 None None (mk_vtb 0 None 0 0))
    no_client_backing None None 0 (mk_Scaling (mk_bounds 0 0 0 0) 0 0 0 0 0) (mk_ScreenInfo 0 0 0 0 0 0)
    (mk_Video 0 0 zero_unit) (mk_GL 0 0 0 0 0 0 0 0).

(** New objects of the kernel are zero. *)
Definition initWithTask (owningTask : Z) : Surface := Init (set_m_owning_task owningTask zero_surface).

Definition start s : prog (bool * Surface) :=
  let s := set_m_provider true s in
  r ← getScreenInfo;
  match r.2 with
  | None => mret (false, s)
  | Some info =>
      s ← Start3D (set_m_screenInfo info s);
      mret (true, s)
  end.

Definition Cleanup s : prog Surface :=
  s ← (if s.(m_provider) then
         s ← Cleanup3D s;
         s ← CleanupGL s;
         surface_video_off s
       else mret s);
  s ← releaseBacking s;
  let s := clearLastRegion s in
  match s.(m_last_shape) with
  | Some o => release o;; mret (set_m_last_shape None s)
  | None => mret s
  end.

Definition clientClose s : prog (IOReturn * Surface) :=
  s ← Cleanup s;
  mret (kIOReturnSuccess, set_m_provider false (set_m_owning_task 0 s)).

(** [message]: of the requests to find a surface; [this] is the object, and the client
    found so far is returned. *)
Definition message (this : Z) (cgsSurfaceID : Z) (client : option Z) s : IOReturn * option Z :=
  if negb s.(bHaveID) then (kIOReturnNotReady, client)
  else (kIOReturnSuccess, if cgsSurfaceID =? s.(m_wID) then Some this else client).

(** ** Methods *)

Inductive surface_op :=
  | ReadLock (infoSize : option Z)
  | ReadUnlock
  | GetState
  | WriteLock (infoSize : option Z)
  | WriteUnlock
  | Read
  | SetShapeBacking (options framebufferIndex backing rowbytes backingLength : Z) (rgn : option IOAccelDeviceRegion) (rgnSize : Z)
  | SetIDMode (wID modebits : Z)
  | SetScale (scaling : option Scaling) (scalingSize : Z)
  | SetShape (options framebufferIndex : Z) (rgn : option IOAccelDeviceRegion) (rgnSize : Z)
  | Flush (framebufferMask : Z)
  | QueryLock
  | Control (selector : Z)
  | ContextSetSurface (cecl_pixel_format apple_pixel_format : Z)
  | ContextScaleSurface (options width height : Z)
  | ContextLockMemory (task : Z)
  | ContextUnlockMemory
  | CopyFromFramebuffer (framebufferIndex destX destY : Z) (rgn : option IOAccelDeviceRegion) (rgnSize : Z)
  | CopyFromSurface (src : source) (destX destY : Z) (rgn : option IOAccelDeviceRegion) (rgnSize : Z)
  | FlushVideo
  | AttachGL (cmb : Z)
  | ResizeGL
  | DetachGL
  | TouchRenderTarget
  | VideoOff
  | CopyToFramebuffer (rgn : option IOAccelDeviceRegion) (rgnSize : Z).

Definition exec (c : surface_op) s : prog (IOReturn * Surface) :=
  match c with
  | ReadLock infoSize => r ← surface_read_lock_options infoSize s; mret (r.1.1, r.2)
  | ReadUnlock => mret (surface_read_unlock_options s)
  | GetState => mret (get_state.1, s)
  | WriteLock infoSize => r ← surface_write_lock_options infoSize s; mret (r.1.1, r.2)
  | WriteUnlock => mret (surface_write_unlock_options s)
  | Read => mret (surface_read, s)
  | SetShapeBacking options framebufferIndex backing rowbytes backingLength rgn rgnSize =>
      set_shape_backing_length_ext options framebufferIndex backing rowbytes backingLength rgn rgnSize s
  | SetIDMode wID modebits => set_id_mode wID modebits s
  | SetScale scaling scalingSize => mret (set_scale scaling scalingSize s)
  | SetShape options framebufferIndex rgn rgnSize => set_shape options framebufferIndex rgn rgnSize s
  | Flush framebufferMask => surface_flush framebufferMask s
  | QueryLock => mret (surface_query_lock s, s)
  | Control selector => mret ((surface_control selector).1, s)
  | ContextSetSurface cecl_pixel_format apple_pixel_format => context_set_surface cecl_pixel_format apple_pixel_format s
  | ContextScaleSurface options width height => mret (context_scale_surface options width height s)
  | ContextLockMemory task => r ← context_lock_memory task s; mret (r.1.1, r.2)
  | ContextUnlockMemory => context_unlock_memory s
  | CopyFromFramebuffer framebufferIndex destX destY rgn rgnSize =>
      r ← copy_framebuffer_region_to_self framebufferIndex destX destY rgn rgnSize s; mret (r.1.1, r.2)
  | CopyFromSurface src destX destY rgn rgnSize =>
      r ← copy_surface_region_to_self src destX destY rgn rgnSize s; mret (r.1.1, r.2)
  | FlushVideo => surface_flush_video s
  | AttachGL cmb => attachGL cmb s
  | ResizeGL => resizeGL s
  | DetachGL => detachGL s
  | TouchRenderTarget => s ← touchRenderTarget s; mret (kIOReturnSuccess, s)
  | VideoOff => s ← surface_video_off s; mret (kIOReturnSuccess, s)
  | CopyToFramebuffer rgn rgnSize => mret (copy_self_region_to_framebuffer rgn rgnSize, s)
  end.
