(* ===== verification/SurfaceLogic.v ===== *)
(** A logic for the programs of user clients.  What a client owns (ids, surfaces of the
    device, memory regions, streams, blocks of video memory, objects of the kernel,
    prepared descriptors, shares of the master surface) is a value, apart from what
    other clients own; an observer of the commands and of the points at which the driver
    waits knows which surfaces exist on the device and whether the device may still be
    working on memory.  Each request has a rule that says how it changes what is owned. *)

From S2P Require Import Allocator.
From S2P Require Import AllocatorLists AllocatorProofs AllocatorMalloc AllocatorFree AllocatorRealloc AllocatorSpec.
From S2P Require Import Prelude IOKit Layout SvgaReg SvgaCmd Svga3dReg Svga3d AccelIds AccelBlit Accel AccelProofs AccelSpec.
From S2P Require Import ShaderCache Provider Kernel.
From stdpp Require Import gmap gmultiset.
From stdpp Require Import list_relations list.

#[local] Open Scope Z_scope.

Local Abbreviation prog := (prog kernel).
Local Abbreviation world := (world kernel).

(** ** The observer *)

(** The surfaces of the device; the descriptors whose pages it was given; whether there are transfers that no fence follows; the
    fences behind the last transfer, of which none was waited for; and whether memory
    was only given back while the device was not working on any. *)
Record monitor := mk_monitor { g_sids : gset Z; g_pages : gset Z; g_open : bool; g_fences : list Z; g_safe : bool }.

Definition quiet (g : monitor) : bool := negb g.(g_open) && bool_decide (g.(g_fences) = []).

Definition observe_cmd (g : monitor) (c : acmd) : monitor :=
  match c with
  | In3D (SurfaceDefine a _) => mk_monitor ({[a.(SVGA3dCmdDefineSurface_sid)]} ∪ g.(g_sids)) g.(g_pages) g.(g_open) g.(g_fences) g.(g_safe)
  | In3D (SurfaceDestroy a) => mk_monitor (g.(g_sids) ∖ {[a.(SVGA3dCmdDestroySurface_sid)]}) g.(g_pages) g.(g_open) g.(g_fences) g.(g_safe)
  | In3D (SurfaceDMA _ _ _) | In2D (CmdDefineGMRFB _) | In2D (CmdBlitGMRFBToScreen _) | In2D (CmdBlitScreenToGMRFB _) =>
      mk_monitor g.(g_sids) g.(g_pages) true [] g.(g_safe)
  | In2D (CmdFence a) =>
      if g.(g_open) then mk_monitor g.(g_sids) g.(g_pages) false [a.(SVGAFifoCmdFence_fence)] g.(g_safe)
      else match g.(g_fences) with
           | [] => g
           | l => mk_monitor g.(g_sids) g.(g_pages) false (a.(SVGAFifoCmdFence_fence) :: l) g.(g_safe)
           end
  | _ => g
  end.

Definition returned (g : monitor) : monitor := mk_monitor g.(g_sids) g.(g_pages) g.(g_open) g.(g_fences) (g.(g_safe) && quiet g).

Definition observe (g : monitor) (e : event) : monitor :=
  match e with
  | Sent c => observe_cmd g c
  | Waited f => if bool_decide (f ∈ g.(g_fences)) then mk_monitor g.(g_sids) g.(g_pages) g.(g_open) [] g.(g_safe) else g
  | Drained => mk_monitor g.(g_sids) g.(g_pages) false [] g.(g_safe)
  | Told (Region _ ppn) => if ppn =? 0 then returned g else g
  | Told (VramReturned _) => returned g
  | Told (PagesGiven d) => mk_monitor g.(g_sids) ({[d]} ∪ g.(g_pages)) g.(g_open) g.(g_fences) g.(g_safe)
  | Told (PagesReturned d) => if bool_decide (d ∈ g.(g_pages)) then returned g else g
  end.

Definition watch (g : monitor) (es : list event) : monitor := foldl observe g es.

(** ** Total correctness *)

Definition post (A : Type) : Type := A -> world -> Z -> monitor -> Prop.

(** The program ends without a wild access, in a state that satisfies [Q]. *)
Definition wp {A} (p : prog A) (Q : post A) (w : world) (nf : Z) (g : monitor) : Prop :=
  exists t, spec p w nf = Some t /\ Q t.(t_result) t.(t_world) t.(t_next) (watch g t.(t_events)).

Lemma watch_app g l l' : watch g (l ++ l') = watch (watch g l) l'.
Proof. apply foldl_app. Qed.

Section rules.
Context {A B : Type}.
Implicit Types (w : world) (nf : Z) (g : monitor).

Lemma wp_ret (a : A) (Q : post A) w nf g : Q a w nf g -> wp (mret a) Q w nf g.
Proof. intros H. eexists. by split. Qed.

Lemma wp_bind (p : prog A) (f : A -> prog B) (Q : post B) w nf g :
  wp p (fun a => wp (f a) Q) w nf g -> wp (p ≫= f) Q w nf g.
Proof.
  intros (t & Et & t' & Et' & HQ). rewrite <-watch_app in HQ. unfold wp. rewrite spec_bind, Et. cbn [mbind option_bind].
  rewrite Et'. eexists. by split.
Qed.

Lemma wp_mono (p : prog A) (Q Q' : post A) w nf g :
  wp p Q w nf g -> (forall a w nf g, Q a w nf g -> Q' a w nf g) -> wp p Q' w nf g.
Proof. intros (t & Et & HQ) Himp. exists t. auto. Qed.

Lemma wp_wand (p : prog A) (f : A -> prog B) (Q : post B) (Q' : post A) w nf g :
  wp p Q' w nf g -> (forall a w nf g, Q' a w nf g -> wp (f a) Q w nf g) -> wp (p ≫= f) Q w nf g.
Proof. intros Hp Hf. apply wp_bind. by eapply wp_mono. Qed.
End rules.

Section requests.
Implicit Types (w : world) (nf : Z) (g : monitor).

Lemma wp_state {B : Set} (f : world -> B * world) (Q : post B) w nf g : Q (f w).1 (f w).2 nf g -> wp (state f) Q w nf g.
Proof. unfold wp. cbn. destruct (f w) as [b w']. intros H. eexists. by split. Qed.

Lemma wp_gets {B : Set} (f : kernel -> B) (Q : post B) w nf g : Q (f w.(w_client)) w nf g -> wp (gets f) Q w nf g.
Proof. apply (wp_state (fun w => (f w.(w_client), w))). Qed.

Lemma wp_modify (f : kernel -> kernel) (Q : post unit) w nf g :
  Q tt (set_client (f w.(w_client)) w) nf g -> wp (modify f) Q w nf g.
Proof. apply (wp_state (fun w => (tt, set_client (f w.(w_client)) w))). Qed.

Lemma wp_ask op (Q : post _) w nf g :
  let o := accel_spec w.(w_accel) nf op in
  Q o.(o_result) (set_accel o.(o_accel) w) o.(o_next) (watch g (Sent <$> o.(o_cmds))) -> wp (ask op) Q w nf g.
Proof. cbv zeta. intros H. eexists. split; [reflexivity|]. cbn [t_result t_world t_next t_events]. by rewrite app_nil_r. Qed.

Lemma wp_tells t (Q : post unit) w nf g : Q tt w nf (observe g (Told t)) -> wp (tells t) Q w nf g.
Proof. intros H. eexists. split; [reflexivity|]. done. Qed.

Lemma wp_sync_to f (Q : post unit) w nf g : w.(w_accel).(m_framebuffer) = true ->
  Q tt w nf (observe g (Waited f)) -> wp (sync_to f) Q w nf g.
Proof. intros E H. eexists. split; [reflexivity|]. cbn. by rewrite E. Qed.

Lemma wp_sync_all (Q : post unit) w nf g : w.(w_accel).(m_framebuffer) = true ->
  Q tt w nf (observe g Drained) -> wp sync_all Q w nf g.
Proof. intros E H. eexists. split; [reflexivity|]. cbn. by rewrite E. Qed.

Lemma wp_answer (Q : post Z) w nf g :
  (forall a, Q a (set_client (set_pos (S w.(w_client).(k_pos)) w.(w_client)) w) nf g) -> wp answer Q w nf g.
Proof. intros H. apply (wp_state (fun w => _)). cbn. apply H. Qed.

Lemma wp_deref {A} (p : option A) a (Q : post A) w nf g : p = Some a -> Q a w nf g -> wp (deref p) Q w nf g.
Proof. intros ->. apply wp_ret. Qed.
End requests.

(** ** What is owned *)

(** The client's part.  [r_n] bounds the number of id operations so far; named ids have no surface on
    the device, live ones have; [r_fences] are the fences behind the last transfer. *)
Record res := mk_res {
  r_n : Z;
  r_named : list Z;
  r_live : list Z;
  r_masters : Z;
  r_gmrs : list Z;
  r_streams : list Z;
  r_blocks : list (Z * Z);
  r_refs : list Z;
  r_prep : list Z;
  r_open : bool;
  r_fences : list Z;
}.

Definition set_r_n (x : Z) (ρ : res) : res :=
  mk_res x ρ.(r_named) ρ.(r_live) ρ.(r_masters) ρ.(r_gmrs) ρ.(r_streams) ρ.(r_blocks) ρ.(r_refs) ρ.(r_prep) ρ.(r_open)
    ρ.(r_fences).
Definition set_r_named (x : list Z) (ρ : res) : res :=
  mk_res ρ.(r_n) x ρ.(r_live) ρ.(r_masters) ρ.(r_gmrs) ρ.(r_streams) ρ.(r_blocks) ρ.(r_refs) ρ.(r_prep) ρ.(r_open)
    ρ.(r_fences).
Definition set_r_live (x : list Z) (ρ : res) : res :=
  mk_res ρ.(r_n) ρ.(r_named) x ρ.(r_masters) ρ.(r_gmrs) ρ.(r_streams) ρ.(r_blocks) ρ.(r_refs) ρ.(r_prep) ρ.(r_open)
    ρ.(r_fences).
Definition set_r_masters (x : Z) (ρ : res) : res :=
  mk_res ρ.(r_n) ρ.(r_named) ρ.(r_live) x ρ.(r_gmrs) ρ.(r_streams) ρ.(r_blocks) ρ.(r_refs) ρ.(r_prep) ρ.(r_open)
    ρ.(r_fences).
Definition set_r_gmrs (x : list Z) (ρ : res) : res :=
  mk_res ρ.(r_n) ρ.(r_named) ρ.(r_live) ρ.(r_masters) x ρ.(r_streams) ρ.(r_blocks) ρ.(r_refs) ρ.(r_prep) ρ.(r_open)
    ρ.(r_fences).
Definition set_r_streams (x : list Z) (ρ : res) : res :=
  mk_res ρ.(r_n) ρ.(r_named) ρ.(r_live) ρ.(r_masters) ρ.(r_gmrs) x ρ.(r_blocks) ρ.(r_refs) ρ.(r_prep) ρ.(r_open)
    ρ.(r_fences).
Definition set_r_blocks (x : list (Z * Z)) (ρ : res) : res :=
  mk_res ρ.(r_n) ρ.(r_named) ρ.(r_live) ρ.(r_masters) ρ.(r_gmrs) ρ.(r_streams) x ρ.(r_refs) ρ.(r_prep) ρ.(r_open)
    ρ.(r_fences).
Definition set_r_refs (x : list Z) (ρ : res) : res :=
  mk_res ρ.(r_n) ρ.(r_named) ρ.(r_live) ρ.(r_masters) ρ.(r_gmrs) ρ.(r_streams) ρ.(r_blocks) x ρ.(r_prep) ρ.(r_open)
    ρ.(r_fences).
Definition set_r_prep (x : list Z) (ρ : res) : res :=
  mk_res ρ.(r_n) ρ.(r_named) ρ.(r_live) ρ.(r_masters) ρ.(r_gmrs) ρ.(r_streams) ρ.(r_blocks) ρ.(r_refs) x ρ.(r_open)
    ρ.(r_fences).
Definition set_r_open (x : bool) (ρ : res) : res :=
  mk_res ρ.(r_n) ρ.(r_named) ρ.(r_live) ρ.(r_masters) ρ.(r_gmrs) ρ.(r_streams) ρ.(r_blocks) ρ.(r_refs) ρ.(r_prep) x
    ρ.(r_fences).
Definition set_r_fences (x : list Z) (ρ : res) : res :=
  mk_res ρ.(r_n) ρ.(r_named) ρ.(r_live) ρ.(r_masters) ρ.(r_gmrs) ρ.(r_streams) ρ.(r_blocks) ρ.(r_refs) ρ.(r_prep)
    ρ.(r_open) x.

(** What does not change while the client runs: limits, flags of the accelerator, and
    what the other clients own. *)
Record env := mk_env {
  e_limit : Z; e_3d : bool; e_screen : bool; e_options : Z;
  e_surfaces : list Z; e_masters : Z; e_gmrs : list Z; e_streams : list Z;
  e_blocks : list (Z * Z); e_pool : Z; e_refs : gset Z; e_prep : gmultiset Z;
  e_tested : bool;   (** whether the device was tested for its bug in copies *)
}.

(** The master surface exists while somebody retains it. *)
Definition master_ids (a : Accel) : list Z := if 0 <? a.(m_master_surface_retain_count) then [a.(m_master_surface_id)] else [].

Record accel_owned (E : env) (ρ : res) (a : Accel) (sids : gset Z) : Prop := {
  ao_ids : exists h, ids_ok E.(e_limit) ρ.(r_n) a.(m_ids) h /\
    h.(h_surfaces) ≡ₚ ρ.(r_named) ++ ρ.(r_live) ++ master_ids a ++ E.(e_surfaces) /\
    h.(h_streams) ≡ₚ ρ.(r_streams) ++ E.(e_streams) /\ h.(h_gmrs) ≡ₚ ρ.(r_gmrs) ++ E.(e_gmrs);
  ao_n : 0 <= ρ.(r_n);
  ao_limit : 0 <= E.(e_limit) <= 128;
  ao_flags : a.(m_framebuffer) = true /\ a.(bHaveSVGA3D) = E.(e_3d) /\ a.(bHaveScreenObject) = E.(e_screen) /\
    a.(ce1_options_ac) = E.(e_options);
  ao_master : a.(m_master_surface_retain_count) = ρ.(r_masters) + E.(e_masters) /\
    0 <= ρ.(r_masters) < 2 ^ 30 /\ 0 <= E.(e_masters) < 2 ^ 30;
  ao_no3d : E.(e_3d) = false -> ρ.(r_live) = [] /\ a.(m_master_surface_retain_count) = 0;
  ao_sids : sids = list_to_set (ρ.(r_live) ++ master_ids a ++ E.(e_surfaces));
}.

Definition vram_owned (E : env) (blocks : list (Z * Z)) (v : CEsvga2Allocator) : Prop :=
  v.(poolStart) = E.(e_pool) /\ 0 < E.(e_pool) /\ exists F, inv v F (blocks ++ E.(e_blocks)).

Record kernel_owned (E : env) (refs prep : list Z) (k : kernel) : Prop := {
  ko_live : k.(k_live) = list_to_set refs ∪ E.(e_refs);
  ko_nodup : NoDup refs;
  ko_apart x : x ∈ refs -> x ∉ E.(e_refs);
  ko_fresh x : x ∈ k.(k_live) -> x < k.(k_fresh);
  ko_prep : k.(k_prepared) = list_to_set_disj prep ⊎ E.(e_prep);
  ko_tested : E.(e_tested) = true -> k.(k_blitbug) <> kIOReturnNotFound;
}.

Record owns (E : env) (ρ : res) (w : world) (g : monitor) : Prop := {
  ow_accel : accel_owned E ρ w.(w_accel) g.(g_sids);
  ow_vram : vram_owned E ρ.(r_blocks) w.(w_vram);
  ow_kernel : kernel_owned E ρ.(r_refs) ρ.(r_prep) w.(w_client);
  ow_open : g.(g_open) = ρ.(r_open);
  ow_fences : g.(g_fences) = ρ.(r_fences);
  ow_safe : g.(g_safe) = true /\ forall x, x ∈ g.(g_pages) -> x < w.(w_client).(k_fresh);
}.

(** Resources up to the order of lists; the bound may grow. *)
Record res_le (ρ ρ' : res) : Prop := {
  le_n : ρ.(r_n) <= ρ'.(r_n);
  le_named : ρ.(r_named) ≡ₚ ρ'.(r_named);
  le_live : ρ.(r_live) ≡ₚ ρ'.(r_live);
  le_masters : ρ.(r_masters) = ρ'.(r_masters);
  le_gmrs : ρ.(r_gmrs) ≡ₚ ρ'.(r_gmrs);
  le_streams : ρ.(r_streams) ≡ₚ ρ'.(r_streams);
  le_blocks : ρ.(r_blocks) ≡ₚ ρ'.(r_blocks);
  le_refs : ρ.(r_refs) ≡ₚ ρ'.(r_refs);
  le_prep : ρ.(r_prep) ≡ₚ ρ'.(r_prep);
  le_open : ρ.(r_open) = ρ'.(r_open);
  le_fences : ρ.(r_fences) = ρ'.(r_fences);
}.

#[global] Instance res_le_preorder : PreOrder res_le.
Proof.
  split; [intros ρ; by split|]. intros ρ1 ρ2 ρ3 [] []. split; try congruence; try (etrans; eassumption).
Qed.

Lemma ids_ok_le limit n n' i h : n <= n' -> ids_ok limit n i h -> ids_ok limit n' i h.
Proof. intros Hn [H1 H2 H3 H4 [H5 H6]]. split; try done. lia. Qed.

(** A list that is a permutation is the same set of surfaces, blocks and objects. *)
Lemma accel_owned_le E ρ ρ' a sids : res_le ρ ρ' -> accel_owned E ρ a sids -> accel_owned E ρ' a sids.
Proof.
  intros [Hn Hnm Hlv Hm Hg Hs _ _ _ _ _] [(h & Hi & P1 & P2 & P3) A2 A3 A4 A5 A6 A7]. split; try done; [|lia|by rewrite <-Hm| |].
  - exists h. split; [by eapply ids_ok_le|]. by rewrite <-Hnm, <-Hlv, <-Hg, <-Hs.
  - intros H3. destruct (A6 H3) as [E1 E2]. split; [|done]. rewrite E1 in Hlv. by apply Permutation_nil_l in Hlv.
  - rewrite A7. apply list_to_set_perm_L. by rewrite Hlv.
Qed.

Lemma owns_le E ρ ρ' w g : res_le ρ ρ' -> owns E ρ w g -> owns E ρ' w g.
Proof.
  intros Hle [Ha (V1 & V2 & F & V3) [K1 K2 K3 K4 K5 K6] Ho Hf [Hsf Hpg]]. pose proof Hle as [_ _ _ _ _ _ Hb Hr Hp Hop Hfe]. split; try congruence.
  - by eapply accel_owned_le.
  - split; [done|]. split; [done|]. exists F. eapply inv_perm; [|exact V3]. by rewrite Hb.
  - split; [by rewrite K1, (list_to_set_perm_L _ _ Hr)|by rewrite <-Hr| |done|by rewrite K5, (list_to_set_disj_perm _ _ Hp)|done].
    intros x Hx. apply K3. by rewrite Hr.
  - done.
Qed.

(** ** Ids and surfaces *)

Section accel_rules.
Context (E : env).
Implicit Types (w : world) (nf : Z) (g : monitor) (ρ : res).

(** A change of the accelerator alone. *)
Lemma owns_accel ρ ρ' w g a' :
  owns E ρ w g -> accel_owned E ρ' a' g.(g_sids) -> ρ'.(r_blocks) = ρ.(r_blocks) -> ρ'.(r_refs) = ρ.(r_refs) ->
  ρ'.(r_prep) = ρ.(r_prep) -> ρ'.(r_open) = ρ.(r_open) -> ρ'.(r_fences) = ρ.(r_fences) -> owns E ρ' (set_accel a' w) g.
Proof. intros [] Ha E1 E2 E3 E4 E5. split; cbn; rewrite ?E1, ?E2, ?E3, ?E4, ?E5; done. Qed.

Lemma id_valid r : 0 <= r < 2 ^ 31 -> isIdValid r = true.
Proof. intros Hr. unfold isIdValid. apply Z.leb_le. rewrite s32_small by lia. lia. Qed.

Lemma held_valid limit n i h r : ids_ok limit n i h -> n < 2 ^ 30 + 1 -> r ∈ h.(h_surfaces) -> 0 <= r < 2 ^ 31.
Proof.
  intros [(_ & _ & Hall & _) _ _ _ [Hu _]] Hn Hr. rewrite Forall_forall in Hall. specialize (Hall r Hr). lia.
Qed.

Lemma wp_allocSurfaceID ρ (Q : post Z) w nf g : owns E ρ w g -> ρ.(r_n) < 2 ^ 30 ->
  (forall r w', isIdValid r = true -> owns E (set_r_n (ρ.(r_n) + 1) (set_r_named (r :: ρ.(r_named)) ρ)) w' g ->
     w'.(w_accel).(m_ids).(m_surface_ids_unmanaged) <= w.(w_accel).(m_ids).(m_surface_ids_unmanaged) + 1 ->
     w'.(w_client) = w.(w_client) -> w'.(w_vram) = w.(w_vram) -> Q r w' nf g) ->
  wp allocSurfaceID Q w nf g.
Proof.
  intros Ho Hn HQ. pose proof Ho as [[(h & Hi & P1 & P2 & P3) A2 A3 A4 A5 A6 A7] _ _ _ _ _].
  destruct (alloc_surface E.(e_limit) ρ.(r_n) _ h ltac:(lia) Hi) as (r & i & Er & _ & Hi'). apply wp_state. cbn.
  assert (i.(m_surface_ids_unmanaged) <= w.(w_accel).(m_ids).(m_surface_ids_unmanaged) + 1) as Hum.
  { revert Er. unfold AllocSurfaceID. destruct (find_bit_in_array64 _ _ _ _) as [x mask]. pose proof Hi as [(_ & _ & _ & Hu) _ _ _ _].
    case_match; intros [= <- <-]; cbn; [|lia]. pose proof (ok_unmanaged _ _ _ _ Hi). rewrite wrap_small by (split; lia). lia. }
  rewrite Er. cbn. apply HQ; [|eapply owns_accel; [exact Ho|..]; try done|done|done|done].
  - apply id_valid, (held_valid _ _ _ _ _ Hi' ltac:(lia)). by left.
  - split; cbn; try done; [|lia]. eexists. split; [exact Hi'|]. cbn. by rewrite P1.
Qed.

Lemma wp_freeSurfaceID ρ l sid (Q : post unit) w nf g : owns E ρ w g -> ρ.(r_named) ≡ₚ sid :: l ->
  (forall w', owns E (set_r_n (ρ.(r_n) + 1) (set_r_named l ρ)) w' g ->
     w'.(w_client) = w.(w_client) -> w'.(w_vram) = w.(w_vram) -> Q tt w' nf g) ->
  wp (freeSurfaceID sid) Q w nf g.
Proof.
  intros Ho HP HQ. pose proof Ho as [[(h & Hi & P1 & P2 & P3) A2 A3 A4 A5 A6 A7] _ _ _ _ _]. apply wp_state. cbn.
  apply HQ; [|done..]. eapply owns_accel; [exact Ho|..]; try done. split; cbn; try done; [|lia].
  eexists. split; [apply (free_surface _ _ _ _ Hi sid (l ++ ρ.(r_live) ++ master_ids w.(w_accel) ++ E.(e_surfaces)))|done].
  by rewrite P1, HP.
Qed.

Lemma set_accel_id w : set_accel w.(w_accel) w = w.
Proof. by destruct w. Qed.

Lemma wp_createSurface ρ l sid flags format width height (Q : post _) w nf g :
  owns E ρ w g -> ρ.(r_named) ≡ₚ sid :: l ->
  (E.(e_3d) = true -> forall g', owns E (set_r_live (sid :: ρ.(r_live)) (set_r_named l ρ)) w g' -> Q (kIOReturnSuccess, None) w nf g') ->
  (E.(e_3d) = false -> Q (kIOReturnNoDevice, None) w nf g) ->
  wp (ask (OpCreateSurface sid flags format width height)) Q w nf g.
Proof.
  intros Ho HP H3 Hn3. apply wp_ask. pose proof Ho as [[(h & Hi & P1 & P2 & P3) A2 A3 (F1 & F2 & F3) A5 A6 A7] V K Hop Hfe [Hsf Hpg]].
  cbn [accel_spec]. destruct (bHaveSVGA3D (w_accel w)) eqn:E3; cbn; rewrite set_accel_id; [|by apply Hn3].
  apply H3; [done|]. split; cbn; try done. split; cbn; try done; [|by rewrite E3|intros; congruence|by rewrite A7].
  exists h. split; [done|]. split; [|done]. rewrite P1, HP. solve_Permutation.
Qed.

Lemma difference_one (sid : Z) l : sid ∉ l -> (list_to_set (sid :: l) : gset Z) ∖ {[sid]} = list_to_set l.
Proof.
  intros Hni. apply set_eq. intros x. rewrite elem_of_difference, elem_of_singleton, !elem_of_list_to_set, elem_of_cons.
  split; [by intros [[->|Hx] Hne]|]. intros Hx. split; [by right|]. by intros ->.
Qed.

Lemma wp_destroySurface ρ l sid (Q : post _) w nf g :
  owns E ρ w g -> ρ.(r_live) ≡ₚ sid :: l ->
  (forall g', owns E (set_r_live l (set_r_named (sid :: ρ.(r_named)) ρ)) w g' -> Q (kIOReturnSuccess, None) w nf g') ->
  wp (ask (OpDestroySurface sid)) Q w nf g.
Proof.
  intros Ho HP HQ. apply wp_ask. pose proof Ho as [[(h & Hi & P1 & P2 & P3) A2 A3 (F1 & F2 & F3) A5 A6 A7] V K Hop Hfe [Hsf Hpg]].
  cbn [accel_spec]. destruct (bHaveSVGA3D (w_accel w)) eqn:E3.
  2: { destruct (A6 (eq_sym F2)) as [El _]. rewrite El in HP. by apply Permutation_nil_cons in HP. }
  cbn. rewrite set_accel_id. apply HQ. split; cbn; try done. split; cbn; try done; [|by rewrite E3|intros; congruence|].
  - exists h. split; [done|]. split; [|done]. rewrite P1, HP. solve_Permutation.
  - rewrite A7. assert (NoDup (sid :: l ++ master_ids (w_accel w) ++ e_surfaces E)) as Hnd.
    { destruct Hi as [(_ & Hnd & _) _ _ _ _]. rewrite P1, HP in Hnd. apply NoDup_app in Hnd as (_ & _ & Hnd). done. }
    apply NoDup_cons in Hnd as [Hni _]. rewrite (list_to_set_perm_L _ (sid :: l ++ master_ids (w_accel w) ++ e_surfaces E)) by by rewrite HP.
    by apply difference_one.
Qed.

(** *** Transfers *)

(** A change of the observer alone. *)
Lemma owns_monitor ρ w g op fe : owns E ρ w g -> owns E (set_r_open op (set_r_fences fe ρ)) w (mk_monitor g.(g_sids) g.(g_pages) op fe true).
Proof. intros [[] V K ? ? [? ?]]. split; [by split|exact V|exact K|done..]. Qed.

Lemma fence_no_pos nf : fence_no nf <> 0.
Proof. unfold fence_no. destruct (Z.eqb_spec nf 0); lia. Qed.

(** Commands that move memory leave transfers open, and the fence behind them closes them. *)
Lemma wp_transfer ρ op cmds (Q : post _) w nf g :
  owns E ρ w g -> accel_spec w.(w_accel) nf op = sends_fence true w.(w_accel) nf cmds ->
  (forall g, watch g (Sent <$> cmds) = mk_monitor g.(g_sids) g.(g_pages) true [] g.(g_safe)) ->
  (forall f nf' g', f <> 0 -> owns E (set_r_open false (set_r_fences [f] ρ)) w g' -> Q (kIOReturnSuccess, Some f) w nf' g') ->
  wp (ask op) Q w nf g.
Proof.
  intros Ho Eo Hc HQ. apply wp_ask. rewrite Eo. cbn [sends_fence o_result o_accel o_next o_cmds].
  rewrite set_accel_id, fmap_app, watch_app, Hc. apply HQ; [apply fence_no_pos|].
  pose proof Ho as [_ _ _ _ _ [Hs _]]. rewrite Hs. exact (owns_monitor ρ w g false [fence_no nf] Ho).
Qed.

Lemma wp_surfaceDMA2D ρ sid transfer rgn extra (Q : post _) w nf g : owns E ρ w g ->
  (E.(e_3d) = true -> forall f nf' g', f <> 0 -> owns E (set_r_open false (set_r_fences [f] ρ)) w g' ->
     Q (kIOReturnSuccess, Some f) w nf' g') ->
  (E.(e_3d) = false -> Q (kIOReturnNoDevice, None) w nf g) ->
  wp (ask (OpSurfaceDMA2D sid transfer rgn (Some extra) true)) Q w nf g.
Proof.
  intros Ho H3 Hn3. pose proof Ho as [[_ _ _ (_ & F2 & _) _ _ _] _ _ _ _ _]. destruct (e_3d E) eqn:E3.
  - eapply wp_transfer; [done|cbn [accel_spec]; by rewrite F2|done|by apply H3].
  - apply wp_ask. cbn [accel_spec]. rewrite F2. cbn. rewrite set_accel_id. by apply Hn3.
Qed.

Lemma wp_surfaceDMA3D ρ image transfer box extra (Q : post _) w nf g : owns E ρ w g ->
  (E.(e_3d) = true -> forall f nf' g', f <> 0 -> owns E (set_r_open false (set_r_fences [f] ρ)) w g' ->
     Q (kIOReturnSuccess, Some f) w nf' g') ->
  (E.(e_3d) = false -> Q (kIOReturnNoDevice, None) w nf g) ->
  wp (ask (OpSurfaceDMA3D image transfer (Some box) (Some extra) true)) Q w nf g.
Proof.
  intros Ho H3 Hn3. pose proof Ho as [[_ _ _ (_ & F2 & _) _ _ _] _ _ _ _ _]. destruct (e_3d E) eqn:E3.
  - eapply wp_transfer; [done|cbn [accel_spec]; by rewrite F2|done|by apply H3].
  - apply wp_ask. cbn [accel_spec]. rewrite F2. cbn. rewrite set_accel_id. by apply Hn3.
Qed.

(** A transfer that no fence follows. *)
Lemma wp_surfaceDMA2D_open ρ sid transfer rgn extra (Q : post _) w nf g : owns E ρ w g -> E.(e_3d) = true ->
  (forall g', owns E (set_r_open true (set_r_fences [] ρ)) w g' -> Q (kIOReturnSuccess, None) w nf g') ->
  wp (ask (OpSurfaceDMA2D sid transfer rgn (Some extra) false)) Q w nf g.
Proof.
  intros Ho E3 HQ. pose proof Ho as [[_ _ _ (_ & F2 & _) _ _ _] _ _ _ _ [Hs _]]. apply wp_ask. cbn [accel_spec]. rewrite F2, E3. cbn.
  rewrite set_accel_id, Hs. apply HQ. exact (owns_monitor ρ w g true [] Ho).
Qed.

Lemma watch_blits {B} (f : B -> acmd) extra l g : (forall x g, observe_cmd g (f x) = mk_monitor g.(g_sids) g.(g_pages) true [] g.(g_safe)) ->
  watch g (Sent <$> gmrfb extra :: (f <$> l)) = mk_monitor g.(g_sids) g.(g_pages) true [] g.(g_safe).
Proof.
  intros Hf. rewrite fmap_cons. unfold watch. cbn [foldl observe]. change (observe_cmd g (gmrfb extra)) with (mk_monitor g.(g_sids) g.(g_pages) true [] g.(g_safe)).
  set (g1 := mk_monitor _ _ _ _ _). assert (g1 = mk_monitor g1.(g_sids) g1.(g_pages) true [] g1.(g_safe)) as Eg by done.
  clearbody g1. revert g1 Eg. induction l as [|x l IH]; intros g1 Eg; [done|]. cbn. rewrite Hf. rewrite <-Eg. by apply IH.
Qed.

Lemma wp_blit ρ op (Q : post _) w nf g : owns E ρ w g ->
  (exists screen rgn extra, op = OpBlitFromScreen screen rgn (Some extra) true \/ op = OpBlitToScreen screen rgn (Some extra) true) ->
  (E.(e_screen) = true -> forall f nf' g', f <> 0 -> owns E (set_r_open false (set_r_fences [f] ρ)) w g' ->
     Q (kIOReturnSuccess, Some f) w nf' g') ->
  (E.(e_screen) = false -> Q (kIOReturnNoDevice, None) w nf g) ->
  wp (ask op) Q w nf g.
Proof.
  intros Ho (screen & rgn & extra & Eop) Hs Hns. pose proof Ho as [[_ _ _ (_ & _ & F3 & _) _ _ _] _ _ _ _ _].
  destruct (e_screen E) eqn:Es.
  - destruct Eop as [-> | ->]; (eapply wp_transfer; [done|cbn [accel_spec]; by rewrite F3| |by apply Hs]);
      intros g'; by apply watch_blits.
  - apply wp_ask. destruct Eop as [-> | ->]; cbn [accel_spec]; rewrite F3; cbn; rewrite set_accel_id; by apply Hns.
Qed.

(** *** Requests that move no memory and concern no surface *)

Definition harmless (op : accel_op) : bool :=
  match op with
  | OpSurfaceCopy _ _ _ _ | OpSurfaceStretch _ _ _ _ _ | OpPresent _ _ _ | OpBlitSurface _ _ _ _ | OpUpdate _
  | OpVideoSetReg _ _ _ _ | OpVideoSetRegs _ _ _ _ _ | OpPrimaryScreen _ _ | OpRectCopy _ | OpRectFill _ _ | OpCopyRegion _ _ _ _ _ => true
  | _ => false
  end.
Definition harmless_cmd (c : acmd) : bool :=
  match c with
  | In3D (SurfaceDefine _ _) | In3D (SurfaceDestroy _) | In3D (SurfaceDMA _ _ _) | In2D (CmdDefineGMRFB _)
  | In2D (CmdBlitGMRFBToScreen _) | In2D (CmdBlitScreenToGMRFB _) => false
  | _ => true
  end.

(** Fences that come later are behind the last transfer, if there was one. *)
Definition later (l l' : list Z) : Prop := (l = [] -> l' = []) /\ (forall f, f ∈ l -> f ∈ l').

Lemma later_refl l : later l l.
Proof. by split. Qed.

Lemma harmless_observe g c : harmless_cmd c = true -> g.(g_open) = false -> exists l,
  observe_cmd g c = mk_monitor g.(g_sids) g.(g_pages) false l g.(g_safe) /\ later g.(g_fences) l.
Proof.
  intros Hc Ho. assert (observe_cmd g c = g -> exists l, observe_cmd g c = mk_monitor g.(g_sids) g.(g_pages) false l g.(g_safe) /\ later g.(g_fences) l)
    as Hsame. { intros ->. exists g.(g_fences). split; [|apply later_refl]. by destruct g; cbn in *; subst. }
  destruct c as [c|c]; destruct c; try discriminate Hc; try (by apply Hsame). cbn [observe_cmd]. rewrite Ho.
  destruct (g_fences g) eqn:Ef.
  - exists []. split; [by destruct g; cbn in *; subst|done].
  - eexists. split; [done|]. split; [done|]. intros f Hf. by right.
Qed.

Lemma harmless_watch cmds : forall g, Forall (fun c => harmless_cmd c = true) cmds -> g.(g_open) = false -> exists l,
  watch g (Sent <$> cmds) = mk_monitor g.(g_sids) g.(g_pages) false l g.(g_safe) /\ later g.(g_fences) l.
Proof.
  induction cmds as [|c cmds IH]; intros g Hall Ho.
  - exists g.(g_fences). split; [|apply later_refl]. by destruct g; cbn in *; subst.
  - apply Forall_cons in Hall as [Hc Hall]. destruct (harmless_observe g c Hc Ho) as (l & E1 & Hl1 & Hl2).
    destruct (IH (observe_cmd g c) Hall) as (l' & E2 & Hl1' & Hl2'); [by rewrite E1|]. exists l'.
    split; [change (watch (observe_cmd g c) (Sent <$> cmds) = mk_monitor (g_sids g) (g_pages g) false l' (g_safe g)); rewrite E2; by rewrite E1|].
    rewrite E1 in Hl1', Hl2'. cbn in Hl1', Hl2'. split; auto.
Qed.

(** What an operation may change of the accelerator's object does not matter here. *)
Definition same_accel (a a' : Accel) : Prop :=
  a'.(m_framebuffer) = a.(m_framebuffer) /\ a'.(bHaveSVGA3D) = a.(bHaveSVGA3D) /\ a'.(bHaveScreenObject) = a.(bHaveScreenObject) /\
  a'.(m_ids) = a.(m_ids) /\ a'.(m_master_surface_retain_count) = a.(m_master_surface_retain_count) /\
  a'.(m_master_surface_id) = a.(m_master_surface_id) /\ a'.(ce1_options_ac) = a.(ce1_options_ac).

Lemma accel_owned_same ρ a a' sids : same_accel a a' -> accel_owned E ρ a sids -> accel_owned E ρ a' sids.
Proof.
  intros (E1 & E2 & E3 & E4 & E5 & E6 & E7) []. assert (master_ids a' = master_ids a) as Em by (unfold master_ids; by rewrite E5, E6).
  split; rewrite ?E1, ?E2, ?E3, ?E4, ?E5, ?E7, ?Em; done.
Qed.

Lemma harmless_spec a nf op : harmless op = true ->
  same_accel a (accel_spec a nf op).(o_accel) /\ Forall (fun c => harmless_cmd c = true) (accel_spec a nf op).(o_cmds) /\
  forall f, (accel_spec a nf op).(o_result).2 = Some f -> f <> 0 /\ In2D (fence_cmd nf) ∈ (accel_spec a nf op).(o_cmds) /\ f = fence_no nf.
Proof.
  intros Hop.
  assert (forall rc, same_accel a (refused a nf rc).(o_accel) /\ Forall (fun c => harmless_cmd c = true) (refused a nf rc).(o_cmds) /\
    forall f, (refused a nf rc).(o_result).2 = Some f -> f <> 0 /\ In2D (fence_cmd nf) ∈ (refused a nf rc).(o_cmds) /\ f = fence_no nf) as Href.
  { intros rc. split; [by repeat split|]. split; [constructor|done]. }
  assert (forall fence cmds, Forall (fun c => harmless_cmd c = true) cmds -> same_accel a (sends_fence fence a nf cmds).(o_accel) /\
    Forall (fun c => harmless_cmd c = true) (sends_fence fence a nf cmds).(o_cmds) /\
    forall f, (sends_fence fence a nf cmds).(o_result).2 = Some f -> f <> 0 /\ In2D (fence_cmd nf) ∈ (sends_fence fence a nf cmds).(o_cmds)
      /\ f = fence_no nf) as Hsend.
  { intros [] cmds Hc; cbn; split; [by repeat split| |by repeat split|].
    - split; [apply Forall_app; split; [done|by repeat constructor]|]. intros f [= <-]. split; [apply fence_no_pos|].
      split; [|done]. apply elem_of_app. right. by left.
    - by split. }
  assert (forall cmds, Forall (fun c => harmless_cmd c = true) cmds -> same_accel a (sends a nf cmds).(o_accel) /\
    Forall (fun c => harmless_cmd c = true) (sends a nf cmds).(o_cmds) /\
    forall f, (sends a nf cmds).(o_result).2 = Some f -> f <> 0 /\ In2D (fence_cmd nf) ∈ (sends a nf cmds).(o_cmds) /\ f = fence_no nf) as Hs.
  { intros cmds Hc. apply (Hsend false cmds Hc). }
  destruct op; try discriminate Hop; cbn [accel_spec]; repeat case_match; try apply Href;
    try (by apply Hs; repeat constructor); try (by apply Hsend; repeat constructor); try (apply Hs; rewrite ?Forall_fmap; by apply Forall_forall).
  apply Hsend, Forall_app. split; [|by repeat constructor]. unfold video_regs. by repeat case_match; repeat constructor.
Qed.

Lemma fence_watched cmds nf : forall g, g.(g_open) = false -> Forall (fun c => harmless_cmd c = true) cmds -> g.(g_fences) <> [] ->
  In2D (fence_cmd nf) ∈ cmds -> fence_no nf ∈ (watch g (Sent <$> cmds)).(g_fences).
Proof.
  induction cmds as [|c cmds IH]; intros g Ho Hall Hne Hin; [by apply not_elem_of_nil in Hin|].
  apply Forall_cons in Hall as [Hc Hall]. destruct (harmless_observe g c Hc Ho) as (l & E1 & Hl1 & Hl2).
  change (watch g (Sent <$> c :: cmds)) with (watch (observe_cmd g c) (Sent <$> cmds)).
  apply elem_of_cons in Hin as [<-|Hin].
  - destruct (harmless_watch cmds (observe_cmd g (In2D (fence_cmd nf))) Hall) as (l' & -> & _ & Hl); [by rewrite E1|]. cbn [g_fences].
    apply Hl. cbn [observe_cmd fence_cmd]. rewrite Ho. destruct (g_fences g) eqn:Ef; [done|]. by left.
  - apply IH; [by rewrite E1|done| |done]. rewrite E1. cbn. destruct (g_fences g) as [|f fs]; [done|].
    intros ->. by apply (not_elem_of_nil f), Hl2; left.
Qed.

(** The fences behind the last transfer remain, and the one of the request, if there is
    one, is another one. *)
Lemma wp_harmless ρ op (Q : post _) w nf g : owns E ρ w g -> harmless op = true -> ρ.(r_open) = false ->
  (forall r w' nf' g' fs, owns E (set_r_fences fs ρ) w' g' -> later ρ.(r_fences) fs ->
     (forall f, r.2 = Some f -> f <> 0 /\ (ρ.(r_fences) <> [] -> f ∈ fs)) ->
     w'.(w_client) = w.(w_client) -> w'.(w_vram) = w.(w_vram) -> Q r w' nf' g') ->
  wp (ask op) Q w nf g.
Proof.
  intros Ho Hop Hopen HQ. apply wp_ask. destruct (harmless_spec w.(w_accel) nf op Hop) as (Hsame & Hcmds & Hf).
  set (o := accel_spec _ _ _) in *. pose proof Ho as [Ha V K Hop' Hfe [Hsf Hpg]].
  destruct (harmless_watch o.(o_cmds) g Hcmds ltac:(congruence)) as (l & Eg & Hl).
  rewrite Hfe in Hl. apply (HQ _ _ _ _ l); [|done| |done|done].
  - rewrite Eg. split; cbn; try done. eapply accel_owned_same; [done|]. destruct Ha; by split.
  - intros f Er. destruct (Hf f Er) as (H0 & Hin & ->). split; [done|]. intros Hne.
    pose proof (fence_watched o.(o_cmds) nf g ltac:(congruence) Hcmds ltac:(congruence) Hin) as Hw. by rewrite Eg in Hw.
Qed.

(** *** Waiting *)

Lemma wp_wait ρ f (Q : post unit) w nf g : owns E ρ w g -> ρ.(r_fences) = [] \/ f ∈ ρ.(r_fences) ->
  (forall g', owns E (set_r_fences [] ρ) w g' -> Q tt w nf g') -> wp (sync_to f) Q w nf g.
Proof.
  intros Ho Hf HQ. pose proof Ho as [[_ _ _ (Hfb & _) _ _ _] V K Hop Hfe [Hsf Hpg]]. apply wp_sync_to; [done|]. apply HQ.
  assert (observe g (Waited f) = mk_monitor g.(g_sids) g.(g_pages) g.(g_open) [] g.(g_safe)) as ->.
  { cbn. case_bool_decide as Hd; [done|]. destruct Hf as [Hf|Hf]; [|by rewrite Hfe in Hd]. destruct g; cbn in *. congruence. }
  split; cbn; try done. destruct (ow_accel _ _ _ _ Ho). by split.
Qed.

Lemma wp_drain ρ (Q : post unit) w nf g : owns E ρ w g ->
  (forall g', owns E (set_r_open false (set_r_fences [] ρ)) w g' -> Q tt w nf g') -> wp sync_all Q w nf g.
Proof.
  intros Ho HQ. pose proof Ho as [[_ _ _ (Hfb & _) _ _ _] V K Hop Hfe [Hsf Hpg]]. apply wp_sync_all; [done|]. apply HQ.
  cbn. rewrite Hsf. by apply (owns_monitor ρ w g false []).
Qed.

(** Memory is given back while the device is not working on any. *)
Lemma returned_quiet ρ w g : owns E ρ w g -> ρ.(r_open) = false -> ρ.(r_fences) = [] -> owns E ρ w (returned g).
Proof.
  intros [Ha V K Hop Hfe [Hsf Hpg]] E1 E2. split; cbn; try done. unfold quiet. rewrite Hsf, Hop, Hfe, E1, E2. done.
Qed.

Definition gives (t : tell) : bool := match t with PagesGiven _ => true | _ => false end.

Lemma wp_return ρ t (Q : post unit) w nf g : owns E ρ w g -> gives t = false -> ρ.(r_open) = false -> ρ.(r_fences) = [] ->
  (forall g', owns E ρ w g' -> Q tt w nf g') -> wp (tells t) Q w nf g.
Proof.
  intros Ho Ht E1 E2 HQ. apply wp_tells, HQ. destruct t; try done; cbn; try (by apply returned_quiet); case_match; try done; by apply returned_quiet.
Qed.

Lemma wp_give ρ d (Q : post unit) w nf g : owns E ρ w g -> d ∈ ρ.(r_refs) ->
  (forall g', owns E ρ w g' -> Q tt w nf g') -> wp (tells (PagesGiven d)) Q w nf g.
Proof.
  intros Ho Hd HQ. apply wp_tells, HQ. destruct Ho as [[] V K Hop Hfe [Hsf Hpg]]. split; try done. split; [done|]. cbn.
  intros x Hx. apply elem_of_union in Hx as [Hx|Hx]; [|by apply Hpg]. apply elem_of_singleton in Hx as ->. apply (ko_fresh _ _ _ _ K).
  rewrite (ko_live _ _ _ _ K). apply elem_of_union. left. by apply elem_of_list_to_set.
Qed.

(** *** Regions and streams *)

(** An id or, when all are taken, none. *)
Definition opt_id (r : Z) (l : list Z) : list Z := if isIdValid r then r :: l else l.

Lemma take_opt r l : take_id r l = opt_id r l.
Proof. unfold take_id, opt_id, isIdValid. by rewrite Z.leb_antisym, if_negb. Qed.

Lemma wp_allocGMRID ρ (Q : post Z) w nf g : owns E ρ w g -> ρ.(r_n) < 2 ^ 30 ->
  (forall r w', owns E (set_r_n (ρ.(r_n) + 1) (set_r_gmrs (opt_id r ρ.(r_gmrs)) ρ)) w' g ->
     w'.(w_client) = w.(w_client) -> w'.(w_vram) = w.(w_vram) -> Q r w' nf g) ->
  wp allocGMRID Q w nf g.
Proof.
  intros Ho Hn HQ. pose proof Ho as [[(h & Hi & P1 & P2 & P3) A2 A3 A4 A5 A6 A7] _ _ _ _ _].
  destruct (alloc_gmr E.(e_limit) ρ.(r_n) _ h ltac:(lia) A3 Hi) as (r & i & Er & _ & Hi'). apply wp_state. cbn. rewrite Er. cbn.
  apply HQ; [|done..]. eapply owns_accel; [exact Ho|..]; try done. split; cbn; try done; [|lia].
  eexists. split; [exact Hi'|]. cbn. split; [done|]. split; [done|]. rewrite take_opt. unfold opt_id. destruct (isIdValid r); [by rewrite P3|done].
Qed.

Lemma wp_freeGMRID ρ l id (Q : post unit) w nf g : owns E ρ w g -> ρ.(r_gmrs) ≡ₚ id :: l ->
  (forall w', owns E (set_r_n (ρ.(r_n) + 1) (set_r_gmrs l ρ)) w' g ->
     w'.(w_client) = w.(w_client) -> w'.(w_vram) = w.(w_vram) -> Q tt w' nf g) ->
  wp (freeGMRID id) Q w nf g.
Proof.
  intros Ho HP HQ. pose proof Ho as [[(h & Hi & P1 & P2 & P3) A2 A3 A4 A5 A6 A7] _ _ _ _ _]. apply wp_state. cbn.
  apply HQ; [|done..]. eapply owns_accel; [exact Ho|..]; try done. split; cbn; try done; [|lia].
  eexists. split; [apply (free_gmr _ _ _ _ A3 Hi id (l ++ E.(e_gmrs)))|done]. by rewrite P3, HP.
Qed.

Lemma wp_allocStreamID ρ (Q : post Z) w nf g : owns E ρ w g -> ρ.(r_n) < 2 ^ 30 ->
  (forall r w', owns E (set_r_n (ρ.(r_n) + 1) (set_r_streams (opt_id r ρ.(r_streams)) ρ)) w' g ->
     w'.(w_client) = w.(w_client) -> w'.(w_vram) = w.(w_vram) -> Q r w' nf g) ->
  wp allocStreamID Q w nf g.
Proof.
  intros Ho Hn HQ. pose proof Ho as [[(h & Hi & P1 & P2 & P3) A2 A3 A4 A5 A6 A7] _ _ _ _ _].
  destruct (alloc_stream E.(e_limit) ρ.(r_n) _ h ltac:(lia) Hi) as (r & i & Er & _ & Hi'). apply wp_state. cbn. rewrite Er. cbn.
  apply HQ; [|done..]. eapply owns_accel; [exact Ho|..]; try done. split; cbn; try done; [|lia].
  eexists. split; [exact Hi'|]. cbn. split; [done|]. split; [|done]. rewrite take_opt. unfold opt_id. destruct (isIdValid r); [by rewrite P2|done].
Qed.

Lemma wp_freeStreamID ρ l id (Q : post unit) w nf g : owns E ρ w g -> ρ.(r_streams) ≡ₚ id :: l ->
  (forall w', owns E (set_r_n (ρ.(r_n) + 1) (set_r_streams l ρ)) w' g ->
     w'.(w_client) = w.(w_client) -> w'.(w_vram) = w.(w_vram) -> Q tt w' nf g) ->
  wp (freeStreamID id) Q w nf g.
Proof.
  intros Ho HP HQ. pose proof Ho as [[(h & Hi & P1 & P2 & P3) A2 A3 A4 A5 A6 A7] _ _ _ _ _]. apply wp_state. cbn.
  apply HQ; [|done..]. eapply owns_accel; [exact Ho|..]; try done. split; cbn; try done; [|lia].
  eexists. split; [apply (free_stream _ _ _ _ Hi id (l ++ E.(e_streams)))|done]. by rewrite P2, HP.
Qed.

(** *** The master surface *)

Lemma wp_accel (Q : post Accel) w nf g : Q w.(w_accel) w nf g -> wp accel Q w nf g.
Proof. apply (wp_state (fun w => (w.(w_accel), w))). Qed.

Lemma wp_retain ρ (Q : post bool) w nf g : owns E ρ w g -> ρ.(r_n) < 2 ^ 30 -> ρ.(r_masters) + 1 < 2 ^ 30 ->
  (forall w' g', owns E (set_r_n (ρ.(r_n) + 1) (set_r_masters (if E.(e_3d) then ρ.(r_masters) + 1 else ρ.(r_masters)) ρ)) w' g' ->
     w'.(w_accel).(m_ids).(m_surface_ids_unmanaged) <= w.(w_accel).(m_ids).(m_surface_ids_unmanaged) + 1 ->
     w'.(w_client) = w.(w_client) -> w'.(w_vram) = w.(w_vram) -> Q E.(e_3d) w' nf g') ->
  wp retainMasterSurface Q w nf g.
Proof.
  intros Ho Hn Hm HQ. pose proof Ho as [[(h & Hi & P1 & P2 & P3) A2 A3 (F1 & F2 & F3) A5 A6 A7] V K Hop Hfe [Hsf Hpg]].
  unfold retainMasterSurface. apply wp_bind, wp_accel. rewrite F2. destruct (e_3d E) eqn:E3; cbn [negb].
  2: { apply wp_ret. apply HQ; [|lia|done..]. eapply owns_le; [|exact Ho]. split; cbn; try done. lia. }
  set (v := m_master_surface_retain_count (w_accel w)) in *. apply wp_bind, wp_state. cbn [fst snd].
  destruct (Z.eqb_spec v 0) as [Ev|Ev].
  - apply wp_bind, wp_gets, wp_bind. unfold createMasterSurface. apply wp_bind, wp_state. cbn [w_accel set_accel m_ids set_master].
    destruct (alloc_surface E.(e_limit) ρ.(r_n) _ h ltac:(lia) Hi) as (r & i & Er & _ & Hi').
    assert (i.(m_surface_ids_unmanaged) <= w.(w_accel).(m_ids).(m_surface_ids_unmanaged) + 1) as Hum.
    { revert Er. unfold AllocSurfaceID. destruct (find_bit_in_array64 _ _ _ _) as [x mask]. pose proof Hi as [(_ & _ & _ & Hu) _ _ _ _].
      case_match; intros [= <- <-]; cbn; [|lia]. pose proof (ok_unmanaged _ _ _ _ Hi). rewrite wrap_small by (split; lia). lia. }
    rewrite Er. cbn [fst snd]. apply wp_bind, wp_accel, wp_bind, wp_state. cbn [fst snd].
    apply wp_bind, wp_ask. cbn [accel_spec w_accel set_accel bHaveSVGA3D set_master set_ids]. rewrite F2. cbn [sends o_result o_accel o_next o_cmds fst].
    rewrite bool_decide_true by done. apply wp_ret, wp_bind, wp_ret, wp_ret. rewrite Ev.
    apply HQ; [|cbn; done|done|done]. split; cbn; try done.
    assert (master_ids (w_accel w) = []) as Em by (unfold master_ids; fold v; by rewrite Ev).
    rewrite Em in P1, A7. split; cbn; try done; try lia; try (intros; congruence).
    + eexists. split; [exact Hi'|]. cbn. split; [|done]. rewrite P1. unfold master_ids. cbn. solve_Permutation.
    + by rewrite E3.
    + change (s32 (0 + 1)) with 1. lia.
    + rewrite A7, <-(list_to_set_cons r). apply list_to_set_perm_L. unfold master_ids. cbn. solve_Permutation.
  - apply wp_ret. apply HQ; [|cbn; lia|done|done]. fold v in A5. eapply owns_accel; [exact Ho|..]; try done.
    assert (s32 (v + 1) = v + 1) as Es by (apply s32_small; lia).
    assert (master_ids (set_master (s32 (v + 1)) (m_master_surface_id (w_accel w)) (w_accel w)) = master_ids (w_accel w)) as Em.
    { unfold master_ids. cbn. fold v. rewrite Es. rewrite !(proj2 (Z.ltb_lt 0 _)) by lia. done. }
    split; rewrite ?Em; cbn; try done; try lia; try (intros; congruence); [|by rewrite E3].
    exists h. split; [by eapply ids_ok_le; [|exact Hi]; lia|done].
Qed.

Lemma wp_release_master ρ (Q : post unit) w nf g : owns E ρ w g -> 0 < ρ.(r_masters) -> ρ.(r_n) < 2 ^ 30 ->
  (forall w' g', owns E (set_r_n (ρ.(r_n) + 1) (set_r_masters (ρ.(r_masters) - 1) ρ)) w' g' ->
     w'.(w_client) = w.(w_client) -> w'.(w_vram) = w.(w_vram) -> Q tt w' nf g') ->
  wp releaseMasterSurface Q w nf g.
Proof.
  intros Ho Hm Hn HQ. pose proof Ho as [[(h & Hi & P1 & P2 & P3) A2 A3 (F1 & F2 & F3) A5 A6 A7] V K Hop Hfe [Hsf Hpg]].
  unfold releaseMasterSurface. apply wp_bind, wp_accel. rewrite F2.
  set (v := m_master_surface_retain_count (w_accel w)) in *. destruct (e_3d E) eqn:E3; cbn [negb].
  2: { destruct (A6 eq_refl). lia. }
  apply wp_bind, wp_state. cbn [fst snd]. rewrite (proj2 (Z.leb_gt v 0)) by lia. destruct (Z.eqb_spec v 1) as [Ev|Ev].
  - assert (master_ids (w_accel w) = [m_master_surface_id (w_accel w)]) as Em by (unfold master_ids; fold v; by rewrite Ev).
    set (sid := m_master_surface_id (w_accel w)) in *. rewrite Em in P1, A7.
    assert (0 <= sid < 2 ^ 31) as Hsid.
    { apply (held_valid _ _ _ _ _ Hi ltac:(lia)). rewrite P1, !elem_of_app. right. right. by left; left. }
    unfold destroyMasterSurface. apply wp_bind, wp_accel. cbn [w_accel set_accel m_master_surface_id set_master]. fold sid.
    rewrite s32_small, (proj2 (Z.ltb_ge sid 0)) by lia. apply wp_bind, wp_ask. cbn [accel_spec w_accel set_accel bHaveSVGA3D set_master].
    rewrite F2. cbn [sends o_result o_accel o_next o_cmds]. apply wp_bind, wp_state, wp_bind, wp_accel, wp_state. cbn [fst snd].
    apply HQ; [|done|done]. split; cbn; try done. rewrite Ev. split; cbn; try done; try lia; try (intros; congruence).
    + eexists. split; [apply (free_surface _ _ _ _ Hi sid (ρ.(r_named) ++ ρ.(r_live) ++ E.(e_surfaces)))|]; [rewrite P1; solve_Permutation|].
      cbn. done.
    + by rewrite E3.
    + change (s32 (1 - 1)) with 0. lia.
    + rewrite A7. assert (sid ∉ ρ.(r_live) ++ E.(e_surfaces)) as Hni.
      { destruct Hi as [(_ & Hnd & _) _ _ _ _]. rewrite P1 in Hnd. apply NoDup_app in Hnd as (_ & _ & Hnd).
        assert (ρ.(r_live) ++ [sid] ++ E.(e_surfaces) ≡ₚ sid :: ρ.(r_live) ++ E.(e_surfaces)) as Hp by solve_Permutation.
        rewrite Hp in Hnd. by apply NoDup_cons in Hnd as [? _]. }
      rewrite (list_to_set_perm_L _ (sid :: ρ.(r_live) ++ E.(e_surfaces))) by solve_Permutation. by apply difference_one.
  - apply wp_ret. apply HQ; [|done|done]. eapply owns_accel; [exact Ho|..]; try done.
    assert (s32 (v - 1) = v - 1) as Es by (apply s32_small; lia).
    assert (master_ids (set_master (s32 (v - 1)) (m_master_surface_id (w_accel w)) (w_accel w)) = master_ids (w_accel w)) as Em.
    { unfold master_ids. cbn. fold v. rewrite Es. rewrite !(proj2 (Z.ltb_lt 0 _)) by lia. done. }
    split; rewrite ?Em; cbn; try done; try lia; try (intros; congruence); [|by rewrite E3].
    exists h. split; [by eapply ids_ok_le; [|exact Hi]; lia|done].
Qed.
End accel_rules.

(** ** Video memory *)

Section vram_rules.
Context (E : env).
Implicit Types (w : world) (nf : Z) (g : monitor) (ρ : res).

Lemma owns_vram ρ w g blocks v : owns E ρ w g -> vram_owned E blocks v -> owns E (set_r_blocks blocks ρ) (set_vram v w) g.
Proof. intros [[] ? ? ? ? ?] Hv. split; [by split|done..]. Qed.

Definition block_at (p o : Z) : Prop := p = E.(e_pool) + 4096 * o.

(** A block of the client leaves the free store alone. *)
Lemma own_block v F l o b A : inv v F A -> A ≡ₚ (o, b) :: l -> inv v F ((o, b) :: l) /\ size_ok b /\ 0 <= o /\ o + 2 ^ b <= v.(poolBlocks).
Proof.
  intros Hi HP. pose proof (inv_perm _ _ _ _ HP Hi) as Hi'. split; [done|]. destruct (inv_alloc _ _ _ Hi' o b) as (? & ? & ? & _); [by left|]. done.
Qed.

Lemma wp_VRAMMalloc ρ bytes (Q : post _) w nf g : owns E ρ w g ->
  (forall o b w', size_ok b -> bytes <= 4096 * 2 ^ b -> owns E (set_r_blocks ((o, b) :: ρ.(r_blocks)) ρ) w' g ->
     w'.(w_client) = w.(w_client) -> w'.(w_accel) = w.(w_accel) -> Q (Some (E.(e_pool) + 4096 * o)) w' nf g) ->
  Q None w nf g ->
  wp (VRAMMalloc bytes) Q w nf g.
Proof.
  intros Ho HS HN. pose proof Ho as [_ (V1 & V2 & F & V3) _ _ _ _]. apply wp_state.
  destruct (Malloc_ok w.(w_vram) F _ bytes V3) as [(o & b & v & F' & -> & Hb & [Hs _] & [Hi _ Hst _ _])|(ret & -> & _)]; cbn.
  - rewrite V1. apply HS with (b := b); [done|done| |done|done]. apply owns_vram; [done|]. split; [congruence|]. split; [done|]. by exists F'.
  - by replace (set_vram (w_vram w) w) with w by by destruct w.
Qed.

Lemma wp_returnVRAM ρ o b l p (Q : post unit) w nf g : owns E ρ w g -> ρ.(r_blocks) ≡ₚ (o, b) :: l -> block_at p o ->
  ρ.(r_open) = false -> ρ.(r_fences) = [] ->
  (forall w' g', owns E (set_r_blocks l ρ) w' g' -> w'.(w_client) = w.(w_client) -> w'.(w_accel) = w.(w_accel) -> Q tt w' nf g') ->
  wp (returnVRAM p) Q w nf g.
Proof.
  intros Ho HP -> Hop Hfe HQ. unfold returnVRAM. apply wp_bind. eapply wp_return; [done|done|done|done|]. intros g' Ho'. apply wp_state. cbn.
  pose proof Ho' as [_ (V1 & V2 & F & V3) _ _ _ _].
  destruct (own_block _ _ (l ++ E.(e_blocks)) o b _ V3) as (Hi & _); [by rewrite HP|].
  destruct (Free_ok _ F _ o b Hi ltac:(lia)) as (v & F' & Ef & Hi' & _ & Hst & _). rewrite V1 in Ef. rewrite Ef. cbn.
  apply HQ; [|done|done]. apply owns_vram; [done|]. split; [congruence|]. split; [done|]. by exists F'.
Qed.

(** Reallocation gives a block of the size, or fails and leaves the old one. *)
Lemma wp_reallocVRAM_none ρ bytes (Q : post _) w nf g : owns E ρ w g ->
  (forall o b w', 0 < bytes -> size_ok b -> bytes <= 4096 * 2 ^ b -> owns E (set_r_blocks ((o, b) :: ρ.(r_blocks)) ρ) w' g ->
     w'.(w_client) = w.(w_client) -> w'.(w_accel) = w.(w_accel) -> Q (Some (E.(e_pool) + 4096 * o)) w' nf g) ->
  Q None w nf g -> 0 <= bytes ->
  wp (VRAMRealloc 0 bytes) Q w nf g.
Proof.
  intros Ho HS HN H0. pose proof Ho as [_ (V1 & V2 & F & V3) _ _ _ _]. apply wp_state. unfold Realloc.
  destruct (Z.eqb_spec bytes 0) as [Eb|Eb]; [cbn; by replace (set_vram (w_vram w) w) with w by by destruct w|].
  cbn [Z.eqb]. destruct (Malloc_ok w.(w_vram) F _ bytes V3) as [(o & b & v & F' & -> & Hb & [Hs _] & [Hi _ Hst _ _])|(ret & -> & _)]; cbn.
  - rewrite V1. apply HS with (b := b); [lia|done|done| |done|done]. apply owns_vram; [done|]. split; [congruence|]. split; [done|]. by exists F'.
  - by replace (set_vram (w_vram w) w) with w by by destruct w.
Qed.

Lemma wp_reallocVRAM_some ρ o b l p bytes (Q : post _) w nf g : owns E ρ w g -> ρ.(r_blocks) ≡ₚ (o, b) :: l -> block_at p o ->
  (forall o' b' w', size_ok b' -> bytes <= 4096 * 2 ^ b' -> owns E (set_r_blocks ((o', b') :: l) ρ) w' g ->
     w'.(w_client) = w.(w_client) -> w'.(w_accel) = w.(w_accel) -> Q (Some (E.(e_pool) + 4096 * o')) w' nf g) ->
  Q None w nf g -> 0 < bytes ->
  wp (VRAMRealloc p bytes) Q w nf g.
Proof.
  intros Ho HP -> HS HN H0. pose proof Ho as [_ (V1 & V2 & F & V3) _ _ _ _]. apply wp_state.
  destruct (own_block _ _ (l ++ E.(e_blocks)) o b _ V3) as (Hi & Hb & _); [by rewrite HP|].
  assert (forall o' b' v F', Realloc (E.(e_pool) + 4096 * o) bytes true w.(w_vram) = (kIOReturnSuccess, Some (E.(e_pool) + 4096 * o'), v) ->
    size_ok b' -> bytes <= 4096 * 2 ^ b' -> inv v F' ((o', b') :: l ++ E.(e_blocks)) -> v.(poolStart) = w.(w_vram).(poolStart) ->
    Q (let '(_, p, v) := Realloc (E.(e_pool) + 4096 * o) bytes true w.(w_vram) in (p, set_vram v w)).1
      (let '(_, p, v) := Realloc (E.(e_pool) + 4096 * o) bytes true w.(w_vram) in (p, set_vram v w)).2 nf g) as Hgot.
  { intros o' b' v F' -> Hb' Hs Hi' Hst. cbn. apply HS with (b' := b'); [done|done| |done|done]. apply owns_vram; [done|].
    split; [congruence|]. split; [done|]. by exists F'. }
  destruct (Z.le_gt_cases bytes (4096 * 2 ^ b)) as [Hle|Hgt].
  - destruct (Realloc_shrink _ F _ o b bytes Hi ltac:(lia) ltac:(lia)) as (b' & v & F' & Er & Hb' & [Hs _] & Hi' & Hst & _).
    rewrite V1 in Er. apply (Hgot o b' v F' Er); [unfold size_ok in *; lia|done|done|done].
  - destruct (Realloc_grow _ F _ o b bytes Hi ltac:(lia) ltac:(lia)) as [(o' & b' & v & F' & Er & _ & [Hs _] & Hi' & Hst & _)|(ret & Er & _)].
    + rewrite V1 in Er. apply (Hgot o' b' v F' Er); [|done|done|done]. by destruct (inv_alloc _ _ _ Hi' o' b') as (? & _); [left|].
    + rewrite V1 in Er. rewrite Er. cbn. by replace (set_vram (w_vram w) w) with w by by destruct w.
Qed.

(** Stores to a block of the client. *)
Lemma wp_poke ρ o b l p (f : Z -> (Z -> Z) -> Z -> Z) (Q : post unit) w nf g : owns E ρ w g -> ρ.(r_blocks) ≡ₚ (o, b) :: l -> block_at p o ->
  (forall i mem k, f i mem k <> mem k -> i <= k < i + 1024) ->
  (forall w', owns E ρ w' g -> w'.(w_client) = w.(w_client) -> w'.(w_accel) = w.(w_accel) -> Q tt w' nf g) ->
  wp (poke p f) Q w nf g.
Proof.
  intros Ho HP -> Hf HQ. pose proof Ho as [_ (V1 & V2 & F & V3) _ _ _ _]. apply wp_state. cbn. apply HQ; [|done|done].
  destruct (own_block _ _ (l ++ E.(e_blocks)) o b _ V3) as (Hi & Hb & Ho0 & Hob); [by rewrite HP|].
  assert (owns E (set_r_blocks ρ.(r_blocks) ρ) (set_vram (with_pool (f ((E.(e_pool) + 4096 * o - w.(w_vram).(poolStart)) / 4) w.(w_vram).(pool)) w.(w_vram)) w) g) as Hr.
  { apply owns_vram; [done|]. split; [done|]. split; [done|]. exists F. apply (inv_perm _ _ ((o, b) :: l ++ E.(e_blocks))); [by rewrite HP|].
    apply (inv_pool w.(w_vram)); try done. intros j Hj. cbn [pool with_pool].
    replace ((e_pool E + 4096 * o - poolStart (w_vram w)) / 4) with (1024 * o) by (rewrite V1; replace (e_pool E + 4096 * o - e_pool E) with (1024 * o * 4) by lia; by rewrite Z.div_mul).
    destruct (Z.eq_dec (f (1024 * o) (pool (w_vram w)) j) (pool (w_vram w) j)) as [|Hne]; [done|]. exfalso. apply Hf in Hne.
    apply (inv_disjoint _ _ _ (j / 1024) Hi Hj). apply (acells_in _ o b); [left|]. unfold size_ok in Hb.
    assert (0 < 2 ^ b) by (apply Z.pow_pos_nonneg; lia). apply elem_of_seqZ.
    assert (j / 1024 = o) as -> by (Z.to_euclidean_division_equations; lia). lia. }
  by destruct ρ.
Qed.
End vram_rules.

(** ** Objects of the kernel *)

Section kernel_rules.
Context (E : env).
Implicit Types (w : world) (nf : Z) (g : monitor) (ρ : res).

Lemma owns_kernel ρ w g refs prep k : owns E ρ w g -> kernel_owned E refs prep k -> w.(w_client).(k_fresh) <= k.(k_fresh) ->
  owns E (set_r_prep prep (set_r_refs refs ρ)) (set_client k w) g.
Proof. intros [[] ? ? ? ? [? Hpg]] Hk Hf. split; [by split|done..|]. split; [done|]. intros x Hx. specialize (Hpg x Hx). cbn. lia. Qed.

(** Changes that concern no object. *)
Lemma owns_client ρ w g k' : owns E ρ w g -> k'.(k_live) = w.(w_client).(k_live) -> k'.(k_fresh) = w.(w_client).(k_fresh) ->
  k'.(k_prepared) = w.(w_client).(k_prepared) -> k'.(k_blitbug) = w.(w_client).(k_blitbug) -> owns E ρ (set_client k' w) g.
Proof.
  intros [? ? [K1 K2 K3 K4 K5 K6] ? ? ?] E1 E2 E3 E4. split; try done; cbn; [|by rewrite E2]. split; rewrite ?E1, ?E2, ?E3, ?E4; done.
Qed.

(** Nothing but the kernel has changed. *)
Definition only_kernel (w w' : world) : Prop := w'.(w_accel) = w.(w_accel) /\ w'.(w_vram) = w.(w_vram).

Lemma wp_answer_owns ρ (Q : post Z) w nf g : owns E ρ w g ->
  (forall a w', owns E ρ w' g -> only_kernel w w' -> Q a w' nf g) -> wp answer Q w nf g.
Proof. intros Ho HQ. apply wp_answer. intros a. apply HQ; [by apply owns_client|done]. Qed.

Lemma wp_log ρ a (Q : post unit) w nf g : owns E ρ w g ->
  (forall w', owns E ρ w' g -> only_kernel w w' -> Q tt w' nf g) -> wp (log a) Q w nf g.
Proof. intros Ho HQ. apply wp_modify, HQ; [by apply owns_client|done]. Qed.

Definition opt_ref {A} (f : A -> Z) (o : option A) (l : list Z) : list Z := match o with Some a => f a :: l | None => l end.

Lemma wp_new_object ρ (Q : post _) w nf g : owns E ρ w g ->
  (forall o w', owns E (set_r_refs (opt_ref id o ρ.(r_refs)) ρ) w' g -> only_kernel w w' ->
     (forall x, o = Some x -> x ∉ g.(g_pages)) -> Q o w' nf g) -> wp new_object Q w nf g.
Proof.
  intros Ho HQ. unfold new_object. apply wp_bind. eapply wp_answer_owns; [done|]. intros a w1 Ho1 [Hk1 Hk2].
  destruct (a =? 0); [apply wp_ret, HQ; [by destruct ρ|done|done]|]. apply wp_bind, wp_gets, wp_bind, wp_modify, wp_ret. apply HQ; [|done|].
  2: { intros x [= <-] Hx. destruct (ow_safe _ _ _ _ Ho1) as [_ Hpg]. specialize (Hpg _ Hx). lia. }
  pose proof Ho1 as [_ _ [K1 K2 K3 K4 K5 K6] _ _ _]. set (k := w_client w1) in *.
  assert (k.(k_fresh) ∉ k.(k_live)) as Hf by (intros Hx; pose proof (K4 _ Hx); lia). rewrite K1 in Hf.
  assert (owns E (set_r_prep ρ.(r_prep) (set_r_refs (k.(k_fresh) :: ρ.(r_refs)) ρ))
    (set_client (set_objects (k.(k_fresh) + 1) ({[k.(k_fresh)]} ∪ k.(k_live)) k) w1) g) as Hr; [|by destruct ρ].
  apply owns_kernel; [done| |cbn; try subst k; lia]. split; cbn; [by rewrite K1, (assoc_L (∪))| | | |done|done].
  - apply NoDup_cons. split; [|done]. intros Hx. apply Hf. apply elem_of_union. left. by apply elem_of_list_to_set.
  - intros x Hx. apply elem_of_cons in Hx as [->|Hx]; [|by apply K3]. intros Hx. apply Hf. apply elem_of_union. by right.
  - intros x Hx. apply elem_of_union in Hx as [Hx|Hx]; [apply elem_of_singleton in Hx; lia|]. pose proof (K4 _ Hx). lia.
Qed.

Lemma live_ref ρ w g o : owns E ρ w g -> o ∈ ρ.(r_refs) -> bool_decide (o ∈ w.(w_client).(k_live)) = true.
Proof.
  intros [_ _ [K1 _ _ _ _] _ _ _] Hin. apply bool_decide_eq_true. rewrite K1. apply elem_of_union. left. by apply elem_of_list_to_set.
Qed.

Lemma wp_release ρ l o (Q : post unit) w nf g : owns E ρ w g -> ρ.(r_refs) ≡ₚ o :: l ->
  (forall w', owns E (set_r_refs l ρ) w' g -> only_kernel w w' -> Q tt w' nf g) -> wp (release o) Q w nf g.
Proof.
  intros Ho HP HQ. unfold release. apply wp_bind. apply wp_gets. rewrite (live_ref ρ w g) by (done || (rewrite HP; by left)).
  apply wp_modify, HQ; [|done]. pose proof Ho as [_ _ [K1 K2 K3 K4 K5 K6] _ _ _]. set (k := w_client w) in *.
  assert (owns E (set_r_prep ρ.(r_prep) (set_r_refs l ρ)) (set_client (set_objects k.(k_fresh) (k.(k_live) ∖ {[o]}) k) w) g) as Hr; [|by destruct ρ].
  rewrite HP in K2. apply NoDup_cons in K2 as [Hni K2].
  apply owns_kernel; [done| |cbn; try subst k; lia]. split; cbn; [|done| | |done|done].
  - assert (o ∉ E.(e_refs)) as HoE by (apply K3; rewrite HP; by left).
    rewrite K1, (list_to_set_perm_L _ (o :: l)), difference_union_distr_l_L, difference_one by done. f_equal.
    apply difference_disjoint_L. by apply disjoint_singleton_r.
  - intros x Hx. apply K3. rewrite HP. by right.
  - intros x Hx. apply elem_of_difference in Hx as [Hx _]. by apply K4.
Qed.

Lemma wp_new_descriptor ρ n (Q : post _) w nf g : owns E ρ w g ->
  (forall d w', owns E (set_r_refs (opt_ref md_ref d ρ.(r_refs)) ρ) w' g -> only_kernel w w' -> (forall d', d = Some d' -> d'.(md_length) = n /\ d'.(md_ref) ∉ g.(g_pages)) -> Q d w' nf g) ->
  wp (new_descriptor n) Q w nf g.
Proof.
  intros Ho HQ. unfold new_descriptor. apply wp_bind. eapply wp_new_object; [done|]. intros o w' Ho' Hk Hp. apply wp_ret, HQ; [by destruct o|done|].
  intros d' E1. destruct o as [o|]; [|done]. injection E1 as <-. split; [done|by apply Hp].
Qed.

Lemma wp_md_prepare ρ d (Q : post _) w nf g : owns E ρ w g -> d.(md_ref) ∈ ρ.(r_refs) ->
  (forall rc w', owns E (if bool_decide (rc = kIOReturnSuccess) then set_r_prep (d.(md_ref) :: ρ.(r_prep)) ρ else ρ) w' g ->
     only_kernel w w' -> Q rc w' nf g) ->
  wp (md_prepare d) Q w nf g.
Proof.
  intros Ho Hin HQ. unfold md_prepare. apply wp_bind, wp_gets. rewrite (live_ref ρ w g) by done. cbn [negb].
  apply wp_bind. eapply wp_answer_owns; [done|]. intros a w1 Ho1 [Hk1 Hk2]. apply wp_bind. unfold when.
  specialize (HQ (code_of a)). destruct (bool_decide (code_of a = kIOReturnSuccess)); [|by apply wp_ret, wp_ret, HQ].
  apply wp_modify, wp_ret, HQ; [|done]. pose proof Ho1 as [_ _ [K1 K2 K3 K4 K5 K6] _ _ _].
  assert (owns E (set_r_prep (d.(md_ref) :: ρ.(r_prep)) (set_r_refs ρ.(r_refs) ρ))
    (set_client (set_prepared ({[+ d.(md_ref) +]} ⊎ k_prepared (w_client w1)) (w_client w1)) w1) g) as Hr; [|by destruct ρ].
  apply owns_kernel; [done| |cbn; try subst k; lia]. split; try done. cbn [k_prepared set_prepared]. rewrite K5, list_to_set_disj_cons. multiset_solver.
Qed.

(** Pages that the device was not given may go back at any time. *)
Lemma wp_md_complete_at ρ d l (Q : post _) w nf g : owns E ρ w g -> ρ.(r_prep) ≡ₚ d.(md_ref) :: l ->
  (d.(md_ref) ∈ g.(g_pages) -> ρ.(r_open) = false /\ ρ.(r_fences) = []) ->
  (forall w' g', owns E (set_r_prep l ρ) w' g' -> only_kernel w w' -> g'.(g_pages) = g.(g_pages) -> Q tt w' nf g') ->
  wp (md_complete d) Q w nf g.
Proof.
  intros Ho HP Hq HQ. unfold md_complete. apply wp_bind, wp_gets. pose proof Ho as [_ _ [K1 K2 K3 K4 K5 K6] _ _ _].
  assert (d.(md_ref) ∈ k_prepared (w_client w)) as Hin.
  { rewrite K5, gmultiset_elem_of_disj_union. left. apply elem_of_list_to_set_disj. rewrite HP. by left. }
  rewrite bool_decide_true by done. apply wp_bind, wp_tells.
  assert (owns E ρ w (observe g (Told (PagesReturned d.(md_ref)))) /\ (observe g (Told (PagesReturned d.(md_ref)))).(g_pages) = g.(g_pages)) as [Ho' Hp'].
  { cbn. case_bool_decide as Hd; [|done]. destruct (Hq Hd). split; [by apply returned_quiet|done]. }
  set (g' := observe _ _) in *. clearbody g'. apply wp_modify, HQ; [|done|done].
  assert (owns E (set_r_prep l (set_r_refs ρ.(r_refs) ρ))
    (set_client (set_prepared (k_prepared (w_client w) ∖ {[+ d.(md_ref) +]}) (w_client w)) w) g') as Hr; [|by destruct ρ].
  apply owns_kernel; [done| |cbn; try subst k; lia]. split; try done. cbn [k_prepared set_prepared].
  rewrite K5, (list_to_set_disj_perm _ _ HP), list_to_set_disj_cons. multiset_solver.
Qed.

Lemma wp_md_complete ρ d l (Q : post _) w nf g : owns E ρ w g -> ρ.(r_prep) ≡ₚ d.(md_ref) :: l -> ρ.(r_open) = false -> ρ.(r_fences) = [] ->
  (forall w' g', owns E (set_r_prep l ρ) w' g' -> only_kernel w w' -> Q tt w' nf g') ->
  wp (md_complete d) Q w nf g.
Proof. intros Ho HP Hop Hfe HQ. eapply wp_md_complete_at; [done|done|done|]. auto. Qed.

Lemma wp_new_mapping ρ task n (Q : post _) w nf g : owns E ρ w g ->
  (forall m w', owns E (set_r_refs (opt_ref mp_ref m ρ.(r_refs)) ρ) w' g -> only_kernel w w' -> Q m w' nf g) ->
  wp (new_mapping task n) Q w nf g.
Proof.
  intros Ho HQ. unfold new_mapping. apply wp_bind. eapply wp_new_object; [done|]. intros o w1 Ho1 [Hk1 Hk2] _.
  apply wp_bind. eapply wp_answer_owns; [done|]. intros a w2 Ho2 [Hk3 Hk4]. apply wp_ret, HQ; [by destruct o|]. split; congruence.
Qed.

Lemma wp_createMapping ρ d task (Q : post _) w nf g : owns E ρ w g -> d.(md_ref) ∈ ρ.(r_refs) ->
  (forall m w', owns E (set_r_refs (opt_ref mp_ref m ρ.(r_refs)) ρ) w' g -> only_kernel w w' -> Q m w' nf g) ->
  wp (createMappingInTask d task) Q w nf g.
Proof.
  intros Ho Hin HQ. unfold createMappingInTask. apply wp_bind, wp_gets. rewrite (live_ref ρ w g) by done. by eapply wp_new_mapping.
Qed.

Lemma wp_createGMR ρ id d (Q : post _) w nf g : owns E ρ w g -> d.(md_ref) ∈ ρ.(r_refs) -> ρ.(r_open) = false -> ρ.(r_fences) = [] ->
  (forall rc w' g', owns E ρ w' g' -> only_kernel w w' -> Q rc w' nf g') -> wp (createGMR id d) Q w nf g.
Proof.
  intros Ho Hin Hop Hfe HQ. unfold createGMR. apply wp_bind. eapply wp_answer_owns; [done|]. intros a w1 Ho1 [Hk1 Hk2].
  case_bool_decide; [|by apply wp_ret, HQ]. apply wp_bind. eapply wp_answer_owns; [done|]. intros a' w2 Ho2 [Hk3 Hk4].
  apply wp_bind. eapply wp_give; [done|done|]. intros g1 Ho3. apply wp_bind. eapply wp_return; [done|done|done|done|]. intros g' Ho'. apply wp_ret, HQ; [done|]. split; congruence.
Qed.

Lemma wp_destroyGMR ρ id (Q : post _) w nf g : owns E ρ w g -> ρ.(r_open) = false -> ρ.(r_fences) = [] ->
  (forall rc g', owns E ρ w g' -> Q rc w nf g') -> wp (destroyGMR id) Q w nf g.
Proof.
  intros Ho Hop Hfe HQ. unfold destroyGMR. apply wp_bind, wp_accel. case_match; [by apply wp_ret, HQ|].
  apply wp_bind. eapply wp_return; [done|done|done|done|]. intros g' Ho'. by apply wp_ret, HQ.
Qed.

Lemma wp_blitGFB ρ rgn extra p limit dir (Q : post _) w nf g : owns E ρ w g ->
  (forall rc w', owns E ρ w' g -> only_kernel w w' -> Q rc w' nf g) -> wp (blitGFB rgn extra p limit dir) Q w nf g.
Proof.
  intros Ho HQ. unfold blitGFB. apply wp_bind, wp_accel. case_match; [by apply wp_ret, HQ|]. apply wp_bind, wp_gets.
  case_match; [by apply wp_ret, HQ|]. cbv zeta. destruct (if dir then _ else _) as [rc cs]. apply wp_bind. eapply wp_log; [done|].
  intros w' Ho' Hk. by apply wp_ret, HQ.
Qed.
End kernel_rules.
