(* ===== verification/SurfaceProofs.v ===== *)
(** Window surfaces: what every method keeps true.  Ids, surfaces of the device, regions,
    streams, video memory, objects of the kernel and prepared descriptors are held by
    the surface exactly as its fields say; memory goes back only when the device is done
    with it; no method touches an object that is gone. *)

From S2P Require Import Allocator.
From S2P Require Import AllocatorLists AllocatorProofs AllocatorMalloc AllocatorFree AllocatorRealloc AllocatorSpec.
From S2P Require Import Prelude IOKit Layout SvgaReg SvgaCmd Svga3dReg Svga3d AccelIds AccelBlit Accel AccelProofs AccelSpec.
From S2P Require Import ShaderCache Provider AccelGmr Kernel Transfer Surface SurfaceLogic.
From stdpp Require Import gmap gmultiset.
From stdpp Require Import list_relations list.

#[local] Open Scope Z_scope.

Local Abbreviation prog := (prog kernel).
Local Abbreviation world := (world kernel).

(** ** Transfer buffers *)

Definition valid_ids (x : Z) : list Z := if isIdValid x then [x] else [].
Definition add_n (n : Z) (ρ : res) : res := set_r_n (ρ.(r_n) + n) ρ.

Section transfer.
Context (E : env).
Implicit Types (w : world) (nf : Z) (g : monitor) (ρ : res) (v : VendorTransferBuffer).

(** The fence of the buffer is behind the last transfer. *)
Definition fence_of v (fs : list Z) : Prop := fs = [] \/ (v.(fence) ∈ fs /\ v.(fence) <> 0).

Lemma wp_sync ρ v (Q : post _) w nf g : owns E ρ w g -> fence_of v ρ.(r_fences) ->
  (forall g', owns E (set_r_fences [] ρ) w g' -> Q (set_fence 0 v) w nf g') -> wp (sync true v) Q w nf g.
Proof.
  intros Ho Hf HQ. unfold sync. cbn [negb orb]. destruct (Z.eqb_spec v.(fence) 0) as [E0|E0].
  - apply wp_ret. replace v with (set_fence 0 v) by (destruct v; unfold set_fence; cbn in *; by rewrite E0).
    apply HQ. destruct Hf as [Hf|[_ Hf]]; [|done]. by replace (set_r_fences [] ρ) with ρ by (destruct ρ; cbn in *; by rewrite Hf).
  - apply wp_bind. eapply wp_wait; [done| |]; [destruct Hf as [|[]]; auto|]. intros g' Ho'. by apply wp_ret, HQ.
Qed.

(** A region exists exactly while the buffer has a descriptor. *)
Definition vtb_ok v : Prop := is_some v.(md) = isIdValid v.(gmr_id).

Lemma invalid_id : isIdValid SVGA_ID_INVALID = false.
Proof. done. Qed.

Lemma wp_complete ρ v G P (Q : post _) w nf g : owns E ρ w g -> vtb_ok v -> fence_of v ρ.(r_fences) -> ρ.(r_open) = false ->
  ρ.(r_gmrs) ≡ₚ valid_ids v.(gmr_id) ++ G -> ρ.(r_prep) ≡ₚ opt_ref md_ref v.(md) P ->
  (forall id w' g', isIdValid id = false -> owns E (add_n 1 (set_r_fences [] (set_r_prep P (set_r_gmrs G ρ)))) w' g' ->
     Q (mk_vtb v.(gart_ptr) v.(md) id 0) w' nf g') ->
  wp (complete true v) Q w nf g.
Proof.
  intros Ho Hok Hf Hop HG HP HQ. unfold complete. apply wp_bind. eapply wp_sync; [done..|]. intros g1 Ho1. cbn [negb orb gmr_id set_fence md].
  unfold vtb_ok in Hok. unfold valid_ids in HG. destruct (isIdValid v.(gmr_id)) eqn:Ev; cbn [negb].
  - destruct v.(md) as [d|] eqn:Ed; [|done]. apply wp_bind. eapply wp_destroyGMR; [done|done|done|]. intros _ g2 Ho2.
    apply wp_bind. eapply wp_md_complete; [done|exact HP|done|done|]. intros w3 g3 Ho3 _.
    apply wp_bind. eapply wp_freeGMRID; [done|exact HG|]. intros w4 Ho4 _ _. apply wp_ret. unfold set_gmr, set_fence. cbn [gart_ptr md fence]. rewrite Ed. by apply (HQ SVGA_ID_INVALID).
  - destruct v.(md) eqn:Ed; [done|]. apply wp_ret. unfold set_fence. rewrite Ed. apply (HQ v.(gmr_id)); [done|].
    eapply owns_le; [|exact Ho1]. split; cbn; try done. lia.
Qed.

Lemma wp_discard ρ v R (Q : post _) w nf g : owns E ρ w g -> ρ.(r_refs) ≡ₚ opt_ref md_ref v.(md) R ->
  (forall w', owns E (set_r_refs R ρ) w' g -> Q (set_md None v) w' nf g) -> wp (discard v) Q w nf g.
Proof.
  intros Ho HP HQ. unfold discard. destruct v.(md) as [d|] eqn:Ed; cbn [opt_ref] in HP.
  - apply wp_bind. eapply wp_release; [done..|]. intros w' Ho' _. by apply wp_ret, HQ.
  - apply wp_ret. replace v with (set_md None v) by (destruct v; unfold set_md; cbn in *; by rewrite Ed). apply HQ.
    eapply owns_le; [|exact Ho]. by split.
Qed.

Lemma wp_prepare ρ v d (Q : post _) w nf g : owns E ρ w g -> v.(md) = Some d -> isIdValid v.(gmr_id) = false ->
  d.(md_ref) ∈ ρ.(r_refs) -> ρ.(r_open) = false -> ρ.(r_fences) = [] -> ρ.(r_n) + 1 < 2 ^ 30 ->
  (forall rc id w' g',
     owns E (add_n 2 (if bool_decide (rc = kIOReturnSuccess) then set_r_prep (d.(md_ref) :: ρ.(r_prep)) (set_r_gmrs (id :: ρ.(r_gmrs)) ρ) else ρ)) w' g' ->
     isIdValid id = bool_decide (rc = kIOReturnSuccess) -> Q (rc, set_gmr id v) w' nf g') ->
  wp (prepare true v) Q w nf g.
Proof.
  intros Ho Ed Ev Hin Hop Hfe Hn HQ. unfold prepare. cbn [negb]. rewrite Ev, Ed.
  apply wp_bind. eapply wp_allocGMRID; [done|lia|]. intros id w1 Ho1 _ _. unfold opt_id in Ho1. destruct (isIdValid id) eqn:Ei; cbn [negb].
  2: { apply wp_ret, HQ; rewrite bool_decide_false by done; [|done]. eapply owns_le; [|exact Ho1]. split; cbn; try done. lia. }
  apply wp_bind. eapply wp_md_prepare; [done|done|]. intros rc w2 Ho2 _. destruct (bool_decide (rc = kIOReturnSuccess)) eqn:Erc; cbn [negb].
  2: { apply wp_bind. eapply wp_freeGMRID; [done|cbn; reflexivity|]. intros w3 Ho3 _ _. apply wp_ret. apply HQ; rewrite Erc; [|done].
       eapply owns_le; [|exact Ho3]. split; cbn; try done. lia. }
  apply wp_bind. eapply wp_createGMR; [done|done|done|done|]. intros rc' w3 g3 Ho3 _. destruct (bool_decide (rc' = kIOReturnSuccess)) eqn:Erc'; cbn [negb].
  - apply bool_decide_eq_true in Erc' as ->. apply wp_ret, HQ; rewrite bool_decide_true by done; [|done]. eapply owns_le; [|exact Ho3]. split; cbn; try done. lia.
  - apply wp_bind. eapply wp_md_complete; [done|cbn; reflexivity|done|done|]. intros w4 g4 Ho4 _.
    apply wp_bind. eapply wp_freeGMRID; [done|cbn; reflexivity|]. intros w5 Ho5 _ _. apply wp_ret, HQ; rewrite Erc'; [|done].
    eapply owns_le; [|exact Ho5]. split; cbn; try done. lia.
Qed.
End transfer.

(** ** Backing *)

Definition add_blocks (l : list (Z * Z)) (ρ : res) : res := set_r_blocks (l ++ ρ.(r_blocks)) ρ.

(** What the backing holds, next to other resources. *)
Definition with_backing (b : Backing) (blk : list (Z * Z)) (fs : list Z) (ρ : res) : res :=
  mk_res ρ.(r_n) ρ.(r_named) ρ.(r_live) ρ.(r_masters) (valid_ids b.(bk_vtb).(gmr_id) ++ ρ.(r_gmrs)) ρ.(r_streams)
    (blk ++ ρ.(r_blocks))
    (opt_ref md_ref b.(bk_vtb).(md) (opt_ref mp_ref b.(bk_map0) (opt_ref mp_ref b.(bk_map1) ρ.(r_refs))))
    (opt_ref md_ref b.(bk_vtb).(md) ρ.(r_prep)) false fs.

Definition valid_backing (b : Backing) : bool := is_some b.(bk_self) || is_some b.(bk_vtb).(md).

Section backing.
Context (E : env).
Implicit Types (w : world) (nf : Z) (g : monitor) (ρ : res) (b : Backing) (s : Surface).

(** The block of video memory, which holds the backing. *)
Definition block_of b (blk : list (Z * Z)) : Prop :=
  match b.(bk_self) with
  | None => blk = []
  | Some p => exists o bits, blk = [(o, bits)] /\ p = E.(e_pool) + 4096 * o /\ size_ok bits /\ b.(bk_size) <= 4096 * 2 ^ bits
  end.

Record backed ρ b blk fs w g : Prop := {
  bd_owns : owns E (with_backing b blk fs ρ) w g;
  bd_vtb : vtb_ok b.(bk_vtb);
  bd_self : is_some b.(bk_self) = true -> b.(bk_vtb).(md) = None;
  bd_block : block_of b blk;
  bd_fence : fence_of b.(bk_vtb) fs;
  bd_none : valid_backing b = false -> fs = [];
  bd_size : 0 <= b.(bk_size);
}.

Definition Backed ρ b w g : Prop := exists blk fs, backed ρ b blk fs w g.

Lemma set_backing_id s : set_m_backing s.(m_backing) s = s.
Proof. by destruct s. Qed.

Lemma opt_swap {A B} (f : A -> Z) (h : B -> Z) o o' l : opt_ref f o (opt_ref h o' l) ≡ₚ opt_ref h o' (opt_ref f o l).
Proof. destruct o, o'; cbn; try done. apply perm_swap. Qed.

Lemma wp_release_map ρ m R (Q : post unit) w nf g : owns E ρ w g -> ρ.(r_refs) ≡ₚ opt_ref mp_ref m R ->
  (forall w', owns E (set_r_refs R ρ) w' g -> only_kernel w w' -> Q tt w' nf g) -> wp (release_map m) Q w nf g.
Proof.
  intros Ho HP HQ. unfold release_map. destruct m as [m|]; cbn [opt_ref] in HP.
  - by eapply wp_release.
  - apply wp_ret, HQ; [|done]. eapply owns_le; [|exact Ho]. by split.
Qed.

Lemma wp_releaseBackingMap ρ i blk fs s (Q : post _) w nf g : backed ρ s.(m_backing) blk fs w g -> i = 0 \/ i = 1 ->
  (forall w', backed ρ (put_map i None s.(m_backing)) blk fs w' g -> only_kernel w w' -> Q (on_backing (put_map i None) s) w' nf g) ->
  wp (releaseBackingMap i s) Q w nf g.
Proof.
  intros [Ho H1 H2 H3 H4 H5 H6] Hi HQ. unfold releaseBackingMap. rewrite (proj2 (Z.leb_gt 2 i)) by lia.
  destruct (get_map i s.(m_backing)) as [m|] eqn:Em.
  - apply wp_bind. apply (wp_release E _ (r_refs (with_backing (put_map i None s.(m_backing)) blk fs ρ)) _ _ _ _ _ Ho).
    + destruct Hi as [-> | ->]; cbn in *; rewrite Em; destruct (md _), (bk_map0 _); cbn; solve_Permutation.
    + intros w' Ho' Hk. apply wp_ret, HQ; [|done]. by destruct Hi as [-> | ->]; split.
  - apply wp_ret. assert (on_backing (put_map i None) s = s) as Es.
    { destruct s, m_backing; unfold on_backing. destruct Hi as [-> | ->]; cbn in *; by rewrite Em. }
    rewrite <-Es at 1. apply HQ; [|done]. replace (put_map i None (m_backing s)) with (m_backing s); [by split|].
    destruct (m_backing s). destruct Hi as [-> | ->]; cbn in *; by rewrite Em.
Qed.

Lemma wp_releaseBacking ρ s (Q : post _) w nf g : Backed ρ s.(m_backing) w g -> s.(m_provider) = true ->
  (forall w' g', backed (add_n 1 ρ) no_backing [] [] w' g' -> Q (set_m_backing no_backing s) w' nf g') ->
  wp (releaseBacking s) Q w nf g.
Proof.
  intros (blk & fs & [Ho H1 H2 H3 H4 H5 H6]) Hp HQ. unfold releaseBacking. set (b := s.(m_backing)) in *.
  apply wp_bind. eapply wp_release_map; [exact Ho|apply opt_swap|]. intros w1 Ho1 _.
  apply wp_bind. eapply wp_release_map; [exact Ho1|apply opt_swap|]. intros w2 Ho2 _.
  rewrite Hp. apply wp_bind. eapply wp_complete; [exact Ho2|done|done|done|cbn; reflexivity|cbn; reflexivity|]. intros id w3 g3 Hid Ho3.
  apply wp_bind. eapply wp_discard; [exact Ho3|cbn; reflexivity|]. intros w4 Ho4. apply wp_bind.
  destruct (bk_self b) as [p|] eqn:Ep; unfold block_of in H3; rewrite Ep in H3.
  - destruct H3 as (o & bits & -> & -> & _ & _). cbn [when].
    eapply wp_returnVRAM; [exact Ho4|cbn; reflexivity|done|done|done|]. intros w5 g5 Ho5 _ _. apply wp_ret, HQ.
    split; try done. by left.
  - subst blk. apply wp_ret, wp_ret, HQ. split; try done. by left.
Qed.

Lemma backed_plain ρ b w g : owns E (with_backing b [] [] ρ) w g -> vtb_ok b.(bk_vtb) -> b.(bk_self) = None -> 0 <= b.(bk_size) ->
  backed ρ b [] [] w g.
Proof. intros Ho Hv Hs Hz. split; try done; [by rewrite Hs|unfold block_of; by rewrite Hs|by left]. Qed.

(** A new descriptor becomes the backing, or is released. *)
Lemma wp_adopt ρ client d s (Q : post _) w nf g : s.(m_provider) = true -> s.(m_backing).(bk_self) = None ->
  s.(m_backing).(bk_vtb).(md) = None -> isIdValid s.(m_backing).(bk_vtb).(gmr_id) = false -> 0 <= s.(m_backing).(bk_size) ->
  owns E (set_r_refs (d.(md_ref) :: r_refs (with_backing s.(m_backing) [] [] ρ)) (with_backing s.(m_backing) [] [] ρ)) w g ->
  ρ.(r_n) + 1 < 2 ^ 30 ->
  (forall r v w' g', backed (add_n 2 ρ) (set_bk_vtb v s.(m_backing)) [] [] w' g' -> is_some v.(md) = r -> (r = true -> v.(gart_ptr) = client) ->
     Q (r, set_m_backing (set_bk_vtb v s.(m_backing)) s) w' nf g') ->
  wp (adopt_descriptor client d s) Q w nf g.
Proof.
  intros Hp Hs Hm Hv Hz Ho Hn HQ. unfold adopt_descriptor. cbn [m_provider on_vtb on_backing set_m_backing m_backing]. rewrite Hp. apply wp_bind.
  assert (valid_ids s.(m_backing).(bk_vtb).(gmr_id) = []) as Ev by (unfold valid_ids; by rewrite Hv).
  eapply wp_prepare; [exact Ho|done|done|by left|done|done|done|].
  intros rc id w1 g1 Ho1 Hid.
  destruct (bool_decide (rc = kIOReturnSuccess)) eqn:Erc; cbn [negb].
  - apply wp_ret. apply (HQ true (mk_vtb client (Some d) id 0)); [|done|done]. apply backed_plain; try done.
    unfold with_backing in *. cbn in *. rewrite Ev, Hm in Ho1. unfold valid_ids. by rewrite Hid.
  - apply wp_bind. eapply wp_release; [exact Ho1|cbn; reflexivity|]. intros w2 Ho2 _. apply wp_ret.
    apply (HQ false (mk_vtb s.(m_backing).(bk_vtb).(gart_ptr) None id s.(m_backing).(bk_vtb).(fence))); [|done|done]. apply backed_plain; try done.
    unfold with_backing in *. cbn in *. rewrite Ev, Hm in Ho2. unfold valid_ids. by rewrite Hid.
Qed.
(** The result of an allocation: a backing of the size that the scale asks for, unless
    the memory is the client's. *)
Definition sized s b : Prop :=
  valid_backing b = true /\ (isClientBackingValid s = false -> s.(m_scale).(sc_reserved0) <= b.(bk_size)).

(** Blocks that are lost: a block of video memory that could not grow. *)
Definition lost_by s b (l : list (Z * Z)) : Prop :=
  l = [] \/ (is_some s.(m_backing).(bk_self) = true /\ hasSourceGrown s = true /\ isClientBackingValid s = false /\ b.(bk_self) = None).

Lemma wp_allocGMRBacking ρ s (Q : post _) w nf g : s.(m_provider) = true -> backed ρ s.(m_backing) [] [] w g ->
  s.(m_backing).(bk_self) = None -> s.(m_backing).(bk_vtb).(md) = None -> ρ.(r_n) + 1 < 2 ^ 30 ->
  (forall r b w' g', backed (add_n 2 ρ) b [] [] w' g' -> b.(bk_size) = s.(m_backing).(bk_size) -> b.(bk_self) = None -> valid_backing b = r ->
     Q (r, set_m_backing b s) w' nf g') ->
  wp (allocGMRBacking s) Q w nf g.
Proof.
  intros Hp [Ho H1 H2 H3 H4 H5 H6] Hs Hm Hn HQ. unfold allocGMRBacking. apply wp_bind. eapply wp_new_descriptor; [exact Ho|].
  intros [d|] w1 Ho1 _ _.
  - eapply wp_adopt; [done|done|done| |done|exact Ho1|done|].
    + cbn. unfold vtb_ok in H1. rewrite Hm in H1. done.
    + intros r v w' g' Hb Hr _. apply HQ; [done|done|done|]. unfold valid_backing. cbn. by rewrite Hs, Hr.
  - apply wp_ret. rewrite <-(set_backing_id s). apply HQ; [|done|done|unfold valid_backing; by rewrite Hs, Hm].
    apply backed_plain; try done. eapply owns_le; [|exact Ho1]. split; cbn; try done. lia.
Qed.


Lemma wp_alloc_new ρ blk s (Q : post _) w nf g : s.(m_provider) = true -> backed ρ s.(m_backing) blk [] w g ->
  s.(m_backing).(bk_vtb).(md) = None -> 0 <= s.(m_scale).(sc_reserved0) ->
  (is_some s.(m_backing).(bk_self) = true -> 0 < s.(m_scale).(sc_reserved0)) -> ρ.(r_n) + 1 < 2 ^ 30 ->
  (forall r b l w' g', Backed (add_n 2 (add_blocks l ρ)) b w' g' -> b.(bk_size) = s.(m_scale).(sc_reserved0) -> valid_backing b = r ->
     (l = [] \/ (is_some s.(m_backing).(bk_self) = true /\ b.(bk_self) = None)) -> Q (r, set_m_backing b s) w' nf g') ->
  wp (alloc_new_backing s) Q w nf g.
Proof.
  intros Hp Hb Hm Hz Hz' Hn HQ. pose proof Hb as [Ho H1 H2 H3 H4 H5 H6]. unfold alloc_new_backing.
  set (z := sc_reserved0 (m_scale s)) in *. set (s1 := on_backing (set_bk_size z) s).
  assert (isIdValid s.(m_backing).(bk_vtb).(gmr_id) = false) as Hv by (unfold vtb_ok in H1; by rewrite <-H1, Hm).
  assert (valid_ids s.(m_backing).(bk_vtb).(gmr_id) = []) as Ev by (unfold valid_ids; by rewrite Hv).
  (* a block *)
  assert (forall o bits w' g', size_ok bits -> z <= 4096 * 2 ^ bits ->
    owns E (set_r_blocks ((o, bits) :: ρ.(r_blocks)) (with_backing s.(m_backing) blk [] ρ)) w' g' ->
    wp (match Some (E.(e_pool) + 4096 * o) with
        | None => allocGMRBacking (on_backing (set_bk_self (Some (E.(e_pool) + 4096 * o))) s1)
        | Some p =>
            let s := on_backing (set_bk_self (Some (E.(e_pool) + 4096 * o))) s1 in
            let s := on_backing (set_bk_offset (u64 (p - s.(m_screenInfo).(si_client_addr)))) s in
            mret (true, on_vtb (fun v => set_fence 0 (set_gmr GMR_VRAM v)) s)
        end) Q w' nf g') as Hgot.
  { intros o bits w' g' Hbits Hfit Ho'. apply wp_ret.
    set (b := mk_Backing (Some (E.(e_pool) + 4096 * o)) (u64 (E.(e_pool) + 4096 * o - s.(m_screenInfo).(si_client_addr))) z
                s.(m_backing).(bk_map0) s.(m_backing).(bk_map1) (set_fence 0 (set_gmr GMR_VRAM s.(m_backing).(bk_vtb)))).
    apply (HQ true b []); [|done|done|by left]. exists [(o, bits)], []. split; try done; [|unfold vtb_ok; cbn; by rewrite Hm|exists o, bits; done|by left].
    eapply owns_le; [|exact Ho']. unfold with_backing. cbn. rewrite Ev, Hm. split; cbn; try done. lia. }
  (* no block *)
  assert (forall l w' g', owns E (with_backing (set_bk_self None s1.(m_backing)) [] [] (add_blocks l ρ)) w' g' ->
    (l = [] \/ is_some s.(m_backing).(bk_self) = true) -> wp (allocGMRBacking (on_backing (set_bk_self None) s1)) Q w' nf g') as Hfail.
  { intros l w' g' Ho' Hl. eapply (wp_allocGMRBacking (add_blocks l ρ)); [done| |done|done|done|].
    - apply backed_plain; try done.
    - intros r b w2 g2 Hb2 Hs2 Hse Hr. apply (HQ r b l); [by exists [], []|done|done|]. destruct Hl as [->|Hl]; auto. }
  apply wp_bind. unfold provider. replace (m_provider s1) with true by by symmetry. apply wp_ret.
  apply wp_bind. unfold reallocVRAM. cbn [s1 on_backing set_m_backing m_backing set_bk_size bk_self bk_size]. apply wp_bind.
  unfold block_of in H3. destruct (bk_self (m_backing s)) as [p|] eqn:Ep.
  - destruct H3 as (o & bits & -> & -> & _ & _). eapply wp_return; [exact Ho|done|done|done|]. intros g1 Ho1. cbn [default].
    eapply wp_reallocVRAM_some; [exact Ho1|cbn; reflexivity|done| | |by apply Hz'].
    + intros o' b' w' Hb' Hfit Ho' _ _. by apply Hgot with (bits := b').
    + apply (Hfail [(o, bits)]); [|by right]. exact Ho1.
  - subst blk. apply wp_ret. cbn [default]. eapply wp_reallocVRAM_none; [exact Ho| | |done].
    + intros o' b' w' _ Hb' Hfit Ho' _ _. by apply Hgot with (bits := b').
    + apply (Hfail []); [|by left]. exact Ho.
Qed.

Lemma Backed_le ρ ρ' b w g : res_le ρ ρ' -> Backed ρ b w g -> Backed ρ' b w g.
Proof.
  intros Hle (blk & fs & [Ho H1 H2 H3 H4 H5 H6]). exists blk, fs. split; try done. eapply owns_le; [|exact Ho]. unfold with_backing.
  destruct Hle as [? ? ? ? Hg ? Hb Hr Hp _ _]. split; cbn; try done; try (by rewrite ?Hg, ?Hb).
  - destruct (md _), (bk_map0 b), (bk_map1 b); cbn; by rewrite Hr.
  - destruct (md _); cbn; by rewrite Hp.
Qed.

Lemma add_n_le n m ρ : n <= m -> res_le (add_n n ρ) (add_n m ρ).
Proof. intros. split; cbn; try done. lia. Qed.
Lemma add_n_n n m ρ : res_le (add_n n (add_n m ρ)) (add_n (n + m) ρ).
Proof. split; cbn; try done. lia. Qed.
Lemma add_n_blocks n l ρ : add_n n (add_blocks l ρ) = add_blocks l (add_n n ρ).
Proof. done. Qed.

(** Giving up the memory of the backing, but not the block. *)
Lemma wp_shed ρ s (Q : post _) w nf g : Backed ρ s.(m_backing) w g -> s.(m_provider) = true ->
  (forall v blk w' g', backed (add_n 1 ρ) (mk_Backing s.(m_backing).(bk_self) s.(m_backing).(bk_offset) s.(m_backing).(bk_size) None None v) blk [] w' g' ->
     v.(md) = None ->
     Q (set_m_backing (mk_Backing s.(m_backing).(bk_self) s.(m_backing).(bk_offset) s.(m_backing).(bk_size) None None v) s) w' nf g') ->
  wp (s ← releaseBackingMap 0 s;
      s ← releaseBackingMap 1 s;
      v ← complete s.(m_provider) s.(m_backing).(bk_vtb);
      v ← discard v;
      mret (on_vtb (fun _ => v) s)) Q w nf g.
Proof.
  intros (blk & fs & Hb) Hp HQ. apply wp_bind. eapply wp_releaseBackingMap; [exact Hb|by left|]. intros w1 Hb1 _.
  apply wp_bind. eapply wp_releaseBackingMap; [exact Hb1|by right|]. intros w2 [Ho2 B1 B2 B3 B4 B5 B6] _.
  cbn in Ho2, B1, B2, B3, B4, B6. cbn [m_provider on_backing set_m_backing m_backing]. rewrite Hp. apply wp_bind.
  eapply wp_complete; [exact Ho2|done|done|done|cbn; reflexivity|cbn; reflexivity|].
  intros id w3 g3 Hid Ho3. apply wp_bind. eapply wp_discard; [exact Ho3|cbn; reflexivity|]. intros w4 Ho4. apply wp_ret.
  apply (HQ (set_md None (mk_vtb (gart_ptr (bk_vtb (m_backing s))) (md (bk_vtb (m_backing s))) id 0)) blk); [|done].
  split; try done; [|by left]. eapply owns_le; [|exact Ho4]. split; cbn; try done. unfold valid_ids. by rewrite Hid.
Qed.

Lemma wp_wrapClientBacking ρ s (Q : post _) w nf g : s.(m_provider) = true -> Backed ρ s.(m_backing) w g ->
  0 <= s.(m_scale).(sc_reserved0) -> ρ.(r_n) + 2 < 2 ^ 30 ->
  (forall r b w' g', Backed (add_n 3 ρ) b w' g' -> (r = true -> valid_backing b = true) -> Q (r, set_m_backing b s) w' nf g') ->
  wp (wrapClientBacking s) Q w nf g.
Proof.
  intros Hp HB Hz Hn HQ. unfold wrapClientBacking.
  destruct ((classifyBacking s =? 2) && _) eqn:Ec.
  { apply andb_true_iff in Ec as [Ec _]. apply wp_ret. rewrite <-(set_backing_id s). apply HQ.
    - eapply Backed_le; [|exact HB]. split; cbn; try done. lia.
    - intros _. unfold classifyBacking in Ec. unfold valid_backing. destruct (is_some (bk_self _)); [done|]. by destruct (is_some (md _)). }
  apply wp_bind.
  assert (forall s1 w1 g1, s1 = set_m_backing s1.(m_backing) s -> backed (add_n 1 ρ) s1.(m_backing) [] [] w1 g1 ->
    s1.(m_backing).(bk_self) = None -> s1.(m_backing).(bk_vtb).(md) = None ->
    wp (let s := on_backing (set_bk_offset (page_residue s1.(m_client_backing).(cb_addr))) s1 in
        let s := on_backing (set_bk_size s.(m_scale).(sc_reserved0)) s in
        d ← new_descriptor s.(m_backing).(bk_size);
        match d with
        | None => mret (false, s)
        | Some d => adopt_descriptor 1 d s
        end) Q w1 nf g1) as Hgo.
  { intros s1 w1 g1 Es [Ho1 B1 B2 B3 B4 B5 B6] Hs Hm. cbv zeta. apply wp_bind. eapply wp_new_descriptor; [exact Ho1|]. intros [d|] w2 Ho2 _ _.
    - eapply (wp_adopt (add_n 1 ρ)); [by rewrite Es|done|done| |by rewrite Es|exact Ho2|cbn; lia|].
      + cbn. unfold vtb_ok in B1. rewrite Hm in B1. done.
      + intros r v w' g' Hb Hr _. rewrite Es. apply HQ; [|by intros ->; unfold valid_backing; cbn; rewrite Hr, orb_true_r].
        eapply Backed_le; [apply (add_n_n 2 1)|]. rewrite Es in Hb. by eexists _, _.
    - apply wp_ret. rewrite Es. apply HQ; [|done]. exists [], []. apply backed_plain; try done.
      rewrite Es in Ho2. eapply owns_le; [|exact Ho2]. split; cbn; try done. lia. }
  destruct (Z.eqb_spec (classifyBacking s) 0) as [E0|E0].
  - apply wp_ret. destruct HB as (blk & fs & [Ho B1 B2 B3 B4 B5 B6]). unfold classifyBacking in E0.
    destruct (bk_self (m_backing s)) eqn:Es; [done|]. destruct (md (bk_vtb (m_backing s))) eqn:Em; cbn in E0; [by case_match|].
    assert (fs = []) as -> by (apply B5; unfold valid_backing; by rewrite Es, Em). unfold block_of in B3. rewrite Es in B3. subst blk.
    apply Hgo; [by rewrite set_backing_id| |done|done]. apply backed_plain; try done. eapply owns_le; [|exact Ho]. split; cbn; try done. lia.
  - eapply wp_releaseBacking; [done|done|]. intros w1 g1 Hb1. by apply Hgo.
Qed.

Lemma wp_allocBacking ρ s (Q : post _) w nf g : s.(m_provider) = true -> Backed ρ s.(m_backing) w g ->
  0 <= s.(m_scale).(sc_reserved0) -> ρ.(r_n) + 2 < 2 ^ 30 ->
  (forall r b l w' g', Backed (add_n 3 (add_blocks l ρ)) b w' g' -> (r = true -> sized s b) -> lost_by s b l ->
     Q (r, set_m_backing b s) w' nf g') ->
  wp (allocBacking s) Q w nf g.
Proof.
  intros Hp HB Hz Hn HQ. unfold allocBacking. destruct (isClientBackingValid s) eqn:Ec.
  { eapply wp_wrapClientBacking; [done..|]. intros r b w' g' Hb Hr. apply (HQ r b []); [done| |by left].
    intros E1. split; [by apply Hr|by rewrite Ec]. }
  assert (forall s1 blk w1 g1, s1 = set_m_backing s1.(m_backing) s -> backed (add_n 1 ρ) s1.(m_backing) blk [] w1 g1 ->
    s1.(m_backing).(bk_vtb).(md) = None ->
    (is_some s1.(m_backing).(bk_self) = true -> is_some s.(m_backing).(bk_self) = true /\ hasSourceGrown s = true /\ 0 < s.(m_scale).(sc_reserved0)) ->
    wp (alloc_new_backing s1) Q w1 nf g1) as Hgo.
  { intros s1 blk w1 g1 Es Hb1 Hm Hs. rewrite Es in Hb1, Hm, Hs. cbn in Hb1, Hm, Hs. rewrite Es. eapply (wp_alloc_new (add_n 1 ρ)); [done|exact Hb1|done|done| |cbn; lia|].
    - intros E1. by destruct (Hs E1) as (_ & _ & ?).
    - intros r b l w' g' HB' Hsz Hr Hl. apply (HQ r b l).
      + eapply Backed_le; [|exact HB']. split; cbn; try done. lia.
      + intros ->. split; [done|]. intros _. rewrite Hsz. cbn. lia.
      + destruct Hl as [->|[Hl1 Hl2]]; [by left|]. right. destruct (Hs Hl1) as (? & ? & _). done. }
  unfold classifyBacking. destruct HB as (blk & fs & Hb). pose proof Hb as [Ho B1 B2 B3 B4 B5 B6].
  destruct (bk_self (m_backing s)) as [p|] eqn:Es; cbn [is_some Z.eqb andb].
  - destruct (hasSourceGrown s) eqn:Eg; cbn [negb].
    + apply wp_bind. eapply wp_shed; [by exists blk, fs|done|]. intros v blk' w1 g1 Hb1 Hm. apply (Hgo _ blk'); [done|done|done|]. cbn. intros _.
      unfold hasSourceGrown in Eg. apply Z.ltb_lt in Eg. split; [done|]. split; [done|]. lia.
    + apply wp_ret. rewrite <-(set_backing_id s). apply (HQ true _ []); [|intros _; split|by left].
      * eapply Backed_le; [|by exists blk, fs]. split; cbn; try done. lia.
      * unfold valid_backing. by rewrite Es.
      * intros _. unfold hasSourceGrown in Eg. by apply Z.ltb_ge in Eg.
  - destruct (md (bk_vtb (m_backing s))) as [d|] eqn:Em; cbn [is_some].
    + destruct (Z.eqb_spec (gart_ptr (bk_vtb (m_backing s))) 0) as [E0|E0]; cbn [negb Z.eqb andb].
      * destruct (hasSourceGrown s) eqn:Eg; cbn [negb].
        -- apply wp_bind. eapply wp_shed; [by exists blk, fs|done|]. intros v blk' w1 g1 Hb1 Hm. apply (Hgo _ blk'); [done|done|done|]. cbn. by rewrite Es.
        -- apply wp_ret. rewrite <-(set_backing_id s). apply (HQ true _ []); [|intros _; split|by left].
           ++ eapply Backed_le; [|by exists blk, fs]. split; cbn; try done. lia.
           ++ unfold valid_backing. by rewrite Es, Em.
           ++ intros _. unfold hasSourceGrown in Eg. by apply Z.ltb_ge in Eg.
      * apply wp_bind. eapply wp_releaseBacking; [by exists blk, fs|done|]. intros w1 g1 Hb1. by apply (Hgo _ []).
    + cbn [Z.eqb andb negb]. apply wp_bind, wp_ret. assert (fs = []) as -> by (apply B5; unfold valid_backing; by rewrite Es, Em).
      apply (Hgo s blk); [by rewrite set_backing_id| |done|by rewrite Es]. split; try done. eapply owns_le; [|exact Ho]. split; cbn; try done. lia.
Qed.

(** Mapping the backing: the mapping is there afterwards, and the rest is as it was. *)
Lemma wp_mapBacking ρ task i s (Q : post _) w nf g : Backed ρ s.(m_backing) w g -> i = 0 \/ i = 1 -> valid_backing s.(m_backing) = true ->
  (forall r m w', Backed ρ (put_map i m s.(m_backing)) w' g -> r = is_some m -> Q (r, on_backing (put_map i m) s) w' nf g) ->
  wp (mapBacking task i s) Q w nf g.
Proof.
  intros (blk & fs & [Ho B1 B2 B3 B4 B5 B6]) Hi Hv HQ. unfold mapBacking. rewrite (proj2 (Z.leb_gt 2 i)) by lia.
  destruct (get_map i s.(m_backing)) as [m|] eqn:Em.
  { assert (put_map i (Some m) s.(m_backing) = s.(m_backing)) as Eb.
    { destruct (m_backing s); destruct Hi as [-> | ->]; cbn in *; by rewrite Em. }
    cbn [is_some]. apply wp_ret. rewrite <-(set_backing_id s), <-Eb at 1. apply (HQ true (Some m)); [|done]. rewrite Eb. by exists blk, fs. }
  cbn [is_some]. assert (forall m w', owns E (set_r_refs (opt_ref mp_ref m (r_refs (with_backing s.(m_backing) blk fs ρ))) (with_backing s.(m_backing) blk fs ρ)) w' g ->
    wp (mret (is_some m, on_backing (put_map i m) s)) Q w' nf g) as Hm.
  { intros m w' Ho'. apply wp_ret, HQ; [|done]. exists blk, fs. destruct Hi as [-> | ->]; split; try done; eapply owns_le; try exact Ho';
      split; try done; cbn in *; rewrite Em; destruct m, (md (bk_vtb _)); cbn; try done; try apply perm_swap.
    all: destruct (bk_map0 _); cbn; solve_Permutation. }
  apply wp_bind. destruct (bk_self (m_backing s)) eqn:Es; cbn [is_some].
  - eapply wp_new_mapping; [exact Ho|]. intros m w' Ho' _. by apply Hm.
  - unfold valid_backing in Hv. rewrite Es in Hv. destruct (md (bk_vtb (m_backing s))) as [d|] eqn:Ed; [|done].
    eapply wp_createMapping; [exact Ho|cbn; rewrite Ed; by left|]. intros m w' Ho' _. by apply Hm.
Qed.

(** Pointers for the processor hold at most a mapping. *)
Lemma wp_obtainKernelPtrs ρ s (Q : post _) w nf g : owns E ρ w g ->
  (forall d, s.(m_backing).(bk_vtb).(md) = Some d -> d.(md_ref) ∈ ρ.(r_refs) \/ d.(md_ref) ∈ E.(e_refs)) ->
  (forall kp w', owns E (set_r_refs (opt_ref mp_ref kp.(kp_holder) ρ.(r_refs)) ρ) w' g ->
     (kp.(kp_rc) <> kIOReturnSuccess -> kp.(kp_holder) = None) -> Q kp w' nf g) ->
  wp (obtainKernelPtrs s) Q w nf g.
Proof.
  intros Ho Hd HQ. unfold obtainKernelPtrs. assert (owns E (set_r_refs ρ.(r_refs) ρ) w g) as Ho' by by destruct ρ.
  destruct (md (bk_vtb (m_backing s))) as [d|].
  - apply wp_bind. unfold createMappingInTask. apply wp_bind, wp_gets. rewrite bool_decide_true.
    2: { destruct (ow_kernel _ _ _ _ Ho) as [-> _ _ _ _ _]. rewrite elem_of_union, elem_of_list_to_set. by apply Hd. }
    cbn [negb]. eapply wp_new_mapping; [exact Ho|]. intros [m|] w' Ho1 _; apply wp_ret, HQ; done.
  - destruct (bk_self (m_backing s)); apply wp_ret, HQ; done.
Qed.

Lemma wp_release_holder ρ ρ' kp (Q : post unit) w nf g : owns E (set_r_refs (opt_ref mp_ref kp.(kp_holder) ρ.(r_refs)) ρ) w g ->
  ρ' = set_r_refs ρ.(r_refs) ρ -> (forall w', owns E ρ' w' g -> Q tt w' nf g) -> wp (release_map kp.(kp_holder)) Q w nf g.
Proof. intros Ho -> HQ. eapply wp_release_map; [exact Ho|cbn; reflexivity|]. intros w' Ho' _. by apply HQ. Qed.

Definition add_ref (x : Z) (ρ : res) : res := set_r_refs (x :: ρ.(r_refs)) ρ.

Lemma backed_ref ρ b blk fs x w g : owns E (add_ref x (with_backing b blk fs ρ)) w g -> owns E (with_backing b blk fs (add_ref x ρ)) w g.
Proof.
  intros Ho. eapply owns_le; [|exact Ho]. split; try done. cbn. destruct (md _), (bk_map0 b), (bk_map1 b); cbn; solve_Permutation.
Qed.
Lemma ref_backed ρ b blk fs x w g : owns E (with_backing b blk fs (add_ref x ρ)) w g -> owns E (add_ref x (with_backing b blk fs ρ)) w g.
Proof.
  intros Ho. eapply owns_le; [|exact Ho]. split; try done. cbn. destruct (md _), (bk_map0 b), (bk_map1 b); cbn; solve_Permutation.
Qed.

Lemma perm_swap_opt {A} (f : A -> Z) o x l : opt_ref f o (x :: l) ≡ₚ x :: opt_ref f o l.
Proof. destruct o; cbn; [apply perm_swap|done]. Qed.

Lemma wp_clear_yuv ρ s p n (Q : post unit) w nf g : owns E ρ w g -> (forall w', owns E ρ w' g -> Q tt w' nf g) ->
  wp (clear_yuv_to_black s p n) Q w nf g.
Proof.
  intros Ho HQ. unfold clear_yuv_to_black. repeat case_match; try (by apply wp_ret, HQ); (eapply wp_log; [done|]); intros w' Ho' _; by apply HQ.
Qed.

(** The client sees a black buffer in place of the backing. *)
Lemma wp_setup_trick_buffer ρ s (Q : post _) w nf g : Backed ρ s.(m_backing) w g ->
  (forall rc m w' g', Backed ρ (set_bk_map0 m s.(m_backing)) w' g' -> Q (rc, on_backing (set_bk_map0 m) s) w' nf g') ->
  wp (setup_trick_buffer s) Q w nf g.
Proof.
  intros (blk & fs & [Ho B1 B2 B3 B4 B5 B6]) HQ. unfold setup_trick_buffer.
  assert (forall rc w' g', owns E (with_backing s.(m_backing) blk fs ρ) w' g' -> Q (rc, s) w' nf g') as Hsame.
  { intros rc w' g' Ho'. replace s with (on_backing (set_bk_map0 s.(m_backing).(bk_map0)) s) by (by destruct s, m_backing).
    apply HQ. exists blk, fs. replace (set_bk_map0 _ _) with s.(m_backing) by (by destruct s, m_backing). by split. }
  destruct (isBackingValid s); cbn [negb]; [|by apply wp_ret, Hsame]. apply wp_bind. eapply wp_new_descriptor; [exact Ho|].
  intros [mem|] w1 Ho1 _ Hnew; [|by apply wp_ret, Hsame]. destruct (Hnew mem eq_refl) as [_ Hfresh]. cbn [opt_ref] in Ho1.
  apply wp_bind. eapply wp_md_prepare; [exact Ho1|by left|]. intros rc w2 Ho2 _. destruct (bool_decide (rc = kIOReturnSuccess)); cbn [negb].
  2: { apply wp_bind. eapply wp_release; [exact Ho2|cbn; reflexivity|]. intros w3 Ho3 _. by apply wp_ret, Hsame. }
  apply wp_bind. eapply wp_createMapping; [exact Ho2|by left|]. intros [m|] w3 Ho3 _.
  2: { apply wp_bind. eapply wp_md_complete_at; [exact Ho3|cbn; reflexivity|done|]. intros w4 g4 Ho4 _ _.
       apply wp_bind. eapply wp_release; [exact Ho4|cbn; reflexivity|]. intros w5 Ho5 _. by apply wp_ret, Hsame. }
  apply wp_bind. eapply wp_clear_yuv; [exact Ho3|]. intros w4 Ho4.
  apply wp_bind. eapply wp_release; [exact Ho4|cbn; reflexivity|]. intros w5 Ho5 _.
  apply wp_bind. eapply wp_md_complete_at; [exact Ho5|cbn; reflexivity|done|]. intros w6 g6 Ho6 _ _.
  apply wp_bind. eapply (wp_releaseBackingMap (add_ref mem.(md_ref) ρ) 0 blk fs); [|by left|].
  { split; try done. by apply backed_ref. }
  intros w7 [Ho7 _ _ _ _ _ _] _. apply ref_backed in Ho7. apply wp_bind. eapply wp_createMapping; [exact Ho7|by left|]. intros m' w8 Ho8 _.
  apply wp_bind. eapply wp_release; [exact Ho8|cbn; apply perm_swap_opt|]. intros w9 Ho9 _. apply wp_ret.
  apply (HQ _ m'). exists blk, fs. split; try done. eapply owns_le; [|exact Ho9]. split; try done. cbn. destruct m', (md _); cbn; try done. apply perm_swap.
Qed.

(** ** Requests next to a backing *)

Definition add_live (x : Z) (ρ : res) : res := set_r_live (x :: ρ.(r_live)) ρ.

Lemma Backed_mono n ρ b w g : Backed (add_n n ρ) b w g -> forall m, n <= m -> Backed (add_n m ρ) b w g.
Proof. intros HB m Hm. eapply Backed_le; [|exact HB]. by apply add_n_le. Qed.

Lemma Backed_plus n m ρ b w g : Backed (add_n n (add_n m ρ)) b w g -> Backed (add_n (n + m) ρ) b w g.
Proof. apply Backed_le, add_n_n. Qed.

Lemma wp_new_surface ρ b s width height (Q : post _) w nf g : Backed ρ b w g -> ρ.(r_n) < 2 ^ 30 ->
  (forall o w' g', Backed (add_n 2 (match o with Some x => add_live x ρ | None => ρ end)) b w' g' -> Q o w' nf g') ->
  wp (new_surface s width height) Q w nf g.
Proof.
  intros (blk & fs & [Ho B1 B2 B3 B4 B5 B6]) Hn HQ. unfold new_surface. apply wp_bind. eapply wp_allocSurfaceID; [exact Ho|exact Hn|].
  intros sid w1 _ Ho1 _ _ _. apply wp_bind. eapply wp_createSurface; [exact Ho1|cbn; reflexivity| |].
  - intros _ g2 Ho2. unfold ok. cbn [fst]. rewrite bool_decide_true by done. apply wp_ret, (HQ (Some sid)). exists blk, fs. split; try done. eapply owns_le; [|exact Ho2]. split; cbn; try done. lia.
  - intros _. unfold ok. cbn [fst]. rewrite bool_decide_false by done. apply wp_bind. eapply wp_freeSurfaceID; [exact Ho1|cbn; reflexivity|]. intros w2 Ho2 _ _.
    apply wp_ret, (HQ None). exists blk, fs. split; try done. eapply owns_le; [|exact Ho2]. split; cbn; try done. lia.
Qed.

Lemma wp_drop_surface ρ b x l (Q : post unit) w nf g : Backed ρ b w g -> ρ.(r_live) ≡ₚ x :: l ->
  (forall w' g', Backed (add_n 1 (set_r_live l ρ)) b w' g' -> Q tt w' nf g') -> wp (drop_surface x) Q w nf g.
Proof.
  intros (blk & fs & [Ho B1 B2 B3 B4 B5 B6]) HP HQ. unfold drop_surface. apply wp_bind. eapply wp_destroySurface; [exact Ho|exact HP|]. intros g1 Ho1.
  eapply wp_freeSurfaceID; [exact Ho1|cbn; reflexivity|]. intros w2 Ho2 _ _. apply HQ. exists blk, fs. split; try done.
Qed.

(** Transfers from and to memory, with a fence. *)
Definition moves (op : accel_op) : bool :=
  match op with
  | OpSurfaceDMA2D _ _ _ (Some _) true | OpBlitFromScreen _ _ (Some _) true | OpBlitToScreen _ _ (Some _) true => true
  | _ => false
  end.

Lemma store_fence_backing f s : (store_fence f s) = set_m_backing (store_fence f s).(m_backing) s.
Proof. by destruct f, s. Qed.

Lemma backed_fence ρ s blk fs fs' f w g : backed ρ s.(m_backing) blk fs w g -> owns E (with_backing s.(m_backing) blk fs' ρ) w g ->
  (valid_backing s.(m_backing) = false -> fs' = []) -> fence_of (set_fence f s.(m_backing).(bk_vtb)) fs' ->
  backed ρ (store_fence (Some f) s).(m_backing) blk fs' w g.
Proof. intros [Ho B1 B2 B3 B4 B5 B6] Ho' Hv Hf. by split. Qed.

Lemma wp_moves ρ op s (Q : post _) w nf g : Backed ρ s.(m_backing) w g -> moves op = true -> isBackingValid s = true ->
  (forall r nf' g', Backed ρ (store_fence r.2 s).(m_backing) w g' -> Q r w nf' g') -> wp (ask op) Q w nf g.
Proof.
  intros (blk & fs & Hb) Hop Hv HQ. pose proof Hb as [Ho B1 B2 B3 B4 B5 B6].
  assert (forall f nf' g', f <> 0 -> owns E (set_r_open false (set_r_fences [f] (with_backing s.(m_backing) blk fs ρ))) w g' ->
    Q (kIOReturnSuccess, Some f) w nf' g') as Hyes.
  { intros f nf' g' Hf Ho'. apply HQ. exists blk, [f]. split; try done; [right; split; [by left|done]|].
    intros Hn. change (valid_backing (m_backing s) = false) in Hn. unfold isBackingValid in Hv. unfold valid_backing in Hn. congruence. }
  assert (Q (kIOReturnNoDevice, None) w nf g) as Hno by (apply HQ; by exists blk, fs).
  destruct op; cbn [moves] in Hop; try discriminate; destruct extra; try discriminate; destruct fence; try discriminate.
  - eapply wp_surfaceDMA2D; [exact Ho|by intros _|done].
  - eapply wp_blit; [exact Ho|do 3 eexists; by left|by intros _|done].
  - eapply wp_blit; [exact Ho|do 3 eexists; by right|by intros _|done].
Qed.

Lemma wp_plain ρ op s (Q : post _) w nf g : Backed ρ s.(m_backing) w g -> harmless op = true ->
  (forall r w' nf' g', Backed ρ s.(m_backing) w' g' -> Backed ρ (store_fence r.2 s).(m_backing) w' g' -> Q r w' nf' g') ->
  wp (ask op) Q w nf g.
Proof.
  intros (blk & fs & Hb) Hop HQ. pose proof Hb as [Ho B1 B2 B3 B4 B5 B6]. eapply wp_harmless; [exact Ho|done|done|].
  intros r w' nf' g' fs' Ho' [L1 L2] Hr _ _. cbn [r_fences with_backing] in *.
  assert (valid_backing s.(m_backing) = false -> fs' = []) as Hn by (intros Hv; by apply L1, B5).
  assert (Backed ρ s.(m_backing) w' g') as H1.
  { exists blk, fs'. split; try done. destruct B4 as [->|[]]; [left; by apply L1|right; split; [by apply L2|done]]. }
  apply HQ; [done|]. destruct r.2 as [f|] eqn:Er; [|done]. destruct (Hr f eq_refl) as [Hf0 Hf]. exists blk, fs'. split; try done.
  destruct (decide (fs = [])) as [->|Hne]; [left; by apply L1|right; by split; [apply Hf|]].
Qed.

Lemma isBackingValid_fence f s : isBackingValid (store_fence f s) = isBackingValid s.
Proof. by destruct f. Qed.

(** ** Ways out *)

(** A request that only changes the backing, after at most [k] requests for ids. *)
Definition keeps_backing (k : Z) (p : Surface -> prog (IOReturn * Surface)) : Prop :=
  forall ρ s (Q : post (IOReturn * Surface)) w nf g, Backed ρ s.(m_backing) w g -> ρ.(r_n) + k < 2 ^ 30 ->
    (forall rc b w' nf' g', Backed (add_n k ρ) b w' g' -> valid_backing b = valid_backing s.(m_backing) ->
       Q (rc, set_m_backing b s) w' nf' g') ->
    wp (p s) Q w nf g.

(** The methods start with the same tests. *)
Lemma keeps_with_region k (f : Surface -> IOAccelDeviceRegion -> prog (IOReturn * Surface)) : 0 <= k ->
  (forall ρ s rgn (Q : post (IOReturn * Surface)) w nf g, Backed ρ s.(m_backing) w g -> ρ.(r_n) + k < 2 ^ 30 -> isBackingValid s = true ->
    (forall rc b w' nf' g', Backed (add_n k ρ) b w' g' -> valid_backing b = valid_backing s.(m_backing) ->
       Q (rc, set_m_backing b s) w' nf' g') ->
    wp (f s rgn) Q w nf g) ->
  keeps_backing k (fun s => with_region s (f s)).
Proof.
  intros Hk Hf ρ s Q w nf g HB Hn HQ. unfold with_region.
  assert (Q (kIOReturnNotReady, s) w nf g) as Hno.
  { rewrite <-(set_backing_id s). apply HQ; [|done]. eapply Backed_le; [|exact HB]. split; cbn; try done. lia. }
  destruct (m_last_region s) as [rgn|]; [|by apply wp_ret]. destruct (isBackingValid s) eqn:Hv; [by apply (Hf ρ)|by apply wp_ret].
Qed.

Lemma valid_fence f s : valid_backing (store_fence f s).(m_backing) = valid_backing s.(m_backing).
Proof. by destruct f. Qed.

Lemma DMAOutDirect_keeps : keeps_backing 0 (DMAOutDirect true).
Proof.
  apply keeps_with_region; [done|]. intros ρ s rgn Q w nf g HB Hn Hv HQ. apply wp_bind, wp_bind, wp_accel, wp_ret, wp_bind.
  eapply wp_moves; [exact HB|done|done|]. intros r nf' g' HB'. apply wp_ret. rewrite (store_fence_backing r.2 s). apply HQ; [|apply valid_fence].
  eapply Backed_le; [|exact HB']. split; cbn; try done. lia.
Qed.

Lemma ScreenObjectOutDirect_keeps : keeps_backing 0 (ScreenObjectOutDirect true).
Proof.
  apply keeps_with_region; [done|]. intros ρ s rgn Q w nf g HB Hn Hv HQ. apply wp_bind.
  eapply wp_moves; [exact HB|done|done|]. intros r nf' g' HB'. apply wp_ret. rewrite (store_fence_backing r.2 s). apply HQ; [|apply valid_fence].
  eapply Backed_le; [|exact HB']. split; cbn; try done. lia.
Qed.

Lemma Backed_dropped k x ρ b w g : Backed (add_n 1 (set_r_live ρ.(r_live) (add_n k (add_live x ρ)))) b w g -> Backed (add_n (k + 1) ρ) b w g.
Proof. apply Backed_le. split; cbn; try done. lia. Qed.

Definition ends_with k ρ s (Q : post (IOReturn * Surface)) : Prop :=
  forall rc b w nf g, Backed (add_n k ρ) b w g -> valid_backing b = valid_backing s.(m_backing) -> Q (rc, set_m_backing b s) w nf g.

(** A surface for the time of a transfer is given back at the end. *)
Lemma wp_drop_end ρ k j x b s rc (Q : post (IOReturn * Surface)) w nf g : Backed (add_n j (add_live x ρ)) b w g -> j + 1 <= k ->
  ends_with k ρ s Q -> valid_backing b = valid_backing s.(m_backing) ->
  wp (drop_surface x;; mret (rc, set_m_backing b s)) Q w nf g.
Proof.
  intros HB Hk HQ Hv. apply wp_bind. eapply wp_drop_surface; [exact HB|cbn; reflexivity|]. intros w1 g1 HB1. apply wp_ret, HQ; [|done].
  by eapply Backed_mono; [apply (Backed_dropped j x)|].
Qed.

Lemma wp_no_surface ρ k j b s rc (Q : post (IOReturn * Surface)) w nf g : Backed (add_n j ρ) b w g -> j <= k ->
  ends_with k ρ s Q -> b = s.(m_backing) -> wp (mret (rc, s)) Q w nf g.
Proof. intros HB Hk HQ ->. apply wp_ret. rewrite <-(set_backing_id s). apply HQ; [|done]. by eapply Backed_mono. Qed.

Lemma DMAOutWithCopy_keeps : keeps_backing 3 (DMAOutWithCopy true).
Proof.
  apply keeps_with_region; [done|]. intros ρ s rgn Q w nf g HB Hn Hv HQ. cbv zeta. apply wp_bind. eapply wp_new_surface; [exact HB|lia|].
  intros [x|] w1 g1 HB1; [|by eapply wp_no_surface; [exact HB1| |exact HQ|]]. apply wp_bind. eapply wp_moves; [exact HB1|done|done|]. intros r nf2 g2 HB2.
  rewrite (store_fence_backing r.2 s). destruct (ok r); cbn [negb]; [|by eapply wp_drop_end; [exact HB2| |exact HQ|apply valid_fence]].
  apply wp_bind, wp_bind, wp_accel, wp_ret, wp_bind. eapply (wp_plain _ _ (store_fence r.2 s)); [exact HB2|done|].
  intros r' w3 nf3 g3 HB3 _. by eapply wp_drop_end; [exact HB3| |exact HQ|apply valid_fence].
Qed.

Lemma ScreenObjectOutVia3D_keeps : keeps_backing 3 (ScreenObjectOutVia3D true).
Proof.
  apply keeps_with_region; [done|]. intros ρ s rgn Q w nf g HB Hn Hv HQ. cbv zeta. apply wp_bind. eapply wp_new_surface; [exact HB|lia|].
  intros [x|] w1 g1 HB1; [|by eapply wp_no_surface; [exact HB1| |exact HQ|]]. apply wp_bind. eapply wp_moves; [exact HB1|done|done|]. intros r nf2 g2 HB2.
  rewrite (store_fence_backing r.2 s). destruct (ok r); cbn [negb]; [|by eapply wp_drop_end; [exact HB2| |exact HQ|apply valid_fence]].
  apply wp_bind. eapply (wp_plain _ _ (store_fence r.2 s)); [exact HB2|done|].
  intros r' w3 nf3 g3 HB3 _. by eapply wp_drop_end; [exact HB3| |exact HQ|apply valid_fence].
Qed.

Lemma DMAOutStretchWithCopy_keeps : keeps_backing 6 (DMAOutStretchWithCopy true).
Proof.
  apply keeps_with_region; [done|]. intros ρ s rgn Q w nf g HB Hn Hv HQ. cbv zeta. apply wp_bind. eapply wp_new_surface; [exact HB|lia|].
  intros [x|] w1 g1 HB1; [|by eapply wp_no_surface; [exact HB1| |exact HQ|]]. apply wp_bind. eapply wp_moves; [exact HB1|done|done|]. intros r nf2 g2 HB2.
  rewrite (store_fence_backing r.2 s). destruct (ok r); cbn [negb]; [|by eapply wp_drop_end; [exact HB2| |exact HQ|apply valid_fence]].
  apply wp_bind. eapply wp_new_surface; [exact HB2|cbn; lia|]. intros [y|] w3 g3 HB3.
  2: { eapply (wp_drop_end ρ 6 4 x); [|done|exact HQ|apply valid_fence]. eapply Backed_le; [|exact HB3]. split; cbn; try done. lia. }
  apply wp_bind. eapply (wp_plain _ _ (store_fence r.2 s)); [exact HB3|done|]. intros r4 w4 nf4 g4 HB4 _.
  apply wp_bind. eapply wp_drop_surface; [exact HB4|cbn; apply perm_swap|]. intros w5 g5 HB5.
  apply (Backed_le _ (add_n 5 (add_live y ρ))) in HB5; [|split; cbn; try done; lia].
  destruct (ok r4); cbn [negb]; [|by eapply wp_drop_end; [exact HB5| |exact HQ|apply valid_fence]].
  apply wp_bind, wp_bind, wp_accel, wp_ret, wp_bind. eapply (wp_plain _ _ (store_fence r.2 s)); [exact HB5|done|]. intros r6 w6 nf6 g6 HB6 _.
  by eapply wp_drop_end; [exact HB6| |exact HQ|apply valid_fence].
Qed.

Lemma GFBOutDirect_keeps : keeps_backing 0 GFBOutDirect.
Proof.
  apply keeps_with_region; [done|]. intros ρ s rgn Q w nf g (blk & fs & Hb) Hn Hv HQ. pose proof Hb as [Ho B1 B2 B3 B4 B5 B6].
  assert (forall rc w' nf' g', Backed ρ s.(m_backing) w' g' -> Q (rc, s) w' nf' g') as Hend.
  { intros rc w' nf' g' HB'. rewrite <-(set_backing_id s). apply HQ; [|done]. eapply Backed_le; [|exact HB']. split; cbn; try done. lia. }
  apply wp_bind. eapply wp_obtainKernelPtrs; [exact Ho|intros d Hd; left; cbn; rewrite Hd; by left|]. intros kp w1 Ho1 Hk.
  destruct (bool_decide_reflect (kp.(kp_rc) = kIOReturnSuccess)) as [Erc|Erc]; cbn [negb].
  2: { apply wp_ret, Hend. exists blk, fs. split; try done. by rewrite (Hk Erc) in Ho1. }
  cbv zeta. apply wp_bind. eapply wp_blitGFB; [exact Ho1|]. intros rc w2 Ho2 _.
  apply wp_bind. eapply wp_release_holder; [exact Ho2|done|]. intros w3 Ho3.
  case_bool_decide; cbn [negb]; [|apply wp_ret, Hend; exists blk, fs; by split].
  apply wp_bind. eapply (wp_plain ρ _ s); [exists blk, fs; by split|done|]. intros r w4 nf4 g4 HB4 _. by apply wp_ret, Hend.
Qed.
End backing.
