(* ===== verification/SurfaceMethods.v ===== *)
(** Window surfaces: what every method keeps true.  Between calls the ids, surfaces of the
    device, regions, streams, video memory, objects of the kernel and prepared descriptors
    of a surface are exactly those in its fields, apart from what two methods lose; memory
    goes back only when the device is done with it; no method touches an object that is
    gone. *)

From S2P Require Import Prelude IOKit Layout SvgaReg SvgaCmd Svga3dReg Svga3d AccelIds AccelBlit Accel AccelProofs AccelSpec.
From S2P Require Import ShaderCache Provider AccelGmr Kernel Transfer Surface SurfaceLogic SurfaceProofs.
From stdpp Require Import gmap gmultiset.
From stdpp Require Import list_relations list.

#[local] Open Scope Z_scope.

Local Abbreviation prog := (prog kernel).
Local Abbreviation world := (world kernel).

(** ** The invariant *)

(** Streams and blocks that nobody will give back. *)
Record lost := mk_lost { l_streams : list Z; l_blocks : list (Z * Z) }.
Definition lose_blocks (l : list (Z * Z)) (L : lost) : lost := mk_lost L.(l_streams) (l ++ L.(l_blocks)).
Definition lose_stream (x : Z) (L : lost) : lost := mk_lost (x :: L.(l_streams)) L.(l_blocks).

(** What the fields say, apart from the backing. *)
Definition frame (n : Z) (L : lost) (s : Surface) : res :=
  mk_res n [] (valid_ids s.(m_gl).(gl_color_sid) ++ valid_ids s.(m_gl).(gl_depth_sid)) (if s.(bHaveMasterSurface) then 1 else 0) []
    ((if enabled s then [s.(m_video).(vd_stream_id)] else []) ++ L.(l_streams)) L.(l_blocks) (opt_ref id s.(m_last_shape) []) [] false [].

Record wf (s : Surface) : Prop := {
  wf_provider : s.(m_provider) = true;
  wf_color : isIdValid s.(m_gl).(gl_color_sid) = s.(bGLMode);
  wf_depth : s.(bGLMode) = false -> isIdValid s.(m_gl).(gl_depth_sid) = false;
  wf_video : enabled s = true -> s.(bVideoMode) = true;
  wf_size : 0 <= s.(m_scale).(sc_reserved0);
}.

Record Inv (E : env) (n : Z) (L : lost) (s : Surface) (w : world) (g : monitor) : Prop := {
  inv_wf : wf s;
  inv_backed : Backed E (frame n L s) s.(m_backing) w g;
}.

(** Fields that the invariant does not mention. *)
Ltac same_fields := match goal with H : Inv _ _ _ _ _ _ |- Inv _ _ _ _ _ _ => destruct H as [[? ? ? ? ?] ?]; split; [by split|done] end.

Section methods.
Context (E : env).
Implicit Types (w : world) (nf : Z) (g : monitor) (s : Surface) (L : lost) (n : Z).

Lemma Inv_le n m L s w g : Inv E n L s w g -> n <= m -> Inv E m L s w g.
Proof. intros [Hw HB] Hm. split; [done|]. eapply Backed_le; [|exact HB]. split; try done. Qed.

Lemma Inv_backing n L s b w g : wf s -> Backed E (frame n L s) b w g -> Inv E n L (set_m_backing b s) w g.
Proof. intros [] HB. by split. Qed.

Lemma Inv_allocBacking n L s (Q : post _) w nf g : Inv E n L s w g -> n + 3 < 2 ^ 30 ->
  (forall r b l w' g', Inv E (n + 3) (lose_blocks l L) (set_m_backing b s) w' g' -> (r = true -> sized s b) -> lost_by s b l ->
     Q (r, set_m_backing b s) w' nf g') ->
  wp (allocBacking s) Q w nf g.
Proof.
  intros [Hw HB] Hn HQ. eapply wp_allocBacking; [apply Hw|exact HB|apply Hw|cbn; lia|]. intros r b l w' g' HB' Hr Hl. apply (HQ r b l); [|done..].
  by apply Inv_backing.
Qed.

Lemma Inv_plain n L s op (Q : post _) w nf g : Inv E n L s w g -> harmless op = true ->
  (forall r w' nf' g', Inv E n L s w' g' -> Inv E n L (store_fence r.2 s) w' g' -> Q r w' nf' g') -> wp (ask op) Q w nf g.
Proof.
  intros [Hw HB] Hop HQ. eapply wp_plain; [exact HB|done|]. intros r w' nf' g' H1 H2. apply HQ; [by split|].
  rewrite store_fence_backing. by apply Inv_backing.
Qed.

Lemma Inv_keeps k p n L s (Q : post (IOReturn * Surface)) w nf g : keeps_backing E k p -> Inv E n L s w g -> n + k < 2 ^ 30 ->
  (forall rc b w' nf' g', Inv E (n + k) L (set_m_backing b s) w' g' -> valid_backing b = valid_backing s.(m_backing) ->
     Q (rc, set_m_backing b s) w' nf' g') ->
  wp (p s) Q w nf g.
Proof.
  intros Hp [Hw HB] Hn HQ. eapply Hp; [exact HB|exact Hn|]. intros rc b w' nf' g' HB' Hv. apply HQ; [|done]. by apply Inv_backing.
Qed.

(** ** OpenGL *)

Definition no_targets (x : GL) : Prop := isIdValid x.(gl_color_sid) = false /\ isIdValid x.(gl_depth_sid) = false.

Lemma frame_no_targets n L s x : no_targets x -> frame n L (set_bGLMode false (set_m_gl x s)) = set_r_live [] (frame n L s).
Proof. intros [E1 E2]. unfold frame, valid_ids. cbn. by rewrite E1, E2. Qed.

Lemma wp_CleanupGL n L s (Q : post Surface) w nf g : Backed E (frame n L s) s.(m_backing) w g ->
  (forall x w' g', no_targets x -> Backed E (frame (n + 2) L (set_bGLMode false (set_m_gl x s))) s.(m_backing) w' g' ->
     Q (set_bGLMode false (set_m_gl x s)) w' nf g') ->
  wp (CleanupGL s) Q w nf g.
Proof.
  intros HB HQ. unfold CleanupGL.
  assert (forall k x w' g', k <= 2 -> no_targets x -> Backed E (add_n k (set_r_live [] (frame n L s))) s.(m_backing) w' g' ->
    Q (set_bGLMode false (set_m_gl x s)) w' nf g') as Hend.
  { intros k x w' g' Hk Hx HB'. apply HQ; [done|]. rewrite frame_no_targets by done. eapply Backed_le; [|exact HB']. split; cbn; try done. lia. }
  assert (forall k s1 w1 g1, k <= 1 -> (exists x, s1 = set_m_gl x s) -> isIdValid s1.(m_gl).(gl_color_sid) = false ->
    Backed E (add_n k (set_r_live (valid_ids s1.(m_gl).(gl_depth_sid)) (frame n L s))) s.(m_backing) w1 g1 ->
    wp (s ← (if isIdValid s1.(m_gl).(gl_depth_sid) then
               drop_surface s1.(m_gl).(gl_depth_sid);; mret (on_gl (set_gl_depth_sid SVGA_ID_INVALID) s1)
             else mret s1);
        mret (set_bGLMode false s)) Q w1 nf g1) as Hrest.
  { intros k s1 w1 g1 Hk (x & ->) Hc HB1. cbn [m_gl set_m_gl] in *. unfold valid_ids in HB1. destruct (isIdValid (gl_depth_sid x)) eqn:Ed.
    - apply wp_bind, wp_bind. eapply wp_drop_surface; [exact HB1|cbn; reflexivity|]. intros w2 g2 HB2. apply wp_ret, wp_ret.
      apply (Hend (1 + k) (set_gl_depth_sid SVGA_ID_INVALID x)); [lia|done|]. by apply Backed_plus.
    - apply wp_bind, wp_ret, wp_ret. by apply (Hend k x); [lia| |]. }
  destruct (isIdValid (gl_color_sid (m_gl s))) eqn:Ec.
  - apply wp_bind, wp_bind. eapply wp_drop_surface; [exact HB|cbn; unfold valid_ids at 1; rewrite Ec; cbn [app]; reflexivity|]. intros w1 g1 HB1. apply wp_ret.
    by apply (Hrest 1); [|eexists| |].
  - apply wp_bind, wp_ret. apply (Hrest 0); [done|exists s.(m_gl); by destruct s|done|]. eapply Backed_le; [|exact HB].
    split; cbn; try done; [lia|]. unfold valid_ids. by rewrite Ec.
Qed.

(** A value of the field [m_gl] that says the same about targets. *)
Lemma Inv_CleanupGL n L s (Q : post Surface) w nf g : Inv E n L s w g ->
  (forall x w' g', no_targets x -> Inv E (n + 2) L (set_bGLMode false (set_m_gl x s)) w' g' -> Q (set_bGLMode false (set_m_gl x s)) w' nf g') ->
  wp (CleanupGL s) Q w nf g.
Proof.
  intros [[] HB] HQ. eapply wp_CleanupGL; [exact HB|]. intros x w' g' [H1 H2] HB'. apply HQ; [done|]. by split.
Qed.

Lemma wp_flushGL ρ s (Q : post IOReturn) w nf g : Backed E ρ s.(m_backing) w g -> is_some s.(m_last_region) = true ->
  (forall rc w' nf' g', Backed E ρ s.(m_backing) w' g' -> Q rc w' nf' g') -> wp (flushGLSurface s) Q w nf g.
Proof.
  intros HB Hr HQ. unfold flushGLSurface. destruct (m_last_region s) as [rgn|]; [|done]. apply wp_bind. cbn [deref]. apply wp_ret.
  destruct (bHaveScreenObject s); apply wp_bind; (eapply wp_plain; [exact HB|done|]); intros r w' nf' g' HB' _; by apply wp_ret, HQ.
Qed.

Definition same_targets (x y : GL) : Prop := x.(gl_color_sid) = y.(gl_color_sid) /\ x.(gl_depth_sid) = y.(gl_depth_sid).

Lemma Inv_gl n L s x w g : same_targets x s.(m_gl) -> Inv E n L s w g -> Inv E n L (set_m_gl x s) w g.
Proof.
  intros [E1 E2] [[] HB]. split; [split; cbn; rewrite ?E1, ?E2; done|]. unfold frame in *. cbn. by rewrite E1, E2.
Qed.

(** The window server's surface is put on the screen at once, which needs a shape. *)
Definition GL_flushable s : Prop := s.(m_wID) = 1 -> is_some s.(m_last_region) = true.

Lemma wp_touch ρ s (Q : post Surface) w nf g : Backed E ρ s.(m_backing) w g -> GL_flushable s ->
  (forall x w' nf' g', same_targets x s.(m_gl) -> Backed E ρ s.(m_backing) w' g' -> Q (set_m_gl x s) w' nf' g') ->
  wp (touchRenderTarget s) Q w nf g.
Proof.
  intros HB Hr HQ. unfold touchRenderTarget. apply wp_bind. cbn [m_wID on_gl set_m_gl].
  destruct (Z.eqb_spec s.(m_wID) 1) as [E1|E1].
  - apply wp_bind. eapply wp_flushGL; [exact HB|by apply Hr|]. intros _ w' nf' g' HB'. apply wp_ret, wp_ret. by apply HQ.
  - apply wp_ret, wp_ret. by apply HQ.
Qed.

(** The end of [attachGL] and [resizeGL]. *)
Lemma wp_finish ρ s (Q : post Surface) w nf g : Backed E ρ s.(m_backing) w g -> GL_flushable s ->
  (forall x w' nf' g', same_targets x s.(m_gl) -> Backed E ρ s.(m_backing) w' g' -> Q (set_m_gl x s) w' nf' g') ->
  wp (finish_targets s) Q w nf g.
Proof.
  intros HB Hr HQ. unfold finish_targets. eapply wp_touch; [exact HB|done|]. intros y w' nf' g' Hy HB'. by apply (HQ y).
Qed.

(** Reading the render target back waits for the transfer. *)
Lemma Inv_copyGL n L s (Q : post (IOReturn * Surface)) w nf g : Inv E n L s w g ->
  (forall rc s' w' nf' g', Inv E (n + 2) L s' w' g' -> s'.(m_backing) = s.(m_backing) -> Q (rc, s') w' nf' g') ->
  wp (copyGLSurfaceToBacking s) Q w nf g.
Proof.
  intros HI HQ. unfold copyGLSurfaceToBacking. destruct (OSTestAndClear 0 _) as [clean dirty]. set (x := set_gl_rt_dirty dirty).
  assert (Inv E n L (on_gl x s) w g) as HI1 by by apply Inv_gl. destruct (clean && _).
  { apply wp_ret, HQ; [|done]. eapply Inv_le; [exact HI1|lia]. }
  set (s1 := on_gl x s) in *. cbv zeta. apply wp_bind.
  assert (forall rc w' nf' g', Inv E n L s1 w' g' ->
    wp (s ← (if s1.(m_gl).(gl_attach_count) <=? 0 then CleanupGL s1 else mret s1); mret (rc, s)) Q w' nf' g') as Hend.
  { intros rc w' nf' g' HI'. apply wp_bind. case_match.
    - eapply Inv_CleanupGL; [exact HI'|]. intros x' w2 g2 _ HI2. apply wp_ret. by apply HQ.
    - apply wp_ret, wp_ret. apply HQ; [|done]. eapply Inv_le; [exact HI'|lia]. }
  destruct HI1 as [Hw (blk & fs & [Ho B1 B2 B3 B4 B5 B6])]. eapply wp_surfaceDMA3D; [exact Ho| |].
  - intros _ f nf1 g1 Hf Ho1. apply wp_bind. unfold ok. cbn [fst snd]. rewrite bool_decide_true by done. eapply wp_wait; [exact Ho1|right; by left|].
    intros g2 Ho2. apply Hend. split; [done|]. exists blk, []. split; try done. by left.
  - intros _. apply wp_bind. unfold ok. cbn [fst snd]. rewrite bool_decide_false by done. apply wp_ret, Hend. split; [done|]. by exists blk, fs.
Qed.

(** *** Targets *)

Lemma Backed_alloc ρ b (Q : post Z) w nf g : Backed E ρ b w g -> ρ.(r_n) < 2 ^ 30 ->
  (forall r w', isIdValid r = true -> Backed E (add_n 1 (set_r_named (r :: ρ.(r_named)) ρ)) b w' g -> Q r w' nf g) -> wp allocSurfaceID Q w nf g.
Proof.
  intros (blk & fs & [Ho B1 B2 B3 B4 B5 B6]) Hn HQ. eapply wp_allocSurfaceID; [exact Ho|exact Hn|]. intros r w' Hr Ho' _ _ _. apply HQ; [done|].
  exists blk, fs. by split.
Qed.

Lemma Backed_free ρ b x l (Q : post unit) w nf g : Backed E ρ b w g -> ρ.(r_named) ≡ₚ x :: l ->
  (forall w', Backed E (add_n 1 (set_r_named l ρ)) b w' g -> Q tt w' nf g) -> wp (freeSurfaceID x) Q w nf g.
Proof.
  intros (blk & fs & [Ho B1 B2 B3 B4 B5 B6]) HP HQ. eapply wp_freeSurfaceID; [exact Ho|exact HP|]. intros w' Ho' _ _. apply HQ. exists blk, fs. by split.
Qed.

Lemma Backed_target ρ b x l s flags format (Q : post IOReturn) w nf g : Backed E ρ b w g -> ρ.(r_named) ≡ₚ x :: l ->
  (forall g', Backed E (set_r_live (x :: ρ.(r_live)) (set_r_named l ρ)) b w g' -> Q kIOReturnSuccess w nf g') ->
  (E.(e_3d) = false -> Q kIOReturnNoDevice w nf g) ->
  wp (create_target s x flags format) Q w nf g.
Proof.
  intros (blk & fs & [Ho B1 B2 B3 B4 B5 B6]) HP HS HF. unfold create_target. apply wp_bind. eapply wp_createSurface; [exact Ho|exact HP| |].
  - intros _ g' Ho'. apply wp_ret, HS. exists blk, fs. by split.
  - intros E3. by apply wp_ret, HF.
Qed.

Lemma Backed_untarget ρ b x l (Q : post _) w nf g : Backed E ρ b w g -> ρ.(r_live) ≡ₚ x :: l ->
  (forall r g', Backed E (set_r_live l (set_r_named (x :: ρ.(r_named)) ρ)) b w g' -> Q r w nf g') ->
  wp (ask (OpDestroySurface x)) Q w nf g.
Proof.
  intros (blk & fs & [Ho B1 B2 B3 B4 B5 B6]) HP HQ. eapply wp_destroySurface; [exact Ho|exact HP|]. intros g' Ho'. apply HQ. exists blk, fs. by split.
Qed.

Lemma live_3d ρ b w g : Backed E ρ b w g -> E.(e_3d) = false -> ρ.(r_live) = [].
Proof. intros (blk & fs & [[[_ _ _ _ _ A6 _] _ _ _ _ _] _ _ _ _ _ _]) E3. by destruct (A6 E3). Qed.

(** Both targets, or none after a failure. *)
Lemma Inv_targets n L s x w g : wf s -> isIdValid x.(gl_color_sid) = true ->
  Backed E (set_r_live (x.(gl_color_sid) :: valid_ids x.(gl_depth_sid)) (frame n L s)) s.(m_backing) w g ->
  Inv E n L (set_bGLMode true (set_m_gl x s)) w g.
Proof.
  intros [] Hx HB. split; [by split|]. unfold frame in *. cbn in *. unfold valid_ids at 1. by rewrite Hx.
Qed.

(** [attachGL] after the render target. *)
Lemma Inv_attach_depth n L s c (Q : post (IOReturn * Surface)) w nf g : wf s -> isIdValid c = true -> isIdValid s.(m_gl).(gl_depth_sid) = false ->
  Backed E (set_r_live [c] (frame n L s)) s.(m_backing) w g -> GL_flushable s -> n + 4 < 2 ^ 30 ->
  (forall rc x y w' nf' g', Inv E (n + 4) L (set_bGLMode x (set_m_gl y s)) w' g' -> Q (rc, set_bGLMode x (set_m_gl y s)) w' nf' g') ->
  let s := on_gl (set_gl_color_sid c) s in
  wp (r ← (if s.(m_gl).(gl_ds_format) =? SVGA3D_FORMAT_INVALID then mret (kIOReturnSuccess, s)
           else
             s ← (if isIdValid s.(m_gl).(gl_depth_sid) then mret s
                  else sid ← allocSurfaceID; mret (on_gl (set_gl_depth_sid sid) s));
             rc ← create_target s s.(m_gl).(gl_depth_sid) SVGA3D_SURFACE_HINT_DEPTHSTENCIL s.(m_gl).(gl_ds_format);
             if negb (bool_decide (rc = kIOReturnSuccess)) then s ← lose_depth s; mret (rc, s)
             else mret (kIOReturnSuccess, s));
      let '(rc, s) := r in
      if negb (bool_decide (rc = kIOReturnSuccess)) then mret (rc, s)
      else
        s ← finish_targets (on_gl (set_gl_attach_count 1) s);
        mret (kIOReturnSuccess, set_bGLMode true s)) Q w nf g.
Proof.
  intros Hw Hc Hd HB Hr Hn HQ. cbv zeta. set (s1 := on_gl (set_gl_color_sid c) s).
  assert (forall y w' nf' g', y.(gl_color_sid) = c -> Backed E (add_n 1 (set_r_live (c :: valid_ids y.(gl_depth_sid)) (frame n L s))) s.(m_backing) w' g' ->
    wp (s ← finish_targets (on_gl (set_gl_attach_count 1) (set_m_gl y s)); mret (kIOReturnSuccess, set_bGLMode true s)) Q w' nf' g') as Hend.
  { intros y w' nf' g' Hy HB'. apply wp_bind. eapply (wp_finish _ (on_gl _ (set_m_gl y s))); [exact HB'|done|]. intros z w2 nf2 g2 [Z1 Z2] HB2. cbn in Z1, Z2.
    apply wp_ret, (HQ _ true z). apply Inv_targets; [done|by rewrite Z1, Hy|]. rewrite Z1, Z2, Hy. eapply Backed_le; [|exact HB2].
    split; cbn; try done. lia. }
  apply wp_bind. destruct (_ =? _).
  { apply wp_ret. rewrite bool_decide_true by done. apply (Hend (set_gl_color_sid c s.(m_gl))); [done|]. cbn [gl_depth_sid set_gl_color_sid].
    eapply Backed_le; [|exact HB]. split; cbn; try done; [lia|]. unfold valid_ids. by rewrite Hd. }
  cbn [m_gl s1 on_gl set_m_gl gl_depth_sid set_gl_color_sid]. rewrite Hd. apply wp_bind, wp_bind. eapply Backed_alloc; [exact HB|cbn; lia|].
  intros d w1 Hdv HB1. apply wp_ret, wp_bind. eapply Backed_target; [exact HB1|cbn; reflexivity| |].
  - intros g2 HB2. rewrite bool_decide_true by done. apply wp_ret. rewrite bool_decide_true by done.
    apply (Hend (set_gl_depth_sid d (set_gl_color_sid c s.(m_gl)))); [done|]. eapply Backed_le; [|exact HB2]. cbn. split; cbn; try done.
    unfold valid_ids. rewrite Hdv. apply perm_swap.
  - intros E3. by pose proof (live_3d _ _ _ _ HB E3).
Qed.

Lemma Inv_attachGL n L s cmb (Q : post (IOReturn * Surface)) w nf g : Inv E n L s w g -> GL_flushable s -> n + 6 < 2 ^ 30 ->
  (forall rc x y w' nf' g', Inv E (n + 6) L (set_bGLMode x (set_m_gl y s)) w' g' -> Q (rc, set_bGLMode x (set_m_gl y s)) w' nf' g') ->
  wp (attachGL cmb s) Q w nf g.
Proof.
  intros HI Hr Hn HQ. unfold attachGL. pose proof HI as [[W1 W2 W3 W4 W5] HB].
  assert (forall rc y, same_targets y s.(m_gl) -> Q (rc, set_m_gl y s) w nf g) as Hsame.
  { intros rc y Hy. replace (set_m_gl y s) with (set_bGLMode s.(bGLMode) (set_m_gl y s)) by by destruct s. apply HQ.
    replace (set_bGLMode s.(bGLMode) (set_m_gl y s)) with (set_m_gl y s) by by destruct s. eapply Inv_le; [by apply Inv_gl|lia]. }
  assert (forall rc, Q (rc, s) w nf g) as Hs.
  { intros rc. replace s with (set_m_gl s.(m_gl) s) by by destruct s. by apply Hsame. }
  destruct (bGLMode s) eqn:Em; [by apply wp_ret, Hsame|]. rewrite W1. cbn [negb orb]. destruct (no_extent s); [by apply wp_ret, Hs|].
  set (s1 := on_gl (set_gl_ds_format (select_ds_format cmb)) s). specialize (W3 eq_refl).
  cbn [m_gl s1 on_gl set_m_gl gl_color_sid set_gl_ds_format]. rewrite W2. apply wp_bind, wp_bind.
  assert (Backed E (set_r_live [] (frame n L s1)) s.(m_backing) w g) as HB0.
  { unfold frame, valid_ids in *. cbn. by rewrite W2, W3 in HB. }
  eapply Backed_alloc; [exact HB0|cbn; lia|]. intros c w1 Hc HB1. apply wp_ret. apply wp_bind. eapply Backed_target; [exact HB1|cbn; reflexivity| |].
  - intros g2 HB2. rewrite bool_decide_true by done. cbn [negb]. apply (Inv_attach_depth (n + 1) L s1 c); try done; [split; cbn; (done || congruence)|cbn; lia|].
    intros rc x y w' nf' g' HI'. apply (HQ rc x y). eapply Inv_le; [exact HI'|lia].
  - intros _. rewrite bool_decide_false by done. apply wp_bind, wp_bind. eapply Backed_free; [exact HB1|cbn; reflexivity|]. intros w2 HB2.
    apply wp_ret, wp_ret. set (y := set_gl_color_sid SVGA_ID_INVALID (set_gl_color_sid c s1.(m_gl))).
    change (on_gl _ _) with (set_m_gl y s). replace (set_m_gl y s) with (set_bGLMode false (set_m_gl y s)) by (destruct s; cbn in *; by rewrite Em).
    apply (HQ _ false y). split; [by split|]. eapply Backed_le; [|exact HB2]. split; cbn; try done; [lia|]. unfold valid_ids. by rewrite W3.
Qed.

Lemma Inv_resizeGL n L s (Q : post (IOReturn * Surface)) w nf g : Inv E n L s w g -> GL_flushable s ->
  (forall rc y w' nf' g', Inv E n L (set_m_gl y s) w' g' -> Q (rc, set_m_gl y s) w' nf' g') ->
  wp (resizeGL s) Q w nf g.
Proof.
  intros HI Hr HQ. unfold resizeGL. pose proof HI as [Hw HB]. pose proof Hw as [W1 W2 W3 W4 W5].
  assert (forall rc, Q (rc, s) w nf g) as Hs.
  { intros rc. replace s with (set_m_gl s.(m_gl) s) by by destruct s. apply HQ. by replace (set_m_gl s.(m_gl) s) with s by by destruct s. }
  destruct (bGLMode s) eqn:Em; cbn [negb orb]; [|by apply wp_ret, Hs]. destruct (_ || _); [by apply wp_ret, Hs|].
  rewrite W1. cbn [negb orb]. destruct (no_extent s); [by apply wp_ret, Hs|]. set (c := gl_color_sid (m_gl s)) in *. set (d := gl_depth_sid (m_gl s)) in *.
  assert (frame n L s = set_r_live (c :: valid_ids d) (frame n L s)) as Ef.
  { unfold frame. cbn. fold c d. unfold valid_ids at 1. by rewrite W2. }
  assert (forall w' nf' g', Backed E (set_r_live (c :: valid_ids d) (frame n L s)) s.(m_backing) w' g' ->
    wp (s ← finish_targets s; mret (kIOReturnSuccess, s)) Q w' nf' g') as Hend.
  { intros w' nf' g' HB'. apply wp_bind. eapply wp_finish; [exact HB'|done|]. intros z w2 nf2 g2 Hz HB2. apply wp_ret, HQ. apply Inv_gl; [done|].
    split; [done|]. by rewrite Ef. }
  rewrite Ef in HB. apply wp_bind. eapply Backed_untarget; [exact HB|cbn; reflexivity|]. intros _ g1 HB1.
  apply wp_bind. eapply Backed_target; [exact HB1|cbn; reflexivity| |]; [|intros E3; by pose proof (live_3d _ _ _ _ HB E3)].
  intros g2 HB2. rewrite bool_decide_true by done. cbn [negb]. apply wp_bind. unfold valid_ids in HB2. fold d. destruct (isIdValid d) eqn:Ed.
  - apply wp_bind. eapply Backed_untarget; [exact HB2|cbn; apply perm_swap|]. intros _ g3 HB3.
    eapply Backed_target; [exact HB3|cbn; reflexivity| |]; [|intros E3; by pose proof (live_3d _ _ _ _ HB E3)].
    intros g4 HB4. rewrite bool_decide_true by done. apply Hend. eapply Backed_le; [|exact HB4]. split; cbn; try done. unfold valid_ids. rewrite Ed. apply perm_swap.
  - apply wp_ret. rewrite bool_decide_true by done. apply Hend. unfold valid_ids. by rewrite Ed.
Qed.

(** ** Video *)

(** The overlay unit with the same switch. *)
Lemma Inv_video n L s x w g : x.(vd_stream_id) = s.(m_video).(vd_stream_id) ->
  x.(vd_unit).(SVGAOverlayUnit_enabled) = s.(m_video).(vd_unit).(SVGAOverlayUnit_enabled) -> Inv E n L s w g -> Inv E n L (set_m_video x s) w g.
Proof.
  intros E1 E2 [[] HB]. assert (enabled (set_m_video x s) = enabled s) as Ee by (unfold enabled; cbn; by rewrite E2).
  split; [split; cbn; rewrite ?Ee; done|]. unfold frame in *. rewrite Ee. cbn. by rewrite E1.
Qed.

Lemma setVideoDest_switch s : exists u, (setVideoDest s).2 = on_unit u s /\
  (u s.(m_video).(vd_unit)).(SVGAOverlayUnit_enabled) = s.(m_video).(vd_unit).(SVGAOverlayUnit_enabled).
Proof.
  unfold setVideoDest. destruct (m_last_region s) as [rgn|]; [|exists id; by destruct s as [? ? ? ? ? ? ? ? ? ? ? ? ? ? ? ? ? ? ? ? ? [] ?]].
  destruct (isRegionEmpty _); eexists; by split.
Qed.

Lemma Inv_videoReshape n L s (Q : post Surface) w nf g : Inv E n L s w g ->
  (forall x b w' nf' g', Inv E n L (set_m_backing b (set_m_video x s)) w' g' -> Q (set_m_backing b (set_m_video x s)) w' nf' g') ->
  wp (videoReshape s) Q w nf g.
Proof.
  intros HI HQ. unfold videoReshape. destruct (_ || _).
  { apply wp_ret. replace s with (set_m_backing s.(m_backing) (set_m_video s.(m_video) s)) by by destruct s. apply HQ.
    by replace (set_m_backing _ _) with s by by destruct s. }
  destruct (setVideoDest_switch s) as (u & E1 & E2). destruct (setVideoDest s) as [b s1]. cbn in E1. subst s1.
  assert (Inv E n L (on_unit u s) w g) as HI1 by by apply Inv_video. destruct b; cbn [negb].
  - apply wp_bind. eapply Inv_plain; [exact HI1|done|]. intros r w' nf' g' _ HI'. apply wp_ret. rewrite store_fence_backing in HI' |- *. by apply HQ.
  - apply wp_ret. replace (on_unit u s) with (set_m_backing s.(m_backing) (on_unit u s)) by by destruct s. apply HQ.
    by replace (set_m_backing _ _) with (on_unit u s) by by destruct s.
Qed.

Lemma Inv_video_off n L s (Q : post Surface) w nf g : Inv E n L s w g ->
  (forall x w' nf' g', Inv E (n + 1) L (set_m_video x s) w' g' -> x.(vd_unit).(SVGAOverlayUnit_enabled) = 0 \/ s.(bVideoMode) = false -> Q (set_m_video x s) w' nf' g') ->
  wp (surface_video_off s) Q w nf g.
Proof.
  intros HI HQ. unfold surface_video_off. pose proof HI as [[W1 W2 W3 W4 W5] HB].
  assert (Inv E (n + 1) L s w g) as HI1 by (eapply Inv_le; [exact HI|lia]).
  destruct (negb (bVideoMode s) || negb (enabled s)) eqn:Eo.
  { apply wp_ret. replace s with (set_m_video s.(m_video) s) by by destruct s. apply HQ; [by replace (set_m_video _ _) with s by by destruct s|].
    apply orb_true_iff in Eo as [Eo|Eo]; [right; by destruct (bVideoMode s)|left]. unfold enabled in Eo. rewrite negb_involutive in Eo. by apply Z.eqb_eq. }
  apply orb_false_iff in Eo as [_ Eo]. apply negb_false_iff in Eo. cbv zeta.
  apply wp_bind. eapply (wp_plain E (frame n L s) _ s); [exact HB|done|]. intros _ w1 nf1 g1 (blk & fs & [Ho1 B1 B2 B3 B4 B5 B6]) _.
  apply wp_bind. eapply wp_freeStreamID; [exact Ho1|cbn; rewrite Eo; cbn [app]; reflexivity|]. intros w2 Ho2 _ _. apply wp_ret.
  change (set_m_video _ (on_unit _ s)) with (set_m_video (set_vd_stream_id SVGA_ID_INVALID (set_vd_unit (set_enabled 0 s.(m_video).(vd_unit)) s.(m_video))) s).
  apply HQ; [|by left]. split; [by split|]. exists blk, fs. by split.
Qed.

Lemma Inv_flush_video n L s (Q : post (IOReturn * Surface)) w nf g : Inv E n L s w g -> n + 1 < 2 ^ 30 ->
  (forall rc x b w' nf' g', Inv E (n + 1) L (set_m_backing b (set_m_video x s)) w' g' -> valid_backing b = valid_backing s.(m_backing) ->
     Q (rc, set_m_backing b (set_m_video x s)) w' nf' g') ->
  wp (surface_flush_video s) Q w nf g.
Proof.
  intros HI Hn HQ. unfold surface_flush_video. pose proof HI as [[W1 W2 W3 W4 W5] HB].
  assert (forall rc w' nf' g', Inv E n L s w' g' -> Q (rc, s) w' nf' g') as Hs.
  { intros rc w' nf' g' HI'. replace s with (set_m_backing s.(m_backing) (set_m_video s.(m_video) s)) by by destruct s. apply HQ; [|done].
    replace (set_m_backing _ _) with s by by destruct s. eapply Inv_le; [exact HI'|lia]. }
  destruct (_ || _) eqn:Eo; [by apply wp_ret, Hs|]. apply orb_false_iff in Eo as [_ Hv]. apply negb_false_iff in Hv.
  destruct (bVideoMode s) eqn:Evm; cbn [negb]; [|by apply wp_ret, Hs]. destruct (enabled s) eqn:Een.
  { apply wp_bind. eapply Inv_plain; [exact HI|done|]. intros r w1 nf1 g1 _ HI1. apply wp_ret. rewrite store_fence_backing in HI1 |- *.
    replace s with (set_m_video s.(m_video) s) at 2 by by destruct s. apply HQ; [|apply valid_fence].
    replace (set_m_video _ s) with s by by destruct s. eapply Inv_le; [exact HI1|lia]. }
  destruct HB as (blk & fs & [Ho B1 B2 B3 B4 B5 B6]). apply wp_bind. eapply wp_allocStreamID; [exact Ho|cbn; lia|]. intros x w1 Ho1 _ _. unfold opt_id in Ho1.
  destruct (isIdValid x) eqn:Ex; cbn [negb].
  2: { apply wp_ret. set (y := set_vd_stream_id x s.(m_video)). replace (set_m_video y s) with (set_m_backing s.(m_backing) (set_m_video y s)) by by destruct s.
       apply HQ; [|done]. assert (enabled (set_m_video y s) = false) as Ey by done. apply Inv_backing; [by split|].
       exists blk, fs. split; try done. unfold frame in *. rewrite Ey. by rewrite Een in Ho1. }
  set (s1 := set_m_video (set_vd_stream_id x s.(m_video)) s).
  assert (exists u, (setVideoRegs s1).2 = on_unit u s1) as (u1 & ->) by (unfold setVideoRegs; change (isBackingValid s1) with (isBackingValid s); rewrite Hv; by eexists).
  destruct (setVideoDest_switch (on_unit u1 s1)) as (u2 & -> & _). cbv zeta. apply wp_bind.
  set (y := mk_Video x s.(m_video).(vd_cecl_pixel_format) (set_enabled 1 (u2 (u1 s.(m_video).(vd_unit))))). change (on_unit _ (on_unit _ _)) with (set_m_video y s).
  eapply (Inv_plain (n + 1) L (set_m_video y s)); [|done|].
  - split; [by split|]. exists blk, fs. split; try done. unfold frame in *. by rewrite Een in Ho1.
  - intros r w2 nf2 g2 _ HI2. apply wp_ret. rewrite store_fence_backing in HI2 |- *. apply HQ; [done|]. by rewrite valid_fence.
Qed.

(** ** 3D *)

(** Programs that define and destroy no surface, seen by an observer who knows of one more. *)
Definition neutral (e : event) : Prop :=
  match e with Sent (In3D (SurfaceDefine _ _)) | Sent (In3D (SurfaceDestroy _)) => False | _ => True end.
Definition calm {A} (p : prog A) : Prop := forall w nf t, spec p w nf = Some t -> Forall neutral t.(t_events).
Definition with_sid (x : Z) g : monitor := mk_monitor ({[x]} ∪ g.(g_sids)) g.(g_pages) g.(g_open) g.(g_fences) g.(g_safe).

Lemma watch_calm x es : forall g, Forall neutral es -> watch (with_sid x g) es = with_sid x (watch g es).
Proof.
  induction es as [|e es IH]; intros g Hall; [done|]. apply Forall_cons in Hall as [He Hall]. cbn. change (foldl observe) with watch.
  assert (observe (with_sid x g) e = with_sid x (observe g e)) as ->; [|by apply IH].
  destruct e as [c|f| |t]; try done; [|cbn; by case_bool_decide|destruct t; cbn; try done; by case_match].
  destruct c as [c|c]; destruct c; try done. cbn. by repeat case_match.
Qed.

Lemma wp_calm {A} x (p : prog A) (Q : post A) w nf g : calm p -> wp p (fun a w nf g => Q a w nf (with_sid x g)) w nf g -> wp p Q w nf (with_sid x g).
Proof. intros Hp (t & Et & HQ). exists t. split; [done|]. by rewrite watch_calm by by eapply Hp. Qed.

Lemma calm_ret {A} (a : A) : calm (mret a).
Proof. intros w nf t [= <-]. constructor. Qed.
Lemma calm_bind {A B} (p : prog A) (f : A -> prog B) : calm p -> (forall a, calm (f a)) -> calm (p ≫= f).
Proof.
  intros Hp Hf w nf t. rewrite spec_bind. destruct (spec p w nf) as [t1|] eqn:E1; [|done]. cbn. destruct (spec (f _) _ _) as [t2|] eqn:E2; [|done].
  intros [= <-]. cbn. apply Forall_app. split; [by eapply Hp|by eapply Hf].
Qed.
Lemma calm_state {B : Set} (f : world -> B * world) : calm (state f).
Proof. intros w nf t. cbn. destruct (f w). intros [= <-]. constructor. Qed.
Lemma calm_tells t : calm (tells t).
Proof. intros w nf t' [= <-]. by repeat constructor. Qed.
Lemma calm_drain : calm sync_all.
Proof. intros w nf t. cbn. case_match; intros [= <-]; by repeat constructor. Qed.
Lemma calm_dma sid transfer rgn extra fence : calm (ask (OpSurfaceDMA2D sid transfer rgn (Some extra) fence)).
Proof.
  intros w nf t. cbn. destruct (bHaveSVGA3D _), fence; cbn; intros [= <-]; cbn; by repeat constructor.
Qed.
Lemma calm_check k v : calm (check_pixels k v).
Proof. induction k as [|k IH]; [apply calm_ret|]. apply calm_bind; [apply calm_state|]. intros a. case_match; [apply calm_ret|apply IH]. Qed.

(** The test of the device: what happens between creation and destruction of surface 666. *)
Definition blit_test s : prog IOReturn :=
  ptr ← VRAMMalloc PAGE_SIZE;
  rc ← match ptr with
       | None => mret kIOReturnNoMemory
       | Some ptr =>
           poke ptr (fill_pixels 25 0xFF00);;
           let extra d := mk_ExtraInfo (u64 (ptr - s.(m_screenInfo).(si_client_addr))) 20 0 0 d d GMR_VRAM in
           r ← ask (OpSurfaceDMA2D 666 SVGA3D_WRITE_HOST_VRAM (Some (set_region1 0 0 5 5)) (Some (extra 5)) false);
           if negb (bool_decide (r.1 = kIOReturnSuccess)) then mret kIOReturnError
           else
             r ← ask (OpSurfaceDMA2D 666 SVGA3D_READ_HOST_VRAM (Some (set_region1 0 0 5 5)) (Some (extra 0)) false);
             if negb (bool_decide (r.1 = kIOReturnSuccess)) then mret kIOReturnError
             else sync_all;; check_pixels 25 0xFF000000
       end;
  (match ptr with Some ptr => returnVRAM ptr | None => mret tt end);;
  mret rc.

Lemma blit_test_calm s : calm (blit_test s).
Proof.
  apply calm_bind; [apply calm_state|]. intros ptr. apply calm_bind.
  - destruct ptr; [|apply calm_ret]. apply calm_bind; [apply calm_state|]. intros _. cbv zeta. apply calm_bind; [apply calm_dma|]. intros r.
    case_match; [apply calm_ret|]. apply calm_bind; [apply calm_dma|]. intros r'. case_match; [apply calm_ret|].
    apply calm_bind; [apply calm_drain|]. intros _. apply calm_check.
  - intros rc. apply calm_bind; [|intros _; apply calm_ret]. destruct ptr; [|apply calm_ret]. apply calm_bind; [apply calm_tells|]. intros _. apply calm_state.
Qed.

Lemma wp_check ρ k v (Q : post IOReturn) w nf g : owns E ρ w g ->
  (forall rc w', owns E ρ w' g -> only_kernel w w' -> rc <> kIOReturnNotFound -> Q rc w' nf g) -> wp (check_pixels k v) Q w nf g.
Proof.
  revert w. induction k as [|k IH]; intros w Ho HQ; [by apply wp_ret, HQ|]. cbn [check_pixels]. apply wp_bind. eapply wp_answer_owns; [exact Ho|].
  intros a w1 Ho1 [K1 K2]. case_match; [by apply wp_ret, HQ|]. apply IH; [done|]. intros rc w2 Ho2 [K3 K4] Hrc. apply HQ; [done| |done]. split; congruence.
Qed.

Lemma wp_blit_test ρ s (Q : post IOReturn) w nf g : owns E ρ w g -> E.(e_3d) = true -> ρ.(r_open) = false ->
  (forall rc fs w' g', owns E (set_r_fences fs ρ) w' g' -> fs = [] \/ fs = ρ.(r_fences) -> w'.(w_accel) = w.(w_accel) -> rc <> kIOReturnNotFound -> Q rc w' nf g') -> wp (blit_test s) Q w nf g.
Proof.
  intros Ho E3 Hop HQ. unfold blit_test. apply wp_bind. eapply wp_VRAMMalloc; [exact Ho| |].
  - intros o b w1 Hb Hfit Ho1 _ Ea1. apply wp_bind, wp_bind. eapply wp_poke; [exact Ho1|cbn; reflexivity|done| |].
    { intros i mem k Hne. unfold fill_pixels in Hne. destruct (Z.leb_spec i k); cbn in Hne; [|done]. destruct (Z.ltb_spec k (i + 25)); [lia|done]. }
    intros w2 Ho2 _ Ea2. cbv zeta. apply wp_bind. eapply wp_surfaceDMA2D_open; [exact Ho2|done|]. intros g3 Ho3. rewrite bool_decide_true by done. cbn [negb].
    apply wp_bind. eapply wp_surfaceDMA2D_open; [exact Ho3|done|]. intros g4 Ho4. rewrite bool_decide_true by done. cbn [negb].
    apply wp_bind. eapply wp_drain; [exact Ho4|]. intros g5 Ho5. eapply wp_check; [exact Ho5|]. intros rc w6 Ho6 [Ea6 _] Hrc.
    apply wp_bind. eapply wp_returnVRAM; [exact Ho6|cbn; reflexivity|done|done|done|]. intros w7 g7 Ho7 _ Ea7. apply wp_ret, (HQ _ []); [|by left|congruence|done].
    eapply owns_le; [|exact Ho7]. by split.
  - apply wp_bind, wp_ret, wp_bind, wp_ret, wp_ret. apply (HQ _ ρ.(r_fences)); [by destruct ρ|by right|done|done].
Qed.

Lemma detectBlitBug_test s w nf : s.(m_provider) = true -> spec (detectBlitBug s) w nf =
  spec (r ← ask (OpCreateSurface 666 0 SVGA3D_X8R8G8B8 10 10);
        if negb (bool_decide (r.1 = kIOReturnSuccess)) then mret kIOReturnError
        else rc ← blit_test s; ask (OpDestroySurface 666);; mret rc) w nf.
Proof.
  intros Hp. unfold detectBlitBug. rewrite Hp. cbn [negb]. apply prog_ext. intros r w1 nf1. case_match; [done|]. unfold blit_test.
  rewrite spec_assoc. apply prog_ext. intros ptr w2 nf2. rewrite spec_assoc. apply prog_ext. intros rc w3 nf3. rewrite spec_assoc.
  apply prog_ext. done.
Qed.

Lemma wp_spec {A} (p q : prog A) (Q : post A) w nf g : spec p w nf = spec q w nf -> wp q Q w nf g -> wp p Q w nf g.
Proof. unfold wp. by intros ->. Qed.

(** Surface 666 must not be somebody's: ids above 255 are given out in order. *)
Lemma wp_detectBlitBug ρ s (Q : post IOReturn) w nf g : owns E ρ w g -> s.(m_provider) = true -> E.(e_3d) = true ->
  ρ.(r_open) = false -> w.(w_accel).(m_ids).(m_surface_ids_unmanaged) <= 410 ->
  (forall rc fs w' g', owns E (set_r_fences fs ρ) w' g' -> fs = [] \/ fs = ρ.(r_fences) -> rc <> kIOReturnNotFound -> Q rc w' nf g') -> wp (detectBlitBug s) Q w nf g.
Proof.
  intros Ho Hp E3 Hop Hum HQ. eapply wp_spec; [by apply detectBlitBug_test|]. apply wp_bind, wp_ask.
  assert (bHaveSVGA3D (w_accel w) = true) as F2 by (destruct (ow_accel _ _ _ _ Ho) as [_ _ _ (_ & -> & _) _ _ _]; done).
  cbn [accel_spec]. rewrite F2. cbn [sends o_result o_accel o_next o_cmds fst]. rewrite bool_decide_true by done. rewrite set_accel_id. cbn [negb].
  apply wp_bind. change (watch g _) with (with_sid 666 g). apply wp_calm; [apply blit_test_calm|]. eapply wp_blit_test; [exact Ho|done|done|].
  intros rc fs w1 g1 Ho1 Hfs Ea1 Hrc. apply wp_bind, wp_ask. cbn [accel_spec]. rewrite Ea1, F2. cbn [sends o_result o_accel o_next o_cmds]. rewrite <-Ea1, set_accel_id.
  apply wp_ret, (HQ _ fs); [|done|done]. destruct Ho1 as [Ha V K Hop1 Hfe1 Hs1]. split; cbn; try done.
  assert (({[666]} ∪ g_sids g1) ∖ {[666]} = g_sids g1) as ->; [|done]. rewrite Ea1 in Ha. destruct Ha as [(h & Hi & P1 & _) _ _ _ _ _ ->].
  rewrite <-list_to_set_cons. apply difference_one. intros Hin. destruct (ok_surfaces _ _ _ _ Hi) as (_ & _ & Hall & _).
  rewrite Forall_forall in Hall. specialize (Hall 666). rewrite P1 in Hall. specialize (Hall ltac:(apply elem_of_app; by right)). lia.
Qed.
End methods.

(** The test is made once. *)
Definition tested (E : env) : env :=
  mk_env E.(e_limit) E.(e_3d) E.(e_screen) E.(e_options) E.(e_surfaces) E.(e_masters) E.(e_gmrs) E.(e_streams) E.(e_blocks) E.(e_pool)
    E.(e_refs) E.(e_prep) true.
Definition needs_test (E : env) : bool := negb E.(e_screen) && E.(e_3d) && negb (has_bits E.(e_options) CE1_OPTION_AC_DIRECT_BLIT).
Definition started (E : env) : env := if needs_test E then tested E else E.

Lemma owns_tested E ρ w g : owns E ρ w g -> w.(w_client).(k_blitbug) <> kIOReturnNotFound -> owns (tested E) ρ w g.
Proof. intros [[] V [K1 K2 K3 K4 K5 K6] ? ? ?] Hb. split; [by split|done|by split|done..]. Qed.

Lemma tested_backed E ρ b blk fs w g : w.(w_client).(k_blitbug) <> kIOReturnNotFound -> backed E ρ b blk fs w g -> Backed (tested E) ρ b w g.
Proof. intros Hb [Ho B1 B2 B3 B4 B5 B6]. exists blk, fs. split; try done. by apply owns_tested. Qed.

Section methods3d.
Context (E : env).
Implicit Types (w : world) (nf : Z) (g : monitor) (s : Surface) (L : lost) (n : Z).

Definition may_test w : Prop := needs_test E = true -> E.(e_tested) = true \/ w.(w_accel).(m_ids).(m_surface_ids_unmanaged) <= 409.
Definition front_of (a b c : bool) s : Surface := set_bDirectBlit a (set_bHaveMasterSurface b (set_bHaveScreenObject c s)).

Lemma wp_options (mask : Z) ρ (Q : post bool) w nf g : owns E ρ w g -> Q (has_bits E.(e_options) mask) w nf g -> wp (checkOptionAC mask) Q w nf g.
Proof. intros [[_ _ _ (_ & _ & _ & F4) _ _ _] _ _ _ _ _] HQ. apply wp_bind, wp_accel, wp_ret. by rewrite F4. Qed.
Lemma wp_HaveScreen ρ (Q : post bool) w nf g : owns E ρ w g -> Q E.(e_screen) w nf g -> wp HaveScreen Q w nf g.
Proof. intros [[_ _ _ (_ & _ & F3 & _) _ _ _] _ _ _ _ _] HQ. apply wp_bind, wp_accel, wp_ret. by rewrite F3. Qed.
Lemma wp_Have3D ρ (Q : post bool) w nf g : owns E ρ w g -> Q E.(e_3d) w nf g -> wp Have3D Q w nf g.
Proof. intros [[_ _ _ (_ & F2 & _) _ _ _] _ _ _ _ _] HQ. apply wp_bind, wp_accel, wp_ret. by rewrite F2. Qed.

Lemma Inv_Start3D n L s (Q : post Surface) w nf g : Inv E n L s w g -> s.(bHaveMasterSurface) = false -> n + 1 < 2 ^ 30 -> may_test w ->
  (forall a b c w' g', Inv (started E) (n + 1) L (front_of a b c s) w' g' -> Q (front_of a b c s) w' nf g') -> wp (Start3D s) Q w nf g.
Proof.
  intros HI Hm Hn Ht HQ. unfold Start3D. pose proof HI as [Hw (blk & fs & Hb)]. pose proof Hb as [Ho B1 B2 B3 B4 B5 B6].
  apply wp_bind. eapply wp_HaveScreen; [exact Ho|].
  assert (forall a c s', s' = front_of a false c s -> needs_test E = false -> forall w' g', Backed E (frame (n + 1) L s) s.(m_backing) w' g' -> Q s' w' nf g') as Hplain.
  { intros a c s' -> Hnt w' g' HB'. apply HQ. unfold started. rewrite Hnt. split; [destruct Hw; by split|]. unfold frame in *. cbn. by rewrite Hm in HB'. }
  destruct (e_screen E) eqn:Es.
  { apply wp_ret. apply (Hplain s.(bDirectBlit) true); [destruct s; cbn in *; by subst|unfold needs_test; by rewrite Es|].
    eapply Backed_le; [|by exists blk, fs]. split; cbn; try done. lia. }
  apply wp_bind. eapply wp_retain; [exact Ho|cbn; lia|cbn; rewrite Hm; lia|]. intros w1 g1 Ho1 Hum1 Ek1 _.
  destruct (e_3d E) eqn:E3; cbn [negb].
  2: { apply wp_ret. apply (Hplain s.(bDirectBlit) false); [by destruct s|unfold needs_test; by rewrite E3, andb_false_r|].
       exists blk, fs. by split. }
  set (s1 := set_bHaveMasterSurface true (set_bHaveScreenObject false s)).
  assert (owns E (with_backing s.(m_backing) blk fs (frame (n + 1) L s1)) w1 g1) as Ho1'.
  { eapply owns_le; [|exact Ho1]. split; cbn; try done. by rewrite Hm. }
  assert (wf s1) as Hw1 by (destruct Hw; by split).
  apply wp_bind. eapply wp_options; [exact Ho1|]. destruct (has_bits _ _) eqn:Ed.
  { apply wp_ret, (HQ true true false). unfold started, needs_test. rewrite Ed, andb_false_r. split; [destruct Hw; by split|]. exists blk, fs. by split. }
  assert (needs_test E = true) as Hnt by (unfold needs_test; by rewrite Es, E3, Ed). specialize (Ht Hnt).
  assert (forall a fs' w' g', w'.(w_client).(k_blitbug) <> kIOReturnNotFound -> fs' = [] \/ fs' = fs ->
    owns E (with_backing s.(m_backing) blk fs' (frame (n + 1) L s1)) w' g' -> Q (set_bDirectBlit a s1) w' nf g') as Hend.
  { intros a fs' w' g' Hk Hfs Ho'. apply (HQ a true false). unfold started. rewrite Hnt. split; [destruct Hw; by split|].
    apply (tested_backed E _ _ blk fs'); [done|]. split; try done; destruct Hfs as [-> | ->]; try done. by left. }
  apply wp_bind, wp_gets, wp_bind. case_bool_decide as Ek.
  - destruct Ht as [Ht|Ht]; [destruct (ow_kernel _ _ _ _ Ho1') as [_ _ _ _ _ K6]; by specialize (K6 Ht)|].
    apply wp_bind. eapply (wp_detectBlitBug E _ s1); [exact Ho1'|apply Hw|done|done|lia|]. intros rc fs' w2 g2 Ho2 Hfs Hrc.
    apply wp_bind, wp_modify, wp_ret, wp_ret. apply (Hend _ fs'); [done|done|]. destruct Ho2 as [Ha V [K1 K2 K3 K4 K5 K6] ? ? ?].
    split; [destruct Ha; by split|done|by split|done..].
  - apply wp_ret, wp_ret. by apply (Hend _ fs); [|right|].
Qed.

Lemma Inv_Cleanup3D n L s (Q : post Surface) w nf g : Inv E n L s w g -> n + 1 < 2 ^ 30 ->
  (forall b c w' g', Inv E (n + 1) L (front_of s.(bDirectBlit) b c s) w' g' -> b = false -> Q (front_of s.(bDirectBlit) b c s) w' nf g') ->
  wp (Cleanup3D s) Q w nf g.
Proof.
  intros HI Hn HQ. unfold Cleanup3D. pose proof HI as [Hw (blk & fs & [Ho B1 B2 B3 B4 B5 B6])]. rewrite (wf_provider _ Hw). cbn [negb orb].
  destruct (haveFrontBuffer s) eqn:Eh; cbn [negb].
  - apply wp_bind. assert (forall w' g', owns E (with_backing s.(m_backing) blk fs (set_r_masters 0 (frame (n + 1) L s))) w' g' ->
      Q (set_bHaveScreenObject false (set_bHaveMasterSurface false s)) w' nf g') as Hend.
    { intros w' g' Ho'. replace (set_bHaveScreenObject _ _) with (front_of s.(bDirectBlit) false false s) by by destruct s. apply HQ; [|done].
      split; [destruct Hw; by split|]. exists blk, fs. by split. }
    destruct (bHaveMasterSurface s) eqn:Em; cbn [when].
    + eapply wp_release_master; [exact Ho|cbn; rewrite Em; lia|cbn; lia|]. intros w1 g1 Ho1 _ _. apply wp_ret, Hend.
      eapply owns_le; [|exact Ho1]. split; cbn; try done. by rewrite Em.
    + apply wp_ret, wp_ret, Hend. eapply owns_le; [|exact Ho]. split; cbn; try done; [lia|by rewrite Em].
  - apply orb_false_iff in Eh as [E1 E2]. apply wp_ret. assert (s = front_of s.(bDirectBlit) false false s) as Es by (destruct s; cbn in *; by subst).
    rewrite Es at 1. apply HQ; [|done]. rewrite <-Es. eapply Inv_le; [exact HI|lia].
Qed.

(** ** Locks *)

(** A block of video memory that cannot grow is lost. *)
Definition grows s : bool := is_some s.(m_backing).(bk_self) && hasSourceGrown s && negb (isClientBackingValid s).
Definition lost_memory s s' L L' : Prop :=
  L' = L \/ exists l, L' = lose_blocks l L /\ grows s = true /\ s'.(m_backing).(bk_self) = None.

Lemma lost_by_memory s s' b l L : lost_by s b l -> s'.(m_backing).(bk_self) = b.(bk_self) -> lost_memory s s' L (lose_blocks l L).
Proof.
  intros [-> |(H1 & H2 & H3 & H4)] Es; [left; by destruct L|]. right. exists l. split; [done|]. unfold grows. rewrite H1, H2, H3. by rewrite Es.
Qed.

Lemma Inv_alloc_and_map n L s task i (Q : post (bool * Surface)) w nf g : Inv E n L s w g -> n + 3 < 2 ^ 30 -> i = 0 \/ i = 1 ->
  (forall r b l w' g', Inv E (n + 3) (lose_blocks l L) (set_m_backing b s) w' g' -> (r = true -> sized s b /\ is_some (get_map i b) = true) ->
     lost_by s b l -> Q (r, set_m_backing b s) w' nf g') ->
  wp (alloc_and_map task i s) Q w nf g.
Proof.
  intros HI Hn Hi HQ. unfold alloc_and_map. apply wp_bind. eapply Inv_allocBacking; [exact HI|done|]. intros r b l w1 g1 HI1 Hr Hl.
  destruct r; cbn [negb]; [|apply wp_ret; by apply (HQ false b l)]. destruct (Hr eq_refl) as [Hv Hz]. destruct HI1 as [Hw1 HB1].
  eapply wp_mapBacking; [exact HB1|done|done|]. intros r m w2 HB2 ->. apply (HQ _ (put_map i m b) l).
  - apply Inv_backing; [by destruct (inv_wf _ _ _ _ _ _ HI)|done].
  - intros Hm. split; [destruct Hi as [-> | ->]; by split|]. by destruct Hi as [-> | ->].
  - destruct Hl as [->|Hl]; [by left|right]. by destruct Hi as [-> | ->].
Qed.

Lemma Inv_sync n L s (Q : post VendorTransferBuffer) w nf g : Inv E n L s w g ->
  (forall v w' g', Inv E n L (on_vtb (fun _ => v) s) w' g' -> Q v w' nf g') -> wp (sync s.(m_provider) s.(m_backing).(bk_vtb)) Q w nf g.
Proof.
  intros [Hw (blk & fs & [Ho B1 B2 B3 B4 B5 B6])] HQ. rewrite (wf_provider _ Hw). eapply wp_sync; [exact Ho|done|]. intros g' Ho'. apply HQ.
  split; [destruct Hw; by split|]. exists blk, []. split; try done. by left.
Qed.

Lemma set_lock_same n L s i w g : Inv E n L s w g -> exists old x, set_lock i s = (old, set_bIsLocked x s) /\ Inv E n L (set_bIsLocked x s) w g.
Proof. intros HI. unfold set_lock. destruct (OSTestAndSet _ _) as [old x]. exists old, x. split; [done|]. same_fields. Qed.

Lemma Inv_information n L s (Q : post SurfaceInformation) w nf g : Inv E n L s w g ->
  (isClientBackingValid s = false -> is_some s.(m_backing).(bk_map0) = true) -> (forall i, Q i w nf g) -> wp (calculateSurfaceInformation s) Q w nf g.
Proof.
  intros HI Hm HQ. unfold calculateSurfaceInformation. destruct (isClientBackingValid s); [by apply wp_bind, wp_ret, wp_ret|].
  specialize (Hm eq_refl). destruct (bk_map0 _) as [m|]; [|done]. apply wp_bind, wp_bind. cbn [deref]. by apply wp_ret, wp_ret, wp_ret.
Qed.

(** What a method leaves. *)
Definition leaves s (k : Z) n L (Q : post (IOReturn * Surface)) : Prop :=
  forall rc s' L' w' nf' g', Inv E (n + k) L' s' w' g' -> lost_memory s s' L L' -> Q (rc, s') w' nf' g'.

Lemma leaves_same k n L s s' rc (Q : post (IOReturn * Surface)) w nf g : leaves s k n L Q -> 0 <= k -> Inv E n L s' w g -> Q (rc, s') w nf g.
Proof. intros HQ Hk HI. apply (HQ rc s' L); [|by left]. eapply Inv_le; [exact HI|lia]. Qed.

Definition forget {A} (p : prog (IOReturn * A * Surface)) : prog (IOReturn * Surface) := r ← p; mret (r.1.1, r.2).

Lemma Inv_read_lock n L s info (Q : post (IOReturn * Surface)) w nf g : Inv E n L s w g -> n + 5 < 2 ^ 30 -> leaves s 5 n L Q ->
  wp (forget (surface_read_lock_options info s)) Q w nf g.
Proof.
  intros HI Hn HQ. unfold forget, surface_read_lock_options. apply wp_bind.
  destruct (bad_info info); [apply wp_ret, wp_ret; by eapply leaves_same|]. destruct (_ || _); [apply wp_ret, wp_ret; by eapply leaves_same|].
  destruct (set_lock_same n L s ceSurfaceLockRead w g HI) as (old & x & -> & HI1). set (s1 := set_bIsLocked x s) in *.
  destruct old; [apply wp_ret, wp_ret; by eapply leaves_same|].
  assert (forall b l w' g', Inv E (n + 3) (lose_blocks l L) (set_m_backing b s1) w' g' -> lost_by s b l ->
    (isClientBackingValid s = false -> is_some b.(bk_map0) = true) ->
    wp (info ← calculateSurfaceInformation (set_m_backing b s1);
        if s1.(bGLMode) then r ← copyGLSurfaceToBacking (set_m_backing b s1); mret (r.1, Some info, r.2)
        else mret (kIOReturnSuccess, Some info, set_m_backing b s1)) (fun a => wp (mret (a.1.1, a.2)) Q) w' nf g') as Hend.
  { intros b l w' g' HI' Hl Hm. apply wp_bind. eapply Inv_information; [exact HI'|done|]. intros i. destruct (bGLMode s1).
    - apply wp_bind. eapply Inv_copyGL; [exact HI'|]. intros rc s2 w2 nf2 g2 HI2 Eb. apply wp_ret, wp_ret. apply (HQ _ _ (lose_blocks l L)).
      + by replace (n + 5) with (n + 3 + 2) by lia.
      + eapply lost_by_memory; [done|]. change (bk_self (m_backing s2) = bk_self b). by rewrite Eb.
    - apply wp_ret, wp_ret. apply (HQ _ _ (lose_blocks l L)); [eapply Inv_le; [exact HI'|lia]|by eapply lost_by_memory]. }
  assert (forall b l w' g', Inv E (n + 3) (lose_blocks l L) (set_m_backing b s1) w' g' -> lost_by s b l ->
    Q (kIOReturnNoMemory, clear_lock ceSurfaceLockRead (set_m_backing b s1)) w' nf g') as Hno.
  { intros b l w' g' HI' Hl. apply (HQ _ _ (lose_blocks l L)); [|by eapply lost_by_memory]. eapply (Inv_le _ (n + 3)); [|lia]. same_fields. }
  apply wp_bind. change (isClientBackingValid s1) with (isClientBackingValid s). destruct (isClientBackingValid s) eqn:Ec.
  - case (bGLMode s1).
    + eapply Inv_allocBacking; [exact HI1|lia|]. intros r b l w1 g1 HI2 _ Hl. destruct r; cbn [negb]; [by apply (Hend b l)|]. apply wp_ret, wp_ret.
      by apply (Hno b l).
    + apply wp_ret. cbn [negb]. rewrite <-(set_backing_id s1). apply (Hend _ []); [|by left|done]. rewrite set_backing_id.
      replace (lose_blocks [] L) with L by by destruct L. eapply Inv_le; [exact HI1|lia].
  - eapply Inv_alloc_and_map; [exact HI1|lia|by left|]. intros r b l w1 g1 HI2 Hr Hl. destruct r; cbn [negb].
    + apply (Hend b l); [done|done|]. intros _. by destruct (Hr eq_refl).
    + apply wp_ret, wp_ret. by apply (Hno b l).
Qed.

Lemma Inv_write_lock n L s info (Q : post (IOReturn * Surface)) w nf g : Inv E n L s w g -> n + 5 < 2 ^ 30 -> leaves s 5 n L Q ->
  wp (forget (surface_write_lock_options info s)) Q w nf g.
Proof.
  intros HI Hn HQ. unfold forget, surface_write_lock_options. apply wp_bind.
  destruct (bad_info info); [apply wp_ret, wp_ret; by eapply leaves_same|]. destruct (_ || _); [apply wp_ret, wp_ret; by eapply leaves_same|].
  assert (exists old x y, (if s.(bSkipWriteLockOnce) then (false, set_bSkipWriteLockOnce false s) else set_lock ceSurfaceLockWrite s) =
    (old, set_bIsLocked x (set_bSkipWriteLockOnce y s))) as (old & x & y & ->).
  { destruct (bSkipWriteLockOnce s) eqn:Ey; [exists false, s.(bIsLocked), false; by destruct s|].
    unfold set_lock. destruct (OSTestAndSet _ _) as [old x]. exists old, x, false. destruct s; cbn in *; by subst. }
  set (s1 := set_bIsLocked x _). assert (Inv E n L s1 w g) as HI1 by same_fields. destruct old; [apply wp_ret, wp_ret; by eapply leaves_same|].
  assert (forall b l w' g', Inv E (n + 3) (lose_blocks l L) (set_m_backing b s1) w' g' -> lost_by s b l ->
    (isClientBackingValid s = false -> is_some b.(bk_map0) = true) ->
    wp (info ← calculateSurfaceInformation (set_m_backing b s1);
        s ← (if s1.(m_scale).(sc_reserved2) =? 0 then
               v ← sync s1.(m_provider) b.(bk_vtb); mret (on_vtb (fun _ => v) (set_m_backing b s1))
             else mret (set_m_backing b s1));
        mret (kIOReturnSuccess, Some info, s)) (fun a => wp (mret (a.1.1, a.2)) Q) w' nf g') as Hend.
  { intros b l w' g' HI' Hl Hm. apply wp_bind. eapply Inv_information; [exact HI'|done|]. intros i. apply wp_bind. destruct (_ =? 0).
    - apply wp_bind. eapply (Inv_sync _ _ (set_m_backing b s1)); [exact HI'|]. intros v w2 g2 HI2. apply wp_ret, wp_ret, wp_ret. apply (HQ _ _ (lose_blocks l L)).
      + eapply Inv_le; [exact HI2|lia].
      + by eapply lost_by_memory.
    - apply wp_ret, wp_ret, wp_ret. apply (HQ _ _ (lose_blocks l L)); [eapply Inv_le; [exact HI'|lia]|by eapply lost_by_memory]. }
  apply wp_bind. change (isClientBackingValid s1) with (isClientBackingValid s). destruct (isClientBackingValid s) eqn:Ec.
  - apply wp_ret. cbn [negb]. rewrite <-(set_backing_id s1). apply (Hend _ []); [|by left|done]. rewrite set_backing_id.
    replace (lose_blocks [] L) with L by by destruct L. eapply Inv_le; [exact HI1|lia].
  - eapply Inv_alloc_and_map; [exact HI1|lia|by left|]. intros r b l w1 g1 HI2 Hr Hl. destruct r; cbn [negb].
    + apply (Hend b l); [done|done|]. intros _. by destruct (Hr eq_refl).
    + apply wp_ret, wp_ret. apply (HQ _ _ (lose_blocks l L)); [|by eapply lost_by_memory]. eapply (Inv_le _ (n + 3)); [|lia]. same_fields.
Qed.

(** ** Mode, scale and shape *)

Lemma round_up_nonneg a b : 0 <= round_up_to_power2 a b.
Proof. unfold round_up_to_power2. apply Z.land_nonneg. left. apply wrap_range. lia. Qed.

Lemma Inv_scale n L s c w g : Inv E n L s w g -> 0 <= c.(sc_reserved0) -> Inv E n L (set_m_scale c s) w g.
Proof. intros [[] HB] Hc. split; [by split|done]. Qed.

Lemma Inv_calculate n L s c b w g : Inv E n L s w g -> Inv E n L (calculateScaleParameters (set_m_scale c s) b) w g.
Proof.
  intros HI. unfold calculateScaleParameters. set (c' := set_sc_reserved2 _ _). change (Inv E n L (set_m_scale c' s) w g). apply Inv_scale; [done|]. apply round_up_nonneg.
Qed.

Lemma Inv_set_id_mode n L s wID modebits (Q : post (IOReturn * Surface)) w nf g : Inv E n L s w g -> leaves s 0 n L Q ->
  wp (set_id_mode wID modebits s) Q w nf g.
Proof.
  intros HI HQ. unfold set_id_mode. apply wp_bind.
  assert (forall (rc : IOReturn) w' nf' g', Inv E n L s w' g' -> wp (
    if negb (bool_decide (rc = kIOReturnSuccess)) then mret (rc, s)
    else if negb (Z.ldiff modebits (Z.lor kIOAccelSurfaceModeColorDepthBits kIOAccelSurfaceModeWindowedBit) =? 0) then mret (kIOReturnUnsupported, s)
    else if negb (has_bits modebits kIOAccelSurfaceModeWindowedBit) then mret (kIOReturnUnsupported, s)
    else match depth_format (Z.land modebits kIOAccelSurfaceModeColorDepthBits) with
         | None => mret (kIOReturnUnsupported, s)
         | Some (format, bytes_per_pixel, pixel_format) =>
             let s := set_m_wID (u32 wID) (set_format format bytes_per_pixel pixel_format s) in
             let s := on_gl (set_gl_original_mode_bits modebits) s in
             log (SetProperty s.(m_wID));;
             mret (kIOReturnSuccess, set_bHaveID true s)
         end) Q w' nf' g') as Hrest.
  { intros rc w' nf' g' HI'. do 3 (case_match; [by apply wp_ret; eapply leaves_same|]). destruct (depth_format _) as [[[f b] p]|]; [|by apply wp_ret; eapply leaves_same].
    cbv zeta. apply wp_bind. destruct HI' as [[] (blk & fs & [Ho B1 B2 B3 B4 B5 B6])]. eapply wp_log; [exact Ho|]. intros w2 Ho2 _.
    apply wp_ret. eapply leaves_same; [exact HQ|done|]. split; [by split|]. exists blk, fs. by split. }
  destruct (wID =? 1); [|by apply wp_ret, Hrest]. destruct (haveFrontBuffer s); cbn [negb]; [|by apply wp_ret, Hrest].
  destruct (bHaveScreenObject s); [|by apply wp_ret, Hrest]. apply wp_bind. eapply Inv_plain; [exact HI|done|]. intros r w1 nf1 g1 HI1 _. by apply wp_ret, Hrest.
Qed.

(** The object of the last shape. *)
Lemma Inv_store_shape n L s (Q : post (bool * Surface)) w nf g : Inv E n L s w g ->
  (forall r o w' g', Inv E n L (set_m_last_shape o s) w' g' -> Q (r, set_m_last_shape o s) w' nf g') -> wp (store_shape s) Q w nf g.
Proof.
  intros [Hw (blk & fs & [Ho B1 B2 B3 B4 B5 B6])] HQ. unfold store_shape.
  assert (wf (set_m_last_shape None s)) as Hw' by (destruct Hw; by split). destruct (m_last_shape s) as [x|] eqn:Ex; apply wp_bind.
  - eapply wp_answer_owns; [exact Ho|]. intros a w1 Ho1 _. apply wp_ret. replace s with (set_m_last_shape (Some x) s) by (destruct s; cbn in *; by subst).
    apply HQ. split; [destruct Hw; by split|]. exists blk, fs. split; try done. unfold frame in Ho1. by rewrite Ex in Ho1.
  - eapply wp_new_object; [exact Ho|]. intros o w1 Ho1 _ _. apply wp_ret, HQ. split; [destruct Hw; by split|]. exists blk, fs. split; try done.
    eapply owns_le; [|exact Ho1]. split; try done. cbn. rewrite Ex. destruct o, (md _), (bk_map0 _), (bk_map1 _); cbn; try done; solve_Permutation.
Qed.

Lemma Inv_apply_shape n L s options fi rgn (Q : post (IOReturn * Surface)) w nf g : Inv E n L s w g ->
  (forall rc s' w' nf' g', Inv E n L s' w' g' -> Q (rc, s') w' nf' g') -> wp (apply_shape options fi rgn s) Q w nf g.
Proof.
  intros HI HQ. unfold apply_shape. apply wp_bind. eapply Inv_store_shape; [exact HI|]. intros r o w1 g1 HI1. destruct r; cbn [negb].
  2: { apply wp_ret, HQ. same_fields. }
  set (s1 := set_m_framebufferIndex _ _). assert (Inv E n L s1 w1 g1) as HI2 by same_fields. apply wp_bind.
  destruct (inv_backed _ _ _ _ _ _ HI2) as (blk & fs & [Ho _ _ _ _ _ _]). eapply wp_options; [exact Ho|]. cbv zeta.
  match goal with |- wp (videoReshape ?x ≫= _) _ _ _ _ => assert (Inv E n L x w1 g1) as HI3 by (repeat case_match; try done; by apply Inv_calculate); generalize dependent x; intros s2 HI3 end.
  apply wp_bind. eapply Inv_videoReshape; [exact HI3|]. intros x b w2 nf2 g2 HI4. apply wp_ret, HQ. case_match; [same_fields|done].
Qed.

Lemma Inv_gart n L s x w g : Inv E n L s w g -> Inv E n L (on_vtb (set_gart_ptr x) s) w g.
Proof. intros [[] (blk & fs & [Ho B1 B2 B3 B4 B5 B6])]. split; [by split|]. exists blk, fs. by split. Qed.

Lemma Inv_set_shape n L s options fi backing rowbytes len rgn size (Q : post (IOReturn * Surface)) w nf g : Inv E n L s w g -> leaves s 0 n L Q ->
  wp (set_shape_backing_length_ext options fi backing rowbytes len rgn size s) Q w nf g.
Proof.
  intros HI HQ. unfold set_shape_backing_length_ext. destruct rgn as [rgn|]; [|by apply wp_ret; eapply leaves_same].
  do 2 (case_match; [by apply wp_ret; eapply leaves_same|]). cbv zeta. set (s1 := set_m_client_backing no_client_backing (clearLastRegion s)).
  assert (Inv E n L s1 w g) as HI1 by (subst s1; unfold clearLastRegion; case_match; same_fields).
  assert (forall rc s' w' nf' g', Inv E n L s' w' g' -> Q (rc, s') w' nf' g') as Hall by (intros; by eapply leaves_same).
  do 2 (case_match; [by apply wp_ret, Hall|]). case_match; [apply wp_ret, Hall; case_match; [by apply Inv_calculate|done]|].
  case_match; [by apply wp_ret, Hall|]. case_match; [by eapply Inv_apply_shape|]. destruct (client_backing _ _ _ _ _) as [cb|]; [|by apply wp_ret, Hall].
  eapply Inv_apply_shape; [|exact Hall]. assert (Inv E n L (set_m_client_backing cb s1) w g) as HI2 by same_fields. case_match; [by apply Inv_gart|done].
Qed.

(** ** Flush *)

Lemma Inv_flush n L s mask (Q : post (IOReturn * Surface)) w nf g : Inv E n L s w g -> n + 6 < 2 ^ 30 ->
  (forall rc b w' nf' g', Inv E (n + 6) L (set_m_backing b s) w' g' -> Q (rc, set_m_backing b s) w' nf' g') -> wp (surface_flush mask s) Q w nf g.
Proof.
  intros HI Hn HQ. unfold surface_flush.
  assert (forall rc w' nf' g', Inv E n L s w' g' -> Q (rc, s) w' nf' g') as Hs.
  { intros rc w' nf' g' HI'. rewrite <-(set_backing_id s). apply HQ. rewrite set_backing_id. eapply Inv_le; [exact HI'|lia]. }
  destruct (m_last_region s) as [rgn|] eqn:Er; [|by apply wp_ret, Hs]. do 3 (case_match; [by apply wp_ret, Hs|]).
  pose proof HI as [Hw HB]. destruct (bGLMode s).
  { apply wp_bind. eapply wp_flushGL; [exact HB|by rewrite Er|]. intros rc w1 nf1 g1 HB1. apply wp_ret, Hs. by split. }
  apply wp_bind. pose proof HB as (blk & fs & [Ho _ _ _ _ _ _]). eapply wp_Have3D; [exact Ho|].
  destruct (select_DMA_type _ rgn s) as [t|]; [|by apply wp_ret, Hs]. apply wp_bind.
  assert (forall k p, keeps_backing E k p -> k <= 6 -> wp (p s) (fun r => wp (
    let '(rc, s) := r in
    if negb (bool_decide (rc = kIOReturnSuccess)) then mret (rc, s)
    else match t with
         | DMADirect | DMACopy | DMAStretch => rc ← doPresent s; mret (rc, s)
         | _ => mret (kIOReturnSuccess, s)
         end) Q) w nf g) as Hp.
  { intros k p Hk Hle. eapply Inv_keeps; [exact Hk|exact HI|lia|]. intros rc b w1 nf1 g1 HI1 _. apply (Inv_le _ (n + k) (n + 6)) in HI1; [|lia].
    case_match; [by apply wp_ret, HQ|]. assert (wp (rc ← doPresent (set_m_backing b s); mret (rc, set_m_backing b s)) Q w1 nf1 g1) as Hpr.
    { apply wp_bind. unfold doPresent. cbn [m_last_region set_m_backing]. rewrite Er. apply wp_bind, wp_bind, wp_accel, wp_ret, wp_bind.
      eapply Inv_plain; [exact HI1|done|]. intros r w2 nf2 g2 HI2 _. by apply wp_ret, wp_ret, HQ. }
    destruct t; try done; by apply wp_ret, HQ. }
  destruct t.
  - by eapply Hp; [apply DMAOutDirect_keeps|].
  - by eapply Hp; [apply DMAOutWithCopy_keeps|].
  - by eapply Hp; [apply DMAOutStretchWithCopy_keeps|].
  - by eapply Hp; [apply ScreenObjectOutDirect_keeps|].
  - by eapply Hp; [apply ScreenObjectOutVia3D_keeps|].
  - by eapply Hp; [apply GFBOutDirect_keeps|].
Qed.

(** ** For 2D contexts *)

(** The device was tested when the first surface was started. *)
Definition ready : Prop := needs_test E = true -> E.(e_tested) = true.

Lemma ready_started : ready -> started E = E.
Proof. unfold ready, started. destruct (needs_test E); [|done]. intros Ht. specialize (Ht eq_refl). destruct E; cbn in *; by subst. Qed.

Lemma Inv_format n L s f b p w g : Inv E n L s w g -> Inv E n L (set_format f b p s) w g.
Proof. intros HI. same_fields. Qed.

(** Streams: switching an overlay to another video format loses its stream. *)
Lemma Inv_context_set_surface n L s cecl apple (Q : post (IOReturn * Surface)) w nf g : Inv E n L s w g -> ready -> n + 2 < 2 ^ 30 ->
  (forall rc s' L' w' nf' g', Inv E (n + 2) L' s' w' g' ->
     L' = L \/ (L' = lose_stream s.(m_video).(vd_stream_id) L /\ enabled s = true /\ cecl <> 0) -> Q (rc, s') w' nf' g') ->
  wp (context_set_surface cecl apple s) Q w nf g.
Proof.
  intros HI Hrd Hn HQ. unfold context_set_surface. destruct (Z.eqb_spec cecl 0) as [Ec|Ec].
  - apply wp_bind. eapply Inv_video_off; [exact HI|]. intros x w1 nf1 g1 HI1 Hoff. set (s1 := set_m_video x s) in *.
    assert (enabled s1 = false) as Een.
    { destruct Hoff as [Hoff|Hoff]; [unfold enabled; cbn; by rewrite Hoff|]. destruct (enabled s1) eqn:He; [|done].
      pose proof (wf_video _ (inv_wf _ _ _ _ _ _ HI1) He) as Hv. cbn in Hv. congruence. }
    assert (Inv E (n + 1) L (set_bVideoMode false s1) w1 g1) as HI2.
    { destruct HI1 as [[] HB]. split; [split; cbn; try done|done]. change (enabled (set_bVideoMode false s1)) with (enabled s1). by rewrite Een. }
    cbv zeta. apply wp_bind.
    match goal with |- wp (if haveFrontBuffer ?y then _ else _) _ _ _ _ => assert (Inv E (n + 1) L y w1 g1) as HI3 by (case_match; [by apply Inv_format|done]);
      generalize dependent y; intros s2 HI3 end.
    destruct (haveFrontBuffer s2) eqn:Eh.
    + apply wp_ret, wp_ret. apply (HQ _ _ L); [|by left]. eapply Inv_le; [exact HI3|lia].
    + apply orb_false_iff in Eh as [_ Em]. eapply Inv_Start3D; [exact HI3|done|lia|by intros Hnt; left; apply Hrd|].
      intros a b c w2 g2 HI4. apply wp_ret. rewrite ready_started in HI4 by done. apply (HQ _ _ L); [|by left]. eapply Inv_le; [exact HI4|lia].
  - apply wp_bind. destruct (inv_backed _ _ _ _ _ _ HI) as (blk & fs & Hb). pose proof Hb as [Ho _ _ _ _ _ _]. eapply wp_options; [exact Ho|].
    case_match; [apply wp_ret; apply (HQ _ _ L); [eapply Inv_le; [exact HI|lia]|by left]|]. cbv zeta.
    set (L' := if enabled s then lose_stream s.(m_video).(vd_stream_id) L else L).
    apply wp_bind. match goal with |- wp (Cleanup3D ?y) _ _ _ _ => assert (Inv E n L' y w g) as HI1; [|generalize dependent y; intros s2 HI1] end.
    { assert (Inv E n L' (on_unit (set_enabled 0) (set_bVideoMode true s)) w g) as HI0.
      { destruct HI as [[] HB]. split; [by split|]. eapply Backed_le; [|exact HB]. subst L'. destruct (enabled s) eqn:Ee; split; cbn; rewrite ?Ee; done. }
      apply (Inv_video E n L' _ (set_vd_cecl_pixel_format cecl (m_video (on_unit (set_enabled 0) (set_bVideoMode true s))))) in HI0; [|done|done].
      destruct HI0 as [[] HB0]. repeat case_match; split; done || by split. }
    eapply Inv_Cleanup3D; [exact HI1|lia|]. intros b c w2 g2 HI2 _. apply wp_ret. apply (HQ _ _ L'); [eapply Inv_le; [exact HI2|lia]|].
    subst L'. destruct (enabled s); [by right|by left].
Qed.

Lemma Inv_context_lock n L s task (Q : post (IOReturn * Surface)) w nf g : Inv E n L s w g -> n + 3 < 2 ^ 30 -> leaves s 3 n L Q ->
  wp (forget (context_lock_memory task s)) Q w nf g.
Proof.
  intros HI Hn HQ. unfold forget, context_lock_memory. apply wp_bind. destruct (_ || _); [apply wp_ret, wp_ret; by eapply leaves_same|].
  destruct (set_lock_same n L s ceSurfaceLockContext w g HI) as (old & x & -> & HI1). set (s1 := set_bIsLocked x s) in *.
  destruct old; [apply wp_ret, wp_ret; by eapply leaves_same|]. apply wp_bind. eapply Inv_alloc_and_map; [exact HI1|lia|by right|].
  intros r b l w1 g1 HI2 Hr Hl. destruct r; cbn [negb].
  2: { apply wp_ret, wp_ret. apply (HQ _ _ (lose_blocks l L)); [same_fields|by eapply lost_by_memory]. }
  destruct (Hr eq_refl) as [_ Hm]. destruct (inv_backed _ _ _ _ _ _ HI2) as (blk & fs & [Ho _ _ _ _ _ _]).
  apply wp_bind. eapply wp_HaveScreen; [exact Ho|]. apply wp_bind. eapply wp_Have3D; [exact Ho|]. apply wp_bind.
  assert (forall s2 w' g', s2.(m_backing).(bk_map1) = b.(bk_map1) -> s2.(m_backing).(bk_self) = b.(bk_self) -> Inv E (n + 3) (lose_blocks l L) s2 w' g' ->
    wp (m ← deref s2.(m_backing).(bk_map1); mret (kIOReturnSuccess, Some (m.(mp_addr), s2.(m_scale).(sc_reserved1)), s2))
      (fun a => wp (mret (a.1.1, a.2)) Q) w' nf g') as Hend.
  { intros s2 w' g' Em Es HI'. cbn in Hm. rewrite Em. destruct (bk_map1 b) as [m1|]; [|done]. apply wp_bind. cbn [deref]. apply wp_ret, wp_ret, wp_ret.
    apply (HQ _ _ (lose_blocks l L)); [done|by eapply lost_by_memory]. }
  case_match; [|by apply wp_ret, Hend]. apply wp_bind. destruct HI2 as [Hw2 HB2]. eapply wp_setup_trick_buffer; [exact HB2|]. intros rc m w2 g2 HB3.
  apply wp_ret. apply Hend; [done|done|]. split; [destruct Hw2; by split|done].
Qed.

Lemma Inv_context_unlock n L s (Q : post (IOReturn * Surface)) w nf g : Inv E n L s w g -> leaves s 0 n L Q -> wp (context_unlock_memory s) Q w nf g.
Proof.
  intros HI HQ. unfold context_unlock_memory. apply wp_bind. assert (Inv E n L (clear_lock ceSurfaceLockContext s) w g) as [Hw (blk & fs & Hb)] by same_fields.
  eapply wp_releaseBackingMap; [exact Hb|by right|]. intros w1 Hb1 _. apply wp_ret. eapply leaves_same; [exact HQ|done|].
  split; [destruct Hw; by split|]. by exists blk, fs.
Qed.

(** ** Copies *)

(** A transfer to the backing that the method waits for. *)
Lemma Inv_moves_sync n L s op (Q : post (IOReturn * Surface)) (rc rc' : IOReturn) w nf g :
  Inv E n L s w g -> moves op = true -> isBackingValid s = true ->
  (forall rc b w' nf' g', Inv E n L (set_m_backing b s) w' g' -> b.(bk_self) = s.(m_backing).(bk_self) -> Q (rc, set_m_backing b s) w' nf' g') ->
  forall region : option IOAccelDeviceRegion,
  wp (r ← ask op;
      let s := store_fence r.2 s in
      if negb (ok r) then mret (rc, region, s)
      else v ← sync s.(m_provider) s.(m_backing).(bk_vtb); mret (rc', region, on_vtb (fun _ => v) s))
    (fun a => wp (mret (a.1.1, a.2)) Q) w nf g.
Proof.
  intros [Hw HB] Hop Hv HQ region. apply wp_bind. eapply wp_moves; [exact HB|done|done|]. intros r nf1 g1 HB1. cbv zeta.
  assert (Inv E n L (store_fence r.2 s) w g1) as HI1 by (rewrite store_fence_backing; by apply Inv_backing).
  assert (bk_self (m_backing (store_fence r.2 s)) = bk_self (m_backing s)) as Es by by destruct r.2.
  destruct (ok r); cbn [negb].
  - apply wp_bind. eapply Inv_sync; [exact HI1|]. intros v w2 g2 HI2. apply wp_ret, wp_ret. rewrite store_fence_backing in HI2 |- *. by apply HQ.
  - apply wp_ret, wp_ret. rewrite store_fence_backing in HI1 |- *. by apply HQ.
Qed.

(** A copy by the processor, with pointers to the backing. *)
Lemma Inv_copy_framebuffer n L s fi dx dy rgn size (Q : post (IOReturn * Surface)) w nf g : Inv E n L s w g -> n + 3 < 2 ^ 30 -> leaves s 3 n L Q ->
  wp (forget (copy_framebuffer_region_to_self fi dx dy rgn size s)) Q w nf g.
Proof.
  intros HI Hn HQ. unfold forget, copy_framebuffer_region_to_self. apply wp_bind. destruct rgn as [rgn|]; [|apply wp_ret, wp_ret; by eapply leaves_same].
  do 5 (case_match; [apply wp_ret, wp_ret; by eapply leaves_same|]). apply wp_bind. eapply Inv_allocBacking; [exact HI|done|]. intros r b l w1 g1 HI1 Hr Hl.
  assert (forall rc b' w' nf' g', Inv E (n + 3) (lose_blocks l L) (set_m_backing b' s) w' g' -> b'.(bk_self) = b.(bk_self) -> Q (rc, set_m_backing b' s) w' nf' g') as Hend.
  { intros rc b' w' nf' g' HI' Es. apply (HQ _ _ (lose_blocks l L)); [done|]. by eapply lost_by_memory. }
  destruct r; cbn [negb]; [|by apply wp_ret, wp_ret, Hend]. destruct (Hr eq_refl) as [Hv _]. cbv zeta. apply wp_bind, wp_accel.
  set (s1 := set_m_backing b s) in *. assert (isBackingValid s1 = true) as Hv1 by done.
  case_match; [by apply (Inv_moves_sync (n + 3) (lose_blocks l L) s1)|]. case_match; [by apply (Inv_moves_sync (n + 3) (lose_blocks l L) s1)|].
  pose proof HI1 as [Hw1 (blk & fs & [Ho B1 B2 B3 B4 B5 B6])].
  assert (forall rc w' nf' g', owns E (with_backing s1.(m_backing) blk fs (frame (n + 3) (lose_blocks l L) s1)) w' g' -> Q (rc, s1) w' nf' g') as Hown.
  { intros rc w' nf' g' Ho'. apply Hend; [|done]. split; [done|]. exists blk, fs. by split. }
  apply wp_bind. eapply wp_obtainKernelPtrs; [exact Ho|intros d Hd; left; cbn in *; rewrite Hd; by left|]. intros kp w2 Ho2 Hk.
  destruct (bool_decide_reflect (kp.(kp_rc) = kIOReturnSuccess)) as [Erc|Erc]; cbn [negb].
  2: { apply wp_ret, wp_ret, Hown. by rewrite (Hk Erc) in Ho2. }
  apply wp_bind. eapply wp_blitGFB; [exact Ho2|]. intros rc w3 Ho3 _. apply wp_bind. eapply wp_release_holder; [exact Ho3|done|]. intros w4 Ho4.
  by apply wp_ret, wp_ret, Hown.
Qed.

(** The source is the surface itself, or another one that is alive. *)
Definition source_alive (src : source) : Prop :=
  match src with Other s' => forall d, s'.(m_backing).(bk_vtb).(md) = Some d -> d.(md_ref) ∈ E.(e_refs) | _ => True end.

Lemma Inv_copy_surface n L s src dx dy rgn size (Q : post (IOReturn * Surface)) w nf g : Inv E n L s w g -> n + 3 < 2 ^ 30 -> source_alive src -> leaves s 3 n L Q ->
  wp (forget (copy_surface_region_to_self src dx dy rgn size s)) Q w nf g.
Proof.
  intros HI Hn Hsrc HQ. unfold forget, copy_surface_region_to_self. apply wp_bind.
  destruct (source_of src s) as [s0|] eqn:E0; [|apply wp_ret, wp_ret; by eapply leaves_same]. destruct rgn as [rgn|]; [|apply wp_ret, wp_ret; by eapply leaves_same].
  do 6 (case_match; [apply wp_ret, wp_ret; by eapply leaves_same|]). apply wp_bind. eapply Inv_allocBacking; [exact HI|done|]. intros r b l w1 g1 HI1 Hr Hl.
  set (s1 := set_m_backing b s) in *. pose proof HI1 as [Hw1 (blk & fs & [Ho B1 B2 B3 B4 B5 B6])].
  assert (forall rc w' g', owns E (with_backing s1.(m_backing) blk fs (frame (n + 3) (lose_blocks l L) s1)) w' g' -> Q (rc, s1) w' nf g') as Hown.
  { intros rc w' g' Ho'. apply (HQ _ _ (lose_blocks l L)); [|by eapply lost_by_memory]. split; [done|]. exists blk, fs. by split. }
  destruct r; cbn [negb]; [|apply wp_ret, wp_ret; by eapply Hown].
  assert (exists s2, source_of src s1 = Some s2 /\ forall d, s2.(m_backing).(bk_vtb).(md) = Some d ->
    d.(md_ref) ∈ (with_backing s1.(m_backing) blk fs (frame (n + 3) (lose_blocks l L) s1)).(r_refs) \/ d.(md_ref) ∈ E.(e_refs)) as (s2 & E2 & Hd2).
  { destruct src as [| |s']; cbn in E0 |- *; [done| |]; injection E0 as <-; eexists; (split; [done|]); intros d Hd; [left; change (md (bk_vtb b) = Some d) in Hd; rewrite Hd; by left|right; exact (Hsrc d Hd)]. }
  apply wp_bind. rewrite E2. cbn [deref]. apply wp_ret. cbv zeta.
  apply wp_bind. eapply wp_obtainKernelPtrs; [exact Ho|intros d Hd; left; cbn in *; rewrite Hd; by left|]. intros kp w2 Ho2 Hk.
  destruct (bool_decide_reflect (kp.(kp_rc) = kIOReturnSuccess)) as [Erc|Erc]; cbn [negb].
  2: { apply wp_ret, wp_ret, Hown. by rewrite (Hk Erc) in Ho2. }
  apply wp_bind. eapply wp_obtainKernelPtrs; [exact Ho2| |].
  { intros d Hd. destruct (Hd2 d Hd); [left|by right]. cbn [r_refs set_r_refs]. destruct (kp_holder kp); [by right|done]. }
  intros kp' w3 Ho3 Hk'. destruct (bool_decide_reflect (kp'.(kp_rc) = kIOReturnSuccess)) as [Erc'|Erc']; cbn [negb].
  2: { rewrite (Hk' Erc') in Ho3. apply wp_bind.
       eapply (wp_release_holder _ (with_backing s1.(m_backing) blk fs (frame (n + 3) (lose_blocks l L) s1))); [exact Ho3|done|]. intros w4 Ho4. by apply wp_ret, wp_ret, Hown. }
  destruct (genericBlitCopy _ _ _ _ _ _ _ _) as [rc cs]. apply wp_bind. eapply wp_log; [exact Ho3|]. intros w4 Ho4 _.
  apply wp_bind. eapply wp_release_holder; [exact Ho4|done|]. intros w5 Ho5. apply wp_bind.
  eapply (wp_release_holder _ (with_backing s1.(m_backing) blk fs (frame (n + 3) (lose_blocks l L) s1))); [exact Ho5|done|]. intros w6 Ho6.
  by apply wp_ret, wp_ret, Hown.
Qed.

(** ** All methods *)

(** What callers must see to: the window server's surface has a shape before OpenGL draws
    on it, and the source of a copy is alive. *)
Definition allowed (c : surface_op) s : Prop :=
  match c with
  | AttachGL _ | ResizeGL | TouchRenderTarget => GL_flushable s
  | CopyFromSurface src _ _ _ _ => source_alive src
  | _ => True
  end.

(** What a method may lose. *)
Definition loses (c : surface_op) s s' L L' : Prop :=
  lost_memory s s' L L' \/
  exists cecl apple, c = ContextSetSurface cecl apple /\ cecl <> 0 /\ enabled s = true /\ L' = lose_stream s.(m_video).(vd_stream_id) L.

Lemma Inv_exec c n L s (Q : post (IOReturn * Surface)) w nf g : Inv E n L s w g -> allowed c s -> ready -> n + 6 < 2 ^ 30 ->
  (forall rc s' L' w' nf' g', Inv E (n + 6) L' s' w' g' -> loses c s s' L L' -> Q (rc, s') w' nf' g') -> wp (exec c s) Q w nf g.
Proof.
  intros HI Ha Hrd Hn HQ.
  assert (forall k, k <= 6 -> leaves s k n L Q) as Hl.
  { intros k Hk rc s' L' w' nf' g' HI' HL. apply (HQ _ _ L'); [|by left]. eapply Inv_le; [exact HI'|lia]. }
  assert (forall rc s' w' nf' g', Inv E n L s' w' g' -> Q (rc, s') w' nf' g') as Hs.
  { intros rc s' w' nf' g' HI'. eapply leaves_same; [by apply (Hl 0)|done|done]. }
  assert (forall k rc s' w' nf' g', k <= 6 -> Inv E (n + k) L s' w' g' -> Q (rc, s') w' nf' g') as Hk.
  { intros k rc s' w' nf' g' Hk HI'. apply (HQ _ _ L); [|left; by left]. eapply Inv_le; [exact HI'|lia]. }
  destruct c; cbn [exec].
  - eapply Inv_read_lock; [exact HI|lia|by apply Hl].
  - apply wp_ret, Hs. same_fields.
  - by apply wp_ret, Hs.
  - eapply Inv_write_lock; [exact HI|lia|by apply Hl].
  - apply wp_ret, Hs. same_fields.
  - by apply wp_ret, Hs.
  - eapply Inv_set_shape; [exact HI|by apply Hl].
  - eapply Inv_set_id_mode; [exact HI|by apply Hl].
  - apply wp_ret. unfold set_scale. destruct scaling as [c|]; [|by apply Hs]. case_match; [by apply Hs|]. by apply Hs, Inv_calculate.
  - eapply Inv_set_shape; [exact HI|by apply Hl].
  - eapply Inv_flush; [exact HI|lia|]. intros rc b w' nf' g' HI'. by apply (Hk 6).
  - by apply wp_ret, Hs.
  - by apply wp_ret, Hs.
  - eapply Inv_context_set_surface; [exact HI|done|lia|]. intros rc s' L' w' nf' g' HI' HL. apply (HQ _ _ L'); [eapply Inv_le; [exact HI'|lia]|].
    destruct HL as [->|(-> & He & Hc)]; [left; by left|]. right. by eexists _, _.
  - apply wp_ret. unfold context_scale_surface. case_match; [by apply Hs|]. by apply Hs, Inv_calculate.
  - eapply Inv_context_lock; [exact HI|lia|by apply Hl].
  - eapply Inv_context_unlock; [exact HI|by apply Hl].
  - eapply Inv_copy_framebuffer; [exact HI|lia|by apply Hl].
  - eapply Inv_copy_surface; [exact HI|lia|done|by apply Hl].
  - eapply Inv_flush_video; [exact HI|lia|]. intros rc x b w' nf' g' HI' _. by apply (Hk 1).
  - eapply Inv_attachGL; [exact HI|done|lia|]. intros rc x y w' nf' g' HI'. by apply (Hk 6).
  - eapply Inv_resizeGL; [exact HI|done|]. intros rc y w' nf' g' HI'. by apply Hs.
  - unfold detachGL. case_match; apply wp_ret, Hs; [by apply Inv_gl|done].
  - apply wp_bind. destruct HI as [Hw HB]. eapply wp_touch; [exact HB|done|]. intros x w' nf' g' Hx HB'. apply wp_ret, Hs. apply Inv_gl; [done|by split].
  - apply wp_bind. eapply Inv_video_off; [exact HI|]. intros x w' nf' g' HI' _. apply wp_ret. by apply (Hk 1).
  - by apply wp_ret, Hs.
Qed.

(** ** The life of a surface *)

(** Nothing is left but what was lost. *)
Definition lost_only n L : res := mk_res n [] [] 0 [] L.(l_streams) L.(l_blocks) [] [] false [].

Lemma wp_clientClose n L s (Q : post (IOReturn * Surface)) w nf g : Inv E n L s w g -> n + 5 < 2 ^ 30 ->
  (forall s' w' nf' g', owns E (lost_only (n + 5) L) w' g' -> s'.(m_provider) = false -> Q (kIOReturnSuccess, s') w' nf' g') ->
  wp (clientClose s) Q w nf g.
Proof.
  intros HI Hn HQ. unfold clientClose, Cleanup. rewrite (wf_provider _ (inv_wf _ _ _ _ _ _ HI)). apply wp_bind, wp_bind, wp_bind.
  eapply Inv_Cleanup3D; [exact HI|lia|]. intros b c w1 g1 HI1 ->. apply wp_bind. eapply Inv_CleanupGL; [exact HI1|]. intros x w2 g2 [X1 X2] HI2.
  eapply Inv_video_off; [exact HI2|]. intros y w3 nf3 g3 HI3 Hoff. set (s3 := set_m_video y _) in *. destruct HI3 as [Hw3 HB3].
  assert (enabled s3 = false) as Ee.
  { destruct Hoff as [Hoff|Hoff]; [unfold enabled; cbn; by rewrite Hoff|]. destruct (enabled s3) eqn:He; [|done]. by rewrite <-(wf_video _ Hw3 He). }
  apply wp_bind. eapply wp_releaseBacking; [exact HB3|apply Hw3|]. intros w4 g4 [Ho4 _ _ _ _ _ _].
  assert (owns E (set_r_refs (opt_ref id s.(m_last_shape) []) (lost_only (n + 5) L)) w4 g4) as Ho5.
  { eapply owns_le; [|exact Ho4]. unfold with_backing, frame, valid_ids. cbn. rewrite X1, X2, Ee. split; cbn; try done. lia. }
  set (s4 := clearLastRegion _). assert (m_last_shape s4 = m_last_shape s) as Es by (subst s4; unfold clearLastRegion; by case_match).
  destruct (m_last_shape s4) as [o|] eqn:Eo; rewrite <-Es in Ho5.
  - apply wp_bind. eapply wp_release; [exact Ho5|cbn; reflexivity|]. intros w5 Ho6 _. apply wp_ret, wp_ret. by apply HQ.
  - apply wp_ret, wp_ret. by apply HQ.
Qed.
End methods3d.

Lemma Inv_new E n task w g : owns E (lost_only n (mk_lost [] [])) w g -> Inv E n (mk_lost [] []) (set_m_provider true (initWithTask task)) w g.
Proof. intros Ho. split; [by split|]. exists [], []. split; try done. by left. Qed.

Lemma wp_start E n task (Q : post (bool * Surface)) w nf g : owns E (lost_only n (mk_lost [] [])) w g -> n + 1 < 2 ^ 30 -> may_test E w ->
  (forall s w' nf' g', Inv (started E) (n + 1) (mk_lost [] []) s w' g' -> Q (true, s) w' nf' g') -> wp (start (initWithTask task)) Q w nf g.
Proof.
  intros Ho Hn Ht HQ. unfold start. apply wp_bind. unfold getScreenInfo. apply wp_bind, wp_accel.
  destruct (ow_accel _ _ _ _ Ho) as [_ _ _ (-> & _) _ _ _]. cbn [negb]. apply wp_bind, wp_gets, wp_ret. cbn [snd]. apply wp_bind.
  eapply Inv_Start3D; [|done|exact Hn|done|].
  - pose proof (Inv_new E n task w g Ho) as HI. instantiate (1 := mk_lost [] []). same_fields.
  - intros a b c w' g' HI'. apply wp_ret. by apply HQ.
Qed.
