(* ===== verification/SurfaceSpec.v ===== *)
(** Window surfaces, from [start] to [clientClose]: the states that the methods of a client
    can lead to, what holds in them, and what is left at the end. *)

From S2P Require Import Allocator.
From S2P Require Import AllocatorProofs AllocatorSpec.
From S2P Require Import Prelude IOKit Layout SvgaReg SvgaCmd Svga3dReg Svga3d AccelIds AccelBlit Accel AccelProofs AccelSpec.
From S2P Require Import ShaderCache Provider AccelGmr Kernel Transfer Surface SurfaceLogic SurfaceProofs SurfaceMethods.
From stdpp Require Import gmap gmultiset.
From stdpp Require Import list_relations list.

#[local] Open Scope Z_scope.

Local Abbreviation prog := (prog kernel).
Local Abbreviation world := (world kernel).

(** ** Runs *)

(** Whether a method has lost something: a block of video memory that could not grow, or
    the stream of an overlay that was given another video format. *)
Definition lossy (c : surface_op) (s s' : Surface) : bool :=
  (grows s && negb (is_some s'.(m_backing).(bk_self))) ||
  match c with ContextSetSurface cecl _ => negb (cecl =? 0) && enabled s | _ => false end.

(** The surface, the world and what the observer has seen after [start] and [k] methods;
    [clean] says that none of them was lossy. *)
Inductive reachable (E : env) (task : Z) (w0 : world) (nf0 : Z) (g0 : monitor) : bool -> nat -> Surface -> world -> Z -> monitor -> Prop :=
  | reach_start t : spec (start (initWithTask task)) w0 nf0 = Some t -> t.(t_result).1 = true ->
      reachable E task w0 nf0 g0 true 0 t.(t_result).2 t.(t_world) t.(t_next) (watch g0 t.(t_events))
  | reach_exec clean k s w nf g c t : reachable E task w0 nf0 g0 clean k s w nf g -> allowed E c s -> spec (exec c s) w nf = Some t ->
      reachable E task w0 nf0 g0 (clean && negb (lossy c s t.(t_result).2)) (S k) t.(t_result).2 t.(t_world) t.(t_next) (watch g t.(t_events)).

Definition nothing_lost : lost := mk_lost [] [].

(** A driver that is running, in which the client owns nothing yet. *)
Definition idle (E : env) (w : world) (g : monitor) : Prop := owns E (lost_only 0 nothing_lost) w g /\ may_test E w.

Section runs.
Context (E : env) (task : Z) (w0 : world) (nf0 : Z) (g0 : monitor) (Hidle : idle E w0 g0).
Implicit Types (w : world) (nf : Z) (g : monitor) (s : Surface) (L : lost).

Lemma started_ready : ready (started E).
Proof. unfold ready, started. destruct (needs_test E) eqn:En; [by intros _|]. intros H. congruence. Qed.

Lemma loses_clean c s s' L : loses c s s' nothing_lost L -> lossy c s s' = false -> L = nothing_lost.
Proof.
  intros [[->|(l & -> & Hg & Hs)]|(cecl & apple & -> & Hc & He & _)] Hl; [done| |].
  - unfold lossy in Hl. by rewrite Hg, Hs in Hl.
  - unfold lossy in Hl. apply orb_false_iff in Hl as [_ Hl]. rewrite He in Hl. apply andb_false_iff in Hl as [Hl|Hl]; [|done].
    apply negb_false_iff, Z.eqb_eq in Hl. done.
Qed.

Lemma reachable_Inv clean k s w nf g : reachable E task w0 nf0 g0 clean k s w nf g -> Z.of_nat k < 2 ^ 27 ->
  exists L, Inv (started E) (1 + 6 * Z.of_nat k) L s w g /\ (clean = true -> L = nothing_lost).
Proof.
  induction 1 as [t Et Er|clean k s w nf g c t Hr IH Ha Et]; intros Hk.
  - destruct Hidle as [Ho Ht]. destruct (wp_start E 0 task (fun r w nf g => Inv (started E) 1 nothing_lost r.2 w g) w0 nf0 g0 Ho ltac:(done) Ht) as (t' & Et' & HI).
    { intros s w' nf' g' HI. exact HI. }
    rewrite Et in Et'. injection Et' as <-. exists nothing_lost. by split.
  - destruct IH as (L & HI & HL); [lia|].
    destruct (Inv_exec (started E) c _ L s (fun r w nf g => exists L', Inv (started E) (1 + 6 * Z.of_nat (S k)) L' r.2 w g /\ loses c s r.2 L L') w nf g HI)
      as (t' & Et' & L' & HI' & HL'); [| |lia| |].
    + destruct c; try done. unfold allowed, source_alive in *. destruct src; try done. intros d Hd. specialize (Ha d Hd).
      unfold started. by destruct (needs_test E).
    + apply started_ready.
    + intros rc s' L' w' nf' g' HI' HL'. exists L'. split; [|done]. by replace (1 + 6 * Z.of_nat (S k)) with (1 + 6 * Z.of_nat k + 6) by lia.
    + rewrite Et in Et'. injection Et' as <-. exists L'. split; [done|]. intros Hc. apply andb_true_iff in Hc as [Hc Hl]. rewrite (HL Hc) in HL'.
      eapply loses_clean; [exact HL'|]. by apply negb_true_iff.
Qed.

(** ** Theorems *)

(** C4: no method of a window surface fails to end, uses an object that is gone, releases or
    completes one twice, or follows a null pointer: from every state that [start] and
    methods lead to, every method that is allowed there ends, and memory (regions of the
    device, pages of descriptors the device was given, blocks of video memory) has been
    given back only at points at which every transfer was known to be over. *)
Theorem surface_methods_safe clean k s w nf g c : reachable E task w0 nf0 g0 clean k s w nf g -> Z.of_nat k < 2 ^ 27 -> allowed E c s ->
  exists t, spec (exec c s) w nf = Some t /\ (watch g t.(t_events)).(g_safe) = true.
Proof.
  intros Hr Hk Ha. destruct (reachable_Inv _ _ _ _ _ _ Hr Hk) as (L & HI & _).
  destruct (Inv_exec (started E) c _ L s (fun _ _ _ g => g.(g_safe) = true) w nf g HI) as (t & Et & Hs); [|apply started_ready|lia| |by exists t].
  - destruct c; try done. unfold allowed, source_alive in *. destruct src; try done. intros d Hd. specialize (Ha d Hd). unfold started. by destruct (needs_test E).
  - intros rc s' L' w' nf' g' [_ (blk & fs & [Ho _ _ _ _ _ _])] _. by destruct (ow_safe _ _ _ _ Ho).
Qed.

(** The objects of the kernel that a surface holds. *)
Definition objects s : list Z :=
  opt_ref md_ref s.(m_backing).(bk_vtb).(md) (opt_ref mp_ref s.(m_backing).(bk_map0) (opt_ref mp_ref s.(m_backing).(bk_map1) (opt_ref id s.(m_last_shape) []))).
Definition targets s : list Z := valid_ids s.(m_gl).(gl_color_sid) ++ valid_ids s.(m_gl).(gl_depth_sid).

(** C7: the fields of a surface are the truth.  In every reachable state, the surfaces
    that exist on the device are the render targets in its fields, the master surface
    and those of other clients; the live objects of the kernel are the descriptor, the
    mappings and the shape in its fields, and those of others; exactly its descriptor is
    prepared; it holds a share of the master surface exactly when its flag says so; it
    has render targets exactly in OpenGL mode, a region exactly when it has a
    descriptor, and an overlay only in video mode. *)
Theorem surface_holdings clean k s w nf g : reachable E task w0 nf0 g0 clean k s w nf g -> Z.of_nat k < 2 ^ 27 ->
  g.(g_sids) = list_to_set (targets s ++ master_ids w.(w_accel) ++ E.(e_surfaces)) /\
  w.(w_client).(k_live) = list_to_set (objects s) ∪ E.(e_refs) /\ NoDup (objects s) /\
  w.(w_client).(k_prepared) = list_to_set_disj (opt_ref md_ref s.(m_backing).(bk_vtb).(md) []) ⊎ E.(e_prep) /\
  w.(w_accel).(m_master_surface_retain_count) = (if s.(bHaveMasterSurface) then 1 else 0) + E.(e_masters) /\
  isIdValid s.(m_gl).(gl_color_sid) = s.(bGLMode) /\ isIdValid s.(m_backing).(bk_vtb).(gmr_id) = is_some s.(m_backing).(bk_vtb).(md) /\
  (enabled s = true -> s.(bVideoMode) = true).
Proof using Hidle.
  intros Hr Hk. destruct (reachable_Inv _ _ _ _ _ _ Hr Hk) as (L & [[W1 W2 W3 W4 W5] (blk & fs & [[Ha _ Hkn _ _ _] B1 _ _ _ _ _])] & _).
  assert (forall {A} (f : env -> A), f (tested E) = f E -> f (started E) = f E) as HE by (intros A f Hf; unfold started; by case_match).
  destruct Ha as [_ _ _ _ [A5 _] _ A7]. destruct Hkn as [K1 K2 _ _ K5 _].
  rewrite (HE _ e_surfaces eq_refl) in A7. rewrite (HE _ e_refs eq_refl) in K1. rewrite (HE _ e_prep eq_refl) in K5. rewrite (HE _ e_masters eq_refl) in A5.
  repeat split; done.
Qed.

(** What the driver is like without the client. *)
Record as_before (E : env) (w : world) (g : monitor) : Prop := {
  ab_sids : g.(g_sids) = list_to_set (master_ids w.(w_accel) ++ E.(e_surfaces));
  ab_ids : exists n h, ids_ok E.(e_limit) n w.(w_accel).(m_ids) h /\ h.(h_surfaces) ≡ₚ master_ids w.(w_accel) ++ E.(e_surfaces) /\
    h.(h_streams) ≡ₚ E.(e_streams) /\ h.(h_gmrs) ≡ₚ E.(e_gmrs);
  ab_masters : w.(w_accel).(m_master_surface_retain_count) = E.(e_masters);
  ab_vram : exists F, inv w.(w_vram) F E.(e_blocks);
  ab_live : w.(w_client).(k_live) = E.(e_refs);
  ab_prep : w.(w_client).(k_prepared) = E.(e_prep);
}.

(** C6: closing a surface gives back everything: after [clientClose], in any state that
    methods lead to without loss, the surfaces of the device, the ids of surfaces,
    regions and streams, the shares of the master surface, the blocks of video memory,
    the objects of the kernel and the prepared descriptors are those of the other
    clients; and none of them was given back too early. *)
Theorem surface_close_gives_back k s w nf g : reachable E task w0 nf0 g0 true k s w nf g -> Z.of_nat k < 2 ^ 27 ->
  exists t, spec (clientClose s) w nf = Some t /\ t.(t_result).1 = kIOReturnSuccess /\
    as_before E t.(t_world) (watch g t.(t_events)) /\ (watch g t.(t_events)).(g_safe) = true.
Proof using Hidle.
  intros Hr Hk. destruct (reachable_Inv _ _ _ _ _ _ Hr Hk) as (L & HI & HL). specialize (HL eq_refl) as ->.
  destruct (wp_clientClose (started E) _ nothing_lost s (fun r w _ g => r.1 = kIOReturnSuccess /\ as_before E w g /\ g.(g_safe) = true) w nf g HI) as (t & Et & H1 & H2 & H3);
    [lia| |by exists t].
  intros s' w' nf' g' [[(h & Hi & P1 & P2 & P3) _ _ _ [A5 _] _ A7] (_ & _ & F & V) [K1 _ _ _ K5 _] _ _ [Hsf _]] _. split; [done|]. split; [|done].
  assert (forall {A} (f : env -> A), f (tested E) = f E -> f (started E) = f E) as HE by (intros A f Hf; unfold started; by case_match).
  rewrite (HE _ e_surfaces eq_refl) in A7, P1. rewrite (HE _ e_refs eq_refl) in K1. rewrite (HE _ e_prep eq_refl) in K5. rewrite (HE _ e_masters eq_refl) in A5.
  rewrite (HE _ e_limit eq_refl) in Hi. rewrite (HE _ e_streams eq_refl) in P2. rewrite (HE _ e_gmrs eq_refl) in P3. rewrite (HE _ e_blocks eq_refl) in V.
  split; try done.
  - by eexists _, h.
  - by exists F.
  - rewrite K1. apply (left_id_L ∅ (∪)).
  - rewrite K5. apply (left_id_L ∅ (⊎)).
Qed.
End runs.

(** ** The hypotheses can be met *)

(** A driver with 3D and no screen objects; every answer of the kernel is 1. *)
Definition demo_client : kernel :=
  mk_kernel (fun _ => 1) 0 100 ∅ ∅ (mk_mode 0 0x300000 1024 768 4096 0x10000) kIOReturnNotFound [].
Definition demo_accel3d : Accel := mk_Accel true true false (start_ids 64) 0 SVGA_ID_INVALID (u32 (-1)) (u32 (-1)) tracker_init 0 0.
Definition demo_start : world := mk_world demo_accel3d demo (fun _ => 0) demo_client.
Definition demo_env : env := mk_env 64 true false 0 [] 0 [] [] [] 0x10000 ∅ ∅ false.
Definition demo_monitor : monitor := mk_monitor ∅ ∅ false [] true.

Lemma demo_idle_client : idle demo_env demo_start demo_monitor.
Proof.
  destruct demo_inv as [F HF]. split; [|intros _; right; done]. split; cbn; try done.
  - split; try done. eexists. split; [apply (start_ids_ok 64); lia|done].
  - split; [done|]. split; [done|]. by exists F.
  - split; try done. constructor.
Qed.

(** The state after a list of methods. *)
Fixpoint after_ops (ops : list surface_op) (clean : bool) (s : Surface) (w : world) (nf : Z) (g : monitor) : option (bool * Surface * world * Z * monitor) :=
  match ops with
  | [] => Some (clean, s, w, nf, g)
  | c :: ops =>
      match spec (exec c s) w nf with
      | Some t => after_ops ops (clean && negb (lossy c s t.(t_result).2)) t.(t_result).2 t.(t_world) t.(t_next) (watch g t.(t_events))
      | None => None
      end
  end.
Definition all_allowed (ops : list surface_op) : bool :=
  forallb (fun c => match c with AttachGL _ | ResizeGL | TouchRenderTarget | CopyFromSurface (Other _) _ _ _ _ => false | _ => true end) ops.

Lemma after_ops_reachable E task w0 nf0 g0 ops : forall clean k s w nf g x, all_allowed ops = true ->
  reachable E task w0 nf0 g0 clean k s w nf g -> after_ops ops clean s w nf g = Some x ->
  reachable E task w0 nf0 g0 x.1.1.1.1 (k + length ops) x.1.1.1.2 x.1.1.2 x.1.2 x.2.
Proof.
  induction ops as [|c ops IH]; intros clean k s w nf g x Ha Hr Hx; cbn in *.
  - injection Hx as <-. by rewrite Nat.add_0_r.
  - apply andb_true_iff in Ha as [Hc Ha]. destruct (spec (exec c s) w nf) as [t|] eqn:Et; [|done]. rewrite Nat.add_succ_r, <-Nat.add_succ_l.
    eapply IH; [done| |exact Hx]. eapply reach_exec; [done| |done]. destruct c; try done. by destruct src.
Qed.

Definition demo_shape : IOAccelDeviceRegion := mk_region 1 (mk_bounds 10 20 64 32) [mk_bounds 10 20 64 32].
Definition demo_methods : list surface_op :=
  [SetIDMode 5 0x24; SetShape 0xD 0 (Some demo_shape) 20; WriteLock (Some 88); WriteUnlock; Flush 1; ReadLock (Some 88); ReadUnlock;
   ContextSetSurface CECL_FOURCC_UYVY kIO2vuyPixelFormat; ContextLockMemory 7; ContextUnlockMemory; FlushVideo;
   SetShape 0xD 0 (Some demo_shape) 20; ContextSetSurface 0 0; Flush 1].

Definition runs_from (task : Z) (w0 : world) (nf0 : Z) (g0 : monitor) (ops : list surface_op) : option (bool * Surface * world * Z * monitor) :=
  match spec (start (initWithTask task)) w0 nf0 with
  | Some t => if t.(t_result).1 then after_ops ops true t.(t_result).2 t.(t_world) t.(t_next) (watch g0 t.(t_events)) else None
  | None => None
  end.

Lemma runs_reachable E task w0 nf0 g0 ops x : all_allowed ops = true -> runs_from task w0 nf0 g0 ops = Some x ->
  reachable E task w0 nf0 g0 x.1.1.1.1 (length ops) x.1.1.1.2 x.1.1.2 x.1.2 x.2.
Proof.
  intros Ha Hx. unfold runs_from in Hx. destruct (spec _ _ _) as [t|] eqn:Et; [|done]. destruct (t.(t_result).1) eqn:Er; [|done].
  apply (after_ops_reachable E task w0 nf0 g0 ops true 0 t.(t_result).2 t.(t_world) t.(t_next) (watch g0 t.(t_events))); [done| |done]. by apply reach_start.
Qed.

Lemma demo_runs_some : exists x, runs_from 7 demo_start 1 demo_monitor demo_methods = Some x /\ x.1.1.1.1 = true.
Proof.
  assert ((x ← runs_from 7 demo_start 1 demo_monitor demo_methods; Some x.1.1.1.1) = Some true) as H by (vm_compute; reflexivity).
  destruct (runs_from 7 demo_start 1 demo_monitor demo_methods) as [x|]; [|done]. exists x. split; [done|]. by injection H.
Qed.

Lemma demo_reached : exists s w nf g, reachable demo_env 7 demo_start 1 demo_monitor true 14 s w nf g.
Proof.
  destruct demo_runs_some as (x & Hx & Hc). pose proof (runs_reachable demo_env 7 demo_start 1 demo_monitor demo_methods x eq_refl Hx) as Hr.
  rewrite Hc in Hr. by eexists _, _, _, _.
Qed.

Lemma surface_methods_safe_witness : exists s w nf g t, reachable demo_env 7 demo_start 1 demo_monitor true 14 s w nf g /\
  spec (exec (WriteLock (Some 88)) s) w nf = Some t /\ (watch g t.(t_events)).(g_safe) = true.
Proof.
  destruct demo_reached as (s & w & nf & g & Hr).
  destruct (surface_methods_safe demo_env 7 demo_start 1 demo_monitor demo_idle_client true 14 s w nf g (WriteLock (Some 88)) Hr ltac:(done) I) as (t & Et & Hs).
  exists s, w, nf, g, t. done.
Defined.

Lemma surface_holdings_witness : exists s w nf g, reachable demo_env 7 demo_start 1 demo_monitor true 14 s w nf g /\
  w.(w_client).(k_live) = list_to_set (objects s) ∪ ∅.
Proof.
  destruct demo_reached as (s & w & nf & g & Hr). exists s, w, nf, g. split; [exact Hr|].
  apply (surface_holdings demo_env 7 demo_start 1 demo_monitor demo_idle_client true 14 s w nf g Hr ltac:(done)).
Defined.

Lemma surface_close_gives_back_witness : exists s w nf g t, reachable demo_env 7 demo_start 1 demo_monitor true 14 s w nf g /\
  spec (clientClose s) w nf = Some t /\ t.(t_result).1 = kIOReturnSuccess /\
  as_before demo_env t.(t_world) (watch g t.(t_events)) /\ (watch g t.(t_events)).(g_safe) = true.
Proof.
  destruct demo_reached as (s & w & nf & g & Hr).
  destruct (surface_close_gives_back demo_env 7 demo_start 1 demo_monitor demo_idle_client 14 s w nf g Hr ltac:(done)) as (t & H).
  exists s, w, nf, g, t. split; [exact Hr|exact H].
Defined.
