(* ===== verification/SurfaceShow.v ===== *)
(** What a flush shows.  The commands that a window surface sends change surfaces of the
    device and its screens; here is their meaning as the headers describe it, and the
    theorem that every way to the screen shows the pixels of the backing. *)

From S2P Require Import Prelude IOKit Layout SvgaReg SvgaCmd Svga3dReg Svga3d AccelIds AccelBlit Accel AccelProofs AccelSpec.
From S2P Require Import ShaderCache Provider AccelGmr Kernel Transfer Surface SurfaceSpec.
From stdpp Require Import gmap gmultiset.
From stdpp Require Import list_relations list.

#[local] Open Scope Z_scope.

Local Abbreviation prog := (prog kernel).
Local Abbreviation world := (world kernel).

(** ** The display *)

(** A surface has a format, and a colour at every place. *)
Record image := mk_image { im_format : Z; im_pixel : Z -> Z -> Z }.

(** Surfaces by id, the colours of the screens, and the guest image of screen blits. *)
Record display := mk_display { d_surfaces : gmap Z image; d_screen : Z -> Z -> Z -> Z; d_gmrfb : SVGAGuestPtr * Z }.

Definition in_box (x y w h X Y : Z) : bool := (x <=? X) && (X <? x + w) && (y <=? Y) && (Y <? y + h).

(** Areas are drawn one after the other. *)
Definition draw {B} (inside : B -> Z -> Z -> bool) (colour : B -> Z -> Z -> Z) (old : Z -> Z -> Z) (areas : list B) : Z -> Z -> Z :=
  foldl (fun im b X Y => if inside b X Y then colour b X Y else im X Y) old areas.

Lemma draw_spec {B} (inside : B -> Z -> Z -> bool) colour c old areas X Y :
  (forall b, b ∈ areas -> inside b X Y = true -> colour b X Y = c) ->
  draw inside colour old areas X Y = if existsb (fun b => inside b X Y) areas then c else old X Y.
Proof.
  revert old. induction areas as [|b l IH]; intros old Hc; [done|]. cbn [existsb]. change (draw inside colour old (b :: l) X Y) with
    (draw inside colour (fun X Y => if inside b X Y then colour b X Y else old X Y) l X Y). rewrite IH by (intros; apply Hc; [by right|done]).
  destruct (existsb _ l); [by rewrite orb_true_r|]. rewrite orb_false_r. destruct (inside b X Y) eqn:E; [|done]. apply Hc; [by left|done].
Qed.

Section display.
(** The colour of a pixel of a format in a region of guest memory, and the bytes of a
    pixel: format, region, offset. *)
Context (pixel : Z -> Z -> Z -> Z) (bytes : Z -> Z).

Definition guest_pixel (format : Z) (p : SVGAGuestPtr) (pitch x y : Z) : Z :=
  pixel format p.(SVGAGuestPtr_gmrId) (p.(SVGAGuestPtr_offset) + y * pitch + x * bytes format).

Definition box_inside (b : SVGA3dCopyBox) : Z -> Z -> bool :=
  in_box b.(SVGA3dCopyBox_x) b.(SVGA3dCopyBox_y) b.(SVGA3dCopyBox_w) b.(SVGA3dCopyBox_h).
Definition box_source (f : Z -> Z -> Z) (b : SVGA3dCopyBox) (X Y : Z) : Z :=
  f (X - b.(SVGA3dCopyBox_x) + b.(SVGA3dCopyBox_srcx)) (Y - b.(SVGA3dCopyBox_y) + b.(SVGA3dCopyBox_srcy)).

Definition on_image (sid : Z) (f : image -> image) (d : display) : display :=
  mk_display (alter f sid d.(d_surfaces)) d.(d_screen) d.(d_gmrfb).
Definition on_screen (id : Z) (f : (Z -> Z -> Z) -> Z -> Z -> Z) (d : display) : display :=
  mk_display d.(d_surfaces) (fun i => if i =? id then f (d.(d_screen) i) else d.(d_screen) i) d.(d_gmrfb).

(** SVGA_3D_CMD_SURFACE_DMA, to the surface. *)
Definition show_dma (a : SVGA3dCmdSurfaceDMA) (boxes : list SVGA3dCopyBox) : display -> display :=
  let g := a.(SVGA3dCmdSurfaceDMA_guest) in
  if a.(SVGA3dCmdSurfaceDMA_transfer) =? SVGA3D_WRITE_HOST_VRAM then
    on_image a.(SVGA3dCmdSurfaceDMA_host).(SVGA3dSurfaceImageId_sid) (fun i =>
      mk_image i.(im_format) (draw box_inside (box_source (guest_pixel i.(im_format) g.(SVGA3dGuestImage_ptr) g.(SVGA3dGuestImage_pitch))) i.(im_pixel) boxes))
  else id.

(** SVGA_3D_CMD_SURFACE_COPY *)
Definition show_copy (a : SVGA3dCmdSurfaceCopy) (boxes : list SVGA3dCopyBox) (d : display) : display :=
  match d.(d_surfaces) !! a.(SVGA3dCmdSurfaceCopy_src).(SVGA3dSurfaceImageId_sid) with
  | None => d
  | Some src =>
      on_image a.(SVGA3dCmdSurfaceCopy_dest).(SVGA3dSurfaceImageId_sid)
        (fun i => mk_image i.(im_format) (draw box_inside (box_source src.(im_pixel)) i.(im_pixel) boxes)) d
  end.

(** SVGA_3D_CMD_PRESENT, to the first screen. *)
Definition show_present (sid : Z) (rects : list SVGA3dCopyRect) (d : display) : display :=
  match d.(d_surfaces) !! sid with
  | None => d
  | Some src =>
      on_screen 0 (fun im => draw (fun r => in_box r.(SVGA3dCopyRect_x) r.(SVGA3dCopyRect_y) r.(SVGA3dCopyRect_w) r.(SVGA3dCopyRect_h))
        (fun r X Y => src.(im_pixel) (X - r.(SVGA3dCopyRect_x) + r.(SVGA3dCopyRect_srcx)) (Y - r.(SVGA3dCopyRect_y) + r.(SVGA3dCopyRect_srcy))) im rects) d
  end.

(** SVGA_CMD_BLIT_GMRFB_TO_SCREEN: the guest image has 32 bits per pixel. *)
Definition rect_inside (r : SVGASignedRect) (X Y : Z) : bool :=
  (r.(SVGASignedRect_left) <=? X) && (X <? r.(SVGASignedRect_right)) && (r.(SVGASignedRect_top) <=? Y) && (Y <? r.(SVGASignedRect_bottom)).
Definition show_blit (a : SVGAFifoCmdBlitGMRFBToScreen) (d : display) : display :=
  let r := a.(SVGAFifoCmdBlitGMRFBToScreen_destRect) in
  let o := a.(SVGAFifoCmdBlitGMRFBToScreen_srcOrigin) in
  on_screen a.(SVGAFifoCmdBlitGMRFBToScreen_destScreenId) (fun im => draw rect_inside
    (fun r X Y => guest_pixel SVGA3D_X8R8G8B8 d.(d_gmrfb).1 d.(d_gmrfb).2 (X - r.(SVGASignedRect_left) + o.(SVGASignedPoint_x))
                    (Y - r.(SVGASignedRect_top) + o.(SVGASignedPoint_y))) im [r]) d.

(** SVGA_3D_CMD_BLIT_SURFACE_TO_SCREEN, for rectangles of one size; clip rectangles are
    relative to the destination. *)
Definition show_blit_surface (a : SVGA3dCmdBlitSurfaceToScreen) (clips : list SVGASignedRect) (d : display) : display :=
  let s := a.(SVGA3dCmdBlitSurfaceToScreen_srcRect) in
  let r := a.(SVGA3dCmdBlitSurfaceToScreen_destRect) in
  match d.(d_surfaces) !! a.(SVGA3dCmdBlitSurfaceToScreen_srcImage).(SVGA3dSurfaceImageId_sid) with
  | None => d
  | Some src =>
      on_screen a.(SVGA3dCmdBlitSurfaceToScreen_destScreenId) (fun im => draw
        (fun c X Y => rect_inside r X Y && rect_inside c (X - r.(SVGASignedRect_left)) (Y - r.(SVGASignedRect_top)))
        (fun c X Y => src.(im_pixel) (X - r.(SVGASignedRect_left) + s.(SVGASignedRect_left)) (Y - r.(SVGASignedRect_top) + s.(SVGASignedRect_top))) im clips) d
  end.

Definition show (d : display) (e : event) : display :=
  match e with
  | Sent (In3D (SurfaceDefine a _)) =>
      mk_display (<[a.(SVGA3dCmdDefineSurface_sid) := mk_image a.(SVGA3dCmdDefineSurface_format) (fun _ _ => 0)]> d.(d_surfaces)) d.(d_screen) d.(d_gmrfb)
  | Sent (In3D (SurfaceDestroy a)) => mk_display (delete a.(SVGA3dCmdDestroySurface_sid) d.(d_surfaces)) d.(d_screen) d.(d_gmrfb)
  | Sent (In3D (SurfaceDMA a boxes _)) => show_dma a boxes d
  | Sent (In3D (SurfaceCopy a boxes)) => show_copy a boxes d
  | Sent (In3D (Present a rects)) => show_present a.(SVGA3dCmdPresent_sid) rects d
  | Sent (In3D (BlitSurfaceToScreen a clips)) => show_blit_surface a clips d
  | Sent (In2D (CmdDefineGMRFB a)) => mk_display d.(d_surfaces) d.(d_screen) (a.(SVGAFifoCmdDefineGMRFB_ptr), a.(SVGAFifoCmdDefineGMRFB_bytesPerLine))
  | Sent (In2D (CmdBlitGMRFBToScreen a)) => show_blit a d
  | _ => d
  end.
Definition shown (d : display) (es : list event) : display := foldl show d es.

(** ** Programs and the display *)

Definition shows {A} (p : prog A) (Q : A -> world -> Z -> display -> Prop) (w : world) (nf : Z) (d : display) : Prop :=
  exists t, spec p w nf = Some t /\ Q t.(t_result) t.(t_world) t.(t_next) (shown d t.(t_events)).

Lemma shows_ret {A} (a : A) Q w nf d : Q a w nf d -> shows (mret a) Q w nf d.
Proof. intros H. eexists. by split. Qed.

Lemma shows_bind {A B} (p : prog A) (f : A -> prog B) Q w nf d : shows p (fun a => shows (f a) Q) w nf d -> shows (p ≫= f) Q w nf d.
Proof.
  intros (t & Et & t' & Et' & HQ). unfold shown in HQ. rewrite <-foldl_app in HQ. unfold shows. rewrite spec_bind, Et. cbn [mbind option_bind].
  rewrite Et'. eexists. by split.
Qed.

Lemma shows_state {B : Set} (f : world -> B * world) (Q : B -> _) w nf d : Q (f w).1 (f w).2 nf d -> shows (state f) Q w nf d.
Proof. unfold shows. cbn. destruct (f w) as [b w']. intros H. eexists. by split. Qed.

Lemma shows_ask op Q w nf d :
  let o := accel_spec w.(w_accel) nf op in
  Q o.(o_result) (set_accel o.(o_accel) w) o.(o_next) (shown d (Sent <$> o.(o_cmds))) -> shows (ask op) Q w nf d.
Proof. cbv zeta. intros H. eexists. split; [reflexivity|]. cbn [t_result t_world t_next t_events]. by rewrite app_nil_r. Qed.

(** ** Regions *)

Definition in_rect (r : IOAccelBounds) : Z -> Z -> bool := in_box r.(b_x) r.(b_y) r.(b_w) r.(b_h).
Definition in_rects (l : list IOAccelBounds) (X Y : Z) : bool := existsb (fun r => in_rect r X Y) l.

(** A region on the screen: its rectangles are within its bounds. *)
Definition on_the_screen (rgn : IOAccelDeviceRegion) : Prop :=
  let b := rgn.(rgn_bounds) in
  0 <= b.(b_x) /\ 0 <= b.(b_y) /\ b.(b_x) < 2 ^ 15 /\ b.(b_y) < 2 ^ 15 /\ 0 <= b.(b_w) < 2 ^ 15 /\ 0 <= b.(b_h) < 2 ^ 15 /\
  Forall (fun r => b.(b_x) <= r.(b_x) /\ b.(b_y) <= r.(b_y) /\ 0 <= r.(b_w) /\ 0 <= r.(b_h) /\
                   r.(b_x) + r.(b_w) <= b.(b_x) + b.(b_w) /\ r.(b_y) + r.(b_h) <= b.(b_y) + b.(b_h)) (rects_of (Some rgn)).

Lemma existsb_fmap {B C} (f : B -> C) (h : C -> bool) l : existsb h (f <$> l) = existsb (fun x => h (f x)) l.
Proof. induction l as [|x l IH]; [done|]. cbn. by rewrite IH. Qed.

Lemma existsb_ext' {B} (f h : B -> bool) l : (forall x, x ∈ l -> f x = h x) -> existsb f l = existsb h l.
Proof. induction l as [|x l IH]; intros E; [done|]. cbn. rewrite E, IH; [done|intros; apply E; by right|by left]. Qed.

Lemma u32_id a : 0 <= a < 2 ^ 32 -> u32 a = a.
Proof. apply wrap_small. Qed.

(** Boxes of a transfer between places that are moved by two vectors. *)
Lemma draw_boxes extra rects (f old : Z -> Z -> Z) X Y :
  Forall (fun r => 0 <= r.(b_x) + extra.(dstDeltaX) < 2 ^ 32 /\ 0 <= r.(b_y) + extra.(dstDeltaY) < 2 ^ 32 /\ 0 <= r.(b_w) < 2 ^ 32 /\ 0 <= r.(b_h) < 2 ^ 32 /\
                   0 <= r.(b_x) + extra.(srcDeltaX) < 2 ^ 32 /\ 0 <= r.(b_y) + extra.(srcDeltaY) < 2 ^ 32) rects ->
  draw box_inside (box_source f) old (copy_box extra <$> rects) X Y =
  if in_rects rects (X - extra.(dstDeltaX)) (Y - extra.(dstDeltaY))
  then f (X - extra.(dstDeltaX) + extra.(srcDeltaX)) (Y - extra.(dstDeltaY) + extra.(srcDeltaY)) else old X Y.
Proof.
  intros Hall. rewrite Forall_forall in Hall.
  rewrite (draw_spec _ _ (f (X - extra.(dstDeltaX) + extra.(srcDeltaX)) (Y - extra.(dstDeltaY) + extra.(srcDeltaY)))).
  - rewrite existsb_fmap. erewrite existsb_ext'; [done|]. intros r Hr. destruct (Hall r Hr) as (H1 & H2 & H3 & H4 & _).
    unfold box_inside, in_rect, in_box, copy_box. cbn. rewrite !u32_id by lia. lia.
  - intros b Hb _. apply list_elem_of_fmap in Hb as (r & -> & Hr). destruct (Hall r Hr) as (H1 & H2 & _ & _ & H5 & H6).
    unfold box_source, copy_box. cbn. rewrite !u32_id by lia. f_equal; lia.
Qed.

Lemma draw_present rects (f old : Z -> Z -> Z) X Y : Forall (fun r => 0 <= r.(b_x) < 2 ^ 32 /\ 0 <= r.(b_y) < 2 ^ 32 /\ 0 <= r.(b_w) < 2 ^ 32 /\ 0 <= r.(b_h) < 2 ^ 32) rects ->
  draw (fun r => in_box r.(SVGA3dCopyRect_x) r.(SVGA3dCopyRect_y) r.(SVGA3dCopyRect_w) r.(SVGA3dCopyRect_h))
    (fun r X Y => f (X - r.(SVGA3dCopyRect_x) + r.(SVGA3dCopyRect_srcx)) (Y - r.(SVGA3dCopyRect_y) + r.(SVGA3dCopyRect_srcy))) old
    (copy_rect3d (mk_ExtraInfo 0 0 0 0 0 0 0) <$> rects) X Y =
  if in_rects rects X Y then f X Y else old X Y.
Proof.
  intros Hall. rewrite Forall_forall in Hall. rewrite (draw_spec _ _ (f X Y)).
  - rewrite existsb_fmap. erewrite existsb_ext'; [done|]. intros r Hr. destruct (Hall r Hr) as (H1 & H2 & H3 & H4).
    unfold in_rect, in_box, copy_rect3d. cbn. rewrite !Z.add_0_r, !u32_id by lia. done.
  - intros b Hb _. apply list_elem_of_fmap in Hb as (r & -> & Hr). destruct (Hall r Hr) as (H1 & H2 & _). unfold copy_rect3d. cbn.
    rewrite !Z.add_0_r, !u32_id by lia. f_equal; lia.
Qed.

(** One after the other, blits of rectangles to a screen. *)
Lemma show_blits screen extra rects d X Y i : Forall (fun r => 0 <= r.(b_x) < 2 ^ 16 /\ 0 <= r.(b_y) < 2 ^ 16 /\ 0 <= r.(b_w) < 2 ^ 16 /\ 0 <= r.(b_h) < 2 ^ 16 /\
                   0 <= r.(b_x) + extra.(srcDeltaX) < 2 ^ 16 /\ 0 <= r.(b_y) + extra.(srcDeltaY) < 2 ^ 16) rects ->
  extra.(dstDeltaX) = 0 -> extra.(dstDeltaY) = 0 ->
  d_screen (shown d (Sent <$> gmrfb extra :: (blit_to screen extra <$> rects))) i X Y =
  if (i =? screen) && in_rects rects X Y
  then guest_pixel SVGA3D_X8R8G8B8 (gmrfb_ptr extra) (u32 extra.(mem_pitch)) (X + extra.(srcDeltaX)) (Y + extra.(srcDeltaY)) else d_screen d i X Y.
Proof.
  intros Hall E1 E2. rewrite fmap_cons. unfold shown. cbn [foldl]. set (d1 := show d (Sent (gmrfb extra))).
  assert (d_gmrfb d1 = (gmrfb_ptr extra, u32 extra.(mem_pitch))) as Eg by done. change (d_screen d i X Y) with (d_screen d1 i X Y). clearbody d1.
  revert d1 Eg. induction Hall as [|r l Hr Hall IH]; intros d1 Eg; [cbn; by rewrite andb_false_r|]. cbn [fmap list_fmap foldl in_rects existsb].
  rewrite IH by done. change (existsb (fun r => in_rect r X Y) l) with (in_rects l X Y).
  destruct ((i =? screen) && in_rects l X Y) eqn:Ein.
  - apply andb_true_iff in Ein as [-> ->]. by rewrite orb_true_r.
  - cbn [show blit_to show_blit on_screen d_screen]. unfold show_blit, on_screen, draw. cbn [d_screen foldl SVGAFifoCmdBlitGMRFBToScreen_destRect
      SVGAFifoCmdBlitGMRFBToScreen_srcOrigin SVGAFifoCmdBlitGMRFBToScreen_destScreenId]. destruct (i =? screen); [|done]. cbn [andb] in *. rewrite Ein, orb_false_r.
    assert (rect_inside (convert_rect r (Some (dst_delta extra))) X Y = in_rect r X Y) as ->.
    { unfold rect_inside, convert_rect, in_rect, in_box, dst_delta. cbn. rewrite E1, E2, !Z.add_0_r. rewrite (s32_small (b_x r)), (s32_small (b_y r)), !s32_small by lia. lia. }
    destruct (in_rect r X Y); [|done]. rewrite Eg. cbn [fst snd]. unfold origin, convert_rect, src_delta, dst_delta. cbn.
    rewrite E1, E2, !Z.add_0_r. rewrite (s32_small (b_x r)), (s32_small (b_y r)) by lia. rewrite !s32_small by lia. f_equal; lia.
Qed.

Lemma s32_signed z : - 2 ^ 31 <= z < 2 ^ 31 -> s32 z = z.
Proof.
  intros Hz. destruct (decide (0 <= z)); [apply s32_small; lia|]. unfold swrap. rewrite (wrap_unique 32 z (z + 2 ^ 32) (-1)) by (try split; lia).
  rewrite (proj2 (Z.ltb_ge (z + 2 ^ 32) _)) by lia. lia.
Qed.

(** A surface of the size of a region, blitted to its place on a screen. *)
Lemma show_blit_region screen sid rgn src d X Y i : on_the_screen rgn -> d.(d_surfaces) !! sid = Some src ->
  let dest := convert_rect rgn.(rgn_bounds) None in
  let shift := mk_SVGASignedPoint (s32 (- dest.(SVGASignedRect_left))) (s32 (- dest.(SVGASignedRect_top))) in
  d_screen (show_blit_surface (mk_SVGA3dCmdBlitSurfaceToScreen (image0 sid)
              (convert_rect (mk_bounds 0 0 rgn.(rgn_bounds).(b_w) rgn.(rgn_bounds).(b_h)) None) screen dest)
              ((fun r => convert_rect r (Some shift)) <$> rects_of (Some rgn)) d) i X Y =
  if (i =? screen) && in_rects (rects_of (Some rgn)) X Y then src.(im_pixel) (X - rgn.(rgn_bounds).(b_x)) (Y - rgn.(rgn_bounds).(b_y)) else d_screen d i X Y.
Proof.
  intros (H1 & H2 & H3 & H4 & H5 & H6 & Hall) Hs. cbv zeta. rewrite Forall_forall in Hall. unfold show_blit_surface.
  cbn [SVGA3dCmdBlitSurfaceToScreen_srcImage SVGA3dSurfaceImageId_sid image0]. rewrite Hs. unfold on_screen. cbn [d_screen].
  cbn [SVGA3dCmdBlitSurfaceToScreen_destScreenId]. destruct (i =? screen); [|done]. cbn [andb]. 
  cbn [SVGA3dCmdBlitSurfaceToScreen_destRect SVGA3dCmdBlitSurfaceToScreen_srcRect]. unfold convert_rect. cbn -[draw rects_of].
  rewrite !Z.add_0_r. rewrite (s32_signed (b_x _)), (s32_signed (b_y _)) by lia. rewrite !(s32_signed 0) by lia. rewrite !(s32_signed (- _)) by lia.
  rewrite (draw_spec _ _ (src.(im_pixel) (X - rgn.(rgn_bounds).(b_x)) (Y - rgn.(rgn_bounds).(b_y)))).
  - rewrite existsb_fmap. erewrite existsb_ext'; [reflexivity|]. intros r Hr. destruct (Hall r Hr) as (R1 & R2 & R3 & R4 & R5 & R6). cbn.
    unfold rect_inside, in_rect, in_box. cbn. rewrite (s32_signed (b_x r + _)), (s32_signed (b_y r + _)) by lia. rewrite !s32_signed by lia. lia.
  - intros b _ _. f_equal; lia.
Qed.

(** ** The ways to the screen *)

Section flush.
Context (rgn : IOAccelDeviceRegion) (Hrgn : on_the_screen rgn).
Implicit Types (s : Surface) (w : world) (nf : Z) (d : display).

(** The pixel of the window at a place of the screen, in the backing. *)
Definition window_pixel s (X Y : Z) : Z :=
  guest_pixel s.(m_surfaceFormat) (mk_SVGAGuestPtr s.(m_backing).(bk_vtb).(gmr_id) (u32 (u64 (s.(m_backing).(bk_offset) + s.(m_scale).(sc_reserved2)))))
    (u32 s.(m_scale).(sc_reserved1)) (X - rgn.(rgn_bounds).(b_x)) (Y - rgn.(rgn_bounds).(b_y)).
(** [f] has the pixels of the window in its visible region. *)
Definition has_window s (f : Z -> Z -> Z) : Prop := forall X Y, in_rects (rects_of (Some rgn)) X Y = true -> f X Y = window_pixel s X Y.

Lemma on_the_screen_small : Forall (fun r => 0 <= r.(b_x) < 2 ^ 16 /\ 0 <= r.(b_y) < 2 ^ 16 /\ 0 <= r.(b_w) < 2 ^ 16 /\ 0 <= r.(b_h) < 2 ^ 16 /\
    0 <= r.(b_x) + - rgn.(rgn_bounds).(b_x) < 2 ^ 16 /\ 0 <= r.(b_y) + - rgn.(rgn_bounds).(b_y) < 2 ^ 16) (rects_of (Some rgn)).
Proof using Hrgn. destruct Hrgn as (H1 & H2 & H3 & H4 & H5 & H6 & Hall). eapply Forall_impl; [exact Hall|]. cbn beta. intros r Hr. lia. Qed.

(** A fence means nothing to the display. *)
Lemma shown_fence d cmds nf : shown d (Sent <$> (cmds ++ [In2D (fence_cmd nf)])) = shown d (Sent <$> cmds).
Proof. unfold shown. by rewrite fmap_app, foldl_app. Qed.

Lemma shows_getMaster Q w nf d : Q w.(w_accel).(m_master_surface_id) w nf d -> shows getMasterSurfaceID Q w nf d.
Proof. intros H. apply shows_bind, shows_state. cbn. by apply shows_ret. Qed.

Lemma shows_dma sid rgn' extra Q w nf d : w.(w_accel).(bHaveSVGA3D) = true ->
  Q (kIOReturnSuccess, Some (fence_no nf)) w (u32 (fence_no nf + 1))
    (on_image sid (fun i => mk_image i.(im_format) (draw box_inside (box_source (guest_pixel i.(im_format) (gmrfb_ptr extra) (u32 extra.(mem_pitch)))) i.(im_pixel)
       (copy_box extra <$> rects_of (Some rgn')))) d) ->
  shows (ask (OpSurfaceDMA2D sid SVGA3D_WRITE_HOST_VRAM (Some rgn') (Some extra) true)) Q w nf d.
Proof. intros H3 HQ. apply shows_ask. cbn [accel_spec]. rewrite H3. unfold sends_fence. cbn [o_result o_accel o_next o_cmds]. rewrite shown_fence. by destruct w. Qed.

Lemma on_image_lookup sid f d i : d.(d_surfaces) !! sid = Some i -> (on_image sid f d).(d_surfaces) !! sid = Some (f i).
Proof. intros E. cbn. by rewrite lookup_alter_eq, E. Qed.

(** The boxes of a transfer from the backing to the place of the window. *)
Lemma draw_window s old X Y : let extra := backing_extra s (- rgn.(rgn_bounds).(b_x)) (- rgn.(rgn_bounds).(b_y)) 0 0 in
  in_rects (rects_of (Some rgn)) X Y = true ->
  draw box_inside (box_source (guest_pixel s.(m_surfaceFormat) (gmrfb_ptr extra) (u32 extra.(mem_pitch)))) old (copy_box extra <$> rects_of (Some rgn)) X Y = window_pixel s X Y.
Proof using Hrgn.
  cbv zeta. intros Hin. rewrite draw_boxes; [|eapply Forall_impl; [apply on_the_screen_small|]; cbn; lia]. cbn [dstDeltaX dstDeltaY srcDeltaX srcDeltaY backing_extra].
  rewrite !Z.sub_0_r, Hin. unfold window_pixel. f_equal; cbn; lia.
Qed.

Lemma shows_DMAOutDirect s im Q w nf d : s.(m_last_region) = Some rgn -> isBackingValid s = true -> w.(w_accel).(bHaveSVGA3D) = true ->
  d.(d_surfaces) !! w.(w_accel).(m_master_surface_id) = Some im -> im.(im_format) = s.(m_surfaceFormat) ->
  (forall s' nf' d' im', s'.(m_last_region) = Some rgn -> d'.(d_screen) = d.(d_screen) ->
     d'.(d_surfaces) !! w.(w_accel).(m_master_surface_id) = Some im' -> has_window s im'.(im_pixel) -> Q (kIOReturnSuccess, s') w nf' d') ->
  shows (DMAOutDirect true s) Q w nf d.
Proof using Hrgn.
  intros Er Eb H3 Em Ef HQ. unfold DMAOutDirect, with_region. rewrite Er, Eb. apply shows_bind, shows_getMaster, shows_bind, shows_dma; [done|]. apply shows_ret. cbn [fst snd ok].
  eapply HQ; [done|done|by apply on_image_lookup|]. intros X Y Hin. cbn [im_pixel]. rewrite Ef. by apply draw_window.
Qed.

Definition with_ids i w : world := set_accel (set_ids i w.(w_accel)) w.

Lemma shows_new_surface s width height Q w nf d : w.(w_accel).(bHaveSVGA3D) = true ->
  (forall i, let sid := (AllocSurfaceID w.(w_accel).(m_ids)).1 in
     Q (Some sid) (with_ids i w) nf (mk_display (<[sid := mk_image s.(m_surfaceFormat) (fun _ _ => 0)]> d.(d_surfaces)) d.(d_screen) d.(d_gmrfb))) ->
  shows (new_surface s width height) Q w nf d.
Proof.
  intros H3 HQ. apply shows_bind. unfold allocSurfaceID. apply shows_state. destruct (AllocSurfaceID _) as [sid i] eqn:Ea. cbn [fst snd] in *. apply shows_bind, shows_ask.
  cbn [accel_spec]. change (bHaveSVGA3D (w_accel (set_accel (set_ids i (w_accel w)) w))) with (bHaveSVGA3D (w_accel w)). rewrite H3. unfold sends. cbn [o_result ok fst].
  apply shows_ret. apply (HQ i).
Qed.

Lemma shows_drop_surface sid Q w nf d : w.(w_accel).(bHaveSVGA3D) = true ->
  (forall i, Q tt (with_ids i w) nf (mk_display (delete sid d.(d_surfaces)) d.(d_screen) d.(d_gmrfb))) -> shows (drop_surface sid) Q w nf d.
Proof.
  intros H3 HQ. apply shows_bind, shows_ask. cbn [accel_spec]. rewrite H3. unfold sends. cbn [o_result o_accel o_next o_cmds]. unfold freeSurfaceID. apply shows_state. destruct w. apply HQ.
Qed.

Lemma shows_copy src dst rgn' extra im Q w nf d : w.(w_accel).(bHaveSVGA3D) = true -> d.(d_surfaces) !! src = Some im ->
  Q (kIOReturnSuccess, None) w nf (on_image dst (fun i => mk_image i.(im_format) (draw box_inside (box_source im.(im_pixel)) i.(im_pixel) (copy_box extra <$> rects_of (Some rgn')))) d) ->
  shows (ask (OpSurfaceCopy src dst (Some rgn') (Some extra))) Q w nf d.
Proof.
  intros H3 Hs HQ. apply shows_ask. cbn [accel_spec]. rewrite H3. unfold sends. cbn [o_result o_accel o_next o_cmds fmap list_fmap shown foldl show].
  unfold show_copy. cbn [SVGA3dCmdSurfaceCopy_src SVGA3dSurfaceImageId_sid image0]. rewrite Hs. by destruct w.
Qed.

Lemma shows_DMAOutWithCopy s im Q w nf d : s.(m_last_region) = Some rgn -> isBackingValid s = true -> w.(w_accel).(bHaveSVGA3D) = true ->
  d.(d_surfaces) !! w.(w_accel).(m_master_surface_id) = Some im -> (AllocSurfaceID w.(w_accel).(m_ids)).1 <> w.(w_accel).(m_master_surface_id) ->
  (forall s' i nf' d' im', s'.(m_last_region) = Some rgn -> d'.(d_screen) = d.(d_screen) ->
     d'.(d_surfaces) !! w.(w_accel).(m_master_surface_id) = Some im' -> has_window s im'.(im_pixel) -> Q (kIOReturnSuccess, s') (with_ids i w) nf' d') ->
  shows (DMAOutWithCopy true s) Q w nf d.
Proof using Hrgn.
  intros Er Eb H3 Em Hne HQ. unfold DMAOutWithCopy, with_region. rewrite Er, Eb. apply shows_bind, shows_new_surface; [done|]. intros i. set (sid := (AllocSurfaceID _).1) in *. clearbody sid.
  apply shows_bind, shows_dma; [done|]. cbn [fst snd ok]. apply shows_bind, shows_getMaster. change (m_master_surface_id (w_accel (with_ids i w))) with (m_master_surface_id (w_accel w)) in *.
  apply shows_bind. eapply shows_copy; [done|apply on_image_lookup; cbn; apply lookup_insert_eq|]. cbn [im_format im_pixel]. apply shows_bind, shows_drop_surface; [done|]. intros i'.
  apply shows_ret. cbn [ok fst]. eapply (HQ (store_fence _ s) i'); [done|done| |].
  - unfold on_image. cbn [d_surfaces]. rewrite lookup_delete_ne, lookup_alter_eq, lookup_alter_ne, lookup_insert_ne, Em by done. reflexivity.
  - intros X Y Hin. cbn [im_pixel]. pose proof on_the_screen_small as Hsm.
    rewrite draw_boxes; [|eapply Forall_impl; [exact Hsm|]; cbn; lia]. cbn [dstDeltaX dstDeltaY srcDeltaX srcDeltaY]. rewrite !Z.sub_0_r, Hin.
    rewrite draw_boxes; [|eapply Forall_impl; [exact Hsm|]; cbn; lia]. cbn [dstDeltaX dstDeltaY srcDeltaX srcDeltaY backing_extra].
    replace (X + - b_x (rgn_bounds rgn) - - b_x (rgn_bounds rgn)) with X by lia. replace (Y + - b_y (rgn_bounds rgn) - - b_y (rgn_bounds rgn)) with Y by lia.
    rewrite Hin. reflexivity.
Qed.

Lemma shows_doPresent s im Q w nf d : s.(m_last_region) = Some rgn -> w.(w_accel).(bHaveSVGA3D) = true -> d.(d_surfaces) !! w.(w_accel).(m_master_surface_id) = Some im ->
  (forall w' nf' d', (forall i X Y, d'.(d_screen) i X Y = if (i =? 0) && in_rects (rects_of (Some rgn)) X Y then im.(im_pixel) X Y else d.(d_screen) i X Y) -> Q kIOReturnSuccess w' nf' d') ->
  shows (doPresent s) Q w nf d.
Proof using Hrgn.
  intros Er H3 Em HQ. unfold doPresent. rewrite Er. apply shows_bind, shows_getMaster, shows_bind, shows_ask. cbn [accel_spec]. rewrite H3. cbn [o_result o_accel o_next o_cmds fst ok].
  apply shows_ret. apply HQ. intros i X Y.
  change (shown d _) with (show_present (m_master_surface_id (w_accel w)) (copy_rect3d (mk_ExtraInfo 0 0 0 0 0 0 0) <$> rects_of (Some rgn)) d). unfold show_present. cbn [SVGA3dCmdPresent_sid]. rewrite Em. unfold on_screen. cbn [d_screen].
  destruct (i =? 0); [|done]. cbn [andb]. apply draw_present. eapply Forall_impl; [apply on_the_screen_small|]. cbn beta. intros r Hr. lia.
Qed.

(** The screen shows the window. *)
Definition window_on s (screen : Z) d d' : Prop := forall i X Y,
  d'.(d_screen) i X Y = if (i =? screen) && in_rects (rects_of (Some rgn)) X Y then window_pixel s X Y else d.(d_screen) i X Y.

Lemma shows_ScreenObjectOutDirect s Q w nf d : s.(m_last_region) = Some rgn -> isBackingValid s = true -> w.(w_accel).(Accel.bHaveScreenObject) = true ->
  s.(m_surfaceFormat) = SVGA3D_X8R8G8B8 ->
  (forall s' w' nf' d', window_on s s.(m_framebufferIndex) d d' -> Q (kIOReturnSuccess, s') w' nf' d') ->
  shows (ScreenObjectOutDirect true s) Q w nf d.
Proof using Hrgn.
  intros Er Eb Hs Ef HQ. unfold ScreenObjectOutDirect, with_region. rewrite Er, Eb. apply shows_bind, shows_ask. cbn [accel_spec]. rewrite Hs. unfold sends_fence.
  cbn [o_result o_accel o_next o_cmds fst snd ok]. apply shows_ret. apply HQ. intros i X Y. rewrite shown_fence, show_blits; [|eapply Forall_impl; [apply on_the_screen_small|]; cbn; lia|done|done].
  unfold window_pixel. by rewrite Ef.
Qed.

Lemma s16_id z : 0 <= z < 2 ^ 15 -> s16 z = z.
Proof. intros Hx. unfold swrap. rewrite wrap_small by (split; lia). by rewrite (proj2 (Z.ltb_lt _ _)) by lia. Qed.

Lemma in_rects_bounds X Y : in_rects (rects_of (Some rgn)) X Y = true ->
  0 <= X - rgn.(rgn_bounds).(b_x) < rgn.(rgn_bounds).(b_w) /\ 0 <= Y - rgn.(rgn_bounds).(b_y) < rgn.(rgn_bounds).(b_h).
Proof using Hrgn.
  destruct Hrgn as (H1 & H2 & H3 & H4 & H5 & H6 & Hall). intros Hin. apply existsb_exists in Hin as (r & Hr & Hin). rewrite Forall_forall in Hall.
  destruct (Hall r) as (R1 & R2 & R3 & R4 & R5 & R6); [by apply list_elem_of_In|]. unfold in_rect, in_box in Hin. lia.
Qed.

Lemma shows_ScreenObjectOutVia3D s Q w nf d : s.(m_last_region) = Some rgn -> isBackingValid s = true -> w.(w_accel).(Accel.bHaveScreenObject) = true ->
  w.(w_accel).(bHaveSVGA3D) = true -> isIdentityScale s rgn = true ->
  (forall s' w' nf' d', window_on s s.(m_framebufferIndex) d d' -> Q (kIOReturnSuccess, s') w' nf' d') ->
  shows (ScreenObjectOutVia3D true s) Q w nf d.
Proof using Hrgn.
  intros Er Eb Hs H3 Hid HQ. unfold isIdentityScale in Hid. apply andb_true_iff in Hid as [Hw%Z.eqb_eq Hh%Z.eqb_eq].
  unfold ScreenObjectOutVia3D, with_region. rewrite Er, Eb, Hw, Hh. pose proof Hrgn as (H1 & H2 & _ & _ & H5 & H6 & _).
  apply shows_bind, shows_new_surface; [done|]. intros i. set (sid := (AllocSurfaceID _).1). clearbody sid.
  unfold set_region1. cbn [rgn_bounds]. rewrite !(s16_id 0), !u32_id, !s16_id by lia. set (b := mk_bounds 0 0 _ _).
  apply shows_bind, shows_dma; [done|]. cbn [fst snd ok]. apply shows_bind, shows_ask. cbn [accel_spec].
  change (Accel.bHaveScreenObject (w_accel (with_ids i w))) with (Accel.bHaveScreenObject (w_accel w)). rewrite Hs. unfold sends. cbn [o_result o_accel o_next o_cmds fst snd ok].
  apply shows_bind, shows_drop_surface; [done|]. intros i'. apply shows_ret. apply HQ. intros j X Y. cbn [d_screen fmap list_fmap shown foldl show].
  subst b. erewrite show_blit_region; [|done|apply on_image_lookup; cbn; apply lookup_insert_eq]. cbn [im_pixel im_format].
  change (m_framebufferIndex (store_fence _ s)) with (m_framebufferIndex s).
  destruct ((j =? m_framebufferIndex s) && in_rects (rects_of (Some rgn)) X Y) eqn:Ein; [|done]. apply andb_true_iff in Ein as [_ Hin]. apply in_rects_bounds in Hin.
  change (rects_of (Some (mk_region 1 ?b [?b]))) with [b]. rewrite draw_boxes; [|constructor; [cbn; lia|constructor]]. cbn [dstDeltaX dstDeltaY srcDeltaX srcDeltaY backing_extra].
  rewrite !Z.sub_0_r, !Z.add_0_r. replace (in_rects _ _ _) with true; [done|]. unfold in_rects, in_rect, in_box. cbn. lia.
Qed.
End flush.

(** ** Flush *)

(** A surface that a flush can show without scaling, in a world with the display [d]. *)
Record flushable (w : world) (d : display) (s : Surface) (rgn : IOAccelDeviceRegion) : Prop := {
  fl_region : s.(m_last_region) = Some rgn;
  fl_place : on_the_screen rgn;
  fl_ready : s.(bHaveID) = true /\ isBackingValid s = true;
  fl_plain : s.(bVideoMode) = false /\ s.(bGLMode) = false;
  fl_scale : isIdentityScale s rgn = true;
  fl_front : if s.(bHaveScreenObject) : bool then
               w.(w_accel).(Accel.bHaveScreenObject) = true /\ (s.(m_surfaceFormat) = SVGA3D_X8R8G8B8 \/ w.(w_accel).(bHaveSVGA3D) = true)
             else s.(bHaveMasterSurface) = true /\ w.(w_accel).(bHaveSVGA3D) = true /\
               (AllocSurfaceID w.(w_accel).(m_ids)).1 <> w.(w_accel).(m_master_surface_id) /\
               exists im, d.(d_surfaces) !! w.(w_accel).(m_master_surface_id) = Some im /\ im.(im_format) = SVGA3D_X8R8G8B8;
}.

(** The screen that a flush goes to. *)
Definition front_screen s : Z := if s.(bHaveScreenObject) then s.(m_framebufferIndex) else 0.

(** C5: a flush shows the window.  For a window surface on the screen, without scaling,
    whichever way is taken (directly to a screen object, through a surface of its own, or
    through the master surface with or without a copy), the flush ends with success, every
    visible pixel of its screen is the pixel of the backing at the same place of the
    window, and all other pixels of all screens are as before. *)
Theorem surface_flush_shows mask s rgn w nf d : flushable w d s rgn -> has_bits mask (u64 (Z.shiftl 1 s.(m_framebufferIndex))) = true ->
  exists t, spec (surface_flush mask s) w nf = Some t /\ t.(t_result).1 = kIOReturnSuccess /\
    forall i X Y, (shown d t.(t_events)).(d_screen) i X Y =
      if (i =? front_screen s) && in_rects (rects_of (Some rgn)) X Y
      then guest_pixel s.(m_surfaceFormat)
             (mk_SVGAGuestPtr s.(m_backing).(bk_vtb).(gmr_id) (u32 (u64 (s.(m_backing).(bk_offset) + s.(m_scale).(sc_reserved2)))))
             (u32 s.(m_scale).(sc_reserved1)) (X - rgn.(rgn_bounds).(b_x)) (Y - rgn.(rgn_bounds).(b_y))
      else d.(d_screen) i X Y.
Proof.
  intros [Er Hp [Hid Hb] [Hv Hg] Hsc Hf] Hm.
  assert (shows (surface_flush mask s) (fun r _ _ d' => r.1 = kIOReturnSuccess /\ window_on rgn s (front_screen s) d d') w nf d) as H; [|exact H].
  unfold surface_flush. rewrite Er, Hid, Hb, Hv, Hm, Hg. cbn [negb orb]. apply shows_bind. unfold Have3D. apply shows_bind, shows_state. cbn [fst snd]. apply shows_ret.
  unfold select_DMA_type, front_screen. rewrite Hsc, andb_true_r. cbn [negb]. destruct (bHaveScreenObject s).
  - destruct Hf as [Hs Hf]. destruct (Z.eqb_spec (m_surfaceFormat s) SVGA3D_X8R8G8B8) as [E|E].
    + apply shows_bind, (shows_ScreenObjectOutDirect rgn); try done. intros s' w' nf' d' Hd. cbn. by apply shows_ret.
    + destruct Hf as [?|H3]; [done|]. rewrite H3. apply shows_bind, (shows_ScreenObjectOutVia3D rgn); try done. intros s' w' nf' d' Hd. cbn. by apply shows_ret.
  - destruct Hf as (Hm' & H3 & Hne & im & Em & Ef). rewrite Hm'.
    assert (forall w' nf' d' im' s', m_last_region s' = Some rgn -> d_screen d' = d_screen d -> bHaveSVGA3D (w_accel w') = true -> d_surfaces d' !! m_master_surface_id (w_accel w') = Some im' ->
      has_window rgn s im'.(im_pixel) -> shows (rc ← doPresent s'; mret (rc, s')) (fun r _ _ d' => r.1 = kIOReturnSuccess /\ window_on rgn s 0 d d') w' nf' d') as Hpr.
    { intros w' nf' d' im' s' Er' Ed H3' Em' Hw. apply shows_bind. eapply (shows_doPresent rgn); try done. intros w2 nf2 d2 Hd2. apply shows_ret. split; [done|].
      intros i X Y. rewrite Hd2, Ed. destruct (i =? 0); [|done]. cbn [andb]. destruct (in_rects _ X Y) eqn:Hin; [|done]. by apply Hw. }
    destruct ((m_surfaceFormat s =? SVGA3D_X8R8G8B8) && bDirectBlit s) eqn:Edir.
    + apply andb_true_iff in Edir as [Edir%Z.eqb_eq _]. apply shows_bind. eapply (shows_DMAOutDirect rgn); try done; [congruence|]. intros s' nf' d' im' E1 E2 E3 E4. cbn. by eapply Hpr.
    + apply shows_bind. eapply (shows_DMAOutWithCopy rgn); try done. intros s' i nf' d' im' E1 E2 E3 E4. cbn. by eapply Hpr.
Qed.
End display.

(** ** The hypotheses can be met *)

(** A window of A8R8G8B8, which is copied to the master surface. *)
Definition demo_window : Surface :=
  set_bHaveID true (set_bHaveMasterSurface true (set_m_surfaceFormat SVGA3D_A8R8G8B8 (set_m_last_region (Some demo_shape)
    (set_m_scale (mk_Scaling (mk_bounds 0 0 64 32) 64 32 8192 256 0) (set_m_backing (mk_Backing (Some 0) 4096 8192 None None (mk_vtb 0 None 3 0)) (initWithTask 7)))))).
Definition demo_shared : world := set_accel (set_master 1 9 demo_accel3d) demo_start.
Definition demo_display : display := mk_display {[9 := mk_image SVGA3D_X8R8G8B8 (fun _ _ => 0)]} (fun _ _ _ => 0) (mk_SVGAGuestPtr 0 0, 0).

Lemma surface_flush_shows_witness : exists t, spec (surface_flush 1 demo_window) demo_shared 1 = Some t /\
  (shown (fun _ _ off => off) (fun _ => 4) demo_display t.(t_events)).(d_screen) 0 12 23 = 4096 + 3 * 256 + 2 * 4.
Proof.
  destruct (surface_flush_shows (fun _ _ off => off) (fun _ => 4) 1 demo_window demo_shape demo_shared 1 demo_display) as (t & Et & _ & Hd).
  - split; try done.
    + repeat split; try done. repeat constructor; done.
    + cbn. split_and!; try done. eexists. by split.
  - done.
  - exists t. split; [exact Et|]. rewrite Hd. vm_compute. reflexivity.
Defined.
