(* ===== verification/Context2D.v ===== *)
(** The user client of the 2D engine (AC/UC/CEsvga22DContext.cpp): a context copies to the
    frame buffer or to a window surface that it has looked up, and holds a reference to.

    Objects of the kernel that are shared between user clients have retain counts: here
    the window surfaces, with the list of the clients of the accelerator in the order in
    which [messageClients] reaches them. *)

From S2P Require Import Allocator.
From S2P Require Import Prelude IOKit Layout SvgaReg Svga3dReg AccelIds AccelBlit Accel AccelSpec ShaderCache Provider.
From S2P Require Import AccelGmr Kernel Transfer Surface.
From stdpp Require Import gmap gmultiset.

#[local] Open Scope Z_scope.

Local Abbreviation prog := (prog kernel).

(** ** Shared objects *)

Record object := mk_object { ob_retain : Z; ob_surface : Surface }.
Record clients := mk_clients { y_heap : gmap Z object; y_list : list Z }.

Definition set_heap (h : gmap Z object) (y : clients) : clients := mk_clients h y.(y_list).
Definition put (r : Z) (o : object) (y : clients) : clients := set_heap (<[r := o]> y.(y_heap)) y.
Definition get (r : Z) (y : clients) : prog object := deref (y.(y_heap) !! r).

(** [retain] and [release] of an object; with the last reference the object goes. *)
Definition retain (r : Z) (y : clients) : prog clients :=
  o ← get r y; mret (put r (mk_object (o.(ob_retain) + 1) o.(ob_surface)) y).
Definition release_client (r : Z) (y : clients) : prog clients :=
  o ← get r y;
  mret (if o.(ob_retain) =? 1 then set_heap (delete r y.(y_heap)) y else put r (mk_object (o.(ob_retain) - 1) o.(ob_surface)) y).

(** A method of the surface [r]. *)
Definition call {A} (r : Z) (p : Surface -> prog (A * Surface)) (y : clients) : prog (A * clients) :=
  o ← get r y;
  x ← p o.(ob_surface);
  mret (x.1, put r (mk_object o.(ob_retain) x.2) y).

(** [findSurfaceForID]: every client of the accelerator gets the message; one that has been
    closed has no provider, and does not take it for its own. *)
Definition findSurfaceForID (surface_id : Z) (y : clients) : option Z :=
  foldl (fun client r =>
    match y.(y_heap) !! r with
    | Some o => if o.(ob_surface).(m_provider) then (message r surface_id client o.(ob_surface)).2 else client
    | None => client
    end) None y.(y_list).

(** ** The context *)

Record Context2D := mk_Context2D {
  c_owning_task : Z;
  c_provider : bool;
  bTargetIsCGSSurface : bool;
  m_surface_client : option Z;
  c_framebufferIndex : Z;
}.
Definition set_owner (t : Z) (p : bool) (c : Context2D) : Context2D :=
  mk_Context2D t p c.(bTargetIsCGSSurface) c.(m_surface_client) c.(c_framebufferIndex).
Definition set_target (b : bool) (c : Context2D) : Context2D :=
  mk_Context2D c.(c_owning_task) c.(c_provider) b c.(m_surface_client) c.(c_framebufferIndex).
Definition set_client_of (r : option Z) (c : Context2D) : Context2D :=
  mk_Context2D c.(c_owning_task) c.(c_provider) c.(bTargetIsCGSSurface) r c.(c_framebufferIndex).
Definition set_index (i : Z) (c : Context2D) : Context2D :=
  mk_Context2D c.(c_owning_task) c.(c_provider) c.(bTargetIsCGSSurface) c.(m_surface_client) i.

Definition kIOBlitWaitAll2D : Z := 0x1.
Definition kIOBlitWaitAll : Z := 0x2.
Definition kIOCE2DUpdateFramebuffer : Z := 24.
Definition kIOCE2DNumMethods : Z := 25.

(** What a method is sent to. *)
Inductive target := ToContext | ToProvider.
Definition getTargetAndMethodForIndex (targetP : bool) (index : Z) (c : Context2D) : option (target * Z) :=
  if negb targetP || (kIOCE2DNumMethods <=? index) then None
  else if index =? kIOCE2DUpdateFramebuffer then (if c.(c_provider) then Some (ToProvider, index) else None)
  else Some (ToContext, index).

(** *** Life *)

Definition initWithTask2D (owningTask : Z) : Context2D := mk_Context2D owningTask false false None 0.
Definition start2D (c : Context2D) : Context2D := set_owner c.(c_owning_task) true c.

(** The flag that is handed to the frame buffer, if any, is a result. *)
Definition provider_useAccelUpdates (flag : bool) (owningTask : Z) : prog (IOReturn * option bool) := state (fun w =>
  let '(rc, a, f) := Accel.useAccelUpdates w.(w_accel) flag owningTask in ((rc, f), set_accel a w)).

(** [if (m_surface_client) { m_surface_client->release(); m_surface_client = 0; }] *)
Definition drop_client (c : Context2D) (y : clients) : prog (Context2D * clients) :=
  match c.(m_surface_client) with
  | Some r => y ← release_client r y; mret (set_client_of None c, y)
  | None => mret (c, y)
  end.

Definition clientClose2D (c : Context2D) (y : clients) : prog (IOReturn * Context2D * clients) :=
  x ← drop_client c y;
  let '(c, y) := x in
  let c := set_target false (set_index 0 c) in
  (if c.(c_provider) then provider_useAccelUpdates false c.(c_owning_task);; mret tt else mret tt);;
  mret (kIOReturnSuccess, set_owner 0 false c, y).

(** *** Requests of the window server *)

Definition locateSurface (surface_id : Z) (c : Context2D) (y : clients) : prog (IOReturn * Context2D * clients) :=
  if negb c.(c_provider) then mret (kIOReturnNotReady, c, y)
  else
    let c := set_client_of (findSurfaceForID surface_id y) c in
    match c.(m_surface_client) with
    | None => mret (kIOReturnNotFound, c, y)
    | Some r => y ← retain r y; mret (kIOReturnSuccess, c, y)
    end.

Definition useAccelUpdates2D (flag : Z) (c : Context2D) : prog IOReturn :=
  if negb c.(c_provider) then mret kIOReturnNotReady
  else r ← provider_useAccelUpdates (negb (flag =? 0)) c.(c_owning_task); mret r.1.

Definition RectCopy2D (copyRects : list IOBlitCopyRectangle) (c : Context2D) : prog IOReturn :=
  if c.(bTargetIsCGSSurface) then mret kIOReturnUnsupported
  else if negb c.(c_provider) then mret kIOReturnNotReady
  else r ← ask (OpRectCopy copyRects); mret r.1.

Definition RectFill2D (color : Z) (rects : list IOBlitRectangle) (c : Context2D) : prog IOReturn :=
  if c.(bTargetIsCGSSurface) then mret kIOReturnUnsupported
  else if negb c.(c_provider) then mret kIOReturnNotReady
  else r ← ask (OpRectFill (u32 color) rects); mret r.1.

(** The source as the destination [r] sees it: the same object, or another. *)
Definition source_for (r src : Z) (o : object) : source := if src =? r then Self else Other o.(ob_surface).

(** [garbage] is for the uninitialised result of the provider's method. *)
Definition CopyRegion2D (garbage : bool) (source_surface_id destX destY : Z) (region : option IOAccelDeviceRegion) (regionSize : Z) (c : Context2D) (y : clients)
    : prog (IOReturn * clients) :=
  if bad_region region regionSize then mret (kIOReturnBadArgument, y)
  else if negb c.(c_provider) then mret (kIOReturnNotReady, y)
  else if c.(bTargetIsCGSSurface) && negb (is_some c.(m_surface_client)) then mret (kIOReturnNotReady, y)
  else
    let _source_surface_id := u32 source_surface_id in
    let _destX := s32 destX in
    let _destY := s32 destY in
    if negb (_source_surface_id =? 0) then
      match findSurfaceForID _source_surface_id y with
      | None => mret (kIOReturnNotFound, y)
      | Some src =>
          y ← retain src y;
          o ← get src y;
          x ← (if c.(bTargetIsCGSSurface) then
                 r ← deref c.(m_surface_client);
                 call r (fun s => x ← copy_surface_region_to_self (source_for r src o) _destX _destY region regionSize s; mret (x.1.1, x.2)) y
               else call src (fun s => mret (copy_self_region_to_framebuffer region regionSize, s)) y);
          let '(rc, y) := x in
          y ← release_client src y;
          mret (rc, y)
      end
    else if negb c.(bTargetIsCGSSurface) then r ← ask (OpCopyRegion garbage _destX _destY region regionSize); mret (r.1, y)
    else
      r ← deref c.(m_surface_client);
      call r (fun s => x ← copy_framebuffer_region_to_self c.(c_framebufferIndex) _destX _destY region regionSize s; mret (x.1.1, x.2)) y.

(** The formats of a surface for the options of a request. *)
Definition formats_of (options : Z) : Z * Z :=
  if has_bits options 0x400 then (CECL_FOURCC_UYVY, kIO2vuyPixelFormat)
  else if has_bits options 0x200 then (CECL_FOURCC_YUY2, kIOYUVSPixelFormat)
  else if has_bits options 0x100 then (0, kIO32BGRAPixelFormat)
  else (0, 0).

(** [out] is the size of the answer, which is cleared. *)
Definition set_surface (surface_id options : Z) (out : option Z) (c : Context2D) (y : clients) : prog (IOReturn * Context2D * clients) :=
  if negb (is_some out) then mret (kIOReturnBadArgument, c, y)
  else
    x ← drop_client c y;
    let '(c, y) := x in
    if negb (has_bits options 0x800) then mret (kIOReturnSuccess, set_index (u32 surface_id) (set_target false c), y)
    else
      let c := set_target true c in
      let '(cecl_pixel_format, apple_pixel_format) := formats_of options in
      x ← locateSurface (u32 surface_id) c y;
      let '(rc, c, y) := x in
      if negb (bool_decide (rc = kIOReturnSuccess)) then mret (rc, c, y)
      else
        r ← deref c.(m_surface_client);
        x ← call r (context_set_surface cecl_pixel_format apple_pixel_format) y;
        mret (x.1, c, x.2).

(** [level] is the level of the provider's messages. *)
Definition get_config (config_1 config_2 : bool) (level : Z) (c : Context2D) : IOReturn * option (Z * Z) :=
  if negb config_1 || negb config_2 then (kIOReturnBadArgument, None)
  else (kIOReturnSuccess, Some (0, if c.(c_provider) then u32 level else 0)).

(** A method of the surface that is the target. *)
Definition on_target {A} (failed : IOReturn -> A) (p : Surface -> prog (A * Surface)) (c : Context2D) (y : clients) : prog (A * clients) :=
  if negb c.(bTargetIsCGSSurface) then mret (failed kIOReturnUnsupported, y)
  else match c.(m_surface_client) with
       | None => mret (failed kIOReturnNotReady, y)
       | Some r => call r p y
       end.

(** The code of the surface's method is dropped. *)
Definition swap_surface (c : Context2D) (y : clients) : prog (IOReturn * clients) :=
  on_target id (fun s => x ← surface_flush_video s; mret (kIOReturnSuccess, x.2)) c y.

Definition scale_surface (options width height : Z) (c : Context2D) (y : clients) : prog (IOReturn * clients) :=
  on_target id (fun s => mret (context_scale_surface (u32 options) (u32 width) (u32 height) s)) c y.

(** The answer is an address and a pitch, two words of 8 bytes. *)
Definition lock_memory (out : option Z) (c : Context2D) (y : clients) : prog (IOReturn * option (Z * Z) * clients) :=
  match out with
  | None => mret (kIOReturnBadArgument, None, y)
  | Some size =>
      if size <? 16 then mret (kIOReturnBadArgument, None, y)
      else on_target (fun rc => (rc, None)) (context_lock_memory c.(c_owning_task)) c y
  end.

Definition unlock_memory (c : Context2D) (y : clients) : prog (IOReturn * clients) := on_target id context_unlock_memory c y.

Definition finish (options : Z) (c : Context2D) : prog IOReturn :=
  if negb (has_bits options (Z.lor kIOBlitWaitAll2D kIOBlitWaitAll)) then mret kIOReturnUnsupported
  else if c.(c_provider) then
    a ← accel;
    sync_all;;
    mret (if a.(m_framebuffer) then kIOReturnSuccess else kIOReturnNoDevice)
  else mret kIOReturnSuccess.

(** The answer words; [in_size] and [out] are sizes in bytes. *)
Definition read_configs (struct_in : option (Z * Z)) (out : option Z) : IOReturn * list Z :=
  match struct_in, out with
  | Some (word, in_size), Some out_size =>
      if (in_size <? 4) || (out_size <? 4) then (kIOReturnBadArgument, [])
      else (kIOReturnSuccess, [if word =? 2 then 2 else 0])
  | _, _ => (kIOReturnBadArgument, [])
  end.

(** The words that are written after the answer was cleared, by index. *)
Definition read_config_Ex (struct_in : option (Z * Z)) (out : option Z) : IOReturn * list (Z * Z) :=
  match struct_in, out with
  | Some (word, in_size), Some out_size =>
      if in_size <? 8 then (kIOReturnBadArgument, [])
      else if word =? 144 then (if out_size <? 8 then (kIOReturnBadArgument, []) else (kIOReturnSuccess, [(1, 0)]))
      else if word =? 288 then (if out_size <? 12 then (kIOReturnBadArgument, []) else (kIOReturnSuccess, [(0, 64); (2, 16)]))
      else (kIOReturnUnsupported, [])
  | _, _ => (kIOReturnBadArgument, [])
  end.

(** ** Methods *)

Inductive context_op :=
  | SetSurface (surface_id options : Z) (out : option Z)
  | SwapSurface
  | ScaleSurface (options width height : Z)
  | LockMemory (out : option Z)
  | UnlockMemory
  | Finish (options : Z)
  | DeleteImage | WaitImage | SetMacrovision
  | CopyRegion (garbage : bool) (source_surface_id destX destY : Z) (region : option IOAccelDeviceRegion) (regionSize : Z)
  | UseAccelUpdates (flag : Z)
  | RectCopies (rects : list IOBlitCopyRectangle)
  | RectFills (color : Z) (rects : list IOBlitRectangle)
  | UpdateFramebuffer (rect : option (Z -> Z))
  | Unsupported.

Definition exec2D (op : context_op) (c : Context2D) (y : clients) : prog (IOReturn * Context2D * clients) :=
  let same (p : prog IOReturn) := rc ← p; mret (rc, c, y) in
  let fixed (p : prog (IOReturn * clients)) := x ← p; mret (x.1, c, x.2) in
  match op with
  | SetSurface surface_id options out => set_surface surface_id options out c y
  | SwapSurface => fixed (swap_surface c y)
  | ScaleSurface options width height => fixed (scale_surface options width height c y)
  | LockMemory out => fixed (x ← lock_memory out c y; mret (x.1.1, x.2))
  | UnlockMemory => fixed (unlock_memory c y)
  | Finish options => same (finish options c)
  | DeleteImage | WaitImage | SetMacrovision => same (mret kIOReturnSuccess)
  | CopyRegion garbage source_surface_id destX destY region regionSize => fixed (CopyRegion2D garbage source_surface_id destX destY region regionSize c y)
  | UseAccelUpdates flag => same (useAccelUpdates2D flag c)
  | RectCopies rects => same (RectCopy2D rects c)
  | RectFills color rects => same (RectFill2D color rects c)
  | UpdateFramebuffer rect => same (if c.(c_provider) then r ← ask (OpUpdate rect); mret r.1 else mret kIOReturnUnsupported)
  | Unsupported => same (mret kIOReturnUnsupported)
  end.
