(* ===== verification/Context2DSpec.v ===== *)
(** 2D contexts and window surfaces together: references and retain counts of any number
    of contexts and surfaces, and the safety of contexts that use one surface. *)

From S2P Require Import Allocator.
From S2P Require Import AllocatorProofs AllocatorSpec.
From S2P Require Import Prelude IOKit Layout SvgaReg SvgaCmd Svga3dReg Svga3d AccelIds AccelBlit Accel AccelProofs AccelSpec.
From S2P Require Import ShaderCache Provider AccelGmr Kernel Transfer Surface SurfaceLogic SurfaceProofs SurfaceMethods SurfaceSpec.
From S2P Require Import Context2D.
From stdpp Require Import gmap gmultiset.
From stdpp Require Import list_relations list.

#[local] Open Scope Z_scope.

Local Abbreviation prog := (prog kernel).
Local Abbreviation world := (world kernel).

(** ** Partial and total correctness *)

(** A program that ends does so in a state that satisfies [Q]; a total one ends. *)
Definition wpm (total : bool) {A} (p : prog A) (Q : post A) (w : world) (nf : Z) (g : monitor) : Prop :=
  match spec p w nf with Some t => Q t.(t_result) t.(t_world) t.(t_next) (watch g t.(t_events)) | None => total = false end.

Section wpm.
Context (total : bool).
Implicit Types (w : world) (nf : Z) (g : monitor).

Lemma wpm_ret {A} (a : A) (Q : post A) w nf g : Q a w nf g -> wpm total (mret a) Q w nf g.
Proof. done. Qed.

Lemma wpm_bind {A B} (p : prog A) (f : A -> prog B) (Q : post B) w nf g : wpm total p (fun a => wpm total (f a) Q) w nf g -> wpm total (p ≫= f) Q w nf g.
Proof.
  unfold wpm. rewrite spec_bind. destruct (spec p w nf) as [t|]; [|done]. cbn [mbind option_bind].
  destruct (spec (f (t_result t)) (t_world t) (t_next t)) as [t'|]; [|done]. cbn. by rewrite watch_app.
Qed.

Lemma wpm_state {B : Set} (f : world -> B * world) (Q : post B) w nf g : Q (f w).1 (f w).2 nf g -> wpm total (state f) Q w nf g.
Proof. unfold wpm. cbn. by destruct (f w). Qed.

Lemma wpm_wp {A} (p : prog A) (Q : post A) w nf g : wp p Q w nf g -> wpm total p Q w nf g.
Proof. intros (t & Et & HQ). unfold wpm. by rewrite Et. Qed.

Lemma wpm_mono {A} (p : prog A) (Q Q' : post A) w nf g : wpm total p Q w nf g -> (forall a w nf g, Q a w nf g -> Q' a w nf g) -> wpm total p Q' w nf g.
Proof. unfold wpm. destruct (spec p w nf); auto. Qed.

Lemma wpm_if {A} (b : bool) (p q : prog A) (Q : post A) w nf g : wpm total p Q w nf g -> wpm total q Q w nf g -> wpm total (if b then p else q) Q w nf g.
Proof. by destruct b. Qed.
End wpm.

Lemma wpm_total {A} (p : prog A) (Q : post A) w nf g : wpm true p Q w nf g -> wp p Q w nf g.
Proof. unfold wpm, wp. destruct (spec p w nf) as [t|]; [|done]. intros H. by exists t. Qed.

(** ** What contexts need of surfaces and of the accelerator *)

(** The methods of a surface that contexts call. *)
Definition by_context (op : surface_op) : Prop :=
  match op with
  | ContextSetSurface _ _ | ContextScaleSurface _ _ _ | ContextLockMemory _ | ContextUnlockMemory | CopyFromFramebuffer _ _ _ _ _
  | CopyFromSurface _ _ _ _ _ | FlushVideo | CopyToFramebuffer _ _ => True
  | _ => False
  end.
(** The source of a copy is one of the surfaces. *)
Definition source_in (y : clients) (r : Z) (op : surface_op) : Prop :=
  match op with CopyFromSurface src _ _ _ _ => exists r' o', y.(y_heap) !! r' = Some o' /\ src = source_for r r' o' | _ => True end.

Definition drawing_op (op : accel_op) : Prop :=
  match op with OpRectCopy _ | OpRectFill _ _ | OpUpdate _ | OpCopyRegion _ _ _ _ _ => True | _ => False end.

(** An invariant of the surfaces, the world and the observer before ([K false]) and after
    ([K true]) one call of a context; the methods of open surfaces end, if [total]. *)
Class Services (total : bool) (K : bool -> clients -> world -> Z -> monitor -> Prop) : Prop := {
  sv_after y w nf g : K false y w nf g -> K true y w nf g;
  sv_put b y r o n w nf g : K b y w nf g -> y.(y_heap) !! r = Some o -> K b (put r (mk_object n o.(ob_surface)) y) w nf g;
  sv_delete b y r w nf g : K b y w nf g -> r ∉ y.(y_list) -> K b (set_heap (delete r y.(y_heap)) y) w nf g;
  sv_call y r o op w nf g : K false y w nf g -> y.(y_heap) !! r = Some o -> (total = true -> o.(ob_surface).(m_provider) = true) -> by_context op -> source_in y r op ->
    wpm total (exec op o.(ob_surface)) (fun x w' nf' g' => K true (put r (mk_object o.(ob_retain) x.2) y) w' nf' g') w nf g;
  sv_ask y op w nf g : K false y w nf g -> drawing_op op -> wpm total (ask op) (fun _ => K true y) w nf g;
  sv_sync y w nf g : K false y w nf g -> wpm total sync_all (fun _ => K true y) w nf g;
  sv_updates y flag task w nf g : K false y w nf g -> wpm total (provider_useAccelUpdates flag task) (fun _ => K true y) w nf g;
}.

(** ** References *)

(** The references of a pointer; the objects have the given numbers of references. *)
Definition refs_of (p : option Z) (r : Z) : Z := if decide (p = Some r) then 1 else 0.
Definition counted (y : clients) (n : Z -> Z) : Prop := forall r,
  match y.(y_heap) !! r with Some o => o.(ob_retain) = n r /\ 0 < n r | None => n r = 0 end.

(** Others have [n] references; the clients of the accelerator are among them. *)
Record others (y : clients) (n : Z -> Z) : Prop := { ot_nonneg r : 0 <= n r; ot_list r : r ∈ y.(y_list) -> 0 < n r }.

Lemma counted_ext y n n' : counted y n -> (forall r, n r = n' r) -> counted y n'.
Proof. intros Hy E r. rewrite <-E. apply Hy. Qed.

Lemma counted_get y n r : counted y n -> 0 < n r -> exists o, y.(y_heap) !! r = Some o /\ o.(ob_retain) = n r.
Proof. intros Hy Hr. specialize (Hy r). destruct (y_heap y !! r) as [o|]; [|lia]. exists o. split; [done|]. apply Hy. Qed.

Lemma counted_put y n n' r o : counted y n -> o.(ob_retain) = n' r -> 0 < n' r -> (forall r', r' <> r -> n' r' = n r') -> counted (put r o y) n'.
Proof.
  intros Hy E Hp Hne r'. cbn. destruct (decide (r' = r)) as [->|Hr]; [by rewrite lookup_insert_eq|]. rewrite lookup_insert_ne by done. rewrite Hne by done. apply Hy.
Qed.

Lemma findSurfaceForID_found id y r : findSurfaceForID id y = Some r ->
  r ∈ y.(y_list) /\ exists o, y.(y_heap) !! r = Some o /\ o.(ob_surface).(m_provider) = true /\ o.(ob_surface).(bHaveID) = true /\ o.(ob_surface).(m_wID) = id.
Proof.
  unfold findSurfaceForID. generalize (y_list y). intros l. induction l as [|r' l IH] using rev_ind; [done|]. rewrite foldl_app. cbn [foldl].
  assert (forall P : Prop, r ∈ l /\ P -> r ∈ l ++ [r'] /\ P) as Hin by (intros P [H1 H2]; split; [apply elem_of_app; by left|done]).
  destruct (y_heap y !! r') as [o|] eqn:Eo; [|auto]. destruct (m_provider (ob_surface o)) eqn:Ep; [|auto]. unfold message.
  destruct (bHaveID (ob_surface o)) eqn:Eh; cbn [negb snd]; [|auto].
  destruct (Z.eqb_spec id (m_wID (ob_surface o))) as [->|Hne]; [|auto]. intros [= <-]. split; [apply elem_of_app; right; by left|]. by exists o.
Qed.

Section context.
Context {total : bool} {K : bool -> clients -> world -> Z -> monitor -> Prop} `{!Services total K}.
Implicit Types (w : world) (nf : Z) (g : monitor) (c : Context2D) (y : clients).

(** The state between the calls of a context with the pointer [p]. *)
Record held (b : bool) (n : Z -> Z) (p : option Z) y w nf g : Prop := {
  hd_services : K b y w nf g;
  hd_others : others y n;
  hd_counted : counted y (fun r => n r + refs_of p r);
}.

Lemma refs_of_nonneg p r : 0 <= refs_of p r.
Proof. unfold refs_of. case_decide; lia. Qed.

Lemma held_get b n r y w nf g : held b n (Some r) y w nf g -> exists o, y.(y_heap) !! r = Some o /\ o.(ob_retain) = n r + 1.
Proof.
  intros [_ [Hn _] Hc]. destruct (counted_get _ _ r Hc) as (o & Eo & Er).
  - specialize (Hn r). unfold refs_of. rewrite decide_True by done. lia.
  - exists o. split; [done|]. rewrite Er. unfold refs_of. by rewrite decide_True.
Qed.

Lemma wpm_retain b n r o y (Q : post clients) w nf g : held b n None y w nf g -> y.(y_heap) !! r = Some o ->
  (held b n (Some r) (put r (mk_object (o.(ob_retain) + 1) o.(ob_surface)) y) w nf g -> Q (put r (mk_object (o.(ob_retain) + 1) o.(ob_surface)) y) w nf g) -> wpm total (retain r y) Q w nf g.
Proof.
  intros [Hk [Hn Hl] Hc] Eo HQ. unfold retain, get. rewrite Eo. apply wpm_bind, wpm_ret, wpm_ret. apply HQ.
  pose proof (Hc r) as Hr. rewrite Eo in Hr. unfold refs_of in Hr. rewrite decide_False in Hr by done. destruct Hr as [Er Hr].
  split; [by apply sv_put|by split|]. eapply counted_put; [exact Hc|cbn|..].
  - rewrite Er. unfold refs_of. rewrite decide_True by done. lia.
  - unfold refs_of. rewrite decide_True by done. lia.
  - intros r' Hne. unfold refs_of. by rewrite !decide_False by congruence.
Qed.

Lemma wpm_release b n r y (Q : post clients) w nf g : held b n (Some r) y w nf g ->
  (forall y', held b n None y' w nf g -> y'.(y_list) = y.(y_list) -> Q y' w nf g) -> wpm total (release_client r y) Q w nf g.
Proof.
  intros Hh HQ. destruct (held_get _ _ _ _ _ _ _ Hh) as (o & Eo & Er). destruct Hh as [Hk [Hn Hl] Hc]. unfold release_client, get. rewrite Eo. apply wpm_bind, wpm_ret, wpm_ret.
  apply HQ; [|by case_match]. rewrite Er. destruct (Z.eqb_spec (n r + 1) 1) as [E1|E1].
  - split; [apply sv_delete; [done|]; intros Hin; specialize (Hl r Hin); lia|by split|]. intros r'. cbn. destruct (decide (r' = r)) as [->|Hne].
    + rewrite lookup_delete_eq. unfold refs_of. rewrite decide_False by done. lia.
    + rewrite lookup_delete_ne by done. specialize (Hc r'). unfold refs_of in *. rewrite decide_False in Hc by congruence. by rewrite decide_False by done.
  - specialize (Hn r) as Hnr. split; [by apply sv_put|by split|]. eapply counted_put; [exact Hc|cbn; unfold refs_of; rewrite decide_False by done; lia|unfold refs_of; rewrite decide_False by done; lia|].
    intros r' Hne. unfold refs_of. by rewrite !decide_False by congruence.
Qed.

(** [f] does to the surface what the method [op] does; its answer may differ. *)
Definition acts_as {A} (f : Surface -> prog (A * Surface)) (op : surface_op) : Prop :=
  forall s w nf, spec (x ← f s; mret x.2) w nf = spec (x ← exec op s; mret x.2) w nf.

Lemma acts_as_pair {A B} (h : A -> B) (f : Surface -> prog (A * Surface)) op : acts_as f op -> acts_as (fun s => x ← f s; mret (h x.1, x.2)) op.
Proof.
  intros Hf s w nf. rewrite <-Hf, !spec_bind. destruct (spec (f s) w nf) as [t|]; [|done]. cbn. by rewrite !app_nil_r.
Qed.

Lemma wpm_call {A} n p r o op (f : Surface -> prog (A * Surface)) y (Q : post (A * clients)) w nf g : held false n p y w nf g -> y.(y_heap) !! r = Some o ->
  acts_as f op -> (total = true -> o.(ob_surface).(m_provider) = true) -> by_context op -> source_in y r op ->
  (forall a y' w' nf' g', held true n p y' w' nf' g' -> y'.(y_list) = y.(y_list) -> Q (a, y') w' nf' g') -> wpm total (call r f y) Q w nf g.
Proof.
  intros [Hk Ho Hc] Eo Ef Hp Hb Hs HQ. unfold call, get. rewrite Eo. apply wpm_bind, wpm_ret, wpm_bind. pose proof (sv_call y r o op w nf g Hk Eo Hp Hb Hs) as Hw.
  specialize (Ef o.(ob_surface) w nf). unfold wpm in Hw |- *. rewrite !spec_bind in Ef. destruct (spec (exec op (ob_surface o)) w nf) as [t|], (spec (f (ob_surface o)) w nf) as [t'|]; cbn in Ef; try done.
  injection Ef as E1 E2 E3 E4. rewrite !app_nil_r in E2. cbn. rewrite E1, E2, E3, E4. apply HQ; [|done]. split; [done|destruct Ho; by split|].
  pose proof (Hc r) as Hr. rewrite Eo in Hr. eapply counted_put; [exact Hc|apply Hr|apply Hr|done].
Qed.

Lemma refs_of_none r : refs_of None r = 0.
Proof. done. Qed.

Lemma held_after n p y w nf g : held false n p y w nf g -> held true n p y w nf g.
Proof. intros [Hk Ho Hc]. split; [by apply sv_after|done|done]. Qed.

(** References of a context count like those of others. *)
Lemma held_fold b n p y w nf g : held b n p y w nf g <-> held b (fun r => n r + refs_of p r) None y w nf g /\ others y n.
Proof.
  split.
  - intros [Hk [Hn Hl] Hc]. split; [|by split]. split; [done| |eapply counted_ext; [exact Hc|]; intros r; rewrite refs_of_none; lia].
    split; [intros r|intros r Hr; specialize (Hl r Hr)]; pose proof (refs_of_nonneg p r); [specialize (Hn r)|]; lia.
  - intros [[Hk _ Hc] Ho]. split; [done|done|]. eapply counted_ext; [exact Hc|]. intros r. cbn. rewrite refs_of_none. lia.
Qed.

(** The surface that the context works on has not been closed. *)
Definition target_open c y : Prop := forall r o, c.(m_surface_client) = Some r -> y.(y_heap) !! r = Some o -> o.(ob_surface).(m_provider) = true.
Definition needs_target (op : context_op) : bool :=
  match op with SwapSurface | ScaleSurface _ _ _ | LockMemory _ | UnlockMemory | CopyRegion _ _ _ _ _ _ => true | _ => false end.

Lemma wpm_on_target {A} n c op (f : Surface -> prog (A * Surface)) failed y (Q : post (A * clients)) w nf g : held false n c.(m_surface_client) y w nf g ->
  (total = true -> target_open c y) -> acts_as f op -> by_context op ->
  (match op with CopyFromSurface _ _ _ _ _ => False | _ => True end) ->
  (forall a y' w' nf' g', held true n c.(m_surface_client) y' w' nf' g' -> y'.(y_list) = y.(y_list) -> Q (a, y') w' nf' g') ->
  wpm total (on_target failed f c y) Q w nf g.
Proof.
  intros Hh Ht Ef Hb Hs HQ. unfold on_target. apply wpm_if; [apply wpm_ret; apply HQ; [by apply held_after|done]|]. destruct (m_surface_client c) as [r|] eqn:Ec; [|apply wpm_ret; apply HQ; [by apply held_after|done]].
  destruct (held_get _ _ _ _ _ _ _ Hh) as (o & Eo & _). eapply (wpm_call n (Some r) r o op f); try done.
  - intros Et. by apply (Ht Et r o).
  - by destruct op.
Qed.

Lemma wpm_drop_client b n c y (Q : post (Context2D * clients)) w nf g : held b n c.(m_surface_client) y w nf g ->
  (forall y', held b n None y' w nf g -> y'.(y_list) = y.(y_list) -> Q (set_client_of None c, y') w nf g) -> wpm total (drop_client c y) Q w nf g.
Proof.
  intros Hh HQ. unfold drop_client. destruct (m_surface_client c) as [r|] eqn:Ec.
  - apply wpm_bind. eapply wpm_release; [exact Hh|]. intros y' Hh' Hl. apply wpm_ret. by apply HQ.
  - apply wpm_ret. specialize (HQ y Hh eq_refl). replace (set_client_of None c) with c in HQ; [done|]. destruct c. cbn in *. by subst.
Qed.

Lemma wpm_set_surface n surface_id options out c y (Q : post (IOReturn * Context2D * clients)) w nf g : held false n c.(m_surface_client) y w nf g ->
  (forall rc c' y' w' nf' g', held true n c'.(m_surface_client) y' w' nf' g' -> y'.(y_list) = y.(y_list) -> Q (rc, c', y') w' nf' g') ->
  wpm total (set_surface surface_id options out c y) Q w nf g.
Proof.
  intros Hh HQ. unfold set_surface. apply wpm_if; [apply wpm_ret; apply HQ; [by apply held_after|done]|]. apply wpm_bind. eapply wpm_drop_client; [exact Hh|]. intros y1 Hh1 Hl1. cbn [fst snd].
  apply wpm_if; [apply wpm_ret; apply HQ; [by apply held_after|done]|]. destruct (formats_of options) as [cecl apple]. apply wpm_bind. unfold locateSurface. cbn [c_provider set_target set_client_of m_surface_client].
  destruct (negb (c_provider c)); [apply wpm_ret, wpm_ret; apply HQ; [by apply held_after|done]|]. destruct (findSurfaceForID (u32 surface_id) y1) as [r|] eqn:Ef; [|apply wpm_ret, wpm_ret; apply HQ; [by apply held_after|done]].
  destruct (findSurfaceForID_found _ _ _ Ef) as (_ & o & Eo & Hp & _). apply wpm_bind. eapply wpm_retain; [exact Hh1|exact Eo|]. intros Hh2. apply wpm_ret. cbn [negb bool_decide].
  change (negb (bool_decide (kIOReturnSuccess = kIOReturnSuccess))) with false. apply wpm_bind. cbn [deref m_surface_client]. apply wpm_ret, wpm_bind.
  eapply (wpm_call n (Some r) r _ (ContextSetSurface cecl apple)); [exact Hh2|cbn; apply lookup_insert_eq|done|done|done|done|].
  intros a y2 w2 nf2 g2 Hh2' Hl2. apply wpm_ret. apply HQ; [done|]. etrans; [exact Hl2|exact Hl1].
Qed.


Lemma wpm_CopyRegion2D n garbage id dx dy rgn size c y (Q : post (IOReturn * clients)) w nf g : held false n c.(m_surface_client) y w nf g ->
  (total = true -> target_open c y) ->
  (forall rc y' w' nf' g', held true n c.(m_surface_client) y' w' nf' g' -> y'.(y_list) = y.(y_list) -> Q (rc, y') w' nf' g') ->
  wpm total (CopyRegion2D garbage id dx dy rgn size c y) Q w nf g.
Proof.
  intros Hh Ht HQ. unfold CopyRegion2D. do 2 (apply wpm_if; [apply wpm_ret; apply HQ; [by apply held_after|done]|]). destruct (bTargetIsCGSSurface c && negb (is_some (m_surface_client c))) eqn:Eb; [apply wpm_ret; apply HQ; [by apply held_after|done]|].
  assert (bTargetIsCGSSurface c = true -> exists r o, m_surface_client c = Some r /\ y_heap y !! r = Some o) as Htar.
  { intros Hb. rewrite Hb in Eb. destruct (m_surface_client c) as [r|] eqn:Ec; [|done]. destruct (held_get _ _ _ _ _ _ _ Hh) as (o & Eo & _). by exists r, o. }
  apply wpm_if.
  - destruct (findSurfaceForID _ y) as [src|] eqn:Ef; [|apply wpm_ret; apply HQ; [by apply held_after|done]]. destruct (findSurfaceForID_found _ _ _ Ef) as (_ & o & Eo & Hp & _).
    apply held_fold in Hh as [Hh Ho]. apply wpm_bind. eapply wpm_retain; [exact Hh|exact Eo|]. intros Hh1. set (y1 := put _ _ y) in *.
    assert (y_heap y1 !! src = Some (mk_object (ob_retain o + 1) (ob_surface o))) as Eo1 by apply lookup_insert_eq.
    apply wpm_bind. unfold get. rewrite Eo1. apply wpm_ret, wpm_bind.
    assert (forall rc y2 w2 nf2 g2, held true (fun r => n r + refs_of (m_surface_client c) r) (Some src) y2 w2 nf2 g2 -> y_list y2 = y_list y1 ->
      wpm total (y ← release_client src y2; mret (rc, y)) Q w2 nf2 g2) as Hend.
    { intros rc y2 w2 nf2 g2 Hh2 Hl2. apply wpm_bind. eapply wpm_release; [exact Hh2|]. intros y3 Hh3 Hl3. apply wpm_ret. assert (y_list y3 = y_list y) as El by (by rewrite Hl3, Hl2).
      apply HQ; [|done]. apply held_fold. split; [done|]. destruct Ho as [Hn Hl]. split; [done|]. intros r Hr. apply Hl. by rewrite <-El. }
    destruct (bTargetIsCGSSurface c) eqn:Et.
    + destruct (Htar eq_refl) as (r & o' & Ec & Eo'). rewrite Ec. apply wpm_bind. cbn [deref]. apply wpm_ret.
      assert (exists o1, y_heap y1 !! r = Some o1 /\ ob_surface o1 = ob_surface o') as (o1 & Eo1' & Es).
      { destruct (decide (r = src)) as [->|Hne]; [exists (mk_object (ob_retain o + 1) (ob_surface o)); split; [done|]; cbn; congruence|].
        exists o'. split; [|done]. cbn. by rewrite lookup_insert_ne. }
      eapply (wpm_call _ _ r o1 (CopyFromSurface (source_for r src (mk_object (ob_retain o + 1) (ob_surface o))) (s32 dx) (s32 dy) rgn size)); [exact Hh1|done| | |done| |].
      * done.
      * intros E. rewrite Es. by apply (Ht E r o').
      * eexists src, _. split; [exact Eo1|done].
      * intros rc y2 w2 nf2 g2 Hh2 Hl2. by apply Hend.
    + eapply (wpm_call _ _ src _ (CopyToFramebuffer rgn size)); [exact Hh1|exact Eo1|done| |done|done|].
      * by intros _.
      * intros rc y2 w2 nf2 g2 Hh2 Hl2. by apply Hend.
  - destruct (bTargetIsCGSSurface c) eqn:Et; cbn [negb].
    + destruct (Htar eq_refl) as (r & o' & Ec & Eo'). rewrite Ec. apply wpm_bind. cbn [deref]. apply wpm_ret.
      eapply (wpm_call _ _ r o' (CopyFromFramebuffer (c_framebufferIndex c) (s32 dx) (s32 dy) rgn size)); [exact Hh|done|done| |done|done|].
      * intros E. by apply (Ht E r o').
      * intros rc y2 w2 nf2 g2 Hh2 Hl2. by apply HQ.
    + apply wpm_bind. destruct Hh as [Hk Ho Hc]. eapply wpm_mono; [by eapply sv_ask|]. intros x w' nf' g' Hk'. apply wpm_ret. apply HQ; [by split|done].
Qed.

Lemma wpm_exec2D n op c y (Q : post (IOReturn * Context2D * clients)) w nf g : held false n c.(m_surface_client) y w nf g ->
  (total = true -> needs_target op = true -> target_open c y) ->
  (forall rc c' y' w' nf' g', held true n c'.(m_surface_client) y' w' nf' g' -> y'.(y_list) = y.(y_list) -> Q (rc, c', y') w' nf' g') ->
  wpm total (exec2D op c y) Q w nf g.
Proof.
  intros Hh Ht HQ. pose proof Hh as [Hk Ho Hc].
  assert (forall p, wpm total p (fun _ => K true y) w nf g -> wpm total (rc ← p; mret (rc, c, y)) Q w nf g) as Hsame.
  { intros p Hp. apply wpm_bind. eapply wpm_mono; [exact Hp|]. intros rc w' nf' g' Hk'. apply wpm_ret. apply HQ; [by split|done]. }
  assert (forall op, drawing_op op -> wpm total (r ← ask op; mret r.1) (fun _ => K true y) w nf g) as Hask.
  { intros op' Hop. apply wpm_bind. eapply wpm_mono; [by apply sv_ask|]. intros x w' nf' g' Hk'. by apply wpm_ret. }
  destruct op; cbn [exec2D needs_target] in *; try (apply Hsame, wpm_ret; by apply sv_after).
  - by apply wpm_set_surface with (n := n).
  - apply wpm_bind. eapply (wpm_on_target n c FlushVideo); [exact Hh|by auto| |done|done|].
    + by apply (acts_as_pair (fun _ => kIOReturnSuccess) surface_flush_video).
    + intros a y' w' nf' g' Hh' Hl. apply wpm_ret. by apply HQ.
  - apply wpm_bind. eapply (wpm_on_target n c (ContextScaleSurface (u32 options) (u32 width) (u32 height))); [exact Hh|by auto|done|done|done|].
    intros a y' w' nf' g' Hh' Hl. apply wpm_ret. by apply HQ.
  - apply wpm_bind, wpm_bind. unfold lock_memory. destruct out as [size|]; [|apply wpm_ret, wpm_ret, wpm_ret; apply HQ; [by apply held_after|done]]. apply wpm_if; [apply wpm_ret, wpm_ret, wpm_ret; apply HQ; [by apply held_after|done]|].
    eapply (wpm_on_target n c (ContextLockMemory (c_owning_task c))); [exact Hh|by auto| |done|done|].
    + intros s w' nf'. cbn [exec]. rewrite !spec_bind. destruct (spec (context_lock_memory _ s) w' nf') as [t|]; [|done]. cbn. by rewrite !app_nil_r.
    + intros a y' w' nf' g' Hh' Hl. apply wpm_ret, wpm_ret. by apply HQ.
  - apply wpm_bind. eapply (wpm_on_target n c ContextUnlockMemory); [exact Hh|by auto|done|done|done|]. intros a y' w' nf' g' Hh' Hl. apply wpm_ret. by apply HQ.
  - apply Hsame. unfold finish. apply wpm_if; [apply wpm_ret; by apply sv_after|]. apply wpm_if; [|apply wpm_ret; by apply sv_after]. apply wpm_bind, wpm_state, wpm_bind. eapply wpm_mono; [by apply sv_sync|].
    intros x w' nf' g' Hk'. by apply wpm_ret.
  - apply wpm_bind. eapply wpm_CopyRegion2D; [exact Hh|by auto|]. intros rc y' w' nf' g' Hh' Hl. apply wpm_ret. by apply HQ.
  - apply Hsame. unfold useAccelUpdates2D. apply wpm_if; [apply wpm_ret; by apply sv_after|]. apply wpm_bind. eapply wpm_mono; [by apply sv_updates|]. intros x w' nf' g' Hk'. by apply wpm_ret.
  - apply Hsame. unfold RectCopy2D. do 2 (apply wpm_if; [apply wpm_ret; by apply sv_after|]). by apply Hask.
  - apply Hsame. unfold RectFill2D. do 2 (apply wpm_if; [apply wpm_ret; by apply sv_after|]). by apply Hask.
  - apply Hsame. apply wpm_if; [by apply Hask|apply wpm_ret; by apply sv_after].
Qed.

Lemma wpm_clientClose2D n c y (Q : post (IOReturn * Context2D * clients)) w nf g : held false n c.(m_surface_client) y w nf g ->
  (forall c' y' w' nf' g', held true n None y' w' nf' g' -> y'.(y_list) = y.(y_list) -> c'.(m_surface_client) = None -> Q (kIOReturnSuccess, c', y') w' nf' g') ->
  wpm total (clientClose2D c y) Q w nf g.
Proof.
  intros Hh HQ. apply wpm_bind. eapply wpm_drop_client; [exact Hh|]. intros y1 Hh1 Hl1. apply wpm_bind. pose proof Hh1 as [Hk Ho Hc]. cbn [c_provider set_target set_index set_client_of].
  apply wpm_if; [|apply wpm_ret, wpm_ret; apply HQ; [by apply held_after|done|done]]. apply wpm_bind. eapply wpm_mono; [by apply sv_updates|]. intros x w' nf' g' Hk'. apply wpm_ret, wpm_ret.
  apply HQ; [by split|done|done].
Qed.
End context.

(** ** Any number of contexts and surfaces *)

#[global] Instance services_any : Services false (fun _ _ _ _ _ => True).
Proof. split; try done; intros; unfold wpm; by case_match. Qed.

Record system := mk_system { sy_clients : clients; sy_contexts : gmap Z Context2D; sy_world : world; sy_next : Z }.

(** What can happen: a surface is opened, one of its methods is called, it is closed,
    and at some time after that the accelerator lets it go; a context is opened, one of
    its methods is called, and it is closed.  The order of the clients is any. *)
Inductive step : system -> system -> Prop :=
  | step_open r task h l1 l2 cs w nf t : h !! r = None -> spec (start (initWithTask task)) w nf = Some t -> t.(t_result).1 = true ->
      step (mk_system (mk_clients h (l1 ++ l2)) cs w nf)
           (mk_system (mk_clients (<[r := mk_object 1 t.(t_result).2]> h) (l1 ++ r :: l2)) cs t.(t_world) t.(t_next))
  | step_method r o op y cs w nf t : y.(y_heap) !! r = Some o -> r ∈ y.(y_list) -> spec (exec op o.(ob_surface)) w nf = Some t ->
      step (mk_system y cs w nf) (mk_system (put r (mk_object o.(ob_retain) t.(t_result).2) y) cs t.(t_world) t.(t_next))
  | step_close r o y cs w nf t : y.(y_heap) !! r = Some o -> r ∈ y.(y_list) -> spec (clientClose o.(ob_surface)) w nf = Some t ->
      step (mk_system y cs w nf) (mk_system (put r (mk_object o.(ob_retain) t.(t_result).2) y) cs t.(t_world) t.(t_next))
  | step_detach r o h l1 l2 cs w nf t : h !! r = Some o -> o.(ob_surface).(m_provider) = false -> spec (release_client r (mk_clients h (l1 ++ l2))) w nf = Some t ->
      step (mk_system (mk_clients h (l1 ++ r :: l2)) cs w nf) (mk_system t.(t_result) cs t.(t_world) t.(t_next))
  | step_open2D k task y cs w nf : cs !! k = None ->
      step (mk_system y cs w nf) (mk_system y (<[k := start2D (initWithTask2D task)]> cs) w nf)
  | step_method2D k c op y cs w nf t : cs !! k = Some c -> spec (exec2D op c y) w nf = Some t ->
      step (mk_system y cs w nf) (mk_system t.(t_result).2 (<[k := t.(t_result).1.2]> cs) t.(t_world) t.(t_next))
  | step_close2D k c y cs w nf t : cs !! k = Some c -> spec (clientClose2D c y) w nf = Some t ->
      step (mk_system y cs w nf) (mk_system t.(t_result).2 (delete k cs) t.(t_world) t.(t_next)).

Definition no_clients (w : world) (nf : Z) : system := mk_system (mk_clients ∅ []) ∅ w nf.

(** The references of the accelerator and of all contexts. *)
Definition refs_in (l : list Z) (r : Z) : Z := if decide (r ∈ l) then 1 else 0.
Definition refs_by (cs : gmap Z Context2D) (r : Z) : Z := map_fold (fun _ c n => refs_of c.(m_surface_client) r + n) 0 cs.

Lemma refs_by_insert k c cs r : cs !! k = None -> refs_by (<[k := c]> cs) r = refs_by cs r + refs_of c.(m_surface_client) r.
Proof. intros Hk. unfold refs_by. rewrite map_fold_insert_L; [lia| |done]. intros. lia. Qed.

Lemma refs_by_delete k c cs r : cs !! k = Some c -> refs_by cs r = refs_by (delete k cs) r + refs_of c.(m_surface_client) r.
Proof. intros Hk. rewrite <-(insert_delete_id cs k c Hk) at 1. apply refs_by_insert, lookup_delete_eq. Qed.

Lemma refs_by_nonneg cs r : 0 <= refs_by cs r.
Proof.
  unfold refs_by. apply (map_fold_weak_ind (fun n _ => 0 <= n)); [done|]. intros k c m n _ Hn. pose proof (refs_of_nonneg c.(m_surface_client) r). lia.
Qed.

Record references_ok (y : clients) (cs : gmap Z Context2D) : Prop := {
  ro_nodup : NoDup y.(y_list);
  ro_counted : counted y (fun r => refs_in y.(y_list) r + refs_by cs r);
}.

Lemma references_held y cs k c w nf g : references_ok y cs -> cs !! k = Some c ->
  held (K := fun _ _ _ _ _ => True) false (fun r => refs_in y.(y_list) r + refs_by (delete k cs) r) c.(m_surface_client) y w nf g.
Proof.
  intros [_ Hc] Hk. split; [done| |eapply counted_ext; [exact Hc|]; intros r; cbn; rewrite (refs_by_delete _ _ _ _ Hk); lia].
  split; intros r; [|intros Hr]; pose proof (refs_by_nonneg (delete k cs) r); unfold refs_in; [case_decide; lia|rewrite decide_True by done; lia].
Qed.

Lemma wpm_spec {A} (p : prog A) (Q : post A) w nf g t : wpm false p Q w nf g -> spec p w nf = Some t -> Q t.(t_result) t.(t_world) t.(t_next) (watch g t.(t_events)).
Proof. unfold wpm. intros H Et. by rewrite Et in H. Qed.

Definition no_monitor : monitor := mk_monitor ∅ ∅ false [] true.

Lemma step_references σ σ' : step σ σ' -> references_ok σ.(sy_clients) σ.(sy_contexts) -> references_ok σ'.(sy_clients) σ'.(sy_contexts).
Proof.
  assert (forall r o o' y cs, y.(y_heap) !! r = Some o -> o'.(ob_retain) = o.(ob_retain) -> references_ok y cs -> references_ok (put r o' y) cs) as Hput.
  { intros r o o' y cs Eo Er [Hn Hc]. split; [done|]. pose proof (Hc r) as Hr. rewrite Eo in Hr. eapply counted_put; [exact Hc|cbn; rewrite Er; apply Hr|apply Hr|done]. }
  destruct 1 as [r task h l1 l2 cs w nf t Hh _ _|r o op y cs w nf t Eo _ _|r o y cs w nf t Eo _ _|r o h l1 l2 cs w nf t Eo _ Et|k task y cs w nf Hk|k c op y cs w nf t Hk Et|k c y cs w nf t Hk Et];
    cbn [sy_clients sy_contexts]; intros Hok; try (by eapply Hput).
  - destruct Hok as [Hn Hc]. cbn in Hn, Hc. pose proof (Hc r) as Hr. cbn in Hr. rewrite Hh in Hr. pose proof (refs_by_nonneg cs r) as Hb. unfold refs_in in Hr.
    destruct (decide (r ∈ l1 ++ l2)) as [|Hnin]; [lia|].
    assert (l1 ++ r :: l2 ≡ₚ r :: l1 ++ l2) as Hp by (by rewrite Permutation_middle). split; [cbn; rewrite Hp; by constructor|].
    apply (counted_put (mk_clients h (l1 ++ r :: l2)) (fun r => refs_in (l1 ++ l2) r + refs_by cs r)); [exact Hc|cbn; unfold refs_in..|]; [rewrite decide_True by (rewrite Hp; by left); lia..|]. intros r' Hne. cbn. unfold refs_in. f_equal.
    apply decide_ext. rewrite Hp, elem_of_cons. split; [by intros [|]|by right].
  - destruct Hok as [Hn Hc]. cbn in Hn, Hc. assert (l1 ++ r :: l2 ≡ₚ r :: l1 ++ l2) as Hp by (by rewrite Permutation_middle). rewrite Hp in Hn. apply NoDup_cons in Hn as [Hnin Hn].
    assert (held (K := fun _ _ _ _ _ => True) false (fun r => refs_in (l1 ++ l2) r + refs_by cs r) (Some r) (mk_clients h (l1 ++ l2)) w nf no_monitor) as Hh.
    { split; [done| |].
      - split; intros r'; [|intros Hr; cbn in Hr]; pose proof (refs_by_nonneg cs r'); unfold refs_in; [case_decide; lia|rewrite decide_True by done; lia].
      - intros r'. specialize (Hc r'). cbn in Hc |- *. replace (refs_in (l1 ++ l2) r' + refs_by cs r' + refs_of (Some r) r') with (refs_in (l1 ++ r :: l2) r' + refs_by cs r'); [done|].
        unfold refs_in, refs_of. destruct (decide (r' = r)) as [->|Hne].
        + rewrite decide_True by (rewrite Hp; by left). rewrite decide_False by done. rewrite decide_True by done. lia.
        + rewrite (decide_False (P := Some r = Some r')) by congruence. rewrite (decide_ext (r' ∈ l1 ++ r :: l2) (r' ∈ l1 ++ l2) 1 0); [lia|]. rewrite Hp, elem_of_cons. split; [by intros [|]|by right]. }
    eapply (wpm_spec (release_client r _) (fun y _ _ _ => references_ok y cs)); [|exact Et]. eapply wpm_release; [exact Hh|]. intros y' [_ _ Hc'] Hl'. cbn in Hl'. split; [by rewrite Hl'|].
    rewrite Hl'. eapply counted_ext; [exact Hc'|]. intros r'. cbn. rewrite refs_of_none. lia.
  - destruct Hok as [Hn Hc]. split; [done|]. eapply counted_ext; [exact Hc|]. intros r. cbn. rewrite refs_by_insert by done. cbn. rewrite refs_of_none. lia.
  - pose proof (references_held y cs k c w nf no_monitor Hok Hk) as Hh. destruct Hok as [Hn _].
    eapply (wpm_spec (exec2D op c y) (fun x _ _ _ => references_ok x.2 (<[k := x.1.2]> cs))); [|exact Et]. eapply wpm_exec2D; [exact Hh|done|].
    intros rc c' y' w' nf' g' [_ _ Hc'] Hl'. split; cbn; rewrite Hl'; [done|]. eapply counted_ext; [exact Hc'|]. intros r. cbn. rewrite <-insert_delete_eq, refs_by_insert by apply lookup_delete_eq. lia.
  - pose proof (references_held y cs k c w nf no_monitor Hok Hk) as Hh. destruct Hok as [Hn _].
    eapply (wpm_spec (clientClose2D c y) (fun x _ _ _ => references_ok x.2 (delete k cs))); [|exact Et]. eapply wpm_clientClose2D; [exact Hh|].
    intros c' y' w' nf' g' [_ _ Hc'] Hl' _. split; cbn; rewrite Hl'; [done|]. eapply counted_ext; [exact Hc'|]. intros r. cbn. rewrite refs_of_none. lia.
Qed.

(** C9: references between user clients.  Whatever contexts and surfaces are opened, used
    and closed, in any order and while they look each other up and copy from one another:
    every pointer of a context is to an object that exists, also when the surface was
    closed in the meantime, and so is every client of the accelerator; the retain count
    of an object is the number of pointers to it, so that it goes with the last one. *)
Theorem references_counted w nf σ : rtc step (no_clients w nf) σ ->
  (forall k c r, σ.(sy_contexts) !! k = Some c -> c.(m_surface_client) = Some r -> is_Some (σ.(sy_clients).(y_heap) !! r)) /\
  (forall r, r ∈ σ.(sy_clients).(y_list) -> is_Some (σ.(sy_clients).(y_heap) !! r)) /\
  (forall r o, σ.(sy_clients).(y_heap) !! r = Some o ->
     o.(ob_retain) = refs_in σ.(sy_clients).(y_list) r + refs_by σ.(sy_contexts) r /\ 0 < o.(ob_retain)).
Proof.
  intros Hr. assert (references_ok σ.(sy_clients) σ.(sy_contexts)) as [Hn Hc].
  { assert (references_ok (sy_clients (no_clients w nf)) (sy_contexts (no_clients w nf))) as H0.
    { split; [constructor|]. intros r. cbn. by rewrite lookup_empty. }
    revert H0. induction Hr as [|x y z Hs _ IH]; [done|]. intros H0. apply IH. by eapply step_references. }
  split_and!.
  - intros k c r Hk Ec. pose proof (references_held _ _ _ _ w nf no_monitor (Build_references_ok _ _ Hn Hc) Hk) as Hh. rewrite Ec in Hh.
    destruct (held_get _ _ _ _ _ _ _ Hh) as (o & Eo & _). by exists o.
  - intros r Hin. destruct (counted_get _ _ r Hc) as (o & Eo & _); [|by exists o]. unfold refs_in. rewrite decide_True by done. pose proof (refs_by_nonneg (sy_contexts σ) r). lia.
  - intros r o Eo. specialize (Hc r). rewrite Eo in Hc. destruct Hc as [E1 E2]. split; [done|lia].
Qed.

(** ** Contexts that use one surface *)

Section one.
Context (E : env) (r0 : Z) (n : Z) (Hready : ready E) (Hn : n + 6 < 2 ^ 30).

(** The surface [r0] is the only one, and is open. *)
Definition one_surface (b : bool) (y : clients) (w : world) (nf : Z) (g : monitor) : Prop :=
  exists L o, y = mk_clients {[r0 := o]} [r0] /\ Inv E (n + if b then 6 else 0) L o.(ob_surface) w g.

Lemma one_lookup o r o' : ({[r0 := o]} : gmap Z object) !! r = Some o' -> r = r0 /\ o' = o.
Proof. intros H. apply lookup_singleton_Some in H as [-> ->]. done. Qed.

#[global] Instance services_one : Services true one_surface.
Proof using Hready Hn.
  split.
  - intros y w nf g (L & o & Ey & HI). exists L, o. split; [done|]. eapply Inv_le; [exact HI|lia].
  - intros b y r o m w nf g (L & o' & -> & HI) Eo. apply one_lookup in Eo as [-> ->]. exists L, (mk_object m o'.(ob_surface)). split; [|done]. unfold put, set_heap. cbn. by rewrite insert_singleton_eq.
  - intros b y r w nf g (L & o & -> & HI) Hr. exists L, o. split; [|done]. unfold set_heap. cbn in *. rewrite delete_singleton_ne; [done|]. intros ->. apply Hr. by left.
  - intros y r o op w nf g (L & o' & -> & HI) Eo _ Hb Hs. apply one_lookup in Eo as [-> ->]. apply wpm_wp. eapply Inv_exec; [exact HI| |done|lia|].
    + destruct op; try done. destruct Hs as (r' & o & Eo & ->). apply one_lookup in Eo as [-> ->]. unfold source_for. by rewrite Z.eqb_refl.
    + intros rc s' L' w' nf' g' HI' _. exists L', (mk_object o'.(ob_retain) s'). split; [unfold put, set_heap; cbn; by rewrite insert_singleton_eq|]. by rewrite Z.add_0_r in HI'.
  - intros y op w nf g (L & o & -> & [Hw HB]) Hop. apply wpm_wp. eapply wp_plain; [exact HB|by destruct op|]. intros x w' nf' g' HB' _. exists L, o. split; [done|].
    apply (Inv_le E (n + 0)); [by split|lia].
  - intros y w nf g (L & o & -> & [Hw (blk & fs & [Ho B1 B2 B3 B4 B5 B6])]). apply wpm_wp. eapply wp_drain; [exact Ho|]. intros g' Ho'. exists L, o. split; [done|].
    apply (Inv_le E (n + 0)); [split; [done|]|lia]. exists blk, []. split; try done. by left.
  - intros y flag task w nf g (L & o & -> & [Hw (blk & fs & [Ho B1 B2 B3 B4 B5 B6])]). apply wpm_state. exists L, o. split; [done|]. apply (Inv_le E (n + 0)); [split; [done|]|lia].
    exists blk, fs. split; try done. destruct (Accel.useAccelUpdates _ _ _) as [[rc a] f] eqn:Ea. cbn. eapply owns_accel; [exact Ho| |done..].
    destruct Ho as [Ha _ _ _ _ _]. eapply accel_owned_same; [|exact Ha]. unfold Accel.useAccelUpdates in Ea. repeat case_match; injection Ea as <- <- <-; by repeat split.
Qed.
End one.

(** One surface that has been started, with any number of contexts; [k] counts the calls. *)
Inductive together (E : env) (task : Z) (w0 : world) (nf0 : Z) (g0 : monitor) (r0 : Z) : nat -> clients -> gmap Z Context2D -> world -> Z -> monitor -> Prop :=
  | tog_start t : spec (start (initWithTask task)) w0 nf0 = Some t -> t.(t_result).1 = true ->
      together E task w0 nf0 g0 r0 0 (mk_clients {[r0 := mk_object 1 t.(t_result).2]} [r0]) ∅ t.(t_world) t.(t_next) (watch g0 t.(t_events))
  | tog_method k y cs w nf g o op t : together E task w0 nf0 g0 r0 k y cs w nf g -> y.(y_heap) !! r0 = Some o -> allowed E op o.(ob_surface) -> spec (exec op o.(ob_surface)) w nf = Some t ->
      together E task w0 nf0 g0 r0 (S k) (put r0 (mk_object o.(ob_retain) t.(t_result).2) y) cs t.(t_world) t.(t_next) (watch g t.(t_events))
  | tog_open2D k y cs w nf g i task2D : together E task w0 nf0 g0 r0 k y cs w nf g -> cs !! i = None ->
      together E task w0 nf0 g0 r0 k y (<[i := start2D (initWithTask2D task2D)]> cs) w nf g
  | tog_method2D k y cs w nf g i c op t : together E task w0 nf0 g0 r0 k y cs w nf g -> cs !! i = Some c -> spec (exec2D op c y) w nf = Some t ->
      together E task w0 nf0 g0 r0 (S k) t.(t_result).2 (<[i := t.(t_result).1.2]> cs) t.(t_world) t.(t_next) (watch g t.(t_events))
  | tog_close2D k y cs w nf g i c t : together E task w0 nf0 g0 r0 k y cs w nf g -> cs !! i = Some c -> spec (clientClose2D c y) w nf = Some t ->
      together E task w0 nf0 g0 r0 (S k) t.(t_result).2 (delete i cs) t.(t_world) t.(t_next) (watch g t.(t_events)).

Section together.
Context (E : env) (task : Z) (w0 : world) (nf0 : Z) (g0 : monitor) (r0 : Z) (Hidle : SurfaceSpec.idle E w0 g0).
Implicit Types (w : world) (nf : Z) (g : monitor) (c : Context2D) (y : clients) (cs : gmap Z Context2D).

Definition safe_together (n : Z) y cs w nf g : Prop := one_surface (started E) r0 n false y w nf g /\ references_ok y cs.

Lemma together_held n y cs i c w nf g : safe_together n y cs w nf g -> cs !! i = Some c ->
  held (K := one_surface (started E) r0 n) false (fun r => refs_in y.(y_list) r + refs_by (delete i cs) r) c.(m_surface_client) y w nf g.
Proof. intros [H1 Hok] Hk. destruct (references_held y cs i c w nf g Hok Hk) as [_ Ho Hc]. by split. Qed.

Lemma open_target n y cs c w nf g : safe_together n y cs w nf g -> target_open c y.
Proof.
  intros [(L & o & -> & [Hw _]) _] r o' _ Eo. apply one_lookup in Eo as [_ ->]. apply Hw.
Qed.

Lemma run_context n y cs i c op (Q : post (IOReturn * Context2D * clients)) w nf g : n + 6 < 2 ^ 30 -> safe_together n y cs w nf g -> cs !! i = Some c ->
  (forall rc c' y' w' nf' g', safe_together (n + 6) y' (<[i := c']> cs) w' nf' g' -> Q (rc, c', y') w' nf' g') -> wp (exec2D op c y) Q w nf g.
Proof.
  intros Hn Hs Hi HQ. apply wpm_total. pose proof (services_one (started E) r0 n (started_ready E) Hn) as Hsv.
  eapply wpm_exec2D; [by eapply together_held|intros _ _; by eapply open_target|]. intros rc c' y' w' nf' g' [Hk' _ Hc'] Hl. apply HQ. destruct Hs as [_ [Hnd _]].
  split; [destruct Hk' as (L & o & Ey & HI); exists L, o; by rewrite Z.add_0_r|]. split; cbn; rewrite Hl; [done|]. eapply counted_ext; [exact Hc'|].
  intros r. cbn. rewrite <-insert_delete_eq, refs_by_insert by apply lookup_delete_eq. lia.
Qed.

Lemma close_context n y cs i c (Q : post (IOReturn * Context2D * clients)) w nf g : n + 6 < 2 ^ 30 -> safe_together n y cs w nf g -> cs !! i = Some c ->
  (forall c' y' w' nf' g', safe_together (n + 6) y' (delete i cs) w' nf' g' -> Q (kIOReturnSuccess, c', y') w' nf' g') -> wp (clientClose2D c y) Q w nf g.
Proof.
  intros Hn Hs Hi HQ. apply wpm_total. pose proof (services_one (started E) r0 n (started_ready E) Hn) as Hsv.
  eapply wpm_clientClose2D; [by eapply together_held|]. intros c' y' w' nf' g' [Hk' _ Hc'] Hl _. apply HQ. destruct Hs as [_ [Hnd _]].
  split; [destruct Hk' as (L & o & Ey & HI); exists L, o; by rewrite Z.add_0_r|]. split; cbn; rewrite Hl; [done|]. eapply counted_ext; [exact Hc'|]. intros r. cbn. rewrite refs_of_none. lia.
Qed.

Lemma run_surface n y cs o op t w nf g : n + 6 < 2 ^ 30 -> safe_together n y cs w nf g -> y.(y_heap) !! r0 = Some o -> allowed E op o.(ob_surface) -> spec (exec op o.(ob_surface)) w nf = Some t ->
  safe_together (n + 6) (put r0 (mk_object o.(ob_retain) t.(t_result).2) y) cs t.(t_world) t.(t_next) (watch g t.(t_events)).
Proof.
  intros Hn [(L & o' & -> & HI) [Hnd Hc]] Eo Ha Et. apply one_lookup in Eo as [_ ->]. rewrite Z.add_0_r in HI.
  destruct (Inv_exec (started E) op _ L o'.(ob_surface) (fun r w nf g => exists L', Inv (started E) (n + 6) L' r.2 w g) w nf g HI) as (t' & Et' & L' & HI'); [|apply started_ready|lia| |].
  - destruct op; try done. unfold allowed, source_alive in *. destruct src; try done. intros d Hd. specialize (Ha d Hd). unfold started. by destruct (needs_test E).
  - intros rc s' L' w' nf' g' HI' _. by exists L'.
  - rewrite Et in Et'. injection Et' as <-. split; [eexists L', _; split; [unfold put, set_heap; cbn; by rewrite insert_singleton_eq|by rewrite Z.add_0_r]|].
    split; [done|]. pose proof (Hc r0) as H0. cbn in H0. rewrite lookup_singleton_eq in H0. eapply counted_put; [exact Hc|apply H0|apply H0|done].
Qed.

Lemma together_safe k y cs w nf g : together E task w0 nf0 g0 r0 k y cs w nf g -> Z.of_nat k < 2 ^ 27 -> safe_together (1 + 6 * Z.of_nat k) y cs w nf g.
Proof using Hidle.
  induction 1 as [t Et Er|k y cs w nf g o op t Hr IH Eo Ha Et|k y cs w nf g i task2D Hr IH Hi|k y cs w nf g i c op t Hr IH Hi Et|k y cs w nf g i c t Hr IH Hi Et]; intros Hk.
  - destruct (reachable_Inv E task w0 nf0 g0 Hidle true 0 _ _ _ _ (reach_start E task w0 nf0 g0 t Et Er) Hk) as (L & HI & _). split.
    + eexists L, _. split; [done|]. by rewrite Z.add_0_r.
    + split; [repeat constructor; by apply not_elem_of_nil|]. intros r. cbn. destruct (decide (r = r0)) as [->|Hne].
      * rewrite lookup_singleton_eq. cbn. unfold refs_in. rewrite decide_True by (by left). by unfold refs_by; rewrite map_fold_empty.
      * rewrite lookup_singleton_ne by done. unfold refs_in, refs_by. rewrite map_fold_empty, decide_False; [done|]. intros Hin. apply elem_of_cons in Hin as [?|Hin]; [done|by apply not_elem_of_nil in Hin].
  - replace (1 + 6 * Z.of_nat (S k)) with (1 + 6 * Z.of_nat k + 6) by lia. by eapply run_surface; [|apply IH| | |]; try lia.
  - destruct (IH Hk) as [H1 [Hnd Hc]]. split; [done|]. split; [done|]. eapply counted_ext; [exact Hc|]. intros r. cbn. rewrite refs_by_insert by done. cbn. rewrite refs_of_none. lia.
  - destruct (run_context (1 + 6 * Z.of_nat k) y cs i c op (fun x w nf g => safe_together (1 + 6 * Z.of_nat (S k)) x.2 (<[i := x.1.2]> cs) w nf g) w nf g) as (t' & Et' & Hs); [lia|apply IH; lia|done| |].
    + intros rc c' y' w' nf' g' Hs. by replace (1 + 6 * Z.of_nat (S k)) with (1 + 6 * Z.of_nat k + 6) by lia.
    + rewrite Et in Et'. by injection Et' as <-.
  - destruct (close_context (1 + 6 * Z.of_nat k) y cs i c (fun x w nf g => safe_together (1 + 6 * Z.of_nat (S k)) x.2 (delete i cs) w nf g) w nf g) as (t' & Et' & Hs); [lia|apply IH; lia|done| |].
    + intros c' y' w' nf' g' Hs. by replace (1 + 6 * Z.of_nat (S k)) with (1 + 6 * Z.of_nat k + 6) by lia.
    + rewrite Et in Et'. by injection Et' as <-.
Qed.

(** C8: contexts on a window surface.  While a surface and any number of 2D contexts are
    used in turn, every method of every context ends: it follows no null pointer or pointer
    to an object that is gone, whether it draws on the screen, locks the surface, shows
    video or copies, also from the surface to itself; and memory of the surface is given
    back only when no transfer can be using it. *)
Theorem contexts_safe k y cs w nf g i c op : together E task w0 nf0 g0 r0 k y cs w nf g -> Z.of_nat k < 2 ^ 27 -> cs !! i = Some c ->
  exists t, spec (exec2D op c y) w nf = Some t /\ (watch g t.(t_events)).(g_safe) = true.
Proof using Hidle.
  intros Hr Hk Hi. pose proof (together_safe _ _ _ _ _ _ Hr Hk) as Hs.
  destruct (run_context (1 + 6 * Z.of_nat k) y cs i c op (fun _ _ _ g => g.(g_safe) = true) w nf g ltac:(lia) Hs Hi) as (t & Et & Hg); [|by exists t].
  intros rc c' y' w' nf' g' [(L & o & _ & [_ (blk & fs & [Ho _ _ _ _ _ _])]) _]. by destruct (ow_safe _ _ _ _ Ho).
Qed.
End together.

(** ** A surface that was closed *)

Lemma spec_wild_bind {A B} (p : prog A) (f : A -> prog B) w nf : spec p w nf = None -> spec (p ≫= f) w nf = None.
Proof. intros Hp. by rewrite spec_bind, Hp. Qed.

(** Memory for a surface without a provider. *)
Lemma allocBacking_closed s w nf : s.(m_provider) = false -> isClientBackingValid s = false -> s.(m_backing) = no_backing -> spec (allocBacking s) w nf = None.
Proof.
  intros Hp Hc Hb. unfold allocBacking. rewrite Hc. unfold classifyBacking. rewrite Hb. cbn [no_backing bk_self bk_vtb md init set_gmr is_some Z.eqb andb].
  assert (spec (alloc_new_backing s) w nf = None) as H; [|exact H].
  apply spec_wild_bind. unfold provider. change (m_provider (on_backing _ s)) with (m_provider s). by rewrite Hp.
Qed.

(** A context can outlive the surface that it refers to.  The reference keeps the object,
    and [lock_memory] then calls the provider through a null pointer. *)
Lemma lock_after_close c y r o out w nf : c.(bTargetIsCGSSurface) = true -> c.(m_surface_client) = Some r -> y.(y_heap) !! r = Some o -> 16 <= out ->
  o.(ob_surface).(m_provider) = false -> o.(ob_surface).(bHaveID) = true -> isSourceValid o.(ob_surface) = true -> o.(ob_surface).(bIsLocked) = 0 ->
  isClientBackingValid o.(ob_surface) = false -> o.(ob_surface).(m_backing) = no_backing -> spec (lock_memory (Some out) c y) w nf = None.
Proof.
  intros Hb Hc Hr Ho Hp Hid Hsrc Hl Hcb Hbk.
  assert (spec (context_lock_memory (c_owning_task c) o.(ob_surface)) w nf = None) as Hw.
  { unfold context_lock_memory. rewrite Hid, Hsrc. unfold set_lock. rewrite Hl. do 2 apply spec_wild_bind. by apply allocBacking_closed. }
  unfold lock_memory, on_target. rewrite (proj2 (Z.ltb_ge _ _) Ho), Hb, Hc. cbn [negb]. unfold call, get. rewrite Hr, spec_bind. cbn [deref spec mret prog_ret mbind option_bind t_result t_world t_next].
  by rewrite spec_bind, Hw.
Qed.

(** ** The hypotheses can be met *)

(** A surface with the id 5, and a context that finds it: its pointer and the retain
    count. *)
Definition found (w : world) (nf : Z) : option (option Z * Z) :=
  t ← spec (start (initWithTask 7)) w nf;
  t' ← spec (exec (SetIDMode 5 0x24) t.(t_result).2) t.(t_world) t.(t_next);
  t'' ← spec (exec2D (SetSurface 5 0x800 (Some 8)) (start2D (initWithTask2D 8)) (mk_clients {[0 := mk_object 1 t'.(t_result).2]} [0])) t'.(t_world) t'.(t_next);
  o ← t''.(t_result).2.(y_heap) !! 0;
  if (t.(t_result).1 : bool) then Some (t''.(t_result).1.2.(m_surface_client), o.(ob_retain)) else None.

Lemma demo_found : found demo_start 1 = Some (Some 0, 2).
Proof. vm_compute. reflexivity. Qed.

Lemma found_steps E w nf g p n : found w nf = Some (p, n) -> exists y c w' nf' g',
  rtc step (no_clients w nf) (mk_system y {[8 := c]} w' nf') /\ together E 7 w nf g 0 2 y {[8 := c]} w' nf' g' /\ c.(m_surface_client) = p.
Proof.
  unfold found. destruct (spec (start _) w nf) as [t|] eqn:Et; [|done]. cbn [mbind option_bind].
  destruct (spec (exec (SetIDMode 5 36) t.(t_result).2) _ _) as [t'|] eqn:Et'; [|done]. cbn [mbind option_bind].
  destruct (spec (exec2D (SetSurface 5 2048 (Some 8)) _ _) _ _) as [t2|] eqn:Et2; [|done]. cbn [mbind option_bind]. destruct (y_heap t2.(t_result).2 !! 0) as [o|]; [|done]. cbn [mbind option_bind].
  destruct (t_result t).1 eqn:Er; [|done]. intros [= <- <-].
  exists t2.(t_result).2, t2.(t_result).1.2, t2.(t_world), t2.(t_next), (watch (watch (watch g t.(t_events)) t'.(t_events)) t2.(t_events)). split_and!; [| |done].
  - eapply rtc_l; [apply (step_open 0 7 ∅ [] [] ∅ w nf t); done|]. eapply rtc_l; [eapply (step_method 0); [apply lookup_insert_eq|by left|exact Et']|].
    eapply rtc_l; [apply (step_open2D 8 8); done|]. apply rtc_once. rewrite <-(insert_empty (M := gmap Z)).
    replace (<[8 := t2.(t_result).1.2]> ∅) with (<[8 := t2.(t_result).1.2]> (<[8 := start2D (initWithTask2D 8)]> (∅ : gmap Z Context2D))) by apply insert_insert_eq.
    eapply step_method2D; [apply lookup_insert_eq|]. unfold put, set_heap. cbn [y_heap y_list ob_retain app]. rewrite insert_insert_eq. exact Et2.
  - replace ({[8 := t2.(t_result).1.2]}) with (<[8 := t2.(t_result).1.2]> (<[8 := start2D (initWithTask2D 8)]> (∅ : gmap Z Context2D))) by apply insert_insert_eq.
    eapply tog_method2D; [eapply tog_open2D; [eapply tog_method with (op := SetIDMode 5 0x24); [by apply tog_start|apply lookup_singleton_eq|done|exact Et']|done]|apply lookup_insert_eq|].
    unfold put, set_heap. cbn [y_heap y_list ob_retain]. rewrite insert_singleton_eq. exact Et2.
Qed.

Lemma references_counted_witness : exists σ c, rtc step (no_clients demo_start 1) σ /\ σ.(sy_contexts) !! 8 = Some c /\ c.(m_surface_client) = Some 0 /\ is_Some (σ.(sy_clients).(y_heap) !! 0).
Proof.
  destruct (found_steps demo_env demo_start 1 demo_monitor (Some 0) 2 demo_found) as (y & c & w' & nf' & g' & Hr & _ & Ec). exists (mk_system y {[8 := c]} w' nf'), c.
  split; [exact Hr|]. split; [apply lookup_singleton_eq|]. split; [exact Ec|]. destruct (references_counted demo_start 1 _ Hr) as (H1 & _). apply (H1 8 c 0); [apply lookup_singleton_eq|exact Ec].
Defined.

Lemma contexts_safe_witness : exists y c w nf g t, together demo_env 7 demo_start 1 demo_monitor 0 2 y {[8 := c]} w nf g /\ c.(m_surface_client) = Some 0 /\ spec (exec2D (LockMemory (Some 16)) c y) w nf = Some t /\ (watch g t.(t_events)).(g_safe) = true.
Proof.
  destruct (found_steps demo_env demo_start 1 demo_monitor (Some 0) 2 demo_found) as (y & c & w' & nf' & g' & _ & Hr & Ec).
  destruct (contexts_safe demo_env 7 demo_start 1 demo_monitor 0 demo_idle_client 2 y {[8 := c]} w' nf' g' 8 c (LockMemory (Some 16)) Hr ltac:(done) ltac:(apply lookup_singleton_eq)) as (t & Et & Hg).
  exists y, c, w', nf', g', t. split; [exact Hr|]. split; [exact Ec|]. split; [exact Et|exact Hg].
Defined.
