(* ===== verification/Context2DTable.v ===== *)
(** The table of the methods of the 2D user client (AC/UC/CEsvga22DContext.cpp,
    AC/UCMethods.h): what a message to a context has to carry, and which method it
    reaches. *)

From S2P Require Import Prelude IOKit Context2D.

(** The selectors are the indices of the table. *)
Inductive eIOCE2DMethods :=
  | kIOCE2DSetSurface | kIOCE2DGetConfig | kIOCE2DGetSurfaceInfo1 | kIOCE2DSwapSurface | kIOCE2DScaleSurface
  | kIOCE2DLockMemory | kIOCE2DUnlockMemory | kIOCE2DFinish | kIOCE2DDeclareImage | kIOCE2DCreateImage
  | kIOCE2DCreateTransfer | kIOCE2DDeleteImage | kIOCE2DWaitImage | kIOCE2DSetSurfacePagingOptions
  | kIOCE2DSetSurfaceVsyncOptions | kIOCE2DSetMacrovision | kIOCE2DReadConfigs | kIOCE2DReadConfigEx
  | kIOCE2DGetSurfaceInfo2 | kIOCE2DKernelPrintf | kIOCE2DCopyRegion | kIOCE2DUseAccelUpdates
  | kIOCE2DRectCopy | kIOCE2DRectFill | kIOCE2DUpdateFramebuffer'.

Definition selector (m : eIOCE2DMethods) : Z :=
  match m with
  | kIOCE2DSetSurface => 0 | kIOCE2DGetConfig => 1 | kIOCE2DGetSurfaceInfo1 => 2 | kIOCE2DSwapSurface => 3 | kIOCE2DScaleSurface => 4
  | kIOCE2DLockMemory => 5 | kIOCE2DUnlockMemory => 6 | kIOCE2DFinish => 7 | kIOCE2DDeclareImage => 8 | kIOCE2DCreateImage => 9
  | kIOCE2DCreateTransfer => 10 | kIOCE2DDeleteImage => 11 | kIOCE2DWaitImage => 12 | kIOCE2DSetSurfacePagingOptions => 13
  | kIOCE2DSetSurfaceVsyncOptions => 14 | kIOCE2DSetMacrovision => 15 | kIOCE2DReadConfigs => 16 | kIOCE2DReadConfigEx => 17
  | kIOCE2DGetSurfaceInfo2 => 18 | kIOCE2DKernelPrintf => 19 | kIOCE2DCopyRegion => 20 | kIOCE2DUseAccelUpdates => 21
  | kIOCE2DRectCopy => 22 | kIOCE2DRectFill => 23 | kIOCE2DUpdateFramebuffer' => 24
  end.

(** How the arguments of a method travel: the two counts are of the first and of the
    second kind that the name gives. *)
Inductive method_type := kIOUCScalarIScalarO | kIOUCScalarIStructI | kIOUCScalarIStructO | kIOUCStructIStructO.
Definition kIOUCVariableStructureSize : Z := 0xffffffff.

(** The methods by name. *)
Inductive func :=
  | f_set_surface | f_get_config | f_get_surface_info1 | f_swap_surface | f_scale_surface | f_lock_memory | f_unlock_memory | f_finish
  | f_declare_image | f_create_image | f_create_transfer | f_delete_image | f_wait_image | f_set_surface_paging_options
  | f_set_surface_vsync_options | f_set_macrovision | f_read_configs | f_read_config_Ex | f_get_surface_info2 | f_kernel_printf
  | f_CopyRegion | f_useAccelUpdates | f_RectCopy | f_RectFill | f_UpdateFramebufferAutoRing.

Record IOExternalMethod := mk_method { em_func : func; em_flags : method_type; em_count0 : Z; em_count1 : Z }.

Definition iofbFuncsCache : list IOExternalMethod :=
  let V := kIOUCVariableStructureSize in
  [ mk_method f_set_surface kIOUCScalarIStructO 2 V;
    mk_method f_get_config kIOUCScalarIScalarO 0 2;
    mk_method f_get_surface_info1 kIOUCScalarIStructO 2 V;
    mk_method f_swap_surface kIOUCScalarIScalarO 1 1;
    mk_method f_scale_surface kIOUCScalarIScalarO 3 0;
    mk_method f_lock_memory kIOUCScalarIStructO 1 V;
    mk_method f_unlock_memory kIOUCScalarIScalarO 1 1;
    mk_method f_finish kIOUCScalarIScalarO 1 0;
    mk_method f_declare_image kIOUCStructIStructO V V;
    mk_method f_create_image kIOUCScalarIStructO 2 V;
    mk_method f_create_transfer kIOUCScalarIStructO 2 V;
    mk_method f_delete_image kIOUCScalarIScalarO 1 0;
    mk_method f_wait_image kIOUCScalarIScalarO 1 0;
    mk_method f_set_surface_paging_options kIOUCStructIStructO 12 12;
    mk_method f_set_surface_vsync_options kIOUCStructIStructO 12 12;
    mk_method f_set_macrovision kIOUCScalarIScalarO 1 0;
    mk_method f_read_configs kIOUCStructIStructO V V;
    mk_method f_read_config_Ex kIOUCStructIStructO V V;
    mk_method f_get_surface_info2 kIOUCStructIStructO V V;
    mk_method f_kernel_printf kIOUCScalarIStructI 0 V;
    mk_method f_CopyRegion kIOUCScalarIStructI 3 V;
    mk_method f_useAccelUpdates kIOUCScalarIScalarO 1 0;
    mk_method f_RectCopy kIOUCScalarIStructI 0 V;
    mk_method f_RectFill kIOUCScalarIStructI 1 V;
    mk_method f_UpdateFramebufferAutoRing kIOUCScalarIStructI 0 16 ].

(** What [IOUserClient] checks before it calls a method of this kind: [si], [so] are the
    numbers of scalars in and out, [bi], [bo] the bytes of the structures in and out. *)
Definition size_ok (count size : Z) : bool := (count =? kIOUCVariableStructureSize) || (size =? count).
Definition fits_method (e : IOExternalMethod) (si bi so bo : Z) : bool :=
  match e.(em_flags) with
  | kIOUCScalarIScalarO => (si =? e.(em_count0)) && (so =? e.(em_count1))
  | kIOUCScalarIStructI => (si =? e.(em_count0)) && size_ok e.(em_count1) bi
  | kIOUCScalarIStructO => (si =? e.(em_count0)) && size_ok e.(em_count1) bo
  | kIOUCStructIStructO => size_ok e.(em_count0) bi && size_ok e.(em_count1) bo
  end.

(** The entry that a selector reaches. *)
Definition method_at (index : Z) (c : Context2D) : option (target * IOExternalMethod) :=
  x ← getTargetAndMethodForIndex true index c;
  e ← iofbFuncsCache !! Z.to_nat x.2;
  Some (x.1, e).
