(* ===== verification/GaPlugin.v ===== *)
(** The plug-in of the window server (GA/CEsvga2GA.cpp, GA/BlitHelper.c): an instance is
    the window server's end of a connection to the 2D user client.  A method of the plug-in
    is a program that makes requests of the system, first of all messages to the context,
    and works on the memory that the plug-in shares with the window server. *)

From S2P Require Import Prelude IOKit AccelBlit Accel Surface Context2D Context2DTable.
From stdpp Require Import gmap.

#[local] Open Scope Z_scope.

(** ** Requests *)

(** The structure that a message carries. *)
Inductive payload :=
  | NoInput
  | InWords (l : list Z)
  | InCopyRects (l : list IOBlitCopyRectangle)
  | InRects (l : list IOBlitRectangle)
  | InRegion (rgn : IOAccelDeviceRegion).

(** The arguments of [IOConnectCallMethod] besides the connection: the selector, the
    scalars, the structure and its size, and the room for scalars and for bytes that the
    answer may take. *)
Record message := mk_message { ms_method : eIOCE2DMethods; ms_scalars : list Z; ms_struct : payload; ms_size : Z; ms_out : Z; ms_out_size : Z }.

(** The code, and what is in the variables for the answer after the call. *)
Record reply := mk_reply { an_rc : IOReturn; an_scalars : list Z; an_words : list Z }.
Definition scalar (i : nat) (a : reply) : Z := nth i a.(an_scalars) 0.
Definition word (i : nat) (a : reply) : Z := nth i a.(an_words) 0.

(** A request, by the type of what comes back.  [Undefined] is the value of a variable that
    was not initialised, or of memory that the program does not describe. *)
Inductive request : Set -> Type :=
  | Malloc : request bool
  | Undefined : request Z
  | AddInstanceForFactory : request unit
  | RemoveInstanceForFactory : request unit
  | IOAccelFindAccelerator (service : Z) : request (IOReturn * Z * Z)
  | IOServiceOpen (accelerator type : Z) : request (IOReturn * Z)
  | IOServiceClose (connect : Z) : request unit
  | IOObjectRelease (object : Z) : request unit
  | IOConnectMapMemory (connect type : Z) : request unit
  | IOConnectCallMethod (connect : Z) (m : message) : request reply.

(** [Crash] is an access to memory that is not there. *)
Inductive tree (A : Type) : Type :=
  | Done (a : A)
  | Crash
  | Need {T : Set} (r : request T) (k : T -> tree A).
Arguments Done {A}. Arguments Crash {A}. Arguments Need {A T}.

Definition tree_bind {A B} (f : A -> tree B) : tree A -> tree B :=
  fix go t := match t with Done a => f a | Crash => Crash | Need r k => Need r (fun x => go (k x)) end.

(** ** Memory *)

(** The fields of an instance; the context and the accelerator are 0 while there is none.
    [_interface] is the address of the only table of functions. *)
Record GAType := mk_GAType {
  _interface : bool; _factoryID : bool; _refCount : Z; _context : Z; _accelerator : Z; _buffer : list Z; _framebufferIndex : Z;
  _config_val_1 : Z; _surface : option Z; _config_Ex_1 : Z; _config_Ex_2 : Z; _config_val_2 : Z;
}.
Definition set_refCount (n : Z) (me : GAType) : GAType :=
  mk_GAType me.(_interface) me.(_factoryID) n me.(_context) me.(_accelerator) me.(_buffer) me.(_framebufferIndex) me.(_config_val_1) me.(_surface) me.(_config_Ex_1) me.(_config_Ex_2) me.(_config_val_2).
Definition set_connection (accelerator context : Z) (me : GAType) : GAType :=
  mk_GAType me.(_interface) me.(_factoryID) me.(_refCount) context accelerator me.(_buffer) me.(_framebufferIndex) me.(_config_val_1) me.(_surface) me.(_config_Ex_1) me.(_config_Ex_2) me.(_config_val_2).
Definition set_framebufferIndex (i : Z) (me : GAType) : GAType :=
  mk_GAType me.(_interface) me.(_factoryID) me.(_refCount) me.(_context) me.(_accelerator) me.(_buffer) i me.(_config_val_1) me.(_surface) me.(_config_Ex_1) me.(_config_Ex_2) me.(_config_val_2).
Definition set_config_val_1 (v : Z) (me : GAType) : GAType :=
  mk_GAType me.(_interface) me.(_factoryID) me.(_refCount) me.(_context) me.(_accelerator) me.(_buffer) me.(_framebufferIndex) v me.(_surface) me.(_config_Ex_1) me.(_config_Ex_2) me.(_config_val_2).
Definition set_config_val_2 (v : Z) (me : GAType) : GAType :=
  mk_GAType me.(_interface) me.(_factoryID) me.(_refCount) me.(_context) me.(_accelerator) me.(_buffer) me.(_framebufferIndex) me.(_config_val_1) me.(_surface) me.(_config_Ex_1) me.(_config_Ex_2) v.
Definition set_buffer (b : list Z) (me : GAType) : GAType :=
  mk_GAType me.(_interface) me.(_factoryID) me.(_refCount) me.(_context) me.(_accelerator) b me.(_framebufferIndex) me.(_config_val_1) me.(_surface) me.(_config_Ex_1) me.(_config_Ex_2) me.(_config_val_2).
Definition set_destination (s : option Z) (me : GAType) : GAType :=
  mk_GAType me.(_interface) me.(_factoryID) me.(_refCount) me.(_context) me.(_accelerator) me.(_buffer) me.(_framebufferIndex) me.(_config_val_1) s me.(_config_Ex_1) me.(_config_Ex_2) me.(_config_val_2).
Definition set_config_Ex (v1 v2 : Z) (me : GAType) : GAType :=
  mk_GAType me.(_interface) me.(_factoryID) me.(_refCount) me.(_context) me.(_accelerator) me.(_buffer) me.(_framebufferIndex) me.(_config_val_1) me.(_surface) v1 v2 me.(_config_val_2).

(** [d0] is a pointer to a word: null, or the word.  The plug-in does not read [d2]. *)
Record SurfaceInfo := mk_SurfaceInfo { d0 : option Z; addr : Z; cgsSurfaceID : Z }.

(** The fields of the window server's description of a surface that the plug-in uses. *)
Record IOBlitSurface := mk_IOBlitSurface { pixelFormat : Z; size_width : Z; size_height : Z; rowBytes : Z; accessFlags : Z; interfaceRef : option Z }.
Definition set_interfaceRef (r : option Z) (s : IOBlitSurface) : IOBlitSurface :=
  mk_IOBlitSurface s.(pixelFormat) s.(size_width) s.(size_height) s.(rowBytes) s.(accessFlags) r.
Definition set_access (bytes flags : Z) (s : IOBlitSurface) : IOBlitSurface :=
  mk_IOBlitSurface s.(pixelFormat) s.(size_width) s.(size_height) bytes flags s.(interfaceRef).

(** The functions of the plug-in, and the slots of its table. *)
Inductive slot :=
  | QueryInterface | AddRef | Release | Probe | Start | Stop | Reset | CopyCapabilities | Flush | Synchronize | GetBeamPosition
  | AllocateSurface | FreeSurface | LockSurface | UnlockSurface | SwapSurface | SetDestination | GetBlitter | WaitComplete
  | gaInterfaceReserved (i : Z).
Inductive ce :=
  | F_ceQueryInterface | F_ceAddRef | F_ceRelease | F_ceProbe | F_ceStart | F_ceStop | F_ceReset | F_ceGetCapabilities | F_ceFlush
  | F_ceSynchronize | F_ceGetBeamPosition | F_ceAllocateSurface | F_ceFreeSurface | F_ceLockSurface | F_ceUnlockSurface | F_ceSwapSurface
  | F_ceSetDestination | F_ceGetBlitter | F_ceWaitComplete | F_ceWaitSurface | F_ceSetSurface.
#[global] Instance slot_eq_dec : EqDecision slot.
Proof. solve_decision. Defined.

(** The memory: instances, descriptions and infos of surfaces by their addresses, and the
    variables of the file. *)
Record plugin := mk_plugin {
  p_instances : gmap Z GAType; p_surfaces : gmap Z IOBlitSurface; p_infos : gmap Z SurfaceInfo;
  ga : list (slot * ce); ga_initialized : bool; this_ga : option Z; this_ga_ctx : Z;
}.
Definition set_instances (h : gmap Z GAType) (p : plugin) : plugin := mk_plugin h p.(p_surfaces) p.(p_infos) p.(ga) p.(ga_initialized) p.(this_ga) p.(this_ga_ctx).
Definition set_surfaces (h : gmap Z IOBlitSurface) (p : plugin) : plugin := mk_plugin p.(p_instances) h p.(p_infos) p.(ga) p.(ga_initialized) p.(this_ga) p.(this_ga_ctx).
Definition set_infos (h : gmap Z SurfaceInfo) (p : plugin) : plugin := mk_plugin p.(p_instances) p.(p_surfaces) h p.(ga) p.(ga_initialized) p.(this_ga) p.(this_ga_ctx).
Definition set_ga (t : list (slot * ce)) (p : plugin) : plugin := mk_plugin p.(p_instances) p.(p_surfaces) p.(p_infos) t true p.(this_ga) p.(this_ga_ctx).
Definition set_this (r : option Z) (c : Z) (p : plugin) : plugin := mk_plugin p.(p_instances) p.(p_surfaces) p.(p_infos) p.(ga) p.(ga_initialized) r c.

(** ** Programs *)

Definition prog (A : Type) : Type := plugin -> tree (A * plugin).
#[global] Instance ga_prog_ret : MRet prog := fun A a p => Done (a, p).
#[global] Instance ga_prog_bind : MBind prog := fun A B f m p => tree_bind (fun x => f x.1 x.2) (m p).

Definition need {T} (r : request T) : prog T := fun p => Need r (fun x => Done (x, p)).
Definition crash {A} : prog A := fun _ => Crash.
Definition read {A} (f : plugin -> A) : prog A := fun p => Done (f p, p).
Definition update (f : plugin -> plugin) : prog unit := fun p => Done (tt, f p).
Definition deref {A} (x : option A) : prog A := match x with Some a => mret a | None => crash end.

Definition load_instance (r : Z) : prog GAType := x ← read (fun p => p.(p_instances) !! r); deref x.
Definition store_instance (r : Z) (f : GAType -> GAType) : prog unit :=
  me ← load_instance r; update (fun p => set_instances (<[r := f me]> p.(p_instances)) p).
Definition load_surface (r : Z) : prog IOBlitSurface := x ← read (fun p => p.(p_surfaces) !! r); deref x.
Definition store_surface (r : Z) (f : IOBlitSurface -> IOBlitSurface) : prog unit :=
  s ← load_surface r; update (fun p => set_surfaces (<[r := f s]> p.(p_surfaces)) p).
Definition load_info (r : Z) : prog SurfaceInfo := x ← read (fun p => p.(p_infos) !! r); deref x.
Definition store_info (r : Z) (f : SurfaceInfo -> SurfaceInfo) : prog unit :=
  s ← load_info r; update (fun p => set_infos (<[r := f s]> p.(p_infos)) p).

(** [free]; the address must be of a block. *)
Definition free_instance (r : Z) : prog unit := load_instance r;; update (fun p => set_instances (delete r p.(p_instances)) p).
Definition free_info (r : Z) : prog unit := load_info r;; update (fun p => set_infos (delete r p.(p_infos)) p).

(** [if (!me) return kIOReturnBadArgument; if (!me->_context) return kIOReturnNotReady;] *)
Definition connected {A} (myInstance : option Z) (failed : IOReturn -> A) (f : Z -> GAType -> prog A) : prog A :=
  match myInstance with
  | None => mret (failed kIOReturnBadArgument)
  | Some r =>
      me ← load_instance r;
      if me.(_context) =? 0 then mret (failed kIOReturnNotReady) else f r me
  end.

(** The rest of the checks of a method on a surface: its info. *)
Definition with_info {A} (surface : Z) (failed : IOReturn -> A) (f : Z -> SurfaceInfo -> prog A) : prog A :=
  s ← load_surface surface;
  match s.(interfaceRef) with
  | None => mret (failed kIOReturnNotReady)
  | Some si => i ← load_info si; f si i
  end.

Definition ok (rc : IOReturn) : bool := bool_decide (rc = kIOReturnSuccess).

(** A message with scalars only, and their count in the answer. *)
Definition scalars_message (m : eIOCE2DMethods) (scalars : list Z) (out : Z) : message := mk_message m scalars NoInput 0 out 0.

(** ** GA/BlitHelper.c *)

Definition useAccelUpdates (context state : Z) : prog IOReturn :=
  a ← need (IOConnectCallMethod context (scalars_message kIOCE2DUseAccelUpdates [if state =? 0 then 0 else 1] 0)); mret a.(an_rc).
Definition RectCopy (context : Z) (copyRects : list IOBlitCopyRectangle) (copyRectsSize : Z) : prog IOReturn :=
  a ← need (IOConnectCallMethod context (mk_message kIOCE2DRectCopy [] (InCopyRects copyRects) copyRectsSize 0 0)); mret a.(an_rc).
Definition RectFill (context color : Z) (rects : list IOBlitRectangle) (rectsSize : Z) : prog IOReturn :=
  a ← need (IOConnectCallMethod context (mk_message kIOCE2DRectFill [color] (InRects rects) rectsSize 0 0)); mret a.(an_rc).
Definition UpdateFramebuffer (context : Z) (rect : list Z) : prog IOReturn :=
  a ← need (IOConnectCallMethod context (mk_message kIOCE2DUpdateFramebuffer' [] (InWords rect) (4 * 4) 0 0)); mret a.(an_rc).
Definition CopyRegion (context source_surface_id destX destY : Z) (region : IOAccelDeviceRegion) (regionSize : Z) : prog IOReturn :=
  a ← need (IOConnectCallMethod context (mk_message kIOCE2DCopyRegion [source_surface_id; u64 destX; u64 destY] (InRegion region) regionSize 0 0)); mret a.(an_rc).

(** ** Life *)

Inductive uuid := kIOGraphicsAcceleratorInterfaceID | kIOCFPlugInInterfaceID | IUnknownUUID | kIOGraphicsAcceleratorTypeID | OtherUUID (id : Z).
#[global] Instance uuid_eq_dec : EqDecision uuid.
Proof. solve_decision. Defined.
Inductive HRESULT := S_OK | E_NOINTERFACE.

(** The address of a new block: one that is not in use. *)
Definition next_address {A} (h : gmap Z A) : Z := map_fold (fun r _ m => Z.max (r + 1) m) 1 h.

Definition the_table : list (slot * ce) :=
  [ (QueryInterface, F_ceQueryInterface); (AddRef, F_ceAddRef); (Release, F_ceRelease); (Probe, F_ceProbe); (Start, F_ceStart);
    (Stop, F_ceStop); (Reset, F_ceReset); (CopyCapabilities, F_ceGetCapabilities); (Flush, F_ceFlush); (Synchronize, F_ceSynchronize);
    (GetBeamPosition, F_ceGetBeamPosition); (AllocateSurface, F_ceAllocateSurface); (FreeSurface, F_ceFreeSurface);
    (LockSurface, F_ceLockSurface); (UnlockSurface, F_ceUnlockSurface); (SwapSurface, F_ceSwapSurface);
    (SetDestination, F_ceSetDestination); (GetBlitter, F_ceGetBlitter); (WaitComplete, F_ceWaitComplete);
    (gaInterfaceReserved 0, F_ceWaitSurface); (gaInterfaceReserved 1, F_ceSetSurface) ].
Definition _buildGAFTbl : prog unit :=
  b ← read ga_initialized;
  if (b : bool) then mret tt else update (set_ga the_table).

(** The function in a slot of the table; an empty slot is a null pointer. *)
Definition entry (s : slot) (p : plugin) : option ce := x ← list_find (fun x => x.1 = s) p.(ga); Some x.2.2.

Definition _allocGAType (factoryID : bool) : prog (option Z) :=
  b ← need Malloc;
  if negb b then mret None
  else
    r ← read (fun p => next_address p.(p_instances));
    _buildGAFTbl;;
    (if factoryID then need AddInstanceForFactory else mret tt);;
    update (fun p => set_instances (<[r := mk_GAType true factoryID 1 0 0 (replicate 11 0) 0 0 None 0 0 0]> p.(p_instances)) p);;
    mret (Some r).

Definition _deallocGAType (myInstance : option Z) : prog unit :=
  match myInstance with
  | None => mret tt
  | Some r =>
      me ← load_instance r;
      free_instance r;;
      if me.(_factoryID) then need RemoveInstanceForFactory else mret tt
  end.

Definition CEsvga2GAFactory (typeID : uuid) : prog (option Z) :=
  if bool_decide (typeID = kIOGraphicsAcceleratorTypeID) then _allocGAType true else mret None.

(** [ULONG] has 32 bits. *)
Definition ceAddRef (myInstance : option Z) : prog Z :=
  match myInstance with
  | None => mret 0
  | Some r =>
      store_instance r (fun me => set_refCount (u32 (me.(_refCount) + 1)) me);;
      me ← load_instance r; mret me.(_refCount)
  end.

Definition ceRelease (myInstance : option Z) : prog Z :=
  match myInstance with
  | None => mret 0
  | Some r =>
      store_instance r (fun me => set_refCount (u32 (me.(_refCount) - 1)) me);;
      me ← load_instance r;
      if me.(_refCount) =? 0 then _deallocGAType (Some r);; mret 0
      else mret me.(_refCount)
  end.

(** What is left in [*ppv]. *)
Definition ceQueryInterface (myInstance : option Z) (iid : uuid) : prog (HRESULT * option Z) :=
  if bool_decide (iid = kIOGraphicsAcceleratorInterfaceID) || bool_decide (iid = kIOCFPlugInInterfaceID) || bool_decide (iid = IUnknownUUID) then
    match myInstance with
    | None => mret (S_OK, None)
    | Some r =>
        me ← load_instance r;
        (if me.(_interface) then
           f ← read (entry AddRef);
           match f with Some F_ceAddRef => ceAddRef (Some r);; mret tt | _ => crash end
         else mret tt);;
        mret (S_OK, Some r)
    end
  else mret (E_NOINTERFACE, None).

(** [*order] *)
Definition ceProbe : prog (IOReturn * Z) := mret (kIOReturnSuccess, 2000).

Definition ceReset (myInstance : option Z) (options : Z) : prog IOReturn :=
  connected myInstance id (fun _ _ => mret kIOReturnSuccess).

(** The body after the checks is not C++: it compares and changes fields that [GAType] does
    not have.  Of what [GAType] has it changes nothing; it may map the memory of the
    connection, and always returns success. *)
Definition ceFlush (myInstance : option Z) (options : Z) : prog IOReturn :=
  connected myInstance id (fun _ me =>
    same ← need Undefined;
    (if same =? 0 then need (IOConnectMapMemory me.(_context) 0) else mret tt);;
    mret kIOReturnSuccess).

(** [cleanup:] and [good_exit:] *)
Definition good_exit (r : Z) (rc : IOReturn) : prog IOReturn :=
  me ← load_instance r;
  update (set_this (Some r) me.(_context));;
  mret rc.
Definition cleanup (r accelerator context : Z) (rc : IOReturn) : prog IOReturn :=
  (if context =? 0 then mret tt else need (IOServiceClose context));;
  (if accelerator =? 0 then mret tt else need (IOObjectRelease accelerator));;
  good_exit r rc.

Definition ceStart (myInstance : option Z) (service : Z) : prog IOReturn :=
  match myInstance with
  | None => mret kIOReturnBadArgument
  | Some r =>
      if service =? 0 then mret kIOReturnBadArgument
      else
        x ← need (IOAccelFindAccelerator service);
        let '(rc, accelerator, index) := x in
        store_instance r (set_framebufferIndex index);;
        if negb (ok rc) then mret rc
        else
          x ← need (IOServiceOpen accelerator 2);
          let '(rc, context) := x in
          if negb (ok rc) then cleanup r accelerator context rc
          else
            store_instance r (set_connection accelerator context);;
            a ← need (IOConnectCallMethod context (scalars_message kIOCE2DGetConfig [] 2));
            store_instance r (set_config_val_1 (u32 (scalar 0 a)));;
            if negb (ok a.(an_rc)) then cleanup r accelerator context a.(an_rc)
            else
              a ← need (IOConnectCallMethod context (mk_message kIOCE2DReadConfigs [] (InWords [2]) 4 0 4));
              if negb (ok a.(an_rc)) then cleanup r accelerator context a.(an_rc)
              else
                store_instance r (set_config_val_2 (u32 (word 0 a)));;
                rc ← ceReset (Some r) 0;
                if negb (ok rc) then cleanup r accelerator context rc
                else
                  useAccelUpdates context 1;;
                  good_exit r rc
  end.

Definition ceStop (myInstance : option Z) : prog IOReturn :=
  match myInstance with
  | None => mret kIOReturnBadArgument
  | Some r =>
      ceFlush (Some r) 0;;
      update (set_this None 0);;
      me ← load_instance r;
      if me.(_accelerator) =? 0 then mret kIOReturnSuccess
      else
        (if me.(_context) =? 0 then mret tt else need (IOServiceClose me.(_context)));;
        need (IOObjectRelease me.(_accelerator));;
        store_instance r (set_connection 0 0);;
        mret kIOReturnSuccess
  end.

(** ** Surfaces *)

Definition kIOBlitHasCGSSurface : Z := 0x1.
Definition kIOBlitReferenceSource : Z := 0x8.
Definition kIOBlitSurfaceDestination : Z := 0x1.
Definition kIOBlitFramebufferDestination : Z := 0x0.
Definition kIOBlitSynchronizeFlushHostWrites : Z := 0x2.
Definition kIOUYVY422PixelFormat : Z := 0x55595659.      (* 'UYVY' *)

(** [switch (surface->pixelFormat)] *)
Definition format_options (format options : Z) : Z :=
  if (format =? kIO2vuyPixelFormat) || (format =? kIOUYVY422PixelFormat) then Z.lor options 0x400
  else if format =? kIOYUVSPixelFormat then Z.lor options 0x200
  else if format =? kIO32BGRAPixelFormat then Z.lor options 0x100
  else options.

(** The two scalars, once they are known. *)
Definition send_surface (r input0 input1 : Z) (surface : option Z) : prog IOReturn :=
  me ← load_instance r;
  a ← need (IOConnectCallMethod me.(_context) (mk_message kIOCE2DSetSurface [input0; input1] NoInput 0 0 (11 * 4)));
  store_instance r (set_buffer a.(an_words));;
  if negb (ok a.(an_rc)) then mret a.(an_rc)
  else
    store_instance r (set_destination (if negb (input0 =? 0) && negb (input1 =? 0) then surface else None));;
    garbage ← need Undefined;
    a ← need (IOConnectCallMethod me.(_context) (mk_message kIOCE2DReadConfigEx [] (InWords [288; garbage]) 8 0 12));
    (if ok a.(an_rc) then store_instance r (set_config_Ex (word 0 a) (word 2 a))
     else store_instance r (set_config_Ex 64 16));;
    mret a.(an_rc).

Definition ceSetSurface (myInstance : option Z) (options : Z) (surface : option Z) : prog IOReturn :=
  connected myInstance id (fun r me =>
    if has_bits options 0x800 then
      surface' ← deref surface;
      with_info surface' id (fun _ si =>
        s ← load_surface surface';
        send_surface r si.(cgsSurfaceID) (format_options s.(pixelFormat) options) surface)
    else send_surface r me.(_framebufferIndex) 0 surface).

Definition ceSetDestination (myInstance : option Z) (options : Z) (surface : option Z) : prog IOReturn :=
  let options := if has_bits options kIOBlitSurfaceDestination then 0x800 else kIOBlitFramebufferDestination in
  ceSetSurface myInstance options surface.

Definition ceDecodePixelFormat (pixelFormat : Z) : bool := true.

(** [free_si_and_exit:] and [set_si_and_exit:] *)
Definition set_si_and_exit (surface : Z) (si : option Z) (rc : IOReturn) : prog IOReturn :=
  store_surface surface (set_interfaceRef si);; mret rc.
Definition free_si_and_exit (surface si : Z) (rc : IOReturn) : prog IOReturn :=
  free_info si;; set_si_and_exit surface None rc.

Definition ceAllocateSurface (myInstance : option Z) (options : Z) (surface : option Z) (cgsSurfaceID : Z) : prog IOReturn :=
  match surface with
  | None => mret kIOReturnBadArgument
  | Some surface' => connected myInstance id (fun r me =>
      s ← load_surface surface';
      let '(max_w, max_h) := if me.(_config_val_2) <=? 79 then (2046, 2047) else (4096, 4096) in
      let flag := has_bits options kIOBlitFixedSource in
      if flag && ((max_w <? s.(size_width)) || (max_h <? s.(size_height))) then mret kIOReturnUnsupported
      else
        b ← need Malloc;
        if negb b then mret kIOReturnNoMemory
        else
          si ← read (fun p => next_address p.(p_infos));
          update (fun p => set_infos (<[si := mk_SurfaceInfo None 0 0]> p.(p_infos)) p);;
          if has_bits options kIOBlitHasCGSSurface then
            store_info si (fun i => mk_SurfaceInfo i.(d0) i.(addr) cgsSurfaceID);;
            store_surface surface' (set_interfaceRef (Some si));;
            rc ← ceSetSurface myInstance 0x800 surface;
            if negb (ok rc) then free_si_and_exit surface' si rc
            else
              a ← (if flag then need (IOConnectCallMethod me.(_context) (scalars_message kIOCE2DScaleSurface [options; u64 s.(size_width); u64 s.(size_height)] 0))
                   else mret (mk_reply kIOReturnSuccess [] []));
              if negb (ok a.(an_rc)) then free_si_and_exit surface' si a.(an_rc)
              else if has_bits options 0x10 && has_bits me.(_config_val_1) 0x42 && negb (ceDecodePixelFormat s.(pixelFormat)) then
                set_si_and_exit surface' (Some si) kIOReturnSuccess
              else set_si_and_exit surface' (Some si) kIOReturnSuccess
          else if negb (has_bits options kIOBlitReferenceSource) then free_si_and_exit surface' si kIOReturnUnsupported
          else free_si_and_exit surface' si kIOReturnUnsupported)
  end.

Definition ceFreeSurface (myInstance : option Z) (options : Z) (surface : option Z) : prog IOReturn :=
  match surface with
  | None => mret kIOReturnBadArgument
  | Some surface' => connected myInstance id (fun r me => with_info surface' id (fun si _ =>
      rc ← (match me.(_surface) with
            | Some _ =>
                store_info si (fun i => mk_SurfaceInfo i.(d0) i.(addr) 0);;
                ceSetDestination myInstance 0 None
            | None => mret kIOReturnSuccess
            end);
      i ← load_info si;
      rc ← (match i.(d0) with
            | Some input => a ← need (IOConnectCallMethod me.(_context) (scalars_message kIOCE2DDeleteImage [input] 0)); mret a.(an_rc)
            | None => mret rc
            end);
      free_info si;;
      store_surface surface' (set_interfaceRef None);;
      mret rc))
  end.

(** The address that is left in [*address], if one is. *)
Definition ceLockSurface (myInstance : option Z) (options : Z) (surface : option Z) (address : bool) : prog (IOReturn * option Z) :=
  match surface with
  | None => mret (kIOReturnBadArgument, None)
  | Some surface' =>
      if negb address then mret (kIOReturnBadArgument, None)
      else connected myInstance (fun rc => (rc, None)) (fun r me => with_info surface' (fun rc => (rc, None)) (fun _ si =>
        if negb (si.(addr) =? 0) then mret (kIOReturnSuccess, Some si.(addr))
        else
          a ← need (IOConnectCallMethod me.(_context) (mk_message kIOCE2DLockMemory [options] NoInput 0 0 (2 * 8)));
          if negb (ok a.(an_rc)) then mret (a.(an_rc), None)
          else
            store_surface surface' (set_access (u32 (word 1 a)) 2);;
            mret (kIOReturnSuccess, Some (word 0 a))))
  end.

(** The flags that are left in [*swapFlags], if they are. *)
Definition ceUnlockSurface (myInstance : option Z) (options : Z) (surface : option Z) : prog (IOReturn * option Z) :=
  match surface with
  | None => mret (kIOReturnBadArgument, None)
  | Some surface' => connected myInstance (fun rc => (rc, None)) (fun r me => with_info surface' (fun rc => (rc, None)) (fun _ si =>
      if negb (si.(addr) =? 0) then mret (kIOReturnSuccess, None)
      else
        a ← need (IOConnectCallMethod me.(_context) (scalars_message kIOCE2DUnlockMemory [options] 1));
        mret (a.(an_rc), Some (u32 (scalar 0 a)))))
  end.

(** The cases of the formats for video are empty. *)
Definition ceSwapSurface (myInstance : option Z) (options : Z) (surface : option Z) : prog (IOReturn * option Z) :=
  match surface with
  | None => mret (kIOReturnBadArgument, None)
  | Some surface' => connected myInstance (fun rc => (rc, None)) (fun r me => with_info surface' (fun rc => (rc, None)) (fun _ _ =>
      a ← need (IOConnectCallMethod me.(_context) (scalars_message kIOCE2DSwapSurface [options] 1));
      mret (a.(an_rc), Some (u32 (scalar 0 a)))))
  end.

Definition ceWaitSurface (myInstance : option Z) (options : Z) (surface : option Z) : prog IOReturn :=
  match surface with
  | None => mret kIOReturnBadArgument
  | Some surface' => connected myInstance id (fun r me => with_info surface' id (fun _ si =>
      match si.(d0) with
      | None => mret kIOReturnSuccess
      | Some input => a ← need (IOConnectCallMethod me.(_context) (scalars_message kIOCE2DWaitImage [input] 0)); mret a.(an_rc)
      end))
  end.

(** ** The screen *)

Definition smvl : Z := 0x736d766c.

(** [capabilities] is what [*capabilities] holds, or a null pointer. *)
Definition ceGetCapabilities (myInstance : option Z) (select : Z) (capabilities : option Z) : prog IOReturn :=
  if select =? smvl then
    connected myInstance id (fun _ me =>
      input ← deref capabilities;
      a ← need (IOConnectCallMethod me.(_context) (scalars_message kIOCE2DSetMacrovision [input] 0));
      mret a.(an_rc))
  else mret kIOReturnUnsupported.

Definition ceSynchronize (myInstance : option Z) (options x y w h : Z) : prog IOReturn :=
  if negb (has_bits options kIOBlitSynchronizeFlushHostWrites) then mret kIOReturnSuccess
  else connected myInstance id (fun _ me =>
    if (w <=? x) || (h <=? y) then mret kIOReturnBadArgument
    else UpdateFramebuffer me.(_context) [x; y; u32 (w - x); u32 (h - y)]).

(** [*position]; what follows the return is not reached. *)
Definition ceGetBeamPosition : prog (IOReturn * Z) := mret (kIOReturnSuccess, 0).

Definition ceWaitComplete (myInstance : option Z) (options : Z) : prog IOReturn :=
  connected myInstance id (fun _ me =>
    ceFlush myInstance 0;;
    a ← need (IOConnectCallMethod me.(_context) (scalars_message kIOCE2DFinish [options] 0));
    mret a.(an_rc)).

(** ** Blitters *)

Definition kIOBlitTypeVerbMask : Z := 0xff.
Definition kIOBlitTypeRects : Z := 0.
Definition kIOBlitTypeCopyRects : Z := 1.
Definition kIOBlitTypeCopyRegion : Z := 4.
Definition kIOBlitTypeOperationMask : Z := 0x0fff0000.
Definition kIOBlitCopyOperation : Z := 0.
Definition kIOBlitTypeOperationType0 : Z := 0.
Definition kIOBlitSourceDefault : Z := 0x0.
Definition kIOBlitSourceFramebuffer : Z := 0x1000.
Definition kIOBlitSourceMemory : Z := 0x2000.
Definition kIOBlitSourceSolid : Z := 0x6000.
Definition kIOBlitSourceCGSSurface : Z := 0x7000.

Inductive blitter := F_ceFill | F_ceCopy | F_ceMemCopy | F_ceCopyRegion.

(** [*blitter] *)
Definition ceGetBlitter (type sourceType : Z) (out : bool) : IOReturn * option blitter :=
  if negb out then (kIOReturnBadArgument, None)
  else
    let type := Z.land type kIOBlitTypeVerbMask in
    let sourceType := Z.land sourceType 0x7FFFF000 in
    if type =? kIOBlitTypeRects then
      if sourceType =? kIOBlitSourceSolid then (kIOReturnSuccess, Some F_ceFill) else (kIOReturnUnsupported, None)
    else if type =? kIOBlitTypeCopyRects then
      if (sourceType =? kIOBlitSourceDefault) || (sourceType =? kIOBlitSourceFramebuffer) then (kIOReturnSuccess, Some F_ceCopy)
      else if sourceType =? kIOBlitSourceMemory then (kIOReturnSuccess, Some F_ceMemCopy)
      else (kIOReturnUnsupported, None)
    else if type =? kIOBlitTypeCopyRegion then
      if (sourceType =? kIOBlitSourceDefault) || (sourceType =? kIOBlitSourceFramebuffer) || (sourceType =? kIOBlitSourceCGSSurface)
      then (kIOReturnSuccess, Some F_ceCopyRegion) else (kIOReturnUnsupported, None)
    else (kIOReturnUnsupported, None).

(** The operation: a count and an array, or a region.  The array is the memory that follows,
    which has to have the entries that the count announces. *)
Record IOBlitCopyRectangles := mk_copy_rects { cr_count : Z; cr_rects : list IOBlitCopyRectangle }.
Record IOBlitRectangles := mk_rects { rs_count : Z; rs_rects : list IOBlitRectangle }.
Record IOBlitCopyRegion := mk_copy_region { deltaX : Z; deltaY : Z; cg_region : option IOAccelDeviceRegion }.
Definition array {A} (count : Z) (l : list A) : prog (list A) :=
  if Z.of_nat (length l) <? count then crash else mret (take (Z.to_nat count) l).

Definition ceCopy (myInstance : option Z) (type : Z) (operation : option IOBlitCopyRectangles) : prog IOReturn :=
  if negb (Z.land type kIOBlitTypeOperationMask =? kIOBlitCopyOperation) then mret kIOReturnUnsupported
  else connected myInstance id (fun _ me =>
    match operation with
    | None => mret kIOReturnBadArgument
    | Some copy_rects =>
        if copy_rects.(cr_count) =? 0 then mret kIOReturnBadArgument
        else rects ← array copy_rects.(cr_count) copy_rects.(cr_rects); RectCopy me.(_context) rects (copy_rects.(cr_count) * 24)
    end).

Definition ceFill (myInstance : option Z) (type : Z) (operation : option IOBlitRectangles) (source : Z) : prog IOReturn :=
  if negb (Z.land type kIOBlitTypeOperationMask =? kIOBlitCopyOperation) then mret kIOReturnUnsupported
  else connected myInstance id (fun _ me =>
    match operation with
    | None => mret kIOReturnBadArgument
    | Some rects =>
        if rects.(rs_count) =? 0 then mret kIOReturnBadArgument
        else l ← array rects.(rs_count) rects.(rs_rects); RectFill me.(_context) source l (rects.(rs_count) * 16)
    end).

(** The source of a copy of a region, for the type of the source. *)
Definition region_source (sourceType source : Z) : option Z :=
  let sourceType := Z.land sourceType 0x7FFFF000 in
  if (sourceType =? kIOBlitSourceDefault) || (sourceType =? kIOBlitSourceFramebuffer) then Some 0
  else if sourceType =? kIOBlitSourceCGSSurface then Some source
  else None.

Definition ceCopyRegion (myInstance : option Z) (type sourceType : Z) (operation : option IOBlitCopyRegion) (source : Z) : prog IOReturn :=
  if negb (Z.land type kIOBlitTypeOperationMask =? kIOBlitTypeOperationType0) then mret kIOReturnUnsupported
  else match region_source sourceType source with
  | None => mret kIOReturnUnsupported
  | Some source => connected myInstance id (fun _ me =>
      match operation with
      | None => mret kIOReturnBadArgument
      | Some copy_region =>
          match copy_region.(cg_region) with
          | None => mret kIOReturnBadArgument
          | Some rgn =>
              array rgn.(rgn_num_rects) rgn.(rgn_rect);;
              CopyRegion me.(_context) source copy_region.(deltaX) copy_region.(deltaY) rgn (sizeof_region rgn)
          end
      end)
  end.

Definition ceMemCopy : prog IOReturn := mret kIOReturnUnsupported.
Definition ceMemCopyRegion : prog IOReturn := mret kIOReturnUnsupported.

(** ** Calls of the window server *)

Inductive call :=
  | CFactory (typeID : uuid)
  | CQueryInterface (me : option Z) (iid : uuid)
  | CAddRef (me : option Z)
  | CRelease (me : option Z)
  | CProbe
  | CStart (me : option Z) (service : Z)
  | CStop (me : option Z)
  | CReset (me : option Z) (options : Z)
  | CCopyCapabilities (me : option Z) (select : Z) (capabilities : option Z)
  | CFlush (me : option Z) (options : Z)
  | CSynchronize (me : option Z) (options x y w h : Z)
  | CGetBeamPosition
  | CAllocateSurface (me : option Z) (options : Z) (surface : option Z) (cgsSurfaceID : Z)
  | CFreeSurface (me : option Z) (options : Z) (surface : option Z)
  | CLockSurface (me : option Z) (options : Z) (surface : option Z) (address : bool)
  | CUnlockSurface (me : option Z) (options : Z) (surface : option Z)
  | CSwapSurface (me : option Z) (options : Z) (surface : option Z)
  | CSetDestination (me : option Z) (options : Z) (surface : option Z)
  | CGetBlitter (type sourceType : Z) (out : bool)
  | CWaitComplete (me : option Z) (options : Z)
  | CWaitSurface (me : option Z) (options : Z) (surface : option Z)
  | CSetSurface (me : option Z) (options : Z) (surface : option Z)
  | CCopy (me : option Z) (type : Z) (operation : option IOBlitCopyRectangles)
  | CFill (me : option Z) (type : Z) (operation : option IOBlitRectangles) (source : Z)
  | CCopyRegion (me : option Z) (type sourceType : Z) (operation : option IOBlitCopyRegion) (source : Z)
  | CMemCopy | CMemCopyRegion.

Inductive result :=
  | RInstance (r : option Z)
  | RInterface (h : HRESULT) (r : option Z)
  | RCount (n : Z)
  | RCode (rc : IOReturn)
  | RValue (rc : IOReturn) (v : option Z)
  | RBlitter (rc : IOReturn) (b : option blitter).

Definition exec_call (c : call) : prog result :=
  let code (m : prog IOReturn) := rc ← m; mret (RCode rc) in
  let value (m : prog (IOReturn * option Z)) := x ← m; mret (RValue x.1 x.2) in
  match c with
  | CFactory typeID => r ← CEsvga2GAFactory typeID; mret (RInstance r)
  | CQueryInterface me iid => x ← ceQueryInterface me iid; mret (RInterface x.1 x.2)
  | CAddRef me => n ← ceAddRef me; mret (RCount n)
  | CRelease me => n ← ceRelease me; mret (RCount n)
  | CProbe => x ← ceProbe; mret (RValue x.1 (Some x.2))
  | CStart me service => code (ceStart me service)
  | CStop me => code (ceStop me)
  | CReset me options => code (ceReset me options)
  | CCopyCapabilities me select capabilities => code (ceGetCapabilities me select capabilities)
  | CFlush me options => code (ceFlush me options)
  | CSynchronize me options x y w h => code (ceSynchronize me options x y w h)
  | CGetBeamPosition => x ← ceGetBeamPosition; mret (RValue x.1 (Some x.2))
  | CAllocateSurface me options surface cgsSurfaceID => code (ceAllocateSurface me options surface cgsSurfaceID)
  | CFreeSurface me options surface => code (ceFreeSurface me options surface)
  | CLockSurface me options surface address => value (ceLockSurface me options surface address)
  | CUnlockSurface me options surface => value (ceUnlockSurface me options surface)
  | CSwapSurface me options surface => value (ceSwapSurface me options surface)
  | CSetDestination me options surface => code (ceSetDestination me options surface)
  | CGetBlitter type sourceType out => mret (let x := ceGetBlitter type sourceType out in RBlitter x.1 x.2)
  | CWaitComplete me options => code (ceWaitComplete me options)
  | CWaitSurface me options surface => code (ceWaitSurface me options surface)
  | CSetSurface me options surface => code (ceSetSurface me options surface)
  | CCopy me type operation => code (ceCopy me type operation)
  | CFill me type operation source => code (ceFill me type operation source)
  | CCopyRegion me type sourceType operation source => code (ceCopyRegion me type sourceType operation source)
  | CMemCopy => code ceMemCopy
  | CMemCopyRegion => code ceMemCopyRegion
  end.
