(* ===== verification/GaPluginSpec.v ===== *)
(** What the plug-in of the window server promises, whatever the kernel answers: no method
    follows a pointer to memory that is gone, every message is one that the table of the 2D
    user client lets through, on a connection that is open, and what was opened or
    allocated is accounted for. *)

From S2P Require Import Prelude IOKit AccelBlit Accel Surface Context2D Context2DTable GaPlugin.
From stdpp Require Import gmap gmultiset.

#[local] Open Scope Z_scope.

(** ** What an observer of the requests keeps *)

(** The connections that are open, the services that have been looked up and not released,
    the instances that the factory counts, and the number of requests to the kernel's
    context. *)
Record ledger := mk_ledger { l_open : gmultiset Z; l_services : gmultiset Z; l_factory : Z; l_sent : Z }.

(** The bytes of a structure; an array has at least the entries that its count announces. *)
Definition payload_ok (x : payload) (size : Z) : Prop :=
  match x with
  | NoInput => size = 0
  | InWords l => size = 4 * Z.of_nat (length l)
  | InCopyRects l => size = 24 * Z.of_nat (length l)
  | InRects l => size = 16 * Z.of_nat (length l)
  | InRegion rgn => size = sizeof_region rgn /\ rgn.(rgn_num_rects) <= Z.of_nat (length rgn.(rgn_rect))
  end.

(** A message that reaches its method. *)
Definition well_formed (m : message) : Prop :=
  payload_ok m.(ms_struct) m.(ms_size) /\
  exists e, iofbFuncsCache !! Z.to_nat (selector m.(ms_method)) = Some e /\
            fits_method e (Z.of_nat (length m.(ms_scalars))) m.(ms_size) m.(ms_out) m.(ms_out_size) = true.

Definition permitted {T} (r : request T) (g : ledger) : Prop :=
  match r with
  | RemoveInstanceForFactory => 0 < g.(l_factory)
  | IOServiceOpen accelerator _ => accelerator ∈ g.(l_services)
  | IOServiceClose connect | IOConnectMapMemory connect _ => connect ∈ g.(l_open)
  | IOObjectRelease object => object ∈ g.(l_services)
  | IOConnectCallMethod connect m => connect ∈ g.(l_open) /\ well_formed m
  | _ => True
  end.

(** What the system promises: handles that it gives out are not null, and a new connection
    is not one that is open; there is none if opening fails. *)
Definition answers {T} (r : request T) : T -> ledger -> Prop :=
  match r with
  | IOAccelFindAccelerator _ => fun x _ => x.1.1 = kIOReturnSuccess -> x.1.2 <> 0
  | IOServiceOpen _ _ => fun x g => if ok x.1 then x.2 <> 0 /\ x.2 ∉ g.(l_open) else x.2 = 0
  | _ => fun _ _ => True
  end.

Definition note {T} (r : request T) : T -> ledger -> ledger :=
  match r with
  | AddInstanceForFactory => fun _ g => mk_ledger g.(l_open) g.(l_services) (g.(l_factory) + 1) g.(l_sent)
  | RemoveInstanceForFactory => fun _ g => mk_ledger g.(l_open) g.(l_services) (g.(l_factory) - 1) g.(l_sent)
  | IOAccelFindAccelerator _ => fun x g => if ok x.1.1 then mk_ledger g.(l_open) ({[+ x.1.2 +]} ⊎ g.(l_services)) g.(l_factory) g.(l_sent) else g
  | IOServiceOpen _ _ => fun x g => if ok x.1 then mk_ledger ({[+ x.2 +]} ⊎ g.(l_open)) g.(l_services) g.(l_factory) g.(l_sent) else g
  | IOServiceClose connect => fun _ g => mk_ledger (g.(l_open) ∖ {[+ connect +]}) g.(l_services) g.(l_factory) (g.(l_sent) + 1)
  | IOObjectRelease object => fun _ g => mk_ledger g.(l_open) (g.(l_services) ∖ {[+ object +]}) g.(l_factory) g.(l_sent)
  | IOConnectCallMethod _ _ => fun _ g => mk_ledger g.(l_open) g.(l_services) g.(l_factory) (g.(l_sent) + 1)
  | _ => fun _ g => g
  end.

(** The program makes only requests that are permitted, and ends in a state that satisfies
    [Q], for all answers. *)
Fixpoint safe {A} (t : tree A) (Q : A -> ledger -> Prop) (g : ledger) : Prop :=
  match t with
  | Done a => Q a g
  | Crash => False
  | Need r k => permitted r g /\ forall x, answers r x g -> safe (k x) Q (note r x g)
  end.

(** The ends of a program. *)
Inductive leaf {A} : tree A -> ledger -> A -> ledger -> Prop :=
  | leaf_done a g : leaf (Done a) g a g
  | leaf_need {T : Set} (r : request T) k x g a g' : answers r x g -> leaf (k x) (note r x g) a g' -> leaf (Need r k) g a g'.

Lemma safe_bind {A B} (f : A -> tree B) t (Q : B -> ledger -> Prop) g : safe t (fun a => safe (f a) Q) g -> safe (tree_bind f t) Q g.
Proof. revert g. induction t as [a| |T r k IH]; intros g; [done|done|]. intros [Hr Hk]. split; [done|]. intros x Hx. by apply IH, Hk. Qed.

Lemma safe_mono {A} (t : tree A) (Q Q' : A -> ledger -> Prop) g : safe t Q g -> (forall a g, Q a g -> Q' a g) -> safe t Q' g.
Proof. intros H HQ. revert g H. induction t as [a| |T r k IH]; intros g; [apply HQ|done|]. intros [Hr Hk]. split; [done|]. intros x Hx. by apply IH, Hk. Qed.

Lemma safe_leaf {A} (t : tree A) (Q : A -> ledger -> Prop) g a g' : safe t Q g -> leaf t g a g' -> Q a g'.
Proof. intros H Hl. induction Hl as [a g|T r k x g a g' Hx Hl IH]; [done|]. by apply IH, H. Qed.

(** ** Rules *)

Definition post (A : Type) : Type := A -> plugin -> ledger -> Prop.
Definition wp {A} (m : prog A) (Q : post A) (p : plugin) (g : ledger) : Prop := safe (m p) (fun x => Q x.1 x.2) g.

Section rules.
Implicit Types (p : plugin) (g : ledger).

Lemma ga_wp_ret {A} (a : A) (Q : post A) p g : Q a p g -> wp (mret a) Q p g.
Proof. done. Qed.
Lemma ga_wp_bind {A B} (m : prog A) (f : A -> prog B) (Q : post B) p g : wp m (fun a => wp (f a) Q) p g -> wp (m ≫= f) Q p g.
Proof. intros H. apply safe_bind. eapply safe_mono; [exact H|]. by intros [a p'] g'. Qed.
Lemma ga_wp_mono {A} (m : prog A) (Q Q' : post A) p g : wp m Q p g -> (forall a p g, Q a p g -> Q' a p g) -> wp m Q' p g.
Proof. intros H HQ. eapply safe_mono; [exact H|]. intros x g'. apply HQ. Qed.
Lemma wp_need {T} (r : request T) (Q : post T) p g : permitted r g -> (forall x, answers r x g -> Q x p (note r x g)) -> wp (need r) Q p g.
Proof. intros Hr HQ. by split. Qed.
Lemma wp_read {A} (f : plugin -> A) (Q : post A) p g : Q (f p) p g -> wp (read f) Q p g.
Proof. done. Qed.
Lemma wp_update f (Q : post unit) p g : Q tt (f p) g -> wp (update f) Q p g.
Proof. done. Qed.
Lemma ga_wp_deref {A} (x : option A) a (Q : post A) p g : x = Some a -> Q a p g -> wp (deref x) Q p g.
Proof. by intros ->. Qed.

Lemma wp_load_instance r me (Q : post GAType) p g : p.(p_instances) !! r = Some me -> Q me p g -> wp (load_instance r) Q p g.
Proof. intros E HQ. apply ga_wp_bind, wp_read. by eapply ga_wp_deref. Qed.
Lemma wp_load_surface r s (Q : post IOBlitSurface) p g : p.(p_surfaces) !! r = Some s -> Q s p g -> wp (load_surface r) Q p g.
Proof. intros E HQ. apply ga_wp_bind, wp_read. by eapply ga_wp_deref. Qed.
Lemma wp_load_info r i (Q : post SurfaceInfo) p g : p.(p_infos) !! r = Some i -> Q i p g -> wp (load_info r) Q p g.
Proof. intros E HQ. apply ga_wp_bind, wp_read. by eapply ga_wp_deref. Qed.
Lemma wp_store_instance r f me (Q : post unit) p g : p.(p_instances) !! r = Some me -> Q tt (set_instances (<[r := f me]> p.(p_instances)) p) g -> wp (store_instance r f) Q p g.
Proof. intros E HQ. apply ga_wp_bind. eapply wp_load_instance; [exact E|]. by apply wp_update. Qed.
Lemma wp_store_surface r f s (Q : post unit) p g : p.(p_surfaces) !! r = Some s -> Q tt (set_surfaces (<[r := f s]> p.(p_surfaces)) p) g -> wp (store_surface r f) Q p g.
Proof. intros E HQ. apply ga_wp_bind. eapply wp_load_surface; [exact E|]. by apply wp_update. Qed.
Lemma wp_store_info r f i (Q : post unit) p g : p.(p_infos) !! r = Some i -> Q tt (set_infos (<[r := f i]> p.(p_infos)) p) g -> wp (store_info r f) Q p g.
Proof. intros E HQ. apply ga_wp_bind. eapply wp_load_info; [exact E|]. by apply wp_update. Qed.
Lemma wp_free_info r i (Q : post unit) p g : p.(p_infos) !! r = Some i -> Q tt (set_infos (delete r p.(p_infos)) p) g -> wp (free_info r) Q p g.
Proof. intros E HQ. apply ga_wp_bind. eapply wp_load_info; [exact E|]. by apply wp_update. Qed.
Lemma wp_free_instance r me (Q : post unit) p g : p.(p_instances) !! r = Some me -> Q tt (set_instances (delete r p.(p_instances)) p) g -> wp (free_instance r) Q p g.
Proof. intros E HQ. apply ga_wp_bind. eapply wp_load_instance; [exact E|]. by apply wp_update. Qed.
End rules.

Lemma next_address_fresh {A} (h : gmap Z A) : h !! next_address h = None.
Proof.
  assert (forall r x, h !! r = Some x -> r < next_address h) as H.
  { unfold next_address. apply (map_fold_weak_ind (fun m h => forall r x, h !! r = Some x -> r < m)); [by intros r x ?; rewrite lookup_empty in *|].
    intros k x h' m _ IH r y. destruct (decide (r = k)) as [->|Hne]; [lia|]. rewrite lookup_insert_ne by done. intros Hr. specialize (IH r y Hr). lia. }
  destruct (h !! next_address h) as [x|] eqn:E; [|done]. specialize (H _ _ E). lia.
Qed.

(** ** The invariant *)

(** What an instance that is connected holds: a connection and a service. *)
Definition connection (me : GAType) : option (Z * Z) := if me.(_context) =? 0 then None else Some (me.(_context), me.(_accelerator)).

(** What all instances hold, apart from those of [b], which could not be started. *)
Definition held (h : gmap Z GAType) (b : gset Z) : gmap Z (Z * Z) := map_imap (fun r me => if decide (r ∈ b) then None else connection me) h.
Definition sum_of (f : Z * Z -> Z) (m : gmap Z (Z * Z)) : gmultiset Z := map_fold (fun _ x X => {[+ f x +]} ⊎ X) ∅ m.

(** [C] and [S] are connections and services that are not (or no longer) an instance's. *)
Record Conn (h : gmap Z GAType) (b : gset Z) (C S : gmultiset Z) (n : Z) (g : ledger) : Prop := {
  cn_instance r me : h !! r = Some me -> me.(_interface) = true /\ me.(_factoryID) = true /\ 0 < me.(_refCount) < 2 ^ 32;
  cn_both r me : h !! r = Some me -> r ∉ b -> me.(_context) = 0 <-> me.(_accelerator) = 0;
  cn_broken : b ⊆ dom h;
  cn_open : g.(l_open) = sum_of fst (held h b) ⊎ C;
  cn_services : g.(l_services) = sum_of snd (held h b) ⊎ S;
  cn_factory : g.(l_factory) = Z.of_nat (size h);
  cn_sent : g.(l_sent) <= n;
}.

(** The infos are those of the surfaces, one each. *)
Record Infos (ss : gmap Z IOBlitSurface) (ii : gmap Z SurfaceInfo) : Prop := {
  in_ref r s si : ss !! r = Some s -> s.(interfaceRef) = Some si -> is_Some (ii !! si);
  in_info si i : ii !! si = Some i -> i.(d0) = None /\ i.(addr) = 0 /\ exists r s, ss !! r = Some s /\ s.(interfaceRef) = Some si;
  in_inj r r' s s' si : ss !! r = Some s -> ss !! r' = Some s' -> s.(interfaceRef) = Some si -> s'.(interfaceRef) = Some si -> r = r';
}.

Record Inv (p : plugin) (b : gset Z) (C S : gmultiset Z) (n : Z) (g : ledger) : Prop := {
  iv_conn : Conn p.(p_instances) b C S n g;
  iv_infos : Infos p.(p_surfaces) p.(p_infos);
  iv_table : p.(ga_initialized) = true -> p.(ga) = the_table;
  iv_built r : is_Some (p.(p_instances) !! r) -> p.(ga_initialized) = true;
}.

Lemma sum_of_insert f m r x : m !! r = None -> sum_of f (<[r := x]> m) = {[+ f x +]} ⊎ sum_of f m.
Proof. intros Hr. unfold sum_of. rewrite map_fold_insert_L; [done| |done]. intros. multiset_solver. Qed.

Lemma sum_of_elem f m r x : m !! r = Some x -> f x ∈ sum_of f m.
Proof. intros Hr. rewrite <-(insert_delete_id m r x Hr), sum_of_insert by apply lookup_delete_eq. multiset_solver. Qed.

Lemma lookup_held h b r : held h b !! r = me ← h !! r; if decide (r ∈ b) then None else connection me.
Proof. unfold held. by rewrite map_lookup_imap. Qed.

Lemma held_insert h b r me : r ∈ b \/ connection me = (h !! r ≫= connection) -> held (<[r := me]> h) b = held h b.
Proof.
  intros H. apply map_eq. intros r'. rewrite !lookup_held. destruct (decide (r' = r)) as [->|Hne]; [|by rewrite lookup_insert_ne]. rewrite lookup_insert_eq. cbn.
  case_decide; [by destruct (h !! r)|]. destruct H as [|H]; [done|]. rewrite H. by destruct (h !! r).
Qed.

(** Taking an instance out of the account, and putting it in. *)
Lemma held_out h b r me : h !! r = Some me -> r ∉ b ->
  held h b = match connection me with Some x => <[r := x]> (held h ({[r]} ∪ b)) | None => held h ({[r]} ∪ b) end /\ held h ({[r]} ∪ b) !! r = None.
Proof.
  intros Hr Hb. assert (held h ({[r]} ∪ b) !! r = None) as Hn by (rewrite lookup_held, Hr; cbn; by rewrite decide_True by set_solver).
  split; [|done]. apply map_eq. intros r'. rewrite lookup_held. destruct (decide (r' = r)) as [->|Hne].
  - rewrite Hr. cbn. rewrite decide_False by done. destruct (connection me); [by rewrite lookup_insert_eq|done].
  - assert (held h ({[r]} ∪ b) !! r' = me ← h !! r'; if decide (r' ∈ b) then None else connection me) as E.
    { rewrite lookup_held. destruct (h !! r') as [me'|]; [|done]. cbn. apply decide_ext. set_solver. }
    destruct (connection me); [rewrite lookup_insert_ne by done|]; by rewrite E.
Qed.

Section conn.
Context (h : gmap Z GAType) (b : gset Z) (C S : gmultiset Z) (n : Z) (g : ledger).

Lemma Conn_out r me : Conn h b C S n g -> h !! r = Some me -> r ∉ b ->
  Conn h ({[r]} ∪ b) (match connection me with Some x => {[+ x.1 +]} | None => ∅ end ⊎ C) (match connection me with Some x => {[+ x.2 +]} | None => ∅ end ⊎ S) n g.
Proof.
  intros [H1 H2 H3 H4 H5 H6 H7] Hr Hb. destruct (held_out h b r me Hr Hb) as [E En]. split; try done.
  - intros r' me' Hr' Hb'. eapply H2; [exact Hr'|set_solver].
  - apply union_subseteq. split; [|done]. apply singleton_subseteq_l, elem_of_dom. by exists me.
  - rewrite H4, E. destruct (connection me); [rewrite sum_of_insert by done|]; multiset_solver.
  - rewrite H5, E. destruct (connection me); [rewrite sum_of_insert by done|]; multiset_solver.
Qed.

Lemma Conn_in r me C' S' : Conn h ({[r]} ∪ b) C' S' n g -> h !! r = Some me -> r ∉ b -> (me.(_context) = 0 <-> me.(_accelerator) = 0) ->
  C' = match connection me with Some x => {[+ x.1 +]} | None => ∅ end ⊎ C -> S' = match connection me with Some x => {[+ x.2 +]} | None => ∅ end ⊎ S -> Conn h b C S n g.
Proof.
  intros [H1 H2 H3 H4 H5 H6 H7] Hr Hb Hme -> ->. destruct (held_out h b r me Hr Hb) as [E En]. split; try done.
  - intros r' me' Hr' Hb'. destruct (decide (r' = r)) as [->|Hne]; [by simplify_eq|]. eapply H2; [exact Hr'|set_solver].
  - set_solver.
  - rewrite H4, E. destruct (connection me); [rewrite sum_of_insert by done|]; multiset_solver.
  - rewrite H5, E. destruct (connection me); [rewrite sum_of_insert by done|]; multiset_solver.
Qed.

(** Changes of an instance that leave its references, and also its connection if it
    counts. *)
Lemma Conn_store r me me' : Conn h b C S n g -> h !! r = Some me -> me'.(_interface) = me.(_interface) -> me'.(_factoryID) = me.(_factoryID) -> 0 < me'.(_refCount) < 2 ^ 32 ->
  r ∈ b \/ me'.(_context) = me.(_context) /\ me'.(_accelerator) = me.(_accelerator) -> Conn (<[r := me']> h) b C S n g.
Proof.
  intros [H1 H2 H3 H4 H5 H6 H7] Hr E1 E2 E3 E4. destruct (H1 r me Hr) as (F1 & F2 & F3).
  assert (held (<[r := me']> h) b = held h b) as Eh.
  { apply held_insert. destruct E4 as [|[E4 E5]]; [by left|right]. rewrite Hr. cbn. unfold connection. by rewrite E4, E5. }
  split; rewrite ?Eh; try done.
  - intros r' x. destruct (decide (r' = r)) as [->|Hne]; [rewrite lookup_insert_eq|rewrite lookup_insert_ne by done; apply H1]. intros [= <-]. rewrite E1, E2. done.
  - intros r' x. destruct (decide (r' = r)) as [->|Hne]; [rewrite lookup_insert_eq|rewrite lookup_insert_ne by done; apply H2]. intros [= <-] Hb. destruct E4 as [|[-> ->]]; [done|]. by apply (H2 r).
  - rewrite dom_insert. set_solver.
  - by rewrite map_size_insert_Some.
Qed.

Lemma Conn_context r me : Conn h b C S n g -> h !! r = Some me -> r ∉ b -> me.(_context) <> 0 -> me.(_context) ∈ g.(l_open).
Proof.
  intros Hc Hr Hb Hne. rewrite (cn_open _ _ _ _ _ _ Hc). apply gmultiset_elem_of_disj_union. left.
  apply (sum_of_elem fst _ r (me.(_context), me.(_accelerator))). rewrite lookup_held, Hr. cbn. rewrite decide_False by done. unfold connection. by rewrite (proj2 (Z.eqb_neq _ _) Hne).
Qed.

(** The ledger moves on. *)
Lemma Conn_sent n' g' : Conn h b C S n g -> g'.(l_open) = g.(l_open) -> g'.(l_services) = g.(l_services) -> g'.(l_factory) = g.(l_factory) -> g'.(l_sent) <= n' -> Conn h b C S n' g'.
Proof. intros [H1 H2 H3 H4 H5 H6 H7] E1 E2 E3 E4. split; try done; congruence. Qed.
End conn.

(** ** Methods *)

(** A pointer to an instance that may be used: null, or an instance that could be started
    or has not been. *)
Definition usable (p : plugin) (b : gset Z) (me : option Z) : Prop := match me with Some r => is_Some (p.(p_instances) !! r) /\ r ∉ b | None => True end.
Definition surface_at (p : plugin) (s : option Z) : Prop := match s with Some r => is_Some (p.(p_surfaces) !! r) | None => True end.

(** Nothing but fields of instances that do not count has changed. *)
Record frame (p p' : plugin) : Prop := {
  fr_surfaces : p'.(p_surfaces) = p.(p_surfaces);
  fr_infos : p'.(p_infos) = p.(p_infos);
  fr_instances r : is_Some (p.(p_instances) !! r) -> is_Some (p'.(p_instances) !! r);
}.

Ltac wf := split; [cbn; done|eexists; split; reflexivity].

Section methods.
Implicit Types (p : plugin) (g : ledger) (b : gset Z) (n : Z).

Lemma plugin_Inv_le p b C S n n' g : Inv p b C S n g -> n <= n' -> Inv p b C S n' g.
Proof. intros [Hc Hi Ht Hb] Hn. split; try done. eapply Conn_sent; [exact Hc|done..|]. pose proof (cn_sent _ _ _ _ _ _ Hc). lia. Qed.

Lemma wp_message p b C S n c m (Q : post reply) g : Inv p b C S n g -> c ∈ g.(l_open) -> well_formed m ->
  (forall a g', Inv p b C S (n + 1) g' -> g'.(l_open) = g.(l_open) -> Q a p g') -> wp (need (IOConnectCallMethod c m)) Q p g.
Proof.
  intros [Hc Hi Ht Hb] Ho Hm HQ. apply wp_need; [by split|]. intros a _. apply HQ; [|done]. split; try done. eapply Conn_sent; [exact Hc|done..|].
  pose proof (cn_sent _ _ _ _ _ _ Hc). cbn. lia.
Qed.

(** A change of a field that does not count. *)
Definition quiet (f : GAType -> GAType) : Prop := forall me,
  (f me).(_interface) = me.(_interface) /\ (f me).(_factoryID) = me.(_factoryID) /\ (f me).(_refCount) = me.(_refCount) /\
  (f me).(_context) = me.(_context) /\ (f me).(_accelerator) = me.(_accelerator).

Lemma store_lookup p r (me : GAType) r' : is_Some (p.(p_instances) !! r') -> is_Some (p_instances (set_instances (<[r := me]> p.(p_instances)) p) !! r').
Proof. intros H. cbn. destruct (decide (r' = r)) as [->|Hne]; [rewrite lookup_insert_eq; by eexists|by rewrite lookup_insert_ne]. Qed.

Lemma Inv_store p b C S n g r me me' : Inv p b C S n g -> p.(p_instances) !! r = Some me -> Conn (<[r := me']> p.(p_instances)) b C S n g -> Inv (set_instances (<[r := me']> p.(p_instances)) p) b C S n g.
Proof.
  intros [Hc Hi Ht Hb] Hr Hc'. split; try done. intros r' Hr'. apply (Hb r). by exists me.
Qed.

Lemma wp_store_quiet p b C S n r me f (Q : post unit) g : Inv p b C S n g -> p.(p_instances) !! r = Some me -> quiet f ->
  (forall p', Inv p' b C S n g -> frame p p' -> p'.(p_instances) !! r = Some (f me) -> Q tt p' g) -> wp (store_instance r f) Q p g.
Proof.
  intros HI Hr Hf HQ. eapply wp_store_instance; [exact Hr|]. destruct (Hf me) as (E1 & E2 & E3 & E4 & E5). apply HQ.
  - eapply Inv_store; [exact HI|exact Hr|]. destruct HI as [Hc _ _ _]. eapply Conn_store; [exact Hc|exact Hr|done|done| |by right]. rewrite E3. by apply (cn_instance _ _ _ _ _ _ Hc r).
  - split; [done|done|]. intros r' Hr'. by apply store_lookup.
  - apply lookup_insert_eq.
Qed.

Lemma plugin_frame_trans p1 p2 p3 : frame p1 p2 -> frame p2 p3 -> frame p1 p3.
Proof. intros [A1 A2 A3] [B1 B2 B3]. split; [congruence|congruence|auto]. Qed.
Lemma plugin_frame_refl p : frame p p.
Proof. by split. Qed.

Lemma wp_connected {A} p b n me failed (f : Z -> GAType -> prog A) (Q : post A) g : Inv p b ∅ ∅ n g -> usable p b me -> (forall rc, Q (failed rc) p g) ->
  (forall r x, me = Some r -> p.(p_instances) !! r = Some x -> x.(_context) ∈ g.(l_open) -> wp (f r x) Q p g) -> wp (connected me failed f) Q p g.
Proof.
  intros HI Hu H1 H2. unfold connected. destruct me as [r|]; [|by apply ga_wp_ret]. destruct Hu as [[x Hx] Hb]. apply ga_wp_bind. eapply wp_load_instance; [exact Hx|].
  destruct (Z.eqb_spec x.(_context) 0) as [E|E]; [by apply ga_wp_ret|]. apply H2; [done|done|]. destruct HI as [Hc _ _ _]. by eapply Conn_context.
Qed.

Lemma wp_with_info {A} p b C S n surface failed (f : Z -> SurfaceInfo -> prog A) (Q : post A) g : Inv p b C S n g -> is_Some (p.(p_surfaces) !! surface) -> (forall rc, Q (failed rc) p g) ->
  (forall s si i, p.(p_surfaces) !! surface = Some s -> s.(interfaceRef) = Some si -> p.(p_infos) !! si = Some i -> i.(d0) = None -> i.(addr) = 0 -> wp (f si i) Q p g) ->
  wp (with_info surface failed f) Q p g.
Proof.
  intros HI [s Hs] H1 H2. unfold with_info. apply ga_wp_bind. eapply wp_load_surface; [exact Hs|]. destruct (interfaceRef s) as [si|] eqn:Er; [|by apply ga_wp_ret].
  destruct HI as [_ Hi _ _]. destruct (in_ref _ _ Hi surface s si Hs Er) as [i Ei]. destruct (in_info _ _ Hi si i Ei) as (E1 & E2 & _). apply ga_wp_bind. eapply wp_load_info; [exact Ei|]. by eapply H2.
Qed.

Lemma wp_send_surface p b n r me i0 i1 surface (Q : post IOReturn) g : Inv p b ∅ ∅ n g -> p.(p_instances) !! r = Some me -> me.(_context) ∈ g.(l_open) ->
  (forall rc p' g', Inv p' b ∅ ∅ (n + 2) g' -> frame p p' -> g'.(l_open) = g.(l_open) -> Q rc p' g') -> wp (send_surface r i0 i1 surface) Q p g.
Proof.
  intros HI Hr Ho HQ. unfold send_surface. apply ga_wp_bind. eapply wp_load_instance; [exact Hr|]. apply ga_wp_bind. eapply wp_message; [exact HI|done|wf|]. intros a g1 H1 E1.
  apply ga_wp_bind. eapply wp_store_quiet; [exact H1|exact Hr|done|]. intros p2 H2 F2 Hr2. destruct (negb _); [apply ga_wp_ret, HQ; [eapply plugin_Inv_le; [exact H2|lia]|done|done]|].
  apply ga_wp_bind. eapply wp_store_quiet; [exact H2|exact Hr2|done|]. intros p3 H3 F3 Hr3. apply ga_wp_bind. apply wp_need; [done|]. intros garbage _. apply ga_wp_bind.
  eapply wp_message; [exact H3|cbn; by rewrite E1|wf|]. intros a' g4 H4 E4. apply ga_wp_bind. assert (forall v1 v2, wp (store_instance r (set_config_Ex v1 v2)) (fun _ => wp (mret (an_rc a')) Q) p3 g4) as Hend.
  { intros v1 v2. eapply wp_store_quiet; [exact H4|exact Hr3|done|]. intros p5 H5 F5 _. apply ga_wp_ret, HQ; [eapply plugin_Inv_le; [exact H5|lia]| |].
    - by eapply plugin_frame_trans, plugin_frame_trans.
    - by rewrite E4. }
  by destruct (ok _).
Qed.

Lemma wp_ceSetSurface p b n me options surface (Q : post IOReturn) g : Inv p b ∅ ∅ n g -> usable p b me -> surface_at p surface -> (has_bits options 0x800 = true -> surface <> None) ->
  (forall rc p' g', Inv p' b ∅ ∅ (n + 2) g' -> frame p p' -> g'.(l_open) = g.(l_open) -> Q rc p' g') -> wp (ceSetSurface me options surface) Q p g.
Proof.
  intros HI Hu Hs Hn HQ. assert (forall rc, Q rc p g) as Hfail by (intros rc; apply HQ; [eapply plugin_Inv_le; [exact HI|lia]|apply plugin_frame_refl|done]).
  eapply wp_connected; [exact HI|done|done|]. intros r x -> Hx Ho. destruct (has_bits options 2048) eqn:Eb; [|by eapply wp_send_surface].
  destruct surface as [s|]; [|by destruct (Hn eq_refl)]. apply ga_wp_bind. eapply ga_wp_deref; [done|]. eapply wp_with_info; [exact HI|done|done|]. intros s' si i Es Er Ei _ _.
  apply ga_wp_bind. eapply wp_load_surface; [exact Es|]. by eapply wp_send_surface.
Qed.

Lemma wp_ceSetDestination p b n me options surface (Q : post IOReturn) g : Inv p b ∅ ∅ n g -> usable p b me -> surface_at p surface -> (has_bits options kIOBlitSurfaceDestination = true -> surface <> None) ->
  (forall rc p' g', Inv p' b ∅ ∅ (n + 2) g' -> frame p p' -> g'.(l_open) = g.(l_open) -> Q rc p' g') -> wp (ceSetDestination me options surface) Q p g.
Proof. intros HI Hu Hs Hn HQ. unfold ceSetDestination. destruct (has_bits options _); by eapply wp_ceSetSurface. Qed.

Lemma wp_ceFlush p b n me options (Q : post IOReturn) g : Inv p b ∅ ∅ n g -> usable p b me -> (forall rc, Q rc p g) -> wp (ceFlush me options) Q p g.
Proof.
  intros HI Hu HQ. eapply wp_connected; [exact HI|done|done|]. intros r x -> Hx Ho. apply ga_wp_bind, wp_need; [done|]. intros same _. apply ga_wp_bind.
  destruct (same =? 0); [|by apply ga_wp_ret, ga_wp_ret]. apply wp_need; [done|]. intros [] _. by apply ga_wp_ret.
Qed.
End methods.

(** ** Infos of surfaces *)

Section infos.
Context (ss : gmap Z IOBlitSurface) (ii : gmap Z SurfaceInfo) (r : Z) (s : IOBlitSurface) (Hi : Infos ss ii) (Hs : ss !! r = Some s).

Local Ltac surface r' := destruct (decide (r' = r)) as [->|?]; [rewrite lookup_insert_eq|rewrite lookup_insert_ne by done].

Lemma Infos_same s' : s'.(interfaceRef) = s.(interfaceRef) -> Infos (<[r := s']> ss) ii.
Proof using Hi Hs.
  intros E. assert (forall r' x, <[r := s']> ss !! r' = Some x -> exists y, ss !! r' = Some y /\ y.(interfaceRef) = x.(interfaceRef)) as Hback.
  { intros r' x. surface r'; [intros [= <-]; by exists s|intros H; by exists x]. }
  split.
  - intros r' x si Hx Ex. destruct (Hback _ _ Hx) as (y & Hy & Ey). eapply (in_ref _ _ Hi r'); [exact Hy|congruence].
  - intros si i Ei. destruct (in_info _ _ Hi si i Ei) as (E1 & E2 & r' & x & Hx & Ex). split_and!; try done. exists r'. surface r'; [exists s'; assert (x = s) as -> by congruence; split; [done|congruence]|by exists x].
  - intros r1 r2 x1 x2 si H1 H2 E1 E2. destruct (Hback _ _ H1) as (y1 & Hy1 & Ey1), (Hback _ _ H2) as (y2 & Hy2 & Ey2). apply (in_inj _ _ Hi r1 r2 y1 y2 si); [exact Hy1|exact Hy2|congruence..].
Qed.

Lemma Infos_alloc si c : s.(interfaceRef) = None -> ii !! si = None -> Infos (<[r := set_interfaceRef (Some si) s]> ss) (<[si := mk_SurfaceInfo None 0 c]> ii).
Proof using Hi Hs.
  intros En Ei. assert (forall r' x, ss !! r' = Some x -> x.(interfaceRef) <> Some si) as Hno.
  { intros r' x Hx Ex. destruct (in_ref _ _ Hi r' x si Hx Ex) as [i Ei']. congruence. }
  split.
  - intros r' x si'. surface r'; [intros [= <-] [= <-]; rewrite lookup_insert_eq; by eexists|]. intros Hx Ex. destruct (decide (si' = si)) as [->|Hne]; [rewrite lookup_insert_eq; by eexists|].
    rewrite lookup_insert_ne by done. by eapply (in_ref _ _ Hi).
  - intros si' i. destruct (decide (si' = si)) as [->|Hne]; [rewrite lookup_insert_eq|rewrite lookup_insert_ne by done].
    + intros [= <-]. split_and!; [done..|]. exists r, (set_interfaceRef (Some si) s). by rewrite lookup_insert_eq.
    + intros Hx. destruct (in_info _ _ Hi si' i Hx) as (E1 & E2 & r' & x & Hx' & Ex). split_and!; try done. exists r', x. surface r'; [congruence|done].
  - intros r1 r2 x1 x2 si'. surface r1; surface r2; [done|..].
    + intros [= <-] H2 [= <-] E2. by destruct (Hno _ _ H2).
    + intros H1 [= <-] E1 [= <-]. by destruct (Hno _ _ H1).
    + apply (in_inj _ _ Hi).
Qed.

Lemma Infos_free si : s.(interfaceRef) = Some si -> Infos (<[r := set_interfaceRef None s]> ss) (delete si ii).
Proof using Hi Hs.
  intros En. split.
  - intros r' x si'. surface r'; [by intros [= <-]|]. intros Hx Ex. rewrite lookup_delete_ne; [by eapply (in_ref _ _ Hi)|]. intros <-. by assert (r' = r) by (by eapply (in_inj _ _ Hi)).
  - intros si' i Hx. apply lookup_delete_Some in Hx as [Hne Hx]. destruct (in_info _ _ Hi si' i Hx) as (E1 & E2 & r' & x & Hx' & Ex). split_and!; try done. exists r', x. surface r'; [congruence|done].
  - intros r1 r2 x1 x2 si'. surface r1; surface r2; [done|by intros [= <-]|by intros ? [= <-]|apply (in_inj _ _ Hi)].
Qed.

Lemma Infos_store si c : is_Some (ii !! si) -> Infos ss (<[si := mk_SurfaceInfo None 0 c]> ii).
Proof using Hi.
  intros [i0 E0]. split.
  - intros r' x si' Hx Ex. destruct (decide (si' = si)) as [->|Hne]; [rewrite lookup_insert_eq; by eexists|]. rewrite lookup_insert_ne by done. by eapply (in_ref _ _ Hi).
  - intros si' i. destruct (decide (si' = si)) as [->|Hne]; [rewrite lookup_insert_eq|rewrite lookup_insert_ne by done; apply (in_info _ _ Hi)]. intros [= <-]. split_and!; [done..|]. apply (in_info _ _ Hi si i0 E0).
  - apply (in_inj _ _ Hi).
Qed.
End infos.

Section surfaces.
Implicit Types (p : plugin) (g : ledger) (b : gset Z) (n : Z).

Lemma Inv_memory p p' b C S n g : Inv p b C S n g -> p'.(p_instances) = p.(p_instances) -> p'.(ga) = p.(ga) -> p'.(ga_initialized) = p.(ga_initialized) ->
  Infos p'.(p_surfaces) p'.(p_infos) -> Inv p' b C S n g.
Proof. intros [Hc Hi Ht Hb] E1 E2 E3 Hi'. split; rewrite ?E1, ?E2, ?E3; done. Qed.

Lemma wp_free_si p b n surface s si rc (Q : post IOReturn) g : Inv p b ∅ ∅ n g -> p.(p_surfaces) !! surface = Some s -> s.(interfaceRef) = Some si ->
  (forall p', Inv p' b ∅ ∅ n g -> Q rc p' g) -> wp (free_si_and_exit surface si rc) Q p g.
Proof.
  intros HI Hs Er HQ. pose proof (iv_infos _ _ _ _ _ _ HI) as Hi. destruct (in_ref _ _ Hi _ _ _ Hs Er) as [i Ei]. apply ga_wp_bind. eapply wp_free_info; [exact Ei|]. apply ga_wp_bind.
  eapply wp_store_surface; [exact Hs|]. apply ga_wp_ret. apply HQ. eapply Inv_memory; [exact HI|done..|]. by apply Infos_free.
Qed.

Lemma wp_set_si p b n surface s si rc (Q : post IOReturn) g : Inv p b ∅ ∅ n g -> p.(p_surfaces) !! surface = Some s -> s.(interfaceRef) = si ->
  (forall p', Inv p' b ∅ ∅ n g -> Q rc p' g) -> wp (set_si_and_exit surface si rc) Q p g.
Proof.
  intros HI Hs Er HQ. apply ga_wp_bind. eapply wp_store_surface; [exact Hs|]. apply ga_wp_ret. apply HQ.
  eapply Inv_memory; [exact HI|done..|]. pose proof (iv_infos _ _ _ _ _ _ HI) as Hi. by eapply Infos_same.
Qed.

Lemma wp_ceAllocateSurface p b n me options surface cgs (Q : post IOReturn) g : Inv p b ∅ ∅ n g -> usable p b me ->
  (forall r, surface = Some r -> exists s, p.(p_surfaces) !! r = Some s /\ s.(interfaceRef) = None) ->
  (forall rc p' g', Inv p' b ∅ ∅ (n + 4) g' -> Q rc p' g') -> wp (ceAllocateSurface me options surface cgs) Q p g.
Proof.
  intros HI Hu Hs HQ. assert (forall rc, Q rc p g) as Hfail by (intros rc; apply HQ; eapply plugin_Inv_le; [exact HI|lia]). unfold ceAllocateSurface. destruct surface as [sf|]; [|by apply ga_wp_ret].
  destruct (Hs sf eq_refl) as (s & Es & Er). eapply wp_connected; [exact HI|done|done|]. intros r x -> Hx Ho. apply ga_wp_bind. eapply wp_load_surface; [exact Es|].
  destruct (if _config_val_2 x <=? 79 then _ else _) as [mw mh]. destruct (_ && _); [by apply ga_wp_ret|]. apply ga_wp_bind, wp_need; [done|]. intros bm _. cbn [note]. destruct (negb bm); [by apply ga_wp_ret|].
  apply ga_wp_bind, wp_read, ga_wp_bind, wp_update. pose proof (next_address_fresh (p_infos p)) as Hfresh. set (si := next_address (p_infos p)) in *. pose proof (iv_infos _ _ _ _ _ _ HI) as Hi.
  assert (forall rc, wp (free_si_and_exit sf si rc) Q (set_infos (<[si := mk_SurfaceInfo None 0 0]> (p_infos p)) p) g) as Hplain.
  { intros rc. apply ga_wp_bind. eapply wp_free_info; [apply lookup_insert_eq|]. cbn [p_infos set_infos]. rewrite delete_insert_eq, delete_id by done. apply ga_wp_bind. eapply wp_store_surface; [exact Es|]. apply ga_wp_ret, HQ.
    apply (Inv_memory p); [eapply plugin_Inv_le; [exact HI|lia]|done..|]. by eapply Infos_same. }
  destruct (has_bits options kIOBlitHasCGSSurface); [|by destruct (negb _)].
  apply ga_wp_bind. eapply wp_store_info; [apply lookup_insert_eq|]. apply ga_wp_bind. eapply wp_store_surface; [exact Es|]. cbn [p_infos p_surfaces set_infos set_surfaces p_instances ga ga_initialized this_ga this_ga_ctx d0 addr]. rewrite insert_insert_eq.
  match goal with |- wp _ _ ?q _ => set (p1 := q) end. assert (Inv p1 b ∅ ∅ n g) as H1.
  { apply (Inv_memory p); [done..|]. by apply Infos_alloc. }
  assert (p_surfaces p1 !! sf = Some (set_interfaceRef (Some si) s)) as Es1 by apply lookup_insert_eq. assert (is_Some (p_instances p1 !! r)) as Hx1 by (by exists x). clearbody p1.
  apply ga_wp_bind. eapply wp_ceSetSurface; [exact H1|split; [done|apply Hu]|by eexists|done|]. intros rc p2 g2 H2 [F1 F2 F3] E2. rewrite <-F1 in Es1.
  destruct (negb _); [eapply wp_free_si; [exact H2|exact Es1|done|]; intros p3 H3; apply HQ; eapply plugin_Inv_le; [exact H3|lia]|].
  assert (forall (a : reply) g3, Inv p2 b ∅ ∅ (n + 4) g3 -> wp (if negb (ok (an_rc a)) then free_si_and_exit sf si (an_rc a)
    else if has_bits options 16 && has_bits (_config_val_1 x) 66 && negb (ceDecodePixelFormat (pixelFormat s)) then set_si_and_exit sf (Some si) kIOReturnSuccess else set_si_and_exit sf (Some si) kIOReturnSuccess) Q p2 g3) as Hend.
  { intros a g3 H3. destruct (negb _); [eapply wp_free_si; [exact H3|exact Es1|done|]; intros p4 H4; by apply HQ|]. destruct (_ && _); (eapply wp_set_si; [exact H3|exact Es1|done|]; intros p4 H4; by apply HQ). }
  apply ga_wp_bind. destruct (has_bits options kIOBlitFixedSource); [|apply ga_wp_ret, Hend; eapply plugin_Inv_le; [exact H2|lia]].
  eapply wp_message; [exact H2|by rewrite E2|wf|]. intros a g3 H3 E3. apply Hend. eapply plugin_Inv_le; [exact H3|lia].
Qed.

Lemma wp_ceFreeSurface p b n me options surface (Q : post IOReturn) g : Inv p b ∅ ∅ n g -> usable p b me -> surface_at p surface ->
  (forall rc p' g', Inv p' b ∅ ∅ (n + 4) g' -> Q rc p' g') -> wp (ceFreeSurface me options surface) Q p g.
Proof.
  intros HI Hu Hs HQ. assert (forall rc, Q rc p g) as Hfail by (intros rc; apply HQ; eapply plugin_Inv_le; [exact HI|lia]). unfold ceFreeSurface. destruct surface as [sf|]; [|by apply ga_wp_ret].
  eapply wp_connected; [exact HI|done|done|]. intros r x -> Hx Ho. eapply wp_with_info; [exact HI|done|done|]. intros s si i Es Er Ei Ed Ea. apply ga_wp_bind.
  assert (forall rc p' g', Inv p' b ∅ ∅ (n + 2) g' -> p_surfaces p' !! sf = Some s -> wp (i ← load_info si;
    rc ← match d0 i with Some input => a ← need (IOConnectCallMethod (_context x) (scalars_message kIOCE2DDeleteImage [input] 0)); mret (an_rc a) | None => mret rc end;
    free_info si;; store_surface sf (set_interfaceRef None);; mret rc) Q p' g') as Hend.
  { intros rc p' g' H' Es'. destruct (in_ref _ _ (iv_infos _ _ _ _ _ _ H') _ _ _ Es' Er) as [i' Ei']. destruct (in_info _ _ (iv_infos _ _ _ _ _ _ H') _ _ Ei') as (Ed' & _ & _).
    apply ga_wp_bind. eapply wp_load_info; [exact Ei'|]. rewrite Ed'. apply ga_wp_bind, ga_wp_ret. apply (wp_free_si p' b (n + 2) sf s si rc); [done..|]. intros p2 H2. apply HQ. eapply plugin_Inv_le; [exact H2|lia]. }
  destruct (_surface x); [|apply ga_wp_ret, Hend; [eapply plugin_Inv_le; [exact HI|lia]|done]]. apply ga_wp_bind. eapply wp_store_info; [exact Ei|]. rewrite Ed, Ea.
  set (p1 := set_infos _ p). assert (Inv p1 b ∅ ∅ n g) as H1 by (apply (Inv_memory p); [done..|]; eapply Infos_store; [by apply iv_infos in HI|by exists i]).
  eapply wp_ceSetDestination; [exact H1|split; [by exists x|apply Hu]|done|done|]. intros rc p2 g2 H2 [F1 F2 F3] E2. apply Hend; [done|]. by rewrite F1.
Qed.
End surfaces.

(** ** Life *)

Section life.
Implicit Types (p : plugin) (g : ledger) (b : gset Z) (n : Z).

Lemma Conn_new h b n g r me : Conn h b ∅ ∅ n g -> h !! r = None -> me.(_interface) = true -> me.(_factoryID) = true -> me.(_refCount) = 1 -> me.(_context) = 0 -> me.(_accelerator) = 0 ->
  Conn (<[r := me]> h) b ∅ ∅ n (note AddInstanceForFactory tt g).
Proof.
  intros [H1 H2 H3 H4 H5 H6 H7] Hr E1 E2 E3 E4 E5. assert (held (<[r := me]> h) b = held h b) as Eh by (apply held_insert; right; rewrite Hr; cbn; unfold connection; by rewrite E4).
  split; cbn; rewrite ?Eh; try done.
  - intros r' x. destruct (decide (r' = r)) as [->|Hne]; [rewrite lookup_insert_eq|rewrite lookup_insert_ne by done; apply H1]. intros [= <-]. rewrite E3. split_and!; done.
  - intros r' x. destruct (decide (r' = r)) as [->|Hne]; [rewrite lookup_insert_eq|rewrite lookup_insert_ne by done; apply H2]. intros [= <-] _. by rewrite E4, E5.
  - rewrite dom_insert. set_solver.
  - rewrite map_size_insert_None by done. lia.
Qed.

Lemma wp_CEsvga2GAFactory p b n typeID (Q : post (option Z)) g : Inv p b ∅ ∅ n g -> (forall r p' g', Inv p' b ∅ ∅ n g' -> Q r p' g') -> wp (CEsvga2GAFactory typeID) Q p g.
Proof.
  intros HI HQ. unfold CEsvga2GAFactory. case_bool_decide; [|by apply ga_wp_ret, HQ]. apply ga_wp_bind, wp_need; [done|]. intros bm _. destruct (negb bm); [by apply ga_wp_ret, HQ|].
  apply ga_wp_bind, wp_read. pose proof (next_address_fresh (p_instances p)) as Hfresh. set (r := next_address _) in *. apply ga_wp_bind.
  assert (forall p1, p1.(p_instances) = p.(p_instances) -> p1.(p_surfaces) = p.(p_surfaces) -> p1.(p_infos) = p.(p_infos) -> p1.(ga) = the_table -> p1.(ga_initialized) = true ->
    wp (need AddInstanceForFactory;; update (fun p => set_instances (<[r := mk_GAType true true 1 0 0 (replicate 11 0) 0 0 None 0 0 0]> p.(p_instances)) p);; mret (Some r)) Q p1 g) as Hend.
  { intros p1 E1 E2 E3 E4 E5. apply ga_wp_bind, wp_need; [done|]. intros [] _. apply ga_wp_bind, wp_update, ga_wp_ret, HQ. destruct HI as [Hc Hi Ht Hb]. split; cbn; rewrite ?E1, ?E2, ?E3; try done.
    by apply Conn_new. }
  unfold _buildGAFTbl. apply ga_wp_bind, wp_read. destruct (ga_initialized p) eqn:Eg; [apply ga_wp_ret, Hend; try done; by apply (iv_table _ _ _ _ _ _ HI)|]. apply wp_update. by apply Hend.
Qed.

Lemma wp_ceAddRef p b n me (Q : post Z) g : Inv p b ∅ ∅ n g -> (forall r, me = Some r -> exists x, p.(p_instances) !! r = Some x /\ x.(_refCount) + 1 < 2 ^ 32) ->
  (forall r p', Inv p' b ∅ ∅ n g -> Q r p' g) -> wp (ceAddRef me) Q p g.
Proof.
  intros HI Hm HQ. unfold ceAddRef. destruct me as [r|]; [|by apply ga_wp_ret, HQ]. destruct (Hm r eq_refl) as (x & Hx & Hc). apply ga_wp_bind. eapply wp_store_instance; [exact Hx|]. apply ga_wp_bind.
  eapply wp_load_instance; [apply lookup_insert_eq|]. apply ga_wp_ret, HQ. eapply Inv_store; [exact HI|exact Hx|]. pose proof (iv_conn _ _ _ _ _ _ HI) as Hcn. destruct (cn_instance _ _ _ _ _ _ Hcn r x Hx) as (_ & _ & Hr).
  eapply Conn_store; [exact Hcn|exact Hx|done|done|cbn; rewrite wrap_small; unfold fits; lia|by right].
Qed.

Lemma wp_ceQueryInterface p b n me iid (Q : post (HRESULT * option Z)) g : Inv p b ∅ ∅ n g -> (forall r, me = Some r -> exists x, p.(p_instances) !! r = Some x /\ x.(_refCount) + 1 < 2 ^ 32) ->
  (forall r p', Inv p' b ∅ ∅ n g -> Q r p' g) -> wp (ceQueryInterface me iid) Q p g.
Proof.
  intros HI Hm HQ. unfold ceQueryInterface. destruct (_ || _); [|by apply ga_wp_ret, HQ]. destruct me as [r|]; [|by apply ga_wp_ret, HQ]. destruct (Hm r eq_refl) as (x & Hx & Hc). apply ga_wp_bind.
  eapply wp_load_instance; [exact Hx|]. apply ga_wp_bind. destruct (_interface x); [|by apply ga_wp_ret, ga_wp_ret, HQ]. apply ga_wp_bind, wp_read. unfold entry. rewrite (iv_table _ _ _ _ _ _ HI) by (apply (iv_built _ _ _ _ _ _ HI r); by exists x).
  change (list_find _ the_table) with (Some (1%nat, (AddRef, F_ceAddRef))). apply ga_wp_bind. eapply wp_ceAddRef; [exact HI|done|]. intros c p' HI'. by apply ga_wp_ret, ga_wp_ret, HQ.
Qed.

Lemma Conn_delete h b n g r me : Conn h b ∅ ∅ n g -> h !! r = Some me -> r ∈ b \/ me.(_context) = 0 -> Conn (delete r h) (b ∩ dom (delete r h)) ∅ ∅ n (note RemoveInstanceForFactory tt g).
Proof.
  intros [H1 H2 H3 H4 H5 H6 H7] Hr Hb. assert (b ∩ dom (delete r h) = b ∖ {[r]}) as -> by (rewrite dom_delete_L; set_solver).
  assert (held (delete r h) (b ∖ {[r]}) = held h b) as Eh.
  { apply map_eq. intros r'. rewrite !lookup_held. destruct (decide (r' = r)) as [->|Hne].
    - rewrite lookup_delete_eq, Hr. cbn. case_decide; [done|]. destruct Hb as [|Hb]; [done|]. unfold connection. by rewrite Hb.
    - rewrite lookup_delete_ne by done. destruct (h !! r') as [x|]; [|done]. cbn. apply decide_ext. set_solver. }
  assert (forall r' x, delete r h !! r' = Some x -> r' <> r /\ h !! r' = Some x) as Hd by (intros r' x Hx; apply lookup_delete_Some in Hx as [? ?]; done).
  split; cbn; rewrite ?Eh; try done.
  - intros r' x Hx. apply (H1 r'), Hd, Hx.
  - intros r' x Hx Hb'. destruct (Hd _ _ Hx) as [Hne Hx']. apply (H2 r'); [done|set_solver].
  - rewrite dom_delete. set_solver.
  - rewrite H6, map_size_delete, Hr. assert (size h <> 0%nat) by (intros E; apply map_size_empty_iff in E; subst; done). lia.
Qed.

Lemma wp_ceRelease p b n me (Q : post Z) g : Inv p b ∅ ∅ n g ->
  (forall r, me = Some r -> exists x, p.(p_instances) !! r = Some x /\ (x.(_refCount) = 1 -> r ∈ b \/ x.(_context) = 0)) ->
  (forall c p' g', Inv p' (b ∩ dom p'.(p_instances)) ∅ ∅ n g' -> Q c p' g') -> wp (ceRelease me) Q p g.
Proof.
  intros HI Hm HQ. assert (forall p', Inv p' b ∅ ∅ n g -> Inv p' (b ∩ dom (p_instances p')) ∅ ∅ n g) as Hdom.
  { intros p' H'. assert (b ∩ dom (p_instances p') = b) as ->; [|done]. destruct H' as [Hc _ _ _]. pose proof (cn_broken _ _ _ _ _ _ Hc). set_solver. }
  unfold ceRelease. destruct me as [r|]; [|by apply ga_wp_ret, HQ, Hdom]. destruct (Hm r eq_refl) as (x & Hx & Hl). pose proof (iv_conn _ _ _ _ _ _ HI) as Hcn. destruct (cn_instance _ _ _ _ _ _ Hcn r x Hx) as (F1 & F2 & F3).
  apply ga_wp_bind. eapply wp_store_instance; [exact Hx|]. apply ga_wp_bind. eapply wp_load_instance; [apply lookup_insert_eq|]. cbn [_refCount set_refCount]. rewrite wrap_small by (unfold fits; lia).
  destruct (Z.eqb_spec (x.(_refCount) - 1) 0) as [E|E].
  - apply ga_wp_bind. apply ga_wp_bind. eapply wp_load_instance; [apply lookup_insert_eq|]. apply ga_wp_bind. eapply wp_free_instance; [apply lookup_insert_eq|]. cbn [_factoryID set_refCount p_instances set_instances]. rewrite F2, delete_insert_eq.
    apply wp_need; [cbn; rewrite (cn_factory _ _ _ _ _ _ Hcn); assert (size (p_instances p) <> 0%nat) by (intros E'; apply map_size_empty_iff in E'; rewrite E' in Hx; done); lia|].
    intros [] _. apply ga_wp_ret, HQ. destruct HI as [_ Hi Ht Hb]. split; cbn [p_instances set_instances p_surfaces p_infos ga ga_initialized]; try done.
    + eapply Conn_delete; [done|exact Hx|apply Hl; lia].
    + intros r' [y Hy]. apply (Hb r). by exists x.
  - apply ga_wp_ret, HQ, Hdom. eapply Inv_store; [exact HI|exact Hx|]. eapply Conn_store; [exact Hcn|exact Hx|done|done|cbn; lia|by right].
Qed.
End life.

Section start.
Implicit Types (p : plugin) (g : ledger) (b : gset Z) (n : Z) (X : gmultiset Z) (a : Z).

Lemma ms_put X a : {[+ a +]} ⊎ (X ⊎ ∅) = X ⊎ {[+ a +]}.
Proof. multiset_solver. Qed.
Lemma ms_take X a : (X ⊎ {[+ a +]}) ∖ {[+ a +]} = X ⊎ ∅.
Proof. multiset_solver. Qed.
Lemma ms_in X a : a ∈ X ⊎ {[+ a +]}.
Proof. multiset_solver. Qed.

Lemma Inv_note p b C S C' S' n n' g g' : Inv p b C S n g -> g'.(l_open) = sum_of fst (held p.(p_instances) b) ⊎ C' -> g'.(l_services) = sum_of snd (held p.(p_instances) b) ⊎ S' ->
  g'.(l_factory) = g.(l_factory) -> g'.(l_sent) <= n' -> Inv p b C' S' n' g'.
Proof. intros [[H1 H2 H3 H4 H5 H6 H7] Hi Ht Hb] E1 E2 E3 E4. split; try done. split; try done. congruence. Qed.

Lemma Inv_this p b C S n g r c : Inv p b C S n g -> Inv (set_this r c p) b C S n g.
Proof. intros [Hc Hi Ht Hb]. by split. Qed.

Lemma wp_good_exit p b C S n r me rc (Q : post IOReturn) g : Inv p b C S n g -> p.(p_instances) !! r = Some me ->
  (forall p', Inv p' b C S n g -> p'.(p_instances) = p.(p_instances) -> Q rc p' g) -> wp (good_exit r rc) Q p g.
Proof. intros HI Hr HQ. apply ga_wp_bind. eapply wp_load_instance; [exact Hr|]. apply ga_wp_bind, wp_update, ga_wp_ret, HQ; [by apply Inv_this|done]. Qed.

(** What had been opened is given back. *)
Lemma wp_cleanup p b n r me accelerator context rc (Q : post IOReturn) g :
  Inv p b (if context =? 0 then ∅ else {[+ context +]}) {[+ accelerator +]} n g -> accelerator <> 0 -> p.(p_instances) !! r = Some me ->
  (forall p' g', Inv p' b ∅ ∅ (n + 1) g' -> Q rc p' g') -> wp (cleanup r accelerator context rc) Q p g.
Proof.
  intros HI Ha Hr HQ. assert (forall g1, Inv p b ∅ {[+ accelerator +]} (n + 1) g1 -> wp ((if accelerator =? 0 then mret tt else need (IOObjectRelease accelerator));; good_exit r rc) Q p g1) as Hend.
  { intros g1 H1. apply ga_wp_bind. rewrite (proj2 (Z.eqb_neq _ _) Ha). pose proof (iv_conn _ _ _ _ _ _ H1) as Hc. apply wp_need; [cbn [permitted]; rewrite (cn_services _ _ _ _ _ _ Hc); apply ms_in|]. intros [] _.
    eapply wp_good_exit; [|exact Hr|intros p' H' _; by apply HQ]. eapply Inv_note; [exact H1|apply Hc|..|done|apply Hc]. cbn [note l_services]. rewrite (cn_services _ _ _ _ _ _ Hc). first [apply ms_put | apply ms_take]. }
  unfold cleanup. apply ga_wp_bind. destruct (Z.eqb_spec context 0) as [->|Hne]; [apply ga_wp_ret, Hend; eapply plugin_Inv_le; [exact HI|lia]|].
  pose proof (iv_conn _ _ _ _ _ _ HI) as Hc. apply wp_need; [cbn [permitted]; rewrite (cn_open _ _ _ _ _ _ Hc); apply ms_in|]. intros [] _. apply Hend.
  eapply Inv_note; [exact HI|..|apply Hc|done|cbn; pose proof (cn_sent _ _ _ _ _ _ Hc); lia]. cbn [note l_open]. rewrite (cn_open _ _ _ _ _ _ Hc). first [apply ms_put | apply ms_take].
Qed.

Lemma ok_spec rc : ok rc = true <-> rc = kIOReturnSuccess.
Proof. unfold ok. by rewrite bool_decide_eq_true. Qed.

Lemma wp_ceStart p b n me service (Q : post IOReturn) g : Inv p b ∅ ∅ n g ->
  (forall r, me = Some r -> exists x, p.(p_instances) !! r = Some x /\ x.(_context) = 0 /\ r ∉ b) ->
  (forall rc p' g', Inv p' (match me with Some r => if ok rc then b else {[r]} ∪ b | None => b end) ∅ ∅ (n + 4) g' -> Q rc p' g') -> wp (ceStart me service) Q p g.
Proof.
  intros HI Hm HQ. unfold ceStart. destruct me as [r|]; [|apply ga_wp_ret, HQ; eapply plugin_Inv_le; [exact HI|lia]]. destruct (Hm r eq_refl) as (x & Hx & E0 & Hb).
  assert (Inv p ({[r]} ∪ b) ∅ ∅ n g) as H0.
  { destruct HI as [Hc Hi Ht Hbu]. split; try done. pose proof (Conn_out _ _ _ _ _ _ r x Hc Hx Hb) as H. assert (connection x = None) as Ec by (unfold connection; by rewrite E0). rewrite Ec in H. cbv iota in H. by rewrite !gmultiset_disj_union_left_id in H. }
  destruct (service =? 0); [apply ga_wp_ret, HQ; cbn; eapply plugin_Inv_le; [exact H0|lia]|].
  apply ga_wp_bind, wp_need; [done|]. intros [[rc accelerator] index] Ha. cbn [note answers fst snd] in *. set (g1 := if ok rc then _ else _).
  assert (Inv p ({[r]} ∪ b) ∅ (if ok rc then {[+ accelerator +]} else ∅) n g1) as H1.
  { pose proof (iv_conn _ _ _ _ _ _ H0) as Hc. subst g1. destruct (ok rc) eqn:Eo; [|done]. eapply Inv_note; [exact H0|apply Hc|..|done|apply Hc]. cbn [note l_services]. rewrite (cn_services _ _ _ _ _ _ Hc). first [apply ms_put | apply ms_take]. }
  clearbody g1. apply ga_wp_bind. eapply wp_store_quiet; [exact H1|exact Hx|done|]. intros p2 H2 _ Hx2. destruct (ok rc) eqn:Eo; [|apply ga_wp_ret, HQ; rewrite Eo; eapply plugin_Inv_le; [exact H2|lia]]. cbn [negb].
  specialize (Ha (proj1 (ok_spec _) Eo)). clear rc Eo g H0 HI H1. pose proof (iv_conn _ _ _ _ _ _ H2) as Hc2. apply ga_wp_bind, wp_need; [cbn [permitted]; rewrite (cn_services _ _ _ _ _ _ Hc2); apply ms_in|].
  intros [rc context] Hopen. cbn [note answers fst snd] in *. assert (forall rc p' g', ok rc = false -> Inv p' ({[r]} ∪ b) ∅ ∅ (n + 4) g' -> Q rc p' g') as Hbad by (intros rc' p' g' E H'; apply HQ; by rewrite E).
  destruct (ok rc) eqn:Eo; cbn [negb].
  2:{ rewrite Hopen. eapply wp_cleanup; [exact H2|done|exact Hx2|]. intros p' g' H'. apply Hbad; [done|]. eapply plugin_Inv_le; [exact H'|lia]. }
  destruct Hopen as [Hc0 Hopen]. set (g3 := mk_ledger _ _ _ _). assert (Inv p2 ({[r]} ∪ b) {[+ context +]} {[+ accelerator +]} n g3) as H3.
  { eapply Inv_note; [exact H2|..|apply Hc2|done|apply Hc2]. unfold g3. cbn [note l_open]. rewrite (cn_open _ _ _ _ _ _ Hc2). first [apply ms_put | apply ms_take]. }
  clearbody g3. apply ga_wp_bind. eapply wp_store_instance; [exact Hx2|]. set (p3 := set_instances _ p2). assert (Inv p3 ({[r]} ∪ b) {[+ context +]} {[+ accelerator +]} n g3) as H4.
  { eapply Inv_store; [exact H3|exact Hx2|]. pose proof (iv_conn _ _ _ _ _ _ H3) as Hc3. eapply Conn_store; [exact Hc3|exact Hx2|done|done|apply (cn_instance _ _ _ _ _ _ Hc3 r _ Hx2)|left; set_solver]. }
  assert (p_instances p3 !! r = Some (set_connection accelerator context (set_framebufferIndex index x))) as Hx3 by apply lookup_insert_eq. clearbody p3. clear p2 H2 Hc2 Hx2 H3 Hopen g1.
  assert (forall p' g' m, Inv p' ({[r]} ∪ b) {[+ context +]} {[+ accelerator +]} m g' -> context ∈ g'.(l_open)) as Hin by (intros p' g' m [Hc _ _ _]; rewrite (cn_open _ _ _ _ _ _ Hc); apply ms_in).
  assert (forall p' g' y rc, Inv p' ({[r]} ∪ b) {[+ context +]} {[+ accelerator +]} (n + 2) g' -> p_instances p' !! r = Some y -> ok rc = false -> wp (cleanup r accelerator context rc) Q p' g') as Hclean.
  { intros p' g' y rc' H' Hy E. eapply wp_cleanup; [|done|exact Hy|].
    - rewrite (proj2 (Z.eqb_neq _ _) Hc0). exact H'.
    - intros p'' g'' H''. apply Hbad; [done|]. eapply plugin_Inv_le; [exact H''|lia]. }
  apply ga_wp_bind. eapply wp_message; [exact H4|by eapply Hin|wf|]. intros a g4 H5 _. apply ga_wp_bind. eapply wp_store_quiet; [exact H5|exact Hx3|done|]. intros p5 H6 _ Hx5.
  destruct (ok (an_rc a)) eqn:Ea; cbn [negb]; [|eapply Hclean; [eapply plugin_Inv_le; [exact H6|lia]|exact Hx5|done]].
  apply ga_wp_bind. eapply wp_message; [exact H6|by eapply Hin|wf|]. intros a' g6 H7 _. destruct (ok (an_rc a')) eqn:Ea'; cbn [negb]; [|eapply Hclean; [eapply plugin_Inv_le; [exact H7|lia]|exact Hx5|done]].
  apply ga_wp_bind. eapply wp_store_quiet; [exact H7|exact Hx5|done|]. intros p7 H8 _ Hx7. apply ga_wp_bind. unfold ceReset, connected. apply ga_wp_bind. eapply wp_load_instance; [exact Hx7|].
  cbn [_context set_config_val_2 set_config_val_1 set_connection]. rewrite (proj2 (Z.eqb_neq _ _) Hc0). apply ga_wp_ret. change (negb (ok kIOReturnSuccess)) with false. cbn iota.
  apply ga_wp_bind, ga_wp_bind. eapply wp_message; [exact H8|by eapply Hin|wf|]. intros a2 g8 H9 _. apply ga_wp_ret. eapply wp_good_exit; [exact H9|exact Hx7|]. intros p9 H10 E9. apply HQ.
  change (ok kIOReturnSuccess) with true. cbn iota. eapply (plugin_Inv_le _ _ _ _ (n + 1 + 1 + 1)); [|lia]. destruct H10 as [Hc Hi Ht Hbu]. split; try done.
  eapply (Conn_in _ b ∅ ∅ _ _ r); [exact Hc|by rewrite E9|done|cbn; tauto|unfold connection; cbn; rewrite (proj2 (Z.eqb_neq _ _) Hc0); multiset_solver..].
Qed.

Lemma wp_ceStop p b n me (Q : post IOReturn) g : Inv p b ∅ ∅ n g -> usable p b me -> (forall rc p' g', Inv p' b ∅ ∅ (n + 4) g' -> Q rc p' g') -> wp (ceStop me) Q p g.
Proof.
  intros HI Hu HQ. unfold ceStop. destruct me as [r|]; [|apply ga_wp_ret, HQ; eapply plugin_Inv_le; [exact HI|lia]]. apply ga_wp_bind. eapply wp_ceFlush; [exact HI|done|]. intros _. apply ga_wp_bind, wp_update. destruct Hu as [[x Hx] Hb].
  apply ga_wp_bind. eapply wp_load_instance; [exact Hx|]. pose proof (Inv_this _ _ _ _ _ _ None 0 HI) as H1. set (p1 := set_this _ _ p) in *. change (p_instances p1 !! r = Some x) in Hx. clearbody p1.
  destruct (Z.eqb_spec x.(_accelerator) 0) as [Ea|Ea]; [apply ga_wp_ret, HQ; eapply plugin_Inv_le; [exact H1|lia]|]. pose proof (iv_conn _ _ _ _ _ _ H1) as Hc. pose proof (cn_both _ _ _ _ _ _ Hc r x Hx Hb) as Hboth.
  assert (x.(_context) <> 0) as Hctx by (by intros E; apply Ea, Hboth). rewrite (proj2 (Z.eqb_neq _ _) Hctx).
  assert (Inv p1 ({[r]} ∪ b) {[+ x.(_context) +]} {[+ x.(_accelerator) +]} n g) as H2.
  { destruct H1 as [_ Hi Ht Hbu]. split; try done. pose proof (Conn_out _ _ _ _ _ _ r x Hc Hx Hb) as H. assert (connection x = Some (x.(_context), x.(_accelerator))) as Ec by (unfold connection; by rewrite (proj2 (Z.eqb_neq _ _) Hctx)). rewrite Ec in H. cbv iota in H. by rewrite !gmultiset_disj_union_right_id in H. }
  pose proof (iv_conn _ _ _ _ _ _ H2) as Hc2. apply ga_wp_bind, wp_need; [by apply (Conn_context _ _ _ _ _ _ r x Hc)|]. intros [] _. set (g2 := note _ _ g). assert (Inv p1 ({[r]} ∪ b) ∅ {[+ x.(_accelerator) +]} (n + 1) g2) as H3.
  { eapply Inv_note; [exact H2|..|apply Hc2|done|cbn; pose proof (cn_sent _ _ _ _ _ _ Hc2); lia]. unfold g2. cbn [note l_open]. rewrite (cn_open _ _ _ _ _ _ Hc2). first [apply ms_put | apply ms_take]. }
  clearbody g2. pose proof (iv_conn _ _ _ _ _ _ H3) as Hc3. apply ga_wp_bind, wp_need; [cbn [permitted]; rewrite (cn_services _ _ _ _ _ _ Hc3); apply ms_in|]. intros [] _. set (g3 := note _ _ g2). assert (Inv p1 ({[r]} ∪ b) ∅ ∅ (n + 1) g3) as H4.
  { eapply Inv_note; [exact H3|apply Hc3|..|done|apply Hc3]. unfold g3. cbn [note l_services]. rewrite (cn_services _ _ _ _ _ _ Hc3). first [apply ms_put | apply ms_take]. }
  clearbody g3. apply ga_wp_bind. eapply wp_store_instance; [exact Hx|]. apply ga_wp_ret, HQ. eapply (plugin_Inv_le _ _ _ _ (n + 1)); [|lia].
  assert (Inv (set_instances (<[r := set_connection 0 0 x]> (p_instances p1)) p1) ({[r]} ∪ b) ∅ ∅ (n + 1) g3) as [Hc5 Hi5 Ht5 Hb5].
  { eapply Inv_store; [exact H4|exact Hx|]. pose proof (iv_conn _ _ _ _ _ _ H4) as Hc4. eapply Conn_store; [exact Hc4|exact Hx|done|done|apply (cn_instance _ _ _ _ _ _ Hc4 r _ Hx)|left; set_solver]. }
  split; try done. eapply (Conn_in _ b ∅ ∅ _ _ r); [exact Hc5|apply lookup_insert_eq|done|done|cbn; multiset_solver..].
Qed.
End start.

(** ** The window server *)

Definition can_retain (p : plugin) (me : option Z) : Prop := forall r, me = Some r -> exists x, p.(p_instances) !! r = Some x /\ x.(_refCount) + 1 < 2 ^ 32.

(** What a client of the plug-in has to keep to: pointers are null or to what exists, an
    instance that could not be started is only released, an instance is started once and
    stopped before its last reference goes, and a surface has one info at a time. *)
Definition allowed (c : call) (p : plugin) (b : gset Z) : Prop :=
  match c with
  | CFactory _ | CProbe | CGetBeamPosition | CGetBlitter _ _ _ | CMemCopy | CMemCopyRegion => True
  | CQueryInterface me _ | CAddRef me => can_retain p me
  | CRelease me => forall r, me = Some r -> exists x, p.(p_instances) !! r = Some x /\ (x.(_refCount) = 1 -> r ∈ b \/ x.(_context) = 0)
  | CStart me _ => forall r, me = Some r -> exists x, p.(p_instances) !! r = Some x /\ x.(_context) = 0 /\ r ∉ b
  | CStop me | CReset me _ | CFlush me _ | CSynchronize me _ _ _ _ _ | CWaitComplete me _ => usable p b me
  | CCopyCapabilities me select capabilities => usable p b me /\ (select = smvl -> capabilities <> None)
  | CAllocateSurface me _ surface _ => usable p b me /\ forall r, surface = Some r -> exists s, p.(p_surfaces) !! r = Some s /\ s.(interfaceRef) = None
  | CFreeSurface me _ surface | CLockSurface me _ surface _ | CUnlockSurface me _ surface | CSwapSurface me _ surface | CWaitSurface me _ surface =>
      usable p b me /\ surface_at p surface
  | CSetDestination me options surface => usable p b me /\ surface_at p surface /\ (has_bits options kIOBlitSurfaceDestination = true -> surface <> None)
  | CSetSurface me options surface => usable p b me /\ surface_at p surface /\ (has_bits options 0x800 = true -> surface <> None)
  | CCopy me _ operation => usable p b me /\ forall o, operation = Some o -> 0 <= o.(cr_count) <= Z.of_nat (length o.(cr_rects))
  | CFill me _ operation _ => usable p b me /\ forall o, operation = Some o -> 0 <= o.(rs_count) <= Z.of_nat (length o.(rs_rects))
  | CCopyRegion me _ _ operation _ => usable p b me /\ forall o rgn, operation = Some o -> o.(cg_region) = Some rgn -> 0 <= rgn.(rgn_num_rects) <= Z.of_nat (length rgn.(rgn_rect))
  end.

(** The instances that could not be started, after a call. *)
Definition next_broken (c : call) (res : result) (p : plugin) (b : gset Z) : gset Z :=
  match c, res with
  | CStart (Some r) _, RCode rc => if ok rc then b else {[r]} ∪ b
  | CRelease _, _ => b ∩ dom p.(p_instances)
  | _, _ => b
  end.

Section calls.
Implicit Types (p : plugin) (g : ledger) (b : gset Z) (n : Z).

Lemma array_ok {A} count (l : list A) (Q : post (list A)) p g : 0 <= count <= Z.of_nat (length l) ->
  (forall l', Z.of_nat (length l') = count -> l' = take (Z.to_nat count) l -> Q l' p g) -> wp (array count l) Q p g.
Proof. intros Hc HQ. unfold array. rewrite (proj2 (Z.ltb_ge _ _)) by lia. apply ga_wp_ret, HQ; [|done]. rewrite length_take. lia. Qed.

(** A method of one message about a surface. *)
Lemma wp_surface_method {A} p b n me surface failed (f : Z -> GAType -> SurfaceInfo -> prog A) (Q : post A) g : Inv p b ∅ ∅ n g -> usable p b me -> is_Some (p.(p_surfaces) !! surface) -> (forall rc, Q (failed rc) p g) ->
  (forall r x i, p.(p_instances) !! r = Some x -> x.(_context) ∈ g.(l_open) -> i.(d0) = None -> i.(addr) = 0 -> wp (f r x i) Q p g) ->
  wp (connected me failed (fun r x => with_info surface failed (fun _ i => f r x i))) Q p g.
Proof.
  intros HI Hu Hs H1 H2. eapply wp_connected; [exact HI|done|done|]. intros r x -> Hx Ho. eapply wp_with_info; [exact HI|done|done|]. intros s si i _ _ _ E1 E2. by eapply H2.
Qed.

Lemma exec_call_safe c p b n g : Inv p b ∅ ∅ n g -> allowed c p b -> wp (exec_call c) (fun res p' g' => Inv p' (next_broken c res p' b) ∅ ∅ (n + 4) g') p g.
Proof.
  intros HI Ha. assert (Inv p b ∅ ∅ (n + 4) g) as HI4 by (eapply plugin_Inv_le; [exact HI|lia]).
  assert (forall x m (Q : post reply), x ∈ g.(l_open) -> well_formed m -> (forall a g', Inv p b ∅ ∅ (n + 4) g' -> Q a p g') -> wp (need (IOConnectCallMethod x m)) Q p g) as Hmsg.
  { intros x m Q Hx Hm HQ. eapply wp_message; [exact HI|done|done|]. intros a g' H' _. apply HQ. eapply plugin_Inv_le; [exact H'|lia]. }
  destruct c; cbn [exec_call allowed next_broken] in *; apply ga_wp_bind || apply ga_wp_ret; try exact HI4; try (apply ga_wp_ret; exact HI4).
  - eapply wp_CEsvga2GAFactory; [exact HI|]. intros r p' g' H'. apply ga_wp_ret. eapply plugin_Inv_le; [exact H'|lia].
  - eapply wp_ceQueryInterface; [exact HI|done|]. intros r p' H'. apply ga_wp_ret. eapply plugin_Inv_le; [exact H'|lia].
  - eapply wp_ceAddRef; [exact HI|done|]. intros r p' H'. apply ga_wp_ret. eapply plugin_Inv_le; [exact H'|lia].
  - eapply wp_ceRelease; [exact HI|done|]. intros r p' g' H'. apply ga_wp_ret. eapply plugin_Inv_le; [exact H'|lia].
  - eapply wp_ceStart; [exact HI|done|]. intros rc p' g' H'. apply ga_wp_ret. by destruct me.
  - eapply wp_ceStop; [exact HI|done|]. intros rc p' g' H'. by apply ga_wp_ret.
  - eapply wp_connected; [exact HI|done|by intros; apply ga_wp_ret|]. intros. by apply ga_wp_ret, ga_wp_ret.
  - destruct Ha as [Hu Hn]. unfold ceGetCapabilities. destruct (Z.eqb_spec select smvl) as [E|E]; [|by apply ga_wp_ret, ga_wp_ret]. eapply wp_connected; [exact HI|done|by intros; apply ga_wp_ret|].
    intros r x -> Hx Ho. destruct capabilities as [v|]; [|by destruct (Hn E)]. apply ga_wp_bind. eapply ga_wp_deref; [done|]. apply ga_wp_bind. apply Hmsg; [done|wf|]. intros a g' H'. by apply ga_wp_ret, ga_wp_ret.
  - eapply wp_ceFlush; [exact HI|done|]. intros rc. by apply ga_wp_ret.
  - unfold ceSynchronize. destruct (negb _); [by apply ga_wp_ret, ga_wp_ret|]. eapply wp_connected; [exact HI|done|by intros; apply ga_wp_ret|]. intros r z -> Hx Ho. destruct (_ || _); [by apply ga_wp_ret, ga_wp_ret|].
    apply ga_wp_bind. apply Hmsg; [done|wf|]. intros a g' H'. by apply ga_wp_ret, ga_wp_ret.
  - destruct Ha as [Hu Hs]. eapply wp_ceAllocateSurface; [exact HI|done|done|]. intros rc p' g' H'. by apply ga_wp_ret.
  - destruct Ha as [Hu Hs]. eapply wp_ceFreeSurface; [exact HI|done|done|]. intros rc p' g' H'. by apply ga_wp_ret.
  - destruct Ha as [Hu Hs]. unfold ceLockSurface. destruct surface as [s|]; [|by apply ga_wp_ret, ga_wp_ret]. destruct (negb address); [by apply ga_wp_ret, ga_wp_ret|].
    eapply (wp_surface_method p b n me s _ (fun _ me si => _)); [exact HI|done|done|by intros; apply ga_wp_ret|]. intros r x i Hx Ho E1 E2. rewrite E2. apply ga_wp_bind. apply Hmsg; [done|wf|]. intros a g' H'.
    destruct (negb _); [by apply ga_wp_ret, ga_wp_ret|]. destruct Hs as [y Hy]. apply ga_wp_bind. eapply wp_store_surface; [exact Hy|]. apply ga_wp_ret, ga_wp_ret. eapply Inv_memory; [exact H'|done..|]. eapply Infos_same; [by apply iv_infos in HI|exact Hy|done].
  - destruct Ha as [Hu Hs]. unfold ceUnlockSurface. destruct surface as [s|]; [|by apply ga_wp_ret, ga_wp_ret]. eapply (wp_surface_method p b n me s _ (fun _ me si => _)); [exact HI|done|done|by intros; apply ga_wp_ret|].
    intros r x i Hx Ho E1 E2. rewrite E2. apply ga_wp_bind. apply Hmsg; [done|wf|]. intros a g' H'. by apply ga_wp_ret, ga_wp_ret.
  - destruct Ha as [Hu Hs]. unfold ceSwapSurface. destruct surface as [s|]; [|by apply ga_wp_ret, ga_wp_ret]. eapply (wp_surface_method p b n me s _ (fun _ me si => _)); [exact HI|done|done|by intros; apply ga_wp_ret|].
    intros r x i Hx Ho E1 E2. apply ga_wp_bind. apply Hmsg; [done|wf|]. intros a g' H'. by apply ga_wp_ret, ga_wp_ret.
  - destruct Ha as (Hu & Hs & Hn). eapply wp_ceSetDestination; [exact HI|done|done|done|]. intros rc p' g' H' _ _. apply ga_wp_ret. eapply plugin_Inv_le; [exact H'|lia].
  - eapply wp_connected; [exact HI|done|by intros; apply ga_wp_ret|]. intros r x -> Hx Ho. apply ga_wp_bind. eapply wp_ceFlush; [exact HI|done|]. intros _. apply ga_wp_bind. apply Hmsg; [done|wf|]. intros a g' H'. by apply ga_wp_ret, ga_wp_ret.
  - destruct Ha as [Hu Hs]. unfold ceWaitSurface. destruct surface as [s|]; [|by apply ga_wp_ret, ga_wp_ret]. eapply (wp_surface_method p b n me s _ (fun _ me si => _)); [exact HI|done|done|by intros; apply ga_wp_ret|].
    intros r x i Hx Ho E1 E2. rewrite E1. by apply ga_wp_ret, ga_wp_ret.
  - destruct Ha as (Hu & Hs & Hn). eapply wp_ceSetSurface; [exact HI|done|done|done|]. intros rc p' g' H' _ _. apply ga_wp_ret. eapply plugin_Inv_le; [exact H'|lia].
  - destruct Ha as [Hu Ho]. unfold ceCopy. destruct (negb _); [by apply ga_wp_ret, ga_wp_ret|]. eapply wp_connected; [exact HI|done|by intros; apply ga_wp_ret|]. intros r x -> Hx Hop. destruct operation as [o|]; [|by apply ga_wp_ret, ga_wp_ret].
    destruct (_ =? 0); [by apply ga_wp_ret, ga_wp_ret|]. apply ga_wp_bind. apply array_ok; [by apply Ho|]. intros l Hl _. apply ga_wp_bind. apply Hmsg; [done|split; [cbn; lia|eexists; split; reflexivity]|]. intros a g' H'. by apply ga_wp_ret, ga_wp_ret.
  - destruct Ha as [Hu Ho]. unfold ceFill. destruct (negb _); [by apply ga_wp_ret, ga_wp_ret|]. eapply wp_connected; [exact HI|done|by intros; apply ga_wp_ret|]. intros r x -> Hx Hop. destruct operation as [o|]; [|by apply ga_wp_ret, ga_wp_ret].
    destruct (_ =? 0); [by apply ga_wp_ret, ga_wp_ret|]. apply ga_wp_bind. apply array_ok; [by apply Ho|]. intros l Hl _. apply ga_wp_bind. apply Hmsg; [done|split; [cbn; lia|eexists; split; reflexivity]|]. intros a g' H'. by apply ga_wp_ret, ga_wp_ret.
  - destruct Ha as [Hu Ho]. unfold ceCopyRegion. destruct (negb _); [by apply ga_wp_ret, ga_wp_ret|]. destruct (region_source _ _) as [source'|]; [|by apply ga_wp_ret, ga_wp_ret].
    eapply wp_connected; [exact HI|done|by intros; apply ga_wp_ret|]. intros r x -> Hx Hop. destruct operation as [o|]; [|by apply ga_wp_ret, ga_wp_ret]. destruct (cg_region o) as [rgn|] eqn:Er; [|by apply ga_wp_ret, ga_wp_ret].
    specialize (Ho o rgn eq_refl Er). apply ga_wp_bind. apply array_ok; [done|]. intros l _ _. apply ga_wp_bind. apply Hmsg; [done|split; [cbn; split; [done|lia]|eexists; split; reflexivity]|]. intros a g' H'. by apply ga_wp_ret, ga_wp_ret.
Qed.
End calls.

(** The plug-in, the instances that could not be started, and the observer. *)
Record server := mk_server { v_plugin : plugin; v_broken : gset Z; v_ledger : ledger }.
Definition no_plugin : plugin := mk_plugin ∅ ∅ ∅ [] false None 0.
Definition no_ledger : ledger := mk_ledger ∅ ∅ 0 0.

(** The window server's own memory: it gets memory for the description of a surface, fills
    it in, and frees it when the plug-in has nothing in it. *)
Inductive describe : plugin -> plugin -> Prop :=
  | describe_new r s p : p.(p_surfaces) !! r = None -> s.(interfaceRef) = None -> describe p (set_surfaces (<[r := s]> p.(p_surfaces)) p)
  | describe_change r s s' p : p.(p_surfaces) !! r = Some s -> s'.(interfaceRef) = s.(interfaceRef) -> describe p (set_surfaces (<[r := s']> p.(p_surfaces)) p)
  | describe_drop r s p : p.(p_surfaces) !! r = Some s -> s.(interfaceRef) = None -> describe p (set_surfaces (delete r p.(p_surfaces)) p).

(** What can happen: a call that is allowed, with any answers of the system, and changes of
    the descriptions. *)
Inductive serve : server -> server -> Prop :=
  | serve_call c p b g res p' g' : allowed c p b -> leaf (exec_call c p) g (res, p') g' ->
      serve (mk_server p b g) (mk_server p' (next_broken c res p' b) g')
  | serve_describe p p' b g : describe p p' -> serve (mk_server p b g) (mk_server p' b g).

Definition loaded : server := mk_server no_plugin ∅ no_ledger.

Lemma Infos_new ss ii r s : Infos ss ii -> ss !! r = None -> s.(interfaceRef) = None -> Infos (<[r := s]> ss) ii.
Proof.
  intros Hi Hr Hs. assert (forall r' x si, <[r := s]> ss !! r' = Some x -> x.(interfaceRef) = Some si -> ss !! r' = Some x) as Hback.
  { intros r' x si. destruct (decide (r' = r)) as [->|Hne]; [rewrite lookup_insert_eq; intros [= <-]; congruence|by rewrite lookup_insert_ne]. }
  split.
  - intros r' x si Hx Ex. eapply (in_ref _ _ Hi r'); [by eapply Hback|done].
  - intros si i Ei. destruct (in_info _ _ Hi si i Ei) as (E1 & E2 & r' & x & Hx & Ex). split_and!; try done. exists r', x. rewrite lookup_insert_ne by congruence. done.
  - intros r1 r2 x1 x2 si H1 H2 E1 E2. eapply (in_inj _ _ Hi r1 r2 x1 x2 si); [by eapply Hback|by eapply Hback|done|done].
Qed.

Lemma Infos_drop ss ii r s : Infos ss ii -> ss !! r = Some s -> s.(interfaceRef) = None -> Infos (delete r ss) ii.
Proof.
  intros Hi Hr Hs. split.
  - intros r' x si Hx. apply lookup_delete_Some in Hx as [_ Hx]. by eapply (in_ref _ _ Hi r').
  - intros si i Ei. destruct (in_info _ _ Hi si i Ei) as (E1 & E2 & r' & x & Hx & Ex). split_and!; try done. exists r', x. rewrite lookup_delete_ne by congruence. done.
  - intros r1 r2 x1 x2 si H1 H2. apply lookup_delete_Some in H1 as [_ H1], H2 as [_ H2]. by eapply (in_inj _ _ Hi).
Qed.

(** The invariant of the window server. *)
Definition served (σ : server) : Prop := Inv σ.(v_plugin) σ.(v_broken) ∅ ∅ σ.(v_ledger).(l_sent) σ.(v_ledger).

Lemma served_any p b n g : Inv p b ∅ ∅ n g -> served (mk_server p b g).
Proof. intros [Hc Hi Ht Hb]. split; try done. by eapply Conn_sent. Qed.

Lemma describe_served p p' b g : describe p p' -> served (mk_server p b g) -> served (mk_server p' b g).
Proof.
  destruct 1 as [r s p Hr Hs|r s s' p Hr Hs|r s p Hr Hs]; intros HI; (eapply served_any, Inv_memory; [exact HI|done..|]); apply iv_infos in HI; [by apply Infos_new|by eapply Infos_same|by eapply Infos_drop].
Qed.

Lemma serve_served σ σ' : serve σ σ' -> served σ -> served σ'.
Proof.
  destruct 1 as [c p b g res p' g' Ha Hl|p p' b g Hd]; intros HI; [|by eapply describe_served]. eapply served_any. exact (safe_leaf _ _ _ _ _ (exec_call_safe c p b _ g HI Ha) Hl).
Qed.

Lemma loaded_served σ : rtc serve loaded σ -> served σ.
Proof.
  assert (served loaded) as H0.
  { repeat split; cbn; try done; try (by intros; rewrite lookup_empty in *); try set_solver. all: by intros ? [? ?]. }
  intros Hr. revert H0. induction Hr as [|x y z Hs _ IH]; [done|]. intros H0. apply IH. by eapply serve_served.
Qed.

(** C10: the plug-in under the window server.  Whatever calls the window server makes, as
    long as it keeps to the rules, and whatever the kernel answers: a method of the plug-in
    follows no pointer to an instance, an info or a surface that is gone; every message it
    sends goes to a connection that is open and has the scalars and sizes that the table of
    the 2D user client asks for, so that it reaches its method, and its structure is memory
    that exists; it closes and releases only what is open; and it makes at most four
    requests to the kernel's context. *)
Theorem plugin_safe σ c : rtc serve loaded σ -> allowed c σ.(v_plugin) σ.(v_broken) ->
  safe (exec_call c σ.(v_plugin)) (fun _ g => g.(l_sent) <= σ.(v_ledger).(l_sent) + 4) σ.(v_ledger).
Proof.
  intros Hr Ha. eapply safe_mono; [exact (exec_call_safe c _ _ _ _ (loaded_served _ Hr) Ha)|]. intros [res p'] g' [Hc _ _ _]. apply (cn_sent _ _ _ _ _ _ Hc).
Qed.

(** C11: what the plug-in holds.  In every state that calls of the window server lead to,
    when each call keeps to the rules of [allowed] (pointers are null or to what exists, an
    instance is started once and stopped before its last reference goes, one that could not
    be started is only released, and a surface is given an info only while it has none; a
    second allocation would lose the first, see [allocate_twice_leaks]), and for any answers
    of the kernel: the
    infos are those that the surfaces refer to, one each, so that none is lost or shared;
    the connections that are open and the services that are held are those of the instances
    that were started, also after a start that failed half way; and the factory counts the
    instances.  When the last instance is gone, nothing is left open. *)
Theorem plugin_accounts σ : rtc serve loaded σ ->
  (forall si, is_Some (σ.(v_plugin).(p_infos) !! si) <-> exists r s, σ.(v_plugin).(p_surfaces) !! r = Some s /\ s.(interfaceRef) = Some si) /\
  (forall r r' s s' si, σ.(v_plugin).(p_surfaces) !! r = Some s -> σ.(v_plugin).(p_surfaces) !! r' = Some s' ->
     s.(interfaceRef) = Some si -> s'.(interfaceRef) = Some si -> r = r') /\
  σ.(v_ledger).(l_open) = sum_of fst (held σ.(v_plugin).(p_instances) σ.(v_broken)) /\
  σ.(v_ledger).(l_services) = sum_of snd (held σ.(v_plugin).(p_instances) σ.(v_broken)) /\
  σ.(v_ledger).(l_factory) = Z.of_nat (size σ.(v_plugin).(p_instances)) /\
  (σ.(v_plugin).(p_instances) = ∅ -> σ.(v_ledger).(l_open) = ∅ /\ σ.(v_ledger).(l_services) = ∅).
Proof.
  intros Hr. destruct (loaded_served _ Hr) as [Hc Hi _ _]. pose proof (cn_open _ _ _ _ _ _ Hc) as Eo. pose proof (cn_services _ _ _ _ _ _ Hc) as Es. rewrite gmultiset_disj_union_right_id in Eo, Es. split_and!; try done.
  - intros si. split; [intros [i Ei]; by destruct (in_info _ _ Hi si i Ei) as (_ & _ & H)|]. intros (r & s & Hs & Er). by eapply (in_ref _ _ Hi).
  - apply (in_inj _ _ Hi).
  - apply (cn_factory _ _ _ _ _ _ Hc).
  - intros E. rewrite Eo, Es, E. done.
Qed.

(** ** The hypotheses can be met *)

(** A system that grants every request; [rc] is the code of the answers to messages. *)
Definition grant (rc : IOReturn) {T} (r : request T) : T :=
  match r in request T return T with
  | Malloc => true
  | Undefined => 0
  | AddInstanceForFactory | RemoveInstanceForFactory | IOServiceClose _ | IOObjectRelease _ | IOConnectMapMemory _ _ => tt
  | IOAccelFindAccelerator _ => (kIOReturnSuccess, 5, 0)
  | IOServiceOpen _ _ => (kIOReturnSuccess, 9)
  | IOConnectCallMethod _ _ => mk_reply rc [0; 0] (replicate 11 0)
  end.
Definition answered {T} (r : request T) : T -> ledger -> bool :=
  match r with
  | IOAccelFindAccelerator _ => fun x _ => negb (x.1.2 =? 0)
  | IOServiceOpen _ _ => fun x g => ok x.1 && negb (x.2 =? 0) && bool_decide (x.2 ∉ g.(l_open))
  | _ => fun _ _ => true
  end.
Fixpoint play {A} (rc : IOReturn) (t : tree A) (g : ledger) : option (A * ledger) :=
  match t with
  | Done a => Some (a, g)
  | Crash => None
  | Need r k => if answered r (grant rc r) g then play rc (k (grant rc r)) (note r (grant rc r) g) else None
  end.
Definition play_call (rc : IOReturn) (c : call) (σ : server) : option server :=
  x ← play rc (exec_call c σ.(v_plugin)) σ.(v_ledger);
  Some (mk_server x.1.2 (next_broken c x.1.1 x.1.2 σ.(v_broken)) x.2).

Lemma play_leaf {A} rc (t : tree A) g a g' : play rc t g = Some (a, g') -> leaf t g a g'.
Proof.
  revert g. induction t as [x| |T r k IH]; intros g; cbn [play]; [intros [= -> ->]; constructor|done|]. destruct (answered r (grant rc r) g) eqn:E; [|done]. intros H. eapply leaf_need; [|by apply IH].
  destruct r; try done. cbn in E |- *. case_bool_decide; [by split|done].
Qed.

Lemma play_serve rc c σ σ' : allowed c σ.(v_plugin) σ.(v_broken) -> play_call rc c σ = Some σ' -> serve σ σ'.
Proof.
  intros Ha. unfold play_call. destruct (play _ _ _) as [[[res p'] g']|] eqn:E; [|done]. intros [= <-]. destruct σ as [p b g]. eapply serve_call; [exact Ha|]. by eapply play_leaf.
Qed.

Definition created : server := default loaded (play_call kIOReturnSuccess (CFactory kIOGraphicsAcceleratorTypeID) loaded).
Definition running : server := default loaded (play_call kIOReturnSuccess (CStart (Some 1) 3) created).

Lemma created_serve : serve loaded created.
Proof. eapply (play_serve kIOReturnSuccess (CFactory kIOGraphicsAcceleratorTypeID)); [done|]. vm_compute. reflexivity. Qed.
Lemma running_reached : rtc serve loaded running.
Proof.
  eapply rtc_l; [exact created_serve|]. apply rtc_once. eapply (play_serve kIOReturnSuccess (CStart (Some 1) 3)).
  - intros r [= <-]. eexists. split; [vm_compute; reflexivity|]. split; [done|]. intros H. by apply elem_of_empty in H.
  - vm_compute. reflexivity.
Qed.

Lemma running_usable : usable running.(v_plugin) running.(v_broken) (Some 1).
Proof. split; [eexists; vm_compute; reflexivity|]. assert (running.(v_broken) = ∅) as -> by (vm_compute; reflexivity). set_solver. Qed.

Definition two_rects : IOBlitRectangles := mk_rects 2 [mk_rectangle 0 0 10 10; mk_rectangle 5 5 20 20].
Lemma plugin_safe_witness :
  running.(v_ledger).(l_open) = {[+ 9 +]} /\
  safe (exec_call (CFill (Some 1) 0 (Some two_rects) 0xff0000) running.(v_plugin)) (fun _ g => g.(l_sent) <= running.(v_ledger).(l_sent) + 4) running.(v_ledger).
Proof.
  split; [vm_compute; reflexivity|]. apply plugin_safe; [exact running_reached|]. split.
  - exact running_usable.
  - intros o [= <-]. cbn. lia.
Defined.

Lemma plugin_accounts_witness : running.(v_ledger).(l_open) = {[+ 9 +]} /\ running.(v_ledger).(l_factory) = Z.of_nat (size running.(v_plugin).(p_instances)).
Proof. split; [vm_compute; reflexivity|]. apply (plugin_accounts running running_reached). Defined.

(** ** What the rules are for *)

(** Stopping an instance whose connection is closed. *)
Lemma stop_closed p r x g Q : p.(p_instances) !! r = Some x -> x.(_context) <> 0 -> x.(_context) ∉ g.(l_open) -> ~ safe (exec_call (CStop (Some r)) p) Q g.
Proof.
  intros Hr Hc Ho H. cbn [exec_call] in H. unfold ceStop, ceFlush, connected, load_instance, read, deref, mbind, ga_prog_bind in H. cbn [tree_bind fst snd] in H. rewrite Hr in H.
  cbn [tree_bind fst snd mret ga_prog_ret] in H. rewrite (proj2 (Z.eqb_neq _ _) Hc) in H. destruct H as [_ H]. specialize (H 0 I). by destruct H as [H _].
Qed.

(** A start that fails after the connection was opened closes it, but leaves its number in
    the instance: [ceStop] then uses the connection that is closed. *)
Definition half_started : server := default loaded (play_call kIOReturnNoResources (CStart (Some 1) 3) created).
Lemma failed_start_stale : rtc serve loaded half_started /\ half_started.(v_ledger).(l_open) = ∅ /\
  (_context <$> half_started.(v_plugin).(p_instances) !! 1) = Some 9 /\ ~ safe (exec_call (CStop (Some 1)) half_started.(v_plugin)) (fun _ _ => True) half_started.(v_ledger).
Proof.
  split_and!; [|vm_compute; reflexivity..|].
  - eapply rtc_l; [exact created_serve|]. apply rtc_once. eapply (play_serve kIOReturnNoResources (CStart (Some 1) 3)).
    + intros r [= <-]. eexists. split; [vm_compute; reflexivity|]. split; [done|]. intros H. by apply elem_of_empty in H.
    + vm_compute. reflexivity.
  - eapply stop_closed; [vm_compute; reflexivity|done|]. assert (half_started.(v_ledger).(l_open) = ∅) as -> by (vm_compute; reflexivity). apply gmultiset_not_elem_of_empty.
Qed.

(** The destination is followed without a check. *)
Lemma set_destination_null : ~ safe (exec_call (CSetDestination (Some 1) kIOBlitSurfaceDestination None) running.(v_plugin)) (fun _ _ => True) running.(v_ledger).
Proof. intros H. exact H. Qed.

(** A surface that has an info gets another, and the first is lost. *)
Definition with_surface : plugin := set_surfaces {[4 := mk_IOBlitSurface 0 100 100 0 0 None]} running.(v_plugin).
Definition allocated (p : plugin) : option plugin := (fun x => x.1.2) <$> play kIOReturnSuccess (exec_call (CAllocateSurface (Some 1) kIOBlitHasCGSSurface (Some 4) 77) p) running.(v_ledger).
Lemma allocate_twice_leaks : (p ← allocated with_surface; p ← allocated p; s ← p.(p_surfaces) !! 4; Some (size p.(p_infos), s.(interfaceRef))) = Some (2%nat, Some 2).
Proof. vm_compute. reflexivity. Qed.

(** The blitter that is offered for copies from memory refuses all of them. *)
Lemma memory_copy_refused p : ceGetBlitter kIOBlitTypeCopyRects kIOBlitSourceMemory true = (kIOReturnSuccess, Some F_ceMemCopy) /\ ceMemCopy p = Done (kIOReturnUnsupported, p).
Proof. done. Qed.
