(* ===== verification/GaStack.v ===== *)
(** The plug-in of the window server on the 2D user client: the requests of the plug-in's
    methods are served by the model of the kernel's side, so that a call of the window
    server runs down to the requests to the accelerator. *)

From S2P Require Import Context2DTable GaPlugin GaPluginSpec.
From S2P Require Import Allocator.
From S2P Require Import Prelude IOKit Layout SvgaReg SvgaCmd Svga3dReg Svga3d AccelIds AccelBlit Accel AccelSpec.
From S2P Require Import ShaderCache Provider AccelGmr Kernel Transfer Surface SurfaceLogic SurfaceProofs SurfaceMethods SurfaceSpec.
From S2P Require Import Context2D Context2DSpec.
From stdpp Require Import gmap gmultiset.

#[local] Open Scope Z_scope.

Local Abbreviation prog := (prog kernel).
Local Abbreviation world := (world kernel).

(** The contexts by connection, and the surfaces. *)
Record stack := mk_stack { k_contexts : gmap Z Context2D; k_clients : clients }.

(** The words of an answer that was cleared before some were written. *)
Definition cleared (bytes : Z) (writes : list (Z * Z)) : list Z :=
  foldl (fun l x => <[Z.to_nat x.1 := x.2]> l) (replicate (Z.to_nat (bytes / 4)) 0) writes.

Section stack.
(** The task of the window server, the level of the log, the answer to a request for a
    connection, the answer to a request for memory, and the value of what is not
    initialised. *)
Context (task level : Z) (opened : IOReturn) (memory : bool) (scratch : Z).

Definition in_rects (x : payload) : list IOBlitRectangle := match x with InRects l => l | _ => [] end.
Definition in_copy_rects (x : payload) : list IOBlitCopyRectangle := match x with InCopyRects l => l | _ => [] end.
Definition in_region (x : payload) : option IOAccelDeviceRegion := match x with InRegion rgn => Some rgn | _ => None end.
Definition in_word (x : payload) (i : Z) : Z := match x with InWords l => nth (Z.to_nat i) l 0 | _ => 0 end.

(** The method [f] of the context with the arguments of the message. *)
Definition dispatch (f : func) (m : GaPlugin.message) (c : Context2D) (y : clients) : prog (reply * Context2D * clients) :=
  let arg i := nth i m.(ms_scalars) 0 in
  let run op := x ← exec2D op c y; mret (mk_reply x.1.1 [scratch] [], x.1.2, x.2) in
  match f with
  | f_set_surface => x ← set_surface (arg 0%nat) (arg 1%nat) (Some m.(ms_out_size)) c y; mret (mk_reply x.1.1 [] (cleared m.(ms_out_size) []), x.1.2, x.2)
  | f_get_config =>
      let '(rc, v) := get_config true true level c in
      mret (mk_reply rc (match v with Some (v1, v2) => [v1; v2] | None => [] end) [], c, y)
  | f_swap_surface => run SwapSurface
  | f_scale_surface => run (ScaleSurface (arg 0%nat) (arg 1%nat) (arg 2%nat))
  | f_lock_memory =>
      x ← lock_memory (Some m.(ms_out_size)) c y;
      mret (mk_reply x.1.1 [] (match x.1.2 with Some (a, b) => [a; b] | None => [] end), c, x.2)
  | f_unlock_memory => run UnlockMemory
  | f_finish => run (Finish (arg 0%nat))
  | f_delete_image => run DeleteImage
  | f_wait_image => run WaitImage
  | f_set_macrovision => run SetMacrovision
  | f_read_configs => let '(rc, l) := read_configs (Some (in_word m.(ms_struct) 0, m.(ms_size))) (Some m.(ms_out_size)) in mret (mk_reply rc [] l, c, y)
  | f_read_config_Ex =>
      let '(rc, l) := read_config_Ex (Some (in_word m.(ms_struct) 0, m.(ms_size))) (Some m.(ms_out_size)) in
      mret (mk_reply rc [] (cleared m.(ms_out_size) l), c, y)
  | f_CopyRegion => run (Context2D.CopyRegion (negb (scratch =? 0)) (arg 0%nat) (arg 1%nat) (arg 2%nat) (in_region m.(ms_struct)) m.(ms_size))
  | f_useAccelUpdates => run (UseAccelUpdates (arg 0%nat))
  | f_RectCopy => run (RectCopies (in_copy_rects m.(ms_struct)))
  | f_RectFill => run (RectFills (arg 0%nat) (in_rects m.(ms_struct)))
  | f_UpdateFramebufferAutoRing => run (Context2D.UpdateFramebuffer (Some (in_word m.(ms_struct))))
  | f_kernel_printf => mret (mk_reply kIOReturnSuccess [] [], c, y)
  | f_get_surface_info1 | f_get_surface_info2 | f_declare_image | f_create_image | f_create_transfer
  | f_set_surface_paging_options | f_set_surface_vsync_options => run Unsupported
  end.

(** A message at the context: [IOUserClient] looks up the method and compares the counts. *)
Definition deliver (m : GaPlugin.message) (c : Context2D) (y : clients) : prog (reply * Context2D * clients) :=
  match method_at (selector m.(ms_method)) c with
  | None => mret (mk_reply kIOReturnUnsupported [] [], c, y)
  | Some (_, e) =>
      if fits_method e (Z.of_nat (length m.(ms_scalars))) m.(ms_size) m.(ms_out) m.(ms_out_size) then dispatch e.(em_func) m c y
      else mret (mk_reply kIOReturnBadArgument [] [], c, y)
  end.

(** One request; the accelerator is service 1, and its first frame buffer is meant. *)
Definition handle {T : Set} (r : request T) (k : stack) : prog (T * stack) :=
  match r in request T return prog (T * stack) with
  | GaPlugin.Malloc => mret (memory, k)
  | Undefined => mret (scratch, k)
  | AddInstanceForFactory | RemoveInstanceForFactory => mret (tt, k)
  | IOAccelFindAccelerator _ => mret ((kIOReturnSuccess, 1, 0), k)
  | IOServiceOpen _ _ =>
      if GaPlugin.ok opened then
        let connect := next_address k.(k_contexts) in
        mret ((opened, connect), mk_stack (<[connect := start2D (initWithTask2D task)]> k.(k_contexts)) k.(k_clients))
      else mret ((opened, 0), k)
  | IOServiceClose connect =>
      match k.(k_contexts) !! connect with
      | Some c => x ← clientClose2D c k.(k_clients); mret (tt, mk_stack (delete connect k.(k_contexts)) x.2)
      | None => mret (tt, k)
      end
  | IOObjectRelease _ | IOConnectMapMemory _ _ => mret (tt, k)
  | IOConnectCallMethod connect m =>
      match k.(k_contexts) !! connect with
      | Some c => x ← deliver m c k.(k_clients); mret (x.1.1, mk_stack (<[connect := x.1.2]> k.(k_contexts)) x.2)
      | None => mret (mk_reply kIOReturnNotFound [] [], k)
      end
  end.

(** A method of the plug-in; the observer of its requests goes along. *)
Fixpoint interp {A} (t : tree A) (k : stack) (l : ledger) : prog (A * stack * ledger) :=
  match t with
  | Done a => mret (a, k, l)
  | Crash => Wild
  | Need r kt => x ← handle r k; interp (kt x.1) x.2 (note r x.1 l)
  end.
End stack.

(** ** The plug-in on one window surface *)

(** The connections that are open are those of the contexts. *)
Definition linked (l : ledger) (cs : gmap Z Context2D) : Prop := forall c, multiplicity c l.(l_open) = if decide (is_Some (cs !! c)) then 1%nat else 0%nat.

Lemma linked_open l cs c : linked l cs -> c ∈ l.(l_open) -> is_Some (cs !! c).
Proof. intros Hl Hc. specialize (Hl c). destruct (decide _) as [|Hn]; [done|]. apply elem_of_multiplicity in Hc. change (0 < multiplicity c (l_open l))%nat in Hc. rewrite Hl in Hc. lia. Qed.

Lemma linked_same l cs c (x : Context2D) : linked l cs -> is_Some (cs !! c) -> linked l (<[c := x]> cs).
Proof.
  intros Hl Hc d. rewrite Hl. destruct (decide (d = c)) as [->|Hne]; [|by rewrite lookup_insert_ne]. rewrite lookup_insert_eq. rewrite decide_True by done. by rewrite decide_True by by eexists.
Qed.

Lemma linked_insert l l' cs c (x : Context2D) : linked l cs -> cs !! c = None -> l'.(l_open) = {[+ c +]} ⊎ l.(l_open) -> linked l' (<[c := x]> cs).
Proof.
  intros Hl Hc E d. rewrite E, multiplicity_disj_union, Hl. destruct (decide (d = c)) as [->|Hne].
  - rewrite multiplicity_singleton_eq, Hc, lookup_insert_eq. rewrite decide_False by by intros [? ?]. by rewrite decide_True by by eexists.
  - rewrite multiplicity_singleton_ne, lookup_insert_ne by done. done.
Qed.

Lemma linked_delete l l' cs c : linked l cs -> l'.(l_open) = l.(l_open) ∖ {[+ c +]} -> linked l' (delete c cs).
Proof.
  intros Hl E d. rewrite E, multiplicity_difference, Hl. destruct (decide (d = c)) as [->|Hne].
  - rewrite multiplicity_singleton_eq, lookup_delete_eq. rewrite (decide_False (P := is_Some None)) by by intros [? ?]. case_decide; lia.
  - rewrite multiplicity_singleton_ne, lookup_delete_ne by done. lia.
Qed.

Lemma next_address_pos {A} (h : gmap Z A) : 0 < next_address h.
Proof. unfold next_address. apply (map_fold_weak_ind (fun m _ => 0 < m)); [done|]. intros. lia. Qed.

(** Every request can be answered, so that a bound on the requests of a program holds also
    before it ends. *)
Lemma answers_exist {T : Set} (r : request T) l : exists x, answers r x l.
Proof.
  destruct r; cbn; try by eexists; [exact true | exact 0 | exact tt].
  all: try (by exists tt); try (by exists true); try (by exists 0); try (by exists (mk_reply kIOReturnSuccess [] [])).
  - by exists (kIOReturnError, 0, 0).
  - by exists (kIOReturnError, 0).
Qed.

Lemma note_sent {T : Set} (r : request T) x l : l.(l_sent) <= (note r x l).(l_sent).
Proof. destruct r; cbn; try case_match; cbn; lia. Qed.

Lemma safe_sent {A} (t : tree A) (Q : A -> ledger -> Prop) N l : safe t Q l -> (forall a l, Q a l -> l.(l_sent) <= N) -> l.(l_sent) <= N.
Proof.
  intros H HQ. revert l H. induction t as [a| |T r k IH]; intros l; [by apply HQ|done|]. intros [_ H]. destruct (answers_exist r l) as [x Hx]. specialize (IH x _ (H x Hx)). pose proof (note_sent r x l). lia.
Qed.

Lemma wp_ret_inv {A B} (p : prog A) (h : A -> B) (Q : SurfaceLogic.post B) w nf g : SurfaceLogic.wp (x ← p; mret (h x)) Q w nf g -> SurfaceLogic.wp p (fun a => Q (h a)) w nf g.
Proof.
  unfold SurfaceLogic.wp. intros (t & Et & HQ). rewrite spec_bind in Et. destruct (spec p w nf) as [t'|]; [|done]. cbn in Et. injection Et as <-. cbn in HQ. rewrite app_nil_r in HQ. by exists t'.
Qed.

Section window_server.
Context (E : env) (r0 : Z) (task level : Z) (opened : IOReturn) (memory : bool) (scratch : Z).
Local Abbreviation post := SurfaceLogic.post.
Local Abbreviation wp := SurfaceLogic.wp.
Local Abbreviation handle := (handle task level opened memory scratch).
Local Abbreviation interp := (interp task level opened memory scratch).
Implicit Types (w : world) (nf : Z) (g : monitor) (c : Context2D) (y : clients) (cs : gmap Z Context2D) (l : ledger).

Lemma together_le n n' y cs w nf g : safe_together E r0 n y cs w nf g -> n <= n' -> safe_together E r0 n' y cs w nf g.
Proof. intros [(L & o & Ey & HI) Hr] Hn. split; [|done]. exists L, o. split; [done|]. eapply Inv_le; [exact HI|lia]. Qed.

Lemma together_open n y cs i t w nf g : safe_together E r0 n y cs w nf g -> cs !! i = None -> safe_together E r0 n y (<[i := start2D (initWithTask2D t)]> cs) w nf g.
Proof.
  intros [H1 [Hnd Hc]] Hi. split; [done|]. split; [done|]. eapply counted_ext; [exact Hc|]. intros r. cbn. rewrite refs_by_insert by done. cbn. rewrite refs_of_none. lia.
Qed.

(** A method of the context by its message. *)
Lemma wp_dispatch f m n y cs i c (Q : post (reply * Context2D * clients)) w nf g : n + 6 < 2 ^ 30 -> safe_together E r0 n y cs w nf g -> cs !! i = Some c ->
  (forall a c' y' w' nf' g', safe_together E r0 (n + 6) y' (<[i := c']> cs) w' nf' g' -> Q (a, c', y') w' nf' g') -> wp (dispatch level scratch f m c y) Q w nf g.
Proof.
  intros Hn Hs Hi HQ. assert (forall a, Q (a, c, y) w nf g) as Hsame by (intros a; apply HQ; rewrite insert_id by done; eapply together_le; [exact Hs|lia]).
  assert (forall op (h : IOReturn -> reply), wp (x ← exec2D op c y; mret (h x.1.1, x.1.2, x.2)) Q w nf g) as Hrun.
  { intros op h. apply wp_bind. eapply run_context; [exact Hn|exact Hs|exact Hi|]. intros rc c' y' w' nf' g' H'. apply wp_ret. by apply HQ. }
  destruct f; cbn [dispatch]; try exact (Hrun _ (fun rc => mk_reply rc [scratch] [])); try (apply wp_ret; exact (Hsame _)).
  - exact (Hrun (SetSurface (nth 0 (ms_scalars m) 0) (nth 1 (ms_scalars m) 0) (Some (ms_out_size m))) (fun rc => mk_reply rc [] (cleared (ms_out_size m) []))).
  - assert (wp (exec2D (LockMemory (Some (ms_out_size m))) c y) (fun x w nf g => safe_together E r0 (n + 6) x.2 (<[i := x.1.2]> cs) w nf g) w nf g) as H by (eapply run_context; [exact Hn|exact Hs|exact Hi|done]).
    apply (wp_ret_inv _ (fun x => (x.1, c, x.2))), (wp_ret_inv _ (fun x => (x.1.1, x.2))) in H. apply wp_bind. eapply wp_mono; [exact H|]. intros [[rc v] y'] w' nf' g' H'. apply wp_ret. by apply HQ.
  - destruct (read_configs _ _). apply wp_ret, Hsame.
  - destruct (read_config_Ex _ _). apply wp_ret, Hsame.
Qed.

Lemma wp_deliver m n y cs i c (Q : post (reply * Context2D * clients)) w nf g : n + 6 < 2 ^ 30 -> safe_together E r0 n y cs w nf g -> cs !! i = Some c ->
  (forall a c' y' w' nf' g', safe_together E r0 (n + 6) y' (<[i := c']> cs) w' nf' g' -> Q (a, c', y') w' nf' g') -> wp (deliver level scratch m c y) Q w nf g.
Proof.
  intros Hn Hs Hi HQ. assert (forall a, Q (a, c, y) w nf g) as Hsame by (intros a; apply HQ; rewrite insert_id by done; eapply together_le; [exact Hs|lia]).
  unfold deliver. destruct (method_at _ c) as [[t e]|]; [|by apply wp_ret]. destruct (fits_method _ _ _ _ _); [|by apply wp_ret]. by eapply wp_dispatch.
Qed.

(** The state of both sides; [n0] counts what surfaces and contexts did before. *)
Definition joint (n0 : Z) (k : stack) l w nf g : Prop := linked l k.(k_contexts) /\ safe_together E r0 (1 + 6 * (n0 + l.(l_sent))) k.(k_clients) k.(k_contexts) w nf g.

(** A request that is permitted gets an answer that keeps to the promises. *)
Lemma wp_handle {T : Set} (r : request T) n0 k l (Q : post (T * stack)) w nf g : joint n0 k l w nf g -> permitted r l -> 0 <= n0 -> 1 + 6 * (n0 + l.(l_sent)) + 6 < 2 ^ 30 \/ (forall x, (note r x l).(l_sent) = l.(l_sent)) ->
  (forall x k' w' nf' g', answers r x l -> joint n0 k' (note r x l) w' nf' g' -> Q (x, k') w' nf' g') -> wp (handle r k) Q w nf g.
Proof.
  intros [Hl Hs] Hp Hn0 Hroom HQ. destruct k as [cs y]. cbn [k_contexts k_clients] in *.
  assert (forall cs' y' l' w' nf' g', l'.(l_sent) = l.(l_sent) + 1 -> linked l' cs' -> safe_together E r0 (1 + 6 * (n0 + l.(l_sent)) + 6) y' cs' w' nf' g' -> joint n0 (mk_stack cs' y') l' w' nf' g') as Hjoint.
  { intros cs' y' l' w' nf' g' E1 Hl' Hs'. split; [done|]. cbn. rewrite E1. by replace (1 + 6 * (n0 + (l_sent l + 1))) with (1 + 6 * (n0 + l_sent l) + 6) by lia. }
  destruct r; cbn [GaStack.handle permitted] in *; try (apply wp_ret; apply HQ; [done|by split]).
  - destruct (GaPlugin.ok opened) eqn:Eo; apply wp_ret; (apply HQ; [cbn; rewrite Eo|]).
    + split; [pose proof (next_address_pos cs); lia|]. intros Hc. destruct (linked_open _ _ _ Hl Hc) as [c Ec]. by rewrite next_address_fresh in Ec.
    + pose proof (next_address_fresh cs) as Hf. cbn [note fst snd]. rewrite Eo. split; [eapply linked_insert; [exact Hl|exact Hf|done]|]. by apply together_open.
    + done.
    + cbn [note fst snd]. rewrite Eo. by split.
  - destruct Hroom as [Hroom|Hroom]; [|specialize (Hroom tt); cbn in Hroom; lia]. cbn [k_contexts k_clients]. destruct (linked_open _ _ _ Hl Hp) as [c Ec]. rewrite Ec. apply wp_bind. eapply close_context; [exact Hroom|exact Hs|exact Ec|].
    intros c' y' w' nf' g' Hs'. apply wp_ret, HQ; [done|]. apply Hjoint; [done|by eapply linked_delete|done].
  - destruct Hroom as [Hroom|Hroom]; [|specialize (Hroom (mk_reply kIOReturnSuccess [] [])); cbn in Hroom; lia]. cbn [k_contexts k_clients]. destruct Hp as [Hp _]. destruct (linked_open _ _ _ Hl Hp) as [c Ec]. rewrite Ec. apply wp_bind.
    eapply wp_deliver; [exact Hroom|exact Hs|exact Ec|]. intros a c' y' w' nf' g' Hs'. apply wp_ret, HQ; [done|]. apply Hjoint; [done| |done]. apply (linked_same (note (IOConnectCallMethod connect m) a l)); [done|by exists c].
Qed.

(** The composition: what is safe for all answers runs on the contexts. *)
Lemma wp_interp {A} (t : tree A) n0 N (Q : A -> ledger -> Prop) k l w nf g : safe t Q l -> (forall a l, Q a l -> l.(l_sent) <= N) -> 0 <= n0 -> 1 + 6 * (n0 + N) < 2 ^ 30 -> joint n0 k l w nf g ->
  wp (interp t k l) (fun x w nf g => Q x.1.1 x.2 /\ joint n0 x.1.2 x.2 w nf g) w nf g.
Proof.
  intros Ht HQ Hn0 HN. revert k l w nf g Ht. induction t as [a| |T r kt IH]; intros k l w nf g; cbn [GaStack.interp]; [intros Ha Hj; by apply wp_ret|done|]. intros [Hp Hk] Hj. apply wp_bind.
  eapply wp_handle; [exact Hj|exact Hp|done| |].
  - destruct (answers_exist r l) as [x Hx]. destruct r; try (right; intros ?; cbn; by repeat case_match); left; pose proof (safe_sent _ _ N _ (Hk x Hx) HQ) as Hle; cbn in Hle; lia.
  - intros x k' w' nf' g' Hx Hj'. by apply IH; [apply Hk|].
Qed.
End window_server.

(** ** The whole stack *)

(** A window surface, the contexts of the connections, and the plug-in under the window
    server, used in turn; [k] counts the calls. *)
Inductive screen (E : env) (task0 : Z) (w0 : world) (nf0 : Z) (g0 : monitor) (r0 : Z) (task level : Z) (opened : IOReturn) (memory : bool) (scratch : Z)
    : nat -> server -> stack -> world -> Z -> monitor -> Prop :=
  | scr_start t : spec (start (initWithTask task0)) w0 nf0 = Some t -> t.(t_result).1 = true ->
      screen E task0 w0 nf0 g0 r0 task level opened memory scratch 0 loaded
        (mk_stack ∅ (mk_clients {[r0 := mk_object 1 t.(t_result).2]} [r0])) t.(t_world) t.(t_next) (watch g0 t.(t_events))
  | scr_surface k σ cs y w nf g o op t : screen E task0 w0 nf0 g0 r0 task level opened memory scratch k σ (mk_stack cs y) w nf g ->
      y.(y_heap) !! r0 = Some o -> SurfaceMethods.allowed E op o.(ob_surface) -> spec (exec op o.(ob_surface)) w nf = Some t ->
      screen E task0 w0 nf0 g0 r0 task level opened memory scratch (S k) σ
        (mk_stack cs (put r0 (mk_object o.(ob_retain) t.(t_result).2) y)) t.(t_world) t.(t_next) (watch g t.(t_events))
  | scr_describe k p p' b l s w nf g : screen E task0 w0 nf0 g0 r0 task level opened memory scratch k (mk_server p b l) s w nf g -> describe p p' ->
      screen E task0 w0 nf0 g0 r0 task level opened memory scratch k (mk_server p' b l) s w nf g
  | scr_call k p b l s w nf g c t : screen E task0 w0 nf0 g0 r0 task level opened memory scratch k (mk_server p b l) s w nf g ->
      GaPluginSpec.allowed c p b -> spec (interp task level opened memory scratch (exec_call c p) s l) w nf = Some t ->
      screen E task0 w0 nf0 g0 r0 task level opened memory scratch (S k)
        (mk_server t.(t_result).1.1.2 (next_broken c t.(t_result).1.1.1 t.(t_result).1.1.2 b) t.(t_result).2)
        t.(t_result).1.2 t.(t_world) t.(t_next) (watch g t.(t_events)).

Section screen.
Context (E : env) (task0 : Z) (w0 : world) (nf0 : Z) (g0 : monitor) (r0 : Z) (Hidle : SurfaceSpec.idle E w0 g0).
Context (task level : Z) (opened : IOReturn) (memory : bool) (scratch : Z).
Local Abbreviation interp := (interp task level opened memory scratch).
Local Abbreviation screen := (screen E task0 w0 nf0 g0 r0 task level opened memory scratch).
Implicit Types (w : world) (nf : Z) (g : monitor) (k : nat) (σ : server) (s : stack).

Definition shown k σ s w nf g : Prop :=
  served σ /\ σ.(v_ledger).(l_sent) <= 4 * Z.of_nat k /\ exists n0, 0 <= n0 <= Z.of_nat k /\ joint E r0 n0 s σ.(v_ledger) w nf g.

(** A call runs, and leads to a state of the same kind. *)
Lemma run_call k p b l s w nf g c : shown k (mk_server p b l) s w nf g -> Z.of_nat k < 2 ^ 24 -> GaPluginSpec.allowed c p b ->
  SurfaceLogic.wp (interp (exec_call c p) s l) (fun x w nf g => shown (S k) (mk_server x.1.1.2 (next_broken c x.1.1.1 x.1.1.2 b) x.2) x.1.2 w nf g) w nf g.
Proof.
  intros (Hv & Hk & n0 & Hn0 & Hj) Hb Ha. cbn [v_ledger] in *. pose proof (exec_call_safe c p b _ l Hv Ha) as Hsafe. eapply wp_mono.
  - eapply (wp_interp E r0 task level opened memory scratch (exec_call c p) n0 (l.(l_sent) + 4)); [exact Hsafe| |lia|lia|exact Hj]. intros [res p'] l' [Hc _ _ _]. apply (cn_sent _ _ _ _ _ _ Hc).
  - intros [[[res p'] s'] l'] w' nf' g' [HI Hj']. cbn [fst snd] in *. split; [by eapply served_any|]. split; [destruct HI as [Hc _ _ _]; pose proof (cn_sent _ _ _ _ _ _ Hc) as Hle; cbn in Hle |- *; lia|].
    exists n0. split; [lia|done].
Qed.

Lemma screen_shown k σ s w nf g : screen k σ s w nf g -> Z.of_nat k < 2 ^ 24 -> shown k σ s w nf g.
Proof using Hidle.
  induction 1 as [t Et Er|k σ cs y w nf g o op t Hr IH Eo Ha Et|k p p' b l s w nf g Hr IH Hd|k p b l s w nf g c t Hr IH Ha Et]; intros Hk.
  - split; [by apply loaded_served|]. split; [done|]. exists 0. split; [lia|]. split; [intros c; cbn; rewrite lookup_empty, multiplicity_empty, decide_False; [done|by intros [? ?]]|].
    exact (together_safe E task0 w0 nf0 g0 r0 Hidle 0 _ _ _ _ _ (tog_start E task0 w0 nf0 g0 r0 t Et Er) Hk).
  - destruct IH as (Hv & Hs & n0 & Hn0 & Hl & Ht); [lia|]. split; [done|]. split; [lia|]. exists (n0 + 1). split; [lia|]. split; [done|]. cbn [k_clients k_contexts] in *.
    replace (1 + 6 * (n0 + 1 + l_sent (v_ledger σ))) with (1 + 6 * (n0 + l_sent (v_ledger σ)) + 6) by lia. eapply run_surface; [lia|exact Ht|exact Eo|exact Ha|exact Et].
  - destruct (IH Hk) as (Hv & Hs & n0 & Hn0 & Hj). split; [by eapply describe_served|]. split; [done|]. by exists n0.
  - destruct (run_call k p b l s w nf g c (IH ltac:(lia)) ltac:(lia) Ha) as (t' & Et' & H'). rewrite Et in Et'. by injection Et' as <-.
Qed.

(** C12: from the window server to the device.  The window server calls the plug-in and the
    owner of one window surface uses the surface, in any order, in fewer than 2^24 steps;
    each call of the plug-in keeps to the rules of [GaPluginSpec.allowed] (pointers are null
    or to what exists, and are not null where an option asks for a surface, see
    [set_destination_null]; instances are started once and stopped before they go), and each
    method of the surface to those of [SurfaceMethods.allowed] (the surface has a shape
    before OpenGL draws on it, the source of a copy is alive).  The system around the driver
    answers the same way throughout: the accelerator is found, opening a connection has the
    one result [opened], memory is there or not by [memory], and what is not initialised has
    the one value [scratch].  Then
    every call runs through the plug-in, the contexts behind its connections, the surface
    and the accelerator to its end; nothing on the way follows a pointer that is null or
    to an object that is gone, and memory of the surface is given back only when no
    transfer can be using it. *)
Theorem stack_safe k σ s w nf g c : screen k σ s w nf g -> Z.of_nat k < 2 ^ 24 -> GaPluginSpec.allowed c σ.(v_plugin) σ.(v_broken) ->
  exists t, spec (interp (exec_call c σ.(v_plugin)) s σ.(v_ledger)) w nf = Some t /\ (watch g t.(t_events)).(g_safe) = true.
Proof using Hidle.
  intros Hr Hk Ha. destruct σ as [p b l]. destruct (run_call k p b l s w nf g c (screen_shown _ _ _ _ _ _ Hr Hk) Hk Ha) as (t & Et & _ & _ & n0 & _ & _ & Hs). exists t. split; [done|].
  destruct Hs as [(L & o & _ & [_ (blk & fs & [Ho _ _ _ _ _ _])]) _]. by destruct (ow_safe _ _ _ _ Ho).
Qed.
End screen.

(** ** Drawing on the screen *)

(** The instance [r] is connected to a context that draws on the frame buffer. *)
Definition on_screen (p : plugin) (cs : gmap Z Context2D) (r : Z) : Prop :=
  exists me c, p.(p_instances) !! r = Some me /\ me.(_context) <> 0 /\ cs !! me.(_context) = Some c /\ c.(c_provider) = true /\ c.(bTargetIsCGSSurface) = false.

(** What a call means for the accelerator: the instance that it is made to, and the request;
    [garbage] is for the uninitialised result of a copy of a region. *)
Definition draws (garbage : bool) (c : GaPlugin.call) : option (Z * accel_op) :=
  match c with
  | CCopy (Some r) type (Some o) =>
      if (Z.land type kIOBlitTypeOperationMask =? 0) && (0 <? o.(cr_count)) && (o.(cr_count) <=? Z.of_nat (length o.(cr_rects)))
      then Some (r, OpRectCopy (take (Z.to_nat o.(cr_count)) o.(cr_rects))) else None
  | CFill (Some r) type (Some o) source =>
      if (Z.land type kIOBlitTypeOperationMask =? 0) && (0 <? o.(rs_count)) && (o.(rs_count) <=? Z.of_nat (length o.(rs_rects)))
      then Some (r, OpRectFill (u32 source) (take (Z.to_nat o.(rs_count)) o.(rs_rects))) else None
  | CCopyRegion (Some r) type sourceType (Some (mk_copy_region dx dy (Some rgn))) source =>
      if (Z.land type kIOBlitTypeOperationMask =? 0) && (rgn.(rgn_num_rects) <=? Z.of_nat (length rgn.(rgn_rect))) && bool_decide (region_source sourceType source = Some 0)
      then Some (r, OpCopyRegion garbage (s32 dx) (s32 dy) (Some rgn) (sizeof_region rgn)) else None
  | CSynchronize (Some r) options x y w h =>
      if has_bits options kIOBlitSynchronizeFlushHostWrites && (x <? w) && (y <? h)
      then Some (r, OpUpdate (Some (in_word (InWords [x; y; u32 (w - x); u32 (h - y)])))) else None
  | _ => None
  end.

Definition one_sent (l : ledger) : ledger := mk_ledger l.(l_open) l.(l_services) l.(l_factory) (l.(l_sent) + 1).

Lemma s32_u64 x : s32 (u64 x) = s32 x.
Proof. unfold swrap. replace (wrap 32 (u64 x)) with (wrap 32 x); [done|]. unfold wrap. by rewrite Z.mod_mod_divide by (exists (2 ^ 32); lia). Qed.

Section drawing.
Context (task level : Z) (opened : IOReturn) (memory : bool) (scratch : Z).
Local Abbreviation interp := (interp task level opened memory scratch).
Local Abbreviation deliver := (deliver level scratch).
Implicit Types (w : world) (nf : Z) (c : Context2D) (y : clients) (cs : gmap Z Context2D) (l : ledger) (p : plugin).

(** The context passes a message on to the accelerator. *)
Definition passes (m : GaPlugin.message) (op : accel_op) : Prop := forall c y w nf, c.(c_provider) = true -> c.(bTargetIsCGSSurface) = false ->
  spec (deliver m c y) w nf = spec (x ← ask op; mret (mk_reply x.1 [scratch] [], c, y)) w nf.

(** A program of one message, which returns the code of the answer. *)
Lemma interp_message r p cs y l m op me w nf : p.(p_instances) !! r = Some me -> on_screen p cs r -> passes m op ->
  spec (interp (Need (IOConnectCallMethod me.(_context) m) (fun a => Done (RCode a.(an_rc), p))) (mk_stack cs y) l) w nf =
  spec (x ← ask op; mret (RCode x.1, p, mk_stack cs y, one_sent l)) w nf.
Proof.
  intros Hr (me' & c & Hr' & _ & Hc & Hp & Ht) Hm. assert (me' = me) as -> by congruence. cbn [GaStack.interp GaStack.handle k_contexts k_clients]. rewrite Hc.
  rewrite !spec_bind, Hm by done. rewrite !spec_bind. destruct (spec (ask op) w nf) as [t|]; [|done]. cbn. rewrite insert_id by done. by rewrite !app_nil_r.
Qed.

(** A message with the right counts reaches the method of its entry. *)
Lemma deliver_at m e c y : c.(c_provider) = true -> iofbFuncsCache !! Z.to_nat (selector m.(ms_method)) = Some e ->
  fits_method e (Z.of_nat (length m.(ms_scalars))) m.(ms_size) m.(ms_out) m.(ms_out_size) = true -> deliver m c y = dispatch level scratch e.(em_func) m c y.
Proof.
  intros Hp He Hf. unfold GaStack.deliver. assert (exists t, method_at (selector m.(ms_method)) c = Some (t, e)) as [t ->].
  { unfold method_at, getTargetAndMethodForIndex. rewrite Hp. destruct (ms_method m); cbn [selector] in *; (eexists; cbn -[iofbFuncsCache]; rewrite He; reflexivity). }
  by rewrite Hf.
Qed.

Local Ltac drawn := intros c y w nf Hp Ht; (erewrite deliver_at; [|exact Hp|reflexivity|reflexivity]); cbn [dispatch em_func ms_scalars ms_struct ms_size nth in_rects in_copy_rects in_region]; unfold exec2D.
Local Ltac drawn_end := rewrite !spec_bind; destruct (spec (ask _) _ _); [|done]; cbn; by rewrite !app_nil_r.

Lemma passes_copy rects n : passes (mk_message kIOCE2DRectCopy [] (InCopyRects rects) n 0 0) (OpRectCopy rects).
Proof. drawn. unfold RectCopy2D. rewrite Ht, Hp. cbn [negb]. drawn_end. Qed.
Lemma passes_fill color rects n : passes (mk_message kIOCE2DRectFill [color] (InRects rects) n 0 0) (OpRectFill (u32 color) rects).
Proof. drawn. unfold RectFill2D. rewrite Ht, Hp. cbn [negb]. drawn_end. Qed.
Lemma passes_update ws : passes (mk_message kIOCE2DUpdateFramebuffer' [] (InWords ws) 16 0 0) (OpUpdate (Some (in_word (InWords ws)))).
Proof. drawn. rewrite Hp. drawn_end. Qed.
Lemma passes_region dx dy rgn : passes (mk_message kIOCE2DCopyRegion [0; u64 dx; u64 dy] (InRegion rgn) (sizeof_region rgn) 0 0)
  (OpCopyRegion (negb (scratch =? 0)) (s32 dx) (s32 dy) (Some rgn) (sizeof_region rgn)).
Proof.
  drawn. unfold CopyRegion2D, bad_region. rewrite Z.ltb_irrefl, Ht, Hp, !s32_u64. cbn [negb andb]. change (negb (u32 0 =? 0)) with false. cbn iota. drawn_end.
Qed.

Lemma drawing_call d r op p cs y l w nf : draws (negb (scratch =? 0)) d = Some (r, op) -> on_screen p cs r ->
  spec (interp (exec_call d p) (mk_stack cs y) l) w nf = spec (x ← ask op; mret (RCode x.1, p, mk_stack cs y, one_sent l)) w nf.
Proof.
  intros Hd Hs. pose proof Hs as (me & cx & Hr & Hc & _).
  assert (forall m (t : tree (result * plugin)), t = Need (IOConnectCallMethod me.(_context) m) (fun a => Done (RCode a.(an_rc), p)) -> passes m op ->
    spec (interp t (mk_stack cs y) l) w nf = spec (x ← ask op; mret (RCode x.1, p, mk_stack cs y, one_sent l)) w nf) as Hone by (intros m t ->; by apply (interp_message r)).
  assert (forall {A} failed (f : Z -> GAType -> GaPlugin.prog A), connected (Some r) failed f p = f r me p) as Hcon.
  { intros A failed f. unfold connected, load_instance, read, mbind, ga_prog_bind. cbn. rewrite Hr. cbn. by rewrite (proj2 (Z.eqb_neq _ _) Hc). }
  assert (forall {A B} (m : GaPlugin.prog A) (f : A -> GaPlugin.prog B), (m ≫= f) p = tree_bind (fun x => f x.1 x.2) (m p)) as Hbind by done.
  destruct d as [| | | | | | | | | |[r'|] options x1 y1 w1 h1| | | | | | | | | | | |[r'|] type [o|]|[r'|] type [o|] source|[r'|] type sourceType [[dx dy [rgn|]]|] source| |]; try done; cbn [draws] in Hd.
  - destruct (has_bits options _) eqn:E1; [|done]. destruct (Z.ltb_spec x1 w1) as [E2|]; [|done]. destruct (Z.ltb_spec y1 h1) as [E3|]; [|done]. injection Hd as -> <-. eapply Hone; [|apply passes_update].
    cbn [exec_call]. rewrite Hbind. unfold ceSynchronize. rewrite E1. cbn [negb]. rewrite Hcon, (proj2 (Z.leb_gt _ _) E2), (proj2 (Z.leb_gt _ _) E3). reflexivity.
  - destruct (Z.land type _ =? 0) eqn:E1; [|done]. destruct (Z.ltb_spec 0 (cr_count o)) as [E2|]; [|done]. destruct (Z.leb_spec (cr_count o) (Z.of_nat (length (cr_rects o)))) as [E3|]; [|done]. injection Hd as -> <-.
    eapply Hone; [|apply passes_copy]. cbn [exec_call]. rewrite Hbind. unfold ceCopy, kIOBlitCopyOperation. rewrite E1. cbn [negb]. rewrite Hcon, (proj2 (Z.eqb_neq _ _)) by lia. unfold array. rewrite (proj2 (Z.ltb_ge _ _)) by lia. reflexivity.
  - destruct (Z.land type _ =? 0) eqn:E1; [|done]. destruct (Z.ltb_spec 0 (rs_count o)) as [E2|]; [|done]. destruct (Z.leb_spec (rs_count o) (Z.of_nat (length (rs_rects o)))) as [E3|]; [|done]. injection Hd as -> <-.
    eapply Hone; [|apply passes_fill]. cbn [exec_call]. rewrite Hbind. unfold ceFill, kIOBlitCopyOperation. rewrite E1. cbn [negb]. rewrite Hcon, (proj2 (Z.eqb_neq _ _)) by lia. unfold array. rewrite (proj2 (Z.ltb_ge _ _)) by lia. reflexivity.
  - destruct (Z.land type _ =? 0) eqn:E1; [|done]. destruct (Z.leb_spec (rgn_num_rects rgn) (Z.of_nat (length (rgn_rect rgn)))) as [E2|]; [|done]. cbn [andb] in Hd. case_bool_decide as E3; [|done]. injection Hd as -> <-.
    eapply Hone; [|apply passes_region]. cbn [exec_call]. rewrite Hbind. unfold ceCopyRegion, kIOBlitTypeOperationType0. rewrite E1, E3. cbn [negb]. rewrite Hcon. cbn [cg_region deltaX deltaY]. unfold array. rewrite (proj2 (Z.ltb_ge _ _)) by lia. reflexivity.
Qed.

(** *** A start puts the instance on the screen *)

(** The program runs, and its result satisfies [Q]. *)
Definition runs {A} (m : GaPlugin.prog A) (Q : A -> plugin -> stack -> Prop) p (s : stack) : Prop :=
  forall l w nf, exists t, spec (interp (m p) s l) w nf = Some t /\ Q t.(t_result).1.1.1 t.(t_result).1.1.2 t.(t_result).1.2.

Lemma interp_bind {A B} (t : tree A) (f : A -> tree B) s l w nf :
  spec (interp (tree_bind f t) s l) w nf = spec (x ← interp t s l; interp (f x.1.1) x.1.2 x.2) w nf.
Proof.
  revert s l w nf. induction t as [a| |T r k IH]; intros s l w nf; cbn [tree_bind GaStack.interp]; [done|done|]. rewrite !spec_bind. destruct (spec (handle _ _ _ _ _ r s) w nf) as [t|]; [|done]. cbn [mbind option_bind].
  rewrite IH, spec_bind. destruct (spec _ _ _) as [t'|]; [|done]. cbn [mbind option_bind t_result t_events t_world t_next]. cbn [after mbind option_bind t_result t_events t_world t_next]. destruct (spec _ _ _) as [t2|]; [|reflexivity]. cbn. by rewrite app_assoc.
Qed.

Lemma runs_ret {A} (a : A) (Q : A -> plugin -> stack -> Prop) p s : Q a p s -> runs (mret a) Q p s.
Proof. intros HQ l w nf. by eexists. Qed.
Lemma runs_bind {A B} (m : GaPlugin.prog A) (f : A -> GaPlugin.prog B) (Q : B -> plugin -> stack -> Prop) p s : runs m (fun a => runs (f a) Q) p s -> runs (m ≫= f) Q p s.
Proof.
  intros Hm l w nf. destruct (Hm l w nf) as (t & Et & HQ). destruct (HQ t.(t_result).2 t.(t_world) t.(t_next)) as (t' & Et' & HQ'). change (interp ((m ≫= f) p) s l) with (interp (tree_bind (fun x => f x.1 x.2) (m p)) s l).
  rewrite interp_bind, spec_bind, Et. cbn [mbind option_bind]. rewrite Et'. by eexists.
Qed.
Lemma runs_need {T : Set} (r : request T) (Q : T -> plugin -> stack -> Prop) p s x s' : handle task level opened memory scratch r s = mret (x, s') -> Q x p s' -> runs (need r) Q p s.
Proof. intros Hh HQ l w nf. cbn [need GaStack.interp]. rewrite Hh. by eexists. Qed.
Lemma runs_load r me (Q : GAType -> plugin -> stack -> Prop) p s : p.(p_instances) !! r = Some me -> Q me p s -> runs (load_instance r) Q p s.
Proof. intros Hr HQ. apply runs_bind. intros l w nf. eexists. split; [done|]. cbn. rewrite Hr. by apply runs_ret. Qed.
Lemma runs_store r me f (Q : unit -> plugin -> stack -> Prop) p s : p.(p_instances) !! r = Some me -> Q tt (set_instances (<[r := f me]> p.(p_instances)) p) s -> runs (store_instance r f) Q p s.
Proof. intros Hr HQ. apply runs_bind. eapply runs_load; [exact Hr|]. intros l w nf. by eexists. Qed.

(** A message that changes neither the context nor the surfaces. *)
Lemma runs_message conn m c (P : IOReturn -> Prop) (Q : reply -> plugin -> stack -> Prop) p cs y : cs !! conn = Some c ->
  (forall w nf, exists t, spec (deliver m c y) w nf = Some t /\ t.(t_result).1.2 = c /\ t.(t_result).2 = y /\ P t.(t_result).1.1.(an_rc)) ->
  (forall a, P a.(an_rc) -> Q a p (mk_stack cs y)) -> runs (need (IOConnectCallMethod conn m)) Q p (mk_stack cs y).
Proof.
  intros Hc Hm HQ l w nf. destruct (Hm w nf) as (t & Et & E1 & E2 & E3). cbn [need GaStack.interp GaStack.handle k_contexts k_clients]. rewrite Hc, !spec_bind, Et. eexists. split; [done|]. cbn. rewrite E1, E2, insert_id by done. by apply HQ.
Qed.

Lemma accel_updates flag c y w nf : c.(c_provider) = true ->
  exists t, spec (deliver (scalars_message kIOCE2DUseAccelUpdates [flag] 0) c y) w nf = Some t /\ t.(t_result).1.2 = c /\ t.(t_result).2 = y /\ True.
Proof.
  intros Hp. erewrite deliver_at; [|exact Hp|reflexivity|reflexivity]. cbn [dispatch em_func]. unfold exec2D, useAccelUpdates2D. rewrite Hp. cbn [negb]. unfold provider_useAccelUpdates. rewrite !spec_bind. cbn [state spec].
  destruct (Accel.useAccelUpdates _ _ _) as [[rc a] f]. cbn. by eexists.
Qed.

Lemma start_runs p cs y r x service : p.(p_instances) !! r = Some x -> service <> 0 -> opened = kIOReturnSuccess ->
  runs (exec_call (CStart (Some r) service)) (fun res p' s' => res = RCode kIOReturnSuccess /\ on_screen p' s'.(k_contexts) r) p (mk_stack cs y).
Proof.
  intros Hr Hs Ho. cbn [exec_call]. apply runs_bind. unfold ceStart. rewrite (proj2 (Z.eqb_neq _ _) Hs). apply runs_bind. eapply runs_need; [done|]. cbn iota beta. apply runs_bind. eapply runs_store; [exact Hr|].
  change (negb (GaPlugin.ok kIOReturnSuccess)) with false. cbn iota. apply runs_bind. eapply runs_need; [cbn [handle]; rewrite Ho; done|]. cbn [k_contexts k_clients]. pose proof (next_address_pos cs) as Hpos. set (conn := next_address cs) in *. clearbody conn. cbn iota beta. rewrite Ho.
  change (negb (GaPlugin.ok kIOReturnSuccess)) with false. cbn iota beta. set (c0 := start2D (initWithTask2D task)). set (cs1 := <[conn := c0]> cs). assert (cs1 !! conn = Some c0) as Hc by apply lookup_insert_eq. clearbody cs1.
  apply runs_bind. eapply runs_store; [apply lookup_insert_eq|]. apply runs_bind. eapply (runs_message conn _ c0 (eq kIOReturnSuccess)); [exact Hc|by intros; eexists|]. intros a Ea. apply runs_bind. eapply runs_store; [apply lookup_insert_eq|].
  rewrite <-Ea. change (negb (GaPlugin.ok kIOReturnSuccess)) with false. cbn iota. apply runs_bind. eapply (runs_message conn _ c0 (eq kIOReturnSuccess)); [exact Hc|by intros; eexists|]. intros a' Ea'.
  rewrite <-Ea'. change (negb (GaPlugin.ok kIOReturnSuccess)) with false. cbn iota. apply runs_bind. eapply runs_store; [apply lookup_insert_eq|]. apply runs_bind. unfold ceReset, connected. apply runs_bind. eapply runs_load; [apply lookup_insert_eq|].
  cbn [_context set_config_val_2 set_config_val_1 set_connection]. rewrite (proj2 (Z.eqb_neq _ _)) by lia. apply runs_ret. change (negb (GaPlugin.ok kIOReturnSuccess)) with false. cbn iota. apply runs_bind, runs_bind.
  eapply (runs_message conn _ c0 (fun _ => True)); [exact Hc|intros w nf; by apply accel_updates|]. intros a2 _. apply runs_ret. apply runs_bind. eapply runs_load; [apply lookup_insert_eq|].
  apply runs_bind. intros l w nf. eexists. split; [done|]. apply runs_ret, runs_ret. split; [done|]. eexists _, c0. split; [apply lookup_insert_eq|]. cbn. split_and!; [lia|exact Hc|done|done].
Qed.

(** C13: what the window server draws.  An instance that [ceStart] has connected draws on the
    frame buffer.  While it does, each call that copies or fills rectangles, copies a region
    of the screen or asks for an update is, for the accelerator, exactly one request with
    the rectangles, the color, the displacement and the region of the call, and its result
    is the accelerator's; nothing else changes. *)
Theorem window_server_draws p cs r x y :
  (forall service l w nf, p.(p_instances) !! r = Some x -> service <> 0 -> opened = kIOReturnSuccess ->
     exists t, spec (interp (exec_call (CStart (Some r) service) p) (mk_stack cs y) l) w nf = Some t /\
       t.(t_result).1.1.1 = RCode kIOReturnSuccess /\ on_screen t.(t_result).1.1.2 t.(t_result).1.2.(k_contexts) r) /\
  (forall d op l w nf, draws (negb (scratch =? 0)) d = Some (r, op) -> on_screen p cs r ->
     spec (interp (exec_call d p) (mk_stack cs y) l) w nf = spec (x ← ask op; mret (RCode x.1, p, mk_stack cs y, one_sent l)) w nf).
Proof.
  split.
  - intros service l w nf Hr Hs Ho. exact (start_runs p cs y r x service Hr Hs Ho l w nf).
  - intros d op l w nf. apply drawing_call.
Qed.
End drawing.

(** ** The hypotheses can be met *)

Lemma created_runs s w nf : spec (interp 8 0 kIOReturnSuccess true 0 (exec_call (CFactory kIOGraphicsAcceleratorTypeID) no_plugin) s no_ledger) w nf =
  Some (mk_trace (RInstance (Some 1), created.(v_plugin), s, created.(v_ledger)) [] w nf).
Proof. vm_compute. reflexivity. Qed.
Lemma created_instance : created.(v_plugin).(p_instances) !! 1 = Some (mk_GAType true true 1 0 0 (replicate 11 0) 0 0 None 0 0 0).
Proof. vm_compute. reflexivity. Qed.

(** The window server has a surface, creates an instance and starts it. *)
Lemma started_screen : exists p s w nf g, screen demo_env 7 demo_start 1 demo_monitor 0 8 0 kIOReturnSuccess true 0 2 p s w nf g /\
  p.(v_broken) = ∅ /\ on_screen p.(v_plugin) s.(k_contexts) 1.
Proof.
  assert ((t ← spec (start (initWithTask 7)) demo_start 1; Some t.(t_result).1) = Some true) as H0 by (vm_compute; reflexivity).
  destruct (spec (start (initWithTask 7)) demo_start 1) as [t|] eqn:Et; [|done]. injection H0 as Er. pose proof (scr_start demo_env 7 demo_start 1 demo_monitor 0 8 0 kIOReturnSuccess true 0 t Et Er) as H0.
  eapply (scr_call _ _ _ _ _ _ _ _ _ _ _ _ _ _ _ _ _ _ _ (CFactory kIOGraphicsAcceleratorTypeID)) in H0; [|done|apply created_runs]. cbn [t_result t_world t_next t_events fst snd next_broken] in H0.
  destruct (start_runs 8 0 kIOReturnSuccess true 0 created.(v_plugin) ∅ (mk_clients {[0 := mk_object 1 t.(t_result).2]} [0]) 1 _ 3 created_instance ltac:(done) eq_refl created.(v_ledger) t.(t_world) t.(t_next)) as (t' & Et' & E1 & E2).
  eapply (scr_call _ _ _ _ _ _ _ _ _ _ _ _ _ _ _ _ _ _ _ (CStart (Some 1) 3)) in H0; [| |exact Et'].
  - eexists _, _, _, _, _. split; [exact H0|]. cbn [v_broken v_plugin]. rewrite E1. split; [done|exact E2].
  - intros r [= <-]. eexists. split; [exact created_instance|]. split; [done|]. apply not_elem_of_empty.
Qed.

Lemma stack_safe_witness : exists σ s w nf g t, screen demo_env 7 demo_start 1 demo_monitor 0 8 0 kIOReturnSuccess true 0 2 σ s w nf g /\ on_screen σ.(v_plugin) s.(k_contexts) 1 /\
  spec (interp 8 0 kIOReturnSuccess true 0 (exec_call (CFill (Some 1) 0 (Some two_rects) 0xff0000) σ.(v_plugin)) s σ.(v_ledger)) w nf = Some t /\ (watch g t.(t_events)).(g_safe) = true.
Proof.
  destruct started_screen as (σ & s & w & nf & g & Hs & Hb & Ho). destruct Ho as (me & c & Hr & Ho).
  destruct (stack_safe demo_env 7 demo_start 1 demo_monitor 0 demo_idle_client 8 0 kIOReturnSuccess true 0 2 σ s w nf g (CFill (Some 1) 0 (Some two_rects) 0xff0000) Hs ltac:(done)) as (t & Et & Hg).
  - split; [split; [by exists me|rewrite Hb; apply not_elem_of_empty]|]. intros o [= <-]. cbn. lia.
  - exists σ, s, w, nf, g, t. split; [exact Hs|]. split; [by exists me, c|]. split; [exact Et|exact Hg].
Defined.

Lemma running_on_screen : on_screen running.(v_plugin) {[9 := start2D (initWithTask2D 8)]} 1.
Proof.
  assert ((fun me => me.(_context)) <$> running.(v_plugin).(p_instances) !! 1 = Some 9) as H by (vm_compute; reflexivity).
  destruct (p_instances (v_plugin running) !! 1) as [me|] eqn:Em; [|done]. injection H as Ec. exists me, (start2D (initWithTask2D 8)). rewrite Ec. by split_and!.
Qed.

Lemma window_server_draws_witness :
  (exists t, spec (interp 8 0 kIOReturnSuccess true 0 (exec_call (CStart (Some 1) 3) created.(v_plugin)) (mk_stack ∅ (mk_clients ∅ [])) no_ledger) demo_start 1 = Some t /\
     t.(t_result).1.1.1 = RCode kIOReturnSuccess /\ on_screen t.(t_result).1.1.2 t.(t_result).1.2.(k_contexts) 1) /\
  let s := mk_stack {[9 := start2D (initWithTask2D 8)]} (mk_clients ∅ []) in
  spec (interp 8 0 kIOReturnSuccess true 0 (exec_call (CFill (Some 1) 0 (Some two_rects) 0xff0000) running.(v_plugin)) s no_ledger) demo_start 1 =
  spec (x ← ask (OpRectFill 0xff0000 two_rects.(rs_rects)); mret (RCode x.1, running.(v_plugin), s, one_sent no_ledger)) demo_start 1.
Proof.
  split.
  - destruct (window_server_draws 8 0 kIOReturnSuccess true 0 created.(v_plugin) ∅ 1 (mk_GAType true true 1 0 0 (replicate 11 0) 0 0 None 0 0 0) (mk_clients ∅ [])) as [H _]. apply H; [exact created_instance|done|done].
  - destruct (window_server_draws 8 0 kIOReturnSuccess true 0 running.(v_plugin) {[9 := start2D (initWithTask2D 8)]} 1 (mk_GAType true true 1 0 0 (replicate 11 0) 0 0 None 0 0 0) (mk_clients ∅ [])) as [_ H]. apply H.
    + reflexivity.
    + exact running_on_screen.
Defined.
