(* ===== verification/Shared.v ===== *)
(** Shared textures (AC/GL/CEsvga2Shared.cpp): the textures of an OpenGL device, each with
    a handle, a system object in memory that is shared with the client, and a place in a
    doubly linked list; textures over memory of the client ("AGP") are shared by others and
    counted.

    The memory of textures is the map [textures], from the address of a block to its
    contents; using a block that is not there is [Wild].  Some blocks of the source name
    fields of another driver by their offsets ([++m_provider->0x7BC]) and are no C++: they
    are left out, except that the limit of sizes that is computed from such a field is a
    parameter.  The option ATTACH_SURFACE_TEXTURE is not defined by the build. *)

From S2P Require Import Allocator.
From S2P Require Import Prelude IOKit Layout SvgaReg Svga3dReg AccelIds AccelBlit Accel AccelSpec ShaderCache Provider.
From S2P Require Import AccelGmr VertexArray Kernel Transfer Surface.
From stdpp Require Import gmap gmultiset.
From stdpp Require Import list_relations list.

#[local] Open Scope Z_scope.

Local Abbreviation prog := (prog kernel).

(** ** Data *)

Definition TEX_TYPE_SURFACE : Z := 1.
Definition TEX_TYPE_IOSURFACE : Z := 2.
Definition TEX_TYPE_VB : Z := 3.
Definition TEX_TYPE_AGP : Z := 4.
Definition TEX_TYPE_AGPREF : Z := 6.
Definition TEX_TYPE_STD : Z := 8.
Definition TEX_TYPE_OOB : Z := 9.
Definition CLIENT_SYS_OBJS_SIZE : Z := 8192.
Definition NUM_TEXTURE_HANDLES : nat := 128.

(** A system object; the fields that the kernel does not use are left out, but count in
    its size. *)
Record GLDSysObject := mk_GLDSysObject {
  object_id : Z;
  stamps : Z * Z;
  refcount : Z;
  in_use : Z;
  vstate : Z;
  so_type : Z;
  pageoff : list Z;
  pageon : list Z;
}.

Definition set_object_id (x : Z) (o : GLDSysObject) : GLDSysObject :=
  mk_GLDSysObject x o.(stamps) o.(refcount) o.(in_use) o.(vstate) o.(so_type) o.(pageoff) o.(pageon).
Definition set_stamps (x : Z * Z) (o : GLDSysObject) : GLDSysObject :=
  mk_GLDSysObject o.(object_id) x o.(refcount) o.(in_use) o.(vstate) o.(so_type) o.(pageoff) o.(pageon).
Definition set_refcount (x : Z) (o : GLDSysObject) : GLDSysObject :=
  mk_GLDSysObject o.(object_id) o.(stamps) x o.(in_use) o.(vstate) o.(so_type) o.(pageoff) o.(pageon).
Definition set_in_use (x : Z) (o : GLDSysObject) : GLDSysObject :=
  mk_GLDSysObject o.(object_id) o.(stamps) o.(refcount) x o.(vstate) o.(so_type) o.(pageoff) o.(pageon).
Definition set_vstate (x : Z) (o : GLDSysObject) : GLDSysObject :=
  mk_GLDSysObject o.(object_id) o.(stamps) o.(refcount) o.(in_use) x o.(so_type) o.(pageoff) o.(pageon).
Definition set_so_type (x : Z) (o : GLDSysObject) : GLDSysObject :=
  mk_GLDSysObject o.(object_id) o.(stamps) o.(refcount) o.(in_use) o.(vstate) x o.(pageoff) o.(pageon).
Definition set_pageoff (x : list Z) (o : GLDSysObject) : GLDSysObject :=
  mk_GLDSysObject o.(object_id) o.(stamps) o.(refcount) o.(in_use) o.(vstate) o.(so_type) x o.(pageon).
Definition set_pageon (x : list Z) (o : GLDSysObject) : GLDSysObject :=
  mk_GLDSysObject o.(object_id) o.(stamps) o.(refcount) o.(in_use) o.(vstate) o.(so_type) o.(pageoff) x.

Definition zero_object : GLDSysObject := mk_GLDSysObject 0 (0, 0) 0 0 0 0 (replicate 6 0) (replicate 6 0).
Definition sizeof_GLDSysObject : Z := 0x38.
Definition num_sys_objs : nat := Z.to_nat (CLIENT_SYS_OBJS_SIZE / sizeof_GLDSysObject).

(** A texture.  Pointers are addresses, 0 is null; [sys_obj] is an index of the array of
    system objects.  The variants of the union are fields of their own. *)
Record TextureBuffer := mk_TextureBuffer {
  xfer : VendorTransferBuffer;
  client_map : option mapping;
  sys_obj : option nat;
  sys_obj_client_addr : Z;
  creator : bool;
  sys_obj_type : Z;
  num_faces : Z;
  num_mipmaps : Z;
  min_mipmap : Z;
  tx_width : Z;
  tx_height : Z;
  tx_depth : Z;
  vram_pitch : Z;
  tx_pitch : Z;
  vram_bytes : Z;
  bytespp : Z;
  tx_next : Z;
  tx_prev : Z;
  surface_id : Z;
  surface_format : Z;
  yuv_shadow : Z;
  linked_agp : Z;
  agp_offset_in_page : Z;
  mem_changed : Z;
  agp_addr : Z;
  agp_size : Z;
  linked_surface : Z;
  fb_idx_mask : Z;
  cgs_surface_id : Z;
  vram_tile_pages : Z;
  vram_page_bytes : Z;
}.

Definition set_xfer (x : VendorTransferBuffer) (t : TextureBuffer) : TextureBuffer :=
  mk_TextureBuffer x t.(client_map) t.(sys_obj) t.(sys_obj_client_addr) t.(creator) t.(sys_obj_type) t.(num_faces)
    t.(num_mipmaps) t.(min_mipmap) t.(tx_width) t.(tx_height) t.(tx_depth) t.(vram_pitch) t.(tx_pitch) t.(vram_bytes)
    t.(bytespp) t.(tx_next) t.(tx_prev) t.(surface_id) t.(surface_format) t.(yuv_shadow) t.(linked_agp)
    t.(agp_offset_in_page) t.(mem_changed) t.(agp_addr) t.(agp_size) t.(linked_surface) t.(fb_idx_mask)
    t.(cgs_surface_id) t.(vram_tile_pages) t.(vram_page_bytes).
Definition set_client_map (x : option mapping) (t : TextureBuffer) : TextureBuffer :=
  mk_TextureBuffer t.(xfer) x t.(sys_obj) t.(sys_obj_client_addr) t.(creator) t.(sys_obj_type) t.(num_faces)
    t.(num_mipmaps) t.(min_mipmap) t.(tx_width) t.(tx_height) t.(tx_depth) t.(vram_pitch) t.(tx_pitch) t.(vram_bytes)
    t.(bytespp) t.(tx_next) t.(tx_prev) t.(surface_id) t.(surface_format) t.(yuv_shadow) t.(linked_agp)
    t.(agp_offset_in_page) t.(mem_changed) t.(agp_addr) t.(agp_size) t.(linked_surface) t.(fb_idx_mask)
    t.(cgs_surface_id) t.(vram_tile_pages) t.(vram_page_bytes).
Definition set_sys_obj (x : option nat) (t : TextureBuffer) : TextureBuffer :=
  mk_TextureBuffer t.(xfer) t.(client_map) x t.(sys_obj_client_addr) t.(creator) t.(sys_obj_type) t.(num_faces)
    t.(num_mipmaps) t.(min_mipmap) t.(tx_width) t.(tx_height) t.(tx_depth) t.(vram_pitch) t.(tx_pitch) t.(vram_bytes)
    t.(bytespp) t.(tx_next) t.(tx_prev) t.(surface_id) t.(surface_format) t.(yuv_shadow) t.(linked_agp)
    t.(agp_offset_in_page) t.(mem_changed) t.(agp_addr) t.(agp_size) t.(linked_surface) t.(fb_idx_mask)
    t.(cgs_surface_id) t.(vram_tile_pages) t.(vram_page_bytes).
Definition set_sys_obj_client_addr (x : Z) (t : TextureBuffer) : TextureBuffer :=
  mk_TextureBuffer t.(xfer) t.(client_map) t.(sys_obj) x t.(creator) t.(sys_obj_type) t.(num_faces) t.(num_mipmaps)
    t.(min_mipmap) t.(tx_width) t.(tx_height) t.(tx_depth) t.(vram_pitch) t.(tx_pitch) t.(vram_bytes) t.(bytespp)
    t.(tx_next) t.(tx_prev) t.(surface_id) t.(surface_format) t.(yuv_shadow) t.(linked_agp) t.(agp_offset_in_page)
    t.(mem_changed) t.(agp_addr) t.(agp_size) t.(linked_surface) t.(fb_idx_mask) t.(cgs_surface_id)
    t.(vram_tile_pages) t.(vram_page_bytes).
Definition set_creator (x : bool) (t : TextureBuffer) : TextureBuffer :=
  mk_TextureBuffer t.(xfer) t.(client_map) t.(sys_obj) t.(sys_obj_client_addr) x t.(sys_obj_type) t.(num_faces)
    t.(num_mipmaps) t.(min_mipmap) t.(tx_width) t.(tx_height) t.(tx_depth) t.(vram_pitch) t.(tx_pitch) t.(vram_bytes)
    t.(bytespp) t.(tx_next) t.(tx_prev) t.(surface_id) t.(surface_format) t.(yuv_shadow) t.(linked_agp)
    t.(agp_offset_in_page) t.(mem_changed) t.(agp_addr) t.(agp_size) t.(linked_surface) t.(fb_idx_mask)
    t.(cgs_surface_id) t.(vram_tile_pages) t.(vram_page_bytes).
Definition set_sys_obj_type (x : Z) (t : TextureBuffer) : TextureBuffer :=
  mk_TextureBuffer t.(xfer) t.(client_map) t.(sys_obj) t.(sys_obj_client_addr) t.(creator) x t.(num_faces)
    t.(num_mipmaps) t.(min_mipmap) t.(tx_width) t.(tx_height) t.(tx_depth) t.(vram_pitch) t.(tx_pitch) t.(vram_bytes)
    t.(bytespp) t.(tx_next) t.(tx_prev) t.(surface_id) t.(surface_format) t.(yuv_shadow) t.(linked_agp)
    t.(agp_offset_in_page) t.(mem_changed) t.(agp_addr) t.(agp_size) t.(linked_surface) t.(fb_idx_mask)
    t.(cgs_surface_id) t.(vram_tile_pages) t.(vram_page_bytes).
Definition set_vram_bytes (x : Z) (t : TextureBuffer) : TextureBuffer :=
  mk_TextureBuffer t.(xfer) t.(client_map) t.(sys_obj) t.(sys_obj_client_addr) t.(creator) t.(sys_obj_type)
    t.(num_faces) t.(num_mipmaps) t.(min_mipmap) t.(tx_width) t.(tx_height) t.(tx_depth) t.(vram_pitch) t.(tx_pitch) x
    t.(bytespp) t.(tx_next) t.(tx_prev) t.(surface_id) t.(surface_format) t.(yuv_shadow) t.(linked_agp)
    t.(agp_offset_in_page) t.(mem_changed) t.(agp_addr) t.(agp_size) t.(linked_surface) t.(fb_idx_mask)
    t.(cgs_surface_id) t.(vram_tile_pages) t.(vram_page_bytes).
Definition set_tx_next (x : Z) (t : TextureBuffer) : TextureBuffer :=
  mk_TextureBuffer t.(xfer) t.(client_map) t.(sys_obj) t.(sys_obj_client_addr) t.(creator) t.(sys_obj_type)
    t.(num_faces) t.(num_mipmaps) t.(min_mipmap) t.(tx_width) t.(tx_height) t.(tx_depth) t.(vram_pitch) t.(tx_pitch)
    t.(vram_bytes) t.(bytespp) x t.(tx_prev) t.(surface_id) t.(surface_format) t.(yuv_shadow) t.(linked_agp)
    t.(agp_offset_in_page) t.(mem_changed) t.(agp_addr) t.(agp_size) t.(linked_surface) t.(fb_idx_mask)
    t.(cgs_surface_id) t.(vram_tile_pages) t.(vram_page_bytes).
Definition set_tx_prev (x : Z) (t : TextureBuffer) : TextureBuffer :=
  mk_TextureBuffer t.(xfer) t.(client_map) t.(sys_obj) t.(sys_obj_client_addr) t.(creator) t.(sys_obj_type)
    t.(num_faces) t.(num_mipmaps) t.(min_mipmap) t.(tx_width) t.(tx_height) t.(tx_depth) t.(vram_pitch) t.(tx_pitch)
    t.(vram_bytes) t.(bytespp) t.(tx_next) x t.(surface_id) t.(surface_format) t.(yuv_shadow) t.(linked_agp)
    t.(agp_offset_in_page) t.(mem_changed) t.(agp_addr) t.(agp_size) t.(linked_surface) t.(fb_idx_mask)
    t.(cgs_surface_id) t.(vram_tile_pages) t.(vram_page_bytes).
Definition set_surface_id (x : Z) (t : TextureBuffer) : TextureBuffer :=
  mk_TextureBuffer t.(xfer) t.(client_map) t.(sys_obj) t.(sys_obj_client_addr) t.(creator) t.(sys_obj_type)
    t.(num_faces) t.(num_mipmaps) t.(min_mipmap) t.(tx_width) t.(tx_height) t.(tx_depth) t.(vram_pitch) t.(tx_pitch)
    t.(vram_bytes) t.(bytespp) t.(tx_next) t.(tx_prev) x t.(surface_format) t.(yuv_shadow) t.(linked_agp)
    t.(agp_offset_in_page) t.(mem_changed) t.(agp_addr) t.(agp_size) t.(linked_surface) t.(fb_idx_mask)
    t.(cgs_surface_id) t.(vram_tile_pages) t.(vram_page_bytes).
Definition set_surface_format (x : Z) (t : TextureBuffer) : TextureBuffer :=
  mk_TextureBuffer t.(xfer) t.(client_map) t.(sys_obj) t.(sys_obj_client_addr) t.(creator) t.(sys_obj_type)
    t.(num_faces) t.(num_mipmaps) t.(min_mipmap) t.(tx_width) t.(tx_height) t.(tx_depth) t.(vram_pitch) t.(tx_pitch)
    t.(vram_bytes) t.(bytespp) t.(tx_next) t.(tx_prev) t.(surface_id) x t.(yuv_shadow) t.(linked_agp)
    t.(agp_offset_in_page) t.(mem_changed) t.(agp_addr) t.(agp_size) t.(linked_surface) t.(fb_idx_mask)
    t.(cgs_surface_id) t.(vram_tile_pages) t.(vram_page_bytes).
Definition set_yuv_shadow (x : Z) (t : TextureBuffer) : TextureBuffer :=
  mk_TextureBuffer t.(xfer) t.(client_map) t.(sys_obj) t.(sys_obj_client_addr) t.(creator) t.(sys_obj_type)
    t.(num_faces) t.(num_mipmaps) t.(min_mipmap) t.(tx_width) t.(tx_height) t.(tx_depth) t.(vram_pitch) t.(tx_pitch)
    t.(vram_bytes) t.(bytespp) t.(tx_next) t.(tx_prev) t.(surface_id) t.(surface_format) x t.(linked_agp)
    t.(agp_offset_in_page) t.(mem_changed) t.(agp_addr) t.(agp_size) t.(linked_surface) t.(fb_idx_mask)
    t.(cgs_surface_id) t.(vram_tile_pages) t.(vram_page_bytes).
Definition set_linked_agp (x : Z) (t : TextureBuffer) : TextureBuffer :=
  mk_TextureBuffer t.(xfer) t.(client_map) t.(sys_obj) t.(sys_obj_client_addr) t.(creator) t.(sys_obj_type)
    t.(num_faces) t.(num_mipmaps) t.(min_mipmap) t.(tx_width) t.(tx_height) t.(tx_depth) t.(vram_pitch) t.(tx_pitch)
    t.(vram_bytes) t.(bytespp) t.(tx_next) t.(tx_prev) t.(surface_id) t.(surface_format) t.(yuv_shadow) x
    t.(agp_offset_in_page) t.(mem_changed) t.(agp_addr) t.(agp_size) t.(linked_surface) t.(fb_idx_mask)
    t.(cgs_surface_id) t.(vram_tile_pages) t.(vram_page_bytes).
Definition set_agp_offset_in_page (x : Z) (t : TextureBuffer) : TextureBuffer :=
  mk_TextureBuffer t.(xfer) t.(client_map) t.(sys_obj) t.(sys_obj_client_addr) t.(creator) t.(sys_obj_type)
    t.(num_faces) t.(num_mipmaps) t.(min_mipmap) t.(tx_width) t.(tx_height) t.(tx_depth) t.(vram_pitch) t.(tx_pitch)
    t.(vram_bytes) t.(bytespp) t.(tx_next) t.(tx_prev) t.(surface_id) t.(surface_format) t.(yuv_shadow) t.(linked_agp)
    x t.(mem_changed) t.(agp_addr) t.(agp_size) t.(linked_surface) t.(fb_idx_mask) t.(cgs_surface_id)
    t.(vram_tile_pages) t.(vram_page_bytes).
Definition set_mem_changed (x : Z) (t : TextureBuffer) : TextureBuffer :=
  mk_TextureBuffer t.(xfer) t.(client_map) t.(sys_obj) t.(sys_obj_client_addr) t.(creator) t.(sys_obj_type)
    t.(num_faces) t.(num_mipmaps) t.(min_mipmap) t.(tx_width) t.(tx_height) t.(tx_depth) t.(vram_pitch) t.(tx_pitch)
    t.(vram_bytes) t.(bytespp) t.(tx_next) t.(tx_prev) t.(surface_id) t.(surface_format) t.(yuv_shadow) t.(linked_agp)
    t.(agp_offset_in_page) x t.(agp_addr) t.(agp_size) t.(linked_surface) t.(fb_idx_mask) t.(cgs_surface_id)
    t.(vram_tile_pages) t.(vram_page_bytes).
Definition set_agp_addr (x : Z) (t : TextureBuffer) : TextureBuffer :=
  mk_TextureBuffer t.(xfer) t.(client_map) t.(sys_obj) t.(sys_obj_client_addr) t.(creator) t.(sys_obj_type)
    t.(num_faces) t.(num_mipmaps) t.(min_mipmap) t.(tx_width) t.(tx_height) t.(tx_depth) t.(vram_pitch) t.(tx_pitch)
    t.(vram_bytes) t.(bytespp) t.(tx_next) t.(tx_prev) t.(surface_id) t.(surface_format) t.(yuv_shadow) t.(linked_agp)
    t.(agp_offset_in_page) t.(mem_changed) x t.(agp_size) t.(linked_surface) t.(fb_idx_mask) t.(cgs_surface_id)
    t.(vram_tile_pages) t.(vram_page_bytes).
Definition set_agp_size (x : Z) (t : TextureBuffer) : TextureBuffer :=
  mk_TextureBuffer t.(xfer) t.(client_map) t.(sys_obj) t.(sys_obj_client_addr) t.(creator) t.(sys_obj_type)
    t.(num_faces) t.(num_mipmaps) t.(min_mipmap) t.(tx_width) t.(tx_height) t.(tx_depth) t.(vram_pitch) t.(tx_pitch)
    t.(vram_bytes) t.(bytespp) t.(tx_next) t.(tx_prev) t.(surface_id) t.(surface_format) t.(yuv_shadow) t.(linked_agp)
    t.(agp_offset_in_page) t.(mem_changed) t.(agp_addr) x t.(linked_surface) t.(fb_idx_mask) t.(cgs_surface_id)
    t.(vram_tile_pages) t.(vram_page_bytes).
Definition set_linked_surface (x : Z) (t : TextureBuffer) : TextureBuffer :=
  mk_TextureBuffer t.(xfer) t.(client_map) t.(sys_obj) t.(sys_obj_client_addr) t.(creator) t.(sys_obj_type)
    t.(num_faces) t.(num_mipmaps) t.(min_mipmap) t.(tx_width) t.(tx_height) t.(tx_depth) t.(vram_pitch) t.(tx_pitch)
    t.(vram_bytes) t.(bytespp) t.(tx_next) t.(tx_prev) t.(surface_id) t.(surface_format) t.(yuv_shadow) t.(linked_agp)
    t.(agp_offset_in_page) t.(mem_changed) t.(agp_addr) t.(agp_size) x t.(fb_idx_mask) t.(cgs_surface_id)
    t.(vram_tile_pages) t.(vram_page_bytes).
Definition set_fb_idx_mask (x : Z) (t : TextureBuffer) : TextureBuffer :=
  mk_TextureBuffer t.(xfer) t.(client_map) t.(sys_obj) t.(sys_obj_client_addr) t.(creator) t.(sys_obj_type)
    t.(num_faces) t.(num_mipmaps) t.(min_mipmap) t.(tx_width) t.(tx_height) t.(tx_depth) t.(vram_pitch) t.(tx_pitch)
    t.(vram_bytes) t.(bytespp) t.(tx_next) t.(tx_prev) t.(surface_id) t.(surface_format) t.(yuv_shadow) t.(linked_agp)
    t.(agp_offset_in_page) t.(mem_changed) t.(agp_addr) t.(agp_size) t.(linked_surface) x t.(cgs_surface_id)
    t.(vram_tile_pages) t.(vram_page_bytes).
Definition set_cgs_surface_id (x : Z) (t : TextureBuffer) : TextureBuffer :=
  mk_TextureBuffer t.(xfer) t.(client_map) t.(sys_obj) t.(sys_obj_client_addr) t.(creator) t.(sys_obj_type)
    t.(num_faces) t.(num_mipmaps) t.(min_mipmap) t.(tx_width) t.(tx_height) t.(tx_depth) t.(vram_pitch) t.(tx_pitch)
    t.(vram_bytes) t.(bytespp) t.(tx_next) t.(tx_prev) t.(surface_id) t.(surface_format) t.(yuv_shadow) t.(linked_agp)
    t.(agp_offset_in_page) t.(mem_changed) t.(agp_addr) t.(agp_size) t.(linked_surface) t.(fb_idx_mask) x
    t.(vram_tile_pages) t.(vram_page_bytes).

Definition zero_texture : TextureBuffer :=
  mk_TextureBuffer (mk_vtb 0 None 0 0) None None 0 false 0 0 0 0 0 0 0 0 0 0 0 0 0 0 0 0 0 0 0 0 0 0 0 0 0 0.

(** The object; [handles] is the contents of the table, and [sys_objs] that of the memory
    behind [m_client_sys_objs_kernel_ptr]. *)
Record Shared := mk_Shared {
  sh_owning_task : Z;
  sh_provider : bool;
  m_handle_table : option Z;
  handles : list Z;
  m_num_handles : Z;
  m_texture_list : Z;
  m_client_sys_objs_map : option mapping;
  sys_objs : list GLDSysObject;
  m_shared_lock : option Z;
  textures : gmap Z TextureBuffer;
}.

Definition set_m_handle_table (x : option Z) (s : Shared) : Shared :=
  mk_Shared s.(sh_owning_task) s.(sh_provider) x s.(handles) s.(m_num_handles) s.(m_texture_list)
    s.(m_client_sys_objs_map) s.(sys_objs) s.(m_shared_lock) s.(textures).
Definition set_handles (x : list Z) (s : Shared) : Shared :=
  mk_Shared s.(sh_owning_task) s.(sh_provider) s.(m_handle_table) x s.(m_num_handles) s.(m_texture_list)
    s.(m_client_sys_objs_map) s.(sys_objs) s.(m_shared_lock) s.(textures).
Definition set_m_num_handles (x : Z) (s : Shared) : Shared :=
  mk_Shared s.(sh_owning_task) s.(sh_provider) s.(m_handle_table) s.(handles) x s.(m_texture_list)
    s.(m_client_sys_objs_map) s.(sys_objs) s.(m_shared_lock) s.(textures).
Definition set_m_texture_list (x : Z) (s : Shared) : Shared :=
  mk_Shared s.(sh_owning_task) s.(sh_provider) s.(m_handle_table) s.(handles) s.(m_num_handles) x
    s.(m_client_sys_objs_map) s.(sys_objs) s.(m_shared_lock) s.(textures).
Definition set_m_client_sys_objs_map (x : option mapping) (s : Shared) : Shared :=
  mk_Shared s.(sh_owning_task) s.(sh_provider) s.(m_handle_table) s.(handles) s.(m_num_handles) s.(m_texture_list) x
    s.(sys_objs) s.(m_shared_lock) s.(textures).
Definition set_sys_objs (x : list GLDSysObject) (s : Shared) : Shared :=
  mk_Shared s.(sh_owning_task) s.(sh_provider) s.(m_handle_table) s.(handles) s.(m_num_handles) s.(m_texture_list)
    s.(m_client_sys_objs_map) x s.(m_shared_lock) s.(textures).
Definition set_m_shared_lock (x : option Z) (s : Shared) : Shared :=
  mk_Shared s.(sh_owning_task) s.(sh_provider) s.(m_handle_table) s.(handles) s.(m_num_handles) s.(m_texture_list)
    s.(m_client_sys_objs_map) s.(sys_objs) x s.(textures).
Definition set_textures (x : gmap Z TextureBuffer) (s : Shared) : Shared :=
  mk_Shared s.(sh_owning_task) s.(sh_provider) s.(m_handle_table) s.(handles) s.(m_num_handles) s.(m_texture_list)
    s.(m_client_sys_objs_map) s.(sys_objs) s.(m_shared_lock) x.

(** A header of a texture, in its first page. *)
Record GLDTextureHeader := mk_GLDTextureHeader {
  pixels_in_client : Z; offset_in_client : Z; width_bytes : Z; th_height : Z; th_pitch : Z; th_depth : Z }.
Definition sizeof_GLDTextureHeader : Z := 32.

Definition isPagedOn (o : GLDSysObject) (face mipmap : Z) : prog bool :=
  off ← deref (o.(pageoff) !! Z.to_nat face);
  on ← deref (o.(pageon) !! Z.to_nat face);
  mret (Z.testbit (Z.ldiff on off) mipmap).

(** ** Memory *)

Definition get_tx (p : Z) (s : Shared) : prog TextureBuffer := deref (s.(textures) !! p).
Definition on_tx (p : Z) (f : TextureBuffer -> TextureBuffer) (s : Shared) : prog Shared :=
  t ← get_tx p s; mret (set_textures (<[p := f t]> s.(textures)) s).

(** The system object of a texture, and a store to it. *)
Definition get_so (t : TextureBuffer) (s : Shared) : prog (nat * GLDSysObject) :=
  j ← deref t.(sys_obj); o ← deref (s.(sys_objs) !! j); mret (j, o).
Definition put_so (j : nat) (o : GLDSysObject) (s : Shared) : Shared := set_sys_objs (<[j := o]> s.(sys_objs)) s.

(** [IOMalloc]; a block is not at address 0. *)
Definition IOMalloc : prog (option Z) :=
  o ← new_object;
  match o with
  | Some p => if p =? 0 then release p;; mret None else mret (Some p)
  | None => mret None
  end.

Definition allocVendorTextureBuffer (s : Shared) : prog (option Z * Shared) :=
  o ← IOMalloc;
  match o with
  | Some p => mret (Some p, set_textures (<[p := zero_texture]> s.(textures)) s)
  | None => mret (None, s)
  end.
Definition releaseVendorTextureBuffer (p : Z) (s : Shared) : prog Shared :=
  release p;; mret (set_textures (delete p s.(textures)) s).

(** ** Private methods *)

(** The first object that is not in use, with its address in the client. *)
Definition take_sys_obj (s : Shared) : prog (IOReturn * option (nat * Z) * Shared) :=
  match list_find (fun o => o.(in_use) = 0) s.(sys_objs) with
  | Some (i, _) =>
      m ← deref s.(m_client_sys_objs_map);
      mret (kIOReturnSuccess, Some (i, u64 (m.(mp_addr) + Z.of_nat i * sizeof_GLDSysObject)), put_so i (set_in_use 1 zero_object) s)
  | None => mret (kIOReturnNoResources, None, s)
  end.

Definition alloc_client_shared (s : Shared) : prog (IOReturn * option (nat * Z) * Shared) :=
  match s.(m_client_sys_objs_map) with
  | Some _ => take_sys_obj s
  | None =>
      d ← new_descriptor CLIENT_SYS_OBJS_SIZE;
      match d with
      | None => mret (kIOReturnNoMemory, None, s)
      | Some d =>
          m ← createMappingInTask d s.(sh_owning_task);
          match m with
          | None => release d.(md_ref);; mret (kIOReturnNoMemory, None, s)
          | Some m =>
              release d.(md_ref);;
              take_sys_obj (set_sys_objs (replicate num_sys_objs zero_object) (set_m_client_sys_objs_map (Some m) s))
          end
      end
  end.

Definition free_client_shared (p : option nat) (s : Shared) : Shared :=
  match p with Some j => put_so j zero_object s | None => s end.

Definition find_client_shared (id : Z) (s : Shared) : option nat :=
  if bool_decide (s.(m_client_sys_objs_map) = None) then None
  else fst <$> list_find (fun o => o.(in_use) <> 0 /\ o.(object_id) = id) s.(sys_objs).

(** The function that is called, [findClientSysObj], is [find_client_shared]. *)
Definition deref_client_shared (id addend : Z) (s : Shared) : prog Shared :=
  match find_client_shared id s with
  | None => mret s
  | Some j =>
      o ← deref (s.(sys_objs) !! j);
      let s := put_so j (set_refcount (s32 (o.(refcount) + addend)) o) s in
      mret (if o.(refcount) =? s32 (- addend) then free_client_shared (Some j) s else s)
  end.

Definition free_handles (s : Shared) : prog Shared :=
  match s.(m_handle_table) with
  | None => mret s
  | Some b => release b;; mret (set_m_num_handles 0 (set_handles [] (set_m_handle_table None s)))
  end.

Definition alloc_handles (s : Shared) : prog (bool * Shared) :=
  b ← IOMalloc;
  match b with
  | None => mret (false, set_m_handle_table None s)
  | Some b =>
      mret (true, set_m_num_handles (Z.of_nat NUM_TEXTURE_HANDLES) (set_handles (replicate NUM_TEXTURE_HANDLES 0) (set_m_handle_table (Some b) s)))
  end.

Definition alloc_buf_handle (entry : Z) (s : Shared) : option (Z * Shared) :=
  if entry =? 0 then None
  else
    '(i, _) ← list_find (fun h => h = 0) (take (Z.to_nat s.(m_num_handles)) s.(handles));
    Some (Z.of_nat i, set_handles (<[i := entry]> s.(handles)) s).

Definition free_buf_handle (entry object_id : Z) (s : Shared) : Shared :=
  if bool_decide (s.(m_handle_table) = None) || (s.(m_num_handles) <=? object_id) ||
     negb (bool_decide (s.(handles) !! Z.to_nat object_id = Some entry)) then s
  else set_handles (<[Z.to_nat object_id := 0]> s.(handles)) s.

Definition link_texture_at_head (p : Z) (s : Shared) : prog Shared :=
  s ← (if s.(m_texture_list) =? 0 then mret s else on_tx s.(m_texture_list) (set_tx_prev p) s);
  s ← on_tx p (fun t => set_tx_next s.(m_texture_list) (set_tx_prev 0 t)) s;
  mret (set_m_texture_list p s).

Definition unlink_nonhead_texture (p : Z) (s : Shared) : prog Shared :=
  t ← get_tx p s;
  s ← on_tx t.(tx_prev) (set_tx_next t.(tx_next)) s;
  t ← get_tx p s;
  if t.(tx_next) =? 0 then mret s else on_tx t.(tx_next) (set_tx_prev t.(tx_prev)) s.

Definition unlink_texture (p : Z) (s : Shared) : prog Shared :=
  if p =? s.(m_texture_list) then
    t ← get_tx p s;
    let s := set_m_texture_list t.(tx_next) s in
    if s.(m_texture_list) =? 0 then mret s else on_tx s.(m_texture_list) (set_tx_prev 0) s
  else unlink_nonhead_texture p s.

(** [finalize_texture]: [provider] says whether the pointer is not null. *)
Definition finalize_texture (provider : bool) (p : Z) (s : Shared) : prog Shared :=
  t ← get_tx p s;
  release_map t.(client_map);;
  s ← on_tx p (set_client_map None) s;
  v ← discard t.(xfer);
  s ← on_tx p (set_xfer v) s;
  if negb provider then mret s
  else
    s ← (if isIdValid t.(yuv_shadow)
         then drop_surface t.(yuv_shadow);; on_tx p (set_yuv_shadow SVGA_ID_INVALID) s
         else mret s);
    if isIdValid t.(surface_id)
    then drop_surface t.(surface_id);; on_tx p (set_surface_id SVGA_ID_INVALID) s
    else mret s.

(** The handle, the system object and the place in the list of a texture are given up. *)
Definition forget_texture (p : Z) (s : Shared) : prog Shared :=
  t ← get_tx p s;
  '(_, o) ← get_so t s;
  mret (free_client_shared t.(sys_obj) (free_buf_handle p o.(object_id) s)).

(** The recursion follows links; more steps than there are textures go round in a circle,
    and exhaust the stack. *)
Fixpoint delete_texture_internal (fuel : nat) (provider shared : bool) (p : Z) (s : Shared) : prog Shared :=
  match fuel with
  | O => Wild
  | S fuel =>
      if p =? 0 then mret s
      else
        t ← get_tx p s;
        let shared := shared || t.(creator) in
        s ← (if (t.(sys_obj_type) =? TEX_TYPE_AGPREF) || (t.(sys_obj_type) =? TEX_TYPE_OOB) then
               if t.(linked_agp) =? 0 then mret s
               else
                 l ← get_tx t.(linked_agp) s;
                 s ← match l.(sys_obj) with
                     | None => delete_texture_internal fuel provider shared t.(linked_agp) s
                     | Some j =>
                         o ← deref (s.(sys_objs) !! j);
                         let s := put_so j (set_refcount (s32 (o.(refcount) - 1)) o) s in
                         if o.(refcount) =? 1 then delete_texture_internal fuel provider shared t.(linked_agp) s
                         else mret s
                     end;
                 on_tx p (set_linked_agp 0) s
             else mret s);
        s ← (if shared then s ← forget_texture p s; unlink_texture p s else mret s);
        s ← finalize_texture provider p s;
        releaseVendorTextureBuffer p s
  end.

Definition delete_texture (p : Z) (s : Shared) : prog Shared :=
  delete_texture_internal (S (size s.(textures))) s.(sh_provider) true p s.

Definition free_orphan_texture (s : Shared) : Shared := s.

(** The body of the loop of [Cleanup], the loop, and the whole. *)
Definition cleanup_handle (i : nat) (s : Shared) : prog Shared :=
  h ← deref (s.(handles) !! i);
  if h =? 0 then mret s
  else
    s ← forget_texture h s;
    s ← finalize_texture s.(sh_provider) h s;
    releaseVendorTextureBuffer h s.

Fixpoint cleanup_handles (l : list nat) (s : Shared) : prog Shared :=
  match l with
  | [] => mret s
  | i :: l => s ← cleanup_handle i s; cleanup_handles l s
  end.

Definition Cleanup (s : Shared) : prog Shared :=
  s ← cleanup_handles (seq 0 (Z.to_nat s.(m_num_handles))) s;
  s ← free_handles (set_m_texture_list 0 s);
  release_map s.(m_client_sys_objs_map);;
  let s := set_sys_objs [] (set_m_client_sys_objs_map None s) in
  match s.(m_shared_lock) with
  | Some l => release l;; mret (set_m_shared_lock None s)
  | None => mret s
  end.

(** ** Making textures *)

(** A new texture has a handle and a system object; 0 is null. *)
Definition common_texture_init (object_type : Z) (s : Shared) : prog (Z * Shared) :=
  '(q, s) ← allocVendorTextureBuffer s;
  match q with
  | None => mret (0, s)
  | Some p =>
      match alloc_buf_handle p s with
      | None => s ← releaseVendorTextureBuffer p s; mret (0, s)
      | Some (oid, s) =>
          '(rc, so, s) ← alloc_client_shared s;
          if negb (bool_decide (rc = kIOReturnSuccess)) then
            s ← releaseVendorTextureBuffer p (free_buf_handle p oid s);
            mret (0, s)
          else
            '(j, client_addr) ← deref so;
            o ← deref (s.(sys_objs) !! j);
            let s := put_so j (set_in_use 1 (set_so_type object_type (set_stamps (0, 0) (set_object_id oid o)))) s in
            s ← on_tx p (fun _ =>
                  set_surface_format SVGA3D_FORMAT_INVALID (set_yuv_shadow SVGA_ID_INVALID (set_surface_id SVGA_ID_INVALID
                    (set_xfer (init zero_texture.(xfer)) (set_sys_obj_type object_type
                      (set_sys_obj_client_addr client_addr (set_sys_obj (Some j) zero_texture))))))) s;
            mret (p, s)
      end
  end.

Definition isUserMemoryReadOnly : prog Z := a ← answer; mret (if a =? 0 then 0 else if a =? 1 then 1 else -1).

(** The search of [new_agp_texture] for a texture over the same memory.  The kernel says
    whether the memory is still the same; if it is not, it may give a new descriptor. *)
Inductive search := NotFound | Found (p : Z) | Remade (d : descriptor).

Definition same_memory (offset down up : Z) (t : TextureBuffer) : bool :=
  (t.(sys_obj_type) =? TEX_TYPE_AGP) && (t.(mem_changed) =? 0) && (t.(agp_offset_in_page) =? offset) &&
  (t.(agp_addr) =? down) && (t.(agp_size) =? up).

Fixpoint find_agp (fuel : nat) (offset down up p : Z) (s : Shared) : prog (search * Shared) :=
  match fuel with
  | O => Wild
  | S fuel =>
      if p =? 0 then mret (NotFound, s)
      else
        t ← get_tx p s;
        if negb (same_memory offset down up t) then find_agp fuel offset down up t.(tx_next) s
        else
          d ← deref t.(xfer).(md);
          b ← is_live d.(md_ref);
          if negb b then Wild
          else
            a ← answer;
            if a =? 1 then mret (Found p, s)
            else
              d' ← new_descriptor d.(md_length);
              s ← on_tx p (set_mem_changed 1) s;
              mret (match d' with Some d' => Remade d' | None => NotFound end, s)
  end.

(** The end of [new_agp_texture], from [common] on. *)
Definition adopt_agp (d : descriptor) (offset down : Z) (s : Shared) : prog (Z * Z * Shared) :=
  '(p, s) ← common_texture_init TEX_TYPE_AGP s;
  if p =? 0 then release d.(md_ref);; mret (0, 0, s)
  else
    s ← on_tx p (fun t => set_mem_changed 0 (set_agp_size d.(md_length) (set_agp_addr down
          (set_agp_offset_in_page offset (set_xfer (set_md (Some d) t.(xfer)) t))))) s;
    s ← link_texture_at_head p s;
    t ← get_tx p s;
    mret (p, t.(sys_obj_client_addr), s).

Definition offset_in_page (pixels : Z) : Z := Z.land pixels (PAGE_SIZE - 1).
Definition round_pages (n : Z) : Z := Z.land (u64 (n + (PAGE_SIZE - 1))) (u64 (- PAGE_SIZE)).

(** The texture, and the address of its system object in the client. *)
Definition new_agp_texture (limit pixels texture_size : Z) (s : Shared) : prog (Z * Z * Shared) :=
  let offset := offset_in_page pixels in
  let up_size := round_pages (offset + texture_size) in
  if limit <? up_size then mret (0, 0, s)
  else
    let down := Z.land pixels (u64 (- PAGE_SIZE)) in
    if down =? 0 then
      d ← new_descriptor up_size;
      match d with
      | None => mret (0, 0, s)
      | Some d =>
          mm ← createMappingInTask d kernel_task;
          release_map mm;;
          bytes ← answer;
          adopt_agp d offset bytes s
      end
    else
      '(r, s) ← find_agp (S (size s.(textures))) offset down up_size s.(m_texture_list) s;
      match r with
      | Found p =>
          t ← get_tx p s;
          s ← (if p =? s.(m_texture_list) then mret s
               else s ← unlink_nonhead_texture p s; link_texture_at_head p s);
          mret (p, t.(sys_obj_client_addr), s)
      | Remade d => adopt_agp d offset down s
      | NotFound =>
          ro ← isUserMemoryReadOnly;
          if ro <? 0 then mret (0, 0, s)
          else
            d ← new_descriptor up_size;
            match d with
            | None => mret (0, 0, s)
            | Some d => adopt_agp d offset down s
            end
      end.

(** [surface] is what [findSurfaceForID] found. *)
Definition new_surface_texture (surface : option Z) (sid fb_mask : Z) (s : Shared) : prog (Z * Z * Shared) :=
  if negb s.(sh_provider) then mret (0, 0, s)
  else
    match surface with
    | None => mret (0, 0, s)
    | Some r =>
        '(p, s) ← common_texture_init TEX_TYPE_SURFACE s;
        if p =? 0 then mret (0, 0, s)
        else
          s ← on_tx p (fun t => set_cgs_surface_id sid (set_fb_idx_mask fb_mask (set_linked_surface r (set_creator true t)))) s;
          s ← link_texture_at_head p s;
          t ← get_tx p s;
          mret (p, t.(sys_obj_client_addr), s)
    end.

Definition new_iosurface_texture (s : Shared) : prog (Z * Z * Shared) := mret (0, 0, s).

(** The reference count of the object of texture [p]. *)
Definition get_refcount (p : Z) (s : Shared) : prog Z :=
  t ← get_tx p s; '(_, o) ← get_so t s; mret o.(refcount).
Definition add_refcount (p : Z) (s : Shared) : prog Shared :=
  t ← get_tx p s; '(j, o) ← get_so t s; mret (put_so j (set_refcount (s32 (o.(refcount) + 1)) o) s).

(** [if (p1 && !p1->sys_obj->refcount) delete_texture(p1);] *)
Definition drop_unused (p1 : Z) (s : Shared) : prog Shared :=
  if p1 =? 0 then mret s
  else n ← get_refcount p1 s; if n =? 0 then delete_texture p1 s else mret s.

(** The part of [new_texture] after the memory of the client: [p1] is its texture or null.
    The result is the texture, the address of its data and that of its system object. *)
Definition new_texture_over (limit size0 size1 obj_type overhead p1 : Z) (s : Shared) : prog (Z * Z * Z * Shared) :=
  let total_size := round_pages (size0 + overhead) in
  if limit <? total_size then s ← drop_unused p1 s; mret (0, 0, 0, s)
  else
    '(p2, s) ← common_texture_init obj_type s;
    if p2 =? 0 then s ← drop_unused p1 s; mret (0, 0, 0, s)
    else
      bmd ← new_descriptor total_size;
      match bmd with
      | None =>
          s ← forget_texture p2 s;
          s ← releaseVendorTextureBuffer p2 s;
          s ← drop_unused p1 s;
          mret (0, 0, 0, s)
      | Some d =>
          s ← on_tx p2 (fun t => set_creator true (set_xfer (set_md (Some d) t.(xfer)) t)) s;
          m ← createMappingInTask d s.(sh_owning_task);
          match m with
          | None =>
              release d.(md_ref);;
              s ← on_tx p2 (fun t => set_xfer (set_md None t.(xfer)) t) s;
              s ← forget_texture p2 s;
              s ← releaseVendorTextureBuffer p2 s;
              s ← drop_unused p1 s;
              mret (0, 0, 0, s)
          | Some m =>
              s ← on_tx p2 (fun t => set_vram_bytes size1 (set_client_map (Some m) t)) s;
              s ← (if obj_type =? TEX_TYPE_OOB then s ← on_tx p2 (set_linked_agp p1) s; add_refcount p1 s else mret s);
              s ← link_texture_at_head p2 s;
              t ← get_tx p2 s;
              mret (p2, m.(mp_addr), t.(sys_obj_client_addr), s)
          end
      end.

Definition new_texture (limit size0 size1 pixels texture_size : Z) (s : Shared) : prog (Z * Z * Z * Shared) :=
  if negb (pixels =? 0) && negb (texture_size =? 0) then
    '(p1, _, s) ← new_agp_texture limit pixels texture_size s;
    if p1 =? 0 then mret (0, 0, 0, s)
    else new_texture_over limit size0 size1 TEX_TYPE_OOB 0x900 p1 s
  else if size1 =? 0 then new_texture_over limit size0 size1 TEX_TYPE_VB 0x80 0 s
  else new_texture_over limit size0 size1 TEX_TYPE_STD 0x900 0 s.

Definition new_agpref_texture (limit pixels1 pixels2 texture_size : Z) (s : Shared) : prog (Z * Z * Shared) :=
  '(p1, _, s) ← new_agp_texture limit pixels2 texture_size s;
  if p1 =? 0 then mret (0, 0, s)
  else
    '(p2, s) ← common_texture_init TEX_TYPE_AGPREF s;
    if p2 =? 0 then s ← drop_unused p1 s; mret (0, 0, s)
    else
      a ← get_tx p1 s;
      s ← on_tx p2 (fun t => set_linked_agp p1 (set_agp_addr (if pixels1 =? 0 then 0 else u64 (pixels1 - a.(agp_addr))) (set_creator true t))) s;
      s ← add_refcount p1 s;
      s ← link_texture_at_head p2 s;
      t ← get_tx p2 s;
      mret (p2, t.(sys_obj_client_addr), s).

(** ** Paging off *)

Definition mapGLDTextureHeader (t : TextureBuffer) : prog (IOReturn * option mapping) :=
  match t.(xfer).(md) with
  | None => mret (kIOReturnNotReady, None)
  | Some d =>
      m ← createMappingInTask (mk_descriptor d.(md_ref) PAGE_SIZE) kernel_task;
      match m with
      | None => mret (kIOReturnNoResources, None)
      | Some m =>
          if m.(mp_length) <? 72 * sizeof_GLDTextureHeader then release m.(mp_ref);; mret (kIOReturnNotReadable, None)
          else mret (kIOReturnSuccess, Some m)
      end
  end.

(** The header at index [i] of the mapping; [headers] is what the client has there. *)
Definition header_at (headers : Z -> GLDTextureHeader) (m : mapping) (i : Z) : prog GLDTextureHeader :=
  if (0 <=? i) && ((i + 1) * sizeof_GLDTextureHeader <=? m.(mp_length)) then mret (headers i) else Wild.

(** One image; a division by zero is [Wild]. *)
Definition pageoff_image (headers : Z -> GLDTextureHeader) (m : mapping) (tx ltx gmr face mipmap : Z) (s : Shared)
    : prog (IOReturn * Shared) :=
  t ← get_tx tx s;
  gld_th ← header_at headers m (t.(min_mipmap) + 12 * face + mipmap);
  '(_, o) ← get_so t s;
  on ← isPagedOn o face mipmap;
  if (gld_th.(pixels_in_client) =? 0) || negb on then mret (kIOReturnSuccess, s)
  else if t.(bytespp) =? 0 then Wild
  else
    let copyBox := mk_SVGA3dCopyBox 0 0 0 (gld_th.(width_bytes) / t.(bytespp)) gld_th.(th_height) gld_th.(th_depth) 0 0 0 in
    let extra := mk_ExtraInfoEx gld_th.(offset_in_client) gld_th.(th_pitch) 0xFFFFFFFF gmr 2 in
    r ← ask (OpSurfaceDMA3D (mk_SVGA3dSurfaceImageId t.(surface_id) face mipmap) SVGA3D_READ_HOST_VRAM (Some copyBox) (Some extra) true);
    s ← match r.2 with Some f => on_tx ltx (fun t => set_xfer (set_fence f t.(xfer)) t) s | None => mret s end;
    mret (r.1, s).

Fixpoint pageoff_images (headers : Z -> GLDTextureHeader) (m : mapping) (tx ltx gmr : Z) (l : list (Z * Z)) (s : Shared)
    : prog (IOReturn * Shared) :=
  match l with
  | [] => mret (kIOReturnSuccess, s)
  | (face, mipmap) :: l =>
      '(rc, s) ← pageoff_image headers m tx ltx gmr face mipmap s;
      if bool_decide (rc = kIOReturnSuccess) then pageoff_images headers m tx ltx gmr l s else mret (rc, s)
  end.

(** The images of a texture, in the order of the two loops. *)
Definition images (t : TextureBuffer) : list (Z * Z) :=
  face ← seqZ 0 t.(num_faces); (fun mipmap => (face, mipmap)) <$> seqZ 0 t.(num_mipmaps).

Definition complete_tx (p : Z) (s : Shared) : prog Shared :=
  t ← get_tx p s; v ← complete s.(sh_provider) t.(xfer); on_tx p (set_xfer v) s.

(** [pageoff[face] |= pageon[face]] for the faces of the texture. *)
Definition mark_off (faces : Z) (o : GLDSysObject) : GLDSysObject :=
  set_pageoff (imap (fun i x => if Z.of_nat i <? faces then Z.lor x (nth i o.(pageon) 0) else x) o.(pageoff)) o.
Definition clear_dirty (o : GLDSysObject) : GLDSysObject := set_vstate (Z.ldiff o.(vstate) 0x20) o.
Definition on_so (p : Z) (f : GLDSysObject -> GLDSysObject) (s : Shared) : prog Shared :=
  t ← get_tx p s; '(j, o) ← get_so t s; mret (put_so j (f o) s).

Definition pageoffDirtyTexture (headers : Z -> GLDTextureHeader) (tx : Z) (s : Shared) : prog (IOReturn * Shared) :=
  t ← get_tx tx s;
  '(j, o) ← get_so t s;
  if negb (Z.land o.(vstate) 0x11 =? 0) then mret (kIOReturnSuccess, put_so j (set_vstate (Z.lor o.(vstate) 2) o) s)
  else if negb s.(sh_provider) then mret (kIOReturnNotReady, s)
  else if negb (isIdValid t.(surface_id)) then mret (kIOReturnNotReady, s)
  else if negb (t.(sys_obj_type) =? TEX_TYPE_STD) && negb (t.(sys_obj_type) =? TEX_TYPE_OOB) then mret (kIOReturnUnsupported, s)
  else if (t.(sys_obj_type) =? TEX_TYPE_OOB) && (t.(linked_agp) =? 0) then mret (kIOReturnBadArgument, s)
  else
    let ltx := if t.(sys_obj_type) =? TEX_TYPE_OOB then t.(linked_agp) else tx in
    '(rc, mmap) ← mapGLDTextureHeader t;
    if negb (bool_decide (rc = kIOReturnSuccess)) then mret (rc, s)
    else
      m ← deref mmap;
      l ← get_tx ltx s;
      '(rc, v) ← prepare s.(sh_provider) l.(xfer);
      s ← on_tx ltx (set_xfer v) s;
      if negb (bool_decide (rc = kIOReturnSuccess)) then release m.(mp_ref);; mret (rc, s)
      else
        '(rc, s) ← pageoff_images headers m tx ltx v.(gmr_id) (images t) s;
        if negb (bool_decide (rc = kIOReturnSuccess)) then
          s ← complete_tx ltx s;
          release m.(mp_ref);;
          mret (rc, s)
        else
          release m.(mp_ref);;
          s ← on_so tx (fun o => clear_dirty (mark_off t.(num_faces) o)) s;
          s ← (if t.(sys_obj_type) =? TEX_TYPE_OOB then on_so ltx clear_dirty s else mret s);
          s ← complete_tx ltx s;
          mret (kIOReturnSuccess, s).

(** ** Life *)

(** [VendorNewTextureDataStruc], less a field that is not used. *)
Record NewTextureData := mk_NewTextureData {
  nt_type : Z; nt_num_faces : Z; nt_num_mipmaps : Z; nt_min_mipmap : Z; nt_bytespp : Z; nt_width : Z; nt_height : Z;
  nt_depth : Z; nt_vram_pitch : Z; nt_pitch : Z; nt_read_only : Z; nt_size : Z * Z; nt_pixels : Z * Z * Z }.

Definition set_tiles (pages bytes : Z) (t : TextureBuffer) : TextureBuffer :=
  mk_TextureBuffer t.(xfer) t.(client_map) t.(sys_obj) t.(sys_obj_client_addr) t.(creator) t.(sys_obj_type)
    t.(num_faces) t.(num_mipmaps) t.(min_mipmap) t.(tx_width) t.(tx_height) t.(tx_depth) t.(vram_pitch) t.(tx_pitch)
    t.(vram_bytes) t.(bytespp) t.(tx_next) t.(tx_prev) t.(surface_id) t.(surface_format) t.(yuv_shadow) t.(linked_agp)
    t.(agp_offset_in_page) t.(mem_changed) t.(agp_addr) t.(agp_size) t.(linked_surface) t.(fb_idx_mask)
    t.(cgs_surface_id) pages bytes.

Definition initializeTexture (p : Z) (d : NewTextureData) (s : Shared) : prog (bool * Shared) :=
  s ← on_tx p (set_tiles d.(nt_pixels).2 PAGE_SIZE) s; mret (true, s).

Definition findTextureBuffer (object_id : Z) (s : Shared) : prog Z :=
  if bool_decide (s.(m_handle_table) = None) || (s.(m_num_handles) <=? object_id) then mret 0
  else deref (s.(handles) !! Z.to_nat object_id).

Definition lockShared (s : Shared) : prog unit :=
  l ← deref s.(m_shared_lock); b ← is_live l; if b : bool then mret tt else Wild.

(** [init] of an object whose fields are zero; [super_init] is the result of the method of
    the superclass. *)
Definition init_shared (super_init : bool) (owningTask : Z) (provider : bool) : prog (bool * Shared) :=
  if negb super_init then mret (false, mk_Shared 0 false None [] 0 0 None [] None ∅)
  else
    let s := mk_Shared owningTask provider None [] 0 0 None [] None ∅ in
    l ← IOMalloc;
    match l with
    | None => mret (false, s)
    | Some l =>
        '(b, s) ← alloc_handles (set_m_shared_lock (Some l) s);
        if b : bool then mret (true, s) else release l;; mret (false, set_m_shared_lock None s)
    end.

(** [free] of the object. *)
Definition free_shared (s : Shared) : prog Shared := Cleanup s.

(** [factory]; the object itself is a reference. *)
Definition factory (super_init : bool) (owningTask : Z) (provider : bool) : prog (option (Z * Shared)) :=
  o ← new_object;
  match o with
  | None => mret None
  | Some r =>
      '(b, s) ← init_shared super_init owningTask provider;
      if b : bool then mret (Some (r, s))
      else free_shared s;; release r;; mret None
  end.
