(* ===== verification/SharedInv.v ===== *)
(** Shared textures: what holds of the tables, the list, the links and the counts of an
    object between its operations, and how each step on memory changes it. *)

From S2P Require Import Allocator.
From S2P Require Import Prelude IOKit Layout SvgaReg Svga3dReg AccelIds AccelBlit Accel AccelSpec ShaderCache Provider.
From S2P Require Import AccelGmr VertexArray Kernel Transfer Surface Dll SurfaceLogic SurfaceProofs Shared.
From stdpp Require Import gmap gmultiset.
From stdpp Require Import list_relations list.

#[local] Open Scope Z_scope.

Local Abbreviation prog := (prog kernel).
Local Abbreviation heap := (gmap Z TextureBuffer).

(** ** Lists over a heap *)

(** What a function collects from every block. *)
Definition big {B} (f : Z -> TextureBuffer -> list B) (m : heap) : list B := map_to_list m ≫= (fun x => f x.1 x.2).

Section big.
Context {B : Type} (f : Z -> TextureBuffer -> list B).

Lemma big_delete m p t : m !! p = Some t -> big f m ≡ₚ f p t ++ big f (delete p m).
Proof. intros H. unfold big. by rewrite <-(map_to_list_delete m p t H). Qed.

Lemma big_insert m p t : big f (<[p := t]> m) ≡ₚ f p t ++ big f (delete p m).
Proof.
  rewrite <-insert_delete_eq. rewrite (big_delete _ p t) by apply lookup_insert_eq. by rewrite delete_insert_id by apply lookup_delete_eq.
Qed.

Lemma big_fresh m p t : m !! p = None -> big f (<[p := t]> m) ≡ₚ f p t ++ big f m.
Proof. intros H. by rewrite big_insert, delete_id. Qed.

Lemma big_update m p t t' : m !! p = Some t -> f p t' = f p t -> big f (<[p := t']> m) ≡ₚ big f m.
Proof. intros H E. by rewrite big_insert, (big_delete m p t H), E. Qed.

Lemma elem_of_big m x : x ∈ big f m <-> exists p t, m !! p = Some t /\ x ∈ f p t.
Proof.
  unfold big. rewrite list_elem_of_bind. split.
  - intros ([p t] & H & Hm%elem_of_map_to_list). eauto.
  - intros (p & t & Hm & H). exists (p, t). by rewrite elem_of_map_to_list.
Qed.

Lemma big_fmap (h : TextureBuffer -> TextureBuffer) m : (forall p t, f p (h t) = f p t) -> big f (h <$> m) ≡ₚ big f m.
Proof.
  intros E. unfold big. rewrite map_to_list_fmap. induction (map_to_list m) as [|[p t] l IH]; [done|]. cbn. by rewrite E, IH.
Qed.
End big.

(** ** Parts of a texture *)

Definition links_of (m : heap) : links := fun p => (fun t => (t.(tx_next), t.(tx_prev))) <$> m !! p.

Definition is_ref (t : TextureBuffer) : bool := (t.(sys_obj_type) =? TEX_TYPE_AGPREF) || (t.(sys_obj_type) =? TEX_TYPE_OOB).
Definition is_agp (t : TextureBuffer) : bool := t.(sys_obj_type) =? TEX_TYPE_AGP.

Lemma agp_not_ref t : is_agp t = true -> is_ref t = false.
Proof. unfold is_agp, is_ref. intros ->%Z.eqb_eq. done. Qed.

(** The textures that refer to [q], less the one at [y]. *)
Definition refers (y q p : Z) (t : TextureBuffer) : list Z :=
  if is_ref t && (t.(linked_agp) =? q) && negb (p =? y) then [p] else [].
Definition referrers (y q : Z) (m : heap) : Z := Z.of_nat (length (big (refers y q) m)).

(** The objects of the kernel and the surfaces of the device that belong to a texture. *)
Definition own (p : Z) (t : TextureBuffer) : list Z := p :: opt_ref md_ref t.(xfer).(md) (opt_ref mp_ref t.(client_map) []).
Definition ids (p : Z) (t : TextureBuffer) : list Z := valid_ids t.(yuv_shadow) ++ valid_ids t.(surface_id).

(** A texture whose images are all among the headers, and have pixels; its memory is not
    a region of the device, and it has a second surface only if it has one. *)
Record geometry (t : TextureBuffer) : Prop := {
  ge_faces : 0 <= t.(num_faces) <= 6;
  ge_mipmaps : 0 <= t.(min_mipmap) /\ 0 <= t.(num_mipmaps) /\ t.(min_mipmap) + t.(num_mipmaps) <= 12;
  ge_bytes : t.(sys_obj_type) = TEX_TYPE_STD \/ t.(sys_obj_type) = TEX_TYPE_OOB -> t.(num_faces) = 0 \/ 0 < t.(bytespp);
  ge_idle : isIdValid t.(xfer).(gmr_id) = false;
  ge_md : is_agp t = true -> is_Some t.(xfer).(md);
  ge_yuv : isIdValid t.(surface_id) = false -> isIdValid t.(yuv_shadow) = false;
}.

(** Textures that differ in their place in the list only. *)
Definition strip (t : TextureBuffer) : TextureBuffer := set_tx_next 0 (set_tx_prev 0 t).
Definition relinked (m m' : heap) : Prop := strip <$> m = strip <$> m'.

Lemma big_relinked {B} (f : Z -> TextureBuffer -> list B) m m' :
  (forall p t, f p (strip t) = f p t) -> relinked m m' -> big f m ≡ₚ big f m'.
Proof. intros E H. rewrite <-(big_fmap f strip m), <-(big_fmap f strip m') by done. by rewrite H. Qed.

Lemma relinked_lookup m m' p t : relinked m m' -> m !! p = Some t -> exists t', m' !! p = Some t' /\ strip t' = strip t.
Proof.
  intros H E. assert ((strip <$> m') !! p = Some (strip t)) as E'. { rewrite <-H, lookup_fmap, E. done. }
  rewrite lookup_fmap in E'. destruct (m' !! p) as [t'|]; [|done]. exists t'. split; [done|]. cbn in E'. congruence.
Qed.

#[global] Instance relinked_equiv : Equivalence relinked.
Proof. unfold relinked. split; [by intros m|by intros m m' H|]. intros m1 m2 m3 H1 H2. congruence. Qed.

Lemma relinked_insert m p t t' : m !! p = Some t -> strip t' = strip t -> relinked m (<[p := t']> m).
Proof.
  intros E H. unfold relinked. rewrite fmap_insert, H. symmetry. apply insert_id. by rewrite lookup_fmap, E.
Qed.

Lemma strip_field {X} (f : TextureBuffer -> X) t t' : strip t' = strip t -> (forall t, f (strip t) = f t) -> f t' = f t.
Proof. intros H E. by rewrite <-(E t'), H, E. Qed.

(** ** The invariant *)

(** A texture with its handle and its system object. *)
Record bound (s : Shared) (p : Z) (t : TextureBuffer) (j : nat) (o : GLDSysObject) : Prop := {
  bo_obj : t.(sys_obj) = Some j;
  bo_at : s.(sys_objs) !! j = Some o;
  bo_used : o.(in_use) <> 0;
  bo_id : 0 <= o.(object_id);
  bo_handle : s.(handles) !! Z.to_nat o.(object_id) = Some p;
  bo_pages : length o.(pageoff) = 6%nat /\ length o.(pageon) = 6%nat;
}.

(** What an operation under way has not finished: textures without a handle, textures
    that are not in the list, a texture over memory of the client to which none refers,
    and a texture whose reference is not counted. *)
Record gap := mk_gap { unbound : list Z; unlinked : list Z; unused : Z; mute : Z }.
Definition no_gap : gap := mk_gap [] [] 0 0.

Record shape (e : gap) (l : list Z) (s : Shared) : Prop := {
  sp_list : dll 0 (links_of s.(textures)) l;
  sp_head : s.(m_texture_list) = first 0 l;
  sp_null : s.(textures) !! 0 = None;
  sp_linked p : is_Some (s.(textures) !! p) <-> p ∈ l \/ p ∈ e.(unlinked);
  sp_geom p t : s.(textures) !! p = Some t -> p ∈ l -> geometry t;
  sp_bound p t : s.(textures) !! p = Some t -> p ∉ e.(unbound) -> exists j o, bound s p t j o;
  sp_handle i h : s.(handles) !! i = Some h -> h <> 0 ->
    (h ∉ e.(unbound)) /\ (exists t j o, s.(textures) !! h = Some t /\ bound s h t j o /\ Z.to_nat o.(object_id) = i);
  sp_link p t : s.(textures) !! p = Some t -> is_ref t = true -> p <> e.(mute) -> t.(linked_agp) <> 0 ->
    (t.(linked_agp) ∉ e.(unbound)) /\ (exists a, s.(textures) !! t.(linked_agp) = Some a /\ is_agp a = true);
  sp_count p t j o : s.(textures) !! p = Some t -> is_agp t = true -> bound s p t j o -> o.(refcount) = referrers e.(mute) p s.(textures);
  sp_used p t : s.(textures) !! p = Some t -> is_agp t = true -> p <> e.(unused) -> 1 <= referrers e.(mute) p s.(textures);
  sp_table : s.(m_num_handles) = Z.of_nat (length s.(handles)) /\ (length s.(handles) <= 128)%nat /\
    (s.(m_handle_table) = None -> s.(handles) = []);
  sp_map : s.(m_client_sys_objs_map) = None -> s.(sys_objs) = [];
  sp_provider : s.(sh_provider) = true;
}.

(** A store to the heap, and the end of a block. *)
Definition upd (p : Z) (t : TextureBuffer) (s : Shared) : Shared := set_textures (<[p := t]> s.(textures)) s.
Definition del (p : Z) (s : Shared) : Shared := set_textures (delete p s.(textures)) s.

Lemma get_tx_at p t s : s.(textures) !! p = Some t -> get_tx p s = mret t.
Proof. intros H. unfold get_tx. by rewrite H. Qed.

Lemma on_tx_at p t f s : s.(textures) !! p = Some t -> on_tx p f s = mret (upd p (f t) s).
Proof. intros H. unfold on_tx. by rewrite (get_tx_at p t). Qed.

Lemma get_so_at p t j o s : bound s p t j o -> get_so t s = mret (j, o).
Proof. intros [H1 H2 _ _ _ _]. unfold get_so. by rewrite H1; cbn; rewrite H2. Qed.

Lemma bound_inj s p t o p' t' j o' : bound s p t j o -> bound s p' t' j o' -> p = p'.
Proof. intros [] []. congruence. Qed.

Lemma bound_fun s p t j o j' o' : bound s p t j o -> bound s p t j' o' -> j = j' /\ o = o'.
Proof. intros [] []. assert (j = j') as -> by congruence. split; congruence. Qed.

Lemma referrers_nonneg y q m : 0 <= referrers y q m.
Proof. unfold referrers. lia. Qed.

(** *** Stores to parts that the invariant does not look at *)

Definition same_links (t t' : TextureBuffer) : Prop :=
  t'.(sys_obj) = t.(sys_obj) /\ t'.(sys_obj_type) = t.(sys_obj_type) /\ t'.(linked_agp) = t.(linked_agp) /\
  t'.(tx_next) = t.(tx_next) /\ t'.(tx_prev) = t.(tx_prev).

Lemma refers_same y q p t t' : is_ref t' = is_ref t -> t'.(linked_agp) = t.(linked_agp) -> refers y q p t' = refers y q p t.
Proof. unfold refers. by intros -> ->. Qed.

Lemma referrers_perm y q m m' : big (refers y q) m ≡ₚ big (refers y q) m' -> referrers y q m = referrers y q m'.
Proof. intros H. unfold referrers. by rewrite H. Qed.

Lemma referrers_update y q m p t t' : m !! p = Some t -> refers y q p t' = refers y q p t -> referrers y q (<[p := t']> m) = referrers y q m.
Proof. intros H E. by apply referrers_perm, (big_update _ _ _ t). Qed.

Lemma bound_stable s s' p t t' j o : s'.(sys_objs) = s.(sys_objs) -> s'.(handles) = s.(handles) -> t'.(sys_obj) = t.(sys_obj) ->
  bound s p t j o -> bound s' p t' j o.
Proof. intros E1 E2 E3 []. split; congruence. Qed.

Lemma is_ref_type t t' : t'.(sys_obj_type) = t.(sys_obj_type) -> is_ref t' = is_ref t /\ is_agp t' = is_agp t.
Proof. unfold is_ref, is_agp. by intros ->. Qed.

(** A change of the heap that keeps the types, the system objects and the links of
    textures; the list may be another. *)
Lemma shape_heap e l l' s s' : shape e l s ->
  s'.(handles) = s.(handles) -> s'.(sys_objs) = s.(sys_objs) -> s'.(m_num_handles) = s.(m_num_handles) ->
  s'.(m_handle_table) = s.(m_handle_table) -> s'.(m_client_sys_objs_map) = s.(m_client_sys_objs_map) -> s'.(sh_provider) = s.(sh_provider) ->
  (forall p t', s'.(textures) !! p = Some t' -> exists t, s.(textures) !! p = Some t /\
     t'.(sys_obj) = t.(sys_obj) /\ t'.(sys_obj_type) = t.(sys_obj_type) /\ t'.(linked_agp) = t.(linked_agp) /\ (p ∈ l' -> geometry t')) ->
  (forall p, is_Some (s.(textures) !! p) -> is_Some (s'.(textures) !! p)) ->
  (forall y q, referrers y q s'.(textures) = referrers y q s.(textures)) ->
  forall e', e'.(unbound) = e.(unbound) -> e'.(unused) = e.(unused) -> e'.(mute) = e.(mute) ->
  dll 0 (links_of s'.(textures)) l' -> s'.(m_texture_list) = first 0 l' ->
  (forall p, is_Some (s'.(textures) !! p) <-> p ∈ l' \/ p ∈ e'.(unlinked)) ->
  shape e' l' s'.
Proof.
  intros [H1 H2 H3 H4 H5 H6 H7 H8 H9 H10 H11 H12 H13] E1 E2 E3 E4 E5 E6 Hm Hd Hr e' G1 G2 G3 Hl Hh Hk.
  split; rewrite ?G1, ?G2, ?G3, ?E1, ?E2, ?E3, ?E4, ?E5, ?E6; try done.
  - destruct (s'.(textures) !! 0) as [t'|] eqn:E; [|done]. destruct (Hm _ _ E) as (t & ? & _). congruence.
  - intros p t' Ht Hp. destruct (Hm _ _ Ht) as (t & _ & _ & _ & _ & Hg). auto.
  - intros p t' Ht Hu. destruct (Hm _ _ Ht) as (t & Et & F1 & _). destruct (H6 p t Et Hu) as (j & o & Hb). exists j, o.
    by apply (bound_stable s s' p t).
  - intros i h Hi H0. destruct (H7 i h Hi H0) as (Hu & t & j & o & Et & Hb & Ei). split; [done|].
    destruct (Hd h) as [t' Et']; [eauto|]. destruct (Hm _ _ Et') as (t0 & Et0 & F1 & _). simplify_eq.
    exists t', j, o. split; [done|]. split; [|done]. by apply (bound_stable s s' h t).
  - intros p t' Ht Hr' Hp Hl0. destruct (Hm _ _ Ht) as (t & Et & F1 & F2 & F3 & _). destruct (is_ref_type t t' F2) as [R1 _].
    rewrite F3 in *. rewrite R1 in Hr'. destruct (H8 p t Et Hr' Hp Hl0) as (Hu & a & Ea & Ha). split; [done|].
    destruct (Hd t.(linked_agp)) as [a' Ea']; [eauto|]. destruct (Hm _ _ Ea') as (a0 & Ea0 & _ & F2' & _). simplify_eq.
    exists a'. split; [done|]. by rewrite (proj2 (is_ref_type a a' F2')).
  - intros p t' j o Ht Ha Hb. destruct (Hm _ _ Ht) as (t & Et & F1 & F2 & _). rewrite Hr. apply (H9 p t j o Et).
    + by rewrite <-(proj2 (is_ref_type t t' F2)).
    + by apply (bound_stable s' s p t').
  - intros p t' Ht Ha Hp. destruct (Hm _ _ Ht) as (t & Et & F1 & F2 & _). rewrite Hr. apply (H10 p t Et); [|done].
    by rewrite <-(proj2 (is_ref_type t t' F2)).
Qed.

Lemma links_upd m p t q : links_of (<[p := t]> m) q = if decide (q = p) then Some (t.(tx_next), t.(tx_prev)) else links_of m q.
Proof. unfold links_of. destruct (decide (q = p)) as [->|Hn]; [by rewrite lookup_insert_eq|by rewrite lookup_insert_ne]. Qed.

Lemma lookup_upd m p (t : TextureBuffer) q : (<[p := t]> m : heap) !! q = if decide (q = p) then Some t else m !! q.
Proof. destruct (decide (q = p)) as [->|Hn]; [by rewrite lookup_insert_eq|by rewrite lookup_insert_ne]. Qed.

Lemma shape_upd e l s p t t' : shape e l s -> s.(textures) !! p = Some t -> same_links t t' -> (p ∈ l -> geometry t') -> shape e l (upd p t' s).
Proof.
  intros Hs Ht (F1 & F2 & F3 & F4 & F5) Hg. pose proof Hs as [H1 H2 H3 H4 H5 _ _ _ _ _ _ _ _]. eapply shape_heap; try done; cbn [textures upd set_textures].
  - intros q t0. rewrite lookup_upd. destruct (decide (q = p)) as [->|]; [intros [= <-]; by exists t|]. intros E. exists t0. repeat split; eauto; by eapply H5.
  - intros q. rewrite lookup_upd. by destruct (decide (q = p)).
  - intros y q. apply referrers_update with t; [done|]. apply refers_same; [|done]. by apply is_ref_type.
  - eapply dll_ext; [exact H1|]. intros q Hq. rewrite links_upd. destruct (decide (q = p)) as [->|]; [|done]. unfold links_of. rewrite Ht. cbn. by rewrite F4, F5.
  - intros q. rewrite lookup_upd. destruct (decide (q = p)) as [->|]; [|apply H4]. rewrite <-(H4 p). split; intros _; eauto.
Qed.

(** *** The list *)

Lemma geometry_strip t t' : strip t = strip t' -> geometry t -> geometry t'.
Proof.
  destruct t, t'. intros E [A1 A2 A3 A4 A5 A6]. unfold strip, set_tx_next, set_tx_prev in E. cbn in *. injection E as <- <- <- <- <- <- <- <- <- <- <- <- <- <- <- <- <- <- <- <- <- <- <- <- <- <- <- <- <-.
  by split.
Qed.

(** A change of places in the list. *)
Record shifted (s s' : Shared) : Prop := {
  sf_state : s' = set_textures s'.(textures) (set_m_texture_list s'.(m_texture_list) s);
  sf_heap : relinked s.(textures) s'.(textures);
}.

Lemma shape_shifted e e' l l' s s' : shape e l s -> shifted s s' ->
  e'.(unbound) = e.(unbound) -> e'.(unused) = e.(unused) -> e'.(mute) = e.(mute) ->
  dll 0 (links_of s'.(textures)) l' -> s'.(m_texture_list) = first 0 l' -> (forall p, p ∈ l' \/ p ∈ e'.(unlinked) <-> p ∈ l \/ p ∈ e.(unlinked)) ->
  (forall p t, s.(textures) !! p = Some t -> p ∈ l' -> geometry t) -> shape e' l' s'.
Proof.
  intros Hs [E Hr] G1 G2 G3 Hl Hh Hm Hg. pose proof Hs as [H1 H2 H3 H4 H5 _ _ _ _ _ _ _ _].
  assert (forall p t', s'.(textures) !! p = Some t' -> exists t, s.(textures) !! p = Some t /\ strip t' = strip t) as Hback.
  { intros p t' Ht. symmetry in Hr. destruct (relinked_lookup _ _ p t' Hr Ht) as (t & Et & Es). eauto. }
  assert (forall p, is_Some (s.(textures) !! p) -> is_Some (s'.(textures) !! p)) as Hd.
  { intros p [t Ht]. destruct (relinked_lookup _ _ p t Hr Ht) as (t' & Et & _). eauto. }
  apply (shape_heap e l l' s s'); try (rewrite E; done); try done.
  - intros p t' Ht. destruct (Hback p t' Ht) as (t & Et & Es). exists t. split; [done|].
    split; [by apply (strip_field sys_obj t t')|]. split; [by apply (strip_field sys_obj_type t t')|].
    split; [by apply (strip_field linked_agp t t')|]. intros Hp. apply (geometry_strip t t'); [by symmetry|by apply (Hg p)].
  - intros y q. apply referrers_perm. symmetry. apply big_relinked; [|done]. done.
  - intros p. rewrite Hm, <-H4. split; [|apply Hd]. intros [t' Ht]. destruct (Hback p t' Ht) as (t & Et & _). eauto.
Qed.

Lemma shifted_refl s : shifted s s.
Proof. split; [by destruct s|done]. Qed.

Lemma shifted_trans s1 s2 s3 : shifted s1 s2 -> shifted s2 s3 -> shifted s1 s3.
Proof. intros [E1 R1] [E2 R2]. split; [|by etrans]. rewrite E2, E1. done. Qed.

Lemma shifted_head h s : shifted s (set_m_texture_list h s).
Proof. split; [by destruct s|done]. Qed.

Lemma shifted_upd s p t t' : s.(textures) !! p = Some t -> strip t' = strip t -> shifted s (upd p t' s).
Proof. intros H E. split; [by destruct s|]. by apply relinked_insert with t. Qed.

Lemma link_head e l s p : shape e l s -> is_Some (s.(textures) !! p) -> p ∉ l ->
  exists s', link_texture_at_head p s = mret s' /\ shifted s s' /\ dll 0 (links_of s'.(textures)) (p :: l) /\ s'.(m_texture_list) = p.
Proof.
  intros [H1 H2 H3 H4 _ _ _ _ _ _ _ _ _] [t Ht] Hp. unfold link_texture_at_head.
  assert (p <> 0) as Hp0 by (intros ->; congruence).
  destruct l as [|h l].
  - rewrite H2. cbn [first head default]. rewrite Z.eqb_refl. cbn. rewrite (on_tx_at p t) by done. eexists. split; [reflexivity|].
    split; [eapply shifted_trans; [apply (shifted_upd s p t (set_tx_next s.(m_texture_list) (set_tx_prev 0 t))); [done|by destruct t]|apply shifted_head]|].
    split; [|done]. rewrite H2. eapply (dll_push (links_of s.(textures)) _ []); [apply dll_nil|done|done| |].
    + cbn [textures set_m_texture_list upd set_textures]. by rewrite links_upd, decide_True by done.
    + intros q Hq. by apply elem_of_nil in Hq.
  - assert (h <> 0) as Hh. { destruct H1 as (_ & Hn & _). intros ->. apply Hn. by left. }
    destruct (proj2 (H4 h)) as [th Eh]; [left; by left|]. rewrite H2. change (first 0 (h :: l)) with h.
    apply Z.eqb_neq in Hh as Hhb. rewrite Hhb, (on_tx_at h th) by done. cbn [mbind prog_bind mret prog_ret].
    assert (h <> p) as Hhp. { intros ->. apply Hp. by left. }
    rewrite (on_tx_at p t). 2: { cbn [textures upd set_textures]. rewrite lookup_upd. by rewrite decide_False by done. }
    eexists. split; [reflexivity|]. cbn [m_texture_list upd set_textures]. rewrite H2. change (first 0 (h :: l)) with h. split; [|split; [|done]].
    + eapply shifted_trans; [apply (shifted_upd s h th (set_tx_prev p th)); [done|by destruct th]|].
      eapply shifted_trans; [apply (shifted_upd _ p t (set_tx_next h (set_tx_prev 0 t))); [|by destruct t]|apply shifted_head].
      cbn [textures upd set_textures]. by rewrite lookup_upd, decide_False by done.
    + cbn [textures set_m_texture_list upd set_textures]. eapply dll_push; [exact H1|done|done| |].
      * by rewrite links_upd, decide_True by done.
      * intros q Hq. rewrite !links_upd. rewrite (decide_False (P := q = p)) by (intros ->; done). change (first 0 (h :: l)) with h.
        destruct (decide (q = h)) as [->|]; [|by destruct (links_of _ q) as [[]|]]. unfold links_of. rewrite Eh. cbn. by destruct th.
Qed.

Lemma link_ok e l s p : shape e l s -> e.(unlinked) = [p] -> p ∉ l -> (forall t, s.(textures) !! p = Some t -> geometry t) ->
  exists s', link_texture_at_head p s = mret s' /\ shifted s s' /\ shape (mk_gap e.(unbound) [] e.(unused) e.(mute)) (p :: l) s'.
Proof.
  intros Hs Hu Hp Hg. destruct (link_head e l s p Hs) as (s' & E & Hf & Hl & Hh); [apply (sp_linked _ _ _ Hs); rewrite Hu; right; by left|done|].
  exists s'. split; [done|]. split; [done|]. apply (shape_shifted e _ l _ s); try done.
  - cbn [unlinked]. intros q. rewrite Hu, elem_of_cons, list_elem_of_singleton, elem_of_nil. tauto.
  - intros q t Ht [->|Hq]%elem_of_cons; [by apply Hg|by apply (sp_geom _ _ _ Hs q)].
Qed.

(** Removal of a texture that is not the first. *)
Lemma unlink_nonhead e l1 l2 s p : shape e (l1 ++ p :: l2) s -> l1 <> [] ->
  exists s', unlink_nonhead_texture p s = mret s' /\ shifted s s' /\ dll 0 (links_of s'.(textures)) (l1 ++ l2) /\ s'.(m_texture_list) = s.(m_texture_list).
Proof.
  intros Hs Hne. pose proof Hs as [H1 H2 H3 H4 _ _ _ _ _ _ _ _ _]. unfold unlink_nonhead_texture.
  destruct (proj2 (H4 p)) as [t Ht]; [left; apply elem_of_app; right; by left|].
  assert (links_of s.(textures) p = Some (first 0 l2, final 0 l1)) as Hpl by (by apply H1).
  unfold links_of in Hpl. rewrite Ht in Hpl. cbn in Hpl. injection Hpl as En Ev.
  assert (final 0 l1 ∈ l1) as Hf. { destruct (final_in 0 l1) as [E|]; [|done]. destruct l1 as [|x l1' _] using rev_ind; [done|].
    rewrite final_snoc in *. apply elem_of_app. right. by left. }
  assert (final 0 l1 <> p) as Hfp. { intros E. rewrite E in Hf. destruct H1 as (Hn & _). apply NoDup_app in Hn as (_ & Hd & _). apply (Hd p Hf). by left. }
  destruct (proj2 (H4 (final 0 l1))) as [tv Etv]; [left; apply elem_of_app; by left|].
  rewrite (get_tx_at p t) by done. cbn [mbind prog_bind mret prog_ret]. rewrite Ev, (on_tx_at _ tv) by done. cbn [mbind prog_bind mret prog_ret].
  set (s1 := upd (final 0 l1) (set_tx_next t.(tx_next) tv) s).
  assert (s1.(textures) !! p = Some t) as Ht1. { cbn. rewrite lookup_upd. by rewrite decide_False by done. }
  assert (shifted s s1) as Hs1. { apply (shifted_upd s _ tv); [done|by destruct tv]. }
  rewrite (get_tx_at p t) by done. cbn [mbind prog_bind mret prog_ret]. rewrite En.
  assert (forall q n v, q ∈ l1 ++ l2 -> links_of s.(textures) q = Some (n, v) ->
    links_of s1.(textures) q = Some (if decide (q = final 0 l1) then first 0 l2 else n, v)) as Hl1.
  { intros q n v Hq E. cbn [s1 upd textures set_textures]. rewrite links_upd. destruct (decide (q = final 0 l1)) as [->|]; [|done].
    cbn. unfold links_of in E. rewrite Etv in E. cbn in E. simplify_eq. by rewrite En. }
  destruct (decide (first 0 l2 = 0)) as [E0|E0].
  - rewrite E0, Z.eqb_refl. exists s1. split; [done|]. split; [done|]. split; [|done]. apply (dll_remove _ _ _ _ _ H1).
    intros q n v Hq E. rewrite (Hl1 q n v Hq E). f_equal. f_equal. rewrite decide_False; [done|]. intros ->. rewrite E0 in Hq. destruct H1 as (_ & Hz & _).
    apply Hz. rewrite elem_of_app in *. destruct Hq; [by left|right; by right].
  - apply Z.eqb_neq in E0 as E0b. rewrite E0b, Ev.
    assert (first 0 l2 ∈ l2) as Hf2 by (by destruct (first_in 0 l2)).
    assert (first 0 l2 <> final 0 l1) as Hd12.
    { intros E. destruct H1 as (Hn & _). apply NoDup_app in Hn as (_ & Hd & _). apply (Hd (final 0 l1) Hf). right. by rewrite <-E. }
    destruct (proj2 (H4 (first 0 l2))) as [tn Etn]; [left; apply elem_of_app; right; by right|].
    rewrite (on_tx_at _ tn). 2: { cbn. rewrite lookup_upd. by rewrite decide_False by done. }
    eexists. split; [reflexivity|]. split; [|split; [|done]].
    + eapply shifted_trans; [exact Hs1|]. apply (shifted_upd _ _ tn); [|by destruct tn]. cbn. rewrite lookup_upd. by rewrite decide_False by done.
    + apply (dll_remove _ _ _ _ _ H1). intros q n v Hq E. cbn [upd textures set_textures]. rewrite links_upd.
      destruct (decide (q = first 0 l2)) as [->|]; [|by apply Hl1]. cbn. unfold links_of in E. rewrite Etn in E. cbn in E. simplify_eq.
      by rewrite decide_False by done.
Qed.

Lemma unlink_ok e l1 l2 s p : shape e (l1 ++ p :: l2) s -> e.(unlinked) = [] ->
  exists s', unlink_texture p s = mret s' /\ shifted s s' /\ shape (mk_gap e.(unbound) [p] e.(unused) e.(mute)) (l1 ++ l2) s'.
Proof.
  intros Hs Hu. pose proof Hs as [H1 H2 H3 H4 H5 _ _ _ _ _ _ _ _].
  assert (forall s', shifted s s' -> dll 0 (links_of s'.(textures)) (l1 ++ l2) -> s'.(m_texture_list) = first 0 (l1 ++ l2) ->
    shape (mk_gap e.(unbound) [p] e.(unused) e.(mute)) (l1 ++ l2) s') as Hend.
  { intros s' Hf Hl Hh. apply (shape_shifted e _ (l1 ++ p :: l2) _ s); try done; cbn [unlinked].
    - intros q. rewrite Hu, !elem_of_app, !elem_of_cons, !elem_of_nil. tauto.
    - intros q t Ht Hq. apply (H5 q t Ht). rewrite !elem_of_app, elem_of_cons in *. tauto. }
  unfold unlink_texture. rewrite H2. destruct l1 as [|h l1].
  - change (first 0 ([] ++ p :: l2)) with p. rewrite Z.eqb_refl.
    destruct (proj2 (H4 p)) as [t Ht]; [left; by left|]. rewrite (get_tx_at p t) by done. cbn [mbind prog_bind mret prog_ret].
    assert (links_of s.(textures) p = Some (first 0 l2, 0)) as Hpl by (by apply (proj2 (proj2 H1) [])).
    unfold links_of in Hpl. rewrite Ht in Hpl. cbn in Hpl. injection Hpl as En Ev. cbn [m_texture_list set_m_texture_list]. rewrite En.
    destruct l2 as [|h l2].
    + change (first 0 []) with 0. cbn [Z.eqb]. eexists. split; [reflexivity|]. split; [apply shifted_head|]. apply Hend; [apply shifted_head|apply dll_nil|done].
    + change (first 0 (h :: l2)) with h. assert (h <> 0) as Hh. { destruct H1 as (_ & Hz & _). intros ->. apply Hz. right. by left. }
      apply Z.eqb_neq in Hh as Hb. rewrite Hb. destruct (proj2 (H4 h)) as [th Eth]; [left; right; by left|].
      rewrite (on_tx_at h th) by done.
      assert (shifted s (upd h (set_tx_prev 0 th) (set_m_texture_list h s))) as Hf.
      { eapply shifted_trans; [apply shifted_head|]. apply (shifted_upd _ h th); [done|by destruct th]. }
      eexists. split; [reflexivity|]. split; [done|]. apply Hend; [done| |done].
      apply (dll_remove _ _ [] p _ H1). intros q n v Hq E. cbn [upd textures set_textures set_m_texture_list]. rewrite links_upd.
      change (final 0 []) with 0. change (first 0 (h :: l2)) with h. rewrite (decide_False (P := q = 0)).
      2: { intros ->. destruct H1 as (_ & Hz & _). apply Hz. right. done. }
      destruct (decide (q = h)) as [->|]; [|done]. cbn. unfold links_of in E. rewrite Eth in E. cbn in E. by simplify_eq.
  - change (first 0 ((h :: l1) ++ p :: l2)) with h.
    assert (p <> h) as Hph. { intros ->. destruct H1 as (Hn & _). apply NoDup_cons in Hn as [Hn _]. apply Hn, elem_of_app. right. by left. }
    apply Z.eqb_neq in Hph as Hb. rewrite Hb. destruct (unlink_nonhead e (h :: l1) l2 s p Hs) as (s' & E & Hf & Hl & Hh); [done|].
    exists s'. split; [done|]. split; [done|]. apply Hend; [done|done|]. by rewrite Hh, H2.
Qed.

Lemma unlinked_shape e l1 l2 s s' p : shape e (l1 ++ p :: l2) s -> e.(unlinked) = [] -> shifted s s' ->
  dll 0 (links_of s'.(textures)) (l1 ++ l2) -> s'.(m_texture_list) = first 0 (l1 ++ l2) ->
  shape (mk_gap e.(unbound) [p] e.(unused) e.(mute)) (l1 ++ l2) s'.
Proof.
  intros Hs Hu Hf Hl Hh. apply (shape_shifted e _ (l1 ++ p :: l2) _ s); try done; cbn [unlinked].
  - intros q. rewrite Hu, !elem_of_app, !elem_of_cons, !elem_of_nil. tauto.
  - intros q t Ht Hq. apply (sp_geom _ _ _ Hs q t Ht). rewrite !elem_of_app, elem_of_cons in *. tauto.
Qed.

Lemma shifted_lookup s s' p t : shifted s s' -> s.(textures) !! p = Some t -> exists t', s'.(textures) !! p = Some t' /\ strip t' = strip t.
Proof. intros [_ Hr]. by apply relinked_lookup. Qed.

Lemma gap_eta e : mk_gap e.(unbound) e.(unlinked) e.(unused) e.(mute) = e.
Proof. by destruct e. Qed.

(** A texture that is found goes to the front. *)
Lemma move_ok e l1 l2 s p : shape e (l1 ++ p :: l2) s -> e.(unlinked) = [] -> l1 <> [] ->
  exists s', (s ← unlink_nonhead_texture p s; link_texture_at_head p s) = mret s' /\ shifted s s' /\ shape e (p :: l1 ++ l2) s'.
Proof.
  intros Hs Hu Hne. destruct (unlink_nonhead e l1 l2 s p Hs Hne) as (s1 & E1 & Hf1 & Hl1 & Hh1).
  assert (shape (mk_gap e.(unbound) [p] e.(unused) e.(mute)) (l1 ++ l2) s1) as Hs1.
  { apply (unlinked_shape e l1 l2 s s1 p); try done. rewrite Hh1, (sp_head _ _ _ Hs). by destruct l1. }
  rewrite E1. cbn [mbind prog_bind mret prog_ret]. pose proof (sp_list _ _ _ Hs) as (Hn & _). apply NoDup_app in Hn as (_ & Hd & [Hp _]%NoDup_cons).
  destruct (link_ok _ _ s1 p Hs1) as (s2 & E2 & Hf2 & Hs2); [done| | |].
  - rewrite elem_of_app. intros [Hx|Hx]; [apply (Hd p Hx); by left|done].
  - intros t Ht. destruct Hf1 as [_ Hr]. symmetry in Hr. destruct (relinked_lookup _ _ p t Hr Ht) as (t0 & Et0 & Es).
    apply (geometry_strip t0); [done|]. apply (sp_geom _ _ _ Hs p); [done|]. apply elem_of_app. right. by left.
  - exists s2. split; [done|]. split; [by eapply shifted_trans|]. cbn [unbound unlinked unused mute] in Hs2. by rewrite <-Hu, gap_eta in Hs2.
Qed.

(** *** System objects and counts *)

Definition keeps (o o' : GLDSysObject) : Prop :=
  o'.(object_id) = o.(object_id) /\ o'.(in_use) = o.(in_use) /\ length o'.(pageoff) = length o.(pageoff) /\ length o'.(pageon) = length o.(pageon).

Lemma bound_put_same s p t j o o' : bound s p t j o -> keeps o o' -> bound (put_so j o' s) p t j o'.
Proof.
  intros [B1 B2 B3 B4 B5 B6] (K1 & K2 & K3 & K4). split; cbn; rewrite ?K1, ?K2, ?K3, ?K4; try done. by rewrite list_lookup_insert_eq by (by eapply lookup_lt_Some).
Qed.

Lemma bound_put_other s p t j o o' q u j2 o2 : bound s p t j o -> keeps o o' -> q <> p -> bound s q u j2 o2 <-> bound (put_so j o' s) q u j2 o2.
Proof.
  intros Hb (K1 & K2 & K3 & K4) Hq. pose proof Hb as [B1 B2 B3 B4 B5 B6]. split; intros Hb'.
  - assert (j2 <> j) as Hj. { intros ->. apply Hq. by apply (bound_inj s _ u o2 _ t j o). }
    destruct Hb'. split; cbn; try done. by rewrite list_lookup_insert_ne.
  - destruct Hb' as [C1 C2 C3 C4 C5 C6]. cbn in *. assert (j2 <> j) as Hj.
    { intros ->. rewrite list_lookup_insert_eq in C2 by (by eapply lookup_lt_Some). injection C2 as <-. rewrite K1 in C5. congruence. }
    rewrite list_lookup_insert_ne in C2 by done. by split.
Qed.

(** A store to the object of texture [p] that may count references anew. *)
Lemma shape_put e l s p t j o o' e' : shape e l s -> s.(textures) !! p = Some t -> bound s p t j o -> keeps o o' ->
  e'.(unbound) = e.(unbound) -> e'.(unlinked) = e.(unlinked) ->
  (forall q u, s.(textures) !! q = Some u -> is_ref u = true -> q <> e'.(mute) -> u.(linked_agp) <> 0 ->
    (u.(linked_agp) ∉ e.(unbound)) /\ (exists a, s.(textures) !! u.(linked_agp) = Some a /\ is_agp a = true)) ->
  (is_agp t = true -> o'.(refcount) = referrers e'.(mute) p s.(textures)) ->
  (forall q u, s.(textures) !! q = Some u -> is_agp u = true -> q <> p -> referrers e'.(mute) q s.(textures) = referrers e.(mute) q s.(textures)) ->
  (forall q u, s.(textures) !! q = Some u -> is_agp u = true -> q <> e'.(unused) -> 1 <= referrers e'.(mute) q s.(textures)) ->
  shape e' l (put_so j o' s).
Proof.
  intros [H1 H2 H3 H4 H5 H6 H7 H8 H9 H10 H11 H12 H13] Ht Hb Hk G1 G2 Hlink Hc Hc' Hused.
  split; rewrite ?G1, ?G2; try done.
  - intros q u Hq Hu. cbn in Hq. destruct (decide (q = p)) as [->|Hqp].
    + simplify_eq. exists j, o'. by apply (bound_put_same s p t j o o').
    + destruct (H6 q u Hq Hu) as (j2 & o2 & Hb2). exists j2, o2. by apply (bound_put_other s p t j o o').
  - intros i h Hi H0. destruct (H7 i h Hi H0) as (Hu & u & j2 & o2 & Eu & Hb2 & Ei). split; [done|]. destruct (decide (h = p)) as [->|Hhp].
    + cbn in *. simplify_eq. destruct (bound_fun _ _ _ _ _ _ _ Hb Hb2) as [<- <-]. exists t, j, o'. split; [done|]. split; [by apply (bound_put_same s p t j o o')|].
      by rewrite (proj1 Hk).
    + exists u, j2, o2. split; [done|]. split; [|done]. by apply (bound_put_other s p t j o o').
  - intros q u j2 o2 Hq Ha Hb2. cbn in Hq. destruct (decide (q = p)) as [->|Hqp].
    + cbn in *. simplify_eq. destruct (bound_fun _ _ _ _ _ _ _ (bound_put_same s p t j o o' Hb Hk) Hb2) as [_ <-]. by apply Hc.
    + apply (bound_put_other s p t j o o') in Hb2; try done. cbn [put_so set_sys_objs textures]. rewrite (Hc' q u) by done. by apply (H9 q u j2 o2).
  - cbn. intros E. specialize (H12 E). destruct Hb as [_ Hj _ _ _ _]. by rewrite H12 in Hj.
Qed.

(** Stores that do not change the count. *)
Lemma shape_put_quiet e l s p t j o o' : shape e l s -> s.(textures) !! p = Some t -> bound s p t j o -> keeps o o' ->
  o'.(refcount) = o.(refcount) -> shape e l (put_so j o' s).
Proof.
  intros Hs Ht Hb Hk Er. pose proof Hs as [H1 H2 H3 H4 H5 H6 H7 H8 H9 H10 H11 H12 H13]. apply (shape_put e l s p t j o o' e); try done.
  intros Ha. rewrite Er. by apply (H9 p t j o).
Qed.

(** *** References *)

Lemma big_ext {B} (f h : Z -> TextureBuffer -> list B) m : (forall p t, m !! p = Some t -> f p t = h p t) -> big f m = big h m.
Proof.
  intros E. unfold big. assert (forall x, x ∈ map_to_list m -> f x.1 x.2 = h x.1 x.2) as H. { intros [p t] Hx%elem_of_map_to_list. by apply E. }
  induction (map_to_list m) as [|x l IH]; [done|]. cbn. rewrite (H x) by (by left). f_equal. apply IH. intros y Hy. apply H. by right.
Qed.

Lemma refers_mute y q p t : p <> y -> refers y q p t = if is_ref t && (t.(linked_agp) =? q) then [p] else [].
Proof. intros H. apply Z.eqb_neq in H. unfold refers. rewrite H, andb_true_r. done. Qed.

Lemma refers_muted p q t : refers p q p t = [].
Proof. unfold refers. by rewrite Z.eqb_refl, andb_false_r. Qed.

(** The references of all textures but [p]. *)
Lemma referrers_delete y q m p t : m !! p = Some t -> referrers y q m = Z.of_nat (length (refers y q p t)) + referrers y q (delete p m).
Proof. intros H. unfold referrers. rewrite (big_delete _ m p t H), length_app. lia. Qed.

Lemma referrers_delete_mute y y' q m p : m !! y = None \/ y = p -> m !! y' = None \/ y' = p ->
  referrers y q (delete p m) = referrers y' q (delete p m).
Proof.
  intros H H'. unfold referrers. do 2 f_equal. apply big_ext. intros k t Hk. apply lookup_delete_Some in Hk as [Hkp Hk].
  rewrite !refers_mute; [done|destruct H' as [H'| ->]; congruence|destruct H as [H| ->]; congruence].
Qed.

(** Muting the texture at [p], or not counting its reference. *)
Lemma referrers_silent q m p t t' : m !! p = Some t -> m !! 0 = None -> refers 0 q p t' = [] ->
  referrers p q m = referrers 0 q (<[p := t']> m).
Proof.
  intros H H0 E. assert (p <> 0) as Hp by (intros ->; congruence).
  rewrite (referrers_delete p q m p t H), refers_muted. rewrite (referrers_delete 0 q _ p t') by apply lookup_insert_eq. rewrite E. cbn [length].
  rewrite delete_insert_eq. f_equal. apply referrers_delete_mute; auto.
Qed.

Lemma referrers_loud q m p t : m !! p = Some t -> m !! 0 = None -> is_ref t = true -> t.(linked_agp) = q -> referrers 0 q m = referrers p q m + 1.
Proof.
  intros H H0 Hr Hq. assert (p <> 0) as Hp by (intros ->; congruence). rewrite (referrers_delete 0 q m p t H), (referrers_delete p q m p t H), refers_muted.
  rewrite refers_mute by done. rewrite Hr, Hq, Z.eqb_refl. cbn [length andb]. rewrite (referrers_delete_mute 0 p) by auto. lia.
Qed.

Lemma referrers_apart q m p t : m !! p = Some t -> m !! 0 = None -> is_ref t = false \/ t.(linked_agp) <> q -> referrers 0 q m = referrers p q m.
Proof.
  intros H H0 Hr. assert (p <> 0) as Hp by (intros ->; congruence). rewrite (referrers_delete 0 q m p t H), (referrers_delete p q m p t H), refers_muted.
  rewrite refers_mute by done. rewrite (referrers_delete_mute 0 p) by auto.
  replace (is_ref t && (t.(linked_agp) =? q)) with false; [done|]. destruct Hr as [->|Hr%Z.eqb_neq]; [done|]. by rewrite Hr, andb_false_r.
Qed.

(** There are no more references than handles. *)
Lemma referrers_small e l s y q : shape e l s -> e.(unbound) = [] -> referrers y q s.(textures) <= 128.
Proof.
  intros Hs Hu. pose proof (sp_table _ _ _ Hs) as (_ & Hn & _). unfold referrers.
  assert (length (big (refers y q) s.(textures)) <= length (map_to_list s.(textures)))%nat as H1.
  { unfold big. induction (map_to_list s.(textures)) as [|[p t] k IH]; [done|]. cbn. rewrite length_app. unfold refers at 1. destruct (_ && _); cbn; lia. }
  assert (length (map_to_list s.(textures)) <= length s.(handles))%nat as H2.
  { rewrite <-(length_fmap fst). apply submseteq_length, NoDup_submseteq; [apply NoDup_fst_map_to_list|].
    intros p ([p' t] & -> & Hp%elem_of_map_to_list)%list_elem_of_fmap. destruct (sp_bound _ _ _ Hs _ _ Hp) as (j & o & Hb); [by rewrite Hu; apply not_elem_of_nil|].
    destruct Hb as [_ _ _ _ Hh _]. by eapply list_elem_of_lookup_2. }
  lia.
Qed.

Lemma is_ref_linked q t : is_ref (set_linked_agp q t) = is_ref t.
Proof. done. Qed.

Lemma geometry_linked q t : geometry t -> geometry (set_linked_agp q t).
Proof. intros []. by split. Qed.

(** A store of a link: the texture at [p] is counted before, after, or has none. *)
Lemma shape_relink e l s p t q y : shape e l s -> s.(textures) !! p = Some t -> e.(mute) = 0 \/ e.(mute) = p -> p = y \/ q = 0 ->
  (forall k u, s.(textures) !! k = Some u -> referrers y k (<[p := set_linked_agp q t]> s.(textures)) = referrers e.(mute) k s.(textures)) ->
  shape (mk_gap e.(unbound) e.(unlinked) e.(unused) y) l (upd p (set_linked_agp q t) s).
Proof.
  intros Hs Ht Em Hy Hr. pose proof Hs as [H1 H2 H3 H4 H5 H6 H7 H8 H9 H10 H11 H12 H13].
  assert (p <> 0) as Hp by (intros ->; congruence).
  split; cbn [mute unused unbound unlinked textures upd set_textures sys_objs handles m_texture_list m_num_handles m_handle_table m_client_sys_objs_map sh_provider]; try done.
  - eapply dll_ext; [exact H1|]. intros k Hk. rewrite links_upd. destruct (decide (k = p)) as [->|]; [|done]. unfold links_of. by rewrite Ht.
  - by rewrite lookup_upd, decide_False.
  - intros k. rewrite lookup_upd. destruct (decide (k = p)) as [->|]; [|apply H4]. rewrite <-H4. split; eauto.
  - intros k u. rewrite lookup_upd. destruct (decide (k = p)) as [->|]; [|apply H5]. intros [= <-] Hl. by apply geometry_linked, (H5 p).
  - intros k u. rewrite lookup_upd. destruct (decide (k = p)) as [->|]; [intros [= <-] Hu|intros Hk Hu].
    + destruct (H6 p t Ht Hu) as (j & o & Hb). exists j, o. by apply (bound_stable s _ p t).
    + destruct (H6 k u Hk Hu) as (j & o & Hb). exists j, o. by apply (bound_stable s _ k u).
  - intros i h Hi Hh. destruct (H7 i h Hi Hh) as (Hu & u & j & o & Eu & Hb & Ei). split; [done|]. rewrite lookup_upd.
    destruct (decide (h = p)) as [->|]; [simplify_eq; exists (set_linked_agp q t), j, o|exists u, j, o]; (split; [done|]; split; [|done]).
    + by apply (bound_stable s _ p t).
    + by apply (bound_stable s _ h u).
  - intros k u. rewrite lookup_upd. destruct (decide (k = p)) as [->|Hk].
    { intros [= <-] _ Hpy Hl. destruct Hy as [->| ->]; done. }
    intros Eu Hru _ Hl. destruct (H8 k u Eu Hru) as (Hu & a & Ea & Ha); [|done|].
    { destruct Em as [-> | ->]; [|done]. intros ->. congruence. }
    split; [done|]. rewrite lookup_upd. destruct (decide (linked_agp u = p)) as [Ep|]; [|eauto]. exists (set_linked_agp q t). split; [done|]. rewrite Ep in Ea. by simplify_eq.
  - intros k u j o. rewrite lookup_upd. intros Hk Ha Hb. destruct (decide (k = p)) as [->|]; simplify_eq.
    + rewrite (Hr p t Ht). apply (H9 p t j o Ht Ha). by apply (bound_stable (upd p (set_linked_agp q t) s) s p (set_linked_agp q t) t).
    + rewrite (Hr k u Hk). apply (H9 k u j o Hk Ha). by apply (bound_stable (upd p (set_linked_agp q t) s) s k u u).
  - intros k u. rewrite lookup_upd. intros Hk Ha Hx. destruct (decide (k = p)) as [->|]; simplify_eq.
    + rewrite (Hr p t Ht). by apply (H10 p t Ht).
    + rewrite (Hr k u Hk). by apply (H10 k u Hk).
Qed.

(** [p] gets a link, which is not counted yet; and loses a link that is no longer counted. *)
Lemma shape_mute e l s p t q : shape e l s -> e.(mute) = 0 -> s.(textures) !! p = Some t -> t.(linked_agp) = 0 ->
  shape (mk_gap e.(unbound) e.(unlinked) e.(unused) p) l (upd p (set_linked_agp q t) s).
Proof.
  intros Hs Em Ht E0. pose proof (sp_null _ _ _ Hs) as H3. apply shape_relink; try done; [by left|by left|]. rewrite Em. intros k u Hk.
  rewrite (referrers_apart k s.(textures) p t); [|done|done|right; intros E; rewrite E in E0; congruence].
  apply (referrers_update p k _ p t); [done|]. by rewrite !refers_muted.
Qed.

Lemma shape_unmute e l s p t : shape e l s -> e.(mute) = p -> s.(textures) !! p = Some t ->
  shape (mk_gap e.(unbound) e.(unlinked) e.(unused) 0) l (upd p (set_linked_agp 0 t) s).
Proof.
  intros Hs Em Ht. pose proof (sp_null _ _ _ Hs) as H3. apply shape_relink; try done; [by right|by right|]. rewrite Em. intros k u Hk.
  symmetry. apply (referrers_silent k _ p t); [done|done|]. unfold refers. cbn [linked_agp set_linked_agp]. destruct (Z.eqb_spec 0 k) as [<-|]; [congruence|]. by rewrite andb_false_r.
Qed.

(** The reference of [p] to [q] is counted. *)
Lemma shape_add_ref e l s p t q a j o : shape e l s -> e.(mute) = p -> e.(unbound) = [] -> s.(textures) !! p = Some t -> is_ref t = true ->
  t.(linked_agp) = q -> s.(textures) !! q = Some a -> is_agp a = true -> bound s q a j o ->
  shape (mk_gap [] e.(unlinked) (if decide (e.(unused) = q) then 0 else e.(unused)) 0) l (put_so j (set_refcount (s32 (o.(refcount) + 1)) o) s).
Proof.
  intros Hs Em Eu Ht Hr Eq Ha Hagp Hb. pose proof Hs as [H1 H2 H3 H4 H5 H6 H7 H8 H9 H10 H11 H12 H13]. rewrite Em in *.
  pose proof (referrers_loud q _ p t Ht H3 Hr Eq) as Hl. pose proof (referrers_small _ _ _ 0 q Hs Eu). pose proof (referrers_nonneg p q s.(textures)).
  pose proof (H9 q a j o Ha Hagp Hb) as Hc.
  assert (forall k u, s.(textures) !! k = Some u -> k <> q -> referrers 0 k s.(textures) = referrers p k s.(textures)) as Hsame.
  { intros k u Hk Hkq. apply (referrers_apart k _ p t); [done|done|right; congruence]. }
  apply (shape_put e l s q a j o _ _); try done; cbn [unbound unlinked unused mute].
  - intros k u Hk Hru _ Hl0. destruct (decide (k = p)) as [->|Hkp]; [|by apply (H8 k)]. simplify_eq. rewrite Eu. split; [apply not_elem_of_nil|eauto].
  - intros _. cbn. rewrite s32_small by lia. lia.
  - intros k u Hk _ Hkq. rewrite Em. by apply (Hsame k u).
  - intros k u Hk Hu Hx. destruct (decide (k = q)) as [->|Hkq]; [lia|]. rewrite (Hsame k u) by done. apply (H10 k u); [done|done|].
    destruct (decide (unused e = q)); congruence.
Qed.

(** The reference of [p] to [q] is not counted any more. *)
Lemma shape_drop_ref e l s p t q a j o : shape e l s -> e.(mute) = 0 -> e.(unbound) = [] -> e.(unused) = 0 -> s.(textures) !! p = Some t -> is_ref t = true ->
  t.(linked_agp) = q -> s.(textures) !! q = Some a -> is_agp a = true -> bound s q a j o ->
  1 <= o.(refcount) <= 128 /\
  shape (mk_gap [] e.(unlinked) (if o.(refcount) =? 1 then q else 0) p) l (put_so j (set_refcount (s32 (o.(refcount) - 1)) o) s).
Proof.
  intros Hs Em Eu Ex Ht Hr Eq Ha Hagp Hb. pose proof Hs as [H1 H2 H3 H4 H5 H6 H7 H8 H9 H10 H11 H12 H13]. rewrite Em in *.
  pose proof (referrers_loud q _ p t Ht H3 Hr Eq) as Hl. pose proof (referrers_small _ _ _ 0 q Hs Eu). pose proof (referrers_nonneg p q s.(textures)).
  pose proof (H9 q a j o Ha Hagp Hb) as Hc. split; [lia|].
  assert (forall k u, s.(textures) !! k = Some u -> k <> q -> referrers p k s.(textures) = referrers 0 k s.(textures)) as Hsame.
  { intros k u Hk Hkq. symmetry. apply (referrers_apart k _ p t); [done|done|right; congruence]. }
  apply (shape_put e l s q a j o _ _); try done; cbn [unbound unlinked unused mute].
  - intros k u Hk Hru _ Hl0. apply (H8 k u Hk Hru); [|done]. intros ->. congruence.
  - intros _. cbn. rewrite s32_small by lia. lia.
  - intros k u Hk _ Hkq. rewrite Em. by apply (Hsame k u).
  - intros k u Hk Hu Hx. destruct (decide (k = q)) as [->|Hkq].
    + destruct (Z.eqb_spec o.(refcount) 1) as [E|E]; [done|lia].
    + rewrite (Hsame k u) by done. apply (H10 k u); [done|done|]. rewrite Ex. intros ->. congruence.
Qed.

(** *** The end of a texture *)

(** Nothing but the tables has changed. *)
Definition same_heap (s s' : Shared) : Prop := s' = set_sys_objs s'.(sys_objs) (set_handles s'.(handles) s).

Lemma forget_ok e l s p t : shape e l s -> e.(unbound) = [] -> s.(textures) !! p = Some t ->
  (is_agp t = true -> referrers e.(mute) p s.(textures) = 0) ->
  exists s', forget_texture p s = mret s' /\ same_heap s s' /\ shape (mk_gap [p] e.(unlinked) e.(unused) e.(mute)) l s'.
Proof.
  intros Hs Eu Ht Hz. pose proof Hs as [H1 H2 H3 H4 H5 H6 H7 H8 H9 H10 (T1 & T2 & T3) H12 H13].
  destruct (H6 p t Ht) as (j & o & Hb); [rewrite Eu; apply not_elem_of_nil|]. pose proof Hb as [B1 B2 B3 B4 B5 B6].
  unfold forget_texture. rewrite (get_tx_at p t) by done. cbn [mbind prog_bind mret prog_ret]. rewrite (get_so_at p t j o s Hb). cbn [mbind prog_bind mret prog_ret].
  pose proof (lookup_lt_Some _ _ _ B5) as Hlt. pose proof (lookup_lt_Some _ _ _ B2) as Hlj.
  assert (free_buf_handle p o.(object_id) s = set_handles (<[Z.to_nat o.(object_id) := 0]> s.(handles)) s) as ->.
  { unfold free_buf_handle. rewrite (bool_decide_eq_false_2 (_ = None)), (bool_decide_eq_true_2 (_ = Some p)); [|done|intros E; rewrite (T3 E) in Hlt; cbn in Hlt; lia].
    destruct (Z.leb_spec s.(m_num_handles) o.(object_id)); [lia|]. done. }
  rewrite B1. eexists. split; [reflexivity|]. cbn [free_client_shared]. set (s' := put_so j zero_object _).
  split; [by destruct s|].
  assert (forall q u j2 o2, s.(textures) !! q = Some u -> q <> p -> bound s q u j2 o2 -> bound s' q u j2 o2) as Hto.
  { intros q u j2 o2 Hq Hqp Hb2. assert (j2 <> j) by (intros ->; apply Hqp; by apply (bound_inj s q u o2 p t j o)). destruct Hb2 as [C1 C2 C3 C4 C5 C6].
    split; cbn; try done; [by rewrite list_lookup_insert_ne|]. rewrite list_lookup_insert_ne; [done|]. intros E. rewrite E in B5. congruence. }
  assert (forall q u j2 o2, bound s' q u j2 o2 -> q <> 0 -> q <> p /\ bound s q u j2 o2) as Hfrom.
  { intros q u j2 o2 [C1 C2 C3 C4 C5 C6] Hq0. cbn in *. assert (j2 <> j) as Hj. { intros ->. rewrite list_lookup_insert_eq in C2 by done. by simplify_eq. }
    rewrite list_lookup_insert_ne in C2 by done. assert (Z.to_nat o.(object_id) <> Z.to_nat o2.(object_id)) as Hi.
    { intros E. rewrite E, list_lookup_insert_eq in C5 by lia. congruence. }
    rewrite list_lookup_insert_ne in C5 by done. assert (bound s q u j2 o2) as Hb2 by (by split). split; [|done]. intros ->.
    destruct (H7 _ _ C5 Hq0) as (_ & u2 & j3 & o3 & Eu2 & Hb3 & Ei). simplify_eq. destruct (bound_fun _ _ _ _ _ _ _ Hb Hb3) as [-> ->]. lia. }
  split; cbn [unbound unlinked unused mute textures s' put_so set_sys_objs set_handles m_texture_list sh_provider m_client_sys_objs_map]; try done.
  - intros q u Hq Hqp. assert (q <> p) by (intros ->; apply Hqp; by left). destruct (H6 q u Hq) as (j2 & o2 & Hb2); [rewrite Eu; apply not_elem_of_nil|].
    exists j2, o2. by apply Hto.
  - intros i h Hi Hh. cbn in Hi. assert (Z.to_nat o.(object_id) <> i) as Hio. { intros <-. rewrite list_lookup_insert_eq in Hi by done. by simplify_eq. }
    rewrite list_lookup_insert_ne in Hi by done. destruct (H7 i h Hi Hh) as (_ & u & j2 & o2 & Eu2 & Hb2 & Ei).
    assert (h <> p) as Hhp. { intros ->. simplify_eq. by destruct (bound_fun _ _ _ _ _ _ _ Hb Hb2) as [-> ->]. }
    split; [by rewrite list_elem_of_singleton|]. exists u, j2, o2. split; [done|]. split; [by apply Hto|done].
  - intros q u Hq Hru Hm Hl0. destruct (H8 q u Hq Hru Hm Hl0) as (_ & a & Ea & Ha). split; [|eauto]. rewrite list_elem_of_singleton. intros E. rewrite E in Ea. assert (a = t) as -> by congruence.
    specialize (Hz Ha). assert (q ∈ big (refers e.(mute) p) s.(textures)) as Hin.
    { apply elem_of_big. exists q, u. split; [done|]. rewrite refers_mute by done. rewrite Hru, E, Z.eqb_refl. by left. }
    unfold referrers in Hz. destruct (big _ _); [by apply elem_of_nil in Hin|]. cbn in Hz. lia.
  - intros q u j2 o2 Hq Ha Hb2. destruct (Hfrom q u j2 o2 Hb2) as [Hqp Hb3]; [intros ->; congruence|]. by apply (H9 q u j2 o2).
  - cbn. rewrite length_insert. split; [done|]. split; [done|]. intros E. rewrite (T3 E). done.
  - cbn. intros E. by rewrite (H12 E) in B2.
Qed.

Lemma links_delete m p q : q <> p -> links_of (delete p m) q = links_of m q.
Proof. intros H. unfold links_of. by rewrite lookup_delete_ne. Qed.

Lemma release_ok e l s p t : shape e l s -> e.(unbound) = [p] -> e.(unlinked) = [p] -> p ∉ l -> s.(textures) !! p = Some t ->
  (is_ref t = true -> t.(linked_agp) = 0) ->
  shape (mk_gap [] [] (if decide (e.(unused) = p) then 0 else e.(unused)) e.(mute)) l (del p s).
Proof.
  intros [H1 H2 H3 H4 H5 H6 H7 H8 H9 H10 H11 H12 H13] Eu El Hpl Ht Hz. assert (p <> 0) as Hp0 by (intros ->; congruence).
  assert (forall q, q <> 0 -> referrers e.(mute) q (delete p s.(textures)) = referrers e.(mute) q s.(textures)) as Hr.
  { intros q Hq. rewrite (referrers_delete _ q s.(textures) p t Ht). unfold refers. destruct (is_ref t); [|done]. rewrite (Hz eq_refl).
    destruct (Z.eqb_spec 0 q); [congruence|]. done. }
  assert (forall q u, delete p s.(textures) !! q = Some u -> q <> p /\ s.(textures) !! q = Some u) as Hd.
  { intros q u [? ?]%lookup_delete_Some. done. }
  split; cbn [unbound unlinked unused mute textures del set_textures m_texture_list sh_provider m_client_sys_objs_map sys_objs handles m_num_handles m_handle_table]; try done.
  - eapply dll_ext; [exact H1|]. intros q Hq. apply links_delete. by intros ->.
  - by rewrite lookup_delete_ne.
  - intros q. rewrite elem_of_nil. split.
    + intros [u [Hq Hu]%Hd]. left. destruct (proj1 (H4 q)) as [|Hx]; [eauto|done|]. rewrite El, list_elem_of_singleton in Hx. done.
    + intros [Hq|[]]. rewrite lookup_delete_ne by (by intros ->). apply H4. by left.
  - intros q u [_ Hu]%Hd. by apply H5.
  - intros q u [Hq Hu]%Hd _. destruct (H6 q u Hu) as (j & o & Hb); [by rewrite Eu, list_elem_of_singleton|]. exists j, o. by apply (bound_stable s _ q u).
  - intros i h Hi Hh. destruct (H7 i h Hi Hh) as (Hu & u & j & o & Eh & Hb & Ei). rewrite Eu, list_elem_of_singleton in Hu. split; [apply not_elem_of_nil|].
    exists u, j, o. rewrite lookup_delete_ne by done. split; [done|]. split; [|done]. by apply (bound_stable s _ h u).
  - intros q u [Hq Hu]%Hd Hru Hm Hl. destruct (H8 q u Hu Hru Hm Hl) as (Hx & a & Ea & Ha). rewrite Eu, list_elem_of_singleton in Hx.
    split; [apply not_elem_of_nil|]. exists a. by rewrite lookup_delete_ne.
  - intros q u j o [Hq Hu]%Hd Ha Hb. rewrite Hr by (intros ->; congruence). apply (H9 q u j o Hu Ha). by apply (bound_stable (del p s) s q u).
  - intros q u [Hq Hu]%Hd Ha Hx. rewrite Hr by (intros ->; congruence). apply (H10 q u Hu Ha). destruct (decide (unused e = p)); congruence.
Qed.

(** *** A new texture *)

Definition fresh_texture (ty : Z) (j : nat) (addr : Z) : TextureBuffer :=
  set_surface_format SVGA3D_FORMAT_INVALID (set_yuv_shadow SVGA_ID_INVALID (set_surface_id SVGA_ID_INVALID
    (set_xfer (init zero_texture.(xfer)) (set_sys_obj_type ty (set_sys_obj_client_addr addr (set_sys_obj (Some j) zero_texture)))))).
Definition fresh_object (ty : Z) (i : nat) : GLDSysObject :=
  set_in_use 1 (set_so_type ty (set_stamps (0, 0) (set_object_id (Z.of_nat i) (set_in_use 1 zero_object)))).

Record creation := mk_creation { cr_handle : nat; cr_object : nat; cr_addr : Z; cr_map : mapping; cr_objs : list GLDSysObject }.

Record created (ty p : Z) (c : creation) (s s' : Shared) : Prop := {
  cd_fresh : p <> 0 /\ s.(textures) !! p = None;
  cd_handle : s.(handles) !! c.(cr_handle) = Some 0;
  cd_object : exists o, c.(cr_objs) !! c.(cr_object) = Some o /\ o.(in_use) = 0;
  cd_objs : (s.(m_client_sys_objs_map) = Some c.(cr_map) /\ c.(cr_objs) = s.(sys_objs)) \/ s.(m_client_sys_objs_map) = None;
  cd_state : s' = set_textures (<[p := fresh_texture ty c.(cr_object) c.(cr_addr)]> s.(textures))
    (set_sys_objs (<[c.(cr_object) := fresh_object ty c.(cr_handle)]> c.(cr_objs))
      (set_m_client_sys_objs_map (Some c.(cr_map)) (set_handles (<[c.(cr_handle) := p]> s.(handles)) s)));
}.

Lemma bound_created e l ty p c s s' q u j o : shape e l s -> created ty p c s s' -> q <> 0 -> bound s q u j o -> bound s' q u j o.
Proof.
  intros Hs [[C1 C2] C3 (o0 & C4 & C5) C6 ->] Hq [B1 B2 B3 B4 B5 B6]. split; cbn; try done.
  - destruct C6 as [[E1 E2]|E]; [|by rewrite (sp_map _ _ _ Hs E) in B2]. rewrite E2 in *. rewrite list_lookup_insert_ne; [done|]. intros <-. congruence.
  - rewrite list_lookup_insert_ne; [done|]. intros E. rewrite E in C3. congruence.
Qed.

Lemma created_bound ty p c s s' : created ty p c s s' ->
  bound s' p (fresh_texture ty c.(cr_object) c.(cr_addr)) c.(cr_object) (fresh_object ty c.(cr_handle)).
Proof.
  intros [[C1 C2] C3 (o0 & C4 & C5) C6 ->]. split; cbn; try done; [|lia|].
  - by rewrite list_lookup_insert_eq by (by eapply lookup_lt_Some).
  - rewrite Nat2Z.id. by rewrite list_lookup_insert_eq by (by eapply lookup_lt_Some).
Qed.

Lemma no_referrers e l s p : shape e l s -> e.(mute) = 0 -> p <> 0 -> s.(textures) !! p = None -> referrers 0 p s.(textures) = 0.
Proof.
  intros Hs Em Hp Hn. unfold referrers. destruct (big (refers 0 p) s.(textures)) as [|x k] eqn:E; [done|]. exfalso.
  assert (x ∈ big (refers 0 p) s.(textures)) as Hx by (rewrite E; by left). apply elem_of_big in Hx as (q & u & Hq & Hx).
  unfold refers in Hx. destruct (is_ref u) eqn:Hr; [|by apply elem_of_nil in Hx]. destruct (Z.eqb_spec u.(linked_agp) p) as [El|]; [|by apply elem_of_nil in Hx].
  destruct (sp_link _ _ _ Hs q u Hq Hr) as (_ & a & Ea & _); [rewrite Em; intros ->; by rewrite (sp_null _ _ _ Hs) in Hq|congruence|congruence].
Qed.

Lemma shape_created e l ty p c s s' : shape e l s -> e.(unbound) = [] -> e.(unlinked) = [] -> e.(mute) = 0 -> created ty p c s s' ->
  ty <> TEX_TYPE_AGP \/ e.(unused) = 0 ->
  (p ∉ l) /\ shape (mk_gap [] [p] (if ty =? TEX_TYPE_AGP then p else e.(unused)) 0) l s'.
Proof.
  intros Hs Eu El Em Hc Hty. pose proof Hs as [H1 H2 H3 H4 H5 H6 H7 H8 H9 H10 (T1 & T2 & T3) H12 H13]. rewrite Em in *.
  pose proof (created_bound ty p c s s' Hc) as Hbp. pose proof Hc as [[C1 C2] C3 (o0 & C4 & C5) C6 Es'].
  assert (p ∉ l) as Hpl. { intros Hp. destruct (proj2 (H4 p)) as [? ?]; [by left|congruence]. }
  split; [done|]. set (t := fresh_texture ty c.(cr_object) c.(cr_addr)) in *.
  assert (s'.(textures) = <[p := t]> s.(textures)) as Et by (by rewrite Es').
  assert (forall q u, s.(textures) !! q = Some u -> q <> 0 /\ q <> p) as Hlive by (intros q u Hq; split; intros ->; congruence).
  assert (forall q u j o, s.(textures) !! q = Some u -> bound s' q u j o -> bound s q u j o) as Hback.
  { intros q u j o Hq Hb'. destruct (H6 q u Hq) as (j' & o' & Hb); [rewrite Eu; apply not_elem_of_nil|].
    apply (bound_created e l ty p c s s') in Hb as Hb2; [|done|done|by apply (Hlive q u)]. by destruct (bound_fun _ _ _ _ _ _ _ Hb2 Hb') as [<- <-]. }
  assert (forall q, q <> 0 -> referrers 0 q s'.(textures) = referrers 0 q s.(textures)) as Hr.
  { intros q Hq. rewrite Et. unfold referrers. rewrite big_fresh by done. unfold refers at 1. cbn [t linked_agp fresh_texture set_surface_format set_yuv_shadow
      set_surface_id set_xfer set_sys_obj_type set_sys_obj_client_addr set_sys_obj zero_texture]. destruct (Z.eqb_spec 0 q); [congruence|]. by rewrite andb_false_r. }
  split; cbn [unbound unlinked unused mute].
  - rewrite Et. eapply dll_ext; [exact H1|]. intros q Hq. rewrite links_upd. by rewrite decide_False by (by intros ->).
  - by rewrite Es'.
  - by rewrite Et, lookup_upd, decide_False by done.
  - intros q. rewrite Et, lookup_upd, list_elem_of_singleton. destruct (decide (q = p)) as [->|Hq]; [split; eauto|].
    rewrite H4, El, elem_of_nil. tauto.
  - intros q u. rewrite Et, lookup_upd. destruct (decide (q = p)) as [->|Hq]; [done|]. apply H5.
  - intros q u. rewrite Et, lookup_upd. destruct (decide (q = p)) as [->|Hq]; [intros [= <-] _; eauto|]. intros Hu _.
    destruct (H6 q u Hu) as (j & o & Hb); [rewrite Eu; apply not_elem_of_nil|]. exists j, o. apply (bound_created e l ty p c s s'); try done. by apply (Hlive q u).
  - intros i h Hi Hh. split; [apply not_elem_of_nil|]. rewrite Et. assert (s'.(handles) = <[c.(cr_handle) := p]> s.(handles)) as Eh by (by rewrite Es').
    rewrite Eh in Hi. destruct (decide (i = c.(cr_handle))) as [->|Hic].
    + rewrite list_lookup_insert_eq in Hi by (by eapply lookup_lt_Some). simplify_eq. exists t, c.(cr_object), (fresh_object ty c.(cr_handle)).
      rewrite lookup_insert_eq. split; [done|]. split; [done|]. apply Nat2Z.id.
    + rewrite list_lookup_insert_ne in Hi by done. destruct (H7 i h Hi Hh) as (_ & u & j & o & Hu & Hb & Ei). exists u, j, o.
      destruct (Hlive h u Hu). rewrite lookup_insert_ne by done. split; [done|]. split; [|done]. by apply (bound_created e l ty p c s s').
  - intros q u. rewrite Et, lookup_upd. destruct (decide (q = p)) as [->|Hq]; [intros [= <-]; done|]. intros Hu Hru Hq0 Hl.
    destruct (H8 q u Hu Hru Hq0 Hl) as (_ & a & Ea & Ha). split; [apply not_elem_of_nil|]. exists a. destruct (Hlive _ _ Ea). by rewrite lookup_insert_ne.
  - intros q u j o. rewrite Et, lookup_upd. destruct (decide (q = p)) as [->|Hq].
    + intros [= <-] _ Hb. destruct (bound_fun _ _ _ _ _ _ _ Hb Hbp) as [-> ->]. rewrite <-Et, Hr by done. by rewrite (no_referrers e l s p).
    + intros Hu Ha Hb. destruct (Hlive q u Hu). rewrite <-Et, Hr by done. apply (H9 q u j o Hu Ha). by apply Hback.
  - intros q u. rewrite Et, lookup_upd. destruct (decide (q = p)) as [->|Hq].
    + intros [= <-] Ha Hx. change (is_agp t) with (ty =? TEX_TYPE_AGP) in Ha. by rewrite Ha in Hx.
    + intros Hu Ha Hx. destruct (Hlive q u Hu). rewrite <-Et, Hr by done. apply (H10 q u Hu Ha). destruct (Z.eqb_spec ty TEX_TYPE_AGP); [|done]. destruct Hty; congruence.
  - rewrite Es'. cbn. rewrite length_insert. split; [done|]. split; [done|]. intros E. by rewrite (T3 E).
  - by rewrite Es'.
  - by rewrite Es'.
Qed.
