(* ===== verification/SharedProofs.v ===== *)
(** Shared textures: the objects of the kernel and the surfaces of the device that they
    own, and that every operation runs without a wild access, keeps the invariant of
    the structure, and owns what its textures have. *)

From S2P Require Import Allocator.
From S2P Require Import Prelude IOKit Layout SvgaReg Svga3dReg AccelIds AccelBlit Accel AccelSpec ShaderCache Provider.
From S2P Require Import AccelGmr VertexArray Kernel Transfer Surface Dll SurfaceLogic SurfaceProofs Shared SharedInv.
From stdpp Require Import gmap gmultiset.
From stdpp Require Import list_relations list.

#[local] Open Scope Z_scope.

Local Abbreviation prog := (prog kernel).
Local Abbreviation world := (world kernel).

(** ** What an object owns *)

Definition base_refs (s : Shared) : list Z :=
  opt_ref id s.(m_handle_table) (opt_ref id s.(m_shared_lock) (opt_ref mp_ref s.(m_client_sys_objs_map) [])).
Definition refs_of (s : Shared) : list Z := big own s.(textures) ++ base_refs s.
Definition live_of (s : Shared) : list Z := big ids s.(textures).

(** The resources of a client of which a part is replaced. *)
Definition res_with (k : Z) (refs live : list Z) (ρ : res) : res :=
  mk_res (ρ.(r_n) + k) ρ.(r_named) (live ++ ρ.(r_live)) ρ.(r_masters) ρ.(r_gmrs) ρ.(r_streams) ρ.(r_blocks) (refs ++ ρ.(r_refs)) ρ.(r_prep) false [].

Lemma res_with_le k k' refs refs' live live' ρ : k <= k' -> refs ≡ₚ refs' -> live ≡ₚ live' -> res_le (res_with k refs live ρ) (res_with k' refs' live' ρ).
Proof. intros Hk Hr Hl. split; cbn; try done; [lia|by rewrite Hl|by rewrite Hr]. Qed.

Section owned.
Context (E : env).
Implicit Types (w : world) (nf : Z) (g : monitor) (ρ : res).

Definition owned k ρ s w g : Prop := owns E (res_with k (refs_of s) (live_of s) ρ) w g.

Lemma owned_mono k k' ρ s w g : owned k ρ s w g -> k <= k' -> owned k' ρ s w g.
Proof. intros H Hk. eapply owns_le; [|exact H]. by apply res_with_le. Qed.

(** The same resources under another state. *)
Lemma owned_same k ρ s s' w g : refs_of s ≡ₚ refs_of s' -> live_of s ≡ₚ live_of s' -> owned k ρ s w g -> owned k ρ s' w g.
Proof. intros Hr Hl H. eapply owns_le; [|exact H]. by apply res_with_le. Qed.

Lemma owned_shifted k ρ s s' w g : shifted s s' -> owned k ρ s w g -> owned k ρ s' w g.
Proof.
  intros [Es Hr]. apply owned_same; unfold refs_of, live_of.
  - rewrite (big_relinked own _ _ (fun _ _ => eq_refl) Hr). apply Permutation_app_head. rewrite Es. by destruct s.
  - by rewrite (big_relinked ids _ _ (fun _ _ => eq_refl) Hr).
Qed.

Lemma owned_tables k ρ s s' w g : same_heap s s' -> owned k ρ s w g -> owned k ρ s' w g.
Proof. intros Es. apply owned_same; rewrite Es; by destruct s. Qed.

(** What the rest of the object owns, without the texture at [p]. *)
Definition others p s : list Z := big own (delete p s.(textures)) ++ base_refs s.
Definition others_live p s : list Z := big ids (delete p s.(textures)).

Lemma refs_at p t s : s.(textures) !! p = Some t -> refs_of s ≡ₚ own p t ++ others p s.
Proof. intros H. unfold refs_of, others. by rewrite (big_delete own _ p t H), <-app_assoc. Qed.
Lemma live_at p t s : s.(textures) !! p = Some t -> live_of s ≡ₚ ids p t ++ others_live p s.
Proof. intros H. unfold live_of, others_live. by rewrite (big_delete ids _ p t H). Qed.
Lemma refs_upd p t s : refs_of (upd p t s) ≡ₚ own p t ++ others p s.
Proof. unfold refs_of, others. cbn [upd textures set_textures]. by rewrite (big_insert own _ p t), <-app_assoc. Qed.
Lemma live_upd p t s : live_of (upd p t s) ≡ₚ ids p t ++ others_live p s.
Proof. unfold live_of, others_live. cbn [upd textures set_textures]. by rewrite (big_insert ids _ p t). Qed.
Lemma upd_upd p t t' s : upd p t (upd p t' s) = upd p t s.
Proof. unfold upd. cbn. by rewrite insert_insert_eq. Qed.
Lemma lookup_at p t s : (upd p t s).(textures) !! p = Some t.
Proof. apply lookup_insert_eq. Qed.
Lemma lookup_away p q t s : q <> p -> (upd p t s).(textures) !! q = s.(textures) !! q.
Proof. intros H. cbn. by rewrite lookup_insert_ne. Qed.

Lemma owned_upd k ρ s p t t' w g : s.(textures) !! p = Some t -> own p t ≡ₚ own p t' -> ids p t ≡ₚ ids p t' ->
  owned k ρ s w g -> owned k ρ (upd p t' s) w g.
Proof. intros Ht Ho Hi. apply owned_same; [by rewrite (refs_at p t s Ht), refs_upd, Ho|by rewrite (live_at p t s Ht), live_upd, Hi]. Qed.

(** ** Giving back *)

(** One surface of a texture. *)
Lemma wp_drop_step k ρ refs live x f p t s (Q : post Shared) w nf g : s.(textures) !! p = Some t ->
  owns E (res_with k refs (valid_ids x ++ live) ρ) w g ->
  (forall w' g', owns E (res_with (k + 1) refs live ρ) w' g' -> Q (if isIdValid x then upd p (f t) s else s) w' nf g') ->
  wp (if isIdValid x then drop_surface x;; on_tx p f s else mret s) Q w nf g.
Proof.
  intros Ht Ho HQ. unfold valid_ids in Ho. destruct (isIdValid x).
  - apply wp_bind, wp_bind. eapply wp_destroySurface; [exact Ho|cbn; reflexivity|]. intros g1 Ho1. eapply wp_freeSurfaceID; [exact Ho1|cbn; reflexivity|].
    intros w2 Ho2 _ _. rewrite (on_tx_at p t) by done. apply wp_ret, HQ. eapply owns_le; [|exact Ho2]. split; cbn; try done. lia.
  - apply wp_ret, HQ. eapply owns_le; [|exact Ho]. apply res_with_le; [lia|done|done].
Qed.

Lemma wp_drop_map k ρ refs live m (Q : post unit) w nf g : owns E (res_with k (opt_ref mp_ref m refs) live ρ) w g ->
  (forall w', owns E (res_with k refs live ρ) w' g -> Q tt w' nf g) -> wp (release_map m) Q w nf g.
Proof.
  intros Ho HQ. eapply (wp_release_map _ _ _ (refs ++ ρ.(r_refs))); [exact Ho|cbn; by destruct m|]. intros w' Ho' _. apply HQ. exact Ho'.
Qed.

(** A texture that has nothing but its block. *)
Definition bare (t : TextureBuffer) : Prop :=
  t.(xfer).(md) = None /\ t.(client_map) = None /\ isIdValid t.(yuv_shadow) = false /\ isIdValid t.(surface_id) = false.

Lemma bare_own p t : bare t -> own p t = [p] /\ ids p t = [].
Proof. intros (E1 & E2 & E3 & E4). unfold own, ids, valid_ids. by rewrite E1, E2, E3, E4. Qed.

Definition finalized (t : TextureBuffer) : TextureBuffer :=
  let t := set_xfer (set_md None t.(xfer)) (set_client_map None t) in
  let t := if isIdValid t.(yuv_shadow) then set_yuv_shadow SVGA_ID_INVALID t else t in
  if isIdValid t.(surface_id) then set_surface_id SVGA_ID_INVALID t else t.

Lemma finalized_bare t : bare (finalized t) /\ same_links t (finalized t).
Proof.
  unfold finalized, bare, same_links. cbn [yuv_shadow set_xfer set_client_map surface_id xfer md set_md client_map sys_obj sys_obj_type linked_agp tx_next tx_prev].
  destruct (isIdValid (yuv_shadow t)) eqn:E1; destruct (isIdValid (surface_id t)) eqn:E2; cbn; rewrite ?E1, ?E2; cbn; rewrite ?invalid_id, ?E1, ?E2; done.
Qed.

Lemma wp_finalize k ρ p t s (Q : post Shared) w nf g : s.(textures) !! p = Some t -> owned k ρ s w g ->
  (forall w' g', owned (k + 2) ρ (upd p (finalized t) s) w' g' -> Q (upd p (finalized t) s) w' nf g') ->
  wp (finalize_texture true p s) Q w nf g.
Proof.
  intros Ht Ho HQ. unfold finalize_texture. rewrite (get_tx_at p t) by done. cbn [mbind prog_bind mret prog_ret]. apply wp_bind.
  apply (owns_le _ _ (res_with k (opt_ref mp_ref t.(client_map) (opt_ref md_ref t.(xfer).(md) (p :: others p s))) (valid_ids t.(yuv_shadow) ++ valid_ids t.(surface_id) ++ others_live p s) ρ)) in Ho.
  2: { apply res_with_le; [done| |by rewrite (live_at p t s Ht); unfold ids; rewrite <-app_assoc].
       rewrite (refs_at p t s Ht). unfold own. destruct (client_map t), (md (xfer t)); cbn; solve_Permutation. }
  eapply wp_drop_map; [exact Ho|]. intros w1 Ho1. rewrite (on_tx_at p t) by done. cbn [mbind prog_bind mret prog_ret]. apply wp_bind.
  eapply (wp_discard _ _ _ (p :: others p s ++ ρ.(r_refs))); [exact Ho1|cbn; by destruct (md (xfer t))|]. intros w2 Ho2. rewrite (on_tx_at p (set_client_map None t)) by apply lookup_at.
  cbn [mbind prog_bind mret prog_ret negb]. rewrite upd_upd. apply wp_bind. set (t1 := set_xfer _ _).
  eapply (wp_drop_step k ρ (p :: others p s) _ t.(yuv_shadow)); [apply lookup_at|exact Ho2|]. intros w3 g3 Ho3.
  eapply (wp_drop_step (k + 1) ρ (p :: others p s) _ t.(surface_id) _ p (if isIdValid (yuv_shadow t) then set_yuv_shadow SVGA_ID_INVALID t1 else t1)); [|exact Ho3|].
  { destruct (isIdValid (yuv_shadow t)); rewrite ?upd_upd; apply lookup_at. }
  intros w4 g4 Ho4. assert ((if isIdValid (surface_id t) then upd p (set_surface_id SVGA_ID_INVALID (if isIdValid (yuv_shadow t) then set_yuv_shadow SVGA_ID_INVALID t1 else t1))
    (if isIdValid (yuv_shadow t) then upd p (set_yuv_shadow SVGA_ID_INVALID t1) (upd p t1 s) else upd p t1 s)
    else if isIdValid (yuv_shadow t) then upd p (set_yuv_shadow SVGA_ID_INVALID t1) (upd p t1 s) else upd p t1 s) = upd p (finalized t) s) as ->.
  { unfold finalized. change (set_xfer (set_md None (xfer t)) (set_client_map None t)) with t1. change (yuv_shadow t1) with (yuv_shadow t).
    destruct (isIdValid (yuv_shadow t)); (change (surface_id (set_yuv_shadow SVGA_ID_INVALID t1)) with (surface_id t) || change (surface_id t1) with (surface_id t));
      destruct (isIdValid (surface_id t)); by rewrite ?upd_upd. }
  apply HQ. destruct (finalized_bare t) as [Hb _]. destruct (bare_own p _ Hb) as [B1 B2]. eapply owns_le; [|exact Ho4].
  apply res_with_le; [lia|by rewrite refs_upd, B1|by rewrite live_upd, B2].
Qed.

Lemma refs_del p s : refs_of (del p s) = others p s.
Proof. done. Qed.

Lemma wp_free_block k ρ p t s (Q : post Shared) w nf g : s.(textures) !! p = Some t -> bare t -> owned k ρ s w g ->
  (forall w', owned k ρ (del p s) w' g -> Q (del p s) w' nf g) -> wp (releaseVendorTextureBuffer p s) Q w nf g.
Proof.
  intros Ht Hb Ho HQ. destruct (bare_own p t Hb) as [B1 B2]. unfold releaseVendorTextureBuffer. apply wp_bind.
  eapply (wp_release _ _ (others p s ++ ρ.(r_refs))); [exact Ho|cbn; rewrite (refs_at p t s Ht), B1; done|]. intros w' Ho' _. apply wp_ret, HQ.
  eapply owns_le; [|exact Ho']. split; cbn; try done. by rewrite (live_at p t s Ht), B2.
Qed.
End owned.

(** ** Deleting *)

(** What the operations on textures leave as it is. *)
Record same_base (s s' : Shared) : Prop := {
  sb_table : s'.(m_handle_table) = s.(m_handle_table);
  sb_lock : s'.(m_shared_lock) = s.(m_shared_lock);
  sb_task : s'.(sh_owning_task) = s.(sh_owning_task);
}.
#[global] Instance same_base_preorder : PreOrder same_base.
Proof. split; [by intros s|]. intros s1 s2 s3 [] []. split; congruence. Qed.

Lemma shifted_base s s' : shifted s s' -> same_base s s'.
Proof. intros [E _]. rewrite E. by split. Qed.
Lemma same_heap_base s s' : same_heap s s' -> same_base s s'.
Proof. intros E. rewrite E. by split. Qed.

(** The other textures stay, but for their places in the list. *)
Definition others_stay (p : Z) (s s' : Shared) : Prop :=
  forall q u, q <> p -> s.(textures) !! q = Some u -> exists u', s'.(textures) !! q = Some u' /\ strip u' = strip u.

Section deleting.
Context (E : env).
Implicit Types (w : world) (nf : Z) (g : monitor) (ρ : res).

Lemma strip_same_links t t' t0 : strip t' = strip t -> same_links t' t0 -> is_ref t0 = is_ref t /\ t0.(linked_agp) = t.(linked_agp).
Proof.
  intros Es (F1 & F2 & F3 & _). split; [|by rewrite F3; apply (strip_field linked_agp _ _ Es)].
  transitivity (is_ref t'); [by apply is_ref_type|]. by apply (strip_field is_ref _ _ Es).
Qed.

(** A program that starts with a value. *)
Lemma ret_bind {A B : Type} (a : A) (f : A -> prog B) : mbind f (mret a) = f a.
Proof. done. Qed.

Definition deleted p e k ρ s (Q : post Shared) nf : Prop := forall l' s' w' g',
  shape (mk_gap [] [] (if decide (e.(unused) = p) then 0 else e.(unused)) e.(mute)) l' s' -> same_base s s' -> others_stay p s s' ->
  s'.(textures) !! p = None -> owned E k ρ s' w' g' -> Q s' w' nf g'.

Lemma wp_delete_end k ρ e l s p t (Q : post Shared) w nf g : shape e l s -> e.(unbound) = [] -> e.(unlinked) = [] -> s.(textures) !! p = Some t ->
  (is_ref t = true -> t.(linked_agp) = 0) -> (is_agp t = true -> referrers e.(mute) p s.(textures) = 0) -> owned E k ρ s w g ->
  deleted p e (k + 2) ρ s Q nf ->
  wp (s ← (s ← forget_texture p s; unlink_texture p s); s ← finalize_texture true p s; releaseVendorTextureBuffer p s) Q w nf g.
Proof.
  intros Hs Eu El Ht Hz Hr Ho HQ.
  assert (p ∈ l) as Hp. { destruct (proj1 (sp_linked _ _ _ Hs p)) as [|Hx]; [eauto|done|]. rewrite El in Hx. by apply elem_of_nil in Hx. }
  destruct (forget_ok e l s p t Hs Eu Ht Hr) as (s1 & E1 & Hh1 & Hs1). rewrite E1. rewrite ret_bind.
  apply list_elem_of_split in Hp as (l1 & l2 & ->). destruct (unlink_ok _ _ _ s1 p Hs1 El) as (s2 & E2 & Hf2 & Hs2). rewrite E2. rewrite ret_bind.
  assert (s1.(textures) = s.(textures)) as Et1 by (by rewrite Hh1).
  destruct (shifted_lookup s1 s2 p t Hf2) as (t2 & Ht2 & Est); [by rewrite Et1|]. apply wp_bind.
  eapply (wp_finalize E k ρ p t2); [done|by eapply owned_shifted, owned_tables|]. intros w3 g3 Ho3. destruct (finalized_bare t2) as [Hb Hsl].
  eapply (wp_free_block E _ ρ p (finalized t2)); [apply lookup_at|done|exact Ho3|]. intros w4 Ho4.
  destruct (strip_same_links t t2 (finalized t2) Est Hsl) as [F1 F2].
  pose proof (sp_list _ _ _ Hs) as (Hn & _). apply NoDup_app in Hn as (_ & Hd & [Hpn _]%NoDup_cons).
  assert (p ∉ l1 ++ l2) as Hpl. { rewrite elem_of_app. intros [Hx|Hx]; [apply (Hd p Hx); by left|done]. }
  apply (HQ (l1 ++ l2)); [| | | |exact Ho4].
  - eapply (release_ok (mk_gap [p] [p] e.(unused) e.(mute)) _ (upd p (finalized t2) s2) p (finalized t2)); [eapply shape_upd; [exact Hs2|exact Ht2|done|done]|done|done|done|apply lookup_at|].
    intros Hrt. rewrite F2. apply Hz. by rewrite <-F1.
  - etransitivity; [by apply same_heap_base|]. etransitivity; [by apply shifted_base|]. by split.
  - intros q u Hq Hu. destruct (shifted_lookup s1 s2 q u Hf2) as (u' & Hu' & Esu); [by rewrite Et1|]. exists u'. split; [|done].
    cbn. rewrite lookup_delete_ne, lookup_insert_ne by done. done.
  - cbn. apply lookup_delete_eq.
Qed.

(** A texture without a reference. *)
Lemma wp_delete_plain fuel k ρ e l s p t (Q : post Shared) w nf g : shape e l s -> e.(unbound) = [] -> e.(unlinked) = [] -> s.(textures) !! p = Some t ->
  (is_ref t = true -> t.(linked_agp) = 0) -> (is_agp t = true -> referrers e.(mute) p s.(textures) = 0) -> owned E k ρ s w g ->
  deleted p e (k + 2) ρ s Q nf ->
  wp (delete_texture_internal (S fuel) true true p s) Q w nf g.
Proof.
  intros Hs Eu El Ht Hz Hr Ho HQ. cbn [delete_texture_internal]. assert (p <> 0) as Hp0%Z.eqb_neq by (intros ->; by rewrite (sp_null _ _ _ Hs) in Ht).
  rewrite Hp0, (get_tx_at p t) by done. rewrite ret_bind. cbn [orb]. fold (is_ref t).
  assert ((if is_ref t then if t.(linked_agp) =? 0 then mret s
    else l0 ← get_tx t.(linked_agp) s;
      s0 ← match l0.(sys_obj) with
           | None => delete_texture_internal fuel true true t.(linked_agp) s
           | Some j => o ← deref (s.(sys_objs) !! j);
               (if o.(refcount) =? 1 then delete_texture_internal fuel true true t.(linked_agp) (put_so j (set_refcount (s32 (o.(refcount) - 1)) o) s)
                else mret (put_so j (set_refcount (s32 (o.(refcount) - 1)) o) s))
           end; on_tx p (set_linked_agp 0) s0 else mret s) = mret s) as Hskip.
  { destruct (is_ref t); [|done]. by rewrite (Hz eq_refl). }
  rewrite Hskip, ret_bind. apply (wp_delete_end k ρ e l s p t); done.
Qed.

(** A texture with a reference, which may be the last one. *)
Lemma wp_delete_ref fuel k ρ l s p t (Q : post Shared) w nf g : shape no_gap l s -> s.(textures) !! p = Some t ->
  is_ref t = true -> t.(linked_agp) <> 0 -> owned E k ρ s w g ->
  (forall l' s' w' g', shape no_gap l' s' -> same_base s s' -> s'.(textures) !! p = None -> owned E (k + 4) ρ s' w' g' -> Q s' w' nf g') ->
  wp (delete_texture_internal (S (S fuel)) true true p s) Q w nf g.
Proof.
  intros Hs Ht Hr Hl0 Ho HQ. remember (S fuel) as f eqn:Ef. cbn [delete_texture_internal]. assert (p <> 0) as Hp0 by (intros ->; by rewrite (sp_null _ _ _ Hs) in Ht).
  apply Z.eqb_neq in Hp0 as Hp0b. rewrite Hp0b, (get_tx_at p t) by done. rewrite ret_bind. cbn [orb]. fold (is_ref t). rewrite Hr.
  apply Z.eqb_neq in Hl0 as Hl0b. rewrite Hl0b. destruct (sp_link _ _ _ Hs p t Ht Hr Hp0 Hl0) as (_ & a & Ha & Hagp). set (q := t.(linked_agp)) in *.
  destruct (sp_bound _ _ _ Hs q a Ha) as (j & o & Hb); [apply not_elem_of_nil|]. rewrite (get_tx_at q a) by done. rewrite ret_bind.
  pose proof Hb as [B1 B2 _ _ _ _]. rewrite B1, B2. cbn [deref]. rewrite ret_bind.
  destruct (shape_drop_ref no_gap l s p t q a j o Hs eq_refl eq_refl eq_refl Ht Hr eq_refl Ha Hagp Hb) as [Hcnt Hs1].
  set (s1 := put_so j _ s) in *. assert (owned E k ρ s1 w g) as Ho1. { eapply owned_tables; [|exact Ho]. by destruct s. }
  assert (same_base s s1) as Hb1 by (by split). assert (p <> q) as Hpq. { intros Epq. rewrite <-Epq in Ha. assert (a = t) as -> by congruence. by rewrite (agp_not_ref t Hagp) in Hr. }
  assert (forall l2 s2 w2 g2, shape (mk_gap [] [] 0 p) l2 s2 -> same_base s s2 -> (exists t2, s2.(textures) !! p = Some t2 /\ strip t2 = strip t) ->
    owned E (k + 2) ρ s2 w2 g2 ->
    wp (on_tx p (set_linked_agp 0) s2) (fun s => wp (s ← (s ← forget_texture p s; unlink_texture p s); s ← finalize_texture true p s; releaseVendorTextureBuffer p s) Q) w2 nf g2) as Hrest.
  { intros l2 s2 w2 g2 Hs2 Hb2 (t2 & Ht2 & Es2) Ho2. rewrite (on_tx_at p t2) by done. apply wp_ret.
    pose proof (shape_unmute _ _ _ p t2 Hs2 eq_refl Ht2) as Hs3. cbn [unbound unlinked unused] in Hs3.
    eapply (wp_delete_end (k + 2) ρ _ l2 _ p (set_linked_agp 0 t2)); [exact Hs3|done|done|apply lookup_at|done| |by eapply owned_upd|].
    - change (is_agp (set_linked_agp 0 t2)) with (is_agp t2). rewrite (strip_field is_agp _ _ Es2) by done. intros Hx. by rewrite (agp_not_ref t Hx) in Hr.
    - intros l' s' w' g' Hs' Hb' _ Hn' Ho'. apply (HQ l'); [|etransitivity; [exact Hb2|]; etransitivity; [|exact Hb']; by split|done|eapply owned_mono; [exact Ho'|lia]].
      cbn [unused mute] in Hs'. destruct (decide (0 = p)); done. }
  cbv zeta. destruct (o.(refcount) =? 1) eqn:E1.
  - apply wp_bind, wp_bind. subst f. assert (s1.(textures) !! q = Some a) as Ha1 by done.
    eapply (wp_delete_plain fuel k ρ _ l s1 q a); [exact Hs1|done|done|done| | |exact Ho1|].
    + intros Hra. by rewrite (agp_not_ref a Hagp) in Hra.
    + intros _. cbn [mute]. pose proof (referrers_loud q s.(textures) p t Ht (sp_null _ _ _ Hs) Hr eq_refl) as Hl.
      pose proof (sp_count _ _ _ Hs q a j o Ha Hagp Hb) as Hc. cbn [mute no_gap] in Hc. change (s1.(textures)) with s.(textures). lia.
    + intros l2 s2 w2 g2 Hs2 Hb2 Hst _ Ho2. cbn [unused mute] in Hs2. rewrite decide_True in Hs2 by done. apply (Hrest l2); [done|by etransitivity| |done].
      by apply Hst.
  - rewrite ret_bind. apply wp_bind, (Hrest l); [done|done|by exists t|eapply owned_mono; [exact Ho1|lia]].
Qed.
End deleting.

Section deleting_more.
Context (E : env).
Implicit Types (w : world) (nf : Z) (g : monitor) (ρ : res).

Lemma delete_texture_fuel p t s : s.(textures) !! p = Some t -> s.(sh_provider) = true ->
  exists f, delete_texture p s = delete_texture_internal (S (S f)) true true p s.
Proof.
  intros Ht Hp. unfold delete_texture. rewrite Hp. exists (size s.(textures) - 1)%nat. f_equal.
  assert (size s.(textures) <> 0%nat) by (intros Hz%map_size_empty_inv; by rewrite Hz, lookup_empty in Ht). lia.
Qed.

Lemma wp_delete_texture k ρ l s p t (Q : post Shared) w nf g : shape no_gap l s -> s.(textures) !! p = Some t -> is_agp t = false -> owned E k ρ s w g ->
  (forall l' s' w' g', shape no_gap l' s' -> same_base s s' -> s'.(textures) !! p = None -> owned E (k + 4) ρ s' w' g' -> Q s' w' nf g') ->
  wp (delete_texture p s) Q w nf g.
Proof.
  intros Hs Ht Ha Ho HQ. destruct (delete_texture_fuel p t s Ht (sp_provider _ _ _ Hs)) as [f ->].
  assert ((is_ref t = true /\ t.(linked_agp) <> 0) \/ (is_ref t = true -> t.(linked_agp) = 0)) as [[Hr Hl]|Hz].
  { destruct (is_ref t); [|by right]. destruct (decide (t.(linked_agp) = 0)); [by right|by left]. }
  - by apply (wp_delete_ref E f k ρ l s p t).
  - eapply (wp_delete_plain E _ k ρ no_gap l s p t); [done|done|done|done|done|by rewrite Ha|done|]. intros l' s' w' g' Hs' Hb' _ Hn Ho'.
    apply (HQ l'); [|done|done|eapply owned_mono; [exact Ho'|lia]]. cbn [no_gap unused mute] in Hs'. by destruct (decide (0 = p)).
Qed.

Lemma shape_used u n x m l s : shape (mk_gap u n x m) l s -> (forall t, s.(textures) !! x = Some t -> is_agp t = true -> 1 <= referrers m x s.(textures)) ->
  shape (mk_gap u n 0 m) l s.
Proof.
  intros [H1 H2 H3 H4 H5 H6 H7 H8 H9 H10 H11 H12 H13] Hx. split; try done. cbn in *. intros p t Ht Ha _. destruct (decide (p = x)) as [->|Hp]; [by apply (Hx t)|by apply (H10 p t)].
Qed.

(** A texture over memory of the client goes if nothing refers to it. *)
Lemma wp_drop_unused k ρ l s x p1 a (Q : post Shared) w nf g : shape (mk_gap [] [] x 0) l s -> x = p1 \/ x = 0 -> s.(textures) !! p1 = Some a -> is_agp a = true ->
  owned E k ρ s w g -> (forall l' s' w' g', shape no_gap l' s' -> same_base s s' -> owned E (k + 2) ρ s' w' g' -> Q s' w' nf g') ->
  wp (drop_unused p1 s) Q w nf g.
Proof.
  intros Hs Hx Ha Hagp Ho HQ. unfold drop_unused, get_refcount. assert (p1 <> 0) as Hp0 by (intros ->; by rewrite (sp_null _ _ _ Hs) in Ha).
  apply Z.eqb_neq in Hp0 as Hb0. rewrite Hb0, (get_tx_at p1 a) by done. rewrite ret_bind. destruct (sp_bound _ _ _ Hs p1 a Ha) as (j & o & Hb); [apply not_elem_of_nil|].
  rewrite (get_so_at p1 a j o s Hb), !ret_bind. pose proof (sp_count _ _ _ Hs p1 a j o Ha Hagp Hb) as Hc. cbn [mute] in Hc. destruct (Z.eqb_spec o.(refcount) 0) as [E0|E0].
  - destruct (delete_texture_fuel p1 a s Ha (sp_provider _ _ _ Hs)) as [f ->].
    eapply (wp_delete_plain E _ k ρ _ l s p1 a); [exact Hs|done|done|done| |cbn [mute]; lia|done|].
    { intros Hr. by rewrite (agp_not_ref a Hagp) in Hr. }
    intros l' s' w' g' Hs' Hb' _ _ Ho'. apply (HQ l'); [|done|done]. cbn [unused mute] in Hs'. destruct (decide (x = p1)); [done|]. destruct Hx as [->| ->]; done.
  - apply wp_ret, (HQ l); [|done|eapply owned_mono; [exact Ho|lia]]. eapply shape_used; [exact Hs|]. intros t Ht _. pose proof (referrers_nonneg 0 x s.(textures)).
    destruct Hx as [->| ->]; [lia|]. by rewrite (sp_null _ _ _ Hs) in Ht.
Qed.

(** ** Making *)

Lemma wp_IOMalloc ρ (Q : post (option Z)) w nf g : owns E ρ w g ->
  (forall o w', owns E (set_r_refs (opt_ref id o ρ.(r_refs)) ρ) w' g -> (forall x, o = Some x -> x <> 0) -> Q o w' nf g) -> wp IOMalloc Q w nf g.
Proof.
  intros Ho HQ. unfold IOMalloc. apply wp_bind. eapply wp_new_object; [exact Ho|]. intros [x|] w1 Ho1 _ _; [|by apply wp_ret, HQ].
  destruct (Z.eqb_spec x 0) as [->|Hx]; [|apply wp_ret, HQ; [done|]; congruence].
  apply wp_bind. eapply wp_release; [exact Ho1|cbn; reflexivity|]. intros w2 Ho2 _. apply wp_ret, HQ; [|done]. exact Ho2.
Qed.

Lemma fresh_bare ty j addr : bare (fresh_texture ty j addr).
Proof. repeat split. Qed.

Lemma list_insert_back {A} (l : list A) i x y : l !! i = Some y -> <[i := y]> (<[i := x]> l) = l.
Proof. intros H. by rewrite list_insert_insert_eq, list_insert_id. Qed.

Lemma alloc_handle_cases p s : p <> 0 -> s.(m_num_handles) = Z.of_nat (length s.(handles)) ->
  alloc_buf_handle p s = None \/
  exists i, s.(handles) !! i = Some 0 /\ alloc_buf_handle p s = Some (Z.of_nat i, set_handles (<[i := p]> s.(handles)) s).
Proof.
  intros Hp En. unfold alloc_buf_handle. apply Z.eqb_neq in Hp. rewrite Hp, En, Nat2Z.id, take_ge by done.
  destruct (list_find _ _) as [[i h]|] eqn:Ef; [|by left]. right. apply list_find_Some in Ef as (H1 & H2 & _). subst. exists i. done.
Qed.
End deleting_more.

Section making.
Context (E : env).
Implicit Types (w : world) (nf : Z) (g : monitor) (ρ : res).

(** The search for a system object: it fails, or marks one that was free. *)
Lemma take_cases s m : s.(m_client_sys_objs_map) = Some m ->
  take_sys_obj s = mret (kIOReturnNoResources, None, s) \/
  exists i a o, s.(sys_objs) !! i = Some o /\ o.(in_use) = 0 /\
    take_sys_obj s = mret (kIOReturnSuccess, Some (i, a), put_so i (set_in_use 1 zero_object) s).
Proof.
  intros Em. unfold take_sys_obj. destruct (list_find _ _) as [[i o]|] eqn:Ef; [|by left]. apply list_find_Some in Ef as (H1 & H2 & _).
  right. exists i. rewrite Em. eexists _, o. split; [done|]. split; [done|]. reflexivity.
Qed.

(** After [alloc_client_shared]: nothing has changed, or an object was taken, perhaps from new memory. *)
Lemma wp_alloc_client k ρ refs live s (Q : post (IOReturn * option (nat * Z) * Shared)) w nf g :
  owns E (res_with k (refs ++ base_refs s) live ρ) w g -> s.(m_client_sys_objs_map) = None \/ is_Some s.(m_client_sys_objs_map) ->
  (forall rc w', rc <> kIOReturnSuccess -> owns E (res_with k (refs ++ base_refs s) live ρ) w' g -> Q (rc, None, s) w' nf g) ->
  (forall m objs i a o s' w', (s.(m_client_sys_objs_map) = Some m /\ objs = s.(sys_objs)) \/ s.(m_client_sys_objs_map) = None ->
     objs !! i = Some o -> o.(in_use) = 0 -> s' = set_sys_objs (<[i := set_in_use 1 zero_object]> objs) (set_m_client_sys_objs_map (Some m) s) ->
     owns E (res_with k (refs ++ base_refs s') live ρ) w' g -> Q (kIOReturnSuccess, Some (i, a), s') w' nf g) ->
  wp (alloc_client_shared s) Q w nf g.
Proof.
  intros Ho Hm Hno Hyes. unfold alloc_client_shared. destruct (s.(m_client_sys_objs_map)) as [m|] eqn:Em.
  - destruct (take_cases s m Em) as [->|(i & a & o & H1 & H2 & ->)]; apply wp_ret; [by apply Hno|].
    apply (Hyes m s.(sys_objs) i a o); try done; [by left|]. destruct s. cbn in *. by subst.
  - apply wp_bind. eapply wp_new_descriptor; [exact Ho|]. intros [d|] w1 Ho1 _ _; [|by apply wp_ret, Hno].
    apply wp_bind. eapply wp_createMapping; [exact Ho1|cbn; by left|]. intros [m|] w2 Ho2 _.
    + apply wp_bind. eapply wp_release; [exact Ho2|cbn; apply perm_swap|]. intros w3 Ho3 _.
      set (s1 := set_sys_objs _ _). assert (s1.(m_client_sys_objs_map) = Some m) as Em1 by done.
      assert (list_find (fun o => o.(in_use) = 0) s1.(sys_objs) = Some (0%nat, zero_object)) as Hf by done.
      unfold take_sys_obj. rewrite Hf, Em1. apply wp_ret. apply (Hyes m (replicate num_sys_objs zero_object) 0%nat _ zero_object); try done; [by right|].
      eapply owns_le; [|exact Ho3]. split; cbn; try done. unfold base_refs. cbn. rewrite Em. destruct (m_handle_table s), (m_shared_lock s); cbn; solve_Permutation.
    + apply wp_bind. eapply wp_release; [exact Ho2|cbn; reflexivity|]. intros w3 Ho3 _. apply wp_ret, Hno; [done|]. eapply owns_le; [|exact Ho3]. done.
Qed.

Lemma refs_fresh_nodup k ρ x s w g : owns E (set_r_refs (x :: r_refs (res_with k (refs_of s) (live_of s) ρ)) (res_with k (refs_of s) (live_of s) ρ)) w g ->
  s.(textures) !! x = None.
Proof.
  intros [_ _ [_ Hn _ _ _ _] _ _ _]. cbn in Hn. apply NoDup_cons in Hn as [Hx _]. destruct (s.(textures) !! x) as [t|] eqn:Ex; [|done]. destruct Hx.
  rewrite (refs_at x t s Ex). unfold own. apply elem_of_app. left. by left.
Qed.

Lemma refs_created ty p c s s' : created ty p c s s' -> refs_of s' ≡ₚ p :: big own s.(textures) ++ base_refs s'.
Proof. intros [[_ C2] _ _ _ Es]. unfold refs_of. rewrite Es at 1. cbn [textures set_textures]. by rewrite big_fresh. Qed.
Lemma live_created ty p c s s' : created ty p c s s' -> live_of s' ≡ₚ live_of s.
Proof. intros [[_ C2] _ _ _ Es]. unfold live_of. rewrite Es. cbn [textures set_textures]. by rewrite big_fresh. Qed.

Lemma wp_common_init k ρ ty e l s (Q : post (Z * Shared)) w nf g : shape e l s -> owned E k ρ s w g ->
  (forall w', owned E k ρ s w' g -> Q (0, s) w' nf g) ->
  (forall p c s' w', created ty p c s s' -> owned E k ρ s' w' g -> Q (p, s') w' nf g) ->
  wp (common_texture_init ty s) Q w nf g.
Proof.
  intros Hs Ho Hno Hyes. pose proof (sp_table _ _ _ Hs) as (T1 & _ & T3). unfold common_texture_init, allocVendorTextureBuffer. apply wp_bind, wp_bind.
  eapply wp_IOMalloc; [exact Ho|]. intros [p|] w1 Ho1 Hp; [|apply wp_ret, wp_ret, Hno; exact Ho1]. apply wp_ret. specialize (Hp p eq_refl).
  pose proof (refs_fresh_nodup k ρ p s w1 g Ho1) as Hfr. set (s1 := set_textures (<[p:=zero_texture]> s.(textures)) s).
  assert (forall s2 w2, s2.(textures) = <[p := zero_texture]> s.(textures) -> set_textures s.(textures) s2 = s ->
    owns E (res_with k (p :: refs_of s) (live_of s) ρ) w2 g -> wp (s ← releaseVendorTextureBuffer p s2; mret (0, s)) Q w2 nf g) as Hundo.
  { intros s2 w2 Et Es Ho2. apply wp_bind. unfold releaseVendorTextureBuffer. apply wp_bind. eapply wp_release; [exact Ho2|cbn; reflexivity|]. intros w3 Ho3 _.
    apply wp_ret, wp_ret. rewrite Et, delete_insert_id by done. rewrite Es. apply Hno. exact Ho3. }
  destruct (alloc_handle_cases p s1 Hp T1) as [->|(i & Hi & ->)]; [apply Hundo; [done|by destruct s|exact Ho1]|].
  apply wp_bind. eapply (wp_alloc_client k ρ (p :: big own s.(textures)) (live_of s)); [exact Ho1|destruct (m_client_sys_objs_map _); [right; eauto|by left]| |].
  - intros rc w2 Hrc Ho2. rewrite bool_decide_eq_false_2 by done. cbn [negb].
    assert (free_buf_handle p (Z.of_nat i) (set_handles (<[i:=p]> (handles s1)) s1) = s1) as ->.
    { unfold free_buf_handle. pose proof (lookup_lt_Some _ _ _ Hi) as Hlt. cbn [handles set_handles m_handle_table m_num_handles].
      rewrite (bool_decide_eq_false_2 (_ = None)). 2: { intros Ex. change (handles s1) with (handles s) in Hi. rewrite (T3 Ex) in Hi. done. }
      rewrite Nat2Z.id, list_lookup_insert_eq by done. rewrite (bool_decide_eq_true_2 (_ = Some p)) by done.
      change (m_num_handles s1) with (m_num_handles s). change (handles s1) with (handles s) in *. destruct (Z.leb_spec (m_num_handles s) (Z.of_nat i)); [lia|]. cbn [orb negb].
      unfold set_handles. cbn. rewrite list_insert_back by done. by destruct s. }
    apply Hundo; [done|by destruct s|exact Ho2].
  - intros m objs j a o s2 w2 Hobj Hj Hu Es2 Ho2. rewrite bool_decide_eq_true_2 by done. cbn [negb deref]. rewrite ret_bind.
    assert (s2.(sys_objs) !! j = Some (set_in_use 1 zero_object)) as Hj2. { rewrite Es2. cbn. by rewrite list_lookup_insert_eq by (by eapply lookup_lt_Some). }
    rewrite Hj2. cbn [deref]. rewrite ret_bind. rewrite (on_tx_at p zero_texture). 2: { rewrite Es2. cbn. apply lookup_insert_eq. }
    rewrite ret_bind. apply wp_ret. set (s3 := upd p _ _). assert (created ty p (mk_creation i j a m objs) s s3) as Hc.
    { split; cbn [cr_handle cr_object cr_addr cr_map cr_objs]; try done; [by exists o|]. unfold s3. rewrite Es2. unfold upd, put_so. cbn.
      rewrite insert_insert_eq, list_insert_insert_eq. unfold set_textures, set_sys_objs, set_m_client_sys_objs_map, set_handles. cbn. done. }
    apply (Hyes p (mk_creation i j a m objs)); [done|]. eapply owns_le; [|exact Ho2]. apply res_with_le; [done| |by rewrite (live_created _ _ _ _ _ Hc)].
    rewrite (refs_created _ _ _ _ _ Hc). unfold s3. rewrite Es2. done.
Qed.
End making.

Section agp.
Context (E : env).
Implicit Types (w : world) (nf : Z) (g : monitor) (ρ : res).

(** An object that is not yet in the structure. *)
Lemma owned_ref k ρ x s w g : owns E (set_r_refs (x :: r_refs (res_with k (refs_of s) (live_of s) ρ)) (res_with k (refs_of s) (live_of s) ρ)) w g ->
  owned E k (add_ref x ρ) s w g.
Proof. apply owns_le. split; cbn; try done. solve_Permutation. Qed.

Lemma wp_release_extra k ρ x s (Q : post unit) w nf g : owned E k (add_ref x ρ) s w g -> (forall w', owned E k ρ s w' g -> Q tt w' nf g) -> wp (release x) Q w nf g.
Proof.
  intros Ho HQ. eapply (wp_release _ _ (refs_of s ++ ρ.(r_refs))); [exact Ho|cbn; solve_Permutation|]. intros w' Ho' _. apply HQ. exact Ho'.
Qed.

(** A texture takes over an object. *)
Lemma owned_take k ρ x s p t t' w g : s.(textures) !! p = Some t -> own p t' ≡ₚ x :: own p t -> ids p t' ≡ₚ ids p t ->
  owned E k (add_ref x ρ) s w g -> owned E k ρ (upd p t' s) w g.
Proof.
  intros Ht Ho Hi. apply owns_le. split; cbn; try done; [by rewrite (live_at p t s Ht), live_upd, Hi|].
  rewrite (refs_at p t s Ht), refs_upd, Ho. solve_Permutation.
Qed.

Definition agp_made k ρ s (Q : post (Z * Z * Shared)) nf : Prop := forall p addr x l' s' t w' g',
  shape (mk_gap [] [] x 0) l' s' -> x = p \/ x = 0 -> p <> 0 -> s'.(textures) !! p = Some t -> is_agp t = true -> same_base s s' -> owned E k ρ s' w' g' ->
  Q (p, addr, s') w' nf g'.
Definition agp_failed k ρ s (Q : post (Z * Z * Shared)) nf : Prop := forall l' s' w' g',
  shape no_gap l' s' -> same_base s s' -> owned E k ρ s' w' g' -> Q (0, 0, s') w' nf g'.

Lemma created_base ty p c s s' : created ty p c s s' -> same_base s s'.
Proof. intros [_ _ _ _ ->]. by split. Qed.
(** What is known of a new texture. *)
Record new_made (ty : Z) (t : TextureBuffer) : Prop := {
  nm_type : t.(sys_obj_type) = ty;
  nm_faces : t.(num_faces) = 0;
  nm_mipmaps : t.(min_mipmap) = 0 /\ t.(num_mipmaps) = 0;
  nm_link : t.(linked_agp) = 0;
  nm_bare : bare t;
  nm_idle : isIdValid t.(xfer).(gmr_id) = false;
}.
Lemma created_at ty p c s s' : created ty p c s s' -> exists t, s'.(textures) !! p = Some t /\ new_made ty t.
Proof.
  intros [_ _ _ _ ->]. exists (fresh_texture ty c.(cr_object) c.(cr_addr)). split; [apply lookup_insert_eq|].
  unfold fresh_texture. split; [reflexivity|reflexivity|split; reflexivity|reflexivity|apply fresh_bare|reflexivity].
Qed.

Lemma wp_adopt_agp k ρ l s d offset down (Q : post (Z * Z * Shared)) w nf g : shape no_gap l s -> owned E k (add_ref d.(md_ref) ρ) s w g ->
  agp_failed k ρ s Q nf -> agp_made k ρ s Q nf -> wp (adopt_agp d offset down s) Q w nf g.
Proof.
  intros Hs Ho Hno Hyes. unfold adopt_agp. apply wp_bind. eapply (wp_common_init E k _ TEX_TYPE_AGP no_gap l); [done|exact Ho| |].
  - intros w1 Ho1. rewrite Z.eqb_refl. apply wp_bind. eapply wp_release_extra; [exact Ho1|]. intros w2 Ho2. apply wp_ret. by apply (Hno l).
  - intros p c s1 w1 Hc Ho1. pose proof Hc as [[Hp _] _ _ _ _]. apply Z.eqb_neq in Hp as Hpb. rewrite Hpb.
    destruct (shape_created no_gap l TEX_TYPE_AGP p c s s1 Hs eq_refl eq_refl eq_refl Hc) as [Hpl Hs1]; [by right|]. cbn [no_gap unused] in Hs1.
    destruct (created_at _ _ _ _ _ Hc) as (t & Ht & [N1 N2 [N3 N4] N5 N6 N7]). rewrite (on_tx_at p t) by done. rewrite ret_bind. set (t1 := set_mem_changed 0 _).
    assert (same_links t t1) as Hsl by (unfold same_links; split_and!; reflexivity). assert (geometry t1) as Hg.
    { split; cbn; rewrite ?N2, ?N3, ?N4; [lia|lia|by left|done|intros _; eauto|intros _; apply N6]. }
    destruct (link_ok _ l (upd p t1 s1) p (shape_upd _ _ _ p t t1 Hs1 Ht Hsl (fun Hx => False_ind _ (Hpl Hx)))) as (s2 & E2 & Hf2 & Hs2); [done|done|intros u; rewrite lookup_at; by intros [= <-]|].
    rewrite E2, ret_bind. destruct (shifted_lookup _ s2 p t1 Hf2) as (t2 & Ht2 & Est); [apply lookup_at|]. rewrite (get_tx_at p t2) by done. rewrite ret_bind. apply wp_ret.
    apply (Hyes p _ p (p :: l) s2 t2); [exact Hs2|by left|done|done| | |].
    + rewrite (strip_field is_agp _ _ Est) by done. unfold is_agp. cbn. by rewrite N1.
    + etransitivity; [by eapply created_base|]. etransitivity; [|by apply shifted_base]. by split.
    + eapply owned_shifted; [exact Hf2|]. eapply owned_take; [exact Ht| | |exact Ho1]; [|done]. unfold own. cbn. destruct N6 as (-> & -> & _). cbn. solve_Permutation.
Qed.

Lemma list_fuel e l s : shape e l s -> (length l <= size s.(textures))%nat.
Proof.
  intros Hs. rewrite <-length_map_to_list, <-(length_fmap fst). apply submseteq_length, NoDup_submseteq; [apply (sp_list _ _ _ Hs)|].
  intros p Hp. destruct (proj2 (sp_linked _ _ _ Hs p)) as [t Ht]; [by left|]. apply list_elem_of_fmap. exists (p, t). by rewrite elem_of_map_to_list.
Qed.

Lemma wp_find_agp offset down up : forall fuel l1 l2 k ρ s (Q : post (search * Shared)) w nf g, shape no_gap (l1 ++ l2) s -> (length l2 < fuel)%nat -> owned E k ρ s w g ->
  (forall s' w', shape no_gap (l1 ++ l2) s' -> same_base s s' -> owned E k ρ s' w' g -> Q (NotFound, s') w' nf g) ->
  (forall p t w', p ∈ l1 ++ l2 -> s.(textures) !! p = Some t -> is_agp t = true -> owned E k ρ s w' g -> Q (Found p, s) w' nf g) ->
  (forall d s' w', shape no_gap (l1 ++ l2) s' -> same_base s s' -> owned E k (add_ref d.(md_ref) ρ) s' w' g -> Q (Remade d, s') w' nf g) ->
  wp (find_agp fuel offset down up (first 0 l2) s) Q w nf g.
Proof.
  intros fuel. induction fuel as [|fuel IH]; intros l1 l2 k ρ s Q w nf g Hs Hlen Ho H1 H2 H3; [lia|]. cbn [find_agp].
  destruct l2 as [|p l2]; [by apply wp_ret, H1|]. change (first 0 (p :: l2)) with p.
  assert (p ∈ l1 ++ p :: l2) as Hp by (apply elem_of_app; right; by left). destruct (proj2 (sp_linked _ _ _ Hs p)) as [t Ht]; [by left|].
  assert (p <> 0) as Hp0%Z.eqb_neq by (intros ->; by rewrite (sp_null _ _ _ Hs) in Ht). rewrite Hp0, (get_tx_at p t) by done. rewrite ret_bind.
  destruct (same_memory offset down up t) eqn:Esm; cbn [negb].
  - assert (is_agp t = true) as Hagp. { unfold same_memory in Esm. unfold is_agp. by destruct (sys_obj_type t =? TEX_TYPE_AGP). }
    destruct (sp_geom _ _ _ Hs p t Ht Hp) as [_ _ _ _ Gm _]. destruct (Gm Hagp) as [d Ed]. rewrite Ed. cbn [deref]. rewrite ret_bind. apply wp_bind, wp_gets.
    rewrite (live_ref E _ _ _ d.(md_ref) Ho). 2: { cbn. rewrite (refs_at p t s Ht). unfold own. rewrite Ed. cbn. right. by left. }
    cbn [negb]. apply wp_bind. eapply wp_answer_owns; [exact Ho|]. intros a w1 Ho1 _. destruct (a =? 1); [by apply wp_ret, (H2 p t)|].
    apply wp_bind. eapply wp_new_descriptor; [exact Ho1|]. intros d' w2 Ho2 _ _. rewrite (on_tx_at p t) by done. rewrite ret_bind. apply wp_ret.
    assert (shape no_gap (l1 ++ p :: l2) (upd p (set_mem_changed 1 t) s)) as Hs'. { eapply shape_upd; [done|exact Ht|unfold same_links; split_and!; reflexivity|]. intros _. destruct (sp_geom _ _ _ Hs p t Ht Hp). by split. }
    destruct d' as [d'|]; [apply H3; [done|by split|]|apply H1; [done|by split|]].
    + eapply owned_upd; [exact Ht|done|done|]. apply owned_ref. exact Ho2.
    + eapply owned_upd; [exact Ht|done|done|]. exact Ho2.
  - pose proof (sp_list _ _ _ Hs) as (_ & _ & Hl). specialize (Hl l1 p l2 eq_refl). unfold links_of in Hl. rewrite Ht in Hl. cbn in Hl. injection Hl as -> _.
    replace (l1 ++ p :: l2) with ((l1 ++ [p]) ++ l2) in * by (by rewrite <-app_assoc). cbn in Hlen. apply (IH (l1 ++ [p]) l2 k ρ); try done. lia.
Qed.
End agp.

Section agp_texture.
Context (E : env).
Implicit Types (w : world) (nf : Z) (g : monitor) (ρ : res).

Lemma wp_new_agp k ρ l s limit pixels size (Q : post (Z * Z * Shared)) w nf g : shape no_gap l s -> owned E k ρ s w g ->
  agp_failed E k ρ s Q nf -> agp_made E k ρ s Q nf -> wp (new_agp_texture limit pixels size s) Q w nf g.
Proof.
  intros Hs Ho Hno Hyes. unfold new_agp_texture. cbv zeta. set (up := round_pages _). set (down := Z.land pixels _).
  destruct (limit <? up); [by apply wp_ret, (Hno l)|]. destruct (down =? 0).
  - apply wp_bind. eapply wp_new_descriptor; [exact Ho|]. intros [d|] w1 Ho1 _ _; [|by apply wp_ret, (Hno l)].
    apply wp_bind. eapply wp_createMapping; [exact Ho1|cbn; by left|]. intros mm w2 Ho2 _.
    apply wp_bind. eapply wp_release_map; [exact Ho2|cbn; reflexivity|]. intros w3 Ho3 _. apply wp_bind. eapply wp_answer_owns; [exact Ho3|]. intros a w4 Ho4 _.
    apply (wp_adopt_agp E k ρ l); [done| |done|done]. apply owned_ref. exact Ho4.
  - apply wp_bind. rewrite (sp_head _ _ _ Hs). eapply (wp_find_agp E _ _ _ _ [] l k ρ); [exact Hs|pose proof (list_fuel _ _ _ Hs); lia|exact Ho| | |]; cbn [app].
    + intros s1 w1 Hs1 Hb1 Ho1. apply wp_bind. unfold isUserMemoryReadOnly. apply wp_bind. eapply wp_answer_owns; [exact Ho1|]. intros a w2 Ho2 _. apply wp_ret.
      destruct (_ <? 0); [by apply wp_ret, (Hno l)|]. apply wp_bind. eapply wp_new_descriptor; [exact Ho2|]. intros [d|] w3 Ho3 _ _; [|by apply wp_ret, (Hno l)].
      apply (wp_adopt_agp E k ρ l); [done|by apply owned_ref| |].
      * intros l' s' w' g' H1 H2 H3. apply (Hno l'); [done|by etransitivity|done].
      * intros p addr x l' s' t w' g' H1 H2 H3 H4 H5 H6 H7. apply (Hyes p addr x l' s' t); try done. by etransitivity.
    + intros p t w1 Hp Ht Hagp Ho1. rewrite (get_tx_at p t) by done. rewrite ret_bind. assert (p <> 0) as Hp0 by (intros ->; by rewrite (sp_null _ _ _ Hs) in Ht).
      destruct (Z.eqb_spec p s.(m_texture_list)) as [Eh|Eh].
      * rewrite ret_bind. apply wp_ret. apply (Hyes p _ 0 l s t); try done. by right.
      * apply list_elem_of_split in Hp as (l1 & l2 & ->). destruct (move_ok no_gap l1 l2 s p Hs eq_refl) as (s2 & E2 & Hf2 & Hs2).
        { intros ->. apply Eh. by rewrite (sp_head _ _ _ Hs). }
        rewrite E2, ret_bind. apply wp_ret. destruct (shifted_lookup s s2 p t Hf2 Ht) as (t2 & Ht2 & Est).
        apply (Hyes p _ 0 (p :: l1 ++ l2) s2 t2); try done; [by right|by rewrite (strip_field is_agp _ _ Est)|by apply shifted_base|by eapply owned_shifted].
    + intros d s1 w1 Hs1 Hb1 Ho1. apply (wp_adopt_agp E k ρ l); [done|done| |].
      * intros l' s' w' g' H1 H2 H3. apply (Hno l'); [done|by etransitivity|done].
      * intros p addr x l' s' t w' g' H1 H2 H3 H4 H5 H6 H7. apply (Hyes p addr x l' s' t); try done. by etransitivity.
Qed.

(** *** Textures that refer to others or have memory of their own *)

Definition made_ok (p : Z) (s s' : Shared) : Prop := s'.(textures) !! p <> None /\ same_base s s'.

Lemma forget_undo k ρ e l s p t (f : Shared -> prog (Z * Z * Z * Shared)) Q w nf g : shape e l s -> e.(unbound) = [] -> e.(unlinked) = [p] -> p ∉ l ->
  s.(textures) !! p = Some t -> is_agp t = false -> t.(linked_agp) = 0 -> bare t -> e.(unused) <> p -> owned E k ρ s w g ->
  (forall s' w', shape (mk_gap [] [] e.(unused) e.(mute)) l s' -> same_base s s' -> (forall q, q <> p -> s'.(textures) !! q = s.(textures) !! q) -> owned E k ρ s' w' g -> wp (f s') Q w' nf g) ->
  wp (s ← forget_texture p s; s ← releaseVendorTextureBuffer p s; f s) Q w nf g.
Proof.
  intros Hs Eu El Hpl Ht Ha Hl Hb Hx Ho HQ. destruct (forget_ok e l s p t Hs Eu Ht) as (s1 & E1 & Hh1 & Hs1); [by rewrite Ha|]. rewrite E1, ret_bind. apply wp_bind.
  assert (s1.(textures) = s.(textures)) as Et by (by rewrite Hh1).
  eapply (wp_free_block E k ρ p t); [by rewrite Et|done|by eapply owned_tables|]. intros w2 Ho2. apply HQ; [| | |done].
  - rewrite El in Hs1. pose proof (release_ok _ l s1 p t Hs1 eq_refl eq_refl Hpl) as Hr. cbn [unused mute] in Hr. rewrite decide_False in Hr by done. apply Hr; [by rewrite Et|done].
  - etransitivity; [by apply same_heap_base|by split].
  - intros q Hq. cbn. by rewrite lookup_delete_ne, Et.
Qed.
End agp_texture.

Section new_texture.
Context (E : env).
Implicit Types (w : world) (nf : Z) (g : monitor) (ρ : res).

(** A texture gives an object back. *)
Lemma wp_release_from k ρ x s p t t' (Q : post unit) w nf g : s.(textures) !! p = Some t -> own p t ≡ₚ x :: own p t' -> ids p t ≡ₚ ids p t' -> owned E k ρ s w g ->
  (forall w', owned E k ρ (upd p t' s) w' g -> Q tt w' nf g) -> wp (release x) Q w nf g.
Proof.
  intros Ht Ho Hi How HQ. eapply (wp_release _ _ (own p t' ++ others p s ++ ρ.(r_refs))); [exact How|cbn; rewrite (refs_at p t s Ht), Ho; cbn; solve_Permutation|].
  intros w' Ho' _. apply HQ. eapply owns_le; [|exact Ho']. split; cbn; try done; [by rewrite (live_at p t s Ht), live_upd, Hi|by rewrite refs_upd, <-app_assoc].
Qed.

(** The texture over memory of the client that a new one will refer to, if any. *)
Definition agp_side (x p1 : Z) s : Prop :=
  (p1 = 0 /\ x = 0) \/ (p1 <> 0 /\ (x = p1 \/ x = 0) /\ exists a, s.(textures) !! p1 = Some a /\ is_agp a = true).

Definition stopped k ρ s (Q : post (Z * Z * Z * Shared)) nf : Prop := forall l' s' w' g',
  shape no_gap l' s' -> same_base s s' -> owned E k ρ s' w' g' -> Q (0, 0, 0, s') w' nf g'.

Lemma wp_drop_any k ρ l s0 s x p1 (Q : post (Z * Z * Z * Shared)) w nf g : shape (mk_gap [] [] x 0) l s -> agp_side x p1 s -> same_base s0 s -> owned E k ρ s w g ->
  stopped (k + 2) ρ s0 Q nf -> wp (s ← drop_unused p1 s; mret (0, 0, 0, s)) Q w nf g.
Proof.
  intros Hs [[-> ->]|(Hp & Hx & a & Ha & Hagp)] Hb Ho HQ.
  - apply wp_bind, wp_ret, wp_ret, (HQ l); [done|done|eapply owned_mono; [exact Ho|lia]].
  - apply wp_bind. eapply (wp_drop_unused E k ρ l s x p1 a); try done. intros l' s' w' g' Hs' Hb' Ho'. apply wp_ret, (HQ l'); [done|by etransitivity|done].
Qed.

Lemma agp_side_stay x p1 p s s' : agp_side x p1 s -> p1 <> p -> (forall q, q <> p -> s'.(textures) !! q = s.(textures) !! q) -> agp_side x p1 s'.
Proof. intros [H|(Hp & Hx & a & Ha & Hagp)] Hn Hq; [by left|]. right. split; [done|]. split; [done|]. exists a. by rewrite Hq. Qed.

Definition texture_made k ρ ty s (Q : post (Z * Z * Z * Shared)) nf : Prop := forall p b addr l' s' t w' g', shape no_gap l' s' -> p <> 0 -> s'.(textures) !! p = Some t ->
  t.(sys_obj_type) = ty -> same_base s s' -> owned E k ρ s' w' g' -> Q (p, b, addr, s') w' nf g'.

Lemma wp_new_over k ρ l s x limit size0 size1 ty overhead p1 (Q : post (Z * Z * Z * Shared)) w nf g : shape (mk_gap [] [] x 0) l s -> agp_side x p1 s ->
  (ty = TEX_TYPE_OOB <-> p1 <> 0) -> ty <> TEX_TYPE_AGP -> ty <> TEX_TYPE_AGPREF -> owned E k ρ s w g ->
  stopped (k + 2) ρ s Q nf -> texture_made (k + 2) ρ ty s Q nf ->
  wp (new_texture_over limit size0 size1 ty overhead p1 s) Q w nf g.
Proof.
  intros Hs Hside Hty Hnagp Hnref Ho Hno Hyes. unfold new_texture_over. cbv zeta. destruct (limit <? _); [by eapply wp_drop_any|].
  apply wp_bind. eapply (wp_common_init E k ρ ty _ l); [exact Hs|exact Ho|intros w1 Ho1; rewrite Z.eqb_refl; by eapply wp_drop_any|].
  intros p c s1 w1 Hc Ho1. pose proof Hc as [[Hp Hfr] _ _ _ _]. apply Z.eqb_neq in Hp as Hpb. rewrite Hpb.
  destruct (shape_created _ l ty p c s s1 Hs eq_refl eq_refl eq_refl Hc) as [Hpl Hs1]; [by left|]. cbn [unused] in Hs1. apply Z.eqb_neq in Hnagp as Hnb. rewrite Hnb in Hs1. cbn [unused] in Hs1.
  destruct (created_at _ _ _ _ _ Hc) as (t & Ht & [N1 N2 [N3 N4] N5 N6 N7]). pose proof (created_base _ _ _ _ _ Hc) as Hb1.
  assert (p1 <> p) as Hp1. { destruct Hside as [[-> _]|(_ & _ & a & Ha & _)]; [done|congruence]. }
  assert (x <> p) as Hxp. { destruct Hside as [[_ ->]|(_ & [->| ->] & _)]; done. }
  assert (forall q, q <> p -> s1.(textures) !! q = s.(textures) !! q) as Hq1. { intros q Hq. pose proof Hc as [_ _ _ _ ->]. cbn. by rewrite lookup_insert_ne. }
  assert (forall s2 s3, (forall q, q <> p -> s2.(textures) !! q = s.(textures) !! q) -> (forall q, q <> p -> s3.(textures) !! q = s2.(textures) !! q) -> agp_side x p1 s3) as Hside3.
  { intros s2 s3 H2 H3. apply (agp_side_stay x p1 p s); [done|done|]. intros q Hq. by rewrite H3, H2. }
  assert (is_agp t = false) as Hta by (unfold is_agp; by rewrite N1).
  apply wp_bind. eapply wp_new_descriptor; [exact Ho1|]. intros [d|] w2 Ho2 _ _.
  2: { eapply (forget_undo E k ρ _ l s1 p t); [exact Hs1|done|done|done|done|done|exact N5|exact N6|exact Hxp|exact Ho2|].
       intros s3 w3 Hs3 Hb3 Hq3 Ho3. eapply (wp_drop_any k ρ l s); [exact Hs3|by apply (Hside3 s1)|by etransitivity|exact Ho3|done]. }
  apply owned_ref in Ho2. rewrite (on_tx_at p t) by done. rewrite ret_bind. set (t2 := set_creator true _). assert (same_links t t2) as Hsl2 by (unfold same_links; split_and!; reflexivity).
  assert (owned E k ρ (upd p t2 s1) w2 g) as Ho2'. { eapply owned_take; [exact Ht| | |exact Ho2]; [|done]. unfold own. cbn. destruct N6 as (-> & -> & _). cbn. solve_Permutation. }
  pose proof (shape_upd _ _ _ p t t2 Hs1 Ht Hsl2 (fun Hx => False_ind _ (Hpl Hx))) as Hs2.
  apply wp_bind. eapply wp_createMapping; [exact Ho2'|cbn; rewrite (refs_upd p t2 s1); right; by left|]. intros [m|] w3 Ho3 _.
  - apply owned_ref in Ho3. rewrite (on_tx_at p t2) by apply lookup_at. rewrite ret_bind, upd_upd. set (t3 := set_vram_bytes size1 _).
    assert (same_links t t3) as Hsl3 by (unfold same_links; split_and!; reflexivity).
    assert (owned E k ρ (upd p t3 s1) w3 g) as Ho3'.
    { rewrite <-(upd_upd p t3 t2). eapply owned_take; [apply lookup_at| | |exact Ho3]; [|done]. unfold own. cbn. destruct N6 as (_ & -> & _). cbn. solve_Permutation. }
    pose proof (shape_upd _ _ _ p t t3 Hs1 Ht Hsl3 (fun Hx => False_ind _ (Hpl Hx))) as Hs3.
    assert (forall t4 s4, shape (mk_gap [] [p] 0 0) l s4 -> s4.(textures) !! p = Some t4 -> geometry t4 -> t4.(sys_obj_type) = ty -> same_base s s4 -> owned E k ρ s4 w3 g ->
      wp (s ← link_texture_at_head p s4; t ← get_tx p s; mret (p, m.(mp_addr), t.(sys_obj_client_addr), s)) Q w3 nf g) as Hend.
    { intros t4 s4 Hs4 Ht4 Hg4 Hty4 Hb4 Ho4. destruct (link_ok _ l s4 p Hs4 eq_refl Hpl) as (s5 & E5 & Hf5 & Hs5); [intros u Hu; congruence|]. rewrite E5, ret_bind.
      destruct (shifted_lookup s4 s5 p t4 Hf5 Ht4) as (t5 & Ht5 & Est). rewrite (get_tx_at p t5) by done. rewrite ret_bind. apply wp_ret.
      apply (Hyes p _ _ (p :: l) s5 t5); [exact Hs5|done|done|by rewrite (strip_field sys_obj_type _ _ Est)|by etransitivity; [|apply shifted_base]|].
      eapply owned_mono; [by eapply owned_shifted|lia]. }
    assert (geometry t3) as Hg3. { split; cbn; rewrite ?N2, ?N3, ?N4; [lia|lia|by left|done|unfold is_agp in *; cbn; by rewrite Hta|intros _; apply N6]. }
    destruct (Z.eqb_spec ty TEX_TYPE_OOB) as [Eoob|Eoob].
    + destruct Hside as [[Hz _]|(_ & Hx & a & Ha & Hagp)]; [by apply Hty in Eoob|]. rewrite (on_tx_at p t3) by apply lookup_at. rewrite ret_bind.
      pose proof (shape_mute _ _ _ p t3 p1 Hs3 eq_refl (lookup_at p t3 s1) N5) as Hs4. set (t4 := set_linked_agp p1 t3) in *. set (s4 := upd p t4 (upd p t3 s1)) in *. cbn [unbound unlinked unused] in Hs4.
      assert (s4.(textures) !! p1 = Some a) as Ha4. { unfold s4. rewrite !lookup_away by done. by rewrite Hq1. }
      destruct (sp_bound _ _ _ Hs4 p1 a Ha4) as (j & o & Hb); [apply not_elem_of_nil|].
      unfold add_refcount. rewrite (get_tx_at p1 a) by done. rewrite ret_bind, (get_so_at p1 a j o s4 Hb), !ret_bind.
      assert (is_ref t4 = true) as Hr4. { unfold is_ref, t4. cbn. rewrite N1, Eoob. done. }
      pose proof (shape_add_ref _ _ _ p t4 p1 a j o Hs4 eq_refl eq_refl (lookup_at p t4 _) Hr4 eq_refl Ha4 Hagp Hb) as Hs5. cbn [unlinked unused] in Hs5.
      apply (Hend t4); [|apply lookup_at|by apply geometry_linked|done| |].
      * destruct (decide (x = p1)); [done|]. destruct Hx as [->| ->]; done.
      * etransitivity; [exact Hb1|by split].
      * apply (owned_tables E k ρ s4); [by destruct s1|]. by eapply owned_upd; [apply lookup_at| | |exact Ho3'].
    + rewrite ret_bind. apply (Hend t3); [|apply lookup_at|done|done| |exact Ho3'].
      * destruct Hside as [[_ ->]|(Hp1n & _)]; [done|]. by apply Hty in Hp1n.
      * etransitivity; [exact Hb1|by split].
  - set (t3 := set_xfer (set_md None t2.(xfer)) t2). apply wp_bind.
    eapply (wp_release_from k ρ d.(md_ref) (upd p t2 s1) p t2 t3); [apply lookup_at|unfold own; cbn; solve_Permutation|done|exact Ho3|].
    intros w4 Ho4. rewrite (on_tx_at p t2) by apply lookup_at. rewrite ret_bind. rewrite upd_upd in *. fold t3.
    assert (same_links t t3) as Hsl3 by (unfold same_links; split_and!; reflexivity). pose proof (shape_upd _ _ _ p t t3 Hs1 Ht Hsl3 (fun Hx => False_ind _ (Hpl Hx))) as Hs3.
    eapply (forget_undo E k ρ _ l (upd p t3 s1) p t3); [exact Hs3|done|done|done|apply lookup_at|done|exact N5| |exact Hxp|exact Ho4|].
    { destruct N6 as (M1 & M2 & M3 & M4). by repeat split. }
    intros s5 w5 Hs5 Hb5 Hq5 Ho5. eapply (wp_drop_any k ρ l s); [exact Hs5| |etransitivity; [exact Hb1|]; etransitivity; [|exact Hb5]; by split|exact Ho5|done].
    apply (Hside3 (upd p t3 s1)); [|done]. intros q Hq. rewrite lookup_away by done. by apply Hq1.
Qed.
End new_texture.

Section constructors.
Context (E : env).
Implicit Types (w : world) (nf : Z) (g : monitor) (ρ : res).

Lemma wp_new_texture k ρ l s limit size0 size1 pixels size (Q : post (Z * Z * Z * Shared)) w nf g : shape no_gap l s -> owned E k ρ s w g ->
  stopped E (k + 2) ρ s Q nf -> (forall ty, ty <> TEX_TYPE_SURFACE -> texture_made E (k + 2) ρ ty s Q nf) ->
  wp (new_texture limit size0 size1 pixels size s) Q w nf g.
Proof.
  intros Hs Ho Hno Hyes. unfold new_texture. destruct (_ && _).
  - apply wp_bind. eapply (wp_new_agp E k ρ l); [exact Hs|exact Ho| |].
    + intros l1 s1 w1 g1 Hs1 Hb1 Ho1. rewrite Z.eqb_refl. apply wp_ret, (Hno l1); [done|done|eapply owned_mono; [exact Ho1|lia]].
    + intros p addr x l1 s1 t w1 g1 Hs1 Hx Hp Ht Hagp Hb1 Ho1. apply Z.eqb_neq in Hp as Hpb. rewrite Hpb.
      eapply (wp_new_over E k ρ l1 s1 x); [exact Hs1|right; eauto|done|done|done|exact Ho1| |].
      * intros l' s' w' g' H1 H2 H3. apply (Hno l'); [done|by etransitivity|done].
      * intros q b a l' s' u w' g' H1 H2 H3 H4 H5 H6. apply (Hyes TEX_TYPE_OOB ltac:(done) q b a l' s' u); try done. by etransitivity.
  - destruct (size1 =? 0); (eapply (wp_new_over E k ρ l s 0); [exact Hs|by left|done|done|done|exact Ho|exact Hno|by apply Hyes]).
Qed.

Definition linked_made k ρ ty s (Q : post (Z * Z * Shared)) nf : Prop := forall p addr l' s' t w' g', shape no_gap l' s' -> p <> 0 -> s'.(textures) !! p = Some t ->
  t.(sys_obj_type) = ty -> same_base s s' -> owned E k ρ s' w' g' -> Q (p, addr, s') w' nf g'.

Lemma wp_new_agpref k ρ l s limit pixels1 pixels2 size (Q : post (Z * Z * Shared)) w nf g : shape no_gap l s -> owned E k ρ s w g ->
  agp_failed E (k + 2) ρ s Q nf -> linked_made (k + 2) ρ TEX_TYPE_AGPREF s Q nf ->
  wp (new_agpref_texture limit pixels1 pixels2 size s) Q w nf g.
Proof.
  intros Hs Ho Hno Hyes. unfold new_agpref_texture. apply wp_bind. eapply (wp_new_agp E k ρ l); [exact Hs|exact Ho| |].
  { intros l1 s1 w1 g1 Hs1 Hb1 Ho1. rewrite Z.eqb_refl. apply wp_ret, (Hno l1); [done|done|eapply owned_mono; [exact Ho1|lia]]. }
  intros p1 addr x l1 s1 a w1 g1 Hs1 Hx Hp1 Ha Hagp Hb1 Ho1. apply Z.eqb_neq in Hp1 as Hpb. rewrite Hpb.
  apply wp_bind. eapply (wp_common_init E k ρ TEX_TYPE_AGPREF _ l1); [exact Hs1|exact Ho1| |].
  - intros w2 Ho2. rewrite Z.eqb_refl. apply wp_bind. eapply (wp_drop_unused E k ρ l1 s1 x p1 a); try done. intros l' s' w' g' Hs' Hb' Ho'.
    apply wp_ret, (Hno l'); [done|by etransitivity|done].
  - intros p c s2 w2 Hc Ho2. pose proof Hc as [[Hp Hfr] _ _ _ _]. apply Z.eqb_neq in Hp as Hp2b. rewrite Hp2b.
    destruct (shape_created _ l1 TEX_TYPE_AGPREF p c s1 s2 Hs1 eq_refl eq_refl eq_refl Hc) as [Hpl Hs2]; [by left|]. cbn [unused Z.eqb TEX_TYPE_AGPREF TEX_TYPE_AGP Pos.eqb] in Hs2.
    destruct (created_at _ _ _ _ _ Hc) as (t & Ht & [N1 N2 [N3 N4] N5 N6 N7]). pose proof (created_base _ _ _ _ _ Hc) as Hb2.
    assert (p1 <> p) as Hpp by (intros ->; congruence). assert (s2.(textures) !! p1 = Some a) as Ha2. { pose proof Hc as [_ _ _ _ ->]. cbn. by rewrite lookup_insert_ne. }
    rewrite (get_tx_at p1 a) by done. rewrite ret_bind, (on_tx_at p t) by done. rewrite ret_bind. set (t2 := set_agp_addr _ (set_creator true t)).
    change (set_linked_agp p1 _) with (set_linked_agp p1 t2). assert (same_links t t2) as Hsl2 by (unfold same_links; split_and!; reflexivity).
    assert (geometry t2) as Hg2. { split; cbn; rewrite ?N2, ?N3, ?N4; [lia|lia|by left|done|unfold is_agp; cbn; by rewrite N1|intros _; apply N6]. }
    pose proof (shape_upd _ _ _ p t t2 Hs2 Ht Hsl2 (fun Hx => False_ind _ (Hpl Hx))) as Hs3.
    pose proof (shape_mute _ _ _ p t2 p1 Hs3 eq_refl (lookup_at p t2 s2) N5) as Hs4. rewrite upd_upd in Hs4. set (t4 := set_linked_agp p1 t2) in *. set (s4 := upd p t4 s2) in *.
    cbn [unbound unlinked unused] in Hs4. assert (s4.(textures) !! p1 = Some a) as Ha4. { unfold s4. by rewrite !lookup_away by done. }
    destruct (sp_bound _ _ _ Hs4 p1 a Ha4) as (j & o & Hb); [apply not_elem_of_nil|].
    unfold add_refcount. rewrite (get_tx_at p1 a) by done. rewrite ret_bind, (get_so_at p1 a j o s4 Hb), !ret_bind.
    assert (is_ref t4 = true) as Hr4. { unfold is_ref, t4. cbn. by rewrite N1. }
    pose proof (shape_add_ref _ _ _ p t4 p1 a j o Hs4 eq_refl eq_refl (lookup_at p t4 _) Hr4 eq_refl Ha4 Hagp Hb) as Hs5. cbn [unlinked unused] in Hs5.
    assert (shape (mk_gap [] [p] 0 0) l1 (put_so j (set_refcount (s32 (o.(refcount) + 1)) o) s4)) as Hs6. { destruct (decide (x = p1)); [done|]. destruct Hx as [->| ->]; done. }
    destruct (link_ok _ l1 _ p Hs6 eq_refl Hpl) as (s7 & E7 & Hf7 & Hs7). { intros u Hu. cbn in Hu. rewrite lookup_insert_eq in Hu. injection Hu as <-. by apply geometry_linked. }
    rewrite E7, ret_bind. destruct (shifted_lookup _ s7 p t4 Hf7) as (t7 & Ht7 & Est); [apply lookup_at|]. rewrite (get_tx_at p t7) by done. rewrite ret_bind. apply wp_ret.
    apply (Hyes p _ (p :: l1) s7 t7); [exact Hs7|done|done|by rewrite (strip_field sys_obj_type _ _ Est)| |].
    + etransitivity; [exact Hb1|]. etransitivity; [exact Hb2|]. etransitivity; [|by apply shifted_base]. by split.
    + apply (owned_mono E k); [|lia]. eapply owned_shifted; [exact Hf7|]. apply (owned_tables E k ρ s4); [by destruct s2|]. by eapply owned_upd; [exact Ht| | |exact Ho2].
Qed.

Lemma wp_new_surface_texture k ρ l s surface sid mask (Q : post (Z * Z * Shared)) w nf g : shape no_gap l s -> owned E k ρ s w g ->
  agp_failed E k ρ s Q nf -> linked_made k ρ TEX_TYPE_SURFACE s Q nf ->
  wp (new_surface_texture surface sid mask s) Q w nf g.
Proof.
  intros Hs Ho Hno Hyes. unfold new_surface_texture. rewrite (sp_provider _ _ _ Hs). cbn [negb]. destruct surface as [r|]; [|by apply wp_ret, (Hno l)].
  apply wp_bind. eapply (wp_common_init E k ρ TEX_TYPE_SURFACE _ l); [exact Hs|exact Ho|intros w1 Ho1; rewrite Z.eqb_refl; by apply wp_ret, (Hno l)|].
  intros p c s2 w2 Hc Ho2. pose proof Hc as [[Hp Hfr] _ _ _ _]. apply Z.eqb_neq in Hp as Hp2b. rewrite Hp2b.
  destruct (shape_created _ l TEX_TYPE_SURFACE p c s s2 Hs eq_refl eq_refl eq_refl Hc) as [Hpl Hs2]; [by left|]. cbn [unused Z.eqb TEX_TYPE_SURFACE TEX_TYPE_AGP Pos.eqb no_gap] in Hs2.
  destruct (created_at _ _ _ _ _ Hc) as (t & Ht & [N1 N2 [N3 N4] N5 N6 N7]). pose proof (created_base _ _ _ _ _ Hc) as Hb2.
  rewrite (on_tx_at p t) by done. rewrite ret_bind. set (t2 := set_cgs_surface_id sid _). assert (same_links t t2) as Hsl2 by (unfold same_links; split_and!; reflexivity).
  assert (geometry t2) as Hg2. { split; cbn; rewrite ?N2, ?N3, ?N4; [lia|lia|by left|done|unfold is_agp; cbn; by rewrite N1|intros _; apply N6]. }
  pose proof (shape_upd _ _ _ p t t2 Hs2 Ht Hsl2 (fun Hx => False_ind _ (Hpl Hx))) as Hs3.
  destruct (link_ok _ l _ p Hs3 eq_refl Hpl) as (s7 & E7 & Hf7 & Hs7). { intros u. rewrite lookup_at. by intros [= <-]. }
  rewrite E7, ret_bind. destruct (shifted_lookup _ s7 p t2 Hf7) as (t7 & Ht7 & Est); [apply lookup_at|]. rewrite (get_tx_at p t7) by done. rewrite ret_bind. apply wp_ret.
  apply (Hyes p _ (p :: l) s7 t7); [exact Hs7|done|done|by rewrite (strip_field sys_obj_type _ _ Est)| |].
  - etransitivity; [exact Hb2|]. etransitivity; [|by apply shifted_base]. by split.
  - eapply owned_shifted; [exact Hf7|]. by eapply owned_upd; [exact Ht| | |exact Ho2].
Qed.
End constructors.
