(* ===== verification/SharedLife.v ===== *)
(** Shared textures: paging off the images of a texture, and the life of the object. *)

From S2P Require Import Allocator.
From S2P Require Import Prelude IOKit Layout SvgaReg Svga3dReg AccelIds AccelBlit Accel AccelSpec ShaderCache Provider.
From S2P Require Import AccelGmr VertexArray Kernel Transfer Surface Dll SurfaceLogic SurfaceProofs Shared SharedInv SharedProofs.
From stdpp Require Import gmap gmultiset.
From stdpp Require Import list_relations list.

#[local] Open Scope Z_scope.

Local Abbreviation prog := (prog kernel).
Local Abbreviation world := (world kernel).

(** ** Paging off *)

Section paging.
Context (E : env).
Implicit Types (w : world) (nf : Z) (g : monitor) (ρ : res).

(** An image whose header is in the first page of the texture, and which the device may
    have drawn to. *)
Definition image_ok (t : TextureBuffer) (x : Z * Z) : Prop :=
  0 <= x.1 < 6 /\ 0 <= x.2 < 12 /\ 0 <= t.(min_mipmap) + 12 * x.1 + x.2 < 72 /\ t.(bytespp) <> 0.

Lemma images_ok t : geometry t -> t.(sys_obj_type) = TEX_TYPE_STD \/ t.(sys_obj_type) = TEX_TYPE_OOB -> Forall (image_ok t) (images t).
Proof.
  intros [[G1 G1'] (G2 & G3 & G4) G5 _ _ _] Hty. apply Forall_forall. intros [f mm]. unfold images. rewrite list_elem_of_bind. intros (f' & Hx & Hf).
  apply list_elem_of_fmap in Hx as (m' & [= -> ->] & Hm). rewrite elem_of_seqZ in Hf, Hm. unfold image_ok. cbn [fst snd]. specialize (G5 Hty). lia.
Qed.

(** While the memory of a texture is a region of the device. *)
Definition res_paging (k : Z) (X : list Z) (d : descriptor) (id : Z) (fs : list Z) s (ρ : res) : res :=
  mk_res (ρ.(r_n) + k) ρ.(r_named) (live_of s ++ ρ.(r_live)) ρ.(r_masters) (id :: ρ.(r_gmrs)) ρ.(r_streams) ρ.(r_blocks)
    (X ++ refs_of s ++ ρ.(r_refs)) (d.(md_ref) :: ρ.(r_prep)) false fs.

Definition with_xfer (p : Z) (u : TextureBuffer) (v : VendorTransferBuffer) s : Shared := upd p (set_xfer v u) s.

Lemma bound_with_xfer s p u v q t j o : bound s q t j o -> bound (with_xfer p u v s) q t j o.
Proof. apply bound_stable; reflexivity. Qed.

Lemma lookup_with_xfer s tx t ltx u v : s.(textures) !! tx = Some t -> s.(textures) !! ltx = Some u ->
  exists t', (with_xfer ltx u v s).(textures) !! tx = Some t' /\ t'.(min_mipmap) = t.(min_mipmap) /\ t'.(bytespp) = t.(bytespp) /\
    t'.(surface_id) = t.(surface_id) /\ t'.(sys_obj) = t.(sys_obj).
Proof.
  intros Ht Hu. unfold with_xfer. cbn. rewrite lookup_upd. destruct (decide (tx = ltx)) as [->|Hn]; [|by exists t].
  exists (set_xfer v u). assert (u = t) as -> by congruence. done.
Qed.

Lemma paged_reads o face mipmap : length o.(pageoff) = 6%nat /\ length o.(pageon) = 6%nat -> 0 <= face < 6 ->
  exists b, isPagedOn o face mipmap = mret b.
Proof.
  intros [L1 L2] Hf. unfold isPagedOn. destruct (lookup_lt_is_Some_2 o.(pageoff) (Z.to_nat face)) as [x1 ->]; [lia|].
  destruct (lookup_lt_is_Some_2 o.(pageon) (Z.to_nat face)) as [x2 ->]; [lia|]. by eexists.
Qed.

Section images.
Context (headers : Z -> GLDTextureHeader) (m : mapping) (X : list Z) (k : Z) (ρ : res) (s : Shared) (tx ltx : Z) (t u : TextureBuffer) (j : nat) (o : GLDSysObject) (d : descriptor) (gmr : Z).
Context (Ht : s.(textures) !! tx = Some t) (Hu : s.(textures) !! ltx = Some u) (Hb : bound s tx t j o) (Hm : m.(mp_length) = PAGE_SIZE).

(** The transfers so far: the fence of the last one is that of the texture. *)
Definition paging v w g : Prop := v.(md) = Some d /\ v.(gmr_id) = gmr /\ exists fs, fence_of v fs /\ owns E (res_paging k X d gmr fs s ρ) w g.

Definition paged (Q : post (IOReturn * Shared)) : Prop := forall rc v w' nf' g', paging v w' g' -> Q (rc, with_xfer ltx u v s) w' nf' g'.

Lemma with_xfer_again v v' : upd ltx (set_xfer v' (set_xfer v u)) (with_xfer ltx u v s) = with_xfer ltx u v' s.
Proof. unfold with_xfer. by rewrite upd_upd. Qed.

Lemma wp_image v face mipmap (Q : post (IOReturn * Shared)) w nf g : image_ok t (face, mipmap) -> paging v w g -> paged Q ->
  wp (pageoff_image headers m tx ltx gmr face mipmap (with_xfer ltx u v s)) Q w nf g.
Proof.
  intros (I1 & I2 & I3 & I4) Hp HQ. unfold pageoff_image. cbn [fst snd] in *. destruct (lookup_with_xfer s tx t ltx u v Ht Hu) as (t' & Ht' & F1 & F2 & F3 & F4).
  rewrite (get_tx_at tx t') by done. rewrite ret_bind, F1, F2, F3. unfold header_at. rewrite Hm.
  replace ((0 <=? _) && _) with true. 2: { symmetry. unfold sizeof_GLDTextureHeader, PAGE_SIZE. apply andb_true_intro. split; apply Z.leb_le; lia. }
  rewrite ret_bind. assert (get_so t' (with_xfer ltx u v s) = mret (j, o)) as ->. { apply (get_so_at tx). apply (bound_stable s _ tx t); [done|done|done|exact Hb]. }
  rewrite ret_bind. destruct (paged_reads o face mipmap (bo_pages _ _ _ _ _ Hb) I1) as [b ->]. rewrite ret_bind.
  destruct (_ || _); [by apply wp_ret, HQ|]. apply Z.eqb_neq in I4. rewrite I4. apply wp_bind. destruct Hp as (V1 & V2 & fs & Hf & Ho). eapply wp_surfaceDMA3D; [exact Ho| |].
  - intros _ f nf' g' Hf0 Ho'. cbn [snd fst]. rewrite (on_tx_at ltx (set_xfer v u)) by apply lookup_at. rewrite ret_bind. apply wp_ret.
    change (set_xfer (set_fence f (xfer (set_xfer v u))) (set_xfer v u)) with (set_xfer (set_fence f v) (set_xfer v u)). rewrite with_xfer_again. apply HQ.
    split; [done|]. split; [done|]. exists [f]. split; [|exact Ho']. right. cbn. split; [by left|done].
  - intros _. cbn [snd fst]. rewrite ret_bind. apply wp_ret, HQ. split; [done|]. split; [done|]. by exists fs.
Qed.

Lemma wp_images l : forall v (Q : post (IOReturn * Shared)) w nf g, Forall (image_ok t) l -> paging v w g -> paged Q ->
  wp (pageoff_images headers m tx ltx gmr l (with_xfer ltx u v s)) Q w nf g.
Proof.
  induction l as [|[face mipmap] l IH]; intros v Q w nf g Hl Hp HQ; [by apply wp_ret, HQ|]. apply Forall_cons in Hl as [Hi Hl]. cbn [pageoff_images]. apply wp_bind.
  apply (wp_image v face mipmap); [done|done|]. intros rc v' w' nf' g' Hp'. case_bool_decide; [by apply IH|by apply wp_ret, HQ].
Qed.

(** The region is given up after the last transfer. *)
Lemma wp_complete_tx v s1 (Q : post Shared) w nf g : isIdValid gmr = true -> s1.(textures) = (with_xfer ltx u v s).(textures) -> s1.(sh_provider) = true ->
  paging v w g ->
  (forall v' w' g', isIdValid v'.(gmr_id) = false -> v'.(md) = Some d -> owns E (res_with (k + 1) (X ++ refs_of s) (live_of s) ρ) w' g' ->
     Q (upd ltx (set_xfer v' (set_xfer v u)) s1) w' nf g') ->
  wp (complete_tx ltx s1) Q w nf g.
Proof.
  intros Hg Et Hpr (V1 & V2 & fs & Hf & Ho) HQ. unfold complete_tx. assert (s1.(textures) !! ltx = Some (set_xfer v u)) as Hl by (rewrite Et; apply lookup_at).
  rewrite (get_tx_at ltx (set_xfer v u)) by done. rewrite ret_bind, Hpr. apply wp_bind. change (xfer (set_xfer v u)) with v.
  eapply (wp_complete E _ v ρ.(r_gmrs) ρ.(r_prep)); [exact Ho|unfold vtb_ok; rewrite V1, V2, Hg; done|exact Hf|done|cbn; unfold valid_ids; rewrite V2, Hg; done|cbn; rewrite V1; done|].
  intros id w' g' Hid Ho'. rewrite (on_tx_at ltx (set_xfer v u)) by done. apply wp_ret, HQ; [done|done|]. eapply owns_le; [|exact Ho']. split; cbn; try done; [lia|by rewrite app_assoc].
Qed.
End images.
End paging.

Section pageoff.
Context (E : env).
Implicit Types (w : world) (nf : Z) (g : monitor) (ρ : res).

Lemma mark_off_keeps n o : keeps o (clear_dirty (mark_off n o)).
Proof. unfold keeps. cbn. by rewrite length_imap. Qed.
Lemma vstate_keeps x o : keeps o (set_vstate x o).
Proof. by repeat split. Qed.

(** What becomes of the object of a texture: nothing, a note that the pages are volatile,
    or all its images are marked as being in memory. *)
Definition paged_off (t : TextureBuffer) (rc : IOReturn) (o o' : GLDSysObject) : Prop :=
  (o' = o /\ rc <> kIOReturnSuccess) \/ (o' = set_vstate (Z.lor o.(vstate) 2) o /\ Z.land o.(vstate) 0x11 <> 0) \/
  (o' = clear_dirty (mark_off t.(num_faces) o) /\ rc = kIOReturnSuccess).

Definition pageoff_post k ρ l s tx t j o (Q : post (IOReturn * Shared)) : Prop := forall rc o' t' s' w' nf' g', shape no_gap l s' -> same_base s s' ->
  s'.(textures) !! tx = Some t' -> bound s' tx t' j o' -> paged_off t rc o o' -> owned E k ρ s' w' g' -> Q (rc, s') w' nf' g'.

Lemma wp_map_header k ρ s p t (Q : post (IOReturn * option mapping)) w nf g : s.(textures) !! p = Some t -> owned E k ρ s w g ->
  (forall rc w', rc <> kIOReturnSuccess -> owned E k ρ s w' g -> Q (rc, None) w' nf g) ->
  (forall m w', m.(mp_length) = PAGE_SIZE -> is_Some t.(xfer).(md) -> owned E k (add_ref m.(mp_ref) ρ) s w' g -> Q (kIOReturnSuccess, Some m) w' nf g) ->
  wp (mapGLDTextureHeader t) Q w nf g.
Proof.
  intros Ht Ho Hno Hyes. unfold mapGLDTextureHeader. destruct (md (xfer t)) as [d|] eqn:Ed; [|by apply wp_ret, Hno]. apply wp_bind.
  unfold createMappingInTask. apply wp_bind, wp_gets. cbn [md_ref]. rewrite (live_ref E _ _ _ d.(md_ref) Ho). 2: { cbn. rewrite (refs_at p t s Ht). unfold own. rewrite Ed. cbn. right. by left. }
  cbn [negb md_length]. unfold new_mapping. apply wp_bind. eapply wp_new_object; [exact Ho|]. intros [x|] w1 Ho1 _ _; apply wp_bind; (eapply wp_answer_owns; [exact Ho1|]); intros a w2 Ho2 _; apply wp_ret.
  - cbn [option_map mp_length]. change (PAGE_SIZE <? 72 * sizeof_GLDTextureHeader) with false. apply wp_ret, Hyes; [done|eauto|]. by apply owned_ref.
  - cbn [option_map]. by apply wp_ret, Hno.
Qed.

Lemma with_xfer_put p u v v' s j o : upd p (set_xfer v' (set_xfer v u)) (put_so j o (with_xfer p u v s)) = with_xfer p u v' (put_so j o s).
Proof. unfold with_xfer, upd, put_so. cbn. by rewrite insert_insert_eq. Qed.
Lemma with_xfer_put2 p u v v' s j o j' o' : upd p (set_xfer v' (set_xfer v u)) (put_so j' o' (put_so j o (with_xfer p u v s))) = with_xfer p u v' (put_so j' o' (put_so j o s)).
Proof. unfold with_xfer, upd, put_so. cbn. by rewrite insert_insert_eq. Qed.

Lemma shape_with_xfer e l s p u v : shape e l s -> s.(textures) !! p = Some u -> isIdValid v.(gmr_id) = false -> is_Some u.(xfer).(md) -> is_Some v.(md) -> shape e l (with_xfer p u v s).
Proof.
  intros Hs Hu Hv _ Hm. unfold with_xfer. eapply shape_upd; [exact Hs|exact Hu|unfold same_links; split_and!; reflexivity|]. intros Hp. destruct (sp_geom _ _ _ Hs p u Hu Hp). by split.
Qed.

Lemma owned_with_xfer k ρ s p u v w g : s.(textures) !! p = Some u -> v.(md) = u.(xfer).(md) -> owned E k ρ s w g -> owned E k ρ (with_xfer p u v s) w g.
Proof. intros Hu Hm. unfold with_xfer. apply (owned_upd E k ρ s p u); [done| |done]. unfold own. cbn. by rewrite Hm. Qed.

Lemma owned_put k ρ s j o w g : owned E k ρ s w g -> owned E k ρ (put_so j o s) w g.
Proof. apply owned_tables. by destruct s. Qed.
End pageoff.

Section pageoff_main.
Context (E : env).
Implicit Types (w : world) (nf : Z) (g : monitor) (ρ : res).

Lemma on_so_at p t j o f s : s.(textures) !! p = Some t -> bound s p t j o -> on_so p f s = mret (put_so j (f o) s).
Proof. intros Ht Hb. unfold on_so. rewrite (get_tx_at p t) by done. by rewrite ret_bind, (get_so_at p t j o s Hb). Qed.

(** The texture whose memory is used: the texture itself, or the one it refers to. *)
Definition target_of (tx : Z) (t : TextureBuffer) : Z := if t.(sys_obj_type) =? TEX_TYPE_OOB then t.(linked_agp) else tx.

Lemma target_has l s tx t : shape no_gap l s -> s.(textures) !! tx = Some t -> t.(sys_obj_type) = TEX_TYPE_STD \/ t.(sys_obj_type) = TEX_TYPE_OOB ->
  (t.(sys_obj_type) = TEX_TYPE_OOB -> t.(linked_agp) <> 0) -> is_Some t.(xfer).(md) ->
  exists u, s.(textures) !! target_of tx t = Some u /\ is_Some u.(xfer).(md) /\ isIdValid u.(xfer).(gmr_id) = false /\ (t.(sys_obj_type) = TEX_TYPE_OOB -> target_of tx t <> tx).
Proof.
  intros Hs Ht Hty Hl Hm. assert (forall p u, s.(textures) !! p = Some u -> p ∈ l) as Hin. { intros p u Hp. destruct (proj1 (sp_linked _ _ _ Hs p)) as [|Hx]; [eauto|done|]. by apply elem_of_nil in Hx. }
  unfold target_of. destruct (Z.eqb_spec t.(sys_obj_type) TEX_TYPE_OOB) as [Eo|Eo].
  - assert (is_ref t = true) as Hr by (unfold is_ref; rewrite Eo; done). destruct (sp_link _ _ _ Hs tx t Ht Hr) as (_ & a & Ha & Hagp); [cbn; intros ->; by rewrite (sp_null _ _ _ Hs) in Ht|auto|].
    exists a. destruct (sp_geom _ _ _ Hs _ a Ha (Hin _ a Ha)) as [_ _ _ G4 G5 _]. split; [done|]. split; [auto|]. split; [done|]. intros _ Ex. rewrite Ex in Ha.
    assert (a = t) as -> by congruence. by rewrite (agp_not_ref t Hagp) in Hr.
  - exists t. destruct (sp_geom _ _ _ Hs tx t Ht (Hin tx t Ht)) as [_ _ _ G4 G5 _]. done.
Qed.

Lemma wp_pageoff k ρ headers l s tx t j o (Q : post (IOReturn * Shared)) w nf g : shape no_gap l s -> s.(textures) !! tx = Some t -> bound s tx t j o -> owned E k ρ s w g ->
  ρ.(r_n) + k + 1 < 2 ^ 30 -> pageoff_post E (k + 3) ρ l s tx t j o Q -> wp (pageoffDirtyTexture headers tx s) Q w nf g.
Proof.
  intros Hs Ht Hb Ho Hn HQ. unfold pageoffDirtyTexture. rewrite (get_tx_at tx t) by done. rewrite ret_bind, (get_so_at tx t j o s Hb), ret_bind.
  assert (forall rc w' nf' g', rc <> kIOReturnSuccess -> owned E k ρ s w' g' -> Q (rc, s) w' nf' g') as Hsame.
  { intros rc w' nf' g' Hrc Ho'. apply (HQ rc o t); try done; [by left|]. eapply owned_mono; [exact Ho'|lia]. }
  destruct (Z.land o.(vstate) 0x11 =? 0) eqn:Ev; cbn [negb].
  2: { apply wp_ret. apply (HQ _ (set_vstate (Z.lor o.(vstate) 2) o) t); [by eapply shape_put_quiet; [| |exact Hb|apply vstate_keeps|]|by split|done|apply (bound_put_same s _ _ _ o); [done|apply vstate_keeps]| |].
       - right; left. split; [done|]. lia.
       - apply owned_put. eapply owned_mono; [exact Ho|lia]. }
  rewrite (sp_provider _ _ _ Hs). cbn [negb]. destruct (isIdValid t.(surface_id)); cbn [negb]; [|by apply wp_ret, Hsame].
  destruct (_ && _) eqn:Ety; [by apply wp_ret, Hsame|]. assert (t.(sys_obj_type) = TEX_TYPE_STD \/ t.(sys_obj_type) = TEX_TYPE_OOB) as Hty by lia.
  destruct ((t.(sys_obj_type) =? TEX_TYPE_OOB) && (t.(linked_agp) =? 0)) eqn:El; [by apply wp_ret, Hsame|]. assert (t.(sys_obj_type) = TEX_TYPE_OOB -> t.(linked_agp) <> 0) as Hl by lia.
  clear Ety El. cbv zeta. fold (target_of tx t). apply wp_bind. eapply (wp_map_header E k ρ s tx t); [done|exact Ho| |].
  { intros rc w1 Hrc Ho1. rewrite bool_decide_eq_false_2 by done. cbn [negb]. by apply wp_ret, Hsame. }
  intros m w1 Hm Hmd Ho1. rewrite bool_decide_eq_true_2 by done. cbn [negb deref]. rewrite ret_bind. destruct (target_has l s tx t Hs Ht Hty Hl Hmd) as (u & Hu & [d Ed] & Hgi & Hne).
  set (ltx := target_of tx t) in *. rewrite (get_tx_at ltx u) by done. rewrite ret_bind. apply wp_bind. eapply (wp_prepare E _ u.(xfer) d); [exact Ho1|done|done| |done|done|cbn; lia|].
  { cbn. rewrite (refs_at ltx u s Hu). unfold own. rewrite Ed. cbn. right. by left. }
  intros rc id w2 g2 Ho2 Hid. rewrite (on_tx_at ltx u) by done. rewrite ret_bind. fold (with_xfer ltx u (set_gmr id u.(xfer)) s). set (v := set_gmr id u.(xfer)) in *.
  assert (tx ∈ l) as Hin. { destruct (proj1 (sp_linked _ _ _ Hs tx)) as [|Hx]; [eauto|done|]. by apply elem_of_nil in Hx. }
  assert (forall v' rc' w' nf' g', isIdValid v'.(gmr_id) = false -> v'.(md) = Some d -> rc' <> kIOReturnSuccess -> owned E (k + 3) ρ s w' g' -> Q (rc', with_xfer ltx u v' s) w' nf' g') as Hfail.
  { intros v' rc' w' nf' g' Hv1 Hv2 Hrc Ho'. destruct (lookup_with_xfer s tx t ltx u v' Ht Hu) as (t' & Ht' & _ & _ & _ & F4). apply (HQ rc' o t'); [|by split|done| |by left|].
    - apply shape_with_xfer; try done; eauto.
    - apply (bound_stable s _ tx t); done.
    - apply owned_with_xfer; [done|by rewrite Hv2, Ed|done]. }
  destruct (bool_decide_reflect (rc = kIOReturnSuccess)) as [->|Hrc]; cbn [negb].
  2: { apply wp_bind. eapply (wp_release_extra E (k + 2) ρ m.(mp_ref) s); [eapply owns_le; [|exact Ho2]; split; cbn; try done; lia|]. intros w3 Ho3. apply wp_ret, Hfail; try done. eapply owned_mono; [exact Ho3|lia]. }
  assert (paging E [m.(mp_ref)] (k + 2) ρ s d id v w2 g2) as Hp2.
  { split; [done|]. split; [done|]. exists []. split; [by left|]. eapply owns_le; [|exact Ho2]. split; cbn; try done; [lia|solve_Permutation]. }
  change (gmr_id v) with id. apply wp_bind. eapply (wp_images E headers m [m.(mp_ref)] (k + 2) ρ s tx ltx t u j o d id); [done|done|done|done|by apply images_ok; [eapply sp_geom|]|exact Hp2|].
  intros rc3 v3 w3 nf3 g3 Hp3. destruct (bool_decide_reflect (rc3 = kIOReturnSuccess)) as [->|Hrc3]; cbn [negb].
  - apply wp_bind. destruct Hp3 as (V1 & V2 & fs & Hf & Ho3). eapply wp_release; [exact Ho3|cbn; reflexivity|]. intros w4 Ho4 _.
    destruct (lookup_with_xfer s tx t ltx u v3 Ht Hu) as (t3 & Ht3 & _ & _ & _ & F4). set (s3 := with_xfer ltx u v3 s) in *.
    assert (bound s3 tx t3 j o) as Hb3 by (apply (bound_stable s _ tx t); done). rewrite (on_so_at tx t3 j o) by done. rewrite ret_bind.
    set (o' := clear_dirty (mark_off t.(num_faces) o)). pose proof (mark_off_keeps t.(num_faces) o) as Hk. fold o' in Hk.
    assert (shape no_gap l (put_so j o' s)) as Hs4 by (eapply shape_put_quiet; [exact Hs|exact Ht|exact Hb|exact Hk|reflexivity]).
    assert (bound (put_so j o' s) tx t j o') as Hb4 by (by apply (bound_put_same s tx t j o o')).
    assert (paging E [] (k + 2) ρ s d id v3 w4 g3) as Hp4. { split; [done|]. split; [done|]. exists fs. split; [done|]. exact Ho4. }
    assert (forall s5, shape no_gap l s5 -> s5.(textures) = s.(textures) -> same_base s s5 -> s5.(sys_objs) !! j = Some o' -> s5.(handles) = s.(handles) ->
      forall v' w' g', isIdValid v'.(gmr_id) = false -> v'.(md) = Some d -> owned E (k + 3) ρ s5 w' g' -> Q (kIOReturnSuccess, with_xfer ltx u v' s5) w' nf3 g') as Hend.
    { intros s5 Hs5 Et5 Hb5 Hj5 Hh5 v' w' g' Hv1 Hv2 Ho'. assert (s5.(textures) !! tx = Some t) as Ht5 by (by rewrite Et5). assert (s5.(textures) !! ltx = Some u) as Hu5 by (by rewrite Et5).
      destruct (lookup_with_xfer s5 tx t ltx u v' Ht5 Hu5) as (t' & Ht' & _ & _ & _ & F4'). apply (HQ _ o' t'); [|by etransitivity; [exact Hb5|split]|done| |by right; right|].
      - apply shape_with_xfer; try done; eauto.
      - destruct Hb4 as [B1 B2 B3 B4 B5 B6]. split; cbn; try done; [by rewrite F4'|by rewrite Hh5].
      - apply owned_with_xfer; [done|by rewrite Hv2, Ed|done]. }
    destruct (Z.eqb_spec t.(sys_obj_type) TEX_TYPE_OOB) as [Eo|Eo].
    + assert ((put_so j o' s).(textures) !! ltx = Some u) as Hu4 by done. destruct (sp_bound _ _ _ Hs4 ltx u Hu4) as (jl & ol & Hbl); [apply not_elem_of_nil|].
      assert (jl <> j) as Hjl. { intros ->. apply (Hne Eo). by apply (bound_inj (put_so j o' s) _ u ol _ t j o'). }
      rewrite (on_so_at ltx (set_xfer v3 u) jl ol); [|apply lookup_at|by apply (bound_stable (put_so j o' s) _ ltx u)].
      rewrite ret_bind. apply wp_bind. eapply (wp_complete_tx E [] (k + 2) ρ s ltx u d id v3); [done|done|apply (sp_provider _ _ _ Hs)|exact Hp4|]. intros v' w' g' Hv1 Hv2 Ho'.
      apply wp_ret. unfold s3. rewrite with_xfer_put2. apply Hend; [by eapply shape_put_quiet; [exact Hs4|exact Hu4|exact Hbl|apply vstate_keeps|]|done|by split| |done|done|done|].
      * cbn. rewrite list_lookup_insert_ne by done. by destruct Hb4.
      * do 2 apply owned_put. eapply owns_le; [|exact Ho']. apply res_with_le; [lia|done|done].
    + rewrite ret_bind. apply wp_bind. eapply (wp_complete_tx E [] (k + 2) ρ s ltx u d id v3); [done|done|apply (sp_provider _ _ _ Hs)|exact Hp4|]. intros v' w' g' Hv1 Hv2 Ho'.
      apply wp_ret. unfold s3. rewrite with_xfer_put. apply Hend; [done|done|by split|by destruct Hb4|done|done|done|]. apply owned_put. eapply owns_le; [|exact Ho']. apply res_with_le; [lia|done|done].
  - apply wp_bind. eapply (wp_complete_tx E [m.(mp_ref)] (k + 2) ρ s ltx u d id v3); [done|done|apply (sp_provider _ _ _ Hs)|exact Hp3|]. intros v' w' g' Hv1 Hv2 Ho'. rewrite with_xfer_again.
    apply wp_bind. eapply (wp_release_extra E (k + 3) ρ m.(mp_ref) s); [eapply owns_le; [|exact Ho']; split; cbn; try done; [lia|solve_Permutation]|]. intros w5 Ho5. apply wp_ret. by apply Hfail.
Qed.
End pageoff_main.

(** ** The end of the object *)

(** What is left of the invariant while all textures go, in the order of their handles. *)
Record tabled (s : Shared) : Prop := {
  tb_null : s.(textures) !! 0 = None;
  tb_bound p t : s.(textures) !! p = Some t -> exists j o, bound s p t j o;
  tb_handle i h : s.(handles) !! i = Some h -> h <> 0 -> exists t j o, s.(textures) !! h = Some t /\ bound s h t j o /\ Z.to_nat o.(object_id) = i;
  tb_table : s.(m_num_handles) = Z.of_nat (length s.(handles)) /\ (s.(m_handle_table) = None -> s.(handles) = []);
  tb_provider : s.(sh_provider) = true;
}.

Lemma shape_tabled l s : shape no_gap l s -> tabled s.
Proof.
  intros [H1 H2 H3 H4 H5 H6 H7 H8 H9 H10 (T1 & T2 & T3) H12 H13]. split; try done.
  - intros p t Hp. apply (H6 p t Hp), not_elem_of_nil.
  - intros i h Hi Hh. by destruct (H7 i h Hi Hh).
Qed.

Section cleanup.
Context (E : env).
Implicit Types (w : world) (nf : Z) (g : monitor) (ρ : res).

Lemma tabled_end s s' p t t' j o : tabled s -> s.(textures) !! p = Some t -> bound s p t j o -> s'.(textures) = delete p (<[p := t']> s.(textures)) ->
  s'.(handles) = <[Z.to_nat o.(object_id) := 0]> s.(handles) -> s'.(sys_objs) = <[j := zero_object]> s.(sys_objs) ->
  s'.(m_num_handles) = s.(m_num_handles) -> s'.(m_handle_table) = s.(m_handle_table) -> s'.(sh_provider) = true -> tabled s'.
Proof.
  intros [H1 H2 H3 [T1 T2] H5] Ht Hb Et Eh Eo En Em Ep. pose proof Hb as [B1 B2 B3 B4 B5 B6]. rewrite delete_insert_eq in Et.
  assert (forall q u j2 o2, q <> p -> bound s q u j2 o2 -> bound s' q u j2 o2) as Hto.
  { intros q u j2 o2 Hqp Hb2. assert (j2 <> j) by (intros ->; apply Hqp; by apply (bound_inj s q u o2 p t j o)). destruct Hb2 as [C1 C2 C3 C4 C5 C6].
    split; rewrite ?Eh, ?Eo; try done; [by rewrite list_lookup_insert_ne|]. rewrite list_lookup_insert_ne; [done|]. intros Ei. rewrite Ei in B5. congruence. }
  split; try done.
  - rewrite Et, lookup_delete_None. by right.
  - intros q u. rewrite Et. intros [Hq Hu]%lookup_delete_Some. destruct (H2 q u Hu) as (j2 & o2 & Hb2). exists j2, o2. by apply Hto.
  - intros i h Hi Hh. rewrite Eh in Hi. assert (Z.to_nat o.(object_id) <> i) as Hio. { intros <-. rewrite list_lookup_insert_eq in Hi by (by eapply lookup_lt_Some). by simplify_eq. }
    rewrite list_lookup_insert_ne in Hi by done. destruct (H3 i h Hi Hh) as (u & j2 & o2 & Eu & Hb2 & Ei).
    assert (h <> p) as Hhp. { intros ->. assert (u = t) as -> by congruence. by destruct (bound_fun _ _ _ _ _ _ _ Hb Hb2) as [-> ->]. }
    exists u, j2, o2. rewrite Et, lookup_delete_ne by done. split; [done|]. split; [by apply Hto|done].
  - rewrite Eh, En, Em, length_insert. split; [done|]. intros Ex. by rewrite (T2 Ex).
Qed.

Lemma wp_cleanup_handle k ρ i s (Q : post Shared) w nf g : tabled s -> (i < length s.(handles))%nat -> owned E k ρ s w g ->
  (forall s' w' g', tabled s' -> s'.(handles) = <[i := 0]> s.(handles) -> same_base s s' -> s'.(m_client_sys_objs_map) = s.(m_client_sys_objs_map) ->
     owned E (k + 2) ρ s' w' g' -> Q s' w' nf g') ->
  wp (cleanup_handle i s) Q w nf g.
Proof.
  intros Hs Hi Ho HQ. destruct (lookup_lt_is_Some_2 s.(handles) i Hi) as [h Hh]. unfold cleanup_handle. rewrite Hh. cbn [deref]. rewrite ret_bind.
  destruct (Z.eqb_spec h 0) as [->|Hh0].
  { apply wp_ret, HQ; [done|by rewrite list_insert_id|done|done|eapply owned_mono; [exact Ho|lia]]. }
  destruct (tb_handle s Hs i h Hh Hh0) as (t & j & o & Ht & Hb & Ei). pose proof Hb as [B1 B2 B3 B4 B5 B6]. pose proof (tb_table s Hs) as [T1 T2].
  unfold forget_texture. rewrite (get_tx_at h t) by done. rewrite ret_bind, (get_so_at h t j o s Hb), !ret_bind.
  assert (free_buf_handle h o.(object_id) s = set_handles (<[i := 0]> s.(handles)) s) as ->.
  { unfold free_buf_handle. rewrite Ei, (bool_decide_eq_false_2 (_ = None)), (bool_decide_eq_true_2 (_ = Some h)); [|done|intros Ex; rewrite (T2 Ex) in Hi; cbn in Hi; lia].
    destruct (Z.leb_spec s.(m_num_handles) o.(object_id)); [lia|]. done. }
  rewrite B1. cbn [free_client_shared]. set (s1 := put_so j zero_object _). change (sh_provider s1) with (sh_provider s). rewrite (tb_provider s Hs).
  assert (s1.(textures) !! h = Some t) as Ht1 by done. apply wp_bind. eapply (wp_finalize E k ρ h t); [done|apply (owned_tables E k ρ s); [by destruct s|done]|].
  intros w2 g2 Ho2. destruct (finalized_bare t) as [Hbare _]. eapply (wp_free_block E _ ρ h (finalized t)); [apply lookup_at|done|exact Ho2|]. intros w3 Ho3.
  apply HQ; [|done|by split|done|done]. eapply (tabled_end s _ h t (finalized t) j o); try done; [|apply (tb_provider s Hs)]. cbn. by rewrite Ei.
Qed.

Lemma wp_cleanup_handles l : forall k ρ s (Q : post Shared) w nf g, tabled s -> Forall (fun i => i < length s.(handles))%nat l -> owned E k ρ s w g ->
  (forall s' w' g', tabled s' -> (forall i h, s'.(handles) !! i = Some h -> h = 0 \/ ((i ∉ l) /\ s.(handles) !! i = Some h)) -> length s'.(handles) = length s.(handles) ->
     same_base s s' -> s'.(m_client_sys_objs_map) = s.(m_client_sys_objs_map) -> owned E (k + 2 * Z.of_nat (length l)) ρ s' w' g' -> Q s' w' nf g') ->
  wp (cleanup_handles l s) Q w nf g.
Proof.
  induction l as [|i l IH]; intros k ρ s Q w nf g Hs Hl Ho HQ.
  - apply wp_ret, HQ; try done; [intros i h Hi; right; split; [apply not_elem_of_nil|done]|eapply owned_mono; [exact Ho|cbn; lia]].
  - apply Forall_cons in Hl as [Hi Hl]. cbn [cleanup_handles]. apply wp_bind. eapply (wp_cleanup_handle k ρ i s); [done|done|exact Ho|].
    intros s1 w1 g1 Hs1 Eh1 Hb1 Em1 Ho1. eapply (IH (k + 2) ρ s1); [done|by rewrite Eh1, length_insert|exact Ho1|]. intros s2 w2 g2 Hs2 Hh2 Hl2 Hb2 Em2 Ho2.
    apply HQ; [done| |by rewrite Hl2, Eh1, length_insert|by etransitivity|by rewrite Em2|eapply owned_mono; [exact Ho2|cbn; lia]].
    intros i' h Hi'. destruct (Hh2 i' h Hi') as [->|[Hn Hx]]; [by left|]. rewrite Eh1 in Hx. destruct (decide (i = i')) as [<-|Hii].
    + rewrite list_lookup_insert_eq in Hx by done. left. congruence.
    + rewrite list_lookup_insert_ne in Hx by done. right. split; [|done]. by apply not_elem_of_cons.
Qed.

Lemma tabled_empty s : tabled s -> (forall i h, s.(handles) !! i = Some h -> h = 0) -> s.(textures) = ∅.
Proof.
  intros Hs Hz. apply map_eq. intros p. rewrite lookup_empty. destruct (s.(textures) !! p) as [t|] eqn:Ht; [|done]. destruct (tb_bound s Hs p t Ht) as (j & o & [_ _ _ _ Hh _]).
  apply Hz in Hh. subst. by rewrite (tb_null s Hs) in Ht.
Qed.

(** [Cleanup] gives everything back. *)
Lemma wp_Cleanup k ρ l s (Q : post Shared) w nf g : shape no_gap l s -> owned E k ρ s w g ->
  (forall s' w' g', s'.(m_handle_table) = None -> s'.(m_shared_lock) = None -> s'.(m_client_sys_objs_map) = None -> s'.(textures) = ∅ ->
     owns E (res_with (k + 256) [] [] ρ) w' g' -> Q s' w' nf g') ->
  wp (Cleanup s) Q w nf g.
Proof.
  intros Hs Ho HQ. pose proof (sp_table _ _ _ Hs) as (T1 & T2 & T3). unfold Cleanup. apply wp_bind. rewrite T1, Nat2Z.id. eapply (wp_cleanup_handles _ k ρ s); [by eapply shape_tabled| |exact Ho|].
  { apply Forall_forall. intros i Hi%elem_of_seq. lia. }
  intros s1 w1 g1 Hs1 Hh1 Hl1 [Hb1 Hb2 _] Em1 Ho1. assert (s1.(textures) = ∅) as Et.
  { apply tabled_empty; [done|]. intros i h Hi. destruct (Hh1 i h Hi) as [|[Hn Hx]]; [done|]. destruct Hn. apply elem_of_seq. apply lookup_lt_Some in Hx. lia. }
  rewrite length_seq in Ho1. apply (owns_le _ _ (res_with (k + 256) (opt_ref id s1.(m_handle_table) (opt_ref mp_ref s1.(m_client_sys_objs_map) (opt_ref id s1.(m_shared_lock) []))) [] ρ)) in Ho1.
  2: { apply res_with_le; [lia| |unfold live_of; rewrite Et; done]. unfold refs_of, base_refs. rewrite Et. destruct (m_handle_table s1), (m_client_sys_objs_map s1), (m_shared_lock s1); cbn; solve_Permutation. }
  apply wp_bind. unfold free_handles. change (m_handle_table (set_m_texture_list 0 s1)) with (m_handle_table s1).
  assert (forall s2 w2, s2.(m_handle_table) = None -> s2.(m_shared_lock) = s1.(m_shared_lock) -> s2.(m_client_sys_objs_map) = s1.(m_client_sys_objs_map) -> s2.(textures) = ∅ ->
    owns E (res_with (k + 256) (opt_ref mp_ref s1.(m_client_sys_objs_map) (opt_ref id s1.(m_shared_lock) [])) [] ρ) w2 g1 ->
    wp (release_map s2.(m_client_sys_objs_map);; let s := set_sys_objs [] (set_m_client_sys_objs_map None s2) in
        match s.(m_shared_lock) with Some l => release l;; mret (set_m_shared_lock None s) | None => mret s end) Q w2 nf g1) as Hrest.
  { intros s2 w2 F1 F2 F3 F4 Ho2. apply wp_bind. rewrite F3. eapply wp_drop_map; [exact Ho2|]. intros w3 Ho3. cbv zeta. cbn [m_shared_lock set_sys_objs set_m_client_sys_objs_map]. rewrite F2.
    destruct (m_shared_lock s1) as [lk|] eqn:El; [|apply wp_ret, HQ; try done; by rewrite F2].
    apply wp_bind. eapply wp_release; [exact Ho3|cbn; reflexivity|]. intros w4 Ho4 _. apply wp_ret, HQ; try done. }
  destruct (m_handle_table s1) as [b|] eqn:Eb.
  - apply wp_bind. eapply wp_release; [exact Ho1|cbn; reflexivity|]. intros w2 Ho2 _. apply wp_ret, Hrest; done.
  - apply wp_ret, Hrest; done.
Qed.
End cleanup.

(** ** The start *)

Section life.
Context (E : env).
Implicit Types (w : world) (nf : Z) (g : monitor) (ρ : res).

(** An object that was not initialised has nothing to give back. *)
Lemma Cleanup_empty task b : exists s, Cleanup (mk_Shared task b None [] 0 0 None [] None ∅) = mret s.
Proof. eexists. unfold Cleanup. cbn. reflexivity. Qed.

Lemma shape_start task b lk : shape no_gap [] (mk_Shared task true (Some b) (replicate NUM_TEXTURE_HANDLES 0) (Z.of_nat NUM_TEXTURE_HANDLES) 0 None [] (Some lk) ∅).
Proof.
  split; cbn [textures handles sys_objs m_num_handles m_handle_table m_client_sys_objs_map sh_provider m_texture_list]; try done.
  - apply dll_nil.
  - intros p. rewrite lookup_empty, !elem_of_nil. split; [by intros [? ?]|by intros [[]|[]]].
  - intros i h Hi%lookup_replicate. destruct Hi as [-> _]. done.
Qed.

Lemma wp_factory k ρ super_init task (Q : post (option (Z * Shared))) w nf g : owns E (res_with k [] [] ρ) w g ->
  (forall w', owns E (res_with k [] [] ρ) w' g -> Q None w' nf g) ->
  (forall r s w', shape no_gap [] s -> s.(sh_owning_task) = task -> is_Some s.(m_shared_lock) -> s.(textures) = ∅ -> owned E k (add_ref r ρ) s w' g -> Q (Some (r, s)) w' nf g) ->
  wp (factory super_init task true) Q w nf g.
Proof.
  intros Ho Hno Hyes. unfold factory. apply wp_bind. eapply wp_new_object; [exact Ho|]. intros [r|] w1 Ho1 _ _; [|by apply wp_ret, Hno].
  assert (forall task b w2, owns E (set_r_refs (r :: ρ.(r_refs)) (res_with k [] [] ρ)) w2 g ->
    wp (free_shared (mk_Shared task b None [] 0 0 None [] None ∅);; release r;; mret (@None (Z * Shared))) Q w2 nf g) as Hundo.
  { intros task' b' w2 Ho2. unfold free_shared. destruct (Cleanup_empty task' b') as [s' ->]. rewrite ret_bind. apply wp_bind. eapply wp_release; [exact Ho2|cbn; reflexivity|]. intros w3 Ho3 _. by apply wp_ret, Hno. }
  apply wp_bind. unfold init_shared. destruct super_init; cbn [negb]; [|by apply wp_ret, Hundo]. apply wp_bind. eapply wp_IOMalloc; [exact Ho1|]. intros [lk|] w2 Ho2 _; [|by apply wp_ret, Hundo].
  apply wp_bind. unfold alloc_handles. apply wp_bind. eapply wp_IOMalloc; [exact Ho2|]. intros [b|] w3 Ho3 _.
  - apply wp_ret, wp_ret. apply wp_ret, Hyes; [apply shape_start|done|by eexists|done|]. eapply owns_le; [|exact Ho3]. split; cbn; done.
  - apply wp_ret. apply wp_bind. eapply wp_release; [exact Ho3|cbn; reflexivity|]. intros w4 Ho4 _. apply wp_ret, Hundo. exact Ho4.
Qed.
End life.
