(* ===== verification/GlTextures.v ===== *)
(** The textures of an OpenGL context (AC/UC/CEsvga2GLContext2.cpp): a texture gets a
    surface of the device ([create_host_surface_for_texture]), the images that are only in
    memory are copied to it ([alloc_and_load_texture]), and drawing marks an image as being
    on the device only ([dirtyTexture]).  The contexts of a task work on the textures of
    the object that they share ([Shared]).

    [headers] is what the client has in the first page of a texture.  A command that
    defines a surface is sent as one: the source announces it, stores the sizes and
    commits, under the lock. *)

From S2P Require Import Allocator.
From S2P Require Import Prelude IOKit Layout SvgaReg Svga3dReg Svga3d AccelIds AccelBlit Accel AccelSpec ShaderCache Provider.
From S2P Require Import AccelGmr VertexArray DevCaps Kernel Transfer Surface Shared.
From stdpp Require Import gmap gmultiset.
From stdpp Require Import list_relations list.

#[local] Open Scope Z_scope.

Local Abbreviation prog := (prog kernel).

(** ** Formats *)

Definition default_color_format (bytespp sys_obj_type : Z) : Z :=
  if bytespp =? 4 then SVGA3D_A8R8G8B8
  else if bytespp =? 2 then SVGA3D_LUMINANCE16
  else if bytespp =? 1 then if negb (sys_obj_type =? TEX_TYPE_AGPREF) then SVGA3D_LUMINANCE8 else SVGA3D_BUFFER
  else SVGA3D_FORMAT_INVALID.

Definition default_depth_format (bytespp : Z) : Z :=
  if bytespp =? 4 then SVGA3D_Z_D24S8
  else if bytespp =? 2 then SVGA3D_Z_D16
  else if bytespp =? 1 then SVGA3D_LUMINANCE8
  else SVGA3D_FORMAT_INVALID.

Definition select_default_format (t : TextureBuffer) (usage : Z) : Z :=
  if negb (usage =? 0) then default_depth_format t.(bytespp) else default_color_format t.(bytespp) t.(sys_obj_type).

Definition sanitize_face (face : Z) : Z := if 6 <=? face then 0 else face.
Definition sanitize_mipmap (mipmap : Z) : Z := if 12 <=? mipmap then 0 else mipmap.

Definition yuv_pairs : list (Z * Z) :=
  [(SVGA3D_UYVY : Z, SVGA3D_DEVCAP_SURFACEFMT_UYVY : Z); (SVGA3D_YUY2 : Z, SVGA3D_DEVCAP_SURFACEFMT_YUY2 : Z)].

Fixpoint yuv_loop (pairs : list (Z * Z)) (format : Z) : prog bool :=
  match pairs with
  | [] => mret false
  | (f, cap) :: pairs =>
      if format =? f then
        c ← getDevCap cap;
        if Z.land c (Z.lor SVGA3DFORMAT_OP_CONVERT_TO_ARGB SVGA3DFORMAT_OP_TEXTURE) =? SVGA3DFORMAT_OP_CONVERT_TO_ARGB then mret true
        else yuv_loop pairs format
      else yuv_loop pairs format
  end.

Definition need_yuv_shadow (format : Z) : prog bool := yuv_loop yuv_pairs format.

(** ** Pages *)

Definition isPagedOff (o : GLDSysObject) (face mipmap : Z) : prog bool :=
  if (6 <=? face) || (16 <=? mipmap) then mret false
  else
    off ← deref (o.(pageoff) !! Z.to_nat face);
    on ← deref (o.(pageon) !! Z.to_nat face);
    mret (Z.testbit (Z.ldiff off on) mipmap).

Fixpoint any_off (l : list Z) (o : GLDSysObject) : prog bool :=
  match l with
  | [] => mret false
  | i :: l =>
      off ← deref (o.(pageoff) !! Z.to_nat i);
      on ← deref (o.(pageon) !! Z.to_nat i);
      if negb (Z.ldiff off on =? 0) then mret true else any_off l o
  end.
Definition areAnyPagedOff (o : GLDSysObject) : prog bool := any_off (seqZ 0 6) o.

(** [pageoff[face] &= ~(1 << mipmap); pageon[face] |= 1 << mipmap;] on words of 16 bits. *)
Definition mark_dirty (face mipmap : Z) (o : GLDSysObject) : prog GLDSysObject :=
  off ← deref (o.(pageoff) !! Z.to_nat face);
  on ← deref (o.(pageon) !! Z.to_nat face);
  mret (set_pageon (<[Z.to_nat face := wrap 16 (Z.lor on (Z.shiftl 1 mipmap))]> o.(pageon))
         (set_pageoff (<[Z.to_nat face := Z.ldiff off (Z.shiftl 1 mipmap)]> o.(pageoff)) o)).

Definition dirtyTexture (tx face mipmap : Z) (s : Shared) : prog Shared :=
  if tx =? 0 then mret s
  else
    t ← get_tx tx s;
    match t.(sys_obj) with
    | None => mret s
    | Some j =>
        if t.(sys_obj_type) =? TEX_TYPE_IOSURFACE then mret s
        else o ← deref (s.(sys_objs) !! j); o ← mark_dirty face mipmap o; mret (put_so j o s)
    end.

(** ** The surface of a texture *)

(** The sizes that the loops store: those of images without pixels stay zero.  A division
    by zero is [Wild]. *)
Fixpoint mip_sizes (headers : Z -> GLDTextureHeader) (m : mapping) (t : TextureBuffer) (l : list (Z * Z)) : prog (list SVGA3dSize) :=
  match l with
  | [] => mret []
  | (face, mipmap) :: l =>
      gld_th ← header_at headers m (t.(min_mipmap) + 12 * face + mipmap);
      size ← (if gld_th.(pixels_in_client) =? 0 then mret (mk_SVGA3dSize 0 0 0)
              else if t.(bytespp) =? 0 then Wild
              else mret (mk_SVGA3dSize (gld_th.(width_bytes) / t.(bytespp)) gld_th.(th_height) gld_th.(th_depth)));
      sizes ← mip_sizes headers m t l;
      mret (size :: sizes)
  end.

(** [faces[face].numMipLevels = levels] for the first [n] of the six faces, which were zero. *)
Definition face_levels (n levels : Z) : list SVGA3dSurfaceFace :=
  (fun i => mk_SVGA3dSurfaceFace (if i <? n then levels else 0)) <$> seqZ 0 6.

Definition host_flags (t : TextureBuffer) : Z :=
  if (t.(surface_format) =? SVGA3D_Z_D24S8) || (t.(surface_format) =? SVGA3D_Z_D16) then SVGA3D_SURFACE_HINT_DEPTHSTENCIL
  else if t.(num_faces) =? 6 then Z.lor SVGA3D_SURFACE_HINT_TEXTURE SVGA3D_SURFACE_CUBEMAP
  else SVGA3D_SURFACE_HINT_TEXTURE.

(** The end at [clean1]. *)
Definition forget_surface (rc : IOReturn) (tx sid : Z) (s : Shared) : prog (IOReturn * Shared) :=
  freeSurfaceID sid;; s ← on_tx tx (set_surface_id SVGA_ID_INVALID) s; mret (rc, s).

(** The case [TEX_TYPE_AGPREF]; formats that the device only converts get a second surface. *)
Definition host_agpref (tx sid : Z) (t : TextureBuffer) (s : Shared) : prog (IOReturn * Shared) :=
  yuv ← need_yuv_shadow t.(surface_format);
  let size := [mk_SVGA3dSize t.(tx_width) t.(tx_height) t.(tx_depth)] in
  if yuv : bool then
    shadow ← allocSurfaceID;
    s ← on_tx tx (set_yuv_shadow shadow) s;
    ok ← lock3D;
    if negb ok then
      freeSurfaceID shadow;;
      s ← on_tx tx (set_yuv_shadow SVGA_ID_INVALID) s;
      forget_surface kIOReturnNotReady tx sid s
    else
      direct_call (DDefineSurface sid (Z.lor SVGA3D_SURFACE_HINT_TEXTURE SVGA3D_SURFACE_HINT_RENDERTARGET) SVGA3D_A8R8G8B8
                     (face_levels 1 1) size);;
      direct_call (DDefineSurface shadow 0 t.(surface_format) (face_levels 1 1) size);;
      mret (kIOReturnSuccess, s)
  else
    ok ← lock3D;
    if negb ok then forget_surface kIOReturnNotReady tx sid s
    else
      direct_call (DDefineSurface sid SVGA3D_SURFACE_HINT_TEXTURE t.(surface_format) (face_levels 1 1) size);;
      mret (kIOReturnSuccess, s).

(** The cases [TEX_TYPE_STD] and [TEX_TYPE_OOB]; a store past the six faces is [Wild]. *)
Definition host_images (headers : Z -> GLDTextureHeader) (tx sid : Z) (t : TextureBuffer) (s : Shared) : prog (IOReturn * Shared) :=
  '(rc, mmap) ← mapGLDTextureHeader t;
  if negb (bool_decide (rc = kIOReturnSuccess)) then forget_surface rc tx sid s
  else
    m ← deref mmap;
    ok ← lock3D;
    if negb ok then release m.(mp_ref);; forget_surface kIOReturnNotReady tx sid s
    else if 6 <? t.(num_faces) then Wild
    else
      sizes ← mip_sizes headers m t (images t);
      direct_call (DDefineSurface sid (host_flags t) t.(surface_format) (face_levels t.(num_faces) t.(num_mipmaps)) sizes);;
      release m.(mp_ref);;
      mret (kIOReturnSuccess, s).

(** [provider]: the context has one. *)
Definition create_host_surface_for_texture (provider : bool) (headers : Z -> GLDTextureHeader) (tx : Z) (s : Shared)
    : prog (IOReturn * Shared) :=
  if negb provider then mret (kIOReturnNotReady, s)
  else if tx =? 0 then mret (kIOReturnBadArgument, s)
  else
    t ← get_tx tx s;
    if t.(sys_obj_type) =? TEX_TYPE_SURFACE then mret (kIOReturnSuccess, s)
    else if isIdValid t.(surface_id) then mret (kIOReturnSuccess, s)
    else
      sid ← allocSurfaceID;
      s ← on_tx tx (set_surface_id sid) s;
      if t.(sys_obj_type) =? TEX_TYPE_AGPREF then host_agpref tx sid t s
      else if (t.(sys_obj_type) =? TEX_TYPE_STD) || (t.(sys_obj_type) =? TEX_TYPE_OOB) then host_images headers tx sid t s
      else forget_surface kIOReturnUnsupported tx sid s.

(** ** Loading *)

(** The fence of the transfer is stored in the texture whose memory it reads. *)
Definition store_fence (ltx : Z) (r : IOReturn * option Z) (s : Shared) : prog Shared :=
  match r.2 with Some f => on_tx ltx (fun t => set_xfer (set_fence f t.(xfer)) t) s | None => mret s end.

(** One image.  The last line of an image over memory of the client is copied on its own
    where the device would find the whole image too large. *)
Definition load_image (headers : Z -> GLDTextureHeader) (m : mapping) (tx ltx gmr face mipmap : Z) (s : Shared)
    : prog (IOReturn * Shared) :=
  t ← get_tx tx s;
  gld_th ← header_at headers m (t.(min_mipmap) + 12 * face + mipmap);
  '(_, o) ← get_so t s;
  off ← isPagedOff o face mipmap;
  if (gld_th.(pixels_in_client) =? 0) || negb off then mret (kIOReturnSuccess, s)
  else if t.(bytespp) =? 0 then Wild
  else
    let image := mk_SVGA3dSurfaceImageId t.(surface_id) face mipmap in
    let w := gld_th.(width_bytes) / t.(bytespp) in
    let h := gld_th.(th_height) in
    l ← get_tx ltx s;
    r ← (if (t.(sys_obj_type) =? TEX_TYPE_OOB) && (gld_th.(th_depth) =? 1) &&
            (l.(agp_size) <? u64 (gld_th.(offset_in_client) + h * gld_th.(th_pitch))) then
           let h' := u32 (h - 1) in
           ask (OpSurfaceDMA3D image SVGA3D_WRITE_HOST_VRAM (Some (mk_SVGA3dCopyBox 0 0 0 w h' gld_th.(th_depth) 0 0 0))
                  (Some (mk_ExtraInfoEx gld_th.(offset_in_client) gld_th.(th_pitch) 0xFFFFFFFF gmr 3)) false);;
           ask (OpSurfaceDMA3D image SVGA3D_WRITE_HOST_VRAM (Some (mk_SVGA3dCopyBox 0 h' 0 w 1 gld_th.(th_depth) 0 0 0))
                  (Some (mk_ExtraInfoEx (u64 (gld_th.(offset_in_client) + h' * gld_th.(th_pitch))) gld_th.(width_bytes) 0xFFFFFFFF gmr 2)) true)
         else
           ask (OpSurfaceDMA3D image SVGA3D_WRITE_HOST_VRAM (Some (mk_SVGA3dCopyBox 0 0 0 w h gld_th.(th_depth) 0 0 0))
                  (Some (mk_ExtraInfoEx gld_th.(offset_in_client) gld_th.(th_pitch) 0xFFFFFFFF gmr 3)) true));
    s ← store_fence ltx r s;
    mret (r.1, s).

Fixpoint load_images (headers : Z -> GLDTextureHeader) (m : mapping) (tx ltx gmr : Z) (l : list (Z * Z)) (s : Shared)
    : prog (IOReturn * Shared) :=
  match l with
  | [] => mret (kIOReturnSuccess, s)
  | (face, mipmap) :: l =>
      '(rc, s) ← load_image headers m tx ltx gmr face mipmap s;
      if bool_decide (rc = kIOReturnSuccess) then load_images headers m tx ltx gmr l s else mret (rc, s)
  end.

(** [pageon[face] |= pageoff[face]] for the faces of the texture. *)
Definition mark_on (faces : Z) (o : GLDSysObject) : GLDSysObject :=
  set_pageon (imap (fun i x => if Z.of_nat i <? faces then Z.lor x (nth i o.(pageoff) 0) else x) o.(pageon)) o.

Definition note_volatile (o : GLDSysObject) : GLDSysObject := set_vstate (Z.lor o.(vstate) 2) o.
Definition is_volatile (o : GLDSysObject) : bool := negb (Z.land o.(vstate) 0x10 =? 0).

Definition release_opt (m : option mapping) : prog unit := match m with Some m => release m.(mp_ref) | None => mret tt end.

(** The copy of a texture over memory of the client, and to its second surface. *)
Definition load_agpref (tx ltx gmr : Z) (s : Shared) : prog Shared :=
  t ← get_tx tx s;
  let sid := if isIdValid t.(yuv_shadow) then t.(yuv_shadow) else t.(surface_id) in
  r ← ask (OpSurfaceDMA3D (mk_SVGA3dSurfaceImageId sid 0 0) SVGA3D_WRITE_HOST_VRAM
        (Some (mk_SVGA3dCopyBox 0 0 0 t.(tx_width) t.(tx_height) t.(tx_depth) 0 0 0))
        (Some (mk_ExtraInfoEx t.(agp_addr) t.(tx_pitch) 0xFFFFFFFF gmr 3)) true);
  s ← store_fence ltx r s;
  (if isIdValid t.(yuv_shadow) then
     let rect := mk_bounds 0 0 (s16 t.(tx_width)) (s16 t.(tx_height)) in
     ask (OpSurfaceStretch t.(yuv_shadow) t.(surface_id) SVGA3D_STRETCH_BLT_POINT rect rect);; mret tt
   else mret tt);;
  mret s.

Definition complete_with (provider : bool) (p : Z) (s : Shared) : prog Shared :=
  t ← get_tx p s; v ← complete provider t.(xfer); on_tx p (set_xfer v) s.

(** From the preparation of the memory on; [mmap] is null for [TEX_TYPE_AGPREF]. *)
Definition load_into (provider : bool) (headers : Z -> GLDTextureHeader) (mmap : option mapping) (tx ltx : Z) (s : Shared)
    : prog (IOReturn * Shared) :=
  l ← get_tx ltx s;
  '(rc, v) ← prepare provider l.(xfer);
  s ← on_tx ltx (set_xfer v) s;
  if negb (bool_decide (rc = kIOReturnSuccess)) then release_opt mmap;; mret (rc, s)
  else
    match mmap with
    | None => s ← load_agpref tx ltx v.(gmr_id) s; s ← complete_with provider ltx s; mret (kIOReturnSuccess, s)
    | Some m =>
        t ← get_tx tx s;
        '(rc, s) ← load_images headers m tx ltx v.(gmr_id) (images t) s;
        if negb (bool_decide (rc = kIOReturnSuccess)) then
          s ← complete_with provider ltx s;
          release m.(mp_ref);;
          mret (rc, s)
        else
          release m.(mp_ref);;
          s ← on_so tx (mark_on t.(num_faces)) s;
          s ← complete_with provider ltx s;
          mret (kIOReturnSuccess, s)
    end.

(** From the call of [create_host_surface_for_texture] on. *)
Definition load_from (provider : bool) (headers : Z -> GLDTextureHeader) (mmap : option mapping) (tx ltx : Z) (s : Shared)
    : prog (IOReturn * Shared) :=
  '(rc, s) ← create_host_surface_for_texture provider headers tx s;
  if negb (bool_decide (rc = kIOReturnSuccess)) then release_opt mmap;; mret (rc, s)
  else load_into provider headers mmap tx ltx s.

Definition alloc_and_load_texture (provider : bool) (headers : Z -> GLDTextureHeader) (tx : Z) (s : Shared)
    : prog (IOReturn * Shared) :=
  if negb provider then mret (kIOReturnNotReady, s)
  else if tx =? 0 then mret (kIOReturnBadArgument, s)
  else
    t ← get_tx tx s;
    if t.(surface_format) =? SVGA3D_FORMAT_INVALID then mret (kIOReturnNotReady, s)
    else if t.(sys_obj_type) =? TEX_TYPE_SURFACE then mret (kIOReturnSuccess, s)
    else
      '(j, o) ← get_so t s;
      if is_volatile o then mret (kIOReturnSuccess, put_so j (note_volatile o) s)
      else if t.(sys_obj_type) =? TEX_TYPE_AGPREF then
        if t.(linked_agp) =? 0 then mret (kIOReturnBadArgument, s)
        else
          l ← get_tx t.(linked_agp) s;
          '(_, ol) ← get_so l s;
          if is_volatile ol then mret (kIOReturnSuccess, put_so j (note_volatile o) s)
          else load_from provider headers None tx t.(linked_agp) s
      else if (t.(sys_obj_type) =? TEX_TYPE_STD) || (t.(sys_obj_type) =? TEX_TYPE_OOB) then
        any ← areAnyPagedOff o;
        if negb any then mret (kIOReturnSuccess, s)
        else if (t.(sys_obj_type) =? TEX_TYPE_OOB) && (t.(linked_agp) =? 0) then mret (kIOReturnBadArgument, s)
        else
          let ltx := if t.(sys_obj_type) =? TEX_TYPE_OOB then t.(linked_agp) else tx in
          l ← get_tx ltx s;
          '(_, ol) ← get_so l s;
          if (t.(sys_obj_type) =? TEX_TYPE_OOB) && is_volatile ol then mret (kIOReturnSuccess, put_so j (note_volatile o) s)
          else
            '(rc, mmap) ← mapGLDTextureHeader t;
            if negb (bool_decide (rc = kIOReturnSuccess)) then mret (rc, s)
            else m ← deref mmap; load_from provider headers (Some m) tx ltx s
      else mret (kIOReturnUnsupported, s).

(** A texture that becomes the target of drawing and has no format gets one. *)
Definition choose_format (usage tx : Z) (s : Shared) : prog Shared :=
  t ← get_tx tx s;
  if t.(surface_format) =? SVGA3D_FORMAT_INVALID then on_tx tx (set_surface_format (select_default_format t usage)) s
  else mret s.
