(* ===== verification/GlTexturesProofs.v ===== *)
(** The textures of an OpenGL context: every operation runs without a wild access, keeps
    the invariant of the shared textures, and owns the surfaces that they have on the
    device. *)

From S2P Require Import Allocator.
From S2P Require Import Prelude IOKit Layout SvgaReg Svga3dReg Svga3d AccelIds AccelBlit Accel AccelSpec ShaderCache Provider.
From S2P Require Import AccelGmr VertexArray DevCaps Kernel Transfer Surface Dll SurfaceLogic SurfaceProofs Shared SharedInv SharedProofs SharedLife GlTextures.
From stdpp Require Import gmap gmultiset.
From stdpp Require Import list_relations list.

#[local] Open Scope Z_scope.

Local Abbreviation prog := (prog kernel).
Local Abbreviation world := (world kernel).

Section requests.
Context (E : env).
Implicit Types (w : world) (nf : Z) (g : monitor) (ρ : res).

(** ** Requests to the device *)

Lemma wp_need_yuv format (Q : post bool) w nf g : (forall b, Q b w nf g) -> wp (need_yuv_shadow format) Q w nf g.
Proof.
  intros HQ. unfold need_yuv_shadow. induction yuv_pairs as [|[f cap] l IH]; [by apply wp_ret|]. cbn [yuv_loop].
  destruct (_ =? _); [|done]. apply wp_bind, wp_state. cbn [fst snd]. destruct (_ =? _); [by apply wp_ret|done].
Qed.

Lemma wp_lock3D ρ (Q : post bool) w nf g : owns E ρ w g -> Q E.(e_3d) w nf g -> wp lock3D Q w nf g.
Proof. intros Ho HQ. apply wp_state. cbn [fst snd]. pose proof Ho as [[_ _ _ (_ & F2 & _) _ _ _] _ _ _ _ _]. by rewrite F2. Qed.

Lemma wp_define ρ l sid flags format faces mips (Q : post bool) w nf g : owns E ρ w g -> ρ.(r_named) ≡ₚ sid :: l -> E.(e_3d) = true ->
  (forall g', owns E (set_r_live (sid :: ρ.(r_live)) (set_r_named l ρ)) w g' -> Q true w nf g') ->
  wp (direct_call (DDefineSurface sid flags format faces mips)) Q w nf g.
Proof.
  intros Ho HP H3 HQ. pose proof Ho as [[(h & Hi & P1 & P2 & P3) A2 A3 (F1 & F2 & F3) A5 A6 A7] V K Hop Hfe [Hsf Hpg]].
  eexists. split; [reflexivity|]. cbn. apply HQ. split; cbn; try done. split; cbn; try done; [|intros; congruence|by rewrite A7].
  exists h. split; [done|]. split; [|done]. rewrite P1, HP. solve_Permutation.
Qed.

Lemma wp_split_dma ρ image transfer box extra box' extra' (Q : post (IOReturn * option Z)) w nf g : owns E ρ w g ->
  (E.(e_3d) = true -> forall f nf' g', f <> 0 -> owns E (set_r_open false (set_r_fences [f] ρ)) w g' -> Q (kIOReturnSuccess, Some f) w nf' g') ->
  (E.(e_3d) = false -> Q (kIOReturnNoDevice, None) w nf g) ->
  wp (ask (OpSurfaceDMA3D image transfer (Some box) (Some extra) false);; ask (OpSurfaceDMA3D image transfer (Some box') (Some extra') true)) Q w nf g.
Proof.
  intros Ho H3 Hn3. pose proof Ho as [[_ _ _ (_ & F2 & _) _ _ _] _ _ _ _ [Hs _]]. destruct (e_3d E) eqn:E3.
  - apply wp_bind, wp_ask. cbn [accel_spec]. rewrite F2. cbn. rewrite set_accel_id, Hs.
    eapply wp_surfaceDMA3D; [exact (owns_monitor E ρ w g true [] Ho)| |intros; congruence]. intros _ f nf' g' Hf Ho'. apply H3; [done|done|]. exact Ho'.
  - apply wp_bind, wp_ask. cbn [accel_spec]. rewrite F2. cbn. rewrite set_accel_id.
    eapply wp_surfaceDMA3D; [exact Ho|intros; congruence|]. intros _. by apply Hn3.
Qed.

(** ** Surfaces under way *)

Definition add_named (sid : Z) ρ : res := set_r_named (sid :: ρ.(r_named)) ρ.
Definition add_live (sid : Z) ρ : res := set_r_live (sid :: ρ.(r_live)) ρ.

Lemma wp_name k ρ s (Q : post Z) w nf g : owned E k ρ s w g -> ρ.(r_n) + k < 2 ^ 30 ->
  (forall sid w', isIdValid sid = true -> owned E (k + 1) (add_named sid ρ) s w' g -> Q sid w' nf g) -> wp allocSurfaceID Q w nf g.
Proof.
  intros Ho Hn HQ. eapply wp_allocSurfaceID; [exact Ho|cbn; lia|]. intros sid w' Hv Ho' _ _ _. apply HQ; [done|].
  eapply owns_le; [|exact Ho']. split; cbn; try done. lia.
Qed.

Lemma wp_unname k ρ sid s (Q : post unit) w nf g : owned E k (add_named sid ρ) s w g ->
  (forall w', owned E (k + 1) ρ s w' g -> Q tt w' nf g) -> wp (freeSurfaceID sid) Q w nf g.
Proof.
  intros Ho HQ. eapply (wp_freeSurfaceID _ _ ρ.(r_named)); [exact Ho|done|]. intros w' Ho' _ _. apply HQ. eapply owns_le; [|exact Ho']. split; cbn; try done. lia.
Qed.

Lemma wp_made k ρ sid s flags format faces mips (Q : post bool) w nf g : owned E k (add_named sid ρ) s w g -> E.(e_3d) = true ->
  (forall g', owned E k (add_live sid ρ) s w g' -> Q true w nf g') -> wp (direct_call (DDefineSurface sid flags format faces mips)) Q w nf g.
Proof.
  intros Ho H3 HQ. eapply (wp_define _ ρ.(r_named)); [exact Ho|done|done|]. intros g' Ho'. apply HQ. eapply owns_le; [|exact Ho']. split; cbn; try done. solve_Permutation.
Qed.

(** A texture takes over a surface. *)
Lemma owned_live k ρ sid s p t t' w g : s.(textures) !! p = Some t -> own p t' ≡ₚ own p t -> ids p t' ≡ₚ sid :: ids p t ->
  owned E k (add_live sid ρ) s w g -> owned E k ρ (upd p t' s) w g.
Proof.
  intros Ht Ho Hi. apply owns_le. split; cbn; try done; [|by rewrite (refs_at p t s Ht), refs_upd, Ho].
  rewrite (live_at p t s Ht), live_upd, Hi. solve_Permutation.
Qed.

Lemma upd_same p t s : s.(textures) !! p = Some t -> upd p t s = s.
Proof. intros H. unfold upd. rewrite insert_id by done. by destruct s. Qed.

(** ** The surface of a texture *)

(** A texture but for its surfaces. *)
Definition resurfaced (x y : Z) (t : TextureBuffer) : TextureBuffer := set_yuv_shadow y (set_surface_id x t).

Lemma resurfaced_links x y t : same_links t (resurfaced x y t).
Proof. by repeat split. Qed.

Lemma geometry_resurfaced x y t : (isIdValid x = false -> isIdValid y = false) -> geometry t -> geometry (resurfaced x y t).
Proof. intros H []. by split. Qed.

Lemma shape_resurfaced e l s p t x y : shape e l s -> s.(textures) !! p = Some t -> (isIdValid x = false -> isIdValid y = false) -> shape e l (upd p (resurfaced x y t) s).
Proof.
  intros Hs Ht H. eapply shape_upd; [exact Hs|exact Ht|apply resurfaced_links|]. intros Hp. apply geometry_resurfaced; [done|]. by apply (sp_geom _ _ _ Hs p).
Qed.

Lemma ids_bare x y t p : isIdValid x = false -> isIdValid y = false -> ids p (resurfaced x y t) = [].
Proof. intros Hx Hy. unfold ids, valid_ids. cbn. by rewrite Hx, Hy. Qed.

(** What a call leaves: the texture with other surfaces, and the surface is there if the
    call succeeds. *)
Definition hosted k ρ l s tx t (Q : post (IOReturn * Shared)) : Prop := forall rc x y w' nf' g',
  shape no_gap l (upd tx (resurfaced x y t) s) -> (rc = kIOReturnSuccess -> t.(sys_obj_type) <> TEX_TYPE_SURFACE -> isIdValid x = true /\ (isIdValid t.(surface_id) = true \/ E.(e_3d) = true)) ->
  owned E (k + 4) ρ (upd tx (resurfaced x y t) s) w' g' -> Q (rc, upd tx (resurfaced x y t) s) w' nf' g'.

Section host.
Context (k : Z) (ρ : res) (l : list Z) (s : Shared) (tx : Z) (t : TextureBuffer) (Q : post (IOReturn * Shared)).
Context (Hs : shape no_gap l s) (Ht : s.(textures) !! tx = Some t) (Hx : isIdValid t.(surface_id) = false) (Hy : isIdValid t.(yuv_shadow) = false).
Context (HQ : hosted k ρ l s tx t Q).

Lemma set_id_upd f u : on_tx tx f (upd tx u s) = mret (upd tx (f u) s).
Proof. rewrite (on_tx_at tx u) by apply lookup_at. by rewrite upd_upd. Qed.

(** The end of a call that failed. *)
Lemma wp_forget rc sid y n w nf g : rc <> kIOReturnSuccess -> n <= 3 -> isIdValid y = false -> owned E (k + n) (add_named sid ρ) s w g ->
  wp (forget_surface rc tx sid (upd tx (resurfaced sid y t) s)) Q w nf g.
Proof.
  intros Hrc Hn Hyv Ho. unfold forget_surface. apply wp_bind. eapply wp_unname; [exact Ho|]. intros w' Ho'. rewrite set_id_upd, ret_bind. apply wp_ret.
  change (set_surface_id SVGA_ID_INVALID (resurfaced sid y t)) with (resurfaced SVGA_ID_INVALID y t). apply HQ; [by apply shape_resurfaced|done|].
  apply (owned_upd E _ ρ s tx t); [done|done| |eapply owned_mono; [exact Ho'|lia]]. rewrite ids_bare by done. unfold ids, valid_ids. by rewrite Hx, Hy.
Qed.

Lemma wp_host_agpref sid w nf g : isIdValid sid = true -> t.(sys_obj_type) = TEX_TYPE_AGPREF -> owned E (k + 1) (add_named sid ρ) s w g -> ρ.(r_n) + k + 1 < 2 ^ 30 ->
  wp (host_agpref tx sid t (upd tx (set_surface_id sid t) s)) Q w nf g.
Proof.
  intros Hv Hty Ho Hn. unfold host_agpref. apply wp_bind, wp_need_yuv. intros yuv. cbv zeta. destruct yuv.
  - apply wp_bind. eapply wp_name; [exact Ho|cbn; lia|]. intros shadow w1 Hv1 Ho1. rewrite set_id_upd, ret_bind. apply wp_bind. eapply wp_lock3D; [exact Ho1|].
    change (set_yuv_shadow shadow (set_surface_id sid t)) with (resurfaced sid shadow t). destruct (e_3d E) eqn:E3; cbn [negb].
    + apply wp_bind. eapply (wp_made (k + 1 + 1) (add_named shadow ρ)); [eapply owns_le; [|exact Ho1]; split; cbn; try done; solve_Permutation|done|]. intros g2 Ho2.
      apply wp_bind. eapply (wp_made (k + 1 + 1) (add_live sid ρ)); [eapply owns_le; [|exact Ho2]; split; cbn; done|done|]. intros g3 Ho3. apply wp_ret, HQ.
      * apply shape_resurfaced; [done|done|]. by rewrite Hv.
      * intros _ _. auto.
      * apply (owned_mono _ (k + 1 + 1)); [|lia]. eapply owns_le; [|exact Ho3]. split; cbn; try done; [|by rewrite (refs_at tx t s Ht), refs_upd].
        rewrite (live_at tx t s Ht), live_upd. unfold ids, valid_ids. cbn. rewrite Hx, Hy, Hv, Hv1. cbn. solve_Permutation.
    + apply wp_bind. eapply (wp_unname (k + 1 + 1) (add_named sid ρ)); [exact Ho1|]. intros w2 Ho2. rewrite set_id_upd, ret_bind.
      change (set_yuv_shadow SVGA_ID_INVALID (resurfaced sid shadow t)) with (resurfaced sid SVGA_ID_INVALID t). eapply (wp_forget _ _ _ 3); [done|lia|done|]. eapply owned_mono; [exact Ho2|lia].
  - assert (set_surface_id sid t = resurfaced sid t.(yuv_shadow) t) as -> by by destruct t. apply wp_bind. eapply wp_lock3D; [exact Ho|]. destruct (e_3d E) eqn:E3; cbn [negb].
    + apply wp_bind. eapply wp_made; [exact Ho|done|]. intros g2 Ho2. apply wp_ret, HQ; [apply shape_resurfaced; [done|done|by rewrite Hv]|intros _ _; auto|].
      apply (owned_mono _ (k + 1)); [|lia]. eapply owned_live; [exact Ht|done| |exact Ho2]. unfold ids, valid_ids. cbn. by rewrite Hx, Hy, Hv.
    + by eapply (wp_forget _ _ _ 1).
Qed.

(** The headers of the images are inside of the mapped page. *)
Lemma wp_mip_sizes headers m L (R : post (list SVGA3dSize)) w nf g : m.(mp_length) = PAGE_SIZE -> Forall (image_ok t) L ->
  (forall sizes, R sizes w nf g) -> wp (mip_sizes headers m t L) R w nf g.
Proof.
  intros Hm. revert R. induction L as [|[face mipmap] L IH]; intros R Hl HR; [by apply wp_ret|]. apply Forall_cons in Hl as [(I1 & I2 & I3 & I4) Hl].
  cbn [mip_sizes fst snd] in *. unfold header_at. rewrite Hm. replace ((0 <=? _) && _) with true.
  2: { symmetry. unfold sizeof_GLDTextureHeader, PAGE_SIZE. apply andb_true_intro. split; apply Z.leb_le; lia. }
  rewrite ret_bind. apply Z.eqb_neq in I4. rewrite I4. apply wp_bind. destruct (pixels_in_client _ =? 0); apply wp_ret, wp_bind, IH; try done; intros sizes; by apply wp_ret.
Qed.

Lemma wp_host_images headers sid w nf g : isIdValid sid = true -> t.(sys_obj_type) = TEX_TYPE_STD \/ t.(sys_obj_type) = TEX_TYPE_OOB ->
  owned E (k + 1) (add_named sid ρ) s w g -> wp (host_images headers tx sid t (upd tx (set_surface_id sid t) s)) Q w nf g.
Proof.
  intros Hv Hty Ho. assert (geometry t) as Hg.
  { apply (sp_geom _ _ _ Hs tx t Ht). destruct (proj1 (sp_linked _ _ _ Hs tx)) as [|Hx0]; [eauto|done|]. by apply elem_of_nil in Hx0. }
  assert (set_surface_id sid t = resurfaced sid t.(yuv_shadow) t) as -> by by destruct t. unfold host_images. apply wp_bind.
  eapply (wp_map_header E _ _ s tx t); [done|exact Ho| |].
  { intros rc w1 Hrc Ho1. rewrite bool_decide_eq_false_2 by done. cbn [negb]. by eapply (wp_forget _ _ _ 1). }
  intros m w1 Hm Hmd Ho1. rewrite bool_decide_eq_true_2 by done. cbn [negb deref]. rewrite ret_bind. apply wp_bind. eapply wp_lock3D; [exact Ho1|].
  destruct (e_3d E) eqn:E3; cbn [negb].
  - destruct (Z.ltb_spec 6 t.(num_faces)); [destruct Hg; lia|]. apply wp_bind, wp_mip_sizes; [done|by apply images_ok|]. intros sizes. apply wp_bind.
    eapply (wp_made (k + 1) (add_ref m.(mp_ref) ρ)); [eapply owns_le; [|exact Ho1]; split; cbn; done|done|]. intros g2 Ho2.
    apply wp_bind. eapply (wp_release_extra E (k + 1) (add_live sid ρ) m.(mp_ref) s); [exact Ho2|]. intros w3 Ho3.
    apply wp_ret, HQ; [apply shape_resurfaced; [done|done|by rewrite Hv]|intros _ _; auto|].
    apply (owned_mono _ (k + 1)); [|lia]. eapply owned_live; [exact Ht|done| |exact Ho3]. unfold ids, valid_ids. cbn. by rewrite Hx, Hy, Hv.
  - apply wp_bind. eapply (wp_release_extra E (k + 1) (add_named sid ρ) m.(mp_ref) s); [exact Ho1|]. intros w3 Ho3. by eapply (wp_forget _ _ _ 1).
Qed.
End host.

Lemma wp_create_host k ρ headers l s tx t (Q : post (IOReturn * Shared)) w nf g : shape no_gap l s -> s.(textures) !! tx = Some t -> owned E k ρ s w g ->
  ρ.(r_n) + k + 1 < 2 ^ 30 -> hosted k ρ l s tx t Q -> wp (create_host_surface_for_texture true headers tx s) Q w nf g.
Proof.
  intros Hs Ht Ho Hn HQ. unfold create_host_surface_for_texture. cbn [negb].
  assert (tx <> 0) as H0 by (intros ->; by rewrite (sp_null _ _ _ Hs) in Ht). apply Z.eqb_neq in H0. rewrite H0, (get_tx_at tx t) by done. rewrite ret_bind.
  assert (forall rc, (rc = kIOReturnSuccess -> t.(sys_obj_type) <> TEX_TYPE_SURFACE -> isIdValid t.(surface_id) = true) -> Q (rc, s) w nf g) as Hsame.
  { intros rc Hrc. assert (resurfaced t.(surface_id) t.(yuv_shadow) t = t) as Er by by destruct t.
    pose proof (HQ rc t.(surface_id) t.(yuv_shadow) w nf g) as HR. rewrite Er, (upd_same tx t s Ht) in HR. apply HR; [done|auto|]. eapply owned_mono; [exact Ho|lia]. }
  destruct (Z.eqb_spec t.(sys_obj_type) TEX_TYPE_SURFACE) as [Es|Es]; [by apply wp_ret, Hsame|].
  destruct (isIdValid t.(surface_id)) eqn:Ex; [by apply wp_ret, Hsame|].
  assert (isIdValid t.(yuv_shadow) = false) as Ey.
  { destruct (sp_geom _ _ _ Hs tx t Ht) as [_ _ _ _ _ G]; [|by apply G]. destruct (proj1 (sp_linked _ _ _ Hs tx)) as [|Hx0]; [eauto|done|]. by apply elem_of_nil in Hx0. }
  apply wp_bind. eapply wp_name; [exact Ho|lia|]. intros sid w1 Hv Ho1. rewrite (on_tx_at tx t) by done. rewrite ret_bind.
  destruct (Z.eqb_spec t.(sys_obj_type) TEX_TYPE_AGPREF) as [Ea|Ea]; [by eapply wp_host_agpref|].
  destruct (_ || _) eqn:Ety; [eapply wp_host_images; try done; lia|].
  assert (set_surface_id sid t = resurfaced sid t.(yuv_shadow) t) as -> by by destruct t. by eapply (wp_forget k ρ l s tx t Q Hs Ht Ex Ey HQ _ _ _ 1).
Qed.
End requests.

(** ** Loading *)

Section load.
Context (E : env).
Implicit Types (w : world) (nf : Z) (g : monitor) (ρ : res).

Lemma off_reads o face mipmap : length o.(pageoff) = 6%nat /\ length o.(pageon) = 6%nat -> 0 <= face -> exists b, isPagedOff o face mipmap = mret b.
Proof.
  intros [L1 L2] Hf. unfold isPagedOff. destruct (Z.leb_spec 6 face); [by eexists|]. cbn [orb]. destruct (16 <=? mipmap); [by eexists|].
  destruct (lookup_lt_is_Some_2 o.(pageoff) (Z.to_nat face)) as [x1 ->]; [lia|]. destruct (lookup_lt_is_Some_2 o.(pageon) (Z.to_nat face)) as [x2 ->]; [lia|]. by eexists.
Qed.

(** Whether an image of the six faces is in memory only. *)
Definition some_off (o : GLDSysObject) : bool := existsb (fun x => negb (Z.ldiff x.1 x.2 =? 0)) (zip o.(pageoff) o.(pageon)).

Lemma any_off_step o i l x y : o.(pageoff) !! Z.to_nat i = Some x -> o.(pageon) !! Z.to_nat i = Some y ->
  any_off (i :: l) o = if negb (Z.ldiff x y =? 0) then mret true else any_off l o.
Proof. intros H1 H2. cbn [any_off]. by rewrite H1, H2. Qed.

Lemma any_off_reads o : length o.(pageoff) = 6%nat /\ length o.(pageon) = 6%nat -> areAnyPagedOff o = mret (some_off o).
Proof.
  destruct o as [a1 a2 a3 a4 a5 a6 off on]. unfold some_off, areAnyPagedOff. cbn [pageoff pageon]. intros [L1 L2].
  do 6 (destruct off as [|? off]; [done|]). destruct off; [|done]. do 6 (destruct on as [|? on]; [done|]). destruct on; [|done].
  change (seqZ 0 6) with [0; 1; 2; 3; 4; 5]. do 6 (erewrite any_off_step by reflexivity). cbn [zip zip_with existsb fst snd any_off].
  repeat (destruct (Z.ldiff _ _ =? 0); cbn [negb orb]; [|done]). done.
Qed.

Section images.
Context (headers : Z -> GLDTextureHeader) (m : mapping) (X : list Z) (k : Z) (ρ : res) (s : Shared) (tx ltx : Z) (t u : TextureBuffer) (j : nat) (o : GLDSysObject) (d : descriptor) (gmr : Z).
Context (Ht : s.(textures) !! tx = Some t) (Hu : s.(textures) !! ltx = Some u) (Hb : bound s tx t j o).

Lemma wp_store_fence v f (Q : post Shared) w nf g : Q (with_xfer ltx u (set_fence f v) s) w nf g -> wp (store_fence ltx (kIOReturnSuccess, Some f) (with_xfer ltx u v s)) Q w nf g.
Proof.
  intros HQ. unfold store_fence. cbn [snd]. rewrite (on_tx_at ltx (set_xfer v u)) by apply lookup_at. apply wp_ret.
  change (set_xfer (set_fence f (xfer (set_xfer v u))) (set_xfer v u)) with (set_xfer (set_fence f v) (set_xfer v u)). by rewrite with_xfer_again.
Qed.

Lemma wp_load_image v face mipmap (Q : post (IOReturn * Shared)) w nf g : m.(mp_length) = PAGE_SIZE -> image_ok t (face, mipmap) -> paging E X k ρ s d gmr v w g ->
  paged E X k ρ s ltx u d gmr Q -> wp (load_image headers m tx ltx gmr face mipmap (with_xfer ltx u v s)) Q w nf g.
Proof.
  intros Hm (I1 & I2 & I3 & I4) Hp HQ. unfold load_image. cbn [fst snd] in *. destruct (lookup_with_xfer s tx t ltx u v Ht Hu) as (t' & Ht' & F1 & F2 & F3 & F4).
  rewrite (get_tx_at tx t') by done. rewrite ret_bind, F1, F2, F3. unfold header_at. rewrite Hm.
  replace ((0 <=? _) && _) with true. 2: { symmetry. unfold sizeof_GLDTextureHeader, PAGE_SIZE. apply andb_true_intro. split; apply Z.leb_le; lia. }
  rewrite ret_bind. assert (get_so t' (with_xfer ltx u v s) = mret (j, o)) as ->. { apply (get_so_at tx). apply (bound_stable s _ tx t); [done|done|done|exact Hb]. }
  rewrite ret_bind. destruct (off_reads o face mipmap (bo_pages _ _ _ _ _ Hb) (proj1 I1)) as [b ->]. rewrite ret_bind.
  destruct (_ || negb b); [by apply wp_ret, HQ|]. apply Z.eqb_neq in I4. rewrite I4. rewrite (get_tx_at ltx (set_xfer v u)) by apply lookup_at. rewrite ret_bind.
  destruct Hp as (V1 & V2 & fs & Hf & Ho).
  assert (forall f w' nf' g', f <> 0 -> owns E (set_r_open false (set_r_fences [f] (res_paging k X d gmr fs s ρ))) w' g' ->
    wp (s' ← store_fence ltx (kIOReturnSuccess, Some f) (with_xfer ltx u v s); mret (kIOReturnSuccess, s')) Q w' nf' g') as Hyes.
  { intros f w' nf' g' Hf0 Ho'. apply wp_bind, wp_store_fence, wp_ret, HQ. split; [done|]. split; [done|]. exists [f]. split; [|exact Ho']. right. cbn. split; [by left|done]. }
  assert (forall w' nf' g', owns E (res_paging k X d gmr fs s ρ) w' g' -> wp (s' ← store_fence ltx (kIOReturnNoDevice, None) (with_xfer ltx u v s); mret (kIOReturnNoDevice, s')) Q w' nf' g') as Hno.
  { intros w' nf' g' Ho'. apply wp_bind, wp_ret, wp_ret, HQ. split; [done|]. split; [done|]. by exists fs. }
  apply wp_bind. destruct (_ && _); [eapply wp_split_dma|eapply wp_surfaceDMA3D]; try exact Ho; cbn [fst]; eauto.
Qed.

Lemma wp_load_images L : forall v (Q : post (IOReturn * Shared)) w nf g, m.(mp_length) = PAGE_SIZE -> Forall (image_ok t) L -> paging E X k ρ s d gmr v w g ->
  paged E X k ρ s ltx u d gmr Q -> wp (load_images headers m tx ltx gmr L (with_xfer ltx u v s)) Q w nf g.
Proof.
  induction L as [|[face mipmap] L IH]; intros v Q w nf g Hm Hl Hp HQ; [by apply wp_ret, HQ|]. apply Forall_cons in Hl as [Hi Hl]. cbn [load_images]. apply wp_bind.
  apply (wp_load_image v face mipmap); [done|done|done|]. intros rc v' w' nf' g' Hp'. case_bool_decide; [by apply IH|by apply wp_ret, HQ].
Qed.

(** The copy of a texture over memory of the client. *)
Lemma wp_load_agpref v (Q : post Shared) w nf g : paging E X k ρ s d gmr v w g ->
  (forall v' w' nf' g', paging E X k ρ s d gmr v' w' g' -> Q (with_xfer ltx u v' s) w' nf' g') -> wp (load_agpref tx ltx gmr (with_xfer ltx u v s)) Q w nf g.
Proof.
  intros (V1 & V2 & fs & Hf & Ho) HQ. unfold load_agpref. destruct (lookup_with_xfer s tx t ltx u v Ht Hu) as (t' & Ht' & _). rewrite (get_tx_at tx t') by done. rewrite ret_bind. cbv zeta.
  assert (forall v' fs' w' nf' g', v'.(md) = Some d -> v'.(gmr_id) = gmr -> fence_of v' fs' -> owns E (res_paging k X d gmr fs' s ρ) w' g' ->
    wp ((if isIdValid t'.(yuv_shadow) then ask (OpSurfaceStretch t'.(yuv_shadow) t'.(surface_id) SVGA3D_STRETCH_BLT_POINT (mk_bounds 0 0 (s16 t'.(tx_width)) (s16 t'.(tx_height)))
         (mk_bounds 0 0 (s16 t'.(tx_width)) (s16 t'.(tx_height))));; mret tt else mret tt);; mret (with_xfer ltx u v' s)) Q w' nf' g') as Hend.
  { intros v' fs' w' nf' g' W1 W2 Hf' Ho'. apply wp_bind. destruct (isIdValid _).
    - apply wp_bind. eapply wp_harmless; [exact Ho'|done|done|]. intros r w2 nf2 g2 fs2 Ho2 [L1 L2] _ _ _. apply wp_ret, wp_ret, HQ. split; [done|]. split; [done|]. exists fs2.
      split; [|exact Ho2]. destruct Hf' as [->|[Hin H0]]; [left; by apply L1|right; auto].
    - apply wp_ret, wp_ret, HQ. split; [done|]. split; [done|]. by exists fs'. }
  apply wp_bind. eapply wp_surfaceDMA3D; [exact Ho| |].
  - intros _ f nf' g' Hf0 Ho'. apply wp_bind, wp_store_fence. eapply (Hend _ [f]); [done|done| |exact Ho']. right. cbn. split; [by left|done].
  - intros _. apply wp_bind, wp_ret. by eapply Hend.
Qed.
End images.

Lemma mark_on_keeps n o : keeps o (mark_on n o).
Proof. unfold keeps. cbn. by rewrite length_imap. Qed.

Lemma complete_with_tx p s : s.(sh_provider) = true -> complete_with true p s = complete_tx p s.
Proof. unfold complete_with, complete_tx. by intros ->. Qed.

Definition add_map (mmap : option mapping) ρ : res := match mmap with Some m => add_ref m.(mp_ref) ρ | None => ρ end.

Lemma wp_release_opt k ρ mmap s (Q : post unit) w nf g : owned E k (add_map mmap ρ) s w g -> (forall w', owned E k ρ s w' g -> Q tt w' nf g) -> wp (release_opt mmap) Q w nf g.
Proof. destruct mmap as [m|]; intros Ho HQ; [by eapply wp_release_extra|by apply wp_ret, HQ]. Qed.

(** What becomes of the system object of a texture: nothing, or every image that was in
    memory is marked as being on the device. *)
Definition loaded_as n (mmap : option mapping) (rc : IOReturn) (o o' : GLDSysObject) : Prop :=
  (o' = o /\ (rc <> kIOReturnSuccess \/ mmap = None)) \/ (o' = mark_on n o /\ rc = kIOReturnSuccess).

Section into.
Context (k : Z) (ρ : res) (headers : Z -> GLDTextureHeader) (l : list Z) (s : Shared) (tx ltx : Z) (t u : TextureBuffer) (j : nat) (o : GLDSysObject) (d : descriptor) (mmap : option mapping).
Context (Hs : shape no_gap l s) (Ht : s.(textures) !! tx = Some t) (Hu : s.(textures) !! ltx = Some u) (Hb : bound s tx t j o) (Ed : u.(xfer).(md) = Some d).
Context (Hgi : isIdValid u.(xfer).(gmr_id) = false) (Hmap : forall m, mmap = Some m -> m.(mp_length) = PAGE_SIZE /\ Forall (image_ok t) (images t)).

Definition into_post (Q : post (IOReturn * Shared)) : Prop := forall rc o' v w' nf' g', loaded_as t.(num_faces) mmap rc o o' -> isIdValid v.(gmr_id) = false -> v.(md) = Some d ->
  owned E (k + 3) ρ s w' g' -> Q (rc, with_xfer ltx u v (put_so j o' s)) w' nf' g'.

Lemma put_id : put_so j o s = s.
Proof. unfold put_so. rewrite list_insert_id by apply Hb. by destruct s. Qed.

Lemma wp_load_into (Q : post (IOReturn * Shared)) w nf g : owned E k (add_map mmap ρ) s w g -> ρ.(r_n) + k + 1 < 2 ^ 30 -> into_post Q ->
  wp (load_into true headers mmap tx ltx s) Q w nf g.
Proof.
  intros Ho Hn HQ. unfold load_into. rewrite (get_tx_at ltx u) by done. rewrite ret_bind. apply wp_bind. eapply (wp_prepare E _ u.(xfer) d); [exact Ho|done|done| |by destruct mmap|by destruct mmap|destruct mmap; cbn; lia|].
  { cbn. rewrite (refs_at ltx u s Hu). unfold own. rewrite Ed. cbn. right. by left. }
  assert (forall v rc w' nf' g', rc <> kIOReturnSuccess \/ mmap = None -> isIdValid v.(gmr_id) = false -> v.(md) = Some d -> owned E (k + 3) ρ s w' g' -> Q (rc, with_xfer ltx u v s) w' nf' g') as Hsame.
  { intros v rc w' nf' g' Hrc Hv Hd Ho'. rewrite <-put_id. apply HQ; try done. left. done. }
  intros rc id w1 g1 Ho1 Hid. rewrite (on_tx_at ltx u) by done. rewrite ret_bind. fold (with_xfer ltx u (set_gmr id u.(xfer)) s). set (v := set_gmr id u.(xfer)) in *.
  destruct (bool_decide_reflect (rc = kIOReturnSuccess)) as [->|Hrc]; cbn [negb].
  2: { apply wp_bind. eapply (wp_release_opt (k + 2) ρ mmap s); [eapply owns_le; [|exact Ho1]; destruct mmap; split; cbn; try done; lia|]. intros w2 Ho2. apply wp_ret, Hsame; try done; [by left|]. eapply owned_mono; [exact Ho2|lia]. }
  change (gmr_id v) with id. destruct mmap as [m|].
  - destruct (Hmap m eq_refl) as [Hm Him]. destruct (lookup_with_xfer s tx t ltx u v Ht Hu) as (t1 & Ht1 & F1 & _ & _ & F4).
    assert (images t1 = images t /\ t1.(num_faces) = t.(num_faces)) as [Ei Ef]. { revert Ht1. cbn. rewrite lookup_upd. destruct (decide (tx = ltx)) as [->|]; [intros [= <-]; by assert (u = t) as -> by congruence|rewrite Ht; by intros [= <-]]. }
    rewrite (get_tx_at tx t1) by done. rewrite ret_bind, Ei, Ef.
    assert (paging E [m.(mp_ref)] (k + 2) ρ s d id v w1 g1) as Hp1.
    { split; [done|]. split; [done|]. exists []. split; [by left|]. eapply owns_le; [|exact Ho1]. split; cbn; try done; [lia|solve_Permutation]. }
    apply wp_bind. eapply (wp_load_images headers m [m.(mp_ref)] (k + 2) ρ s tx ltx t u j o d id); [done|done|done|done|done|exact Hp1|].
    intros rc3 v3 w3 nf3 g3 Hp3. destruct (bool_decide_reflect (rc3 = kIOReturnSuccess)) as [->|Hrc3]; cbn [negb].
    + apply wp_bind. destruct Hp3 as (V1 & V2 & fs & Hf & Ho3). eapply wp_release; [exact Ho3|cbn; reflexivity|]. intros w4 Ho4 _.
      destruct (lookup_with_xfer s tx t ltx u v3 Ht Hu) as (t3 & Ht3 & _ & _ & _ & F4'). rewrite (on_so_at tx t3 j o); [|done|by apply (bound_stable s _ tx t)]. rewrite ret_bind.
      rewrite complete_with_tx by apply (sp_provider _ _ _ Hs). apply wp_bind.
      eapply (wp_complete_tx E [] (k + 2) ρ s ltx u d id v3); [done|done|apply (sp_provider _ _ _ Hs)|split; [done|]; split; [done|]; exists fs; split; [done|exact Ho4]|].
      intros v' w' g' Hv1 Hv2 Ho'. apply wp_ret. rewrite with_xfer_put. apply HQ; [by right|done|done|]. eapply owns_le; [|exact Ho']. apply res_with_le; [lia|done|done].
    + rewrite complete_with_tx by apply (sp_provider _ _ _ Hs). apply wp_bind. eapply (wp_complete_tx E [m.(mp_ref)] (k + 2) ρ s ltx u d id v3); [done|done|apply (sp_provider _ _ _ Hs)|exact Hp3|]. intros v' w' g' Hv1 Hv2 Ho'.
      rewrite with_xfer_again. apply wp_bind. eapply (wp_release_extra E (k + 3) ρ m.(mp_ref) s); [eapply owns_le; [|exact Ho']; split; cbn; try done; [lia|solve_Permutation]|]. intros w5 Ho5. apply wp_ret, Hsame; auto.
  - apply wp_bind. eapply (wp_load_agpref [] (k + 2) ρ s tx ltx t u d id); [done|done| |].
    { split; [done|]. split; [done|]. exists []. split; [by left|]. eapply owns_le; [|exact Ho1]. split; cbn; try done. lia. }
    intros v3 w3 nf3 g3 Hp3. rewrite complete_with_tx by apply (sp_provider _ _ _ Hs). apply wp_bind. eapply (wp_complete_tx E [] (k + 2) ρ s ltx u d id v3); [done|done|apply (sp_provider _ _ _ Hs)|exact Hp3|].
    intros v' w' g' Hv1 Hv2 Ho'. rewrite with_xfer_again. apply wp_ret, Hsame; auto. eapply owns_le; [|exact Ho']. apply res_with_le; [lia|done|done].
Qed.
End into.

(** The end of a call on a texture: the invariant holds, and its object is [o']. *)
Definition left_as k ρ l s tx j (P : IOReturn -> GLDSysObject -> Prop) (Q : post (IOReturn * Shared)) : Prop := forall rc o' t' s' w' nf' g', shape no_gap l s' -> same_base s s' ->
  s'.(textures) !! tx = Some t' -> bound s' tx t' j o' -> P rc o' -> owned E k ρ s' w' g' -> Q (rc, s') w' nf' g'.

Lemma all_linked l s p t : shape no_gap l s -> s.(textures) !! p = Some t -> p ∈ l.
Proof. intros Hs Ht. destruct (proj1 (sp_linked _ _ _ Hs p)) as [|Hx]; [eauto|done|]. by apply elem_of_nil in Hx. Qed.

Lemma wp_load_from k ρ headers l s tx ltx t u j o d mmap (Q : post (IOReturn * Shared)) w nf g : shape no_gap l s -> s.(textures) !! tx = Some t -> s.(textures) !! ltx = Some u ->
  bound s tx t j o -> u.(xfer).(md) = Some d -> (forall m, mmap = Some m -> m.(mp_length) = PAGE_SIZE /\ Forall (image_ok t) (images t)) ->
  owned E k (add_map mmap ρ) s w g -> ρ.(r_n) + k + 5 < 2 ^ 30 -> left_as (k + 8) ρ l s tx j (fun rc o' => loaded_as t.(num_faces) mmap rc o o') Q ->
  wp (load_from true headers mmap tx ltx s) Q w nf g.
Proof.
  intros Hs Ht Hu Hb Ed Hmap Ho Hn HQ. unfold load_from. apply wp_bind. eapply (wp_create_host E k (add_map mmap ρ)); [exact Hs|exact Ht|exact Ho|destruct mmap; cbn; lia|].
  intros rc x y w1 nf1 g1 Hs1 _ Ho1. set (t1 := resurfaced x y t) in *. set (s1 := upd tx t1 s) in *. assert (s1.(textures) !! tx = Some t1) as Ht1 by apply lookup_at.
  assert (bound s1 tx t1 j o) as Hb1 by (by apply (bound_stable s _ tx t)). destruct (bool_decide_reflect (rc = kIOReturnSuccess)) as [->|Hrc]; cbn [negb].
  2: { apply wp_bind. eapply (wp_release_opt (k + 4) ρ mmap s1); [exact Ho1|]. intros w2 Ho2. apply wp_ret. apply (HQ rc o t1); try done; [by left; auto|eapply owned_mono; [exact Ho2|lia]]. }
  assert (exists u1, s1.(textures) !! ltx = Some u1 /\ u1.(xfer) = u.(xfer)) as (u1 & Hu1 & Ex).
  { cbn. rewrite lookup_upd. destruct (decide (ltx = tx)) as [->|]; [|by exists u]. exists t1. split; [done|]. by assert (u = t) as -> by congruence. }
  assert (isIdValid u1.(xfer).(gmr_id) = false) as Hgi by (eapply ge_idle, (sp_geom _ _ _ Hs1 _ _ Hu1), (all_linked _ _ _ _ Hs1 Hu1)).
  eapply (wp_load_into (k + 4) ρ headers l s1 tx ltx t1 u1 j o d mmap); [done|done|done|done|by rewrite Ex|done|exact Hmap|exact Ho1|lia|].
  intros rc o' v w' nf' g' Hlo Hv Hd Ho'. assert (keeps o o') as Hk by (destruct Hlo as [[-> _]|[-> _]]; [by repeat split|apply mark_on_keeps]).
  set (s2 := put_so j o' s1). assert (s2.(textures) !! tx = Some t1) as Ht2 by done. assert (s2.(textures) !! ltx = Some u1) as Hu2 by done.
  destruct (lookup_with_xfer s2 tx t1 ltx u1 v Ht2 Hu2) as (t' & Ht' & _ & _ & _ & F4). apply (HQ rc o' t'); [|by split|done| |done|].
  - apply shape_with_xfer; [|done|done|by rewrite Ex, Ed; eexists|by rewrite Hd; eexists]. eapply shape_put_quiet; [exact Hs1|exact Ht1|exact Hb1|exact Hk|]. by destruct Hlo as [[-> _]|[-> _]].
  - apply (bound_stable s2 _ tx t1); [done|done|done|]. by apply (bound_put_same s1 tx t1 j o o').
  - apply owned_with_xfer; [done|by rewrite Hd, Ex, Ed|]. apply owned_put. eapply owned_mono; [exact Ho'|lia].
Qed.

(** The pages of a texture, or of the texture whose memory it uses, may be dropped. *)
Definition pages_volatile s (t : TextureBuffer) (o : GLDSysObject) : Prop :=
  is_volatile o = true \/ exists a j' o', is_ref t = true /\ s.(textures) !! t.(linked_agp) = Some a /\ bound s t.(linked_agp) a j' o' /\ is_volatile o' = true.

(** A texture after [alloc_and_load_texture]. *)
Definition alloc_done s (t : TextureBuffer) (o : GLDSysObject) (rc : IOReturn) (o' : GLDSysObject) : Prop :=
  (o' = o /\ (rc = kIOReturnSuccess -> t.(sys_obj_type) = TEX_TYPE_STD \/ t.(sys_obj_type) = TEX_TYPE_OOB -> some_off o = false)) \/
  (o' = note_volatile o /\ rc = kIOReturnSuccess /\ pages_volatile s t o) \/ (o' = mark_on t.(num_faces) o /\ rc = kIOReturnSuccess).

Lemma wp_alloc_and_load k ρ headers l s tx t j o (Q : post (IOReturn * Shared)) w nf g : shape no_gap l s -> s.(textures) !! tx = Some t -> bound s tx t j o -> owned E k ρ s w g ->
  ρ.(r_n) + k + 5 < 2 ^ 30 -> left_as (k + 8) ρ l s tx j (alloc_done s t o) Q -> wp (alloc_and_load_texture true headers tx s) Q w nf g.
Proof.
  intros Hs Ht Hb Ho Hn HQ. unfold alloc_and_load_texture. cbn [negb]. assert (tx <> 0) as H0 by (intros ->; by rewrite (sp_null _ _ _ Hs) in Ht). apply Z.eqb_neq in H0.
  rewrite H0, (get_tx_at tx t) by done. rewrite ret_bind.
  assert (forall rc w' nf' g', (rc = kIOReturnSuccess -> t.(sys_obj_type) = TEX_TYPE_STD \/ t.(sys_obj_type) = TEX_TYPE_OOB -> some_off o = false) -> owned E k ρ s w' g' -> Q (rc, s) w' nf' g') as Hsame.
  { intros rc w' nf' g' Hrc Ho'. apply (HQ rc o t); try done; [by left|]. eapply owned_mono; [exact Ho'|lia]. }
  destruct (_ =? SVGA3D_FORMAT_INVALID); [by apply wp_ret, Hsame|]. destruct (Z.eqb_spec t.(sys_obj_type) TEX_TYPE_SURFACE) as [Es|_]; [apply wp_ret, Hsame; [|done]; rewrite Es; by intros _ [|]|].
  rewrite (get_so_at tx t j o s Hb), ret_bind.
  assert (pages_volatile s t o -> Q (kIOReturnSuccess, put_so j (note_volatile o) s) w nf g) as Hvol.
  { intros Hpv. apply (HQ _ (note_volatile o) t); [by eapply shape_put_quiet; [| |exact Hb|apply vstate_keeps|]|by split|done|apply (bound_put_same s _ _ _ o); [done|apply vstate_keeps]|by right; left|].
    apply owned_put. eapply owned_mono; [exact Ho|lia]. }
  destruct (is_volatile o) eqn:Evol; [by apply wp_ret, Hvol; left|]. destruct (Z.eqb_spec t.(sys_obj_type) TEX_TYPE_AGPREF) as [Ea|Ea].
  - destruct (Z.eqb_spec t.(linked_agp) 0) as [|Hl]; [by apply wp_ret, Hsame|].
    destruct (sp_link _ _ _ Hs tx t Ht) as (_ & a & Ha & Hagp); [unfold is_ref; by rewrite Ea|cbn; intros Hx; by rewrite Hx in H0|done|].
    destruct (sp_bound _ _ _ Hs _ a Ha (not_elem_of_nil _)) as (ja & oa & Hba). rewrite (get_tx_at _ a) by done. rewrite ret_bind, (get_so_at _ a ja oa s Hba), ret_bind.
    destruct (is_volatile oa) eqn:Eoa; [apply wp_ret, Hvol; right; exists a, ja, oa; unfold is_ref; by rewrite Ea|]. destruct (ge_md _ (sp_geom _ _ _ Hs _ a Ha (all_linked _ _ _ _ Hs Ha)) Hagp) as [d Ed].
    eapply (wp_load_from k ρ headers l s tx _ t a j o d None); [done|done|done|done|done|done|exact Ho|done|].
    intros rc o' t' s' w' nf' g' Hs' Hb' Ht' Hbo' Hlo Ho'. apply (HQ rc o' t'); try done. destruct Hlo as [[-> _]|[-> Hrc]]; [left; split; [done|rewrite Ea; by intros _ [|]]|by right; right].
  - destruct (_ || _) eqn:Ety; [|by apply wp_ret, Hsame]. assert (t.(sys_obj_type) = TEX_TYPE_STD \/ t.(sys_obj_type) = TEX_TYPE_OOB) as Hty by lia.
    rewrite (any_off_reads o (bo_pages _ _ _ _ _ Hb)), ret_bind. destruct (some_off o) eqn:Eoff; cbn [negb]; [|by apply wp_ret, Hsame].
    destruct ((t.(sys_obj_type) =? TEX_TYPE_OOB) && (t.(linked_agp) =? 0)) eqn:El; [by apply wp_ret, Hsame|]. assert (t.(sys_obj_type) = TEX_TYPE_OOB -> t.(linked_agp) <> 0) as Hl by lia.
    clear Ety El. cbv zeta. fold (target_of tx t). assert (exists u ju ou, s.(textures) !! target_of tx t = Some u /\ bound s (target_of tx t) u ju ou) as (u & ju & ou & Hu & Hbu).
    { unfold target_of. destruct (Z.eqb_spec t.(sys_obj_type) TEX_TYPE_OOB) as [Eo|Eo]; [|by exists t, j, o].
      destruct (sp_link _ _ _ Hs tx t Ht) as (_ & a & Ha & Hagp); [unfold is_ref; by rewrite Eo|cbn; intros Hx; by rewrite Hx in H0|auto|].
      destruct (sp_bound _ _ _ Hs _ a Ha (not_elem_of_nil _)) as (ja & oa & Hba). by exists a, ja, oa. }
    rewrite (get_tx_at _ u) by done. rewrite ret_bind, (get_so_at _ u ju ou s Hbu), ret_bind. destruct (_ && _) eqn:Evo.
    { apply andb_true_iff in Evo as [Eoo Evo]. unfold target_of in *. rewrite Eoo in *. apply wp_ret, Hvol. right. exists u, ju, ou. unfold is_ref. by rewrite Eoo, orb_true_r. }
    apply wp_bind. eapply (wp_map_header E k ρ s tx t); [done|exact Ho| |].
    { intros rc w1 Hrc Ho1. rewrite bool_decide_eq_false_2 by done. cbn [negb]. by apply wp_ret, Hsame. }
    intros m w1 Hm Hmd Ho1. rewrite bool_decide_eq_true_2 by done. cbn [negb deref]. rewrite ret_bind.
    destruct (target_has l s tx t Hs Ht Hty Hl Hmd) as (u' & Hu' & [d Ed] & _). assert (u' = u) as -> by congruence.
    eapply (wp_load_from k ρ headers l s tx (target_of tx t) t u j o d (Some m)); [done|done|done|done|done| |exact Ho1|done|].
    + intros m' [= <-]. split; [done|]. apply images_ok; [|done]. eapply sp_geom; [exact Hs|exact Ht|by eapply all_linked].
    + intros rc o' t' s' w' nf' g' Hs' Hb' Ht' Hbo' Hlo Ho'. apply (HQ rc o' t'); try done. destruct Hlo as [[-> [Hrc|]]|[-> Hrc]]; [by left|done|by right; right].
Qed.
End load.

(** ** Drawing *)

Section draw.
Context (E : env).
Implicit Types (w : world) (nf : Z) (g : monitor) (ρ : res).

(** An image that was drawn to. *)
Definition dirtied (face mipmap : Z) (o : GLDSysObject) : GLDSysObject :=
  set_pageon (<[Z.to_nat face := wrap 16 (Z.lor (nth (Z.to_nat face) o.(pageon) 0) (Z.shiftl 1 mipmap))]> o.(pageon))
    (set_pageoff (<[Z.to_nat face := Z.ldiff (nth (Z.to_nat face) o.(pageoff) 0) (Z.shiftl 1 mipmap)]> o.(pageoff)) o).

Lemma mark_dirty_at face mipmap o : length o.(pageoff) = 6%nat /\ length o.(pageon) = 6%nat -> 0 <= face < 6 -> mark_dirty face mipmap o = mret (dirtied face mipmap o).
Proof.
  intros [L1 L2] Hf. unfold mark_dirty, dirtied. destruct (lookup_lt_is_Some_2 o.(pageoff) (Z.to_nat face)) as [x Hx]; [lia|]. destruct (lookup_lt_is_Some_2 o.(pageon) (Z.to_nat face)) as [y Hy]; [lia|].
  by rewrite Hx, Hy, (nth_lookup_Some _ _ _ _ Hx), (nth_lookup_Some _ _ _ _ Hy).
Qed.

Lemma dirtied_keeps face mipmap o : keeps o (dirtied face mipmap o).
Proof. unfold keeps. cbn. by rewrite !length_insert. Qed.

Lemma wp_dirty k ρ l s tx t j o face mipmap (Q : post Shared) w nf g : shape no_gap l s -> s.(textures) !! tx = Some t -> bound s tx t j o -> 0 <= face < 6 -> owned E k ρ s w g ->
  (forall o', o' = o \/ o' = dirtied face mipmap o -> shape no_gap l (put_so j o' s) -> owned E k ρ (put_so j o' s) w g -> Q (put_so j o' s) w nf g) ->
  wp (dirtyTexture tx face mipmap s) Q w nf g.
Proof.
  intros Hs Ht Hb Hf Ho HQ. unfold dirtyTexture. assert (tx <> 0) as H0 by (intros ->; by rewrite (sp_null _ _ _ Hs) in Ht). apply Z.eqb_neq in H0. rewrite H0, (get_tx_at tx t) by done.
  rewrite ret_bind, (bo_obj _ _ _ _ _ Hb). destruct (_ =? TEX_TYPE_IOSURFACE).
  - apply wp_ret. assert (put_so j o s = s) as E0 by (unfold put_so; rewrite list_insert_id by apply Hb; by destruct s). rewrite <-E0. apply HQ; rewrite ?E0; auto.
  - rewrite (bo_at _ _ _ _ _ Hb). cbn [deref]. rewrite ret_bind, mark_dirty_at, ret_bind; [|apply Hb|done]. apply wp_ret, HQ; [by right| |by apply owned_put].
    eapply shape_put_quiet; [exact Hs|exact Ht|exact Hb|apply dirtied_keeps|done].
Qed.

Lemma wp_choose_format k ρ l s tx t usage (Q : post Shared) w nf g : shape no_gap l s -> s.(textures) !! tx = Some t -> owned E k ρ s w g ->
  (forall f, shape no_gap l (upd tx (set_surface_format f t) s) -> owned E k ρ (upd tx (set_surface_format f t) s) w g -> Q (upd tx (set_surface_format f t) s) w nf g) ->
  wp (choose_format usage tx s) Q w nf g.
Proof.
  intros Hs Ht Ho HQ. unfold choose_format. rewrite (get_tx_at tx t) by done. rewrite ret_bind.
  assert (forall f, Q (upd tx (set_surface_format f t) s) w nf g) as HR.
  { intros f. apply HQ; [|by apply (owned_upd E k ρ s tx t)]. eapply shape_upd; [exact Hs|exact Ht|by repeat split|]. intros Hp. by destruct (sp_geom _ _ _ Hs tx t Ht Hp). }
  destruct (_ =? _); [rewrite (on_tx_at tx t) by done; apply wp_ret, HR|]. apply wp_ret. specialize (HR t.(surface_format)).
  assert (set_surface_format t.(surface_format) t = t) as E1 by by destruct t. by rewrite E1, (upd_same tx t s Ht) in HR.
Qed.
End draw.
