(* ===== verification/GlPaging.v ===== *)
(** The copies of the images of a texture: which commands [pageoffDirtyTexture] and
    [alloc_and_load_texture] send to the device. *)

From S2P Require Import Allocator.
From S2P Require Import Prelude IOKit Layout SvgaReg SvgaCmd Svga3dReg Svga3d AccelIds AccelBlit Accel AccelSpec ShaderCache Provider.
From S2P Require Import AccelGmr VertexArray DevCaps Kernel Transfer Surface Dll SurfaceLogic SurfaceProofs Shared SharedInv SharedProofs SharedLife GlTextures GlTexturesProofs.
From stdpp Require Import gmap gmultiset.
From stdpp Require Import list_relations list.

#[local] Open Scope Z_scope.

Local Abbreviation prog := (prog kernel).
Local Abbreviation world := (world kernel).

(** ** Traces *)

Lemma bind_ends {A B} (p : prog A) (f : A -> prog B) w nf x : spec (p ≫= f) w nf = Some x ->
  exists y z, spec p w nf = Some y /\ spec (f y.(t_result)) y.(t_world) y.(t_next) = Some z /\ x = mk_trace z.(t_result) (y.(t_events) ++ z.(t_events)) z.(t_world) z.(t_next).
Proof. rewrite spec_bind. destruct (spec p w nf) as [y|]; [|done]. cbn [mbind option_bind]. intros (z & Hz & ->)%after_Some. by exists y, z. Qed.

Lemma spec_ret_Some {A} (a : A) w nf x : spec (mret a : prog A) w nf = Some x -> x = mk_trace a [] w nf.
Proof. by intros [= <-]. Qed.

(** A copy of an image that succeeds was sent. *)
Lemma dma_sent image transfer box extra fence (w : world) nf x : spec (ask (OpSurfaceDMA3D image transfer (Some box) (Some extra) fence)) w nf = Some x ->
  (x.(t_result).1 = kIOReturnSuccess ->
    Sent (In3D (SurfaceDMA (mk_SVGA3dCmdSurfaceDMA (guest_image_ex extra) image transfer) [box] (Some (mk_SVGA3dCmdSurfaceDMASuffix 12 (u32 extra.(ex_mem_limit)) extra.(ex_suffix_flags))))) ∈ x.(t_events)).
Proof.
  cbn [spec ask accel_spec]. intros (z & Hz & ->)%after_Some. cbn [t_result t_events]. destruct (bHaveSVGA3D (w_accel w)).
  - intros _. destruct fence; cbn; by left.
  - cbn in Hz. injection Hz as <-. done.
Qed.

(** ** Paging off *)

Section pageoff_trace.
Context (headers : Z -> GLDTextureHeader) (m : mapping) (s : Shared) (tx ltx : Z) (t u : TextureBuffer) (j : nat) (o : GLDSysObject) (gmr : Z).
Context (Ht : s.(textures) !! tx = Some t) (Hu : s.(textures) !! ltx = Some u) (Hb : bound s tx t j o).

Definition header_of (x : Z * Z) : GLDTextureHeader := headers (t.(min_mipmap) + 12 * x.1 + x.2).

(** The copy of an image from the device to the memory of the client. *)
Definition copy_back (x : Z * Z) : acmd :=
  let h := header_of x in
  In3D (SurfaceDMA
    (mk_SVGA3dCmdSurfaceDMA (mk_SVGA3dGuestImage (mk_SVGAGuestPtr gmr (u32 h.(offset_in_client))) (u32 h.(th_pitch)))
       (mk_SVGA3dSurfaceImageId t.(surface_id) x.1 x.2) SVGA3D_READ_HOST_VRAM)
    [mk_SVGA3dCopyBox 0 0 0 (h.(width_bytes) / t.(bytespp)) h.(th_height) h.(th_depth) 0 0 0]
    (Some (mk_SVGA3dCmdSurfaceDMASuffix 12 0xFFFFFFFF 2))).

(** An image that is on the device only, and whose pixels the client has a place for. *)
Definition to_copy (x : Z * Z) : Prop := isPagedOn o x.1 x.2 = mret true /\ (header_of x).(pixels_in_client) <> 0.

Lemma image_sent v x w nf y : spec (pageoff_image headers m tx ltx gmr x.1 x.2 (with_xfer ltx u v s)) w nf = Some y ->
  (exists v', y.(t_result).2 = with_xfer ltx u v' s) /\ (y.(t_result).1 = kIOReturnSuccess -> to_copy x -> Sent (copy_back x) ∈ y.(t_events)).
Proof.
  unfold pageoff_image. destruct (lookup_with_xfer s tx t ltx u v Ht Hu) as (t' & Ht' & F1 & F2 & F3 & F4). rewrite (get_tx_at tx t') by done. rewrite ret_bind, F1, F2, F3. unfold header_at.
  destruct (_ && _); [|done]. rewrite ret_bind. assert (get_so t' (with_xfer ltx u v s) = mret (j, o)) as ->. { apply (get_so_at tx). apply (bound_stable s _ tx t); [done|done|done|exact Hb]. }
  rewrite ret_bind. fold (header_of x). unfold to_copy. assert ((exists b, isPagedOn o x.1 x.2 = mret b) \/ isPagedOn o x.1 x.2 = Wild) as [[on ->]| ->]; [|rewrite ret_bind|done].
  { unfold isPagedOn. destruct (pageoff o !! _); [|by right]. destruct (pageon o !! _); [|by right]. left. by eexists. }
  destruct (_ || _) eqn:Ec; [|destruct (bytespp t =? 0); [done|]].
  - intros ->%spec_ret_Some. split; [by exists v|]. intros _ [[= ->] Hp]. cbn in Ec. lia.
  - intros (y1 & z & H1 & H2 & ->)%bind_ends. pose proof (dma_sent _ _ _ _ _ _ _ _ H1) as Hs. cbn [t_result t_events]. destruct y1 as [[rc f] ev w1 nf1]. cbn [t_result t_world t_next t_events fst snd] in *.
    assert (exists v', z.(t_result) = (rc, with_xfer ltx u v' s)) as (v' & ->).
    { destruct f as [f|]; [|rewrite ret_bind in H2; apply spec_ret_Some in H2 as ->; by exists v]. rewrite (on_tx_at ltx (set_xfer v u)) in H2 by apply lookup_at. rewrite ret_bind in H2.
      apply spec_ret_Some in H2 as ->. cbn [t_result]. exists (set_fence f v). f_equal. apply (with_xfer_again s ltx u v (set_fence f v)). }
    split; [by exists v'|]. cbn [fst]. intros Hrc _. apply elem_of_app. left. exact (Hs Hrc).
Qed.

Lemma images_sent L : forall v w nf y, spec (pageoff_images headers m tx ltx gmr L (with_xfer ltx u v s)) w nf = Some y ->
  (exists v', y.(t_result).2 = with_xfer ltx u v' s) /\ (y.(t_result).1 = kIOReturnSuccess -> forall x, x ∈ L -> to_copy x -> Sent (copy_back x) ∈ y.(t_events)).
Proof.
  induction L as [|x L IH]; intros v w nf y; cbn [pageoff_images].
  - intros ->%spec_ret_Some. split; [by exists v|]. by intros _ x ?%elem_of_nil.
  - destruct x as [face mipmap]. intros (y1 & z & H1 & H2 & ->)%bind_ends. apply (image_sent v (face, mipmap)) in H1 as [[v1 Hv] H1]. destruct y1 as [[rc s1] ev w1 nf1].
    cbn [t_result t_world t_next t_events fst snd] in *. subst s1. destruct (bool_decide_reflect (rc = kIOReturnSuccess)) as [->|Hrc].
    + apply IH in H2 as [Hv2 H2]. split; [done|]. intros Hrc x [->|Hx]%elem_of_cons Hc; apply elem_of_app; [left; by apply H1|right; by apply H2].
    + apply spec_ret_Some in H2 as ->. split; [by exists v1|]. done.
Qed.
End pageoff_trace.

(** A call that succeeds copied every image that was on the device only. *)
Lemma pageoff_sent headers s tx t j o w nf x : s.(textures) !! tx = Some t -> bound s tx t j o -> Z.land o.(vstate) 0x11 = 0 ->
  spec (pageoffDirtyTexture headers tx s) w nf = Some x -> x.(t_result).1 = kIOReturnSuccess ->
  exists gmr, forall y, y ∈ images t -> to_copy headers t o y -> Sent (copy_back headers t gmr y) ∈ x.(t_events).
Proof.
  intros Ht Hb Hv. unfold pageoffDirtyTexture. rewrite (get_tx_at tx t) by done. rewrite ret_bind, (get_so_at tx t j o s Hb), ret_bind, Hv. cbn [negb Z.eqb].
  destruct (sh_provider s); cbn [negb]; [|by intros ->%spec_ret_Some]. destruct (isIdValid (surface_id t)); cbn [negb]; [|by intros ->%spec_ret_Some].
  destruct (_ && _); [by intros ->%spec_ret_Some|]. destruct (_ && (linked_agp t =? 0)); [by intros ->%spec_ret_Some|]. cbv zeta. fold (target_of tx t). set (ltx := target_of tx t).
  intros ([[rc1 mm] ev1 w1 nf1] & z & _ & H2 & ->)%bind_ends. cbn [t_result t_world t_next t_events] in *. destruct (bool_decide_reflect (rc1 = kIOReturnSuccess)); cbn [negb] in H2; [|by apply spec_ret_Some in H2 as ->].
  destruct mm as [m|]; [|done]. cbn [deref] in H2. rewrite ret_bind in H2. destruct (s.(textures) !! ltx) as [u|] eqn:Hu; [|by unfold get_tx in H2; rewrite Hu in H2].
  rewrite (get_tx_at ltx u) in H2 by done. rewrite ret_bind in H2. apply bind_ends in H2 as ([[rc2 v] ev2 w2 nf2] & z2 & _ & H2 & ->). cbn [t_result t_world t_next t_events] in *.
  rewrite (on_tx_at ltx u) in H2 by done. rewrite ret_bind in H2. destruct (bool_decide_reflect (rc2 = kIOReturnSuccess)); cbn [negb] in H2.
  2: { apply bind_ends in H2 as (y3 & z3 & _ & H3 & ->). apply spec_ret_Some in H3 as ->. done. }
  apply bind_ends in H2 as (y3 & z3 & H3 & H4 & ->). apply (images_sent headers m s tx ltx t u j o v.(gmr_id) Ht Hu Hb) in H3 as [_ H3]. destruct y3 as [[rc3 s3] ev3 w3 nf3].
  cbn [t_result t_world t_next t_events fst snd] in *. destruct (bool_decide_reflect (rc3 = kIOReturnSuccess)) as [->|Hrc3]; cbn [negb] in H4.
  - intros _. exists v.(gmr_id). intros y Hy Hc. rewrite !elem_of_app. right. right. left. by apply H3.
  - apply bind_ends in H4 as (y5 & z5 & _ & H5 & ->). apply bind_ends in H5 as (y6 & z6 & _ & H6 & ->). apply spec_ret_Some in H6 as ->. done.
Qed.

(** ** Loading *)

(** One step of a sequence that came to its end. *)
Ltac step_in H := let ev := fresh "ev" in let w := fresh "w" in let nf := fresh "nf" in let r := fresh "r" in let z := fresh "z" in
  apply bind_ends in H as ([r ev w nf] & z & _ & H & ->); cbn [t_result t_world t_next t_events] in *.

Section host_result.
Context (headers : Z -> GLDTextureHeader) (s : Shared) (tx : Z) (t : TextureBuffer).

Lemma forget_result rc sid a b w nf y : spec (forget_surface rc tx sid (upd tx (resurfaced a b t) s)) w nf = Some y -> y.(t_result) = (rc, upd tx (resurfaced SVGA_ID_INVALID b t) s).
Proof. unfold forget_surface. intros H. step_in H. rewrite set_id_upd, ret_bind in H. by apply spec_ret_Some in H as ->. Qed.

(** The textures that a call leaves differ in the surfaces of the texture. *)
Lemma host_result w nf y : s.(textures) !! tx = Some t -> spec (create_host_surface_for_texture true headers tx s) w nf = Some y ->
  exists a b, y.(t_result).2 = upd tx (resurfaced a b t) s.
Proof.
  intros Ht. assert (forall a, set_surface_id a t = resurfaced a t.(yuv_shadow) t) as Er by by destruct t.
  assert (exists a b, s = upd tx (resurfaced a b t) s) as Hsame. { exists t.(surface_id), t.(yuv_shadow). rewrite <-Er. assert (set_surface_id (surface_id t) t = t) as -> by by destruct t. by rewrite upd_same. }
  unfold create_host_surface_for_texture. cbn [negb]. destruct (tx =? 0); [by intros ->%spec_ret_Some|]. rewrite (get_tx_at tx t) by done. rewrite ret_bind.
  destruct (_ =? TEX_TYPE_SURFACE); [by intros ->%spec_ret_Some|]. destruct (isIdValid _); [by intros ->%spec_ret_Some|]. intros H. step_in H. rename r into sid. rewrite (on_tx_at tx t), ret_bind, Er in H by done.
  destruct (_ =? TEX_TYPE_AGPREF); [unfold host_agpref in H|destruct (_ || _); [unfold host_images in H|]].
  - step_in H. destruct r.
    + step_in H. rewrite set_id_upd, ret_bind in H. step_in H. destruct r0; cbn [negb] in H.
      * do 2 step_in H. apply spec_ret_Some in H as ->. by exists sid, r.
      * step_in H. rewrite set_id_upd, ret_bind in H. apply (forget_result _ _ sid SVGA_ID_INVALID) in H as ->. by eexists _, _.
    + step_in H. destruct r; cbn [negb] in H; [|apply forget_result in H as ->; by eexists _, _]. step_in H. apply spec_ret_Some in H as ->. by eexists _, _.
  - step_in H. destruct r as [rc mm]. case_bool_decide; cbn [negb] in H; [|apply forget_result in H as ->; by eexists _, _]. destruct mm as [m|]; [|done]. cbn [deref] in H. rewrite ret_bind in H.
    step_in H. destruct r; cbn [negb] in H; [|step_in H; apply forget_result in H as ->; by eexists _, _]. destruct (_ <? _); [done|]. do 3 step_in H. apply spec_ret_Some in H as ->. by eexists _, _.
  - apply forget_result in H as ->. by eexists _, _.
Qed.
End host_result.

(** Both parts of a copy that is sent in two. *)
Lemma split_sent image transfer box extra box' extra' (w : world) nf x :
  spec (ask (OpSurfaceDMA3D image transfer (Some box) (Some extra) false);; ask (OpSurfaceDMA3D image transfer (Some box') (Some extra') true)) w nf = Some x -> x.(t_result).1 = kIOReturnSuccess ->
  forall b e, (b, e) ∈ [(box, extra); (box', extra')] ->
    Sent (In3D (SurfaceDMA (mk_SVGA3dCmdSurfaceDMA (guest_image_ex e) image transfer) [b] (Some (mk_SVGA3dCmdSurfaceDMASuffix 12 (u32 e.(ex_mem_limit)) e.(ex_suffix_flags))))) ∈ x.(t_events).
Proof.
  intros ([r1 ev1 w1 nf1] & z & H1 & H2 & ->)%bind_ends. cbn [t_result t_events t_world t_next] in *. intros Hz. pose proof (dma_sent _ _ _ _ _ _ _ _ H2 Hz) as Hin2.
  assert (r1.1 = kIOReturnSuccess) as Hr1.
  { cbn [spec ask accel_spec] in H1, H2. apply after_Some in H1 as (t1 & [= <-] & [= -> _ -> ->]). apply after_Some in H2 as (t2 & [= <-] & [= ->]). destruct w as [aw cw sw]. cbn in *. destruct (bHaveSVGA3D aw) eqn:E3; [done|]. cbn [refused o_accel o_result] in Hz. by rewrite E3 in Hz. }
  pose proof (dma_sent _ _ _ _ _ _ _ _ H1 Hr1) as Hin1. intros b e [[= -> ->]|[[= -> ->]|[]%elem_of_nil]%elem_of_cons]%elem_of_cons; apply elem_of_app; auto.
Qed.

Section load_trace.
Context (headers : Z -> GLDTextureHeader) (m : mapping) (s : Shared) (tx ltx : Z) (t u : TextureBuffer) (j : nat) (o : GLDSysObject) (gmr : Z).
Context (Ht : s.(textures) !! tx = Some t) (Hu : s.(textures) !! ltx = Some u) (Hb : bound s tx t j o).

(** A copy of lines of an image from the memory of the client to the device. *)
Definition copy_lines (sid : Z) (x : Z * Z) (y h offset pitch flags : Z) : acmd :=
  let th := header_of headers t x in
  In3D (SurfaceDMA
    (mk_SVGA3dCmdSurfaceDMA (mk_SVGA3dGuestImage (mk_SVGAGuestPtr gmr (u32 offset)) (u32 pitch)) (mk_SVGA3dSurfaceImageId sid x.1 x.2) SVGA3D_WRITE_HOST_VRAM)
    [mk_SVGA3dCopyBox 0 y 0 (th.(width_bytes) / t.(bytespp)) h th.(th_depth) 0 0 0]
    (Some (mk_SVGA3dCmdSurfaceDMASuffix 12 0xFFFFFFFF flags))).

(** The copies of an image: one, or the last line on its own where its pitch reaches past
    the end of the memory. *)
Definition copies (sid agp_size : Z) (x : Z * Z) : list acmd :=
  let th := header_of headers t x in
  let h := th.(th_height) in
  if (t.(sys_obj_type) =? TEX_TYPE_OOB) && (th.(th_depth) =? 1) && (agp_size <? u64 (th.(offset_in_client) + h * th.(th_pitch))) then
    [copy_lines sid x 0 (u32 (h - 1)) th.(offset_in_client) th.(th_pitch) 3;
     copy_lines sid x (u32 (h - 1)) 1 (u64 (th.(offset_in_client) + u32 (h - 1) * th.(th_pitch))) th.(width_bytes) 2]
  else [copy_lines sid x 0 h th.(offset_in_client) th.(th_pitch) 3].

(** An image that is in memory only. *)
Definition to_load (x : Z * Z) : Prop := isPagedOff o x.1 x.2 = mret true /\ (header_of headers t x).(pixels_in_client) <> 0.

Definition all_loaded (x : Z * Z) (ev : list event) : Prop := forall c, c ∈ copies t.(surface_id) u.(agp_size) x -> Sent c ∈ ev.

Lemma type_with_xfer v t' : (with_xfer ltx u v s).(textures) !! tx = Some t' -> t'.(sys_obj_type) = t.(sys_obj_type) /\ images t' = images t /\ t'.(num_faces) = t.(num_faces).
Proof. clear Hb. cbn. rewrite lookup_upd. destruct (decide (tx = ltx)) as [->|]; [intros [= <-]; by assert (u = t) as -> by congruence|rewrite Ht; by intros [= <-]]. Qed.

Lemma load_image_sent v x w nf y : spec (load_image headers m tx ltx gmr x.1 x.2 (with_xfer ltx u v s)) w nf = Some y ->
  (exists v', y.(t_result).2 = with_xfer ltx u v' s) /\ (y.(t_result).1 = kIOReturnSuccess -> to_load x -> all_loaded x y.(t_events)).
Proof.
  unfold load_image. destruct (lookup_with_xfer s tx t ltx u v Ht Hu) as (t' & Ht' & F1 & F2 & F3 & F4). rewrite (get_tx_at tx t') by done. rewrite ret_bind, F1, F2, F3. unfold header_at.
  destruct (_ && _); [|done]. rewrite ret_bind. assert (get_so t' (with_xfer ltx u v s) = mret (j, o)) as ->. { apply (get_so_at tx). apply (bound_stable s _ tx t); [done|done|done|exact Hb]. }
  rewrite ret_bind. fold (header_of headers t x). unfold to_load, all_loaded, copies. assert ((exists b, isPagedOff o x.1 x.2 = mret b) \/ isPagedOff o x.1 x.2 = Wild) as [[off ->]| ->]; [|rewrite ret_bind|done].
  { unfold isPagedOff. destruct (_ || _); [left; by eexists|]. destruct (pageoff o !! _); [|by right]. destruct (pageon o !! _); [|by right]. left. by eexists. }
  destruct (_ || _) eqn:Ec; [|destruct (bytespp t =? 0); [done|]].
  { intros ->%spec_ret_Some. split; [by exists v|]. intros _ [[= ->] Hp]. cbn in Ec. lia. }
  cbv zeta. rewrite (get_tx_at ltx (set_xfer v u)) by apply lookup_at. rewrite ret_bind. destruct (type_with_xfer v t' Ht') as (-> & _ & _). change (agp_size (set_xfer v u)) with (agp_size u).
  intros ([[rc f] ev w1 nf1] & z & H1 & H2 & ->)%bind_ends. cbn [t_result t_world t_next t_events fst snd] in *.
  assert (exists v', z.(t_result) = (rc, with_xfer ltx u v' s)) as (v' & ->).
  { unfold store_fence in H2. cbn [snd] in H2. destruct f as [f|]; [|rewrite ret_bind in H2; apply spec_ret_Some in H2 as ->; by exists v]. rewrite (on_tx_at ltx (set_xfer v u)) in H2 by apply lookup_at. rewrite ret_bind in H2.
    apply spec_ret_Some in H2 as ->. cbn [t_result]. exists (set_fence f v). f_equal. apply (with_xfer_again s ltx u v (set_fence f v)). }
  split; [by exists v'|]. cbn [fst]. intros Hrc _ c Hc. apply elem_of_app. left. destruct (_ && _).
  - pose proof (split_sent _ _ _ _ _ _ _ _ _ H1 Hrc) as Hin. apply elem_of_cons in Hc as [->|Hc]; [|apply elem_of_cons in Hc as [->|[]%elem_of_nil]].
    + exact (Hin _ _ (list_elem_of_here _ _)).
    + exact (Hin _ _ (list_elem_of_further _ _ _ (list_elem_of_here _ _))).
  - apply elem_of_cons in Hc as [->|[]%elem_of_nil]. exact (dma_sent _ _ _ _ _ _ _ _ H1 Hrc).
Qed.

Lemma load_images_sent L : forall v w nf y, spec (load_images headers m tx ltx gmr L (with_xfer ltx u v s)) w nf = Some y ->
  (exists v', y.(t_result).2 = with_xfer ltx u v' s) /\ (y.(t_result).1 = kIOReturnSuccess -> forall x, x ∈ L -> to_load x -> all_loaded x y.(t_events)).
Proof.
  induction L as [|x L IH]; intros v w nf y; cbn [load_images].
  - intros ->%spec_ret_Some. split; [by exists v|]. by intros _ x ?%elem_of_nil.
  - destruct x as [face mipmap]. intros (y1 & z & H1 & H2 & ->)%bind_ends. apply (load_image_sent v (face, mipmap)) in H1 as [[v1 Hv] H1]. destruct y1 as [[rc s1] ev w1 nf1].
    cbn [t_result t_world t_next t_events fst snd] in *. subst s1. destruct (bool_decide_reflect (rc = kIOReturnSuccess)) as [->|Hrc].
    + apply IH in H2 as [Hv2 H2]. split; [done|]. intros Hrc x [->|Hx]%elem_of_cons Hc c Hin; apply elem_of_app; [left; by apply H1|right; by apply (H2 Hrc x)].
    + apply spec_ret_Some in H2 as ->. split; [by exists v1|]. done.
Qed.
End load_trace.

Lemma complete_with_result p s u w nf y : s.(textures) !! p = Some u -> spec (complete_with true p s) w nf = Some y -> exists v, y.(t_result) = upd p (set_xfer v u) s.
Proof.
  intros Hu. unfold complete_with. rewrite (get_tx_at p u) by done. rewrite ret_bind. intros H. step_in H. rewrite (on_tx_at p u) in H by done. apply spec_ret_Some in H as ->. by exists r.
Qed.

(** Nothing is only in memory. *)
Lemma none_off o face mipmap : some_off o = false -> isPagedOff o face mipmap <> mret true.
Proof.
  intros Hf. unfold isPagedOff. destruct (_ || _); [done|]. destruct (pageoff o !! _) as [a|] eqn:Ea; [|done]. destruct (pageon o !! _) as [b|] eqn:Eb; [|done]. cbn. intros [= Hb].
  assert (Z.ldiff a b = 0) as H0; [|by rewrite H0, Z.bits_0 in Hb]. apply Z.eqb_eq. destruct (Z.ldiff a b =? 0) eqn:E0; [done|]. exfalso. apply not_true_iff_false in Hf. apply Hf. apply existsb_exists. exists (a, b).
  split; [|cbn; by rewrite E0]. apply list_elem_of_In, list_elem_of_lookup. exists (Z.to_nat face). by rewrite lookup_zip_with, Ea, Eb.
Qed.

Section load_result.
Context (headers : Z -> GLDTextureHeader) (s : Shared) (tx ltx : Z) (t u : TextureBuffer) (j : nat) (o : GLDSysObject).
Context (Ht : s.(textures) !! tx = Some t) (Hu : s.(textures) !! ltx = Some u) (Hb : bound s tx t j o).

(** The copies of an image go to the surface that the texture has at the end. *)
Definition sent_to (t' : TextureBuffer) (x : Z * Z) (ev : list event) : Prop :=
  exists gmr, forall c, c ∈ copies headers t gmr t'.(surface_id) u.(agp_size) x -> Sent c ∈ ev.

Lemma load_into_sent m w nf y : spec (load_into true headers (Some m) tx ltx s) w nf = Some y -> y.(t_result).1 = kIOReturnSuccess ->
  exists t', y.(t_result).2.(textures) !! tx = Some t' /\ t'.(surface_id) = t.(surface_id) /\ forall x, x ∈ images t -> to_load headers t o x -> sent_to t' x y.(t_events).
Proof.
  unfold load_into. rewrite (get_tx_at ltx u) by done. rewrite ret_bind. intros H. step_in H. destruct r as [rc v]. rewrite (on_tx_at ltx u), ret_bind in H by done.
  case_bool_decide; cbn [negb] in H; [|step_in H; by apply spec_ret_Some in H as ->]. fold (with_xfer ltx u v s) in H. destruct (lookup_with_xfer s tx t ltx u v Ht Hu) as (t1 & Ht1 & _ & _ & _ & _).
  rewrite (get_tx_at tx t1), ret_bind in H by done. destruct (type_with_xfer s tx ltx t u Ht Hu v t1 Ht1) as (_ & Ei & En). rewrite Ei, En in H.
  apply bind_ends in H as ([[rc2 s2] ev2 w2 nf2] & z2 & H2 & H & ->). apply (load_images_sent headers m s tx ltx t u j o v.(gmr_id) Ht Hu Hb) in H2 as [[v2 Hs2] H2].
  cbn [t_result t_world t_next t_events fst snd] in *. subst s2. case_bool_decide; cbn [negb] in H; [|do 2 step_in H; by apply spec_ret_Some in H as ->]. intros _.
  step_in H. destruct (lookup_with_xfer s tx t ltx u v2 Ht Hu) as (t2 & Ht2 & _ & _ & F3 & F4). rewrite (on_so_at tx t2 j o), ret_bind in H; [|done|by apply (bound_stable s _ tx t)].
  apply bind_ends in H as ([s3 ev3 w3 nf3] & z3 & H3 & H & ->). cbn [t_result t_world t_next t_events] in *. apply (complete_with_result ltx _ (set_xfer v2 u)) in H3 as [v3 Hs3]; [|apply lookup_at]. cbn [t_result] in Hs3. subst s3.
  apply spec_ret_Some in H as ->. cbn [t_result t_events snd]. rewrite with_xfer_put. destruct (lookup_with_xfer (put_so j (mark_on (num_faces t) o) s) tx t ltx u v3 Ht Hu) as (t3 & Ht3 & _ & _ & F3' & _).
  exists t3. split; [done|]. split; [done|]. intros x Hx Hl. exists v.(gmr_id). rewrite F3'. intros c Hc. rewrite !elem_of_app. right. left. by apply (H2 H1 x Hx Hl).
Qed.
End load_result.

(** A call that succeeds, where no pages are volatile, copied every image that was only in
    memory to the surface of the texture. *)
Lemma alloc_sent headers s tx t j o l w nf x : shape no_gap l s -> s.(textures) !! tx = Some t -> bound s tx t j o -> t.(sys_obj_type) = TEX_TYPE_STD \/ t.(sys_obj_type) = TEX_TYPE_OOB -> ~ pages_volatile s t o ->
  spec (alloc_and_load_texture true headers tx s) w nf = Some x -> x.(t_result).1 = kIOReturnSuccess ->
  forall y, y ∈ images t -> to_load headers t o y -> exists u t', s.(textures) !! target_of tx t = Some u /\ x.(t_result).2.(textures) !! tx = Some t' /\ sent_to headers t u t' y x.(t_events).
Proof.
  intros Hs Ht Hb Hty Hnv. unfold alloc_and_load_texture. cbn [negb]. destruct (tx =? 0); [by intros ->%spec_ret_Some|]. rewrite (get_tx_at tx t) by done. rewrite ret_bind.
  destruct (_ =? SVGA3D_FORMAT_INVALID); [by intros ->%spec_ret_Some|]. destruct (Z.eqb_spec t.(sys_obj_type) TEX_TYPE_SURFACE) as [Es|_]; [rewrite Es in Hty; by destruct Hty|].
  rewrite (get_so_at tx t j o s Hb), ret_bind. destruct (is_volatile o) eqn:Evol; [by destruct Hnv; left|].
  destruct (Z.eqb_spec t.(sys_obj_type) TEX_TYPE_AGPREF) as [Ea|_]; [rewrite Ea in Hty; by destruct Hty|]. replace ((_ =? TEX_TYPE_STD) || _) with true by (symmetry; lia).
  rewrite (any_off_reads o (bo_pages _ _ _ _ _ Hb)), ret_bind. destruct (some_off o) eqn:Eoff; cbn [negb].
  2: { intros ->%spec_ret_Some _ y _ [Hy _]. by apply none_off in Hy. }
  destruct (_ && (linked_agp t =? 0)); [by intros ->%spec_ret_Some|]. cbv zeta. fold (target_of tx t). destruct (s.(textures) !! target_of tx t) as [u|] eqn:Hu; [|unfold get_tx; by rewrite Hu].
  rewrite (get_tx_at _ u) by done. rewrite ret_bind. destruct (sp_bound _ _ _ Hs _ u Hu (not_elem_of_nil _)) as (ju & ou & Hbu). rewrite (get_so_at _ u ju ou s Hbu), ret_bind.
  destruct (_ && _) eqn:Evo.
  { destruct Hnv. right. apply andb_true_iff in Evo as [Eoo Evo]. unfold target_of in *. rewrite Eoo in *. exists u, ju, ou. unfold is_ref. by rewrite Eoo, orb_true_r. }
  intros H. step_in H. destruct r as [rc mm]. case_bool_decide; cbn [negb] in H; [|by apply spec_ret_Some in H as ->]. destruct mm as [m|]; [|done].
  cbn [deref] in H. rewrite ret_bind in H. unfold load_from in H. apply bind_ends in H as ([[rc1 s1] ev1 w1 nf1] & z1 & H1 & H2 & ->). apply (host_result headers s tx t) in H1 as (a & b & Es1); [|done].
  cbn [t_result t_world t_next t_events fst snd] in *. subst s1. case_bool_decide; cbn [negb] in H2; [|step_in H2; by apply spec_ret_Some in H2 as ->]. intros Hrc.
  set (t1 := resurfaced a b t) in *. set (s1 := upd tx t1 s) in *. assert (exists u1, s1.(textures) !! target_of tx t = Some u1 /\ u1.(agp_size) = u.(agp_size)) as (u1 & Hu1 & Eag).
  { cbn. rewrite lookup_upd. destruct (decide (target_of tx t = tx)) as [Ex|]; [|by exists u]. exists t1. split; [done|]. rewrite Ex in Hu. by assert (u = t) as -> by congruence. }
  apply (load_into_sent headers s1 tx _ t1 u1 j o) in H2 as (t' & Ht' & _ & Hsent); [|apply lookup_at|done|by apply (bound_stable s _ tx t)|done].
  intros y Hy Hl. exists u, t'. split; [done|]. split; [done|]. destruct (Hsent y Hy Hl) as [gmr Hg]. exists gmr. intros c Hc. rewrite !elem_of_app. right. right. apply Hg. rewrite Eag. exact Hc.
Qed.
