(* ===== verification/GlDevice.v ===== *)
(** The user client of an OpenGL device (AC/UC/CEsvga2Device.cpp): it owns the object of
    shared textures of its task, and passes the requests of the task to it. *)

From S2P Require Import Allocator.
From S2P Require Import Prelude IOKit Layout SvgaReg Svga3dReg AccelIds AccelBlit Accel AccelSpec ShaderCache Provider.
From S2P Require Import AccelGmr VertexArray Kernel Transfer Surface Shared.
From stdpp Require Import gmap gmultiset.
From stdpp Require Import list_relations list strings.

#[local] Open Scope Z_scope.

Local Abbreviation prog := (prog kernel).

(** ** Data *)

(** [m_shared] is the reference to the object and the object. *)
Record Device := mk_Device {
  dv_owning_task : Z;
  dv_provider : bool;
  dv_log_level : Z;
  m_shared : option (Z * Shared);
  m_channel_memory_map : option mapping;
}.

Definition set_owning (task : Z) (provider : bool) (d : Device) : Device :=
  mk_Device task provider d.(dv_log_level) d.(m_shared) d.(m_channel_memory_map).
Definition set_log_level (x : Z) (d : Device) : Device :=
  mk_Device d.(dv_owning_task) d.(dv_provider) x d.(m_shared) d.(m_channel_memory_map).
Definition set_m_shared (x : option (Z * Shared)) (d : Device) : Device :=
  mk_Device d.(dv_owning_task) d.(dv_provider) d.(dv_log_level) x d.(m_channel_memory_map).
Definition set_m_channel_memory_map (x : option mapping) (d : Device) : Device :=
  mk_Device d.(dv_owning_task) d.(dv_provider) d.(dv_log_level) d.(m_shared) x.

Definition LOGGING_LEVEL : Z := 9.
Definition kIOCEDeviceNumMethods : Z := 13.
Definition sizeof_VendorNewTextureDataStruc : Z := 0x48.
Definition sizeof_sIONewTextureReturnData : Z := 20.
Definition sizeof_sIODeviceChannelMemoryData : Z := 8.

(** [sIONewTextureReturnData] *)
Record NewTextureReturn := mk_NewTextureReturn { nr_tx_data : Z; nr_sys_obj_addr : Z }.
(** [sIODevicePageoffTexture] *)
Record PageoffTexture := mk_PageoffTexture { po_texture_id : Z; po_mipmap : Z; po_face : Z }.

(** ** Methods of [IOUserClient] *)

(** The method is one of this object. *)
Definition getTargetAndMethodForIndex (targetP : bool) (index : Z) : option Z :=
  if negb targetP || (kIOCEDeviceNumMethods <=? index) then None else Some index.

(** The release of the shared object is of its last reference. *)
Definition Cleanup (d : Device) : prog Device :=
  release_map d.(m_channel_memory_map);;
  let d := set_m_channel_memory_map None d in
  match d.(m_shared) with
  | None => mret d
  | Some (r, s) => free_shared s;; release r;; mret (set_m_shared None d)
  end.

Definition clientClose (d : Device) : prog (IOReturn * Device) :=
  d ← Cleanup d; mret (kIOReturnSuccess, set_owning 0 false d).

(** The answer is the descriptor that was made, which may be null. *)
Definition clientMemoryForType (options memory : bool) : prog (IOReturn * option descriptor) :=
  if negb options || negb memory then mret (kIOReturnBadArgument, None)
  else md ← new_descriptor PAGE_SIZE; mret (kIOReturnSuccess, md).

(** [provider] says whether the provider is an accelerator. *)
Definition start (provider super_start : bool) (log_gld log_ac : Z) (d : Device) : bool * Device :=
  let d := set_owning d.(dv_owning_task) provider d in
  if negb provider then (false, d) else (super_start, set_log_level (Z.max log_gld log_ac) d).

Definition initWithTask (super_init : bool) (owningTask : Z) (d : Device) : bool * Device :=
  let d := set_log_level LOGGING_LEVEL d in
  if negb super_init then (false, d) else (true, set_owning owningTask d.(dv_provider) d).

(** Objects are zero when they are made. *)
Definition withTask (super_init : bool) (owningTask : Z) : prog (option (Z * Device)) :=
  o ← new_object;
  match o with
  | None => mret None
  | Some r =>
      let '(b, d) := initWithTask super_init owningTask (mk_Device 0 false 0 None None) in
      if b then mret (Some (r, d)) else release r;; mret None
  end.

(** ** Methods of the client *)

Definition create_shared (super_init : bool) (d : Device) : prog (IOReturn * Device) :=
  match d.(m_shared) with
  | Some _ => mret (kIOReturnError, d)
  | None =>
      o ← factory super_init d.(dv_owning_task) d.(dv_provider);
      match o with
      | None => mret (kIOReturnNoResources, d)
      | Some rs => mret (kIOReturnSuccess, set_m_shared (Some rs) d)
      end
  end.

(** [version] is [version_major] of the system; [USE_OWN_GLD] is not defined. *)
Definition get_config (version vram_size root_uuid : Z) : IOReturn * (Z * Z * Z * Z * Z) :=
  (kIOReturnSuccess, (if 11 <=? version then 0x40000 else 0, 0, vram_size, vram_size, root_uuid)).

(** [strlcpy] of the name to a buffer of [n] characters: what it stores. *)
Definition get_name (n : Z) : IOReturn * list Ascii.ascii :=
  (kIOReturnSuccess,
   if n =? 0 then [] else take (Z.to_nat (n - 1)) (String.list_ascii_of_string "CEsvga2"%string) ++ [Ascii.zero]).

Definition wait_for_stamp (stamp : Z) (d : Device) : prog IOReturn :=
  when (negb (stamp =? 0) && d.(dv_provider)) (sync_to (u32 stamp));; mret kIOReturnSuccess.

(** The texture of a request: null, or the texture with what the client learns. *)
Definition make_texture (limit : Z) (find : Z -> option Z) (i : NewTextureData) (s : Shared) : prog (Z * NewTextureReturn * Shared) :=
  let type := i.(nt_type) in
  let size0 := i.(nt_size).1 in
  let size1 := i.(nt_size).2 in
  let pixels0 := i.(nt_pixels).1.1 in
  let pixels1 := i.(nt_pixels).1.2 in
  if type =? TEX_TYPE_SURFACE then
    '(p, a, s) ← new_surface_texture (find size0) size0 size1 s; mret (p, mk_NewTextureReturn 0 a, s)
  else if type =? TEX_TYPE_IOSURFACE then
    '(p, a, s) ← new_iosurface_texture s; mret (p, mk_NewTextureReturn 0 a, s)
  else if type =? TEX_TYPE_VB then
    '(p, b, a, s) ← new_texture limit size0 0 0 0 s; mret (p, mk_NewTextureReturn b a, s)
  else if type =? TEX_TYPE_AGPREF then
    '(p, a, s) ← new_agpref_texture limit pixels0 pixels1 size0 s;
    if p =? 0 then mret (p, mk_NewTextureReturn 0 a, s)
    else
      t ← get_tx p s;
      if t.(linked_agp) =? 0 then mret (p, mk_NewTextureReturn 0 a, s)
      else l ← get_tx t.(linked_agp) s; mret (p, mk_NewTextureReturn l.(agp_addr) a, s)
  else if type =? TEX_TYPE_STD then
    '(p, b, a, s) ← new_texture limit size0 size1 0 0 s; mret (p, mk_NewTextureReturn b a, s)
  else if type =? TEX_TYPE_OOB then
    '(p, b, a, s) ← new_texture limit size0 size1 pixels1 (u32 pixels0) s; mret (p, mk_NewTextureReturn b a, s)
  else mret (0, mk_NewTextureReturn 0 0, s).

(** The fields that the method itself copies. *)
Definition set_geometry (i : NewTextureData) (t : TextureBuffer) : TextureBuffer :=
  mk_TextureBuffer t.(xfer) t.(client_map) t.(sys_obj) t.(sys_obj_client_addr) t.(creator) t.(sys_obj_type)
    i.(nt_num_faces) i.(nt_num_mipmaps) i.(nt_min_mipmap) i.(nt_width) i.(nt_height) i.(nt_depth) i.(nt_vram_pitch) i.(nt_pitch)
    t.(vram_bytes) (if i.(nt_type) =? TEX_TYPE_SURFACE then t.(bytespp) else i.(nt_bytespp)) t.(tx_next) t.(tx_prev)
    t.(surface_id) t.(surface_format) t.(yuv_shadow) t.(linked_agp) t.(agp_offset_in_page) t.(mem_changed) t.(agp_addr)
    t.(agp_size) t.(linked_surface) t.(fb_idx_mask) t.(cgs_surface_id) t.(vram_tile_pages) t.(vram_page_bytes).

(** The checks of [new_texture] on its argument. *)
Definition texture_data_ok (i : NewTextureData) : bool :=
  ((i.(nt_num_faces) =? 1) || (i.(nt_num_faces) =? 6)) && (i.(nt_min_mipmap) + i.(nt_num_mipmaps) <=? 12) &&
  negb ((TEX_TYPE_IOSURFACE <? i.(nt_type)) && (i.(nt_bytespp) =? 0)).

Definition new_texture (limit : Z) (find : Z -> option Z) (i : NewTextureData) (struct_in_size struct_out_size : Z) (d : Device)
    : prog (IOReturn * NewTextureReturn * Device) :=
  let none := mk_NewTextureReturn 0 0 in
  if (struct_in_size <? sizeof_VendorNewTextureDataStruc) || (struct_out_size <? sizeof_sIONewTextureReturnData)
  then mret (kIOReturnBadArgument, none, d)
  else
    match d.(m_shared) with
    | None => mret (kIOReturnNotReady, none, d)
    | Some (r, s) =>
        if negb (texture_data_ok i) then mret (kIOReturnBadArgument, none, d)
        else
          lockShared s;;
          '(p, out, s) ← make_texture limit find i s;
          if p =? 0 then lockShared s;; mret (kIOReturnNoResources, out, set_m_shared (Some (r, s)) d)
          else
            s ← on_tx p (set_geometry i) s;
            '(b, s) ← initializeTexture p i s;
            lockShared s;;
            mret (if b : bool then kIOReturnSuccess else kIOReturnError, out, set_m_shared (Some (r, s)) d)
    end.

Definition delete_texture (texture_id : Z) (d : Device) : prog (IOReturn * Device) :=
  match d.(m_shared) with
  | None => mret (kIOReturnNotReady, d)
  | Some (r, s) =>
      lockShared s;;
      p ← findTextureBuffer (u32 texture_id) s;
      s ← (if p =? 0 then mret s else Shared.delete_texture p s);
      lockShared s;;
      mret (kIOReturnSuccess, set_m_shared (Some (r, s)) d)
  end.

(** The argument is read without a test of its size; [headers] is what the client has in
    the memory of the texture. *)
Definition page_off_texture (headers : Z -> GLDTextureHeader) (i : PageoffTexture) (d : Device) : prog (IOReturn * Device) :=
  match d.(m_shared) with
  | None => mret (kIOReturnNotReady, d)
  | Some (r, s) =>
      if (6 <=? i.(po_face)) || (12 <=? i.(po_mipmap)) then mret (kIOReturnBadArgument, d)
      else
        lockShared s;;
        p ← findTextureBuffer i.(po_texture_id) s;
        if p =? 0 then lockShared s;; mret (kIOReturnBadArgument, d)
        else
          t ← get_tx p s;
          match t.(sys_obj) with
          | None => lockShared s;; mret (kIOReturnBadArgument, d)
          | Some j =>
              o ← deref (s.(sys_objs) !! j);
              on ← isPagedOn o i.(po_face) i.(po_mipmap);
              '(_, s) ← (if on : bool then pageoffDirtyTexture headers p s else mret (kIOReturnSuccess, s));
              o ← deref (s.(sys_objs) !! j);
              sync_to (u32 o.(stamps).1);;
              lockShared s;;
              mret (kIOReturnSuccess, set_m_shared (Some (r, s)) d)
          end
  end.

(** [memory] is the answer of [getChannelMemory]. *)
Definition get_channel_memory (memory : option descriptor) (struct_out_size : Z) (d : Device) : prog (IOReturn * Z * Device) :=
  let done m d := mret (kIOReturnSuccess, u64 (m.(mp_addr) + SVGA_FIFO_FENCE * 4 - 64), d) in
  if struct_out_size <? sizeof_sIODeviceChannelMemoryData then mret (kIOReturnBadArgument, 0, d)
  else
    match d.(m_channel_memory_map) with
    | Some m => done m d
    | None =>
        match memory with
        | None => mret (kIOReturnNoResources, 0, d)
        | Some md =>
            m ← createMappingInTask (mk_descriptor md.(md_ref) PAGE_SIZE) d.(dv_owning_task);
            match m with
            | None => mret (kIOReturnNoResources, 0, d)
            | Some m => done m (set_m_channel_memory_map (Some m) d)
            end
        end
    end.

Definition kernel_printf : IOReturn := kIOReturnSuccess.

(** [memcpy] of the smaller size; the three methods are the same. *)
Definition nv_rm_config_get (struct_in : list Byte.byte) (struct_out_size : Z) : IOReturn * list Byte.byte :=
  (kIOReturnSuccess, take (Z.to_nat struct_out_size) struct_in).
Definition nv_rm_config_get_ex (struct_in : list Byte.byte) (struct_out_size : Z) : IOReturn * list Byte.byte :=
  (kIOReturnSuccess, take (Z.to_nat struct_out_size) struct_in).
Definition nv_rm_control (struct_in : list Byte.byte) (struct_out_size : Z) : IOReturn * list Byte.byte :=
  (kIOReturnSuccess, take (Z.to_nat struct_out_size) struct_in).
