(* ===== verification/GlDeviceSpec.v ===== *)
(** An OpenGL device, from its start to [clientClose]: the states that the requests of its
    task can lead to, what holds in them, and what is left at the end. *)

From S2P Require Import Allocator.
From S2P Require Import AllocatorProofs AllocatorSpec.
From S2P Require Import Prelude IOKit Layout SvgaReg SvgaCmd Svga3dReg Svga3d AccelIds AccelBlit Accel AccelProofs AccelSpec.
From S2P Require Import ShaderCache Provider AccelGmr VertexArray Kernel Transfer Surface Dll SurfaceLogic SurfaceProofs SurfaceMethods SurfaceSpec.
From S2P Require Import Shared SharedInv SharedProofs SharedLife GlTextures GlTexturesProofs GlPaging GlDevice.
From stdpp Require Import gmap gmultiset.
From stdpp Require Import list_relations list.

#[local] Open Scope Z_scope.

Local Abbreviation prog := (prog kernel).
Local Abbreviation world := (world kernel).

(** ** Requests *)

(** What the commands of a context do to a texture, for any order of the commands: they
    choose its format, make its surface, load it, and mark an image of it as drawn to. *)
Inductive texture_op :=
  | ChooseFormat (usage : Z)
  | MakeSurface (headers : Z -> GLDTextureHeader)
  | LoadTexture (headers : Z -> GLDTextureHeader)
  | DrawTo (face mipmap : Z).

Definition run_texture_op (c : texture_op) (tx : Z) (s : Shared) : prog (IOReturn * Shared) :=
  match c with
  | ChooseFormat usage => s ← choose_format usage tx s; mret (kIOReturnSuccess, s)
  | MakeSurface headers => create_host_surface_for_texture true headers tx s
  | LoadTexture headers => alloc_and_load_texture true headers tx s
  | DrawTo face mipmap => s ← dirtyTexture tx (sanitize_face face) (sanitize_mipmap mipmap) s; mret (kIOReturnSuccess, s)
  end.

(** The requests that change something, a step of a context that shares the textures, and
    a store of the task to one of its system objects. *)
Inductive device_op :=
  | CreateShared (super_init : bool)
  | NewTexture (limit : Z) (find : Z -> option Z) (i : NewTextureData) (in_size out_size : Z)
  | DeleteTexture (id : Z)
  | PageOffTexture (headers : Z -> GLDTextureHeader) (i : PageoffTexture)
  | WaitForStamp (stamp : Z)
  | GetChannelMemory (memory : option descriptor) (out_size : Z)
  | InContext (id : Z) (c : texture_op)
  | ClientStore (j : nat) (o : GLDSysObject).

(** The context looks the texture up by its id. *)
Definition in_context (id : Z) (c : texture_op) (d : Device) : prog (IOReturn * Device) :=
  match d.(m_shared) with
  | None => mret (kIOReturnNotReady, d)
  | Some (r, s) =>
      p ← findTextureBuffer (u32 id) s;
      if p =? 0 then mret (kIOReturnBadArgument, d) else '(rc, s) ← run_texture_op c p s; mret (rc, set_m_shared (Some (r, s)) d)
  end.

Definition exec_device (op : device_op) (d : Device) : prog (IOReturn * Device) :=
  match op with
  | CreateShared b => create_shared b d
  | NewTexture limit find i n m => r ← GlDevice.new_texture limit find i n m d; mret (r.1.1, r.2)
  | DeleteTexture id => GlDevice.delete_texture id d
  | PageOffTexture headers i => page_off_texture headers i d
  | WaitForStamp stamp => rc ← wait_for_stamp stamp d; mret (rc, d)
  | GetChannelMemory memory n => r ← get_channel_memory memory n d; mret (r.1.1, r.2)
  | InContext id c => in_context id c d
  | ClientStore j o => mret (kIOReturnSuccess, match d.(m_shared) with Some (r, s) => set_m_shared (Some (r, put_so j o s)) d | None => d end)
  end.

(** What the kernel cannot check: the task does not delete a texture that only other
    textures refer to, whose id it was never given; and it leaves the fields of its
    system objects alone that the kernel relies on.  Fields of requests are not negative,
    and the memory of the channel is alive. *)
Definition may (E : env) (op : device_op) (d : Device) : Prop :=
  match op with
  | NewTexture _ _ i _ _ => 0 <= i.(nt_num_mipmaps) /\ 0 <= i.(nt_min_mipmap) /\ 0 <= i.(nt_bytespp)
  | DeleteTexture id => forall r s p t, d.(m_shared) = Some (r, s) -> s.(handles) !! Z.to_nat (u32 id) = Some p -> s.(textures) !! p = Some t -> is_agp t = false
  | PageOffTexture _ i => 0 <= i.(po_texture_id) /\ 0 <= i.(po_face) /\ 0 <= i.(po_mipmap)
  | GetChannelMemory (Some md) _ => md.(md_ref) ∈ E.(e_refs)
  | InContext _ (DrawTo face mipmap) => 0 <= face /\ 0 <= mipmap
  | ClientStore j o => forall r s, d.(m_shared) = Some (r, s) -> exists p t o0, s.(textures) !! p = Some t /\ bound s p t j o0 /\ keeps o0 o /\ o.(refcount) = o0.(refcount)
  | _ => True
  end.

(** ** The invariant *)

Definition device_refs (d : Device) : list Z :=
  opt_ref mp_ref d.(m_channel_memory_map) match d.(m_shared) with Some (r, s) => r :: refs_of s | None => [] end.
Definition device_live (d : Device) : list Z := match d.(m_shared) with Some (_, s) => live_of s | None => [] end.

Section device.
Context (E : env).
Implicit Types (w : world) (nf : Z) (g : monitor) (ρ : res) (d : Device).

Definition nothing : res := mk_res 0 [] [] 0 [] [] [] [] [] false [].

Record device_ok (n : Z) d w g : Prop := {
  do_provider : d.(dv_provider) = true;
  do_shared r s : d.(m_shared) = Some (r, s) -> (exists l, shape no_gap l s) /\ is_Some s.(m_shared_lock);
  do_owns : owns E (res_with n (device_refs d) (device_live d) nothing) w g;
}.

(** The resources of the device besides those of its textures. *)
Definition besides (r : Z) d : res := set_r_refs (opt_ref mp_ref d.(m_channel_memory_map) [r]) nothing.

Lemma owned_device n r s d w g : d.(m_shared) = Some (r, s) -> owns E (res_with n (device_refs d) (device_live d) nothing) w g -> owned E n (besides r d) s w g.
Proof.
  intros Es. apply owns_le. unfold besides, device_refs, device_live. rewrite Es. split; cbn; try done.
  destruct (m_channel_memory_map d); cbn; rewrite ?app_nil_r; solve_Permutation.
Qed.

Lemma device_owned n r s d w g : owned E n (besides r d) s w g -> owns E (res_with n (device_refs (set_m_shared (Some (r, s)) d)) (device_live (set_m_shared (Some (r, s)) d)) nothing) w g.
Proof.
  apply owns_le. unfold besides, device_refs, device_live. split; cbn; try done. destruct (m_channel_memory_map d); cbn; rewrite ?app_nil_r; solve_Permutation.
Qed.

Lemma device_ok_mono n n' d w g : device_ok n d w g -> n <= n' -> device_ok n' d w g.
Proof. intros [H1 H2 H3] Hn. split; try done. eapply owns_le; [|exact H3]. by apply res_with_le. Qed.

(** A new state of the textures. *)
Lemma device_next n r s0 s l d w g : device_ok n d w g -> d.(m_shared) = Some (r, s0) -> forall n' w' g', shape no_gap l s -> same_base s0 s -> owned E n' (besides r d) s w' g' ->
  device_ok n' (set_m_shared (Some (r, s)) d) w' g'.
Proof.
  intros [H1 H2 H3] Es n' w' g' Hs [_ Hl _] Ho. split; [done| |by apply device_owned]. cbn. intros r' s' [= <- <-]. split; [eauto|]. rewrite Hl. by apply (H2 r s0).
Qed.

(** The lock is there. *)
Lemma wp_lock n r s d l w nf g (Q : post unit) : shape no_gap l s -> is_Some s.(m_shared_lock) -> owned E n (besides r d) s w g -> Q tt w nf g -> wp (lockShared s) Q w nf g.
Proof.
  intros Hs [lk El] Ho HQ. unfold lockShared. rewrite El. cbn [deref]. rewrite ret_bind. apply wp_bind, wp_gets.
  rewrite (live_ref E _ _ _ lk Ho). 2: { cbn. unfold refs_of, base_refs. rewrite El, !elem_of_app. left. right. destruct (m_handle_table s); cbn; [right|]; by left. }
  by apply wp_ret.
Qed.

Lemma find_cases l s id : shape no_gap l s -> 0 <= id -> exists p, findTextureBuffer id s = mret p /\
  (p <> 0 -> exists t j o, s.(textures) !! p = Some t /\ bound s p t j o /\ s.(handles) !! Z.to_nat id = Some p).
Proof.
  intros Hs Hid. pose proof (sp_table _ _ _ Hs) as (T1 & _ & _). unfold findTextureBuffer. destruct (_ || _) eqn:Ec; [by exists 0|]. apply orb_false_iff in Ec as [_ Ec].
  destruct (lookup_lt_is_Some_2 s.(handles) (Z.to_nat id)) as [p Hp]; [lia|]. exists p. rewrite Hp. split; [done|]. intros H0.
  destruct (sp_handle _ _ _ Hs _ p Hp H0) as (_ & t & j & o & Ht & Hb & _). eauto 6.
Qed.
End device.

Section requests.
Context (E : env).
Implicit Types (w : world) (nf : Z) (g : monitor) (ρ : res) (d : Device).

Definition device_goes n d (Q : post (IOReturn * Device)) : Prop := forall rc d' w' nf' g', device_ok E (n + 8) d' w' g' -> Q (rc, d') w' nf' g'.

Lemma wp_create_shared n b d (Q : post (IOReturn * Device)) w nf g : device_ok E n d w g -> device_goes n d Q -> wp (create_shared b d) Q w nf g.
Proof.
  intros Hd HQ. unfold create_shared. destruct (m_shared d) as [rs|] eqn:Es; [apply wp_ret, HQ; eapply device_ok_mono; [exact Hd|lia]|]. pose proof Hd as [D1 D2 D3]. rewrite D1.
  unfold device_refs, device_live in D3. rewrite Es in D3. set (R := opt_ref mp_ref d.(m_channel_memory_map) []) in *. apply wp_bind.
  eapply (wp_factory E n (set_r_refs R nothing)); [eapply owns_le; [|exact D3]; split; cbn; try done; by rewrite app_nil_r| |].
  - intros w1 Ho1. apply wp_ret, HQ. split; [done|by rewrite Es|]. unfold device_refs, device_live. rewrite Es. eapply owns_le; [|exact Ho1]. split; cbn; try done; [lia|by rewrite app_nil_r].
  - intros r s w1 Hs Htask Hlk _ Ho1. apply wp_ret, HQ. split; [done| |].
    + cbn. intros r' s' [= <- <-]. eauto.
    + apply (device_owned E (n + 8)). eapply owns_le; [|exact Ho1]. unfold besides. split; cbn; try done; [lia|]. unfold R. destruct (m_channel_memory_map d); cbn; solve_Permutation.
Qed.

Lemma wp_wait_for_stamp n stamp d (Q : post (IOReturn * Device)) w nf g : device_ok E n d w g -> device_goes n d Q -> wp (rc ← wait_for_stamp stamp d; mret (rc, d)) Q w nf g.
Proof.
  intros Hd HQ. pose proof Hd as [D1 D2 D3]. apply wp_bind. unfold wait_for_stamp. apply wp_bind. rewrite D1, andb_true_r. destruct (stamp =? 0); cbn [negb when].
  - apply wp_ret, wp_ret, wp_ret, HQ. eapply device_ok_mono; [exact Hd|lia].
  - eapply wp_wait; [exact D3|by left|]. intros g' Ho'. apply wp_ret, wp_ret, HQ. split; try done. eapply owns_le; [|exact Ho']. split; cbn; try done. lia.
Qed.

Lemma wp_get_channel_memory n memory size d (Q : post (IOReturn * Device)) w nf g : device_ok E n d w g -> may E (GetChannelMemory memory size) d -> device_goes n d Q ->
  wp (r ← get_channel_memory memory size d; mret (r.1.1, r.2)) Q w nf g.
Proof.
  intros Hd Hm HQ. pose proof Hd as [D1 D2 D3]. assert (forall rc w', device_ok E n d w' g -> Q (rc, d) w' nf g) as Hsame. { intros rc w' Hd'. apply HQ. eapply device_ok_mono; [exact Hd'|lia]. }
  apply wp_bind. unfold get_channel_memory. cbv zeta. destruct (_ <? _); [by apply wp_ret, wp_ret, Hsame|]. destruct (m_channel_memory_map d) as [m|] eqn:Ec; [by apply wp_ret, wp_ret, Hsame|].
  destruct memory as [md|]; [|by apply wp_ret, wp_ret, Hsame]. apply wp_bind. unfold createMappingInTask. apply wp_bind, wp_gets.
  rewrite bool_decide_eq_true_2. 2: { destruct D3 as [_ _ [K1 _ _ _ _ _] _ _ _]. rewrite K1. apply elem_of_union. by right. }
  cbn [negb]. eapply wp_new_mapping; [exact D3|]. intros [m|] w1 Ho1 _; apply wp_ret, wp_ret; [apply HQ|apply Hsame].
  - split; [done|exact D2|]. eapply owns_le; [|exact Ho1]. unfold device_refs, device_live. cbn. rewrite Ec. split; cbn; try done. lia.
  - split; try done.
Qed.

Lemma wp_client_store n j o d (Q : post (IOReturn * Device)) w nf g : device_ok E n d w g -> may E (ClientStore j o) d -> device_goes n d Q ->
  wp (exec_device (ClientStore j o) d) Q w nf g.
Proof.
  intros Hd Hm HQ. apply wp_ret. destruct (m_shared d) as [[r s]|] eqn:Es; [|apply HQ; eapply device_ok_mono; [exact Hd|lia]]. pose proof Hd as [D1 D2 D3].
  destruct (Hm r s Es) as (p & t & o0 & Ht & Hb & Hk & Hr). destruct (D2 r s Es) as [[l Hs] Hl]. apply HQ. eapply (device_next E n r s _ l d w g); [done|done| | |].
  - by eapply (shape_put_quiet _ l s p t).
  - by split.
  - apply owned_put. eapply owned_mono; [by eapply owned_device|lia].
Qed.

Lemma wp_delete_request n id d (Q : post (IOReturn * Device)) w nf g : device_ok E n d w g -> may E (DeleteTexture id) d -> device_goes n d Q ->
  wp (GlDevice.delete_texture id d) Q w nf g.
Proof.
  intros Hd Hm HQ. unfold GlDevice.delete_texture. destruct (m_shared d) as [[r s]|] eqn:Es; [|apply wp_ret, HQ; eapply device_ok_mono; [exact Hd|lia]]. pose proof Hd as [D1 D2 D3].
  destruct (D2 r s Es) as [[l Hs] Hl]. pose proof (owned_device E n r s d w g Es D3) as Ho. apply wp_bind. eapply wp_lock; [exact Hs|exact Hl|exact Ho|].
  destruct (find_cases l s (u32 id) Hs) as (p & -> & Hp); [apply Z.mod_pos_bound; lia|]. rewrite ret_bind. apply wp_bind. destruct (Z.eqb_spec p 0) as [->|Hp0].
  - apply wp_ret, wp_bind. eapply wp_lock; [exact Hs|exact Hl|exact Ho|]. apply wp_ret, HQ. eapply (device_next E n r s s l d w g); [done|done|done|by split|eapply owned_mono; [exact Ho|lia]].
  - destruct (Hp Hp0) as (t & j & o & Ht & _ & Hh). eapply (wp_delete_texture E n _ l s p t); [done|done|by eapply Hm|exact Ho|].
    intros l' s' w' g' Hs' Hb' _ Ho'. apply wp_bind. eapply wp_lock; [exact Hs'|by rewrite (sb_lock _ _ Hb')|exact Ho'|]. apply wp_ret, HQ. eapply (device_next E n r s s' l' d w g); [done|done|done|done|eapply owned_mono; [exact Ho'|lia]].
Qed.

Lemma wp_page_off n headers i d (Q : post (IOReturn * Device)) w nf g : device_ok E n d w g -> may E (PageOffTexture headers i) d -> n + 1 < 2 ^ 30 -> device_goes n d Q ->
  wp (page_off_texture headers i d) Q w nf g.
Proof.
  intros Hd (Hm1 & Hm2 & Hm3) Hn HQ. assert (forall rc w', device_ok E n d w' g -> Q (rc, d) w' nf g) as Hsame. { intros rc w' Hd'. apply HQ. eapply device_ok_mono; [exact Hd'|lia]. }
  unfold page_off_texture. destruct (m_shared d) as [[r s]|] eqn:Es; [|by apply wp_ret, Hsame]. destruct (_ || _) eqn:Ef; [by apply wp_ret, Hsame|].
  pose proof Hd as [D1 D2 D3]. destruct (D2 r s Es) as [[l Hs] Hl]. pose proof (owned_device E n r s d w g Es D3) as Ho. apply wp_bind. eapply wp_lock; [exact Hs|exact Hl|exact Ho|].
  destruct (find_cases l s (po_texture_id i) Hs Hm1) as (p & -> & Hp). rewrite ret_bind. destruct (Z.eqb_spec p 0) as [->|Hp0].
  { apply wp_bind. eapply wp_lock; [exact Hs|exact Hl|exact Ho|]. by apply wp_ret, Hsame. }
  destruct (Hp Hp0) as (t & j & o & Ht & Hb & _). rewrite (get_tx_at p t) by done. rewrite ret_bind, (bo_obj _ _ _ _ _ Hb), (bo_at _ _ _ _ _ Hb). cbn [deref]. rewrite ret_bind.
  destruct (paged_reads o (po_face i) (po_mipmap i) (bo_pages _ _ _ _ _ Hb)) as [on ->]; [lia|]. rewrite ret_bind.
  assert (forall o' s' w' nf' g', shape no_gap l s' -> same_base s s' -> s'.(sys_objs) !! j = Some o' -> owned E (n + 3) (besides r d) s' w' g' ->
    wp (o ← deref (s'.(sys_objs) !! j); sync_to (u32 o.(stamps).1);; lockShared s';; mret (kIOReturnSuccess, set_m_shared (Some (r, s')) d)) Q w' nf' g') as Hend.
  { intros o' s' w' nf' g' Hs' Hb' Hj Ho'. rewrite Hj. cbn [deref]. rewrite ret_bind. apply wp_bind. eapply wp_wait; [exact Ho'|by left|]. intros g2 Ho2.
    apply wp_bind. eapply wp_lock; [exact Hs'|by rewrite (sb_lock _ _ Hb')|exact Ho2|]. apply wp_ret, HQ. eapply (device_next E n r s s' l d w g); [done|done|done|done|]. eapply (owned_mono E (n + 3)); [exact Ho2|lia]. }
  apply wp_bind. destruct on.
  - eapply (wp_pageoff E n _ headers l s p t j o); [done|done|done|exact Ho|cbn; lia|]. intros rc o' t' s' w' nf' g' Hs' Hb' Ht' Hbd' _ Ho'. eapply Hend; try done. apply Hbd'.
  - apply wp_ret. eapply Hend; [done|by split|apply Hb|eapply owned_mono; [exact Ho|lia]].
Qed.
End requests.

Section new_texture_request.
Context (E : env).
Implicit Types (w : world) (nf : Z) (g : monitor) (ρ : res) (d : Device).

Definition request_made n ρ (i : NewTextureData) s (Q : post (Z * NewTextureReturn * Shared)) nf : Prop :=
  (forall out l' s' w' g', shape no_gap l' s' -> same_base s s' -> owned E (n + 2) ρ s' w' g' -> Q (0, out, s') w' nf g') /\
  (forall p out l' s' t w' g', shape no_gap l' s' -> p <> 0 -> s'.(textures) !! p = Some t -> (i.(nt_type) <= TEX_TYPE_IOSURFACE -> t.(sys_obj_type) = TEX_TYPE_SURFACE) ->
     same_base s s' -> owned E (n + 2) ρ s' w' g' -> Q (p, out, s') w' nf g').

Lemma wp_make_texture n ρ limit find i l s (Q : post (Z * NewTextureReturn * Shared)) w nf g : shape no_gap l s -> owned E n ρ s w g -> request_made n ρ i s Q nf ->
  wp (make_texture limit find i s) Q w nf g.
Proof.
  intros Hs Ho [Hno Hyes]. unfold make_texture. cbv zeta.
  assert (i.(nt_type) = TEX_TYPE_AGPREF -> ~ i.(nt_type) <= TEX_TYPE_IOSURFACE) as Hag by (intros ->; unfold TEX_TYPE_AGPREF, TEX_TYPE_IOSURFACE; lia).
  assert (forall size0 size1 pixels size, TEX_TYPE_IOSURFACE < i.(nt_type) ->
    wp ('(p, b, a, s) ← Shared.new_texture limit size0 size1 pixels size s; mret (p, mk_NewTextureReturn b a, s)) Q w nf g) as Hnew.
  { intros size0 size1 pixels size Hty. apply wp_bind. eapply (wp_new_texture E n ρ l); [done|exact Ho| |].
    - intros l' s' w' g' H1 H2 H3. by apply wp_ret, (Hno _ l').
    - intros ty _ p b a l' s' t w' g' H1 H2 H3 H4 H5 H6. apply wp_ret. apply (Hyes p _ l' s' t); try done. lia. }
  destruct (Z.eqb_spec i.(nt_type) TEX_TYPE_SURFACE) as [E1|E1].
  { apply wp_bind. eapply (wp_new_surface_texture E n ρ l); [done|exact Ho| |].
    - intros l' s' w' g' H1 H2 H3. apply wp_ret, (Hno _ l'); [done|done|eapply owned_mono; [exact H3|lia]].
    - intros p a l' s' t w' g' H1 H2 H3 H4 H5 H6. apply wp_ret. apply (Hyes p _ l' s' t); try done. eapply owned_mono; [exact H6|lia]. }
  destruct (Z.eqb_spec i.(nt_type) TEX_TYPE_IOSURFACE) as [E2|E2]. { apply wp_ret, (Hno _ l); [done|by split|eapply owned_mono; [exact Ho|lia]]. }
  destruct (Z.eqb_spec i.(nt_type) TEX_TYPE_VB) as [E3|E3]; [apply Hnew; rewrite E3; done|]. destruct (Z.eqb_spec i.(nt_type) TEX_TYPE_AGPREF) as [E4|E4].
  { apply wp_bind. eapply (wp_new_agpref E n ρ l); [done|exact Ho| |].
    - intros l' s' w' g' H1 H2 H3. rewrite Z.eqb_refl. by apply wp_ret, (Hno _ l').
    - intros p a l' s' t w' g' H1 H2 H3 H4 H5 H6. apply Z.eqb_neq in H2 as Hpb. rewrite Hpb, (get_tx_at p t) by done. rewrite ret_bind.
      destruct (Z.eqb_spec t.(linked_agp) 0) as [El|El]; [apply wp_ret; apply (Hyes p _ l' s' t); try done; by intros ?%Hag|].
      destruct (sp_link _ _ _ H1 p t H3) as (_ & a' & Ha & _); [unfold is_ref; by rewrite H4|done|done|]. rewrite (get_tx_at _ a') by done. rewrite ret_bind. apply wp_ret. apply (Hyes p _ l' s' t); try done. by intros ?%Hag. }
  destruct (Z.eqb_spec i.(nt_type) TEX_TYPE_STD) as [E5|E5]; [apply Hnew; rewrite E5; done|].
  destruct (Z.eqb_spec i.(nt_type) TEX_TYPE_OOB) as [E6|E6]; [apply Hnew; rewrite E6; done|]. apply wp_ret, (Hno _ l); [done|by split|eapply owned_mono; [exact Ho|lia]].
Qed.

Lemma geometry_set i t : texture_data_ok i = true -> 0 <= i.(nt_num_mipmaps) /\ 0 <= i.(nt_min_mipmap) /\ 0 <= i.(nt_bytespp) ->
  (i.(nt_type) <= TEX_TYPE_IOSURFACE -> t.(sys_obj_type) = TEX_TYPE_SURFACE) -> geometry t -> geometry (set_geometry i t).
Proof.
  unfold texture_data_ok. intros Hok (H1 & H2 & H3) Hty [G1 G2 G3 G4 G5 G6]. split; cbn; try done; [lia|lia|]. intros Hx. right.
  destruct (Z.leb_spec i.(nt_type) TEX_TYPE_IOSURFACE) as [Hle|Hgt]; [rewrite (Hty Hle) in Hx; by destruct Hx|].
  destruct (Z.eqb_spec i.(nt_type) TEX_TYPE_SURFACE) as [Es|_]; [unfold TEX_TYPE_SURFACE, TEX_TYPE_IOSURFACE in *; lia|]. lia.
Qed.

Lemma wp_new_request n limit find i in_size out_size d (Q : post (IOReturn * Device)) w nf g : device_ok E n d w g -> may E (NewTexture limit find i in_size out_size) d ->
  device_goes E n d Q -> wp (r ← GlDevice.new_texture limit find i in_size out_size d; mret (r.1.1, r.2)) Q w nf g.
Proof.
  intros Hd Hm HQ. apply wp_bind. assert (forall rc (out : NewTextureReturn) w', device_ok E n d w' g -> wp (mret (rc, out, d)) (fun r => wp (mret (r.1.1, r.2)) Q) w' nf g) as Hsame.
  { intros rc out w' Hd'. apply wp_ret, wp_ret, HQ. eapply device_ok_mono; [exact Hd'|lia]. }
  unfold GlDevice.new_texture. cbv zeta. destruct (_ || _); [by apply Hsame|]. destruct (m_shared d) as [[r s]|] eqn:Es; [|by apply Hsame].
  destruct (texture_data_ok i) eqn:Eok; cbn [negb]; [|by apply Hsame]. pose proof Hd as [D1 D2 D3]. destruct (D2 r s Es) as [[l Hs] Hl]. pose proof (owned_device E n r s d w g Es D3) as Ho.
  apply wp_bind. eapply wp_lock; [exact Hs|exact Hl|exact Ho|]. apply wp_bind. eapply (wp_make_texture n _ limit find i l s); [done|exact Ho|]. split.
  - intros out l' s' w' g' Hs' Hb' Ho'. rewrite Z.eqb_refl. apply wp_bind. eapply wp_lock; [exact Hs'|by rewrite (sb_lock _ _ Hb')|exact Ho'|]. apply wp_ret, wp_ret, HQ.
    eapply (device_next E n r s s' l' d w g); [done|done|done|done|eapply owned_mono; [exact Ho'|lia]].
  - intros p out l' s' t w' g' Hs' Hp Ht Hty Hb' Ho'. apply Z.eqb_neq in Hp as Hpb. rewrite Hpb, (on_tx_at p t) by done. rewrite ret_bind. unfold initializeTexture.
    rewrite (on_tx_at p (set_geometry i t)) by apply lookup_at. rewrite !ret_bind, upd_upd. set (t2 := set_tiles _ _ _). set (s2 := upd p t2 s').
    assert (shape no_gap l' s2) as Hs2. { eapply shape_upd; [exact Hs'|exact Ht|unfold same_links; split_and!; reflexivity|]. intros Hin.
      pose proof (geometry_set i t Eok Hm Hty (sp_geom _ _ _ Hs' p t Ht Hin)) as []. by split. }
    assert (owned E (n + 2) (besides r d) s2 w' g') as Ho2 by (by eapply owned_upd). assert (same_base s s2) as Hb2 by (by etransitivity; [exact Hb'|split]).
    apply wp_bind. eapply wp_lock; [exact Hs2|by rewrite (sb_lock _ _ Hb2)|exact Ho2|]. apply wp_ret, wp_ret, HQ.
    eapply (device_next E n r s s2 l' d w g); [done|done|done|done|eapply owned_mono; [exact Ho2|lia]].
Qed.

(** A step of a context. *)
Lemma wp_texture_op n ρ c l s p t j o d (Q : post (IOReturn * Shared)) w nf g : shape no_gap l s -> s.(textures) !! p = Some t -> bound s p t j o -> may E (InContext 0 c) d ->
  owned E n ρ s w g -> ρ.(r_n) + n + 5 < 2 ^ 30 ->
  (forall rc s' w' nf' g', shape no_gap l s' -> same_base s s' -> owned E (n + 8) ρ s' w' g' -> Q (rc, s') w' nf' g') -> wp (run_texture_op c p s) Q w nf g.
Proof.
  intros Hs Ht Hb Hm Ho Hn HQ. destruct c as [usage|headers|headers|face mipmap]; cbn [run_texture_op].
  - apply wp_bind. eapply (wp_choose_format E n ρ l s p t); [done|done|exact Ho|]. intros f Hs' Ho'. apply wp_ret, HQ; [done|by split|eapply owned_mono; [exact Ho'|lia]].
  - eapply (wp_create_host E n ρ headers l s p t); [done|done|exact Ho|lia|]. intros rc x y w' nf' g' Hs' _ Ho'. apply HQ; [done|by split|eapply owned_mono; [exact Ho'|lia]].
  - eapply (wp_alloc_and_load E n ρ headers l s p t j o); [done|done|done|exact Ho|lia|]. intros rc o' t' s' w' nf' g' Hs' Hb' _ _ _ Ho'. by apply HQ.
  - cbn [may] in Hm. apply wp_bind. eapply (wp_dirty E n ρ l s p t j o); [done|done|done|unfold sanitize_face; destruct (Z.leb_spec 6 face); lia|exact Ho|].
    intros o' _ Hs' Ho'. apply wp_ret, HQ; [done|by split|eapply owned_mono; [exact Ho'|lia]].
Qed.

Lemma wp_in_context n id c d (Q : post (IOReturn * Device)) w nf g : device_ok E n d w g -> may E (InContext id c) d -> n + 5 < 2 ^ 30 -> device_goes E n d Q -> wp (in_context id c d) Q w nf g.
Proof.
  intros Hd Hm Hn HQ. assert (forall rc, Q (rc, d) w nf g) as Hsame by (intros rc; apply HQ; eapply device_ok_mono; [exact Hd|lia]). unfold in_context.
  destruct (m_shared d) as [[r s]|] eqn:Es; [|by apply wp_ret]. pose proof Hd as [D1 D2 D3]. destruct (D2 r s Es) as [[l Hs] Hl]. pose proof (owned_device E n r s d w g Es D3) as Ho.
  destruct (find_cases l s (u32 id) Hs) as (p & -> & Hp); [apply Z.mod_pos_bound; lia|]. rewrite ret_bind. destruct (Z.eqb_spec p 0) as [->|Hp0]; [by apply wp_ret|].
  destruct (Hp Hp0) as (t & j & o & Ht & Hb & _). apply wp_bind. eapply (wp_texture_op n _ c l s p t j o d); [done|done|done|exact Hm|exact Ho|cbn; lia|].
  intros rc s' w' nf' g' Hs' Hb' Ho'. apply wp_ret, HQ. by eapply (device_next E n r s s' l d w g).
Qed.

Lemma wp_exec_device n op d (Q : post (IOReturn * Device)) w nf g : device_ok E n d w g -> may E op d -> n + 5 < 2 ^ 30 -> device_goes E n d Q -> wp (exec_device op d) Q w nf g.
Proof.
  intros Hd Hm Hn HQ. destruct op; cbn [exec_device].
  - by eapply wp_create_shared.
  - by eapply wp_new_request.
  - by eapply wp_delete_request.
  - eapply wp_page_off; try done. lia.
  - by eapply wp_wait_for_stamp.
  - by eapply wp_get_channel_memory.
  - by eapply wp_in_context.
  - by eapply wp_client_store.
Qed.

(** [clientClose] gives everything back. *)
Lemma wp_close_device n d (Q : post (IOReturn * Device)) w nf g : device_ok E n d w g ->
  (forall d' w' g', owns E (res_with (n + 256) [] [] nothing) w' g' -> Q (kIOReturnSuccess, d') w' nf g') -> wp (clientClose d) Q w nf g.
Proof.
  intros Hd HQ. pose proof Hd as [D1 D2 D3]. unfold clientClose, GlDevice.Cleanup. apply wp_bind, wp_bind. unfold device_refs, device_live in D3. eapply wp_drop_map; [exact D3|]. intros w1 Ho1.
  cbn [m_shared set_m_channel_memory_map]. destruct (m_shared d) as [[r s]|] eqn:Es.
  - destruct (D2 r s eq_refl) as [[l Hs] Hl]. apply wp_bind. unfold free_shared. eapply (wp_Cleanup E n (set_r_refs [r] nothing) l s); [done|eapply owns_le; [|exact Ho1]; split; cbn; try done; rewrite ?app_nil_r; solve_Permutation|].
    intros s' w2 g2 _ _ _ _ Ho2. apply wp_bind. eapply wp_release; [exact Ho2|cbn; reflexivity|]. intros w3 Ho3 _. apply wp_ret, wp_ret, HQ. exact Ho3.
  - apply wp_ret, wp_ret, HQ. eapply owns_le; [|exact Ho1]. apply res_with_le; [lia|done|done].
Qed.
End new_texture_request.

(** ** Runs *)

(** The device of a task, after [initWithTask] and [start]. *)
Definition open_device (task log_gld log_ac : Z) : Device := (start true true log_gld log_ac (initWithTask true task (mk_Device 0 false 0 None None)).2).2.

Inductive device_run (E : env) (task : Z) (w0 : world) (nf0 : Z) (g0 : monitor) : nat -> Device -> world -> Z -> monitor -> Prop :=
  | run_open a b : device_run E task w0 nf0 g0 0 (open_device task a b) w0 nf0 g0
  | run_op k d w nf g op t : device_run E task w0 nf0 g0 k d w nf g -> may E op d -> spec (exec_device op d) w nf = Some t ->
      device_run E task w0 nf0 g0 (S k) t.(t_result).2 t.(t_world) t.(t_next) (watch g t.(t_events)).

Section device_runs.
Context (E : env) (task : Z) (w0 : world) (nf0 : Z) (g0 : monitor) (Hstart : owns E nothing w0 g0).
Implicit Types (w : world) (nf : Z) (g : monitor) (d : Device).

Lemma run_ok k d w nf g : device_run E task w0 nf0 g0 k d w nf g -> Z.of_nat k < 2 ^ 27 -> device_ok E (8 * Z.of_nat k) d w g.
Proof using Hstart.
  induction 1 as [a b|k d w nf g op t Hr IH Hm Et]; intros Hk.
  - split; try done.
  - destruct (wp_exec_device E _ op d (fun r w nf g => device_ok E (8 * Z.of_nat (S k)) r.2 w g) w nf g (IH ltac:(lia)) Hm) as (t' & Et' & Hd'); [lia| |].
    + intros rc d' w' nf' g' Hd'. by replace (8 * Z.of_nat (S k)) with (8 * Z.of_nat k + 8) by lia.
    + rewrite Et in Et'. by injection Et' as <-.
Qed.

(** C14: the requests of a task to an OpenGL device, and what its contexts do to its textures,
    are safe.  From every state that allowed steps lead to, every allowed step ends: no
    texture is used after it was freed, or freed twice, no null pointer is followed, no
    header outside of the mapped page is read and no size divided by zero; and the pages of
    a texture are given back only when the device has finished with them.  Allowed is
    [may], for the step and for those before it: the task does not delete the texture of
    an AGP memory, whose id it was not given, and its stores leave the id, the use and the
    counts of its system objects alone. *)
Theorem device_requests_safe k d w nf g op : device_run E task w0 nf0 g0 k d w nf g -> Z.of_nat k < 2 ^ 27 -> may E op d ->
  exists t, spec (exec_device op d) w nf = Some t /\ (watch g t.(t_events)).(g_safe) = true.
Proof using Hstart.
  intros Hr Hk Hm. destruct (wp_exec_device E _ op d (fun _ _ _ g => g.(g_safe) = true) w nf g (run_ok _ _ _ _ _ Hr Hk) Hm) as (t & Et & Hg); [lia| |by exists t].
  intros rc d' w' nf' g' [_ _ Ho]. by destruct (ow_safe _ _ _ _ Ho).
Qed.

(** C15: the tables of an OpenGL device agree.  In every state that steps of the task and of
    its contexts lead to, all of them allowed by [may] (the task does not delete the texture
    of an AGP memory, whose id it was not given, and its stores leave the id, the use and
    the counts of its system objects alone): the list of textures holds every texture once;
    the handle at the id in the system object of a texture is that texture, and every
    handle that is set is of a texture with that id; a reference leads to a live texture
    over memory of the client; and the count of such a texture is the number of textures
    that refer to it, which is not zero. *)
Theorem texture_tables_agree k d w nf g r s : device_run E task w0 nf0 g0 k d w nf g -> Z.of_nat k < 2 ^ 27 -> d.(m_shared) = Some (r, s) ->
  (exists l, dll 0 (links_of s.(textures)) l /\ s.(m_texture_list) = first 0 l /\ forall p, p ∈ l <-> is_Some (s.(textures) !! p)) /\
  (forall p t, s.(textures) !! p = Some t -> exists j o, t.(sys_obj) = Some j /\ s.(sys_objs) !! j = Some o /\ spec (findTextureBuffer o.(object_id) s) w nf = Some (mk_trace p [] w nf)) /\
  (forall i h, s.(handles) !! i = Some h -> h <> 0 -> exists t j o, s.(textures) !! h = Some t /\ t.(sys_obj) = Some j /\ s.(sys_objs) !! j = Some o /\ o.(object_id) = Z.of_nat i) /\
  (forall p t, s.(textures) !! p = Some t -> is_ref t = true -> t.(linked_agp) <> 0 -> exists a j o, s.(textures) !! t.(linked_agp) = Some a /\ is_agp a = true /\
     a.(sys_obj) = Some j /\ s.(sys_objs) !! j = Some o /\ o.(refcount) = referrers 0 t.(linked_agp) s.(textures) /\ 1 <= o.(refcount)).
Proof using Hstart.
  intros Hr Hk Es. destruct (run_ok _ _ _ _ _ Hr Hk) as [_ D2 _]. destruct (D2 r s Es) as [[l Hs] _]. pose proof Hs as [H1 H2 H3 H4 H5 H6 H7 H8 H9 H10 (T1 & T2 & T3) H12 H13]. split_and!.
  - exists l. split; [done|]. split; [done|]. intros p. rewrite H4. split; [auto|]. intros [|Hx]; [done|]. by apply elem_of_nil in Hx.
  - intros p t Ht. destruct (H6 p t Ht) as (j & o & [B1 B2 B3 B4 B5 B6]); [apply not_elem_of_nil|]. exists j, o. split; [done|]. split; [done|].
    unfold findTextureBuffer. pose proof (lookup_lt_Some _ _ _ B5). rewrite (bool_decide_eq_false_2 (_ = None)), (proj2 (Z.leb_gt _ _)), B5; [done|lia|]. intros Ex. rewrite (T3 Ex) in B5. done.
  - intros i h Hi Hh. destruct (H7 i h Hi Hh) as (_ & t & j & o & Ht & [B1 B2 B3 B4 B5 B6] & Ei). exists t, j, o. split_and!; try done. lia.
  - intros p t Ht Hrf Hl. destruct (H8 p t Ht Hrf) as (_ & a & Ha & Hagp); [cbn; intros ->; congruence|done|]. destruct (H6 _ a Ha) as (j & o & Hb); [apply not_elem_of_nil|].
    pose proof (H9 _ a j o Ha Hagp Hb) as Hc. pose proof (H10 _ a Ha Hagp) as Hu. cbn [mute unused no_gap] in *. destruct Hb as [B1 B2 _ _ _ _]. exists a, j, o. split_and!; try done. rewrite Hc. by apply Hu.
Qed.

(** C16: closing an OpenGL device gives back everything: after [clientClose], in any state
    that allowed requests and steps of contexts lead to, the surfaces of the device, the
    ids, the objects of the kernel (among them the memory of all textures) and the prepared
    descriptors are those of the other clients. *)
Theorem device_close_gives_back k d w nf g : device_run E task w0 nf0 g0 k d w nf g -> Z.of_nat k < 2 ^ 27 ->
  exists t, spec (clientClose d) w nf = Some t /\ t.(t_result).1 = kIOReturnSuccess /\ as_before E t.(t_world) (watch g t.(t_events)) /\ (watch g t.(t_events)).(g_safe) = true.
Proof using Hstart.
  intros Hr Hk. destruct (wp_close_device E _ d (fun r w _ g => r.1 = kIOReturnSuccess /\ as_before E w g /\ g.(g_safe) = true) w nf g (run_ok _ _ _ _ _ Hr Hk)) as (t & Et & H1 & H2 & H3); [|by exists t].
  intros d' w' g' [[(h & Hi & P1 & P2 & P3) _ _ _ [A5 _] _ A7] (_ & _ & F & V) [K1 _ _ _ K5 _] _ _ [Hsf _]]. split; [done|]. split; [|done]. split; try done.
  - by eexists _, h.
  - by exists F.
  - rewrite K1. apply (left_id_L ∅ (∪)).
  - rewrite K5. apply (left_id_L ∅ (⊎)).
Qed.
End device_runs.

(** ** Paging off *)

Lemma paged_off_image n o face mipmap : length o.(pageoff) = 6%nat /\ length o.(pageon) = 6%nat -> 0 <= face < n -> n <= 6 ->
  isPagedOn (clear_dirty (mark_off n o)) face mipmap = mret false.
Proof.
  intros [L1 L2] Hf Hn. unfold isPagedOn. cbn [pageoff pageon clear_dirty set_vstate mark_off set_pageoff]. rewrite list_lookup_imap.
  destruct (lookup_lt_is_Some_2 o.(pageoff) (Z.to_nat face)) as [x Hx]; [lia|]. destruct (lookup_lt_is_Some_2 o.(pageon) (Z.to_nat face)) as [y Hy]; [lia|].
  rewrite Hx, Hy. cbn [fmap option_fmap option_map deref]. rewrite !ret_bind. rewrite (proj2 (Z.ltb_lt _ _)) by lia. rewrite (nth_lookup_Some _ _ _ _ Hy).
  f_equal. rewrite Z.ldiff_spec, Z.lor_spec. by destruct (Z.testbit x mipmap), (Z.testbit y mipmap).
Qed.

Lemma loaded_image n o face mipmap : length o.(pageoff) = 6%nat /\ length o.(pageon) = 6%nat -> 0 <= face < n -> n <= 6 -> isPagedOff (mark_on n o) face mipmap = mret false.
Proof.
  intros [L1 L2] Hf Hn. unfold isPagedOff. destruct (_ || _); [done|]. cbn [pageoff pageon mark_on set_pageon]. rewrite list_lookup_imap.
  destruct (lookup_lt_is_Some_2 o.(pageoff) (Z.to_nat face)) as [x Hx]; [lia|]. destruct (lookup_lt_is_Some_2 o.(pageon) (Z.to_nat face)) as [y Hy]; [lia|].
  rewrite Hx, Hy. cbn [fmap option_fmap option_map deref]. rewrite !ret_bind. rewrite (proj2 (Z.ltb_lt _ _)) by lia. rewrite (nth_lookup_Some _ _ _ _ Hx).
  f_equal. rewrite Z.ldiff_spec, Z.lor_spec. by destruct (Z.testbit x mipmap), (Z.testbit y mipmap).
Qed.

Section paging_runs.
Context (E : env) (task : Z) (w0 : world) (nf0 : Z) (g0 : monitor) (Hstart : owns E nothing w0 g0).

(** C17: paging off a texture does what the task waits for.  In every state that allowed
    requests and steps of contexts lead to, [pageoffDirtyTexture] of a texture that is not
    volatile ends, and gives the pages back only when the device has finished with them.
    If it succeeds, every image that was only in the memory of the device, and for which
    the client has a place, was copied there, with the place and the size of its header;
    no image is marked as being on the device only any more, and the texture is not dirty.
    If it fails, its system object is as before. *)
Theorem pageoff_brings_images_back k d w nf g r s headers p t j o : device_run E task w0 nf0 g0 k d w nf g -> Z.of_nat k < 2 ^ 27 -> d.(m_shared) = Some (r, s) ->
  s.(textures) !! p = Some t -> t.(sys_obj) = Some j -> s.(sys_objs) !! j = Some o -> Z.land o.(vstate) 0x11 = 0 ->
  exists x o', spec (pageoffDirtyTexture headers p s) w nf = Some x /\ (watch g x.(t_events)).(g_safe) = true /\ x.(t_result).2.(sys_objs) !! j = Some o' /\
    (x.(t_result).1 = kIOReturnSuccess -> o'.(vstate) = Z.ldiff o.(vstate) 0x20 /\ (forall face mipmap, 0 <= face < t.(num_faces) -> isPagedOn o' face mipmap = mret false) /\
       exists gmr, forall i, i ∈ images t -> isPagedOn o i.1 i.2 = mret true -> (header_of headers t i).(pixels_in_client) <> 0 -> Sent (copy_back headers t gmr i) ∈ x.(t_events)) /\
    (x.(t_result).1 <> kIOReturnSuccess -> o' = o).
Proof using Hstart.
  intros Hr Hk Es Ht Hj Ho Hv. destruct (run_ok E task w0 nf0 g0 Hstart _ _ _ _ _ Hr Hk) as [_ D2 D3]. destruct (D2 r s Es) as [[l Hs] _].
  destruct (sp_bound _ _ _ Hs p t Ht) as (j' & o1 & Hb); [apply not_elem_of_nil|]. assert (j' = j) as -> by (destruct Hb; congruence). assert (o1 = o) as -> by (destruct Hb; congruence).
  pose proof (all_linked l s p t Hs Ht) as Hp.
  destruct (wp_pageoff E (8 * Z.of_nat k) (besides r d) headers l s p t j o (fun a _ _ g => g.(g_safe) = true /\ exists o', a.2.(sys_objs) !! j = Some o' /\ paged_off t a.1 o o') w nf g Hs Ht Hb) as (x & Ex & Hg & o' & Ho' & Hpo).
  - by apply owned_device.
  - cbn. lia.
  - intros rc o' t' s' w' nf' g' _ _ _ Hb' Hpo Hown. split; [by destruct (ow_safe _ _ _ _ Hown)|]. exists o'. split; [by destruct Hb'|done].
  - exists x, o'. split; [done|]. split; [done|]. split; [done|]. destruct Hpo as [[-> Hrc]|[[_ Hv']|[-> Hrc]]]; [by split|done|]. split; [|by rewrite Hrc]. intros _. split; [done|]. split.
    + intros face mipmap Hf. apply paged_off_image; [apply Hb|done|]. by destruct (sp_geom _ _ _ Hs p t Ht Hp) as [[_ G] _ _ _ _ _].
    + destruct (pageoff_sent headers s p t j o w nf x Ht Hb Hv Ex Hrc) as [gmr Hgmr]. exists gmr. intros i Hi H1 H2. by apply Hgmr.
Qed.

(** C18: loading a texture does what drawing with it relies on.  In every state that allowed
    requests and steps of contexts lead to, [alloc_and_load_texture] of a texture with
    images, whose pages are not volatile, ends, and gives the pages back only when the
    device has finished with them.  If it succeeds, every image that was only in memory was
    copied to the surface that the texture has now, whole, or in two parts where the pitch
    of the last line reaches past the end of the memory; and no image is marked as being in
    memory only.  If it fails, its system object is as before. *)
Theorem load_copies_images k d w nf g r s headers p t j o : device_run E task w0 nf0 g0 k d w nf g -> Z.of_nat k < 2 ^ 27 -> d.(m_shared) = Some (r, s) ->
  s.(textures) !! p = Some t -> t.(sys_obj) = Some j -> s.(sys_objs) !! j = Some o -> t.(sys_obj_type) = TEX_TYPE_STD \/ t.(sys_obj_type) = TEX_TYPE_OOB -> ~ pages_volatile s t o ->
  exists x o' t', spec (alloc_and_load_texture true headers p s) w nf = Some x /\ (watch g x.(t_events)).(g_safe) = true /\
    x.(t_result).2.(sys_objs) !! j = Some o' /\ x.(t_result).2.(textures) !! p = Some t' /\
    (x.(t_result).1 = kIOReturnSuccess -> (forall face mipmap, 0 <= face < t.(num_faces) -> isPagedOff o' face mipmap = mret false) /\
       forall i, i ∈ images t -> isPagedOff o i.1 i.2 = mret true -> (header_of headers t i).(pixels_in_client) <> 0 ->
         exists u gmr, s.(textures) !! target_of p t = Some u /\ forall c, c ∈ copies headers t gmr t'.(surface_id) u.(agp_size) i -> Sent c ∈ x.(t_events)) /\
    (x.(t_result).1 <> kIOReturnSuccess -> o' = o).
Proof using Hstart.
  intros Hr Hk Es Ht Hj Ho Hty Hnv. destruct (run_ok E task w0 nf0 g0 Hstart _ _ _ _ _ Hr Hk) as [_ D2 D3]. destruct (D2 r s Es) as [[l Hs] _].
  destruct (sp_bound _ _ _ Hs p t Ht) as (j' & o1 & Hb); [apply not_elem_of_nil|]. assert (j' = j) as -> by (destruct Hb; congruence). assert (o1 = o) as -> by (destruct Hb; congruence). pose proof (all_linked l s p t Hs Ht) as Hp.
  destruct (wp_alloc_and_load E (8 * Z.of_nat k) (besides r d) headers l s p t j o
    (fun a _ _ g => g.(g_safe) = true /\ exists o' t', a.2.(sys_objs) !! j = Some o' /\ a.2.(textures) !! p = Some t' /\ alloc_done s t o a.1 o') w nf g Hs Ht Hb) as (x & Ex & Hg & o' & t' & Ho' & Ht' & Hdo).
  - by apply owned_device.
  - cbn. lia.
  - intros rc o' t' s' w' nf' g' _ _ Ht' Hb' Hdo Hown. split; [by destruct (ow_safe _ _ _ _ Hown)|]. exists o', t'. split; [by destruct Hb'|done].
  - exists x, o', t'. do 4 (split; [done|]). split.
    + intros Hrc. split.
      * intros face mipmap Hf. destruct Hdo as [[-> Hoff]|[(_ & _ & Hpv)|[-> _]]]; [|done|].
        -- destruct (off_reads o face mipmap (bo_pages _ _ _ _ _ Hb) (proj1 Hf)) as [[] Hx]; [|done]. by apply none_off in Hx; [|apply Hoff].
        -- apply loaded_image; [apply Hb|done|]. by destruct (sp_geom _ _ _ Hs p t Ht Hp) as [[_ G] _ _ _ _ _].
      * intros i Hi H1 H2. destruct (alloc_sent headers s p t j o l w nf x Hs Ht Hb Hty Hnv Ex Hrc i Hi (conj H1 H2)) as (u & t2 & Hu & Ht2 & gmr & Hgmr). assert (t2 = t') as -> by congruence. by exists u, gmr.
    + destruct Hdo as [[-> _]|[(_ & -> & _)|[_ ->]]]; done.
Qed.
End paging_runs.

(** ** The hypotheses can be met *)

Fixpoint exec_all (ops : list device_op) (d : Device) : prog Device :=
  match ops with [] => mret d | op :: ops => r ← exec_device op d; exec_all ops r.2 end.

(** A texture of one face and three mipmaps over memory of the client. *)
Definition demo_texture : NewTextureData := mk_NewTextureData TEX_TYPE_OOB 1 3 0 4 64 64 1 256 256 0 (4096, 64) (0x4000, 0x12345000, 0).
Definition demo_device : Device := open_device 7 0 0.
Definition demo_new : device_op := NewTexture (2 ^ 30) (fun _ => None) demo_texture 72 20.

(** Every answer of the kernel is 1 but for two, which are the success of preparing the
    memory of a texture and of giving it to the device. *)
Definition gl_client : kernel :=
  mk_kernel (fun n => if bool_decide (n ∈ [17; 18]%nat) then 0 else 1) 0 100 ∅ ∅ (mk_mode 0 0x300000 1024 768 4096 0x10000) kIOReturnNotFound [].
Definition gl_start : world := mk_world demo_accel3d demo (fun _ => 0) gl_client.

Lemma gl_nothing : owns demo_env nothing gl_start demo_monitor.
Proof.
  destruct demo_inv as [F HF]. split; cbn; try done.
  - split; try done. eexists. split; [apply (start_ids_ok 64); lia|done].
  - split; [done|]. split; [done|]. by exists F.
  - split; try done. constructor.
Qed.

(** Two textures over the same memory: the texture that both refer to, its count, and
    their handles. *)
Definition demo_two : option (list Z * Z * Z) :=
  x ← spec (exec_all [CreateShared true; demo_new; demo_new] demo_device) gl_start 1;
  rs ← x.(t_result).(m_shared);
  o ← rs.2.(sys_objs) !! 0%nat;
  Some (take 4 rs.2.(handles), o.(refcount), referrers 0 104 rs.2.(textures)).
Lemma demo_two_runs : exists a b c, demo_two = Some ([a; b; c; 0], 2, 2).
Proof. eexists _, _, _. vm_compute. reflexivity. Qed.

Lemma exec_all_run E task w0 nf0 g0 ops : forall k d w nf g x, (forall op d, op ∈ ops -> may E op d) -> device_run E task w0 nf0 g0 k d w nf g ->
  spec (exec_all ops d) w nf = Some x -> device_run E task w0 nf0 g0 (k + length ops) x.(t_result) x.(t_world) x.(t_next) (watch g x.(t_events)).
Proof.
  induction ops as [|op ops IH]; intros k d w nf g x Hm Hr Hx; cbn [exec_all] in Hx.
  - injection Hx as <-. cbn [length t_result t_world t_next t_events]. by rewrite Nat.add_0_r.
  - rewrite spec_bind in Hx. destruct (spec (exec_device op d) w nf) as [t|] eqn:Et; [|done]. cbn [mbind option_bind] in Hx. apply after_Some in Hx as (t0 & Ht0 & ->).
    cbn [length t_result t_world t_next t_events]. rewrite watch_app, Nat.add_succ_r, <-Nat.add_succ_l. eapply IH; [intros op' d' Hop; apply Hm; by right| |exact Ht0].
    eapply run_op; [exact Hr|apply Hm; by left|exact Et].
Qed.

(** The state after some steps, and what the tables hold of a texture. *)
Definition look (ops : list device_op) (p : Z) : option (trace kernel Device * (Z * Shared) * TextureBuffer * nat * GLDSysObject) :=
  x ← spec (exec_all ops demo_device) gl_start 1; rs ← x.(t_result).(m_shared); t ← rs.2.(textures) !! p; j ← t.(sys_obj); o ← rs.2.(sys_objs) !! j; Some (x, rs, t, j, o).

Definition gl_run k (x : trace kernel Device) : Prop := device_run demo_env 7 gl_start 1 demo_monitor k x.(t_result) x.(t_world) x.(t_next) (watch demo_monitor x.(t_events)).

Lemma look_run ops p x r s t j o : (forall op d, op ∈ ops -> may demo_env op d) -> look ops p = Some (x, (r, s), t, j, o) ->
  gl_run (length ops) x /\ x.(t_result).(m_shared) = Some (r, s) /\ s.(textures) !! p = Some t /\ t.(sys_obj) = Some j /\ s.(sys_objs) !! j = Some o.
Proof.
  intros Hm. unfold look. intros H. apply bind_Some in H as (x0 & Ex & H). apply bind_Some in H as (rs & Ers & H). apply bind_Some in H as (t0 & Et & H).
  apply bind_Some in H as (j0 & Ej & H). apply bind_Some in H as (o0 & Eo & H). injection H as -> -> -> -> ->. split; [|done].
  eapply (exec_all_run demo_env 7 gl_start 1 demo_monitor ops 0); [exact Hm|apply run_open|exact Ex].
Qed.

(** An image of the second texture was drawn to. *)
Definition demo_header (i : Z) : GLDTextureHeader := mk_GLDTextureHeader 1 0 256 64 256 1.
Definition demo_drawn : list device_op := [CreateShared true; demo_new; InContext 1 (ChooseFormat 0); InContext 1 (MakeSurface demo_header); InContext 1 (DrawTo 0 1)].

Ltac demo_may := intros op d Hop; repeat (apply elem_of_cons in Hop as [->|Hop]; [done|]); by apply elem_of_nil in Hop.

Lemma drawn_may op d : op ∈ demo_drawn -> may demo_env op d.
Proof. revert op d. demo_may. Qed.

Lemma demo_drawn_reached : exists x r s t j o, gl_run 5 x /\ x.(t_result).(m_shared) = Some (r, s) /\ s.(textures) !! 107 = Some t /\ t.(sys_obj) = Some j /\ s.(sys_objs) !! j = Some o /\
  isIdValid t.(surface_id) = true /\ o.(vstate) = 0 /\ o.(pageon) = [2; 0; 0; 0; 0; 0] /\ o.(pageoff) = [0; 0; 0; 0; 0; 0] /\ images t = [(0, 0); (0, 1); (0, 2)] /\ t.(num_faces) = 1 /\
  (y ← spec (pageoffDirtyTexture demo_header 107 s) x.(t_world) x.(t_next); Some y.(t_result).1) = Some kIOReturnSuccess.
Proof.
  assert ((a ← look demo_drawn 107; let '(x, (_, s), t, j, o) := a in
    Some (isIdValid t.(surface_id), o.(vstate), o.(pageon), o.(pageoff), images t, t.(num_faces), y ← spec (pageoffDirtyTexture demo_header 107 s) x.(t_world) x.(t_next); Some y.(t_result).1)) =
    Some (true, 0, [2; 0; 0; 0; 0; 0], [0; 0; 0; 0; 0; 0], [(0, 0); (0, 1); (0, 2)], 1, Some kIOReturnSuccess)) as H by (vm_compute; reflexivity).
  destruct (look demo_drawn 107) as [[[[[x [r s]] t] j] o]|] eqn:El; [|done]. apply look_run in El as (H1 & H2 & H3 & H4 & H5); [|exact drawn_may].
  exists x, r, s, t, j, o. cbn [mbind option_bind] in H. injection H as E1 E2 E3 E4 E5 E6 E7. by repeat split.
Qed.

(** The client has new pixels for two images of it. *)
Definition demo_filled (o : GLDSysObject) : GLDSysObject := set_pageoff [5; 0; 0; 0; 0; 0] o.
Definition demo_formatted : list device_op := [CreateShared true; demo_new; InContext 1 (ChooseFormat 0)].

Lemma store_allowed k x r s p t j o o' : gl_run k x -> Z.of_nat k < 2 ^ 27 -> x.(t_result).(m_shared) = Some (r, s) -> s.(textures) !! p = Some t -> t.(sys_obj) = Some j -> s.(sys_objs) !! j = Some o ->
  keeps o o' -> o'.(refcount) = o.(refcount) -> may demo_env (ClientStore j o') x.(t_result).
Proof.
  intros Hr Hk Es Ht Hj Ho Hke Hrc r' s' Es'. rewrite Es in Es'. injection Es' as <- <-. destruct (run_ok _ _ _ _ _ gl_nothing _ _ _ _ _ Hr Hk) as [_ D2 _]. destruct (D2 r s Es) as [[l Hs] _].
  destruct (sp_bound _ _ _ Hs p t Ht (not_elem_of_nil _)) as (j1 & o1 & Hb). exists p, t, o. assert (j1 = j) as -> by (destruct Hb; congruence). assert (o1 = o) as -> by (destruct Hb; congruence). done.
Qed.

Lemma formatted_may op d : op ∈ demo_formatted -> may demo_env op d.
Proof. revert op d. demo_may. Qed.

Lemma demo_filled_reached : exists d w nf g r s t o, device_run demo_env 7 gl_start 1 demo_monitor 4 d w nf g /\ d.(m_shared) = Some (r, s) /\ s.(textures) !! 107 = Some t /\ t.(sys_obj) = Some 1%nat /\
  s.(sys_objs) !! 1%nat = Some o /\ t.(sys_obj_type) = TEX_TYPE_OOB /\ ~ pages_volatile s t o /\ isPagedOff o 0 2 = mret true /\ (0, 2) ∈ images t /\ t.(num_faces) = 1 /\
  (y ← spec (alloc_and_load_texture true demo_header 107 s) w nf; Some y.(t_result).1) = Some kIOReturnSuccess.
Proof.
  assert ((a ← look demo_formatted 107; let '(x, (_, s), t, j, o) := a in let s' := put_so j (demo_filled o) s in
    Some (j, t.(sys_obj_type), t.(linked_agp), o.(vstate), length o.(pageoff), take 1 o.(pageon), images t, t.(num_faces), a' ← s.(textures) !! 104; ja ← a'.(sys_obj); oa ← s.(sys_objs) !! ja; Some (ja, oa.(vstate)),
      y ← spec (alloc_and_load_texture true demo_header 107 s') x.(t_world) x.(t_next); Some y.(t_result).1)) =
    Some (1%nat, TEX_TYPE_OOB, 104, 0, 6%nat, [0], [(0, 0); (0, 1); (0, 2)], 1, Some (0%nat, 0), Some kIOReturnSuccess)) as H by (vm_compute; reflexivity).
  destruct (look demo_formatted 107) as [[[[[x [r s]] t] j] o]|] eqn:El; [|done]. apply look_run in El as (H1 & H2 & H3 & H4 & H5); [|exact formatted_may].
  cbn [mbind option_bind] in H. injection H as -> E2 E3 E4 E5 E6 E7 E8 E9 E10.
  assert (may demo_env (ClientStore 1 (demo_filled o)) x.(t_result)) as Hm by (eapply (store_allowed 3 x r s 107 t 1 o); try done; by repeat split).
  eexists (set_m_shared (Some (r, put_so 1 (demo_filled o) s)) x.(t_result)), _, _, _, r, (put_so 1 (demo_filled o) s), t, (demo_filled o). split_and!; try done.
  - eapply (run_op _ _ _ _ _ 3 _ _ _ _ (ClientStore 1 (demo_filled o)) (mk_trace (kIOReturnSuccess, _) [] _ _)); [exact H1|exact Hm|]. cbn [exec_device]. rewrite H2. reflexivity.
  - cbn. by rewrite list_lookup_insert_eq by (by eapply lookup_lt_Some).
  - intros [Hv|(a & ja & oa & _ & Ha & [B1 B2 _ _ _ _] & Hv)]; [unfold is_volatile in Hv; cbn in Hv; by rewrite E4 in Hv|].
    rewrite E3 in Ha. change (s.(textures) !! 104 = Some a) in Ha. rewrite Ha in E9. cbn [mbind option_bind] in E9. rewrite B1 in E9. cbn [mbind option_bind] in E9. apply bind_Some in E9 as (ob & Eob & [= -> E9]).
    cbn in B2. rewrite list_lookup_insert_ne in B2 by done. assert (oa = ob) as -> by congruence. unfold is_volatile in Hv. by rewrite E9 in Hv.
  - unfold isPagedOff, demo_filled. cbn. destruct (pageon o) as [|y l]; [done|]. cbn in E6. by injection E6 as ->.
  - rewrite E7. set_solver.
Qed.

Lemma device_requests_safe_witness : exists d w nf g t, device_run demo_env 7 gl_start 1 demo_monitor 4 d w nf g /\
  spec (exec_device (InContext 1 (LoadTexture demo_header)) d) w nf = Some t /\ (watch g t.(t_events)).(g_safe) = true.
Proof.
  destruct demo_filled_reached as (d & w & nf & g & r & s & t & o & Hr & _).
  destruct (device_requests_safe demo_env 7 gl_start 1 demo_monitor gl_nothing 4 d w nf g (InContext 1 (LoadTexture demo_header)) Hr ltac:(done) I) as (x & Ex & Hg).
  exists d, w, nf, g, x. split; [exact Hr|]. split; [exact Ex|exact Hg].
Defined.

Lemma texture_tables_agree_witness : exists x r s l, gl_run 5 x /\ x.(t_result).(m_shared) = Some (r, s) /\
  dll 0 (links_of s.(textures)) l /\ forall p, p ∈ l <-> is_Some (s.(textures) !! p).
Proof.
  destruct demo_drawn_reached as (x & r & s & t & j & o & Hr & Es & _).
  destruct (texture_tables_agree demo_env 7 gl_start 1 demo_monitor gl_nothing 5 _ _ _ _ r s Hr ltac:(done) Es) as ((l & H1 & _ & H2) & _).
  exists x, r, s, l. split; [exact Hr|]. split; [exact Es|]. split; [exact H1|exact H2].
Defined.

Lemma device_close_gives_back_witness : exists x r s t y, gl_run 5 x /\ x.(t_result).(m_shared) = Some (r, s) /\ s.(textures) !! 107 = Some t /\ isIdValid t.(surface_id) = true /\
  spec (clientClose x.(t_result)) x.(t_world) x.(t_next) = Some y /\ as_before demo_env y.(t_world) (watch (watch demo_monitor x.(t_events)) y.(t_events)).
Proof.
  destruct demo_drawn_reached as (x & r & s & t & j & o & Hr & Es & Ht & _ & _ & Hv & _).
  destruct (device_close_gives_back demo_env 7 gl_start 1 demo_monitor gl_nothing 5 _ _ _ _ Hr ltac:(done)) as (y & Ey & _ & Hb & _).
  exists x, r, s, t, y. split; [exact Hr|]. split; [exact Es|]. split; [exact Ht|]. split; [exact Hv|]. split; [exact Ey|exact Hb].
Defined.

Lemma pageoff_brings_images_back_witness : exists x s t y o' gmr, gl_run 5 x /\ isIdValid t.(surface_id) = true /\
  spec (pageoffDirtyTexture demo_header 107 s) x.(t_world) x.(t_next) = Some y /\ y.(t_result).1 = kIOReturnSuccess /\ isPagedOn o' 0 1 = mret false /\
  Sent (copy_back demo_header t gmr (0, 1)) ∈ y.(t_events).
Proof.
  destruct demo_drawn_reached as (x & r & s & t & j & o & Hr & Es & Ht & Hj & Ho & Hid & Hv & Hon & Hoff & Him & Hnf & Hy).
  destruct (pageoff_brings_images_back demo_env 7 gl_start 1 demo_monitor gl_nothing 5 _ _ _ _ r s demo_header 107 t j o Hr ltac:(done) Es Ht Hj Ho) as (y & o' & Ey & _ & _ & Hok & _).
  { by rewrite Hv. }
  rewrite Ey in Hy. injection Hy as Hy. destruct (Hok Hy) as (_ & Hback & gmr & Hsent). exists x, s, t, y, o', gmr. do 4 (split; [assumption|]).
  split; [apply Hback; rewrite Hnf; lia|]. apply Hsent; [rewrite Him; set_solver| |done]. unfold isPagedOn. by rewrite Hon, Hoff.
Defined.

Lemma load_copies_images_witness : exists d w nf g s t x t' u gmr, device_run demo_env 7 gl_start 1 demo_monitor 4 d w nf g /\
  spec (alloc_and_load_texture true demo_header 107 s) w nf = Some x /\ x.(t_result).1 = kIOReturnSuccess /\ x.(t_result).2.(textures) !! 107 = Some t' /\
  forall c, c ∈ copies demo_header t gmr t'.(surface_id) u.(agp_size) (0, 2) -> Sent c ∈ x.(t_events).
Proof.
  destruct demo_filled_reached as (d & w & nf & g & r & s & t & o & Hr & Es & Ht & Hj & Ho & Hty & Hnv & Hoff & Him & _ & Hy).
  destruct (load_copies_images demo_env 7 gl_start 1 demo_monitor gl_nothing 4 d w nf g r s demo_header 107 t 1 o Hr ltac:(done) Es Ht Hj Ho (or_intror Hty) Hnv) as (x & o' & t' & Ex & _ & _ & Ht' & Hok & _).
  rewrite Ex in Hy. injection Hy as Hy. destruct (Hok Hy) as (_ & Hsent). destruct (Hsent (0, 2) Him Hoff) as (u & gmr & _ & Hc); [done|].
  exists d, w, nf, g, s, t, x, t', u, gmr. do 4 (split; [assumption|]). exact Hc.
Defined.

(** ** What the kernel does not check *)

(** The id of the texture that others refer to is a number like any other: a task that
    deletes it frees memory to which its own textures still refer, and deleting one of
    those then uses it. *)
Lemma delete_agp_dangles : spec (exec_all [CreateShared true; demo_new; DeleteTexture 0; DeleteTexture 1] demo_device) gl_start 1 = None.
Proof. vm_compute. reflexivity. Qed.

Lemma delete_agp_runs : is_some (spec (exec_all [CreateShared true; demo_new; DeleteTexture 0] demo_device) gl_start 1) = true.
Proof. vm_compute. reflexivity. Qed.
