(* ===== verification/FrameBuffer.v ===== *)
(** The frame buffer service (FB/CEsvga2.cpp, FB/CEsvga2.h, FB/modes.cpp, FB/common_fb.h) and
    its user client (FB/CEsvga2Client.cpp): start and stop, display modes, the cursor, the
    refresh timer, and the handshake with the window server about custom modes.

    Methods of the superclass and the kernel are outside: their answers are arguments, or
    come from the list [grants] of the state.  A method that waits for another thread is a
    [thread]: it runs until it has to wait, and goes on when the condition holds.
    Log output is left out. *)

From S2P Require Import Prelude IOKit Layout SvgaReg SvgaCmd Fifo SvgaDevice.
From stdpp Require Import gmap gmultiset strings.

#[local] Open Scope Z_scope.

(** ** Constants and data *)

Definition NUM_DISPLAY_MODES : Z := 1.
Definition CUSTOM_MODE_ID : Z := 1.

Definition CE1_OPTION_FB_FIFO_INIT : Z := 0x01.
Definition CE1_OPTION_FB_REFRESH_TIMER : Z := 0x02.
Definition CE1_OPTION_FB_ACCEL : Z := 0x04.
Definition CE1_OPTION_FB_CURSOR_BYPASS_2 : Z := 0x08.
Definition CE1_OPTION_FB_REG_DUMP : Z := 0x10.

(** Selectors of the framework are four characters. *)
Definition four (a b c d : Z) : Z := ((a * 256 + b) * 256 + c) * 256 + d.
Definition kIOHardwareCursorAttribute : Z := four 0x63 0x72 0x73 0x72.
Definition kIOCapturedAttribute : Z := four 0x63 0x61 0x70 0x64.
Definition kConnectionSupportsAppleSense : Z := four 0x61 0x73 0x6E 0x73.
Definition kConnectionDisplayParameterCount : Z := four 0x70 0x63 0x6E 0x74.
Definition kConnectionSupportsLLDDCSense : Z := four 0x6C 0x64 0x64 0x63.
Definition kConnectionDisplayParameters : Z := four 0x70 0x61 0x72 0x6D.
Definition kConnectionPower : Z := four 0x70 0x6F 0x77 0x72.
Definition kConnectionPostWake : Z := four 0x70 0x77 0x61 0x6B.
Definition kConnectionChanged : Z := four 0x63 0x68 0x6E 0x67.
Definition kConnectionEnable : Z := four 0x65 0x6E 0x61 0x62.
Definition kConnectionFlags : Z := four 0x66 0x6C 0x67 0x73.
Definition kConnectionSupportsHLDDCSense : Z := four 0x68 0x64 0x64 0x63.
Definition kConnectionProbe : Z := four 0x70 0x72 0x6F 0x62.
Definition kIOFBMCCSInterruptType : Z := four 0x6D 0x63 0x63 0x73.
Definition kIOFBConnectInterruptType : Z := four 0x64 0x63 0x69 0x20.
Definition kIOFBSystemAperture : Z := 0.
Definition kIODDCBlockTypeEDID : Z := 0.
Definition kIORGBDirectPixels : Z := 2.
Definition kDisplayModeValidFlag : Z := 1.
Definition kDisplayModeDefaultFlag : Z := 4.

Record DisplayModeEntry := mk_DisplayModeEntry { dm_width : Z; dm_height : Z; dm_flags : Z }.
Record CustomModeData := mk_CustomModeData { cm_flags : Z; cm_width : Z; cm_height : Z }.

Definition modeList : list DisplayModeEntry :=
  [mk_DisplayModeEntry 1366 768 (Z.lor kDisplayModeValidFlag kDisplayModeDefaultFlag)].

Definition pixelFormatStrings : string := "--------RRRRRRRRGGGGGGGGBBBBBBBB".

(** The fields that [getInformationForDisplayMode] and [getPixelInformation] do not leave zero. *)
Record IODisplayModeInformation := mk_IODisplayModeInformation {
  nominalWidth : Z; nominalHeight : Z; refreshRate : Z; maxDepthIndex : Z; di_flags : Z;
}.
Record IOPixelInformation := mk_IOPixelInformation {
  bytesPerRow : Z; bitsPerPixel : Z; pixelType : Z; componentCount : Z; bitsPerComponent : Z;
  componentMasks : list Z; pixelFormat : string; pi_flags : Z; activeWidth : Z; activeHeight : Z;
}.

(** A thread call: the delay after which it is due, in milliseconds, if it is pending. *)
Record thread_call := mk_thread_call { tc_due : option Z }.
(** The connect interrupt: [i_proc] is zero if nobody has registered. *)
Record interrupt := mk_interrupt { i_target : Z; i_ref : Z; i_proc : Z }.

(** Resources of the kernel. *)
Inductive resource := Block (bytes : Z) | Lock | RefreshCall | RestoreCall.
#[global] Instance resource_eq_dec : EqDecision resource.
Proof. solve_decision. Defined.
#[global] Instance resource_countable : Countable resource.
Proof.
  refine (inj_countable' (fun r => match r with Block n => inl n | Lock => inr 0 | RefreshCall => inr 1 | RestoreCall => inr 2 end)
    (fun x => match x with inl n => Block n | inr 0 => Lock | inr 1 => RefreshCall | inr _ => RestoreCall end) _).
  by intros [].
Defined.

Record framebuffer (HS : Type) := mk_framebuffer {
  svga : dev HS;  (** the device object *)
  m_vram : option Z;  (** the length of the memory *)
  m_num_active_modes : Z;
  m_display_mode : Z;
  m_depth_mode : Z;
  m_restore_call : option thread_call;
  m_modes : list Z;  (** an array of [NUM_DISPLAY_MODES] ids *)
  m_custom_switch : Z;
  m_custom_mode_switched : bool;
  m_intr : interrupt;
  m_iolock : option bool;  (** the lock, and whether it is held *)
  m_cursor_image : option (list Z);  (** 4096 pixels *)
  m_hotspot_x : Z;
  m_hotspot_y : Z;
  m_intr_enabled : bool;
  m_accel_updates : bool;
  m_refresh_call : option thread_call;
  m_refresh_quantum_ms : Z;
  customMode : DisplayModeEntry;
  m_edid_size : Z;
  m_edid : option (list Z);  (** bytes *)
  ce1_options_fb : Z;  (** boot options, a global *)
  logLevelFB : Z;
  registry : gmap string Z;  (** properties *)
  ledger : gmultiset resource;  (** what the kernel has given out *)
  grants : list bool;  (** answers of the kernel to requests for resources; [true] when they run out *)
  connect_events : list (Z * Z);  (** calls of the handler, with its target and reference *)
}.
Arguments mk_framebuffer {HS}.
Arguments svga {HS}. Arguments m_vram {HS}. Arguments m_num_active_modes {HS}. Arguments m_display_mode {HS}. Arguments m_depth_mode {HS}. Arguments m_restore_call {HS}. Arguments m_modes {HS}. Arguments m_custom_switch {HS}. Arguments m_custom_mode_switched {HS}. Arguments m_intr {HS}. Arguments m_iolock {HS}. Arguments m_cursor_image {HS}. Arguments m_hotspot_x {HS}. Arguments m_hotspot_y {HS}. Arguments m_intr_enabled {HS}. Arguments m_accel_updates {HS}. Arguments m_refresh_call {HS}. Arguments m_refresh_quantum_ms {HS}. Arguments customMode {HS}. Arguments m_edid_size {HS}. Arguments m_edid {HS}. Arguments ce1_options_fb {HS}. Arguments logLevelFB {HS}. Arguments registry {HS}. Arguments ledger {HS}. Arguments grants {HS}. Arguments connect_events {HS}.

(** *** Setters *)

Definition set_svga {HS} (x : dev HS) (s : framebuffer HS) : framebuffer HS :=
  mk_framebuffer x s.(m_vram) s.(m_num_active_modes) s.(m_display_mode) s.(m_depth_mode) s.(m_restore_call)
    s.(m_modes) s.(m_custom_switch) s.(m_custom_mode_switched) s.(m_intr) s.(m_iolock) s.(m_cursor_image)
    s.(m_hotspot_x) s.(m_hotspot_y) s.(m_intr_enabled) s.(m_accel_updates) s.(m_refresh_call) s.(m_refresh_quantum_ms)
    s.(customMode) s.(m_edid_size) s.(m_edid) s.(ce1_options_fb) s.(logLevelFB) s.(registry) s.(ledger) s.(grants)
    s.(connect_events).
Definition set_m_vram {HS} (x : option Z) (s : framebuffer HS) : framebuffer HS :=
  mk_framebuffer s.(svga) x s.(m_num_active_modes) s.(m_display_mode) s.(m_depth_mode) s.(m_restore_call) s.(m_modes)
    s.(m_custom_switch) s.(m_custom_mode_switched) s.(m_intr) s.(m_iolock) s.(m_cursor_image) s.(m_hotspot_x)
    s.(m_hotspot_y) s.(m_intr_enabled) s.(m_accel_updates) s.(m_refresh_call) s.(m_refresh_quantum_ms) s.(customMode)
    s.(m_edid_size) s.(m_edid) s.(ce1_options_fb) s.(logLevelFB) s.(registry) s.(ledger) s.(grants) s.(connect_events).
Definition set_m_num_active_modes {HS} (x : Z) (s : framebuffer HS) : framebuffer HS :=
  mk_framebuffer s.(svga) s.(m_vram) x s.(m_display_mode) s.(m_depth_mode) s.(m_restore_call) s.(m_modes)
    s.(m_custom_switch) s.(m_custom_mode_switched) s.(m_intr) s.(m_iolock) s.(m_cursor_image) s.(m_hotspot_x)
    s.(m_hotspot_y) s.(m_intr_enabled) s.(m_accel_updates) s.(m_refresh_call) s.(m_refresh_quantum_ms) s.(customMode)
    s.(m_edid_size) s.(m_edid) s.(ce1_options_fb) s.(logLevelFB) s.(registry) s.(ledger) s.(grants) s.(connect_events).
Definition set_m_display_mode {HS} (x : Z) (s : framebuffer HS) : framebuffer HS :=
  mk_framebuffer s.(svga) s.(m_vram) s.(m_num_active_modes) x s.(m_depth_mode) s.(m_restore_call) s.(m_modes)
    s.(m_custom_switch) s.(m_custom_mode_switched) s.(m_intr) s.(m_iolock) s.(m_cursor_image) s.(m_hotspot_x)
    s.(m_hotspot_y) s.(m_intr_enabled) s.(m_accel_updates) s.(m_refresh_call) s.(m_refresh_quantum_ms) s.(customMode)
    s.(m_edid_size) s.(m_edid) s.(ce1_options_fb) s.(logLevelFB) s.(registry) s.(ledger) s.(grants) s.(connect_events).
Definition set_m_depth_mode {HS} (x : Z) (s : framebuffer HS) : framebuffer HS :=
  mk_framebuffer s.(svga) s.(m_vram) s.(m_num_active_modes) s.(m_display_mode) x s.(m_restore_call) s.(m_modes)
    s.(m_custom_switch) s.(m_custom_mode_switched) s.(m_intr) s.(m_iolock) s.(m_cursor_image) s.(m_hotspot_x)
    s.(m_hotspot_y) s.(m_intr_enabled) s.(m_accel_updates) s.(m_refresh_call) s.(m_refresh_quantum_ms) s.(customMode)
    s.(m_edid_size) s.(m_edid) s.(ce1_options_fb) s.(logLevelFB) s.(registry) s.(ledger) s.(grants) s.(connect_events).
Definition set_m_restore_call {HS} (x : option thread_call) (s : framebuffer HS) : framebuffer HS :=
  mk_framebuffer s.(svga) s.(m_vram) s.(m_num_active_modes) s.(m_display_mode) s.(m_depth_mode) x s.(m_modes)
    s.(m_custom_switch) s.(m_custom_mode_switched) s.(m_intr) s.(m_iolock) s.(m_cursor_image) s.(m_hotspot_x)
    s.(m_hotspot_y) s.(m_intr_enabled) s.(m_accel_updates) s.(m_refresh_call) s.(m_refresh_quantum_ms) s.(customMode)
    s.(m_edid_size) s.(m_edid) s.(ce1_options_fb) s.(logLevelFB) s.(registry) s.(ledger) s.(grants) s.(connect_events).
Definition set_m_modes {HS} (x : list Z) (s : framebuffer HS) : framebuffer HS :=
  mk_framebuffer s.(svga) s.(m_vram) s.(m_num_active_modes) s.(m_display_mode) s.(m_depth_mode) s.(m_restore_call) x
    s.(m_custom_switch) s.(m_custom_mode_switched) s.(m_intr) s.(m_iolock) s.(m_cursor_image) s.(m_hotspot_x)
    s.(m_hotspot_y) s.(m_intr_enabled) s.(m_accel_updates) s.(m_refresh_call) s.(m_refresh_quantum_ms) s.(customMode)
    s.(m_edid_size) s.(m_edid) s.(ce1_options_fb) s.(logLevelFB) s.(registry) s.(ledger) s.(grants) s.(connect_events).
Definition set_m_custom_switch {HS} (x : Z) (s : framebuffer HS) : framebuffer HS :=
  mk_framebuffer s.(svga) s.(m_vram) s.(m_num_active_modes) s.(m_display_mode) s.(m_depth_mode) s.(m_restore_call)
    s.(m_modes) x s.(m_custom_mode_switched) s.(m_intr) s.(m_iolock) s.(m_cursor_image) s.(m_hotspot_x)
    s.(m_hotspot_y) s.(m_intr_enabled) s.(m_accel_updates) s.(m_refresh_call) s.(m_refresh_quantum_ms) s.(customMode)
    s.(m_edid_size) s.(m_edid) s.(ce1_options_fb) s.(logLevelFB) s.(registry) s.(ledger) s.(grants) s.(connect_events).
Definition set_m_custom_mode_switched {HS} (x : bool) (s : framebuffer HS) : framebuffer HS :=
  mk_framebuffer s.(svga) s.(m_vram) s.(m_num_active_modes) s.(m_display_mode) s.(m_depth_mode) s.(m_restore_call)
    s.(m_modes) s.(m_custom_switch) x s.(m_intr) s.(m_iolock) s.(m_cursor_image) s.(m_hotspot_x) s.(m_hotspot_y)
    s.(m_intr_enabled) s.(m_accel_updates) s.(m_refresh_call) s.(m_refresh_quantum_ms) s.(customMode) s.(m_edid_size)
    s.(m_edid) s.(ce1_options_fb) s.(logLevelFB) s.(registry) s.(ledger) s.(grants) s.(connect_events).
Definition set_m_intr {HS} (x : interrupt) (s : framebuffer HS) : framebuffer HS :=
  mk_framebuffer s.(svga) s.(m_vram) s.(m_num_active_modes) s.(m_display_mode) s.(m_depth_mode) s.(m_restore_call)
    s.(m_modes) s.(m_custom_switch) s.(m_custom_mode_switched) x s.(m_iolock) s.(m_cursor_image) s.(m_hotspot_x)
    s.(m_hotspot_y) s.(m_intr_enabled) s.(m_accel_updates) s.(m_refresh_call) s.(m_refresh_quantum_ms) s.(customMode)
    s.(m_edid_size) s.(m_edid) s.(ce1_options_fb) s.(logLevelFB) s.(registry) s.(ledger) s.(grants) s.(connect_events).
Definition set_m_iolock {HS} (x : option bool) (s : framebuffer HS) : framebuffer HS :=
  mk_framebuffer s.(svga) s.(m_vram) s.(m_num_active_modes) s.(m_display_mode) s.(m_depth_mode) s.(m_restore_call)
    s.(m_modes) s.(m_custom_switch) s.(m_custom_mode_switched) s.(m_intr) x s.(m_cursor_image) s.(m_hotspot_x)
    s.(m_hotspot_y) s.(m_intr_enabled) s.(m_accel_updates) s.(m_refresh_call) s.(m_refresh_quantum_ms) s.(customMode)
    s.(m_edid_size) s.(m_edid) s.(ce1_options_fb) s.(logLevelFB) s.(registry) s.(ledger) s.(grants) s.(connect_events).
Definition set_m_cursor_image {HS} (x : option (list Z)) (s : framebuffer HS) : framebuffer HS :=
  mk_framebuffer s.(svga) s.(m_vram) s.(m_num_active_modes) s.(m_display_mode) s.(m_depth_mode) s.(m_restore_call)
    s.(m_modes) s.(m_custom_switch) s.(m_custom_mode_switched) s.(m_intr) s.(m_iolock) x s.(m_hotspot_x)
    s.(m_hotspot_y) s.(m_intr_enabled) s.(m_accel_updates) s.(m_refresh_call) s.(m_refresh_quantum_ms) s.(customMode)
    s.(m_edid_size) s.(m_edid) s.(ce1_options_fb) s.(logLevelFB) s.(registry) s.(ledger) s.(grants) s.(connect_events).
Definition set_m_hotspot_x {HS} (x : Z) (s : framebuffer HS) : framebuffer HS :=
  mk_framebuffer s.(svga) s.(m_vram) s.(m_num_active_modes) s.(m_display_mode) s.(m_depth_mode) s.(m_restore_call)
    s.(m_modes) s.(m_custom_switch) s.(m_custom_mode_switched) s.(m_intr) s.(m_iolock) s.(m_cursor_image) x
    s.(m_hotspot_y) s.(m_intr_enabled) s.(m_accel_updates) s.(m_refresh_call) s.(m_refresh_quantum_ms) s.(customMode)
    s.(m_edid_size) s.(m_edid) s.(ce1_options_fb) s.(logLevelFB) s.(registry) s.(ledger) s.(grants) s.(connect_events).
Definition set_m_hotspot_y {HS} (x : Z) (s : framebuffer HS) : framebuffer HS :=
  mk_framebuffer s.(svga) s.(m_vram) s.(m_num_active_modes) s.(m_display_mode) s.(m_depth_mode) s.(m_restore_call)
    s.(m_modes) s.(m_custom_switch) s.(m_custom_mode_switched) s.(m_intr) s.(m_iolock) s.(m_cursor_image)
    s.(m_hotspot_x) x s.(m_intr_enabled) s.(m_accel_updates) s.(m_refresh_call) s.(m_refresh_quantum_ms)
    s.(customMode) s.(m_edid_size) s.(m_edid) s.(ce1_options_fb) s.(logLevelFB) s.(registry) s.(ledger) s.(grants)
    s.(connect_events).
Definition set_m_intr_enabled {HS} (x : bool) (s : framebuffer HS) : framebuffer HS :=
  mk_framebuffer s.(svga) s.(m_vram) s.(m_num_active_modes) s.(m_display_mode) s.(m_depth_mode) s.(m_restore_call)
    s.(m_modes) s.(m_custom_switch) s.(m_custom_mode_switched) s.(m_intr) s.(m_iolock) s.(m_cursor_image)
    s.(m_hotspot_x) s.(m_hotspot_y) x s.(m_accel_updates) s.(m_refresh_call) s.(m_refresh_quantum_ms) s.(customMode)
    s.(m_edid_size) s.(m_edid) s.(ce1_options_fb) s.(logLevelFB) s.(registry) s.(ledger) s.(grants) s.(connect_events).
Definition set_m_accel_updates {HS} (x : bool) (s : framebuffer HS) : framebuffer HS :=
  mk_framebuffer s.(svga) s.(m_vram) s.(m_num_active_modes) s.(m_display_mode) s.(m_depth_mode) s.(m_restore_call)
    s.(m_modes) s.(m_custom_switch) s.(m_custom_mode_switched) s.(m_intr) s.(m_iolock) s.(m_cursor_image)
    s.(m_hotspot_x) s.(m_hotspot_y) s.(m_intr_enabled) x s.(m_refresh_call) s.(m_refresh_quantum_ms) s.(customMode)
    s.(m_edid_size) s.(m_edid) s.(ce1_options_fb) s.(logLevelFB) s.(registry) s.(ledger) s.(grants) s.(connect_events).
Definition set_m_refresh_call {HS} (x : option thread_call) (s : framebuffer HS) : framebuffer HS :=
  mk_framebuffer s.(svga) s.(m_vram) s.(m_num_active_modes) s.(m_display_mode) s.(m_depth_mode) s.(m_restore_call)
    s.(m_modes) s.(m_custom_switch) s.(m_custom_mode_switched) s.(m_intr) s.(m_iolock) s.(m_cursor_image)
    s.(m_hotspot_x) s.(m_hotspot_y) s.(m_intr_enabled) s.(m_accel_updates) x s.(m_refresh_quantum_ms) s.(customMode)
    s.(m_edid_size) s.(m_edid) s.(ce1_options_fb) s.(logLevelFB) s.(registry) s.(ledger) s.(grants) s.(connect_events).
Definition set_m_refresh_quantum_ms {HS} (x : Z) (s : framebuffer HS) : framebuffer HS :=
  mk_framebuffer s.(svga) s.(m_vram) s.(m_num_active_modes) s.(m_display_mode) s.(m_depth_mode) s.(m_restore_call)
    s.(m_modes) s.(m_custom_switch) s.(m_custom_mode_switched) s.(m_intr) s.(m_iolock) s.(m_cursor_image)
    s.(m_hotspot_x) s.(m_hotspot_y) s.(m_intr_enabled) s.(m_accel_updates) s.(m_refresh_call) x s.(customMode)
    s.(m_edid_size) s.(m_edid) s.(ce1_options_fb) s.(logLevelFB) s.(registry) s.(ledger) s.(grants) s.(connect_events).
Definition set_customMode {HS} (x : DisplayModeEntry) (s : framebuffer HS) : framebuffer HS :=
  mk_framebuffer s.(svga) s.(m_vram) s.(m_num_active_modes) s.(m_display_mode) s.(m_depth_mode) s.(m_restore_call)
    s.(m_modes) s.(m_custom_switch) s.(m_custom_mode_switched) s.(m_intr) s.(m_iolock) s.(m_cursor_image)
    s.(m_hotspot_x) s.(m_hotspot_y) s.(m_intr_enabled) s.(m_accel_updates) s.(m_refresh_call) s.(m_refresh_quantum_ms)
    x s.(m_edid_size) s.(m_edid) s.(ce1_options_fb) s.(logLevelFB) s.(registry) s.(ledger) s.(grants)
    s.(connect_events).
Definition set_m_edid_size {HS} (x : Z) (s : framebuffer HS) : framebuffer HS :=
  mk_framebuffer s.(svga) s.(m_vram) s.(m_num_active_modes) s.(m_display_mode) s.(m_depth_mode) s.(m_restore_call)
    s.(m_modes) s.(m_custom_switch) s.(m_custom_mode_switched) s.(m_intr) s.(m_iolock) s.(m_cursor_image)
    s.(m_hotspot_x) s.(m_hotspot_y) s.(m_intr_enabled) s.(m_accel_updates) s.(m_refresh_call) s.(m_refresh_quantum_ms)
    s.(customMode) x s.(m_edid) s.(ce1_options_fb) s.(logLevelFB) s.(registry) s.(ledger) s.(grants)
    s.(connect_events).
Definition set_m_edid {HS} (x : option (list Z)) (s : framebuffer HS) : framebuffer HS :=
  mk_framebuffer s.(svga) s.(m_vram) s.(m_num_active_modes) s.(m_display_mode) s.(m_depth_mode) s.(m_restore_call)
    s.(m_modes) s.(m_custom_switch) s.(m_custom_mode_switched) s.(m_intr) s.(m_iolock) s.(m_cursor_image)
    s.(m_hotspot_x) s.(m_hotspot_y) s.(m_intr_enabled) s.(m_accel_updates) s.(m_refresh_call) s.(m_refresh_quantum_ms)
    s.(customMode) s.(m_edid_size) x s.(ce1_options_fb) s.(logLevelFB) s.(registry) s.(ledger) s.(grants)
    s.(connect_events).
Definition set_ce1_options_fb {HS} (x : Z) (s : framebuffer HS) : framebuffer HS :=
  mk_framebuffer s.(svga) s.(m_vram) s.(m_num_active_modes) s.(m_display_mode) s.(m_depth_mode) s.(m_restore_call)
    s.(m_modes) s.(m_custom_switch) s.(m_custom_mode_switched) s.(m_intr) s.(m_iolock) s.(m_cursor_image)
    s.(m_hotspot_x) s.(m_hotspot_y) s.(m_intr_enabled) s.(m_accel_updates) s.(m_refresh_call) s.(m_refresh_quantum_ms)
    s.(customMode) s.(m_edid_size) s.(m_edid) x s.(logLevelFB) s.(registry) s.(ledger) s.(grants) s.(connect_events).
Definition set_logLevelFB {HS} (x : Z) (s : framebuffer HS) : framebuffer HS :=
  mk_framebuffer s.(svga) s.(m_vram) s.(m_num_active_modes) s.(m_display_mode) s.(m_depth_mode) s.(m_restore_call)
    s.(m_modes) s.(m_custom_switch) s.(m_custom_mode_switched) s.(m_intr) s.(m_iolock) s.(m_cursor_image)
    s.(m_hotspot_x) s.(m_hotspot_y) s.(m_intr_enabled) s.(m_accel_updates) s.(m_refresh_call) s.(m_refresh_quantum_ms)
    s.(customMode) s.(m_edid_size) s.(m_edid) s.(ce1_options_fb) x s.(registry) s.(ledger) s.(grants)
    s.(connect_events).
Definition set_registry {HS} (x : gmap string Z) (s : framebuffer HS) : framebuffer HS :=
  mk_framebuffer s.(svga) s.(m_vram) s.(m_num_active_modes) s.(m_display_mode) s.(m_depth_mode) s.(m_restore_call)
    s.(m_modes) s.(m_custom_switch) s.(m_custom_mode_switched) s.(m_intr) s.(m_iolock) s.(m_cursor_image)
    s.(m_hotspot_x) s.(m_hotspot_y) s.(m_intr_enabled) s.(m_accel_updates) s.(m_refresh_call) s.(m_refresh_quantum_ms)
    s.(customMode) s.(m_edid_size) s.(m_edid) s.(ce1_options_fb) s.(logLevelFB) x s.(ledger) s.(grants)
    s.(connect_events).
Definition set_ledger {HS} (x : gmultiset resource) (s : framebuffer HS) : framebuffer HS :=
  mk_framebuffer s.(svga) s.(m_vram) s.(m_num_active_modes) s.(m_display_mode) s.(m_depth_mode) s.(m_restore_call)
    s.(m_modes) s.(m_custom_switch) s.(m_custom_mode_switched) s.(m_intr) s.(m_iolock) s.(m_cursor_image)
    s.(m_hotspot_x) s.(m_hotspot_y) s.(m_intr_enabled) s.(m_accel_updates) s.(m_refresh_call) s.(m_refresh_quantum_ms)
    s.(customMode) s.(m_edid_size) s.(m_edid) s.(ce1_options_fb) s.(logLevelFB) s.(registry) x s.(grants)
    s.(connect_events).
Definition set_grants {HS} (x : list bool) (s : framebuffer HS) : framebuffer HS :=
  mk_framebuffer s.(svga) s.(m_vram) s.(m_num_active_modes) s.(m_display_mode) s.(m_depth_mode) s.(m_restore_call)
    s.(m_modes) s.(m_custom_switch) s.(m_custom_mode_switched) s.(m_intr) s.(m_iolock) s.(m_cursor_image)
    s.(m_hotspot_x) s.(m_hotspot_y) s.(m_intr_enabled) s.(m_accel_updates) s.(m_refresh_call) s.(m_refresh_quantum_ms)
    s.(customMode) s.(m_edid_size) s.(m_edid) s.(ce1_options_fb) s.(logLevelFB) s.(registry) s.(ledger) x
    s.(connect_events).
Definition set_connect_events {HS} (x : list (Z * Z)) (s : framebuffer HS) : framebuffer HS :=
  mk_framebuffer s.(svga) s.(m_vram) s.(m_num_active_modes) s.(m_display_mode) s.(m_depth_mode) s.(m_restore_call)
    s.(m_modes) s.(m_custom_switch) s.(m_custom_mode_switched) s.(m_intr) s.(m_iolock) s.(m_cursor_image)
    s.(m_hotspot_x) s.(m_hotspot_y) s.(m_intr_enabled) s.(m_accel_updates) s.(m_refresh_call) s.(m_refresh_quantum_ms)
    s.(customMode) s.(m_edid_size) s.(m_edid) s.(ce1_options_fb) s.(logLevelFB) s.(registry) s.(ledger) s.(grants) x.

(** ** The cursor *)

(** Registers of four 16-bit words; the operations of the processor on them. *)
Record m64 := mk_m64 { w0 : Z; w1 : Z; w2 : Z; w3 : Z }.
Definition lanes (f : Z -> Z -> Z) (a b : m64) : m64 := mk_m64 (f a.(w0) b.(w0)) (f a.(w1) b.(w1)) (f a.(w2) b.(w2)) (f a.(w3) b.(w3)).
Definition byte_of (x n : Z) : Z := Z.land (Z.shiftr x (8 * n)) 0xFF.
(** The bytes of a pixel, each with a zero byte above it. *)
Definition punpcklbw_zero (x : Z) : m64 := mk_m64 (byte_of x 0) (byte_of x 1) (byte_of x 2) (byte_of x 3).
(** [pshufw] with 255: the last word everywhere. *)
Definition pshufw_255 (a : m64) : m64 := mk_m64 a.(w3) a.(w3) a.(w3) a.(w3).
Definition pmullw : m64 -> m64 -> m64 := lanes (fun x y => wrap 16 (x * y)).
Definition pmulhuw : m64 -> m64 -> m64 := lanes (fun x y => Z.shiftr (x * y) 16).
Definition psrlwi (a : m64) (n : Z) : m64 := lanes (fun x _ => Z.shiftr x n) a a.
Definition pinsrw_3 (a : m64) (d : Z) : m64 := mk_m64 a.(w0) a.(w1) a.(w2) (wrap 16 d).
(** A word, read as signed, to a byte with saturation. *)
Definition saturate (x : Z) : Z := Z.max 0 (Z.min 255 (swrap 16 x)).
(** The low half of [packuswb]. *)
Definition packuswb_low (a : m64) : Z :=
  saturate a.(w0) + Z.shiftl (saturate a.(w1)) 8 + Z.shiftl (saturate a.(w2)) 16 + Z.shiftl (saturate a.(w3)) 24.

Definition datum : m64 := mk_m64 0x8081 0x8081 0x8081 0.

(** A pixel, with the operations on vectors. *)
Definition premultiply_vector (pixel : Z) : Z :=
  let alpha := Z.shiftr pixel 24 in
  if (alpha =? 0) || (wrap 8 alpha =? 255) then pixel
  else
    let mm0 := punpcklbw_zero pixel in
    packuswb_low (pinsrw_3 (psrlwi (pmulhuw (pmullw (pshufw_255 mm0) mm0) datum) 7) alpha).

(** A pixel, with the operations on scalars. *)
Definition premultiply (pixel : Z) : Z :=
  let alpha := Z.shiftr pixel 24 in
  if (alpha =? 0) || (wrap 8 alpha =? 255) then pixel
  else
    let b := u32 (Z.land pixel 0xFF * alpha) / 255 in
    let g := u32 (Z.land (Z.shiftr pixel 8) 0xFF * alpha) / 255 in
    let r := u32 (Z.land (Z.shiftr pixel 16) 0xFF * alpha) / 255 in
    Z.lor (Z.lor (Z.lor (Z.land pixel 0xFF000000) (u32 (Z.shiftl r 16))) (u32 (Z.shiftl g 8))) b.

(** [n] pixels of the buffer, in place; the build takes the vector version. *)
Fixpoint convert_pixels (f : Z -> Z) (n : nat) (cursor : list Z) : option (list Z) :=
  match n, cursor with
  | O, _ => Some cursor
  | S n, p :: cursor => cursor ← convert_pixels f n cursor; Some (f p :: cursor)
  | S _, [] => None
  end.
Definition ConvertAlphaCursor (cursor : list Z) (width height : Z) : option (list Z) :=
  convert_pixels premultiply_vector (Z.to_nat (u32 (width * height))) cursor.
Definition ConvertAlphaCursor_scalar (cursor : list Z) (width height : Z) : option (list Z) :=
  convert_pixels premultiply (Z.to_nat (u32 (width * height))) cursor.

(** What [convertCursorImage] of the superclass returns: the size of the cursor, the hot spot,
    and the pixels that it has written at the start of the buffer. *)
Record cursor_info := mk_cursor_info { cu_width : Z; cu_height : Z; cu_hotspot_x : Z; cu_hotspot_y : Z; cu_pixels : list Z }.

(** ** Methods *)

(** A method returns, or takes more turns of a loop than there is fuel, or does something that is
    not defined: use of a null pointer, of a lock that is held, an access outside of a buffer. *)
Definition F (HS A : Type) := nat -> framebuffer HS -> option (A * framebuffer HS).
#[global] Instance F_ret {HS} : MRet (F HS) := fun _ a _ s => Some (a, s).
#[global] Instance F_bind {HS} : MBind (F HS) := fun _ _ k m n s => match m n s with Some (a, s) => k a n s | None => None end.

Section framebuffer.
Context {HS : Type} `{SvgaHost HS}.
Local Abbreviation F := (F HS).
Local Abbreviation fb := (framebuffer HS).

Definition look {A} (f : fb -> A) : F A := fun _ s => Some (f s, s).
Definition update (f : fb -> fb) : F unit := fun _ s => Some (tt, f s).
Definition wild {A} : F A := fun _ _ => None.
Definition if_ (b : bool) (m : F unit) : F unit := if b then m else mret tt.
Definition the {A} (x : option A) : F A := match x with Some a => mret a | None => wild end.

(** A method of the device object. *)
Definition device {A} (m : M HS A) : F A :=
  fun n s => match m n s.(svga) with Some (a, d) => Some (a, set_svga d s) | None => None end.

Definition option_set (mask : Z) (s : fb) : bool := has_bits s.(ce1_options_fb) mask.
Definition checkOptionFB (mask : Z) : F bool := look (option_set mask).
Definition setProperty (key : string) (value : Z) : F unit := update (fun s => set_registry (<[key := value]> s.(registry)) s).
Definition removeProperty (key : string) : F unit := update (fun s => set_registry (delete key s.(registry)) s).

(** Resources: the kernel may refuse; what is given back must have been given out. *)
Definition obtain (r : resource) : F bool := fun _ s =>
  let s' := set_grants (tail s.(grants)) s in
  if hd true s.(grants) then Some (true, set_ledger (s.(ledger) ⊎ {[+ r +]}) s') else Some (false, s').
Definition give_back (r : resource) : F unit := fun _ s =>
  if decide (r ∈ s.(ledger)) then Some (tt, set_ledger (s.(ledger) ∖ {[+ r +]}) s) else None.

Definition lockDevice : F unit := fun _ s =>
  match s.(m_iolock) with Some false => Some (tt, set_m_iolock (Some true) s) | _ => None end.
Definition unlockDevice : F unit := fun _ s =>
  match s.(m_iolock) with Some true => Some (tt, set_m_iolock (Some false) s) | _ => None end.

(** *** The refresh timer *)

Definition scheduleRefreshTimer_ms (milliSeconds : Z) : F unit := update (fun s =>
  match s.(m_refresh_call) with Some _ => set_m_refresh_call (Some (mk_thread_call (Some milliSeconds))) s | None => s end).
Definition scheduleRefreshTimer : F unit := q ← look m_refresh_quantum_ms; scheduleRefreshTimer_ms q.
Definition cancelRefreshTimer : F unit := update (fun s =>
  match s.(m_refresh_call) with Some _ => set_m_refresh_call (Some (mk_thread_call None)) s | None => s end).
Definition setupRefreshTimer : F unit :=
  ok ← obtain RefreshCall; update (set_m_refresh_call (if (ok : bool) then Some (mk_thread_call None) else None)).
Definition deleteRefreshTimer : F unit :=
  c ← look m_refresh_call;
  match c with Some _ => give_back RefreshCall;; update (set_m_refresh_call None) | None => mret tt end.

Definition refreshTimerAction : F unit :=
  lockDevice;;
  device UpdateFullscreen;;
  device RingDoorBell;;
  unlockDevice;;
  a ← look m_accel_updates;
  if_ (negb a) scheduleRefreshTimer.

(** *** Clean-up *)

Definition cancel_restore : F unit := update (fun s =>
  match s.(m_restore_call) with Some _ => set_m_restore_call (Some (mk_thread_call None)) s | None => s end).

Definition Cleanup : F unit :=
  cancelRefreshTimer;;
  cancel_restore;;
  deleteRefreshTimer;;
  cap ← device (HasCapability 0xFFFFFFFF);
  if_ cap (device Disable);;
  device SvgaDevice.Cleanup;;
  c ← look m_restore_call;
  (match c with Some _ => give_back RestoreCall;; update (set_m_restore_call None) | None => mret tt end);;
  i ← look m_cursor_image;
  (match i with Some _ => give_back (Block 16384);; update (set_m_cursor_image None) | None => mret tt end);;
  e ← look m_edid;
  (match e with
   | Some _ => n ← look m_edid_size; give_back (Block n);; update (set_m_edid_size 0);; update (set_m_edid None)
   | None => mret tt
   end);;
  l ← look m_iolock;
  match l with Some _ => give_back Lock;; update (set_m_iolock None) | None => mret tt end.

(** *** Display modes *)

Definition FindDepthMode (depth : Z) : Z := if depth =? 0 then 32 else 0.

Definition mode_of (displayMode : Z) (s : fb) : option DisplayModeEntry :=
  if displayMode =? CUSTOM_MODE_ID then Some s.(customMode)
  else if (1 <=? displayMode) && (displayMode <=? NUM_DISPLAY_MODES) then modeList !! Z.to_nat (displayMode - 1)
  else None.
Definition GetDisplayMode (displayMode : Z) : F (option DisplayModeEntry) := look (mode_of displayMode).

(** The loop from [i] on, with the rest of the list. *)
Fixpoint detect (w h : Z) (i tableDefault : Z) (modes : list DisplayModeEntry) : Z + Z :=
  match modes with
  | [] => inr tableDefault
  | m :: modes =>
      if (w =? m.(dm_width)) && (h =? m.(dm_height)) then inl (i + 1)
      else detect w h (i + 1) (if has_bits m.(dm_flags) kDisplayModeDefaultFlag then i + 1 else tableDefault) modes
  end.
Definition TryDetectCurrentDisplayMode (defaultMode : Z) : F Z :=
  d ← look svga;
  match detect d.(m_width) d.(m_height) 1 0 (drop 1 modeList) with
  | inl mode => mret mode
  | inr tableDefault => mret (if tableDefault =? 0 then defaultMode else tableDefault)
  end.

Definition getPixelFormatsForDisplayMode (displayMode depth : Z) : Z := 0.
Definition getConnectionCount : Z := 1.
Definition getPixelFormats : string := pixelFormatStrings.

Definition getCurrentDisplayMode : F (IOReturn * (Z * Z)) :=
  m ← look m_display_mode; d ← look m_depth_mode; mret (kIOReturnSuccess, (m, d)).

(** The ids written to the array. *)
Definition getDisplayModes (allDisplayModes : bool) : F (IOReturn * list Z) :=
  if negb allDisplayModes then mret (kIOReturnBadArgument, [])
  else
    c ← look m_custom_switch;
    if negb (c =? 0) then mret (kIOReturnSuccess, [CUSTOM_MODE_ID])
    else m ← look m_modes; n ← look m_num_active_modes;
      if Z.of_nat (length m) <? n then wild else mret (kIOReturnSuccess, take (Z.to_nat n) m).

Definition getDisplayModeCount : F Z :=
  c ← look m_custom_switch; n ← look m_num_active_modes; mret (if negb (c =? 0) then 1 else n).

(** A range of the video memory: offset and length. *)
Definition getVRAMRange : F (option (Z * Z)) :=
  v ← look m_vram; d ← look svga;
  match v with
  | None => mret None
  | Some len => mret (Some (0, if len <=? d.(m_vram_size) then len else d.(m_vram_size)))
  end.

Definition getApertureRange (aperture : Z) : F (option (Z * Z)) :=
  if negb (aperture =? kIOFBSystemAperture) then mret None
  else
    v ← look m_vram;
    match v with
    | None => mret None
    | Some _ => lockDevice;; d ← look svga; unlockDevice;; mret (Some (d.(m_fb_offset), d.(m_fb_size)))
    end.

Definition isConsoleDevice (boot_display : option Z) : bool := match boot_display with Some _ => true | None => false end.

Definition getInformationForDisplayMode (displayMode : Z) (info : bool) : F (IOReturn * option IODisplayModeInformation) :=
  if negb info then mret (kIOReturnBadArgument, None)
  else
    dme ← GetDisplayMode displayMode;
    match dme with
    | None => mret (kIOReturnBadArgument, None)
    | Some m => mret (kIOReturnSuccess, Some (mk_IODisplayModeInformation m.(dm_width) m.(dm_height) (Z.shiftl 60 16) 0 m.(dm_flags)))
    end.

Definition getPixelInformation (displayMode depth aperture : Z) (pixelInfo : bool) : F (IOReturn * option IOPixelInformation) :=
  if negb pixelInfo then mret (kIOReturnBadArgument, None)
  else if negb (aperture =? kIOFBSystemAperture) then mret (kIOReturnUnsupportedMode, None)
  else if negb (depth =? 0) then mret (kIOReturnBadArgument, None)
  else
    dme ← GetDisplayMode displayMode;
    match dme with
    | None => mret (kIOReturnBadArgument, None)
    | Some m => mret (kIOReturnSuccess, Some (mk_IOPixelInformation (u32 (32 * m.(dm_width)) / 8) 32 kIORGBDirectPixels 3 8
                  [0xFF0000; 0x00FF00; 0x0000FF] pixelFormatStrings m.(dm_flags) m.(dm_width) m.(dm_height)))
    end.

Definition select_mode (displayMode : Z) : F unit := update (set_m_display_mode displayMode);; update (set_m_depth_mode 0).

Definition setDisplayMode (displayMode depth : Z) : F IOReturn :=
  if negb (depth =? 0) then mret kIOReturnBadArgument
  else
    dme ← GetDisplayMode displayMode;
    match dme with
    | None => mret kIOReturnBadArgument
    | Some m =>
        switched ← look m_custom_mode_switched;
        if (switched : bool) then
          c ← look customMode;
          if_ ((c.(dm_width) =? m.(dm_width)) && (c.(dm_height) =? m.(dm_height))) (update (set_m_custom_mode_switched false));;
          select_mode displayMode;;
          mret kIOReturnSuccess
        else
          a ← look m_accel_updates;
          if_ (negb a) cancelRefreshTimer;;
          lockDevice;;
          device (SetMode m.(dm_width) m.(dm_height) 32);;
          dump ← checkOptionFB CE1_OPTION_FB_REG_DUMP;
          if_ dump (device RegDump;; mret tt);;
          unlockDevice;;
          select_mode displayMode;;
          a ← look m_accel_updates;
          if_ (negb a) (scheduleRefreshTimer_ms 200);;
          mret kIOReturnSuccess
    end.

(** *** The cursor *)

Definition setCursorState (x y : Z) (visible : bool) : F IOReturn :=
  fifo ← checkOptionFB CE1_OPTION_FB_FIFO_INIT;
  if negb fifo then mret kIOReturnUnsupported
  else
    hx ← look m_hotspot_x;
    hy ← look m_hotspot_y;
    let x := s32 (x + hx) in
    let x := if x <? 0 then 0 else x in
    let y := s32 (y + hy) in
    let y := if y <? 0 then 0 else y in
    bypass2 ← checkOptionFB CE1_OPTION_FB_CURSOR_BYPASS_2;
    lockDevice;;
    device (SvgaDevice.setCursorState bypass2 x y visible);;
    unlockDevice;;
    mret kIOReturnSuccess.

(** The buffer for the image; a new one has no contents that are used before they are written. *)
Definition cursor_buffer : F (option (list Z)) :=
  i ← look m_cursor_image;
  match i with
  | Some image => mret (Some image)
  | None =>
      ok ← obtain (Block 16384);
      if negb ok then mret None
      else let image := replicate 4096 0 in update (set_m_cursor_image (Some image));; mret (Some image)
  end.

(** [converted] is the answer of [convertCursorImage]. *)
Definition setCursorImage (converted : option cursor_info) : F IOReturn :=
  fifo ← checkOptionFB CE1_OPTION_FB_FIFO_INIT;
  if negb fifo then mret kIOReturnUnsupported
  else
    b ← cursor_buffer;
    match b with
    | None => mret kIOReturnUnsupported
    | Some image =>
        update (set_m_hotspot_x 0);; update (set_m_hotspot_y 0);;
        match converted with
        | None => mret kIOReturnUnsupported
        | Some c =>
            if Z.of_nat (length image) <? Z.of_nat (length c.(cu_pixels)) then wild
            else
              let image := c.(cu_pixels) ++ drop (length c.(cu_pixels)) image in
              update (set_m_cursor_image (Some image));;
              if (c.(cu_width) =? 0) || (c.(cu_height) =? 0) then mret kIOReturnUnsupported
              else
                update (set_m_hotspot_x c.(cu_hotspot_x));; update (set_m_hotspot_y c.(cu_hotspot_y));;
                image ← the (ConvertAlphaCursor image c.(cu_width) c.(cu_height));
                update (set_m_cursor_image (Some image));;
                lockDevice;;
                p ← device (BeginDefineAlphaCursor c.(cu_width) c.(cu_height) 4);
                match p with
                | None => unlockDevice;; mret kIOReturnUnsupported
                | Some p =>
                    device (store_words p 0 (take (Z.to_nat (u32 (c.(cu_width) * c.(cu_height) * 4) / 4)) image));;
                    device (EndDefineAlphaCursor c.(cu_width) c.(cu_height) 4 c.(cu_hotspot_x) c.(cu_hotspot_y));;
                    unlockDevice;;
                    mret kIOReturnSuccess
                end
        end
    end.

(** *** Interrupts and attributes *)

(** [is_intr] says that the reference is the address of [m_intr]. *)
Definition setInterruptState (is_intr : bool) (state : Z) : F IOReturn :=
  if negb is_intr then mret kIOReturnBadArgument
  else update (set_m_intr_enabled (negb (state =? 0)));; mret kIOReturnSuccess.

Definition unregisterInterrupt (is_intr : bool) : F IOReturn :=
  if negb is_intr then mret kIOReturnBadArgument
  else update (set_m_intr (mk_interrupt 0 0 0));; update (set_m_intr_enabled false);; mret kIOReturnSuccess.

(** Returns the answer, and whether the reference is that of [m_intr]; [super] is the answer of the
    superclass. *)
Definition registerForInterruptType (super : IOReturn) (interruptType proc target ref : Z) : F (IOReturn * bool) :=
  if interruptType =? kIOFBMCCSInterruptType then mret (super, false)
  else if negb (interruptType =? kIOFBConnectInterruptType) then mret (kIOReturnUnsupported, false)
  else
    update (set_m_intr (mk_interrupt target ref proc));;
    update (set_m_intr_enabled true);;
    mret (kIOReturnSuccess, true).

(** The answer, and the value that is stored if the pointer is not null. *)
Definition getAttribute (super : IOReturn * option Z) (attribute : Z) (value : bool) : F (IOReturn * option Z) :=
  if attribute =? kIOHardwareCursorAttribute then
    fifo ← checkOptionFB CE1_OPTION_FB_FIFO_INIT;
    mret (kIOReturnSuccess, if value then Some (if (fifo : bool) then 1 else 0) else None)
  else mret super.

Definition getAttributeForConnection (super : IOReturn * option Z) (attribute : Z) (value : bool) : F (IOReturn * option Z) :=
  if (attribute =? kConnectionSupportsAppleSense) || (attribute =? kConnectionDisplayParameterCount) ||
     (attribute =? kConnectionSupportsLLDDCSense) || (attribute =? kConnectionDisplayParameters) ||
     (attribute =? kConnectionPower) || (attribute =? kConnectionPostWake) then mret (kIOReturnUnsupported, None)
  else if attribute =? kConnectionChanged then
    if_ value (removeProperty "IOFBConfig");; mret (kIOReturnSuccess, None)
  else if attribute =? kConnectionEnable then mret (kIOReturnSuccess, if value then Some 1 else None)
  else if attribute =? kConnectionFlags then mret (kIOReturnSuccess, if value then Some 0 else None)
  else if attribute =? kConnectionSupportsHLDDCSense then
    e ← look m_edid; mret (match e with Some _ => kIOReturnSuccess | None => kIOReturnUnsupported end, None)
  else mret super.

Definition setAttributeForConnection (super : IOReturn) (attribute : Z) : F IOReturn :=
  if attribute =? kConnectionFlags then mret kIOReturnSuccess
  else if attribute =? kConnectionProbe then mret kIOReturnSuccess
  else mret super.

(** *** Identification of the display *)

(** [length] is the room at the address [data], if both are given.  The bytes that are stored. *)
Definition getDDCBlock (super : IOReturn * list Z) (connectIndex blockNumber blockType : Z) (length : option Z) : F (IOReturn * list Z) :=
  e ← look m_edid;
  size ← look m_edid_size;
  match e, length with
  | Some edid, Some len =>
      if (connectIndex =? 0) && negb (blockNumber =? 0) && (u32 (blockNumber * 128) <=? size) && (blockType =? kIODDCBlockTypeEDID) && (128 <=? len) then
        let i := u32 (u32 (blockNumber - 1) * 128) in
        if Z.of_nat (List.length edid) <? i + 128 then wild
        else mret (kIOReturnSuccess, take 128 (drop (Z.to_nat i) edid))
      else mret super
  | _, _ => mret super
  end.

Definition hasDDCConnect (super : bool) (connectIndex : Z) : F bool :=
  e ← look m_edid;
  mret (if (connectIndex =? 0) && (match e with Some _ => true | None => false end) then true else super).

(** *** Custom modes *)

(** What a thread waits for. *)
Inductive condition := InterruptRegistered | SwitchIs (value : Z).
Definition holds (c : condition) (s : fb) : bool :=
  match c with
  | InterruptRegistered => negb (s.(m_intr).(i_proc) =? 0)
  | SwitchIs value => s.(m_custom_switch) =? value
  end.

(** A thread has returned, with its answer and the data that it has stored, or waits. *)
Inductive thread :=
  | Finished (r : IOReturn) (out : option CustomModeData)
  | Waiting (c : condition) (k : nat -> fb -> option (thread * fb)).

(** The thread goes on when the condition holds at a time when it is looked at. *)
Definition await (c : condition) (k : F thread) : F thread :=
  b ← look (holds c); if (b : bool) then k else mret (Waiting c k).

Definition CustomSwitchStepWait (value : Z) (k : F thread) : F thread := await (SwitchIs value) k.
Definition CustomSwitchStepSet (value : Z) : F unit := update (set_m_custom_switch value).

Definition EmitConnectChangedEvent (k : F thread) : F thread :=
  await InterruptRegistered
    (e ← look m_intr_enabled;
     if_ e (update (fun s => set_connect_events (s.(connect_events) ++ [(s.(m_intr).(i_target), s.(m_intr).(i_ref))]) s));;
     k).

(** The loop over the slots from [i] on; the index of a mode of another size. *)
Fixpoint find_slot (fuel : nat) (i : Z) (dme1 : DisplayModeEntry) (s : fb) : option Z :=
  match fuel with
  | O => None
  | S fuel =>
      match s.(m_modes) !! Z.to_nat i ≫= fun id => mode_of id s with
      | None => find_slot fuel (i + 1) dme1 s
      | Some dme2 =>
          if negb (dme2.(dm_width) =? dme1.(dm_width)) || negb (dme2.(dm_height) =? dme1.(dm_height)) then Some i
          else find_slot fuel (i + 1) dme1 s
      end
  end.

Definition swap_modes (i : Z) (s : fb) : fb :=
  match s.(m_modes) !! 0%nat, s.(m_modes) !! Z.to_nat i with
  | Some a, Some b => set_m_modes (<[Z.to_nat i := a]> (<[0%nat := b]> s.(m_modes))) s
  | _, _ => s
  end.

Definition RestoreAllModes : F thread :=
  let finish : F thread := mret (Finished kIOReturnSuccess None) in
  c ← look m_custom_switch;
  if negb (c =? 2) then finish
  else
    dme1 ← GetDisplayMode CUSTOM_MODE_ID;
    match dme1 with
    | None => finish
    | Some dme1 =>
        n ← look m_num_active_modes;
        slot ← look (find_slot (Z.to_nat n) 0 dme1);
        match slot with
        | None => finish
        | Some i =>
            update (swap_modes i);;
            update (set_m_custom_mode_switched true);;
            CustomSwitchStepSet 0;;
            EmitConnectChangedEvent finish
        end
    end.

(** [sizes] are those of the two structures, [None] for a null pointer. *)
Definition sizeof_CustomModeData : Z := 12.
Definition answer_mode (flags : Z) : F thread :=
  m ← look m_display_mode;
  dme1 ← GetDisplayMode m;
  match dme1 with
  | None => mret (Finished kIOReturnUnsupported None)
  | Some d => mret (Finished kIOReturnSuccess (Some (mk_CustomModeData flags d.(dm_width) d.(dm_height))))
  end.

Definition CustomMode (version_major : Z) (inData : option CustomModeData) (outData : bool) (inSize : Z) (outSize : option Z) : F thread :=
  let fails r : F thread := mret (Finished r None) in
  call ← look m_restore_call;
  match call with
  | None => fails kIOReturnUnsupported
  | Some _ =>
      match inData with
      | None => fails kIOReturnBadArgument
      | Some i =>
          if inSize <? sizeof_CustomModeData then fails kIOReturnBadArgument
          else if negb outData then fails kIOReturnBadArgument
          else if match outSize with None => true | Some n => n <? sizeof_CustomModeData end then fails kIOReturnBadArgument
          else
            m ← look m_display_mode;
            dme1 ← GetDisplayMode m;
            match dme1 with
            | None => fails kIOReturnUnsupported
            | Some _ =>
                if has_bits i.(cm_flags) 1 then
                  update (fun s => set_customMode (mk_DisplayModeEntry i.(cm_width) i.(cm_height) s.(customMode).(dm_flags)) s);;
                  CustomSwitchStepSet 1;;
                  EmitConnectChangedEvent
                    (if 13 <=? version_major then CustomSwitchStepWait 0 (answer_mode i.(cm_flags))
                     else CustomSwitchStepWait 2
                       (call ← look m_restore_call;
                        match call with
                        | None => wild
                        | Some _ => update (set_m_restore_call (Some (mk_thread_call (Some 2000))));; answer_mode i.(cm_flags)
                        end))
                else answer_mode i.(cm_flags)
            end
      end
  end.

Definition setAttribute (version_major : Z) (super : IOReturn) (attribute value : Z) : F IOReturn :=
  c ← look m_custom_switch;
  m ← look m_display_mode;
  if_ ((attribute =? kIOCapturedAttribute) && (value =? 0) && (c =? 1) && (m =? CUSTOM_MODE_ID))
    (CustomSwitchStepSet (if 13 <=? version_major then 0 else 2));;
  mret super.

(** *** The accelerator *)

Definition supportsAccel : F bool :=
  a ← checkOptionFB CE1_OPTION_FB_FIFO_INIT; b ← checkOptionFB CE1_OPTION_FB_ACCEL; mret (a && b).

Definition useAccelUpdates (state : bool) : F unit :=
  a ← look m_accel_updates;
  if Bool.eqb state a then mret tt
  else
    update (set_m_accel_updates state);;
    (if state then
       cancelRefreshTimer;;
       lockDevice;;
       traces ← device (HasCapability SVGA_CAP_TRACES);
       if_ traces (device (WriteReg SVGA_REG_TRACES 0));;
       unlockDevice
     else
       scheduleRefreshTimer_ms 200;;
       lockDevice;;
       traces ← device (HasCapability SVGA_CAP_TRACES);
       if_ traces (device (WriteReg SVGA_REG_TRACES 1);; device UpdateFullscreen;; device RingDoorBell);;
       unlockDevice);;
    setProperty "CECLSVGAAccelSynchronize" (if state then 1 else 0).

(** *** Start and stop *)

(** What [start] finds: the provider, the boot arguments, the property of the display. *)
Record boot := mk_boot {
  bt_is_pci : bool; bt_super_start : bool;
  bt_log : option Z; bt_options : option Z; bt_fps : option Z;
  bt_edid : option (list Z); bt_vram : option Z; bt_pci : pci;
}.

Definition start_options (b : boot) : F unit :=
  if_ (match b.(bt_log) with Some _ => true | None => false end) (update (set_logLevelFB (default 0 b.(bt_log))));;
  l ← look logLevelFB;
  setProperty "CECLSVGAFBLogLevel" l;;
  update (set_ce1_options_fb (default 0x1F b.(bt_options)));;
  o ← look ce1_options_fb;
  setProperty "CECLSVGAFBOptions" o;;
  update (set_m_refresh_quantum_ms
    match b.(bt_fps) with Some f => if negb (f =? 0) && (f <=? 100) then 1000 / f else 50 | None => 50 end);;
  q ← look m_refresh_quantum_ms;
  setProperty "CECLSVGARefreshQuantumMS" q.

Definition start_edid (b : boot) : F unit :=
  let bytes := default [] b.(bt_edid) in
  let n := Z.of_nat (length bytes) in
  if_ (negb (n =? 0) && (n <=? 256))
    (let size := Z.land (u32 (n + 127)) 0xFFFFFF80 in
     ok ← obtain (Block size);
     if (ok : bool) then update (set_m_edid_size size);; update (set_m_edid (Some (bytes ++ replicate (Z.to_nat (size - n)) 0)))
     else update (set_m_edid_size 0);; update (set_m_edid None)).

Definition reset_fields (b : boot) : F unit :=
  update (fun s => set_m_restore_call None (set_m_iolock None (set_m_cursor_image None (set_m_refresh_call None
    (set_m_intr_enabled false (set_m_accel_updates false (set_m_vram b.(bt_vram) s))))))).

(** The loop over the modes from [i] on. *)
Fixpoint collect_modes (i max_w max_h : Z) (modes : list DisplayModeEntry) : F unit :=
  match modes with
  | [] => mret tt
  | m :: modes =>
      if_ ((m.(dm_width) <=? max_w) && (m.(dm_height) <=? max_h))
        (update (fun s => set_m_num_active_modes (s.(m_num_active_modes) + 1) (set_m_modes (<[Z.to_nat s.(m_num_active_modes) := i + 1]> s.(m_modes)) s)));;
      collect_modes (i + 1) max_w max_h modes
  end.

Definition start_modes : F unit :=
  update (set_customMode (default (mk_DisplayModeEntry 0 0 0) (modeList !! 0%nat)));;
  d ← look svga;
  update (set_m_num_active_modes 0);;
  collect_modes 0 d.(m_max_width) d.(m_max_height) modeList.

Definition start_fifo : F bool :=
  fifo ← checkOptionFB CE1_OPTION_FB_FIFO_INIT;
  if negb fifo then mret true
  else
    ok ← device FIFOInit;
    if negb ok then mret false
    else
      traces ← device (HasCapability SVGA_CAP_TRACES);
      timer ← checkOptionFB CE1_OPTION_FB_REFRESH_TIMER;
      if_ (negb traces && timer) setupRefreshTimer;;
      mret true.

(** What may fail: [false] leads to the label [fail]. *)
Definition start_device (b : boot) : F bool :=
  device Init;;
  ok ← device (Start b.(bt_pci));
  if negb ok then mret false
  else
    dump ← checkOptionFB CE1_OPTION_FB_REG_DUMP;
    if_ dump (device RegDump;; mret tt);;
    start_modes;;
    ok ← obtain RestoreCall;
    if negb ok then mret false
    else
      update (set_m_restore_call (Some (mk_thread_call None)));;
      update (set_m_custom_switch 0);;
      update (set_m_custom_mode_switched false);;
      ok ← start_fifo;
      if negb ok then mret false
      else
        ok ← obtain Lock;
        if negb ok then mret false
        else
          update (set_m_iolock (Some false));;
          m ← TryDetectCurrentDisplayMode 3;
          update (set_m_display_mode m);;
          update (set_m_depth_mode 0);;
          scheduleRefreshTimer_ms 1000;;
          mret true.

Definition start (b : boot) : F bool :=
  if negb b.(bt_is_pci) then mret false
  else if negb b.(bt_super_start) then mret false
  else
    start_options b;;
    start_edid b;;
    reset_fields b;;
    ok ← start_device b;
    if (ok : bool) then mret true else Cleanup;; mret false.

Definition stop : F unit := Cleanup.
End framebuffer.

(** ** The user client *)

(** The method is the only one of the table, [CustomMode]. *)
Definition getTargetAndMethodForIndex (targetP : bool) (index : Z) : option Z :=
  if negb targetP then None
  else if negb (index =? 0) && negb (index =? 3) then None
  else Some 0.

Definition clientClose (terminates : bool) : IOReturn := kIOReturnSuccess.

Definition initWithTask (super_init privilege : bool) : bool := if negb super_init || negb privilege then false else true.
