(* ===== verification/FrameBufferProofs.v ===== *)
(** The frame buffer service: the cursor, the methods on the device object, and what every
    method keeps. *)

From S2P Require Import Prelude IOKit Layout SvgaReg SvgaCmd Fifo Ring FifoProofs SvgaDevice Bits DeviceProofs Driver FrameBuffer.
From stdpp Require Import gmap gmultiset strings.

#[local] Open Scope Z_scope.

(** ** Pixels *)

Lemma byte_of_div x n : 0 <= n -> byte_of x n = x / 2 ^ (8 * n) mod 256.
Proof. intros. unfold byte_of. change 0xFF with (Z.ones 8). rewrite Z.land_ones, Z.shiftr_div_pow2 by lia. done. Qed.

(** The division by 255 as a multiplication and shifts, for products of two bytes. *)
Lemma div255 x : 0 <= x <= 255 * 255 -> Z.shiftr (Z.shiftr (x * 0x8081) 16) 7 = x / 255.
Proof.
  intros Hx. rewrite Z.shiftr_shiftr, Z.shiftr_div_pow2 by lia. change (16 + 7) with 23.
  pose proof (Z.div_mod x 255 ltac:(lia)) as E. pose proof (Z.mod_pos_bound x 255 ltac:(lia)).
  symmetry. apply (Z.div_unique _ _ _ (x * 0x8081 - 2 ^ 23 * (x / 255))); [left|]; lia.
Qed.

Lemma div255_bound c a : 0 <= c <= 255 -> 0 <= a <= 255 -> 0 <= c * a / 255 <= a.
Proof. intros. split; [apply Z.div_pos; nia|]. apply Z.div_le_upper_bound; nia. Qed.

Lemma saturate_byte x : 0 <= x <= 255 -> saturate x = x.
Proof. intros. unfold saturate, swrap. rewrite wrap_small by (split; lia). rewrite (proj2 (Z.ltb_lt _ _)) by lia. lia. Qed.

(** A pixel of four bytes. *)
Definition rgba (a r g b : Z) : Z := b + g * 2 ^ 8 + r * 2 ^ 16 + a * 2 ^ 24.

Lemma rgba_channels p : is_u32 p -> p = rgba (byte_of p 3) (byte_of p 2) (byte_of p 1) (byte_of p 0).
Proof. intros [? ?]. unfold rgba. rewrite !byte_of_div by lia. cbn -[Z.div Z.modulo]. Z.to_euclidean_division_equations. lia. Qed.

Lemma byte_of_range p n : 0 <= n -> 0 <= byte_of p n <= 255.
Proof. intros. rewrite byte_of_div by done. pose proof (Z.mod_pos_bound (p / 2 ^ (8 * n)) 256). lia. Qed.

Lemma alpha_channel p : is_u32 p -> Z.shiftr p 24 = byte_of p 3.
Proof.
  intros [? ?]. rewrite byte_of_div, Z.shiftr_div_pow2 by lia. rewrite Z.mod_small; [done|].
  split; [apply Z.div_pos; lia|]. apply Z.div_lt_upper_bound; lia.
Qed.

Lemma lor_low x y k : 0 <= k -> 0 <= y < 2 ^ k -> Z.lor (x * 2 ^ k) y = x * 2 ^ k + y.
Proof.
  intros Hk Hy. assert (Z.land (x * 2 ^ k) y = 0) as E; [|by rewrite Z.add_nocarry_lxor, Z.lxor_lor].
  rewrite <-Z.shiftl_mul_pow2 by done. apply Z.bits_inj'. intros i Hi. rewrite Z.land_spec, Z.bits_0. destruct (Z.lt_ge_cases i k); [by rewrite Z.shiftl_spec_low|].
  destruct (Z.eq_dec y 0) as [->|]; [by rewrite Z.bits_0, andb_false_r|].
  rewrite (Z.bits_above_log2 y i), ?andb_false_r; [done|lia|]. apply Z.log2_lt_pow2; [lia|]. pose proof (Z.pow_le_mono_r 2 k i). lia.
Qed.

(** What both versions compute. *)
Definition premultiplied (p : Z) : Z :=
  let a := byte_of p 3 in
  rgba a (byte_of p 2 * a / 255) (byte_of p 1 * a / 255) (byte_of p 0 * a / 255).

Definition opaque_or_clear (p : Z) : bool := (byte_of p 3 =? 0) || (byte_of p 3 =? 255).

Lemma alpha_tests p : is_u32 p -> (Z.shiftr p 24 =? 0) || (wrap 8 (Z.shiftr p 24) =? 255) = opaque_or_clear p.
Proof. intros Hp. rewrite alpha_channel by done. pose proof (byte_of_range p 3 ltac:(lia)). rewrite wrap_small by (split; lia). done. Qed.

Lemma premultiply_spec p : is_u32 p -> premultiply p = if opaque_or_clear p then p else premultiplied p.
Proof.
  intros Hp. unfold premultiply. rewrite (alpha_tests p Hp). destruct (opaque_or_clear p); [done|]. rewrite alpha_channel by done.
  unfold premultiplied, rgba. pose proof (byte_of_range p 0 ltac:(lia)) as B0. pose proof (byte_of_range p 1 ltac:(lia)) as B1.
  pose proof (byte_of_range p 2 ltac:(lia)) as B2. pose proof (byte_of_range p 3 ltac:(lia)) as B3.
  change (Z.land p 0xFF) with (byte_of p 0). change (Z.land (Z.shiftr p 8) 0xFF) with (byte_of p 1). change (Z.land (Z.shiftr p 16) 0xFF) with (byte_of p 2).
  rewrite !(wrap_small 32 (byte_of _ _ * _)) by (split; nia).
  pose proof (div255_bound _ _ B0 B3). pose proof (div255_bound _ _ B1 B3). pose proof (div255_bound _ _ B2 B3).
  rewrite !Z.shiftl_mul_pow2, !(wrap_small 32 (_ * 2 ^ _)) by (try split; lia).
  replace (Z.land p 0xFF000000) with (byte_of p 3 * 2 ^ 24).
  2: { rewrite <-(alpha_channel p Hp), <-Z.shiftl_mul_pow2 by lia. apply Z.bits_inj'. intros i Hi. rewrite Z.land_spec. change 0xFF000000 with (Z.shiftl (Z.ones 8) 24).
       destruct (Z.lt_ge_cases i 24); [rewrite !Z.shiftl_spec_low by lia; by rewrite andb_false_r|]. rewrite !Z.shiftl_spec, Z.shiftr_spec by lia.
       replace (i - 24 + 24) with i by lia. destruct (Z.lt_ge_cases i 32); [rewrite Z.ones_spec_low by lia; by rewrite andb_true_r|].
       rewrite (Z.bits_above_log2 p); [done|apply Hp|]. destruct Hp. destruct (Z.eq_dec p 0) as [->|]; [simpl; lia|]. apply Z.log2_lt_pow2; [lia|]. pose proof (Z.pow_le_mono_r 2 32 i). lia. }
  rewrite (lor_low _ (_ * 2 ^ 16) 24) by lia. rewrite <-!Z.lor_assoc, (lor_low _ _ 8) by lia.
  replace (byte_of p 3 * 2 ^ 24 + byte_of p 2 * byte_of p 3 / 255 * 2 ^ 16) with ((byte_of p 3 * 2 ^ 8 + byte_of p 2 * byte_of p 3 / 255) * 2 ^ 16) by lia.
  rewrite lor_low by lia. lia.
Qed.

Lemma premultiply_vector_spec p : is_u32 p -> premultiply_vector p = if opaque_or_clear p then p else premultiplied p.
Proof.
  intros Hp. unfold premultiply_vector. rewrite (alpha_tests p Hp). destruct (opaque_or_clear p); [done|]. rewrite alpha_channel by done.
  unfold premultiplied, rgba, packuswb_low, pinsrw_3, psrlwi, pmulhuw, pmullw, lanes, pshufw_255, punpcklbw_zero, datum. cbn [w0 w1 w2 w3].
  pose proof (byte_of_range p 0 ltac:(lia)) as B0. pose proof (byte_of_range p 1 ltac:(lia)) as B1.
  pose proof (byte_of_range p 2 ltac:(lia)) as B2. pose proof (byte_of_range p 3 ltac:(lia)) as B3.
  rewrite !(Z.mul_comm (byte_of p 3) (byte_of p _)), !(wrap_small 16 (byte_of _ _ * _)), (wrap_small 16 (byte_of p 3)), !div255 by (try split; nia).
  pose proof (div255_bound _ _ B0 B3). pose proof (div255_bound _ _ B1 B3). pose proof (div255_bound _ _ B2 B3).
  rewrite !saturate_byte, !Z.shiftl_mul_pow2 by lia. lia.
Qed.

(** ** The device object *)

Section device.
Context {HS : Type} `{SvgaHostOK HS}.
Implicit Types (d : dev HS).

(** What all methods but [SetMode] keep: an idle ring of the same size, and the fields. *)
Record steady d d' : Prop := { st_idle : idle d'; st_size : rsize d'.(fifo) = rsize d.(fifo); st_rest : dev_rest d' = dev_rest d }.

Lemma steady_refl d : idle d -> steady d d.
Proof. by split. Qed.
Lemma steady_trans d1 d2 d3 : steady d1 d2 -> steady d2 d3 -> steady d1 d3.
Proof. intros [? ? ?] [? ? ?]. split; [done|congruence..]. Qed.

Lemma keeps_steady d d' : idle d -> keeps d d' -> d'.(m_reserved_size) = d.(m_reserved_size) -> steady d d'.
Proof. intros [R Hr] [Ha Hd] E. split; [split; [apply Ha|congruence]|by apply adv_rsize|done]. Qed.

Lemma committed_steady d d' ws : committed d d' ws -> steady d d'.
Proof. intros Hc. pose proof (committed_rsize _ _ _ Hc). destruct Hc as (? & [_ ?] & _). by split. Qed.

Lemma idle_fuel d fuel : idle d -> rsize d.(fifo) <= Z.of_nat fuel -> (Z.to_nat (used d.(fifo)) < fuel)%nat.
Proof. intros [R _] ?. pose proof (used_range _ R). lia. Qed.

Lemma WriteReg_steady r v n d : idle d -> r <> SVGA_REG_CONFIG_DONE -> exists d', WriteReg r v n d = Some (tt, d') /\ steady d d' /\ keeps d d'.
Proof. intros Hi Hr. destruct (WriteReg_spec r v n d (proj1 Hi) Hr) as (d' & E & Hk & Er). exists d'. eauto using keeps_steady. Qed.

Lemma ReadReg_steady r n d : idle d -> exists v d', ReadReg r n d = Some (v, d') /\ steady d d' /\ keeps d d'.
Proof.
  intros Hi. unfold ReadReg. pose proof (host_read_step d.(host) d.(fifo) r (proj1 Hi)) as Hs. destruct (host_read _ _ r) as [v [h f]]. exists v. eexists. split; [done|].
  assert (keeps d (set_host h f d)) by (split; [by apply adv_host; [apply Hi|]|done]). eauto using keeps_steady.
Qed.

Lemma read_regs_steady m : forall i n d, idle d -> exists vs d', read_regs m i n d = Some (vs, d') /\ steady d d' /\ keeps d d'.
Proof.
  induction m as [|m IH]; intros i n d Hi; cbn [read_regs]; [eexists [], d; split; [done|]; split; [by apply steady_refl|split; [by apply adv_refl, Hi|done]]|].
  destruct (ReadReg_steady i n d Hi) as (v & d1 & E1 & S1 & K1). destruct (IH (i + 1) n d1 (st_idle _ _ S1)) as (vs & d2 & E2 & S2 & K2).
  exists (v :: vs), d2. rewrite (mbind_eq _ _ n d v d1 E1), (mbind_eq _ _ n d1 vs d2 E2). eauto using steady_trans, keeps_trans.
Qed.

Lemma RegDump_steady n d : idle d -> exists vs d', RegDump n d = Some (vs, d') /\ steady d d' /\ keeps d d'.
Proof. apply read_regs_steady. Qed.

Lemma RingDoorBell_steady n d : idle d -> exists d', RingDoorBell n d = Some (tt, d') /\ steady d d' /\ keeps d d'.
Proof. intros Hi. destruct (RingDoorBell_spec n d (proj1 Hi)) as (d' & E & Hk & Er). exists d'. eauto using keeps_steady. Qed.

Lemma keeps_empty d d' : keeps d d' -> queue d.(fifo) = [] -> queue d'.(fifo) = [].
Proof. intros [Ha _] E. destruct (adv_queue _ _ Ha) as [pre Hq]. rewrite E in Hq. by destruct pre. Qed.

(** Setting a mode drains the queue and stores the mode. *)
Lemma SetMode_spec w h bpp fuel d : idle d -> rsize d.(fifo) <= Z.of_nat fuel ->
  exists pitch fb_size d', SetMode w h bpp fuel d = Some (tt, d') /\ steady (set_mode w h pitch fb_size d) d' /\ queue d'.(fifo) = [].
Proof.
  intros Hi Hf. unfold SetMode. destruct (SyncFIFO_spec fuel d (proj1 Hi) (idle_fuel _ _ Hi Hf)) as (d1 & E1 & K1 & R1 & Q1).
  pose proof (keeps_steady _ _ Hi K1 R1) as S1. rewrite (mbind_eq _ _ fuel d tt d1 E1).
  destruct (WriteReg_steady SVGA_REG_WIDTH w fuel d1 (st_idle _ _ S1) ltac:(done)) as (d2 & E2 & S2 & K2). rewrite (mbind_eq _ _ fuel d1 tt d2 E2).
  destruct (WriteReg_steady SVGA_REG_HEIGHT h fuel d2 (st_idle _ _ S2) ltac:(done)) as (d3 & E3 & S3 & K3). rewrite (mbind_eq _ _ fuel d2 tt d3 E3).
  destruct (WriteReg_steady SVGA_REG_BITS_PER_PIXEL bpp fuel d3 (st_idle _ _ S3) ltac:(done)) as (d4 & E4 & S4 & K4). rewrite (mbind_eq _ _ fuel d3 tt d4 E4).
  destruct (WriteReg_steady SVGA_REG_ENABLE 1 fuel d4 (st_idle _ _ S4) ltac:(done)) as (d5 & E5 & S5 & K5). rewrite (mbind_eq _ _ fuel d4 tt d5 E5).
  destruct (ReadReg_steady SVGA_REG_BYTES_PER_LINE fuel d5 (st_idle _ _ S5)) as (pitch & d6 & E6 & S6 & K6). rewrite (mbind_eq _ _ fuel d5 pitch d6 E6).
  destruct (ReadReg_steady SVGA_REG_FB_SIZE fuel d6 (st_idle _ _ S6)) as (size & d7 & E7 & S7 & K7). rewrite (mbind_eq _ _ fuel d6 size d7 E7).
  exists pitch, size. eexists. split; [done|]. assert (keeps d1 d7) as K by eauto 10 using keeps_trans. assert (steady d d7) as [T1 T2 T3] by eauto 10 using steady_trans.
  split; [|exact (keeps_empty d1 d7 K Q1)]. split; [done|done|]. clear -T3. destruct d, d7. unfold dev_rest in *. cbn in *. congruence.
Qed.

(** A register of the cursor is not one of the ring. *)
Lemma cursor_reg_steady (r : fifo_reg) v n d : idle d -> In r [SVGA_FIFO_CURSOR_ON; SVGA_FIFO_CURSOR_X; SVGA_FIFO_CURSOR_Y; SVGA_FIFO_CURSOR_COUNT] ->
  exists d', setf r v n d = Some (tt, d') /\ steady d d'.
Proof.
  intros [[R1 R2 R3 R4 R5] Hr] Hin. eexists. split; [done|]. assert (forall q : fifo_reg, In q [SVGA_FIFO_MIN; SVGA_FIFO_MAX; SVGA_FIFO_NEXT_CMD; SVGA_FIFO_STOP] -> upd d.(fifo) r v q = d.(fifo) q) as E.
  { intros q Hq. apply upd_ne. simpl in Hin, Hq. clear -Hin Hq. destruct_or!; subst; cbn; lia. }
  split; cbn [fifo set_fifo m_reserved_size dev_rest].
  - split; [|done]. split; cbn [fifo set_fifo]; rewrite ?(E SVGA_FIFO_MIN), ?(E SVGA_FIFO_MAX), ?(E SVGA_FIFO_NEXT_CMD), ?(E SVGA_FIFO_STOP) by (simpl; tauto); done.
  - unfold rsize. by rewrite (E SVGA_FIFO_MIN), (E SVGA_FIFO_MAX) by (simpl; tauto).
  - done.
Qed.

Lemma steady_bind {A B} (m : M HS A) (k : A -> M HS B) n d (Q : B -> dev HS -> Prop) a d1 : m n d = Some (a, d1) ->
  (exists b d2, k a n d1 = Some (b, d2) /\ Q b d2) -> exists b d2, (m ≫= k) n d = Some (b, d2) /\ Q b d2.
Proof. intros E. by rewrite (mbind_eq _ _ n d a d1 E). Qed.

Lemma setCursorState_steady b x y v n d : idle d -> exists d', SvgaDevice.setCursorState b x y v n d = Some (tt, d') /\ steady d d'.
Proof.
  intros Hi. unfold SvgaDevice.setCursorState, bypass3. destruct b.
  - destruct (WriteReg_steady SVGA_REG_CURSOR_ID 1 n d Hi ltac:(done)) as (d1 & E1 & S1 & _). rewrite (mbind_eq _ _ n d tt d1 E1).
    destruct (WriteReg_steady SVGA_REG_CURSOR_X x n d1 (st_idle _ _ S1) ltac:(done)) as (d2 & E2 & S2 & _). rewrite (mbind_eq _ _ n d1 tt d2 E2).
    destruct (WriteReg_steady SVGA_REG_CURSOR_Y y n d2 (st_idle _ _ S2) ltac:(done)) as (d3 & E3 & S3 & _). rewrite (mbind_eq _ _ n d2 tt d3 E3).
    destruct (WriteReg_steady SVGA_REG_CURSOR_ON (if v then 1 else 0) n d3 (st_idle _ _ S3) ltac:(done)) as (d4 & E4 & S4 & _). eauto 10 using steady_trans.
  - destruct (cursor_reg_steady SVGA_FIFO_CURSOR_ON (if v then 1 else 0) n d Hi) as (d1 & E1 & S1); [simpl; tauto|]. rewrite (mbind_eq _ _ n d tt d1 E1).
    destruct (cursor_reg_steady SVGA_FIFO_CURSOR_X x n d1 (st_idle _ _ S1)) as (d2 & E2 & S2); [simpl; tauto|]. rewrite (mbind_eq _ _ n d1 tt d2 E2).
    destruct (cursor_reg_steady SVGA_FIFO_CURSOR_Y y n d2 (st_idle _ _ S2)) as (d3 & E3 & S3); [simpl; tauto|]. rewrite (mbind_eq _ _ n d2 tt d3 E3).
    rewrite (mbind_eq _ _ n d3 (d3.(fifo) SVGA_FIFO_CURSOR_COUNT) d3 eq_refl).
    destruct (cursor_reg_steady SVGA_FIFO_CURSOR_COUNT (u32 (d3.(fifo) SVGA_FIFO_CURSOR_COUNT + 1)) n d3 (st_idle _ _ S3)) as (d4 & E4 & S4); [simpl; tauto|]. eauto 10 using steady_trans.
Qed.

(** The calls of [setCursorImage] on the device object. *)
Definition define_cursor (w h hx hy : Z) (image : list Z) : M HS bool :=
  p ← BeginDefineAlphaCursor w h 4;
  match p with
  | None => mret false
  | Some p => store_words p 0 (take (Z.to_nat (u32 (w * h * 4) / 4)) image);; EndDefineAlphaCursor w h 4 hx hy;; mret true
  end.

Definition cursor_cmd (w h hx hy : Z) (image : list Z) : svga_cmd :=
  CmdDefineAlphaCursor (mk_SVGAFifoCmdDefineAlphaCursor 1 hx hy w h) (take (Z.to_nat (w * h)) image).

Lemma pending_cursor_ptr d p n x : pending d p n -> pending (set_cursor_ptr x d) p n.
Proof. by intros []. Qed.

Lemma committed_cursor_ptr d d' x ws : d.(m_cursor_ptr) = None -> committed (set_cursor_ptr x d) d' ws -> committed d (set_cursor_ptr None d') ws.
Proof.
  intros E (Hi & [Hf Hr] & Hq). split; [done|]. split; [|done]. split; [done|]. clear -E Hr. destruct d, d'. unfold dev_rest in *. cbn in *. congruence.
Qed.

Lemma FIFOCommit_all bytes n d : d.(m_reserved_size) = bytes -> FIFOCommit bytes n d = FIFOCommitAll n d.
Proof. intros <-. done. Qed.

Lemma region_merge (id : Z) (hd ws r : list Z) : length hd = 5%nat -> length r = (6 + length ws)%nat ->
  let r2 := take 0 r ++ [id] ++ drop 1 r in let r4 := take 6 r2 ++ ws ++ drop (6 + length ws) r2 in
  take 1 r4 ++ hd ++ drop (1 + length hd) r4 = id :: hd ++ ws.
Proof.
  intros Hh Hr r2 r4. do 6 (destruct r as [|? r]; [simpl in Hr; lia|]). unfold r4, r2. rewrite Hh. cbn. injection Hr as Hr. cbn in Hr. by rewrite drop_0, take_0, (drop_ge r), app_nil_r by lia.
Qed.

(** The image is stored before the header; the result is the command. *)
Lemma define_cursor_emits w h hx hy image d : 0 < w <= 64 -> 0 < h <= 64 -> (Z.to_nat (w * h) <= length image)%nat ->
  idle d -> d.(m_cursor_ptr) = None -> room d (6 + w * h) -> emits (define_cursor w h hx hy image) d true (encode_cmd (cursor_cmd w h hx hy image)).
Proof.
  intros Hw Hh Hl Hi Hc Hr. assert (0 < w * h <= 4096) as Hwh by nia. unfold define_cursor, BeginDefineAlphaCursor. set (n := 6 + w * h).
  rewrite (wrap_small 32 (w * h * 4)) by (split; lia). change (bsize SVGAFifoCmdDefineAlphaCursor_c) with 20.
  replace (u64 (20 + w * h * 4)) with (4 * (n - 1)) by (rewrite wrap_small; unfold fits, n; lia).
  eapply emits_ext; [intros; symmetry; apply mbind_assoc|]. apply emits_ReserveCmd; [done..|]. intros d1 p fuel Hp [_ Hk].
  rewrite Z.div_mul by lia. set (ws := take (Z.to_nat (w * h)) image). assert (length ws = Z.to_nat (w * h)) as El by (apply length_take_le; lia).
  set (a := mk_SVGAFifoCmdDefineAlphaCursor 1 hx hy w h). assert (d1.(m_cursor_ptr) = None) as Hc1 by (unfold dev_rest in Hk; congruence).
  destruct (store_words_spec p n 0 [(SVGA_CMD_DEFINE_ALPHA_CURSOR : Z)] fuel d1 Hp) as (d2 & E2 & P2 & K2 & R2); [lia|cbn; lia|].
  rewrite (mbind_eq _ _ fuel d1 tt d2 E2). cbn beta iota. set (d3 := set_cursor_ptr (Some (ptr_add p 4)) d2).
  rewrite mbind_assoc, (mbind_eq (modify (set_cursor_ptr (Some (ptr_add p 4)))) _ fuel d2 tt d3 eq_refl).
  rewrite (mbind_eq (mret (Some (ptr_add (ptr_add p 4) 20))) _ fuel d3 _ d3 eq_refl). cbn beta iota.
  assert (pending d3 p n) as P3 by by apply pending_cursor_ptr.
  replace (store_words (ptr_add (ptr_add p 4) 20) 0 ws) with (store_words (HS := HS) p 6 ws) by (symmetry; change 20 with (4 * 5); change 4 with (4 * 1) at 1; by rewrite !store_ptr_add).
  destruct (store_words_spec p n 6 ws fuel d3 P3) as (d4 & E4 & P4 & K4 & R4); [lia..|]. rewrite (mbind_eq _ _ fuel d3 tt d4 E4).
  unfold EndDefineAlphaCursor. assert (d4.(m_cursor_ptr) = Some (ptr_add p 4)) as Hc4 by (destruct K4 as [_ K4]; unfold dev_rest in K4; injection K4; intros; congruence).
  rewrite mbind_assoc. rewrite (mbind_eq _ _ fuel d4 (Some (ptr_add p 4)) d4) by (unfold gets; by rewrite Hc4). cbn beta iota.
  rewrite mbind_assoc, store_ptr_add4. change (1 + 0) with 1.
  destruct (store_words_spec p n 1 (enc SVGAFifoCmdDefineAlphaCursor_c a) fuel d4 P4) as (d5 & E5 & P5 & K5 & R5); [lia|cbn; lia|].
  rewrite (mbind_eq _ _ fuel d4 tt d5 E5). rewrite mbind_assoc.
  replace (u64 (4 + bsize SVGAFifoCmdDefineAlphaCursor_c + u32 (w * h * 4))) with (4 * n).
  2: { change (bsize SVGAFifoCmdDefineAlphaCursor_c) with 20. rewrite (wrap_small 32) by (split; lia). rewrite wrap_small; unfold fits, n; lia. }
  destruct (FIFOCommit_spec p n fuel d5 P5) as (d6 & E6 & C6). rewrite <-(FIFOCommit_all (4 * n)) in E6 by apply P5. rewrite (mbind_eq _ _ fuel d5 tt d6 E6).
  eexists. split; [done|]. eapply keeps_committed; [exact K2|]. eapply committed_cursor_ptr; [by destruct K2 as [_ K2]; unfold dev_rest in K2; injection K2; intros; congruence|].
  fold d3. eapply keeps_committed; [exact K4|]. eapply keeps_committed; [exact K5|].
  change (region d3 p n) with (region d2 p n) in R4. cbn [encode_cmd cursor_cmd]. fold a ws.
  replace (_ :: _) with (region d5 p n); [done|]. clear -R2 R4 R5 El Hwh. subst n. pose proof (length_region d1 p (6 + w * h)) as L1.
  rewrite R5, R4, R2. apply (region_merge SVGA_CMD_DEFINE_ALPHA_CURSOR (enc SVGAFifoCmdDefineAlphaCursor_c a) ws); [done|lia].
Qed.

Lemma UpdateFullscreen_emits d : idle d -> room d 5 -> is_u32 d.(m_width) -> is_u32 d.(m_height) ->
  emits UpdateFullscreen d true (encode_cmd (CmdUpdate (mk_SVGAFifoCmdUpdate 0 0 d.(m_width) d.(m_height)))).
Proof.
  intros Hi Hr Hw Hh. apply (emits_ext (UpdateFramebuffer 0 0 d.(m_width) d.(m_height))); [intros k; unfold UpdateFullscreen; by rewrite !(mbind_eq _ _ k d _ d eq_refl)|].
  apply UpdateFramebuffer_queues; [|exact Hi|exact Hr]. cbn. split; [by split|]. split; [by split|]. by split.
Qed.

Lemma UpdateFullscreen_steady n d : idle d -> 5 < rsize d.(fifo) <= Z.of_nat n -> is_u32 d.(m_width) -> is_u32 d.(m_height) ->
  exists d', UpdateFullscreen n d = Some (true, d') /\ steady d d'.
Proof.
  intros Hi Hr Hw Hh. destruct (UpdateFullscreen_emits d Hi) with (fuel := n) as (d' & E & Hc); [split; lia|done|done|apply idle_fuel; [done|lia]|].
  exists d'. eauto using committed_steady.
Qed.
End device.

(** ** Methods of the service *)

Section methods.
Context {HS : Type} `{SvgaHostOK HS}.
Implicit Types (s : framebuffer HS).

(** The method returns, with a result and a state as stated. *)
Definition ends {A} (m : F HS A) (Q : A -> framebuffer HS -> Prop) (n : nat) s : Prop := exists a s', m n s = Some (a, s') /\ Q a s'.

Lemma ends_ret {A} (a : A) (Q : A -> framebuffer HS -> Prop) n s : Q a s -> ends (mret a) Q n s.
Proof. by exists a, s. Qed.
Lemma ends_bind {A B} (m : F HS A) (k : A -> F HS B) Q n s : ends m (fun a s => ends (k a) Q n s) n s -> ends (m ≫= k) Q n s.
Proof. intros (a & s1 & E & b & s2 & E2 & HQ). exists b, s2. split; [|done]. unfold mbind, F_bind. by rewrite E. Qed.
Lemma ends_look {A} (f : framebuffer HS -> A) (Q : A -> framebuffer HS -> Prop) n s : Q (f s) s -> ends (look f) Q n s.
Proof. by exists (f s), s. Qed.
Lemma ends_update f (Q : unit -> framebuffer HS -> Prop) n s : Q tt (f s) -> ends (update f) Q n s.
Proof. by exists tt, (f s). Qed.
Lemma ends_if b (m : F HS unit) Q n s : (b = true -> ends m Q n s) -> (b = false -> Q tt s) -> ends (if_ b m) Q n s.
Proof. intros H1 H2. destruct b; [by apply H1|by apply ends_ret, H2]. Qed.
Lemma ends_device {A} (m : M HS A) (Q : A -> framebuffer HS -> Prop) n s a d' : m n s.(svga) = Some (a, d') -> Q a (set_svga d' s) -> ends (device m) Q n s.
Proof. intros E HQ. exists a, (set_svga d' s). split; [|done]. unfold device. by rewrite E. Qed.
Lemma ends_the {A} (x : option A) a (Q : A -> framebuffer HS -> Prop) n s : x = Some a -> Q a s -> ends (the x) Q n s.
Proof. intros ->. by apply ends_ret. Qed.
Lemma ends_lock (Q : unit -> framebuffer HS -> Prop) n s : s.(m_iolock) = Some false -> Q tt (set_m_iolock (Some true) s) -> ends lockDevice Q n s.
Proof. intros E HQ. eexists tt, _. split; [|exact HQ]. unfold lockDevice. by rewrite E. Qed.
Lemma ends_unlock (Q : unit -> framebuffer HS -> Prop) n s : s.(m_iolock) = Some true -> Q tt (set_m_iolock (Some false) s) -> ends unlockDevice Q n s.
Proof. intros E HQ. eexists tt, _. split; [|exact HQ]. unfold unlockDevice. by rewrite E. Qed.
Lemma ends_obtain r (Q : bool -> framebuffer HS -> Prop) n s : Q true (set_ledger (s.(ledger) ⊎ {[+ r +]}) (set_grants (tail s.(grants)) s)) ->
  Q false (set_grants (tail s.(grants)) s) -> ends (obtain r) Q n s.
Proof. intros H1 H2. unfold ends, obtain. destruct (hd true (grants s)); eauto. Qed.
Lemma ends_give_back r (Q : unit -> framebuffer HS -> Prop) n s : r ∈ s.(ledger) -> Q tt (set_ledger (s.(ledger) ∖ {[+ r +]}) s) -> ends (give_back r) Q n s.
Proof. intros Hr HQ. unfold ends, give_back. rewrite decide_True by done. eauto. Qed.
Lemma ends_mono {A} (m : F HS A) (Q Q' : A -> framebuffer HS -> Prop) n s : ends m Q n s -> (forall a s', Q a s' -> Q' a s') -> ends m Q' n s.
Proof. intros (a & s' & E & HQ) Himp. exists a, s'. auto. Qed.

(** *** The invariant *)

(** [base] is what the kernel had given out before, [R] the size of the ring, [n] the fuel. *)
Context (base : gmultiset resource) (R : Z) (n : nat).

Definition held {A} (x : option A) (r : resource) : gmultiset resource := match x with Some _ => {[+ r +]} | None => ∅ end.
Definition resources s : gmultiset resource :=
  held s.(m_iolock) Lock ⊎ held s.(m_restore_call) RestoreCall ⊎ held s.(m_refresh_call) RefreshCall ⊎
  held s.(m_cursor_image) (Block 16384) ⊎ held s.(m_edid) (Block s.(m_edid_size)).

(** The fields that the resources hang on. *)
Record kept s : Prop := {
  kp_ledger : s.(ledger) = base ⊎ resources s;
  kp_image i : s.(m_cursor_image) = Some i -> length i = 4096%nat;
  kp_edid e : s.(m_edid) = Some e -> Z.of_nat (length e) = s.(m_edid_size) /\ s.(m_edid_size) mod 128 = 0 /\ 0 < s.(m_edid_size) <= 256;
}.

Record good (lk : bool) s : Prop := {
  gd_kept : kept s;
  gd_lock : s.(m_iolock) = Some lk;
  gd_restore : is_Some s.(m_restore_call);
  gd_idle : idle s.(svga);
  gd_size : rsize s.(svga).(fifo) = R;
  gd_cursor : s.(svga).(m_cursor_ptr) = None;
  gd_mode : is_u32 s.(svga).(m_width) /\ is_u32 s.(svga).(m_height);
  gd_room : option_set CE1_OPTION_FB_FIFO_INIT s = true -> 4102 < R;
  gd_fuel : R <= Z.of_nat n;
  gd_custom : is_u32 s.(customMode).(dm_width) /\ is_u32 s.(customMode).(dm_height);
  gd_modes : length s.(m_modes) = 1%nat /\ 0 <= s.(m_num_active_modes) <= 1 /\ Forall (fun i => i = CUSTOM_MODE_ID) (take (Z.to_nat s.(m_num_active_modes)) s.(m_modes));
  gd_switched : s.(m_custom_mode_switched) = false;
  gd_timer c : s.(m_refresh_call) = Some c -> option_set CE1_OPTION_FB_FIFO_INIT s = true;
}.

(** The screen is refreshed by the timer unless the accelerator does it. *)
Definition ticking s : Prop := forall c, s.(m_refresh_call) = Some c -> is_Some c.(tc_due) <-> s.(m_accel_updates) = false.

Lemma good_svga lk s d' : good lk s -> steady s.(svga) d' -> good lk (set_svga d' s).
Proof.
  intros [K ? ? ? ? ? ? ? ? ? ? ? ?] [S1 S2 S3]. unfold dev_rest in S3. injection S3 as E1 E2 E3 E4 E5 E6 E7 E8 E9 E10 E11 E12 E13 E14 E15 E16 E17 E18. split; cbn; try done; try congruence.
  destruct K. by split.
Qed.

Local Ltac good_tac := match goal with G : good _ ?s |- _ => destruct G as [[? ? ?] ? ? ? ? ? ? ? ? ? ? ? ?] end; split; cbn; try done; split; cbn; done.

Lemma good_set_lock lk lk' s : good lk s -> good lk' (set_m_iolock (Some lk') s).
Proof. intros G. pose proof (gd_lock _ _ G) as El. destruct G as [[K1 ? ?] ? ? ? ? ? ? ? ? ? ? ? ?]. split; cbn; try done. split; cbn; try done. rewrite K1. unfold resources. cbn. by rewrite El. Qed.

(** Updates of fields that the invariant does not speak about. *)
Definition quiet (f : framebuffer HS -> framebuffer HS) : Prop := forall lk s, good lk s -> good lk (f s).

Lemma quiet_hotspot_x x : quiet (set_m_hotspot_x x).
Proof. intros lk s G. good_tac. Qed.
Lemma quiet_hotspot_y x : quiet (set_m_hotspot_y x).
Proof. intros lk s G. good_tac. Qed.
Lemma quiet_intr x : quiet (set_m_intr x).
Proof. intros lk s G. good_tac. Qed.
Lemma quiet_intr_enabled x : quiet (set_m_intr_enabled x).
Proof. intros lk s G. good_tac. Qed.
Lemma quiet_accel x : quiet (set_m_accel_updates x).
Proof. intros lk s G. good_tac. Qed.
Lemma quiet_registry x : quiet (set_registry x).
Proof. intros lk s G. good_tac. Qed.
Lemma quiet_switch x : quiet (set_m_custom_switch x).
Proof. intros lk s G. good_tac. Qed.
Lemma quiet_display_mode x : quiet (set_m_display_mode x).
Proof. intros lk s G. good_tac. Qed.
Lemma quiet_depth_mode x : quiet (set_m_depth_mode x).
Proof. intros lk s G. good_tac. Qed.
Lemma quiet_events x : quiet (set_connect_events x).
Proof. intros lk s G. good_tac. Qed.
Lemma quiet_grants x : quiet (set_grants x).
Proof. intros lk s G. good_tac. Qed.
Lemma quiet_custom w h x : is_u32 w -> is_u32 h -> quiet (set_customMode (mk_DisplayModeEntry w h x)).
Proof. intros Hw Hh lk s G. good_tac. Qed.
Lemma good_image lk s i i' : good lk s -> s.(m_cursor_image) = Some i -> length i' = 4096%nat -> good lk (set_m_cursor_image (Some i') s).
Proof.
  intros [[K1 K2 K3] ? ? ? ? ? ? ? ? ? ? ? ?] Ei El. split; cbn; try done. split; cbn; [|by intros ? [= <-]|done]. rewrite K1. unfold resources. cbn. by rewrite Ei.
Qed.
Lemma good_refresh lk s c c' : good lk s -> s.(m_refresh_call) = Some c -> good lk (set_m_refresh_call (Some c') s).
Proof.
  intros [[K1 K2 K3] ? ? ? ? ? ? ? ? ? ? ? T] Ec. split; cbn; try done; [|by intros ? _; apply (T c)]. split; cbn; [|done|done]. rewrite K1. unfold resources. cbn. by rewrite Ec.
Qed.
Lemma good_restore lk s c : good lk s -> good lk (set_m_restore_call (Some c) s).
Proof.
  intros [[K1 K2 K3] ? [c0 Ec] ? ? ? ? ? ? ? ? ? ?]. split; cbn; try done. split; cbn; [|done|done]. rewrite K1. unfold resources. cbn. by rewrite Ec.
Qed.

(** *** Methods, one by one *)

Definition fine s : Prop := good false s /\ ticking s.

Lemma ticking_svga d s : ticking s -> ticking (set_svga d s).
Proof. done. Qed.

(** One call on the device object with the lock held. *)
Lemma ends_steady {A} (m : M HS A) (Q : A -> framebuffer HS -> Prop) lk s : good lk s ->
  (forall d, idle d -> rsize d.(fifo) = R -> is_u32 d.(m_width) -> is_u32 d.(m_height) -> exists a d', m n d = Some (a, d') /\ steady d d') ->
  (forall a d', steady s.(svga) d' -> good lk (set_svga d' s) -> Q a (set_svga d' s)) -> ends (device m) Q n s.
Proof.
  intros G Hm HQ. destruct (gd_mode _ _ G) as [? ?]. destruct (Hm s.(svga)) as (a & d' & E & Hs); [by eapply gd_idle|by eapply gd_size|done|done|].
  eapply ends_device; [exact E|]. apply HQ; [done|]. by apply good_svga.
Qed.

Lemma steady_UpdateFullscreen : 4102 < R <= Z.of_nat n -> forall d : dev HS, idle d -> rsize d.(fifo) = R -> is_u32 d.(m_width) -> is_u32 d.(m_height) ->
  exists a d', UpdateFullscreen n d = Some (a, d') /\ steady d d'.
Proof. intros HR d Hi Hs Hw Hh. destruct (UpdateFullscreen_steady n d Hi) as (d' & E & S); [lia|done|done|eauto]. Qed.
Lemma steady_RingDoorBell (d : dev HS) : idle d -> rsize d.(fifo) = R -> is_u32 d.(m_width) -> is_u32 d.(m_height) -> exists a d', RingDoorBell n d = Some (a, d') /\ steady d d'.
Proof. intros Hi _ _ _. destruct (RingDoorBell_steady n d Hi) as (d' & E & S & _). eauto. Qed.
Lemma steady_traces v (d : dev HS) : idle d -> rsize d.(fifo) = R -> is_u32 d.(m_width) -> is_u32 d.(m_height) -> exists a d', WriteReg SVGA_REG_TRACES v n d = Some (a, d') /\ steady d d'.
Proof. intros Hi _ _ _. destruct (WriteReg_steady SVGA_REG_TRACES v n d Hi) as (d' & E & S & _); [done|eauto]. Qed.

Lemma ends_capability mask (Q : bool -> framebuffer HS -> Prop) s : Q (has_bits s.(svga).(m_capabilities) mask) s -> ends (device (HasCapability mask)) Q n s.
Proof. intros HQ. eapply ends_device; [done|]. by destruct s. Qed.

(** The timer: after the call it is due if and only if it is there. *)
Definition timed (b : bool) s s' : Prop :=
  match s.(m_refresh_call) with
  | Some _ => exists c, s' = set_m_refresh_call (Some c) s /\ (if b then is_Some c.(tc_due) else c.(tc_due) = None)
  | None => s' = s
  end.

Lemma ends_schedule ms (Q : unit -> framebuffer HS -> Prop) lk s : good lk s -> (forall s', good lk s' -> timed true s s' -> Q tt s') -> ends (scheduleRefreshTimer_ms ms) Q n s.
Proof.
  intros G HQ. apply ends_update. destruct (m_refresh_call s) as [c|] eqn:Ec; apply HQ; [by eapply good_refresh| |done|]; unfold timed; rewrite Ec; [|done]. by eexists (mk_thread_call _).
Qed.
Lemma ends_cancel (Q : unit -> framebuffer HS -> Prop) lk s : good lk s -> (forall s', good lk s' -> timed false s s' -> Q tt s') -> ends cancelRefreshTimer Q n s.
Proof.
  intros G HQ. apply ends_update. destruct (m_refresh_call s) as [c|] eqn:Ec; apply HQ; [by eapply good_refresh| |done|]; unfold timed; rewrite Ec; [|done]. by eexists (mk_thread_call _).
Qed.

(** What a method leaves alone of the fields of the handshake. *)
Definition same_modes s s' : Prop :=
  s'.(m_display_mode) = s.(m_display_mode) /\ s'.(m_custom_switch) = s.(m_custom_switch) /\ s'.(customMode) = s.(customMode) /\ s'.(m_intr) = s.(m_intr).

Lemma timed_modes b s s' : timed b s s' -> same_modes s s' /\ s'.(m_accel_updates) = s.(m_accel_updates) /\ s'.(ce1_options_fb) = s.(ce1_options_fb).
Proof. unfold timed. destruct (m_refresh_call s); [intros (c & -> & _)|intros ->]; done. Qed.

Lemma refreshTimerAction_fine s c : good false s -> s.(m_refresh_call) = Some c -> ends refreshTimerAction (fun _ s' => good false s' /\ same_modes s s' /\ (s.(m_accel_updates) = false -> ticking s') /\
    s'.(m_accel_updates) = s.(m_accel_updates)) n s.
Proof.
  intros G Ec. pose proof (gd_room _ _ G (gd_timer _ _ G c Ec)) as HR. pose proof (gd_fuel _ _ G). unfold refreshTimerAction.
  apply ends_bind, ends_lock; [by apply G|]. apply ends_bind. eapply (ends_steady _ _ true); [by eapply good_set_lock|by apply steady_UpdateFullscreen|]. intros _ d1 _ G1.
  apply ends_bind. eapply (ends_steady _ _ true); [exact G1|apply steady_RingDoorBell|]. intros _ d2 _ G2.
  apply ends_bind, ends_unlock; [done|]. apply ends_bind, ends_look. pose proof (good_set_lock true false _ G2) as G3. apply ends_if; intros Ea; cbn in Ea.
  - apply ends_bind, ends_look. eapply ends_schedule; [exact G3|]. intros s' G' T'. pose proof (timed_modes _ _ _ T') as (S1 & S2 & _). split; [done|]. split; [exact S1|]. split; [|exact S2].
    intros _. unfold timed in T'. cbn in T'. rewrite Ec in T'. destruct T' as (c' & -> & Hd). intros c0 [= <-]. cbn. apply negb_true_iff in Ea. by rewrite Ea.
  - apply negb_false_iff in Ea. split; [done|]. split; [done|]. split; [|done]. by rewrite Ea.
Qed.

Lemma setCursorState_fine x y v s : fine s -> ends (setCursorState x y v) (fun _ s' => fine s' /\ same_modes s s') n s.
Proof.
  intros [G T]. unfold setCursorState. apply ends_bind, ends_look. destruct (option_set _ s); cbn [negb]; [|by apply ends_ret].
  do 3 apply ends_bind, ends_look. apply ends_bind, ends_lock; [by apply G|]. apply ends_bind. eapply (ends_steady _ _ true); [by eapply good_set_lock| |].
  { intros d Hi _ _ _. destruct (setCursorState_steady (option_set CE1_OPTION_FB_CURSOR_BYPASS_2 s) (if s32 (x + s.(m_hotspot_x)) <? 0 then 0 else s32 (x + s.(m_hotspot_x)))
      (if s32 (y + s.(m_hotspot_y)) <? 0 then 0 else s32 (y + s.(m_hotspot_y))) v n d Hi) as (d' & E & S). eauto. }
  intros _ d' _ G'. apply ends_bind, ends_unlock; [done|]. apply ends_ret. split; [|done]. split; [by eapply good_set_lock|exact T].
Qed.

Lemma mode_of_custom m s : mode_of m s = if m =? CUSTOM_MODE_ID then Some s.(customMode) else None.
Proof.
  unfold mode_of. destruct (m =? CUSTOM_MODE_ID) eqn:E; [done|]. replace ((1 <=? m) && (m <=? NUM_DISPLAY_MODES)) with false; [done|]. symmetry. apply andb_false_iff.
  unfold CUSTOM_MODE_ID, NUM_DISPLAY_MODES in *. apply Z.eqb_neq in E. destruct (Z.leb_spec 1 m); [right|by left]. apply Z.leb_gt. lia.
Qed.

Lemma mode_of_u32 lk m s e : good lk s -> mode_of m s = Some e -> is_u32 e.(dm_width) /\ is_u32 e.(dm_height).
Proof. intros G. rewrite mode_of_custom. destruct (m =? CUSTOM_MODE_ID); [|done]. intros [= <-]. apply G. Qed.

Lemma good_mode pitch size w h lk s d' : good lk s -> is_u32 w -> is_u32 h -> steady (set_mode w h pitch size s.(svga)) d' -> good lk (set_svga d' s).
Proof.
  intros [K ? ? ? ? ? ? ? ? ? ? ? ?] Hw Hh [S1 S2 S3]. unfold dev_rest in S3. cbn in S2, S3. injection S3 as E1 E2 E3 E4 E5 E6 E7 E8 E9 E10 E11 E12 E13 E14 E15 E16 E17 E18. split; cbn; try done; try congruence.
  - by destruct K.
  - by rewrite E7, E8.
Qed.

(** The mode that is set is the mode of the device and of the service. *)
Lemma setDisplayMode_fine m depth s : fine s ->
  ends (setDisplayMode m depth) (fun r s' => fine s' /\ match mode_of m s with
    | Some e => depth = 0 -> r = kIOReturnSuccess /\ s'.(m_display_mode) = m /\ s'.(svga).(m_width) = e.(dm_width) /\ s'.(svga).(m_height) = e.(dm_height) /\ queue s'.(svga).(fifo) = []
    | None => r = kIOReturnBadArgument /\ s' = s
    end /\ (depth <> 0 -> r = kIOReturnBadArgument /\ s' = s) /\ s'.(m_custom_switch) = s.(m_custom_switch) /\ s'.(customMode) = s.(customMode) /\ s'.(m_intr) = s.(m_intr)) n s.
Proof.
  intros [G T]. unfold setDisplayMode. destruct (Z.eqb_spec depth 0) as [->|Hd]; cbn [negb]; [|apply ends_ret; split; [done|]; by destruct (mode_of m s)].
  apply ends_bind, ends_look. destruct (mode_of m s) as [e|] eqn:Em; [|by apply ends_ret]. pose proof (mode_of_u32 _ _ _ _ G Em) as [Hw Hh].
  apply ends_bind, ends_look. rewrite (gd_switched _ _ G). apply ends_bind, ends_look. apply ends_bind.
  assert (exists s1, ends (if_ (negb s.(m_accel_updates)) cancelRefreshTimer) (fun _ s' => s' = s1) n s /\ good false s1 /\ s1.(m_accel_updates) = s.(m_accel_updates) /\ s1.(svga) = s.(svga) /\
    (m_accel_updates s = true -> ticking s1) /\ s1.(m_custom_switch) = s.(m_custom_switch) /\ s1.(customMode) = s.(customMode) /\ s1.(m_intr) = s.(m_intr)) as (s1 & E1 & G1 & A1 & V1 & T1 & F1 & F2 & F3).
  { destruct (m_accel_updates s) eqn:Ea; cbn [negb if_]; [by exists s; split_and!; [apply ends_ret|..]|]. destruct (m_refresh_call s) as [c|] eqn:Ec.
    - exists (set_m_refresh_call (Some (mk_thread_call None)) s). split; [apply ends_update; by rewrite Ec|]. split; [by eapply good_refresh|]. done.
    - exists s. split; [apply ends_update; by rewrite Ec|]. done. }
  eapply ends_mono; [exact E1|]. intros [] ? ->. apply ends_bind, ends_lock; [by apply G1|]. apply ends_bind. pose proof (gd_size _ _ G1). pose proof (gd_fuel _ _ G1).
  destruct (SetMode_spec e.(dm_width) e.(dm_height) 32 n s1.(svga) (gd_idle _ _ G1)) as (pitch & size & d1 & Ed & Sd & Qd); [lia|].
  eapply ends_device; [exact Ed|]. apply ends_bind, ends_look. set (s2 := set_svga d1 (set_m_iolock (Some true) s1)).
  assert (good true s2) as G2 by (apply (good_mode pitch size e.(dm_width) e.(dm_height)); [by eapply good_set_lock|done|done|exact Sd]).
  assert (s2.(svga).(m_width) = e.(dm_width) /\ s2.(svga).(m_height) = e.(dm_height)) as [W2 X2] by (destruct Sd as [_ _ Sr]; unfold dev_rest in Sr; cbn in Sr |- *; split; congruence).
  apply ends_bind.
  assert (exists d3, ends (if_ (option_set CE1_OPTION_FB_REG_DUMP s2) (device RegDump;; mret tt)) (fun _ s' => s' = set_svga d3 s2) n s2 /\ steady d1 d3 /\ queue d3.(fifo) = []) as (d3 & E3 & S3 & Q3).
  { destruct (option_set _ s2); cbn [if_].
    - destruct (RegDump_steady n d1 (st_idle _ _ Sd)) as (vs & d3 & E3 & S3 & K3). exists d3. split; [|eauto using keeps_empty]. apply ends_bind. eapply ends_device; [exact E3|]. by apply ends_ret.
    - exists d1. split; [by apply ends_ret|]. split; [by apply steady_refl, Sd|done]. }
  eapply ends_mono; [exact E3|]. intros [] ? ->. assert (good true (set_svga d3 s2)) as G3 by (by apply good_svga).
  assert (d3.(m_width) = e.(dm_width) /\ d3.(m_height) = e.(dm_height)) as [W3 X3] by (destruct S3 as [_ _ Sr]; unfold dev_rest in Sr; cbn in W2, X2; split; congruence).
  apply ends_bind, ends_unlock; [done|]. apply ends_bind, ends_bind, ends_update. apply ends_update. apply ends_bind, ends_look.
  set (s4 := set_m_depth_mode 0 _). assert (good false s4) as G4 by (apply quiet_depth_mode, quiet_display_mode; by eapply good_set_lock). apply ends_bind.
  change (m_accel_updates s4) with (m_accel_updates s1). rewrite A1. apply ends_if; intros Ea.
  - eapply ends_schedule; [exact G4|]. intros s' G' T'. apply ends_ret. apply negb_true_iff in Ea. unfold timed in T'. destruct (m_refresh_call s4) as [c|] eqn:Ec.
    + destruct T' as (c' & -> & Hdue). split; [split; [done|]; intros c0 [= <-]; cbn; by rewrite A1, Ea|]. split; [done|]. split; [done|]. done.
    + subst s'. split; [split; [done|]; by intros c0; rewrite Ec|]. split; [done|]. split; [done|]. done.
  - apply negb_false_iff in Ea. apply ends_ret. split; [split; [done|]; by apply T1|]. split; [done|]. split; [done|]. done.
Qed.

(** *** The image of the cursor *)

(** What the framework promises about a converted cursor: it is as large as was asked for at most. *)
Definition cursor_ok (c : cursor_info) : Prop :=
  0 <= c.(cu_width) <= 64 /\ 0 <= c.(cu_height) <= 64 /\ Z.of_nat (length c.(cu_pixels)) = c.(cu_width) * c.(cu_height) /\ Forall is_u32 c.(cu_pixels).

Lemma convert_pixels_spec f m : forall l, (m <= length l)%nat -> convert_pixels f m l = Some ((f <$> take m l) ++ drop m l).
Proof. induction m as [|m IH]; intros [|x l] Hl; cbn in *; try done; [lia|]. rewrite IH by lia. done. Qed.

Lemma define_cursor_inv w h hx hy image k (d d' : dev HS) : define_cursor w h hx hy image k d = Some (true, d') -> exists p d1 d2 b,
  BeginDefineAlphaCursor w h 4 k d = Some (Some p, d1) /\ store_words p 0 (take (Z.to_nat (u32 (w * h * 4) / 4)) image) k d1 = Some (tt, d2) /\ EndDefineAlphaCursor w h 4 hx hy k d2 = Some (b, d').
Proof.
  unfold define_cursor, mbind at 1, M_bind at 1. destruct (BeginDefineAlphaCursor w h 4 k d) as [[[p|] d1]|] eqn:E1; [|done..]. intros E. exists p, d1.
  unfold mbind at 1, M_bind at 1 in E. destruct (store_words p 0 _ k d1) as [[[] d2]|] eqn:E2; [|done]. exists d2.
  unfold mbind, M_bind in E. destruct (EndDefineAlphaCursor w h 4 hx hy k d2) as [[b d3]|] eqn:E3; [|done]. exists b. by injection E as <-.
Qed.

Lemma cursor_buffer_fine s : fine s -> ends cursor_buffer (fun b s' => fine s' /\ same_modes s s' /\ s'.(svga) = s.(svga) /\ s'.(ce1_options_fb) = s.(ce1_options_fb) /\ s'.(m_cursor_image) = b /\ (b = None -> s.(m_cursor_image) = None /\ hd true s.(grants) = false)) n s.
Proof.
  intros [G T]. unfold cursor_buffer. apply ends_bind, ends_look. destruct (m_cursor_image s) as [i|] eqn:Ei; [by apply ends_ret|].
  apply ends_bind. unfold ends at 1, obtain. destruct (hd true (grants s)) eqn:Eg; (eexists _, _; split; [done|]); cbn [negb].
  - apply ends_bind, ends_update, ends_ret. split; [|done]. split; [|done]. destruct G as [[K1 K2 K3] ? ? ? ? ? ? ? ? ? ? ? ?]. split; cbn; try done. split; cbn; [|by intros ? [= <-]|done].
    rewrite K1. unfold resources. cbn. rewrite Ei. cbn. multiset_solver.
  - apply ends_ret. split; [|done]. split; [by apply quiet_grants|done].
Qed.

Lemma Forall_take_cursor (c : cursor_info) l : Z.of_nat (length c.(cu_pixels)) = c.(cu_width) * c.(cu_height) -> take (Z.to_nat (c.(cu_width) * c.(cu_height))) (c.(cu_pixels) ++ l) = c.(cu_pixels).
Proof. intros <-. by rewrite Nat2Z.id, take_app_length. Qed.

Lemma setCursorImage_fine c s : fine s -> cursor_ok c ->
  ends (setCursorImage (Some c)) (fun r s' => fine s' /\ same_modes s s' /\
    (option_set CE1_OPTION_FB_FIFO_INIT s = true -> 0 < c.(cu_width) * c.(cu_height) -> s.(m_cursor_image) <> None \/ hd true s.(grants) = true -> r = kIOReturnSuccess) /\
    (r = kIOReturnSuccess -> s'.(m_hotspot_x) = c.(cu_hotspot_x) /\ s'.(m_hotspot_y) = c.(cu_hotspot_y) /\ exists consumed, consumed ++ queue s'.(svga).(fifo) = queue s.(svga).(fifo) ++
       encode_cmd (CmdDefineAlphaCursor (mk_SVGAFifoCmdDefineAlphaCursor 1 c.(cu_hotspot_x) c.(cu_hotspot_y) c.(cu_width) c.(cu_height)) (premultiply <$> c.(cu_pixels))))) n s.
Proof.
  intros Hs (Hw & Hh & Hl & Hp). unfold setCursorImage. apply ends_bind, ends_look. destruct (option_set _ s) eqn:Eo; cbn [negb]; [|by apply ends_ret].
  apply ends_bind. eapply ends_mono; [by apply cursor_buffer_fine|]. intros b s1 ([G1 T1] & M1 & V1 & O1 & Eb & Hb). destruct b as [image|].
  2: { destruct (Hb eq_refl) as [B1 B2]. apply ends_ret. split; [done|]. split; [done|]. split; [|done]. intros _ _ [Hi|Hi]; [done|by rewrite B2 in Hi]. }
  assert (0 <= c.(cu_width) * c.(cu_height) <= 4096) as Hwh by nia. pose proof (kp_image _ (gd_kept _ _ G1) image Eb) as Li. do 2 apply ends_bind, ends_update.
  rewrite (proj2 (Z.ltb_ge _ _)) by lia. set (i1 := cu_pixels c ++ drop (length (cu_pixels c)) image). assert (length i1 = 4096%nat) as L1 by (unfold i1; rewrite length_app, length_drop; lia).
  apply ends_bind, ends_update. set (s2 := set_m_cursor_image (Some i1) _). assert (good false s2) as G2 by (apply (good_image _ _ image); [by apply quiet_hotspot_y, quiet_hotspot_x|done|done]).
  destruct (_ || _) eqn:Ez.
  { apply ends_ret. split; [done|]. split; [done|]. split; [|done]. intros _ Hpos. apply orb_true_iff in Ez as [Ez|Ez]; apply Z.eqb_eq in Ez; rewrite Ez in Hpos; lia. }
  apply orb_false_iff in Ez as [Ew Eh]. apply Z.eqb_neq in Ew, Eh. do 2 apply ends_bind, ends_update. apply ends_bind. set (wh := Z.to_nat (c.(cu_width) * c.(cu_height))).
  eapply ends_the; [unfold ConvertAlphaCursor; rewrite wrap_small by (split; lia); apply convert_pixels_spec; unfold wh in *; lia|].
  set (i2 := (premultiply_vector <$> take _ i1) ++ _). assert (length i2 = 4096%nat) as L2 by (unfold i2; rewrite length_app, length_fmap, length_take, length_drop; lia).
  assert (take wh i2 = premultiply <$> cu_pixels c) as E2.
  { unfold i2. fold wh. assert (take wh i1 = cu_pixels c) as -> by (unfold i1, wh; by apply Forall_take_cursor). rewrite take_app_le, take_ge by (rewrite length_fmap; unfold wh; lia).
    apply list_fmap_ext. intros j x Hx. assert (is_u32 x) by (by eapply Forall_lookup_1 in Hp). by rewrite premultiply_spec, premultiply_vector_spec. }
  apply ends_bind, ends_update. set (s3 := set_m_cursor_image (Some i2) _). assert (good false s3) as G3 by (apply (good_image _ _ i1); [by apply quiet_hotspot_y, quiet_hotspot_x|done|done]).
  apply ends_bind, ends_lock; [by apply G3|]. set (s4 := set_m_iolock (Some true) s3). assert (good true s4) as G4 by (by eapply good_set_lock).
  assert (option_set CE1_OPTION_FB_FIFO_INIT s4 = true) as Eo4 by (unfold option_set; change (ce1_options_fb s4) with (ce1_options_fb s1); by rewrite O1).
  pose proof (gd_room _ _ G4 Eo4) as HR. pose proof (gd_size _ _ G4) as Hsz. pose proof (gd_fuel _ _ G4) as Hfu.
  destruct (define_cursor_emits c.(cu_width) c.(cu_height) c.(cu_hotspot_x) c.(cu_hotspot_y) i2 s4.(svga)) with (fuel := n) as (d' & Ed & Hc); [lia|lia|lia|by apply G4|by apply G4|split; lia|apply idle_fuel; [by apply G4|lia]|].
  destruct (define_cursor_inv _ _ _ _ _ _ _ _ Ed) as (p & d1 & d2 & b & D1 & D2 & D3).
  apply ends_bind. eapply ends_device; [exact D1|]. apply ends_bind. eapply ends_device; [exact D2|]. apply ends_bind. eapply ends_device; [exact D3|].
  apply ends_bind, ends_unlock; [done|]. apply ends_ret. assert (good false (set_m_iolock (Some false) (set_svga d' s4))) as G5.
  { eapply good_set_lock. apply good_svga; [done|]. by eapply committed_steady. }
  split; [split; [exact G5|exact T1]|]. split; [exact M1|]. split; [done|]. intros _. split; [done|]. split; [done|]. destruct Hc as (_ & _ & pre & Hq). exists pre. cbn [svga set_m_iolock set_svga].
  rewrite Hq. change (svga s4) with (svga s1). rewrite V1. unfold cursor_cmd. fold wh. by rewrite E2.
Qed.

Lemma setCursorImage_refused s : fine s -> ends (setCursorImage None) (fun r s' => fine s' /\ same_modes s s' /\ r = kIOReturnUnsupported /\ s'.(svga) = s.(svga)) n s.
Proof.
  intros Hs. unfold setCursorImage. apply ends_bind, ends_look. destruct (option_set _ s) eqn:Eo; cbn [negb]; [|by apply ends_ret].
  apply ends_bind. eapply ends_mono; [by apply cursor_buffer_fine|]. intros b s1 ([G1 T1] & M1 & V1 & O1 & Eb & Hb). destruct b as [image|]; [|by apply ends_ret].
  do 2 apply ends_bind, ends_update. apply ends_ret. split; [|done]. split; [by apply quiet_hotspot_y, quiet_hotspot_x|exact T1].
Qed.

(** *** The accelerator *)

Lemma timed_due b s s' c : timed b s s' -> s'.(m_refresh_call) = Some c -> is_Some c.(tc_due) <-> b = true.
Proof.
  unfold timed. destruct (m_refresh_call s) as [c0|] eqn:Ec; [intros (c' & -> & Hd) [= <-]|intros ->; by rewrite Ec]. destruct b; [done|]. rewrite Hd. split; [by intros [? ?]|done].
Qed.

Lemma useAccelUpdates_fine state s : fine s -> option_set CE1_OPTION_FB_FIFO_INIT s = true -> ends (useAccelUpdates state) (fun _ s' => fine s' /\ same_modes s s' /\ s'.(m_accel_updates) = state) n s.
Proof.
  intros [G T] Ho. pose proof (gd_room _ _ G Ho) as HR. pose proof (gd_fuel _ _ G) as Hn. unfold useAccelUpdates. apply ends_bind, ends_look.
  destruct (Bool.eqb_spec state (m_accel_updates s)) as [Ea|Ea]; [by apply ends_ret|]. apply ends_bind, ends_update. apply ends_bind. set (s1 := set_m_accel_updates state s).
  assert (good false s1) as G1 by by apply quiet_accel.
  assert (forall s2 d, good true (set_svga d (set_m_iolock (Some true) s2)) -> timed (negb state) s1 s2 ->
    ends unlockDevice (fun _ s3 => ends (setProperty "CECLSVGAAccelSynchronize" (if state then 1 else 0)) (fun _ s' => fine s' /\ same_modes s s' /\ s'.(m_accel_updates) = state) n s3) n
      (set_svga d (set_m_iolock (Some true) s2))) as Hend.
  { intros s2 d G2 T2. pose proof (timed_modes _ _ _ T2) as (M2 & A2 & _). apply ends_unlock; [done|]. apply ends_update. split; [|split; [exact M2|exact A2]].
    split; [apply quiet_registry; by eapply good_set_lock|]. intros c Ec. cbn. rewrite A2. cbn in Ec |- *. rewrite (timed_due _ _ _ c T2 Ec). by destruct state. }
  destruct state.
  - apply ends_bind. eapply ends_cancel; [exact G1|]. intros s2 G2 T2. apply ends_bind, ends_lock; [by apply G2|]. apply ends_bind, ends_capability, ends_bind. apply ends_if; intros _.
    + eapply (ends_steady _ _ true); [by eapply good_set_lock|apply steady_traces|]. intros _ d _ G3. by apply Hend.
    + apply (Hend s2 (svga s2)); [|done]. apply good_svga; [by eapply good_set_lock|apply steady_refl, G2].
  - apply ends_bind. eapply ends_schedule; [exact G1|]. intros s2 G2 T2. apply ends_bind, ends_lock; [by apply G2|]. apply ends_bind, ends_capability, ends_bind. apply ends_if; intros _.
    + apply ends_bind. eapply (ends_steady _ _ true); [by eapply good_set_lock|apply steady_traces|]. intros _ d _ G3.
      apply ends_bind. eapply (ends_steady _ _ true); [exact G3|by apply steady_UpdateFullscreen|]. intros _ d2 _ G4.
      eapply (ends_steady _ _ true); [exact G4|apply steady_RingDoorBell|]. intros _ d3 _ G5. by apply (Hend s2 d3).
    + apply (Hend s2 (svga s2)); [|done]. apply good_svga; [by eapply good_set_lock|apply steady_refl, G2].
Qed.

(** *** Interrupts and attributes *)

Lemma quiet_fine f s : quiet f -> (forall s, (f s).(m_refresh_call) = s.(m_refresh_call) /\ (f s).(m_accel_updates) = s.(m_accel_updates)) -> fine s -> fine (f s).
Proof. intros Hf He [G T]. destruct (He s) as [E1 E2]. split; [by apply Hf|]. unfold ticking. rewrite E1, E2. exact T. Qed.

Lemma setInterruptState_fine b x s : fine s -> ends (setInterruptState b x) (fun _ s' => fine s' /\ same_modes s s') n s.
Proof.
  intros Hs. unfold setInterruptState. destruct b; cbn [negb]; [|by apply ends_ret]. apply ends_bind, ends_update, ends_ret. split; [|done]. by apply (quiet_fine (set_m_intr_enabled _)); [apply quiet_intr_enabled| |].
Qed.

Lemma unregisterInterrupt_fine b s : fine s -> ends (unregisterInterrupt b) (fun _ s' => fine s') n s.
Proof.
  intros Hs. unfold unregisterInterrupt. destruct b; cbn [negb]; [|by apply ends_ret]. apply ends_bind, ends_update, ends_bind, ends_update, ends_ret.
  apply (quiet_fine (set_m_intr_enabled _)); [apply quiet_intr_enabled|done|]. by apply (quiet_fine (set_m_intr _)); [apply quiet_intr| |].
Qed.

Lemma registerForInterruptType_fine super t proc target ref s : fine s -> ends (registerForInterruptType super t proc target ref) (fun _ s' => fine s') n s.
Proof.
  intros Hs. unfold registerForInterruptType. destruct (t =? _); [by apply ends_ret|]. destruct (t =? _); cbn [negb]; [|by apply ends_ret]. apply ends_bind, ends_update, ends_bind, ends_update, ends_ret.
  apply (quiet_fine (set_m_intr_enabled _)); [apply quiet_intr_enabled|done|]. by apply (quiet_fine (set_m_intr _)); [apply quiet_intr| |].
Qed.

Lemma getAttributeForConnection_fine super a v s : fine s -> ends (getAttributeForConnection super a v) (fun _ s' => fine s' /\ same_modes s s') n s.
Proof.
  intros Hs. unfold getAttributeForConnection. destruct (_ || _); [by apply ends_ret|]. destruct (a =? _).
  { apply ends_bind. apply ends_if; intros _; [|by apply ends_ret]. apply ends_update, ends_ret. split; [|done]. by apply (quiet_fine (set_registry _)); [apply quiet_registry| |]. }
  do 2 (destruct (a =? _); [by apply ends_ret|]). destruct (a =? _); [apply ends_bind, ends_look|]; by apply ends_ret.
Qed.

Lemma setAttribute_fine v super a x s : fine s -> ends (setAttribute v super a x) (fun _ s' => fine s') n s.
Proof.
  intros Hs. unfold setAttribute. do 2 apply ends_bind, ends_look. apply ends_bind, ends_if; intros _; [|by apply ends_ret]. apply ends_update, ends_ret.
  by apply (quiet_fine (set_m_custom_switch _)); [apply quiet_switch| |].
Qed.

Lemma getApertureRange_fine a s : fine s -> ends (getApertureRange a) (fun r s' => s' = s) n s.
Proof.
  intros [G T]. unfold getApertureRange. destruct (negb _); [by apply ends_ret|]. apply ends_bind, ends_look. destruct (m_vram s); [|by apply ends_ret].
  apply ends_bind, ends_lock; [by apply G|]. apply ends_bind, ends_look, ends_bind, ends_unlock; [done|]. apply ends_ret. pose proof (gd_lock _ _ G) as El. destruct s; cbn in *. by rewrite El.
Qed.

(** The ids that are reported are ids of modes. *)
Lemma getDisplayModes_fine b s : fine s -> ends (getDisplayModes b) (fun r s' => s' = s /\ Forall (fun i => is_Some (mode_of i s)) r.2) n s.
Proof.
  intros [G T]. unfold getDisplayModes. destruct b; cbn [negb]; [|by apply ends_ret]. apply ends_bind, ends_look. destruct (negb _); [apply ends_ret; split; [done|]; by constructor|].
  do 2 apply ends_bind, ends_look. destruct (gd_modes _ _ G) as (L & Hn & Hf). rewrite L, (proj2 (Z.ltb_ge _ _)) by lia. apply ends_ret. split; [done|].
  eapply Forall_impl; [exact Hf|]. intros i ->. by eexists.
Qed.

Lemma slice_ok (l : list Z) b : 0 < b < 2 ^ 25 -> b * 128 <= Z.of_nat (length l) -> (Z.of_nat (length l) <? u32 (u32 (b - 1) * 128) + 128) = false.
Proof. intros Hb Hl. rewrite (wrap_small 32 (b - 1)), wrap_small by (split; lia). apply Z.ltb_ge. lia. Qed.

(** Block numbers that do not overflow when multiplied by the size of a block. *)
Lemma getDDCBlock_fine super i b t len s : fine s -> 0 <= b < 2 ^ 25 -> ends (getDDCBlock super i b t len) (fun r s' => s' = s) n s.
Proof.
  intros [G T] Hb. unfold getDDCBlock. do 2 apply ends_bind, ends_look. destruct (m_edid s) as [e|] eqn:Ee; [|by apply ends_ret]. destruct len as [len|]; [|by apply ends_ret].
  destruct (_ && _) eqn:Ec; [|by apply ends_ret]. rewrite !andb_true_iff, negb_true_iff, Z.eqb_neq, !Z.leb_le in Ec. destruct Ec as ((((_ & Hb0) & Hle) & _) & _).
  destruct (kp_edid _ (gd_kept _ _ G) e Ee) as (El & _ & _). rewrite wrap_small in Hle by (split; lia). rewrite slice_ok by lia. by apply ends_ret.
Qed.

(** *** Custom modes *)

(** There is only one mode, which is the custom mode: no slot has another size. *)
Lemma find_slot_none k : forall i s, Forall (fun j => j = CUSTOM_MODE_ID) (take (k + Z.to_nat i) s.(m_modes)) -> 0 <= i -> find_slot k i s.(customMode) s = None.
Proof.
  induction k as [|k IH]; intros i s Hf Hi; cbn [find_slot]; [done|]. assert (find_slot k (i + 1) (customMode s) s = None) as E by (apply IH; [by replace (k + Z.to_nat (i + 1))%nat with (S k + Z.to_nat i)%nat by lia|lia]).
  destruct (m_modes s !! Z.to_nat i) as [j|] eqn:Ej; cbn [mbind option_bind]; [|done].
  assert (j = CUSTOM_MODE_ID) as -> by (apply (Forall_lookup_1 _ _ (Z.to_nat i) j Hf); rewrite lookup_take_lt by lia; exact Ej). rewrite mode_of_custom. change (CUSTOM_MODE_ID =? CUSTOM_MODE_ID) with true. cbn beta iota. by rewrite !Z.eqb_refl.
Qed.

Lemma RestoreAllModes_fine s : fine s -> ends RestoreAllModes (fun t s' => t = Finished kIOReturnSuccess None /\ s' = s) n s.
Proof.
  intros [G T]. unfold RestoreAllModes. apply ends_bind, ends_look. destruct (negb _); [by apply ends_ret|]. apply ends_bind, ends_look. rewrite mode_of_custom. change (CUSTOM_MODE_ID =? CUSTOM_MODE_ID) with true. cbn beta iota.
  do 2 apply ends_bind, ends_look. destruct (gd_modes _ _ G) as (_ & _ & Hf). rewrite find_slot_none; [by apply ends_ret|by rewrite Nat.add_0_r|done].
Qed.

(** A thread that goes on whenever its condition holds, until it returns. *)
Inductive thread_ok : thread -> Prop :=
  | ok_finished r out : thread_ok (Finished r out)
  | ok_waiting c k : (forall s, fine s -> holds c s = true -> exists t s', k n s = Some (t, s') /\ fine s' /\ thread_ok t) -> thread_ok (Waiting c k).

Definition goes_on (t : thread) s : Prop := fine s /\ thread_ok t.

Lemma ends_await c (k : F HS thread) s : fine s -> (forall s, fine s -> holds c s = true -> ends k goes_on n s) -> ends (await c k) goes_on n s.
Proof.
  intros Hs Hk. unfold await. apply ends_bind, ends_look. destruct (holds c s) eqn:Eh; [by apply Hk|]. apply ends_ret. split; [done|]. by constructor.
Qed.

Lemma ends_emit (k : F HS thread) s : fine s -> (forall s, fine s -> ends k goes_on n s) -> ends (EmitConnectChangedEvent k) goes_on n s.
Proof.
  intros Hs Hk. apply ends_await; [done|]. intros s1 H1 _. apply ends_bind, ends_look, ends_bind, ends_if; intros _; [|by apply Hk]. apply ends_update, Hk.
  by apply (quiet_fine (fun s => set_connect_events _ s)); [intros lk s2; apply quiet_events| |].
Qed.

Lemma ends_answer flags s : fine s -> ends (answer_mode flags) (fun t s' => goes_on t s' /\ s' = s /\
  t = match mode_of s.(m_display_mode) s with Some e => Finished kIOReturnSuccess (Some (mk_CustomModeData flags e.(dm_width) e.(dm_height))) | None => Finished kIOReturnUnsupported None end) n s.
Proof.
  intros Hs. unfold answer_mode. do 2 apply ends_bind, ends_look. destruct (mode_of _ s); apply ends_ret; (split; [split; [done|constructor]|done]).
Qed.

Definition data_ok (i : option CustomModeData) : Prop := match i with Some i => is_u32 i.(cm_width) /\ is_u32 i.(cm_height) | None => True end.

Lemma CustomMode_goes_on v i o isz osz s : fine s -> data_ok i -> ends (CustomMode v i o isz osz) goes_on n s.
Proof.
  intros Hs Hi. assert (forall r, ends (mret (Finished r None)) goes_on n s) as Hfail by (intros r; apply ends_ret; split; [done|constructor]).
  unfold CustomMode. apply ends_bind, ends_look. destruct (m_restore_call s); [|done]. destruct i as [i|]; [|done]. destruct (isz <? _); [done|]. destruct o; cbn [negb]; [|done].
  destruct (match osz with Some _ => _ | None => _ end); [done|]. do 2 apply ends_bind, ends_look. destruct (mode_of _ s); [|done].
  assert (forall s, fine s -> ends (answer_mode i.(cm_flags)) goes_on n s) as Hans by (intros s1 H1; eapply ends_mono; [by apply ends_answer|]; by intros t' s' (? & _)).
  destruct (has_bits _ 1); [|by apply Hans]. apply ends_bind, ends_update, ends_bind, ends_update. destruct Hi as [Hw Hh].
  apply ends_emit.
  - apply (quiet_fine (set_m_custom_switch _)); [apply quiet_switch|done|]. by apply (quiet_fine (fun s => set_customMode _ s)); [intros lk s1; by apply quiet_custom| |].
  - intros s1 H1. destruct (13 <=? v); apply ends_await; [done|by intros s2 H2 _; apply Hans|done|]. intros s2 H2 _. apply ends_bind, ends_look.
    destruct (gd_restore _ _ (proj1 H2)) as [c ->]. apply ends_bind, ends_update, Hans. destruct H2 as [G2 T2]. split; [by apply good_restore|exact T2].
Qed.

(** *** Clean-up *)

Local Ltac ms_tac := rewrite ?gmultiset_disj_union_left_id, ?gmultiset_disj_union_right_id; clear; repeat match goal with |- context [held ?a ?b] => let x := fresh in set (x := held a b); clearbody x end; multiset_solver.
Local Ltac drop_tac K E := destruct K as [K1 K2 K3]; split; [rewrite K1; unfold resources; rewrite E; cbn [held]; ms_tac|]; split; cbn -[held]; [|done..]; rewrite K1; unfold resources; cbn -[held]; rewrite E; cbn [held]; ms_tac.

Lemma drop_restore s c : kept s -> s.(m_restore_call) = Some c -> RestoreCall ∈ s.(ledger) /\ kept (set_m_restore_call None (set_ledger (s.(ledger) ∖ {[+ RestoreCall +]}) s)).
Proof. intros K E. drop_tac K E. Qed.
Lemma drop_refresh s c : kept s -> s.(m_refresh_call) = Some c -> RefreshCall ∈ s.(ledger) /\ kept (set_m_refresh_call None (set_ledger (s.(ledger) ∖ {[+ RefreshCall +]}) s)).
Proof. intros K E. drop_tac K E. Qed.
Lemma drop_image s c : kept s -> s.(m_cursor_image) = Some c -> Block 16384 ∈ s.(ledger) /\ kept (set_m_cursor_image None (set_ledger (s.(ledger) ∖ {[+ Block 16384 +]}) s)).
Proof. intros K E. drop_tac K E. Qed.
Lemma drop_edid s c : kept s -> s.(m_edid) = Some c -> Block s.(m_edid_size) ∈ s.(ledger) /\ kept (set_m_edid None (set_m_edid_size 0 (set_ledger (s.(ledger) ∖ {[+ Block s.(m_edid_size) +]}) s))).
Proof. intros K E. drop_tac K E. Qed.
Lemma drop_lock s c : kept s -> s.(m_iolock) = Some c -> Lock ∈ s.(ledger) /\ kept (set_m_iolock None (set_ledger (s.(ledger) ∖ {[+ Lock +]}) s)).
Proof. intros K E. drop_tac K E. Qed.

Lemma kept_svga d s : kept s -> kept (set_svga d s).
Proof. by intros []. Qed.
Lemma kept_refresh s c c' : kept s -> s.(m_refresh_call) = Some c -> kept (set_m_refresh_call (Some c') s).
Proof. intros [K1 ? ?] E. split; cbn; try done. rewrite K1. unfold resources. cbn. by rewrite E. Qed.
Lemma kept_restore s c c' : kept s -> s.(m_restore_call) = Some c -> kept (set_m_restore_call (Some c') s).
Proof. intros [K1 ? ?] E. split; cbn; try done. rewrite K1. unfold resources. cbn. by rewrite E. Qed.

Record given_back s : Prop := {
  gb_ledger : s.(ledger) = base;
  gb_lock : s.(m_iolock) = None;
  gb_restore : s.(m_restore_call) = None;
  gb_refresh : s.(m_refresh_call) = None;
  gb_image : s.(m_cursor_image) = None;
  gb_edid : s.(m_edid) = None;
  gb_device : s.(svga).(m_fifo_mapped) = false /\ s.(svga).(m_bounce_allocated) = false /\ s.(svga).(m_capabilities) = 0;
}.

Lemma ends_cancel_any (Q : unit -> framebuffer HS -> Prop) s : kept s -> (forall s', kept s' -> Q tt s') -> ends cancelRefreshTimer Q n s.
Proof. intros K HQ. apply ends_update. destruct (m_refresh_call s) eqn:E; apply HQ; [by eapply kept_refresh|done]. Qed.
Lemma ends_cancel_restore (Q : unit -> framebuffer HS -> Prop) s : kept s -> (forall s', kept s' -> Q tt s') -> ends cancel_restore Q n s.
Proof. intros K HQ. apply ends_update. destruct (m_restore_call s) eqn:E; apply HQ; [by eapply kept_restore|done]. Qed.

Lemma ends_delete_timer (Q : unit -> framebuffer HS -> Prop) s : kept s -> (forall s', kept s' -> s'.(m_refresh_call) = None -> Q tt s') -> ends deleteRefreshTimer Q n s.
Proof.
  intros K HQ. unfold deleteRefreshTimer. apply ends_bind, ends_look. destruct (m_refresh_call s) as [c|] eqn:E; [|by apply ends_ret, HQ].
  destruct (drop_refresh s c K E) as [Hin K']. apply ends_bind, ends_give_back; [done|]. apply ends_update. by apply HQ.
Qed.

Lemma Cleanup_gives_back s : kept s -> ends Cleanup (fun _ s' => given_back s') n s.
Proof.
  intros K. unfold Cleanup. apply ends_bind, ends_cancel_any; [exact K|]. clear s K. intros s K. apply ends_bind, ends_cancel_restore; [exact K|]. clear s K. intros s K.
  apply ends_bind, ends_delete_timer; [exact K|]. clear s K. intros s K E1. apply ends_bind, ends_capability. apply ends_bind.
  assert (forall d, ends (device SvgaDevice.Cleanup) (fun _ s' => exists d', s' = set_svga d' s /\ d'.(m_fifo_mapped) = false /\ d'.(m_bounce_allocated) = false /\ d'.(m_capabilities) = 0) n (set_svga d s)) as Hc
    by (intros d; eapply ends_device; [done|]; by eexists).
  assert (ends (if_ (has_bits (m_capabilities (svga s)) 0xFFFFFFFF) (device Disable)) (fun _ s' => exists d, s' = set_svga d s) n s) as Hd.
  { apply ends_if; intros _; [|exists (svga s); by destruct s]. destruct (WriteReg_total SVGA_REG_ENABLE 0 n (svga s)) as (h & f & E). eapply ends_device; [exact E|]. by eexists. }
  eapply ends_mono; [exact Hd|]. intros _ ? [d ->]. apply ends_bind. eapply ends_mono; [apply Hc|]. intros _ ? (d' & -> & Hdev). clear Hc Hd d.
  assert (kept (set_svga d' s)) as K' by by apply kept_svga. assert (m_refresh_call (set_svga d' s) = None) as E1' by done. assert (svga (set_svga d' s) = d') as Es by done.
  generalize dependent (set_svga d' s). clear s K E1. intros s K E1 Es. apply ends_bind, ends_look. apply ends_bind.
  assert (exists s1, ends (match m_restore_call s with Some _ => give_back RestoreCall;; update (set_m_restore_call None) | None => mret tt end) (fun _ s' => s' = s1) n s /\
    kept s1 /\ m_restore_call s1 = None /\ m_refresh_call s1 = None /\ svga s1 = d') as (s1 & X1 & K1 & E2 & E3 & Es1).
  { destruct (m_restore_call s) as [c|] eqn:E; [|by exists s; split; [apply ends_ret|]]. destruct (drop_restore s c K E) as [Hin K']. eexists. split; [apply ends_bind, ends_give_back; [done|]; by apply ends_update|]. done. }
  eapply ends_mono; [exact X1|]. intros _ ? ->. clear X1. apply ends_bind, ends_look. apply ends_bind.
  assert (exists s2, ends (match m_cursor_image s1 with Some _ => give_back (Block 16384);; update (set_m_cursor_image None) | None => mret tt end) (fun _ s' => s' = s2) n s1 /\
    kept s2 /\ m_restore_call s2 = None /\ m_refresh_call s2 = None /\ m_cursor_image s2 = None /\ svga s2 = d') as (s2 & X2 & K2 & E4 & E5 & E6 & Es2).
  { destruct (m_cursor_image s1) as [c|] eqn:E; [|by exists s1; split; [apply ends_ret|]]. destruct (drop_image s1 c K1 E) as [Hin K']. eexists. split; [apply ends_bind, ends_give_back; [done|]; by apply ends_update|]. done. }
  eapply ends_mono; [exact X2|]. intros _ ? ->. clear X2. apply ends_bind, ends_look. apply ends_bind.
  assert (exists s3, ends (match m_edid s2 with Some _ => n ← look m_edid_size; give_back (Block n);; update (set_m_edid_size 0);; update (set_m_edid None) | None => mret tt end) (fun _ s' => s' = s3) n s2 /\
    kept s3 /\ m_restore_call s3 = None /\ m_refresh_call s3 = None /\ m_cursor_image s3 = None /\ m_edid s3 = None /\ svga s3 = d') as (s3 & X3 & K3 & E7 & E8 & E9 & E10 & Es3).
  { destruct (m_edid s2) as [c|] eqn:E; [|by exists s2; split; [apply ends_ret|]]. destruct (drop_edid s2 c K2 E) as [Hin K']. eexists.
    split; [apply ends_bind, ends_look, ends_bind, ends_give_back; [done|]; by apply ends_bind, ends_update, ends_update|]. done. }
  eapply ends_mono; [exact X3|]. intros _ ? ->. clear X3. apply ends_bind, ends_look.
  assert (forall s4, kept s4 -> m_iolock s4 = None -> m_restore_call s4 = None -> m_refresh_call s4 = None -> m_cursor_image s4 = None -> m_edid s4 = None -> svga s4 = d' -> given_back s4) as Hfin.
  { intros s4 [K4 _ _] F1 F2 F3 F4 F5 F6. split; try done; [|by rewrite F6]. rewrite K4. unfold resources. rewrite F1, F2, F3, F4, F5. cbn. multiset_solver. }
  destruct (m_iolock s3) as [lk|] eqn:E; [|by apply ends_ret, Hfin]. destruct (drop_lock s3 lk K3 E) as [Hin K']. apply ends_bind, ends_give_back; [done|]. apply ends_update. by apply Hfin.
Qed.
End methods.
