(* ===== verification/FrameBufferSpec.v ===== *)
(** The frame buffer service from start to stop: the states that requests, the timer, the window
    server and the threads of user clients lead to, and what holds in them. *)

From S2P Require Import Prelude IOKit Layout SvgaReg SvgaCmd Fifo Ring FifoProofs SvgaDevice Bits DeviceProofs Driver FrameBuffer FrameBufferProofs.
From stdpp Require Import gmap gmultiset strings.

#[local] Open Scope Z_scope.

(** ** Start *)

Section start_device.
Context {HS : Type} `{SvgaHostOK HS}.
Implicit Types (d : dev HS).

(** A partial triple for the methods of the device object. *)
Definition triple {A} (P : dev HS -> Prop) (m : M HS A) (Q : A -> dev HS -> Prop) : Prop := forall n d a d', P d -> m n d = Some (a, d') -> Q a d'.

Lemma triple_bind {A B} P (m : M HS A) (k : A -> M HS B) Q T : triple P m Q -> (forall a, triple (Q a) (k a) T) -> triple P (m ≫= k) T.
Proof. intros Hm Hk n d b d' HP. unfold mbind, M_bind. destruct (m n d) as [[a d1]|] eqn:E; [|done]. intros E2. exact (Hk a n d1 b d' (Hm n d a d1 HP E) E2). Qed.
Lemma triple_ret {A} (P : dev HS -> Prop) (a : A) (Q : A -> dev HS -> Prop) : (forall d, P d -> Q a d) -> triple P (mret a) Q.
Proof. intros HQ n d a' d' HP [= <- <-]. by apply HQ. Qed.
Lemma triple_any {A} P (m : M HS A) : triple P m (fun _ _ => True).
Proof. done. Qed.

(** What the driver reads at start: the size of the ring and the sizes of the screen. *)
Context (size_ok : Z -> Prop).
Definition sized d : Prop := size_ok d.(m_fifo_size).
Definition measured d : Prop := sized d /\ is_u32 d.(m_width) /\ is_u32 d.(m_height).

(** Methods that leave these fields alone. *)
Definition leaves {A} (m : M HS A) : Prop := forall n d a d', m n d = Some (a, d') -> d'.(m_fifo_size) = d.(m_fifo_size) /\ d'.(m_width) = d.(m_width) /\ d'.(m_height) = d.(m_height).

Lemma leaves_bind {A B} (m : M HS A) (k : A -> M HS B) : leaves m -> (forall a, leaves (k a)) -> leaves (m ≫= k).
Proof.
  intros Hm Hk n d b d'. unfold mbind, M_bind. destruct (m n d) as [[a d1]|] eqn:E; [|done]. intros E2. destruct (Hm _ _ _ _ E) as (? & ? & ?), (Hk _ _ _ _ _ E2) as (? & ? & ?). split_and!; congruence.
Qed.
Lemma leaves_ret {A} (a : A) : leaves (mret a).
Proof. by intros n d a' d' [= <- <-]. Qed.
Lemma leaves_gets {A} (f : dev HS -> A) : leaves (gets f).
Proof. by intros n d a' d' [= <- <-]. Qed.
Lemma leaves_read r : leaves (ReadReg r).
Proof. intros n d a d'. unfold ReadReg. destruct (host_read _ _ r) as [v [h f]]. by intros [= <- <-]. Qed.
Lemma leaves_write r v : leaves (WriteReg r v).
Proof. intros n d a d'. unfold WriteReg. destruct (host_write _ _ r v) as [h f]. by intros [= <- <-]. Qed.
Lemma leaves_setf r v : leaves (setf r v).
Proof. by intros n d a d' [= <- <-]. Qed.
Lemma leaves_when b (m : M HS unit) : leaves m -> leaves (when b m).
Proof. intros Hm. destruct b; [done|apply leaves_ret]. Qed.
Lemma leaves_if {A} (b : bool) (m m' : M HS A) : leaves m -> leaves m' -> leaves (if b then m else m').
Proof. by destruct b. Qed.
Lemma leaves_modify f : (forall d, (f d).(m_fifo_size) = d.(m_fifo_size) /\ (f d).(m_width) = d.(m_width) /\ (f d).(m_height) = d.(m_height)) -> leaves (modify f).
Proof. intros Hf n d a d' [= <- <-]. apply Hf. Qed.

Local Ltac leave := repeat first [apply leaves_ret | apply leaves_gets | apply leaves_read | apply leaves_write | apply leaves_setf | apply leaves_when | apply leaves_if | apply leaves_bind; [|intros ?] | by apply leaves_modify].

Lemma triple_leaves {A} (m : M HS A) (Q : A -> dev HS -> Prop) : leaves m -> (forall a d, measured d -> Q a d) -> triple measured m Q.
Proof. intros Hm HQ n d a d' (H1 & H2 & H3) E. destruct (Hm _ _ _ _ E) as (E1 & E2 & E3). apply HQ. unfold measured, sized. by rewrite E1, E2, E3. Qed.

Context (Hsize : forall h f, size_ok (host_read h f SVGA_REG_MEM_SIZE).1) (Hreg : forall h f r, is_u32 (host_read h f r).1).

Lemma triple_read r P : triple P (ReadReg r) (fun v _ => is_u32 v).
Proof. intros n d a d' _. unfold ReadReg. pose proof (Hreg d.(host) d.(fifo) r). destruct (host_read _ _ r) as [v [h f]]. by intros [= <- <-]. Qed.

Lemma triple_read_keep r (X : Prop) : triple (fun d => sized d /\ X) (ReadReg r) (fun v d => sized d /\ X /\ is_u32 v).
Proof using Hreg.
  intros n d a d' [H1 H2] E. destruct (leaves_read r _ _ _ _ E) as (E1 & _). split; [unfold sized; by rewrite E1|]. split; [done|]. by eapply (triple_read r (fun _ => True)).
Qed.

Lemma triple_fail P (Q : dev HS -> Prop) : triple P SvgaDevice.fail (fun b d => b = true -> Q d).
Proof. intros n d a d' _ [= <- <-]. done. Qed.

Lemma Start_measures provider : triple (fun _ => True) (Start provider) (fun b d => b = true -> measured d).
Proof using Hsize Hreg.
  unfold Start. destruct (has_bar0 provider); cbn [negb]; [|apply triple_fail]. do 3 (eapply triple_bind; [apply triple_any|intros ?]). destruct (_ =? _); cbn [negb]; [|apply triple_fail].
  do 5 (eapply triple_bind; [apply triple_any|intros ?]). destruct (a6 : bool); cbn [negb]; [|apply triple_fail].
  apply (triple_bind _ _ _ (fun v _ => size_ok v)).
  { intros n d a' d' _. unfold ReadReg. pose proof (Hsize d.(host) d.(fifo)) as Hv. destruct (host_read _ _ SVGA_REG_MEM_SIZE) as [v [h f]]. by intros [= <- <-]. }
  intros size. apply (triple_bind _ _ _ (fun _ => sized)); [by intros n d a' d' Hv [= <- <-]|intros _]. destruct (_ && _); cbn [negb]; [|apply triple_fail]. destruct (bar2_address _); cbn [negb]; [|apply triple_fail].
  apply (triple_bind _ _ _ (fun _ d => sized d /\ True)); [by intros n d a' d' Hv [= <- <-]|intros _]. do 10 (eapply triple_bind; [apply triple_read_keep|intros ?]).
  apply (triple_bind _ _ _ (fun _ => measured)).
  { intros n d a' d' Hv [= <- <-]. destruct Hv as (Hs & Hv). split; [exact Hs|]. cbn. tauto. }
  intros _. apply triple_leaves; [|done]. unfold HasCapability. leave.
Qed.
End start_device.

Section starting.
Context {HS : Type} `{SvgaHostOK HS} (base : gmultiset resource) (n : nat).
Implicit Types (s : framebuffer HS).

(** The ring is larger than the largest command, and the fuel larger than the ring. *)
Definition ring_size_ok (size : Z) : Prop := fifo_size_ok size /\ 4 * (SVGA_FIFO_NUM_REGS + 4102) < size <= Z.of_nat n.
(** The registers have 32 bits, and the size of the ring is one of these. *)
Context (Hsize : forall h f, ring_size_ok (host_read h f SVGA_REG_MEM_SIZE).1) (Hreg : forall h f r, is_u32 (host_read h f r).1).

(** Before [start] and after [stop] the service holds nothing. *)
Record fresh s : Prop := {
  fr_ledger : s.(ledger) = base;
  fr_lock : s.(m_iolock) = None;
  fr_restore : s.(m_restore_call) = None;
  fr_refresh : s.(m_refresh_call) = None;
  fr_image : s.(m_cursor_image) = None;
  fr_edid : s.(m_edid) = None;
  fr_modes : length s.(m_modes) = 1%nat;
}.

Record prepared s : Prop := {
  pr_kept : kept base s;
  pr_lock : s.(m_iolock) = None;
  pr_restore : s.(m_restore_call) = None;
  pr_refresh : s.(m_refresh_call) = None;
  pr_image : s.(m_cursor_image) = None;
  pr_modes : length s.(m_modes) = 1%nat;
  pr_accel : s.(m_accel_updates) = false;
}.

Lemma land_round x : 0 <= x < 2 ^ 32 -> Z.land x 0xFFFFFF80 = x / 128 * 128.
Proof.
  intros Hx. change (x / 128 * 128) with (x / 2 ^ 7 * 2 ^ 7). rewrite <-(Z.shiftr_div_pow2 x 7), <-(Z.shiftl_mul_pow2 _ 7) by lia. apply Z.bits_inj'. intros i Hi. rewrite Z.land_spec. change 0xFFFFFF80 with (Z.shiftl (Z.ones 25) 7).
  destruct (Z.lt_ge_cases i 7); [rewrite !Z.shiftl_spec_low by lia; by rewrite andb_false_r|]. rewrite !Z.shiftl_spec, Z.shiftr_spec by lia. replace (i - 7 + 7) with i by lia.
  destruct (Z.lt_ge_cases i 32); [rewrite Z.ones_spec_low by lia; by rewrite andb_true_r|]. rewrite (Z.bits_above_log2 x); [done|lia|].
  destruct (Z.eq_dec x 0) as [->|]; [simpl; lia|]. apply Z.log2_lt_pow2; [lia|]. pose proof (Z.pow_le_mono_r 2 32 i). lia.
Qed.

Lemma start_options_ends b s (Q : unit -> framebuffer HS -> Prop) : (forall s', s'.(ledger) = s.(ledger) -> s'.(m_edid) = s.(m_edid) -> s'.(m_modes) = s.(m_modes) -> Q tt s') -> ends (start_options b) Q n s.
Proof.
  intros HQ. unfold start_options. apply ends_bind, ends_if; intros _; [apply ends_update|];
    (apply ends_bind, ends_look; apply ends_bind, ends_update; apply ends_bind, ends_update; apply ends_bind, ends_look; apply ends_bind, ends_update; apply ends_bind, ends_update; apply ends_bind, ends_look; apply ends_update; by apply HQ).
Qed.

(** What is there after the display has been identified. *)
Record identified s : Prop := {
  id_ledger : s.(ledger) = base ⊎ held s.(m_edid) (Block s.(m_edid_size));
  id_edid e : s.(m_edid) = Some e -> Z.of_nat (length e) = s.(m_edid_size) /\ s.(m_edid_size) mod 128 = 0 /\ 0 < s.(m_edid_size) <= 256;
  id_modes : length s.(m_modes) = 1%nat;
}.

Lemma start_edid_ends b s (Q : unit -> framebuffer HS -> Prop) : s.(ledger) = base -> s.(m_edid) = None -> length s.(m_modes) = 1%nat -> (forall s', identified s' -> Q tt s') -> ends (start_edid b) Q n s.
Proof.
  intros El Ee Em HQ. unfold start_edid. set (bytes := default [] (bt_edid b)). set (k := Z.of_nat (length bytes)). apply ends_if; intros Ec.
  2: { apply HQ. split; [rewrite Ee; cbn; multiset_solver|by rewrite Ee|done]. }
  apply andb_true_iff in Ec as [E0 E1]. apply negb_true_iff, Z.eqb_neq in E0. apply Z.leb_le in E1. rewrite (wrap_small 32) by (split; lia). rewrite land_round by lia.
  set (size := (k + 127) / 128 * 128). assert (k <= size <= 256 /\ size mod 128 = 0) as [Hsz Hmod].
  { unfold size. split; [|apply Z.mod_mul; lia]. pose proof (Z.div_mod (k + 127) 128 ltac:(lia)). pose proof (Z.mod_pos_bound (k + 127) 128 ltac:(lia)). assert ((k + 127) / 128 < 3) by (apply Z.div_lt_upper_bound; lia). lia. }
  apply ends_bind, ends_obtain; apply ends_bind, ends_update; apply ends_update; apply HQ; split; cbn; try done.
  - by rewrite El.
  - intros e [= <-]. rewrite length_app, length_replicate. split; [|split; [done|lia]]. fold k. lia.
  - rewrite El. multiset_solver.
Qed.

Lemma reset_prepared b s : identified s -> prepared (set_m_restore_call None (set_m_iolock None (set_m_cursor_image None (set_m_refresh_call None
    (set_m_intr_enabled false (set_m_accel_updates false (set_m_vram b.(bt_vram) s))))))).
Proof.
  intros [I1 I2 I3]. split; try done. split; cbn; [|done|done]. rewrite I1. change (base ⊎ held (m_edid s) (Block (m_edid_size s)) = base ⊎ (∅ ⊎ ∅ ⊎ ∅ ⊎ ∅ ⊎ held (m_edid s) (Block (m_edid_size s)))). by rewrite !(left_id_L ∅ (⊎)).
Qed.

(** The table of modes has one entry, which is offered if it fits. *)
Lemma start_modes_ends s (Q : unit -> framebuffer HS -> Prop) : length s.(m_modes) = 1%nat ->
  (forall modes k, length modes = 1%nat -> 0 <= k <= 1 -> Forall (fun i => i = CUSTOM_MODE_ID) (take (Z.to_nat k) modes) ->
     Q tt (set_m_num_active_modes k (set_m_modes modes (set_customMode (mk_DisplayModeEntry 1366 768 5) s)))) -> ends start_modes Q n s.
Proof.
  intros Em HQ. unfold start_modes. apply ends_bind, ends_update, ends_bind, ends_look, ends_bind, ends_update. cbn [collect_modes modeList]. apply ends_bind.
  destruct (m_modes s) as [|x [|]] eqn:E; try done. apply ends_if; intros _.
  - apply ends_update, ends_ret. cbn. rewrite E. cbn. apply (HQ [1] 1); [done|done|by repeat constructor].
  - apply ends_ret. specialize (HQ [x] 0 eq_refl ltac:(lia) ltac:(constructor)). rewrite <-E in HQ. by destruct s.
Qed.

(** The device object when the FIFO is up. *)
Record ready (d : dev HS) : Prop := {
  rd_idle : idle d;
  rd_cursor : d.(m_cursor_ptr) = None;
  rd_mode : is_u32 d.(m_width) /\ is_u32 d.(m_height);
  rd_size : rsize d.(fifo) = (d.(m_fifo_size) - 4 * SVGA_FIFO_NUM_REGS) / 4;
  rd_fifo : ring_size_ok d.(m_fifo_size);
}.

Lemma ready_steady d d' : ready d -> steady d d' -> ready d'.
Proof. intros [? ? ? E ?] [? Es Er]. unfold dev_rest in Er. injection Er as E1 E2 E3 E4 E5 E6 E7 E8. split; [done|congruence|by rewrite E7, E8|by rewrite Es, E4|by rewrite E4]. Qed.

Lemma ready_room d : ready d -> 4102 < rsize d.(fifo) <= Z.of_nat n.
Proof. intros [_ _ _ -> [[Hs Ha] Hr]]. unfold aligned in Ha. change (4 * SVGA_FIFO_NUM_REGS) with 1164 in *. change (4 * (SVGA_FIFO_NUM_REGS + 4102)) with 17572 in Hr. Z.to_euclidean_division_equations. lia. Qed.

Lemma Start_ready_device provider d : exists b d', Start provider n d = Some (b, d') /\ (b = true -> ready d').
Proof using Hsize Hreg H0.
  destruct (Start_total provider n d) as (b & d' & E & Hp); [intros h f; apply Hsize|]. exists b, d'. split; [done|]. intros ->. destruct Hp as (Hi & _ & _ & _ & _ & Hc & Emin & Emax).
  destruct (Start_measures ring_size_ok Hsize Hreg provider n d true d' I E eq_refl) as (Hs & Hw & Hh). split; try done. unfold rsize. by rewrite Emin, Emax.
Qed.

Lemma FIFOInit_ready d : ready d -> exists b d', FIFOInit n d = Some (b, d') /\ (b = true -> ready d').
Proof.
  intros [Hi Hc [Hw Hh] Hs [Hf1 Hf2]]. destruct (FIFOInit_spec n d Hf1) as (b & d' & E & Hp). exists b, d'. split; [done|]. intros ->. destruct (Hp eq_refl) as (Hi' & _ & _ & Emin & Emax & _ & Er).
  unfold dev_rest in Er. injection Er as E1 E2 E3 E4 E5 E6 E7 E8. split; [done|congruence|by rewrite E7, E8| |by rewrite E4]. unfold rsize. by rewrite Emin, Emax, E4.
Qed.

Local Ltac held_tac K E := destruct K as [K1 K2 K3]; split; cbn -[held]; [|done..]; rewrite K1; unfold resources; cbn -[held]; rewrite E; cbn [held];
  rewrite ?gmultiset_disj_union_left_id, ?gmultiset_disj_union_right_id; clear; repeat match goal with |- context [held ?a ?b] => let x := fresh in set (x := held a b); clearbody x end; multiset_solver.

Lemma take_restore s c g : kept base s -> s.(m_restore_call) = None -> kept base (set_m_restore_call (Some c) (set_ledger (s.(ledger) ⊎ {[+ RestoreCall +]}) (set_grants g s))).
Proof. intros K E. held_tac K E. Qed.
Lemma take_refresh s c g : kept base s -> s.(m_refresh_call) = None -> kept base (set_m_refresh_call (Some c) (set_ledger (s.(ledger) ⊎ {[+ RefreshCall +]}) (set_grants g s))).
Proof. intros K E. held_tac K E. Qed.
Lemma take_lock s c g : kept base s -> s.(m_iolock) = None -> kept base (set_m_iolock (Some c) (set_ledger (s.(ledger) ⊎ {[+ Lock +]}) (set_grants g s))).
Proof. intros K E. held_tac K E. Qed.
Lemma kept_same s s' : kept base s -> s'.(ledger) = s.(ledger) -> resources s' = resources s -> s'.(m_cursor_image) = s.(m_cursor_image) -> s'.(m_edid) = s.(m_edid) -> s'.(m_edid_size) = s.(m_edid_size) -> kept base s'.
Proof. intros [K1 K2 K3] E1 E2 E3 E4 E5. split; [congruence|by rewrite E3|by rewrite E4, E5]. Qed.

(** The state when the modes are known: the rest of [good] but for the lock. *)
Record half s : Prop := {
  hf_kept : kept base s;
  hf_lock : s.(m_iolock) = None;
  hf_restore : is_Some s.(m_restore_call);
  hf_device : ready s.(svga);
  hf_custom : s.(customMode) = mk_DisplayModeEntry 1366 768 5;
  hf_modes : length s.(m_modes) = 1%nat /\ 0 <= s.(m_num_active_modes) <= 1 /\ Forall (fun i => i = CUSTOM_MODE_ID) (take (Z.to_nat s.(m_num_active_modes)) s.(m_modes));
  hf_switched : s.(m_custom_mode_switched) = false;
  hf_switch : s.(m_custom_switch) = 0;
  hf_accel : s.(m_accel_updates) = false;
  hf_timer c : s.(m_refresh_call) = Some c -> option_set CE1_OPTION_FB_FIFO_INIT s = true;
}.

Lemma start_fifo_ends s : half s -> s.(m_refresh_call) = None -> ends start_fifo (fun r s' => kept base s' /\ (r = true -> half s')) n s.
Proof.
  intros Hs Et. pose proof Hs as [K ? ? Hd ? ? ? ? ? ?]. unfold start_fifo. apply ends_bind, ends_look. destruct (option_set _ s) eqn:Eo; cbn [negb]; [|by apply ends_ret]. apply ends_bind.
  destruct (FIFOInit_ready _ Hd) as (b & d' & E & Hb). eapply ends_device; [exact E|]. destruct b; cbn [negb]; [|apply ends_ret; split; [by apply kept_svga|done]]. specialize (Hb eq_refl).
  apply ends_bind, ends_capability. apply ends_bind, ends_look, ends_bind. apply ends_if; intros _.
  - unfold setupRefreshTimer. apply ends_bind, ends_obtain; apply ends_update, ends_ret.
    + assert (kept base (set_m_refresh_call (Some (mk_thread_call None)) (set_ledger (ledger (set_svga d' s) ⊎ {[+ RefreshCall +]}) (set_grants (tail (grants (set_svga d' s))) (set_svga d' s))))) as K' by (apply take_refresh; [by apply kept_svga|done]).
      split; [exact K'|]. intros _. by split.
    + assert (kept base (set_m_refresh_call None (set_grants (tail (grants (set_svga d' s))) (set_svga d' s)))) as K' by (apply (kept_same s); try done; unfold resources; cbn; by rewrite Et).
      split; [exact K'|]. intros _. by split.
  - apply ends_ret. split; [by apply kept_svga|]. intros _. split; try done. by apply kept_svga.
Qed.

(** A service that has started: it is as every method keeps it, no custom mode is set, and its
    display mode is 3, which is not the number of a mode. *)
Definition started s : Prop := exists R, fine base R n s /\ s.(m_custom_switch) = 0 /\ s.(customMode) = mk_DisplayModeEntry 1366 768 5 /\ s.(m_display_mode) = 3.

Lemma half_good s g : half s -> let s1 := set_m_iolock (Some false) (set_ledger (s.(ledger) ⊎ {[+ Lock +]}) (set_grants g s)) in good base (rsize s.(svga).(fifo)) n false s1.
Proof.
  intros [K Hl Hr Hd Hc Hm Hsw Hs0 Ha Ht] s1. assert (kept base s1) as K1 by (by apply take_lock). pose proof (ready_room _ Hd). destruct Hd as [Hi Hcu Hmo _ _]. split; try done; [|lia|]; cbn; [lia|by rewrite Hc].
Qed.

Lemma TryDetect_ends (Q : Z -> framebuffer HS -> Prop) x s : Q x s -> x <> 0 -> ends (TryDetectCurrentDisplayMode x) Q n s.
Proof. intros HQ Hx. unfold TryDetectCurrentDisplayMode. by apply ends_bind, ends_look, ends_ret. Qed.

Lemma start_device_ends b s : prepared s -> ends (start_device b) (fun r s' => kept base s' /\ (r = true -> started s')) n s.
Proof using Hsize Hreg H0.
  intros [K El Er Et Ei Em Ea]. unfold start_device. apply ends_bind. eapply ends_device; [done|]. set (d0 := set_capabilities 0 _). apply ends_bind.
  destruct (Start_ready_device (bt_pci b) d0) as (r & d1 & E1 & R1). eapply ends_device; [exact E1|]. destruct r; cbn [negb]; [|apply ends_ret; split; [by do 2 apply kept_svga|done]]. specialize (R1 eq_refl).
  apply ends_bind, ends_look, ends_bind. set (s1 := set_svga d1 (set_svga d0 s)).
  assert (exists d2, ends (if_ (option_set CE1_OPTION_FB_REG_DUMP s1) (device RegDump;; mret tt)) (fun _ s' => s' = set_svga d2 s) n s1 /\ ready d2) as (d2 & E2 & R2).
  { destruct (option_set _ s1); cbn [if_].
    - destruct (RegDump_steady n d1 (rd_idle _ R1)) as (vs & d2 & E2 & S2 & _). exists d2. split; [|by eapply ready_steady]. apply ends_bind. eapply ends_device; [exact E2|]. by apply ends_ret.
    - exists d1. split; [by apply ends_ret|done]. }
  eapply ends_mono; [exact E2|]. intros _ ? ->. clear E1 E2 R1 s1 d0 d1. assert (kept base (set_svga d2 s)) as K2 by by apply kept_svga.
  apply ends_bind, start_modes_ends; [done|]. intros modes k Hm Hk Hf. set (s2 := set_m_num_active_modes k _). assert (kept base s2) as K3 by (by destruct K2).
  apply ends_bind, ends_obtain; cbn [negb]; [|apply ends_ret; split; [by destruct K3|done]]. apply ends_bind, ends_update.
  set (s3 := set_m_restore_call _ _). assert (kept base s3) as K4 by (by apply take_restore). do 2 apply ends_bind, ends_update. set (s4 := set_m_custom_mode_switched _ _).
  assert (half s4) as Hs4 by (split; [by destruct K4|done|by eexists|done|done|done|done|done|done|cbn; by rewrite Et]).
  apply ends_bind. eapply ends_mono; [by apply start_fifo_ends|]. intros r s5 [K5 Hs5]. destruct r; cbn [negb]; [|by apply ends_ret]. specialize (Hs5 eq_refl).
  apply ends_bind, ends_obtain; cbn [negb]; [|apply ends_ret; split; [by destruct K5|done]]. apply ends_bind, ends_update. set (s6 := set_m_iolock _ _).
  pose proof (half_good s5 (tail (grants s5)) Hs5) as G6. cbn zeta in G6. fold s6 in G6.
  apply ends_bind, TryDetect_ends; [|done]. do 2 apply ends_bind, ends_update. apply ends_bind. set (s7 := set_m_depth_mode 0 _).
  assert (good base (rsize s5.(svga).(fifo)) n false s7) as G7 by (by apply quiet_depth_mode, quiet_display_mode).
  eapply ends_schedule; [exact G7|]. intros s8 G8 T8. apply ends_ret. split; [apply G8|]. intros _. exists (rsize s5.(svga).(fifo)).
  pose proof (timed_modes _ _ _ T8) as ((M1 & M2 & M3 & _) & A8 & _). split; [split; [exact G8|]|split; [|split; [|exact M1]]].
  - intros c Ec. rewrite A8, (timed_due _ _ _ c T8 Ec). cbn. by rewrite (hf_accel _ Hs5).
  - rewrite M2. apply (hf_switch _ Hs5).
  - rewrite M3. apply (hf_custom _ Hs5).
Qed.

Lemma start_ends b s : fresh s -> ends (start b) (fun r s' => if r then started s' else s' = s \/ given_back base s') n s.
Proof using Hsize Hreg H0.
  intros [F1 F2 F3 F4 F5 F6 F7]. unfold start. destruct (bt_is_pci b); cbn [negb]; [|apply ends_ret; by left]. destruct (bt_super_start b); cbn [negb]; [|apply ends_ret; by left].
  apply ends_bind, start_options_ends. intros s1 E1 E2 E3. apply ends_bind, start_edid_ends; [congruence|congruence|by rewrite E3|]. intros s2 I2. apply ends_bind, ends_update.
  pose proof (reset_prepared b _ I2) as P2. apply ends_bind. eapply ends_mono; [by apply start_device_ends|]. intros r s3 [K3 Hr]. destruct r; [by apply ends_ret, Hr|].
  apply ends_bind. eapply ends_mono; [by apply Cleanup_gives_back|]. intros [] s4 G4. apply ends_ret. by right.
Qed.
End starting.

(** ** The running service *)

(** Requests of the framework, the window server and the accelerator. *)
Inductive fb_op :=
  | SetCursorState (x y : Z) (visible : bool)
  | SetCursorImage (converted : option cursor_info)
  | SetDisplayMode (displayMode depth : Z)
  | SetAttribute (super : IOReturn) (attribute value : Z)
  | GetAttributeForConnection (super : IOReturn * option Z) (attribute : Z) (value : bool)
  | SetInterruptState (is_intr : bool) (state : Z)
  | UnregisterInterrupt (is_intr : bool)
  | RegisterForInterruptType (super : IOReturn) (interruptType proc target ref : Z)
  | GetDDCBlock (super : IOReturn * list Z) (connectIndex blockNumber blockType : Z) (length : option Z)
  | GetDisplayModes (allDisplayModes : bool)
  | GetApertureRange (aperture : Z)
  | UseAccelUpdates (state : bool).

Section running.
Context {HS : Type} `{SvgaHostOK HS} (version_major : Z).
Implicit Types (s : framebuffer HS).

Definition exec_fb (op : fb_op) : F HS IOReturn :=
  match op with
  | SetCursorState x y v => setCursorState x y v
  | SetCursorImage c => setCursorImage c
  | SetDisplayMode m d => setDisplayMode m d
  | SetAttribute r a v => setAttribute version_major r a v
  | GetAttributeForConnection r a v => x ← getAttributeForConnection r a v; mret x.1
  | SetInterruptState b x => setInterruptState b x
  | UnregisterInterrupt b => unregisterInterrupt b
  | RegisterForInterruptType r t p o f => x ← registerForInterruptType r t p o f; mret x.1
  | GetDDCBlock r i b t l => x ← getDDCBlock r i b t l; mret x.1
  | GetDisplayModes b => x ← getDisplayModes b; mret x.1
  | GetApertureRange a => _ ← getApertureRange a; mret kIOReturnSuccess
  | UseAccelUpdates b => useAccelUpdates b;; mret kIOReturnSuccess
  end.

(** What the framework and the accelerator keep to: converted cursors are as asked for, block
    numbers are such that their offset has 32 bits, and the accelerator, which does not start
    without the FIFO, is there. *)
Definition fb_may (op : fb_op) s : Prop :=
  match op with
  | SetCursorImage (Some c) => cursor_ok c
  | GetDDCBlock _ _ b _ _ => 0 <= b < 2 ^ 25
  | UseAccelUpdates _ => option_set CE1_OPTION_FB_FIFO_INIT s = true
  | _ => True
  end.

Context (base : gmultiset resource) (n : nat).

Lemma exec_fb_fine R op s : fine base R n s -> fb_may op s -> ends (exec_fb op) (fun _ s' => fine base R n s') n s.
Proof.
  intros Hs Hm. assert (forall A (m : F HS A) (f : A -> IOReturn), ends m (fun _ s' => fine base R n s') n s -> ends (x ← m; mret (f x)) (fun _ s' => fine base R n s') n s) as Hret.
  { intros A m f Hx. apply ends_bind. eapply ends_mono; [exact Hx|]. intros a s' Hs'. by apply ends_ret. }
  destruct op as [x y v|[c|]|m d|r a v|r a v|b x|b|r t p o f|r i b t l|b|a|b]; cbn [exec_fb fb_may] in *.
  - eapply ends_mono; [by apply setCursorState_fine|]. by intros ? ? [? _].
  - eapply ends_mono; [by apply setCursorImage_fine|]. by intros ? ? [? _].
  - eapply ends_mono; [by apply setCursorImage_refused|]. by intros ? ? [? _].
  - eapply ends_mono; [by apply setDisplayMode_fine|]. by intros ? ? [? _].
  - by apply setAttribute_fine.
  - apply Hret. eapply ends_mono; [by apply getAttributeForConnection_fine|]. by intros ? ? [? _].
  - eapply ends_mono; [by apply setInterruptState_fine|]. by intros ? ? [? _].
  - by apply unregisterInterrupt_fine.
  - by apply Hret, registerForInterruptType_fine.
  - apply Hret. eapply ends_mono; [by eapply getDDCBlock_fine|]. by intros ? ? ->.
  - apply Hret. eapply ends_mono; [by eapply getDisplayModes_fine|]. by intros ? ? [-> _].
  - apply (Hret _ (getApertureRange a) (fun _ => kIOReturnSuccess)). eapply ends_mono; [by eapply getApertureRange_fine|]. by intros ? ? ->.
  - apply (Hret _ (useAccelUpdates b) (fun _ => kIOReturnSuccess)). eapply ends_mono; [by apply useAccelUpdates_fine|]. by intros ? ? [? _].
Qed.

(** What other users of the device object leave behind when they give the lock back. *)
Record others (d d' : dev HS) : Prop := {
  ot_idle : idle d';
  ot_size : rsize d'.(fifo) = rsize d.(fifo);
  ot_cursor : d'.(m_cursor_ptr) = d.(m_cursor_ptr);
  ot_mode : d'.(m_width) = d.(m_width) /\ d'.(m_height) = d.(m_height);
}.

Lemma fine_others R s d' : fine base R n s -> others s.(svga) d' -> fine base R n (set_svga d' s).
Proof.
  intros [[K ? ? ? ? ? [? ?] ? ? ? ? ? ?] T] [O1 O2 O3 [O4 O5]]. split; [|exact T]. split; cbn; try done; [by apply kept_svga|congruence|congruence|by rewrite O4, O5].
Qed.

Context (b : boot) (s0 : framebuffer HS).

(** The states of the service with the calls of [CustomMode] and of the restore call that have been
    made, in the order of their start. *)
Inductive fb_run : framebuffer HS -> list thread -> Prop :=
  | run_start s : start b n s0 = Some (true, s) -> fb_run s []
  | run_request s ts op r s' : fb_run s ts -> fb_may op s -> exec_fb op n s = Some (r, s') -> fb_run s' ts
  | run_call s ts i o isz osz t s' : fb_run s ts -> data_ok i -> CustomMode version_major i o isz osz n s = Some (t, s') -> fb_run s' (ts ++ [t])
  | run_resume s ts j c k t s' : fb_run s ts -> ts !! j = Some (Waiting c k) -> holds c s = true -> k n s = Some (t, s') -> fb_run s' (<[j := t]> ts)
  | run_refresh s ts due r s' : fb_run s ts -> s.(m_refresh_call) = Some (mk_thread_call (Some due)) ->
      refreshTimerAction n (set_m_refresh_call (Some (mk_thread_call None)) s) = Some (r, s') -> fb_run s' ts
  | run_restore s ts due t s' : fb_run s ts -> s.(m_restore_call) = Some (mk_thread_call (Some due)) ->
      RestoreAllModes n (set_m_restore_call (Some (mk_thread_call None)) s) = Some (t, s') -> fb_run s' (ts ++ [t])
  | run_others s ts d' : fb_run s ts -> others s.(svga) d' -> fb_run (set_svga d' s) ts.

Context (Hsize : forall h f, ring_size_ok n (host_read h f SVGA_REG_MEM_SIZE).1) (Hreg : forall h f r, is_u32 (host_read h f r).1) (Hfresh : fresh base s0).

(** The timer goes off. *)
Lemma refresh_due R s due : fine base R n s -> s.(m_refresh_call) = Some (mk_thread_call (Some due)) ->
  ends refreshTimerAction (fun _ s' => fine base R n s') n (set_m_refresh_call (Some (mk_thread_call None)) s).
Proof.
  intros [G T] Ec. pose proof (proj1 (T _ Ec) ltac:(by eexists)) as Ea. eapply ends_mono; [eapply refreshTimerAction_fine; [by eapply good_refresh|done]|].
  intros _ s' (G' & _ & T' & _). split; [exact G'|by apply T'].
Qed.

Lemma restore_due R s due : fine base R n s -> s.(m_restore_call) = Some (mk_thread_call (Some due)) ->
  ends RestoreAllModes (fun t s' => fine base R n s' /\ t = Finished kIOReturnSuccess None /\ s' = set_m_restore_call (Some (mk_thread_call None)) s) n (set_m_restore_call (Some (mk_thread_call None)) s).
Proof.
  intros [G T] Ec. assert (fine base R n (set_m_restore_call (Some (mk_thread_call None)) s)) as Hs by (split; [by apply good_restore|exact T]).
  eapply ends_mono; [by eapply RestoreAllModes_fine|]. intros t s' [-> ->]. done.
Qed.

Lemma ends_inv {A} (m : F HS A) (Q : A -> framebuffer HS -> Prop) s a s' : ends m Q n s -> m n s = Some (a, s') -> Q a s'.
Proof. intros (a' & s'' & E & HQ) E'. rewrite E in E'. by injection E' as <- <-. Qed.

Lemma run_fine : exists R, forall s ts, fb_run s ts -> fine base R n s /\ Forall (thread_ok base R n) ts.
Proof using Hsize Hreg Hfresh H0.
  destruct (start_ends base n Hsize Hreg b s0 Hfresh) as (r & s1 & E1 & Hr). destruct r as [|].
  2: { exists 0. intros s ts Hrun. exfalso. induction Hrun; [congruence|done..]. }
  destruct Hr as (R & Hf & _). exists R. intros s ts Hrun. induction Hrun as [s E|s ts op r s' _ [Hs Ht] Hm E|s ts i o isz osz t s' _ [Hs Ht] Hd E|s ts j c k t s' _ [Hs Ht] Hj Hc E|s ts due r s' _ [Hs Ht] Hd E|s ts due t s' _ [Hs Ht] Hd E|s ts d' _ [Hs Ht] Ho].
  - rewrite E1 in E. injection E as <-. by split.
  - split; [|done]. exact (ends_inv _ _ _ _ _ (exec_fb_fine R op s Hs Hm) E).
  - destruct (ends_inv _ _ _ _ _ (CustomMode_goes_on base R n version_major i o isz osz s Hs Hd) E) as [Hs' Ht']. split; [done|]. apply Forall_app. by split; [|constructor].
  - pose proof (Forall_lookup_1 _ _ _ _ Ht Hj) as Hk. inversion Hk as [|? ? Hk']; subst. destruct (Hk' s Hs Hc) as (t' & s'' & E' & Hs' & Ht'). rewrite E in E'. injection E' as <- <-.
    split; [done|]. by apply Forall_insert.
  - split; [|done]. exact (ends_inv _ _ _ _ _ (refresh_due R s due Hs Hd) E).
  - destruct (ends_inv _ _ _ _ _ (restore_due R s due Hs Hd) E) as (Hs' & -> & _). split; [done|]. apply Forall_app. split; [done|]. repeat constructor.
  - split; [by apply fine_others|done].
Qed.

(** ** Theorems *)

(** C22: start is all or nothing.  [start] always returns.  If it succeeds, the device is idle, the lock
    is free and everything that the kernel has given out is accounted for; if it fails at any point,
    everything has been given back and the device object is reset, or nothing has been touched. *)
Theorem framebuffer_start : exists r s, start b n s0 = Some (r, s) /\
  if (r : bool) then idle s.(svga) /\ s.(m_iolock) = Some false /\ s.(ledger) = base ⊎ resources s else s = s0 \/ given_back base s.
Proof using Hsize Hreg Hfresh H0.
  destruct (start_ends base n Hsize Hreg b s0 Hfresh) as (r & s & E & Hr). exists r, s. split; [done|]. destruct r; [|done]. destruct Hr as (R & [G _] & _). split; [apply G|]. split; [apply G|]. apply G.
Qed.

(** C19: the frame buffer service is safe.  In every state that requests, the timer, the restore call,
    the threads of user clients and other users of the device lead to, in any order: the lock is
    free and the device idle, and every request that is allowed, every call that is due, and every
    waiting thread whose condition holds returns or waits again: it uses no null pointer, takes no
    lock that is held, stays in its buffers, and its loops end. *)
Theorem framebuffer_safe s ts : fb_run s ts ->
  s.(m_iolock) = Some false /\ idle s.(svga) /\
  (forall op, fb_may op s -> exists r s', exec_fb op n s = Some (r, s')) /\
  (forall i o isz osz, data_ok i -> exists t s', CustomMode version_major i o isz osz n s = Some (t, s')) /\
  (forall j c k, ts !! j = Some (Waiting c k) -> holds c s = true -> exists t s', k n s = Some (t, s')) /\
  (forall due, s.(m_refresh_call) = Some (mk_thread_call (Some due)) -> exists s', refreshTimerAction n (set_m_refresh_call (Some (mk_thread_call None)) s) = Some (tt, s')) /\
  (forall due, s.(m_restore_call) = Some (mk_thread_call (Some due)) -> exists t s', RestoreAllModes n (set_m_restore_call (Some (mk_thread_call None)) s) = Some (t, s')).
Proof using Hsize Hreg Hfresh H0.
  intros Hrun. destruct run_fine as [R Hfine]. destruct (Hfine s ts Hrun) as [Hs Ht]. split; [apply Hs|]. split; [apply Hs|]. split_and!.
  - intros op Hm. destruct (exec_fb_fine R op s Hs Hm) as (r & s' & E & _). eauto.
  - intros i o isz osz Hd. destruct (CustomMode_goes_on base R n version_major i o isz osz s Hs Hd) as (t & s' & E & _). eauto.
  - intros j c k Hj Hc. pose proof (Forall_lookup_1 _ _ _ _ Ht Hj) as Hk. inversion Hk as [|? ? Hk']; subst. destruct (Hk' s Hs Hc) as (t' & s'' & E' & _). eauto.
  - intros due Hd. destruct (refresh_due R s due Hs Hd) as ([] & s' & E & _). eauto.
  - intros due Hd. destruct (restore_due R s due Hs Hd) as (t & s' & E & _). eauto.
Qed.

(** C20: what the service keeps track of.  In every state that the service gets into: what the kernel has
    given out is what the fields hold; if there is a refresh timer, it is pending exactly if the
    accelerator does not update the screen; and every mode that is reported has a description and
    can be set. *)
Theorem framebuffer_accounts s ts : fb_run s ts ->
  s.(ledger) = base ⊎ resources s /\
  (forall c, s.(m_refresh_call) = Some c -> is_Some c.(tc_due) <-> s.(m_accel_updates) = false) /\
  (exists ids, getDisplayModes true n s = Some ((kIOReturnSuccess, ids), s) /\
     Forall (fun i => (exists info, getInformationForDisplayMode i true n s = Some ((kIOReturnSuccess, Some info), s)) /\ exists s', setDisplayMode i 0 n s = Some (kIOReturnSuccess, s')) ids).
Proof using Hsize Hreg Hfresh H0.
  intros Hrun. destruct run_fine as [R Hfine]. destruct (Hfine s ts Hrun) as [Hs _]. split; [apply Hs|]. split; [apply Hs|].
  destruct (getDisplayModes_fine base R n true s Hs) as ([rc ids] & s' & E & -> & Hids). exists ids. split.
  - rewrite E. do 2 f_equal. revert E. clear. unfold getDisplayModes, mbind, F_bind, look, wild. cbn [negb]. destruct (negb (_ =? 0)); [by intros [= <- <-]|]. destruct (_ <? _); [done|]. by intros [= <- <-].
  - eapply Forall_impl; [exact Hids|]. cbn. intros i [e He]. split.
    + eexists. unfold getInformationForDisplayMode, GetDisplayMode, mbind, F_bind, look. cbn [negb]. by rewrite He.
    + destruct (setDisplayMode_fine base R n i 0 s Hs) as (r & s' & E' & _ & Hm & _). rewrite He in Hm. destruct (Hm eq_refl) as (-> & _). eauto.
Qed.

(** C23: stopping gives back everything: in every state that the service gets into, [stop] returns, and the memory, the
    lock and the calls of the service have been given back, and the device object is reset. *)
Theorem framebuffer_stop s ts : fb_run s ts -> exists s', stop n s = Some (tt, s') /\ given_back base s'.
Proof using Hsize Hreg Hfresh H0.
  intros Hrun. destruct run_fine as [R Hfine]. destruct (Hfine s ts Hrun) as [[G _] _]. destruct (Cleanup_gives_back base n s (gd_kept _ _ _ _ _ G)) as ([] & s' & E & Hg). eauto.
Qed.

(** C24: the image of the cursor.  In every state that the service gets into, [setCursorImage] of a converted
    cursor returns; it succeeds if there is a FIFO, the cursor is not empty and there is memory; and
    then the words added to the queue of the device are those of one command that defines a cursor
    of this size and hot spot with the pixels multiplied by their alpha.  The field [id] of the command
    is 1, as SVGADevice.cpp stores it, although svga_reg.h says that it is reserved and must be zero. *)
Theorem cursor_image_queued s ts c : fb_run s ts -> cursor_ok c -> exists r s', setCursorImage (Some c) n s = Some (r, s') /\
  (option_set CE1_OPTION_FB_FIFO_INIT s = true -> 0 < c.(cu_width) * c.(cu_height) -> s.(m_cursor_image) <> None \/ hd true s.(grants) = true -> r = kIOReturnSuccess) /\
  (r = kIOReturnSuccess -> exists consumed, consumed ++ queue s'.(svga).(fifo) = queue s.(svga).(fifo) ++
     encode_cmd (CmdDefineAlphaCursor (mk_SVGAFifoCmdDefineAlphaCursor 1 c.(cu_hotspot_x) c.(cu_hotspot_y) c.(cu_width) c.(cu_height)) (premultiply <$> c.(cu_pixels)))).
Proof using Hsize Hreg Hfresh H0.
  intros Hrun Hc. destruct run_fine as [R Hfine]. destruct (Hfine s ts Hrun) as [Hs _]. destruct (setCursorImage_fine base R n c s Hs Hc) as (r & s' & E & _ & _ & H1 & H2).
  exists r, s'. split; [done|]. split; [done|]. intros Hr. by destruct (H2 Hr) as (_ & _ & ?).
Qed.

Lemma CustomMode_waits R s i isz osz : fine base R n s -> 13 <= version_major -> s.(m_display_mode) = CUSTOM_MODE_ID -> holds InterruptRegistered s = true -> has_bits i.(cm_flags) 1 = true ->
  sizeof_CustomModeData <= isz -> sizeof_CustomModeData <= osz ->
  let s1 := set_m_custom_switch 1 (set_customMode (mk_DisplayModeEntry i.(cm_width) i.(cm_height) s.(customMode).(dm_flags)) s) in
  CustomMode version_major (Some i) true isz (Some osz) n s =
    Some (Waiting (SwitchIs 0) (answer_mode i.(cm_flags)), if s.(m_intr_enabled) then set_connect_events (s.(connect_events) ++ [(s.(m_intr).(i_target), s.(m_intr).(i_ref))]) s1 else s1).
Proof.
  intros [G _] Hv Hd Hi Hb H1 H2 s1. destruct (gd_restore _ _ _ _ _ G) as [c Ec]. unfold CustomMode. unfold mbind at 1, F_bind at 1, look at 1. rewrite Ec. cbn beta iota. rewrite (proj2 (Z.ltb_ge _ _)) by done. cbn [negb].
  rewrite (proj2 (Z.ltb_ge _ _)) by done. unfold mbind at 1, F_bind at 1, look at 1. rewrite Hd. unfold GetDisplayMode, mbind at 1, F_bind at 1, look at 1. rewrite mode_of_custom. change (CUSTOM_MODE_ID =? CUSTOM_MODE_ID) with true.
  cbn beta iota. rewrite Hb. rewrite (proj2 (Z.leb_le 13 version_major)) by done. unfold mbind at 1, F_bind at 1, update at 1. unfold mbind at 1, F_bind at 1, CustomSwitchStepSet, update at 1. fold s1.
  unfold EmitConnectChangedEvent, await at 1, mbind at 1, F_bind at 1, look at 1. change (holds InterruptRegistered s1) with (holds InterruptRegistered s). rewrite Hi. cbn beta iota.
  unfold mbind at 1, F_bind at 1, look at 1. change (m_intr_enabled s1) with (m_intr_enabled s). unfold mbind at 1, F_bind at 1. by destruct (m_intr_enabled s).
Qed.

(** C21: a custom mode is set.  In a state that the service gets into, under a system whose major
    version is at least 13, with the custom mode already the current one (right after [start] it is
    not, and the request is refused, see [start_mode_unknown]) and with a handler for connection
    changes registered: a user client whose request has the flag that sets the mode and buffers that
    are large enough waits, the window server is notified if the interrupt is enabled, and the custom mode is the
    only one that is reported; when the window server then sets the mode and releases the display,
    the device is in the mode that was asked for, with all commands before it done, and the client
    goes on and is told its size. *)
Theorem custom_mode_handshake s ts i isz osz : fb_run s ts -> 13 <= version_major -> s.(m_display_mode) = CUSTOM_MODE_ID -> holds InterruptRegistered s = true ->
  has_bits i.(cm_flags) 1 = true -> data_ok (Some i) -> sizeof_CustomModeData <= isz -> sizeof_CustomModeData <= osz ->
  exists k s1 s2 s3, CustomMode version_major (Some i) true isz (Some osz) n s = Some (Waiting (SwitchIs 0) k, s1) /\
    (s.(m_intr_enabled) = true -> s1.(connect_events) = s.(connect_events) ++ [(s.(m_intr).(i_target), s.(m_intr).(i_ref))]) /\
    getDisplayModes true n s1 = Some ((kIOReturnSuccess, [CUSTOM_MODE_ID]), s1) /\
    setDisplayMode CUSTOM_MODE_ID 0 n s1 = Some (kIOReturnSuccess, s2) /\
    s2.(svga).(m_width) = i.(cm_width) /\ s2.(svga).(m_height) = i.(cm_height) /\ queue s2.(svga).(fifo) = [] /\
    (forall r, setAttribute version_major r kIOCapturedAttribute 0 n s2 = Some (r, s3)) /\ holds (SwitchIs 0) s3 = true /\
    k n s3 = Some (Finished kIOReturnSuccess (Some (mk_CustomModeData i.(cm_flags) i.(cm_width) i.(cm_height))), s3).
Proof using Hsize Hreg Hfresh H0.
  intros Hrun Hv Hd Hi Hb Hdata H1 H2. destruct run_fine as [R Hfine]. destruct (Hfine s ts Hrun) as [Hs _]. pose proof (CustomMode_waits R s i isz osz Hs Hv Hd Hi Hb H1 H2) as Ew. cbn zeta in Ew.
  destruct (ends_inv _ _ _ _ _ (CustomMode_goes_on base R n version_major (Some i) true isz (Some osz) s Hs Hdata) Ew) as [Hs1 _].
  set (s1 := if m_intr_enabled s then _ else _) in *. assert (s1.(m_custom_switch) = 1 /\ s1.(customMode) = mk_DisplayModeEntry i.(cm_width) i.(cm_height) s.(customMode).(dm_flags) /\
    (m_intr_enabled s = true -> connect_events s1 = connect_events s ++ [(i_target (m_intr s), i_ref (m_intr s))])) as (Esw & Ecu & Eev) by (unfold s1; by destruct (m_intr_enabled s)).
  destruct (setDisplayMode_fine base R n CUSTOM_MODE_ID 0 s1 Hs1) as (r & s2 & E2 & Hs2 & Hm & _ & Esw2 & Ecu2 & _). rewrite mode_of_custom in Hm. change (CUSTOM_MODE_ID =? CUSTOM_MODE_ID) with true in Hm. cbn beta iota in Hm.
  destruct (Hm eq_refl) as (-> & Ed2 & Ew2 & Eh2 & Eq2). rewrite Ecu in Ew2, Eh2, Ecu2. rewrite Esw in Esw2. cbn in Ew2, Eh2.
  exists (answer_mode i.(cm_flags)), s1, s2, (set_m_custom_switch 0 s2). split; [exact Ew|]. split; [exact Eev|].
  split; [unfold getDisplayModes, mbind, F_bind, look; cbn [negb]; by rewrite Esw|]. split; [exact E2|]. split; [exact Ew2|]. split; [exact Eh2|]. split; [exact Eq2|].
  split; [|split; [done|]].
  - intros r. unfold setAttribute, mbind, F_bind, look. rewrite Esw2, Ed2. rewrite (proj2 (Z.leb_le 13 version_major)) by done. reflexivity.
  - unfold answer_mode, GetDisplayMode, mbind, F_bind, look. cbn [m_display_mode set_m_custom_switch]. rewrite Ed2, mode_of_custom. change (CUSTOM_MODE_ID =? CUSTOM_MODE_ID) with true. cbn [customMode set_m_custom_switch]. by rewrite Ecu2.
Qed.

(** ** Defects *)

(** After the start the display mode is not the number of a mode. *)
Theorem start_mode_unknown s : start b n s0 = Some (true, s) -> s.(m_display_mode) = 3 /\ getInformationForDisplayMode s.(m_display_mode) true n s = Some ((kIOReturnBadArgument, None), s).
Proof using Hsize Hreg Hfresh H0.
  intros E. pose proof (ends_inv _ _ _ _ _ (start_ends base n Hsize Hreg b s0 Hfresh) E) as (R & _ & _ & _ & Em). split; [done|]. rewrite Em. reflexivity.
Qed.

(** The restore call never restores anything: the only mode is the custom mode. *)
Theorem restore_does_nothing s ts due : fb_run s ts -> s.(m_restore_call) = Some (mk_thread_call (Some due)) ->
  RestoreAllModes n (set_m_restore_call (Some (mk_thread_call None)) s) = Some (Finished kIOReturnSuccess None, set_m_restore_call (Some (mk_thread_call None)) s).
Proof using Hsize Hreg Hfresh H0.
  intros Hrun Hd. destruct run_fine as [R Hfine]. destruct (Hfine s ts Hrun) as [Hs _]. destruct (restore_due R s due Hs Hd) as (t & s' & E & _ & -> & ->). exact E.
Qed.
End running.

(** The offset of a block number that is a multiple of 2^25 is 0 and passes the test, but the block read
    is before the start of the data. *)
Theorem ddc_block_overruns {HS} `{SvgaHost HS} (s : framebuffer HS) super e n : s.(m_edid) = Some e -> Z.of_nat (length e) = s.(m_edid_size) -> s.(m_edid_size) <= 256 ->
  getDDCBlock super 0 (2 ^ 25) kIODDCBlockTypeEDID (Some 128) n s = None.
Proof.
  intros Ee El Hs. unfold getDDCBlock, mbind, F_bind, look. rewrite Ee. change (u32 (2 ^ 25 * 128)) with 0. rewrite (proj2 (Z.leb_le 0 _)) by lia. cbn [andb negb]. change (u32 (u32 (2 ^ 25 - 1) * 128)) with 4294967168.
  change (0 =? 0) with true. change (2 ^ 25 =? 0) with false. change (kIODDCBlockTypeEDID =? kIODDCBlockTypeEDID) with true. change (128 <=? 128) with true. cbn [andb negb]. rewrite (proj2 (Z.ltb_lt _ _)) by lia. done.
Qed.

(** C25: the two versions of the conversion of a cursor agree: on every buffer of 32-bit pixels and for every
    size, the vector version writes the same pixels as the scalar version; a pixel keeps its alpha and
    its colours become their rounded-down products with alpha, unless it is clear or opaque. *)
Theorem cursor_versions_agree cursor w h : Forall is_u32 cursor ->
  ConvertAlphaCursor cursor w h = ConvertAlphaCursor_scalar cursor w h /\
  forall p, p ∈ cursor -> premultiply p = if (byte_of p 3 =? 0) || (byte_of p 3 =? 255) then p
    else rgba (byte_of p 3) (byte_of p 2 * byte_of p 3 / 255) (byte_of p 1 * byte_of p 3 / 255) (byte_of p 0 * byte_of p 3 / 255).
Proof.
  intros Hc. split.
  - unfold ConvertAlphaCursor, ConvertAlphaCursor_scalar. generalize (Z.to_nat (u32 (w * h))) as k. intros k. revert k. induction Hc as [|p l Hp Hl IH]; intros [|k]; cbn [convert_pixels]; try done.
    rewrite IH. by rewrite premultiply_spec, premultiply_vector_spec.
  - intros p Hp. apply premultiply_spec. by eapply Forall_forall in Hp.
Qed.

(** ** A device for the witnesses *)

Record demo_regs := mk_demo_regs { regs_of : Z -> Z }.

#[local] Instance demo_host : SvgaHost demo_regs := {|
  host_write h f r v := (mk_demo_regs (upd h.(regs_of) r v), f);
  host_read h f r :=
    if r =? SVGA_REG_MEM_SIZE then (32768, (h, f))
    else if r =? SVGA_REG_BUSY then (0, (h, upd f SVGA_FIFO_STOP (f SVGA_FIFO_NEXT_CMD)))
    else (u32 (h.(regs_of) r), (h, f));
  host_run h f := (h, f) |}.

#[local] Instance demo_host_ok : SvgaHostOK demo_regs.
Proof.
  split.
  - intros. by apply host_step_refl.
  - intros h f r R. simpl. destruct (r =? 19); [by apply host_step_refl|]. destruct (r =? 22); [by apply drain_step|by apply host_step_refl].
  - intros. by apply host_step_refl.
  - intros h f R Hu. destruct (drain_step f R) as [_ E]. simpl in *. lia.
  - intros h f R. by destruct (drain_step f R).
  - done.
Qed.

(** A display of 1920 by 1080 without traces. *)
Definition demo_svga : dev demo_regs :=
  Dev demo_fifo (fun _ => 0)
    (mk_demo_regs (fun r => if r =? SVGA_REG_CAPABILITIES then SVGA_CAP_EXTENDED_FIFO else if r =? SVGA_REG_MAX_WIDTH then 1920 else if r =? SVGA_REG_MAX_HEIGHT then 1080 else 0))
    false false None 0 false 0 0 0 0 0 0 0 0 0 0 0 0 0 0 0.

Definition demo_fresh : framebuffer demo_regs :=
  mk_framebuffer demo_svga None 0 0 0 None [0] 0 false (mk_interrupt 0 0 0) None None 0 0 false false None 0 (mk_DisplayModeEntry 0 0 0) 0 None 0 0 ∅ ∅ [] [].
Definition demo_boot : boot := mk_boot true true None None (Some 25) (Some [0; 255; 255]) (Some 0x1000000) (Pci true true true true true).
Definition demo_fuel : nat := Z.to_nat 32768.

Lemma demo_size h f : ring_size_ok demo_fuel (host_read (HS := demo_regs) h f SVGA_REG_MEM_SIZE).1.
Proof. unfold ring_size_ok, demo_fuel. rewrite Z2Nat.id by lia. vm_compute. intuition congruence. Qed.
Lemma demo_reg h f r : is_u32 (host_read (HS := demo_regs) h f r).1.
Proof. cbn. destruct (r =? _); [vm_compute; intuition congruence|]. destruct (r =? _); [vm_compute; intuition congruence|]. cbn. by apply wrap_range. Qed.
Lemma demo_is_fresh : fresh ∅ demo_fresh.
Proof. by split. Qed.

Definition after {A} (m : F demo_regs A) (s : framebuffer demo_regs) : framebuffer demo_regs := match m demo_fuel s with Some (_, s) => s | None => s end.
Definition demo_started : framebuffer demo_regs := after (start demo_boot) demo_fresh.
Definition demo_mode : framebuffer demo_regs := after (exec_fb 14 (SetDisplayMode CUSTOM_MODE_ID 0)) demo_started.
Definition demo_registered : framebuffer demo_regs := after (exec_fb 14 (RegisterForInterruptType kIOReturnSuccess kIOFBConnectInterruptType 5 6 7)) demo_mode.

Lemma after_true (m : F demo_regs bool) s : (match m demo_fuel s with Some (r, _) => r | None => false end) = true -> m demo_fuel s = Some (true, after m s).
Proof. unfold after. destruct (m demo_fuel s) as [[[] s']|]; done. Qed.
Lemma after_success (m : F demo_regs IOReturn) s : (match m demo_fuel s with Some (kIOReturnSuccess, _) => true | _ => false end) = true -> m demo_fuel s = Some (kIOReturnSuccess, after m s).
Proof. unfold after. destruct (m demo_fuel s) as [[[] s']|]; done. Qed.

Lemma demo_starts : start demo_boot demo_fuel demo_fresh = Some (true, demo_started).
Proof. apply after_true. vm_compute. reflexivity. Qed.
Lemma demo_run : fb_run 14 demo_fuel demo_boot demo_fresh demo_registered [].
Proof.
  eapply run_request; [eapply run_request; [apply run_start, demo_starts| |apply (after_success (exec_fb 14 (SetDisplayMode CUSTOM_MODE_ID 0))); vm_compute; reflexivity]| |
    apply (after_success (exec_fb 14 (RegisterForInterruptType kIOReturnSuccess kIOFBConnectInterruptType 5 6 7))); vm_compute; reflexivity]; done.
Qed.

Lemma framebuffer_start_witness : exists r s, start demo_boot demo_fuel demo_fresh = Some (r, s) /\
  if (r : bool) then idle s.(svga) /\ s.(m_iolock) = Some false /\ s.(ledger) = ∅ ⊎ resources s else s = demo_fresh \/ given_back ∅ s.
Proof. exact (framebuffer_start ∅ demo_fuel demo_boot demo_fresh demo_size demo_reg demo_is_fresh). Defined.

Lemma framebuffer_safe_witness : exists s', refreshTimerAction demo_fuel (set_m_refresh_call (Some (mk_thread_call None)) demo_registered) = Some (tt, s').
Proof.
  apply (framebuffer_safe 14 ∅ demo_fuel demo_boot demo_fresh demo_size demo_reg demo_is_fresh demo_registered [] demo_run) with (due := 200). vm_compute. reflexivity.
Defined.

Lemma framebuffer_accounts_witness : demo_registered.(ledger) = ∅ ⊎ resources demo_registered /\ demo_registered.(ledger) = {[+ Lock; RestoreCall; RefreshCall; Block 128 +]}.
Proof.
  destruct (framebuffer_accounts 14 ∅ demo_fuel demo_boot demo_fresh demo_size demo_reg demo_is_fresh demo_registered [] demo_run) as (E & _). split; [exact E|]. vm_compute. reflexivity.
Defined.

Lemma framebuffer_stop_witness : exists s', stop demo_fuel demo_registered = Some (tt, s') /\ given_back ∅ s'.
Proof. exact (framebuffer_stop 14 ∅ demo_fuel demo_boot demo_fresh demo_size demo_reg demo_is_fresh demo_registered [] demo_run). Defined.

Definition demo_cursor : cursor_info := mk_cursor_info 2 2 1 0 [0x80FF4020; 0xFF112233; 0; 0x40FFFFFF].

Lemma demo_cursor_ok : cursor_ok demo_cursor.
Proof. split; [cbn; lia|]. split; [cbn; lia|]. split; [done|]. cbn. forall_list; split; lia. Qed.

Lemma cursor_image_queued_witness : exists r s', setCursorImage (Some demo_cursor) demo_fuel demo_registered = Some (r, s') /\ r = kIOReturnSuccess /\
  exists consumed, consumed ++ queue s'.(svga).(fifo) = queue demo_registered.(svga).(fifo) ++ [22; 1; 1; 0; 2; 2; 0x80802010; 0xFF112233; 0; 0x40404040].
Proof.
  destruct (cursor_image_queued 14 ∅ demo_fuel demo_boot demo_fresh demo_size demo_reg demo_is_fresh demo_registered [] demo_cursor demo_run demo_cursor_ok) as (r & s' & E & H1 & H2).
  exists r, s'. split; [exact E|]. assert (r = kIOReturnSuccess) as Hr by (apply H1; [vm_compute; reflexivity|vm_compute; reflexivity|right; vm_compute; reflexivity]). split; [exact Hr|]. destruct (H2 Hr) as [consumed Hc]. exists consumed. rewrite Hc. f_equal.
Defined.

Lemma custom_mode_handshake_witness : exists k s1 (s2 s3 : framebuffer demo_regs), CustomMode 14 (Some (mk_CustomModeData 1 1024 600)) true 12 (Some 12) demo_fuel demo_registered = Some (Waiting (SwitchIs 0) k, s1) /\
  s2.(svga).(m_width) = 1024 /\ s2.(svga).(m_height) = 600 /\ k demo_fuel s3 = Some (Finished kIOReturnSuccess (Some (mk_CustomModeData 1 1024 600)), s3).
Proof.
  destruct (custom_mode_handshake 14 ∅ demo_fuel demo_boot demo_fresh demo_size demo_reg demo_is_fresh demo_registered [] (mk_CustomModeData 1 1024 600) 12 12 demo_run) as (k & s1 & s2 & s3 & E1 & _ & _ & _ & Ew & Eh & _ & _ & _ & Ek);
    [lia|vm_compute; reflexivity|vm_compute; reflexivity|vm_compute; reflexivity|cbn; split; split; lia|unfold sizeof_CustomModeData; lia|unfold sizeof_CustomModeData; lia|].
  exists k, s1, s2, s3. split; [exact E1|]. split; [exact Ew|]. split; [exact Eh|exact Ek].
Defined.

Lemma cursor_versions_agree_witness : ConvertAlphaCursor [0x80FF4020; 0xFF112233] 2 1 = Some [0x80802010; 0xFF112233] /\ ConvertAlphaCursor [0x80FF4020; 0xFF112233] 2 1 = ConvertAlphaCursor_scalar [0x80FF4020; 0xFF112233] 2 1.
Proof. split; [vm_compute; reflexivity|]. apply (cursor_versions_agree [0x80FF4020; 0xFF112233] 2 1). forall_list; split; lia. Defined.

Lemma start_mode_unknown_witness : demo_started.(m_display_mode) = 3 /\ getInformationForDisplayMode demo_started.(m_display_mode) true demo_fuel demo_started = Some ((kIOReturnBadArgument, None), demo_started).
Proof. exact (start_mode_unknown ∅ demo_fuel demo_boot demo_fresh demo_size demo_reg demo_is_fresh demo_started demo_starts). Defined.

Lemma ddc_block_overruns_witness : getDDCBlock (kIOReturnSuccess, []) 0 (2 ^ 25) kIODDCBlockTypeEDID (Some 128) demo_fuel demo_started = None.
Proof. eapply ddc_block_overruns; [vm_compute; reflexivity|vm_compute; reflexivity|vm_compute; congruence]. Defined.

(** A screen that is smaller than the only mode: the start succeeds without any mode. *)
Definition small_fresh : framebuffer demo_regs :=
  set_svga (set_host (mk_demo_regs (fun r => if r =? SVGA_REG_CAPABILITIES then SVGA_CAP_EXTENDED_FIFO else if r =? SVGA_REG_MAX_WIDTH then 1024 else if r =? SVGA_REG_MAX_HEIGHT then 768 else 0)) demo_fifo demo_svga) demo_fresh.
Theorem start_without_modes : exists s, start demo_boot demo_fuel small_fresh = Some (true, s) /\ getDisplayModeCount demo_fuel s = Some (0, s).
Proof.
  exists (after (start demo_boot) small_fresh). split; [apply after_true; vm_compute; reflexivity|]. unfold getDisplayModeCount, mbind, F_bind, look. by do 2 f_equal.
Qed.
